(* ===== verification/_CoqProject ===== *)
-Q . S2P
Prelude.v
Zdr.v
ZdrProps.v
Xdr.v
Nfs3Xdr.v
Nfs4Xdr.v
MountXdr.v
PortmapXdr.v
LockXdr.v
RpcMsg.v
Cursor.v
Queue.v
RpcState.v
Context.v
Send.v
SendProps.v
Recv.v
RecvProps.v
Record.v
Dispatch.v
Account.v
Purge.v
Service.v
Requeue.v
Timeout.v
ReadAccount.v
System.v
Server.v
ServerProps.v
Tasks.v
TaskProps.v
Path.v
Settings.v
Url.v
UrlProps.v
Nfs4Data.v
Nfs3.v
Lookup.v
LookupProps.v
Nfs3Ops.v
Nfs3File.v
Nfs3IO.v
Nfs3Props.v
Nfs3IOProps.v
Nfs3Examples.v
Nfs3Dir.v
Nfs3DirProps.v
Mount.v
MountProps.v
MountExamples.v
Nfs4Attr.v
Nfs4.v
Nfs4Ops.v
Nfs4File.v
Nfs4Lock.v
Nfs4Dir.v
Nfs4Walk.v
Nfs4Props.v
Quiet.v
Quiet4.v
Api.v
Sync.v
Nfs4FileProps.v
Nfs4AttrProps.v
Nfs4Examples.v
ApiProps.v
SyncProps.v
SyncExamples.v
