(* ===== verification/Prelude.v ===== *)
(** * libnfs: a verification development

    libnfs is an NFS client in C.  The development models, from the bottom up,
    the marshalling of ONC-RPC messages, the RPC transport (queues, sending,
    receiving, timeouts, reconnects, the server side) and, on top of it, the
    client of NFSv3 and of NFSv4: URLs and settings, mounting, paths, lookups,
    directories, the operations on names and on open files, locks, and the calls
    of the library.

    ** The parts

    - [Zdr], [ZdrProps] (lib/libnfs-zdr.c): the ZDR handle and the primitives
      [libnfs_zdr_*].  [Codec] is what the other parts ask of a type that can
      be marshalled; every primitive has an instance.
    - [RpcMsg] (lib/libnfs-zdr.c): calls, replies and credentials.
    - [Cursor] (lib/init.c, lib/socket.c): the vectors a PDU is sent from and
      the user's buffers a READ is received into, on an explicit memory.
    - [Queue] (lib/pdu.c): the linked queues of PDUs on an explicit heap, and
      their refinement to lists.  Everything below works on the lists.
    - [RpcState], [Context] (include/libnfs-private.h, lib/init.c): the record
      of a context, its creation, settings, purges and destruction.
    - [Send], [SendProps] (lib/pdu.c, lib/socket.c): [rpc_allocate_pdu2],
      [rpc_queue_pdu] and [rpc_write_to_socket].
    - [Recv], [RecvProps], [Record], [Dispatch], [ReadAccount] (lib/socket.c,
      lib/pdu.c): the input state machine [rpc_read_from_socket] and what
      becomes of a record ([rpc_process_pdu], [rpc_process_reply]).
    - [Purge], [Requeue], [Timeout], [Service] (lib/init.c, lib/socket.c):
      [rpc_purge_all_pdus], [rpc_reconnect_requeue], [rpc_timeout_scan] and
      [rpc_service].
    - [Account], [System]: the account of the PDUs of a step, and the steps
      of a client composed over its life ([reachable]).
    - [Server], [ServerProps] (lib/pdu.c): a context that answers calls.
    - [Path] (lib/libnfs.c): [nfs_normalize_path].
    - [Settings], [Url], [UrlProps] (lib/libnfs.c, lib/init.c): the settings of
      a context with their setters, and [nfs_parse_url].
    - [Nfs3] (lib/nfs_v3.c, lib/libnfs.c): an NFSv3 operation as a value, a
      [call]: what it has handed to the user's callback, and the requests in
      flight, any of which may be answered next, each with what its callback
      does with the reply.
    - [Lookup], [LookupProps] (lib/nfs_v3.c): [nfs3_lookuppath_async].
    - [Nfs3Ops], [Nfs3File], [Nfs3IO] (lib/nfs_v3.c, lib/libnfs.c): the
      operations on names, on open files, and reading and writing;
      [Nfs3Props], [Nfs3IOProps] prove them right and [Nfs3Examples]
      evaluates them against a small server.
    - [Nfs3Dir], [Nfs3DirProps] (lib/nfs_v3.c, lib/libnfs.c):
      [nfs3_opendir_async] and the functions that go through a directory.
    - [Mount], [MountProps], [MountExamples] (lib/libnfs.c, lib/nfs_v3.c,
      mount/mount.c): connecting through the portmapper, [nfs3_mount_async]
      with its nested exports, and [nfs3_umount_async].
    - [Nfs4Data], [Nfs4Attr] (nfs4/libnfs-raw-nfs4.h, lib/nfs_v4.c): the
      operations and results of a COMPOUND, and the parsers of the attributes
      of NFSv4, which are bytes; [Nfs4AttrProps].
    - [Nfs4] (lib/nfs_v4.c): [nfs4_lookup_path_async], which makes one compound
      of the walk to an object and what is done there, links, and opening.
    - [Nfs4Ops], [Nfs4File], [Nfs4Lock], [Nfs4Dir] (lib/nfs_v4.c): mounting and
      the operations on paths; open files; locks; [nfs4_opendir_async].
    - [Nfs4Walk]: a server that keeps a tree of files and answers compounds one
      operation after the other, and the walk over components ([walk4]) that
      lookups are compared with; [Nfs4Props], [Nfs4FileProps] and
      [Nfs4Examples] are about it.
    - [Api] (lib/libnfs.c): the calls a program makes, their switch on the
      version and their read-only guards.  [Quiet], [Quiet4] and [ApiProps]:
      what changes nothing.
    - [Sync], [SyncProps], [SyncExamples] (lib/libnfs-sync.c): the calls that
      wait, each the asynchronous one and a loop.

    The parts meet at four places.  A record the transport reads is decoded
    with [Zdr] through [RpcMsg]; the results of a procedure are a type with a
    [Codec].  The queues are pointers in [Queue] and lists elsewhere.  The
    operations of NFS use the transport through what [System] shows of it: a
    request that can be queued gets exactly one callback, with a reply or a
    failure; so each request of a [call] is answered once.  What the READs of
    the two versions have in common is the class [Reads], for which the long
    reads of the library are proved right once.

    ** How the code is read

    A C integer is a [Z] and every conversion to a width is written out.
    Bytes are [Z]s.  Undefined behaviour (an access out of a block, a NULL
    dereference, a signed overflow, a failing assertion) is a value: [UB],
    [Undef] or [None].  Callbacks of the user are recorded in a trace, in the
    order of their calls; they do not call back into the library.  What the
    kernel answers (recv, writev, poll, the clock) is an argument, a list that
    is used up; an exhausted list answers EAGAIN.  malloc succeeds where it is
    not an argument.  The build is LP64 Linux with clock_gettime, one thread,
    without Kerberos and TLS.  Error texts, logging and statistics callbacks
    decide nothing and are left out.

    ** What is shown

    - Marshalling: round trips of primitives, calls and replies, the bounds
      of the decoder, and the lengths that break them.
    - Sending: what is written is exactly the outgoing stream of records, for
      every way writev may cut it.
    - Receiving: the reading loop ends, does not depend on how the stream is
      cut, gives every reply to the call with its xid, and keeps the account
      of PDUs whatever bytes arrive.
    - Over its life a client calls every call back at most once, loses none,
      and destroying it settles those left; what timeouts, reconnects and
      purges do to the queues is stated exactly.
    - Client and server together: the calls of a client come back answered by
      the handlers of the server.
    - NFSv3: in-place path handling is walking over components; every
      operation on a name has one callback whatever the server answers;
      against a server that stands still, lookups find what the path names,
      reads return the bytes of the file and writes store them.
    - NFSv4: a lookup, done by the server on a whole path and by the client
      for links, is walking over components as well; names and attributes are
      changed where the path leads; attributes are read back as RFC 3530
      encodes them; opens, locks and writes keep stateids, seqids and the need
      for a COMMIT as they go on.
    - Mounting: one callback whatever is answered in whatever order, what a
      mount that succeeds leaves in the context, and the bounds of its sizes.
    - Directories: a listing has every entry once, whatever the pages and the
      order in which missing attributes arrive.
    - URLs: they are taken apart into what they were put together from, and
      keep the settings in range whatever they are.
    - The library: a read-only context changes nothing, in either version,
      with the exceptions the theorem names; a call that waits returns what the
      asynchronous one reports, and those on names of NFSv3 return.
    - Errors: where the code does not do this, a theorem says what it does.

    ** Fuel

    - [read_loop] turns once per byte that can be received and once to
      return: [input_size] is enough ([read_terminates]).
    - [remove_all], [remove_parents] and [lookup_names] are bounded by the
      length of the path, which each turn shortens.
    - Links: the number left of MAX_LINK_COUNT decreases with every READLINK.
      In version 4 nothing limits them: [links] is an argument, the number of
      lookups that may be made; one more than the links on the way is enough
      ([stat4_follows_path]), and for a link that leads to itself none is.
    - [r_cb] and [nfs3_pwrite_mcb]: the count left, since every turn of them
      transfers a byte.
    - [parse_flags]: the length of the arguments, of which each turn takes one.
    - [send_mnts]: the exports, and the requests that may fail to be queued
      ([n_sends]); when these all fail the loop of the code does not end.
    - [nfs3_opendir_cb], [nfs3_opendir_2_cb], [nfs4_opendir_continue]: [pages], an argument, since a
      server may go on for ever; for a directory that stands still one more
      than its entries is enough ([opendir_lists], [opendir4_lists]).
    - [op_lookups]: the length of the path.
    - [wait_for_nfs_reply]: the turns of the loop are an argument, a list; a
      call that needs more of them is [Blocked].

    ** Not modelled

    - nfs/, nfs4/, mount/, portmap/, nlm/, nsm/, rquota/: routines generated
      from the .x files; a parameter with a [Codec].
    - lib/krb5-wrapper.c and the TLS code: optional, calls to GSSAPI, GnuTLS.
    - lib/multithreading.c: locks and the service thread.
    - Of lib/nfs_v3.c, lib/nfs_v4.c and lib/libnfs-sync.c: ACLs; of
      lib/libnfs-sync.c: the search for servers, which is a broadcast over the
      interfaces of the system; of lib/libnfs.c: the user name of a URL, which
      is given to Kerberos.
    - utils/, servers/, examples/, tests/: programs that use the library. *)

From stdpp Require Export base tactics numbers list gmap strings.
From Stdlib Require Export ZArith Lia Bool.

#[global] Open Scope Z_scope.

(** ** Fixed-width integers

    A C integer is a [Z]; every place where the code converts to a width
    writes the conversion out.  [uN] is the conversion to an unsigned type,
    [iN] the (two's complement) conversion to a signed one. *)

Definition u8 (x : Z) : Z := x mod 2 ^ 8.
Definition u16 (x : Z) : Z := x mod 2 ^ 16.
Definition u32 (x : Z) : Z := x mod 2 ^ 32.
Definition u64 (x : Z) : Z := x mod 2 ^ 64.
Definition i32 (x : Z) : Z := (x + 2 ^ 31) mod 2 ^ 32 - 2 ^ 31.
Definition i64 (x : Z) : Z := (x + 2 ^ 63) mod 2 ^ 64 - 2 ^ 63.

Definition is_u8 (x : Z) : Prop := 0 <= x < 256.
Definition is_u32 (x : Z) : Prop := 0 <= x < 4294967296.
Definition is_u64 (x : Z) : Prop := 0 <= x < 18446744073709551616.
Definition is_i32 (x : Z) : Prop := -2147483648 <= x < 2147483648.
Definition is_i64 (x : Z) : Prop := -9223372036854775808 <= x < 9223372036854775808.

Definition INT_MAX : Z := 2147483647.
Definition INT_MIN : Z := -2147483648.
Definition UINT32_MAX : Z := 4294967295.

(** Does a value fit the C type [int]?  Signed overflow is undefined. *)
Definition fits_int (x : Z) : bool := (-2147483648 <=? x) && (x <=? INT_MAX).

(** Turn [mod] and [/] into linear constraints, then [lia]. *)
Ltac div_lia := Z.div_mod_to_equations; lia.

(** Unfold the width conversions to decide a goal about them. *)
Ltac solve_width :=
  unfold u8, u16, u32, u64, i32, i64, is_u8, is_u32, is_u64, is_i32, is_i64,
    INT_MAX, UINT32_MAX in *;
  change (2 ^ 8) with 256 in *; change (2 ^ 16) with 65536 in *;
  change (2 ^ 31) with 2147483648 in *; change (2 ^ 32) with 4294967296 in *;
  change (2 ^ 63) with 9223372036854775808 in *;
  change (2 ^ 64) with 18446744073709551616 in *;
  div_lia.

Create HintDb width discriminated.
Create Rewrite HintDb width_rw.

Lemma u32_id x : is_u32 x -> u32 x = x.
Proof. solve_width. Qed.

Lemma u64_id x : is_u64 x -> u64 x = x.
Proof. solve_width. Qed.

Lemma i32_id x : is_i32 x -> i32 x = x.
Proof. solve_width. Qed.

Lemma i64_id x : is_i64 x -> i64 x = x.
Proof. solve_width. Qed.

Lemma u32_range x : is_u32 (u32 x).
Proof. solve_width. Qed.

Lemma u64_range x : is_u64 (u64 x).
Proof. solve_width. Qed.

Lemma i32_range x : is_i32 (i32 x).
Proof. solve_width. Qed.

Lemma i64_range x : is_i64 (i64 x).
Proof. solve_width. Qed.

Lemma is_u32_0 : is_u32 0.
Proof. solve_width. Qed.

Lemma i32_u32 x : i32 (u32 x) = i32 x.
Proof. solve_width. Qed.

Lemma u32_i32 x : u32 (i32 x) = u32 x.
Proof. solve_width. Qed.

Lemma i64_u64 x : i64 (u64 x) = i64 x.
Proof. solve_width. Qed.

Lemma u32_u32 x : u32 (u32 x) = u32 x.
Proof. solve_width. Qed.

#[export] Hint Rewrite i32_u32 u32_i32 i64_u64 u32_u32 : width_rw.
#[export] Hint Resolve u32_range u64_range i32_range i64_range : width.

Lemma fits_int_true x : fits_int x = true <-> is_i32 x.
Proof. unfold fits_int, is_i32, INT_MAX. lia. Qed.

(** Is there a value?  The test of a pointer against NULL. *)
Definition is_some {A} (o : option A) : bool := match o with Some _ => true | None => false end.

(** ** Bytes and memory blocks

    A byte is a [Z] in [0, 256); a block of memory is the list of its bytes,
    and an access outside of it has no result. *)

Abbreviation bytes := (list Z).

Definition is_bytes (b : bytes) : Prop := Forall is_u8 b.

Definition blen {A} (b : list A) : Z := Z.of_nat (length b).

Definition read_at (pos n : Z) (b : bytes) : option bytes :=
  if (0 <=? pos) && (0 <=? n) && (pos + n <=? blen b)
  then Some (take (Z.to_nat n) (drop (Z.to_nat pos) b)) else None.

Definition write_at (pos : Z) (d b : bytes) : option bytes :=
  if (0 <=? pos) && (pos + blen d <=? blen b)
  then Some (take (Z.to_nat pos) b ++ d ++ drop (Z.to_nat (pos + blen d)) b)
  else None.

Definition zeros (n : Z) : bytes := replicate (Z.to_nat n) 0.

(** The big-endian image of a 32-bit word: [htonl] followed by a store. *)
Definition be32 (x : Z) : bytes :=
  [Z.land (Z.shiftr x 24) 255; Z.land (Z.shiftr x 16) 255;
   Z.land (Z.shiftr x 8) 255; Z.land x 255].

(** A load of four bytes followed by [ntohl]. *)
Definition of_be32 (b : bytes) : Z :=
  match b with
  | [b3; b2; b1; b0] =>
      Z.lor (Z.shiftl b3 24) (Z.lor (Z.shiftl b2 16) (Z.lor (Z.shiftl b1 8) b0))
  | _ => 0
  end.

#[global] Arguments be32 : simpl never.
#[global] Arguments of_be32 : simpl never.
#[global] Arguments blen : simpl never.
#[global] Arguments zeros : simpl never.
#[global] Arguments read_at : simpl never.
#[global] Arguments write_at : simpl never.

(** *** Block lengths *)

Lemma blen_nonneg {A} (b : list A) : 0 <= blen b.
Proof. unfold blen. lia. Qed.

Lemma blen_app {A} (a b : list A) : blen (a ++ b) = blen a + blen b.
Proof. unfold blen. rewrite length_app. lia. Qed.

Lemma blen_nil {A} : blen (@nil A) = 0.
Proof. reflexivity. Qed.

Lemma blen_cons {A} (x : A) l : blen (x :: l) = 1 + blen l.
Proof. unfold blen. cbn [length]. lia. Qed.

Lemma blen_zeros n : 0 <= n -> blen (zeros n) = n.
Proof. intros. unfold blen, zeros. rewrite length_replicate. lia. Qed.

Lemma blen_be32 x : blen (be32 x) = 4.
Proof. reflexivity. Qed.

Lemma blen_take {A} n (b : list A) : 0 <= n <= blen b -> blen (take (Z.to_nat n) b) = n.
Proof. unfold blen. intros. rewrite length_take. lia. Qed.

Lemma blen_to_nat {A} (b : list A) : Z.to_nat (blen b) = length b.
Proof. unfold blen. lia. Qed.

Create Rewrite HintDb blen.
#[export] Hint Rewrite @blen_app @blen_nil @blen_cons @blen_to_nat blen_be32 : blen.

(** Normalise block lengths, then [lia]. *)
Ltac blen_lia :=
  autorewrite with blen in *;
  repeat match goal with
         | b : list _ |- _ =>
             lazymatch goal with
             | _ : 0 <= blen b |- _ => fail
             | _ => pose proof (blen_nonneg b)
             end
         end; lia.

(** *** Reads and writes of a block *)

(** [b] with [d] stored at [pos]. *)
Definition splice (pos : Z) (d b : bytes) : bytes :=
  take (Z.to_nat pos) b ++ d ++ drop (Z.to_nat (pos + blen d)) b.

(** [w] is what [b] holds at [pos]. *)
Definition has_at (b : bytes) (pos : Z) (w : bytes) : Prop :=
  0 <= pos /\ exists pre post, b = pre ++ w ++ post /\ blen pre = pos.

Lemma write_at_ok pos d b :
  0 <= pos -> pos + blen d <= blen b -> write_at pos d b = Some (splice pos d b).
Proof.
  intros ? ?. unfold write_at, splice.
  replace ((0 <=? pos) && (pos + blen d <=? blen b)) with true by lia. reflexivity.
Qed.

Lemma write_at_none pos d b :
  0 <= pos -> blen b < pos + blen d -> write_at pos d b = None.
Proof.
  intros ? ?. unfold write_at.
  replace ((0 <=? pos) && (pos + blen d <=? blen b)) with false by lia. reflexivity.
Qed.

Lemma blen_splice pos d b :
  0 <= pos -> pos + blen d <= blen b -> blen (splice pos d b) = blen b.
Proof.
  intros ? ?. unfold splice, blen in *. rewrite !length_app, length_take, length_drop. lia.
Qed.

Lemma splice_app pos d1 d2 b :
  0 <= pos -> pos + blen d1 + blen d2 <= blen b ->
  splice (pos + blen d1) d2 (splice pos d1 b) = splice pos (d1 ++ d2) b.
Proof.
  intros Hp Hl. unfold splice. pose proof (blen_nonneg d1). pose proof (blen_nonneg d2).
  assert (Ht : length (take (Z.to_nat pos) b) = Z.to_nat pos)
    by (rewrite length_take; unfold blen in *; lia).
  rewrite take_app, Ht, (take_ge (take _ _)), take_app by lia.
  replace (Z.to_nat (pos + blen d1) - Z.to_nat pos)%nat with (length d1)
    by (unfold blen in *; lia).
  rewrite firstn_all, Nat.sub_diag. cbn [take]. rewrite app_nil_r.
  rewrite drop_app, Ht, (drop_ge (take _ _)), drop_app, drop_ge, drop_drop
    by (unfold blen in *; lia).
  rewrite blen_app, <- !app_assoc. cbn. do 3 f_equal. f_equal. unfold blen in *. lia.
Qed.

Lemma splice_has pos d b :
  0 <= pos -> pos + blen d <= blen b -> has_at (splice pos d b) pos d.
Proof.
  intros ? ?. split; [done|]. eexists _, _. split; [reflexivity|].
  unfold blen in *. rewrite length_take. lia.
Qed.

Lemma has_at_read b pos w : has_at b pos w -> read_at pos (blen w) b = Some w.
Proof.
  intros (Hp & pre & post & -> & <-). unfold read_at.
  pose proof (blen_nonneg w). pose proof (blen_nonneg post).
  replace (_ && _) with true by (rewrite !blen_app; lia).
  rewrite !blen_to_nat, drop_app_length, take_app_length. reflexivity.
Qed.

Lemma has_at_app b pos w1 w2 :
  has_at b pos (w1 ++ w2) <-> has_at b pos w1 /\ has_at b (pos + blen w1) w2.
Proof.
  split.
  - intros (Hp & pre & post & -> & <-). split.
    + split; [done|]. exists pre, (w2 ++ post). by rewrite <- !app_assoc.
    + split; [pose proof (blen_nonneg w1); lia|]. exists (pre ++ w1), post.
      rewrite blen_app, <- !app_assoc. done.
  - intros ((Hp & pre & post & -> & <-) & _ & pre2 & post2 & E & L).
    split; [done|]. exists pre, post2. split; [|done].
    assert (pre2 = pre ++ w1) as ->.
    { rewrite app_assoc in E. apply app_inj_1 in E as [-> _]; [done|].
      rewrite <- blen_app in L. unfold blen in L. lia. }
    by rewrite E, <- !app_assoc.
Qed.

Lemma has_at_bound b pos w : has_at b pos w -> 0 <= pos /\ pos + blen w <= blen b.
Proof.
  intros (Hp & pre & post & -> & <-). rewrite !blen_app.
  pose proof (blen_nonneg post). lia.
Qed.

(** *** Big-endian words *)

Lemma land_shiftl_low a b n :
  0 <= n -> 0 <= b < 2 ^ n -> Z.land (Z.shiftl a n) b = 0.
Proof.
  intros Hn Hb. apply Z.bits_inj'. intros i Hi. rewrite Z.land_spec, Z.bits_0.
  destruct (Z.lt_ge_cases i n).
  - by rewrite Z.shiftl_spec_low.
  - rewrite <- (Z.mod_small b (2 ^ n)), Z.mod_pow2_bits_high by lia. apply andb_false_r.
Qed.

Lemma lor_shiftl_add a b n :
  0 <= n -> 0 <= b < 2 ^ n -> Z.lor (Z.shiftl a n) b = a * 2 ^ n + b.
Proof.
  intros Hn Hb. pose proof (land_shiftl_low a b n Hn Hb) as E.
  rewrite <- Z.lxor_lor, <- Z.add_nocarry_lxor, Z.shiftl_mul_pow2; done.
Qed.

Lemma land_255 x : Z.land x 255 = x mod 256.
Proof. change 255 with (Z.ones 8). by rewrite Z.land_ones. Qed.

Lemma of_be32_arith b3 b2 b1 b0 :
  is_bytes [b3; b2; b1; b0] ->
  of_be32 [b3; b2; b1; b0] = b3 * 2 ^ 24 + (b2 * 2 ^ 16 + (b1 * 2 ^ 8 + b0)).
Proof.
  intros H. repeat (apply Forall_cons in H as [? H]). unfold is_u8 in *.
  unfold of_be32. rewrite (lor_shiftl_add b1), (lor_shiftl_add b2), (lor_shiftl_add b3); lia.
Qed.

Lemma be32_bytes x : is_bytes (be32 x).
Proof.
  unfold be32, is_bytes. rewrite !land_255.
  repeat (constructor; [unfold is_u8; div_lia|]). constructor.
Qed.

Lemma of_be32_be32 x : of_be32 (be32 x) = u32 x.
Proof.
  pose proof (be32_bytes x) as Hb. unfold be32 in *. rewrite of_be32_arith by done.
  rewrite !land_255, !Z.shiftr_div_pow2 by lia.
  change (2 ^ 24) with 16777216 in *; change (2 ^ 8) with 256 in *.
  change (2 ^ 16) with 65536 in *. solve_width.
Qed.

Lemma be32_u32 x : be32 (u32 x) = be32 x.
Proof.
  unfold be32. rewrite !land_255, !Z.shiftr_div_pow2 by lia.
  change (2 ^ 24) with 16777216; change (2 ^ 8) with 256; change (2 ^ 16) with 65536.
  repeat (apply (f_equal2 cons); [solve_width|]); done.
Qed.

Lemma be32_of_be32 b : is_bytes b -> length b = 4%nat -> be32 (of_be32 b) = b.
Proof.
  intros Hb Hl. destruct b as [|b3 [|b2 [|b1 [|b0 [|]]]]]; try discriminate.
  rewrite of_be32_arith by done.
  repeat (apply Forall_cons in Hb as [? Hb]). unfold is_u8 in *.
  unfold be32. rewrite !land_255, !Z.shiftr_div_pow2 by lia.
  change (2 ^ 24) with 16777216; change (2 ^ 8) with 256; change (2 ^ 16) with 65536.
  repeat (apply (f_equal2 cons); [div_lia|]); done.
Qed.

Lemma is_bytes_app a b : is_bytes (a ++ b) <-> is_bytes a /\ is_bytes b.
Proof. apply Forall_app. Qed.

Lemma is_bytes_zeros n : is_bytes (zeros n).
Proof. apply Forall_replicate. unfold is_u8. lia. Qed.

Lemma read_at_app pos n m b u v :
  read_at pos n b = Some u -> read_at (pos + n) m b = Some v ->
  read_at pos (n + m) b = Some (u ++ v).
Proof.
  unfold read_at. case_match eqn:E1; [|done]. case_match eqn:E2; [|done].
  intros [= <-] [= <-]. replace (_ && _) with true by lia. f_equal.
  rewrite !Z2Nat.inj_add by lia. by rewrite <- take_take_drop, drop_drop.
Qed.

Lemma write_at_same pos n b w : read_at pos n b = Some w -> write_at pos w b = Some b.
Proof.
  unfold read_at. case_match eqn:E1; [|done]. intros [= <-].
  assert (Hl : blen (take (Z.to_nat n) (drop (Z.to_nat pos) b)) = n).
  { unfold blen in *. rewrite length_take, length_drop. lia. }
  unfold write_at. rewrite Hl. replace (_ && _) with true by lia. f_equal.
  rewrite !Z2Nat.inj_add by lia. rewrite <- drop_drop, (take_drop (Z.to_nat n)).
  apply take_drop.
Qed.

Lemma read_at_whole b : read_at 0 (blen b) b = Some b.
Proof.
  unfold read_at. pose proof (blen_nonneg b). replace (_ && _) with true by lia.
  rewrite blen_to_nat. cbn. by rewrite drop_0, firstn_all.
Qed.

(** Two stores one after the other. *)
Lemma write_at_app off d1 d2 b b1 :
  write_at off d1 b = Some b1 -> write_at (off + blen d1) d2 b1 = write_at off (d1 ++ d2) b.
Proof.
  unfold write_at. destruct (_ && _) eqn:E1; [|done]. intros [= <-].
  pose proof (blen_nonneg d1). rewrite !blen_app.
  assert (Hlen : blen (take (Z.to_nat off) b) = off) by (unfold blen in *; rewrite length_take; lia).
  assert (Hrest : blen (drop (Z.to_nat (off + blen d1)) b) = blen b - off - blen d1)
    by (unfold blen in *; rewrite length_drop; lia).
  rewrite Hlen, Hrest.
  replace ((0 <=? off + blen d1) && _) with ((0 <=? off) && (off + (blen d1 + blen d2) <=? blen b)) by lia.
  destruct ((0 <=? off) && (off + (blen d1 + blen d2) <=? blen b)) eqn:E2; [|done]. f_equal.
  assert (Hn : Z.to_nat (off + blen d1) = length (take (Z.to_nat off) b ++ d1)).
  { rewrite length_app. unfold blen in *. lia. }
  rewrite (app_assoc _ d1), take_app_le by lia. rewrite take_ge by lia.
  rewrite <- !app_assoc. do 3 f_equal.
  rewrite !drop_app_ge by (unfold blen in *; lia). rewrite drop_drop. f_equal. unfold blen in *. lia.
Qed.

Lemma write_at_app_none off d1 d2 b : write_at off d1 b = None -> write_at off (d1 ++ d2) b = None.
Proof.
  unfold write_at. destruct (_ && _) eqn:E1; [done|]. intros _. rewrite blen_app.
  pose proof (blen_nonneg d2). by replace ((0 <=? off) && _) with false by lia.
Qed.
