(* ===== verification/Zdr.v ===== *)
(** * Zdr: the marshalling primitives of lib/libnfs-zdr.c

    A [ZDR] handle is the C struct: direction, buffer, size and position, and
    the list of the blocks allocated through it.  A primitive is a [proc]: it
    takes the handle and the C object it is given a pointer to and either
    returns TRUE ([Ret]) or FALSE ([Fls]), in both cases with the object and
    the handle as the C code leaves them, or has undefined behaviour ([UB]):
    an access outside of a block, a NULL dereference, a signed overflow.

    [Codec] is the interface a marshalling routine promises to its callers:
    the bytes it writes, and that decoding these bytes gives the object back.
    The routines built from others are proved against it. *)

From S2P Require Import Prelude.

Declare Scope zdr_scope.

(** ** Data *)

Inductive zdr_op := ZDR_ENCODE | ZDR_DECODE.

#[export] Instance zdr_op_eq_dec : EqDecision zdr_op.
Proof. solve_decision. Defined.

(** [struct ZDR]; [mem] lists the sizes of the blocks of [zdr_mem], newest
    first, and [malloc_ok] tells which requests the C library's allocator
    satisfies. *)
Record ZDR := mkZDR {
  x_op : zdr_op;
  buf : bytes;
  size : Z;
  pos : Z;
  mem : list Z;
  malloc_ok : Z -> bool;
}.

Definition set_pos (p : Z) (z : ZDR) : ZDR :=
  mkZDR (x_op z) (buf z) (size z) p (mem z) (malloc_ok z).
Definition set_buf (b : bytes) (z : ZDR) : ZDR :=
  mkZDR (x_op z) b (size z) (pos z) (mem z) (malloc_ok z).
Definition set_mem (m : list Z) (z : ZDR) : ZDR :=
  mkZDR (x_op z) (buf z) (size z) (pos z) m (malloc_ok z).

(** A [char *]: NULL, a block of its own, or a place inside the buffer. *)
Inductive ptr := NULL | Heap (b : bytes) | InBuf (off : Z).

#[export] Instance ptr_eq_dec : EqDecision ptr.
Proof. solve_decision. Defined.

Inductive res (T : Type) :=
| Ret (t : T) (z : ZDR)
| Fls (t : T) (z : ZDR)
| UB.
Arguments Ret {T}. Arguments Fls {T}. Arguments UB {T}.

Abbreviation proc T := (ZDR -> T -> res T).

Definition res_map {A B} (f : A -> B) (r : res A) : res B :=
  match r with Ret a z => Ret (f a) z | Fls a z => Fls (f a) z | UB => UB end.

(** [n] bytes read through a pointer; the source of a [memcpy]. *)
Definition load (b : bytes) (p : ptr) (n : Z) : option bytes :=
  match p with
  | NULL => if n =? 0 then Some [] else None
  | Heap h => read_at 0 n h
  | InBuf off => read_at off n b
  end.

(** Bytes stored through a pointer at an index. *)
Definition store (z : ZDR) (p : ptr) (i : Z) (d : bytes) : option (ptr * ZDR) :=
  match p with
  | NULL => None
  | Heap h => h' ← write_at i d h; Some (Heap h', z)
  | InBuf off => b ← write_at (off + i) d (buf z); Some (InBuf off, set_buf b z)
  end.

(** The [int] position after [zdrs->pos += n] for a [uint32_t] n. *)
Definition pos_add (p n : Z) : Z := i32 (u32 (p + n)).

(** The position rounded up to a multiple of 4, when [pos + 3] does not
    overflow. *)
Definition align4 (p : Z) : Z := Z.land (p + 3) (-4).

(** ** The handle *)

Definition zdr_setpos (z : ZDR) (p : Z) : ZDR := set_pos (i32 p) z.
Definition zdr_getpos (z : ZDR) : Z := u32 (pos z).
Definition zdr_getsize (z : ZDR) : Z := u32 (size z).

Definition zdrmem_create (addr : bytes) (sz : Z) (xop : zdr_op) (ok : Z -> bool) : ZDR :=
  mkZDR xop addr (i32 sz) 0 [] ok.

(** [offsetof(struct zdr_mem, buf)] with 8-byte pointers. *)
Definition ZDR_MEM_HDR : Z := 12.

(** [zdr_malloc]: the size is truncated to [int] and the header is written
    without a check of the result of malloc. *)
Definition zdr_malloc (z : ZDR) (sz : Z) : option ZDR :=
  let mem_size := u64 (i32 (ZDR_MEM_HDR + sz)) in
  if malloc_ok z mem_size && (ZDR_MEM_HDR <=? mem_size)
  then Some (set_mem (sz :: mem z) z) else None.

Fixpoint zdr_destroy_loop (m : list Z) : list Z :=
  match m with [] => [] | _ :: m' => zdr_destroy_loop m' end.

Definition zdr_destroy (z : ZDR) : ZDR := set_mem (zdr_destroy_loop (mem z)) z.

(** ** Integers *)

Definition zdr_u_int : proc Z := fun z u =>
  if negb (fits_int (pos z + 4)) then UB else
  if pos z + 4 >? size z then Fls u z else
  match x_op z with
  | ZDR_ENCODE =>
      match write_at (pos z) (be32 u) (buf z) with
      | Some b => Ret u (set_pos (pos z + 4) (set_buf b z))
      | None => UB
      end
  | ZDR_DECODE =>
      match read_at (pos z) 4 (buf z) with
      | Some w => Ret (of_be32 w) (set_pos (pos z + 4) z)
      | None => UB
      end
  end.

Definition zdr_int : proc Z := fun z i => res_map i32 (zdr_u_int z (u32 i)).

Definition zdr_uint64_t : proc Z := fun z u =>
  if negb (fits_int (pos z + 8)) then UB else
  if pos z + 8 >? size z then Fls u z else
  match x_op z with
  | ZDR_ENCODE =>
      match write_at (pos z) (be32 (Z.shiftr u 32)) (buf z) with
      | Some b =>
          match write_at (pos z + 4) (be32 (Z.land u 0xffffffff)) b with
          | Some b' => Ret u (set_pos (pos z + 4 + 4) (set_buf b' z))
          | None => UB
          end
      | None => UB
      end
  | ZDR_DECODE =>
      match read_at (pos z) 4 (buf z), read_at (pos z + 4) 4 (buf z) with
      | Some hi, Some lo =>
          Ret (Z.lor (u64 (Z.shiftl (of_be32 hi) 32)) (of_be32 lo))
            (set_pos (pos z + 4 + 4) z)
      | _, _ => UB
      end
  end.

Definition zdr_int64_t : proc Z := fun z i => res_map i64 (zdr_uint64_t z (u64 i)).

(** [enum_t] is [uint32_t]; the value goes through an [int32_t]. *)
Definition zdr_enum : proc Z := fun z e =>
  res_map (fun i => u32 (i32 i)) (zdr_u_int z (u32 (i32 e))).

Definition zdr_bool : proc Z := zdr_u_int.

Definition zdr_void {T} : proc T := fun z v => Ret v z.

(** ** Byte strings *)

Definition zdr_bytes : proc (ptr * Z) := fun z '(bufp, sz) =>
  match zdr_u_int z sz with
  | UB => UB
  | Fls sz z => Fls (bufp, sz) z
  | Ret sz z =>
      if negb (fits_int (pos z + i32 sz)) then UB else
      if pos z + i32 sz >? size z then Fls (bufp, sz) z else
      match x_op z with
      | ZDR_ENCODE =>
          match load (buf z) bufp sz with
          | None => UB
          | Some d =>
              match write_at (pos z) d (buf z) with
              | None => UB
              | Some b =>
                  let p := pos_add (pos z) sz in
                  let pad := Z.land (4 - Z.land p 3) 3 in
                  match write_at p (zeros pad) b with
                  | None => UB
                  | Some b' =>
                      if fits_int (p + pad)
                      then Ret (bufp, sz) (set_pos (p + pad) (set_buf b' z)) else UB
                  end
              end
          end
      | ZDR_DECODE =>
          let p := pos_add (pos z) sz in
          if negb (fits_int (p + 3)) then UB else
          match bufp with
          | NULL => Ret (InBuf (pos z), sz) (set_pos (align4 p) z)
          | _ =>
              match load (buf z) (InBuf (pos z)) sz with
              | None => UB
              | Some d =>
                  match store z bufp 0 d with
                  | None => UB
                  | Some (bufp, z') => Ret (bufp, sz) (set_pos (align4 p) z')
                  end
              end
          end
      end
  end.

(** [zdr_opaque] on the [sz] bytes a pointer points to; no bound is checked. *)
Definition zdr_opaque (sz : Z) : proc ptr := fun z objp =>
  match x_op z with
  | ZDR_ENCODE =>
      match load (buf z) objp sz with
      | None => UB
      | Some d =>
          match write_at (pos z) d (buf z) with
          | None => UB
          | Some b =>
              let p := pos_add (pos z) sz in
              let pad := if Z.land p 3 =? 0 then [] else zeros (4 - Z.land p 3) in
              match write_at p pad b with
              | None => UB
              | Some b' =>
                  if fits_int (p + 3)
                  then Ret objp (set_pos (align4 p) (set_buf b' z)) else UB
              end
          end
      end
  | ZDR_DECODE =>
      match load (buf z) (InBuf (pos z)) sz with
      | None => UB
      | Some d =>
          match store z objp 0 d with
          | None => UB
          | Some (objp, z') =>
              let p := pos_add (pos z') sz in
              if fits_int (p + 3) then Ret objp (set_pos (align4 p) z') else UB
          end
      end
  end.

(** [strlen]: the index of the first NUL byte of a block. *)
Fixpoint cstrlen (b : bytes) : option Z :=
  match b with
  | [] => None
  | c :: b => if c =? 0 then Some 0 else n ← cstrlen b; Some (1 + n)
  end.

Definition strlen_ptr (z : ZDR) (p : ptr) : option Z :=
  match p with
  | NULL => None
  | Heap h => cstrlen h
  | InBuf off => if 0 <=? off then cstrlen (drop (Z.to_nat off) (buf z)) else None
  end.

(** The length [zdr_string] starts from: [strlen] when encoding; the decoder
    overwrites the variable before it reads it. *)
Definition string_len0 (z : ZDR) (strp : ptr) : option Z :=
  match x_op z with
  | ZDR_ENCODE => match strlen_ptr z strp with Some n => Some (u32 n) | None => None end
  | ZDR_DECODE => Some 0
  end.

(** Does a NUL byte follow the string in the buffer?  [None] when the test
    itself reads outside of it. *)
Definition string_nul_follows (z : ZDR) (sz : Z) : option bool :=
  if size z >? pos z + i32 sz
  then match read_at (u32 (pos z + sz)) 1 (buf z) with
       | Some w => Some (bool_decide (w = [0]))
       | None => None
       end
  else Some false.

(** [zdr_string].  A block from malloc is given as zeros: every byte of it is
    overwritten before it is read. *)
Definition zdr_string : proc ptr := fun z strp =>
  match string_len0 z strp with
  | None => UB
  | Some sz0 =>
  match zdr_u_int z sz0 with
  | UB => UB
  | Fls _ z => Fls strp z
  | Ret sz z =>
      if negb (fits_int (pos z + i32 sz)) then UB else
      if pos z + i32 sz >? size z then Fls strp z else
      match x_op z with
      | ZDR_ENCODE => zdr_opaque sz z strp
      | ZDR_DECODE =>
          match string_nul_follows z sz with
          | None => UB
          | Some true =>
              match store z (InBuf (pos z)) sz [0] with
              | None => UB
              | Some (p, z') =>
                  let q := pos_add (pos z') sz in
                  if fits_int (q + 3) then Ret p (set_pos (align4 q) z') else UB
              end
          | Some false =>
              match zdr_malloc z (u32 (sz + 1)) with
              | None => UB
              | Some z =>
                  match store z (Heap (zeros (u32 (sz + 1)))) sz [0] with
                  | None => UB
                  | Some (p, z) => zdr_opaque sz z p
                  end
              end
          end
      end
  end
  end.

(** ** Combinations *)

Section combinators.
Context {T : Type} (zero : T) (elsize : Z) (p : proc T).

(** [zdr_pointer]: [elsize] bytes are allocated and cleared ([zero]). *)
Definition zdr_pointer : proc (option T) := fun z objp =>
  match zdr_bool z (match objp with Some _ => 1 | None => 0 end) with
  | UB => UB
  | Fls _ z => Fls objp z
  | Ret more_data z =>
      if more_data =? 0 then Ret None z else
      match x_op z with
      | ZDR_DECODE =>
          match zdr_malloc z elsize with
          | None => UB
          | Some z => res_map Some (p z zero)
          end
      | ZDR_ENCODE =>
          match objp with
          | Some obj => res_map Some (p z obj)
          | None => UB
          end
      end
  end.

(** The element loop of [zdr_array] and [zdr_vector], from index [i] on. *)
Fixpoint elements (n i : nat) (z : ZDR) (arr : list T) : res (list T) :=
  match n with
  | O => Ret arr z
  | S n =>
      match arr !! i with
      | None => UB
      | Some t =>
          match p z t with
          | Ret t z => elements n (S i) z (<[i := t]> arr)
          | Fls t z => Fls (<[i := t]> arr) z
          | UB => UB
          end
      end
  end.

Definition zdr_array : proc (Z * list T) := fun z '(sz, arr) =>
  match zdr_u_int z sz with
  | UB => UB
  | Fls sz z => Fls (sz, arr) z
  | Ret sz z =>
      if sz >? UINT32_MAX / elsize then Fls (sz, arr) z else
      let s := u32 (sz * elsize) in
      match (match x_op z with
             | ZDR_DECODE =>
                 match zdr_malloc z s with
                 | Some z => Some (z, replicate (Z.to_nat sz) zero)
                 | None => None
                 end
             | ZDR_ENCODE => Some (z, arr)
             end) with
      | None => UB
      | Some (z, arr) =>
          res_map (pair sz) (elements (Z.to_nat (i32 sz)) 0 z arr)
      end
  end.

Definition zdr_vector (sz : Z) : proc (list T) := fun z arr =>
  elements (Z.to_nat sz) 0 z arr.
End combinators.

(** Two fields of a struct, marshalled one after the other. *)
Definition zdr_seq {A B} (p : proc A) (q : proc B) : proc (A * B) := fun z '(a, b) =>
  match p z a with
  | Ret a z => res_map (pair a) (q z b)
  | Fls a z => Fls (a, b) z
  | UB => UB
  end.

(** A struct seen as the tuple of its fields. *)
Definition zdr_via {A B} (to : A -> B) (from : B -> A) (p : proc B) : proc A := fun z a =>
  res_map from (p z (to a)).

Infix ">>>" := zdr_seq (at level 60, right associativity) : zdr_scope.

(** ** Arithmetic of positions *)

Lemma land_3 x : Z.land x 3 = x mod 4.
Proof. change 3 with (Z.ones 2). by rewrite Z.land_ones. Qed.

Lemma land_m4 x : Z.land x (-4) = x - x mod 4.
Proof.
  change (-4) with (Z.lnot (Z.ones 2)). rewrite <- Z.ldiff_land, Z.ldiff_ones_r by lia.
  rewrite Z.shiftl_mul_pow2, Z.shiftr_div_pow2 by lia. change (2 ^ 2) with 4. div_lia.
Qed.

(** The number of padding bytes after [n] bytes. *)
Definition pad4 (n : Z) : Z := (- n) mod 4.

Lemma pad4_range n : 0 <= pad4 n < 4.
Proof. unfold pad4. div_lia. Qed.

Lemma align4_pad p n : p mod 4 = 0 -> align4 (p + n) = p + n + pad4 n.
Proof. unfold align4, pad4. rewrite land_m4. intros. div_lia. Qed.

Lemma pos_add_id p n : 0 <= p + n <= INT_MAX -> pos_add p n = p + n.
Proof. unfold pos_add. solve_width. Qed.

Lemma pad_code p n :
  p mod 4 = 0 -> Z.land (4 - Z.land (p + n) 3) 3 = pad4 n.
Proof. rewrite !land_3. unfold pad4. intros. div_lia. Qed.

Lemma pad_opaque_code p n :
  p mod 4 = 0 ->
  (if Z.land (p + n) 3 =? 0 then [] else zeros (4 - Z.land (p + n) 3)) = zeros (pad4 n).
Proof.
  rewrite !land_3. unfold pad4. intros. case_match eqn:E.
  - by replace ((- n) mod 4) with 0 by div_lia.
  - f_equal. div_lia.
Qed.

(** ** The interface of a marshalling routine *)

(** There are [n] bytes left at an aligned position. *)
Record room (z : ZDR) (n : Z) : Prop := {
  room_pos : 0 <= pos z;
  room_align : pos z mod 4 = 0;
  room_fit : pos z + n <= size z;
  room_buf : pos z + n <= blen (buf z);
  room_dec : x_op z = ZDR_DECODE -> size z <= blen (buf z);
  room_int : size z + 16 <= INT_MAX;
}.

(** The handle after [w] has been written. *)
Definition put (z : ZDR) (w : bytes) : ZDR :=
  set_pos (pos z + blen w) (set_buf (splice (pos z) w (buf z)) z).

(** The handle after [n] bytes have been read, with blocks [m] allocated. *)
Definition got (z : ZDR) (n : Z) (m : list Z) : ZDR := set_mem m (set_pos (pos z + n) z).

Class Codec {T} (p : proc T) := {
  (** the bytes written for an object *)
  wire : T -> bytes;
  (** the objects the encoder accepts *)
  okv : T -> Prop;
  (** the objects the decoder may be given to fill in with an object *)
  blank : T -> T -> Prop;
  (** what was decoded, read in the buffer [b], is the object *)
  same : bytes -> T -> T -> Prop;
  codec_align : forall t, okv t -> blen (wire t) mod 4 = 0;
  codec_enc : forall z t,
    x_op z = ZDR_ENCODE -> okv t -> room z (blen (wire t)) -> p z t = Ret t (put z (wire t));
  codec_dec : forall z t t0,
    x_op z = ZDR_DECODE -> okv t -> blank t t0 -> room z (blen (wire t)) ->
    has_at (buf z) (pos z) (wire t) -> (forall n, malloc_ok z n = true) ->
    exists t' m, p z t0 = Ret t' (got z (blen (wire t)) m) /\ same (buf z) t t';
}.
Arguments wire {T} p {_} _.
Arguments okv {T} p {_} _.
Arguments blank {T} p {_} _ _.
Arguments same {T} p {_} _ _ _.

Lemma room_le z n m : 0 <= m <= n -> room z n -> room z m.
Proof. intros ? []. split; try done; lia. Qed.

Lemma room_put z w n :
  blen w mod 4 = 0 -> room z (blen w + n) -> 0 <= n -> room (put z w) n.
Proof.
  intros Hw [] Hn. pose proof (blen_nonneg w).
  split; cbn; try rewrite blen_splice; try lia; [div_lia|auto].
Qed.

Lemma room_got z k n m :
  k mod 4 = 0 -> 0 <= k -> room z (k + n) -> room (got z k m) n.
Proof. intros ? ? []. split; cbn; try lia; [div_lia|auto]. Qed.

Lemma put_app z w1 w2 :
  0 <= pos z -> pos z + blen w1 + blen w2 <= blen (buf z) ->
  put (put z w1) w2 = put z (w1 ++ w2).
Proof.
  intros ? ?. unfold put. cbn. rewrite splice_app, blen_app by done.
  unfold set_pos, set_buf. cbn. f_equal. lia.
Qed.

Lemma put_nil z : put z [] = z.
Proof.
  destruct z. unfold put, set_pos, set_buf, splice. cbn.
  rewrite blen_nil, !Z.add_0_r, take_drop. done.
Qed.

Lemma got_0 z : got z 0 (mem z) = z.
Proof. destruct z. unfold got. cbn. by rewrite Z.add_0_r. Qed.

Lemma got_got z k l m1 m2 : got (got z k m1) l m2 = got z (k + l) m2.
Proof. unfold got, set_mem, set_pos. cbn. f_equal. lia. Qed.

Lemma fits_room z n k :
  room z n -> -4 <= n -> 0 <= k <= 4 -> fits_int (pos z + n + k) = true.
Proof. intros [] ? ?. unfold fits_int, INT_MAX in *. lia. Qed.

(** Put the facts of a [room] in the context. *)
Ltac use_room H :=
  pose proof (room_pos _ _ H); pose proof (room_align _ _ H); pose proof (room_fit _ _ H);
  pose proof (room_buf _ _ H); pose proof (room_int _ _ H).

(** *** Integers *)

Lemma fits_true x : -2147483648 <= x <= INT_MAX -> negb (fits_int x) = false.
Proof. unfold fits_int, INT_MAX. lia. Qed.

Lemma u_int_enc z u :
  x_op z = ZDR_ENCODE -> room z 4 -> zdr_u_int z u = Ret u (put z (be32 u)).
Proof.
  intros Hop Hr. use_room Hr. unfold zdr_u_int.
  rewrite fits_true by (unfold INT_MAX in *; lia).
  replace (pos z + 4 >? size z) with false by lia.
  rewrite Hop, write_at_ok by (rewrite ?blen_be32; lia). reflexivity.
Qed.

Lemma u_int_dec z u0 w :
  x_op z = ZDR_DECODE -> room z 4 -> has_at (buf z) (pos z) w -> blen w = 4 ->
  zdr_u_int z u0 = Ret (of_be32 w) (got z 4 (mem z)).
Proof.
  intros Hop Hr Hh Hw. use_room Hr. unfold zdr_u_int.
  rewrite fits_true by (unfold INT_MAX in *; lia).
  replace (pos z + 4 >? size z) with false by lia.
  rewrite Hop. apply has_at_read in Hh. rewrite Hw in Hh. rewrite Hh.
  destruct z; reflexivity.
Qed.

#[export] Program Instance u_int_codec : Codec zdr_u_int := {
  wire := be32; okv := is_u32; blank _ _ := True; same _ t t' := t' = t
}.
Next Obligation. reflexivity. Qed.
Next Obligation. intros. by apply u_int_enc. Qed.
Next Obligation.
  intros z t t0 Hop Ht _ Hr Hh _. eexists _, (mem z).
  rewrite (u_int_dec _ _ (be32 t)) by done. rewrite of_be32_be32, u32_id by done. done.
Qed.

#[export] Instance bool_codec : Codec zdr_bool := u_int_codec.

(** A value that goes through another representation. *)
#[export] Program Instance via_codec {A B} (f : A -> B) (g : B -> A) (p : proc B)
    `{!Codec p} : Codec (zdr_via f g p) := {
  wire a := wire p (f a); okv a := okv p (f a) /\ g (f a) = a; blank a a0 := blank p (f a) (f a0);
  same b a a' := exists t', a' = g t' /\ same p b (f a) t'
}.
Next Obligation. intros A B f g p ? a [? _]. by apply codec_align. Qed.
Next Obligation.
  intros A B f g p ? z a Hop [Ha E] Hr. unfold zdr_via.
  rewrite codec_enc by done. cbn. by rewrite E.
Qed.
Next Obligation.
  intros A B f g p ? z a a0 Hop [Ha E] Hb Hr Hh Hm. unfold zdr_via.
  destruct (codec_dec z (f a) (f a0)) as (t' & m & -> & Hs); try done.
  exists (g t'), m. split; [done|]. by exists t'.
Qed.

#[export] Instance int_codec : Codec zdr_int := via_codec u32 i32 zdr_u_int.
#[export] Instance enum_codec : Codec zdr_enum :=
  via_codec (fun e => u32 (i32 e)) (fun i => u32 (i32 i)) zdr_u_int.

(** Two fields in a row. *)
#[export] Program Instance seq_codec {A B} (p : proc A) (q : proc B)
    `{!Codec p, !Codec q} : Codec (zdr_seq p q) := {
  wire ab := wire p ab.1 ++ wire q ab.2;
  okv ab := okv p ab.1 /\ okv q ab.2;
  blank ab ab0 := blank p ab.1 ab0.1 /\ blank q ab.2 ab0.2;
  same b ab ab' := same p b ab.1 ab'.1 /\ same q b ab.2 ab'.2
}.
Next Obligation.
  intros A B p q ? ? [a b] [Ha Hb]; cbn in *. rewrite blen_app.
  apply codec_align in Ha, Hb. div_lia.
Qed.
Next Obligation.
  intros A B p q ? ? z [a b] Hop [Ha Hb] Hr; cbn in *.
  pose proof (blen_nonneg (wire p a)). pose proof (blen_nonneg (wire q b)).
  rewrite blen_app in Hr. use_room Hr.
  rewrite codec_enc; [| done | done | eapply room_le; [|done]; lia].
  rewrite codec_enc; [| done | done | apply room_put; auto using codec_align].
  cbn. rewrite put_app by lia. done.
Qed.
Next Obligation.
  intros A B p q ? ? z [a b] [a0 b0] Hop [Ha Hb] [Ba Bb] Hr Hh Hm; cbn in *.
  pose proof (blen_nonneg (wire p a)). pose proof (blen_nonneg (wire q b)).
  rewrite blen_app in *. apply has_at_app in Hh as [Hh1 Hh2].
  destruct (codec_dec z a a0) as (a' & m1 & -> & Sa); try done.
  { eapply room_le; [|done]; lia. }
  destruct (codec_dec (got z (blen (wire p a)) m1) b b0) as (b' & m2 & -> & Sb); try done.
  { apply room_got; auto using codec_align. }
  exists (a', b'), m2. cbn. rewrite got_got. done.
Qed.

(** A routine that marshals nothing. *)
#[export] Program Instance void_codec {T} : Codec (@zdr_void T) := {
  wire _ := []; okv _ := True; blank _ _ := True; same _ _ _ := True
}.
Next Obligation. reflexivity. Qed.
Next Obligation.
  intros T z t _ _ _. by rewrite put_nil.
Qed.
Next Obligation.
  intros T z t t0 _ _ _ _ _ _. exists t0, (mem z). split; [|done].
  by rewrite blen_nil, got_0.
Qed.

(** *** 64-bit integers *)

Definition wire64 (u : Z) : bytes := be32 (Z.shiftr u 32) ++ be32 (Z.land u 0xffffffff).

Lemma halves64 u :
  is_u64 u ->
  Z.lor (u64 (Z.shiftl (u32 (Z.shiftr u 32)) 32)) (u32 (Z.land u 0xffffffff)) = u.
Proof.
  intros Hu. change 0xffffffff with (Z.ones 32). rewrite Z.land_ones by lia.
  rewrite Z.shiftr_div_pow2 by lia.
  assert (u32 (u / 2 ^ 32) = u / 2 ^ 32) as -> by solve_width.
  assert (u64 (Z.shiftl (u / 2 ^ 32) 32) = Z.shiftl (u / 2 ^ 32) 32) as ->.
  { rewrite Z.shiftl_mul_pow2 by lia. solve_width. }
  rewrite lor_shiftl_add by solve_width. solve_width.
Qed.

#[export] Program Instance uint64_codec : Codec zdr_uint64_t := {
  wire := wire64; okv := is_u64; blank _ _ := True; same _ t t' := t' = t
}.
Next Obligation. reflexivity. Qed.
Next Obligation.
  intros z u Hop _ Hr. use_room Hr. change (blen (wire64 u)) with 8 in *.
  unfold zdr_uint64_t. rewrite fits_true by (unfold INT_MAX in *; lia).
  replace (pos z + 8 >? size z) with false by lia.
  rewrite Hop, write_at_ok by (rewrite ?blen_be32; lia).
  rewrite write_at_ok by (rewrite ?blen_splice; rewrite ?blen_be32; lia).
  f_equal. unfold put. change (blen (wire64 u)) with 8.
  rewrite <- Z.add_assoc. change (4 + 4) with 8. f_equal. f_equal.
  apply (splice_app (pos z) (be32 (Z.shiftr u 32))); rewrite ?blen_be32; lia.
Qed.
Next Obligation.
  intros z u u0 Hop Hu _ Hr Hh _. use_room Hr. change (blen (wire64 u)) with 8 in *.
  exists u, (mem z). split; [|done].
  apply has_at_app in Hh as [Hh1%has_at_read Hh2%has_at_read]. rewrite !blen_be32 in *.
  unfold zdr_uint64_t. rewrite fits_true by (unfold INT_MAX in *; lia).
  replace (pos z + 8 >? size z) with false by lia.
  rewrite Hop, Hh1, Hh2, !of_be32_be32, halves64 by done.
  f_equal. unfold got. change (blen (wire64 u)) with 8. rewrite <- Z.add_assoc.
  by destruct z.
Qed.

#[export] Instance int64_codec : Codec zdr_int64_t := via_codec u64 i64 zdr_uint64_t.

(** *** Byte strings *)

(** The bytes an object that does not point into the buffer points to. *)
Definition src (p : ptr) (n : Z) : option bytes :=
  match p with InBuf _ => None | _ => load [] p n end.

Lemma src_load b p n d : src p n = Some d -> load b p n = Some d.
Proof. by destruct p. Qed.

Lemma read_at_blen pos n b d : read_at pos n b = Some d -> 0 <= n /\ blen d = n.
Proof.
  unfold read_at. case_match; [|done]. intros [= <-].
  split; [lia|]. unfold blen in *. rewrite length_take, length_drop. lia.
Qed.

Lemma src_blen p n d : src p n = Some d -> 0 <= n /\ blen d = n.
Proof.
  destruct p as [|h|]; cbn; [| |done].
  - case_match; [|done]. intros [= <-]. unfold blen; cbn; lia.
  - apply read_at_blen.
Qed.

(** The image of [n] bytes: the length, the bytes, the padding. *)
Definition wire_bytes (n : Z) (d : bytes) : bytes := be32 n ++ d ++ zeros (pad4 n).

#[global] Arguments wire_bytes : simpl never.

Lemma blen_wire_bytes n d : blen d = n -> blen (wire_bytes n d) = 4 + n + pad4 n.
Proof.
  intros. unfold wire_bytes. pose proof (pad4_range n).
  rewrite !blen_app, blen_be32, blen_zeros; lia.
Qed.

Lemma wire_bytes_align n d : blen d = n -> blen (wire_bytes n d) mod 4 = 0.
Proof. intros. rewrite blen_wire_bytes by done. unfold pad4. div_lia. Qed.

Definition bytes_ok (v : ptr * Z) : Prop := is_Some (src v.1 v.2).

Definition bytes_wire (v : ptr * Z) : bytes := wire_bytes v.2 (default [] (src v.1 v.2)).

(** The second write of a value with its padding. *)
Lemma put_padded z n d :
  blen d = n -> room z (n + pad4 n) ->
  write_at (pos z) d (buf z) = Some (buf (put z d)) /\
  write_at (pos z + n) (zeros (pad4 n)) (buf (put z d)) =
    Some (buf (put z (d ++ zeros (pad4 n)))).
Proof.
  intros Hn Hr. use_room Hr. pose proof (pad4_range n). pose proof (blen_nonneg d).
  split; [apply write_at_ok; lia|].
  rewrite write_at_ok; cbn; rewrite ?blen_splice, ?blen_zeros by lia; try lia.
  f_equal. rewrite <- Hn at 1. rewrite splice_app; rewrite ?blen_zeros; lia || done.
Qed.

Lemma put_padded_eq z n d :
  blen d = n ->
  set_pos (pos z + n + pad4 n) (set_buf (buf (put z (d ++ zeros (pad4 n)))) z) =
  put z (d ++ zeros (pad4 n)).
Proof.
  intros Hn. pose proof (pad4_range n). unfold put.
  rewrite blen_app, blen_zeros, Hn, Z.add_assoc by lia. done.
Qed.

#[export] Program Instance bytes_codec : Codec zdr_bytes := {
  wire := bytes_wire;
  okv := bytes_ok;
  blank _ v := v.1 = NULL;
  same b v v' := v'.2 = v.2 /\ load b v'.1 v.2 = src v.1 v.2
}.
Next Obligation.
  intros [p n] [d Hd]; cbn in *. unfold bytes_wire; cbn. rewrite Hd.
  apply src_blen in Hd as [_ Hn]. by apply wire_bytes_align.
Qed.
Next Obligation.
  intros z [p n] Hop [d Hd] Hr; unfold bytes_wire in *; cbn in *.
  rewrite Hd in *; cbn in *. pose proof (src_blen _ _ _ Hd) as [? Hn].
  pose proof (pad4_range n).
  assert (Hr' : room (put z (be32 n)) (n + pad4 n)).
  { apply room_put; [done| |lia]. rewrite blen_be32.
    by rewrite blen_wire_bytes in Hr by done; rewrite Z.add_assoc. }
  rewrite blen_wire_bytes in Hr by done. use_room Hr.
  rewrite u_int_enc; [|done|eapply room_le; [|done]; lia].
  destruct (put_padded _ n d Hn Hr') as [W1 W2].
  use_room Hr'. revert W1 W2. set (z1 := put z (be32 n)) in *. intros W1 W2.
  rewrite i32_id by solve_width. rewrite fits_true by (unfold INT_MAX in *; lia).
  replace (pos z1 + n >? size z1) with false by lia.
  change (x_op z1) with (x_op z). rewrite Hop, (src_load _ _ _ _ Hd), W1.
  rewrite pos_add_id, pad_code, W2 by (unfold INT_MAX in *; lia).
  replace (fits_int _) with true by (unfold fits_int, INT_MAX in *; lia).
  f_equal. unfold wire_bytes.
  rewrite <- (put_app z (be32 n)) by (rewrite ?blen_be32, ?blen_app, ?blen_zeros; lia).
  fold z1. by apply put_padded_eq.
Qed.
Next Obligation.
  intros z [p n] [p0 n0] Hop [d Hd] E Hr Hh _; cbn in E; subst p0.
  unfold bytes_wire in *; cbn in *. rewrite Hd in *; cbn in *.
  pose proof (src_blen _ _ _ Hd) as [? Hn]. pose proof (pad4_range n).
  rewrite blen_wire_bytes in * by done. use_room Hr.
  apply has_at_app in Hh as [Hh1 [Hh2 _]%has_at_app]. rewrite !blen_be32 in *.
  rewrite (u_int_dec z n0 (be32 n)); [|done|eapply room_le; [|done]; lia|done..].
  rewrite of_be32_be32, u32_id by solve_width.
  cbn. rewrite i32_id by solve_width. rewrite fits_true by (unfold INT_MAX in *; lia).
  replace (pos z + 4 + n >? size z) with false by lia.
  rewrite Hop, pos_add_id by (unfold INT_MAX in *; lia).
  rewrite fits_true by (unfold INT_MAX in *; lia).
  eexists _, (mem z). split.
  - f_equal. unfold got, set_pos, set_mem. cbn. f_equal. rewrite align4_pad by div_lia. lia.
  - cbn. split; [done|]. apply has_at_read in Hh2. by rewrite Hn in Hh2.
Qed.

(** *** Fixed-size data *)

Lemma opaque_enc z p n d :
  x_op z = ZDR_ENCODE -> src p n = Some d -> room z (n + pad4 n) ->
  zdr_opaque n z p = Ret p (put z (d ++ zeros (pad4 n))).
Proof.
  intros Hop Hd Hr. pose proof (src_blen _ _ _ Hd) as [? Hn]. pose proof (pad4_range n).
  destruct (put_padded _ n d Hn Hr) as [W1 W2]. use_room Hr.
  unfold zdr_opaque. rewrite Hop, (src_load _ _ _ _ Hd), W1.
  rewrite pos_add_id, pad_opaque_code, W2 by (unfold INT_MAX in *; lia).
  replace (fits_int _) with true by (unfold fits_int, INT_MAX in *; lia).
  f_equal. rewrite align4_pad by done. by apply put_padded_eq.
Qed.

Lemma opaque_dec z h n w :
  x_op z = ZDR_DECODE -> has_at (buf z) (pos z) w -> blen w = n -> n <= blen h ->
  room z (n + pad4 n) ->
  zdr_opaque n z (Heap h) = Ret (Heap (splice 0 w h)) (got z (n + pad4 n) (mem z)).
Proof.
  intros Hop Hh%has_at_read Hn Hl Hr. pose proof (pad4_range n). pose proof (blen_nonneg w).
  use_room Hr. unfold zdr_opaque. rewrite Hop. cbn. rewrite Hn in Hh. rewrite Hh. cbn.
  rewrite write_at_ok by lia. cbn. rewrite pos_add_id by (unfold INT_MAX in *; lia).
  replace (fits_int _) with true by (unfold fits_int, INT_MAX in *; lia).
  f_equal. rewrite align4_pad by done. unfold got. rewrite <- Z.add_assoc. by destruct z.
Qed.

#[export] Program Instance opaque_codec (n : Z) : Codec (zdr_opaque n) := {
  wire p := default [] (src p n) ++ zeros (pad4 n);
  okv p := is_Some (src p n);
  blank _ p := exists h, p = Heap h /\ blen h = n;
  same b p p' := load b p' n = src p n
}.
Next Obligation.
  intros n p [d Hd]. rewrite Hd. cbn. apply src_blen in Hd as [? Hn].
  pose proof (pad4_range n). rewrite blen_app, blen_zeros, Hn by lia. unfold pad4. div_lia.
Qed.
Next Obligation.
  intros n z p Hop [d Hd] Hr. rewrite Hd in *. cbn in *. apply opaque_enc; try done.
  pose proof (src_blen _ _ _ Hd) as [? Hn]. pose proof (pad4_range n).
  by rewrite blen_app, blen_zeros, Hn in Hr by lia.
Qed.
Next Obligation.
  intros n z p p0 Hop [d Hd] (h & -> & Hl) Hr Hh _. rewrite Hd in *. cbn in *.
  pose proof (src_blen _ _ _ Hd) as [? Hn]. pose proof (pad4_range n).
  rewrite blen_app, blen_zeros, Hn in * by lia. apply has_at_app in Hh as [Hh _].
  eexists _, _. split; [apply (opaque_dec z h n d); auto; lia|].
  cbn. rewrite <- Hn. apply has_at_read, splice_has; lia.
Qed.

(** *** Strings *)

(** The characters of a C string. *)
Definition cstr (p : ptr) : bytes :=
  match p with
  | Heap h => match cstrlen h with Some n => take (Z.to_nat n) h | None => [] end
  | _ => []
  end.

Lemma cstrlen_range h n : cstrlen h = Some n -> 0 <= n < blen h.
Proof.
  revert n. induction h as [|c h IH]; cbn; intros n; [done|].
  case_match; [intros [= <-]; rewrite blen_cons; pose proof (blen_nonneg h); lia|].
  destruct (cstrlen h) as [m|]; cbn; [|done]. intros [= <-].
  specialize (IH m eq_refl). rewrite blen_cons. lia.
Qed.

Lemma cstr_src h n : cstrlen h = Some n -> src (Heap h) n = Some (cstr (Heap h)).
Proof.
  intros Hn. pose proof (cstrlen_range _ _ Hn). cbn. rewrite Hn. unfold read_at.
  replace (_ && _) with true by lia. cbn. by rewrite drop_0.
Qed.

Lemma cstr_nonzero h n : cstrlen h = Some n -> Forall (fun c => c <> 0) (cstr (Heap h)).
Proof.
  intros Hn. cbn. rewrite Hn. revert n Hn.
  induction h as [|c h IH]; cbn; intros n; [done|]. case_match eqn:E.
  - intros [= <-]. constructor.
  - destruct (cstrlen h) as [m|] eqn:Em; cbn; [|done]. intros [= <-].
    pose proof (cstrlen_range _ _ Em). rewrite Z2Nat.inj_add by lia. cbn.
    constructor; [lia|]. by apply IH.
Qed.

Lemma malloc_small z n :
  0 <= n -> n + ZDR_MEM_HDR <= INT_MAX -> (forall k, malloc_ok z k = true) ->
  zdr_malloc z n = Some (set_mem (n :: mem z) z).
Proof.
  unfold ZDR_MEM_HDR, zdr_malloc, ZDR_MEM_HDR. intros ? ? ->.
  replace (12 <=? _) with true by solve_width. done.
Qed.

Lemma splice_nul n s :
  blen s = n -> splice 0 s (splice n [0] (zeros (n + 1))) = s ++ [0].
Proof.
  intros Hn. pose proof (blen_nonneg s).
  assert (splice n [0] (zeros (n + 1)) = zeros n ++ [0]) as ->.
  { unfold splice, zeros. change (blen [0]) with 1.
    rewrite drop_replicate, take_replicate, Nat.sub_diag by lia.
    cbn [replicate]. rewrite app_nil_r. do 2 f_equal. lia. }
  unfold splice. rewrite Hn, Z.add_0_l. change (Z.to_nat 0) with 0%nat. rewrite take_0. cbn [app]. f_equal.
  rewrite drop_app_ge by (unfold zeros; rewrite length_replicate; lia).
  unfold zeros. by rewrite length_replicate, Nat.sub_diag, drop_0.
Qed.

Definition string_ok (p : ptr) : Prop := exists h, p = Heap h /\ is_Some (cstrlen h).

Lemma nul_in_place z n s w :
  has_at (buf z) (pos z) s -> blen s = n -> 0 <= pos z + n + 3 <= INT_MAX ->
  read_at (pos z + n) 1 (buf z) = Some w -> w = [0] ->
  store z (InBuf (pos z)) n [0] = Some (InBuf (pos z), z) /\
  load (buf z) (InBuf (pos z)) (n + 1) = Some (s ++ [0]).
Proof.
  intros Hs%has_at_read Hn Hi Hw ->. rewrite Hn in Hs. cbn.
  rewrite (write_at_same _ _ _ _ Hw). cbn. split; [by destruct z|].
  eapply read_at_app; eassumption.
Qed.

(** The string has been found to be followed by a NUL byte, or has been copied:
    in both cases the decoder returns it terminated, after its padding. *)
Lemma string_dec_tail z n s :
  x_op z = ZDR_DECODE -> has_at (buf z) (pos z) s -> blen s = n ->
  room z (n + pad4 n) -> (forall k, malloc_ok z k = true) ->
  exists t' m,
    match string_nul_follows z n with
    | None => UB
    | Some true =>
        match store z (InBuf (pos z)) n [0] with
        | None => UB
        | Some (p, z') =>
            let q := pos_add (pos z') n in
            if fits_int (q + 3) then Ret p (set_pos (align4 q) z') else UB
        end
    | Some false =>
        match zdr_malloc z (u32 (n + 1)) with
        | None => UB
        | Some z =>
            match store z (Heap (zeros (u32 (n + 1)))) n [0] with
            | None => UB
            | Some (p, z) => zdr_opaque n z p
            end
        end
    end = Ret t' (got z (n + pad4 n) m) /\
    load (buf z) t' (n + 1) = Some (s ++ [0]).
Proof.
  intros Hop Hs Hn Hr Hm. pose proof (blen_nonneg s). pose proof (pad4_range n).
  use_room Hr. pose proof (room_dec _ _ Hr Hop). unfold INT_MAX in *.
  assert (Hcopy : exists t' m,
    match zdr_malloc z (u32 (n + 1)) with
    | None => UB
    | Some z =>
        match store z (Heap (zeros (u32 (n + 1)))) n [0] with
        | None => UB
        | Some (p, z) => zdr_opaque n z p
        end
    end = Ret t' (got z (n + pad4 n) m) /\ load (buf z) t' (n + 1) = Some (s ++ [0])).
  { rewrite u32_id by solve_width.
    rewrite malloc_small by (unfold ZDR_MEM_HDR, INT_MAX; lia || done). cbn.
    rewrite write_at_ok by (rewrite ?blen_zeros; change (blen [0]) with 1; lia). cbn.
    eexists _, _. split.
    - rewrite (opaque_dec _ _ n s); try done.
      rewrite blen_splice; rewrite ?blen_zeros; change (blen [0]) with 1; lia.
    - cbn. rewrite splice_nul by done. replace (n + 1) with (blen (s ++ [0])).
      + apply read_at_whole.
      + rewrite blen_app, Hn. reflexivity. }
  unfold string_nul_follows. rewrite i32_id by solve_width.
  destruct (size z >? pos z + n) eqn:Esz; [|done].
  rewrite u32_id by solve_width.
  destruct (read_at (pos z + n) 1 (buf z)) as [w|] eqn:Ew.
  2:{ unfold read_at in Ew. replace (_ && _) with true in Ew by lia. done. }
  case_bool_decide as Eb; [|done].
  destruct (nul_in_place z n s w Hs Hn) as [-> Hl]; [unfold INT_MAX; lia|done..|].
  cbn. rewrite pos_add_id by (unfold INT_MAX; lia).
  replace (fits_int _) with true by (unfold fits_int, INT_MAX; lia).
  exists (InBuf (pos z)), (mem z). split; [|done]. f_equal.
  rewrite align4_pad by done. unfold got. rewrite <- Z.add_assoc. by destruct z.
Qed.

#[export] Program Instance string_codec : Codec zdr_string := {
  wire p := wire_bytes (blen (cstr p)) (cstr p);
  okv := string_ok;
  blank _ _ := True;
  same b p p' := load b p' (blen (cstr p) + 1) = Some (cstr p ++ [0])
}.
Next Obligation.
  intros p _. by apply (wire_bytes_align (blen (cstr p)) (cstr p)).
Qed.
Next Obligation.
  intros z p Hop (h & -> & n & Hh) Hr.
  pose proof (cstr_src _ _ Hh) as Hd. pose proof (src_blen _ _ _ Hd) as [? Hn].
  rewrite blen_wire_bytes, Hn in * by done. pose proof (pad4_range n).
  assert (Hr' : room (put z (be32 n)) (n + pad4 n)).
  { apply room_put; [done| |lia]. rewrite blen_be32. by rewrite Z.add_assoc. }
  use_room Hr. unfold zdr_string, string_len0. rewrite Hop. cbn [strlen_ptr]. rewrite Hh.
  rewrite u32_id by solve_width. rewrite u_int_enc; [|done|eapply room_le; [|done]; lia].
  use_room Hr'. rewrite i32_id by solve_width.
  rewrite fits_true by (unfold INT_MAX in *; lia).
  replace (_ >? _) with false by lia. change (x_op (put _ _)) with (x_op z). rewrite Hop.
  rewrite (opaque_enc (put z (be32 n)) _ n _ Hop Hd Hr'). f_equal. unfold wire_bytes.
  rewrite put_app; rewrite ?blen_be32, ?blen_app, ?blen_zeros; lia || done.
Qed.
Next Obligation.
  intros z p p0 Hop (h & -> & n & Hh) _ Hr Hw Hm.
  pose proof (cstr_src _ _ Hh) as Hd. pose proof (src_blen _ _ _ Hd) as [? Hn].
  revert Hr Hw. rewrite blen_wire_bytes, Hn by done. pose proof (pad4_range n).
  intros Hr Hw. use_room Hr.
  apply has_at_app in Hw as [Hw1 [Hw2 _]%has_at_app]. rewrite !blen_be32 in *.
  destruct (string_dec_tail (got z 4 (mem z)) n (cstr (Heap h))) as (t' & m & E & L);
    try done. { apply room_got; [done..|]. by rewrite Z.add_assoc. }
  exists t', m. split; [|done]. unfold zdr_string, string_len0. rewrite Hop.
  rewrite (u_int_dec z 0 (be32 n)); [|done|eapply room_le; [|done]; lia|done..].
  rewrite of_be32_be32, u32_id by solve_width.
  change (x_op (got _ _ _)) with (x_op z). rewrite Hop, i32_id by solve_width.
  change (pos (got _ _ _)) with (pos z + 4) in *.
  rewrite fits_true by (unfold INT_MAX in *; lia).
  change (size (got _ _ _)) with (size z). replace (_ >? _) with false by lia.
  refine (eq_trans E _). rewrite got_got. do 2 f_equal. lia.
Qed.

(** *** Pointers, arrays, vectors *)

Section elements.
Context {T : Type} (zero : T) (elsize : Z) (p : proc T) `{!Codec p}.

Definition wires (l : list T) : bytes := concat (map (wire p) l).
Arguments wires : simpl never.

Lemma wires_cons t l : wires (t :: l) = wire p t ++ wires l.
Proof. reflexivity. Qed.

Lemma wires_align l : Forall (okv p) l -> blen (wires l) mod 4 = 0.
Proof.
  induction 1 as [|t l Ht _ IH]; [done|]. rewrite wires_cons, blen_app.
  apply codec_align in Ht. div_lia.
Qed.

Lemma elements_enc l : forall pre z,
  x_op z = ZDR_ENCODE -> Forall (okv p) l -> room z (blen (wires l)) ->
  elements p (length l) (length pre) z (pre ++ l) = Ret (pre ++ l) (put z (wires l)).
Proof.
  induction l as [|t l IH]; intros pre z Hop Hl Hr.
  - cbn. by rewrite put_nil.
  - apply Forall_cons in Hl as [Ht Hl]. rewrite wires_cons in *. cbn.
    pose proof (blen_nonneg (wires l)).
    pose proof (blen_nonneg (wire p t)). rewrite blen_app in Hr. use_room Hr.
    rewrite lookup_app_r, Nat.sub_diag by done. cbn.
    rewrite codec_enc; [| done | done | eapply room_le; [|done]; lia].
    rewrite insert_app_r_alt, Nat.sub_diag by done. cbn.
    specialize (IH (pre ++ [t]) (put z (wire p t))).
    rewrite length_app, Nat.add_1_r, <- app_assoc in IH. cbn in IH.
    rewrite IH; [| done | done | apply room_put; auto using codec_align].
    by rewrite put_app by lia.
Qed.

Lemma elements_dec l : forall pre l0 z,
  x_op z = ZDR_DECODE -> Forall (okv p) l -> Forall2 (blank p) l l0 ->
  room z (blen (wires l)) -> has_at (buf z) (pos z) (wires l) ->
  (forall n, malloc_ok z n = true) ->
  exists l' m,
    elements p (length l) (length pre) z (pre ++ l0) =
      Ret (pre ++ l') (got z (blen (wires l)) m) /\
    Forall2 (same p (buf z)) l l'.
Proof.
  induction l as [|t l IH]; intros pre l0 z Hop Hl H0 Hr Hh Hm.
  - inversion H0; subst. exists [], (mem z). split; [|constructor].
    change (blen (wires [])) with 0. by rewrite got_0.
  - apply Forall_cons in Hl as [Ht Hl].
    apply Forall2_cons_inv_l in H0 as (t0 & l0' & B0 & H0 & ->). rename l0' into l0.
    unfold wires in *. cbn in *. fold (wires l) in *.
    pose proof (blen_nonneg (wires l)). pose proof (blen_nonneg (wire p t)).
    rewrite blen_app in *. use_room Hr. apply has_at_app in Hh as [Hh1 Hh2].
    rewrite lookup_app_r, Nat.sub_diag by done. cbn.
    destruct (codec_dec z t t0) as (t' & m1 & -> & Hs); try done.
    { eapply room_le; [|done]; lia. }
    rewrite insert_app_r_alt, Nat.sub_diag by done. cbn.
    destruct (IH (pre ++ [t']) l0 (got z (blen (wire p t)) m1)) as (l' & m2 & E & Hs');
      try done. { apply room_got; auto using codec_align. }
    rewrite length_app, Nat.add_1_r, <- !app_assoc in E. cbn in E.
    exists (t' :: l'), m2. rewrite E, got_got. split; [done|]. by constructor.
Qed.

#[export] Program Instance vector_codec (n : Z) : Codec (zdr_vector p n) := {
  wire := wires;
  okv l := 0 <= n /\ blen l = n /\ Forall (okv p) l;
  blank := Forall2 (blank p);
  same b := Forall2 (same p b)
}.
Next Obligation. intros n l (_ & _ & Hl). by apply wires_align. Qed.
Next Obligation.
  intros n z l Hop (Hn & Hl & Ho) Hr. unfold zdr_vector.
  rewrite <- Hl, blen_to_nat. by apply (elements_enc l []).
Qed.
Next Obligation.
  intros n z l l0 Hop (Hn & Hl & Ho) Hb Hr Hh Hm. unfold zdr_vector.
  rewrite <- Hl, blen_to_nat. by apply (elements_dec l []).
Qed.

(** What the allocation of the elements needs of their number. *)
Record array_ok (v : Z * list T) : Prop := {
  array_len : v.1 = blen v.2;
  array_el : Forall (okv p) v.2;
  array_zero : Forall (fun t => blank p t zero) v.2;
  array_size : 0 < elsize;
  array_alloc : v.1 * elsize + ZDR_MEM_HDR <= INT_MAX;
}.

Lemma array_bound v : array_ok v -> 0 <= v.1 < 2147483648 /\
  (v.1 >? UINT32_MAX / elsize) = false /\ u32 (v.1 * elsize) = v.1 * elsize.
Proof.
  intros [Hn _ _ He Ha]. pose proof (blen_nonneg v.2). unfold ZDR_MEM_HDR, INT_MAX in Ha.
  assert (v.1 <= v.1 * elsize) by nia.
  assert (v.1 <= UINT32_MAX / elsize) by (apply Z.div_le_lower_bound; unfold UINT32_MAX; lia).
  repeat split; [lia..| |solve_width]. lia.
Qed.

#[export] Program Instance array_codec : Codec (zdr_array zero elsize p) := {
  wire v := be32 v.1 ++ wires v.2;
  okv := array_ok;
  blank _ _ := True;
  same b v v' := v'.1 = v.1 /\ Forall2 (same p b) v.2 v'.2
}.
Next Obligation.
  intros [n l] H. cbn. rewrite blen_app, blen_be32.
  pose proof (wires_align l (array_el _ H)). div_lia.
Qed.
Next Obligation.
  intros z [n l] Hop Ho Hr. pose proof (array_bound _ Ho) as (Hn & Hq & _).
  destruct Ho as [Hl He _ _ _]. cbn in *. pose proof (blen_nonneg (wires l)).
  rewrite blen_app, blen_be32 in Hr. use_room Hr.
  rewrite u_int_enc; [|done|eapply room_le; [|done]; lia].
  rewrite Hq. change (x_op (put _ _)) with (x_op z). rewrite Hop.
  rewrite i32_id by solve_width. replace (Z.to_nat n) with (length l) by (unfold blen in Hl; lia).
  rewrite (elements_enc l []); [|done..|by apply room_put].
  cbn. rewrite put_app by (rewrite ?blen_be32; lia). done.
Qed.
Next Obligation.
  intros z [n l] [n0 l0] Hop Ho _ Hr Hh Hm. pose proof (array_bound _ Ho) as (Hn & Hq & Hu).
  destruct Ho as [Hl He Hz Hs Ha]. cbn in *. pose proof (blen_nonneg (wires l)).
  rewrite blen_app, blen_be32 in *. use_room Hr.
  apply has_at_app in Hh as [Hh1 Hh2]. rewrite blen_be32 in *.
  rewrite (u_int_dec z n0 (be32 n)); [|done|eapply room_le; [|done]; lia|done..].
  rewrite of_be32_be32, u32_id by solve_width.
  rewrite Hq. change (x_op (got _ _ _)) with (x_op z). rewrite Hop, Hu.
  rewrite malloc_small; [|nia|done|done]. rewrite i32_id by solve_width.
  destruct (elements_dec l [] (replicate (Z.to_nat n) zero)
    (set_mem (n * elsize :: mem z) (got z 4 (mem z)))) as (l' & m & E & Hs');
    try done.
  - replace (Z.to_nat n) with (length l) by (unfold blen in Hl; lia).
    clear -Hz. induction Hz; constructor; done.
  - by apply (room_got z 4 _ (n * elsize :: mem z)).
  - exists (n, l'), m. cbn in E. cbn.
    replace (Z.to_nat n) with (length l) in * by (unfold blen in Hl; lia).
    rewrite E. cbn. split; [|done]. f_equal. unfold got, set_mem, set_pos. cbn. f_equal. lia.
Qed.

Definition pointer_ok (o : option T) : Prop :=
  match o with
  | None => True
  | Some t => okv p t /\ blank p t zero /\ 0 <= elsize /\ elsize + ZDR_MEM_HDR <= INT_MAX
  end.

Definition pointer_wire (o : option T) : bytes :=
  match o with None => be32 0 | Some t => be32 1 ++ wire p t end.

#[export] Program Instance pointer_codec : Codec (zdr_pointer zero elsize p) := {
  wire := pointer_wire;
  okv := pointer_ok;
  blank _ _ := True;
  same b := option_Forall2 (same p b)
}.
Next Obligation.
  intros [t|]; [|done]. intros (Ht & _). cbn. rewrite blen_app, blen_be32.
  apply codec_align in Ht. div_lia.
Qed.
Next Obligation.
  intros z [t|] Hop Ho Hr; unfold zdr_pointer, zdr_bool; cbn in *.
  - rewrite blen_app, blen_be32 in Hr. pose proof (blen_nonneg (wire p t)). use_room Hr.
    rewrite u_int_enc; [|done|eapply room_le; [|done]; lia]. cbn.
    rewrite Hop, codec_enc; [|done|apply Ho|by apply room_put].
    cbn. by rewrite put_app by (rewrite ?blen_be32; lia).
  - by rewrite u_int_enc.
Qed.
Next Obligation.
  intros z [t|] o0 Hop Ho _ Hr Hh Hm; unfold zdr_pointer, zdr_bool; cbn in *.
  - destruct Ho as (Ht & Hb & He & Ha).
    rewrite blen_app, blen_be32 in *. pose proof (blen_nonneg (wire p t)). use_room Hr.
    apply has_at_app in Hh as [Hh1 Hh2]. rewrite blen_be32 in *.
    rewrite (u_int_dec z _ (be32 1)); [|done|eapply room_le; [|done]; lia|done..].
    rewrite of_be32_be32. cbn. rewrite Hop, malloc_small by done.
    destruct (codec_dec (set_mem (elsize :: mem z) (got z 4 (mem z))) t zero)
      as (t' & m & E & Hs); try done.
    { by apply (room_got z 4 _ (elsize :: mem z)). }
    change (u32 1 =? 0) with false. cbn [mem got set_mem]. cbv iota.
    rewrite E. exists (Some t'), m. cbn. split; [|by constructor].
    f_equal. unfold got, set_mem, set_pos. cbn. f_equal. lia.
  - rewrite (u_int_dec z _ (be32 0)) by done. rewrite of_be32_be32. cbn.
    exists None, (mem z). split; [done|constructor].
Qed.
End elements.

(** *** Discriminated unions *)

(** A field whose value selects the routine of the rest. *)
Definition zdr_dseq {A B} (p : proc A) (q : A -> proc B) : proc (A * B) := fun z '(a, b) =>
  match p z a with
  | Ret a z => res_map (pair a) (q a z b)
  | Fls a z => Fls (a, b) z
  | UB => UB
  end.

(** A member of an object. *)
Definition zdr_on {A B} (get : B -> A) (set : A -> B -> B) (p : proc A) : proc B :=
  fun z b => res_map (fun a => set a b) (p z (get b)).

(** [return FALSE]. *)
Definition zdr_fail {T} : proc T := fun z t => Fls t z.

(** The decoder restores the very value of a discriminant. *)
Class Exact {T} (p : proc T) `{!Codec p} : Prop :=
  exact_same : forall b t t', same p b t t' -> t' = t.

#[export] Instance u_int_exact : Exact zdr_u_int.
Proof. by intros b t t' ->. Qed.

Class Member {A B} (get : B -> A) (set : A -> B -> B) : Prop :=
  get_set : forall a b, get (set a b) = a.

#[export] Program Instance on_codec {A B} (get : B -> A) (set : A -> B -> B) (p : proc A)
    `{!Codec p, !Member get set} : Codec (zdr_on get set p) := {
  wire b := wire p (get b);
  okv b := okv p (get b) /\ set (get b) b = b;
  blank b b0 := blank p (get b) (get b0);
  same m b b' := same p m (get b) (get b') /\ exists b0, b' = set (get b') b0
}.
Next Obligation. intros A B get set p ? ? b [? _]. by apply codec_align. Qed.
Next Obligation.
  intros A B get set p ? ? z b Hop [Hb E] Hr. unfold zdr_on.
  rewrite codec_enc by done. cbn. by rewrite E.
Qed.
Next Obligation.
  intros A B get set p ? ? z b b0 Hop [Hb E] Hb0 Hr Hh Hm. unfold zdr_on.
  destruct (codec_dec z (get b) (get b0)) as (a' & m & -> & Hs); try done.
  exists (set a' b0), m. split; [done|]. rewrite get_set. eauto.
Qed.

#[export] Program Instance dseq_codec {A B} (p : proc A) (q : A -> proc B)
    `{!Codec p, !Exact p, !forall a, Codec (q a)} : Codec (zdr_dseq p q) := {
  wire ab := wire p ab.1 ++ wire (q ab.1) ab.2;
  okv ab := okv p ab.1 /\ okv (q ab.1) ab.2;
  blank ab ab0 := blank p ab.1 ab0.1 /\ blank (q ab.1) ab.2 ab0.2;
  same b ab ab' := ab'.1 = ab.1 /\ same (q ab.1) b ab.2 ab'.2
}.
Next Obligation.
  intros A B p q ? ? ? [a b] [Ha Hb]; cbn in *. rewrite blen_app.
  apply codec_align in Ha, Hb. div_lia.
Qed.
Next Obligation.
  intros A B p q ? ? ? z [a b] Hop [Ha Hb] Hr; cbn in *.
  pose proof (blen_nonneg (wire p a)). pose proof (blen_nonneg (wire (q a) b)).
  rewrite blen_app in Hr. use_room Hr.
  rewrite codec_enc; [| done | done | eapply room_le; [|done]; lia].
  rewrite codec_enc; [| done | done | apply room_put; auto using codec_align].
  cbn. rewrite put_app by lia. done.
Qed.
Next Obligation.
  intros A B p q ? ? ? z [a b] [a0 b0] Hop [Ha Hb] [Ba Bb] Hr Hh Hm; cbn in *.
  pose proof (blen_nonneg (wire p a)). pose proof (blen_nonneg (wire (q a) b)).
  rewrite blen_app in *. apply has_at_app in Hh as [Hh1 Hh2].
  destruct (codec_dec z a a0) as (a' & m1 & -> & Sa); try done.
  { eapply room_le; [|done]; lia. }
  apply exact_same in Sa as ->.
  destruct (codec_dec (p := q a) (got z (blen (wire p a)) m1) b b0)
    as (b' & m2 & -> & Sb); try done.
  { apply room_got; auto using codec_align. }
  exists (a, b'), m2. cbn. rewrite got_got. done.
Qed.

#[export] Program Instance fail_codec {T} : Codec (@zdr_fail T) := {
  wire _ := []; okv _ := False; blank _ _ := True; same _ _ _ := False
}.
Next Obligation. done. Qed.
Next Obligation. done. Qed.
Next Obligation. done. Qed.

#[export] Instance if_codec {T} (c : bool) (p q : proc T) `{Hp : !Codec p, Hq : !Codec q} :
    Codec (if c then p else q) :=
  if c as c return Codec (if c then p else q) then Hp else Hq.

(** *** The law of every routine: what is encoded is decoded *)

(** A fresh handle on a buffer, for decoding. *)
Definition reader (b : bytes) (sz : Z) (ok : Z -> bool) : ZDR := zdrmem_create b sz ZDR_DECODE ok.

Lemma codec_roundtrip {T} (p : proc T) `{!Codec p} (b : bytes) sz ok (t t0 : T) :
  okv p t -> blank p t t0 -> (forall n, ok n = true) ->
  0 <= sz <= blen b -> sz + 16 <= INT_MAX -> blen (wire p t) <= sz ->
  exists z', p (zdrmem_create b sz ZDR_ENCODE ok) t = Ret t z' /\
    pos z' = blen (wire p t) /\ read_at 0 (pos z') (buf z') = Some (wire p t) /\
    blen (buf z') = blen b /\
    exists t' zr, p (reader (buf z') (pos z') ok) t0 = Ret t' zr /\
      pos zr = pos z' /\ same p (buf z') t t'.
Proof.
  intros Ht H0 Hok Hsz Hi Hw. pose proof (blen_nonneg (wire p t)).
  assert (Hr : room (zdrmem_create b sz ZDR_ENCODE ok) (blen (wire p t))).
  { unfold zdrmem_create. rewrite i32_id by solve_width. by split; cbn; try lia. }
  eexists. split; [by apply codec_enc|]. cbn.
  split; [done|]. split; [by apply has_at_read, splice_has; cbn; lia|].
  rewrite blen_splice by (cbn; lia). split; [done|].
  destruct (codec_dec (reader (splice 0 (wire p t) b) (blen (wire p t)) ok) t t0)
    as (t' & m & E & Hs); try done.
  - unfold reader, zdrmem_create. rewrite i32_id by solve_width.
    split; cbn; rewrite ?blen_splice; lia || done.
  - apply splice_has; cbn; lia.
  - exists t', (got (reader (splice 0 (wire p t) b) (blen (wire p t)) ok) (blen (wire p t)) m).
    split; [exact E|]. split; [cbn; lia|done].
Qed.
