(* ===== verification/ZdrProps.v ===== *)
(** * ZdrProps: what the marshalling primitives guarantee

    Round trips of the primitives, the bounds the decoder keeps on well-formed
    lengths, and the lengths on which it does not keep them: a length whose
    sign bit is set passes the bound check of [zdr_bytes] and [zdr_string]
    because it is cast to [int]. *)

From S2P Require Import Prelude Zdr.

(** ** Well-formed handles *)

(** The buffer of the handle is there, and the position is in it, up to the
    padding of the last string. *)
Record zdr_wf (z : ZDR) : Prop := {
  wf_pos : 0 <= pos z <= size z + 3;
  wf_size : 0 <= size z <= blen (buf z);
  wf_int : size z + 16 <= INT_MAX;
  wf_blen : blen (buf z) <= INT_MAX;
  wf_bytes : is_bytes (buf z);
}.

(** The word at the position of the handle, if it is all there. *)
Definition next_word (z : ZDR) : option Z :=
  if pos z + 4 <=? size z
  then match read_at (pos z) 4 (buf z) with Some w => Some (of_be32 w) | None => None end
  else None.

(** No request of 2^63 bytes or more is satisfied: [malloc] returns NULL above
    PTRDIFF_MAX. *)
Definition malloc_sane (z : ZDR) : Prop := forall n, 2 ^ 63 <= n -> malloc_ok z n = false.

Lemma read_at_some p n b : 0 <= p -> 0 <= n -> p + n <= blen b ->
  exists w, read_at p n b = Some w /\ blen w = n.
Proof.
  intros. eexists. split; [unfold read_at; by replace (_ && _) with true by lia|].
  unfold blen in *. rewrite length_take, length_drop. lia.
Qed.

Lemma read_at_bytes p n b w : is_bytes b -> read_at p n b = Some w -> is_bytes w.
Proof.
  intros Hb. unfold read_at. case_match; [|done]. intros [= <-].
  by apply Forall_take, Forall_drop.
Qed.

Lemma of_be32_range w : is_bytes w -> blen w = 4 -> is_u32 (of_be32 w).
Proof.
  intros Hb Hl. destruct w as [|b3 [|b2 [|b1 [|b0 [|]]]]]; unfold blen in Hl; cbn in Hl; try lia.
  rewrite of_be32_arith by done.
  repeat (apply Forall_cons in Hb as [? Hb]). unfold is_u8, is_u32 in *. lia.
Qed.

Lemma next_word_range z w : zdr_wf z -> next_word z = Some w -> is_u32 w.
Proof.
  intros Hz. unfold next_word. case_match; [|done].
  destruct (read_at _ _ _) as [d|] eqn:E; [|done]. intros [= <-].
  apply of_be32_range; [eapply read_at_bytes; [apply Hz|exact E]|].
  by apply read_at_blen in E as [_ ?].
Qed.

(** The length word is read in full or the decoder stops. *)
Lemma u_int_decode z u :
  zdr_wf z -> x_op z = ZDR_DECODE ->
  zdr_u_int z u = match next_word z with
                  | Some w => Ret w (set_pos (pos z + 4) z)
                  | None => Fls u z
                  end.
Proof.
  intros [Hp Hs Hi _ Hb] Hop. unfold zdr_u_int, next_word.
  rewrite fits_true by (unfold INT_MAX in *; lia). rewrite Hop.
  destruct (pos z + 4 <=? size z) eqn:E.
  - replace (pos z + 4 >? size z) with false by lia. by destruct (read_at _ _ _) eqn:F;
      [|exfalso; destruct (read_at_some (pos z) 4 (buf z)) as (? & ? & _); lia || congruence].
  - by replace (pos z + 4 >? size z) with true by lia.
Qed.

Lemma next_word_fit z w : next_word z = Some w -> pos z + 4 <= size z.
Proof. unfold next_word. case_match; [lia|done]. Qed.

Ltac use_wf H :=
  pose proof (wf_pos _ H); pose proof (wf_size _ H); pose proof (wf_int _ H); pose proof (wf_blen _ H);
  unfold INT_MAX in *.

(** ** Round trips *)

(** A string of non-NUL bytes that fits is encoded, and decoding the bytes written
    gives back the string, NUL-terminated, and leaves the reader where the writer
    stopped. *)
Theorem string_roundtrip (s b : bytes) sz ok (t0 : ptr) :
  Forall (fun c => c <> 0) s -> (forall n, ok n = true) ->
  0 <= sz <= blen b -> sz + 16 <= INT_MAX -> 4 + blen s + pad4 (blen s) <= sz ->
  exists z' t' zr,
    zdr_string (zdrmem_create b sz ZDR_ENCODE ok) (Heap (s ++ [0])) = Ret (Heap (s ++ [0])) z' /\
    zdr_string (reader (buf z') (pos z') ok) t0 = Ret t' zr /\
    pos zr = pos z' /\ load (buf z') t' (blen s + 1) = Some (s ++ [0]).
Proof.
  intros Hs Hok Hsz Hi Hw.
  assert (Hlen : cstrlen (s ++ [0]) = Some (blen s)).
  { clear -Hs. induction Hs as [|c s Hc _ IH]; [done|]. cbn [app cstrlen].
    replace (c =? 0) with false by lia. rewrite IH. cbn. by rewrite blen_cons. }
  assert (Hc : cstr (Heap (s ++ [0])) = s).
  { cbn. rewrite Hlen, blen_to_nat. apply take_app_length. }
  destruct (codec_roundtrip zdr_string b sz ok (Heap (s ++ [0])) t0)
    as (z' & E1 & _ & _ & _ & t' & zr & E2 & Hp & Hsame); try done.
  - exists (s ++ [0]). by rewrite Hlen.
  - cbn [wire string_codec]. rewrite Hc, blen_wire_bytes by done. lia.
  - exists z', t', zr. cbn [same string_codec] in Hsame. rewrite Hc in Hsame. done.
Qed.

(** ** Bounds *)

(** Decoding a byte string into a NULL pointer returns a pointer into the buffer
    when the length fits in what is left (all [w] bytes can then be read, and the
    position stays good) and FALSE otherwise, for every length whose end does not pass
    INT_MAX. *)
Theorem bytes_decode_bounds z n0 w :
  zdr_wf z -> x_op z = ZDR_DECODE -> next_word z = Some w -> pos z + 4 + w <= INT_MAX ->
  zdr_bytes z (NULL, n0) =
    (if pos z + 4 + w <=? size z
     then Ret (InBuf (pos z + 4), w) (set_pos (align4 (pos z + 4 + w)) z)
     else Fls (NULL, w) (set_pos (pos z + 4) z)) /\
  (pos z + 4 + w <= size z ->
   is_Some (load (buf z) (InBuf (pos z + 4)) w) /\
   zdr_wf (set_pos (align4 (pos z + 4 + w)) z)).
Proof.
  intros Hz Hop Hw Hlt. pose proof (next_word_range _ _ Hz Hw) as Hr.
  pose proof (next_word_fit _ _ Hw). use_wf Hz. split.
  - unfold zdr_bytes. rewrite u_int_decode, Hw by done. cbn.
    rewrite i32_id by solve_width. rewrite fits_true by solve_width.
    destruct (pos z + 4 + w <=? size z) eqn:E.
    + replace (_ >? _) with false by lia. rewrite Hop, pos_add_id by solve_width.
      by rewrite fits_true by solve_width.
    + by replace (_ >? _) with true by lia.
  - intros Hfit. split.
    + destruct (read_at_some (pos z + 4) w (buf z)) as (d & Hd & _); [solve_width..|].
      by exists d.
    + split; cbn; try apply Hz. unfold align4. rewrite land_m4. unfold is_u32 in Hr. div_lia.
Qed.

(** The lengths [zdr_bytes] does not reject: just below 2^31 the sum overflows, and
    from 2^31 up the length is negative as an [int], so the call succeeds with a pointer
    and a length that lead out of the buffer (libnfs-zdr.c:200). *)
Theorem bytes_decode_overrun z n0 w :
  zdr_wf z -> x_op z = ZDR_DECODE -> next_word z = Some w -> INT_MAX < pos z + 4 + w ->
  (w < 2 ^ 31 -> zdr_bytes z (NULL, n0) = UB) /\
  (2 ^ 31 <= w -> exists z', zdr_bytes z (NULL, n0) = Ret (InBuf (pos z + 4), w) z' /\
     buf z' = buf z /\ load (buf z') (InBuf (pos z + 4)) w = None).
Proof.
  intros Hz Hop Hw Hbig. pose proof (next_word_range _ _ Hz Hw) as Hr.
  pose proof (next_word_fit _ _ Hw). use_wf Hz.
  unfold zdr_bytes. rewrite u_int_decode, Hw by done. cbn. split; intros Hge.
  { rewrite i32_id by solve_width.
    by replace (negb _) with true by (unfold fits_int; solve_width). }
  assert (i32 w = w - 2 ^ 32) as -> by solve_width.
  rewrite fits_true by solve_width.
  replace (pos z + 4 + (w - 2 ^ 32) >? size z) with false by solve_width.
  rewrite Hop. unfold pos_add.
  assert (i32 (u32 (pos z + 4 + w)) = pos z + 4 + w - 2 ^ 32) as -> by solve_width.
  rewrite fits_true by solve_width. eexists. split; [done|]. cbn. split; [done|].
  unfold read_at. by replace (_ && _) with false by solve_width.
Qed.

(** A string length of 2^31 or more from the network always ends in undefined
    behaviour in [zdr_string], whatever the allocator answers (libnfs-zdr.c:309). *)
Theorem string_decode_overrun z p w :
  zdr_wf z -> malloc_sane z -> x_op z = ZDR_DECODE -> next_word z = Some w -> 2 ^ 31 <= w ->
  zdr_string z p = UB.
Proof.
  intros Hz Hm Hop Hw Hge. pose proof (next_word_range _ _ Hz Hw) as Hr.
  pose proof (next_word_fit _ _ Hw). use_wf Hz.
  unfold zdr_string, string_len0. rewrite Hop, u_int_decode, Hw by done. cbn.
  assert (i32 w = w - 2 ^ 32) as -> by solve_width.
  rewrite fits_true by solve_width.
  replace (pos z + 4 + (w - 2 ^ 32) >? size z) with false by solve_width.
  rewrite Hop. destruct (string_nul_follows _ _) as [[]|]; [| |done].
  - cbn. unfold write_at. by replace (_ && _) with false by
      (change (blen [0]) with 1; solve_width).
  - destruct (zdr_malloc _ _) as [z'|] eqn:Ez; [|done].
    assert (w = 2 ^ 32 - 1) as ->.
    { unfold zdr_malloc, ZDR_MEM_HDR in Ez. cbn in Ez.
      destruct (decide (w = 2 ^ 32 - 1)) as [|Hne]; [done|].
      rewrite u32_id in Ez by solve_width.
      destruct (decide (12 + (w + 1) < 2 ^ 32)).
      - rewrite Hm in Ez by solve_width. done.
      - replace (12 <=? _) with false in Ez by solve_width. by rewrite andb_false_r in Ez. }
    reflexivity.
Qed.

(** An array count that passes the check against UINT32_MAX but whose size passes
    INT_MAX makes [zdr_malloc] write through a NULL pointer before [zdr_array] can check
    it (libnfs-zdr.c:119). *)
Theorem array_decode_crash {T} (zero : T) elsize (p : proc T) z v w :
  zdr_wf z -> malloc_sane z -> x_op z = ZDR_DECODE -> next_word z = Some w ->
  0 < elsize -> w <= UINT32_MAX / elsize -> INT_MAX < w * elsize + ZDR_MEM_HDR ->
  zdr_array zero elsize p z v = UB.
Proof.
  intros Hz Hm Hop Hw He Hle Hbig. pose proof (next_word_range _ _ Hz Hw) as Hr.
  unfold zdr_array. destruct v as [n l]. rewrite u_int_decode, Hw by done. cbn.
  replace (w >? UINT32_MAX / elsize) with false by lia. rewrite Hop.
  assert (w * elsize <= UINT32_MAX).
  { pose proof (Z.mul_div_le UINT32_MAX elsize He). nia. }
  assert (zdr_malloc (set_pos (pos z + 4) z) (u32 (w * elsize)) = None) as ->; [|done].
  unfold zdr_malloc, ZDR_MEM_HDR in *. cbn.
  generalize dependent (w * elsize). intros s Hs1 Hs2.
  rewrite u32_id by solve_width. destruct (decide (12 + s < 2 ^ 32)).
  - rewrite Hm by solve_width. done.
  - replace (12 <=? _) with false by solve_width. by rewrite andb_false_r.
Qed.

(** [zdr_opaque] decodes without a check: a fixed-size field that is cut off by the
    end of the buffer is read past it (libnfs-zdr.c:276). *)
Theorem opaque_decode_unchecked z h n :
  zdr_wf z -> blen (buf z) = size z -> x_op z = ZDR_DECODE -> 0 <= n ->
  size z < pos z + n -> zdr_opaque n z (Heap h) = UB.
Proof.
  intros Hz Hb Hop Hn Hlt. use_wf Hz. unfold zdr_opaque. rewrite Hop. cbn.
  unfold read_at. by replace (_ && _) with false by lia.
Qed.

(** ** Instances *)

Definition accept : Z -> bool := fun _ => true.

Lemma string_roundtrip_witness :
  exists z' t' zr,
    zdr_string (zdrmem_create (zeros 12) 12 ZDR_ENCODE accept) (Heap ([110; 102; 115] ++ [0])) =
      Ret (Heap ([110; 102; 115] ++ [0])) z' /\
    zdr_string (reader (buf z') (pos z') accept) NULL = Ret t' zr /\
    pos zr = pos z' /\ load (buf z') t' (blen [110; 102; 115] + 1) = Some ([110; 102; 115] ++ [0]).
Proof. apply string_roundtrip; [by repeat constructor|done|by vm_compute|by vm_compute|by vm_compute]. Defined.

(** A handle at the start of a length word and [b]. *)
Definition at_length (w : Z) (b : bytes) : ZDR := zdrmem_create (be32 w ++ b) (4 + blen b) ZDR_DECODE accept.

Lemma bytes_decode_bounds_witness :
  zdr_bytes (at_length 3 [1; 2; 3; 0]) (NULL, 0) = Ret (InBuf 4, 3) (set_pos 8 (at_length 3 [1; 2; 3; 0])).
Proof.
  apply (bytes_decode_bounds (at_length 3 [1; 2; 3; 0]) 0 3);
    [split; vm_compute; repeat constructor; done| | |]; by vm_compute.
Defined.

Lemma bytes_decode_overrun_witness :
  (exists z', zdr_bytes (at_length 0x80000000 []) (NULL, 0) = Ret (InBuf 4, 0x80000000) z') /\
  zdr_bytes (at_length 0x7ffffffe []) (NULL, 0) = UB.
Proof.
  split.
  - destruct (bytes_decode_overrun (at_length 0x80000000 []) 0 0x80000000) as [_ (z' & E & _)];
      [split; vm_compute; repeat constructor; done|by vm_compute|by vm_compute|by vm_compute|by vm_compute|by eexists].
  - apply (bytes_decode_overrun (at_length 0x7ffffffe []) 0 0x7ffffffe);
      [split; vm_compute; repeat constructor; done| | | |]; by vm_compute.
Defined.

Definition below_ptrdiff : Z -> bool := fun n => n <? 2 ^ 63.

Lemma string_decode_overrun_witness :
  zdr_string (zdrmem_create (be32 0x80000000) 4 ZDR_DECODE below_ptrdiff) NULL = UB.
Proof.
  apply string_decode_overrun with (w := 0x80000000);
    [split; vm_compute; repeat constructor; done|intros n Hn; cbn; unfold below_ptrdiff; lia| | |]; by vm_compute.
Defined.

Lemma array_decode_crash_witness :
  zdr_array 0 4 zdr_u_int (zdrmem_create (be32 0x20000000) 4 ZDR_DECODE below_ptrdiff) (0, []) = UB.
Proof.
  apply array_decode_crash with (w := 0x20000000);
    [split; vm_compute; repeat constructor; done|intros n Hn; cbn; unfold below_ptrdiff; lia| | | | |]; by vm_compute.
Defined.

Lemma opaque_decode_unchecked_witness :
  zdr_opaque 8 (zdrmem_create (zeros 4) 4 ZDR_DECODE accept) (Heap (zeros 8)) = UB.
Proof. apply opaque_decode_unchecked; [split; vm_compute; repeat constructor; done| | | |]; by vm_compute. Defined.
