(* ===== verification/Xdr.v ===== *)
(** * Xdr: what the routines of rpcgen are made of

    The routines that marshal the data of a protocol are generated: that of a
    struct calls those of its fields one after the other, that of a
    discriminated union that of the discriminant and then that of the member it
    selects.  A struct is a record, seen as the tuple of its fields; a union is
    a record as well, of the views that are taken of it, each by its own
    discriminant: an object that is decoded is cleared before, and only the
    member that is selected is written.

    The routines of a linked list call themselves, once for each of its nodes:
    they are given the number of nodes there may be. *)

From S2P Require Import Prelude Zdr.

(** ** Structs and members of unions *)

Class Iso {A B} (f : A -> B) (g : B -> A) : Prop := { iso_gf : forall a, g (f a) = a; iso_fg : forall b, f (g b) = b }.

(** A member of a union, seen in the union and put into it. *)
Class Variant {A U} (view : U -> A) (inj : A -> U) : Prop := view_inj : forall a, view (inj a) = a.

Definition zdr_member {A U} (view : U -> A) (inj : A -> U) (p : proc A) : proc U := fun z u => res_map inj (p z (view u)).

Ltac tuples := repeat match goal with x : (_ * _)%type |- _ => destruct x end.
Ltac iso := split; [by intros []|intros; by tuples].

(** A struct is marshalled as the tuple of its fields. *)
#[export] Program Instance iso_codec {A B} (f : A -> B) (g : B -> A) (p : proc B) `{!Codec p, !Iso f g} :
    Codec (zdr_via f g p) | 0 := {
  wire a := wire p (f a); okv a := okv p (f a); blank a a0 := blank p (f a) (f a0); same b a a' := same p b (f a) (f a')
}.
Next Obligation. intros A B f g p ? ? a Ha. by apply codec_align. Qed.
Next Obligation.
  intros A B f g p ? ? z a Hop Ha Hr. unfold zdr_via. rewrite codec_enc by done. cbn. by rewrite iso_gf.
Qed.
Next Obligation.
  intros A B f g p ? ? z a a0 Hop Ha Hb Hr Hh Hm. unfold zdr_via.
  destruct (codec_dec z (f a) (f a0)) as (t' & m & -> & Hs); try done.
  exists (g t'), m. by rewrite iso_fg.
Qed.

(** The union holds the member that is selected. *)
#[export] Program Instance member_codec {A U} (view : U -> A) (inj : A -> U) (p : proc A)
    `{!Codec p, !Variant view inj} : Codec (zdr_member view inj p) | 0 := {
  wire u := wire p (view u); okv u := okv p (view u) /\ inj (view u) = u; blank u u0 := blank p (view u) (view u0);
  same b u u' := same p b (view u) (view u') /\ inj (view u') = u'
}.
Next Obligation. intros A U view inj p ? ? u [Hu _]. by apply codec_align. Qed.
Next Obligation.
  intros A U view inj p ? ? z u Hop [Hu E] Hr. unfold zdr_member. rewrite codec_enc by done. cbn. by rewrite E.
Qed.
Next Obligation.
  intros A U view inj p ? ? z u u0 Hop [Hu E] H0 Hr Hh Hm. unfold zdr_member.
  destruct (codec_dec z (view u) (view u0)) as (a' & m & -> & Hs); try done.
  exists (inj a'), m. by rewrite (view_inj (view := view) (inj := inj) a').
Qed.

(** An enumeration is a word. *)
#[export] Program Instance enum_u32_codec : Codec zdr_enum | 0 := {
  wire := be32; okv := is_u32; blank _ _ := True; same _ t t' := t' = t
}.
Next Obligation. reflexivity. Qed.
Next Obligation.
  intros z t Hop Ht Hr. unfold zdr_enum. rewrite u32_i32, u32_id by done. rewrite u_int_enc by done.
  cbn. by rewrite u32_i32, u32_id.
Qed.
Next Obligation.
  intros z t t0 Hop Ht _ Hr Hh _. exists t, (mem z). split; [|done]. unfold zdr_enum.
  rewrite (u_int_dec _ _ (be32 t)) by done. cbn. by rewrite of_be32_be32, u32_i32, !u32_id by (rewrite ?u32_id; done).
Qed.

#[export] Instance enum_exact : Exact zdr_enum.
Proof. by intros b t t' ->. Qed.
#[export] Instance bool_exact : Exact zdr_bool := u_int_exact.

(** There are more nodes than were allowed for. *)
Definition zdr_out_of_fuel {T} : proc T := fun _ _ => UB.
#[export] Program Instance out_of_fuel_codec {T} : Codec (@zdr_out_of_fuel T) := {
  wire _ := []; okv _ := False; blank _ _ := True; same _ _ _ := False
}.
Next Obligation. done. Qed.
Next Obligation. done. Qed.
Next Obligation. done. Qed.

Ltac codec p := unfold p; exact _.

(** ** Cleared objects *)

(** Anything can be decoded over the object [zero]. *)
Class Blank {T} (p : proc T) `{!Codec p} (zero : T) : Prop :=
  blank_zero : forall t, okv p t -> blank p t zero.

#[export] Instance u_int_blank n : Blank zdr_u_int n. Proof. done. Qed.
#[export] Instance int_blank n : Blank zdr_int n. Proof. done. Qed.
#[export] Instance enum_blank n : Blank zdr_enum n. Proof. done. Qed.
#[export] Instance bool_blank n : Blank zdr_bool n. Proof. done. Qed.
#[export] Instance uint64_blank n : Blank zdr_uint64_t n. Proof. done. Qed.
#[export] Instance int64_blank n : Blank zdr_int64_t n. Proof. done. Qed.
#[export] Instance bytes_blank n : Blank zdr_bytes (NULL, n). Proof. done. Qed.
#[export] Instance string_blank p : Blank zdr_string p. Proof. done. Qed.
#[export] Instance opaque_blank n : 0 <= n -> Blank (zdr_opaque n) (Heap (zeros n)).
Proof. intros ? t _. exists (zeros n). by rewrite blen_zeros. Qed.
#[export] Hint Extern 1 (0 <= _) => lia : typeclass_instances.
#[export] Instance void_blank {T} (t : T) : Blank zdr_void t. Proof. done. Qed.
#[export] Instance fail_blank {T} (t : T) : Blank zdr_fail t. Proof. done. Qed.
#[export] Instance out_of_fuel_blank {T} (t : T) : Blank zdr_out_of_fuel t. Proof. done. Qed.
#[export] Instance array_blank {T} (z : T) n (p : proc T) `{!Codec p} v : Blank (zdr_array z n p) v. Proof. done. Qed.
#[export] Instance pointer_blank {T} (z : T) n (p : proc T) `{!Codec p} v : Blank (zdr_pointer z n p) v. Proof. done. Qed.
#[export] Instance seq_blank {A B} (p : proc A) (q : proc B) `{!Codec p, !Codec q} a b :
  Blank p a -> Blank q b -> Blank (zdr_seq p q) (a, b).
Proof. intros Hp Hq t [Ha Hb]. split; [by apply Hp|by apply Hq]. Qed.
#[export] Instance vector_blank {T} (p : proc T) `{!Codec p} n z : Blank p z -> Blank (zdr_vector p (Z.of_nat n)) (replicate n z).
Proof.
  intros Hp l (_ & Hl & Ho). assert (length l = n) as <- by (unfold blen in Hl; lia). clear Hl.
  induction Ho; constructor; auto.
Qed.
#[export] Instance dseq_blank {A B} (p : proc A) (q : A -> proc B) `{!Codec p, !Exact p, !forall a, Codec (q a)} a b :
  Blank p a -> (forall a, Blank (q a) b) -> Blank (zdr_dseq p q) (a, b).
Proof. intros Hp Hq t [Ha Hb]. split; [by apply Hp|by apply Hq]. Qed.
#[export] Instance if_blank {T} (c : bool) (p q : proc T) `{Hp : !Codec p, Hq : !Codec q} t :
  Blank p t -> Blank q t -> Blank (if c then p else q) t.
Proof. by destruct c. Qed.
Lemma iso_blank {A B} (f : A -> B) (g : B -> A) (p : proc B) `{!Codec p, !Iso f g} a : Blank p (f a) -> Blank (zdr_via f g p) a.
Proof. intros Hp t Ht. exact (Hp (f t) Ht). Qed.
Lemma member_blank {A U} (view : U -> A) (inj : A -> U) (p : proc A) `{!Codec p, !Variant view inj} u :
  Blank p (view u) -> Blank (zdr_member view inj p) u.
Proof. intros Hp t [Ht _]. exact (Hp (view t) Ht). Qed.
#[export] Hint Extern 2 (Blank (zdr_vector ?p ?n) _) =>
  let k := eval vm_compute in (Z.to_nat n) in apply (vector_blank p k) : typeclass_instances.
#[export] Hint Extern 2 (Blank (zdr_via ?f _ _) ?a) => let b := eval hnf in (f a) in apply (iso_blank f _ _ a : Blank _ b -> _) : typeclass_instances.
#[export] Hint Extern 2 (Blank (zdr_member ?f _ _) ?a) => let b := eval hnf in (f a) in apply (member_blank f _ _ a : Blank _ b -> _) : typeclass_instances.
Ltac blank p := unfold p; exact _.

(** ** Decoding anything *)

(** A handle that decodes a block of memory, whatever it holds. *)
Record readable (z : ZDR) : Prop := {
  rd_op : x_op z = ZDR_DECODE; rd_pos : 0 <= pos z <= size z; rd_buf : size z <= blen (buf z); rd_int : size z + 16 <= INT_MAX
}.

(** The routine ends, whatever it is given to decode, and reads inside of the
    block. *)
Class Safe {T} (p : proc T) : Prop := safe_decode : forall z t, readable z ->
  match p z t with
  | Ret _ z' | Fls _ z' => readable z' /\ buf z' = buf z /\ size z' = size z /\ pos z <= pos z'
  | UB => False
  end.

Lemma safe_map {A B} (f : A -> B) (p : res A) z :
  match p with
  | Ret _ z' | Fls _ z' => readable z' /\ buf z' = buf z /\ size z' = size z /\ pos z <= pos z'
  | UB => False
  end ->
  match res_map f p with
  | Ret _ z' | Fls _ z' => readable z' /\ buf z' = buf z /\ size z' = size z /\ pos z <= pos z'
  | UB => False
  end.
Proof. by destruct p. Qed.

#[export] Instance u_int_safe : Safe zdr_u_int.
Proof.
  intros z t [Hop Hp Hb Hi]. unfold zdr_u_int. rewrite fits_true by (unfold INT_MAX in *; lia).
  destruct (pos z + 4 >? size z) eqn:E; [by split_and!; [split|..|lia]|]. rewrite Hop.
  unfold read_at. replace (_ && _) with true by lia. split_and!; [split; cbn; (done || lia)|done..|cbn; lia].
Qed.
#[export] Instance uint64_safe : Safe zdr_uint64_t.
Proof.
  intros z t [Hop Hp Hb Hi]. unfold zdr_uint64_t. rewrite fits_true by (unfold INT_MAX in *; lia).
  destruct (pos z + 8 >? size z) eqn:E; [by split_and!; [split|..|lia]|]. rewrite Hop.
  unfold read_at. replace (_ && _) with true by lia. replace (_ && _) with true by lia. split_and!; [split; cbn; (done || lia)|done..|cbn; lia].
Qed.
#[export] Instance int_safe : Safe zdr_int.
Proof. intros z t H. by apply safe_map, u_int_safe. Qed.
#[export] Instance int64_safe : Safe zdr_int64_t.
Proof. intros z t H. by apply safe_map, uint64_safe. Qed.
#[export] Instance enum_safe : Safe zdr_enum.
Proof. intros z t H. by apply safe_map, u_int_safe. Qed.
#[export] Instance bool_safe : Safe zdr_bool := u_int_safe.
#[export] Instance void_safe {T} : Safe (@zdr_void T).
Proof. intros z t H. by split_and!. Qed.
#[export] Instance fail_safe {T} : Safe (@zdr_fail T).
Proof. intros z t H. by split_and!. Qed.
#[export] Instance seq_safe {A B} (p : proc A) (q : proc B) : Safe p -> Safe q -> Safe (zdr_seq p q).
Proof.
  intros Hp Hq z [a b] H. unfold zdr_seq. specialize (Hp z a H). destruct (p z a) as [a' z'|a' z'|]; [|done..].
  destruct Hp as (H' & E1 & E2 & Hle). apply safe_map. specialize (Hq z' b H'). rewrite E1, E2 in Hq.
  destruct (q z' b); [|by intuition lia..]. by intuition lia.
Qed.
#[export] Instance dseq_safe {A B} (p : proc A) (q : A -> proc B) : Safe p -> (forall a, Safe (q a)) -> Safe (zdr_dseq p q).
Proof.
  intros Hp Hq z [a b] H. unfold zdr_dseq. specialize (Hp z a H). destruct (p z a) as [a' z'|a' z'|]; [|done..].
  destruct Hp as (H' & E1 & E2 & Hle). apply safe_map. specialize (Hq a' z' b H'). rewrite E1, E2 in Hq.
  destruct (q a' z' b); [|by intuition lia..]. by intuition lia.
Qed.
#[export] Instance via_safe {A B} (f : A -> B) (g : B -> A) (p : proc B) : Safe p -> Safe (zdr_via f g p).
Proof. intros Hp z a H. by apply safe_map, Hp. Qed.
#[export] Instance member_safe {A U} (view : U -> A) (inj : A -> U) (p : proc A) : Safe p -> Safe (zdr_member view inj p).
Proof. intros Hp z a H. by apply safe_map, Hp. Qed.
#[export] Instance if_safe {T} (c : bool) (p q : proc T) : Safe p -> Safe q -> Safe (if c then p else q).
Proof. by destruct c. Qed.
Ltac safe p := unfold p; exact _.

(** ** A length that is looked at *)

(** The word that follows is read, or written, and gone back over: what comes
    after it is read, or written, in another way. *)
Definition zdr_peek_len : proc (ptr * Z) := fun z '(p, n) =>
  match zdr_u_int z n with
  | Ret n z' => Ret (p, n) (zdr_setpos z' (zdr_getpos z))
  | Fls n z' => Fls (p, n) z'
  | UB => UB
  end.
#[export] Program Instance peek_len_codec : Codec zdr_peek_len := {
  wire _ := []; okv _ := False; blank _ _ := True; same _ _ _ := False
}.
Next Obligation. done. Qed.
Next Obligation. done. Qed.
Next Obligation. done. Qed.
#[export] Instance peek_len_blank v : Blank zdr_peek_len v. Proof. done. Qed.
