(* ===== verification/Nfs3Xdr.v ===== *)
(** * Nfs3Xdr: the data of NFS versions 2 and 3 (nfs/libnfs-raw-nfs.c and .h)

    The objects of the protocol, and of the one for access control lists, with
    the routines that marshal them.  A member of a struct has the name of the
    struct in front of its own.  A union is what its last member written is, or
    cleared; members of one type are seen in each other.  The [int32_t *buf] that the routines ask for is always NULL.  *)

From S2P Require Import Prelude Zdr Xdr.

#[local] Open Scope zdr_scope.
#[local] Set Warnings "-register-all".

Module X3.
Definition NFS3_OK : Z := 0.
Definition SET_TO_CLIENT_TIME : Z := 2.
Definition UNCHECKED : Z := 0.
Definition GUARDED : Z := 1.
Definition EXCLUSIVE : Z := 2.
Definition NF3CHR : Z := 4.
Definition NF3BLK : Z := 3.
Definition NF3SOCK : Z := 6.
Definition NF3FIFO : Z := 7.

Definition zdr_cookieverf3 : proc ptr := zdr_opaque 8.
Definition zdr_cookie3 : proc Z := zdr_uint64_t.
Record nfs_fh3 := mknfs_fh3 {
  nfs_fh3_data : ptr * Z
}.
Definition zero_nfs_fh3 : nfs_fh3 := mknfs_fh3 (NULL, 0).
Definition fields_nfs_fh3 (x : nfs_fh3) := nfs_fh3_data x.
Definition make_nfs_fh3 (t : (ptr * Z)) : nfs_fh3 := mknfs_fh3 t.
#[global] Instance nfs_fh3_iso : Iso fields_nfs_fh3 make_nfs_fh3. Proof. iso. Qed.
Definition zdr_nfs_fh3 : proc nfs_fh3 := zdr_via fields_nfs_fh3 make_nfs_fh3 (zdr_bytes).
#[global] Instance nfs_fh3_codec : Codec zdr_nfs_fh3. Proof. codec zdr_nfs_fh3. Defined.
#[global] Instance nfs_fh3_blank : Blank zdr_nfs_fh3 zero_nfs_fh3. Proof. blank zdr_nfs_fh3. Qed.

Definition zdr_filename3 : proc ptr := zdr_string.
Record diropargs3 := mkdiropargs3 {
  diropargs3_dir : nfs_fh3; diropargs3_name : ptr
}.
Definition zero_diropargs3 : diropargs3 := mkdiropargs3 zero_nfs_fh3 NULL.
Definition fields_diropargs3 (x : diropargs3) := (diropargs3_dir x, diropargs3_name x).
Definition make_diropargs3 (t : (nfs_fh3 * ptr)) : diropargs3 := mkdiropargs3 t.1 t.2.
#[global] Instance diropargs3_iso : Iso fields_diropargs3 make_diropargs3. Proof. iso. Qed.
Definition zdr_diropargs3 : proc diropargs3 := zdr_via fields_diropargs3 make_diropargs3 (zdr_nfs_fh3 >>> zdr_filename3).
#[global] Instance diropargs3_codec : Codec zdr_diropargs3. Proof. codec zdr_diropargs3. Defined.
#[global] Instance diropargs3_blank : Blank zdr_diropargs3 zero_diropargs3. Proof. blank zdr_diropargs3. Qed.

Definition zdr_ftype3 : proc Z := zdr_enum.
Definition zdr_mode3 : proc Z := zdr_u_int.
Definition zdr_uid3 : proc Z := zdr_u_int.
Definition zdr_gid3 : proc Z := zdr_u_int.
Definition zdr_size3 : proc Z := zdr_uint64_t.
Definition zdr_fileid3 : proc Z := zdr_uint64_t.
Record specdata3 := mkspecdata3 {
  specdata3_specdata1 : Z; specdata3_specdata2 : Z
}.
Definition zero_specdata3 : specdata3 := mkspecdata3 0 0.
Definition fields_specdata3 (x : specdata3) := (specdata3_specdata1 x, specdata3_specdata2 x).
Definition make_specdata3 (t : (Z * Z)) : specdata3 := mkspecdata3 t.1 t.2.
#[global] Instance specdata3_iso : Iso fields_specdata3 make_specdata3. Proof. iso. Qed.
Definition zdr_specdata3 : proc specdata3 := zdr_via fields_specdata3 make_specdata3 (zdr_u_int >>> zdr_u_int).
#[global] Instance specdata3_codec : Codec zdr_specdata3. Proof. codec zdr_specdata3. Defined.
#[global] Instance specdata3_blank : Blank zdr_specdata3 zero_specdata3. Proof. blank zdr_specdata3. Qed.
#[global] Instance specdata3_safe : Safe zdr_specdata3. Proof. safe zdr_specdata3. Qed.

Record nfstime3 := mknfstime3 {
  nfstime3_seconds : Z; nfstime3_nseconds : Z
}.
Definition zero_nfstime3 : nfstime3 := mknfstime3 0 0.
Definition fields_nfstime3 (x : nfstime3) := (nfstime3_seconds x, nfstime3_nseconds x).
Definition make_nfstime3 (t : (Z * Z)) : nfstime3 := mknfstime3 t.1 t.2.
#[global] Instance nfstime3_iso : Iso fields_nfstime3 make_nfstime3. Proof. iso. Qed.
Definition zdr_nfstime3 : proc nfstime3 := zdr_via fields_nfstime3 make_nfstime3 (zdr_u_int >>> zdr_u_int).
#[global] Instance nfstime3_codec : Codec zdr_nfstime3. Proof. codec zdr_nfstime3. Defined.
#[global] Instance nfstime3_blank : Blank zdr_nfstime3 zero_nfstime3. Proof. blank zdr_nfstime3. Qed.
#[global] Instance nfstime3_safe : Safe zdr_nfstime3. Proof. safe zdr_nfstime3. Qed.

Record fattr3 := mkfattr3 {
    fattr3_type : Z; fattr3_mode : Z; fattr3_nlink : Z; fattr3_uid : Z; fattr3_gid : Z; fattr3_size : Z; fattr3_used : Z;
    fattr3_rdev : specdata3; fattr3_fsid : Z; fattr3_fileid : Z; fattr3_atime : nfstime3; fattr3_mtime : nfstime3;
    fattr3_ctime : nfstime3
}.
Definition zero_fattr3 : fattr3 := mkfattr3 0 0 0 0 0 0 0 zero_specdata3 0 0 zero_nfstime3 zero_nfstime3 zero_nfstime3.
Definition fields_fattr3 (x : fattr3) := (fattr3_type x, (fattr3_mode x, (fattr3_nlink x, (fattr3_uid x, (fattr3_gid x,
  (fattr3_size x, (fattr3_used x, (fattr3_rdev x, (fattr3_fsid x, (fattr3_fileid x, (fattr3_atime x, (fattr3_mtime x,
  fattr3_ctime x)))))))))))).
Definition make_fattr3 (t : (Z * (Z * (Z * (Z * (Z * (Z * (Z * (specdata3 * (Z * (Z * (nfstime3 * (nfstime3 *
  nfstime3))))))))))))) : fattr3 := mkfattr3 t.1 t.2.1 t.2.2.1 t.2.2.2.1 t.2.2.2.2.1 t.2.2.2.2.2.1 t.2.2.2.2.2.2.1
  t.2.2.2.2.2.2.2.1 t.2.2.2.2.2.2.2.2.1 t.2.2.2.2.2.2.2.2.2.1 t.2.2.2.2.2.2.2.2.2.2.1 t.2.2.2.2.2.2.2.2.2.2.2.1
  t.2.2.2.2.2.2.2.2.2.2.2.2.
#[global] Instance fattr3_iso : Iso fields_fattr3 make_fattr3. Proof. iso. Qed.
Definition zdr_fattr3 : proc fattr3 := zdr_via fields_fattr3 make_fattr3 (zdr_ftype3 >>> zdr_mode3 >>> zdr_u_int >>>
  zdr_uid3 >>> zdr_gid3 >>> zdr_size3 >>> zdr_size3 >>> zdr_specdata3 >>> zdr_uint64_t >>> zdr_fileid3 >>> zdr_nfstime3
  >>> zdr_nfstime3 >>> zdr_nfstime3).
#[global] Instance fattr3_codec : Codec zdr_fattr3. Proof. codec zdr_fattr3. Defined.
#[global] Instance fattr3_blank : Blank zdr_fattr3 zero_fattr3. Proof. blank zdr_fattr3. Qed.
#[global] Instance fattr3_safe : Safe zdr_fattr3. Proof. safe zdr_fattr3. Qed.

Inductive post_op_attr_union := post_op_attr_cleared | post_op_attr_attributes (x : fattr3).
Record post_op_attr := mkpost_op_attr { post_op_attr_attributes_follow : Z; post_op_attr_u : post_op_attr_union }.
Definition zero_post_op_attr : post_op_attr := mkpost_op_attr 0 post_op_attr_cleared.
Definition fields_post_op_attr (x : post_op_attr) := (post_op_attr_attributes_follow x, post_op_attr_u x).
Definition make_post_op_attr (t : (Z * post_op_attr_union)) : post_op_attr := mkpost_op_attr t.1 t.2.
#[global] Instance post_op_attr_iso : Iso fields_post_op_attr make_post_op_attr. Proof. iso. Qed.
Definition as_post_op_attr_attributes (u : post_op_attr_union) : fattr3 := match u with post_op_attr_attributes x => x | _
  => zero_fattr3 end.
#[global] Instance post_op_attr_attributes_member : Variant as_post_op_attr_attributes post_op_attr_attributes. Proof.
  done. Qed.
Definition case_post_op_attr (d : Z) : proc post_op_attr_union :=
  if (d =? 1) then zdr_member as_post_op_attr_attributes post_op_attr_attributes zdr_fattr3
  else if (d =? 0) then zdr_void
  else zdr_fail.
#[global] Instance case_post_op_attr_codec d : Codec (case_post_op_attr d). Proof. codec case_post_op_attr. Defined.
#[global] Instance case_post_op_attr_blank d : Blank (case_post_op_attr d) post_op_attr_cleared. Proof. blank
  case_post_op_attr. Qed.
#[global] Instance case_post_op_attr_safe d : Safe (case_post_op_attr d). Proof. safe case_post_op_attr. Qed.
Definition zdr_post_op_attr : proc post_op_attr := zdr_via fields_post_op_attr make_post_op_attr (zdr_dseq zdr_bool
  (case_post_op_attr)).
#[global] Instance post_op_attr_codec : Codec zdr_post_op_attr. Proof. codec zdr_post_op_attr. Defined.
#[global] Instance post_op_attr_blank : Blank zdr_post_op_attr zero_post_op_attr. Proof. blank zdr_post_op_attr. Qed.
#[global] Instance post_op_attr_safe : Safe zdr_post_op_attr. Proof. safe zdr_post_op_attr. Qed.

Definition zdr_nfsstat3 : proc Z := zdr_enum.
Definition zdr_stable_how : proc Z := zdr_enum.
Definition zdr_offset3 : proc Z := zdr_uint64_t.
Definition zdr_count3 : proc Z := zdr_u_int.
Record wcc_attr := mkwcc_attr {
  wcc_attr_size : Z; wcc_attr_mtime : nfstime3; wcc_attr_ctime : nfstime3
}.
Definition zero_wcc_attr : wcc_attr := mkwcc_attr 0 zero_nfstime3 zero_nfstime3.
Definition fields_wcc_attr (x : wcc_attr) := (wcc_attr_size x, (wcc_attr_mtime x, wcc_attr_ctime x)).
Definition make_wcc_attr (t : (Z * (nfstime3 * nfstime3))) : wcc_attr := mkwcc_attr t.1 t.2.1 t.2.2.
#[global] Instance wcc_attr_iso : Iso fields_wcc_attr make_wcc_attr. Proof. iso. Qed.
Definition zdr_wcc_attr : proc wcc_attr := zdr_via fields_wcc_attr make_wcc_attr (zdr_size3 >>> zdr_nfstime3 >>>
  zdr_nfstime3).
#[global] Instance wcc_attr_codec : Codec zdr_wcc_attr. Proof. codec zdr_wcc_attr. Defined.
#[global] Instance wcc_attr_blank : Blank zdr_wcc_attr zero_wcc_attr. Proof. blank zdr_wcc_attr. Qed.
#[global] Instance wcc_attr_safe : Safe zdr_wcc_attr. Proof. safe zdr_wcc_attr. Qed.

Inductive pre_op_attr_union := pre_op_attr_cleared | pre_op_attr_attributes (x : wcc_attr).
Record pre_op_attr := mkpre_op_attr { pre_op_attr_attributes_follow : Z; pre_op_attr_u : pre_op_attr_union }.
Definition zero_pre_op_attr : pre_op_attr := mkpre_op_attr 0 pre_op_attr_cleared.
Definition fields_pre_op_attr (x : pre_op_attr) := (pre_op_attr_attributes_follow x, pre_op_attr_u x).
Definition make_pre_op_attr (t : (Z * pre_op_attr_union)) : pre_op_attr := mkpre_op_attr t.1 t.2.
#[global] Instance pre_op_attr_iso : Iso fields_pre_op_attr make_pre_op_attr. Proof. iso. Qed.
Definition as_pre_op_attr_attributes (u : pre_op_attr_union) : wcc_attr := match u with pre_op_attr_attributes x => x | _
  => zero_wcc_attr end.
#[global] Instance pre_op_attr_attributes_member : Variant as_pre_op_attr_attributes pre_op_attr_attributes. Proof. done.
  Qed.
Definition case_pre_op_attr (d : Z) : proc pre_op_attr_union :=
  if (d =? 1) then zdr_member as_pre_op_attr_attributes pre_op_attr_attributes zdr_wcc_attr
  else if (d =? 0) then zdr_void
  else zdr_fail.
#[global] Instance case_pre_op_attr_codec d : Codec (case_pre_op_attr d). Proof. codec case_pre_op_attr. Defined.
#[global] Instance case_pre_op_attr_blank d : Blank (case_pre_op_attr d) pre_op_attr_cleared. Proof. blank
  case_pre_op_attr. Qed.
#[global] Instance case_pre_op_attr_safe d : Safe (case_pre_op_attr d). Proof. safe case_pre_op_attr. Qed.
Definition zdr_pre_op_attr : proc pre_op_attr := zdr_via fields_pre_op_attr make_pre_op_attr (zdr_dseq zdr_bool
  (case_pre_op_attr)).
#[global] Instance pre_op_attr_codec : Codec zdr_pre_op_attr. Proof. codec zdr_pre_op_attr. Defined.
#[global] Instance pre_op_attr_blank : Blank zdr_pre_op_attr zero_pre_op_attr. Proof. blank zdr_pre_op_attr. Qed.
#[global] Instance pre_op_attr_safe : Safe zdr_pre_op_attr. Proof. safe zdr_pre_op_attr. Qed.

Record wcc_data := mkwcc_data {
  wcc_data_before : pre_op_attr; wcc_data_after : post_op_attr
}.
Definition zero_wcc_data : wcc_data := mkwcc_data zero_pre_op_attr zero_post_op_attr.
Definition fields_wcc_data (x : wcc_data) := (wcc_data_before x, wcc_data_after x).
Definition make_wcc_data (t : (pre_op_attr * post_op_attr)) : wcc_data := mkwcc_data t.1 t.2.
#[global] Instance wcc_data_iso : Iso fields_wcc_data make_wcc_data. Proof. iso. Qed.
Definition zdr_wcc_data : proc wcc_data := zdr_via fields_wcc_data make_wcc_data (zdr_pre_op_attr >>> zdr_post_op_attr).
#[global] Instance wcc_data_codec : Codec zdr_wcc_data. Proof. codec zdr_wcc_data. Defined.
#[global] Instance wcc_data_blank : Blank zdr_wcc_data zero_wcc_data. Proof. blank zdr_wcc_data. Qed.
#[global] Instance wcc_data_safe : Safe zdr_wcc_data. Proof. safe zdr_wcc_data. Qed.

Record WRITE3args := mkWRITE3args {
  WRITE3args_file : nfs_fh3; WRITE3args_offset : Z; WRITE3args_count : Z; WRITE3args_stable : Z; WRITE3args_data : ptr * Z
}.
Definition zero_WRITE3args : WRITE3args := mkWRITE3args zero_nfs_fh3 0 0 0 (NULL, 0).
Definition fields_WRITE3args (x : WRITE3args) := (WRITE3args_file x, (WRITE3args_offset x, (WRITE3args_count x,
  (WRITE3args_stable x, WRITE3args_data x)))).
Definition make_WRITE3args (t : (nfs_fh3 * (Z * (Z * (Z * (ptr * Z)))))) : WRITE3args := mkWRITE3args t.1 t.2.1 t.2.2.1
  t.2.2.2.1 t.2.2.2.2.
#[global] Instance WRITE3args_iso : Iso fields_WRITE3args make_WRITE3args. Proof. iso. Qed.
Definition zdr_WRITE3args : proc WRITE3args := zdr_via fields_WRITE3args make_WRITE3args (zdr_nfs_fh3 >>> zdr_offset3 >>>
  zdr_count3 >>> zdr_stable_how >>> zdr_bytes).
#[global] Instance WRITE3args_codec : Codec zdr_WRITE3args. Proof. codec zdr_WRITE3args. Defined.
#[global] Instance WRITE3args_blank : Blank zdr_WRITE3args zero_WRITE3args. Proof. blank zdr_WRITE3args. Qed.

Definition zdr_writeverf3 : proc ptr := zdr_opaque 8.
Record WRITE3resok := mkWRITE3resok {
  WRITE3resok_file_wcc : wcc_data; WRITE3resok_count : Z; WRITE3resok_committed : Z; WRITE3resok_verf : ptr
}.
Definition zero_WRITE3resok : WRITE3resok := mkWRITE3resok zero_wcc_data 0 0 (Heap (zeros 8)).
Definition fields_WRITE3resok (x : WRITE3resok) := (WRITE3resok_file_wcc x, (WRITE3resok_count x, (WRITE3resok_committed
  x, WRITE3resok_verf x))).
Definition make_WRITE3resok (t : (wcc_data * (Z * (Z * ptr)))) : WRITE3resok := mkWRITE3resok t.1 t.2.1 t.2.2.1 t.2.2.2.
#[global] Instance WRITE3resok_iso : Iso fields_WRITE3resok make_WRITE3resok. Proof. iso. Qed.
Definition zdr_WRITE3resok : proc WRITE3resok := zdr_via fields_WRITE3resok make_WRITE3resok (zdr_wcc_data >>> zdr_count3
  >>> zdr_stable_how >>> zdr_writeverf3).
#[global] Instance WRITE3resok_codec : Codec zdr_WRITE3resok. Proof. codec zdr_WRITE3resok. Defined.
#[global] Instance WRITE3resok_blank : Blank zdr_WRITE3resok zero_WRITE3resok. Proof. blank zdr_WRITE3resok. Qed.

Record WRITE3resfail := mkWRITE3resfail {
  WRITE3resfail_file_wcc : wcc_data
}.
Definition zero_WRITE3resfail : WRITE3resfail := mkWRITE3resfail zero_wcc_data.
Definition fields_WRITE3resfail (x : WRITE3resfail) := WRITE3resfail_file_wcc x.
Definition make_WRITE3resfail (t : wcc_data) : WRITE3resfail := mkWRITE3resfail t.
#[global] Instance WRITE3resfail_iso : Iso fields_WRITE3resfail make_WRITE3resfail. Proof. iso. Qed.
Definition zdr_WRITE3resfail : proc WRITE3resfail := zdr_via fields_WRITE3resfail make_WRITE3resfail (zdr_wcc_data).
#[global] Instance WRITE3resfail_codec : Codec zdr_WRITE3resfail. Proof. codec zdr_WRITE3resfail. Defined.
#[global] Instance WRITE3resfail_blank : Blank zdr_WRITE3resfail zero_WRITE3resfail. Proof. blank zdr_WRITE3resfail. Qed.
#[global] Instance WRITE3resfail_safe : Safe zdr_WRITE3resfail. Proof. safe zdr_WRITE3resfail. Qed.

Inductive WRITE3res_union := WRITE3res_cleared | WRITE3res_resok (x : WRITE3resok) | WRITE3res_resfail (x : WRITE3resfail).
Record WRITE3res := mkWRITE3res { WRITE3res_status : Z; WRITE3res_u : WRITE3res_union }.
Definition zero_WRITE3res : WRITE3res := mkWRITE3res 0 WRITE3res_cleared.
Definition fields_WRITE3res (x : WRITE3res) := (WRITE3res_status x, WRITE3res_u x).
Definition make_WRITE3res (t : (Z * WRITE3res_union)) : WRITE3res := mkWRITE3res t.1 t.2.
#[global] Instance WRITE3res_iso : Iso fields_WRITE3res make_WRITE3res. Proof. iso. Qed.
Definition as_WRITE3res_resok (u : WRITE3res_union) : WRITE3resok := match u with WRITE3res_resok x => x | _ =>
  zero_WRITE3resok end.
#[global] Instance WRITE3res_resok_member : Variant as_WRITE3res_resok WRITE3res_resok. Proof. done. Qed.
Definition as_WRITE3res_resfail (u : WRITE3res_union) : WRITE3resfail := match u with WRITE3res_resfail x => x | _ =>
  zero_WRITE3resfail end.
#[global] Instance WRITE3res_resfail_member : Variant as_WRITE3res_resfail WRITE3res_resfail. Proof. done. Qed.
Definition case_WRITE3res (d : Z) : proc WRITE3res_union :=
  if (d =? NFS3_OK) then zdr_member as_WRITE3res_resok WRITE3res_resok zdr_WRITE3resok
  else zdr_member as_WRITE3res_resfail WRITE3res_resfail zdr_WRITE3resfail.
#[global] Instance case_WRITE3res_codec d : Codec (case_WRITE3res d). Proof. codec case_WRITE3res. Defined.
#[global] Instance case_WRITE3res_blank d : Blank (case_WRITE3res d) WRITE3res_cleared. Proof. blank case_WRITE3res. Qed.
Definition zdr_WRITE3res : proc WRITE3res := zdr_via fields_WRITE3res make_WRITE3res (zdr_dseq zdr_nfsstat3
  (case_WRITE3res)).
#[global] Instance WRITE3res_codec : Codec zdr_WRITE3res. Proof. codec zdr_WRITE3res. Defined.
#[global] Instance WRITE3res_blank : Blank zdr_WRITE3res zero_WRITE3res. Proof. blank zdr_WRITE3res. Qed.

Record LOOKUP3args := mkLOOKUP3args {
  LOOKUP3args_what : diropargs3
}.
Definition zero_LOOKUP3args : LOOKUP3args := mkLOOKUP3args zero_diropargs3.
Definition fields_LOOKUP3args (x : LOOKUP3args) := LOOKUP3args_what x.
Definition make_LOOKUP3args (t : diropargs3) : LOOKUP3args := mkLOOKUP3args t.
#[global] Instance LOOKUP3args_iso : Iso fields_LOOKUP3args make_LOOKUP3args. Proof. iso. Qed.
Definition zdr_LOOKUP3args : proc LOOKUP3args := zdr_via fields_LOOKUP3args make_LOOKUP3args (zdr_diropargs3).
#[global] Instance LOOKUP3args_codec : Codec zdr_LOOKUP3args. Proof. codec zdr_LOOKUP3args. Defined.
#[global] Instance LOOKUP3args_blank : Blank zdr_LOOKUP3args zero_LOOKUP3args. Proof. blank zdr_LOOKUP3args. Qed.

Record LOOKUP3resok := mkLOOKUP3resok {
  LOOKUP3resok_object : nfs_fh3; LOOKUP3resok_obj_attributes : post_op_attr; LOOKUP3resok_dir_attributes : post_op_attr
}.
Definition zero_LOOKUP3resok : LOOKUP3resok := mkLOOKUP3resok zero_nfs_fh3 zero_post_op_attr zero_post_op_attr.
Definition fields_LOOKUP3resok (x : LOOKUP3resok) := (LOOKUP3resok_object x, (LOOKUP3resok_obj_attributes x,
  LOOKUP3resok_dir_attributes x)).
Definition make_LOOKUP3resok (t : (nfs_fh3 * (post_op_attr * post_op_attr))) : LOOKUP3resok := mkLOOKUP3resok t.1 t.2.1
  t.2.2.
#[global] Instance LOOKUP3resok_iso : Iso fields_LOOKUP3resok make_LOOKUP3resok. Proof. iso. Qed.
Definition zdr_LOOKUP3resok : proc LOOKUP3resok := zdr_via fields_LOOKUP3resok make_LOOKUP3resok (zdr_nfs_fh3 >>>
  zdr_post_op_attr >>> zdr_post_op_attr).
#[global] Instance LOOKUP3resok_codec : Codec zdr_LOOKUP3resok. Proof. codec zdr_LOOKUP3resok. Defined.
#[global] Instance LOOKUP3resok_blank : Blank zdr_LOOKUP3resok zero_LOOKUP3resok. Proof. blank zdr_LOOKUP3resok. Qed.

Record LOOKUP3resfail := mkLOOKUP3resfail {
  LOOKUP3resfail_dir_attributes : post_op_attr
}.
Definition zero_LOOKUP3resfail : LOOKUP3resfail := mkLOOKUP3resfail zero_post_op_attr.
Definition fields_LOOKUP3resfail (x : LOOKUP3resfail) := LOOKUP3resfail_dir_attributes x.
Definition make_LOOKUP3resfail (t : post_op_attr) : LOOKUP3resfail := mkLOOKUP3resfail t.
#[global] Instance LOOKUP3resfail_iso : Iso fields_LOOKUP3resfail make_LOOKUP3resfail. Proof. iso. Qed.
Definition zdr_LOOKUP3resfail : proc LOOKUP3resfail := zdr_via fields_LOOKUP3resfail make_LOOKUP3resfail (zdr_post_op_attr).
#[global] Instance LOOKUP3resfail_codec : Codec zdr_LOOKUP3resfail. Proof. codec zdr_LOOKUP3resfail. Defined.
#[global] Instance LOOKUP3resfail_blank : Blank zdr_LOOKUP3resfail zero_LOOKUP3resfail. Proof. blank zdr_LOOKUP3resfail. Qed.
#[global] Instance LOOKUP3resfail_safe : Safe zdr_LOOKUP3resfail. Proof. safe zdr_LOOKUP3resfail. Qed.

Inductive LOOKUP3res_union := LOOKUP3res_cleared | LOOKUP3res_resok (x : LOOKUP3resok) | LOOKUP3res_resfail (x :
  LOOKUP3resfail).
Record LOOKUP3res := mkLOOKUP3res { LOOKUP3res_status : Z; LOOKUP3res_u : LOOKUP3res_union }.
Definition zero_LOOKUP3res : LOOKUP3res := mkLOOKUP3res 0 LOOKUP3res_cleared.
Definition fields_LOOKUP3res (x : LOOKUP3res) := (LOOKUP3res_status x, LOOKUP3res_u x).
Definition make_LOOKUP3res (t : (Z * LOOKUP3res_union)) : LOOKUP3res := mkLOOKUP3res t.1 t.2.
#[global] Instance LOOKUP3res_iso : Iso fields_LOOKUP3res make_LOOKUP3res. Proof. iso. Qed.
Definition as_LOOKUP3res_resok (u : LOOKUP3res_union) : LOOKUP3resok := match u with LOOKUP3res_resok x => x | _ =>
  zero_LOOKUP3resok end.
#[global] Instance LOOKUP3res_resok_member : Variant as_LOOKUP3res_resok LOOKUP3res_resok. Proof. done. Qed.
Definition as_LOOKUP3res_resfail (u : LOOKUP3res_union) : LOOKUP3resfail := match u with LOOKUP3res_resfail x => x | _ =>
  zero_LOOKUP3resfail end.
#[global] Instance LOOKUP3res_resfail_member : Variant as_LOOKUP3res_resfail LOOKUP3res_resfail. Proof. done. Qed.
Definition case_LOOKUP3res (d : Z) : proc LOOKUP3res_union :=
  if (d =? NFS3_OK) then zdr_member as_LOOKUP3res_resok LOOKUP3res_resok zdr_LOOKUP3resok
  else zdr_member as_LOOKUP3res_resfail LOOKUP3res_resfail zdr_LOOKUP3resfail.
#[global] Instance case_LOOKUP3res_codec d : Codec (case_LOOKUP3res d). Proof. codec case_LOOKUP3res. Defined.
#[global] Instance case_LOOKUP3res_blank d : Blank (case_LOOKUP3res d) LOOKUP3res_cleared. Proof. blank case_LOOKUP3res. Qed.
Definition zdr_LOOKUP3res : proc LOOKUP3res := zdr_via fields_LOOKUP3res make_LOOKUP3res (zdr_dseq zdr_nfsstat3
  (case_LOOKUP3res)).
#[global] Instance LOOKUP3res_codec : Codec zdr_LOOKUP3res. Proof. codec zdr_LOOKUP3res. Defined.
#[global] Instance LOOKUP3res_blank : Blank zdr_LOOKUP3res zero_LOOKUP3res. Proof. blank zdr_LOOKUP3res. Qed.

Record COMMIT3args := mkCOMMIT3args {
  COMMIT3args_file : nfs_fh3; COMMIT3args_offset : Z; COMMIT3args_count : Z
}.
Definition zero_COMMIT3args : COMMIT3args := mkCOMMIT3args zero_nfs_fh3 0 0.
Definition fields_COMMIT3args (x : COMMIT3args) := (COMMIT3args_file x, (COMMIT3args_offset x, COMMIT3args_count x)).
Definition make_COMMIT3args (t : (nfs_fh3 * (Z * Z))) : COMMIT3args := mkCOMMIT3args t.1 t.2.1 t.2.2.
#[global] Instance COMMIT3args_iso : Iso fields_COMMIT3args make_COMMIT3args. Proof. iso. Qed.
Definition zdr_COMMIT3args : proc COMMIT3args := zdr_via fields_COMMIT3args make_COMMIT3args (zdr_nfs_fh3 >>> zdr_offset3
  >>> zdr_count3).
#[global] Instance COMMIT3args_codec : Codec zdr_COMMIT3args. Proof. codec zdr_COMMIT3args. Defined.
#[global] Instance COMMIT3args_blank : Blank zdr_COMMIT3args zero_COMMIT3args. Proof. blank zdr_COMMIT3args. Qed.

Record COMMIT3resok := mkCOMMIT3resok {
  COMMIT3resok_file_wcc : wcc_data; COMMIT3resok_verf : ptr
}.
Definition zero_COMMIT3resok : COMMIT3resok := mkCOMMIT3resok zero_wcc_data (Heap (zeros 8)).
Definition fields_COMMIT3resok (x : COMMIT3resok) := (COMMIT3resok_file_wcc x, COMMIT3resok_verf x).
Definition make_COMMIT3resok (t : (wcc_data * ptr)) : COMMIT3resok := mkCOMMIT3resok t.1 t.2.
#[global] Instance COMMIT3resok_iso : Iso fields_COMMIT3resok make_COMMIT3resok. Proof. iso. Qed.
Definition zdr_COMMIT3resok : proc COMMIT3resok := zdr_via fields_COMMIT3resok make_COMMIT3resok (zdr_wcc_data >>>
  zdr_writeverf3).
#[global] Instance COMMIT3resok_codec : Codec zdr_COMMIT3resok. Proof. codec zdr_COMMIT3resok. Defined.
#[global] Instance COMMIT3resok_blank : Blank zdr_COMMIT3resok zero_COMMIT3resok. Proof. blank zdr_COMMIT3resok. Qed.

Record COMMIT3resfail := mkCOMMIT3resfail {
  COMMIT3resfail_file_wcc : wcc_data
}.
Definition zero_COMMIT3resfail : COMMIT3resfail := mkCOMMIT3resfail zero_wcc_data.
Definition fields_COMMIT3resfail (x : COMMIT3resfail) := COMMIT3resfail_file_wcc x.
Definition make_COMMIT3resfail (t : wcc_data) : COMMIT3resfail := mkCOMMIT3resfail t.
#[global] Instance COMMIT3resfail_iso : Iso fields_COMMIT3resfail make_COMMIT3resfail. Proof. iso. Qed.
Definition zdr_COMMIT3resfail : proc COMMIT3resfail := zdr_via fields_COMMIT3resfail make_COMMIT3resfail (zdr_wcc_data).
#[global] Instance COMMIT3resfail_codec : Codec zdr_COMMIT3resfail. Proof. codec zdr_COMMIT3resfail. Defined.
#[global] Instance COMMIT3resfail_blank : Blank zdr_COMMIT3resfail zero_COMMIT3resfail. Proof. blank zdr_COMMIT3resfail. Qed.
#[global] Instance COMMIT3resfail_safe : Safe zdr_COMMIT3resfail. Proof. safe zdr_COMMIT3resfail. Qed.

Inductive COMMIT3res_union := COMMIT3res_cleared | COMMIT3res_resok (x : COMMIT3resok) | COMMIT3res_resfail (x :
  COMMIT3resfail).
Record COMMIT3res := mkCOMMIT3res { COMMIT3res_status : Z; COMMIT3res_u : COMMIT3res_union }.
Definition zero_COMMIT3res : COMMIT3res := mkCOMMIT3res 0 COMMIT3res_cleared.
Definition fields_COMMIT3res (x : COMMIT3res) := (COMMIT3res_status x, COMMIT3res_u x).
Definition make_COMMIT3res (t : (Z * COMMIT3res_union)) : COMMIT3res := mkCOMMIT3res t.1 t.2.
#[global] Instance COMMIT3res_iso : Iso fields_COMMIT3res make_COMMIT3res. Proof. iso. Qed.
Definition as_COMMIT3res_resok (u : COMMIT3res_union) : COMMIT3resok := match u with COMMIT3res_resok x => x | _ =>
  zero_COMMIT3resok end.
#[global] Instance COMMIT3res_resok_member : Variant as_COMMIT3res_resok COMMIT3res_resok. Proof. done. Qed.
Definition as_COMMIT3res_resfail (u : COMMIT3res_union) : COMMIT3resfail := match u with COMMIT3res_resfail x => x | _ =>
  zero_COMMIT3resfail end.
#[global] Instance COMMIT3res_resfail_member : Variant as_COMMIT3res_resfail COMMIT3res_resfail. Proof. done. Qed.
Definition case_COMMIT3res (d : Z) : proc COMMIT3res_union :=
  if (d =? NFS3_OK) then zdr_member as_COMMIT3res_resok COMMIT3res_resok zdr_COMMIT3resok
  else zdr_member as_COMMIT3res_resfail COMMIT3res_resfail zdr_COMMIT3resfail.
#[global] Instance case_COMMIT3res_codec d : Codec (case_COMMIT3res d). Proof. codec case_COMMIT3res. Defined.
#[global] Instance case_COMMIT3res_blank d : Blank (case_COMMIT3res d) COMMIT3res_cleared. Proof. blank case_COMMIT3res. Qed.
Definition zdr_COMMIT3res : proc COMMIT3res := zdr_via fields_COMMIT3res make_COMMIT3res (zdr_dseq zdr_nfsstat3
  (case_COMMIT3res)).
#[global] Instance COMMIT3res_codec : Codec zdr_COMMIT3res. Proof. codec zdr_COMMIT3res. Defined.
#[global] Instance COMMIT3res_blank : Blank zdr_COMMIT3res zero_COMMIT3res. Proof. blank zdr_COMMIT3res. Qed.

Record ACCESS3args := mkACCESS3args {
  ACCESS3args_object : nfs_fh3; ACCESS3args_access : Z
}.
Definition zero_ACCESS3args : ACCESS3args := mkACCESS3args zero_nfs_fh3 0.
Definition fields_ACCESS3args (x : ACCESS3args) := (ACCESS3args_object x, ACCESS3args_access x).
Definition make_ACCESS3args (t : (nfs_fh3 * Z)) : ACCESS3args := mkACCESS3args t.1 t.2.
#[global] Instance ACCESS3args_iso : Iso fields_ACCESS3args make_ACCESS3args. Proof. iso. Qed.
Definition zdr_ACCESS3args : proc ACCESS3args := zdr_via fields_ACCESS3args make_ACCESS3args (zdr_nfs_fh3 >>> zdr_u_int).
#[global] Instance ACCESS3args_codec : Codec zdr_ACCESS3args. Proof. codec zdr_ACCESS3args. Defined.
#[global] Instance ACCESS3args_blank : Blank zdr_ACCESS3args zero_ACCESS3args. Proof. blank zdr_ACCESS3args. Qed.

Record ACCESS3resok := mkACCESS3resok {
  ACCESS3resok_obj_attributes : post_op_attr; ACCESS3resok_access : Z
}.
Definition zero_ACCESS3resok : ACCESS3resok := mkACCESS3resok zero_post_op_attr 0.
Definition fields_ACCESS3resok (x : ACCESS3resok) := (ACCESS3resok_obj_attributes x, ACCESS3resok_access x).
Definition make_ACCESS3resok (t : (post_op_attr * Z)) : ACCESS3resok := mkACCESS3resok t.1 t.2.
#[global] Instance ACCESS3resok_iso : Iso fields_ACCESS3resok make_ACCESS3resok. Proof. iso. Qed.
Definition zdr_ACCESS3resok : proc ACCESS3resok := zdr_via fields_ACCESS3resok make_ACCESS3resok (zdr_post_op_attr >>>
  zdr_u_int).
#[global] Instance ACCESS3resok_codec : Codec zdr_ACCESS3resok. Proof. codec zdr_ACCESS3resok. Defined.
#[global] Instance ACCESS3resok_blank : Blank zdr_ACCESS3resok zero_ACCESS3resok. Proof. blank zdr_ACCESS3resok. Qed.
#[global] Instance ACCESS3resok_safe : Safe zdr_ACCESS3resok. Proof. safe zdr_ACCESS3resok. Qed.

Record ACCESS3resfail := mkACCESS3resfail {
  ACCESS3resfail_obj_attributes : post_op_attr
}.
Definition zero_ACCESS3resfail : ACCESS3resfail := mkACCESS3resfail zero_post_op_attr.
Definition fields_ACCESS3resfail (x : ACCESS3resfail) := ACCESS3resfail_obj_attributes x.
Definition make_ACCESS3resfail (t : post_op_attr) : ACCESS3resfail := mkACCESS3resfail t.
#[global] Instance ACCESS3resfail_iso : Iso fields_ACCESS3resfail make_ACCESS3resfail. Proof. iso. Qed.
Definition zdr_ACCESS3resfail : proc ACCESS3resfail := zdr_via fields_ACCESS3resfail make_ACCESS3resfail (zdr_post_op_attr).
#[global] Instance ACCESS3resfail_codec : Codec zdr_ACCESS3resfail. Proof. codec zdr_ACCESS3resfail. Defined.
#[global] Instance ACCESS3resfail_blank : Blank zdr_ACCESS3resfail zero_ACCESS3resfail. Proof. blank zdr_ACCESS3resfail. Qed.
#[global] Instance ACCESS3resfail_safe : Safe zdr_ACCESS3resfail. Proof. safe zdr_ACCESS3resfail. Qed.

Inductive ACCESS3res_union := ACCESS3res_cleared | ACCESS3res_resok (x : ACCESS3resok) | ACCESS3res_resfail (x :
  ACCESS3resfail).
Record ACCESS3res := mkACCESS3res { ACCESS3res_status : Z; ACCESS3res_u : ACCESS3res_union }.
Definition zero_ACCESS3res : ACCESS3res := mkACCESS3res 0 ACCESS3res_cleared.
Definition fields_ACCESS3res (x : ACCESS3res) := (ACCESS3res_status x, ACCESS3res_u x).
Definition make_ACCESS3res (t : (Z * ACCESS3res_union)) : ACCESS3res := mkACCESS3res t.1 t.2.
#[global] Instance ACCESS3res_iso : Iso fields_ACCESS3res make_ACCESS3res. Proof. iso. Qed.
Definition as_ACCESS3res_resok (u : ACCESS3res_union) : ACCESS3resok := match u with ACCESS3res_resok x => x | _ =>
  zero_ACCESS3resok end.
#[global] Instance ACCESS3res_resok_member : Variant as_ACCESS3res_resok ACCESS3res_resok. Proof. done. Qed.
Definition as_ACCESS3res_resfail (u : ACCESS3res_union) : ACCESS3resfail := match u with ACCESS3res_resfail x => x | _ =>
  zero_ACCESS3resfail end.
#[global] Instance ACCESS3res_resfail_member : Variant as_ACCESS3res_resfail ACCESS3res_resfail. Proof. done. Qed.
Definition case_ACCESS3res (d : Z) : proc ACCESS3res_union :=
  if (d =? NFS3_OK) then zdr_member as_ACCESS3res_resok ACCESS3res_resok zdr_ACCESS3resok
  else zdr_member as_ACCESS3res_resfail ACCESS3res_resfail zdr_ACCESS3resfail.
#[global] Instance case_ACCESS3res_codec d : Codec (case_ACCESS3res d). Proof. codec case_ACCESS3res. Defined.
#[global] Instance case_ACCESS3res_blank d : Blank (case_ACCESS3res d) ACCESS3res_cleared. Proof. blank case_ACCESS3res. Qed.
#[global] Instance case_ACCESS3res_safe d : Safe (case_ACCESS3res d). Proof. safe case_ACCESS3res. Qed.
Definition zdr_ACCESS3res : proc ACCESS3res := zdr_via fields_ACCESS3res make_ACCESS3res (zdr_dseq zdr_nfsstat3
  (case_ACCESS3res)).
#[global] Instance ACCESS3res_codec : Codec zdr_ACCESS3res. Proof. codec zdr_ACCESS3res. Defined.
#[global] Instance ACCESS3res_blank : Blank zdr_ACCESS3res zero_ACCESS3res. Proof. blank zdr_ACCESS3res. Qed.
#[global] Instance ACCESS3res_safe : Safe zdr_ACCESS3res. Proof. safe zdr_ACCESS3res. Qed.

Record GETATTR3args := mkGETATTR3args {
  GETATTR3args_object : nfs_fh3
}.
Definition zero_GETATTR3args : GETATTR3args := mkGETATTR3args zero_nfs_fh3.
Definition fields_GETATTR3args (x : GETATTR3args) := GETATTR3args_object x.
Definition make_GETATTR3args (t : nfs_fh3) : GETATTR3args := mkGETATTR3args t.
#[global] Instance GETATTR3args_iso : Iso fields_GETATTR3args make_GETATTR3args. Proof. iso. Qed.
Definition zdr_GETATTR3args : proc GETATTR3args := zdr_via fields_GETATTR3args make_GETATTR3args (zdr_nfs_fh3).
#[global] Instance GETATTR3args_codec : Codec zdr_GETATTR3args. Proof. codec zdr_GETATTR3args. Defined.
#[global] Instance GETATTR3args_blank : Blank zdr_GETATTR3args zero_GETATTR3args. Proof. blank zdr_GETATTR3args. Qed.

Record GETATTR3resok := mkGETATTR3resok {
  GETATTR3resok_obj_attributes : fattr3
}.
Definition zero_GETATTR3resok : GETATTR3resok := mkGETATTR3resok zero_fattr3.
Definition fields_GETATTR3resok (x : GETATTR3resok) := GETATTR3resok_obj_attributes x.
Definition make_GETATTR3resok (t : fattr3) : GETATTR3resok := mkGETATTR3resok t.
#[global] Instance GETATTR3resok_iso : Iso fields_GETATTR3resok make_GETATTR3resok. Proof. iso. Qed.
Definition zdr_GETATTR3resok : proc GETATTR3resok := zdr_via fields_GETATTR3resok make_GETATTR3resok (zdr_fattr3).
#[global] Instance GETATTR3resok_codec : Codec zdr_GETATTR3resok. Proof. codec zdr_GETATTR3resok. Defined.
#[global] Instance GETATTR3resok_blank : Blank zdr_GETATTR3resok zero_GETATTR3resok. Proof. blank zdr_GETATTR3resok. Qed.
#[global] Instance GETATTR3resok_safe : Safe zdr_GETATTR3resok. Proof. safe zdr_GETATTR3resok. Qed.

Inductive GETATTR3res_union := GETATTR3res_cleared | GETATTR3res_resok (x : GETATTR3resok).
Record GETATTR3res := mkGETATTR3res { GETATTR3res_status : Z; GETATTR3res_u : GETATTR3res_union }.
Definition zero_GETATTR3res : GETATTR3res := mkGETATTR3res 0 GETATTR3res_cleared.
Definition fields_GETATTR3res (x : GETATTR3res) := (GETATTR3res_status x, GETATTR3res_u x).
Definition make_GETATTR3res (t : (Z * GETATTR3res_union)) : GETATTR3res := mkGETATTR3res t.1 t.2.
#[global] Instance GETATTR3res_iso : Iso fields_GETATTR3res make_GETATTR3res. Proof. iso. Qed.
Definition as_GETATTR3res_resok (u : GETATTR3res_union) : GETATTR3resok := match u with GETATTR3res_resok x => x | _ =>
  zero_GETATTR3resok end.
#[global] Instance GETATTR3res_resok_member : Variant as_GETATTR3res_resok GETATTR3res_resok. Proof. done. Qed.
Definition case_GETATTR3res (d : Z) : proc GETATTR3res_union :=
  if (d =? NFS3_OK) then zdr_member as_GETATTR3res_resok GETATTR3res_resok zdr_GETATTR3resok
  else zdr_void.
#[global] Instance case_GETATTR3res_codec d : Codec (case_GETATTR3res d). Proof. codec case_GETATTR3res. Defined.
#[global] Instance case_GETATTR3res_blank d : Blank (case_GETATTR3res d) GETATTR3res_cleared. Proof. blank
  case_GETATTR3res. Qed.
#[global] Instance case_GETATTR3res_safe d : Safe (case_GETATTR3res d). Proof. safe case_GETATTR3res. Qed.
Definition zdr_GETATTR3res : proc GETATTR3res := zdr_via fields_GETATTR3res make_GETATTR3res (zdr_dseq zdr_nfsstat3
  (case_GETATTR3res)).
#[global] Instance GETATTR3res_codec : Codec zdr_GETATTR3res. Proof. codec zdr_GETATTR3res. Defined.
#[global] Instance GETATTR3res_blank : Blank zdr_GETATTR3res zero_GETATTR3res. Proof. blank zdr_GETATTR3res. Qed.
#[global] Instance GETATTR3res_safe : Safe zdr_GETATTR3res. Proof. safe zdr_GETATTR3res. Qed.

Definition zdr_time_how : proc Z := zdr_enum.
Inductive set_mode3_union := set_mode3_cleared | set_mode3_mode (x : Z).
Record set_mode3 := mkset_mode3 { set_mode3_set_it : Z; set_mode3_u : set_mode3_union }.
Definition zero_set_mode3 : set_mode3 := mkset_mode3 0 set_mode3_cleared.
Definition fields_set_mode3 (x : set_mode3) := (set_mode3_set_it x, set_mode3_u x).
Definition make_set_mode3 (t : (Z * set_mode3_union)) : set_mode3 := mkset_mode3 t.1 t.2.
#[global] Instance set_mode3_iso : Iso fields_set_mode3 make_set_mode3. Proof. iso. Qed.
Definition as_set_mode3_mode (u : set_mode3_union) : Z := match u with set_mode3_mode x => x | _ => 0 end.
#[global] Instance set_mode3_mode_member : Variant as_set_mode3_mode set_mode3_mode. Proof. done. Qed.
Definition case_set_mode3 (d : Z) : proc set_mode3_union :=
  if (d =? 1) then zdr_member as_set_mode3_mode set_mode3_mode zdr_mode3
  else zdr_void.
#[global] Instance case_set_mode3_codec d : Codec (case_set_mode3 d). Proof. codec case_set_mode3. Defined.
#[global] Instance case_set_mode3_blank d : Blank (case_set_mode3 d) set_mode3_cleared. Proof. blank case_set_mode3. Qed.
#[global] Instance case_set_mode3_safe d : Safe (case_set_mode3 d). Proof. safe case_set_mode3. Qed.
Definition zdr_set_mode3 : proc set_mode3 := zdr_via fields_set_mode3 make_set_mode3 (zdr_dseq zdr_bool (case_set_mode3)).
#[global] Instance set_mode3_codec : Codec zdr_set_mode3. Proof. codec zdr_set_mode3. Defined.
#[global] Instance set_mode3_blank : Blank zdr_set_mode3 zero_set_mode3. Proof. blank zdr_set_mode3. Qed.
#[global] Instance set_mode3_safe : Safe zdr_set_mode3. Proof. safe zdr_set_mode3. Qed.

Inductive set_uid3_union := set_uid3_cleared | set_uid3_uid (x : Z).
Record set_uid3 := mkset_uid3 { set_uid3_set_it : Z; set_uid3_u : set_uid3_union }.
Definition zero_set_uid3 : set_uid3 := mkset_uid3 0 set_uid3_cleared.
Definition fields_set_uid3 (x : set_uid3) := (set_uid3_set_it x, set_uid3_u x).
Definition make_set_uid3 (t : (Z * set_uid3_union)) : set_uid3 := mkset_uid3 t.1 t.2.
#[global] Instance set_uid3_iso : Iso fields_set_uid3 make_set_uid3. Proof. iso. Qed.
Definition as_set_uid3_uid (u : set_uid3_union) : Z := match u with set_uid3_uid x => x | _ => 0 end.
#[global] Instance set_uid3_uid_member : Variant as_set_uid3_uid set_uid3_uid. Proof. done. Qed.
Definition case_set_uid3 (d : Z) : proc set_uid3_union :=
  if (d =? 1) then zdr_member as_set_uid3_uid set_uid3_uid zdr_uid3
  else zdr_void.
#[global] Instance case_set_uid3_codec d : Codec (case_set_uid3 d). Proof. codec case_set_uid3. Defined.
#[global] Instance case_set_uid3_blank d : Blank (case_set_uid3 d) set_uid3_cleared. Proof. blank case_set_uid3. Qed.
#[global] Instance case_set_uid3_safe d : Safe (case_set_uid3 d). Proof. safe case_set_uid3. Qed.
Definition zdr_set_uid3 : proc set_uid3 := zdr_via fields_set_uid3 make_set_uid3 (zdr_dseq zdr_bool (case_set_uid3)).
#[global] Instance set_uid3_codec : Codec zdr_set_uid3. Proof. codec zdr_set_uid3. Defined.
#[global] Instance set_uid3_blank : Blank zdr_set_uid3 zero_set_uid3. Proof. blank zdr_set_uid3. Qed.
#[global] Instance set_uid3_safe : Safe zdr_set_uid3. Proof. safe zdr_set_uid3. Qed.

Inductive set_gid3_union := set_gid3_cleared | set_gid3_gid (x : Z).
Record set_gid3 := mkset_gid3 { set_gid3_set_it : Z; set_gid3_u : set_gid3_union }.
Definition zero_set_gid3 : set_gid3 := mkset_gid3 0 set_gid3_cleared.
Definition fields_set_gid3 (x : set_gid3) := (set_gid3_set_it x, set_gid3_u x).
Definition make_set_gid3 (t : (Z * set_gid3_union)) : set_gid3 := mkset_gid3 t.1 t.2.
#[global] Instance set_gid3_iso : Iso fields_set_gid3 make_set_gid3. Proof. iso. Qed.
Definition as_set_gid3_gid (u : set_gid3_union) : Z := match u with set_gid3_gid x => x | _ => 0 end.
#[global] Instance set_gid3_gid_member : Variant as_set_gid3_gid set_gid3_gid. Proof. done. Qed.
Definition case_set_gid3 (d : Z) : proc set_gid3_union :=
  if (d =? 1) then zdr_member as_set_gid3_gid set_gid3_gid zdr_gid3
  else zdr_void.
#[global] Instance case_set_gid3_codec d : Codec (case_set_gid3 d). Proof. codec case_set_gid3. Defined.
#[global] Instance case_set_gid3_blank d : Blank (case_set_gid3 d) set_gid3_cleared. Proof. blank case_set_gid3. Qed.
#[global] Instance case_set_gid3_safe d : Safe (case_set_gid3 d). Proof. safe case_set_gid3. Qed.
Definition zdr_set_gid3 : proc set_gid3 := zdr_via fields_set_gid3 make_set_gid3 (zdr_dseq zdr_bool (case_set_gid3)).
#[global] Instance set_gid3_codec : Codec zdr_set_gid3. Proof. codec zdr_set_gid3. Defined.
#[global] Instance set_gid3_blank : Blank zdr_set_gid3 zero_set_gid3. Proof. blank zdr_set_gid3. Qed.
#[global] Instance set_gid3_safe : Safe zdr_set_gid3. Proof. safe zdr_set_gid3. Qed.

Inductive set_size3_union := set_size3_cleared | set_size3_size (x : Z).
Record set_size3 := mkset_size3 { set_size3_set_it : Z; set_size3_u : set_size3_union }.
Definition zero_set_size3 : set_size3 := mkset_size3 0 set_size3_cleared.
Definition fields_set_size3 (x : set_size3) := (set_size3_set_it x, set_size3_u x).
Definition make_set_size3 (t : (Z * set_size3_union)) : set_size3 := mkset_size3 t.1 t.2.
#[global] Instance set_size3_iso : Iso fields_set_size3 make_set_size3. Proof. iso. Qed.
Definition as_set_size3_size (u : set_size3_union) : Z := match u with set_size3_size x => x | _ => 0 end.
#[global] Instance set_size3_size_member : Variant as_set_size3_size set_size3_size. Proof. done. Qed.
Definition case_set_size3 (d : Z) : proc set_size3_union :=
  if (d =? 1) then zdr_member as_set_size3_size set_size3_size zdr_size3
  else zdr_void.
#[global] Instance case_set_size3_codec d : Codec (case_set_size3 d). Proof. codec case_set_size3. Defined.
#[global] Instance case_set_size3_blank d : Blank (case_set_size3 d) set_size3_cleared. Proof. blank case_set_size3. Qed.
#[global] Instance case_set_size3_safe d : Safe (case_set_size3 d). Proof. safe case_set_size3. Qed.
Definition zdr_set_size3 : proc set_size3 := zdr_via fields_set_size3 make_set_size3 (zdr_dseq zdr_bool (case_set_size3)).
#[global] Instance set_size3_codec : Codec zdr_set_size3. Proof. codec zdr_set_size3. Defined.
#[global] Instance set_size3_blank : Blank zdr_set_size3 zero_set_size3. Proof. blank zdr_set_size3. Qed.
#[global] Instance set_size3_safe : Safe zdr_set_size3. Proof. safe zdr_set_size3. Qed.

Inductive set_atime_union := set_atime_cleared | set_atime_atime (x : nfstime3).
Record set_atime := mkset_atime { set_atime_set_it : Z; set_atime_u : set_atime_union }.
Definition zero_set_atime : set_atime := mkset_atime 0 set_atime_cleared.
Definition fields_set_atime (x : set_atime) := (set_atime_set_it x, set_atime_u x).
Definition make_set_atime (t : (Z * set_atime_union)) : set_atime := mkset_atime t.1 t.2.
#[global] Instance set_atime_iso : Iso fields_set_atime make_set_atime. Proof. iso. Qed.
Definition as_set_atime_atime (u : set_atime_union) : nfstime3 := match u with set_atime_atime x => x | _ => zero_nfstime3
  end.
#[global] Instance set_atime_atime_member : Variant as_set_atime_atime set_atime_atime. Proof. done. Qed.
Definition case_set_atime (d : Z) : proc set_atime_union :=
  if (d =? SET_TO_CLIENT_TIME) then zdr_member as_set_atime_atime set_atime_atime zdr_nfstime3
  else zdr_void.
#[global] Instance case_set_atime_codec d : Codec (case_set_atime d). Proof. codec case_set_atime. Defined.
#[global] Instance case_set_atime_blank d : Blank (case_set_atime d) set_atime_cleared. Proof. blank case_set_atime. Qed.
#[global] Instance case_set_atime_safe d : Safe (case_set_atime d). Proof. safe case_set_atime. Qed.
Definition zdr_set_atime : proc set_atime := zdr_via fields_set_atime make_set_atime (zdr_dseq zdr_time_how
  (case_set_atime)).
#[global] Instance set_atime_codec : Codec zdr_set_atime. Proof. codec zdr_set_atime. Defined.
#[global] Instance set_atime_blank : Blank zdr_set_atime zero_set_atime. Proof. blank zdr_set_atime. Qed.
#[global] Instance set_atime_safe : Safe zdr_set_atime. Proof. safe zdr_set_atime. Qed.

Inductive set_mtime_union := set_mtime_cleared | set_mtime_mtime (x : nfstime3).
Record set_mtime := mkset_mtime { set_mtime_set_it : Z; set_mtime_u : set_mtime_union }.
Definition zero_set_mtime : set_mtime := mkset_mtime 0 set_mtime_cleared.
Definition fields_set_mtime (x : set_mtime) := (set_mtime_set_it x, set_mtime_u x).
Definition make_set_mtime (t : (Z * set_mtime_union)) : set_mtime := mkset_mtime t.1 t.2.
#[global] Instance set_mtime_iso : Iso fields_set_mtime make_set_mtime. Proof. iso. Qed.
Definition as_set_mtime_mtime (u : set_mtime_union) : nfstime3 := match u with set_mtime_mtime x => x | _ => zero_nfstime3
  end.
#[global] Instance set_mtime_mtime_member : Variant as_set_mtime_mtime set_mtime_mtime. Proof. done. Qed.
Definition case_set_mtime (d : Z) : proc set_mtime_union :=
  if (d =? SET_TO_CLIENT_TIME) then zdr_member as_set_mtime_mtime set_mtime_mtime zdr_nfstime3
  else zdr_void.
#[global] Instance case_set_mtime_codec d : Codec (case_set_mtime d). Proof. codec case_set_mtime. Defined.
#[global] Instance case_set_mtime_blank d : Blank (case_set_mtime d) set_mtime_cleared. Proof. blank case_set_mtime. Qed.
#[global] Instance case_set_mtime_safe d : Safe (case_set_mtime d). Proof. safe case_set_mtime. Qed.
Definition zdr_set_mtime : proc set_mtime := zdr_via fields_set_mtime make_set_mtime (zdr_dseq zdr_time_how
  (case_set_mtime)).
#[global] Instance set_mtime_codec : Codec zdr_set_mtime. Proof. codec zdr_set_mtime. Defined.
#[global] Instance set_mtime_blank : Blank zdr_set_mtime zero_set_mtime. Proof. blank zdr_set_mtime. Qed.
#[global] Instance set_mtime_safe : Safe zdr_set_mtime. Proof. safe zdr_set_mtime. Qed.

Record sattr3 := mksattr3 {
    sattr3_mode : set_mode3; sattr3_uid : set_uid3; sattr3_gid : set_gid3; sattr3_size : set_size3; sattr3_atime :
    set_atime; sattr3_mtime : set_mtime
}.
Definition zero_sattr3 : sattr3 := mksattr3 zero_set_mode3 zero_set_uid3 zero_set_gid3 zero_set_size3 zero_set_atime
  zero_set_mtime.
Definition fields_sattr3 (x : sattr3) := (sattr3_mode x, (sattr3_uid x, (sattr3_gid x, (sattr3_size x, (sattr3_atime x,
  sattr3_mtime x))))).
Definition make_sattr3 (t : (set_mode3 * (set_uid3 * (set_gid3 * (set_size3 * (set_atime * set_mtime)))))) : sattr3 :=
  mksattr3 t.1 t.2.1 t.2.2.1 t.2.2.2.1 t.2.2.2.2.1 t.2.2.2.2.2.
#[global] Instance sattr3_iso : Iso fields_sattr3 make_sattr3. Proof. iso. Qed.
Definition zdr_sattr3 : proc sattr3 := zdr_via fields_sattr3 make_sattr3 (zdr_set_mode3 >>> zdr_set_uid3 >>> zdr_set_gid3
  >>> zdr_set_size3 >>> zdr_set_atime >>> zdr_set_mtime).
#[global] Instance sattr3_codec : Codec zdr_sattr3. Proof. codec zdr_sattr3. Defined.
#[global] Instance sattr3_blank : Blank zdr_sattr3 zero_sattr3. Proof. blank zdr_sattr3. Qed.
#[global] Instance sattr3_safe : Safe zdr_sattr3. Proof. safe zdr_sattr3. Qed.

Definition zdr_createmode3 : proc Z := zdr_enum.
Definition zdr_createverf3 : proc ptr := zdr_opaque 8.
Inductive createhow3_union := createhow3_cleared | createhow3_obj_attributes (x : sattr3) | createhow3_g_obj_attributes (x
  : sattr3) | createhow3_verf (x : ptr).
Record createhow3 := mkcreatehow3 { createhow3_mode : Z; createhow3_u : createhow3_union }.
Definition zero_createhow3 : createhow3 := mkcreatehow3 0 createhow3_cleared.
Definition fields_createhow3 (x : createhow3) := (createhow3_mode x, createhow3_u x).
Definition make_createhow3 (t : (Z * createhow3_union)) : createhow3 := mkcreatehow3 t.1 t.2.
#[global] Instance createhow3_iso : Iso fields_createhow3 make_createhow3. Proof. iso. Qed.
Definition as_createhow3_obj_attributes (u : createhow3_union) : sattr3 := match u with createhow3_obj_attributes x |
  createhow3_g_obj_attributes x => x | _ => zero_sattr3 end.
#[global] Instance createhow3_obj_attributes_member : Variant as_createhow3_obj_attributes createhow3_obj_attributes.
  Proof. done. Qed.
Definition as_createhow3_g_obj_attributes (u : createhow3_union) : sattr3 := match u with createhow3_obj_attributes x |
  createhow3_g_obj_attributes x => x | _ => zero_sattr3 end.
#[global] Instance createhow3_g_obj_attributes_member : Variant as_createhow3_g_obj_attributes
  createhow3_g_obj_attributes. Proof. done. Qed.
Definition as_createhow3_verf (u : createhow3_union) : ptr := match u with createhow3_verf x => x | _ => (Heap (zeros 8))
  end.
#[global] Instance createhow3_verf_member : Variant as_createhow3_verf createhow3_verf. Proof. done. Qed.
Definition case_createhow3 (d : Z) : proc createhow3_union :=
  if (d =? UNCHECKED) then zdr_member as_createhow3_obj_attributes createhow3_obj_attributes zdr_sattr3
  else if (d =? GUARDED) then zdr_member as_createhow3_g_obj_attributes createhow3_g_obj_attributes zdr_sattr3
  else if (d =? EXCLUSIVE) then zdr_member as_createhow3_verf createhow3_verf zdr_createverf3
  else zdr_fail.
#[global] Instance case_createhow3_codec d : Codec (case_createhow3 d). Proof. codec case_createhow3. Defined.
#[global] Instance case_createhow3_blank d : Blank (case_createhow3 d) createhow3_cleared. Proof. blank case_createhow3. Qed.
Definition zdr_createhow3 : proc createhow3 := zdr_via fields_createhow3 make_createhow3 (zdr_dseq zdr_createmode3
  (case_createhow3)).
#[global] Instance createhow3_codec : Codec zdr_createhow3. Proof. codec zdr_createhow3. Defined.
#[global] Instance createhow3_blank : Blank zdr_createhow3 zero_createhow3. Proof. blank zdr_createhow3. Qed.

Record CREATE3args := mkCREATE3args {
  CREATE3args_where : diropargs3; CREATE3args_how : createhow3
}.
Definition zero_CREATE3args : CREATE3args := mkCREATE3args zero_diropargs3 zero_createhow3.
Definition fields_CREATE3args (x : CREATE3args) := (CREATE3args_where x, CREATE3args_how x).
Definition make_CREATE3args (t : (diropargs3 * createhow3)) : CREATE3args := mkCREATE3args t.1 t.2.
#[global] Instance CREATE3args_iso : Iso fields_CREATE3args make_CREATE3args. Proof. iso. Qed.
Definition zdr_CREATE3args : proc CREATE3args := zdr_via fields_CREATE3args make_CREATE3args (zdr_diropargs3 >>>
  zdr_createhow3).
#[global] Instance CREATE3args_codec : Codec zdr_CREATE3args. Proof. codec zdr_CREATE3args. Defined.
#[global] Instance CREATE3args_blank : Blank zdr_CREATE3args zero_CREATE3args. Proof. blank zdr_CREATE3args. Qed.

Inductive post_op_fh3_union := post_op_fh3_cleared | post_op_fh3_handle (x : nfs_fh3).
Record post_op_fh3 := mkpost_op_fh3 { post_op_fh3_handle_follows : Z; post_op_fh3_u : post_op_fh3_union }.
Definition zero_post_op_fh3 : post_op_fh3 := mkpost_op_fh3 0 post_op_fh3_cleared.
Definition fields_post_op_fh3 (x : post_op_fh3) := (post_op_fh3_handle_follows x, post_op_fh3_u x).
Definition make_post_op_fh3 (t : (Z * post_op_fh3_union)) : post_op_fh3 := mkpost_op_fh3 t.1 t.2.
#[global] Instance post_op_fh3_iso : Iso fields_post_op_fh3 make_post_op_fh3. Proof. iso. Qed.
Definition as_post_op_fh3_handle (u : post_op_fh3_union) : nfs_fh3 := match u with post_op_fh3_handle x => x | _ =>
  zero_nfs_fh3 end.
#[global] Instance post_op_fh3_handle_member : Variant as_post_op_fh3_handle post_op_fh3_handle. Proof. done. Qed.
Definition case_post_op_fh3 (d : Z) : proc post_op_fh3_union :=
  if (d =? 1) then zdr_member as_post_op_fh3_handle post_op_fh3_handle zdr_nfs_fh3
  else if (d =? 0) then zdr_void
  else zdr_fail.
#[global] Instance case_post_op_fh3_codec d : Codec (case_post_op_fh3 d). Proof. codec case_post_op_fh3. Defined.
#[global] Instance case_post_op_fh3_blank d : Blank (case_post_op_fh3 d) post_op_fh3_cleared. Proof. blank
  case_post_op_fh3. Qed.
Definition zdr_post_op_fh3 : proc post_op_fh3 := zdr_via fields_post_op_fh3 make_post_op_fh3 (zdr_dseq zdr_bool
  (case_post_op_fh3)).
#[global] Instance post_op_fh3_codec : Codec zdr_post_op_fh3. Proof. codec zdr_post_op_fh3. Defined.
#[global] Instance post_op_fh3_blank : Blank zdr_post_op_fh3 zero_post_op_fh3. Proof. blank zdr_post_op_fh3. Qed.

Record CREATE3resok := mkCREATE3resok {
  CREATE3resok_obj : post_op_fh3; CREATE3resok_obj_attributes : post_op_attr; CREATE3resok_dir_wcc : wcc_data
}.
Definition zero_CREATE3resok : CREATE3resok := mkCREATE3resok zero_post_op_fh3 zero_post_op_attr zero_wcc_data.
Definition fields_CREATE3resok (x : CREATE3resok) := (CREATE3resok_obj x, (CREATE3resok_obj_attributes x,
  CREATE3resok_dir_wcc x)).
Definition make_CREATE3resok (t : (post_op_fh3 * (post_op_attr * wcc_data))) : CREATE3resok := mkCREATE3resok t.1 t.2.1
  t.2.2.
#[global] Instance CREATE3resok_iso : Iso fields_CREATE3resok make_CREATE3resok. Proof. iso. Qed.
Definition zdr_CREATE3resok : proc CREATE3resok := zdr_via fields_CREATE3resok make_CREATE3resok (zdr_post_op_fh3 >>>
  zdr_post_op_attr >>> zdr_wcc_data).
#[global] Instance CREATE3resok_codec : Codec zdr_CREATE3resok. Proof. codec zdr_CREATE3resok. Defined.
#[global] Instance CREATE3resok_blank : Blank zdr_CREATE3resok zero_CREATE3resok. Proof. blank zdr_CREATE3resok. Qed.

Record CREATE3resfail := mkCREATE3resfail {
  CREATE3resfail_dir_wcc : wcc_data
}.
Definition zero_CREATE3resfail : CREATE3resfail := mkCREATE3resfail zero_wcc_data.
Definition fields_CREATE3resfail (x : CREATE3resfail) := CREATE3resfail_dir_wcc x.
Definition make_CREATE3resfail (t : wcc_data) : CREATE3resfail := mkCREATE3resfail t.
#[global] Instance CREATE3resfail_iso : Iso fields_CREATE3resfail make_CREATE3resfail. Proof. iso. Qed.
Definition zdr_CREATE3resfail : proc CREATE3resfail := zdr_via fields_CREATE3resfail make_CREATE3resfail (zdr_wcc_data).
#[global] Instance CREATE3resfail_codec : Codec zdr_CREATE3resfail. Proof. codec zdr_CREATE3resfail. Defined.
#[global] Instance CREATE3resfail_blank : Blank zdr_CREATE3resfail zero_CREATE3resfail. Proof. blank zdr_CREATE3resfail. Qed.
#[global] Instance CREATE3resfail_safe : Safe zdr_CREATE3resfail. Proof. safe zdr_CREATE3resfail. Qed.

Inductive CREATE3res_union := CREATE3res_cleared | CREATE3res_resok (x : CREATE3resok) | CREATE3res_resfail (x :
  CREATE3resfail).
Record CREATE3res := mkCREATE3res { CREATE3res_status : Z; CREATE3res_u : CREATE3res_union }.
Definition zero_CREATE3res : CREATE3res := mkCREATE3res 0 CREATE3res_cleared.
Definition fields_CREATE3res (x : CREATE3res) := (CREATE3res_status x, CREATE3res_u x).
Definition make_CREATE3res (t : (Z * CREATE3res_union)) : CREATE3res := mkCREATE3res t.1 t.2.
#[global] Instance CREATE3res_iso : Iso fields_CREATE3res make_CREATE3res. Proof. iso. Qed.
Definition as_CREATE3res_resok (u : CREATE3res_union) : CREATE3resok := match u with CREATE3res_resok x => x | _ =>
  zero_CREATE3resok end.
#[global] Instance CREATE3res_resok_member : Variant as_CREATE3res_resok CREATE3res_resok. Proof. done. Qed.
Definition as_CREATE3res_resfail (u : CREATE3res_union) : CREATE3resfail := match u with CREATE3res_resfail x => x | _ =>
  zero_CREATE3resfail end.
#[global] Instance CREATE3res_resfail_member : Variant as_CREATE3res_resfail CREATE3res_resfail. Proof. done. Qed.
Definition case_CREATE3res (d : Z) : proc CREATE3res_union :=
  if (d =? NFS3_OK) then zdr_member as_CREATE3res_resok CREATE3res_resok zdr_CREATE3resok
  else zdr_member as_CREATE3res_resfail CREATE3res_resfail zdr_CREATE3resfail.
#[global] Instance case_CREATE3res_codec d : Codec (case_CREATE3res d). Proof. codec case_CREATE3res. Defined.
#[global] Instance case_CREATE3res_blank d : Blank (case_CREATE3res d) CREATE3res_cleared. Proof. blank case_CREATE3res. Qed.
Definition zdr_CREATE3res : proc CREATE3res := zdr_via fields_CREATE3res make_CREATE3res (zdr_dseq zdr_nfsstat3
  (case_CREATE3res)).
#[global] Instance CREATE3res_codec : Codec zdr_CREATE3res. Proof. codec zdr_CREATE3res. Defined.
#[global] Instance CREATE3res_blank : Blank zdr_CREATE3res zero_CREATE3res. Proof. blank zdr_CREATE3res. Qed.

Record REMOVE3args := mkREMOVE3args {
  REMOVE3args_object : diropargs3
}.
Definition zero_REMOVE3args : REMOVE3args := mkREMOVE3args zero_diropargs3.
Definition fields_REMOVE3args (x : REMOVE3args) := REMOVE3args_object x.
Definition make_REMOVE3args (t : diropargs3) : REMOVE3args := mkREMOVE3args t.
#[global] Instance REMOVE3args_iso : Iso fields_REMOVE3args make_REMOVE3args. Proof. iso. Qed.
Definition zdr_REMOVE3args : proc REMOVE3args := zdr_via fields_REMOVE3args make_REMOVE3args (zdr_diropargs3).
#[global] Instance REMOVE3args_codec : Codec zdr_REMOVE3args. Proof. codec zdr_REMOVE3args. Defined.
#[global] Instance REMOVE3args_blank : Blank zdr_REMOVE3args zero_REMOVE3args. Proof. blank zdr_REMOVE3args. Qed.

Record REMOVE3resok := mkREMOVE3resok {
  REMOVE3resok_dir_wcc : wcc_data
}.
Definition zero_REMOVE3resok : REMOVE3resok := mkREMOVE3resok zero_wcc_data.
Definition fields_REMOVE3resok (x : REMOVE3resok) := REMOVE3resok_dir_wcc x.
Definition make_REMOVE3resok (t : wcc_data) : REMOVE3resok := mkREMOVE3resok t.
#[global] Instance REMOVE3resok_iso : Iso fields_REMOVE3resok make_REMOVE3resok. Proof. iso. Qed.
Definition zdr_REMOVE3resok : proc REMOVE3resok := zdr_via fields_REMOVE3resok make_REMOVE3resok (zdr_wcc_data).
#[global] Instance REMOVE3resok_codec : Codec zdr_REMOVE3resok. Proof. codec zdr_REMOVE3resok. Defined.
#[global] Instance REMOVE3resok_blank : Blank zdr_REMOVE3resok zero_REMOVE3resok. Proof. blank zdr_REMOVE3resok. Qed.
#[global] Instance REMOVE3resok_safe : Safe zdr_REMOVE3resok. Proof. safe zdr_REMOVE3resok. Qed.

Record REMOVE3resfail := mkREMOVE3resfail {
  REMOVE3resfail_dir_wcc : wcc_data
}.
Definition zero_REMOVE3resfail : REMOVE3resfail := mkREMOVE3resfail zero_wcc_data.
Definition fields_REMOVE3resfail (x : REMOVE3resfail) := REMOVE3resfail_dir_wcc x.
Definition make_REMOVE3resfail (t : wcc_data) : REMOVE3resfail := mkREMOVE3resfail t.
#[global] Instance REMOVE3resfail_iso : Iso fields_REMOVE3resfail make_REMOVE3resfail. Proof. iso. Qed.
Definition zdr_REMOVE3resfail : proc REMOVE3resfail := zdr_via fields_REMOVE3resfail make_REMOVE3resfail (zdr_wcc_data).
#[global] Instance REMOVE3resfail_codec : Codec zdr_REMOVE3resfail. Proof. codec zdr_REMOVE3resfail. Defined.
#[global] Instance REMOVE3resfail_blank : Blank zdr_REMOVE3resfail zero_REMOVE3resfail. Proof. blank zdr_REMOVE3resfail. Qed.
#[global] Instance REMOVE3resfail_safe : Safe zdr_REMOVE3resfail. Proof. safe zdr_REMOVE3resfail. Qed.

Inductive REMOVE3res_union := REMOVE3res_cleared | REMOVE3res_resok (x : REMOVE3resok) | REMOVE3res_resfail (x :
  REMOVE3resfail).
Record REMOVE3res := mkREMOVE3res { REMOVE3res_status : Z; REMOVE3res_u : REMOVE3res_union }.
Definition zero_REMOVE3res : REMOVE3res := mkREMOVE3res 0 REMOVE3res_cleared.
Definition fields_REMOVE3res (x : REMOVE3res) := (REMOVE3res_status x, REMOVE3res_u x).
Definition make_REMOVE3res (t : (Z * REMOVE3res_union)) : REMOVE3res := mkREMOVE3res t.1 t.2.
#[global] Instance REMOVE3res_iso : Iso fields_REMOVE3res make_REMOVE3res. Proof. iso. Qed.
Definition as_REMOVE3res_resok (u : REMOVE3res_union) : REMOVE3resok := match u with REMOVE3res_resok x => x | _ =>
  zero_REMOVE3resok end.
#[global] Instance REMOVE3res_resok_member : Variant as_REMOVE3res_resok REMOVE3res_resok. Proof. done. Qed.
Definition as_REMOVE3res_resfail (u : REMOVE3res_union) : REMOVE3resfail := match u with REMOVE3res_resfail x => x | _ =>
  zero_REMOVE3resfail end.
#[global] Instance REMOVE3res_resfail_member : Variant as_REMOVE3res_resfail REMOVE3res_resfail. Proof. done. Qed.
Definition case_REMOVE3res (d : Z) : proc REMOVE3res_union :=
  if (d =? NFS3_OK) then zdr_member as_REMOVE3res_resok REMOVE3res_resok zdr_REMOVE3resok
  else zdr_member as_REMOVE3res_resfail REMOVE3res_resfail zdr_REMOVE3resfail.
#[global] Instance case_REMOVE3res_codec d : Codec (case_REMOVE3res d). Proof. codec case_REMOVE3res. Defined.
#[global] Instance case_REMOVE3res_blank d : Blank (case_REMOVE3res d) REMOVE3res_cleared. Proof. blank case_REMOVE3res. Qed.
#[global] Instance case_REMOVE3res_safe d : Safe (case_REMOVE3res d). Proof. safe case_REMOVE3res. Qed.
Definition zdr_REMOVE3res : proc REMOVE3res := zdr_via fields_REMOVE3res make_REMOVE3res (zdr_dseq zdr_nfsstat3
  (case_REMOVE3res)).
#[global] Instance REMOVE3res_codec : Codec zdr_REMOVE3res. Proof. codec zdr_REMOVE3res. Defined.
#[global] Instance REMOVE3res_blank : Blank zdr_REMOVE3res zero_REMOVE3res. Proof. blank zdr_REMOVE3res. Qed.
#[global] Instance REMOVE3res_safe : Safe zdr_REMOVE3res. Proof. safe zdr_REMOVE3res. Qed.

Record READ3args := mkREAD3args {
  READ3args_file : nfs_fh3; READ3args_offset : Z; READ3args_count : Z
}.
Definition zero_READ3args : READ3args := mkREAD3args zero_nfs_fh3 0 0.
Definition fields_READ3args (x : READ3args) := (READ3args_file x, (READ3args_offset x, READ3args_count x)).
Definition make_READ3args (t : (nfs_fh3 * (Z * Z))) : READ3args := mkREAD3args t.1 t.2.1 t.2.2.
#[global] Instance READ3args_iso : Iso fields_READ3args make_READ3args. Proof. iso. Qed.
Definition zdr_READ3args : proc READ3args := zdr_via fields_READ3args make_READ3args (zdr_nfs_fh3 >>> zdr_offset3 >>>
  zdr_count3).
#[global] Instance READ3args_codec : Codec zdr_READ3args. Proof. codec zdr_READ3args. Defined.
#[global] Instance READ3args_blank : Blank zdr_READ3args zero_READ3args. Proof. blank zdr_READ3args. Qed.

Record READ3resok := mkREAD3resok {
  READ3resok_file_attributes : post_op_attr; READ3resok_count : Z; READ3resok_eof : Z; READ3resok_data : ptr * Z
}.
Definition zero_READ3resok : READ3resok := mkREAD3resok zero_post_op_attr 0 0 (NULL, 0).
Definition fields_READ3resok (x : READ3resok) := (READ3resok_file_attributes x, (READ3resok_count x, (READ3resok_eof x,
  READ3resok_data x))).
Definition make_READ3resok (t : (post_op_attr * (Z * (Z * (ptr * Z))))) : READ3resok := mkREAD3resok t.1 t.2.1 t.2.2.1
  t.2.2.2.
#[global] Instance READ3resok_iso : Iso fields_READ3resok make_READ3resok. Proof. iso. Qed.
Definition zdr_READ3resok : proc READ3resok := zdr_via fields_READ3resok make_READ3resok (zdr_post_op_attr >>> zdr_count3
  >>> zdr_bool >>> zdr_bytes).
#[global] Instance READ3resok_codec : Codec zdr_READ3resok. Proof. codec zdr_READ3resok. Defined.
#[global] Instance READ3resok_blank : Blank zdr_READ3resok zero_READ3resok. Proof. blank zdr_READ3resok. Qed.

Record READ3resfail := mkREAD3resfail {
  READ3resfail_file_attributes : post_op_attr
}.
Definition zero_READ3resfail : READ3resfail := mkREAD3resfail zero_post_op_attr.
Definition fields_READ3resfail (x : READ3resfail) := READ3resfail_file_attributes x.
Definition make_READ3resfail (t : post_op_attr) : READ3resfail := mkREAD3resfail t.
#[global] Instance READ3resfail_iso : Iso fields_READ3resfail make_READ3resfail. Proof. iso. Qed.
Definition zdr_READ3resfail : proc READ3resfail := zdr_via fields_READ3resfail make_READ3resfail (zdr_post_op_attr).
#[global] Instance READ3resfail_codec : Codec zdr_READ3resfail. Proof. codec zdr_READ3resfail. Defined.
#[global] Instance READ3resfail_blank : Blank zdr_READ3resfail zero_READ3resfail. Proof. blank zdr_READ3resfail. Qed.
#[global] Instance READ3resfail_safe : Safe zdr_READ3resfail. Proof. safe zdr_READ3resfail. Qed.

Inductive READ3res_union := READ3res_cleared | READ3res_resok (x : READ3resok) | READ3res_resfail (x : READ3resfail).
Record READ3res := mkREAD3res { READ3res_status : Z; READ3res_u : READ3res_union }.
Definition zero_READ3res : READ3res := mkREAD3res 0 READ3res_cleared.
Definition fields_READ3res (x : READ3res) := (READ3res_status x, READ3res_u x).
Definition make_READ3res (t : (Z * READ3res_union)) : READ3res := mkREAD3res t.1 t.2.
#[global] Instance READ3res_iso : Iso fields_READ3res make_READ3res. Proof. iso. Qed.
Definition as_READ3res_resok (u : READ3res_union) : READ3resok := match u with READ3res_resok x => x | _ =>
  zero_READ3resok end.
#[global] Instance READ3res_resok_member : Variant as_READ3res_resok READ3res_resok. Proof. done. Qed.
Definition as_READ3res_resfail (u : READ3res_union) : READ3resfail := match u with READ3res_resfail x => x | _ =>
  zero_READ3resfail end.
#[global] Instance READ3res_resfail_member : Variant as_READ3res_resfail READ3res_resfail. Proof. done. Qed.
Definition case_READ3res (d : Z) : proc READ3res_union :=
  if (d =? NFS3_OK) then zdr_member as_READ3res_resok READ3res_resok zdr_READ3resok
  else zdr_member as_READ3res_resfail READ3res_resfail zdr_READ3resfail.
#[global] Instance case_READ3res_codec d : Codec (case_READ3res d). Proof. codec case_READ3res. Defined.
#[global] Instance case_READ3res_blank d : Blank (case_READ3res d) READ3res_cleared. Proof. blank case_READ3res. Qed.
Definition zdr_READ3res : proc READ3res := zdr_via fields_READ3res make_READ3res (zdr_dseq zdr_nfsstat3 (case_READ3res)).
#[global] Instance READ3res_codec : Codec zdr_READ3res. Proof. codec zdr_READ3res. Defined.
#[global] Instance READ3res_blank : Blank zdr_READ3res zero_READ3res. Proof. blank zdr_READ3res. Qed.

Record FSINFO3args := mkFSINFO3args {
  FSINFO3args_fsroot : nfs_fh3
}.
Definition zero_FSINFO3args : FSINFO3args := mkFSINFO3args zero_nfs_fh3.
Definition fields_FSINFO3args (x : FSINFO3args) := FSINFO3args_fsroot x.
Definition make_FSINFO3args (t : nfs_fh3) : FSINFO3args := mkFSINFO3args t.
#[global] Instance FSINFO3args_iso : Iso fields_FSINFO3args make_FSINFO3args. Proof. iso. Qed.
Definition zdr_FSINFO3args : proc FSINFO3args := zdr_via fields_FSINFO3args make_FSINFO3args (zdr_nfs_fh3).
#[global] Instance FSINFO3args_codec : Codec zdr_FSINFO3args. Proof. codec zdr_FSINFO3args. Defined.
#[global] Instance FSINFO3args_blank : Blank zdr_FSINFO3args zero_FSINFO3args. Proof. blank zdr_FSINFO3args. Qed.

Record FSINFO3resok := mkFSINFO3resok {
    FSINFO3resok_obj_attributes : post_op_attr; FSINFO3resok_rtmax : Z; FSINFO3resok_rtpref : Z; FSINFO3resok_rtmult : Z;
    FSINFO3resok_wtmax : Z; FSINFO3resok_wtpref : Z; FSINFO3resok_wtmult : Z; FSINFO3resok_dtpref : Z;
    FSINFO3resok_maxfilesize : Z; FSINFO3resok_time_delta : nfstime3; FSINFO3resok_properties : Z
}.
Definition zero_FSINFO3resok : FSINFO3resok := mkFSINFO3resok zero_post_op_attr 0 0 0 0 0 0 0 0 zero_nfstime3 0.
Definition fields_FSINFO3resok (x : FSINFO3resok) := (FSINFO3resok_obj_attributes x, (FSINFO3resok_rtmax x,
  (FSINFO3resok_rtpref x, (FSINFO3resok_rtmult x, (FSINFO3resok_wtmax x, (FSINFO3resok_wtpref x, (FSINFO3resok_wtmult x,
  (FSINFO3resok_dtpref x, (FSINFO3resok_maxfilesize x, (FSINFO3resok_time_delta x, FSINFO3resok_properties x)))))))))).
Definition make_FSINFO3resok (t : (post_op_attr * (Z * (Z * (Z * (Z * (Z * (Z * (Z * (Z * (nfstime3 * Z))))))))))) :
  FSINFO3resok := mkFSINFO3resok t.1 t.2.1 t.2.2.1 t.2.2.2.1 t.2.2.2.2.1 t.2.2.2.2.2.1 t.2.2.2.2.2.2.1 t.2.2.2.2.2.2.2.1
  t.2.2.2.2.2.2.2.2.1 t.2.2.2.2.2.2.2.2.2.1 t.2.2.2.2.2.2.2.2.2.2.
#[global] Instance FSINFO3resok_iso : Iso fields_FSINFO3resok make_FSINFO3resok. Proof. iso. Qed.
Definition zdr_FSINFO3resok : proc FSINFO3resok := zdr_via fields_FSINFO3resok make_FSINFO3resok (zdr_post_op_attr >>>
  zdr_u_int >>> zdr_u_int >>> zdr_u_int >>> zdr_u_int >>> zdr_u_int >>> zdr_u_int >>> zdr_u_int >>> zdr_size3 >>>
  zdr_nfstime3 >>> zdr_u_int).
#[global] Instance FSINFO3resok_codec : Codec zdr_FSINFO3resok. Proof. codec zdr_FSINFO3resok. Defined.
#[global] Instance FSINFO3resok_blank : Blank zdr_FSINFO3resok zero_FSINFO3resok. Proof. blank zdr_FSINFO3resok. Qed.
#[global] Instance FSINFO3resok_safe : Safe zdr_FSINFO3resok. Proof. safe zdr_FSINFO3resok. Qed.

Record FSINFO3resfail := mkFSINFO3resfail {
  FSINFO3resfail_obj_attributes : post_op_attr
}.
Definition zero_FSINFO3resfail : FSINFO3resfail := mkFSINFO3resfail zero_post_op_attr.
Definition fields_FSINFO3resfail (x : FSINFO3resfail) := FSINFO3resfail_obj_attributes x.
Definition make_FSINFO3resfail (t : post_op_attr) : FSINFO3resfail := mkFSINFO3resfail t.
#[global] Instance FSINFO3resfail_iso : Iso fields_FSINFO3resfail make_FSINFO3resfail. Proof. iso. Qed.
Definition zdr_FSINFO3resfail : proc FSINFO3resfail := zdr_via fields_FSINFO3resfail make_FSINFO3resfail (zdr_post_op_attr).
#[global] Instance FSINFO3resfail_codec : Codec zdr_FSINFO3resfail. Proof. codec zdr_FSINFO3resfail. Defined.
#[global] Instance FSINFO3resfail_blank : Blank zdr_FSINFO3resfail zero_FSINFO3resfail. Proof. blank zdr_FSINFO3resfail. Qed.
#[global] Instance FSINFO3resfail_safe : Safe zdr_FSINFO3resfail. Proof. safe zdr_FSINFO3resfail. Qed.

Inductive FSINFO3res_union := FSINFO3res_cleared | FSINFO3res_resok (x : FSINFO3resok) | FSINFO3res_resfail (x :
  FSINFO3resfail).
Record FSINFO3res := mkFSINFO3res { FSINFO3res_status : Z; FSINFO3res_u : FSINFO3res_union }.
Definition zero_FSINFO3res : FSINFO3res := mkFSINFO3res 0 FSINFO3res_cleared.
Definition fields_FSINFO3res (x : FSINFO3res) := (FSINFO3res_status x, FSINFO3res_u x).
Definition make_FSINFO3res (t : (Z * FSINFO3res_union)) : FSINFO3res := mkFSINFO3res t.1 t.2.
#[global] Instance FSINFO3res_iso : Iso fields_FSINFO3res make_FSINFO3res. Proof. iso. Qed.
Definition as_FSINFO3res_resok (u : FSINFO3res_union) : FSINFO3resok := match u with FSINFO3res_resok x => x | _ =>
  zero_FSINFO3resok end.
#[global] Instance FSINFO3res_resok_member : Variant as_FSINFO3res_resok FSINFO3res_resok. Proof. done. Qed.
Definition as_FSINFO3res_resfail (u : FSINFO3res_union) : FSINFO3resfail := match u with FSINFO3res_resfail x => x | _ =>
  zero_FSINFO3resfail end.
#[global] Instance FSINFO3res_resfail_member : Variant as_FSINFO3res_resfail FSINFO3res_resfail. Proof. done. Qed.
Definition case_FSINFO3res (d : Z) : proc FSINFO3res_union :=
  if (d =? NFS3_OK) then zdr_member as_FSINFO3res_resok FSINFO3res_resok zdr_FSINFO3resok
  else zdr_member as_FSINFO3res_resfail FSINFO3res_resfail zdr_FSINFO3resfail.
#[global] Instance case_FSINFO3res_codec d : Codec (case_FSINFO3res d). Proof. codec case_FSINFO3res. Defined.
#[global] Instance case_FSINFO3res_blank d : Blank (case_FSINFO3res d) FSINFO3res_cleared. Proof. blank case_FSINFO3res. Qed.
#[global] Instance case_FSINFO3res_safe d : Safe (case_FSINFO3res d). Proof. safe case_FSINFO3res. Qed.
Definition zdr_FSINFO3res : proc FSINFO3res := zdr_via fields_FSINFO3res make_FSINFO3res (zdr_dseq zdr_nfsstat3
  (case_FSINFO3res)).
#[global] Instance FSINFO3res_codec : Codec zdr_FSINFO3res. Proof. codec zdr_FSINFO3res. Defined.
#[global] Instance FSINFO3res_blank : Blank zdr_FSINFO3res zero_FSINFO3res. Proof. blank zdr_FSINFO3res. Qed.
#[global] Instance FSINFO3res_safe : Safe zdr_FSINFO3res. Proof. safe zdr_FSINFO3res. Qed.

Record FSSTAT3args := mkFSSTAT3args {
  FSSTAT3args_fsroot : nfs_fh3
}.
Definition zero_FSSTAT3args : FSSTAT3args := mkFSSTAT3args zero_nfs_fh3.
Definition fields_FSSTAT3args (x : FSSTAT3args) := FSSTAT3args_fsroot x.
Definition make_FSSTAT3args (t : nfs_fh3) : FSSTAT3args := mkFSSTAT3args t.
#[global] Instance FSSTAT3args_iso : Iso fields_FSSTAT3args make_FSSTAT3args. Proof. iso. Qed.
Definition zdr_FSSTAT3args : proc FSSTAT3args := zdr_via fields_FSSTAT3args make_FSSTAT3args (zdr_nfs_fh3).
#[global] Instance FSSTAT3args_codec : Codec zdr_FSSTAT3args. Proof. codec zdr_FSSTAT3args. Defined.
#[global] Instance FSSTAT3args_blank : Blank zdr_FSSTAT3args zero_FSSTAT3args. Proof. blank zdr_FSSTAT3args. Qed.

Record FSSTAT3resok := mkFSSTAT3resok {
    FSSTAT3resok_obj_attributes : post_op_attr; FSSTAT3resok_tbytes : Z; FSSTAT3resok_fbytes : Z; FSSTAT3resok_abytes : Z;
    FSSTAT3resok_tfiles : Z; FSSTAT3resok_ffiles : Z; FSSTAT3resok_afiles : Z; FSSTAT3resok_invarsec : Z
}.
Definition zero_FSSTAT3resok : FSSTAT3resok := mkFSSTAT3resok zero_post_op_attr 0 0 0 0 0 0 0.
Definition fields_FSSTAT3resok (x : FSSTAT3resok) := (FSSTAT3resok_obj_attributes x, (FSSTAT3resok_tbytes x,
  (FSSTAT3resok_fbytes x, (FSSTAT3resok_abytes x, (FSSTAT3resok_tfiles x, (FSSTAT3resok_ffiles x, (FSSTAT3resok_afiles x,
  FSSTAT3resok_invarsec x))))))).
Definition make_FSSTAT3resok (t : (post_op_attr * (Z * (Z * (Z * (Z * (Z * (Z * Z)))))))) : FSSTAT3resok := mkFSSTAT3resok
  t.1 t.2.1 t.2.2.1 t.2.2.2.1 t.2.2.2.2.1 t.2.2.2.2.2.1 t.2.2.2.2.2.2.1 t.2.2.2.2.2.2.2.
#[global] Instance FSSTAT3resok_iso : Iso fields_FSSTAT3resok make_FSSTAT3resok. Proof. iso. Qed.
Definition zdr_FSSTAT3resok : proc FSSTAT3resok := zdr_via fields_FSSTAT3resok make_FSSTAT3resok (zdr_post_op_attr >>>
  zdr_size3 >>> zdr_size3 >>> zdr_size3 >>> zdr_size3 >>> zdr_size3 >>> zdr_size3 >>> zdr_u_int).
#[global] Instance FSSTAT3resok_codec : Codec zdr_FSSTAT3resok. Proof. codec zdr_FSSTAT3resok. Defined.
#[global] Instance FSSTAT3resok_blank : Blank zdr_FSSTAT3resok zero_FSSTAT3resok. Proof. blank zdr_FSSTAT3resok. Qed.
#[global] Instance FSSTAT3resok_safe : Safe zdr_FSSTAT3resok. Proof. safe zdr_FSSTAT3resok. Qed.

Record FSSTAT3resfail := mkFSSTAT3resfail {
  FSSTAT3resfail_obj_attributes : post_op_attr
}.
Definition zero_FSSTAT3resfail : FSSTAT3resfail := mkFSSTAT3resfail zero_post_op_attr.
Definition fields_FSSTAT3resfail (x : FSSTAT3resfail) := FSSTAT3resfail_obj_attributes x.
Definition make_FSSTAT3resfail (t : post_op_attr) : FSSTAT3resfail := mkFSSTAT3resfail t.
#[global] Instance FSSTAT3resfail_iso : Iso fields_FSSTAT3resfail make_FSSTAT3resfail. Proof. iso. Qed.
Definition zdr_FSSTAT3resfail : proc FSSTAT3resfail := zdr_via fields_FSSTAT3resfail make_FSSTAT3resfail (zdr_post_op_attr).
#[global] Instance FSSTAT3resfail_codec : Codec zdr_FSSTAT3resfail. Proof. codec zdr_FSSTAT3resfail. Defined.
#[global] Instance FSSTAT3resfail_blank : Blank zdr_FSSTAT3resfail zero_FSSTAT3resfail. Proof. blank zdr_FSSTAT3resfail. Qed.
#[global] Instance FSSTAT3resfail_safe : Safe zdr_FSSTAT3resfail. Proof. safe zdr_FSSTAT3resfail. Qed.

Inductive FSSTAT3res_union := FSSTAT3res_cleared | FSSTAT3res_resok (x : FSSTAT3resok) | FSSTAT3res_resfail (x :
  FSSTAT3resfail).
Record FSSTAT3res := mkFSSTAT3res { FSSTAT3res_status : Z; FSSTAT3res_u : FSSTAT3res_union }.
Definition zero_FSSTAT3res : FSSTAT3res := mkFSSTAT3res 0 FSSTAT3res_cleared.
Definition fields_FSSTAT3res (x : FSSTAT3res) := (FSSTAT3res_status x, FSSTAT3res_u x).
Definition make_FSSTAT3res (t : (Z * FSSTAT3res_union)) : FSSTAT3res := mkFSSTAT3res t.1 t.2.
#[global] Instance FSSTAT3res_iso : Iso fields_FSSTAT3res make_FSSTAT3res. Proof. iso. Qed.
Definition as_FSSTAT3res_resok (u : FSSTAT3res_union) : FSSTAT3resok := match u with FSSTAT3res_resok x => x | _ =>
  zero_FSSTAT3resok end.
#[global] Instance FSSTAT3res_resok_member : Variant as_FSSTAT3res_resok FSSTAT3res_resok. Proof. done. Qed.
Definition as_FSSTAT3res_resfail (u : FSSTAT3res_union) : FSSTAT3resfail := match u with FSSTAT3res_resfail x => x | _ =>
  zero_FSSTAT3resfail end.
#[global] Instance FSSTAT3res_resfail_member : Variant as_FSSTAT3res_resfail FSSTAT3res_resfail. Proof. done. Qed.
Definition case_FSSTAT3res (d : Z) : proc FSSTAT3res_union :=
  if (d =? NFS3_OK) then zdr_member as_FSSTAT3res_resok FSSTAT3res_resok zdr_FSSTAT3resok
  else zdr_member as_FSSTAT3res_resfail FSSTAT3res_resfail zdr_FSSTAT3resfail.
#[global] Instance case_FSSTAT3res_codec d : Codec (case_FSSTAT3res d). Proof. codec case_FSSTAT3res. Defined.
#[global] Instance case_FSSTAT3res_blank d : Blank (case_FSSTAT3res d) FSSTAT3res_cleared. Proof. blank case_FSSTAT3res. Qed.
#[global] Instance case_FSSTAT3res_safe d : Safe (case_FSSTAT3res d). Proof. safe case_FSSTAT3res. Qed.
Definition zdr_FSSTAT3res : proc FSSTAT3res := zdr_via fields_FSSTAT3res make_FSSTAT3res (zdr_dseq zdr_nfsstat3
  (case_FSSTAT3res)).
#[global] Instance FSSTAT3res_codec : Codec zdr_FSSTAT3res. Proof. codec zdr_FSSTAT3res. Defined.
#[global] Instance FSSTAT3res_blank : Blank zdr_FSSTAT3res zero_FSSTAT3res. Proof. blank zdr_FSSTAT3res. Qed.
#[global] Instance FSSTAT3res_safe : Safe zdr_FSSTAT3res. Proof. safe zdr_FSSTAT3res. Qed.

Record PATHCONF3args := mkPATHCONF3args {
  PATHCONF3args_object : nfs_fh3
}.
Definition zero_PATHCONF3args : PATHCONF3args := mkPATHCONF3args zero_nfs_fh3.
Definition fields_PATHCONF3args (x : PATHCONF3args) := PATHCONF3args_object x.
Definition make_PATHCONF3args (t : nfs_fh3) : PATHCONF3args := mkPATHCONF3args t.
#[global] Instance PATHCONF3args_iso : Iso fields_PATHCONF3args make_PATHCONF3args. Proof. iso. Qed.
Definition zdr_PATHCONF3args : proc PATHCONF3args := zdr_via fields_PATHCONF3args make_PATHCONF3args (zdr_nfs_fh3).
#[global] Instance PATHCONF3args_codec : Codec zdr_PATHCONF3args. Proof. codec zdr_PATHCONF3args. Defined.
#[global] Instance PATHCONF3args_blank : Blank zdr_PATHCONF3args zero_PATHCONF3args. Proof. blank zdr_PATHCONF3args. Qed.

Record PATHCONF3resok := mkPATHCONF3resok {
    PATHCONF3resok_obj_attributes : post_op_attr; PATHCONF3resok_linkmax : Z; PATHCONF3resok_name_max : Z;
    PATHCONF3resok_no_trunc : Z; PATHCONF3resok_chown_restricted : Z; PATHCONF3resok_case_insensitive : Z;
    PATHCONF3resok_case_preserving : Z
}.
Definition zero_PATHCONF3resok : PATHCONF3resok := mkPATHCONF3resok zero_post_op_attr 0 0 0 0 0 0.
Definition fields_PATHCONF3resok (x : PATHCONF3resok) := (PATHCONF3resok_obj_attributes x, (PATHCONF3resok_linkmax x,
  (PATHCONF3resok_name_max x, (PATHCONF3resok_no_trunc x, (PATHCONF3resok_chown_restricted x,
  (PATHCONF3resok_case_insensitive x, PATHCONF3resok_case_preserving x)))))).
Definition make_PATHCONF3resok (t : (post_op_attr * (Z * (Z * (Z * (Z * (Z * Z))))))) : PATHCONF3resok := mkPATHCONF3resok
  t.1 t.2.1 t.2.2.1 t.2.2.2.1 t.2.2.2.2.1 t.2.2.2.2.2.1 t.2.2.2.2.2.2.
#[global] Instance PATHCONF3resok_iso : Iso fields_PATHCONF3resok make_PATHCONF3resok. Proof. iso. Qed.
Definition zdr_PATHCONF3resok : proc PATHCONF3resok := zdr_via fields_PATHCONF3resok make_PATHCONF3resok (zdr_post_op_attr
  >>> zdr_u_int >>> zdr_u_int >>> zdr_bool >>> zdr_bool >>> zdr_bool >>> zdr_bool).
#[global] Instance PATHCONF3resok_codec : Codec zdr_PATHCONF3resok. Proof. codec zdr_PATHCONF3resok. Defined.
#[global] Instance PATHCONF3resok_blank : Blank zdr_PATHCONF3resok zero_PATHCONF3resok. Proof. blank zdr_PATHCONF3resok. Qed.
#[global] Instance PATHCONF3resok_safe : Safe zdr_PATHCONF3resok. Proof. safe zdr_PATHCONF3resok. Qed.

Record PATHCONF3resfail := mkPATHCONF3resfail {
  PATHCONF3resfail_obj_attributes : post_op_attr
}.
Definition zero_PATHCONF3resfail : PATHCONF3resfail := mkPATHCONF3resfail zero_post_op_attr.
Definition fields_PATHCONF3resfail (x : PATHCONF3resfail) := PATHCONF3resfail_obj_attributes x.
Definition make_PATHCONF3resfail (t : post_op_attr) : PATHCONF3resfail := mkPATHCONF3resfail t.
#[global] Instance PATHCONF3resfail_iso : Iso fields_PATHCONF3resfail make_PATHCONF3resfail. Proof. iso. Qed.
Definition zdr_PATHCONF3resfail : proc PATHCONF3resfail := zdr_via fields_PATHCONF3resfail make_PATHCONF3resfail
  (zdr_post_op_attr).
#[global] Instance PATHCONF3resfail_codec : Codec zdr_PATHCONF3resfail. Proof. codec zdr_PATHCONF3resfail. Defined.
#[global] Instance PATHCONF3resfail_blank : Blank zdr_PATHCONF3resfail zero_PATHCONF3resfail. Proof. blank
  zdr_PATHCONF3resfail. Qed.
#[global] Instance PATHCONF3resfail_safe : Safe zdr_PATHCONF3resfail. Proof. safe zdr_PATHCONF3resfail. Qed.

Inductive PATHCONF3res_union := PATHCONF3res_cleared | PATHCONF3res_resok (x : PATHCONF3resok) | PATHCONF3res_resfail (x :
  PATHCONF3resfail).
Record PATHCONF3res := mkPATHCONF3res { PATHCONF3res_status : Z; PATHCONF3res_u : PATHCONF3res_union }.
Definition zero_PATHCONF3res : PATHCONF3res := mkPATHCONF3res 0 PATHCONF3res_cleared.
Definition fields_PATHCONF3res (x : PATHCONF3res) := (PATHCONF3res_status x, PATHCONF3res_u x).
Definition make_PATHCONF3res (t : (Z * PATHCONF3res_union)) : PATHCONF3res := mkPATHCONF3res t.1 t.2.
#[global] Instance PATHCONF3res_iso : Iso fields_PATHCONF3res make_PATHCONF3res. Proof. iso. Qed.
Definition as_PATHCONF3res_resok (u : PATHCONF3res_union) : PATHCONF3resok := match u with PATHCONF3res_resok x => x | _
  => zero_PATHCONF3resok end.
#[global] Instance PATHCONF3res_resok_member : Variant as_PATHCONF3res_resok PATHCONF3res_resok. Proof. done. Qed.
Definition as_PATHCONF3res_resfail (u : PATHCONF3res_union) : PATHCONF3resfail := match u with PATHCONF3res_resfail x => x
  | _ => zero_PATHCONF3resfail end.
#[global] Instance PATHCONF3res_resfail_member : Variant as_PATHCONF3res_resfail PATHCONF3res_resfail. Proof. done. Qed.
Definition case_PATHCONF3res (d : Z) : proc PATHCONF3res_union :=
  if (d =? NFS3_OK) then zdr_member as_PATHCONF3res_resok PATHCONF3res_resok zdr_PATHCONF3resok
  else zdr_member as_PATHCONF3res_resfail PATHCONF3res_resfail zdr_PATHCONF3resfail.
#[global] Instance case_PATHCONF3res_codec d : Codec (case_PATHCONF3res d). Proof. codec case_PATHCONF3res. Defined.
#[global] Instance case_PATHCONF3res_blank d : Blank (case_PATHCONF3res d) PATHCONF3res_cleared. Proof. blank
  case_PATHCONF3res. Qed.
#[global] Instance case_PATHCONF3res_safe d : Safe (case_PATHCONF3res d). Proof. safe case_PATHCONF3res. Qed.
Definition zdr_PATHCONF3res : proc PATHCONF3res := zdr_via fields_PATHCONF3res make_PATHCONF3res (zdr_dseq zdr_nfsstat3
  (case_PATHCONF3res)).
#[global] Instance PATHCONF3res_codec : Codec zdr_PATHCONF3res. Proof. codec zdr_PATHCONF3res. Defined.
#[global] Instance PATHCONF3res_blank : Blank zdr_PATHCONF3res zero_PATHCONF3res. Proof. blank zdr_PATHCONF3res. Qed.
#[global] Instance PATHCONF3res_safe : Safe zdr_PATHCONF3res. Proof. safe zdr_PATHCONF3res. Qed.

Definition zdr_nfspath3 : proc ptr := zdr_string.
Record symlinkdata3 := mksymlinkdata3 {
  symlinkdata3_symlink_attributes : sattr3; symlinkdata3_symlink_data : ptr
}.
Definition zero_symlinkdata3 : symlinkdata3 := mksymlinkdata3 zero_sattr3 NULL.
Definition fields_symlinkdata3 (x : symlinkdata3) := (symlinkdata3_symlink_attributes x, symlinkdata3_symlink_data x).
Definition make_symlinkdata3 (t : (sattr3 * ptr)) : symlinkdata3 := mksymlinkdata3 t.1 t.2.
#[global] Instance symlinkdata3_iso : Iso fields_symlinkdata3 make_symlinkdata3. Proof. iso. Qed.
Definition zdr_symlinkdata3 : proc symlinkdata3 := zdr_via fields_symlinkdata3 make_symlinkdata3 (zdr_sattr3 >>>
  zdr_nfspath3).
#[global] Instance symlinkdata3_codec : Codec zdr_symlinkdata3. Proof. codec zdr_symlinkdata3. Defined.
#[global] Instance symlinkdata3_blank : Blank zdr_symlinkdata3 zero_symlinkdata3. Proof. blank zdr_symlinkdata3. Qed.

Record SYMLINK3args := mkSYMLINK3args {
  SYMLINK3args_where : diropargs3; SYMLINK3args_symlink : symlinkdata3
}.
Definition zero_SYMLINK3args : SYMLINK3args := mkSYMLINK3args zero_diropargs3 zero_symlinkdata3.
Definition fields_SYMLINK3args (x : SYMLINK3args) := (SYMLINK3args_where x, SYMLINK3args_symlink x).
Definition make_SYMLINK3args (t : (diropargs3 * symlinkdata3)) : SYMLINK3args := mkSYMLINK3args t.1 t.2.
#[global] Instance SYMLINK3args_iso : Iso fields_SYMLINK3args make_SYMLINK3args. Proof. iso. Qed.
Definition zdr_SYMLINK3args : proc SYMLINK3args := zdr_via fields_SYMLINK3args make_SYMLINK3args (zdr_diropargs3 >>>
  zdr_symlinkdata3).
#[global] Instance SYMLINK3args_codec : Codec zdr_SYMLINK3args. Proof. codec zdr_SYMLINK3args. Defined.
#[global] Instance SYMLINK3args_blank : Blank zdr_SYMLINK3args zero_SYMLINK3args. Proof. blank zdr_SYMLINK3args. Qed.

Record SYMLINK3resok := mkSYMLINK3resok {
  SYMLINK3resok_obj : post_op_fh3; SYMLINK3resok_obj_attributes : post_op_attr; SYMLINK3resok_dir_wcc : wcc_data
}.
Definition zero_SYMLINK3resok : SYMLINK3resok := mkSYMLINK3resok zero_post_op_fh3 zero_post_op_attr zero_wcc_data.
Definition fields_SYMLINK3resok (x : SYMLINK3resok) := (SYMLINK3resok_obj x, (SYMLINK3resok_obj_attributes x,
  SYMLINK3resok_dir_wcc x)).
Definition make_SYMLINK3resok (t : (post_op_fh3 * (post_op_attr * wcc_data))) : SYMLINK3resok := mkSYMLINK3resok t.1 t.2.1
  t.2.2.
#[global] Instance SYMLINK3resok_iso : Iso fields_SYMLINK3resok make_SYMLINK3resok. Proof. iso. Qed.
Definition zdr_SYMLINK3resok : proc SYMLINK3resok := zdr_via fields_SYMLINK3resok make_SYMLINK3resok (zdr_post_op_fh3 >>>
  zdr_post_op_attr >>> zdr_wcc_data).
#[global] Instance SYMLINK3resok_codec : Codec zdr_SYMLINK3resok. Proof. codec zdr_SYMLINK3resok. Defined.
#[global] Instance SYMLINK3resok_blank : Blank zdr_SYMLINK3resok zero_SYMLINK3resok. Proof. blank zdr_SYMLINK3resok. Qed.

Record SYMLINK3resfail := mkSYMLINK3resfail {
  SYMLINK3resfail_dir_wcc : wcc_data
}.
Definition zero_SYMLINK3resfail : SYMLINK3resfail := mkSYMLINK3resfail zero_wcc_data.
Definition fields_SYMLINK3resfail (x : SYMLINK3resfail) := SYMLINK3resfail_dir_wcc x.
Definition make_SYMLINK3resfail (t : wcc_data) : SYMLINK3resfail := mkSYMLINK3resfail t.
#[global] Instance SYMLINK3resfail_iso : Iso fields_SYMLINK3resfail make_SYMLINK3resfail. Proof. iso. Qed.
Definition zdr_SYMLINK3resfail : proc SYMLINK3resfail := zdr_via fields_SYMLINK3resfail make_SYMLINK3resfail (zdr_wcc_data).
#[global] Instance SYMLINK3resfail_codec : Codec zdr_SYMLINK3resfail. Proof. codec zdr_SYMLINK3resfail. Defined.
#[global] Instance SYMLINK3resfail_blank : Blank zdr_SYMLINK3resfail zero_SYMLINK3resfail. Proof. blank
  zdr_SYMLINK3resfail. Qed.
#[global] Instance SYMLINK3resfail_safe : Safe zdr_SYMLINK3resfail. Proof. safe zdr_SYMLINK3resfail. Qed.

Inductive SYMLINK3res_union := SYMLINK3res_cleared | SYMLINK3res_resok (x : SYMLINK3resok) | SYMLINK3res_resfail (x :
  SYMLINK3resfail).
Record SYMLINK3res := mkSYMLINK3res { SYMLINK3res_status : Z; SYMLINK3res_u : SYMLINK3res_union }.
Definition zero_SYMLINK3res : SYMLINK3res := mkSYMLINK3res 0 SYMLINK3res_cleared.
Definition fields_SYMLINK3res (x : SYMLINK3res) := (SYMLINK3res_status x, SYMLINK3res_u x).
Definition make_SYMLINK3res (t : (Z * SYMLINK3res_union)) : SYMLINK3res := mkSYMLINK3res t.1 t.2.
#[global] Instance SYMLINK3res_iso : Iso fields_SYMLINK3res make_SYMLINK3res. Proof. iso. Qed.
Definition as_SYMLINK3res_resok (u : SYMLINK3res_union) : SYMLINK3resok := match u with SYMLINK3res_resok x => x | _ =>
  zero_SYMLINK3resok end.
#[global] Instance SYMLINK3res_resok_member : Variant as_SYMLINK3res_resok SYMLINK3res_resok. Proof. done. Qed.
Definition as_SYMLINK3res_resfail (u : SYMLINK3res_union) : SYMLINK3resfail := match u with SYMLINK3res_resfail x => x | _
  => zero_SYMLINK3resfail end.
#[global] Instance SYMLINK3res_resfail_member : Variant as_SYMLINK3res_resfail SYMLINK3res_resfail. Proof. done. Qed.
Definition case_SYMLINK3res (d : Z) : proc SYMLINK3res_union :=
  if (d =? NFS3_OK) then zdr_member as_SYMLINK3res_resok SYMLINK3res_resok zdr_SYMLINK3resok
  else zdr_member as_SYMLINK3res_resfail SYMLINK3res_resfail zdr_SYMLINK3resfail.
#[global] Instance case_SYMLINK3res_codec d : Codec (case_SYMLINK3res d). Proof. codec case_SYMLINK3res. Defined.
#[global] Instance case_SYMLINK3res_blank d : Blank (case_SYMLINK3res d) SYMLINK3res_cleared. Proof. blank
  case_SYMLINK3res. Qed.
Definition zdr_SYMLINK3res : proc SYMLINK3res := zdr_via fields_SYMLINK3res make_SYMLINK3res (zdr_dseq zdr_nfsstat3
  (case_SYMLINK3res)).
#[global] Instance SYMLINK3res_codec : Codec zdr_SYMLINK3res. Proof. codec zdr_SYMLINK3res. Defined.
#[global] Instance SYMLINK3res_blank : Blank zdr_SYMLINK3res zero_SYMLINK3res. Proof. blank zdr_SYMLINK3res. Qed.

Record READLINK3args := mkREADLINK3args {
  READLINK3args_symlink : nfs_fh3
}.
Definition zero_READLINK3args : READLINK3args := mkREADLINK3args zero_nfs_fh3.
Definition fields_READLINK3args (x : READLINK3args) := READLINK3args_symlink x.
Definition make_READLINK3args (t : nfs_fh3) : READLINK3args := mkREADLINK3args t.
#[global] Instance READLINK3args_iso : Iso fields_READLINK3args make_READLINK3args. Proof. iso. Qed.
Definition zdr_READLINK3args : proc READLINK3args := zdr_via fields_READLINK3args make_READLINK3args (zdr_nfs_fh3).
#[global] Instance READLINK3args_codec : Codec zdr_READLINK3args. Proof. codec zdr_READLINK3args. Defined.
#[global] Instance READLINK3args_blank : Blank zdr_READLINK3args zero_READLINK3args. Proof. blank zdr_READLINK3args. Qed.

Record READLINK3resok := mkREADLINK3resok {
  READLINK3resok_symlink_attributes : post_op_attr; READLINK3resok_data : ptr
}.
Definition zero_READLINK3resok : READLINK3resok := mkREADLINK3resok zero_post_op_attr NULL.
Definition fields_READLINK3resok (x : READLINK3resok) := (READLINK3resok_symlink_attributes x, READLINK3resok_data x).
Definition make_READLINK3resok (t : (post_op_attr * ptr)) : READLINK3resok := mkREADLINK3resok t.1 t.2.
#[global] Instance READLINK3resok_iso : Iso fields_READLINK3resok make_READLINK3resok. Proof. iso. Qed.
Definition zdr_READLINK3resok : proc READLINK3resok := zdr_via fields_READLINK3resok make_READLINK3resok (zdr_post_op_attr
  >>> zdr_nfspath3).
#[global] Instance READLINK3resok_codec : Codec zdr_READLINK3resok. Proof. codec zdr_READLINK3resok. Defined.
#[global] Instance READLINK3resok_blank : Blank zdr_READLINK3resok zero_READLINK3resok. Proof. blank zdr_READLINK3resok. Qed.

Record READLINK3resfail := mkREADLINK3resfail {
  READLINK3resfail_symlink_attributes : post_op_attr
}.
Definition zero_READLINK3resfail : READLINK3resfail := mkREADLINK3resfail zero_post_op_attr.
Definition fields_READLINK3resfail (x : READLINK3resfail) := READLINK3resfail_symlink_attributes x.
Definition make_READLINK3resfail (t : post_op_attr) : READLINK3resfail := mkREADLINK3resfail t.
#[global] Instance READLINK3resfail_iso : Iso fields_READLINK3resfail make_READLINK3resfail. Proof. iso. Qed.
Definition zdr_READLINK3resfail : proc READLINK3resfail := zdr_via fields_READLINK3resfail make_READLINK3resfail
  (zdr_post_op_attr).
#[global] Instance READLINK3resfail_codec : Codec zdr_READLINK3resfail. Proof. codec zdr_READLINK3resfail. Defined.
#[global] Instance READLINK3resfail_blank : Blank zdr_READLINK3resfail zero_READLINK3resfail. Proof. blank
  zdr_READLINK3resfail. Qed.
#[global] Instance READLINK3resfail_safe : Safe zdr_READLINK3resfail. Proof. safe zdr_READLINK3resfail. Qed.

Inductive READLINK3res_union := READLINK3res_cleared | READLINK3res_resok (x : READLINK3resok) | READLINK3res_resfail (x :
  READLINK3resfail).
Record READLINK3res := mkREADLINK3res { READLINK3res_status : Z; READLINK3res_u : READLINK3res_union }.
Definition zero_READLINK3res : READLINK3res := mkREADLINK3res 0 READLINK3res_cleared.
Definition fields_READLINK3res (x : READLINK3res) := (READLINK3res_status x, READLINK3res_u x).
Definition make_READLINK3res (t : (Z * READLINK3res_union)) : READLINK3res := mkREADLINK3res t.1 t.2.
#[global] Instance READLINK3res_iso : Iso fields_READLINK3res make_READLINK3res. Proof. iso. Qed.
Definition as_READLINK3res_resok (u : READLINK3res_union) : READLINK3resok := match u with READLINK3res_resok x => x | _
  => zero_READLINK3resok end.
#[global] Instance READLINK3res_resok_member : Variant as_READLINK3res_resok READLINK3res_resok. Proof. done. Qed.
Definition as_READLINK3res_resfail (u : READLINK3res_union) : READLINK3resfail := match u with READLINK3res_resfail x => x
  | _ => zero_READLINK3resfail end.
#[global] Instance READLINK3res_resfail_member : Variant as_READLINK3res_resfail READLINK3res_resfail. Proof. done. Qed.
Definition case_READLINK3res (d : Z) : proc READLINK3res_union :=
  if (d =? NFS3_OK) then zdr_member as_READLINK3res_resok READLINK3res_resok zdr_READLINK3resok
  else zdr_member as_READLINK3res_resfail READLINK3res_resfail zdr_READLINK3resfail.
#[global] Instance case_READLINK3res_codec d : Codec (case_READLINK3res d). Proof. codec case_READLINK3res. Defined.
#[global] Instance case_READLINK3res_blank d : Blank (case_READLINK3res d) READLINK3res_cleared. Proof. blank
  case_READLINK3res. Qed.
Definition zdr_READLINK3res : proc READLINK3res := zdr_via fields_READLINK3res make_READLINK3res (zdr_dseq zdr_nfsstat3
  (case_READLINK3res)).
#[global] Instance READLINK3res_codec : Codec zdr_READLINK3res. Proof. codec zdr_READLINK3res. Defined.
#[global] Instance READLINK3res_blank : Blank zdr_READLINK3res zero_READLINK3res. Proof. blank zdr_READLINK3res. Qed.

Record devicedata3 := mkdevicedata3 {
  devicedata3_dev_attributes : sattr3; devicedata3_spec : specdata3
}.
Definition zero_devicedata3 : devicedata3 := mkdevicedata3 zero_sattr3 zero_specdata3.
Definition fields_devicedata3 (x : devicedata3) := (devicedata3_dev_attributes x, devicedata3_spec x).
Definition make_devicedata3 (t : (sattr3 * specdata3)) : devicedata3 := mkdevicedata3 t.1 t.2.
#[global] Instance devicedata3_iso : Iso fields_devicedata3 make_devicedata3. Proof. iso. Qed.
Definition zdr_devicedata3 : proc devicedata3 := zdr_via fields_devicedata3 make_devicedata3 (zdr_sattr3 >>> zdr_specdata3).
#[global] Instance devicedata3_codec : Codec zdr_devicedata3. Proof. codec zdr_devicedata3. Defined.
#[global] Instance devicedata3_blank : Blank zdr_devicedata3 zero_devicedata3. Proof. blank zdr_devicedata3. Qed.
#[global] Instance devicedata3_safe : Safe zdr_devicedata3. Proof. safe zdr_devicedata3. Qed.

Inductive mknoddata3_union := mknoddata3_cleared | mknoddata3_chr_device (x : devicedata3) | mknoddata3_blk_device (x :
  devicedata3) | mknoddata3_sock_attributes (x : sattr3) | mknoddata3_pipe_attributes (x : sattr3).
Record mknoddata3 := mkmknoddata3 { mknoddata3_type : Z; mknoddata3_u : mknoddata3_union }.
Definition zero_mknoddata3 : mknoddata3 := mkmknoddata3 0 mknoddata3_cleared.
Definition fields_mknoddata3 (x : mknoddata3) := (mknoddata3_type x, mknoddata3_u x).
Definition make_mknoddata3 (t : (Z * mknoddata3_union)) : mknoddata3 := mkmknoddata3 t.1 t.2.
#[global] Instance mknoddata3_iso : Iso fields_mknoddata3 make_mknoddata3. Proof. iso. Qed.
Definition as_mknoddata3_chr_device (u : mknoddata3_union) : devicedata3 := match u with mknoddata3_chr_device x |
  mknoddata3_blk_device x => x | _ => zero_devicedata3 end.
#[global] Instance mknoddata3_chr_device_member : Variant as_mknoddata3_chr_device mknoddata3_chr_device. Proof. done. Qed.
Definition as_mknoddata3_blk_device (u : mknoddata3_union) : devicedata3 := match u with mknoddata3_chr_device x |
  mknoddata3_blk_device x => x | _ => zero_devicedata3 end.
#[global] Instance mknoddata3_blk_device_member : Variant as_mknoddata3_blk_device mknoddata3_blk_device. Proof. done. Qed.
Definition as_mknoddata3_sock_attributes (u : mknoddata3_union) : sattr3 := match u with mknoddata3_sock_attributes x |
  mknoddata3_pipe_attributes x => x | _ => zero_sattr3 end.
#[global] Instance mknoddata3_sock_attributes_member : Variant as_mknoddata3_sock_attributes mknoddata3_sock_attributes.
  Proof. done. Qed.
Definition as_mknoddata3_pipe_attributes (u : mknoddata3_union) : sattr3 := match u with mknoddata3_sock_attributes x |
  mknoddata3_pipe_attributes x => x | _ => zero_sattr3 end.
#[global] Instance mknoddata3_pipe_attributes_member : Variant as_mknoddata3_pipe_attributes mknoddata3_pipe_attributes.
  Proof. done. Qed.
Definition case_mknoddata3 (d : Z) : proc mknoddata3_union :=
  if (d =? NF3CHR) then zdr_member as_mknoddata3_chr_device mknoddata3_chr_device zdr_devicedata3
  else if (d =? NF3BLK) then zdr_member as_mknoddata3_blk_device mknoddata3_blk_device zdr_devicedata3
  else if (d =? NF3SOCK) then zdr_member as_mknoddata3_sock_attributes mknoddata3_sock_attributes zdr_sattr3
  else if (d =? NF3FIFO) then zdr_member as_mknoddata3_pipe_attributes mknoddata3_pipe_attributes zdr_sattr3
  else zdr_void.
#[global] Instance case_mknoddata3_codec d : Codec (case_mknoddata3 d). Proof. codec case_mknoddata3. Defined.
#[global] Instance case_mknoddata3_blank d : Blank (case_mknoddata3 d) mknoddata3_cleared. Proof. blank case_mknoddata3. Qed.
#[global] Instance case_mknoddata3_safe d : Safe (case_mknoddata3 d). Proof. safe case_mknoddata3. Qed.
Definition zdr_mknoddata3 : proc mknoddata3 := zdr_via fields_mknoddata3 make_mknoddata3 (zdr_dseq zdr_ftype3
  (case_mknoddata3)).
#[global] Instance mknoddata3_codec : Codec zdr_mknoddata3. Proof. codec zdr_mknoddata3. Defined.
#[global] Instance mknoddata3_blank : Blank zdr_mknoddata3 zero_mknoddata3. Proof. blank zdr_mknoddata3. Qed.
#[global] Instance mknoddata3_safe : Safe zdr_mknoddata3. Proof. safe zdr_mknoddata3. Qed.

Record MKNOD3args := mkMKNOD3args {
  MKNOD3args_where : diropargs3; MKNOD3args_what : mknoddata3
}.
Definition zero_MKNOD3args : MKNOD3args := mkMKNOD3args zero_diropargs3 zero_mknoddata3.
Definition fields_MKNOD3args (x : MKNOD3args) := (MKNOD3args_where x, MKNOD3args_what x).
Definition make_MKNOD3args (t : (diropargs3 * mknoddata3)) : MKNOD3args := mkMKNOD3args t.1 t.2.
#[global] Instance MKNOD3args_iso : Iso fields_MKNOD3args make_MKNOD3args. Proof. iso. Qed.
Definition zdr_MKNOD3args : proc MKNOD3args := zdr_via fields_MKNOD3args make_MKNOD3args (zdr_diropargs3 >>> zdr_mknoddata3).
#[global] Instance MKNOD3args_codec : Codec zdr_MKNOD3args. Proof. codec zdr_MKNOD3args. Defined.
#[global] Instance MKNOD3args_blank : Blank zdr_MKNOD3args zero_MKNOD3args. Proof. blank zdr_MKNOD3args. Qed.

Record MKNOD3resok := mkMKNOD3resok {
  MKNOD3resok_obj : post_op_fh3; MKNOD3resok_obj_attributes : post_op_attr; MKNOD3resok_dir_wcc : wcc_data
}.
Definition zero_MKNOD3resok : MKNOD3resok := mkMKNOD3resok zero_post_op_fh3 zero_post_op_attr zero_wcc_data.
Definition fields_MKNOD3resok (x : MKNOD3resok) := (MKNOD3resok_obj x, (MKNOD3resok_obj_attributes x, MKNOD3resok_dir_wcc
  x)).
Definition make_MKNOD3resok (t : (post_op_fh3 * (post_op_attr * wcc_data))) : MKNOD3resok := mkMKNOD3resok t.1 t.2.1 t.2.2.
#[global] Instance MKNOD3resok_iso : Iso fields_MKNOD3resok make_MKNOD3resok. Proof. iso. Qed.
Definition zdr_MKNOD3resok : proc MKNOD3resok := zdr_via fields_MKNOD3resok make_MKNOD3resok (zdr_post_op_fh3 >>>
  zdr_post_op_attr >>> zdr_wcc_data).
#[global] Instance MKNOD3resok_codec : Codec zdr_MKNOD3resok. Proof. codec zdr_MKNOD3resok. Defined.
#[global] Instance MKNOD3resok_blank : Blank zdr_MKNOD3resok zero_MKNOD3resok. Proof. blank zdr_MKNOD3resok. Qed.

Record MKNOD3resfail := mkMKNOD3resfail {
  MKNOD3resfail_dir_wcc : wcc_data
}.
Definition zero_MKNOD3resfail : MKNOD3resfail := mkMKNOD3resfail zero_wcc_data.
Definition fields_MKNOD3resfail (x : MKNOD3resfail) := MKNOD3resfail_dir_wcc x.
Definition make_MKNOD3resfail (t : wcc_data) : MKNOD3resfail := mkMKNOD3resfail t.
#[global] Instance MKNOD3resfail_iso : Iso fields_MKNOD3resfail make_MKNOD3resfail. Proof. iso. Qed.
Definition zdr_MKNOD3resfail : proc MKNOD3resfail := zdr_via fields_MKNOD3resfail make_MKNOD3resfail (zdr_wcc_data).
#[global] Instance MKNOD3resfail_codec : Codec zdr_MKNOD3resfail. Proof. codec zdr_MKNOD3resfail. Defined.
#[global] Instance MKNOD3resfail_blank : Blank zdr_MKNOD3resfail zero_MKNOD3resfail. Proof. blank zdr_MKNOD3resfail. Qed.
#[global] Instance MKNOD3resfail_safe : Safe zdr_MKNOD3resfail. Proof. safe zdr_MKNOD3resfail. Qed.

Inductive MKNOD3res_union := MKNOD3res_cleared | MKNOD3res_resok (x : MKNOD3resok) | MKNOD3res_resfail (x : MKNOD3resfail).
Record MKNOD3res := mkMKNOD3res { MKNOD3res_status : Z; MKNOD3res_u : MKNOD3res_union }.
Definition zero_MKNOD3res : MKNOD3res := mkMKNOD3res 0 MKNOD3res_cleared.
Definition fields_MKNOD3res (x : MKNOD3res) := (MKNOD3res_status x, MKNOD3res_u x).
Definition make_MKNOD3res (t : (Z * MKNOD3res_union)) : MKNOD3res := mkMKNOD3res t.1 t.2.
#[global] Instance MKNOD3res_iso : Iso fields_MKNOD3res make_MKNOD3res. Proof. iso. Qed.
Definition as_MKNOD3res_resok (u : MKNOD3res_union) : MKNOD3resok := match u with MKNOD3res_resok x => x | _ =>
  zero_MKNOD3resok end.
#[global] Instance MKNOD3res_resok_member : Variant as_MKNOD3res_resok MKNOD3res_resok. Proof. done. Qed.
Definition as_MKNOD3res_resfail (u : MKNOD3res_union) : MKNOD3resfail := match u with MKNOD3res_resfail x => x | _ =>
  zero_MKNOD3resfail end.
#[global] Instance MKNOD3res_resfail_member : Variant as_MKNOD3res_resfail MKNOD3res_resfail. Proof. done. Qed.
Definition case_MKNOD3res (d : Z) : proc MKNOD3res_union :=
  if (d =? NFS3_OK) then zdr_member as_MKNOD3res_resok MKNOD3res_resok zdr_MKNOD3resok
  else zdr_member as_MKNOD3res_resfail MKNOD3res_resfail zdr_MKNOD3resfail.
#[global] Instance case_MKNOD3res_codec d : Codec (case_MKNOD3res d). Proof. codec case_MKNOD3res. Defined.
#[global] Instance case_MKNOD3res_blank d : Blank (case_MKNOD3res d) MKNOD3res_cleared. Proof. blank case_MKNOD3res. Qed.
Definition zdr_MKNOD3res : proc MKNOD3res := zdr_via fields_MKNOD3res make_MKNOD3res (zdr_dseq zdr_nfsstat3
  (case_MKNOD3res)).
#[global] Instance MKNOD3res_codec : Codec zdr_MKNOD3res. Proof. codec zdr_MKNOD3res. Defined.
#[global] Instance MKNOD3res_blank : Blank zdr_MKNOD3res zero_MKNOD3res. Proof. blank zdr_MKNOD3res. Qed.

Record MKDIR3args := mkMKDIR3args {
  MKDIR3args_where : diropargs3; MKDIR3args_attributes : sattr3
}.
Definition zero_MKDIR3args : MKDIR3args := mkMKDIR3args zero_diropargs3 zero_sattr3.
Definition fields_MKDIR3args (x : MKDIR3args) := (MKDIR3args_where x, MKDIR3args_attributes x).
Definition make_MKDIR3args (t : (diropargs3 * sattr3)) : MKDIR3args := mkMKDIR3args t.1 t.2.
#[global] Instance MKDIR3args_iso : Iso fields_MKDIR3args make_MKDIR3args. Proof. iso. Qed.
Definition zdr_MKDIR3args : proc MKDIR3args := zdr_via fields_MKDIR3args make_MKDIR3args (zdr_diropargs3 >>> zdr_sattr3).
#[global] Instance MKDIR3args_codec : Codec zdr_MKDIR3args. Proof. codec zdr_MKDIR3args. Defined.
#[global] Instance MKDIR3args_blank : Blank zdr_MKDIR3args zero_MKDIR3args. Proof. blank zdr_MKDIR3args. Qed.

Record MKDIR3resok := mkMKDIR3resok {
  MKDIR3resok_obj : post_op_fh3; MKDIR3resok_obj_attributes : post_op_attr; MKDIR3resok_dir_wcc : wcc_data
}.
Definition zero_MKDIR3resok : MKDIR3resok := mkMKDIR3resok zero_post_op_fh3 zero_post_op_attr zero_wcc_data.
Definition fields_MKDIR3resok (x : MKDIR3resok) := (MKDIR3resok_obj x, (MKDIR3resok_obj_attributes x, MKDIR3resok_dir_wcc
  x)).
Definition make_MKDIR3resok (t : (post_op_fh3 * (post_op_attr * wcc_data))) : MKDIR3resok := mkMKDIR3resok t.1 t.2.1 t.2.2.
#[global] Instance MKDIR3resok_iso : Iso fields_MKDIR3resok make_MKDIR3resok. Proof. iso. Qed.
Definition zdr_MKDIR3resok : proc MKDIR3resok := zdr_via fields_MKDIR3resok make_MKDIR3resok (zdr_post_op_fh3 >>>
  zdr_post_op_attr >>> zdr_wcc_data).
#[global] Instance MKDIR3resok_codec : Codec zdr_MKDIR3resok. Proof. codec zdr_MKDIR3resok. Defined.
#[global] Instance MKDIR3resok_blank : Blank zdr_MKDIR3resok zero_MKDIR3resok. Proof. blank zdr_MKDIR3resok. Qed.

Record MKDIR3resfail := mkMKDIR3resfail {
  MKDIR3resfail_dir_wcc : wcc_data
}.
Definition zero_MKDIR3resfail : MKDIR3resfail := mkMKDIR3resfail zero_wcc_data.
Definition fields_MKDIR3resfail (x : MKDIR3resfail) := MKDIR3resfail_dir_wcc x.
Definition make_MKDIR3resfail (t : wcc_data) : MKDIR3resfail := mkMKDIR3resfail t.
#[global] Instance MKDIR3resfail_iso : Iso fields_MKDIR3resfail make_MKDIR3resfail. Proof. iso. Qed.
Definition zdr_MKDIR3resfail : proc MKDIR3resfail := zdr_via fields_MKDIR3resfail make_MKDIR3resfail (zdr_wcc_data).
#[global] Instance MKDIR3resfail_codec : Codec zdr_MKDIR3resfail. Proof. codec zdr_MKDIR3resfail. Defined.
#[global] Instance MKDIR3resfail_blank : Blank zdr_MKDIR3resfail zero_MKDIR3resfail. Proof. blank zdr_MKDIR3resfail. Qed.
#[global] Instance MKDIR3resfail_safe : Safe zdr_MKDIR3resfail. Proof. safe zdr_MKDIR3resfail. Qed.

Inductive MKDIR3res_union := MKDIR3res_cleared | MKDIR3res_resok (x : MKDIR3resok) | MKDIR3res_resfail (x : MKDIR3resfail).
Record MKDIR3res := mkMKDIR3res { MKDIR3res_status : Z; MKDIR3res_u : MKDIR3res_union }.
Definition zero_MKDIR3res : MKDIR3res := mkMKDIR3res 0 MKDIR3res_cleared.
Definition fields_MKDIR3res (x : MKDIR3res) := (MKDIR3res_status x, MKDIR3res_u x).
Definition make_MKDIR3res (t : (Z * MKDIR3res_union)) : MKDIR3res := mkMKDIR3res t.1 t.2.
#[global] Instance MKDIR3res_iso : Iso fields_MKDIR3res make_MKDIR3res. Proof. iso. Qed.
Definition as_MKDIR3res_resok (u : MKDIR3res_union) : MKDIR3resok := match u with MKDIR3res_resok x => x | _ =>
  zero_MKDIR3resok end.
#[global] Instance MKDIR3res_resok_member : Variant as_MKDIR3res_resok MKDIR3res_resok. Proof. done. Qed.
Definition as_MKDIR3res_resfail (u : MKDIR3res_union) : MKDIR3resfail := match u with MKDIR3res_resfail x => x | _ =>
  zero_MKDIR3resfail end.
#[global] Instance MKDIR3res_resfail_member : Variant as_MKDIR3res_resfail MKDIR3res_resfail. Proof. done. Qed.
Definition case_MKDIR3res (d : Z) : proc MKDIR3res_union :=
  if (d =? NFS3_OK) then zdr_member as_MKDIR3res_resok MKDIR3res_resok zdr_MKDIR3resok
  else zdr_member as_MKDIR3res_resfail MKDIR3res_resfail zdr_MKDIR3resfail.
#[global] Instance case_MKDIR3res_codec d : Codec (case_MKDIR3res d). Proof. codec case_MKDIR3res. Defined.
#[global] Instance case_MKDIR3res_blank d : Blank (case_MKDIR3res d) MKDIR3res_cleared. Proof. blank case_MKDIR3res. Qed.
Definition zdr_MKDIR3res : proc MKDIR3res := zdr_via fields_MKDIR3res make_MKDIR3res (zdr_dseq zdr_nfsstat3
  (case_MKDIR3res)).
#[global] Instance MKDIR3res_codec : Codec zdr_MKDIR3res. Proof. codec zdr_MKDIR3res. Defined.
#[global] Instance MKDIR3res_blank : Blank zdr_MKDIR3res zero_MKDIR3res. Proof. blank zdr_MKDIR3res. Qed.

Record RMDIR3args := mkRMDIR3args {
  RMDIR3args_object : diropargs3
}.
Definition zero_RMDIR3args : RMDIR3args := mkRMDIR3args zero_diropargs3.
Definition fields_RMDIR3args (x : RMDIR3args) := RMDIR3args_object x.
Definition make_RMDIR3args (t : diropargs3) : RMDIR3args := mkRMDIR3args t.
#[global] Instance RMDIR3args_iso : Iso fields_RMDIR3args make_RMDIR3args. Proof. iso. Qed.
Definition zdr_RMDIR3args : proc RMDIR3args := zdr_via fields_RMDIR3args make_RMDIR3args (zdr_diropargs3).
#[global] Instance RMDIR3args_codec : Codec zdr_RMDIR3args. Proof. codec zdr_RMDIR3args. Defined.
#[global] Instance RMDIR3args_blank : Blank zdr_RMDIR3args zero_RMDIR3args. Proof. blank zdr_RMDIR3args. Qed.

Record RMDIR3resok := mkRMDIR3resok {
  RMDIR3resok_dir_wcc : wcc_data
}.
Definition zero_RMDIR3resok : RMDIR3resok := mkRMDIR3resok zero_wcc_data.
Definition fields_RMDIR3resok (x : RMDIR3resok) := RMDIR3resok_dir_wcc x.
Definition make_RMDIR3resok (t : wcc_data) : RMDIR3resok := mkRMDIR3resok t.
#[global] Instance RMDIR3resok_iso : Iso fields_RMDIR3resok make_RMDIR3resok. Proof. iso. Qed.
Definition zdr_RMDIR3resok : proc RMDIR3resok := zdr_via fields_RMDIR3resok make_RMDIR3resok (zdr_wcc_data).
#[global] Instance RMDIR3resok_codec : Codec zdr_RMDIR3resok. Proof. codec zdr_RMDIR3resok. Defined.
#[global] Instance RMDIR3resok_blank : Blank zdr_RMDIR3resok zero_RMDIR3resok. Proof. blank zdr_RMDIR3resok. Qed.
#[global] Instance RMDIR3resok_safe : Safe zdr_RMDIR3resok. Proof. safe zdr_RMDIR3resok. Qed.

Record RMDIR3resfail := mkRMDIR3resfail {
  RMDIR3resfail_dir_wcc : wcc_data
}.
Definition zero_RMDIR3resfail : RMDIR3resfail := mkRMDIR3resfail zero_wcc_data.
Definition fields_RMDIR3resfail (x : RMDIR3resfail) := RMDIR3resfail_dir_wcc x.
Definition make_RMDIR3resfail (t : wcc_data) : RMDIR3resfail := mkRMDIR3resfail t.
#[global] Instance RMDIR3resfail_iso : Iso fields_RMDIR3resfail make_RMDIR3resfail. Proof. iso. Qed.
Definition zdr_RMDIR3resfail : proc RMDIR3resfail := zdr_via fields_RMDIR3resfail make_RMDIR3resfail (zdr_wcc_data).
#[global] Instance RMDIR3resfail_codec : Codec zdr_RMDIR3resfail. Proof. codec zdr_RMDIR3resfail. Defined.
#[global] Instance RMDIR3resfail_blank : Blank zdr_RMDIR3resfail zero_RMDIR3resfail. Proof. blank zdr_RMDIR3resfail. Qed.
#[global] Instance RMDIR3resfail_safe : Safe zdr_RMDIR3resfail. Proof. safe zdr_RMDIR3resfail. Qed.

Inductive RMDIR3res_union := RMDIR3res_cleared | RMDIR3res_resok (x : RMDIR3resok) | RMDIR3res_resfail (x : RMDIR3resfail).
Record RMDIR3res := mkRMDIR3res { RMDIR3res_status : Z; RMDIR3res_u : RMDIR3res_union }.
Definition zero_RMDIR3res : RMDIR3res := mkRMDIR3res 0 RMDIR3res_cleared.
Definition fields_RMDIR3res (x : RMDIR3res) := (RMDIR3res_status x, RMDIR3res_u x).
Definition make_RMDIR3res (t : (Z * RMDIR3res_union)) : RMDIR3res := mkRMDIR3res t.1 t.2.
#[global] Instance RMDIR3res_iso : Iso fields_RMDIR3res make_RMDIR3res. Proof. iso. Qed.
Definition as_RMDIR3res_resok (u : RMDIR3res_union) : RMDIR3resok := match u with RMDIR3res_resok x => x | _ =>
  zero_RMDIR3resok end.
#[global] Instance RMDIR3res_resok_member : Variant as_RMDIR3res_resok RMDIR3res_resok. Proof. done. Qed.
Definition as_RMDIR3res_resfail (u : RMDIR3res_union) : RMDIR3resfail := match u with RMDIR3res_resfail x => x | _ =>
  zero_RMDIR3resfail end.
#[global] Instance RMDIR3res_resfail_member : Variant as_RMDIR3res_resfail RMDIR3res_resfail. Proof. done. Qed.
Definition case_RMDIR3res (d : Z) : proc RMDIR3res_union :=
  if (d =? NFS3_OK) then zdr_member as_RMDIR3res_resok RMDIR3res_resok zdr_RMDIR3resok
  else zdr_member as_RMDIR3res_resfail RMDIR3res_resfail zdr_RMDIR3resfail.
#[global] Instance case_RMDIR3res_codec d : Codec (case_RMDIR3res d). Proof. codec case_RMDIR3res. Defined.
#[global] Instance case_RMDIR3res_blank d : Blank (case_RMDIR3res d) RMDIR3res_cleared. Proof. blank case_RMDIR3res. Qed.
#[global] Instance case_RMDIR3res_safe d : Safe (case_RMDIR3res d). Proof. safe case_RMDIR3res. Qed.
Definition zdr_RMDIR3res : proc RMDIR3res := zdr_via fields_RMDIR3res make_RMDIR3res (zdr_dseq zdr_nfsstat3
  (case_RMDIR3res)).
#[global] Instance RMDIR3res_codec : Codec zdr_RMDIR3res. Proof. codec zdr_RMDIR3res. Defined.
#[global] Instance RMDIR3res_blank : Blank zdr_RMDIR3res zero_RMDIR3res. Proof. blank zdr_RMDIR3res. Qed.
#[global] Instance RMDIR3res_safe : Safe zdr_RMDIR3res. Proof. safe zdr_RMDIR3res. Qed.

Record RENAME3args := mkRENAME3args {
  RENAME3args_from : diropargs3; RENAME3args_to : diropargs3
}.
Definition zero_RENAME3args : RENAME3args := mkRENAME3args zero_diropargs3 zero_diropargs3.
Definition fields_RENAME3args (x : RENAME3args) := (RENAME3args_from x, RENAME3args_to x).
Definition make_RENAME3args (t : (diropargs3 * diropargs3)) : RENAME3args := mkRENAME3args t.1 t.2.
#[global] Instance RENAME3args_iso : Iso fields_RENAME3args make_RENAME3args. Proof. iso. Qed.
Definition zdr_RENAME3args : proc RENAME3args := zdr_via fields_RENAME3args make_RENAME3args (zdr_diropargs3 >>>
  zdr_diropargs3).
#[global] Instance RENAME3args_codec : Codec zdr_RENAME3args. Proof. codec zdr_RENAME3args. Defined.
#[global] Instance RENAME3args_blank : Blank zdr_RENAME3args zero_RENAME3args. Proof. blank zdr_RENAME3args. Qed.

Record RENAME3resok := mkRENAME3resok {
  RENAME3resok_fromdir_wcc : wcc_data; RENAME3resok_todir_wcc : wcc_data
}.
Definition zero_RENAME3resok : RENAME3resok := mkRENAME3resok zero_wcc_data zero_wcc_data.
Definition fields_RENAME3resok (x : RENAME3resok) := (RENAME3resok_fromdir_wcc x, RENAME3resok_todir_wcc x).
Definition make_RENAME3resok (t : (wcc_data * wcc_data)) : RENAME3resok := mkRENAME3resok t.1 t.2.
#[global] Instance RENAME3resok_iso : Iso fields_RENAME3resok make_RENAME3resok. Proof. iso. Qed.
Definition zdr_RENAME3resok : proc RENAME3resok := zdr_via fields_RENAME3resok make_RENAME3resok (zdr_wcc_data >>>
  zdr_wcc_data).
#[global] Instance RENAME3resok_codec : Codec zdr_RENAME3resok. Proof. codec zdr_RENAME3resok. Defined.
#[global] Instance RENAME3resok_blank : Blank zdr_RENAME3resok zero_RENAME3resok. Proof. blank zdr_RENAME3resok. Qed.
#[global] Instance RENAME3resok_safe : Safe zdr_RENAME3resok. Proof. safe zdr_RENAME3resok. Qed.

Record RENAME3resfail := mkRENAME3resfail {
  RENAME3resfail_fromdir_wcc : wcc_data; RENAME3resfail_todir_wcc : wcc_data
}.
Definition zero_RENAME3resfail : RENAME3resfail := mkRENAME3resfail zero_wcc_data zero_wcc_data.
Definition fields_RENAME3resfail (x : RENAME3resfail) := (RENAME3resfail_fromdir_wcc x, RENAME3resfail_todir_wcc x).
Definition make_RENAME3resfail (t : (wcc_data * wcc_data)) : RENAME3resfail := mkRENAME3resfail t.1 t.2.
#[global] Instance RENAME3resfail_iso : Iso fields_RENAME3resfail make_RENAME3resfail. Proof. iso. Qed.
Definition zdr_RENAME3resfail : proc RENAME3resfail := zdr_via fields_RENAME3resfail make_RENAME3resfail (zdr_wcc_data >>>
  zdr_wcc_data).
#[global] Instance RENAME3resfail_codec : Codec zdr_RENAME3resfail. Proof. codec zdr_RENAME3resfail. Defined.
#[global] Instance RENAME3resfail_blank : Blank zdr_RENAME3resfail zero_RENAME3resfail. Proof. blank zdr_RENAME3resfail. Qed.
#[global] Instance RENAME3resfail_safe : Safe zdr_RENAME3resfail. Proof. safe zdr_RENAME3resfail. Qed.

Inductive RENAME3res_union := RENAME3res_cleared | RENAME3res_resok (x : RENAME3resok) | RENAME3res_resfail (x :
  RENAME3resfail).
Record RENAME3res := mkRENAME3res { RENAME3res_status : Z; RENAME3res_u : RENAME3res_union }.
Definition zero_RENAME3res : RENAME3res := mkRENAME3res 0 RENAME3res_cleared.
Definition fields_RENAME3res (x : RENAME3res) := (RENAME3res_status x, RENAME3res_u x).
Definition make_RENAME3res (t : (Z * RENAME3res_union)) : RENAME3res := mkRENAME3res t.1 t.2.
#[global] Instance RENAME3res_iso : Iso fields_RENAME3res make_RENAME3res. Proof. iso. Qed.
Definition as_RENAME3res_resok (u : RENAME3res_union) : RENAME3resok := match u with RENAME3res_resok x => x | _ =>
  zero_RENAME3resok end.
#[global] Instance RENAME3res_resok_member : Variant as_RENAME3res_resok RENAME3res_resok. Proof. done. Qed.
Definition as_RENAME3res_resfail (u : RENAME3res_union) : RENAME3resfail := match u with RENAME3res_resfail x => x | _ =>
  zero_RENAME3resfail end.
#[global] Instance RENAME3res_resfail_member : Variant as_RENAME3res_resfail RENAME3res_resfail. Proof. done. Qed.
Definition case_RENAME3res (d : Z) : proc RENAME3res_union :=
  if (d =? NFS3_OK) then zdr_member as_RENAME3res_resok RENAME3res_resok zdr_RENAME3resok
  else zdr_member as_RENAME3res_resfail RENAME3res_resfail zdr_RENAME3resfail.
#[global] Instance case_RENAME3res_codec d : Codec (case_RENAME3res d). Proof. codec case_RENAME3res. Defined.
#[global] Instance case_RENAME3res_blank d : Blank (case_RENAME3res d) RENAME3res_cleared. Proof. blank case_RENAME3res. Qed.
#[global] Instance case_RENAME3res_safe d : Safe (case_RENAME3res d). Proof. safe case_RENAME3res. Qed.
Definition zdr_RENAME3res : proc RENAME3res := zdr_via fields_RENAME3res make_RENAME3res (zdr_dseq zdr_nfsstat3
  (case_RENAME3res)).
#[global] Instance RENAME3res_codec : Codec zdr_RENAME3res. Proof. codec zdr_RENAME3res. Defined.
#[global] Instance RENAME3res_blank : Blank zdr_RENAME3res zero_RENAME3res. Proof. blank zdr_RENAME3res. Qed.
#[global] Instance RENAME3res_safe : Safe zdr_RENAME3res. Proof. safe zdr_RENAME3res. Qed.

Record READDIRPLUS3args := mkREADDIRPLUS3args {
    READDIRPLUS3args_dir : nfs_fh3; READDIRPLUS3args_cookie : Z; READDIRPLUS3args_cookieverf : ptr;
    READDIRPLUS3args_dircount : Z; READDIRPLUS3args_maxcount : Z
}.
Definition zero_READDIRPLUS3args : READDIRPLUS3args := mkREADDIRPLUS3args zero_nfs_fh3 0 (Heap (zeros 8)) 0 0.
Definition fields_READDIRPLUS3args (x : READDIRPLUS3args) := (READDIRPLUS3args_dir x, (READDIRPLUS3args_cookie x,
  (READDIRPLUS3args_cookieverf x, (READDIRPLUS3args_dircount x, READDIRPLUS3args_maxcount x)))).
Definition make_READDIRPLUS3args (t : (nfs_fh3 * (Z * (ptr * (Z * Z))))) : READDIRPLUS3args := mkREADDIRPLUS3args t.1
  t.2.1 t.2.2.1 t.2.2.2.1 t.2.2.2.2.
#[global] Instance READDIRPLUS3args_iso : Iso fields_READDIRPLUS3args make_READDIRPLUS3args. Proof. iso. Qed.
Definition zdr_READDIRPLUS3args : proc READDIRPLUS3args := zdr_via fields_READDIRPLUS3args make_READDIRPLUS3args
  (zdr_nfs_fh3 >>> zdr_cookie3 >>> zdr_cookieverf3 >>> zdr_count3 >>> zdr_count3).
#[global] Instance READDIRPLUS3args_codec : Codec zdr_READDIRPLUS3args. Proof. codec zdr_READDIRPLUS3args. Defined.
#[global] Instance READDIRPLUS3args_blank : Blank zdr_READDIRPLUS3args zero_READDIRPLUS3args. Proof. blank
  zdr_READDIRPLUS3args. Qed.

Inductive entryplus3 := mkentryplus3 {
    entryplus3_fileid : Z; entryplus3_name : ptr; entryplus3_cookie : Z; entryplus3_name_attributes : post_op_attr;
    entryplus3_name_handle : post_op_fh3; entryplus3_nextentry : option entryplus3
}.
Definition zero_entryplus3 : entryplus3 := mkentryplus3 0 NULL 0 zero_post_op_attr zero_post_op_fh3 None.
Definition fields_entryplus3 (x : entryplus3) := (entryplus3_fileid x, (entryplus3_name x, (entryplus3_cookie x,
  (entryplus3_name_attributes x, (entryplus3_name_handle x, entryplus3_nextentry x))))).
Definition make_entryplus3 (t : (Z * (ptr * (Z * (post_op_attr * (post_op_fh3 * (option entryplus3))))))) : entryplus3 :=
  mkentryplus3 t.1 t.2.1 t.2.2.1 t.2.2.2.1 t.2.2.2.2.1 t.2.2.2.2.2.
#[global] Instance entryplus3_iso : Iso fields_entryplus3 make_entryplus3. Proof. iso. Qed.
Fixpoint zdr_entryplus3 (fuel : nat) : proc entryplus3 :=
  match fuel with
  | O => zdr_out_of_fuel
    | S fuel => zdr_via fields_entryplus3 make_entryplus3 (zdr_fileid3 >>> zdr_filename3 >>> zdr_cookie3 >>>
    zdr_post_op_attr >>> zdr_post_op_fh3 >>> (zdr_pointer zero_entryplus3 152 (zdr_entryplus3 fuel)))
  end.
#[global] Instance entryplus3_codec fuel : Codec (zdr_entryplus3 fuel). Proof. induction fuel; cbn [zdr_entryplus3]; exact
  _. Defined.
#[global] Instance entryplus3_blank fuel : Blank (zdr_entryplus3 fuel) zero_entryplus3. Proof. induction fuel; cbn
  [zdr_entryplus3]; exact _. Qed.

Record dirlistplus3 := mkdirlistplus3 {
  dirlistplus3_entries : option entryplus3; dirlistplus3_eof : Z
}.
Definition zero_dirlistplus3 : dirlistplus3 := mkdirlistplus3 None 0.
Definition fields_dirlistplus3 (x : dirlistplus3) := (dirlistplus3_entries x, dirlistplus3_eof x).
Definition make_dirlistplus3 (t : ((option entryplus3) * Z)) : dirlistplus3 := mkdirlistplus3 t.1 t.2.
#[global] Instance dirlistplus3_iso : Iso fields_dirlistplus3 make_dirlistplus3. Proof. iso. Qed.
Definition zdr_dirlistplus3 (fuel : nat) : proc dirlistplus3 := zdr_via fields_dirlistplus3 make_dirlistplus3
  ((zdr_pointer zero_entryplus3 152 (zdr_entryplus3 fuel)) >>> zdr_bool).
#[global] Instance dirlistplus3_codec fuel : Codec (zdr_dirlistplus3 fuel). Proof. codec zdr_dirlistplus3. Defined.
#[global] Instance dirlistplus3_blank fuel : Blank (zdr_dirlistplus3 fuel) zero_dirlistplus3. Proof. blank
  zdr_dirlistplus3. Qed.

Record READDIRPLUS3resok := mkREADDIRPLUS3resok {
  READDIRPLUS3resok_dir_attributes : post_op_attr; READDIRPLUS3resok_cookieverf : ptr; READDIRPLUS3resok_reply : dirlistplus3
}.
Definition zero_READDIRPLUS3resok : READDIRPLUS3resok := mkREADDIRPLUS3resok zero_post_op_attr (Heap (zeros 8))
  zero_dirlistplus3.
Definition fields_READDIRPLUS3resok (x : READDIRPLUS3resok) := (READDIRPLUS3resok_dir_attributes x,
  (READDIRPLUS3resok_cookieverf x, READDIRPLUS3resok_reply x)).
Definition make_READDIRPLUS3resok (t : (post_op_attr * (ptr * dirlistplus3))) : READDIRPLUS3resok := mkREADDIRPLUS3resok
  t.1 t.2.1 t.2.2.
#[global] Instance READDIRPLUS3resok_iso : Iso fields_READDIRPLUS3resok make_READDIRPLUS3resok. Proof. iso. Qed.
Definition zdr_READDIRPLUS3resok (fuel : nat) : proc READDIRPLUS3resok := zdr_via fields_READDIRPLUS3resok
  make_READDIRPLUS3resok (zdr_post_op_attr >>> zdr_cookieverf3 >>> (zdr_dirlistplus3 fuel)).
#[global] Instance READDIRPLUS3resok_codec fuel : Codec (zdr_READDIRPLUS3resok fuel). Proof. codec zdr_READDIRPLUS3resok.
  Defined.
#[global] Instance READDIRPLUS3resok_blank fuel : Blank (zdr_READDIRPLUS3resok fuel) zero_READDIRPLUS3resok. Proof. blank
  zdr_READDIRPLUS3resok. Qed.

Record READDIRPLUS3resfail := mkREADDIRPLUS3resfail {
  READDIRPLUS3resfail_dir_attributes : post_op_attr
}.
Definition zero_READDIRPLUS3resfail : READDIRPLUS3resfail := mkREADDIRPLUS3resfail zero_post_op_attr.
Definition fields_READDIRPLUS3resfail (x : READDIRPLUS3resfail) := READDIRPLUS3resfail_dir_attributes x.
Definition make_READDIRPLUS3resfail (t : post_op_attr) : READDIRPLUS3resfail := mkREADDIRPLUS3resfail t.
#[global] Instance READDIRPLUS3resfail_iso : Iso fields_READDIRPLUS3resfail make_READDIRPLUS3resfail. Proof. iso. Qed.
Definition zdr_READDIRPLUS3resfail : proc READDIRPLUS3resfail := zdr_via fields_READDIRPLUS3resfail
  make_READDIRPLUS3resfail (zdr_post_op_attr).
#[global] Instance READDIRPLUS3resfail_codec : Codec zdr_READDIRPLUS3resfail. Proof. codec zdr_READDIRPLUS3resfail. Defined.
#[global] Instance READDIRPLUS3resfail_blank : Blank zdr_READDIRPLUS3resfail zero_READDIRPLUS3resfail. Proof. blank
  zdr_READDIRPLUS3resfail. Qed.
#[global] Instance READDIRPLUS3resfail_safe : Safe zdr_READDIRPLUS3resfail. Proof. safe zdr_READDIRPLUS3resfail. Qed.

Inductive READDIRPLUS3res_union := READDIRPLUS3res_cleared | READDIRPLUS3res_resok (x : READDIRPLUS3resok) |
  READDIRPLUS3res_resfail (x : READDIRPLUS3resfail).
Record READDIRPLUS3res := mkREADDIRPLUS3res { READDIRPLUS3res_status : Z; READDIRPLUS3res_u : READDIRPLUS3res_union }.
Definition zero_READDIRPLUS3res : READDIRPLUS3res := mkREADDIRPLUS3res 0 READDIRPLUS3res_cleared.
Definition fields_READDIRPLUS3res (x : READDIRPLUS3res) := (READDIRPLUS3res_status x, READDIRPLUS3res_u x).
Definition make_READDIRPLUS3res (t : (Z * READDIRPLUS3res_union)) : READDIRPLUS3res := mkREADDIRPLUS3res t.1 t.2.
#[global] Instance READDIRPLUS3res_iso : Iso fields_READDIRPLUS3res make_READDIRPLUS3res. Proof. iso. Qed.
Definition as_READDIRPLUS3res_resok (u : READDIRPLUS3res_union) : READDIRPLUS3resok := match u with READDIRPLUS3res_resok
  x => x | _ => zero_READDIRPLUS3resok end.
#[global] Instance READDIRPLUS3res_resok_member : Variant as_READDIRPLUS3res_resok READDIRPLUS3res_resok. Proof. done. Qed.
Definition as_READDIRPLUS3res_resfail (u : READDIRPLUS3res_union) : READDIRPLUS3resfail := match u with
  READDIRPLUS3res_resfail x => x | _ => zero_READDIRPLUS3resfail end.
#[global] Instance READDIRPLUS3res_resfail_member : Variant as_READDIRPLUS3res_resfail READDIRPLUS3res_resfail. Proof.
  done. Qed.
Definition case_READDIRPLUS3res (fuel : nat) (d : Z) : proc READDIRPLUS3res_union :=
  if (d =? NFS3_OK) then zdr_member as_READDIRPLUS3res_resok READDIRPLUS3res_resok (zdr_READDIRPLUS3resok fuel)
  else zdr_member as_READDIRPLUS3res_resfail READDIRPLUS3res_resfail zdr_READDIRPLUS3resfail.
#[global] Instance case_READDIRPLUS3res_codec (fuel : nat) d : Codec (case_READDIRPLUS3res fuel d). Proof. codec
  case_READDIRPLUS3res. Defined.
#[global] Instance case_READDIRPLUS3res_blank (fuel : nat) d : Blank (case_READDIRPLUS3res fuel d)
  READDIRPLUS3res_cleared. Proof. blank case_READDIRPLUS3res. Qed.
Definition zdr_READDIRPLUS3res (fuel : nat) : proc READDIRPLUS3res := zdr_via fields_READDIRPLUS3res make_READDIRPLUS3res
  (zdr_dseq zdr_nfsstat3 (case_READDIRPLUS3res fuel)).
#[global] Instance READDIRPLUS3res_codec fuel : Codec (zdr_READDIRPLUS3res fuel). Proof. codec zdr_READDIRPLUS3res. Defined.
#[global] Instance READDIRPLUS3res_blank fuel : Blank (zdr_READDIRPLUS3res fuel) zero_READDIRPLUS3res. Proof. blank
  zdr_READDIRPLUS3res. Qed.

Record READDIR3args := mkREADDIR3args {
  READDIR3args_dir : nfs_fh3; READDIR3args_cookie : Z; READDIR3args_cookieverf : ptr; READDIR3args_count : Z
}.
Definition zero_READDIR3args : READDIR3args := mkREADDIR3args zero_nfs_fh3 0 (Heap (zeros 8)) 0.
Definition fields_READDIR3args (x : READDIR3args) := (READDIR3args_dir x, (READDIR3args_cookie x, (READDIR3args_cookieverf
  x, READDIR3args_count x))).
Definition make_READDIR3args (t : (nfs_fh3 * (Z * (ptr * Z)))) : READDIR3args := mkREADDIR3args t.1 t.2.1 t.2.2.1 t.2.2.2.
#[global] Instance READDIR3args_iso : Iso fields_READDIR3args make_READDIR3args. Proof. iso. Qed.
Definition zdr_READDIR3args : proc READDIR3args := zdr_via fields_READDIR3args make_READDIR3args (zdr_nfs_fh3 >>>
  zdr_cookie3 >>> zdr_cookieverf3 >>> zdr_count3).
#[global] Instance READDIR3args_codec : Codec zdr_READDIR3args. Proof. codec zdr_READDIR3args. Defined.
#[global] Instance READDIR3args_blank : Blank zdr_READDIR3args zero_READDIR3args. Proof. blank zdr_READDIR3args. Qed.

Inductive entry3 := mkentry3 {
  entry3_fileid : Z; entry3_name : ptr; entry3_cookie : Z; entry3_nextentry : option entry3
}.
Definition zero_entry3 : entry3 := mkentry3 0 NULL 0 None.
Definition fields_entry3 (x : entry3) := (entry3_fileid x, (entry3_name x, (entry3_cookie x, entry3_nextentry x))).
Definition make_entry3 (t : (Z * (ptr * (Z * (option entry3))))) : entry3 := mkentry3 t.1 t.2.1 t.2.2.1 t.2.2.2.
#[global] Instance entry3_iso : Iso fields_entry3 make_entry3. Proof. iso. Qed.
Fixpoint zdr_entry3 (fuel : nat) : proc entry3 :=
  match fuel with
  | O => zdr_out_of_fuel
    | S fuel => zdr_via fields_entry3 make_entry3 (zdr_fileid3 >>> zdr_filename3 >>> zdr_cookie3 >>> (zdr_pointer
    zero_entry3 32 (zdr_entry3 fuel)))
  end.
#[global] Instance entry3_codec fuel : Codec (zdr_entry3 fuel). Proof. induction fuel; cbn [zdr_entry3]; exact _. Defined.
#[global] Instance entry3_blank fuel : Blank (zdr_entry3 fuel) zero_entry3. Proof. induction fuel; cbn [zdr_entry3]; exact
  _. Qed.

Record dirlist3 := mkdirlist3 {
  dirlist3_entries : option entry3; dirlist3_eof : Z
}.
Definition zero_dirlist3 : dirlist3 := mkdirlist3 None 0.
Definition fields_dirlist3 (x : dirlist3) := (dirlist3_entries x, dirlist3_eof x).
Definition make_dirlist3 (t : ((option entry3) * Z)) : dirlist3 := mkdirlist3 t.1 t.2.
#[global] Instance dirlist3_iso : Iso fields_dirlist3 make_dirlist3. Proof. iso. Qed.
Definition zdr_dirlist3 (fuel : nat) : proc dirlist3 := zdr_via fields_dirlist3 make_dirlist3 ((zdr_pointer zero_entry3 32
  (zdr_entry3 fuel)) >>> zdr_bool).
#[global] Instance dirlist3_codec fuel : Codec (zdr_dirlist3 fuel). Proof. codec zdr_dirlist3. Defined.
#[global] Instance dirlist3_blank fuel : Blank (zdr_dirlist3 fuel) zero_dirlist3. Proof. blank zdr_dirlist3. Qed.

Record READDIR3resok := mkREADDIR3resok {
  READDIR3resok_dir_attributes : post_op_attr; READDIR3resok_cookieverf : ptr; READDIR3resok_reply : dirlist3
}.
Definition zero_READDIR3resok : READDIR3resok := mkREADDIR3resok zero_post_op_attr (Heap (zeros 8)) zero_dirlist3.
Definition fields_READDIR3resok (x : READDIR3resok) := (READDIR3resok_dir_attributes x, (READDIR3resok_cookieverf x,
  READDIR3resok_reply x)).
Definition make_READDIR3resok (t : (post_op_attr * (ptr * dirlist3))) : READDIR3resok := mkREADDIR3resok t.1 t.2.1 t.2.2.
#[global] Instance READDIR3resok_iso : Iso fields_READDIR3resok make_READDIR3resok. Proof. iso. Qed.
Definition zdr_READDIR3resok (fuel : nat) : proc READDIR3resok := zdr_via fields_READDIR3resok make_READDIR3resok
  (zdr_post_op_attr >>> zdr_cookieverf3 >>> (zdr_dirlist3 fuel)).
#[global] Instance READDIR3resok_codec fuel : Codec (zdr_READDIR3resok fuel). Proof. codec zdr_READDIR3resok. Defined.
#[global] Instance READDIR3resok_blank fuel : Blank (zdr_READDIR3resok fuel) zero_READDIR3resok. Proof. blank
  zdr_READDIR3resok. Qed.

Record READDIR3resfail := mkREADDIR3resfail {
  READDIR3resfail_dir_attributes : post_op_attr
}.
Definition zero_READDIR3resfail : READDIR3resfail := mkREADDIR3resfail zero_post_op_attr.
Definition fields_READDIR3resfail (x : READDIR3resfail) := READDIR3resfail_dir_attributes x.
Definition make_READDIR3resfail (t : post_op_attr) : READDIR3resfail := mkREADDIR3resfail t.
#[global] Instance READDIR3resfail_iso : Iso fields_READDIR3resfail make_READDIR3resfail. Proof. iso. Qed.
Definition zdr_READDIR3resfail : proc READDIR3resfail := zdr_via fields_READDIR3resfail make_READDIR3resfail
  (zdr_post_op_attr).
#[global] Instance READDIR3resfail_codec : Codec zdr_READDIR3resfail. Proof. codec zdr_READDIR3resfail. Defined.
#[global] Instance READDIR3resfail_blank : Blank zdr_READDIR3resfail zero_READDIR3resfail. Proof. blank
  zdr_READDIR3resfail. Qed.
#[global] Instance READDIR3resfail_safe : Safe zdr_READDIR3resfail. Proof. safe zdr_READDIR3resfail. Qed.

Inductive READDIR3res_union := READDIR3res_cleared | READDIR3res_resok (x : READDIR3resok) | READDIR3res_resfail (x :
  READDIR3resfail).
Record READDIR3res := mkREADDIR3res { READDIR3res_status : Z; READDIR3res_u : READDIR3res_union }.
Definition zero_READDIR3res : READDIR3res := mkREADDIR3res 0 READDIR3res_cleared.
Definition fields_READDIR3res (x : READDIR3res) := (READDIR3res_status x, READDIR3res_u x).
Definition make_READDIR3res (t : (Z * READDIR3res_union)) : READDIR3res := mkREADDIR3res t.1 t.2.
#[global] Instance READDIR3res_iso : Iso fields_READDIR3res make_READDIR3res. Proof. iso. Qed.
Definition as_READDIR3res_resok (u : READDIR3res_union) : READDIR3resok := match u with READDIR3res_resok x => x | _ =>
  zero_READDIR3resok end.
#[global] Instance READDIR3res_resok_member : Variant as_READDIR3res_resok READDIR3res_resok. Proof. done. Qed.
Definition as_READDIR3res_resfail (u : READDIR3res_union) : READDIR3resfail := match u with READDIR3res_resfail x => x | _
  => zero_READDIR3resfail end.
#[global] Instance READDIR3res_resfail_member : Variant as_READDIR3res_resfail READDIR3res_resfail. Proof. done. Qed.
Definition case_READDIR3res (fuel : nat) (d : Z) : proc READDIR3res_union :=
  if (d =? NFS3_OK) then zdr_member as_READDIR3res_resok READDIR3res_resok (zdr_READDIR3resok fuel)
  else zdr_member as_READDIR3res_resfail READDIR3res_resfail zdr_READDIR3resfail.
#[global] Instance case_READDIR3res_codec (fuel : nat) d : Codec (case_READDIR3res fuel d). Proof. codec case_READDIR3res.
  Defined.
#[global] Instance case_READDIR3res_blank (fuel : nat) d : Blank (case_READDIR3res fuel d) READDIR3res_cleared. Proof.
  blank case_READDIR3res. Qed.
Definition zdr_READDIR3res (fuel : nat) : proc READDIR3res := zdr_via fields_READDIR3res make_READDIR3res (zdr_dseq
  zdr_nfsstat3 (case_READDIR3res fuel)).
#[global] Instance READDIR3res_codec fuel : Codec (zdr_READDIR3res fuel). Proof. codec zdr_READDIR3res. Defined.
#[global] Instance READDIR3res_blank fuel : Blank (zdr_READDIR3res fuel) zero_READDIR3res. Proof. blank zdr_READDIR3res. Qed.

Record LINK3args := mkLINK3args {
  LINK3args_file : nfs_fh3; LINK3args_link : diropargs3
}.
Definition zero_LINK3args : LINK3args := mkLINK3args zero_nfs_fh3 zero_diropargs3.
Definition fields_LINK3args (x : LINK3args) := (LINK3args_file x, LINK3args_link x).
Definition make_LINK3args (t : (nfs_fh3 * diropargs3)) : LINK3args := mkLINK3args t.1 t.2.
#[global] Instance LINK3args_iso : Iso fields_LINK3args make_LINK3args. Proof. iso. Qed.
Definition zdr_LINK3args : proc LINK3args := zdr_via fields_LINK3args make_LINK3args (zdr_nfs_fh3 >>> zdr_diropargs3).
#[global] Instance LINK3args_codec : Codec zdr_LINK3args. Proof. codec zdr_LINK3args. Defined.
#[global] Instance LINK3args_blank : Blank zdr_LINK3args zero_LINK3args. Proof. blank zdr_LINK3args. Qed.

Record LINK3resok := mkLINK3resok {
  LINK3resok_file_attributes : post_op_attr; LINK3resok_linkdir_wcc : wcc_data
}.
Definition zero_LINK3resok : LINK3resok := mkLINK3resok zero_post_op_attr zero_wcc_data.
Definition fields_LINK3resok (x : LINK3resok) := (LINK3resok_file_attributes x, LINK3resok_linkdir_wcc x).
Definition make_LINK3resok (t : (post_op_attr * wcc_data)) : LINK3resok := mkLINK3resok t.1 t.2.
#[global] Instance LINK3resok_iso : Iso fields_LINK3resok make_LINK3resok. Proof. iso. Qed.
Definition zdr_LINK3resok : proc LINK3resok := zdr_via fields_LINK3resok make_LINK3resok (zdr_post_op_attr >>> zdr_wcc_data).
#[global] Instance LINK3resok_codec : Codec zdr_LINK3resok. Proof. codec zdr_LINK3resok. Defined.
#[global] Instance LINK3resok_blank : Blank zdr_LINK3resok zero_LINK3resok. Proof. blank zdr_LINK3resok. Qed.
#[global] Instance LINK3resok_safe : Safe zdr_LINK3resok. Proof. safe zdr_LINK3resok. Qed.

Record LINK3resfail := mkLINK3resfail {
  LINK3resfail_file_attributes : post_op_attr; LINK3resfail_linkdir_wcc : wcc_data
}.
Definition zero_LINK3resfail : LINK3resfail := mkLINK3resfail zero_post_op_attr zero_wcc_data.
Definition fields_LINK3resfail (x : LINK3resfail) := (LINK3resfail_file_attributes x, LINK3resfail_linkdir_wcc x).
Definition make_LINK3resfail (t : (post_op_attr * wcc_data)) : LINK3resfail := mkLINK3resfail t.1 t.2.
#[global] Instance LINK3resfail_iso : Iso fields_LINK3resfail make_LINK3resfail. Proof. iso. Qed.
Definition zdr_LINK3resfail : proc LINK3resfail := zdr_via fields_LINK3resfail make_LINK3resfail (zdr_post_op_attr >>>
  zdr_wcc_data).
#[global] Instance LINK3resfail_codec : Codec zdr_LINK3resfail. Proof. codec zdr_LINK3resfail. Defined.
#[global] Instance LINK3resfail_blank : Blank zdr_LINK3resfail zero_LINK3resfail. Proof. blank zdr_LINK3resfail. Qed.
#[global] Instance LINK3resfail_safe : Safe zdr_LINK3resfail. Proof. safe zdr_LINK3resfail. Qed.

Inductive LINK3res_union := LINK3res_cleared | LINK3res_resok (x : LINK3resok) | LINK3res_resfail (x : LINK3resfail).
Record LINK3res := mkLINK3res { LINK3res_status : Z; LINK3res_u : LINK3res_union }.
Definition zero_LINK3res : LINK3res := mkLINK3res 0 LINK3res_cleared.
Definition fields_LINK3res (x : LINK3res) := (LINK3res_status x, LINK3res_u x).
Definition make_LINK3res (t : (Z * LINK3res_union)) : LINK3res := mkLINK3res t.1 t.2.
#[global] Instance LINK3res_iso : Iso fields_LINK3res make_LINK3res. Proof. iso. Qed.
Definition as_LINK3res_resok (u : LINK3res_union) : LINK3resok := match u with LINK3res_resok x => x | _ =>
  zero_LINK3resok end.
#[global] Instance LINK3res_resok_member : Variant as_LINK3res_resok LINK3res_resok. Proof. done. Qed.
Definition as_LINK3res_resfail (u : LINK3res_union) : LINK3resfail := match u with LINK3res_resfail x => x | _ =>
  zero_LINK3resfail end.
#[global] Instance LINK3res_resfail_member : Variant as_LINK3res_resfail LINK3res_resfail. Proof. done. Qed.
Definition case_LINK3res (d : Z) : proc LINK3res_union :=
  if (d =? NFS3_OK) then zdr_member as_LINK3res_resok LINK3res_resok zdr_LINK3resok
  else zdr_member as_LINK3res_resfail LINK3res_resfail zdr_LINK3resfail.
#[global] Instance case_LINK3res_codec d : Codec (case_LINK3res d). Proof. codec case_LINK3res. Defined.
#[global] Instance case_LINK3res_blank d : Blank (case_LINK3res d) LINK3res_cleared. Proof. blank case_LINK3res. Qed.
#[global] Instance case_LINK3res_safe d : Safe (case_LINK3res d). Proof. safe case_LINK3res. Qed.
Definition zdr_LINK3res : proc LINK3res := zdr_via fields_LINK3res make_LINK3res (zdr_dseq zdr_nfsstat3 (case_LINK3res)).
#[global] Instance LINK3res_codec : Codec zdr_LINK3res. Proof. codec zdr_LINK3res. Defined.
#[global] Instance LINK3res_blank : Blank zdr_LINK3res zero_LINK3res. Proof. blank zdr_LINK3res. Qed.
#[global] Instance LINK3res_safe : Safe zdr_LINK3res. Proof. safe zdr_LINK3res. Qed.

Inductive sattrguard3_union := sattrguard3_cleared | sattrguard3_obj_ctime (x : nfstime3).
Record sattrguard3 := mksattrguard3 { sattrguard3_check : Z; sattrguard3_u : sattrguard3_union }.
Definition zero_sattrguard3 : sattrguard3 := mksattrguard3 0 sattrguard3_cleared.
Definition fields_sattrguard3 (x : sattrguard3) := (sattrguard3_check x, sattrguard3_u x).
Definition make_sattrguard3 (t : (Z * sattrguard3_union)) : sattrguard3 := mksattrguard3 t.1 t.2.
#[global] Instance sattrguard3_iso : Iso fields_sattrguard3 make_sattrguard3. Proof. iso. Qed.
Definition as_sattrguard3_obj_ctime (u : sattrguard3_union) : nfstime3 := match u with sattrguard3_obj_ctime x => x | _ =>
  zero_nfstime3 end.
#[global] Instance sattrguard3_obj_ctime_member : Variant as_sattrguard3_obj_ctime sattrguard3_obj_ctime. Proof. done. Qed.
Definition case_sattrguard3 (d : Z) : proc sattrguard3_union :=
  if (d =? 1) then zdr_member as_sattrguard3_obj_ctime sattrguard3_obj_ctime zdr_nfstime3
  else if (d =? 0) then zdr_void
  else zdr_fail.
#[global] Instance case_sattrguard3_codec d : Codec (case_sattrguard3 d). Proof. codec case_sattrguard3. Defined.
#[global] Instance case_sattrguard3_blank d : Blank (case_sattrguard3 d) sattrguard3_cleared. Proof. blank
  case_sattrguard3. Qed.
#[global] Instance case_sattrguard3_safe d : Safe (case_sattrguard3 d). Proof. safe case_sattrguard3. Qed.
Definition zdr_sattrguard3 : proc sattrguard3 := zdr_via fields_sattrguard3 make_sattrguard3 (zdr_dseq zdr_bool
  (case_sattrguard3)).
#[global] Instance sattrguard3_codec : Codec zdr_sattrguard3. Proof. codec zdr_sattrguard3. Defined.
#[global] Instance sattrguard3_blank : Blank zdr_sattrguard3 zero_sattrguard3. Proof. blank zdr_sattrguard3. Qed.
#[global] Instance sattrguard3_safe : Safe zdr_sattrguard3. Proof. safe zdr_sattrguard3. Qed.

Record SETATTR3args := mkSETATTR3args {
  SETATTR3args_object : nfs_fh3; SETATTR3args_new_attributes : sattr3; SETATTR3args_guard : sattrguard3
}.
Definition zero_SETATTR3args : SETATTR3args := mkSETATTR3args zero_nfs_fh3 zero_sattr3 zero_sattrguard3.
Definition fields_SETATTR3args (x : SETATTR3args) := (SETATTR3args_object x, (SETATTR3args_new_attributes x,
  SETATTR3args_guard x)).
Definition make_SETATTR3args (t : (nfs_fh3 * (sattr3 * sattrguard3))) : SETATTR3args := mkSETATTR3args t.1 t.2.1 t.2.2.
#[global] Instance SETATTR3args_iso : Iso fields_SETATTR3args make_SETATTR3args. Proof. iso. Qed.
Definition zdr_SETATTR3args : proc SETATTR3args := zdr_via fields_SETATTR3args make_SETATTR3args (zdr_nfs_fh3 >>>
  zdr_sattr3 >>> zdr_sattrguard3).
#[global] Instance SETATTR3args_codec : Codec zdr_SETATTR3args. Proof. codec zdr_SETATTR3args. Defined.
#[global] Instance SETATTR3args_blank : Blank zdr_SETATTR3args zero_SETATTR3args. Proof. blank zdr_SETATTR3args. Qed.

Record SETATTR3resok := mkSETATTR3resok {
  SETATTR3resok_obj_wcc : wcc_data
}.
Definition zero_SETATTR3resok : SETATTR3resok := mkSETATTR3resok zero_wcc_data.
Definition fields_SETATTR3resok (x : SETATTR3resok) := SETATTR3resok_obj_wcc x.
Definition make_SETATTR3resok (t : wcc_data) : SETATTR3resok := mkSETATTR3resok t.
#[global] Instance SETATTR3resok_iso : Iso fields_SETATTR3resok make_SETATTR3resok. Proof. iso. Qed.
Definition zdr_SETATTR3resok : proc SETATTR3resok := zdr_via fields_SETATTR3resok make_SETATTR3resok (zdr_wcc_data).
#[global] Instance SETATTR3resok_codec : Codec zdr_SETATTR3resok. Proof. codec zdr_SETATTR3resok. Defined.
#[global] Instance SETATTR3resok_blank : Blank zdr_SETATTR3resok zero_SETATTR3resok. Proof. blank zdr_SETATTR3resok. Qed.
#[global] Instance SETATTR3resok_safe : Safe zdr_SETATTR3resok. Proof. safe zdr_SETATTR3resok. Qed.

Record SETATTR3resfail := mkSETATTR3resfail {
  SETATTR3resfail_obj_wcc : wcc_data
}.
Definition zero_SETATTR3resfail : SETATTR3resfail := mkSETATTR3resfail zero_wcc_data.
Definition fields_SETATTR3resfail (x : SETATTR3resfail) := SETATTR3resfail_obj_wcc x.
Definition make_SETATTR3resfail (t : wcc_data) : SETATTR3resfail := mkSETATTR3resfail t.
#[global] Instance SETATTR3resfail_iso : Iso fields_SETATTR3resfail make_SETATTR3resfail. Proof. iso. Qed.
Definition zdr_SETATTR3resfail : proc SETATTR3resfail := zdr_via fields_SETATTR3resfail make_SETATTR3resfail (zdr_wcc_data).
#[global] Instance SETATTR3resfail_codec : Codec zdr_SETATTR3resfail. Proof. codec zdr_SETATTR3resfail. Defined.
#[global] Instance SETATTR3resfail_blank : Blank zdr_SETATTR3resfail zero_SETATTR3resfail. Proof. blank
  zdr_SETATTR3resfail. Qed.
#[global] Instance SETATTR3resfail_safe : Safe zdr_SETATTR3resfail. Proof. safe zdr_SETATTR3resfail. Qed.

Inductive SETATTR3res_union := SETATTR3res_cleared | SETATTR3res_resok (x : SETATTR3resok) | SETATTR3res_resfail (x :
  SETATTR3resfail).
Record SETATTR3res := mkSETATTR3res { SETATTR3res_status : Z; SETATTR3res_u : SETATTR3res_union }.
Definition zero_SETATTR3res : SETATTR3res := mkSETATTR3res 0 SETATTR3res_cleared.
Definition fields_SETATTR3res (x : SETATTR3res) := (SETATTR3res_status x, SETATTR3res_u x).
Definition make_SETATTR3res (t : (Z * SETATTR3res_union)) : SETATTR3res := mkSETATTR3res t.1 t.2.
#[global] Instance SETATTR3res_iso : Iso fields_SETATTR3res make_SETATTR3res. Proof. iso. Qed.
Definition as_SETATTR3res_resok (u : SETATTR3res_union) : SETATTR3resok := match u with SETATTR3res_resok x => x | _ =>
  zero_SETATTR3resok end.
#[global] Instance SETATTR3res_resok_member : Variant as_SETATTR3res_resok SETATTR3res_resok. Proof. done. Qed.
Definition as_SETATTR3res_resfail (u : SETATTR3res_union) : SETATTR3resfail := match u with SETATTR3res_resfail x => x | _
  => zero_SETATTR3resfail end.
#[global] Instance SETATTR3res_resfail_member : Variant as_SETATTR3res_resfail SETATTR3res_resfail. Proof. done. Qed.
Definition case_SETATTR3res (d : Z) : proc SETATTR3res_union :=
  if (d =? NFS3_OK) then zdr_member as_SETATTR3res_resok SETATTR3res_resok zdr_SETATTR3resok
  else zdr_member as_SETATTR3res_resfail SETATTR3res_resfail zdr_SETATTR3resfail.
#[global] Instance case_SETATTR3res_codec d : Codec (case_SETATTR3res d). Proof. codec case_SETATTR3res. Defined.
#[global] Instance case_SETATTR3res_blank d : Blank (case_SETATTR3res d) SETATTR3res_cleared. Proof. blank
  case_SETATTR3res. Qed.
#[global] Instance case_SETATTR3res_safe d : Safe (case_SETATTR3res d). Proof. safe case_SETATTR3res. Qed.
Definition zdr_SETATTR3res : proc SETATTR3res := zdr_via fields_SETATTR3res make_SETATTR3res (zdr_dseq zdr_nfsstat3
  (case_SETATTR3res)).
#[global] Instance SETATTR3res_codec : Codec zdr_SETATTR3res. Proof. codec zdr_SETATTR3res. Defined.
#[global] Instance SETATTR3res_blank : Blank zdr_SETATTR3res zero_SETATTR3res. Proof. blank zdr_SETATTR3res. Qed.
#[global] Instance SETATTR3res_safe : Safe zdr_SETATTR3res. Proof. safe zdr_SETATTR3res. Qed.

Definition zdr_fhandle2 : proc ptr := zdr_opaque 32.
Definition zdr_ftype2 : proc Z := zdr_enum.
Record fattr2 := mkfattr2 {
    fattr2_type : Z; fattr2_mode : Z; fattr2_nlink : Z; fattr2_uid : Z; fattr2_gid : Z; fattr2_size : Z; fattr2_blocksize
    : Z; fattr2_rdev : Z; fattr2_blocks : Z; fattr2_fsid : Z; fattr2_fileid : Z; fattr2_atime : nfstime3; fattr2_mtime :
    nfstime3; fattr2_ctime : nfstime3
}.
Definition zero_fattr2 : fattr2 := mkfattr2 0 0 0 0 0 0 0 0 0 0 0 zero_nfstime3 zero_nfstime3 zero_nfstime3.
Definition fields_fattr2 (x : fattr2) := (fattr2_type x, (fattr2_mode x, (fattr2_nlink x, (fattr2_uid x, (fattr2_gid x,
  (fattr2_size x, (fattr2_blocksize x, (fattr2_rdev x, (fattr2_blocks x, (fattr2_fsid x, (fattr2_fileid x, (fattr2_atime
  x, (fattr2_mtime x, fattr2_ctime x))))))))))))).
Definition make_fattr2 (t : (Z * (Z * (Z * (Z * (Z * (Z * (Z * (Z * (Z * (Z * (Z * (nfstime3 * (nfstime3 *
  nfstime3)))))))))))))) : fattr2 := mkfattr2 t.1 t.2.1 t.2.2.1 t.2.2.2.1 t.2.2.2.2.1 t.2.2.2.2.2.1 t.2.2.2.2.2.2.1
  t.2.2.2.2.2.2.2.1 t.2.2.2.2.2.2.2.2.1 t.2.2.2.2.2.2.2.2.2.1 t.2.2.2.2.2.2.2.2.2.2.1 t.2.2.2.2.2.2.2.2.2.2.2.1
  t.2.2.2.2.2.2.2.2.2.2.2.2.1 t.2.2.2.2.2.2.2.2.2.2.2.2.2.
#[global] Instance fattr2_iso : Iso fields_fattr2 make_fattr2. Proof. iso. Qed.
Definition zdr_fattr2 : proc fattr2 := zdr_via fields_fattr2 make_fattr2 (zdr_ftype2 >>> zdr_u_int >>> zdr_u_int >>>
  zdr_u_int >>> zdr_u_int >>> zdr_u_int >>> zdr_u_int >>> zdr_u_int >>> zdr_u_int >>> zdr_u_int >>> zdr_u_int >>>
  zdr_nfstime3 >>> zdr_nfstime3 >>> zdr_nfstime3).
#[global] Instance fattr2_codec : Codec zdr_fattr2. Proof. codec zdr_fattr2. Defined.
#[global] Instance fattr2_blank : Blank zdr_fattr2 zero_fattr2. Proof. blank zdr_fattr2. Qed.
#[global] Instance fattr2_safe : Safe zdr_fattr2. Proof. safe zdr_fattr2. Qed.

Record sattr2 := mksattr2 {
  sattr2_mode : Z; sattr2_uid : Z; sattr2_gid : Z; sattr2_size : Z; sattr2_atime : nfstime3; sattr2_mtime : nfstime3
}.
Definition zero_sattr2 : sattr2 := mksattr2 0 0 0 0 zero_nfstime3 zero_nfstime3.
Definition fields_sattr2 (x : sattr2) := (sattr2_mode x, (sattr2_uid x, (sattr2_gid x, (sattr2_size x, (sattr2_atime x,
  sattr2_mtime x))))).
Definition make_sattr2 (t : (Z * (Z * (Z * (Z * (nfstime3 * nfstime3)))))) : sattr2 := mksattr2 t.1 t.2.1 t.2.2.1
  t.2.2.2.1 t.2.2.2.2.1 t.2.2.2.2.2.
#[global] Instance sattr2_iso : Iso fields_sattr2 make_sattr2. Proof. iso. Qed.
Definition zdr_sattr2 : proc sattr2 := zdr_via fields_sattr2 make_sattr2 (zdr_u_int >>> zdr_u_int >>> zdr_u_int >>>
  zdr_u_int >>> zdr_nfstime3 >>> zdr_nfstime3).
#[global] Instance sattr2_codec : Codec zdr_sattr2. Proof. codec zdr_sattr2. Defined.
#[global] Instance sattr2_blank : Blank zdr_sattr2 zero_sattr2. Proof. blank zdr_sattr2. Qed.
#[global] Instance sattr2_safe : Safe zdr_sattr2. Proof. safe zdr_sattr2. Qed.

Definition zdr_filename2 : proc ptr := zdr_string.
Definition zdr_path2 : proc ptr := zdr_string.
Definition zdr_nfsdata2 : proc (ptr * Z) := zdr_bytes.
Definition zdr_nfscookie2 : proc ptr := zdr_opaque 4.
Inductive entry2 := mkentry2 {
  entry2_fileid : Z; entry2_name : ptr; entry2_cookie : ptr; entry2_nextentry : option entry2
}.
Definition zero_entry2 : entry2 := mkentry2 0 NULL (Heap (zeros 4)) None.
Definition fields_entry2 (x : entry2) := (entry2_fileid x, (entry2_name x, (entry2_cookie x, entry2_nextentry x))).
Definition make_entry2 (t : (Z * (ptr * (ptr * (option entry2))))) : entry2 := mkentry2 t.1 t.2.1 t.2.2.1 t.2.2.2.
#[global] Instance entry2_iso : Iso fields_entry2 make_entry2. Proof. iso. Qed.
Fixpoint zdr_entry2 (fuel : nat) : proc entry2 :=
  match fuel with
  | O => zdr_out_of_fuel
    | S fuel => zdr_via fields_entry2 make_entry2 (zdr_u_int >>> zdr_filename2 >>> zdr_nfscookie2 >>> (zdr_pointer
    zero_entry2 32 (zdr_entry2 fuel)))
  end.
#[global] Instance entry2_codec fuel : Codec (zdr_entry2 fuel). Proof. induction fuel; cbn [zdr_entry2]; exact _. Defined.
#[global] Instance entry2_blank fuel : Blank (zdr_entry2 fuel) zero_entry2. Proof. induction fuel; cbn [zdr_entry2]; exact
  _. Qed.

Record diropargs2 := mkdiropargs2 {
  diropargs2_dir : ptr; diropargs2_name : ptr
}.
Definition zero_diropargs2 : diropargs2 := mkdiropargs2 (Heap (zeros 32)) NULL.
Definition fields_diropargs2 (x : diropargs2) := (diropargs2_dir x, diropargs2_name x).
Definition make_diropargs2 (t : (ptr * ptr)) : diropargs2 := mkdiropargs2 t.1 t.2.
#[global] Instance diropargs2_iso : Iso fields_diropargs2 make_diropargs2. Proof. iso. Qed.
Definition zdr_diropargs2 : proc diropargs2 := zdr_via fields_diropargs2 make_diropargs2 (zdr_fhandle2 >>> zdr_filename2).
#[global] Instance diropargs2_codec : Codec zdr_diropargs2. Proof. codec zdr_diropargs2. Defined.
#[global] Instance diropargs2_blank : Blank zdr_diropargs2 zero_diropargs2. Proof. blank zdr_diropargs2. Qed.

Record GETATTR2args := mkGETATTR2args {
  GETATTR2args_fhandle : ptr
}.
Definition zero_GETATTR2args : GETATTR2args := mkGETATTR2args (Heap (zeros 32)).
Definition fields_GETATTR2args (x : GETATTR2args) := GETATTR2args_fhandle x.
Definition make_GETATTR2args (t : ptr) : GETATTR2args := mkGETATTR2args t.
#[global] Instance GETATTR2args_iso : Iso fields_GETATTR2args make_GETATTR2args. Proof. iso. Qed.
Definition zdr_GETATTR2args : proc GETATTR2args := zdr_via fields_GETATTR2args make_GETATTR2args (zdr_fhandle2).
#[global] Instance GETATTR2args_codec : Codec zdr_GETATTR2args. Proof. codec zdr_GETATTR2args. Defined.
#[global] Instance GETATTR2args_blank : Blank zdr_GETATTR2args zero_GETATTR2args. Proof. blank zdr_GETATTR2args. Qed.

Record GETATTR2resok := mkGETATTR2resok {
  GETATTR2resok_attributes : fattr2
}.
Definition zero_GETATTR2resok : GETATTR2resok := mkGETATTR2resok zero_fattr2.
Definition fields_GETATTR2resok (x : GETATTR2resok) := GETATTR2resok_attributes x.
Definition make_GETATTR2resok (t : fattr2) : GETATTR2resok := mkGETATTR2resok t.
#[global] Instance GETATTR2resok_iso : Iso fields_GETATTR2resok make_GETATTR2resok. Proof. iso. Qed.
Definition zdr_GETATTR2resok : proc GETATTR2resok := zdr_via fields_GETATTR2resok make_GETATTR2resok (zdr_fattr2).
#[global] Instance GETATTR2resok_codec : Codec zdr_GETATTR2resok. Proof. codec zdr_GETATTR2resok. Defined.
#[global] Instance GETATTR2resok_blank : Blank zdr_GETATTR2resok zero_GETATTR2resok. Proof. blank zdr_GETATTR2resok. Qed.
#[global] Instance GETATTR2resok_safe : Safe zdr_GETATTR2resok. Proof. safe zdr_GETATTR2resok. Qed.

Inductive GETATTR2res_union := GETATTR2res_cleared | GETATTR2res_resok (x : GETATTR2resok).
Record GETATTR2res := mkGETATTR2res { GETATTR2res_status : Z; GETATTR2res_u : GETATTR2res_union }.
Definition zero_GETATTR2res : GETATTR2res := mkGETATTR2res 0 GETATTR2res_cleared.
Definition fields_GETATTR2res (x : GETATTR2res) := (GETATTR2res_status x, GETATTR2res_u x).
Definition make_GETATTR2res (t : (Z * GETATTR2res_union)) : GETATTR2res := mkGETATTR2res t.1 t.2.
#[global] Instance GETATTR2res_iso : Iso fields_GETATTR2res make_GETATTR2res. Proof. iso. Qed.
Definition as_GETATTR2res_resok (u : GETATTR2res_union) : GETATTR2resok := match u with GETATTR2res_resok x => x | _ =>
  zero_GETATTR2resok end.
#[global] Instance GETATTR2res_resok_member : Variant as_GETATTR2res_resok GETATTR2res_resok. Proof. done. Qed.
Definition case_GETATTR2res (d : Z) : proc GETATTR2res_union :=
  if (d =? NFS3_OK) then zdr_member as_GETATTR2res_resok GETATTR2res_resok zdr_GETATTR2resok
  else zdr_void.
#[global] Instance case_GETATTR2res_codec d : Codec (case_GETATTR2res d). Proof. codec case_GETATTR2res. Defined.
#[global] Instance case_GETATTR2res_blank d : Blank (case_GETATTR2res d) GETATTR2res_cleared. Proof. blank
  case_GETATTR2res. Qed.
#[global] Instance case_GETATTR2res_safe d : Safe (case_GETATTR2res d). Proof. safe case_GETATTR2res. Qed.
Definition zdr_GETATTR2res : proc GETATTR2res := zdr_via fields_GETATTR2res make_GETATTR2res (zdr_dseq zdr_nfsstat3
  (case_GETATTR2res)).
#[global] Instance GETATTR2res_codec : Codec zdr_GETATTR2res. Proof. codec zdr_GETATTR2res. Defined.
#[global] Instance GETATTR2res_blank : Blank zdr_GETATTR2res zero_GETATTR2res. Proof. blank zdr_GETATTR2res. Qed.
#[global] Instance GETATTR2res_safe : Safe zdr_GETATTR2res. Proof. safe zdr_GETATTR2res. Qed.

Record SETATTR2args := mkSETATTR2args {
  SETATTR2args_fhandle : ptr; SETATTR2args_attributes : sattr2
}.
Definition zero_SETATTR2args : SETATTR2args := mkSETATTR2args (Heap (zeros 32)) zero_sattr2.
Definition fields_SETATTR2args (x : SETATTR2args) := (SETATTR2args_fhandle x, SETATTR2args_attributes x).
Definition make_SETATTR2args (t : (ptr * sattr2)) : SETATTR2args := mkSETATTR2args t.1 t.2.
#[global] Instance SETATTR2args_iso : Iso fields_SETATTR2args make_SETATTR2args. Proof. iso. Qed.
Definition zdr_SETATTR2args : proc SETATTR2args := zdr_via fields_SETATTR2args make_SETATTR2args (zdr_fhandle2 >>>
  zdr_sattr2).
#[global] Instance SETATTR2args_codec : Codec zdr_SETATTR2args. Proof. codec zdr_SETATTR2args. Defined.
#[global] Instance SETATTR2args_blank : Blank zdr_SETATTR2args zero_SETATTR2args. Proof. blank zdr_SETATTR2args. Qed.

Record SETATTR2resok := mkSETATTR2resok {
  SETATTR2resok_attributes : fattr2
}.
Definition zero_SETATTR2resok : SETATTR2resok := mkSETATTR2resok zero_fattr2.
Definition fields_SETATTR2resok (x : SETATTR2resok) := SETATTR2resok_attributes x.
Definition make_SETATTR2resok (t : fattr2) : SETATTR2resok := mkSETATTR2resok t.
#[global] Instance SETATTR2resok_iso : Iso fields_SETATTR2resok make_SETATTR2resok. Proof. iso. Qed.
Definition zdr_SETATTR2resok : proc SETATTR2resok := zdr_via fields_SETATTR2resok make_SETATTR2resok (zdr_fattr2).
#[global] Instance SETATTR2resok_codec : Codec zdr_SETATTR2resok. Proof. codec zdr_SETATTR2resok. Defined.
#[global] Instance SETATTR2resok_blank : Blank zdr_SETATTR2resok zero_SETATTR2resok. Proof. blank zdr_SETATTR2resok. Qed.
#[global] Instance SETATTR2resok_safe : Safe zdr_SETATTR2resok. Proof. safe zdr_SETATTR2resok. Qed.

Inductive SETATTR2res_union := SETATTR2res_cleared | SETATTR2res_resok (x : SETATTR2resok).
Record SETATTR2res := mkSETATTR2res { SETATTR2res_status : Z; SETATTR2res_u : SETATTR2res_union }.
Definition zero_SETATTR2res : SETATTR2res := mkSETATTR2res 0 SETATTR2res_cleared.
Definition fields_SETATTR2res (x : SETATTR2res) := (SETATTR2res_status x, SETATTR2res_u x).
Definition make_SETATTR2res (t : (Z * SETATTR2res_union)) : SETATTR2res := mkSETATTR2res t.1 t.2.
#[global] Instance SETATTR2res_iso : Iso fields_SETATTR2res make_SETATTR2res. Proof. iso. Qed.
Definition as_SETATTR2res_resok (u : SETATTR2res_union) : SETATTR2resok := match u with SETATTR2res_resok x => x | _ =>
  zero_SETATTR2resok end.
#[global] Instance SETATTR2res_resok_member : Variant as_SETATTR2res_resok SETATTR2res_resok. Proof. done. Qed.
Definition case_SETATTR2res (d : Z) : proc SETATTR2res_union :=
  if (d =? NFS3_OK) then zdr_member as_SETATTR2res_resok SETATTR2res_resok zdr_SETATTR2resok
  else zdr_void.
#[global] Instance case_SETATTR2res_codec d : Codec (case_SETATTR2res d). Proof. codec case_SETATTR2res. Defined.
#[global] Instance case_SETATTR2res_blank d : Blank (case_SETATTR2res d) SETATTR2res_cleared. Proof. blank
  case_SETATTR2res. Qed.
#[global] Instance case_SETATTR2res_safe d : Safe (case_SETATTR2res d). Proof. safe case_SETATTR2res. Qed.
Definition zdr_SETATTR2res : proc SETATTR2res := zdr_via fields_SETATTR2res make_SETATTR2res (zdr_dseq zdr_nfsstat3
  (case_SETATTR2res)).
#[global] Instance SETATTR2res_codec : Codec zdr_SETATTR2res. Proof. codec zdr_SETATTR2res. Defined.
#[global] Instance SETATTR2res_blank : Blank zdr_SETATTR2res zero_SETATTR2res. Proof. blank zdr_SETATTR2res. Qed.
#[global] Instance SETATTR2res_safe : Safe zdr_SETATTR2res. Proof. safe zdr_SETATTR2res. Qed.

Record LOOKUP2args := mkLOOKUP2args {
  LOOKUP2args_what : diropargs2
}.
Definition zero_LOOKUP2args : LOOKUP2args := mkLOOKUP2args zero_diropargs2.
Definition fields_LOOKUP2args (x : LOOKUP2args) := LOOKUP2args_what x.
Definition make_LOOKUP2args (t : diropargs2) : LOOKUP2args := mkLOOKUP2args t.
#[global] Instance LOOKUP2args_iso : Iso fields_LOOKUP2args make_LOOKUP2args. Proof. iso. Qed.
Definition zdr_LOOKUP2args : proc LOOKUP2args := zdr_via fields_LOOKUP2args make_LOOKUP2args (zdr_diropargs2).
#[global] Instance LOOKUP2args_codec : Codec zdr_LOOKUP2args. Proof. codec zdr_LOOKUP2args. Defined.
#[global] Instance LOOKUP2args_blank : Blank zdr_LOOKUP2args zero_LOOKUP2args. Proof. blank zdr_LOOKUP2args. Qed.

Record LOOKUP2resok := mkLOOKUP2resok {
  LOOKUP2resok_file : ptr; LOOKUP2resok_attributes : fattr2
}.
Definition zero_LOOKUP2resok : LOOKUP2resok := mkLOOKUP2resok (Heap (zeros 32)) zero_fattr2.
Definition fields_LOOKUP2resok (x : LOOKUP2resok) := (LOOKUP2resok_file x, LOOKUP2resok_attributes x).
Definition make_LOOKUP2resok (t : (ptr * fattr2)) : LOOKUP2resok := mkLOOKUP2resok t.1 t.2.
#[global] Instance LOOKUP2resok_iso : Iso fields_LOOKUP2resok make_LOOKUP2resok. Proof. iso. Qed.
Definition zdr_LOOKUP2resok : proc LOOKUP2resok := zdr_via fields_LOOKUP2resok make_LOOKUP2resok (zdr_fhandle2 >>>
  zdr_fattr2).
#[global] Instance LOOKUP2resok_codec : Codec zdr_LOOKUP2resok. Proof. codec zdr_LOOKUP2resok. Defined.
#[global] Instance LOOKUP2resok_blank : Blank zdr_LOOKUP2resok zero_LOOKUP2resok. Proof. blank zdr_LOOKUP2resok. Qed.

Inductive LOOKUP2res_union := LOOKUP2res_cleared | LOOKUP2res_resok (x : LOOKUP2resok).
Record LOOKUP2res := mkLOOKUP2res { LOOKUP2res_status : Z; LOOKUP2res_u : LOOKUP2res_union }.
Definition zero_LOOKUP2res : LOOKUP2res := mkLOOKUP2res 0 LOOKUP2res_cleared.
Definition fields_LOOKUP2res (x : LOOKUP2res) := (LOOKUP2res_status x, LOOKUP2res_u x).
Definition make_LOOKUP2res (t : (Z * LOOKUP2res_union)) : LOOKUP2res := mkLOOKUP2res t.1 t.2.
#[global] Instance LOOKUP2res_iso : Iso fields_LOOKUP2res make_LOOKUP2res. Proof. iso. Qed.
Definition as_LOOKUP2res_resok (u : LOOKUP2res_union) : LOOKUP2resok := match u with LOOKUP2res_resok x => x | _ =>
  zero_LOOKUP2resok end.
#[global] Instance LOOKUP2res_resok_member : Variant as_LOOKUP2res_resok LOOKUP2res_resok. Proof. done. Qed.
Definition case_LOOKUP2res (d : Z) : proc LOOKUP2res_union :=
  if (d =? NFS3_OK) then zdr_member as_LOOKUP2res_resok LOOKUP2res_resok zdr_LOOKUP2resok
  else zdr_void.
#[global] Instance case_LOOKUP2res_codec d : Codec (case_LOOKUP2res d). Proof. codec case_LOOKUP2res. Defined.
#[global] Instance case_LOOKUP2res_blank d : Blank (case_LOOKUP2res d) LOOKUP2res_cleared. Proof. blank case_LOOKUP2res. Qed.
Definition zdr_LOOKUP2res : proc LOOKUP2res := zdr_via fields_LOOKUP2res make_LOOKUP2res (zdr_dseq zdr_nfsstat3
  (case_LOOKUP2res)).
#[global] Instance LOOKUP2res_codec : Codec zdr_LOOKUP2res. Proof. codec zdr_LOOKUP2res. Defined.
#[global] Instance LOOKUP2res_blank : Blank zdr_LOOKUP2res zero_LOOKUP2res. Proof. blank zdr_LOOKUP2res. Qed.

Record READLINK2args := mkREADLINK2args {
  READLINK2args_file : ptr
}.
Definition zero_READLINK2args : READLINK2args := mkREADLINK2args (Heap (zeros 32)).
Definition fields_READLINK2args (x : READLINK2args) := READLINK2args_file x.
Definition make_READLINK2args (t : ptr) : READLINK2args := mkREADLINK2args t.
#[global] Instance READLINK2args_iso : Iso fields_READLINK2args make_READLINK2args. Proof. iso. Qed.
Definition zdr_READLINK2args : proc READLINK2args := zdr_via fields_READLINK2args make_READLINK2args (zdr_fhandle2).
#[global] Instance READLINK2args_codec : Codec zdr_READLINK2args. Proof. codec zdr_READLINK2args. Defined.
#[global] Instance READLINK2args_blank : Blank zdr_READLINK2args zero_READLINK2args. Proof. blank zdr_READLINK2args. Qed.

Record READLINK2resok := mkREADLINK2resok {
  READLINK2resok_data : ptr
}.
Definition zero_READLINK2resok : READLINK2resok := mkREADLINK2resok NULL.
Definition fields_READLINK2resok (x : READLINK2resok) := READLINK2resok_data x.
Definition make_READLINK2resok (t : ptr) : READLINK2resok := mkREADLINK2resok t.
#[global] Instance READLINK2resok_iso : Iso fields_READLINK2resok make_READLINK2resok. Proof. iso. Qed.
Definition zdr_READLINK2resok : proc READLINK2resok := zdr_via fields_READLINK2resok make_READLINK2resok (zdr_path2).
#[global] Instance READLINK2resok_codec : Codec zdr_READLINK2resok. Proof. codec zdr_READLINK2resok. Defined.
#[global] Instance READLINK2resok_blank : Blank zdr_READLINK2resok zero_READLINK2resok. Proof. blank zdr_READLINK2resok. Qed.

Inductive READLINK2res_union := READLINK2res_cleared | READLINK2res_resok (x : READLINK2resok).
Record READLINK2res := mkREADLINK2res { READLINK2res_status : Z; READLINK2res_u : READLINK2res_union }.
Definition zero_READLINK2res : READLINK2res := mkREADLINK2res 0 READLINK2res_cleared.
Definition fields_READLINK2res (x : READLINK2res) := (READLINK2res_status x, READLINK2res_u x).
Definition make_READLINK2res (t : (Z * READLINK2res_union)) : READLINK2res := mkREADLINK2res t.1 t.2.
#[global] Instance READLINK2res_iso : Iso fields_READLINK2res make_READLINK2res. Proof. iso. Qed.
Definition as_READLINK2res_resok (u : READLINK2res_union) : READLINK2resok := match u with READLINK2res_resok x => x | _
  => zero_READLINK2resok end.
#[global] Instance READLINK2res_resok_member : Variant as_READLINK2res_resok READLINK2res_resok. Proof. done. Qed.
Definition case_READLINK2res (d : Z) : proc READLINK2res_union :=
  if (d =? NFS3_OK) then zdr_member as_READLINK2res_resok READLINK2res_resok zdr_READLINK2resok
  else zdr_void.
#[global] Instance case_READLINK2res_codec d : Codec (case_READLINK2res d). Proof. codec case_READLINK2res. Defined.
#[global] Instance case_READLINK2res_blank d : Blank (case_READLINK2res d) READLINK2res_cleared. Proof. blank
  case_READLINK2res. Qed.
Definition zdr_READLINK2res : proc READLINK2res := zdr_via fields_READLINK2res make_READLINK2res (zdr_dseq zdr_nfsstat3
  (case_READLINK2res)).
#[global] Instance READLINK2res_codec : Codec zdr_READLINK2res. Proof. codec zdr_READLINK2res. Defined.
#[global] Instance READLINK2res_blank : Blank zdr_READLINK2res zero_READLINK2res. Proof. blank zdr_READLINK2res. Qed.

Record READ2args := mkREAD2args {
  READ2args_file : ptr; READ2args_offset : Z; READ2args_count : Z; READ2args_totalcount : Z
}.
Definition zero_READ2args : READ2args := mkREAD2args (Heap (zeros 32)) 0 0 0.
Definition fields_READ2args (x : READ2args) := (READ2args_file x, (READ2args_offset x, (READ2args_count x,
  READ2args_totalcount x))).
Definition make_READ2args (t : (ptr * (Z * (Z * Z)))) : READ2args := mkREAD2args t.1 t.2.1 t.2.2.1 t.2.2.2.
#[global] Instance READ2args_iso : Iso fields_READ2args make_READ2args. Proof. iso. Qed.
Definition zdr_READ2args : proc READ2args := zdr_via fields_READ2args make_READ2args (zdr_fhandle2 >>> zdr_u_int >>>
  zdr_u_int >>> zdr_u_int).
#[global] Instance READ2args_codec : Codec zdr_READ2args. Proof. codec zdr_READ2args. Defined.
#[global] Instance READ2args_blank : Blank zdr_READ2args zero_READ2args. Proof. blank zdr_READ2args. Qed.

Record READ2resok := mkREAD2resok {
  READ2resok_attributes : fattr2; READ2resok_data : ptr * Z
}.
Definition zero_READ2resok : READ2resok := mkREAD2resok zero_fattr2 (NULL, 0).
Definition fields_READ2resok (x : READ2resok) := (READ2resok_attributes x, READ2resok_data x).
Definition make_READ2resok (t : (fattr2 * (ptr * Z))) : READ2resok := mkREAD2resok t.1 t.2.
#[global] Instance READ2resok_iso : Iso fields_READ2resok make_READ2resok. Proof. iso. Qed.
Definition zdr_READ2resok : proc READ2resok := zdr_via fields_READ2resok make_READ2resok (zdr_fattr2 >>> zdr_nfsdata2).
#[global] Instance READ2resok_codec : Codec zdr_READ2resok. Proof. codec zdr_READ2resok. Defined.
#[global] Instance READ2resok_blank : Blank zdr_READ2resok zero_READ2resok. Proof. blank zdr_READ2resok. Qed.

Inductive READ2res_union := READ2res_cleared | READ2res_resok (x : READ2resok).
Record READ2res := mkREAD2res { READ2res_status : Z; READ2res_u : READ2res_union }.
Definition zero_READ2res : READ2res := mkREAD2res 0 READ2res_cleared.
Definition fields_READ2res (x : READ2res) := (READ2res_status x, READ2res_u x).
Definition make_READ2res (t : (Z * READ2res_union)) : READ2res := mkREAD2res t.1 t.2.
#[global] Instance READ2res_iso : Iso fields_READ2res make_READ2res. Proof. iso. Qed.
Definition as_READ2res_resok (u : READ2res_union) : READ2resok := match u with READ2res_resok x => x | _ =>
  zero_READ2resok end.
#[global] Instance READ2res_resok_member : Variant as_READ2res_resok READ2res_resok. Proof. done. Qed.
Definition case_READ2res (d : Z) : proc READ2res_union :=
  if (d =? NFS3_OK) then zdr_member as_READ2res_resok READ2res_resok zdr_READ2resok
  else zdr_void.
#[global] Instance case_READ2res_codec d : Codec (case_READ2res d). Proof. codec case_READ2res. Defined.
#[global] Instance case_READ2res_blank d : Blank (case_READ2res d) READ2res_cleared. Proof. blank case_READ2res. Qed.
Definition zdr_READ2res : proc READ2res := zdr_via fields_READ2res make_READ2res (zdr_dseq zdr_nfsstat3 (case_READ2res)).
#[global] Instance READ2res_codec : Codec zdr_READ2res. Proof. codec zdr_READ2res. Defined.
#[global] Instance READ2res_blank : Blank zdr_READ2res zero_READ2res. Proof. blank zdr_READ2res. Qed.

Record WRITE2args := mkWRITE2args {
    WRITE2args_file : ptr; WRITE2args_beginoffset : Z; WRITE2args_offset : Z; WRITE2args_totalcount : Z; WRITE2args_data :
    ptr * Z
}.
Definition zero_WRITE2args : WRITE2args := mkWRITE2args (Heap (zeros 32)) 0 0 0 (NULL, 0).
Definition fields_WRITE2args (x : WRITE2args) := (WRITE2args_file x, (WRITE2args_beginoffset x, (WRITE2args_offset x,
  (WRITE2args_totalcount x, WRITE2args_data x)))).
Definition make_WRITE2args (t : (ptr * (Z * (Z * (Z * (ptr * Z)))))) : WRITE2args := mkWRITE2args t.1 t.2.1 t.2.2.1
  t.2.2.2.1 t.2.2.2.2.
#[global] Instance WRITE2args_iso : Iso fields_WRITE2args make_WRITE2args. Proof. iso. Qed.
Definition zdr_WRITE2args : proc WRITE2args := zdr_via fields_WRITE2args make_WRITE2args (zdr_fhandle2 >>> zdr_u_int >>>
  zdr_u_int >>> zdr_u_int >>> zdr_nfsdata2).
#[global] Instance WRITE2args_codec : Codec zdr_WRITE2args. Proof. codec zdr_WRITE2args. Defined.
#[global] Instance WRITE2args_blank : Blank zdr_WRITE2args zero_WRITE2args. Proof. blank zdr_WRITE2args. Qed.

Record WRITE2resok := mkWRITE2resok {
  WRITE2resok_attributes : fattr2
}.
Definition zero_WRITE2resok : WRITE2resok := mkWRITE2resok zero_fattr2.
Definition fields_WRITE2resok (x : WRITE2resok) := WRITE2resok_attributes x.
Definition make_WRITE2resok (t : fattr2) : WRITE2resok := mkWRITE2resok t.
#[global] Instance WRITE2resok_iso : Iso fields_WRITE2resok make_WRITE2resok. Proof. iso. Qed.
Definition zdr_WRITE2resok : proc WRITE2resok := zdr_via fields_WRITE2resok make_WRITE2resok (zdr_fattr2).
#[global] Instance WRITE2resok_codec : Codec zdr_WRITE2resok. Proof. codec zdr_WRITE2resok. Defined.
#[global] Instance WRITE2resok_blank : Blank zdr_WRITE2resok zero_WRITE2resok. Proof. blank zdr_WRITE2resok. Qed.
#[global] Instance WRITE2resok_safe : Safe zdr_WRITE2resok. Proof. safe zdr_WRITE2resok. Qed.

Inductive WRITE2res_union := WRITE2res_cleared | WRITE2res_resok (x : WRITE2resok).
Record WRITE2res := mkWRITE2res { WRITE2res_status : Z; WRITE2res_u : WRITE2res_union }.
Definition zero_WRITE2res : WRITE2res := mkWRITE2res 0 WRITE2res_cleared.
Definition fields_WRITE2res (x : WRITE2res) := (WRITE2res_status x, WRITE2res_u x).
Definition make_WRITE2res (t : (Z * WRITE2res_union)) : WRITE2res := mkWRITE2res t.1 t.2.
#[global] Instance WRITE2res_iso : Iso fields_WRITE2res make_WRITE2res. Proof. iso. Qed.
Definition as_WRITE2res_resok (u : WRITE2res_union) : WRITE2resok := match u with WRITE2res_resok x => x | _ =>
  zero_WRITE2resok end.
#[global] Instance WRITE2res_resok_member : Variant as_WRITE2res_resok WRITE2res_resok. Proof. done. Qed.
Definition case_WRITE2res (d : Z) : proc WRITE2res_union :=
  if (d =? NFS3_OK) then zdr_member as_WRITE2res_resok WRITE2res_resok zdr_WRITE2resok
  else zdr_void.
#[global] Instance case_WRITE2res_codec d : Codec (case_WRITE2res d). Proof. codec case_WRITE2res. Defined.
#[global] Instance case_WRITE2res_blank d : Blank (case_WRITE2res d) WRITE2res_cleared. Proof. blank case_WRITE2res. Qed.
#[global] Instance case_WRITE2res_safe d : Safe (case_WRITE2res d). Proof. safe case_WRITE2res. Qed.
Definition zdr_WRITE2res : proc WRITE2res := zdr_via fields_WRITE2res make_WRITE2res (zdr_dseq zdr_nfsstat3
  (case_WRITE2res)).
#[global] Instance WRITE2res_codec : Codec zdr_WRITE2res. Proof. codec zdr_WRITE2res. Defined.
#[global] Instance WRITE2res_blank : Blank zdr_WRITE2res zero_WRITE2res. Proof. blank zdr_WRITE2res. Qed.
#[global] Instance WRITE2res_safe : Safe zdr_WRITE2res. Proof. safe zdr_WRITE2res. Qed.

Record CREATE2args := mkCREATE2args {
  CREATE2args_where : diropargs2; CREATE2args_attributes : sattr2
}.
Definition zero_CREATE2args : CREATE2args := mkCREATE2args zero_diropargs2 zero_sattr2.
Definition fields_CREATE2args (x : CREATE2args) := (CREATE2args_where x, CREATE2args_attributes x).
Definition make_CREATE2args (t : (diropargs2 * sattr2)) : CREATE2args := mkCREATE2args t.1 t.2.
#[global] Instance CREATE2args_iso : Iso fields_CREATE2args make_CREATE2args. Proof. iso. Qed.
Definition zdr_CREATE2args : proc CREATE2args := zdr_via fields_CREATE2args make_CREATE2args (zdr_diropargs2 >>> zdr_sattr2).
#[global] Instance CREATE2args_codec : Codec zdr_CREATE2args. Proof. codec zdr_CREATE2args. Defined.
#[global] Instance CREATE2args_blank : Blank zdr_CREATE2args zero_CREATE2args. Proof. blank zdr_CREATE2args. Qed.

Record CREATE2resok := mkCREATE2resok {
  CREATE2resok_file : ptr; CREATE2resok_attributes : fattr2
}.
Definition zero_CREATE2resok : CREATE2resok := mkCREATE2resok (Heap (zeros 32)) zero_fattr2.
Definition fields_CREATE2resok (x : CREATE2resok) := (CREATE2resok_file x, CREATE2resok_attributes x).
Definition make_CREATE2resok (t : (ptr * fattr2)) : CREATE2resok := mkCREATE2resok t.1 t.2.
#[global] Instance CREATE2resok_iso : Iso fields_CREATE2resok make_CREATE2resok. Proof. iso. Qed.
Definition zdr_CREATE2resok : proc CREATE2resok := zdr_via fields_CREATE2resok make_CREATE2resok (zdr_fhandle2 >>>
  zdr_fattr2).
#[global] Instance CREATE2resok_codec : Codec zdr_CREATE2resok. Proof. codec zdr_CREATE2resok. Defined.
#[global] Instance CREATE2resok_blank : Blank zdr_CREATE2resok zero_CREATE2resok. Proof. blank zdr_CREATE2resok. Qed.

Inductive CREATE2res_union := CREATE2res_cleared | CREATE2res_resok (x : CREATE2resok).
Record CREATE2res := mkCREATE2res { CREATE2res_status : Z; CREATE2res_u : CREATE2res_union }.
Definition zero_CREATE2res : CREATE2res := mkCREATE2res 0 CREATE2res_cleared.
Definition fields_CREATE2res (x : CREATE2res) := (CREATE2res_status x, CREATE2res_u x).
Definition make_CREATE2res (t : (Z * CREATE2res_union)) : CREATE2res := mkCREATE2res t.1 t.2.
#[global] Instance CREATE2res_iso : Iso fields_CREATE2res make_CREATE2res. Proof. iso. Qed.
Definition as_CREATE2res_resok (u : CREATE2res_union) : CREATE2resok := match u with CREATE2res_resok x => x | _ =>
  zero_CREATE2resok end.
#[global] Instance CREATE2res_resok_member : Variant as_CREATE2res_resok CREATE2res_resok. Proof. done. Qed.
Definition case_CREATE2res (d : Z) : proc CREATE2res_union :=
  if (d =? NFS3_OK) then zdr_member as_CREATE2res_resok CREATE2res_resok zdr_CREATE2resok
  else zdr_void.
#[global] Instance case_CREATE2res_codec d : Codec (case_CREATE2res d). Proof. codec case_CREATE2res. Defined.
#[global] Instance case_CREATE2res_blank d : Blank (case_CREATE2res d) CREATE2res_cleared. Proof. blank case_CREATE2res. Qed.
Definition zdr_CREATE2res : proc CREATE2res := zdr_via fields_CREATE2res make_CREATE2res (zdr_dseq zdr_nfsstat3
  (case_CREATE2res)).
#[global] Instance CREATE2res_codec : Codec zdr_CREATE2res. Proof. codec zdr_CREATE2res. Defined.
#[global] Instance CREATE2res_blank : Blank zdr_CREATE2res zero_CREATE2res. Proof. blank zdr_CREATE2res. Qed.

Record REMOVE2args := mkREMOVE2args {
  REMOVE2args_what : diropargs2
}.
Definition zero_REMOVE2args : REMOVE2args := mkREMOVE2args zero_diropargs2.
Definition fields_REMOVE2args (x : REMOVE2args) := REMOVE2args_what x.
Definition make_REMOVE2args (t : diropargs2) : REMOVE2args := mkREMOVE2args t.
#[global] Instance REMOVE2args_iso : Iso fields_REMOVE2args make_REMOVE2args. Proof. iso. Qed.
Definition zdr_REMOVE2args : proc REMOVE2args := zdr_via fields_REMOVE2args make_REMOVE2args (zdr_diropargs2).
#[global] Instance REMOVE2args_codec : Codec zdr_REMOVE2args. Proof. codec zdr_REMOVE2args. Defined.
#[global] Instance REMOVE2args_blank : Blank zdr_REMOVE2args zero_REMOVE2args. Proof. blank zdr_REMOVE2args. Qed.

Record REMOVE2res := mkREMOVE2res {
  REMOVE2res_status : Z
}.
Definition zero_REMOVE2res : REMOVE2res := mkREMOVE2res 0.
Definition fields_REMOVE2res (x : REMOVE2res) := REMOVE2res_status x.
Definition make_REMOVE2res (t : Z) : REMOVE2res := mkREMOVE2res t.
#[global] Instance REMOVE2res_iso : Iso fields_REMOVE2res make_REMOVE2res. Proof. iso. Qed.
Definition zdr_REMOVE2res : proc REMOVE2res := zdr_via fields_REMOVE2res make_REMOVE2res (zdr_nfsstat3).
#[global] Instance REMOVE2res_codec : Codec zdr_REMOVE2res. Proof. codec zdr_REMOVE2res. Defined.
#[global] Instance REMOVE2res_blank : Blank zdr_REMOVE2res zero_REMOVE2res. Proof. blank zdr_REMOVE2res. Qed.
#[global] Instance REMOVE2res_safe : Safe zdr_REMOVE2res. Proof. safe zdr_REMOVE2res. Qed.

Record RENAME2args := mkRENAME2args {
  RENAME2args_from : diropargs2; RENAME2args_to : diropargs2
}.
Definition zero_RENAME2args : RENAME2args := mkRENAME2args zero_diropargs2 zero_diropargs2.
Definition fields_RENAME2args (x : RENAME2args) := (RENAME2args_from x, RENAME2args_to x).
Definition make_RENAME2args (t : (diropargs2 * diropargs2)) : RENAME2args := mkRENAME2args t.1 t.2.
#[global] Instance RENAME2args_iso : Iso fields_RENAME2args make_RENAME2args. Proof. iso. Qed.
Definition zdr_RENAME2args : proc RENAME2args := zdr_via fields_RENAME2args make_RENAME2args (zdr_diropargs2 >>>
  zdr_diropargs2).
#[global] Instance RENAME2args_codec : Codec zdr_RENAME2args. Proof. codec zdr_RENAME2args. Defined.
#[global] Instance RENAME2args_blank : Blank zdr_RENAME2args zero_RENAME2args. Proof. blank zdr_RENAME2args. Qed.

Record RENAME2res := mkRENAME2res {
  RENAME2res_status : Z
}.
Definition zero_RENAME2res : RENAME2res := mkRENAME2res 0.
Definition fields_RENAME2res (x : RENAME2res) := RENAME2res_status x.
Definition make_RENAME2res (t : Z) : RENAME2res := mkRENAME2res t.
#[global] Instance RENAME2res_iso : Iso fields_RENAME2res make_RENAME2res. Proof. iso. Qed.
Definition zdr_RENAME2res : proc RENAME2res := zdr_via fields_RENAME2res make_RENAME2res (zdr_nfsstat3).
#[global] Instance RENAME2res_codec : Codec zdr_RENAME2res. Proof. codec zdr_RENAME2res. Defined.
#[global] Instance RENAME2res_blank : Blank zdr_RENAME2res zero_RENAME2res. Proof. blank zdr_RENAME2res. Qed.
#[global] Instance RENAME2res_safe : Safe zdr_RENAME2res. Proof. safe zdr_RENAME2res. Qed.

Record LINK2args := mkLINK2args {
  LINK2args_from : ptr; LINK2args_to : diropargs2
}.
Definition zero_LINK2args : LINK2args := mkLINK2args (Heap (zeros 32)) zero_diropargs2.
Definition fields_LINK2args (x : LINK2args) := (LINK2args_from x, LINK2args_to x).
Definition make_LINK2args (t : (ptr * diropargs2)) : LINK2args := mkLINK2args t.1 t.2.
#[global] Instance LINK2args_iso : Iso fields_LINK2args make_LINK2args. Proof. iso. Qed.
Definition zdr_LINK2args : proc LINK2args := zdr_via fields_LINK2args make_LINK2args (zdr_fhandle2 >>> zdr_diropargs2).
#[global] Instance LINK2args_codec : Codec zdr_LINK2args. Proof. codec zdr_LINK2args. Defined.
#[global] Instance LINK2args_blank : Blank zdr_LINK2args zero_LINK2args. Proof. blank zdr_LINK2args. Qed.

Record LINK2res := mkLINK2res {
  LINK2res_status : Z
}.
Definition zero_LINK2res : LINK2res := mkLINK2res 0.
Definition fields_LINK2res (x : LINK2res) := LINK2res_status x.
Definition make_LINK2res (t : Z) : LINK2res := mkLINK2res t.
#[global] Instance LINK2res_iso : Iso fields_LINK2res make_LINK2res. Proof. iso. Qed.
Definition zdr_LINK2res : proc LINK2res := zdr_via fields_LINK2res make_LINK2res (zdr_nfsstat3).
#[global] Instance LINK2res_codec : Codec zdr_LINK2res. Proof. codec zdr_LINK2res. Defined.
#[global] Instance LINK2res_blank : Blank zdr_LINK2res zero_LINK2res. Proof. blank zdr_LINK2res. Qed.
#[global] Instance LINK2res_safe : Safe zdr_LINK2res. Proof. safe zdr_LINK2res. Qed.

Record SYMLINK2args := mkSYMLINK2args {
  SYMLINK2args_from : diropargs2; SYMLINK2args_to : ptr; SYMLINK2args_attributes : sattr2
}.
Definition zero_SYMLINK2args : SYMLINK2args := mkSYMLINK2args zero_diropargs2 NULL zero_sattr2.
Definition fields_SYMLINK2args (x : SYMLINK2args) := (SYMLINK2args_from x, (SYMLINK2args_to x, SYMLINK2args_attributes x)).
Definition make_SYMLINK2args (t : (diropargs2 * (ptr * sattr2))) : SYMLINK2args := mkSYMLINK2args t.1 t.2.1 t.2.2.
#[global] Instance SYMLINK2args_iso : Iso fields_SYMLINK2args make_SYMLINK2args. Proof. iso. Qed.
Definition zdr_SYMLINK2args : proc SYMLINK2args := zdr_via fields_SYMLINK2args make_SYMLINK2args (zdr_diropargs2 >>>
  zdr_path2 >>> zdr_sattr2).
#[global] Instance SYMLINK2args_codec : Codec zdr_SYMLINK2args. Proof. codec zdr_SYMLINK2args. Defined.
#[global] Instance SYMLINK2args_blank : Blank zdr_SYMLINK2args zero_SYMLINK2args. Proof. blank zdr_SYMLINK2args. Qed.

Record SYMLINK2res := mkSYMLINK2res {
  SYMLINK2res_status : Z
}.
Definition zero_SYMLINK2res : SYMLINK2res := mkSYMLINK2res 0.
Definition fields_SYMLINK2res (x : SYMLINK2res) := SYMLINK2res_status x.
Definition make_SYMLINK2res (t : Z) : SYMLINK2res := mkSYMLINK2res t.
#[global] Instance SYMLINK2res_iso : Iso fields_SYMLINK2res make_SYMLINK2res. Proof. iso. Qed.
Definition zdr_SYMLINK2res : proc SYMLINK2res := zdr_via fields_SYMLINK2res make_SYMLINK2res (zdr_nfsstat3).
#[global] Instance SYMLINK2res_codec : Codec zdr_SYMLINK2res. Proof. codec zdr_SYMLINK2res. Defined.
#[global] Instance SYMLINK2res_blank : Blank zdr_SYMLINK2res zero_SYMLINK2res. Proof. blank zdr_SYMLINK2res. Qed.
#[global] Instance SYMLINK2res_safe : Safe zdr_SYMLINK2res. Proof. safe zdr_SYMLINK2res. Qed.

Record MKDIR2args := mkMKDIR2args {
  MKDIR2args_where : diropargs2; MKDIR2args_attributes : sattr2
}.
Definition zero_MKDIR2args : MKDIR2args := mkMKDIR2args zero_diropargs2 zero_sattr2.
Definition fields_MKDIR2args (x : MKDIR2args) := (MKDIR2args_where x, MKDIR2args_attributes x).
Definition make_MKDIR2args (t : (diropargs2 * sattr2)) : MKDIR2args := mkMKDIR2args t.1 t.2.
#[global] Instance MKDIR2args_iso : Iso fields_MKDIR2args make_MKDIR2args. Proof. iso. Qed.
Definition zdr_MKDIR2args : proc MKDIR2args := zdr_via fields_MKDIR2args make_MKDIR2args (zdr_diropargs2 >>> zdr_sattr2).
#[global] Instance MKDIR2args_codec : Codec zdr_MKDIR2args. Proof. codec zdr_MKDIR2args. Defined.
#[global] Instance MKDIR2args_blank : Blank zdr_MKDIR2args zero_MKDIR2args. Proof. blank zdr_MKDIR2args. Qed.

Record MKDIR2resok := mkMKDIR2resok {
  MKDIR2resok_file : ptr; MKDIR2resok_attributes : fattr2
}.
Definition zero_MKDIR2resok : MKDIR2resok := mkMKDIR2resok (Heap (zeros 32)) zero_fattr2.
Definition fields_MKDIR2resok (x : MKDIR2resok) := (MKDIR2resok_file x, MKDIR2resok_attributes x).
Definition make_MKDIR2resok (t : (ptr * fattr2)) : MKDIR2resok := mkMKDIR2resok t.1 t.2.
#[global] Instance MKDIR2resok_iso : Iso fields_MKDIR2resok make_MKDIR2resok. Proof. iso. Qed.
Definition zdr_MKDIR2resok : proc MKDIR2resok := zdr_via fields_MKDIR2resok make_MKDIR2resok (zdr_fhandle2 >>> zdr_fattr2).
#[global] Instance MKDIR2resok_codec : Codec zdr_MKDIR2resok. Proof. codec zdr_MKDIR2resok. Defined.
#[global] Instance MKDIR2resok_blank : Blank zdr_MKDIR2resok zero_MKDIR2resok. Proof. blank zdr_MKDIR2resok. Qed.

Inductive MKDIR2res_union := MKDIR2res_cleared | MKDIR2res_resok (x : MKDIR2resok).
Record MKDIR2res := mkMKDIR2res { MKDIR2res_status : Z; MKDIR2res_u : MKDIR2res_union }.
Definition zero_MKDIR2res : MKDIR2res := mkMKDIR2res 0 MKDIR2res_cleared.
Definition fields_MKDIR2res (x : MKDIR2res) := (MKDIR2res_status x, MKDIR2res_u x).
Definition make_MKDIR2res (t : (Z * MKDIR2res_union)) : MKDIR2res := mkMKDIR2res t.1 t.2.
#[global] Instance MKDIR2res_iso : Iso fields_MKDIR2res make_MKDIR2res. Proof. iso. Qed.
Definition as_MKDIR2res_resok (u : MKDIR2res_union) : MKDIR2resok := match u with MKDIR2res_resok x => x | _ =>
  zero_MKDIR2resok end.
#[global] Instance MKDIR2res_resok_member : Variant as_MKDIR2res_resok MKDIR2res_resok. Proof. done. Qed.
Definition case_MKDIR2res (d : Z) : proc MKDIR2res_union :=
  if (d =? NFS3_OK) then zdr_member as_MKDIR2res_resok MKDIR2res_resok zdr_MKDIR2resok
  else zdr_void.
#[global] Instance case_MKDIR2res_codec d : Codec (case_MKDIR2res d). Proof. codec case_MKDIR2res. Defined.
#[global] Instance case_MKDIR2res_blank d : Blank (case_MKDIR2res d) MKDIR2res_cleared. Proof. blank case_MKDIR2res. Qed.
Definition zdr_MKDIR2res : proc MKDIR2res := zdr_via fields_MKDIR2res make_MKDIR2res (zdr_dseq zdr_nfsstat3
  (case_MKDIR2res)).
#[global] Instance MKDIR2res_codec : Codec zdr_MKDIR2res. Proof. codec zdr_MKDIR2res. Defined.
#[global] Instance MKDIR2res_blank : Blank zdr_MKDIR2res zero_MKDIR2res. Proof. blank zdr_MKDIR2res. Qed.

Record RMDIR2args := mkRMDIR2args {
  RMDIR2args_what : diropargs2
}.
Definition zero_RMDIR2args : RMDIR2args := mkRMDIR2args zero_diropargs2.
Definition fields_RMDIR2args (x : RMDIR2args) := RMDIR2args_what x.
Definition make_RMDIR2args (t : diropargs2) : RMDIR2args := mkRMDIR2args t.
#[global] Instance RMDIR2args_iso : Iso fields_RMDIR2args make_RMDIR2args. Proof. iso. Qed.
Definition zdr_RMDIR2args : proc RMDIR2args := zdr_via fields_RMDIR2args make_RMDIR2args (zdr_diropargs2).
#[global] Instance RMDIR2args_codec : Codec zdr_RMDIR2args. Proof. codec zdr_RMDIR2args. Defined.
#[global] Instance RMDIR2args_blank : Blank zdr_RMDIR2args zero_RMDIR2args. Proof. blank zdr_RMDIR2args. Qed.

Record RMDIR2res := mkRMDIR2res {
  RMDIR2res_status : Z
}.
Definition zero_RMDIR2res : RMDIR2res := mkRMDIR2res 0.
Definition fields_RMDIR2res (x : RMDIR2res) := RMDIR2res_status x.
Definition make_RMDIR2res (t : Z) : RMDIR2res := mkRMDIR2res t.
#[global] Instance RMDIR2res_iso : Iso fields_RMDIR2res make_RMDIR2res. Proof. iso. Qed.
Definition zdr_RMDIR2res : proc RMDIR2res := zdr_via fields_RMDIR2res make_RMDIR2res (zdr_nfsstat3).
#[global] Instance RMDIR2res_codec : Codec zdr_RMDIR2res. Proof. codec zdr_RMDIR2res. Defined.
#[global] Instance RMDIR2res_blank : Blank zdr_RMDIR2res zero_RMDIR2res. Proof. blank zdr_RMDIR2res. Qed.
#[global] Instance RMDIR2res_safe : Safe zdr_RMDIR2res. Proof. safe zdr_RMDIR2res. Qed.

Record READDIR2args := mkREADDIR2args {
  READDIR2args_dir : ptr; READDIR2args_cookie : ptr; READDIR2args_count : Z
}.
Definition zero_READDIR2args : READDIR2args := mkREADDIR2args (Heap (zeros 32)) (Heap (zeros 4)) 0.
Definition fields_READDIR2args (x : READDIR2args) := (READDIR2args_dir x, (READDIR2args_cookie x, READDIR2args_count x)).
Definition make_READDIR2args (t : (ptr * (ptr * Z))) : READDIR2args := mkREADDIR2args t.1 t.2.1 t.2.2.
#[global] Instance READDIR2args_iso : Iso fields_READDIR2args make_READDIR2args. Proof. iso. Qed.
Definition zdr_READDIR2args : proc READDIR2args := zdr_via fields_READDIR2args make_READDIR2args (zdr_fhandle2 >>>
  zdr_nfscookie2 >>> zdr_u_int).
#[global] Instance READDIR2args_codec : Codec zdr_READDIR2args. Proof. codec zdr_READDIR2args. Defined.
#[global] Instance READDIR2args_blank : Blank zdr_READDIR2args zero_READDIR2args. Proof. blank zdr_READDIR2args. Qed.

Record READDIR2resok := mkREADDIR2resok {
  READDIR2resok_entries : option entry2; READDIR2resok_eof : Z
}.
Definition zero_READDIR2resok : READDIR2resok := mkREADDIR2resok None 0.
Definition fields_READDIR2resok (x : READDIR2resok) := (READDIR2resok_entries x, READDIR2resok_eof x).
Definition make_READDIR2resok (t : ((option entry2) * Z)) : READDIR2resok := mkREADDIR2resok t.1 t.2.
#[global] Instance READDIR2resok_iso : Iso fields_READDIR2resok make_READDIR2resok. Proof. iso. Qed.
Definition zdr_READDIR2resok (fuel : nat) : proc READDIR2resok := zdr_via fields_READDIR2resok make_READDIR2resok
  ((zdr_pointer zero_entry2 32 (zdr_entry2 fuel)) >>> zdr_bool).
#[global] Instance READDIR2resok_codec fuel : Codec (zdr_READDIR2resok fuel). Proof. codec zdr_READDIR2resok. Defined.
#[global] Instance READDIR2resok_blank fuel : Blank (zdr_READDIR2resok fuel) zero_READDIR2resok. Proof. blank
  zdr_READDIR2resok. Qed.

Inductive READDIR2res_union := READDIR2res_cleared | READDIR2res_resok (x : READDIR2resok).
Record READDIR2res := mkREADDIR2res { READDIR2res_status : Z; READDIR2res_u : READDIR2res_union }.
Definition zero_READDIR2res : READDIR2res := mkREADDIR2res 0 READDIR2res_cleared.
Definition fields_READDIR2res (x : READDIR2res) := (READDIR2res_status x, READDIR2res_u x).
Definition make_READDIR2res (t : (Z * READDIR2res_union)) : READDIR2res := mkREADDIR2res t.1 t.2.
#[global] Instance READDIR2res_iso : Iso fields_READDIR2res make_READDIR2res. Proof. iso. Qed.
Definition as_READDIR2res_resok (u : READDIR2res_union) : READDIR2resok := match u with READDIR2res_resok x => x | _ =>
  zero_READDIR2resok end.
#[global] Instance READDIR2res_resok_member : Variant as_READDIR2res_resok READDIR2res_resok. Proof. done. Qed.
Definition case_READDIR2res (fuel : nat) (d : Z) : proc READDIR2res_union :=
  if (d =? NFS3_OK) then zdr_member as_READDIR2res_resok READDIR2res_resok (zdr_READDIR2resok fuel)
  else zdr_void.
#[global] Instance case_READDIR2res_codec (fuel : nat) d : Codec (case_READDIR2res fuel d). Proof. codec case_READDIR2res.
  Defined.
#[global] Instance case_READDIR2res_blank (fuel : nat) d : Blank (case_READDIR2res fuel d) READDIR2res_cleared. Proof.
  blank case_READDIR2res. Qed.
Definition zdr_READDIR2res (fuel : nat) : proc READDIR2res := zdr_via fields_READDIR2res make_READDIR2res (zdr_dseq
  zdr_nfsstat3 (case_READDIR2res fuel)).
#[global] Instance READDIR2res_codec fuel : Codec (zdr_READDIR2res fuel). Proof. codec zdr_READDIR2res. Defined.
#[global] Instance READDIR2res_blank fuel : Blank (zdr_READDIR2res fuel) zero_READDIR2res. Proof. blank zdr_READDIR2res. Qed.

Record STATFS2args := mkSTATFS2args {
  STATFS2args_dir : ptr
}.
Definition zero_STATFS2args : STATFS2args := mkSTATFS2args (Heap (zeros 32)).
Definition fields_STATFS2args (x : STATFS2args) := STATFS2args_dir x.
Definition make_STATFS2args (t : ptr) : STATFS2args := mkSTATFS2args t.
#[global] Instance STATFS2args_iso : Iso fields_STATFS2args make_STATFS2args. Proof. iso. Qed.
Definition zdr_STATFS2args : proc STATFS2args := zdr_via fields_STATFS2args make_STATFS2args (zdr_fhandle2).
#[global] Instance STATFS2args_codec : Codec zdr_STATFS2args. Proof. codec zdr_STATFS2args. Defined.
#[global] Instance STATFS2args_blank : Blank zdr_STATFS2args zero_STATFS2args. Proof. blank zdr_STATFS2args. Qed.

Record STATFS2resok := mkSTATFS2resok {
  STATFS2resok_tsize : Z; STATFS2resok_bsize : Z; STATFS2resok_blocks : Z; STATFS2resok_bfree : Z; STATFS2resok_bavail : Z
}.
Definition zero_STATFS2resok : STATFS2resok := mkSTATFS2resok 0 0 0 0 0.
Definition fields_STATFS2resok (x : STATFS2resok) := (STATFS2resok_tsize x, (STATFS2resok_bsize x, (STATFS2resok_blocks x,
  (STATFS2resok_bfree x, STATFS2resok_bavail x)))).
Definition make_STATFS2resok (t : (Z * (Z * (Z * (Z * Z))))) : STATFS2resok := mkSTATFS2resok t.1 t.2.1 t.2.2.1 t.2.2.2.1
  t.2.2.2.2.
#[global] Instance STATFS2resok_iso : Iso fields_STATFS2resok make_STATFS2resok. Proof. iso. Qed.
Definition zdr_STATFS2resok : proc STATFS2resok := zdr_via fields_STATFS2resok make_STATFS2resok (zdr_u_int >>> zdr_u_int
  >>> zdr_u_int >>> zdr_u_int >>> zdr_u_int).
#[global] Instance STATFS2resok_codec : Codec zdr_STATFS2resok. Proof. codec zdr_STATFS2resok. Defined.
#[global] Instance STATFS2resok_blank : Blank zdr_STATFS2resok zero_STATFS2resok. Proof. blank zdr_STATFS2resok. Qed.
#[global] Instance STATFS2resok_safe : Safe zdr_STATFS2resok. Proof. safe zdr_STATFS2resok. Qed.

Inductive STATFS2res_union := STATFS2res_cleared | STATFS2res_resok (x : STATFS2resok).
Record STATFS2res := mkSTATFS2res { STATFS2res_status : Z; STATFS2res_u : STATFS2res_union }.
Definition zero_STATFS2res : STATFS2res := mkSTATFS2res 0 STATFS2res_cleared.
Definition fields_STATFS2res (x : STATFS2res) := (STATFS2res_status x, STATFS2res_u x).
Definition make_STATFS2res (t : (Z * STATFS2res_union)) : STATFS2res := mkSTATFS2res t.1 t.2.
#[global] Instance STATFS2res_iso : Iso fields_STATFS2res make_STATFS2res. Proof. iso. Qed.
Definition as_STATFS2res_resok (u : STATFS2res_union) : STATFS2resok := match u with STATFS2res_resok x => x | _ =>
  zero_STATFS2resok end.
#[global] Instance STATFS2res_resok_member : Variant as_STATFS2res_resok STATFS2res_resok. Proof. done. Qed.
Definition case_STATFS2res (d : Z) : proc STATFS2res_union :=
  if (d =? NFS3_OK) then zdr_member as_STATFS2res_resok STATFS2res_resok zdr_STATFS2resok
  else zdr_void.
#[global] Instance case_STATFS2res_codec d : Codec (case_STATFS2res d). Proof. codec case_STATFS2res. Defined.
#[global] Instance case_STATFS2res_blank d : Blank (case_STATFS2res d) STATFS2res_cleared. Proof. blank case_STATFS2res. Qed.
#[global] Instance case_STATFS2res_safe d : Safe (case_STATFS2res d). Proof. safe case_STATFS2res. Qed.
Definition zdr_STATFS2res : proc STATFS2res := zdr_via fields_STATFS2res make_STATFS2res (zdr_dseq zdr_nfsstat3
  (case_STATFS2res)).
#[global] Instance STATFS2res_codec : Codec zdr_STATFS2res. Proof. codec zdr_STATFS2res. Defined.
#[global] Instance STATFS2res_blank : Blank zdr_STATFS2res zero_STATFS2res. Proof. blank zdr_STATFS2res. Qed.
#[global] Instance STATFS2res_safe : Safe zdr_STATFS2res. Proof. safe zdr_STATFS2res. Qed.

Definition zdr_nfsacl_type : proc Z := zdr_enum.
Record nfsacl_ace := mknfsacl_ace {
  nfsacl_ace_type : Z; nfsacl_ace_id : Z; nfsacl_ace_perm : Z
}.
Definition zero_nfsacl_ace : nfsacl_ace := mknfsacl_ace 0 0 0.
Definition fields_nfsacl_ace (x : nfsacl_ace) := (nfsacl_ace_type x, (nfsacl_ace_id x, nfsacl_ace_perm x)).
Definition make_nfsacl_ace (t : (Z * (Z * Z))) : nfsacl_ace := mknfsacl_ace t.1 t.2.1 t.2.2.
#[global] Instance nfsacl_ace_iso : Iso fields_nfsacl_ace make_nfsacl_ace. Proof. iso. Qed.
Definition zdr_nfsacl_ace : proc nfsacl_ace := zdr_via fields_nfsacl_ace make_nfsacl_ace (zdr_nfsacl_type >>> zdr_u_int
  >>> zdr_u_int).
#[global] Instance nfsacl_ace_codec : Codec zdr_nfsacl_ace. Proof. codec zdr_nfsacl_ace. Defined.
#[global] Instance nfsacl_ace_blank : Blank zdr_nfsacl_ace zero_nfsacl_ace. Proof. blank zdr_nfsacl_ace. Qed.
#[global] Instance nfsacl_ace_safe : Safe zdr_nfsacl_ace. Proof. safe zdr_nfsacl_ace. Qed.

Record GETACL3args := mkGETACL3args {
  GETACL3args_dir : nfs_fh3; GETACL3args_mask : Z
}.
Definition zero_GETACL3args : GETACL3args := mkGETACL3args zero_nfs_fh3 0.
Definition fields_GETACL3args (x : GETACL3args) := (GETACL3args_dir x, GETACL3args_mask x).
Definition make_GETACL3args (t : (nfs_fh3 * Z)) : GETACL3args := mkGETACL3args t.1 t.2.
#[global] Instance GETACL3args_iso : Iso fields_GETACL3args make_GETACL3args. Proof. iso. Qed.
Definition zdr_GETACL3args : proc GETACL3args := zdr_via fields_GETACL3args make_GETACL3args (zdr_nfs_fh3 >>> zdr_u_int).
#[global] Instance GETACL3args_codec : Codec zdr_GETACL3args. Proof. codec zdr_GETACL3args. Defined.
#[global] Instance GETACL3args_blank : Blank zdr_GETACL3args zero_GETACL3args. Proof. blank zdr_GETACL3args. Qed.

Record GETACL3resok := mkGETACL3resok {
    GETACL3resok_attr : post_op_attr; GETACL3resok_mask : Z; GETACL3resok_ace_count : Z; GETACL3resok_ace : Z * list
    nfsacl_ace; GETACL3resok_default_ace_count : Z; GETACL3resok_default_ace : Z * list nfsacl_ace
}.
Definition zero_GETACL3resok : GETACL3resok := mkGETACL3resok zero_post_op_attr 0 0 (0, []) 0 (0, []).
Definition fields_GETACL3resok (x : GETACL3resok) := (GETACL3resok_attr x, (GETACL3resok_mask x, (GETACL3resok_ace_count
  x, (GETACL3resok_ace x, (GETACL3resok_default_ace_count x, GETACL3resok_default_ace x))))).
Definition make_GETACL3resok (t : (post_op_attr * (Z * (Z * ((Z * list nfsacl_ace) * (Z * (Z * list nfsacl_ace))))))) :
  GETACL3resok := mkGETACL3resok t.1 t.2.1 t.2.2.1 t.2.2.2.1 t.2.2.2.2.1 t.2.2.2.2.2.
#[global] Instance GETACL3resok_iso : Iso fields_GETACL3resok make_GETACL3resok. Proof. iso. Qed.
Definition zdr_GETACL3resok : proc GETACL3resok := zdr_via fields_GETACL3resok make_GETACL3resok (zdr_post_op_attr >>>
  zdr_u_int >>> zdr_u_int >>> (zdr_array zero_nfsacl_ace 12 zdr_nfsacl_ace) >>> zdr_u_int >>> (zdr_array zero_nfsacl_ace
  12 zdr_nfsacl_ace)).
#[global] Instance GETACL3resok_codec : Codec zdr_GETACL3resok. Proof. codec zdr_GETACL3resok. Defined.
#[global] Instance GETACL3resok_blank : Blank zdr_GETACL3resok zero_GETACL3resok. Proof. blank zdr_GETACL3resok. Qed.

Inductive GETACL3res_union := GETACL3res_cleared | GETACL3res_resok (x : GETACL3resok).
Record GETACL3res := mkGETACL3res { GETACL3res_status : Z; GETACL3res_u : GETACL3res_union }.
Definition zero_GETACL3res : GETACL3res := mkGETACL3res 0 GETACL3res_cleared.
Definition fields_GETACL3res (x : GETACL3res) := (GETACL3res_status x, GETACL3res_u x).
Definition make_GETACL3res (t : (Z * GETACL3res_union)) : GETACL3res := mkGETACL3res t.1 t.2.
#[global] Instance GETACL3res_iso : Iso fields_GETACL3res make_GETACL3res. Proof. iso. Qed.
Definition as_GETACL3res_resok (u : GETACL3res_union) : GETACL3resok := match u with GETACL3res_resok x => x | _ =>
  zero_GETACL3resok end.
#[global] Instance GETACL3res_resok_member : Variant as_GETACL3res_resok GETACL3res_resok. Proof. done. Qed.
Definition case_GETACL3res (d : Z) : proc GETACL3res_union :=
  if (d =? NFS3_OK) then zdr_member as_GETACL3res_resok GETACL3res_resok zdr_GETACL3resok
  else zdr_void.
#[global] Instance case_GETACL3res_codec d : Codec (case_GETACL3res d). Proof. codec case_GETACL3res. Defined.
#[global] Instance case_GETACL3res_blank d : Blank (case_GETACL3res d) GETACL3res_cleared. Proof. blank case_GETACL3res. Qed.
Definition zdr_GETACL3res : proc GETACL3res := zdr_via fields_GETACL3res make_GETACL3res (zdr_dseq zdr_nfsstat3
  (case_GETACL3res)).
#[global] Instance GETACL3res_codec : Codec zdr_GETACL3res. Proof. codec zdr_GETACL3res. Defined.
#[global] Instance GETACL3res_blank : Blank zdr_GETACL3res zero_GETACL3res. Proof. blank zdr_GETACL3res. Qed.

Record SETACL3args := mkSETACL3args {
    SETACL3args_dir : nfs_fh3; SETACL3args_mask : Z; SETACL3args_ace_count : Z; SETACL3args_ace : Z * list nfsacl_ace;
    SETACL3args_default_ace_count : Z; SETACL3args_default_ace : Z * list nfsacl_ace
}.
Definition zero_SETACL3args : SETACL3args := mkSETACL3args zero_nfs_fh3 0 0 (0, []) 0 (0, []).
Definition fields_SETACL3args (x : SETACL3args) := (SETACL3args_dir x, (SETACL3args_mask x, (SETACL3args_ace_count x,
  (SETACL3args_ace x, (SETACL3args_default_ace_count x, SETACL3args_default_ace x))))).
Definition make_SETACL3args (t : (nfs_fh3 * (Z * (Z * ((Z * list nfsacl_ace) * (Z * (Z * list nfsacl_ace))))))) :
  SETACL3args := mkSETACL3args t.1 t.2.1 t.2.2.1 t.2.2.2.1 t.2.2.2.2.1 t.2.2.2.2.2.
#[global] Instance SETACL3args_iso : Iso fields_SETACL3args make_SETACL3args. Proof. iso. Qed.
Definition zdr_SETACL3args : proc SETACL3args := zdr_via fields_SETACL3args make_SETACL3args (zdr_nfs_fh3 >>> zdr_u_int
  >>> zdr_u_int >>> (zdr_array zero_nfsacl_ace 12 zdr_nfsacl_ace) >>> zdr_u_int >>> (zdr_array zero_nfsacl_ace 12
  zdr_nfsacl_ace)).
#[global] Instance SETACL3args_codec : Codec zdr_SETACL3args. Proof. codec zdr_SETACL3args. Defined.
#[global] Instance SETACL3args_blank : Blank zdr_SETACL3args zero_SETACL3args. Proof. blank zdr_SETACL3args. Qed.

Record SETACL3resok := mkSETACL3resok {
  SETACL3resok_attr : post_op_attr
}.
Definition zero_SETACL3resok : SETACL3resok := mkSETACL3resok zero_post_op_attr.
Definition fields_SETACL3resok (x : SETACL3resok) := SETACL3resok_attr x.
Definition make_SETACL3resok (t : post_op_attr) : SETACL3resok := mkSETACL3resok t.
#[global] Instance SETACL3resok_iso : Iso fields_SETACL3resok make_SETACL3resok. Proof. iso. Qed.
Definition zdr_SETACL3resok : proc SETACL3resok := zdr_via fields_SETACL3resok make_SETACL3resok (zdr_post_op_attr).
#[global] Instance SETACL3resok_codec : Codec zdr_SETACL3resok. Proof. codec zdr_SETACL3resok. Defined.
#[global] Instance SETACL3resok_blank : Blank zdr_SETACL3resok zero_SETACL3resok. Proof. blank zdr_SETACL3resok. Qed.
#[global] Instance SETACL3resok_safe : Safe zdr_SETACL3resok. Proof. safe zdr_SETACL3resok. Qed.

Inductive SETACL3res_union := SETACL3res_cleared | SETACL3res_resok (x : SETACL3resok).
Record SETACL3res := mkSETACL3res { SETACL3res_status : Z; SETACL3res_u : SETACL3res_union }.
Definition zero_SETACL3res : SETACL3res := mkSETACL3res 0 SETACL3res_cleared.
Definition fields_SETACL3res (x : SETACL3res) := (SETACL3res_status x, SETACL3res_u x).
Definition make_SETACL3res (t : (Z * SETACL3res_union)) : SETACL3res := mkSETACL3res t.1 t.2.
#[global] Instance SETACL3res_iso : Iso fields_SETACL3res make_SETACL3res. Proof. iso. Qed.
Definition as_SETACL3res_resok (u : SETACL3res_union) : SETACL3resok := match u with SETACL3res_resok x => x | _ =>
  zero_SETACL3resok end.
#[global] Instance SETACL3res_resok_member : Variant as_SETACL3res_resok SETACL3res_resok. Proof. done. Qed.
Definition case_SETACL3res (d : Z) : proc SETACL3res_union :=
  if (d =? NFS3_OK) then zdr_member as_SETACL3res_resok SETACL3res_resok zdr_SETACL3resok
  else zdr_void.
#[global] Instance case_SETACL3res_codec d : Codec (case_SETACL3res d). Proof. codec case_SETACL3res. Defined.
#[global] Instance case_SETACL3res_blank d : Blank (case_SETACL3res d) SETACL3res_cleared. Proof. blank case_SETACL3res. Qed.
#[global] Instance case_SETACL3res_safe d : Safe (case_SETACL3res d). Proof. safe case_SETACL3res. Qed.
Definition zdr_SETACL3res : proc SETACL3res := zdr_via fields_SETACL3res make_SETACL3res (zdr_dseq zdr_nfsstat3
  (case_SETACL3res)).
#[global] Instance SETACL3res_codec : Codec zdr_SETACL3res. Proof. codec zdr_SETACL3res. Defined.
#[global] Instance SETACL3res_blank : Blank zdr_SETACL3res zero_SETACL3res. Proof. blank zdr_SETACL3res. Qed.
#[global] Instance SETACL3res_safe : Safe zdr_SETACL3res. Proof. safe zdr_SETACL3res. Qed.
End X3.
