(* ===== verification/Nfs4Xdr.v ===== *)
(** * Nfs4Xdr: the data of NFS version 4 (nfs4/libnfs-raw-nfs4.c and .h)

    The objects of a COMPOUND, and of its callbacks, with the routines that
    marshal them.  What is written is not marshalled, and of what is read only
    the length is looked at: the tasks send the one from, and receive the other
    into, the memory of the user.  *)

From S2P Require Import Prelude Zdr Xdr.

#[local] Open Scope zdr_scope.
#[local] Set Warnings "-register-all".

Module X4.
Definition SET_TO_CLIENT_TIME4 : Z := 1.
Definition NFS4_OK : Z := 0.
Definition NF4LNK : Z := 5.
Definition NF4BLK : Z := 3.
Definition NF4CHR : Z := 4.
Definition NF4SOCK : Z := 6.
Definition NF4FIFO : Z := 7.
Definition NF4DIR : Z := 2.
Definition NFS4ERR_DENIED : Z := 10010.
Definition UNCHECKED4 : Z := 0.
Definition GUARDED4 : Z := 1.
Definition EXCLUSIVE4 : Z := 2.
Definition OPEN4_CREATE : Z := 1.
Definition NFS_LIMIT_SIZE : Z := 1.
Definition NFS_LIMIT_BLOCKS : Z := 2.
Definition CLAIM_NULL : Z := 0.
Definition CLAIM_PREVIOUS : Z := 1.
Definition CLAIM_DELEGATE_CUR : Z := 2.
Definition CLAIM_DELEGATE_PREV : Z := 3.
Definition CLAIM_FH : Z := 4.
Definition CLAIM_DELEG_PREV_FH : Z := 6.
Definition CLAIM_DELEG_CUR_FH : Z := 5.
Definition OPEN_DELEGATE_NONE : Z := 0.
Definition OPEN_DELEGATE_READ : Z := 1.
Definition OPEN_DELEGATE_WRITE : Z := 2.
Definition RPCSEC_GSS : Z := 6.
Definition NFS4ERR_CLID_INUSE : Z := 10017.
Definition AUTH_NONE : Z := 0.
Definition AUTH_SYS : Z := 1.
Definition SP4_NONE : Z := 0.
Definition SP4_MACH_CRED : Z := 1.
Definition SP4_SSV : Z := 2.
Definition GDD4_OK : Z := 0.
Definition GDD4_UNAVAIL : Z := 1.
Definition NFS4ERR_TOOSMALL : Z := 10005.
Definition NFS4ERR_LAYOUTTRYLATER : Z := 10058.
Definition LAYOUTRETURN4_FILE : Z := 1.
Definition OP_ACCESS : Z := 3.
Definition OP_CLOSE : Z := 4.
Definition OP_COMMIT : Z := 5.
Definition OP_CREATE : Z := 6.
Definition OP_DELEGPURGE : Z := 7.
Definition OP_DELEGRETURN : Z := 8.
Definition OP_GETATTR : Z := 9.
Definition OP_GETFH : Z := 10.
Definition OP_LINK : Z := 11.
Definition OP_LOCK : Z := 12.
Definition OP_LOCKT : Z := 13.
Definition OP_LOCKU : Z := 14.
Definition OP_LOOKUP : Z := 15.
Definition OP_LOOKUPP : Z := 16.
Definition OP_NVERIFY : Z := 17.
Definition OP_OPEN : Z := 18.
Definition OP_OPENATTR : Z := 19.
Definition OP_OPEN_CONFIRM : Z := 20.
Definition OP_OPEN_DOWNGRADE : Z := 21.
Definition OP_PUTFH : Z := 22.
Definition OP_PUTPUBFH : Z := 23.
Definition OP_PUTROOTFH : Z := 24.
Definition OP_READ : Z := 25.
Definition OP_READDIR : Z := 26.
Definition OP_READLINK : Z := 27.
Definition OP_REMOVE : Z := 28.
Definition OP_RENAME : Z := 29.
Definition OP_RENEW : Z := 30.
Definition OP_RESTOREFH : Z := 31.
Definition OP_SAVEFH : Z := 32.
Definition OP_SECINFO : Z := 33.
Definition OP_SETATTR : Z := 34.
Definition OP_SETCLIENTID : Z := 35.
Definition OP_SETCLIENTID_CONFIRM : Z := 36.
Definition OP_VERIFY : Z := 37.
Definition OP_WRITE : Z := 38.
Definition OP_RELEASE_LOCKOWNER : Z := 39.
Definition OP_BIND_CONN_TO_SESSION : Z := 41.
Definition OP_EXCHANGE_ID : Z := 42.
Definition OP_CREATE_SESSION : Z := 43.
Definition OP_DESTROY_SESSION : Z := 44.
Definition OP_FREE_STATEID : Z := 45.
Definition OP_GET_DIR_DELEGATION : Z := 46.
Definition OP_GETDEVICEINFO : Z := 47.
Definition OP_GETDEVICELIST : Z := 48.
Definition OP_LAYOUTCOMMIT : Z := 49.
Definition OP_LAYOUTGET : Z := 50.
Definition OP_LAYOUTRETURN : Z := 51.
Definition OP_SECINFO_NO_NAME : Z := 52.
Definition OP_SEQUENCE : Z := 53.
Definition OP_SET_SSV : Z := 54.
Definition OP_TEST_STATEID : Z := 55.
Definition OP_WANT_DELEGATION : Z := 56.
Definition OP_DESTROY_CLIENTID : Z := 57.
Definition OP_RECLAIM_COMPLETE : Z := 58.
Definition OP_ILLEGAL : Z := 10044.
Definition OP_CB_GETATTR : Z := 3.
Definition OP_CB_RECALL : Z := 4.
Definition OP_CB_ILLEGAL : Z := 10044.
Definition RPCSEC_GSS_VERS_1 : Z := 1.

Definition zdr_nfs_ftype4 : proc Z := zdr_enum.
Definition zdr_nfsstat4 : proc Z := zdr_enum.
Definition zdr_bitmap4 : proc (Z * list Z) := zdr_array 0 4 zdr_u_int.
Definition zdr_offset4 : proc Z := zdr_uint64_t.
Definition zdr_count4 : proc Z := zdr_u_int.
Definition zdr_length4 : proc Z := zdr_uint64_t.
Definition zdr_clientid4 : proc Z := zdr_uint64_t.
Definition zdr_sequenceid4 : proc Z := zdr_u_int.
Definition zdr_seqid4 : proc Z := zdr_u_int.
Definition zdr_slotid4 : proc Z := zdr_u_int.
Definition zdr_utf8string : proc (ptr * Z) := zdr_bytes.
Definition zdr_utf8str_cis : proc (ptr * Z) := zdr_utf8string.
Definition zdr_utf8str_cs : proc (ptr * Z) := zdr_utf8string.
Definition zdr_utf8str_mixed : proc (ptr * Z) := zdr_utf8string.
Definition zdr_component4 : proc (ptr * Z) := zdr_utf8str_cs.
Definition zdr_pathname4 : proc (Z * list (ptr * Z)) := zdr_array (NULL, 0) 16 zdr_component4.
Definition zdr_nfs_lockid4 : proc Z := zdr_uint64_t.
Definition zdr_nfs_cookie4 : proc Z := zdr_uint64_t.
Definition zdr_linktext4 : proc (ptr * Z) := zdr_utf8str_cs.
Definition zdr_sec_oid4 : proc (ptr * Z) := zdr_bytes.
Definition zdr_qop4 : proc Z := zdr_u_int.
Definition zdr_mode4 : proc Z := zdr_u_int.
Definition zdr_changeid4 : proc Z := zdr_uint64_t.
Definition zdr_verifier4 : proc ptr := zdr_opaque 8.
Definition zdr_sessionid4 : proc ptr := zdr_opaque 16.
Record authsys_parms := mkauthsys_parms {
    authsys_parms_stamp : Z; authsys_parms_machinename : ptr; authsys_parms_uid : Z; authsys_parms_gid : Z;
    authsys_parms_gids : Z * list Z
}.
Definition zero_authsys_parms : authsys_parms := mkauthsys_parms 0 NULL 0 0 (0, []).
Definition fields_authsys_parms (x : authsys_parms) := (authsys_parms_stamp x, (authsys_parms_machinename x,
  (authsys_parms_uid x, (authsys_parms_gid x, authsys_parms_gids x)))).
Definition make_authsys_parms (t : (Z * (ptr * (Z * (Z * (Z * list Z)))))) : authsys_parms := mkauthsys_parms t.1 t.2.1
  t.2.2.1 t.2.2.2.1 t.2.2.2.2.
#[global] Instance authsys_parms_iso : Iso fields_authsys_parms make_authsys_parms. Proof. iso. Qed.
Definition zdr_authsys_parms : proc authsys_parms := zdr_via fields_authsys_parms make_authsys_parms (zdr_u_int >>>
  zdr_string >>> zdr_u_int >>> zdr_u_int >>> (zdr_array 0 4 zdr_u_int)).
#[global] Instance authsys_parms_codec : Codec zdr_authsys_parms. Proof. codec zdr_authsys_parms. Defined.
#[global] Instance authsys_parms_blank : Blank zdr_authsys_parms zero_authsys_parms. Proof. blank zdr_authsys_parms. Qed.

Definition zdr_deviceid4 : proc ptr := zdr_opaque 16.
Definition zdr_layouttype4 : proc Z := zdr_enum.
Record layoutupdate4 := mklayoutupdate4 {
  layoutupdate4_lou_type : Z; layoutupdate4_lou_body : ptr * Z
}.
Definition zero_layoutupdate4 : layoutupdate4 := mklayoutupdate4 0 (NULL, 0).
Definition fields_layoutupdate4 (x : layoutupdate4) := (layoutupdate4_lou_type x, layoutupdate4_lou_body x).
Definition make_layoutupdate4 (t : (Z * (ptr * Z))) : layoutupdate4 := mklayoutupdate4 t.1 t.2.
#[global] Instance layoutupdate4_iso : Iso fields_layoutupdate4 make_layoutupdate4. Proof. iso. Qed.
Definition zdr_layoutupdate4 : proc layoutupdate4 := zdr_via fields_layoutupdate4 make_layoutupdate4 (zdr_layouttype4 >>>
  zdr_bytes).
#[global] Instance layoutupdate4_codec : Codec zdr_layoutupdate4. Proof. codec zdr_layoutupdate4. Defined.
#[global] Instance layoutupdate4_blank : Blank zdr_layoutupdate4 zero_layoutupdate4. Proof. blank zdr_layoutupdate4. Qed.

Record device_addr4 := mkdevice_addr4 {
  device_addr4_da_layout_type : Z; device_addr4_da_addr_body : ptr * Z
}.
Definition zero_device_addr4 : device_addr4 := mkdevice_addr4 0 (NULL, 0).
Definition fields_device_addr4 (x : device_addr4) := (device_addr4_da_layout_type x, device_addr4_da_addr_body x).
Definition make_device_addr4 (t : (Z * (ptr * Z))) : device_addr4 := mkdevice_addr4 t.1 t.2.
#[global] Instance device_addr4_iso : Iso fields_device_addr4 make_device_addr4. Proof. iso. Qed.
Definition zdr_device_addr4 : proc device_addr4 := zdr_via fields_device_addr4 make_device_addr4 (zdr_layouttype4 >>>
  zdr_bytes).
#[global] Instance device_addr4_codec : Codec zdr_device_addr4. Proof. codec zdr_device_addr4. Defined.
#[global] Instance device_addr4_blank : Blank zdr_device_addr4 zero_device_addr4. Proof. blank zdr_device_addr4. Qed.

Record nfstime4 := mknfstime4 {
  nfstime4_seconds : Z; nfstime4_nseconds : Z
}.
Definition zero_nfstime4 : nfstime4 := mknfstime4 0 0.
Definition fields_nfstime4 (x : nfstime4) := (nfstime4_seconds x, nfstime4_nseconds x).
Definition make_nfstime4 (t : (Z * Z)) : nfstime4 := mknfstime4 t.1 t.2.
#[global] Instance nfstime4_iso : Iso fields_nfstime4 make_nfstime4. Proof. iso. Qed.
Definition zdr_nfstime4 : proc nfstime4 := zdr_via fields_nfstime4 make_nfstime4 (zdr_int64_t >>> zdr_u_int).
#[global] Instance nfstime4_codec : Codec zdr_nfstime4. Proof. codec zdr_nfstime4. Defined.
#[global] Instance nfstime4_blank : Blank zdr_nfstime4 zero_nfstime4. Proof. blank zdr_nfstime4. Qed.
#[global] Instance nfstime4_safe : Safe zdr_nfstime4. Proof. safe zdr_nfstime4. Qed.

Definition zdr_time_how4 : proc Z := zdr_enum.
Definition zdr_layoutiomode4 : proc Z := zdr_enum.
Record layout_content4 := mklayout_content4 {
  layout_content4_loc_type : Z; layout_content4_loc_body : ptr * Z
}.
Definition zero_layout_content4 : layout_content4 := mklayout_content4 0 (NULL, 0).
Definition fields_layout_content4 (x : layout_content4) := (layout_content4_loc_type x, layout_content4_loc_body x).
Definition make_layout_content4 (t : (Z * (ptr * Z))) : layout_content4 := mklayout_content4 t.1 t.2.
#[global] Instance layout_content4_iso : Iso fields_layout_content4 make_layout_content4. Proof. iso. Qed.
Definition zdr_layout_content4 : proc layout_content4 := zdr_via fields_layout_content4 make_layout_content4
  (zdr_layouttype4 >>> zdr_bytes).
#[global] Instance layout_content4_codec : Codec zdr_layout_content4. Proof. codec zdr_layout_content4. Defined.
#[global] Instance layout_content4_blank : Blank zdr_layout_content4 zero_layout_content4. Proof. blank
  zdr_layout_content4. Qed.

Record layout4 := mklayout4 {
  layout4_lo_offset : Z; layout4_lo_length : Z; layout4_lo_iomode : Z; layout4_lo_content : layout_content4
}.
Definition zero_layout4 : layout4 := mklayout4 0 0 0 zero_layout_content4.
Definition fields_layout4 (x : layout4) := (layout4_lo_offset x, (layout4_lo_length x, (layout4_lo_iomode x,
  layout4_lo_content x))).
Definition make_layout4 (t : (Z * (Z * (Z * layout_content4)))) : layout4 := mklayout4 t.1 t.2.1 t.2.2.1 t.2.2.2.
#[global] Instance layout4_iso : Iso fields_layout4 make_layout4. Proof. iso. Qed.
Definition zdr_layout4 : proc layout4 := zdr_via fields_layout4 make_layout4 (zdr_offset4 >>> zdr_length4 >>>
  zdr_layoutiomode4 >>> zdr_layout_content4).
#[global] Instance layout4_codec : Codec zdr_layout4. Proof. codec zdr_layout4. Defined.
#[global] Instance layout4_blank : Blank zdr_layout4 zero_layout4. Proof. blank zdr_layout4. Qed.

Inductive settime4_union := settime4_cleared | settime4_time (x : nfstime4).
Record settime4 := mksettime4 { settime4_set_it : Z; settime4_u : settime4_union }.
Definition zero_settime4 : settime4 := mksettime4 0 settime4_cleared.
Definition fields_settime4 (x : settime4) := (settime4_set_it x, settime4_u x).
Definition make_settime4 (t : (Z * settime4_union)) : settime4 := mksettime4 t.1 t.2.
#[global] Instance settime4_iso : Iso fields_settime4 make_settime4. Proof. iso. Qed.
Definition as_settime4_time (u : settime4_union) : nfstime4 := match u with settime4_time x => x | _ => zero_nfstime4 end.
#[global] Instance settime4_time_member : Variant as_settime4_time settime4_time. Proof. done. Qed.
Definition case_settime4 (d : Z) : proc settime4_union :=
  if (d =? SET_TO_CLIENT_TIME4) then zdr_member as_settime4_time settime4_time zdr_nfstime4
  else zdr_void.
#[global] Instance case_settime4_codec d : Codec (case_settime4 d). Proof. codec case_settime4. Defined.
#[global] Instance case_settime4_blank d : Blank (case_settime4 d) settime4_cleared. Proof. blank case_settime4. Qed.
#[global] Instance case_settime4_safe d : Safe (case_settime4 d). Proof. safe case_settime4. Qed.
Definition zdr_settime4 : proc settime4 := zdr_via fields_settime4 make_settime4 (zdr_dseq zdr_time_how4 (case_settime4)).
#[global] Instance settime4_codec : Codec zdr_settime4. Proof. codec zdr_settime4. Defined.
#[global] Instance settime4_blank : Blank zdr_settime4 zero_settime4. Proof. blank zdr_settime4. Qed.
#[global] Instance settime4_safe : Safe zdr_settime4. Proof. safe zdr_settime4. Qed.

Definition zdr_nfs_fh4 : proc (ptr * Z) := zdr_bytes.
Record fsid4 := mkfsid4 {
  fsid4_major : Z; fsid4_minor : Z
}.
Definition zero_fsid4 : fsid4 := mkfsid4 0 0.
Definition fields_fsid4 (x : fsid4) := (fsid4_major x, fsid4_minor x).
Definition make_fsid4 (t : (Z * Z)) : fsid4 := mkfsid4 t.1 t.2.
#[global] Instance fsid4_iso : Iso fields_fsid4 make_fsid4. Proof. iso. Qed.
Definition zdr_fsid4 : proc fsid4 := zdr_via fields_fsid4 make_fsid4 (zdr_uint64_t >>> zdr_uint64_t).
#[global] Instance fsid4_codec : Codec zdr_fsid4. Proof. codec zdr_fsid4. Defined.
#[global] Instance fsid4_blank : Blank zdr_fsid4 zero_fsid4. Proof. blank zdr_fsid4. Qed.
#[global] Instance fsid4_safe : Safe zdr_fsid4. Proof. safe zdr_fsid4. Qed.

Record fs_location4 := mkfs_location4 {
  fs_location4_server : Z * list (ptr * Z); fs_location4_rootpath : Z * list (ptr * Z)
}.
Definition zero_fs_location4 : fs_location4 := mkfs_location4 (0, []) (0, []).
Definition fields_fs_location4 (x : fs_location4) := (fs_location4_server x, fs_location4_rootpath x).
Definition make_fs_location4 (t : ((Z * list (ptr * Z)) * (Z * list (ptr * Z)))) : fs_location4 := mkfs_location4 t.1 t.2.
#[global] Instance fs_location4_iso : Iso fields_fs_location4 make_fs_location4. Proof. iso. Qed.
Definition zdr_fs_location4 : proc fs_location4 := zdr_via fields_fs_location4 make_fs_location4 ((zdr_array (NULL, 0) 16
  zdr_utf8str_cis) >>> zdr_pathname4).
#[global] Instance fs_location4_codec : Codec zdr_fs_location4. Proof. codec zdr_fs_location4. Defined.
#[global] Instance fs_location4_blank : Blank zdr_fs_location4 zero_fs_location4. Proof. blank zdr_fs_location4. Qed.

Record fs_locations4 := mkfs_locations4 {
  fs_locations4_fs_root : Z * list (ptr * Z); fs_locations4_locations : Z * list fs_location4
}.
Definition zero_fs_locations4 : fs_locations4 := mkfs_locations4 (0, []) (0, []).
Definition fields_fs_locations4 (x : fs_locations4) := (fs_locations4_fs_root x, fs_locations4_locations x).
Definition make_fs_locations4 (t : ((Z * list (ptr * Z)) * (Z * list fs_location4))) : fs_locations4 := mkfs_locations4
  t.1 t.2.
#[global] Instance fs_locations4_iso : Iso fields_fs_locations4 make_fs_locations4. Proof. iso. Qed.
Definition zdr_fs_locations4 : proc fs_locations4 := zdr_via fields_fs_locations4 make_fs_locations4 (zdr_pathname4 >>>
  (zdr_array zero_fs_location4 32 zdr_fs_location4)).
#[global] Instance fs_locations4_codec : Codec zdr_fs_locations4. Proof. codec zdr_fs_locations4. Defined.
#[global] Instance fs_locations4_blank : Blank zdr_fs_locations4 zero_fs_locations4. Proof. blank zdr_fs_locations4. Qed.

Definition zdr_acetype4 : proc Z := zdr_u_int.
Definition zdr_aceflag4 : proc Z := zdr_u_int.
Definition zdr_acemask4 : proc Z := zdr_u_int.
Record nfsace4 := mknfsace4 {
  nfsace4_type : Z; nfsace4_flag : Z; nfsace4_access_mask : Z; nfsace4_who : ptr * Z
}.
Definition zero_nfsace4 : nfsace4 := mknfsace4 0 0 0 (NULL, 0).
Definition fields_nfsace4 (x : nfsace4) := (nfsace4_type x, (nfsace4_flag x, (nfsace4_access_mask x, nfsace4_who x))).
Definition make_nfsace4 (t : (Z * (Z * (Z * (ptr * Z))))) : nfsace4 := mknfsace4 t.1 t.2.1 t.2.2.1 t.2.2.2.
#[global] Instance nfsace4_iso : Iso fields_nfsace4 make_nfsace4. Proof. iso. Qed.
Definition zdr_nfsace4 : proc nfsace4 := zdr_via fields_nfsace4 make_nfsace4 (zdr_acetype4 >>> zdr_aceflag4 >>>
  zdr_acemask4 >>> zdr_utf8str_mixed).
#[global] Instance nfsace4_codec : Codec zdr_nfsace4. Proof. codec zdr_nfsace4. Defined.
#[global] Instance nfsace4_blank : Blank zdr_nfsace4 zero_nfsace4. Proof. blank zdr_nfsace4. Qed.

Record specdata4 := mkspecdata4 {
  specdata4_specdata1 : Z; specdata4_specdata2 : Z
}.
Definition zero_specdata4 : specdata4 := mkspecdata4 0 0.
Definition fields_specdata4 (x : specdata4) := (specdata4_specdata1 x, specdata4_specdata2 x).
Definition make_specdata4 (t : (Z * Z)) : specdata4 := mkspecdata4 t.1 t.2.
#[global] Instance specdata4_iso : Iso fields_specdata4 make_specdata4. Proof. iso. Qed.
Definition zdr_specdata4 : proc specdata4 := zdr_via fields_specdata4 make_specdata4 (zdr_u_int >>> zdr_u_int).
#[global] Instance specdata4_codec : Codec zdr_specdata4. Proof. codec zdr_specdata4. Defined.
#[global] Instance specdata4_blank : Blank zdr_specdata4 zero_specdata4. Proof. blank zdr_specdata4. Qed.
#[global] Instance specdata4_safe : Safe zdr_specdata4. Proof. safe zdr_specdata4. Qed.

Definition zdr_fattr4_supported_attrs : proc (Z * list Z) := zdr_bitmap4.
Definition zdr_fattr4_type : proc Z := zdr_nfs_ftype4.
Definition zdr_fattr4_fh_expire_type : proc Z := zdr_u_int.
Definition zdr_fattr4_change : proc Z := zdr_changeid4.
Definition zdr_fattr4_size : proc Z := zdr_uint64_t.
Definition zdr_fattr4_link_support : proc Z := zdr_bool.
Definition zdr_fattr4_symlink_support : proc Z := zdr_bool.
Definition zdr_fattr4_named_attr : proc Z := zdr_bool.
Definition zdr_fattr4_fsid : proc fsid4 := zdr_fsid4.
Definition zdr_fattr4_unique_handles : proc Z := zdr_bool.
Definition zdr_fattr4_lease_time : proc Z := zdr_u_int.
Definition zdr_fattr4_rdattr_error : proc Z := zdr_nfsstat4.
Definition zdr_fattr4_acl : proc (Z * list nfsace4) := zdr_array zero_nfsace4 32 zdr_nfsace4.
Definition zdr_fattr4_aclsupport : proc Z := zdr_u_int.
Definition zdr_fattr4_archive : proc Z := zdr_bool.
Definition zdr_fattr4_cansettime : proc Z := zdr_bool.
Definition zdr_fattr4_case_insensitive : proc Z := zdr_bool.
Definition zdr_fattr4_case_preserving : proc Z := zdr_bool.
Definition zdr_fattr4_chown_restricted : proc Z := zdr_bool.
Definition zdr_fattr4_fileid : proc Z := zdr_uint64_t.
Definition zdr_fattr4_files_avail : proc Z := zdr_uint64_t.
Definition zdr_fattr4_filehandle : proc (ptr * Z) := zdr_nfs_fh4.
Definition zdr_fattr4_files_free : proc Z := zdr_uint64_t.
Definition zdr_fattr4_files_total : proc Z := zdr_uint64_t.
Definition zdr_fattr4_fs_locations : proc fs_locations4 := zdr_fs_locations4.
Definition zdr_fattr4_hidden : proc Z := zdr_bool.
Definition zdr_fattr4_homogeneous : proc Z := zdr_bool.
Definition zdr_fattr4_maxfilesize : proc Z := zdr_uint64_t.
Definition zdr_fattr4_maxlink : proc Z := zdr_u_int.
Definition zdr_fattr4_maxname : proc Z := zdr_u_int.
Definition zdr_fattr4_maxread : proc Z := zdr_uint64_t.
Definition zdr_fattr4_maxwrite : proc Z := zdr_uint64_t.
Definition zdr_fattr4_mimetype : proc (ptr * Z) := zdr_utf8str_cs.
Definition zdr_fattr4_mode : proc Z := zdr_mode4.
Definition zdr_fattr4_mounted_on_fileid : proc Z := zdr_uint64_t.
Definition zdr_fattr4_no_trunc : proc Z := zdr_bool.
Definition zdr_fattr4_numlinks : proc Z := zdr_u_int.
Definition zdr_fattr4_owner : proc (ptr * Z) := zdr_utf8str_mixed.
Definition zdr_fattr4_owner_group : proc (ptr * Z) := zdr_utf8str_mixed.
Definition zdr_fattr4_quota_avail_hard : proc Z := zdr_uint64_t.
Definition zdr_fattr4_quota_avail_soft : proc Z := zdr_uint64_t.
Definition zdr_fattr4_quota_used : proc Z := zdr_uint64_t.
Definition zdr_fattr4_rawdev : proc specdata4 := zdr_specdata4.
Definition zdr_fattr4_space_avail : proc Z := zdr_uint64_t.
Definition zdr_fattr4_space_free : proc Z := zdr_uint64_t.
Definition zdr_fattr4_space_total : proc Z := zdr_uint64_t.
Definition zdr_fattr4_space_used : proc Z := zdr_uint64_t.
Definition zdr_fattr4_system : proc Z := zdr_bool.
Definition zdr_fattr4_time_access : proc nfstime4 := zdr_nfstime4.
Definition zdr_fattr4_time_access_set : proc settime4 := zdr_settime4.
Definition zdr_fattr4_time_backup : proc nfstime4 := zdr_nfstime4.
Definition zdr_fattr4_time_create : proc nfstime4 := zdr_nfstime4.
Definition zdr_fattr4_time_delta : proc nfstime4 := zdr_nfstime4.
Definition zdr_fattr4_time_metadata : proc nfstime4 := zdr_nfstime4.
Definition zdr_fattr4_time_modify : proc nfstime4 := zdr_nfstime4.
Definition zdr_fattr4_time_modify_set : proc settime4 := zdr_settime4.
Definition zdr_attrlist4 : proc (ptr * Z) := zdr_bytes.
Record fattr4 := mkfattr4 {
  fattr4_attrmask : Z * list Z; fattr4_attr_vals : ptr * Z
}.
Definition zero_fattr4 : fattr4 := mkfattr4 (0, []) (NULL, 0).
Definition fields_fattr4 (x : fattr4) := (fattr4_attrmask x, fattr4_attr_vals x).
Definition make_fattr4 (t : ((Z * list Z) * (ptr * Z))) : fattr4 := mkfattr4 t.1 t.2.
#[global] Instance fattr4_iso : Iso fields_fattr4 make_fattr4. Proof. iso. Qed.
Definition zdr_fattr4 : proc fattr4 := zdr_via fields_fattr4 make_fattr4 (zdr_bitmap4 >>> zdr_attrlist4).
#[global] Instance fattr4_codec : Codec zdr_fattr4. Proof. codec zdr_fattr4. Defined.
#[global] Instance fattr4_blank : Blank zdr_fattr4 zero_fattr4. Proof. blank zdr_fattr4. Qed.

Record change_info4 := mkchange_info4 {
  change_info4_atomic : Z; change_info4_before : Z; change_info4_after : Z
}.
Definition zero_change_info4 : change_info4 := mkchange_info4 0 0 0.
Definition fields_change_info4 (x : change_info4) := (change_info4_atomic x, (change_info4_before x, change_info4_after x)).
Definition make_change_info4 (t : (Z * (Z * Z))) : change_info4 := mkchange_info4 t.1 t.2.1 t.2.2.
#[global] Instance change_info4_iso : Iso fields_change_info4 make_change_info4. Proof. iso. Qed.
Definition zdr_change_info4 : proc change_info4 := zdr_via fields_change_info4 make_change_info4 (zdr_bool >>>
  zdr_changeid4 >>> zdr_changeid4).
#[global] Instance change_info4_codec : Codec zdr_change_info4. Proof. codec zdr_change_info4. Defined.
#[global] Instance change_info4_blank : Blank zdr_change_info4 zero_change_info4. Proof. blank zdr_change_info4. Qed.
#[global] Instance change_info4_safe : Safe zdr_change_info4. Proof. safe zdr_change_info4. Qed.

Record clientaddr4 := mkclientaddr4 {
  clientaddr4_r_netid : ptr; clientaddr4_r_addr : ptr
}.
Definition zero_clientaddr4 : clientaddr4 := mkclientaddr4 NULL NULL.
Definition fields_clientaddr4 (x : clientaddr4) := (clientaddr4_r_netid x, clientaddr4_r_addr x).
Definition make_clientaddr4 (t : (ptr * ptr)) : clientaddr4 := mkclientaddr4 t.1 t.2.
#[global] Instance clientaddr4_iso : Iso fields_clientaddr4 make_clientaddr4. Proof. iso. Qed.
Definition zdr_clientaddr4 : proc clientaddr4 := zdr_via fields_clientaddr4 make_clientaddr4 (zdr_string >>> zdr_string).
#[global] Instance clientaddr4_codec : Codec zdr_clientaddr4. Proof. codec zdr_clientaddr4. Defined.
#[global] Instance clientaddr4_blank : Blank zdr_clientaddr4 zero_clientaddr4. Proof. blank zdr_clientaddr4. Qed.

Record cb_client4 := mkcb_client4 {
  cb_client4_cb_program : Z; cb_client4_cb_location : clientaddr4
}.
Definition zero_cb_client4 : cb_client4 := mkcb_client4 0 zero_clientaddr4.
Definition fields_cb_client4 (x : cb_client4) := (cb_client4_cb_program x, cb_client4_cb_location x).
Definition make_cb_client4 (t : (Z * clientaddr4)) : cb_client4 := mkcb_client4 t.1 t.2.
#[global] Instance cb_client4_iso : Iso fields_cb_client4 make_cb_client4. Proof. iso. Qed.
Definition zdr_cb_client4 : proc cb_client4 := zdr_via fields_cb_client4 make_cb_client4 (zdr_u_int >>> zdr_clientaddr4).
#[global] Instance cb_client4_codec : Codec zdr_cb_client4. Proof. codec zdr_cb_client4. Defined.
#[global] Instance cb_client4_blank : Blank zdr_cb_client4 zero_cb_client4. Proof. blank zdr_cb_client4. Qed.

Record stateid4 := mkstateid4 {
  stateid4_seqid : Z; stateid4_other : ptr
}.
Definition zero_stateid4 : stateid4 := mkstateid4 0 (Heap (zeros 12)).
Definition fields_stateid4 (x : stateid4) := (stateid4_seqid x, stateid4_other x).
Definition make_stateid4 (t : (Z * ptr)) : stateid4 := mkstateid4 t.1 t.2.
#[global] Instance stateid4_iso : Iso fields_stateid4 make_stateid4. Proof. iso. Qed.
Definition zdr_stateid4 : proc stateid4 := zdr_via fields_stateid4 make_stateid4 (zdr_u_int >>> (zdr_opaque 12)).
#[global] Instance stateid4_codec : Codec zdr_stateid4. Proof. codec zdr_stateid4. Defined.
#[global] Instance stateid4_blank : Blank zdr_stateid4 zero_stateid4. Proof. blank zdr_stateid4. Qed.

Record nfs_client_id4 := mknfs_client_id4 {
  nfs_client_id4_verifier : ptr; nfs_client_id4_id : ptr * Z
}.
Definition zero_nfs_client_id4 : nfs_client_id4 := mknfs_client_id4 (Heap (zeros 8)) (NULL, 0).
Definition fields_nfs_client_id4 (x : nfs_client_id4) := (nfs_client_id4_verifier x, nfs_client_id4_id x).
Definition make_nfs_client_id4 (t : (ptr * (ptr * Z))) : nfs_client_id4 := mknfs_client_id4 t.1 t.2.
#[global] Instance nfs_client_id4_iso : Iso fields_nfs_client_id4 make_nfs_client_id4. Proof. iso. Qed.
Definition zdr_nfs_client_id4 : proc nfs_client_id4 := zdr_via fields_nfs_client_id4 make_nfs_client_id4 (zdr_verifier4
  >>> zdr_bytes).
#[global] Instance nfs_client_id4_codec : Codec zdr_nfs_client_id4. Proof. codec zdr_nfs_client_id4. Defined.
#[global] Instance nfs_client_id4_blank : Blank zdr_nfs_client_id4 zero_nfs_client_id4. Proof. blank zdr_nfs_client_id4. Qed.

Record open_owner4 := mkopen_owner4 {
  open_owner4_clientid : Z; open_owner4_owner : ptr * Z
}.
Definition zero_open_owner4 : open_owner4 := mkopen_owner4 0 (NULL, 0).
Definition fields_open_owner4 (x : open_owner4) := (open_owner4_clientid x, open_owner4_owner x).
Definition make_open_owner4 (t : (Z * (ptr * Z))) : open_owner4 := mkopen_owner4 t.1 t.2.
#[global] Instance open_owner4_iso : Iso fields_open_owner4 make_open_owner4. Proof. iso. Qed.
Definition zdr_open_owner4 : proc open_owner4 := zdr_via fields_open_owner4 make_open_owner4 (zdr_clientid4 >>> zdr_bytes).
#[global] Instance open_owner4_codec : Codec zdr_open_owner4. Proof. codec zdr_open_owner4. Defined.
#[global] Instance open_owner4_blank : Blank zdr_open_owner4 zero_open_owner4. Proof. blank zdr_open_owner4. Qed.

Record lock_owner4 := mklock_owner4 {
  lock_owner4_clientid : Z; lock_owner4_owner : ptr * Z
}.
Definition zero_lock_owner4 : lock_owner4 := mklock_owner4 0 (NULL, 0).
Definition fields_lock_owner4 (x : lock_owner4) := (lock_owner4_clientid x, lock_owner4_owner x).
Definition make_lock_owner4 (t : (Z * (ptr * Z))) : lock_owner4 := mklock_owner4 t.1 t.2.
#[global] Instance lock_owner4_iso : Iso fields_lock_owner4 make_lock_owner4. Proof. iso. Qed.
Definition zdr_lock_owner4 : proc lock_owner4 := zdr_via fields_lock_owner4 make_lock_owner4 (zdr_clientid4 >>> zdr_bytes).
#[global] Instance lock_owner4_codec : Codec zdr_lock_owner4. Proof. codec zdr_lock_owner4. Defined.
#[global] Instance lock_owner4_blank : Blank zdr_lock_owner4 zero_lock_owner4. Proof. blank zdr_lock_owner4. Qed.

Definition zdr_nfs_lock_type4 : proc Z := zdr_enum.
Record client_owner4 := mkclient_owner4 {
  client_owner4_co_verifier : ptr; client_owner4_co_ownerid : ptr * Z
}.
Definition zero_client_owner4 : client_owner4 := mkclient_owner4 (Heap (zeros 8)) (NULL, 0).
Definition fields_client_owner4 (x : client_owner4) := (client_owner4_co_verifier x, client_owner4_co_ownerid x).
Definition make_client_owner4 (t : (ptr * (ptr * Z))) : client_owner4 := mkclient_owner4 t.1 t.2.
#[global] Instance client_owner4_iso : Iso fields_client_owner4 make_client_owner4. Proof. iso. Qed.
Definition zdr_client_owner4 : proc client_owner4 := zdr_via fields_client_owner4 make_client_owner4 (zdr_verifier4 >>>
  zdr_bytes).
#[global] Instance client_owner4_codec : Codec zdr_client_owner4. Proof. codec zdr_client_owner4. Defined.
#[global] Instance client_owner4_blank : Blank zdr_client_owner4 zero_client_owner4. Proof. blank zdr_client_owner4. Qed.

Record server_owner4 := mkserver_owner4 {
  server_owner4_so_minor_id : Z; server_owner4_so_major_id : ptr * Z
}.
Definition zero_server_owner4 : server_owner4 := mkserver_owner4 0 (NULL, 0).
Definition fields_server_owner4 (x : server_owner4) := (server_owner4_so_minor_id x, server_owner4_so_major_id x).
Definition make_server_owner4 (t : (Z * (ptr * Z))) : server_owner4 := mkserver_owner4 t.1 t.2.
#[global] Instance server_owner4_iso : Iso fields_server_owner4 make_server_owner4. Proof. iso. Qed.
Definition zdr_server_owner4 : proc server_owner4 := zdr_via fields_server_owner4 make_server_owner4 (zdr_uint64_t >>>
  zdr_bytes).
#[global] Instance server_owner4_codec : Codec zdr_server_owner4. Proof. codec zdr_server_owner4. Defined.
#[global] Instance server_owner4_blank : Blank zdr_server_owner4 zero_server_owner4. Proof. blank zdr_server_owner4. Qed.

Record nfs_impl_id4 := mknfs_impl_id4 {
  nfs_impl_id4_nii_domain : ptr * Z; nfs_impl_id4_nii_name : ptr * Z; nfs_impl_id4_nii_date : nfstime4
}.
Definition zero_nfs_impl_id4 : nfs_impl_id4 := mknfs_impl_id4 (NULL, 0) (NULL, 0) zero_nfstime4.
Definition fields_nfs_impl_id4 (x : nfs_impl_id4) := (nfs_impl_id4_nii_domain x, (nfs_impl_id4_nii_name x,
  nfs_impl_id4_nii_date x)).
Definition make_nfs_impl_id4 (t : ((ptr * Z) * ((ptr * Z) * nfstime4))) : nfs_impl_id4 := mknfs_impl_id4 t.1 t.2.1 t.2.2.
#[global] Instance nfs_impl_id4_iso : Iso fields_nfs_impl_id4 make_nfs_impl_id4. Proof. iso. Qed.
Definition zdr_nfs_impl_id4 : proc nfs_impl_id4 := zdr_via fields_nfs_impl_id4 make_nfs_impl_id4 (zdr_utf8str_cis >>>
  zdr_utf8str_cs >>> zdr_nfstime4).
#[global] Instance nfs_impl_id4_codec : Codec zdr_nfs_impl_id4. Proof. codec zdr_nfs_impl_id4. Defined.
#[global] Instance nfs_impl_id4_blank : Blank zdr_nfs_impl_id4 zero_nfs_impl_id4. Proof. blank zdr_nfs_impl_id4. Qed.

Record ACCESS4args := mkACCESS4args {
  ACCESS4args_access : Z
}.
Definition zero_ACCESS4args : ACCESS4args := mkACCESS4args 0.
Definition fields_ACCESS4args (x : ACCESS4args) := ACCESS4args_access x.
Definition make_ACCESS4args (t : Z) : ACCESS4args := mkACCESS4args t.
#[global] Instance ACCESS4args_iso : Iso fields_ACCESS4args make_ACCESS4args. Proof. iso. Qed.
Definition zdr_ACCESS4args : proc ACCESS4args := zdr_via fields_ACCESS4args make_ACCESS4args (zdr_u_int).
#[global] Instance ACCESS4args_codec : Codec zdr_ACCESS4args. Proof. codec zdr_ACCESS4args. Defined.
#[global] Instance ACCESS4args_blank : Blank zdr_ACCESS4args zero_ACCESS4args. Proof. blank zdr_ACCESS4args. Qed.
#[global] Instance ACCESS4args_safe : Safe zdr_ACCESS4args. Proof. safe zdr_ACCESS4args. Qed.

Record ACCESS4resok := mkACCESS4resok {
  ACCESS4resok_supported : Z; ACCESS4resok_access : Z
}.
Definition zero_ACCESS4resok : ACCESS4resok := mkACCESS4resok 0 0.
Definition fields_ACCESS4resok (x : ACCESS4resok) := (ACCESS4resok_supported x, ACCESS4resok_access x).
Definition make_ACCESS4resok (t : (Z * Z)) : ACCESS4resok := mkACCESS4resok t.1 t.2.
#[global] Instance ACCESS4resok_iso : Iso fields_ACCESS4resok make_ACCESS4resok. Proof. iso. Qed.
Definition zdr_ACCESS4resok : proc ACCESS4resok := zdr_via fields_ACCESS4resok make_ACCESS4resok (zdr_u_int >>> zdr_u_int).
#[global] Instance ACCESS4resok_codec : Codec zdr_ACCESS4resok. Proof. codec zdr_ACCESS4resok. Defined.
#[global] Instance ACCESS4resok_blank : Blank zdr_ACCESS4resok zero_ACCESS4resok. Proof. blank zdr_ACCESS4resok. Qed.
#[global] Instance ACCESS4resok_safe : Safe zdr_ACCESS4resok. Proof. safe zdr_ACCESS4resok. Qed.

Inductive ACCESS4res_union := ACCESS4res_cleared | ACCESS4res_resok4 (x : ACCESS4resok).
Record ACCESS4res := mkACCESS4res { ACCESS4res_status : Z; ACCESS4res_u : ACCESS4res_union }.
Definition zero_ACCESS4res : ACCESS4res := mkACCESS4res 0 ACCESS4res_cleared.
Definition fields_ACCESS4res (x : ACCESS4res) := (ACCESS4res_status x, ACCESS4res_u x).
Definition make_ACCESS4res (t : (Z * ACCESS4res_union)) : ACCESS4res := mkACCESS4res t.1 t.2.
#[global] Instance ACCESS4res_iso : Iso fields_ACCESS4res make_ACCESS4res. Proof. iso. Qed.
Definition as_ACCESS4res_resok4 (u : ACCESS4res_union) : ACCESS4resok := match u with ACCESS4res_resok4 x => x | _ =>
  zero_ACCESS4resok end.
#[global] Instance ACCESS4res_resok4_member : Variant as_ACCESS4res_resok4 ACCESS4res_resok4. Proof. done. Qed.
Definition case_ACCESS4res (d : Z) : proc ACCESS4res_union :=
  if (d =? NFS4_OK) then zdr_member as_ACCESS4res_resok4 ACCESS4res_resok4 zdr_ACCESS4resok
  else zdr_void.
#[global] Instance case_ACCESS4res_codec d : Codec (case_ACCESS4res d). Proof. codec case_ACCESS4res. Defined.
#[global] Instance case_ACCESS4res_blank d : Blank (case_ACCESS4res d) ACCESS4res_cleared. Proof. blank case_ACCESS4res. Qed.
#[global] Instance case_ACCESS4res_safe d : Safe (case_ACCESS4res d). Proof. safe case_ACCESS4res. Qed.
Definition zdr_ACCESS4res : proc ACCESS4res := zdr_via fields_ACCESS4res make_ACCESS4res (zdr_dseq zdr_nfsstat4
  (case_ACCESS4res)).
#[global] Instance ACCESS4res_codec : Codec zdr_ACCESS4res. Proof. codec zdr_ACCESS4res. Defined.
#[global] Instance ACCESS4res_blank : Blank zdr_ACCESS4res zero_ACCESS4res. Proof. blank zdr_ACCESS4res. Qed.
#[global] Instance ACCESS4res_safe : Safe zdr_ACCESS4res. Proof. safe zdr_ACCESS4res. Qed.

Record CLOSE4args := mkCLOSE4args {
  CLOSE4args_seqid : Z; CLOSE4args_open_stateid : stateid4
}.
Definition zero_CLOSE4args : CLOSE4args := mkCLOSE4args 0 zero_stateid4.
Definition fields_CLOSE4args (x : CLOSE4args) := (CLOSE4args_seqid x, CLOSE4args_open_stateid x).
Definition make_CLOSE4args (t : (Z * stateid4)) : CLOSE4args := mkCLOSE4args t.1 t.2.
#[global] Instance CLOSE4args_iso : Iso fields_CLOSE4args make_CLOSE4args. Proof. iso. Qed.
Definition zdr_CLOSE4args : proc CLOSE4args := zdr_via fields_CLOSE4args make_CLOSE4args (zdr_seqid4 >>> zdr_stateid4).
#[global] Instance CLOSE4args_codec : Codec zdr_CLOSE4args. Proof. codec zdr_CLOSE4args. Defined.
#[global] Instance CLOSE4args_blank : Blank zdr_CLOSE4args zero_CLOSE4args. Proof. blank zdr_CLOSE4args. Qed.

Inductive CLOSE4res_union := CLOSE4res_cleared | CLOSE4res_open_stateid (x : stateid4).
Record CLOSE4res := mkCLOSE4res { CLOSE4res_status : Z; CLOSE4res_u : CLOSE4res_union }.
Definition zero_CLOSE4res : CLOSE4res := mkCLOSE4res 0 CLOSE4res_cleared.
Definition fields_CLOSE4res (x : CLOSE4res) := (CLOSE4res_status x, CLOSE4res_u x).
Definition make_CLOSE4res (t : (Z * CLOSE4res_union)) : CLOSE4res := mkCLOSE4res t.1 t.2.
#[global] Instance CLOSE4res_iso : Iso fields_CLOSE4res make_CLOSE4res. Proof. iso. Qed.
Definition as_CLOSE4res_open_stateid (u : CLOSE4res_union) : stateid4 := match u with CLOSE4res_open_stateid x => x | _ =>
  zero_stateid4 end.
#[global] Instance CLOSE4res_open_stateid_member : Variant as_CLOSE4res_open_stateid CLOSE4res_open_stateid. Proof. done.
  Qed.
Definition case_CLOSE4res (d : Z) : proc CLOSE4res_union :=
  if (d =? NFS4_OK) then zdr_member as_CLOSE4res_open_stateid CLOSE4res_open_stateid zdr_stateid4
  else zdr_void.
#[global] Instance case_CLOSE4res_codec d : Codec (case_CLOSE4res d). Proof. codec case_CLOSE4res. Defined.
#[global] Instance case_CLOSE4res_blank d : Blank (case_CLOSE4res d) CLOSE4res_cleared. Proof. blank case_CLOSE4res. Qed.
Definition zdr_CLOSE4res : proc CLOSE4res := zdr_via fields_CLOSE4res make_CLOSE4res (zdr_dseq zdr_nfsstat4
  (case_CLOSE4res)).
#[global] Instance CLOSE4res_codec : Codec zdr_CLOSE4res. Proof. codec zdr_CLOSE4res. Defined.
#[global] Instance CLOSE4res_blank : Blank zdr_CLOSE4res zero_CLOSE4res. Proof. blank zdr_CLOSE4res. Qed.

Record COMMIT4args := mkCOMMIT4args {
  COMMIT4args_offset : Z; COMMIT4args_count : Z
}.
Definition zero_COMMIT4args : COMMIT4args := mkCOMMIT4args 0 0.
Definition fields_COMMIT4args (x : COMMIT4args) := (COMMIT4args_offset x, COMMIT4args_count x).
Definition make_COMMIT4args (t : (Z * Z)) : COMMIT4args := mkCOMMIT4args t.1 t.2.
#[global] Instance COMMIT4args_iso : Iso fields_COMMIT4args make_COMMIT4args. Proof. iso. Qed.
Definition zdr_COMMIT4args : proc COMMIT4args := zdr_via fields_COMMIT4args make_COMMIT4args (zdr_offset4 >>> zdr_count4).
#[global] Instance COMMIT4args_codec : Codec zdr_COMMIT4args. Proof. codec zdr_COMMIT4args. Defined.
#[global] Instance COMMIT4args_blank : Blank zdr_COMMIT4args zero_COMMIT4args. Proof. blank zdr_COMMIT4args. Qed.
#[global] Instance COMMIT4args_safe : Safe zdr_COMMIT4args. Proof. safe zdr_COMMIT4args. Qed.

Record COMMIT4resok := mkCOMMIT4resok {
  COMMIT4resok_writeverf : ptr
}.
Definition zero_COMMIT4resok : COMMIT4resok := mkCOMMIT4resok (Heap (zeros 8)).
Definition fields_COMMIT4resok (x : COMMIT4resok) := COMMIT4resok_writeverf x.
Definition make_COMMIT4resok (t : ptr) : COMMIT4resok := mkCOMMIT4resok t.
#[global] Instance COMMIT4resok_iso : Iso fields_COMMIT4resok make_COMMIT4resok. Proof. iso. Qed.
Definition zdr_COMMIT4resok : proc COMMIT4resok := zdr_via fields_COMMIT4resok make_COMMIT4resok (zdr_verifier4).
#[global] Instance COMMIT4resok_codec : Codec zdr_COMMIT4resok. Proof. codec zdr_COMMIT4resok. Defined.
#[global] Instance COMMIT4resok_blank : Blank zdr_COMMIT4resok zero_COMMIT4resok. Proof. blank zdr_COMMIT4resok. Qed.

Inductive COMMIT4res_union := COMMIT4res_cleared | COMMIT4res_resok4 (x : COMMIT4resok).
Record COMMIT4res := mkCOMMIT4res { COMMIT4res_status : Z; COMMIT4res_u : COMMIT4res_union }.
Definition zero_COMMIT4res : COMMIT4res := mkCOMMIT4res 0 COMMIT4res_cleared.
Definition fields_COMMIT4res (x : COMMIT4res) := (COMMIT4res_status x, COMMIT4res_u x).
Definition make_COMMIT4res (t : (Z * COMMIT4res_union)) : COMMIT4res := mkCOMMIT4res t.1 t.2.
#[global] Instance COMMIT4res_iso : Iso fields_COMMIT4res make_COMMIT4res. Proof. iso. Qed.
Definition as_COMMIT4res_resok4 (u : COMMIT4res_union) : COMMIT4resok := match u with COMMIT4res_resok4 x => x | _ =>
  zero_COMMIT4resok end.
#[global] Instance COMMIT4res_resok4_member : Variant as_COMMIT4res_resok4 COMMIT4res_resok4. Proof. done. Qed.
Definition case_COMMIT4res (d : Z) : proc COMMIT4res_union :=
  if (d =? NFS4_OK) then zdr_member as_COMMIT4res_resok4 COMMIT4res_resok4 zdr_COMMIT4resok
  else zdr_void.
#[global] Instance case_COMMIT4res_codec d : Codec (case_COMMIT4res d). Proof. codec case_COMMIT4res. Defined.
#[global] Instance case_COMMIT4res_blank d : Blank (case_COMMIT4res d) COMMIT4res_cleared. Proof. blank case_COMMIT4res. Qed.
Definition zdr_COMMIT4res : proc COMMIT4res := zdr_via fields_COMMIT4res make_COMMIT4res (zdr_dseq zdr_nfsstat4
  (case_COMMIT4res)).
#[global] Instance COMMIT4res_codec : Codec zdr_COMMIT4res. Proof. codec zdr_COMMIT4res. Defined.
#[global] Instance COMMIT4res_blank : Blank zdr_COMMIT4res zero_COMMIT4res. Proof. blank zdr_COMMIT4res. Qed.

Inductive createtype4_union := createtype4_cleared | createtype4_linkdata (x : ptr * Z) | createtype4_devdata (x :
  specdata4).
Record createtype4 := mkcreatetype4 { createtype4_type : Z; createtype4_u : createtype4_union }.
Definition zero_createtype4 : createtype4 := mkcreatetype4 0 createtype4_cleared.
Definition fields_createtype4 (x : createtype4) := (createtype4_type x, createtype4_u x).
Definition make_createtype4 (t : (Z * createtype4_union)) : createtype4 := mkcreatetype4 t.1 t.2.
#[global] Instance createtype4_iso : Iso fields_createtype4 make_createtype4. Proof. iso. Qed.
Definition as_createtype4_linkdata (u : createtype4_union) : ptr * Z := match u with createtype4_linkdata x => x | _ =>
  (NULL, 0) end.
#[global] Instance createtype4_linkdata_member : Variant as_createtype4_linkdata createtype4_linkdata. Proof. done. Qed.
Definition as_createtype4_devdata (u : createtype4_union) : specdata4 := match u with createtype4_devdata x => x | _ =>
  zero_specdata4 end.
#[global] Instance createtype4_devdata_member : Variant as_createtype4_devdata createtype4_devdata. Proof. done. Qed.
Definition case_createtype4 (d : Z) : proc createtype4_union :=
  if (d =? NF4LNK) then zdr_member as_createtype4_linkdata createtype4_linkdata zdr_linktext4
  else if (d =? NF4BLK) || (d =? NF4CHR) then zdr_member as_createtype4_devdata createtype4_devdata zdr_specdata4
  else if (d =? NF4SOCK) || (d =? NF4FIFO) || (d =? NF4DIR) then zdr_void
  else zdr_void.
#[global] Instance case_createtype4_codec d : Codec (case_createtype4 d). Proof. codec case_createtype4. Defined.
#[global] Instance case_createtype4_blank d : Blank (case_createtype4 d) createtype4_cleared. Proof. blank
  case_createtype4. Qed.
Definition zdr_createtype4 : proc createtype4 := zdr_via fields_createtype4 make_createtype4 (zdr_dseq zdr_nfs_ftype4
  (case_createtype4)).
#[global] Instance createtype4_codec : Codec zdr_createtype4. Proof. codec zdr_createtype4. Defined.
#[global] Instance createtype4_blank : Blank zdr_createtype4 zero_createtype4. Proof. blank zdr_createtype4. Qed.

Record CREATE4args := mkCREATE4args {
  CREATE4args_objtype : createtype4; CREATE4args_objname : ptr * Z; CREATE4args_createattrs : fattr4
}.
Definition zero_CREATE4args : CREATE4args := mkCREATE4args zero_createtype4 (NULL, 0) zero_fattr4.
Definition fields_CREATE4args (x : CREATE4args) := (CREATE4args_objtype x, (CREATE4args_objname x, CREATE4args_createattrs
  x)).
Definition make_CREATE4args (t : (createtype4 * ((ptr * Z) * fattr4))) : CREATE4args := mkCREATE4args t.1 t.2.1 t.2.2.
#[global] Instance CREATE4args_iso : Iso fields_CREATE4args make_CREATE4args. Proof. iso. Qed.
Definition zdr_CREATE4args : proc CREATE4args := zdr_via fields_CREATE4args make_CREATE4args (zdr_createtype4 >>>
  zdr_component4 >>> zdr_fattr4).
#[global] Instance CREATE4args_codec : Codec zdr_CREATE4args. Proof. codec zdr_CREATE4args. Defined.
#[global] Instance CREATE4args_blank : Blank zdr_CREATE4args zero_CREATE4args. Proof. blank zdr_CREATE4args. Qed.

Record CREATE4resok := mkCREATE4resok {
  CREATE4resok_cinfo : change_info4; CREATE4resok_attrset : Z * list Z
}.
Definition zero_CREATE4resok : CREATE4resok := mkCREATE4resok zero_change_info4 (0, []).
Definition fields_CREATE4resok (x : CREATE4resok) := (CREATE4resok_cinfo x, CREATE4resok_attrset x).
Definition make_CREATE4resok (t : (change_info4 * (Z * list Z))) : CREATE4resok := mkCREATE4resok t.1 t.2.
#[global] Instance CREATE4resok_iso : Iso fields_CREATE4resok make_CREATE4resok. Proof. iso. Qed.
Definition zdr_CREATE4resok : proc CREATE4resok := zdr_via fields_CREATE4resok make_CREATE4resok (zdr_change_info4 >>>
  zdr_bitmap4).
#[global] Instance CREATE4resok_codec : Codec zdr_CREATE4resok. Proof. codec zdr_CREATE4resok. Defined.
#[global] Instance CREATE4resok_blank : Blank zdr_CREATE4resok zero_CREATE4resok. Proof. blank zdr_CREATE4resok. Qed.

Inductive CREATE4res_union := CREATE4res_cleared | CREATE4res_resok4 (x : CREATE4resok).
Record CREATE4res := mkCREATE4res { CREATE4res_status : Z; CREATE4res_u : CREATE4res_union }.
Definition zero_CREATE4res : CREATE4res := mkCREATE4res 0 CREATE4res_cleared.
Definition fields_CREATE4res (x : CREATE4res) := (CREATE4res_status x, CREATE4res_u x).
Definition make_CREATE4res (t : (Z * CREATE4res_union)) : CREATE4res := mkCREATE4res t.1 t.2.
#[global] Instance CREATE4res_iso : Iso fields_CREATE4res make_CREATE4res. Proof. iso. Qed.
Definition as_CREATE4res_resok4 (u : CREATE4res_union) : CREATE4resok := match u with CREATE4res_resok4 x => x | _ =>
  zero_CREATE4resok end.
#[global] Instance CREATE4res_resok4_member : Variant as_CREATE4res_resok4 CREATE4res_resok4. Proof. done. Qed.
Definition case_CREATE4res (d : Z) : proc CREATE4res_union :=
  if (d =? NFS4_OK) then zdr_member as_CREATE4res_resok4 CREATE4res_resok4 zdr_CREATE4resok
  else zdr_void.
#[global] Instance case_CREATE4res_codec d : Codec (case_CREATE4res d). Proof. codec case_CREATE4res. Defined.
#[global] Instance case_CREATE4res_blank d : Blank (case_CREATE4res d) CREATE4res_cleared. Proof. blank case_CREATE4res. Qed.
Definition zdr_CREATE4res : proc CREATE4res := zdr_via fields_CREATE4res make_CREATE4res (zdr_dseq zdr_nfsstat4
  (case_CREATE4res)).
#[global] Instance CREATE4res_codec : Codec zdr_CREATE4res. Proof. codec zdr_CREATE4res. Defined.
#[global] Instance CREATE4res_blank : Blank zdr_CREATE4res zero_CREATE4res. Proof. blank zdr_CREATE4res. Qed.

Record DELEGPURGE4args := mkDELEGPURGE4args {
  DELEGPURGE4args_clientid : Z
}.
Definition zero_DELEGPURGE4args : DELEGPURGE4args := mkDELEGPURGE4args 0.
Definition fields_DELEGPURGE4args (x : DELEGPURGE4args) := DELEGPURGE4args_clientid x.
Definition make_DELEGPURGE4args (t : Z) : DELEGPURGE4args := mkDELEGPURGE4args t.
#[global] Instance DELEGPURGE4args_iso : Iso fields_DELEGPURGE4args make_DELEGPURGE4args. Proof. iso. Qed.
Definition zdr_DELEGPURGE4args : proc DELEGPURGE4args := zdr_via fields_DELEGPURGE4args make_DELEGPURGE4args (zdr_clientid4).
#[global] Instance DELEGPURGE4args_codec : Codec zdr_DELEGPURGE4args. Proof. codec zdr_DELEGPURGE4args. Defined.
#[global] Instance DELEGPURGE4args_blank : Blank zdr_DELEGPURGE4args zero_DELEGPURGE4args. Proof. blank
  zdr_DELEGPURGE4args. Qed.
#[global] Instance DELEGPURGE4args_safe : Safe zdr_DELEGPURGE4args. Proof. safe zdr_DELEGPURGE4args. Qed.

Record DELEGPURGE4res := mkDELEGPURGE4res {
  DELEGPURGE4res_status : Z
}.
Definition zero_DELEGPURGE4res : DELEGPURGE4res := mkDELEGPURGE4res 0.
Definition fields_DELEGPURGE4res (x : DELEGPURGE4res) := DELEGPURGE4res_status x.
Definition make_DELEGPURGE4res (t : Z) : DELEGPURGE4res := mkDELEGPURGE4res t.
#[global] Instance DELEGPURGE4res_iso : Iso fields_DELEGPURGE4res make_DELEGPURGE4res. Proof. iso. Qed.
Definition zdr_DELEGPURGE4res : proc DELEGPURGE4res := zdr_via fields_DELEGPURGE4res make_DELEGPURGE4res (zdr_nfsstat4).
#[global] Instance DELEGPURGE4res_codec : Codec zdr_DELEGPURGE4res. Proof. codec zdr_DELEGPURGE4res. Defined.
#[global] Instance DELEGPURGE4res_blank : Blank zdr_DELEGPURGE4res zero_DELEGPURGE4res. Proof. blank zdr_DELEGPURGE4res. Qed.
#[global] Instance DELEGPURGE4res_safe : Safe zdr_DELEGPURGE4res. Proof. safe zdr_DELEGPURGE4res. Qed.

Record DELEGRETURN4args := mkDELEGRETURN4args {
  DELEGRETURN4args_deleg_stateid : stateid4
}.
Definition zero_DELEGRETURN4args : DELEGRETURN4args := mkDELEGRETURN4args zero_stateid4.
Definition fields_DELEGRETURN4args (x : DELEGRETURN4args) := DELEGRETURN4args_deleg_stateid x.
Definition make_DELEGRETURN4args (t : stateid4) : DELEGRETURN4args := mkDELEGRETURN4args t.
#[global] Instance DELEGRETURN4args_iso : Iso fields_DELEGRETURN4args make_DELEGRETURN4args. Proof. iso. Qed.
Definition zdr_DELEGRETURN4args : proc DELEGRETURN4args := zdr_via fields_DELEGRETURN4args make_DELEGRETURN4args
  (zdr_stateid4).
#[global] Instance DELEGRETURN4args_codec : Codec zdr_DELEGRETURN4args. Proof. codec zdr_DELEGRETURN4args. Defined.
#[global] Instance DELEGRETURN4args_blank : Blank zdr_DELEGRETURN4args zero_DELEGRETURN4args. Proof. blank
  zdr_DELEGRETURN4args. Qed.

Record DELEGRETURN4res := mkDELEGRETURN4res {
  DELEGRETURN4res_status : Z
}.
Definition zero_DELEGRETURN4res : DELEGRETURN4res := mkDELEGRETURN4res 0.
Definition fields_DELEGRETURN4res (x : DELEGRETURN4res) := DELEGRETURN4res_status x.
Definition make_DELEGRETURN4res (t : Z) : DELEGRETURN4res := mkDELEGRETURN4res t.
#[global] Instance DELEGRETURN4res_iso : Iso fields_DELEGRETURN4res make_DELEGRETURN4res. Proof. iso. Qed.
Definition zdr_DELEGRETURN4res : proc DELEGRETURN4res := zdr_via fields_DELEGRETURN4res make_DELEGRETURN4res (zdr_nfsstat4).
#[global] Instance DELEGRETURN4res_codec : Codec zdr_DELEGRETURN4res. Proof. codec zdr_DELEGRETURN4res. Defined.
#[global] Instance DELEGRETURN4res_blank : Blank zdr_DELEGRETURN4res zero_DELEGRETURN4res. Proof. blank
  zdr_DELEGRETURN4res. Qed.
#[global] Instance DELEGRETURN4res_safe : Safe zdr_DELEGRETURN4res. Proof. safe zdr_DELEGRETURN4res. Qed.

Record GETATTR4args := mkGETATTR4args {
  GETATTR4args_attr_request : Z * list Z
}.
Definition zero_GETATTR4args : GETATTR4args := mkGETATTR4args (0, []).
Definition fields_GETATTR4args (x : GETATTR4args) := GETATTR4args_attr_request x.
Definition make_GETATTR4args (t : (Z * list Z)) : GETATTR4args := mkGETATTR4args t.
#[global] Instance GETATTR4args_iso : Iso fields_GETATTR4args make_GETATTR4args. Proof. iso. Qed.
Definition zdr_GETATTR4args : proc GETATTR4args := zdr_via fields_GETATTR4args make_GETATTR4args (zdr_bitmap4).
#[global] Instance GETATTR4args_codec : Codec zdr_GETATTR4args. Proof. codec zdr_GETATTR4args. Defined.
#[global] Instance GETATTR4args_blank : Blank zdr_GETATTR4args zero_GETATTR4args. Proof. blank zdr_GETATTR4args. Qed.

Record GETATTR4resok := mkGETATTR4resok {
  GETATTR4resok_obj_attributes : fattr4
}.
Definition zero_GETATTR4resok : GETATTR4resok := mkGETATTR4resok zero_fattr4.
Definition fields_GETATTR4resok (x : GETATTR4resok) := GETATTR4resok_obj_attributes x.
Definition make_GETATTR4resok (t : fattr4) : GETATTR4resok := mkGETATTR4resok t.
#[global] Instance GETATTR4resok_iso : Iso fields_GETATTR4resok make_GETATTR4resok. Proof. iso. Qed.
Definition zdr_GETATTR4resok : proc GETATTR4resok := zdr_via fields_GETATTR4resok make_GETATTR4resok (zdr_fattr4).
#[global] Instance GETATTR4resok_codec : Codec zdr_GETATTR4resok. Proof. codec zdr_GETATTR4resok. Defined.
#[global] Instance GETATTR4resok_blank : Blank zdr_GETATTR4resok zero_GETATTR4resok. Proof. blank zdr_GETATTR4resok. Qed.

Inductive GETATTR4res_union := GETATTR4res_cleared | GETATTR4res_resok4 (x : GETATTR4resok).
Record GETATTR4res := mkGETATTR4res { GETATTR4res_status : Z; GETATTR4res_u : GETATTR4res_union }.
Definition zero_GETATTR4res : GETATTR4res := mkGETATTR4res 0 GETATTR4res_cleared.
Definition fields_GETATTR4res (x : GETATTR4res) := (GETATTR4res_status x, GETATTR4res_u x).
Definition make_GETATTR4res (t : (Z * GETATTR4res_union)) : GETATTR4res := mkGETATTR4res t.1 t.2.
#[global] Instance GETATTR4res_iso : Iso fields_GETATTR4res make_GETATTR4res. Proof. iso. Qed.
Definition as_GETATTR4res_resok4 (u : GETATTR4res_union) : GETATTR4resok := match u with GETATTR4res_resok4 x => x | _ =>
  zero_GETATTR4resok end.
#[global] Instance GETATTR4res_resok4_member : Variant as_GETATTR4res_resok4 GETATTR4res_resok4. Proof. done. Qed.
Definition case_GETATTR4res (d : Z) : proc GETATTR4res_union :=
  if (d =? NFS4_OK) then zdr_member as_GETATTR4res_resok4 GETATTR4res_resok4 zdr_GETATTR4resok
  else zdr_void.
#[global] Instance case_GETATTR4res_codec d : Codec (case_GETATTR4res d). Proof. codec case_GETATTR4res. Defined.
#[global] Instance case_GETATTR4res_blank d : Blank (case_GETATTR4res d) GETATTR4res_cleared. Proof. blank
  case_GETATTR4res. Qed.
Definition zdr_GETATTR4res : proc GETATTR4res := zdr_via fields_GETATTR4res make_GETATTR4res (zdr_dseq zdr_nfsstat4
  (case_GETATTR4res)).
#[global] Instance GETATTR4res_codec : Codec zdr_GETATTR4res. Proof. codec zdr_GETATTR4res. Defined.
#[global] Instance GETATTR4res_blank : Blank zdr_GETATTR4res zero_GETATTR4res. Proof. blank zdr_GETATTR4res. Qed.

Record GETFH4resok := mkGETFH4resok {
  GETFH4resok_object : ptr * Z
}.
Definition zero_GETFH4resok : GETFH4resok := mkGETFH4resok (NULL, 0).
Definition fields_GETFH4resok (x : GETFH4resok) := GETFH4resok_object x.
Definition make_GETFH4resok (t : (ptr * Z)) : GETFH4resok := mkGETFH4resok t.
#[global] Instance GETFH4resok_iso : Iso fields_GETFH4resok make_GETFH4resok. Proof. iso. Qed.
Definition zdr_GETFH4resok : proc GETFH4resok := zdr_via fields_GETFH4resok make_GETFH4resok (zdr_nfs_fh4).
#[global] Instance GETFH4resok_codec : Codec zdr_GETFH4resok. Proof. codec zdr_GETFH4resok. Defined.
#[global] Instance GETFH4resok_blank : Blank zdr_GETFH4resok zero_GETFH4resok. Proof. blank zdr_GETFH4resok. Qed.

Inductive GETFH4res_union := GETFH4res_cleared | GETFH4res_resok4 (x : GETFH4resok).
Record GETFH4res := mkGETFH4res { GETFH4res_status : Z; GETFH4res_u : GETFH4res_union }.
Definition zero_GETFH4res : GETFH4res := mkGETFH4res 0 GETFH4res_cleared.
Definition fields_GETFH4res (x : GETFH4res) := (GETFH4res_status x, GETFH4res_u x).
Definition make_GETFH4res (t : (Z * GETFH4res_union)) : GETFH4res := mkGETFH4res t.1 t.2.
#[global] Instance GETFH4res_iso : Iso fields_GETFH4res make_GETFH4res. Proof. iso. Qed.
Definition as_GETFH4res_resok4 (u : GETFH4res_union) : GETFH4resok := match u with GETFH4res_resok4 x => x | _ =>
  zero_GETFH4resok end.
#[global] Instance GETFH4res_resok4_member : Variant as_GETFH4res_resok4 GETFH4res_resok4. Proof. done. Qed.
Definition case_GETFH4res (d : Z) : proc GETFH4res_union :=
  if (d =? NFS4_OK) then zdr_member as_GETFH4res_resok4 GETFH4res_resok4 zdr_GETFH4resok
  else zdr_void.
#[global] Instance case_GETFH4res_codec d : Codec (case_GETFH4res d). Proof. codec case_GETFH4res. Defined.
#[global] Instance case_GETFH4res_blank d : Blank (case_GETFH4res d) GETFH4res_cleared. Proof. blank case_GETFH4res. Qed.
Definition zdr_GETFH4res : proc GETFH4res := zdr_via fields_GETFH4res make_GETFH4res (zdr_dseq zdr_nfsstat4
  (case_GETFH4res)).
#[global] Instance GETFH4res_codec : Codec zdr_GETFH4res. Proof. codec zdr_GETFH4res. Defined.
#[global] Instance GETFH4res_blank : Blank zdr_GETFH4res zero_GETFH4res. Proof. blank zdr_GETFH4res. Qed.

Record LINK4args := mkLINK4args {
  LINK4args_newname : ptr * Z
}.
Definition zero_LINK4args : LINK4args := mkLINK4args (NULL, 0).
Definition fields_LINK4args (x : LINK4args) := LINK4args_newname x.
Definition make_LINK4args (t : (ptr * Z)) : LINK4args := mkLINK4args t.
#[global] Instance LINK4args_iso : Iso fields_LINK4args make_LINK4args. Proof. iso. Qed.
Definition zdr_LINK4args : proc LINK4args := zdr_via fields_LINK4args make_LINK4args (zdr_component4).
#[global] Instance LINK4args_codec : Codec zdr_LINK4args. Proof. codec zdr_LINK4args. Defined.
#[global] Instance LINK4args_blank : Blank zdr_LINK4args zero_LINK4args. Proof. blank zdr_LINK4args. Qed.

Record LINK4resok := mkLINK4resok {
  LINK4resok_cinfo : change_info4
}.
Definition zero_LINK4resok : LINK4resok := mkLINK4resok zero_change_info4.
Definition fields_LINK4resok (x : LINK4resok) := LINK4resok_cinfo x.
Definition make_LINK4resok (t : change_info4) : LINK4resok := mkLINK4resok t.
#[global] Instance LINK4resok_iso : Iso fields_LINK4resok make_LINK4resok. Proof. iso. Qed.
Definition zdr_LINK4resok : proc LINK4resok := zdr_via fields_LINK4resok make_LINK4resok (zdr_change_info4).
#[global] Instance LINK4resok_codec : Codec zdr_LINK4resok. Proof. codec zdr_LINK4resok. Defined.
#[global] Instance LINK4resok_blank : Blank zdr_LINK4resok zero_LINK4resok. Proof. blank zdr_LINK4resok. Qed.
#[global] Instance LINK4resok_safe : Safe zdr_LINK4resok. Proof. safe zdr_LINK4resok. Qed.

Inductive LINK4res_union := LINK4res_cleared | LINK4res_resok4 (x : LINK4resok).
Record LINK4res := mkLINK4res { LINK4res_status : Z; LINK4res_u : LINK4res_union }.
Definition zero_LINK4res : LINK4res := mkLINK4res 0 LINK4res_cleared.
Definition fields_LINK4res (x : LINK4res) := (LINK4res_status x, LINK4res_u x).
Definition make_LINK4res (t : (Z * LINK4res_union)) : LINK4res := mkLINK4res t.1 t.2.
#[global] Instance LINK4res_iso : Iso fields_LINK4res make_LINK4res. Proof. iso. Qed.
Definition as_LINK4res_resok4 (u : LINK4res_union) : LINK4resok := match u with LINK4res_resok4 x => x | _ =>
  zero_LINK4resok end.
#[global] Instance LINK4res_resok4_member : Variant as_LINK4res_resok4 LINK4res_resok4. Proof. done. Qed.
Definition case_LINK4res (d : Z) : proc LINK4res_union :=
  if (d =? NFS4_OK) then zdr_member as_LINK4res_resok4 LINK4res_resok4 zdr_LINK4resok
  else zdr_void.
#[global] Instance case_LINK4res_codec d : Codec (case_LINK4res d). Proof. codec case_LINK4res. Defined.
#[global] Instance case_LINK4res_blank d : Blank (case_LINK4res d) LINK4res_cleared. Proof. blank case_LINK4res. Qed.
#[global] Instance case_LINK4res_safe d : Safe (case_LINK4res d). Proof. safe case_LINK4res. Qed.
Definition zdr_LINK4res : proc LINK4res := zdr_via fields_LINK4res make_LINK4res (zdr_dseq zdr_nfsstat4 (case_LINK4res)).
#[global] Instance LINK4res_codec : Codec zdr_LINK4res. Proof. codec zdr_LINK4res. Defined.
#[global] Instance LINK4res_blank : Blank zdr_LINK4res zero_LINK4res. Proof. blank zdr_LINK4res. Qed.
#[global] Instance LINK4res_safe : Safe zdr_LINK4res. Proof. safe zdr_LINK4res. Qed.

Record open_to_lock_owner4 := mkopen_to_lock_owner4 {
    open_to_lock_owner4_open_seqid : Z; open_to_lock_owner4_open_stateid : stateid4; open_to_lock_owner4_lock_seqid : Z;
    open_to_lock_owner4_lock_owner : lock_owner4
}.
Definition zero_open_to_lock_owner4 : open_to_lock_owner4 := mkopen_to_lock_owner4 0 zero_stateid4 0 zero_lock_owner4.
Definition fields_open_to_lock_owner4 (x : open_to_lock_owner4) := (open_to_lock_owner4_open_seqid x,
  (open_to_lock_owner4_open_stateid x, (open_to_lock_owner4_lock_seqid x, open_to_lock_owner4_lock_owner x))).
Definition make_open_to_lock_owner4 (t : (Z * (stateid4 * (Z * lock_owner4)))) : open_to_lock_owner4 :=
  mkopen_to_lock_owner4 t.1 t.2.1 t.2.2.1 t.2.2.2.
#[global] Instance open_to_lock_owner4_iso : Iso fields_open_to_lock_owner4 make_open_to_lock_owner4. Proof. iso. Qed.
Definition zdr_open_to_lock_owner4 : proc open_to_lock_owner4 := zdr_via fields_open_to_lock_owner4
  make_open_to_lock_owner4 (zdr_seqid4 >>> zdr_stateid4 >>> zdr_seqid4 >>> zdr_lock_owner4).
#[global] Instance open_to_lock_owner4_codec : Codec zdr_open_to_lock_owner4. Proof. codec zdr_open_to_lock_owner4. Defined.
#[global] Instance open_to_lock_owner4_blank : Blank zdr_open_to_lock_owner4 zero_open_to_lock_owner4. Proof. blank
  zdr_open_to_lock_owner4. Qed.

Record exist_lock_owner4 := mkexist_lock_owner4 {
  exist_lock_owner4_lock_stateid : stateid4; exist_lock_owner4_lock_seqid : Z
}.
Definition zero_exist_lock_owner4 : exist_lock_owner4 := mkexist_lock_owner4 zero_stateid4 0.
Definition fields_exist_lock_owner4 (x : exist_lock_owner4) := (exist_lock_owner4_lock_stateid x,
  exist_lock_owner4_lock_seqid x).
Definition make_exist_lock_owner4 (t : (stateid4 * Z)) : exist_lock_owner4 := mkexist_lock_owner4 t.1 t.2.
#[global] Instance exist_lock_owner4_iso : Iso fields_exist_lock_owner4 make_exist_lock_owner4. Proof. iso. Qed.
Definition zdr_exist_lock_owner4 : proc exist_lock_owner4 := zdr_via fields_exist_lock_owner4 make_exist_lock_owner4
  (zdr_stateid4 >>> zdr_seqid4).
#[global] Instance exist_lock_owner4_codec : Codec zdr_exist_lock_owner4. Proof. codec zdr_exist_lock_owner4. Defined.
#[global] Instance exist_lock_owner4_blank : Blank zdr_exist_lock_owner4 zero_exist_lock_owner4. Proof. blank
  zdr_exist_lock_owner4. Qed.

Inductive locker4_union := locker4_cleared | locker4_open_owner (x : open_to_lock_owner4) | locker4_lock_owner (x :
  exist_lock_owner4).
Record locker4 := mklocker4 { locker4_new_lock_owner : Z; locker4_u : locker4_union }.
Definition zero_locker4 : locker4 := mklocker4 0 locker4_cleared.
Definition fields_locker4 (x : locker4) := (locker4_new_lock_owner x, locker4_u x).
Definition make_locker4 (t : (Z * locker4_union)) : locker4 := mklocker4 t.1 t.2.
#[global] Instance locker4_iso : Iso fields_locker4 make_locker4. Proof. iso. Qed.
Definition as_locker4_open_owner (u : locker4_union) : open_to_lock_owner4 := match u with locker4_open_owner x => x | _
  => zero_open_to_lock_owner4 end.
#[global] Instance locker4_open_owner_member : Variant as_locker4_open_owner locker4_open_owner. Proof. done. Qed.
Definition as_locker4_lock_owner (u : locker4_union) : exist_lock_owner4 := match u with locker4_lock_owner x => x | _ =>
  zero_exist_lock_owner4 end.
#[global] Instance locker4_lock_owner_member : Variant as_locker4_lock_owner locker4_lock_owner. Proof. done. Qed.
Definition case_locker4 (d : Z) : proc locker4_union :=
  if (d =? 1) then zdr_member as_locker4_open_owner locker4_open_owner zdr_open_to_lock_owner4
  else if (d =? 0) then zdr_member as_locker4_lock_owner locker4_lock_owner zdr_exist_lock_owner4
  else zdr_fail.
#[global] Instance case_locker4_codec d : Codec (case_locker4 d). Proof. codec case_locker4. Defined.
#[global] Instance case_locker4_blank d : Blank (case_locker4 d) locker4_cleared. Proof. blank case_locker4. Qed.
Definition zdr_locker4 : proc locker4 := zdr_via fields_locker4 make_locker4 (zdr_dseq zdr_bool (case_locker4)).
#[global] Instance locker4_codec : Codec zdr_locker4. Proof. codec zdr_locker4. Defined.
#[global] Instance locker4_blank : Blank zdr_locker4 zero_locker4. Proof. blank zdr_locker4. Qed.

Record LOCK4args := mkLOCK4args {
  LOCK4args_locktype : Z; LOCK4args_reclaim : Z; LOCK4args_offset : Z; LOCK4args_length : Z; LOCK4args_locker : locker4
}.
Definition zero_LOCK4args : LOCK4args := mkLOCK4args 0 0 0 0 zero_locker4.
Definition fields_LOCK4args (x : LOCK4args) := (LOCK4args_locktype x, (LOCK4args_reclaim x, (LOCK4args_offset x,
  (LOCK4args_length x, LOCK4args_locker x)))).
Definition make_LOCK4args (t : (Z * (Z * (Z * (Z * locker4))))) : LOCK4args := mkLOCK4args t.1 t.2.1 t.2.2.1 t.2.2.2.1
  t.2.2.2.2.
#[global] Instance LOCK4args_iso : Iso fields_LOCK4args make_LOCK4args. Proof. iso. Qed.
Definition zdr_LOCK4args : proc LOCK4args := zdr_via fields_LOCK4args make_LOCK4args (zdr_nfs_lock_type4 >>> zdr_bool >>>
  zdr_offset4 >>> zdr_length4 >>> zdr_locker4).
#[global] Instance LOCK4args_codec : Codec zdr_LOCK4args. Proof. codec zdr_LOCK4args. Defined.
#[global] Instance LOCK4args_blank : Blank zdr_LOCK4args zero_LOCK4args. Proof. blank zdr_LOCK4args. Qed.

Record LOCK4denied := mkLOCK4denied {
  LOCK4denied_offset : Z; LOCK4denied_length : Z; LOCK4denied_locktype : Z; LOCK4denied_owner : lock_owner4
}.
Definition zero_LOCK4denied : LOCK4denied := mkLOCK4denied 0 0 0 zero_lock_owner4.
Definition fields_LOCK4denied (x : LOCK4denied) := (LOCK4denied_offset x, (LOCK4denied_length x, (LOCK4denied_locktype x,
  LOCK4denied_owner x))).
Definition make_LOCK4denied (t : (Z * (Z * (Z * lock_owner4)))) : LOCK4denied := mkLOCK4denied t.1 t.2.1 t.2.2.1 t.2.2.2.
#[global] Instance LOCK4denied_iso : Iso fields_LOCK4denied make_LOCK4denied. Proof. iso. Qed.
Definition zdr_LOCK4denied : proc LOCK4denied := zdr_via fields_LOCK4denied make_LOCK4denied (zdr_offset4 >>> zdr_length4
  >>> zdr_nfs_lock_type4 >>> zdr_lock_owner4).
#[global] Instance LOCK4denied_codec : Codec zdr_LOCK4denied. Proof. codec zdr_LOCK4denied. Defined.
#[global] Instance LOCK4denied_blank : Blank zdr_LOCK4denied zero_LOCK4denied. Proof. blank zdr_LOCK4denied. Qed.

Record LOCK4resok := mkLOCK4resok {
  LOCK4resok_lock_stateid : stateid4
}.
Definition zero_LOCK4resok : LOCK4resok := mkLOCK4resok zero_stateid4.
Definition fields_LOCK4resok (x : LOCK4resok) := LOCK4resok_lock_stateid x.
Definition make_LOCK4resok (t : stateid4) : LOCK4resok := mkLOCK4resok t.
#[global] Instance LOCK4resok_iso : Iso fields_LOCK4resok make_LOCK4resok. Proof. iso. Qed.
Definition zdr_LOCK4resok : proc LOCK4resok := zdr_via fields_LOCK4resok make_LOCK4resok (zdr_stateid4).
#[global] Instance LOCK4resok_codec : Codec zdr_LOCK4resok. Proof. codec zdr_LOCK4resok. Defined.
#[global] Instance LOCK4resok_blank : Blank zdr_LOCK4resok zero_LOCK4resok. Proof. blank zdr_LOCK4resok. Qed.

Inductive LOCK4res_union := LOCK4res_cleared | LOCK4res_resok4 (x : LOCK4resok) | LOCK4res_denied (x : LOCK4denied).
Record LOCK4res := mkLOCK4res { LOCK4res_status : Z; LOCK4res_u : LOCK4res_union }.
Definition zero_LOCK4res : LOCK4res := mkLOCK4res 0 LOCK4res_cleared.
Definition fields_LOCK4res (x : LOCK4res) := (LOCK4res_status x, LOCK4res_u x).
Definition make_LOCK4res (t : (Z * LOCK4res_union)) : LOCK4res := mkLOCK4res t.1 t.2.
#[global] Instance LOCK4res_iso : Iso fields_LOCK4res make_LOCK4res. Proof. iso. Qed.
Definition as_LOCK4res_resok4 (u : LOCK4res_union) : LOCK4resok := match u with LOCK4res_resok4 x => x | _ =>
  zero_LOCK4resok end.
#[global] Instance LOCK4res_resok4_member : Variant as_LOCK4res_resok4 LOCK4res_resok4. Proof. done. Qed.
Definition as_LOCK4res_denied (u : LOCK4res_union) : LOCK4denied := match u with LOCK4res_denied x => x | _ =>
  zero_LOCK4denied end.
#[global] Instance LOCK4res_denied_member : Variant as_LOCK4res_denied LOCK4res_denied. Proof. done. Qed.
Definition case_LOCK4res (d : Z) : proc LOCK4res_union :=
  if (d =? NFS4_OK) then zdr_member as_LOCK4res_resok4 LOCK4res_resok4 zdr_LOCK4resok
  else if (d =? NFS4ERR_DENIED) then zdr_member as_LOCK4res_denied LOCK4res_denied zdr_LOCK4denied
  else zdr_void.
#[global] Instance case_LOCK4res_codec d : Codec (case_LOCK4res d). Proof. codec case_LOCK4res. Defined.
#[global] Instance case_LOCK4res_blank d : Blank (case_LOCK4res d) LOCK4res_cleared. Proof. blank case_LOCK4res. Qed.
Definition zdr_LOCK4res : proc LOCK4res := zdr_via fields_LOCK4res make_LOCK4res (zdr_dseq zdr_nfsstat4 (case_LOCK4res)).
#[global] Instance LOCK4res_codec : Codec zdr_LOCK4res. Proof. codec zdr_LOCK4res. Defined.
#[global] Instance LOCK4res_blank : Blank zdr_LOCK4res zero_LOCK4res. Proof. blank zdr_LOCK4res. Qed.

Record LOCKT4args := mkLOCKT4args {
  LOCKT4args_locktype : Z; LOCKT4args_offset : Z; LOCKT4args_length : Z; LOCKT4args_owner : lock_owner4
}.
Definition zero_LOCKT4args : LOCKT4args := mkLOCKT4args 0 0 0 zero_lock_owner4.
Definition fields_LOCKT4args (x : LOCKT4args) := (LOCKT4args_locktype x, (LOCKT4args_offset x, (LOCKT4args_length x,
  LOCKT4args_owner x))).
Definition make_LOCKT4args (t : (Z * (Z * (Z * lock_owner4)))) : LOCKT4args := mkLOCKT4args t.1 t.2.1 t.2.2.1 t.2.2.2.
#[global] Instance LOCKT4args_iso : Iso fields_LOCKT4args make_LOCKT4args. Proof. iso. Qed.
Definition zdr_LOCKT4args : proc LOCKT4args := zdr_via fields_LOCKT4args make_LOCKT4args (zdr_nfs_lock_type4 >>>
  zdr_offset4 >>> zdr_length4 >>> zdr_lock_owner4).
#[global] Instance LOCKT4args_codec : Codec zdr_LOCKT4args. Proof. codec zdr_LOCKT4args. Defined.
#[global] Instance LOCKT4args_blank : Blank zdr_LOCKT4args zero_LOCKT4args. Proof. blank zdr_LOCKT4args. Qed.

Inductive LOCKT4res_union := LOCKT4res_cleared | LOCKT4res_denied (x : LOCK4denied).
Record LOCKT4res := mkLOCKT4res { LOCKT4res_status : Z; LOCKT4res_u : LOCKT4res_union }.
Definition zero_LOCKT4res : LOCKT4res := mkLOCKT4res 0 LOCKT4res_cleared.
Definition fields_LOCKT4res (x : LOCKT4res) := (LOCKT4res_status x, LOCKT4res_u x).
Definition make_LOCKT4res (t : (Z * LOCKT4res_union)) : LOCKT4res := mkLOCKT4res t.1 t.2.
#[global] Instance LOCKT4res_iso : Iso fields_LOCKT4res make_LOCKT4res. Proof. iso. Qed.
Definition as_LOCKT4res_denied (u : LOCKT4res_union) : LOCK4denied := match u with LOCKT4res_denied x => x | _ =>
  zero_LOCK4denied end.
#[global] Instance LOCKT4res_denied_member : Variant as_LOCKT4res_denied LOCKT4res_denied. Proof. done. Qed.
Definition case_LOCKT4res (d : Z) : proc LOCKT4res_union :=
  if (d =? NFS4ERR_DENIED) then zdr_member as_LOCKT4res_denied LOCKT4res_denied zdr_LOCK4denied
  else if (d =? NFS4_OK) then zdr_void
  else zdr_void.
#[global] Instance case_LOCKT4res_codec d : Codec (case_LOCKT4res d). Proof. codec case_LOCKT4res. Defined.
#[global] Instance case_LOCKT4res_blank d : Blank (case_LOCKT4res d) LOCKT4res_cleared. Proof. blank case_LOCKT4res. Qed.
Definition zdr_LOCKT4res : proc LOCKT4res := zdr_via fields_LOCKT4res make_LOCKT4res (zdr_dseq zdr_nfsstat4
  (case_LOCKT4res)).
#[global] Instance LOCKT4res_codec : Codec zdr_LOCKT4res. Proof. codec zdr_LOCKT4res. Defined.
#[global] Instance LOCKT4res_blank : Blank zdr_LOCKT4res zero_LOCKT4res. Proof. blank zdr_LOCKT4res. Qed.

Record LOCKU4args := mkLOCKU4args {
    LOCKU4args_locktype : Z; LOCKU4args_seqid : Z; LOCKU4args_lock_stateid : stateid4; LOCKU4args_offset : Z;
    LOCKU4args_length : Z
}.
Definition zero_LOCKU4args : LOCKU4args := mkLOCKU4args 0 0 zero_stateid4 0 0.
Definition fields_LOCKU4args (x : LOCKU4args) := (LOCKU4args_locktype x, (LOCKU4args_seqid x, (LOCKU4args_lock_stateid x,
  (LOCKU4args_offset x, LOCKU4args_length x)))).
Definition make_LOCKU4args (t : (Z * (Z * (stateid4 * (Z * Z))))) : LOCKU4args := mkLOCKU4args t.1 t.2.1 t.2.2.1 t.2.2.2.1
  t.2.2.2.2.
#[global] Instance LOCKU4args_iso : Iso fields_LOCKU4args make_LOCKU4args. Proof. iso. Qed.
Definition zdr_LOCKU4args : proc LOCKU4args := zdr_via fields_LOCKU4args make_LOCKU4args (zdr_nfs_lock_type4 >>>
  zdr_seqid4 >>> zdr_stateid4 >>> zdr_offset4 >>> zdr_length4).
#[global] Instance LOCKU4args_codec : Codec zdr_LOCKU4args. Proof. codec zdr_LOCKU4args. Defined.
#[global] Instance LOCKU4args_blank : Blank zdr_LOCKU4args zero_LOCKU4args. Proof. blank zdr_LOCKU4args. Qed.

Inductive LOCKU4res_union := LOCKU4res_cleared | LOCKU4res_lock_stateid (x : stateid4).
Record LOCKU4res := mkLOCKU4res { LOCKU4res_status : Z; LOCKU4res_u : LOCKU4res_union }.
Definition zero_LOCKU4res : LOCKU4res := mkLOCKU4res 0 LOCKU4res_cleared.
Definition fields_LOCKU4res (x : LOCKU4res) := (LOCKU4res_status x, LOCKU4res_u x).
Definition make_LOCKU4res (t : (Z * LOCKU4res_union)) : LOCKU4res := mkLOCKU4res t.1 t.2.
#[global] Instance LOCKU4res_iso : Iso fields_LOCKU4res make_LOCKU4res. Proof. iso. Qed.
Definition as_LOCKU4res_lock_stateid (u : LOCKU4res_union) : stateid4 := match u with LOCKU4res_lock_stateid x => x | _ =>
  zero_stateid4 end.
#[global] Instance LOCKU4res_lock_stateid_member : Variant as_LOCKU4res_lock_stateid LOCKU4res_lock_stateid. Proof. done.
  Qed.
Definition case_LOCKU4res (d : Z) : proc LOCKU4res_union :=
  if (d =? NFS4_OK) then zdr_member as_LOCKU4res_lock_stateid LOCKU4res_lock_stateid zdr_stateid4
  else zdr_void.
#[global] Instance case_LOCKU4res_codec d : Codec (case_LOCKU4res d). Proof. codec case_LOCKU4res. Defined.
#[global] Instance case_LOCKU4res_blank d : Blank (case_LOCKU4res d) LOCKU4res_cleared. Proof. blank case_LOCKU4res. Qed.
Definition zdr_LOCKU4res : proc LOCKU4res := zdr_via fields_LOCKU4res make_LOCKU4res (zdr_dseq zdr_nfsstat4
  (case_LOCKU4res)).
#[global] Instance LOCKU4res_codec : Codec zdr_LOCKU4res. Proof. codec zdr_LOCKU4res. Defined.
#[global] Instance LOCKU4res_blank : Blank zdr_LOCKU4res zero_LOCKU4res. Proof. blank zdr_LOCKU4res. Qed.

Record LOOKUP4args := mkLOOKUP4args {
  LOOKUP4args_objname : ptr * Z
}.
Definition zero_LOOKUP4args : LOOKUP4args := mkLOOKUP4args (NULL, 0).
Definition fields_LOOKUP4args (x : LOOKUP4args) := LOOKUP4args_objname x.
Definition make_LOOKUP4args (t : (ptr * Z)) : LOOKUP4args := mkLOOKUP4args t.
#[global] Instance LOOKUP4args_iso : Iso fields_LOOKUP4args make_LOOKUP4args. Proof. iso. Qed.
Definition zdr_LOOKUP4args : proc LOOKUP4args := zdr_via fields_LOOKUP4args make_LOOKUP4args (zdr_component4).
#[global] Instance LOOKUP4args_codec : Codec zdr_LOOKUP4args. Proof. codec zdr_LOOKUP4args. Defined.
#[global] Instance LOOKUP4args_blank : Blank zdr_LOOKUP4args zero_LOOKUP4args. Proof. blank zdr_LOOKUP4args. Qed.

Record LOOKUP4res := mkLOOKUP4res {
  LOOKUP4res_status : Z
}.
Definition zero_LOOKUP4res : LOOKUP4res := mkLOOKUP4res 0.
Definition fields_LOOKUP4res (x : LOOKUP4res) := LOOKUP4res_status x.
Definition make_LOOKUP4res (t : Z) : LOOKUP4res := mkLOOKUP4res t.
#[global] Instance LOOKUP4res_iso : Iso fields_LOOKUP4res make_LOOKUP4res. Proof. iso. Qed.
Definition zdr_LOOKUP4res : proc LOOKUP4res := zdr_via fields_LOOKUP4res make_LOOKUP4res (zdr_nfsstat4).
#[global] Instance LOOKUP4res_codec : Codec zdr_LOOKUP4res. Proof. codec zdr_LOOKUP4res. Defined.
#[global] Instance LOOKUP4res_blank : Blank zdr_LOOKUP4res zero_LOOKUP4res. Proof. blank zdr_LOOKUP4res. Qed.
#[global] Instance LOOKUP4res_safe : Safe zdr_LOOKUP4res. Proof. safe zdr_LOOKUP4res. Qed.

Record LOOKUPP4res := mkLOOKUPP4res {
  LOOKUPP4res_status : Z
}.
Definition zero_LOOKUPP4res : LOOKUPP4res := mkLOOKUPP4res 0.
Definition fields_LOOKUPP4res (x : LOOKUPP4res) := LOOKUPP4res_status x.
Definition make_LOOKUPP4res (t : Z) : LOOKUPP4res := mkLOOKUPP4res t.
#[global] Instance LOOKUPP4res_iso : Iso fields_LOOKUPP4res make_LOOKUPP4res. Proof. iso. Qed.
Definition zdr_LOOKUPP4res : proc LOOKUPP4res := zdr_via fields_LOOKUPP4res make_LOOKUPP4res (zdr_nfsstat4).
#[global] Instance LOOKUPP4res_codec : Codec zdr_LOOKUPP4res. Proof. codec zdr_LOOKUPP4res. Defined.
#[global] Instance LOOKUPP4res_blank : Blank zdr_LOOKUPP4res zero_LOOKUPP4res. Proof. blank zdr_LOOKUPP4res. Qed.
#[global] Instance LOOKUPP4res_safe : Safe zdr_LOOKUPP4res. Proof. safe zdr_LOOKUPP4res. Qed.

Record NVERIFY4args := mkNVERIFY4args {
  NVERIFY4args_obj_attributes : fattr4
}.
Definition zero_NVERIFY4args : NVERIFY4args := mkNVERIFY4args zero_fattr4.
Definition fields_NVERIFY4args (x : NVERIFY4args) := NVERIFY4args_obj_attributes x.
Definition make_NVERIFY4args (t : fattr4) : NVERIFY4args := mkNVERIFY4args t.
#[global] Instance NVERIFY4args_iso : Iso fields_NVERIFY4args make_NVERIFY4args. Proof. iso. Qed.
Definition zdr_NVERIFY4args : proc NVERIFY4args := zdr_via fields_NVERIFY4args make_NVERIFY4args (zdr_fattr4).
#[global] Instance NVERIFY4args_codec : Codec zdr_NVERIFY4args. Proof. codec zdr_NVERIFY4args. Defined.
#[global] Instance NVERIFY4args_blank : Blank zdr_NVERIFY4args zero_NVERIFY4args. Proof. blank zdr_NVERIFY4args. Qed.

Record NVERIFY4res := mkNVERIFY4res {
  NVERIFY4res_status : Z
}.
Definition zero_NVERIFY4res : NVERIFY4res := mkNVERIFY4res 0.
Definition fields_NVERIFY4res (x : NVERIFY4res) := NVERIFY4res_status x.
Definition make_NVERIFY4res (t : Z) : NVERIFY4res := mkNVERIFY4res t.
#[global] Instance NVERIFY4res_iso : Iso fields_NVERIFY4res make_NVERIFY4res. Proof. iso. Qed.
Definition zdr_NVERIFY4res : proc NVERIFY4res := zdr_via fields_NVERIFY4res make_NVERIFY4res (zdr_nfsstat4).
#[global] Instance NVERIFY4res_codec : Codec zdr_NVERIFY4res. Proof. codec zdr_NVERIFY4res. Defined.
#[global] Instance NVERIFY4res_blank : Blank zdr_NVERIFY4res zero_NVERIFY4res. Proof. blank zdr_NVERIFY4res. Qed.
#[global] Instance NVERIFY4res_safe : Safe zdr_NVERIFY4res. Proof. safe zdr_NVERIFY4res. Qed.

Definition zdr_createmode4 : proc Z := zdr_enum.
Inductive createhow4_union := createhow4_cleared | createhow4_createattrs (x : fattr4) | createhow4_createverf (x : ptr).
Record createhow4 := mkcreatehow4 { createhow4_mode : Z; createhow4_u : createhow4_union }.
Definition zero_createhow4 : createhow4 := mkcreatehow4 0 createhow4_cleared.
Definition fields_createhow4 (x : createhow4) := (createhow4_mode x, createhow4_u x).
Definition make_createhow4 (t : (Z * createhow4_union)) : createhow4 := mkcreatehow4 t.1 t.2.
#[global] Instance createhow4_iso : Iso fields_createhow4 make_createhow4. Proof. iso. Qed.
Definition as_createhow4_createattrs (u : createhow4_union) : fattr4 := match u with createhow4_createattrs x => x | _ =>
  zero_fattr4 end.
#[global] Instance createhow4_createattrs_member : Variant as_createhow4_createattrs createhow4_createattrs. Proof. done.
  Qed.
Definition as_createhow4_createverf (u : createhow4_union) : ptr := match u with createhow4_createverf x => x | _ => (Heap
  (zeros 8)) end.
#[global] Instance createhow4_createverf_member : Variant as_createhow4_createverf createhow4_createverf. Proof. done. Qed.
Definition case_createhow4 (d : Z) : proc createhow4_union :=
  if (d =? UNCHECKED4) || (d =? GUARDED4) then zdr_member as_createhow4_createattrs createhow4_createattrs zdr_fattr4
  else if (d =? EXCLUSIVE4) then zdr_member as_createhow4_createverf createhow4_createverf zdr_verifier4
  else zdr_fail.
#[global] Instance case_createhow4_codec d : Codec (case_createhow4 d). Proof. codec case_createhow4. Defined.
#[global] Instance case_createhow4_blank d : Blank (case_createhow4 d) createhow4_cleared. Proof. blank case_createhow4. Qed.
Definition zdr_createhow4 : proc createhow4 := zdr_via fields_createhow4 make_createhow4 (zdr_dseq zdr_createmode4
  (case_createhow4)).
#[global] Instance createhow4_codec : Codec zdr_createhow4. Proof. codec zdr_createhow4. Defined.
#[global] Instance createhow4_blank : Blank zdr_createhow4 zero_createhow4. Proof. blank zdr_createhow4. Qed.

Definition zdr_opentype4 : proc Z := zdr_enum.
Inductive openflag4_union := openflag4_cleared | openflag4_how (x : createhow4).
Record openflag4 := mkopenflag4 { openflag4_opentype : Z; openflag4_u : openflag4_union }.
Definition zero_openflag4 : openflag4 := mkopenflag4 0 openflag4_cleared.
Definition fields_openflag4 (x : openflag4) := (openflag4_opentype x, openflag4_u x).
Definition make_openflag4 (t : (Z * openflag4_union)) : openflag4 := mkopenflag4 t.1 t.2.
#[global] Instance openflag4_iso : Iso fields_openflag4 make_openflag4. Proof. iso. Qed.
Definition as_openflag4_how (u : openflag4_union) : createhow4 := match u with openflag4_how x => x | _ => zero_createhow4
  end.
#[global] Instance openflag4_how_member : Variant as_openflag4_how openflag4_how. Proof. done. Qed.
Definition case_openflag4 (d : Z) : proc openflag4_union :=
  if (d =? OPEN4_CREATE) then zdr_member as_openflag4_how openflag4_how zdr_createhow4
  else zdr_void.
#[global] Instance case_openflag4_codec d : Codec (case_openflag4 d). Proof. codec case_openflag4. Defined.
#[global] Instance case_openflag4_blank d : Blank (case_openflag4 d) openflag4_cleared. Proof. blank case_openflag4. Qed.
Definition zdr_openflag4 : proc openflag4 := zdr_via fields_openflag4 make_openflag4 (zdr_dseq zdr_opentype4
  (case_openflag4)).
#[global] Instance openflag4_codec : Codec zdr_openflag4. Proof. codec zdr_openflag4. Defined.
#[global] Instance openflag4_blank : Blank zdr_openflag4 zero_openflag4. Proof. blank zdr_openflag4. Qed.

Definition zdr_limit_by4 : proc Z := zdr_enum.
Record nfs_modified_limit4 := mknfs_modified_limit4 {
  nfs_modified_limit4_num_blocks : Z; nfs_modified_limit4_bytes_per_block : Z
}.
Definition zero_nfs_modified_limit4 : nfs_modified_limit4 := mknfs_modified_limit4 0 0.
Definition fields_nfs_modified_limit4 (x : nfs_modified_limit4) := (nfs_modified_limit4_num_blocks x,
  nfs_modified_limit4_bytes_per_block x).
Definition make_nfs_modified_limit4 (t : (Z * Z)) : nfs_modified_limit4 := mknfs_modified_limit4 t.1 t.2.
#[global] Instance nfs_modified_limit4_iso : Iso fields_nfs_modified_limit4 make_nfs_modified_limit4. Proof. iso. Qed.
Definition zdr_nfs_modified_limit4 : proc nfs_modified_limit4 := zdr_via fields_nfs_modified_limit4
  make_nfs_modified_limit4 (zdr_u_int >>> zdr_u_int).
#[global] Instance nfs_modified_limit4_codec : Codec zdr_nfs_modified_limit4. Proof. codec zdr_nfs_modified_limit4. Defined.
#[global] Instance nfs_modified_limit4_blank : Blank zdr_nfs_modified_limit4 zero_nfs_modified_limit4. Proof. blank
  zdr_nfs_modified_limit4. Qed.
#[global] Instance nfs_modified_limit4_safe : Safe zdr_nfs_modified_limit4. Proof. safe zdr_nfs_modified_limit4. Qed.

Inductive nfs_space_limit4_union := nfs_space_limit4_cleared | nfs_space_limit4_filesize (x : Z) |
  nfs_space_limit4_mod_blocks (x : nfs_modified_limit4).
Record nfs_space_limit4 := mknfs_space_limit4 { nfs_space_limit4_limitby : Z; nfs_space_limit4_u : nfs_space_limit4_union }.
Definition zero_nfs_space_limit4 : nfs_space_limit4 := mknfs_space_limit4 0 nfs_space_limit4_cleared.
Definition fields_nfs_space_limit4 (x : nfs_space_limit4) := (nfs_space_limit4_limitby x, nfs_space_limit4_u x).
Definition make_nfs_space_limit4 (t : (Z * nfs_space_limit4_union)) : nfs_space_limit4 := mknfs_space_limit4 t.1 t.2.
#[global] Instance nfs_space_limit4_iso : Iso fields_nfs_space_limit4 make_nfs_space_limit4. Proof. iso. Qed.
Definition as_nfs_space_limit4_filesize (u : nfs_space_limit4_union) : Z := match u with nfs_space_limit4_filesize x => x
  | _ => 0 end.
#[global] Instance nfs_space_limit4_filesize_member : Variant as_nfs_space_limit4_filesize nfs_space_limit4_filesize.
  Proof. done. Qed.
Definition as_nfs_space_limit4_mod_blocks (u : nfs_space_limit4_union) : nfs_modified_limit4 := match u with
  nfs_space_limit4_mod_blocks x => x | _ => zero_nfs_modified_limit4 end.
#[global] Instance nfs_space_limit4_mod_blocks_member : Variant as_nfs_space_limit4_mod_blocks
  nfs_space_limit4_mod_blocks. Proof. done. Qed.
Definition case_nfs_space_limit4 (d : Z) : proc nfs_space_limit4_union :=
  if (d =? NFS_LIMIT_SIZE) then zdr_member as_nfs_space_limit4_filesize nfs_space_limit4_filesize zdr_uint64_t
    else if (d =? NFS_LIMIT_BLOCKS) then zdr_member as_nfs_space_limit4_mod_blocks nfs_space_limit4_mod_blocks
    zdr_nfs_modified_limit4
  else zdr_fail.
#[global] Instance case_nfs_space_limit4_codec d : Codec (case_nfs_space_limit4 d). Proof. codec case_nfs_space_limit4.
  Defined.
#[global] Instance case_nfs_space_limit4_blank d : Blank (case_nfs_space_limit4 d) nfs_space_limit4_cleared. Proof. blank
  case_nfs_space_limit4. Qed.
#[global] Instance case_nfs_space_limit4_safe d : Safe (case_nfs_space_limit4 d). Proof. safe case_nfs_space_limit4. Qed.
Definition zdr_nfs_space_limit4 : proc nfs_space_limit4 := zdr_via fields_nfs_space_limit4 make_nfs_space_limit4 (zdr_dseq
  zdr_limit_by4 (case_nfs_space_limit4)).
#[global] Instance nfs_space_limit4_codec : Codec zdr_nfs_space_limit4. Proof. codec zdr_nfs_space_limit4. Defined.
#[global] Instance nfs_space_limit4_blank : Blank zdr_nfs_space_limit4 zero_nfs_space_limit4. Proof. blank
  zdr_nfs_space_limit4. Qed.
#[global] Instance nfs_space_limit4_safe : Safe zdr_nfs_space_limit4. Proof. safe zdr_nfs_space_limit4. Qed.

Definition zdr_open_delegation_type4 : proc Z := zdr_enum.
Definition zdr_open_claim_type4 : proc Z := zdr_enum.
Record open_claim_delegate_cur4 := mkopen_claim_delegate_cur4 {
  open_claim_delegate_cur4_delegate_stateid : stateid4; open_claim_delegate_cur4_file : ptr * Z
}.
Definition zero_open_claim_delegate_cur4 : open_claim_delegate_cur4 := mkopen_claim_delegate_cur4 zero_stateid4 (NULL, 0).
Definition fields_open_claim_delegate_cur4 (x : open_claim_delegate_cur4) := (open_claim_delegate_cur4_delegate_stateid x,
  open_claim_delegate_cur4_file x).
Definition make_open_claim_delegate_cur4 (t : (stateid4 * (ptr * Z))) : open_claim_delegate_cur4 :=
  mkopen_claim_delegate_cur4 t.1 t.2.
#[global] Instance open_claim_delegate_cur4_iso : Iso fields_open_claim_delegate_cur4 make_open_claim_delegate_cur4.
  Proof. iso. Qed.
Definition zdr_open_claim_delegate_cur4 : proc open_claim_delegate_cur4 := zdr_via fields_open_claim_delegate_cur4
  make_open_claim_delegate_cur4 (zdr_stateid4 >>> zdr_component4).
#[global] Instance open_claim_delegate_cur4_codec : Codec zdr_open_claim_delegate_cur4. Proof. codec
  zdr_open_claim_delegate_cur4. Defined.
#[global] Instance open_claim_delegate_cur4_blank : Blank zdr_open_claim_delegate_cur4 zero_open_claim_delegate_cur4.
  Proof. blank zdr_open_claim_delegate_cur4. Qed.

Inductive open_claim4_union := open_claim4_cleared | open_claim4_file (x : ptr * Z) | open_claim4_delegate_type (x : Z) |
  open_claim4_delegate_cur_info (x : open_claim_delegate_cur4) | open_claim4_file_delegate_prev (x : ptr * Z) |
  open_claim4_oc_delegate_stateid (x : stateid4).
Record open_claim4 := mkopen_claim4 { open_claim4_claim : Z; open_claim4_u : open_claim4_union }.
Definition zero_open_claim4 : open_claim4 := mkopen_claim4 0 open_claim4_cleared.
Definition fields_open_claim4 (x : open_claim4) := (open_claim4_claim x, open_claim4_u x).
Definition make_open_claim4 (t : (Z * open_claim4_union)) : open_claim4 := mkopen_claim4 t.1 t.2.
#[global] Instance open_claim4_iso : Iso fields_open_claim4 make_open_claim4. Proof. iso. Qed.
Definition as_open_claim4_file (u : open_claim4_union) : ptr * Z := match u with open_claim4_file x |
  open_claim4_file_delegate_prev x => x | _ => (NULL, 0) end.
#[global] Instance open_claim4_file_member : Variant as_open_claim4_file open_claim4_file. Proof. done. Qed.
Definition as_open_claim4_delegate_type (u : open_claim4_union) : Z := match u with open_claim4_delegate_type x => x | _
  => 0 end.
#[global] Instance open_claim4_delegate_type_member : Variant as_open_claim4_delegate_type open_claim4_delegate_type.
  Proof. done. Qed.
Definition as_open_claim4_delegate_cur_info (u : open_claim4_union) : open_claim_delegate_cur4 := match u with
  open_claim4_delegate_cur_info x => x | _ => zero_open_claim_delegate_cur4 end.
#[global] Instance open_claim4_delegate_cur_info_member : Variant as_open_claim4_delegate_cur_info
  open_claim4_delegate_cur_info. Proof. done. Qed.
Definition as_open_claim4_file_delegate_prev (u : open_claim4_union) : ptr * Z := match u with open_claim4_file x |
  open_claim4_file_delegate_prev x => x | _ => (NULL, 0) end.
#[global] Instance open_claim4_file_delegate_prev_member : Variant as_open_claim4_file_delegate_prev
  open_claim4_file_delegate_prev. Proof. done. Qed.
Definition as_open_claim4_oc_delegate_stateid (u : open_claim4_union) : stateid4 := match u with
  open_claim4_oc_delegate_stateid x => x | _ => zero_stateid4 end.
#[global] Instance open_claim4_oc_delegate_stateid_member : Variant as_open_claim4_oc_delegate_stateid
  open_claim4_oc_delegate_stateid. Proof. done. Qed.
Definition case_open_claim4 (d : Z) : proc open_claim4_union :=
  if (d =? CLAIM_NULL) then zdr_member as_open_claim4_file open_claim4_file zdr_component4
    else if (d =? CLAIM_PREVIOUS) then zdr_member as_open_claim4_delegate_type open_claim4_delegate_type
    zdr_open_delegation_type4
    else if (d =? CLAIM_DELEGATE_CUR) then zdr_member as_open_claim4_delegate_cur_info open_claim4_delegate_cur_info
    zdr_open_claim_delegate_cur4
    else if (d =? CLAIM_DELEGATE_PREV) then zdr_member as_open_claim4_file_delegate_prev open_claim4_file_delegate_prev
    zdr_component4
  else if (d =? CLAIM_FH) then zdr_void
  else if (d =? CLAIM_DELEG_PREV_FH) then zdr_void
    else if (d =? CLAIM_DELEG_CUR_FH) then zdr_member as_open_claim4_oc_delegate_stateid open_claim4_oc_delegate_stateid
    zdr_stateid4
  else zdr_fail.
#[global] Instance case_open_claim4_codec d : Codec (case_open_claim4 d). Proof. codec case_open_claim4. Defined.
#[global] Instance case_open_claim4_blank d : Blank (case_open_claim4 d) open_claim4_cleared. Proof. blank
  case_open_claim4. Qed.
Definition zdr_open_claim4 : proc open_claim4 := zdr_via fields_open_claim4 make_open_claim4 (zdr_dseq
  zdr_open_claim_type4 (case_open_claim4)).
#[global] Instance open_claim4_codec : Codec zdr_open_claim4. Proof. codec zdr_open_claim4. Defined.
#[global] Instance open_claim4_blank : Blank zdr_open_claim4 zero_open_claim4. Proof. blank zdr_open_claim4. Qed.

Record OPEN4args := mkOPEN4args {
    OPEN4args_seqid : Z; OPEN4args_share_access : Z; OPEN4args_share_deny : Z; OPEN4args_owner : open_owner4;
    OPEN4args_openhow : openflag4; OPEN4args_claim : open_claim4
}.
Definition zero_OPEN4args : OPEN4args := mkOPEN4args 0 0 0 zero_open_owner4 zero_openflag4 zero_open_claim4.
Definition fields_OPEN4args (x : OPEN4args) := (OPEN4args_seqid x, (OPEN4args_share_access x, (OPEN4args_share_deny x,
  (OPEN4args_owner x, (OPEN4args_openhow x, OPEN4args_claim x))))).
Definition make_OPEN4args (t : (Z * (Z * (Z * (open_owner4 * (openflag4 * open_claim4)))))) : OPEN4args := mkOPEN4args t.1
  t.2.1 t.2.2.1 t.2.2.2.1 t.2.2.2.2.1 t.2.2.2.2.2.
#[global] Instance OPEN4args_iso : Iso fields_OPEN4args make_OPEN4args. Proof. iso. Qed.
Definition zdr_OPEN4args : proc OPEN4args := zdr_via fields_OPEN4args make_OPEN4args (zdr_seqid4 >>> zdr_u_int >>>
  zdr_u_int >>> zdr_open_owner4 >>> zdr_openflag4 >>> zdr_open_claim4).
#[global] Instance OPEN4args_codec : Codec zdr_OPEN4args. Proof. codec zdr_OPEN4args. Defined.
#[global] Instance OPEN4args_blank : Blank zdr_OPEN4args zero_OPEN4args. Proof. blank zdr_OPEN4args. Qed.

Record open_read_delegation4 := mkopen_read_delegation4 {
  open_read_delegation4_stateid : stateid4; open_read_delegation4_recall : Z; open_read_delegation4_permissions : nfsace4
}.
Definition zero_open_read_delegation4 : open_read_delegation4 := mkopen_read_delegation4 zero_stateid4 0 zero_nfsace4.
Definition fields_open_read_delegation4 (x : open_read_delegation4) := (open_read_delegation4_stateid x,
  (open_read_delegation4_recall x, open_read_delegation4_permissions x)).
Definition make_open_read_delegation4 (t : (stateid4 * (Z * nfsace4))) : open_read_delegation4 := mkopen_read_delegation4
  t.1 t.2.1 t.2.2.
#[global] Instance open_read_delegation4_iso : Iso fields_open_read_delegation4 make_open_read_delegation4. Proof. iso. Qed.
Definition zdr_open_read_delegation4 : proc open_read_delegation4 := zdr_via fields_open_read_delegation4
  make_open_read_delegation4 (zdr_stateid4 >>> zdr_bool >>> zdr_nfsace4).
#[global] Instance open_read_delegation4_codec : Codec zdr_open_read_delegation4. Proof. codec zdr_open_read_delegation4.
  Defined.
#[global] Instance open_read_delegation4_blank : Blank zdr_open_read_delegation4 zero_open_read_delegation4. Proof. blank
  zdr_open_read_delegation4. Qed.

Record open_write_delegation4 := mkopen_write_delegation4 {
    open_write_delegation4_stateid : stateid4; open_write_delegation4_recall : Z; open_write_delegation4_space_limit :
    nfs_space_limit4; open_write_delegation4_permissions : nfsace4
}.
Definition zero_open_write_delegation4 : open_write_delegation4 := mkopen_write_delegation4 zero_stateid4 0
  zero_nfs_space_limit4 zero_nfsace4.
Definition fields_open_write_delegation4 (x : open_write_delegation4) := (open_write_delegation4_stateid x,
  (open_write_delegation4_recall x, (open_write_delegation4_space_limit x, open_write_delegation4_permissions x))).
Definition make_open_write_delegation4 (t : (stateid4 * (Z * (nfs_space_limit4 * nfsace4)))) : open_write_delegation4 :=
  mkopen_write_delegation4 t.1 t.2.1 t.2.2.1 t.2.2.2.
#[global] Instance open_write_delegation4_iso : Iso fields_open_write_delegation4 make_open_write_delegation4. Proof. iso.
  Qed.
Definition zdr_open_write_delegation4 : proc open_write_delegation4 := zdr_via fields_open_write_delegation4
  make_open_write_delegation4 (zdr_stateid4 >>> zdr_bool >>> zdr_nfs_space_limit4 >>> zdr_nfsace4).
#[global] Instance open_write_delegation4_codec : Codec zdr_open_write_delegation4. Proof. codec
  zdr_open_write_delegation4. Defined.
#[global] Instance open_write_delegation4_blank : Blank zdr_open_write_delegation4 zero_open_write_delegation4. Proof.
  blank zdr_open_write_delegation4. Qed.

Inductive open_delegation4_union := open_delegation4_cleared | open_delegation4_read (x : open_read_delegation4) |
  open_delegation4_write (x : open_write_delegation4).
Record open_delegation4 := mkopen_delegation4 { open_delegation4_delegation_type : Z; open_delegation4_u :
  open_delegation4_union }.
Definition zero_open_delegation4 : open_delegation4 := mkopen_delegation4 0 open_delegation4_cleared.
Definition fields_open_delegation4 (x : open_delegation4) := (open_delegation4_delegation_type x, open_delegation4_u x).
Definition make_open_delegation4 (t : (Z * open_delegation4_union)) : open_delegation4 := mkopen_delegation4 t.1 t.2.
#[global] Instance open_delegation4_iso : Iso fields_open_delegation4 make_open_delegation4. Proof. iso. Qed.
Definition as_open_delegation4_read (u : open_delegation4_union) : open_read_delegation4 := match u with
  open_delegation4_read x => x | _ => zero_open_read_delegation4 end.
#[global] Instance open_delegation4_read_member : Variant as_open_delegation4_read open_delegation4_read. Proof. done. Qed.
Definition as_open_delegation4_write (u : open_delegation4_union) : open_write_delegation4 := match u with
  open_delegation4_write x => x | _ => zero_open_write_delegation4 end.
#[global] Instance open_delegation4_write_member : Variant as_open_delegation4_write open_delegation4_write. Proof. done.
  Qed.
Definition case_open_delegation4 (d : Z) : proc open_delegation4_union :=
  if (d =? OPEN_DELEGATE_NONE) then zdr_void
  else if (d =? OPEN_DELEGATE_READ) then zdr_member as_open_delegation4_read open_delegation4_read zdr_open_read_delegation4
    else if (d =? OPEN_DELEGATE_WRITE) then zdr_member as_open_delegation4_write open_delegation4_write
    zdr_open_write_delegation4
  else zdr_fail.
#[global] Instance case_open_delegation4_codec d : Codec (case_open_delegation4 d). Proof. codec case_open_delegation4.
  Defined.
#[global] Instance case_open_delegation4_blank d : Blank (case_open_delegation4 d) open_delegation4_cleared. Proof. blank
  case_open_delegation4. Qed.
Definition zdr_open_delegation4 : proc open_delegation4 := zdr_via fields_open_delegation4 make_open_delegation4 (zdr_dseq
  zdr_open_delegation_type4 (case_open_delegation4)).
#[global] Instance open_delegation4_codec : Codec zdr_open_delegation4. Proof. codec zdr_open_delegation4. Defined.
#[global] Instance open_delegation4_blank : Blank zdr_open_delegation4 zero_open_delegation4. Proof. blank
  zdr_open_delegation4. Qed.

Record OPEN4resok := mkOPEN4resok {
    OPEN4resok_stateid : stateid4; OPEN4resok_cinfo : change_info4; OPEN4resok_rflags : Z; OPEN4resok_attrset : Z * list
    Z; OPEN4resok_delegation : open_delegation4
}.
Definition zero_OPEN4resok : OPEN4resok := mkOPEN4resok zero_stateid4 zero_change_info4 0 (0, []) zero_open_delegation4.
Definition fields_OPEN4resok (x : OPEN4resok) := (OPEN4resok_stateid x, (OPEN4resok_cinfo x, (OPEN4resok_rflags x,
  (OPEN4resok_attrset x, OPEN4resok_delegation x)))).
Definition make_OPEN4resok (t : (stateid4 * (change_info4 * (Z * ((Z * list Z) * open_delegation4))))) : OPEN4resok :=
  mkOPEN4resok t.1 t.2.1 t.2.2.1 t.2.2.2.1 t.2.2.2.2.
#[global] Instance OPEN4resok_iso : Iso fields_OPEN4resok make_OPEN4resok. Proof. iso. Qed.
Definition zdr_OPEN4resok : proc OPEN4resok := zdr_via fields_OPEN4resok make_OPEN4resok (zdr_stateid4 >>>
  zdr_change_info4 >>> zdr_u_int >>> zdr_bitmap4 >>> zdr_open_delegation4).
#[global] Instance OPEN4resok_codec : Codec zdr_OPEN4resok. Proof. codec zdr_OPEN4resok. Defined.
#[global] Instance OPEN4resok_blank : Blank zdr_OPEN4resok zero_OPEN4resok. Proof. blank zdr_OPEN4resok. Qed.

Inductive OPEN4res_union := OPEN4res_cleared | OPEN4res_resok4 (x : OPEN4resok).
Record OPEN4res := mkOPEN4res { OPEN4res_status : Z; OPEN4res_u : OPEN4res_union }.
Definition zero_OPEN4res : OPEN4res := mkOPEN4res 0 OPEN4res_cleared.
Definition fields_OPEN4res (x : OPEN4res) := (OPEN4res_status x, OPEN4res_u x).
Definition make_OPEN4res (t : (Z * OPEN4res_union)) : OPEN4res := mkOPEN4res t.1 t.2.
#[global] Instance OPEN4res_iso : Iso fields_OPEN4res make_OPEN4res. Proof. iso. Qed.
Definition as_OPEN4res_resok4 (u : OPEN4res_union) : OPEN4resok := match u with OPEN4res_resok4 x => x | _ =>
  zero_OPEN4resok end.
#[global] Instance OPEN4res_resok4_member : Variant as_OPEN4res_resok4 OPEN4res_resok4. Proof. done. Qed.
Definition case_OPEN4res (d : Z) : proc OPEN4res_union :=
  if (d =? NFS4_OK) then zdr_member as_OPEN4res_resok4 OPEN4res_resok4 zdr_OPEN4resok
  else zdr_void.
#[global] Instance case_OPEN4res_codec d : Codec (case_OPEN4res d). Proof. codec case_OPEN4res. Defined.
#[global] Instance case_OPEN4res_blank d : Blank (case_OPEN4res d) OPEN4res_cleared. Proof. blank case_OPEN4res. Qed.
Definition zdr_OPEN4res : proc OPEN4res := zdr_via fields_OPEN4res make_OPEN4res (zdr_dseq zdr_nfsstat4 (case_OPEN4res)).
#[global] Instance OPEN4res_codec : Codec zdr_OPEN4res. Proof. codec zdr_OPEN4res. Defined.
#[global] Instance OPEN4res_blank : Blank zdr_OPEN4res zero_OPEN4res. Proof. blank zdr_OPEN4res. Qed.

Record OPENATTR4args := mkOPENATTR4args {
  OPENATTR4args_createdir : Z
}.
Definition zero_OPENATTR4args : OPENATTR4args := mkOPENATTR4args 0.
Definition fields_OPENATTR4args (x : OPENATTR4args) := OPENATTR4args_createdir x.
Definition make_OPENATTR4args (t : Z) : OPENATTR4args := mkOPENATTR4args t.
#[global] Instance OPENATTR4args_iso : Iso fields_OPENATTR4args make_OPENATTR4args. Proof. iso. Qed.
Definition zdr_OPENATTR4args : proc OPENATTR4args := zdr_via fields_OPENATTR4args make_OPENATTR4args (zdr_bool).
#[global] Instance OPENATTR4args_codec : Codec zdr_OPENATTR4args. Proof. codec zdr_OPENATTR4args. Defined.
#[global] Instance OPENATTR4args_blank : Blank zdr_OPENATTR4args zero_OPENATTR4args. Proof. blank zdr_OPENATTR4args. Qed.
#[global] Instance OPENATTR4args_safe : Safe zdr_OPENATTR4args. Proof. safe zdr_OPENATTR4args. Qed.

Record OPENATTR4res := mkOPENATTR4res {
  OPENATTR4res_status : Z
}.
Definition zero_OPENATTR4res : OPENATTR4res := mkOPENATTR4res 0.
Definition fields_OPENATTR4res (x : OPENATTR4res) := OPENATTR4res_status x.
Definition make_OPENATTR4res (t : Z) : OPENATTR4res := mkOPENATTR4res t.
#[global] Instance OPENATTR4res_iso : Iso fields_OPENATTR4res make_OPENATTR4res. Proof. iso. Qed.
Definition zdr_OPENATTR4res : proc OPENATTR4res := zdr_via fields_OPENATTR4res make_OPENATTR4res (zdr_nfsstat4).
#[global] Instance OPENATTR4res_codec : Codec zdr_OPENATTR4res. Proof. codec zdr_OPENATTR4res. Defined.
#[global] Instance OPENATTR4res_blank : Blank zdr_OPENATTR4res zero_OPENATTR4res. Proof. blank zdr_OPENATTR4res. Qed.
#[global] Instance OPENATTR4res_safe : Safe zdr_OPENATTR4res. Proof. safe zdr_OPENATTR4res. Qed.

Record OPEN_CONFIRM4args := mkOPEN_CONFIRM4args {
  OPEN_CONFIRM4args_open_stateid : stateid4; OPEN_CONFIRM4args_seqid : Z
}.
Definition zero_OPEN_CONFIRM4args : OPEN_CONFIRM4args := mkOPEN_CONFIRM4args zero_stateid4 0.
Definition fields_OPEN_CONFIRM4args (x : OPEN_CONFIRM4args) := (OPEN_CONFIRM4args_open_stateid x, OPEN_CONFIRM4args_seqid x).
Definition make_OPEN_CONFIRM4args (t : (stateid4 * Z)) : OPEN_CONFIRM4args := mkOPEN_CONFIRM4args t.1 t.2.
#[global] Instance OPEN_CONFIRM4args_iso : Iso fields_OPEN_CONFIRM4args make_OPEN_CONFIRM4args. Proof. iso. Qed.
Definition zdr_OPEN_CONFIRM4args : proc OPEN_CONFIRM4args := zdr_via fields_OPEN_CONFIRM4args make_OPEN_CONFIRM4args
  (zdr_stateid4 >>> zdr_seqid4).
#[global] Instance OPEN_CONFIRM4args_codec : Codec zdr_OPEN_CONFIRM4args. Proof. codec zdr_OPEN_CONFIRM4args. Defined.
#[global] Instance OPEN_CONFIRM4args_blank : Blank zdr_OPEN_CONFIRM4args zero_OPEN_CONFIRM4args. Proof. blank
  zdr_OPEN_CONFIRM4args. Qed.

Record OPEN_CONFIRM4resok := mkOPEN_CONFIRM4resok {
  OPEN_CONFIRM4resok_open_stateid : stateid4
}.
Definition zero_OPEN_CONFIRM4resok : OPEN_CONFIRM4resok := mkOPEN_CONFIRM4resok zero_stateid4.
Definition fields_OPEN_CONFIRM4resok (x : OPEN_CONFIRM4resok) := OPEN_CONFIRM4resok_open_stateid x.
Definition make_OPEN_CONFIRM4resok (t : stateid4) : OPEN_CONFIRM4resok := mkOPEN_CONFIRM4resok t.
#[global] Instance OPEN_CONFIRM4resok_iso : Iso fields_OPEN_CONFIRM4resok make_OPEN_CONFIRM4resok. Proof. iso. Qed.
Definition zdr_OPEN_CONFIRM4resok : proc OPEN_CONFIRM4resok := zdr_via fields_OPEN_CONFIRM4resok make_OPEN_CONFIRM4resok
  (zdr_stateid4).
#[global] Instance OPEN_CONFIRM4resok_codec : Codec zdr_OPEN_CONFIRM4resok. Proof. codec zdr_OPEN_CONFIRM4resok. Defined.
#[global] Instance OPEN_CONFIRM4resok_blank : Blank zdr_OPEN_CONFIRM4resok zero_OPEN_CONFIRM4resok. Proof. blank
  zdr_OPEN_CONFIRM4resok. Qed.

Inductive OPEN_CONFIRM4res_union := OPEN_CONFIRM4res_cleared | OPEN_CONFIRM4res_resok4 (x : OPEN_CONFIRM4resok).
Record OPEN_CONFIRM4res := mkOPEN_CONFIRM4res { OPEN_CONFIRM4res_status : Z; OPEN_CONFIRM4res_u : OPEN_CONFIRM4res_union }.
Definition zero_OPEN_CONFIRM4res : OPEN_CONFIRM4res := mkOPEN_CONFIRM4res 0 OPEN_CONFIRM4res_cleared.
Definition fields_OPEN_CONFIRM4res (x : OPEN_CONFIRM4res) := (OPEN_CONFIRM4res_status x, OPEN_CONFIRM4res_u x).
Definition make_OPEN_CONFIRM4res (t : (Z * OPEN_CONFIRM4res_union)) : OPEN_CONFIRM4res := mkOPEN_CONFIRM4res t.1 t.2.
#[global] Instance OPEN_CONFIRM4res_iso : Iso fields_OPEN_CONFIRM4res make_OPEN_CONFIRM4res. Proof. iso. Qed.
Definition as_OPEN_CONFIRM4res_resok4 (u : OPEN_CONFIRM4res_union) : OPEN_CONFIRM4resok := match u with
  OPEN_CONFIRM4res_resok4 x => x | _ => zero_OPEN_CONFIRM4resok end.
#[global] Instance OPEN_CONFIRM4res_resok4_member : Variant as_OPEN_CONFIRM4res_resok4 OPEN_CONFIRM4res_resok4. Proof.
  done. Qed.
Definition case_OPEN_CONFIRM4res (d : Z) : proc OPEN_CONFIRM4res_union :=
  if (d =? NFS4_OK) then zdr_member as_OPEN_CONFIRM4res_resok4 OPEN_CONFIRM4res_resok4 zdr_OPEN_CONFIRM4resok
  else zdr_void.
#[global] Instance case_OPEN_CONFIRM4res_codec d : Codec (case_OPEN_CONFIRM4res d). Proof. codec case_OPEN_CONFIRM4res.
  Defined.
#[global] Instance case_OPEN_CONFIRM4res_blank d : Blank (case_OPEN_CONFIRM4res d) OPEN_CONFIRM4res_cleared. Proof. blank
  case_OPEN_CONFIRM4res. Qed.
Definition zdr_OPEN_CONFIRM4res : proc OPEN_CONFIRM4res := zdr_via fields_OPEN_CONFIRM4res make_OPEN_CONFIRM4res (zdr_dseq
  zdr_nfsstat4 (case_OPEN_CONFIRM4res)).
#[global] Instance OPEN_CONFIRM4res_codec : Codec zdr_OPEN_CONFIRM4res. Proof. codec zdr_OPEN_CONFIRM4res. Defined.
#[global] Instance OPEN_CONFIRM4res_blank : Blank zdr_OPEN_CONFIRM4res zero_OPEN_CONFIRM4res. Proof. blank
  zdr_OPEN_CONFIRM4res. Qed.

Record OPEN_DOWNGRADE4args := mkOPEN_DOWNGRADE4args {
    OPEN_DOWNGRADE4args_open_stateid : stateid4; OPEN_DOWNGRADE4args_seqid : Z; OPEN_DOWNGRADE4args_share_access : Z;
    OPEN_DOWNGRADE4args_share_deny : Z
}.
Definition zero_OPEN_DOWNGRADE4args : OPEN_DOWNGRADE4args := mkOPEN_DOWNGRADE4args zero_stateid4 0 0 0.
Definition fields_OPEN_DOWNGRADE4args (x : OPEN_DOWNGRADE4args) := (OPEN_DOWNGRADE4args_open_stateid x,
  (OPEN_DOWNGRADE4args_seqid x, (OPEN_DOWNGRADE4args_share_access x, OPEN_DOWNGRADE4args_share_deny x))).
Definition make_OPEN_DOWNGRADE4args (t : (stateid4 * (Z * (Z * Z)))) : OPEN_DOWNGRADE4args := mkOPEN_DOWNGRADE4args t.1
  t.2.1 t.2.2.1 t.2.2.2.
#[global] Instance OPEN_DOWNGRADE4args_iso : Iso fields_OPEN_DOWNGRADE4args make_OPEN_DOWNGRADE4args. Proof. iso. Qed.
Definition zdr_OPEN_DOWNGRADE4args : proc OPEN_DOWNGRADE4args := zdr_via fields_OPEN_DOWNGRADE4args
  make_OPEN_DOWNGRADE4args (zdr_stateid4 >>> zdr_seqid4 >>> zdr_u_int >>> zdr_u_int).
#[global] Instance OPEN_DOWNGRADE4args_codec : Codec zdr_OPEN_DOWNGRADE4args. Proof. codec zdr_OPEN_DOWNGRADE4args. Defined.
#[global] Instance OPEN_DOWNGRADE4args_blank : Blank zdr_OPEN_DOWNGRADE4args zero_OPEN_DOWNGRADE4args. Proof. blank
  zdr_OPEN_DOWNGRADE4args. Qed.

Record OPEN_DOWNGRADE4resok := mkOPEN_DOWNGRADE4resok {
  OPEN_DOWNGRADE4resok_open_stateid : stateid4
}.
Definition zero_OPEN_DOWNGRADE4resok : OPEN_DOWNGRADE4resok := mkOPEN_DOWNGRADE4resok zero_stateid4.
Definition fields_OPEN_DOWNGRADE4resok (x : OPEN_DOWNGRADE4resok) := OPEN_DOWNGRADE4resok_open_stateid x.
Definition make_OPEN_DOWNGRADE4resok (t : stateid4) : OPEN_DOWNGRADE4resok := mkOPEN_DOWNGRADE4resok t.
#[global] Instance OPEN_DOWNGRADE4resok_iso : Iso fields_OPEN_DOWNGRADE4resok make_OPEN_DOWNGRADE4resok. Proof. iso. Qed.
Definition zdr_OPEN_DOWNGRADE4resok : proc OPEN_DOWNGRADE4resok := zdr_via fields_OPEN_DOWNGRADE4resok
  make_OPEN_DOWNGRADE4resok (zdr_stateid4).
#[global] Instance OPEN_DOWNGRADE4resok_codec : Codec zdr_OPEN_DOWNGRADE4resok. Proof. codec zdr_OPEN_DOWNGRADE4resok.
  Defined.
#[global] Instance OPEN_DOWNGRADE4resok_blank : Blank zdr_OPEN_DOWNGRADE4resok zero_OPEN_DOWNGRADE4resok. Proof. blank
  zdr_OPEN_DOWNGRADE4resok. Qed.

Inductive OPEN_DOWNGRADE4res_union := OPEN_DOWNGRADE4res_cleared | OPEN_DOWNGRADE4res_resok4 (x : OPEN_DOWNGRADE4resok).
Record OPEN_DOWNGRADE4res := mkOPEN_DOWNGRADE4res { OPEN_DOWNGRADE4res_status : Z; OPEN_DOWNGRADE4res_u :
  OPEN_DOWNGRADE4res_union }.
Definition zero_OPEN_DOWNGRADE4res : OPEN_DOWNGRADE4res := mkOPEN_DOWNGRADE4res 0 OPEN_DOWNGRADE4res_cleared.
Definition fields_OPEN_DOWNGRADE4res (x : OPEN_DOWNGRADE4res) := (OPEN_DOWNGRADE4res_status x, OPEN_DOWNGRADE4res_u x).
Definition make_OPEN_DOWNGRADE4res (t : (Z * OPEN_DOWNGRADE4res_union)) : OPEN_DOWNGRADE4res := mkOPEN_DOWNGRADE4res t.1 t.2.
#[global] Instance OPEN_DOWNGRADE4res_iso : Iso fields_OPEN_DOWNGRADE4res make_OPEN_DOWNGRADE4res. Proof. iso. Qed.
Definition as_OPEN_DOWNGRADE4res_resok4 (u : OPEN_DOWNGRADE4res_union) : OPEN_DOWNGRADE4resok := match u with
  OPEN_DOWNGRADE4res_resok4 x => x | _ => zero_OPEN_DOWNGRADE4resok end.
#[global] Instance OPEN_DOWNGRADE4res_resok4_member : Variant as_OPEN_DOWNGRADE4res_resok4 OPEN_DOWNGRADE4res_resok4.
  Proof. done. Qed.
Definition case_OPEN_DOWNGRADE4res (d : Z) : proc OPEN_DOWNGRADE4res_union :=
  if (d =? NFS4_OK) then zdr_member as_OPEN_DOWNGRADE4res_resok4 OPEN_DOWNGRADE4res_resok4 zdr_OPEN_DOWNGRADE4resok
  else zdr_void.
#[global] Instance case_OPEN_DOWNGRADE4res_codec d : Codec (case_OPEN_DOWNGRADE4res d). Proof. codec
  case_OPEN_DOWNGRADE4res. Defined.
#[global] Instance case_OPEN_DOWNGRADE4res_blank d : Blank (case_OPEN_DOWNGRADE4res d) OPEN_DOWNGRADE4res_cleared. Proof.
  blank case_OPEN_DOWNGRADE4res. Qed.
Definition zdr_OPEN_DOWNGRADE4res : proc OPEN_DOWNGRADE4res := zdr_via fields_OPEN_DOWNGRADE4res make_OPEN_DOWNGRADE4res
  (zdr_dseq zdr_nfsstat4 (case_OPEN_DOWNGRADE4res)).
#[global] Instance OPEN_DOWNGRADE4res_codec : Codec zdr_OPEN_DOWNGRADE4res. Proof. codec zdr_OPEN_DOWNGRADE4res. Defined.
#[global] Instance OPEN_DOWNGRADE4res_blank : Blank zdr_OPEN_DOWNGRADE4res zero_OPEN_DOWNGRADE4res. Proof. blank
  zdr_OPEN_DOWNGRADE4res. Qed.

Record PUTFH4args := mkPUTFH4args {
  PUTFH4args_object : ptr * Z
}.
Definition zero_PUTFH4args : PUTFH4args := mkPUTFH4args (NULL, 0).
Definition fields_PUTFH4args (x : PUTFH4args) := PUTFH4args_object x.
Definition make_PUTFH4args (t : (ptr * Z)) : PUTFH4args := mkPUTFH4args t.
#[global] Instance PUTFH4args_iso : Iso fields_PUTFH4args make_PUTFH4args. Proof. iso. Qed.
Definition zdr_PUTFH4args : proc PUTFH4args := zdr_via fields_PUTFH4args make_PUTFH4args (zdr_nfs_fh4).
#[global] Instance PUTFH4args_codec : Codec zdr_PUTFH4args. Proof. codec zdr_PUTFH4args. Defined.
#[global] Instance PUTFH4args_blank : Blank zdr_PUTFH4args zero_PUTFH4args. Proof. blank zdr_PUTFH4args. Qed.

Record PUTFH4res := mkPUTFH4res {
  PUTFH4res_status : Z
}.
Definition zero_PUTFH4res : PUTFH4res := mkPUTFH4res 0.
Definition fields_PUTFH4res (x : PUTFH4res) := PUTFH4res_status x.
Definition make_PUTFH4res (t : Z) : PUTFH4res := mkPUTFH4res t.
#[global] Instance PUTFH4res_iso : Iso fields_PUTFH4res make_PUTFH4res. Proof. iso. Qed.
Definition zdr_PUTFH4res : proc PUTFH4res := zdr_via fields_PUTFH4res make_PUTFH4res (zdr_nfsstat4).
#[global] Instance PUTFH4res_codec : Codec zdr_PUTFH4res. Proof. codec zdr_PUTFH4res. Defined.
#[global] Instance PUTFH4res_blank : Blank zdr_PUTFH4res zero_PUTFH4res. Proof. blank zdr_PUTFH4res. Qed.
#[global] Instance PUTFH4res_safe : Safe zdr_PUTFH4res. Proof. safe zdr_PUTFH4res. Qed.

Record PUTPUBFH4res := mkPUTPUBFH4res {
  PUTPUBFH4res_status : Z
}.
Definition zero_PUTPUBFH4res : PUTPUBFH4res := mkPUTPUBFH4res 0.
Definition fields_PUTPUBFH4res (x : PUTPUBFH4res) := PUTPUBFH4res_status x.
Definition make_PUTPUBFH4res (t : Z) : PUTPUBFH4res := mkPUTPUBFH4res t.
#[global] Instance PUTPUBFH4res_iso : Iso fields_PUTPUBFH4res make_PUTPUBFH4res. Proof. iso. Qed.
Definition zdr_PUTPUBFH4res : proc PUTPUBFH4res := zdr_via fields_PUTPUBFH4res make_PUTPUBFH4res (zdr_nfsstat4).
#[global] Instance PUTPUBFH4res_codec : Codec zdr_PUTPUBFH4res. Proof. codec zdr_PUTPUBFH4res. Defined.
#[global] Instance PUTPUBFH4res_blank : Blank zdr_PUTPUBFH4res zero_PUTPUBFH4res. Proof. blank zdr_PUTPUBFH4res. Qed.
#[global] Instance PUTPUBFH4res_safe : Safe zdr_PUTPUBFH4res. Proof. safe zdr_PUTPUBFH4res. Qed.

Record PUTROOTFH4res := mkPUTROOTFH4res {
  PUTROOTFH4res_status : Z
}.
Definition zero_PUTROOTFH4res : PUTROOTFH4res := mkPUTROOTFH4res 0.
Definition fields_PUTROOTFH4res (x : PUTROOTFH4res) := PUTROOTFH4res_status x.
Definition make_PUTROOTFH4res (t : Z) : PUTROOTFH4res := mkPUTROOTFH4res t.
#[global] Instance PUTROOTFH4res_iso : Iso fields_PUTROOTFH4res make_PUTROOTFH4res. Proof. iso. Qed.
Definition zdr_PUTROOTFH4res : proc PUTROOTFH4res := zdr_via fields_PUTROOTFH4res make_PUTROOTFH4res (zdr_nfsstat4).
#[global] Instance PUTROOTFH4res_codec : Codec zdr_PUTROOTFH4res. Proof. codec zdr_PUTROOTFH4res. Defined.
#[global] Instance PUTROOTFH4res_blank : Blank zdr_PUTROOTFH4res zero_PUTROOTFH4res. Proof. blank zdr_PUTROOTFH4res. Qed.
#[global] Instance PUTROOTFH4res_safe : Safe zdr_PUTROOTFH4res. Proof. safe zdr_PUTROOTFH4res. Qed.

Record READ4args := mkREAD4args {
  READ4args_stateid : stateid4; READ4args_offset : Z; READ4args_count : Z
}.
Definition zero_READ4args : READ4args := mkREAD4args zero_stateid4 0 0.
Definition fields_READ4args (x : READ4args) := (READ4args_stateid x, (READ4args_offset x, READ4args_count x)).
Definition make_READ4args (t : (stateid4 * (Z * Z))) : READ4args := mkREAD4args t.1 t.2.1 t.2.2.
#[global] Instance READ4args_iso : Iso fields_READ4args make_READ4args. Proof. iso. Qed.
Definition zdr_READ4args : proc READ4args := zdr_via fields_READ4args make_READ4args (zdr_stateid4 >>> zdr_offset4 >>>
  zdr_count4).
#[global] Instance READ4args_codec : Codec zdr_READ4args. Proof. codec zdr_READ4args. Defined.
#[global] Instance READ4args_blank : Blank zdr_READ4args zero_READ4args. Proof. blank zdr_READ4args. Qed.

Record READ4resok := mkREAD4resok {
  READ4resok_eof : Z; READ4resok_data : ptr * Z
}.
Definition zero_READ4resok : READ4resok := mkREAD4resok 0 (NULL, 0).
Definition fields_READ4resok (x : READ4resok) := (READ4resok_eof x, READ4resok_data x).
Definition make_READ4resok (t : (Z * (ptr * Z))) : READ4resok := mkREAD4resok t.1 t.2.
#[global] Instance READ4resok_iso : Iso fields_READ4resok make_READ4resok. Proof. iso. Qed.
Definition zdr_READ4resok : proc READ4resok := zdr_via fields_READ4resok make_READ4resok (zdr_bool >>> zdr_peek_len).
#[global] Instance READ4resok_codec : Codec zdr_READ4resok. Proof. codec zdr_READ4resok. Defined.
#[global] Instance READ4resok_blank : Blank zdr_READ4resok zero_READ4resok. Proof. blank zdr_READ4resok. Qed.

Inductive READ4res_union := READ4res_cleared | READ4res_resok4 (x : READ4resok).
Record READ4res := mkREAD4res { READ4res_status : Z; READ4res_u : READ4res_union }.
Definition zero_READ4res : READ4res := mkREAD4res 0 READ4res_cleared.
Definition fields_READ4res (x : READ4res) := (READ4res_status x, READ4res_u x).
Definition make_READ4res (t : (Z * READ4res_union)) : READ4res := mkREAD4res t.1 t.2.
#[global] Instance READ4res_iso : Iso fields_READ4res make_READ4res. Proof. iso. Qed.
Definition as_READ4res_resok4 (u : READ4res_union) : READ4resok := match u with READ4res_resok4 x => x | _ =>
  zero_READ4resok end.
#[global] Instance READ4res_resok4_member : Variant as_READ4res_resok4 READ4res_resok4. Proof. done. Qed.
Definition case_READ4res (d : Z) : proc READ4res_union :=
  if (d =? NFS4_OK) then zdr_member as_READ4res_resok4 READ4res_resok4 zdr_READ4resok
  else zdr_void.
#[global] Instance case_READ4res_codec d : Codec (case_READ4res d). Proof. codec case_READ4res. Defined.
#[global] Instance case_READ4res_blank d : Blank (case_READ4res d) READ4res_cleared. Proof. blank case_READ4res. Qed.
Definition zdr_READ4res : proc READ4res := zdr_via fields_READ4res make_READ4res (zdr_dseq zdr_nfsstat4 (case_READ4res)).
#[global] Instance READ4res_codec : Codec zdr_READ4res. Proof. codec zdr_READ4res. Defined.
#[global] Instance READ4res_blank : Blank zdr_READ4res zero_READ4res. Proof. blank zdr_READ4res. Qed.

Record READDIR4args := mkREADDIR4args {
    READDIR4args_cookie : Z; READDIR4args_cookieverf : ptr; READDIR4args_dircount : Z; READDIR4args_maxcount : Z;
    READDIR4args_attr_request : Z * list Z
}.
Definition zero_READDIR4args : READDIR4args := mkREADDIR4args 0 (Heap (zeros 8)) 0 0 (0, []).
Definition fields_READDIR4args (x : READDIR4args) := (READDIR4args_cookie x, (READDIR4args_cookieverf x,
  (READDIR4args_dircount x, (READDIR4args_maxcount x, READDIR4args_attr_request x)))).
Definition make_READDIR4args (t : (Z * (ptr * (Z * (Z * (Z * list Z)))))) : READDIR4args := mkREADDIR4args t.1 t.2.1
  t.2.2.1 t.2.2.2.1 t.2.2.2.2.
#[global] Instance READDIR4args_iso : Iso fields_READDIR4args make_READDIR4args. Proof. iso. Qed.
Definition zdr_READDIR4args : proc READDIR4args := zdr_via fields_READDIR4args make_READDIR4args (zdr_nfs_cookie4 >>>
  zdr_verifier4 >>> zdr_count4 >>> zdr_count4 >>> zdr_bitmap4).
#[global] Instance READDIR4args_codec : Codec zdr_READDIR4args. Proof. codec zdr_READDIR4args. Defined.
#[global] Instance READDIR4args_blank : Blank zdr_READDIR4args zero_READDIR4args. Proof. blank zdr_READDIR4args. Qed.

Inductive entry4 := mkentry4 {
  entry4_cookie : Z; entry4_name : ptr * Z; entry4_attrs : fattr4; entry4_nextentry : option entry4
}.
Definition zero_entry4 : entry4 := mkentry4 0 (NULL, 0) zero_fattr4 None.
Definition fields_entry4 (x : entry4) := (entry4_cookie x, (entry4_name x, (entry4_attrs x, entry4_nextentry x))).
Definition make_entry4 (t : (Z * ((ptr * Z) * (fattr4 * (option entry4))))) : entry4 := mkentry4 t.1 t.2.1 t.2.2.1 t.2.2.2.
#[global] Instance entry4_iso : Iso fields_entry4 make_entry4. Proof. iso. Qed.
Fixpoint zdr_entry4 (fuel : nat) : proc entry4 :=
  match fuel with
  | O => zdr_out_of_fuel
    | S fuel => zdr_via fields_entry4 make_entry4 (zdr_nfs_cookie4 >>> zdr_component4 >>> zdr_fattr4 >>> (zdr_pointer
    zero_entry4 64 (zdr_entry4 fuel)))
  end.
#[global] Instance entry4_codec fuel : Codec (zdr_entry4 fuel). Proof. induction fuel; cbn [zdr_entry4]; exact _. Defined.
#[global] Instance entry4_blank fuel : Blank (zdr_entry4 fuel) zero_entry4. Proof. induction fuel; cbn [zdr_entry4]; exact
  _. Qed.

Record dirlist4 := mkdirlist4 {
  dirlist4_entries : option entry4; dirlist4_eof : Z
}.
Definition zero_dirlist4 : dirlist4 := mkdirlist4 None 0.
Definition fields_dirlist4 (x : dirlist4) := (dirlist4_entries x, dirlist4_eof x).
Definition make_dirlist4 (t : ((option entry4) * Z)) : dirlist4 := mkdirlist4 t.1 t.2.
#[global] Instance dirlist4_iso : Iso fields_dirlist4 make_dirlist4. Proof. iso. Qed.
Definition zdr_dirlist4 (fuel : nat) : proc dirlist4 := zdr_via fields_dirlist4 make_dirlist4 ((zdr_pointer zero_entry4 64
  (zdr_entry4 fuel)) >>> zdr_bool).
#[global] Instance dirlist4_codec fuel : Codec (zdr_dirlist4 fuel). Proof. codec zdr_dirlist4. Defined.
#[global] Instance dirlist4_blank fuel : Blank (zdr_dirlist4 fuel) zero_dirlist4. Proof. blank zdr_dirlist4. Qed.

Record READDIR4resok := mkREADDIR4resok {
  READDIR4resok_cookieverf : ptr; READDIR4resok_reply : dirlist4
}.
Definition zero_READDIR4resok : READDIR4resok := mkREADDIR4resok (Heap (zeros 8)) zero_dirlist4.
Definition fields_READDIR4resok (x : READDIR4resok) := (READDIR4resok_cookieverf x, READDIR4resok_reply x).
Definition make_READDIR4resok (t : (ptr * dirlist4)) : READDIR4resok := mkREADDIR4resok t.1 t.2.
#[global] Instance READDIR4resok_iso : Iso fields_READDIR4resok make_READDIR4resok. Proof. iso. Qed.
Definition zdr_READDIR4resok (fuel : nat) : proc READDIR4resok := zdr_via fields_READDIR4resok make_READDIR4resok
  (zdr_verifier4 >>> (zdr_dirlist4 fuel)).
#[global] Instance READDIR4resok_codec fuel : Codec (zdr_READDIR4resok fuel). Proof. codec zdr_READDIR4resok. Defined.
#[global] Instance READDIR4resok_blank fuel : Blank (zdr_READDIR4resok fuel) zero_READDIR4resok. Proof. blank
  zdr_READDIR4resok. Qed.

Inductive READDIR4res_union := READDIR4res_cleared | READDIR4res_resok4 (x : READDIR4resok).
Record READDIR4res := mkREADDIR4res { READDIR4res_status : Z; READDIR4res_u : READDIR4res_union }.
Definition zero_READDIR4res : READDIR4res := mkREADDIR4res 0 READDIR4res_cleared.
Definition fields_READDIR4res (x : READDIR4res) := (READDIR4res_status x, READDIR4res_u x).
Definition make_READDIR4res (t : (Z * READDIR4res_union)) : READDIR4res := mkREADDIR4res t.1 t.2.
#[global] Instance READDIR4res_iso : Iso fields_READDIR4res make_READDIR4res. Proof. iso. Qed.
Definition as_READDIR4res_resok4 (u : READDIR4res_union) : READDIR4resok := match u with READDIR4res_resok4 x => x | _ =>
  zero_READDIR4resok end.
#[global] Instance READDIR4res_resok4_member : Variant as_READDIR4res_resok4 READDIR4res_resok4. Proof. done. Qed.
Definition case_READDIR4res (fuel : nat) (d : Z) : proc READDIR4res_union :=
  if (d =? NFS4_OK) then zdr_member as_READDIR4res_resok4 READDIR4res_resok4 (zdr_READDIR4resok fuel)
  else zdr_void.
#[global] Instance case_READDIR4res_codec (fuel : nat) d : Codec (case_READDIR4res fuel d). Proof. codec case_READDIR4res.
  Defined.
#[global] Instance case_READDIR4res_blank (fuel : nat) d : Blank (case_READDIR4res fuel d) READDIR4res_cleared. Proof.
  blank case_READDIR4res. Qed.
Definition zdr_READDIR4res (fuel : nat) : proc READDIR4res := zdr_via fields_READDIR4res make_READDIR4res (zdr_dseq
  zdr_nfsstat4 (case_READDIR4res fuel)).
#[global] Instance READDIR4res_codec fuel : Codec (zdr_READDIR4res fuel). Proof. codec zdr_READDIR4res. Defined.
#[global] Instance READDIR4res_blank fuel : Blank (zdr_READDIR4res fuel) zero_READDIR4res. Proof. blank zdr_READDIR4res. Qed.

Record READLINK4resok := mkREADLINK4resok {
  READLINK4resok_link : ptr * Z
}.
Definition zero_READLINK4resok : READLINK4resok := mkREADLINK4resok (NULL, 0).
Definition fields_READLINK4resok (x : READLINK4resok) := READLINK4resok_link x.
Definition make_READLINK4resok (t : (ptr * Z)) : READLINK4resok := mkREADLINK4resok t.
#[global] Instance READLINK4resok_iso : Iso fields_READLINK4resok make_READLINK4resok. Proof. iso. Qed.
Definition zdr_READLINK4resok : proc READLINK4resok := zdr_via fields_READLINK4resok make_READLINK4resok (zdr_linktext4).
#[global] Instance READLINK4resok_codec : Codec zdr_READLINK4resok. Proof. codec zdr_READLINK4resok. Defined.
#[global] Instance READLINK4resok_blank : Blank zdr_READLINK4resok zero_READLINK4resok. Proof. blank zdr_READLINK4resok. Qed.

Inductive READLINK4res_union := READLINK4res_cleared | READLINK4res_resok4 (x : READLINK4resok).
Record READLINK4res := mkREADLINK4res { READLINK4res_status : Z; READLINK4res_u : READLINK4res_union }.
Definition zero_READLINK4res : READLINK4res := mkREADLINK4res 0 READLINK4res_cleared.
Definition fields_READLINK4res (x : READLINK4res) := (READLINK4res_status x, READLINK4res_u x).
Definition make_READLINK4res (t : (Z * READLINK4res_union)) : READLINK4res := mkREADLINK4res t.1 t.2.
#[global] Instance READLINK4res_iso : Iso fields_READLINK4res make_READLINK4res. Proof. iso. Qed.
Definition as_READLINK4res_resok4 (u : READLINK4res_union) : READLINK4resok := match u with READLINK4res_resok4 x => x | _
  => zero_READLINK4resok end.
#[global] Instance READLINK4res_resok4_member : Variant as_READLINK4res_resok4 READLINK4res_resok4. Proof. done. Qed.
Definition case_READLINK4res (d : Z) : proc READLINK4res_union :=
  if (d =? NFS4_OK) then zdr_member as_READLINK4res_resok4 READLINK4res_resok4 zdr_READLINK4resok
  else zdr_void.
#[global] Instance case_READLINK4res_codec d : Codec (case_READLINK4res d). Proof. codec case_READLINK4res. Defined.
#[global] Instance case_READLINK4res_blank d : Blank (case_READLINK4res d) READLINK4res_cleared. Proof. blank
  case_READLINK4res. Qed.
Definition zdr_READLINK4res : proc READLINK4res := zdr_via fields_READLINK4res make_READLINK4res (zdr_dseq zdr_nfsstat4
  (case_READLINK4res)).
#[global] Instance READLINK4res_codec : Codec zdr_READLINK4res. Proof. codec zdr_READLINK4res. Defined.
#[global] Instance READLINK4res_blank : Blank zdr_READLINK4res zero_READLINK4res. Proof. blank zdr_READLINK4res. Qed.

Record REMOVE4args := mkREMOVE4args {
  REMOVE4args_target : ptr * Z
}.
Definition zero_REMOVE4args : REMOVE4args := mkREMOVE4args (NULL, 0).
Definition fields_REMOVE4args (x : REMOVE4args) := REMOVE4args_target x.
Definition make_REMOVE4args (t : (ptr * Z)) : REMOVE4args := mkREMOVE4args t.
#[global] Instance REMOVE4args_iso : Iso fields_REMOVE4args make_REMOVE4args. Proof. iso. Qed.
Definition zdr_REMOVE4args : proc REMOVE4args := zdr_via fields_REMOVE4args make_REMOVE4args (zdr_component4).
#[global] Instance REMOVE4args_codec : Codec zdr_REMOVE4args. Proof. codec zdr_REMOVE4args. Defined.
#[global] Instance REMOVE4args_blank : Blank zdr_REMOVE4args zero_REMOVE4args. Proof. blank zdr_REMOVE4args. Qed.

Record REMOVE4resok := mkREMOVE4resok {
  REMOVE4resok_cinfo : change_info4
}.
Definition zero_REMOVE4resok : REMOVE4resok := mkREMOVE4resok zero_change_info4.
Definition fields_REMOVE4resok (x : REMOVE4resok) := REMOVE4resok_cinfo x.
Definition make_REMOVE4resok (t : change_info4) : REMOVE4resok := mkREMOVE4resok t.
#[global] Instance REMOVE4resok_iso : Iso fields_REMOVE4resok make_REMOVE4resok. Proof. iso. Qed.
Definition zdr_REMOVE4resok : proc REMOVE4resok := zdr_via fields_REMOVE4resok make_REMOVE4resok (zdr_change_info4).
#[global] Instance REMOVE4resok_codec : Codec zdr_REMOVE4resok. Proof. codec zdr_REMOVE4resok. Defined.
#[global] Instance REMOVE4resok_blank : Blank zdr_REMOVE4resok zero_REMOVE4resok. Proof. blank zdr_REMOVE4resok. Qed.
#[global] Instance REMOVE4resok_safe : Safe zdr_REMOVE4resok. Proof. safe zdr_REMOVE4resok. Qed.

Inductive REMOVE4res_union := REMOVE4res_cleared | REMOVE4res_resok4 (x : REMOVE4resok).
Record REMOVE4res := mkREMOVE4res { REMOVE4res_status : Z; REMOVE4res_u : REMOVE4res_union }.
Definition zero_REMOVE4res : REMOVE4res := mkREMOVE4res 0 REMOVE4res_cleared.
Definition fields_REMOVE4res (x : REMOVE4res) := (REMOVE4res_status x, REMOVE4res_u x).
Definition make_REMOVE4res (t : (Z * REMOVE4res_union)) : REMOVE4res := mkREMOVE4res t.1 t.2.
#[global] Instance REMOVE4res_iso : Iso fields_REMOVE4res make_REMOVE4res. Proof. iso. Qed.
Definition as_REMOVE4res_resok4 (u : REMOVE4res_union) : REMOVE4resok := match u with REMOVE4res_resok4 x => x | _ =>
  zero_REMOVE4resok end.
#[global] Instance REMOVE4res_resok4_member : Variant as_REMOVE4res_resok4 REMOVE4res_resok4. Proof. done. Qed.
Definition case_REMOVE4res (d : Z) : proc REMOVE4res_union :=
  if (d =? NFS4_OK) then zdr_member as_REMOVE4res_resok4 REMOVE4res_resok4 zdr_REMOVE4resok
  else zdr_void.
#[global] Instance case_REMOVE4res_codec d : Codec (case_REMOVE4res d). Proof. codec case_REMOVE4res. Defined.
#[global] Instance case_REMOVE4res_blank d : Blank (case_REMOVE4res d) REMOVE4res_cleared. Proof. blank case_REMOVE4res. Qed.
#[global] Instance case_REMOVE4res_safe d : Safe (case_REMOVE4res d). Proof. safe case_REMOVE4res. Qed.
Definition zdr_REMOVE4res : proc REMOVE4res := zdr_via fields_REMOVE4res make_REMOVE4res (zdr_dseq zdr_nfsstat4
  (case_REMOVE4res)).
#[global] Instance REMOVE4res_codec : Codec zdr_REMOVE4res. Proof. codec zdr_REMOVE4res. Defined.
#[global] Instance REMOVE4res_blank : Blank zdr_REMOVE4res zero_REMOVE4res. Proof. blank zdr_REMOVE4res. Qed.
#[global] Instance REMOVE4res_safe : Safe zdr_REMOVE4res. Proof. safe zdr_REMOVE4res. Qed.

Record RENAME4args := mkRENAME4args {
  RENAME4args_oldname : ptr * Z; RENAME4args_newname : ptr * Z
}.
Definition zero_RENAME4args : RENAME4args := mkRENAME4args (NULL, 0) (NULL, 0).
Definition fields_RENAME4args (x : RENAME4args) := (RENAME4args_oldname x, RENAME4args_newname x).
Definition make_RENAME4args (t : ((ptr * Z) * (ptr * Z))) : RENAME4args := mkRENAME4args t.1 t.2.
#[global] Instance RENAME4args_iso : Iso fields_RENAME4args make_RENAME4args. Proof. iso. Qed.
Definition zdr_RENAME4args : proc RENAME4args := zdr_via fields_RENAME4args make_RENAME4args (zdr_component4 >>>
  zdr_component4).
#[global] Instance RENAME4args_codec : Codec zdr_RENAME4args. Proof. codec zdr_RENAME4args. Defined.
#[global] Instance RENAME4args_blank : Blank zdr_RENAME4args zero_RENAME4args. Proof. blank zdr_RENAME4args. Qed.

Record RENAME4resok := mkRENAME4resok {
  RENAME4resok_source_cinfo : change_info4; RENAME4resok_target_cinfo : change_info4
}.
Definition zero_RENAME4resok : RENAME4resok := mkRENAME4resok zero_change_info4 zero_change_info4.
Definition fields_RENAME4resok (x : RENAME4resok) := (RENAME4resok_source_cinfo x, RENAME4resok_target_cinfo x).
Definition make_RENAME4resok (t : (change_info4 * change_info4)) : RENAME4resok := mkRENAME4resok t.1 t.2.
#[global] Instance RENAME4resok_iso : Iso fields_RENAME4resok make_RENAME4resok. Proof. iso. Qed.
Definition zdr_RENAME4resok : proc RENAME4resok := zdr_via fields_RENAME4resok make_RENAME4resok (zdr_change_info4 >>>
  zdr_change_info4).
#[global] Instance RENAME4resok_codec : Codec zdr_RENAME4resok. Proof. codec zdr_RENAME4resok. Defined.
#[global] Instance RENAME4resok_blank : Blank zdr_RENAME4resok zero_RENAME4resok. Proof. blank zdr_RENAME4resok. Qed.
#[global] Instance RENAME4resok_safe : Safe zdr_RENAME4resok. Proof. safe zdr_RENAME4resok. Qed.

Inductive RENAME4res_union := RENAME4res_cleared | RENAME4res_resok4 (x : RENAME4resok).
Record RENAME4res := mkRENAME4res { RENAME4res_status : Z; RENAME4res_u : RENAME4res_union }.
Definition zero_RENAME4res : RENAME4res := mkRENAME4res 0 RENAME4res_cleared.
Definition fields_RENAME4res (x : RENAME4res) := (RENAME4res_status x, RENAME4res_u x).
Definition make_RENAME4res (t : (Z * RENAME4res_union)) : RENAME4res := mkRENAME4res t.1 t.2.
#[global] Instance RENAME4res_iso : Iso fields_RENAME4res make_RENAME4res. Proof. iso. Qed.
Definition as_RENAME4res_resok4 (u : RENAME4res_union) : RENAME4resok := match u with RENAME4res_resok4 x => x | _ =>
  zero_RENAME4resok end.
#[global] Instance RENAME4res_resok4_member : Variant as_RENAME4res_resok4 RENAME4res_resok4. Proof. done. Qed.
Definition case_RENAME4res (d : Z) : proc RENAME4res_union :=
  if (d =? NFS4_OK) then zdr_member as_RENAME4res_resok4 RENAME4res_resok4 zdr_RENAME4resok
  else zdr_void.
#[global] Instance case_RENAME4res_codec d : Codec (case_RENAME4res d). Proof. codec case_RENAME4res. Defined.
#[global] Instance case_RENAME4res_blank d : Blank (case_RENAME4res d) RENAME4res_cleared. Proof. blank case_RENAME4res. Qed.
#[global] Instance case_RENAME4res_safe d : Safe (case_RENAME4res d). Proof. safe case_RENAME4res. Qed.
Definition zdr_RENAME4res : proc RENAME4res := zdr_via fields_RENAME4res make_RENAME4res (zdr_dseq zdr_nfsstat4
  (case_RENAME4res)).
#[global] Instance RENAME4res_codec : Codec zdr_RENAME4res. Proof. codec zdr_RENAME4res. Defined.
#[global] Instance RENAME4res_blank : Blank zdr_RENAME4res zero_RENAME4res. Proof. blank zdr_RENAME4res. Qed.
#[global] Instance RENAME4res_safe : Safe zdr_RENAME4res. Proof. safe zdr_RENAME4res. Qed.

Record RENEW4args := mkRENEW4args {
  RENEW4args_clientid : Z
}.
Definition zero_RENEW4args : RENEW4args := mkRENEW4args 0.
Definition fields_RENEW4args (x : RENEW4args) := RENEW4args_clientid x.
Definition make_RENEW4args (t : Z) : RENEW4args := mkRENEW4args t.
#[global] Instance RENEW4args_iso : Iso fields_RENEW4args make_RENEW4args. Proof. iso. Qed.
Definition zdr_RENEW4args : proc RENEW4args := zdr_via fields_RENEW4args make_RENEW4args (zdr_clientid4).
#[global] Instance RENEW4args_codec : Codec zdr_RENEW4args. Proof. codec zdr_RENEW4args. Defined.
#[global] Instance RENEW4args_blank : Blank zdr_RENEW4args zero_RENEW4args. Proof. blank zdr_RENEW4args. Qed.
#[global] Instance RENEW4args_safe : Safe zdr_RENEW4args. Proof. safe zdr_RENEW4args. Qed.

Record RENEW4res := mkRENEW4res {
  RENEW4res_status : Z
}.
Definition zero_RENEW4res : RENEW4res := mkRENEW4res 0.
Definition fields_RENEW4res (x : RENEW4res) := RENEW4res_status x.
Definition make_RENEW4res (t : Z) : RENEW4res := mkRENEW4res t.
#[global] Instance RENEW4res_iso : Iso fields_RENEW4res make_RENEW4res. Proof. iso. Qed.
Definition zdr_RENEW4res : proc RENEW4res := zdr_via fields_RENEW4res make_RENEW4res (zdr_nfsstat4).
#[global] Instance RENEW4res_codec : Codec zdr_RENEW4res. Proof. codec zdr_RENEW4res. Defined.
#[global] Instance RENEW4res_blank : Blank zdr_RENEW4res zero_RENEW4res. Proof. blank zdr_RENEW4res. Qed.
#[global] Instance RENEW4res_safe : Safe zdr_RENEW4res. Proof. safe zdr_RENEW4res. Qed.

Record RESTOREFH4res := mkRESTOREFH4res {
  RESTOREFH4res_status : Z
}.
Definition zero_RESTOREFH4res : RESTOREFH4res := mkRESTOREFH4res 0.
Definition fields_RESTOREFH4res (x : RESTOREFH4res) := RESTOREFH4res_status x.
Definition make_RESTOREFH4res (t : Z) : RESTOREFH4res := mkRESTOREFH4res t.
#[global] Instance RESTOREFH4res_iso : Iso fields_RESTOREFH4res make_RESTOREFH4res. Proof. iso. Qed.
Definition zdr_RESTOREFH4res : proc RESTOREFH4res := zdr_via fields_RESTOREFH4res make_RESTOREFH4res (zdr_nfsstat4).
#[global] Instance RESTOREFH4res_codec : Codec zdr_RESTOREFH4res. Proof. codec zdr_RESTOREFH4res. Defined.
#[global] Instance RESTOREFH4res_blank : Blank zdr_RESTOREFH4res zero_RESTOREFH4res. Proof. blank zdr_RESTOREFH4res. Qed.
#[global] Instance RESTOREFH4res_safe : Safe zdr_RESTOREFH4res. Proof. safe zdr_RESTOREFH4res. Qed.

Record SAVEFH4res := mkSAVEFH4res {
  SAVEFH4res_status : Z
}.
Definition zero_SAVEFH4res : SAVEFH4res := mkSAVEFH4res 0.
Definition fields_SAVEFH4res (x : SAVEFH4res) := SAVEFH4res_status x.
Definition make_SAVEFH4res (t : Z) : SAVEFH4res := mkSAVEFH4res t.
#[global] Instance SAVEFH4res_iso : Iso fields_SAVEFH4res make_SAVEFH4res. Proof. iso. Qed.
Definition zdr_SAVEFH4res : proc SAVEFH4res := zdr_via fields_SAVEFH4res make_SAVEFH4res (zdr_nfsstat4).
#[global] Instance SAVEFH4res_codec : Codec zdr_SAVEFH4res. Proof. codec zdr_SAVEFH4res. Defined.
#[global] Instance SAVEFH4res_blank : Blank zdr_SAVEFH4res zero_SAVEFH4res. Proof. blank zdr_SAVEFH4res. Qed.
#[global] Instance SAVEFH4res_safe : Safe zdr_SAVEFH4res. Proof. safe zdr_SAVEFH4res. Qed.

Record SECINFO4args := mkSECINFO4args {
  SECINFO4args_name : ptr * Z
}.
Definition zero_SECINFO4args : SECINFO4args := mkSECINFO4args (NULL, 0).
Definition fields_SECINFO4args (x : SECINFO4args) := SECINFO4args_name x.
Definition make_SECINFO4args (t : (ptr * Z)) : SECINFO4args := mkSECINFO4args t.
#[global] Instance SECINFO4args_iso : Iso fields_SECINFO4args make_SECINFO4args. Proof. iso. Qed.
Definition zdr_SECINFO4args : proc SECINFO4args := zdr_via fields_SECINFO4args make_SECINFO4args (zdr_component4).
#[global] Instance SECINFO4args_codec : Codec zdr_SECINFO4args. Proof. codec zdr_SECINFO4args. Defined.
#[global] Instance SECINFO4args_blank : Blank zdr_SECINFO4args zero_SECINFO4args. Proof. blank zdr_SECINFO4args. Qed.

Definition zdr_rpc_gss_svc_t : proc Z := zdr_enum.
Record rpcsec_gss_info := mkrpcsec_gss_info {
  rpcsec_gss_info_oid : ptr * Z; rpcsec_gss_info_qop : Z; rpcsec_gss_info_service : Z
}.
Definition zero_rpcsec_gss_info : rpcsec_gss_info := mkrpcsec_gss_info (NULL, 0) 0 0.
Definition fields_rpcsec_gss_info (x : rpcsec_gss_info) := (rpcsec_gss_info_oid x, (rpcsec_gss_info_qop x,
  rpcsec_gss_info_service x)).
Definition make_rpcsec_gss_info (t : ((ptr * Z) * (Z * Z))) : rpcsec_gss_info := mkrpcsec_gss_info t.1 t.2.1 t.2.2.
#[global] Instance rpcsec_gss_info_iso : Iso fields_rpcsec_gss_info make_rpcsec_gss_info. Proof. iso. Qed.
Definition zdr_rpcsec_gss_info : proc rpcsec_gss_info := zdr_via fields_rpcsec_gss_info make_rpcsec_gss_info (zdr_sec_oid4
  >>> zdr_qop4 >>> zdr_rpc_gss_svc_t).
#[global] Instance rpcsec_gss_info_codec : Codec zdr_rpcsec_gss_info. Proof. codec zdr_rpcsec_gss_info. Defined.
#[global] Instance rpcsec_gss_info_blank : Blank zdr_rpcsec_gss_info zero_rpcsec_gss_info. Proof. blank
  zdr_rpcsec_gss_info. Qed.

Inductive secinfo4_union := secinfo4_cleared | secinfo4_flavor_info (x : rpcsec_gss_info).
Record secinfo4 := mksecinfo4 { secinfo4_flavor : Z; secinfo4_u : secinfo4_union }.
Definition zero_secinfo4 : secinfo4 := mksecinfo4 0 secinfo4_cleared.
Definition fields_secinfo4 (x : secinfo4) := (secinfo4_flavor x, secinfo4_u x).
Definition make_secinfo4 (t : (Z * secinfo4_union)) : secinfo4 := mksecinfo4 t.1 t.2.
#[global] Instance secinfo4_iso : Iso fields_secinfo4 make_secinfo4. Proof. iso. Qed.
Definition as_secinfo4_flavor_info (u : secinfo4_union) : rpcsec_gss_info := match u with secinfo4_flavor_info x => x | _
  => zero_rpcsec_gss_info end.
#[global] Instance secinfo4_flavor_info_member : Variant as_secinfo4_flavor_info secinfo4_flavor_info. Proof. done. Qed.
Definition case_secinfo4 (d : Z) : proc secinfo4_union :=
  if (d =? RPCSEC_GSS) then zdr_member as_secinfo4_flavor_info secinfo4_flavor_info zdr_rpcsec_gss_info
  else zdr_void.
#[global] Instance case_secinfo4_codec d : Codec (case_secinfo4 d). Proof. codec case_secinfo4. Defined.
#[global] Instance case_secinfo4_blank d : Blank (case_secinfo4 d) secinfo4_cleared. Proof. blank case_secinfo4. Qed.
Definition zdr_secinfo4 : proc secinfo4 := zdr_via fields_secinfo4 make_secinfo4 (zdr_dseq zdr_u_int (case_secinfo4)).
#[global] Instance secinfo4_codec : Codec zdr_secinfo4. Proof. codec zdr_secinfo4. Defined.
#[global] Instance secinfo4_blank : Blank zdr_secinfo4 zero_secinfo4. Proof. blank zdr_secinfo4. Qed.

Definition zdr_SECINFO4resok : proc (Z * list secinfo4) := zdr_array zero_secinfo4 32 zdr_secinfo4.
Inductive SECINFO4res_union := SECINFO4res_cleared | SECINFO4res_resok4 (x : Z * list secinfo4).
Record SECINFO4res := mkSECINFO4res { SECINFO4res_status : Z; SECINFO4res_u : SECINFO4res_union }.
Definition zero_SECINFO4res : SECINFO4res := mkSECINFO4res 0 SECINFO4res_cleared.
Definition fields_SECINFO4res (x : SECINFO4res) := (SECINFO4res_status x, SECINFO4res_u x).
Definition make_SECINFO4res (t : (Z * SECINFO4res_union)) : SECINFO4res := mkSECINFO4res t.1 t.2.
#[global] Instance SECINFO4res_iso : Iso fields_SECINFO4res make_SECINFO4res. Proof. iso. Qed.
Definition as_SECINFO4res_resok4 (u : SECINFO4res_union) : Z * list secinfo4 := match u with SECINFO4res_resok4 x => x | _
  => (0, []) end.
#[global] Instance SECINFO4res_resok4_member : Variant as_SECINFO4res_resok4 SECINFO4res_resok4. Proof. done. Qed.
Definition case_SECINFO4res (d : Z) : proc SECINFO4res_union :=
  if (d =? NFS4_OK) then zdr_member as_SECINFO4res_resok4 SECINFO4res_resok4 zdr_SECINFO4resok
  else zdr_void.
#[global] Instance case_SECINFO4res_codec d : Codec (case_SECINFO4res d). Proof. codec case_SECINFO4res. Defined.
#[global] Instance case_SECINFO4res_blank d : Blank (case_SECINFO4res d) SECINFO4res_cleared. Proof. blank
  case_SECINFO4res. Qed.
Definition zdr_SECINFO4res : proc SECINFO4res := zdr_via fields_SECINFO4res make_SECINFO4res (zdr_dseq zdr_nfsstat4
  (case_SECINFO4res)).
#[global] Instance SECINFO4res_codec : Codec zdr_SECINFO4res. Proof. codec zdr_SECINFO4res. Defined.
#[global] Instance SECINFO4res_blank : Blank zdr_SECINFO4res zero_SECINFO4res. Proof. blank zdr_SECINFO4res. Qed.

Record SETATTR4args := mkSETATTR4args {
  SETATTR4args_stateid : stateid4; SETATTR4args_obj_attributes : fattr4
}.
Definition zero_SETATTR4args : SETATTR4args := mkSETATTR4args zero_stateid4 zero_fattr4.
Definition fields_SETATTR4args (x : SETATTR4args) := (SETATTR4args_stateid x, SETATTR4args_obj_attributes x).
Definition make_SETATTR4args (t : (stateid4 * fattr4)) : SETATTR4args := mkSETATTR4args t.1 t.2.
#[global] Instance SETATTR4args_iso : Iso fields_SETATTR4args make_SETATTR4args. Proof. iso. Qed.
Definition zdr_SETATTR4args : proc SETATTR4args := zdr_via fields_SETATTR4args make_SETATTR4args (zdr_stateid4 >>>
  zdr_fattr4).
#[global] Instance SETATTR4args_codec : Codec zdr_SETATTR4args. Proof. codec zdr_SETATTR4args. Defined.
#[global] Instance SETATTR4args_blank : Blank zdr_SETATTR4args zero_SETATTR4args. Proof. blank zdr_SETATTR4args. Qed.

Record SETATTR4res := mkSETATTR4res {
  SETATTR4res_status : Z; SETATTR4res_attrsset : Z * list Z
}.
Definition zero_SETATTR4res : SETATTR4res := mkSETATTR4res 0 (0, []).
Definition fields_SETATTR4res (x : SETATTR4res) := (SETATTR4res_status x, SETATTR4res_attrsset x).
Definition make_SETATTR4res (t : (Z * (Z * list Z))) : SETATTR4res := mkSETATTR4res t.1 t.2.
#[global] Instance SETATTR4res_iso : Iso fields_SETATTR4res make_SETATTR4res. Proof. iso. Qed.
Definition zdr_SETATTR4res : proc SETATTR4res := zdr_via fields_SETATTR4res make_SETATTR4res (zdr_nfsstat4 >>> zdr_bitmap4).
#[global] Instance SETATTR4res_codec : Codec zdr_SETATTR4res. Proof. codec zdr_SETATTR4res. Defined.
#[global] Instance SETATTR4res_blank : Blank zdr_SETATTR4res zero_SETATTR4res. Proof. blank zdr_SETATTR4res. Qed.

Record SETCLIENTID4args := mkSETCLIENTID4args {
  SETCLIENTID4args_client : nfs_client_id4; SETCLIENTID4args_callback : cb_client4; SETCLIENTID4args_callback_ident : Z
}.
Definition zero_SETCLIENTID4args : SETCLIENTID4args := mkSETCLIENTID4args zero_nfs_client_id4 zero_cb_client4 0.
Definition fields_SETCLIENTID4args (x : SETCLIENTID4args) := (SETCLIENTID4args_client x, (SETCLIENTID4args_callback x,
  SETCLIENTID4args_callback_ident x)).
Definition make_SETCLIENTID4args (t : (nfs_client_id4 * (cb_client4 * Z))) : SETCLIENTID4args := mkSETCLIENTID4args t.1
  t.2.1 t.2.2.
#[global] Instance SETCLIENTID4args_iso : Iso fields_SETCLIENTID4args make_SETCLIENTID4args. Proof. iso. Qed.
Definition zdr_SETCLIENTID4args : proc SETCLIENTID4args := zdr_via fields_SETCLIENTID4args make_SETCLIENTID4args
  (zdr_nfs_client_id4 >>> zdr_cb_client4 >>> zdr_u_int).
#[global] Instance SETCLIENTID4args_codec : Codec zdr_SETCLIENTID4args. Proof. codec zdr_SETCLIENTID4args. Defined.
#[global] Instance SETCLIENTID4args_blank : Blank zdr_SETCLIENTID4args zero_SETCLIENTID4args. Proof. blank
  zdr_SETCLIENTID4args. Qed.

Record SETCLIENTID4resok := mkSETCLIENTID4resok {
  SETCLIENTID4resok_clientid : Z; SETCLIENTID4resok_setclientid_confirm : ptr
}.
Definition zero_SETCLIENTID4resok : SETCLIENTID4resok := mkSETCLIENTID4resok 0 (Heap (zeros 8)).
Definition fields_SETCLIENTID4resok (x : SETCLIENTID4resok) := (SETCLIENTID4resok_clientid x,
  SETCLIENTID4resok_setclientid_confirm x).
Definition make_SETCLIENTID4resok (t : (Z * ptr)) : SETCLIENTID4resok := mkSETCLIENTID4resok t.1 t.2.
#[global] Instance SETCLIENTID4resok_iso : Iso fields_SETCLIENTID4resok make_SETCLIENTID4resok. Proof. iso. Qed.
Definition zdr_SETCLIENTID4resok : proc SETCLIENTID4resok := zdr_via fields_SETCLIENTID4resok make_SETCLIENTID4resok
  (zdr_clientid4 >>> zdr_verifier4).
#[global] Instance SETCLIENTID4resok_codec : Codec zdr_SETCLIENTID4resok. Proof. codec zdr_SETCLIENTID4resok. Defined.
#[global] Instance SETCLIENTID4resok_blank : Blank zdr_SETCLIENTID4resok zero_SETCLIENTID4resok. Proof. blank
  zdr_SETCLIENTID4resok. Qed.

Inductive SETCLIENTID4res_union := SETCLIENTID4res_cleared | SETCLIENTID4res_resok4 (x : SETCLIENTID4resok) |
  SETCLIENTID4res_client_using (x : clientaddr4).
Record SETCLIENTID4res := mkSETCLIENTID4res { SETCLIENTID4res_status : Z; SETCLIENTID4res_u : SETCLIENTID4res_union }.
Definition zero_SETCLIENTID4res : SETCLIENTID4res := mkSETCLIENTID4res 0 SETCLIENTID4res_cleared.
Definition fields_SETCLIENTID4res (x : SETCLIENTID4res) := (SETCLIENTID4res_status x, SETCLIENTID4res_u x).
Definition make_SETCLIENTID4res (t : (Z * SETCLIENTID4res_union)) : SETCLIENTID4res := mkSETCLIENTID4res t.1 t.2.
#[global] Instance SETCLIENTID4res_iso : Iso fields_SETCLIENTID4res make_SETCLIENTID4res. Proof. iso. Qed.
Definition as_SETCLIENTID4res_resok4 (u : SETCLIENTID4res_union) : SETCLIENTID4resok := match u with
  SETCLIENTID4res_resok4 x => x | _ => zero_SETCLIENTID4resok end.
#[global] Instance SETCLIENTID4res_resok4_member : Variant as_SETCLIENTID4res_resok4 SETCLIENTID4res_resok4. Proof. done.
  Qed.
Definition as_SETCLIENTID4res_client_using (u : SETCLIENTID4res_union) : clientaddr4 := match u with
  SETCLIENTID4res_client_using x => x | _ => zero_clientaddr4 end.
#[global] Instance SETCLIENTID4res_client_using_member : Variant as_SETCLIENTID4res_client_using
  SETCLIENTID4res_client_using. Proof. done. Qed.
Definition case_SETCLIENTID4res (d : Z) : proc SETCLIENTID4res_union :=
  if (d =? NFS4_OK) then zdr_member as_SETCLIENTID4res_resok4 SETCLIENTID4res_resok4 zdr_SETCLIENTID4resok
    else if (d =? NFS4ERR_CLID_INUSE) then zdr_member as_SETCLIENTID4res_client_using SETCLIENTID4res_client_using
    zdr_clientaddr4
  else zdr_void.
#[global] Instance case_SETCLIENTID4res_codec d : Codec (case_SETCLIENTID4res d). Proof. codec case_SETCLIENTID4res. Defined.
#[global] Instance case_SETCLIENTID4res_blank d : Blank (case_SETCLIENTID4res d) SETCLIENTID4res_cleared. Proof. blank
  case_SETCLIENTID4res. Qed.
Definition zdr_SETCLIENTID4res : proc SETCLIENTID4res := zdr_via fields_SETCLIENTID4res make_SETCLIENTID4res (zdr_dseq
  zdr_nfsstat4 (case_SETCLIENTID4res)).
#[global] Instance SETCLIENTID4res_codec : Codec zdr_SETCLIENTID4res. Proof. codec zdr_SETCLIENTID4res. Defined.
#[global] Instance SETCLIENTID4res_blank : Blank zdr_SETCLIENTID4res zero_SETCLIENTID4res. Proof. blank
  zdr_SETCLIENTID4res. Qed.

Record SETCLIENTID_CONFIRM4args := mkSETCLIENTID_CONFIRM4args {
  SETCLIENTID_CONFIRM4args_clientid : Z; SETCLIENTID_CONFIRM4args_setclientid_confirm : ptr
}.
Definition zero_SETCLIENTID_CONFIRM4args : SETCLIENTID_CONFIRM4args := mkSETCLIENTID_CONFIRM4args 0 (Heap (zeros 8)).
Definition fields_SETCLIENTID_CONFIRM4args (x : SETCLIENTID_CONFIRM4args) := (SETCLIENTID_CONFIRM4args_clientid x,
  SETCLIENTID_CONFIRM4args_setclientid_confirm x).
Definition make_SETCLIENTID_CONFIRM4args (t : (Z * ptr)) : SETCLIENTID_CONFIRM4args := mkSETCLIENTID_CONFIRM4args t.1 t.2.
#[global] Instance SETCLIENTID_CONFIRM4args_iso : Iso fields_SETCLIENTID_CONFIRM4args make_SETCLIENTID_CONFIRM4args.
  Proof. iso. Qed.
Definition zdr_SETCLIENTID_CONFIRM4args : proc SETCLIENTID_CONFIRM4args := zdr_via fields_SETCLIENTID_CONFIRM4args
  make_SETCLIENTID_CONFIRM4args (zdr_clientid4 >>> zdr_verifier4).
#[global] Instance SETCLIENTID_CONFIRM4args_codec : Codec zdr_SETCLIENTID_CONFIRM4args. Proof. codec
  zdr_SETCLIENTID_CONFIRM4args. Defined.
#[global] Instance SETCLIENTID_CONFIRM4args_blank : Blank zdr_SETCLIENTID_CONFIRM4args zero_SETCLIENTID_CONFIRM4args.
  Proof. blank zdr_SETCLIENTID_CONFIRM4args. Qed.

Record SETCLIENTID_CONFIRM4res := mkSETCLIENTID_CONFIRM4res {
  SETCLIENTID_CONFIRM4res_status : Z
}.
Definition zero_SETCLIENTID_CONFIRM4res : SETCLIENTID_CONFIRM4res := mkSETCLIENTID_CONFIRM4res 0.
Definition fields_SETCLIENTID_CONFIRM4res (x : SETCLIENTID_CONFIRM4res) := SETCLIENTID_CONFIRM4res_status x.
Definition make_SETCLIENTID_CONFIRM4res (t : Z) : SETCLIENTID_CONFIRM4res := mkSETCLIENTID_CONFIRM4res t.
#[global] Instance SETCLIENTID_CONFIRM4res_iso : Iso fields_SETCLIENTID_CONFIRM4res make_SETCLIENTID_CONFIRM4res. Proof.
  iso. Qed.
Definition zdr_SETCLIENTID_CONFIRM4res : proc SETCLIENTID_CONFIRM4res := zdr_via fields_SETCLIENTID_CONFIRM4res
  make_SETCLIENTID_CONFIRM4res (zdr_nfsstat4).
#[global] Instance SETCLIENTID_CONFIRM4res_codec : Codec zdr_SETCLIENTID_CONFIRM4res. Proof. codec
  zdr_SETCLIENTID_CONFIRM4res. Defined.
#[global] Instance SETCLIENTID_CONFIRM4res_blank : Blank zdr_SETCLIENTID_CONFIRM4res zero_SETCLIENTID_CONFIRM4res. Proof.
  blank zdr_SETCLIENTID_CONFIRM4res. Qed.
#[global] Instance SETCLIENTID_CONFIRM4res_safe : Safe zdr_SETCLIENTID_CONFIRM4res. Proof. safe
  zdr_SETCLIENTID_CONFIRM4res. Qed.

Record VERIFY4args := mkVERIFY4args {
  VERIFY4args_obj_attributes : fattr4
}.
Definition zero_VERIFY4args : VERIFY4args := mkVERIFY4args zero_fattr4.
Definition fields_VERIFY4args (x : VERIFY4args) := VERIFY4args_obj_attributes x.
Definition make_VERIFY4args (t : fattr4) : VERIFY4args := mkVERIFY4args t.
#[global] Instance VERIFY4args_iso : Iso fields_VERIFY4args make_VERIFY4args. Proof. iso. Qed.
Definition zdr_VERIFY4args : proc VERIFY4args := zdr_via fields_VERIFY4args make_VERIFY4args (zdr_fattr4).
#[global] Instance VERIFY4args_codec : Codec zdr_VERIFY4args. Proof. codec zdr_VERIFY4args. Defined.
#[global] Instance VERIFY4args_blank : Blank zdr_VERIFY4args zero_VERIFY4args. Proof. blank zdr_VERIFY4args. Qed.

Record VERIFY4res := mkVERIFY4res {
  VERIFY4res_status : Z
}.
Definition zero_VERIFY4res : VERIFY4res := mkVERIFY4res 0.
Definition fields_VERIFY4res (x : VERIFY4res) := VERIFY4res_status x.
Definition make_VERIFY4res (t : Z) : VERIFY4res := mkVERIFY4res t.
#[global] Instance VERIFY4res_iso : Iso fields_VERIFY4res make_VERIFY4res. Proof. iso. Qed.
Definition zdr_VERIFY4res : proc VERIFY4res := zdr_via fields_VERIFY4res make_VERIFY4res (zdr_nfsstat4).
#[global] Instance VERIFY4res_codec : Codec zdr_VERIFY4res. Proof. codec zdr_VERIFY4res. Defined.
#[global] Instance VERIFY4res_blank : Blank zdr_VERIFY4res zero_VERIFY4res. Proof. blank zdr_VERIFY4res. Qed.
#[global] Instance VERIFY4res_safe : Safe zdr_VERIFY4res. Proof. safe zdr_VERIFY4res. Qed.

Definition zdr_stable_how4 : proc Z := zdr_enum.
Record WRITE4resok := mkWRITE4resok {
  WRITE4resok_count : Z; WRITE4resok_committed : Z; WRITE4resok_writeverf : ptr
}.
Definition zero_WRITE4resok : WRITE4resok := mkWRITE4resok 0 0 (Heap (zeros 8)).
Definition fields_WRITE4resok (x : WRITE4resok) := (WRITE4resok_count x, (WRITE4resok_committed x, WRITE4resok_writeverf x)).
Definition make_WRITE4resok (t : (Z * (Z * ptr))) : WRITE4resok := mkWRITE4resok t.1 t.2.1 t.2.2.
#[global] Instance WRITE4resok_iso : Iso fields_WRITE4resok make_WRITE4resok. Proof. iso. Qed.
Definition zdr_WRITE4resok : proc WRITE4resok := zdr_via fields_WRITE4resok make_WRITE4resok (zdr_count4 >>>
  zdr_stable_how4 >>> zdr_verifier4).
#[global] Instance WRITE4resok_codec : Codec zdr_WRITE4resok. Proof. codec zdr_WRITE4resok. Defined.
#[global] Instance WRITE4resok_blank : Blank zdr_WRITE4resok zero_WRITE4resok. Proof. blank zdr_WRITE4resok. Qed.

Inductive WRITE4res_union := WRITE4res_cleared | WRITE4res_resok4 (x : WRITE4resok).
Record WRITE4res := mkWRITE4res { WRITE4res_status : Z; WRITE4res_u : WRITE4res_union }.
Definition zero_WRITE4res : WRITE4res := mkWRITE4res 0 WRITE4res_cleared.
Definition fields_WRITE4res (x : WRITE4res) := (WRITE4res_status x, WRITE4res_u x).
Definition make_WRITE4res (t : (Z * WRITE4res_union)) : WRITE4res := mkWRITE4res t.1 t.2.
#[global] Instance WRITE4res_iso : Iso fields_WRITE4res make_WRITE4res. Proof. iso. Qed.
Definition as_WRITE4res_resok4 (u : WRITE4res_union) : WRITE4resok := match u with WRITE4res_resok4 x => x | _ =>
  zero_WRITE4resok end.
#[global] Instance WRITE4res_resok4_member : Variant as_WRITE4res_resok4 WRITE4res_resok4. Proof. done. Qed.
Definition case_WRITE4res (d : Z) : proc WRITE4res_union :=
  if (d =? NFS4_OK) then zdr_member as_WRITE4res_resok4 WRITE4res_resok4 zdr_WRITE4resok
  else zdr_void.
#[global] Instance case_WRITE4res_codec d : Codec (case_WRITE4res d). Proof. codec case_WRITE4res. Defined.
#[global] Instance case_WRITE4res_blank d : Blank (case_WRITE4res d) WRITE4res_cleared. Proof. blank case_WRITE4res. Qed.
Definition zdr_WRITE4res : proc WRITE4res := zdr_via fields_WRITE4res make_WRITE4res (zdr_dseq zdr_nfsstat4
  (case_WRITE4res)).
#[global] Instance WRITE4res_codec : Codec zdr_WRITE4res. Proof. codec zdr_WRITE4res. Defined.
#[global] Instance WRITE4res_blank : Blank zdr_WRITE4res zero_WRITE4res. Proof. blank zdr_WRITE4res. Qed.

Record RELEASE_LOCKOWNER4args := mkRELEASE_LOCKOWNER4args {
  RELEASE_LOCKOWNER4args_lock_owner : lock_owner4
}.
Definition zero_RELEASE_LOCKOWNER4args : RELEASE_LOCKOWNER4args := mkRELEASE_LOCKOWNER4args zero_lock_owner4.
Definition fields_RELEASE_LOCKOWNER4args (x : RELEASE_LOCKOWNER4args) := RELEASE_LOCKOWNER4args_lock_owner x.
Definition make_RELEASE_LOCKOWNER4args (t : lock_owner4) : RELEASE_LOCKOWNER4args := mkRELEASE_LOCKOWNER4args t.
#[global] Instance RELEASE_LOCKOWNER4args_iso : Iso fields_RELEASE_LOCKOWNER4args make_RELEASE_LOCKOWNER4args. Proof. iso.
  Qed.
Definition zdr_RELEASE_LOCKOWNER4args : proc RELEASE_LOCKOWNER4args := zdr_via fields_RELEASE_LOCKOWNER4args
  make_RELEASE_LOCKOWNER4args (zdr_lock_owner4).
#[global] Instance RELEASE_LOCKOWNER4args_codec : Codec zdr_RELEASE_LOCKOWNER4args. Proof. codec
  zdr_RELEASE_LOCKOWNER4args. Defined.
#[global] Instance RELEASE_LOCKOWNER4args_blank : Blank zdr_RELEASE_LOCKOWNER4args zero_RELEASE_LOCKOWNER4args. Proof.
  blank zdr_RELEASE_LOCKOWNER4args. Qed.

Record RELEASE_LOCKOWNER4res := mkRELEASE_LOCKOWNER4res {
  RELEASE_LOCKOWNER4res_status : Z
}.
Definition zero_RELEASE_LOCKOWNER4res : RELEASE_LOCKOWNER4res := mkRELEASE_LOCKOWNER4res 0.
Definition fields_RELEASE_LOCKOWNER4res (x : RELEASE_LOCKOWNER4res) := RELEASE_LOCKOWNER4res_status x.
Definition make_RELEASE_LOCKOWNER4res (t : Z) : RELEASE_LOCKOWNER4res := mkRELEASE_LOCKOWNER4res t.
#[global] Instance RELEASE_LOCKOWNER4res_iso : Iso fields_RELEASE_LOCKOWNER4res make_RELEASE_LOCKOWNER4res. Proof. iso. Qed.
Definition zdr_RELEASE_LOCKOWNER4res : proc RELEASE_LOCKOWNER4res := zdr_via fields_RELEASE_LOCKOWNER4res
  make_RELEASE_LOCKOWNER4res (zdr_nfsstat4).
#[global] Instance RELEASE_LOCKOWNER4res_codec : Codec zdr_RELEASE_LOCKOWNER4res. Proof. codec zdr_RELEASE_LOCKOWNER4res.
  Defined.
#[global] Instance RELEASE_LOCKOWNER4res_blank : Blank zdr_RELEASE_LOCKOWNER4res zero_RELEASE_LOCKOWNER4res. Proof. blank
  zdr_RELEASE_LOCKOWNER4res. Qed.
#[global] Instance RELEASE_LOCKOWNER4res_safe : Safe zdr_RELEASE_LOCKOWNER4res. Proof. safe zdr_RELEASE_LOCKOWNER4res. Qed.

Definition zdr_gsshandle4_t : proc (ptr * Z) := zdr_bytes.
Inductive callback_sec_parms4_union := callback_sec_parms4_cleared | callback_sec_parms4_cbsp_sys_cred (x : authsys_parms).
Record callback_sec_parms4 := mkcallback_sec_parms4 { callback_sec_parms4_cb_secflavor : Z; callback_sec_parms4_u :
  callback_sec_parms4_union }.
Definition zero_callback_sec_parms4 : callback_sec_parms4 := mkcallback_sec_parms4 0 callback_sec_parms4_cleared.
Definition fields_callback_sec_parms4 (x : callback_sec_parms4) := (callback_sec_parms4_cb_secflavor x,
  callback_sec_parms4_u x).
Definition make_callback_sec_parms4 (t : (Z * callback_sec_parms4_union)) : callback_sec_parms4 := mkcallback_sec_parms4
  t.1 t.2.
#[global] Instance callback_sec_parms4_iso : Iso fields_callback_sec_parms4 make_callback_sec_parms4. Proof. iso. Qed.
Definition as_callback_sec_parms4_cbsp_sys_cred (u : callback_sec_parms4_union) : authsys_parms := match u with
  callback_sec_parms4_cbsp_sys_cred x => x | _ => zero_authsys_parms end.
#[global] Instance callback_sec_parms4_cbsp_sys_cred_member : Variant as_callback_sec_parms4_cbsp_sys_cred
  callback_sec_parms4_cbsp_sys_cred. Proof. done. Qed.
Definition case_callback_sec_parms4 (d : Z) : proc callback_sec_parms4_union :=
  if (d =? AUTH_NONE) then zdr_void
    else if (d =? AUTH_SYS) then zdr_member as_callback_sec_parms4_cbsp_sys_cred callback_sec_parms4_cbsp_sys_cred
    zdr_authsys_parms
  else zdr_fail.
#[global] Instance case_callback_sec_parms4_codec d : Codec (case_callback_sec_parms4 d). Proof. codec
  case_callback_sec_parms4. Defined.
#[global] Instance case_callback_sec_parms4_blank d : Blank (case_callback_sec_parms4 d) callback_sec_parms4_cleared.
  Proof. blank case_callback_sec_parms4. Qed.
Definition zdr_callback_sec_parms4 : proc callback_sec_parms4 := zdr_via fields_callback_sec_parms4
  make_callback_sec_parms4 (zdr_dseq zdr_u_int (case_callback_sec_parms4)).
#[global] Instance callback_sec_parms4_codec : Codec zdr_callback_sec_parms4. Proof. codec zdr_callback_sec_parms4. Defined.
#[global] Instance callback_sec_parms4_blank : Blank zdr_callback_sec_parms4 zero_callback_sec_parms4. Proof. blank
  zdr_callback_sec_parms4. Qed.

Definition zdr_channel_dir_from_client4 : proc Z := zdr_enum.
Record BIND_CONN_TO_SESSION4args := mkBIND_CONN_TO_SESSION4args {
    BIND_CONN_TO_SESSION4args_bctsa_sessid : ptr; BIND_CONN_TO_SESSION4args_bctsa_dir : Z;
    BIND_CONN_TO_SESSION4args_bctsa_use_conn_in_rdma_mode : Z
}.
Definition zero_BIND_CONN_TO_SESSION4args : BIND_CONN_TO_SESSION4args := mkBIND_CONN_TO_SESSION4args (Heap (zeros 16)) 0 0.
Definition fields_BIND_CONN_TO_SESSION4args (x : BIND_CONN_TO_SESSION4args) := (BIND_CONN_TO_SESSION4args_bctsa_sessid x,
  (BIND_CONN_TO_SESSION4args_bctsa_dir x, BIND_CONN_TO_SESSION4args_bctsa_use_conn_in_rdma_mode x)).
Definition make_BIND_CONN_TO_SESSION4args (t : (ptr * (Z * Z))) : BIND_CONN_TO_SESSION4args := mkBIND_CONN_TO_SESSION4args
  t.1 t.2.1 t.2.2.
#[global] Instance BIND_CONN_TO_SESSION4args_iso : Iso fields_BIND_CONN_TO_SESSION4args make_BIND_CONN_TO_SESSION4args.
  Proof. iso. Qed.
Definition zdr_BIND_CONN_TO_SESSION4args : proc BIND_CONN_TO_SESSION4args := zdr_via fields_BIND_CONN_TO_SESSION4args
  make_BIND_CONN_TO_SESSION4args (zdr_sessionid4 >>> zdr_channel_dir_from_client4 >>> zdr_bool).
#[global] Instance BIND_CONN_TO_SESSION4args_codec : Codec zdr_BIND_CONN_TO_SESSION4args. Proof. codec
  zdr_BIND_CONN_TO_SESSION4args. Defined.
#[global] Instance BIND_CONN_TO_SESSION4args_blank : Blank zdr_BIND_CONN_TO_SESSION4args zero_BIND_CONN_TO_SESSION4args.
  Proof. blank zdr_BIND_CONN_TO_SESSION4args. Qed.

Definition zdr_channel_dir_from_server4 : proc Z := zdr_enum.
Record BIND_CONN_TO_SESSION4resok := mkBIND_CONN_TO_SESSION4resok {
    BIND_CONN_TO_SESSION4resok_bctsr_sessid : ptr; BIND_CONN_TO_SESSION4resok_bctsr_dir : Z;
    BIND_CONN_TO_SESSION4resok_bctsr_use_conn_in_rdma_mode : Z
}.
Definition zero_BIND_CONN_TO_SESSION4resok : BIND_CONN_TO_SESSION4resok := mkBIND_CONN_TO_SESSION4resok (Heap (zeros 16))
  0 0.
Definition fields_BIND_CONN_TO_SESSION4resok (x : BIND_CONN_TO_SESSION4resok) := (BIND_CONN_TO_SESSION4resok_bctsr_sessid
  x, (BIND_CONN_TO_SESSION4resok_bctsr_dir x, BIND_CONN_TO_SESSION4resok_bctsr_use_conn_in_rdma_mode x)).
Definition make_BIND_CONN_TO_SESSION4resok (t : (ptr * (Z * Z))) : BIND_CONN_TO_SESSION4resok :=
  mkBIND_CONN_TO_SESSION4resok t.1 t.2.1 t.2.2.
#[global] Instance BIND_CONN_TO_SESSION4resok_iso : Iso fields_BIND_CONN_TO_SESSION4resok make_BIND_CONN_TO_SESSION4resok.
  Proof. iso. Qed.
Definition zdr_BIND_CONN_TO_SESSION4resok : proc BIND_CONN_TO_SESSION4resok := zdr_via fields_BIND_CONN_TO_SESSION4resok
  make_BIND_CONN_TO_SESSION4resok (zdr_sessionid4 >>> zdr_channel_dir_from_server4 >>> zdr_bool).
#[global] Instance BIND_CONN_TO_SESSION4resok_codec : Codec zdr_BIND_CONN_TO_SESSION4resok. Proof. codec
  zdr_BIND_CONN_TO_SESSION4resok. Defined.
#[global] Instance BIND_CONN_TO_SESSION4resok_blank : Blank zdr_BIND_CONN_TO_SESSION4resok
  zero_BIND_CONN_TO_SESSION4resok. Proof. blank zdr_BIND_CONN_TO_SESSION4resok. Qed.

Inductive BIND_CONN_TO_SESSION4res_union := BIND_CONN_TO_SESSION4res_cleared | BIND_CONN_TO_SESSION4res_bctsr_resok4 (x :
  BIND_CONN_TO_SESSION4resok).
Record BIND_CONN_TO_SESSION4res := mkBIND_CONN_TO_SESSION4res { BIND_CONN_TO_SESSION4res_bctsr_status : Z;
  BIND_CONN_TO_SESSION4res_u : BIND_CONN_TO_SESSION4res_union }.
Definition zero_BIND_CONN_TO_SESSION4res : BIND_CONN_TO_SESSION4res := mkBIND_CONN_TO_SESSION4res 0
  BIND_CONN_TO_SESSION4res_cleared.
Definition fields_BIND_CONN_TO_SESSION4res (x : BIND_CONN_TO_SESSION4res) := (BIND_CONN_TO_SESSION4res_bctsr_status x,
  BIND_CONN_TO_SESSION4res_u x).
Definition make_BIND_CONN_TO_SESSION4res (t : (Z * BIND_CONN_TO_SESSION4res_union)) : BIND_CONN_TO_SESSION4res :=
  mkBIND_CONN_TO_SESSION4res t.1 t.2.
#[global] Instance BIND_CONN_TO_SESSION4res_iso : Iso fields_BIND_CONN_TO_SESSION4res make_BIND_CONN_TO_SESSION4res.
  Proof. iso. Qed.
Definition as_BIND_CONN_TO_SESSION4res_bctsr_resok4 (u : BIND_CONN_TO_SESSION4res_union) : BIND_CONN_TO_SESSION4resok :=
  match u with BIND_CONN_TO_SESSION4res_bctsr_resok4 x => x | _ => zero_BIND_CONN_TO_SESSION4resok end.
#[global] Instance BIND_CONN_TO_SESSION4res_bctsr_resok4_member : Variant as_BIND_CONN_TO_SESSION4res_bctsr_resok4
  BIND_CONN_TO_SESSION4res_bctsr_resok4. Proof. done. Qed.
Definition case_BIND_CONN_TO_SESSION4res (d : Z) : proc BIND_CONN_TO_SESSION4res_union :=
    if (d =? NFS4_OK) then zdr_member as_BIND_CONN_TO_SESSION4res_bctsr_resok4 BIND_CONN_TO_SESSION4res_bctsr_resok4
    zdr_BIND_CONN_TO_SESSION4resok
  else zdr_void.
#[global] Instance case_BIND_CONN_TO_SESSION4res_codec d : Codec (case_BIND_CONN_TO_SESSION4res d). Proof. codec
  case_BIND_CONN_TO_SESSION4res. Defined.
#[global] Instance case_BIND_CONN_TO_SESSION4res_blank d : Blank (case_BIND_CONN_TO_SESSION4res d)
  BIND_CONN_TO_SESSION4res_cleared. Proof. blank case_BIND_CONN_TO_SESSION4res. Qed.
Definition zdr_BIND_CONN_TO_SESSION4res : proc BIND_CONN_TO_SESSION4res := zdr_via fields_BIND_CONN_TO_SESSION4res
  make_BIND_CONN_TO_SESSION4res (zdr_dseq zdr_nfsstat4 (case_BIND_CONN_TO_SESSION4res)).
#[global] Instance BIND_CONN_TO_SESSION4res_codec : Codec zdr_BIND_CONN_TO_SESSION4res. Proof. codec
  zdr_BIND_CONN_TO_SESSION4res. Defined.
#[global] Instance BIND_CONN_TO_SESSION4res_blank : Blank zdr_BIND_CONN_TO_SESSION4res zero_BIND_CONN_TO_SESSION4res.
  Proof. blank zdr_BIND_CONN_TO_SESSION4res. Qed.

Record state_protect_ops4 := mkstate_protect_ops4 {
  state_protect_ops4_spo_must_enforce : Z * list Z; state_protect_ops4_spo_must_allow : Z * list Z
}.
Definition zero_state_protect_ops4 : state_protect_ops4 := mkstate_protect_ops4 (0, []) (0, []).
Definition fields_state_protect_ops4 (x : state_protect_ops4) := (state_protect_ops4_spo_must_enforce x,
  state_protect_ops4_spo_must_allow x).
Definition make_state_protect_ops4 (t : ((Z * list Z) * (Z * list Z))) : state_protect_ops4 := mkstate_protect_ops4 t.1 t.2.
#[global] Instance state_protect_ops4_iso : Iso fields_state_protect_ops4 make_state_protect_ops4. Proof. iso. Qed.
Definition zdr_state_protect_ops4 : proc state_protect_ops4 := zdr_via fields_state_protect_ops4 make_state_protect_ops4
  (zdr_bitmap4 >>> zdr_bitmap4).
#[global] Instance state_protect_ops4_codec : Codec zdr_state_protect_ops4. Proof. codec zdr_state_protect_ops4. Defined.
#[global] Instance state_protect_ops4_blank : Blank zdr_state_protect_ops4 zero_state_protect_ops4. Proof. blank
  zdr_state_protect_ops4. Qed.

Record ssv_sp_parms4 := mkssv_sp_parms4 {
    ssv_sp_parms4_ssp_ops : state_protect_ops4; ssv_sp_parms4_ssp_hash_algs : Z * list (ptr * Z);
    ssv_sp_parms4_ssp_encr_algs : Z * list (ptr * Z); ssv_sp_parms4_ssp_window : Z; ssv_sp_parms4_ssp_num_gss_handles : Z
}.
Definition zero_ssv_sp_parms4 : ssv_sp_parms4 := mkssv_sp_parms4 zero_state_protect_ops4 (0, []) (0, []) 0 0.
Definition fields_ssv_sp_parms4 (x : ssv_sp_parms4) := (ssv_sp_parms4_ssp_ops x, (ssv_sp_parms4_ssp_hash_algs x,
  (ssv_sp_parms4_ssp_encr_algs x, (ssv_sp_parms4_ssp_window x, ssv_sp_parms4_ssp_num_gss_handles x)))).
Definition make_ssv_sp_parms4 (t : (state_protect_ops4 * ((Z * list (ptr * Z)) * ((Z * list (ptr * Z)) * (Z * Z))))) :
  ssv_sp_parms4 := mkssv_sp_parms4 t.1 t.2.1 t.2.2.1 t.2.2.2.1 t.2.2.2.2.
#[global] Instance ssv_sp_parms4_iso : Iso fields_ssv_sp_parms4 make_ssv_sp_parms4. Proof. iso. Qed.
Definition zdr_ssv_sp_parms4 : proc ssv_sp_parms4 := zdr_via fields_ssv_sp_parms4 make_ssv_sp_parms4
  (zdr_state_protect_ops4 >>> (zdr_array (NULL, 0) 16 zdr_sec_oid4) >>> (zdr_array (NULL, 0) 16 zdr_sec_oid4) >>>
  zdr_u_int >>> zdr_u_int).
#[global] Instance ssv_sp_parms4_codec : Codec zdr_ssv_sp_parms4. Proof. codec zdr_ssv_sp_parms4. Defined.
#[global] Instance ssv_sp_parms4_blank : Blank zdr_ssv_sp_parms4 zero_ssv_sp_parms4. Proof. blank zdr_ssv_sp_parms4. Qed.

Definition zdr_state_protect_how4 : proc Z := zdr_enum.
Inductive state_protect4_a_union := state_protect4_a_cleared | state_protect4_a_spa_mach_ops (x : state_protect_ops4) |
  state_protect4_a_spa_ssv_parms (x : ssv_sp_parms4).
Record state_protect4_a := mkstate_protect4_a { state_protect4_a_spa_how : Z; state_protect4_a_u : state_protect4_a_union }.
Definition zero_state_protect4_a : state_protect4_a := mkstate_protect4_a 0 state_protect4_a_cleared.
Definition fields_state_protect4_a (x : state_protect4_a) := (state_protect4_a_spa_how x, state_protect4_a_u x).
Definition make_state_protect4_a (t : (Z * state_protect4_a_union)) : state_protect4_a := mkstate_protect4_a t.1 t.2.
#[global] Instance state_protect4_a_iso : Iso fields_state_protect4_a make_state_protect4_a. Proof. iso. Qed.
Definition as_state_protect4_a_spa_mach_ops (u : state_protect4_a_union) : state_protect_ops4 := match u with
  state_protect4_a_spa_mach_ops x => x | _ => zero_state_protect_ops4 end.
#[global] Instance state_protect4_a_spa_mach_ops_member : Variant as_state_protect4_a_spa_mach_ops
  state_protect4_a_spa_mach_ops. Proof. done. Qed.
Definition as_state_protect4_a_spa_ssv_parms (u : state_protect4_a_union) : ssv_sp_parms4 := match u with
  state_protect4_a_spa_ssv_parms x => x | _ => zero_ssv_sp_parms4 end.
#[global] Instance state_protect4_a_spa_ssv_parms_member : Variant as_state_protect4_a_spa_ssv_parms
  state_protect4_a_spa_ssv_parms. Proof. done. Qed.
Definition case_state_protect4_a (d : Z) : proc state_protect4_a_union :=
  if (d =? SP4_NONE) then zdr_void
    else if (d =? SP4_MACH_CRED) then zdr_member as_state_protect4_a_spa_mach_ops state_protect4_a_spa_mach_ops
    zdr_state_protect_ops4
  else if (d =? SP4_SSV) then zdr_member as_state_protect4_a_spa_ssv_parms state_protect4_a_spa_ssv_parms zdr_ssv_sp_parms4
  else zdr_fail.
#[global] Instance case_state_protect4_a_codec d : Codec (case_state_protect4_a d). Proof. codec case_state_protect4_a.
  Defined.
#[global] Instance case_state_protect4_a_blank d : Blank (case_state_protect4_a d) state_protect4_a_cleared. Proof. blank
  case_state_protect4_a. Qed.
Definition zdr_state_protect4_a : proc state_protect4_a := zdr_via fields_state_protect4_a make_state_protect4_a (zdr_dseq
  zdr_state_protect_how4 (case_state_protect4_a)).
#[global] Instance state_protect4_a_codec : Codec zdr_state_protect4_a. Proof. codec zdr_state_protect4_a. Defined.
#[global] Instance state_protect4_a_blank : Blank zdr_state_protect4_a zero_state_protect4_a. Proof. blank
  zdr_state_protect4_a. Qed.

Record EXCHANGE_ID4args := mkEXCHANGE_ID4args {
    EXCHANGE_ID4args_eia_clientowner : client_owner4; EXCHANGE_ID4args_eia_flags : Z; EXCHANGE_ID4args_eia_state_protect :
    state_protect4_a; EXCHANGE_ID4args_eia_client_impl_id : Z * list nfs_impl_id4
}.
Definition zero_EXCHANGE_ID4args : EXCHANGE_ID4args := mkEXCHANGE_ID4args zero_client_owner4 0 zero_state_protect4_a (0, []).
Definition fields_EXCHANGE_ID4args (x : EXCHANGE_ID4args) := (EXCHANGE_ID4args_eia_clientowner x,
  (EXCHANGE_ID4args_eia_flags x, (EXCHANGE_ID4args_eia_state_protect x, EXCHANGE_ID4args_eia_client_impl_id x))).
Definition make_EXCHANGE_ID4args (t : (client_owner4 * (Z * (state_protect4_a * (Z * list nfs_impl_id4))))) :
  EXCHANGE_ID4args := mkEXCHANGE_ID4args t.1 t.2.1 t.2.2.1 t.2.2.2.
#[global] Instance EXCHANGE_ID4args_iso : Iso fields_EXCHANGE_ID4args make_EXCHANGE_ID4args. Proof. iso. Qed.
Definition zdr_EXCHANGE_ID4args : proc EXCHANGE_ID4args := zdr_via fields_EXCHANGE_ID4args make_EXCHANGE_ID4args
  (zdr_client_owner4 >>> zdr_u_int >>> zdr_state_protect4_a >>> (zdr_array zero_nfs_impl_id4 48 zdr_nfs_impl_id4)).
#[global] Instance EXCHANGE_ID4args_codec : Codec zdr_EXCHANGE_ID4args. Proof. codec zdr_EXCHANGE_ID4args. Defined.
#[global] Instance EXCHANGE_ID4args_blank : Blank zdr_EXCHANGE_ID4args zero_EXCHANGE_ID4args. Proof. blank
  zdr_EXCHANGE_ID4args. Qed.

Record ssv_prot_info4 := mkssv_prot_info4 {
    ssv_prot_info4_spi_ops : state_protect_ops4; ssv_prot_info4_spi_hash_alg : Z; ssv_prot_info4_spi_encr_alg : Z;
    ssv_prot_info4_spi_ssv_len : Z; ssv_prot_info4_spi_window : Z; ssv_prot_info4_spi_handles : Z * list (ptr * Z)
}.
Definition zero_ssv_prot_info4 : ssv_prot_info4 := mkssv_prot_info4 zero_state_protect_ops4 0 0 0 0 (0, []).
Definition fields_ssv_prot_info4 (x : ssv_prot_info4) := (ssv_prot_info4_spi_ops x, (ssv_prot_info4_spi_hash_alg x,
  (ssv_prot_info4_spi_encr_alg x, (ssv_prot_info4_spi_ssv_len x, (ssv_prot_info4_spi_window x, ssv_prot_info4_spi_handles
  x))))).
Definition make_ssv_prot_info4 (t : (state_protect_ops4 * (Z * (Z * (Z * (Z * (Z * list (ptr * Z)))))))) : ssv_prot_info4
  := mkssv_prot_info4 t.1 t.2.1 t.2.2.1 t.2.2.2.1 t.2.2.2.2.1 t.2.2.2.2.2.
#[global] Instance ssv_prot_info4_iso : Iso fields_ssv_prot_info4 make_ssv_prot_info4. Proof. iso. Qed.
Definition zdr_ssv_prot_info4 : proc ssv_prot_info4 := zdr_via fields_ssv_prot_info4 make_ssv_prot_info4
  (zdr_state_protect_ops4 >>> zdr_u_int >>> zdr_u_int >>> zdr_u_int >>> zdr_u_int >>> (zdr_array (NULL, 0) 16
  zdr_gsshandle4_t)).
#[global] Instance ssv_prot_info4_codec : Codec zdr_ssv_prot_info4. Proof. codec zdr_ssv_prot_info4. Defined.
#[global] Instance ssv_prot_info4_blank : Blank zdr_ssv_prot_info4 zero_ssv_prot_info4. Proof. blank zdr_ssv_prot_info4. Qed.

Inductive state_protect4_r_union := state_protect4_r_cleared | state_protect4_r_spr_mach_ops (x : state_protect_ops4) |
  state_protect4_r_spr_ssv_info (x : ssv_prot_info4).
Record state_protect4_r := mkstate_protect4_r { state_protect4_r_spr_how : Z; state_protect4_r_u : state_protect4_r_union }.
Definition zero_state_protect4_r : state_protect4_r := mkstate_protect4_r 0 state_protect4_r_cleared.
Definition fields_state_protect4_r (x : state_protect4_r) := (state_protect4_r_spr_how x, state_protect4_r_u x).
Definition make_state_protect4_r (t : (Z * state_protect4_r_union)) : state_protect4_r := mkstate_protect4_r t.1 t.2.
#[global] Instance state_protect4_r_iso : Iso fields_state_protect4_r make_state_protect4_r. Proof. iso. Qed.
Definition as_state_protect4_r_spr_mach_ops (u : state_protect4_r_union) : state_protect_ops4 := match u with
  state_protect4_r_spr_mach_ops x => x | _ => zero_state_protect_ops4 end.
#[global] Instance state_protect4_r_spr_mach_ops_member : Variant as_state_protect4_r_spr_mach_ops
  state_protect4_r_spr_mach_ops. Proof. done. Qed.
Definition as_state_protect4_r_spr_ssv_info (u : state_protect4_r_union) : ssv_prot_info4 := match u with
  state_protect4_r_spr_ssv_info x => x | _ => zero_ssv_prot_info4 end.
#[global] Instance state_protect4_r_spr_ssv_info_member : Variant as_state_protect4_r_spr_ssv_info
  state_protect4_r_spr_ssv_info. Proof. done. Qed.
Definition case_state_protect4_r (d : Z) : proc state_protect4_r_union :=
  if (d =? SP4_NONE) then zdr_void
    else if (d =? SP4_MACH_CRED) then zdr_member as_state_protect4_r_spr_mach_ops state_protect4_r_spr_mach_ops
    zdr_state_protect_ops4
  else if (d =? SP4_SSV) then zdr_member as_state_protect4_r_spr_ssv_info state_protect4_r_spr_ssv_info zdr_ssv_prot_info4
  else zdr_fail.
#[global] Instance case_state_protect4_r_codec d : Codec (case_state_protect4_r d). Proof. codec case_state_protect4_r.
  Defined.
#[global] Instance case_state_protect4_r_blank d : Blank (case_state_protect4_r d) state_protect4_r_cleared. Proof. blank
  case_state_protect4_r. Qed.
Definition zdr_state_protect4_r : proc state_protect4_r := zdr_via fields_state_protect4_r make_state_protect4_r (zdr_dseq
  zdr_state_protect_how4 (case_state_protect4_r)).
#[global] Instance state_protect4_r_codec : Codec zdr_state_protect4_r. Proof. codec zdr_state_protect4_r. Defined.
#[global] Instance state_protect4_r_blank : Blank zdr_state_protect4_r zero_state_protect4_r. Proof. blank
  zdr_state_protect4_r. Qed.

Record EXCHANGE_ID4resok := mkEXCHANGE_ID4resok {
    EXCHANGE_ID4resok_eir_clientid : Z; EXCHANGE_ID4resok_eir_sequenceid : Z; EXCHANGE_ID4resok_eir_flags : Z;
    EXCHANGE_ID4resok_eir_state_protect : state_protect4_r; EXCHANGE_ID4resok_eir_server_owner : server_owner4;
    EXCHANGE_ID4resok_eir_server_scope : ptr * Z; EXCHANGE_ID4resok_eir_server_impl_id : Z * list nfs_impl_id4
}.
Definition zero_EXCHANGE_ID4resok : EXCHANGE_ID4resok := mkEXCHANGE_ID4resok 0 0 0 zero_state_protect4_r
  zero_server_owner4 (NULL, 0) (0, []).
Definition fields_EXCHANGE_ID4resok (x : EXCHANGE_ID4resok) := (EXCHANGE_ID4resok_eir_clientid x,
  (EXCHANGE_ID4resok_eir_sequenceid x, (EXCHANGE_ID4resok_eir_flags x, (EXCHANGE_ID4resok_eir_state_protect x,
  (EXCHANGE_ID4resok_eir_server_owner x, (EXCHANGE_ID4resok_eir_server_scope x, EXCHANGE_ID4resok_eir_server_impl_id
  x)))))).
Definition make_EXCHANGE_ID4resok (t : (Z * (Z * (Z * (state_protect4_r * (server_owner4 * ((ptr * Z) * (Z * list
  nfs_impl_id4)))))))) : EXCHANGE_ID4resok := mkEXCHANGE_ID4resok t.1 t.2.1 t.2.2.1 t.2.2.2.1 t.2.2.2.2.1 t.2.2.2.2.2.1
  t.2.2.2.2.2.2.
#[global] Instance EXCHANGE_ID4resok_iso : Iso fields_EXCHANGE_ID4resok make_EXCHANGE_ID4resok. Proof. iso. Qed.
Definition zdr_EXCHANGE_ID4resok : proc EXCHANGE_ID4resok := zdr_via fields_EXCHANGE_ID4resok make_EXCHANGE_ID4resok
  (zdr_clientid4 >>> zdr_sequenceid4 >>> zdr_u_int >>> zdr_state_protect4_r >>> zdr_server_owner4 >>> zdr_bytes >>>
  (zdr_array zero_nfs_impl_id4 48 zdr_nfs_impl_id4)).
#[global] Instance EXCHANGE_ID4resok_codec : Codec zdr_EXCHANGE_ID4resok. Proof. codec zdr_EXCHANGE_ID4resok. Defined.
#[global] Instance EXCHANGE_ID4resok_blank : Blank zdr_EXCHANGE_ID4resok zero_EXCHANGE_ID4resok. Proof. blank
  zdr_EXCHANGE_ID4resok. Qed.

Inductive EXCHANGE_ID4res_union := EXCHANGE_ID4res_cleared | EXCHANGE_ID4res_eir_resok4 (x : EXCHANGE_ID4resok).
Record EXCHANGE_ID4res := mkEXCHANGE_ID4res { EXCHANGE_ID4res_eir_status : Z; EXCHANGE_ID4res_u : EXCHANGE_ID4res_union }.
Definition zero_EXCHANGE_ID4res : EXCHANGE_ID4res := mkEXCHANGE_ID4res 0 EXCHANGE_ID4res_cleared.
Definition fields_EXCHANGE_ID4res (x : EXCHANGE_ID4res) := (EXCHANGE_ID4res_eir_status x, EXCHANGE_ID4res_u x).
Definition make_EXCHANGE_ID4res (t : (Z * EXCHANGE_ID4res_union)) : EXCHANGE_ID4res := mkEXCHANGE_ID4res t.1 t.2.
#[global] Instance EXCHANGE_ID4res_iso : Iso fields_EXCHANGE_ID4res make_EXCHANGE_ID4res. Proof. iso. Qed.
Definition as_EXCHANGE_ID4res_eir_resok4 (u : EXCHANGE_ID4res_union) : EXCHANGE_ID4resok := match u with
  EXCHANGE_ID4res_eir_resok4 x => x | _ => zero_EXCHANGE_ID4resok end.
#[global] Instance EXCHANGE_ID4res_eir_resok4_member : Variant as_EXCHANGE_ID4res_eir_resok4 EXCHANGE_ID4res_eir_resok4.
  Proof. done. Qed.
Definition case_EXCHANGE_ID4res (d : Z) : proc EXCHANGE_ID4res_union :=
  if (d =? NFS4_OK) then zdr_member as_EXCHANGE_ID4res_eir_resok4 EXCHANGE_ID4res_eir_resok4 zdr_EXCHANGE_ID4resok
  else zdr_void.
#[global] Instance case_EXCHANGE_ID4res_codec d : Codec (case_EXCHANGE_ID4res d). Proof. codec case_EXCHANGE_ID4res. Defined.
#[global] Instance case_EXCHANGE_ID4res_blank d : Blank (case_EXCHANGE_ID4res d) EXCHANGE_ID4res_cleared. Proof. blank
  case_EXCHANGE_ID4res. Qed.
Definition zdr_EXCHANGE_ID4res : proc EXCHANGE_ID4res := zdr_via fields_EXCHANGE_ID4res make_EXCHANGE_ID4res (zdr_dseq
  zdr_nfsstat4 (case_EXCHANGE_ID4res)).
#[global] Instance EXCHANGE_ID4res_codec : Codec zdr_EXCHANGE_ID4res. Proof. codec zdr_EXCHANGE_ID4res. Defined.
#[global] Instance EXCHANGE_ID4res_blank : Blank zdr_EXCHANGE_ID4res zero_EXCHANGE_ID4res. Proof. blank
  zdr_EXCHANGE_ID4res. Qed.

Record channel_attrs4 := mkchannel_attrs4 {
    channel_attrs4_ca_headerpadsize : Z; channel_attrs4_ca_maxrequestsize : Z; channel_attrs4_ca_maxresponsesize : Z;
    channel_attrs4_ca_maxresponsesize_cached : Z; channel_attrs4_ca_maxoperations : Z; channel_attrs4_ca_maxrequests : Z;
    channel_attrs4_ca_rdma_ird : Z * list Z
}.
Definition zero_channel_attrs4 : channel_attrs4 := mkchannel_attrs4 0 0 0 0 0 0 (0, []).
Definition fields_channel_attrs4 (x : channel_attrs4) := (channel_attrs4_ca_headerpadsize x,
  (channel_attrs4_ca_maxrequestsize x, (channel_attrs4_ca_maxresponsesize x, (channel_attrs4_ca_maxresponsesize_cached x,
  (channel_attrs4_ca_maxoperations x, (channel_attrs4_ca_maxrequests x, channel_attrs4_ca_rdma_ird x)))))).
Definition make_channel_attrs4 (t : (Z * (Z * (Z * (Z * (Z * (Z * (Z * list Z)))))))) : channel_attrs4 := mkchannel_attrs4
  t.1 t.2.1 t.2.2.1 t.2.2.2.1 t.2.2.2.2.1 t.2.2.2.2.2.1 t.2.2.2.2.2.2.
#[global] Instance channel_attrs4_iso : Iso fields_channel_attrs4 make_channel_attrs4. Proof. iso. Qed.
Definition zdr_channel_attrs4 : proc channel_attrs4 := zdr_via fields_channel_attrs4 make_channel_attrs4 (zdr_count4 >>>
  zdr_count4 >>> zdr_count4 >>> zdr_count4 >>> zdr_count4 >>> zdr_count4 >>> (zdr_array 0 4 zdr_u_int)).
#[global] Instance channel_attrs4_codec : Codec zdr_channel_attrs4. Proof. codec zdr_channel_attrs4. Defined.
#[global] Instance channel_attrs4_blank : Blank zdr_channel_attrs4 zero_channel_attrs4. Proof. blank zdr_channel_attrs4. Qed.

Record CREATE_SESSION4args := mkCREATE_SESSION4args {
    CREATE_SESSION4args_csa_clientid : Z; CREATE_SESSION4args_csa_sequence : Z; CREATE_SESSION4args_csa_flags : Z;
    CREATE_SESSION4args_csa_fore_chan_attrs : channel_attrs4; CREATE_SESSION4args_csa_back_chan_attrs : channel_attrs4;
    CREATE_SESSION4args_csa_cb_program : Z; CREATE_SESSION4args_csa_sec_parms : Z * list callback_sec_parms4
}.
Definition zero_CREATE_SESSION4args : CREATE_SESSION4args := mkCREATE_SESSION4args 0 0 0 zero_channel_attrs4
  zero_channel_attrs4 0 (0, []).
Definition fields_CREATE_SESSION4args (x : CREATE_SESSION4args) := (CREATE_SESSION4args_csa_clientid x,
  (CREATE_SESSION4args_csa_sequence x, (CREATE_SESSION4args_csa_flags x, (CREATE_SESSION4args_csa_fore_chan_attrs x,
  (CREATE_SESSION4args_csa_back_chan_attrs x, (CREATE_SESSION4args_csa_cb_program x, CREATE_SESSION4args_csa_sec_parms
  x)))))).
Definition make_CREATE_SESSION4args (t : (Z * (Z * (Z * (channel_attrs4 * (channel_attrs4 * (Z * (Z * list
  callback_sec_parms4)))))))) : CREATE_SESSION4args := mkCREATE_SESSION4args t.1 t.2.1 t.2.2.1 t.2.2.2.1 t.2.2.2.2.1
  t.2.2.2.2.2.1 t.2.2.2.2.2.2.
#[global] Instance CREATE_SESSION4args_iso : Iso fields_CREATE_SESSION4args make_CREATE_SESSION4args. Proof. iso. Qed.
Definition zdr_CREATE_SESSION4args : proc CREATE_SESSION4args := zdr_via fields_CREATE_SESSION4args
  make_CREATE_SESSION4args (zdr_clientid4 >>> zdr_sequenceid4 >>> zdr_u_int >>> zdr_channel_attrs4 >>> zdr_channel_attrs4
  >>> zdr_u_int >>> (zdr_array zero_callback_sec_parms4 48 zdr_callback_sec_parms4)).
#[global] Instance CREATE_SESSION4args_codec : Codec zdr_CREATE_SESSION4args. Proof. codec zdr_CREATE_SESSION4args. Defined.
#[global] Instance CREATE_SESSION4args_blank : Blank zdr_CREATE_SESSION4args zero_CREATE_SESSION4args. Proof. blank
  zdr_CREATE_SESSION4args. Qed.

Record CREATE_SESSION4resok := mkCREATE_SESSION4resok {
    CREATE_SESSION4resok_csr_sessionid : ptr; CREATE_SESSION4resok_csr_sequence : Z; CREATE_SESSION4resok_csr_flags : Z;
    CREATE_SESSION4resok_csr_fore_chan_attrs : channel_attrs4; CREATE_SESSION4resok_csr_back_chan_attrs : channel_attrs4
}.
Definition zero_CREATE_SESSION4resok : CREATE_SESSION4resok := mkCREATE_SESSION4resok (Heap (zeros 16)) 0 0
  zero_channel_attrs4 zero_channel_attrs4.
Definition fields_CREATE_SESSION4resok (x : CREATE_SESSION4resok) := (CREATE_SESSION4resok_csr_sessionid x,
  (CREATE_SESSION4resok_csr_sequence x, (CREATE_SESSION4resok_csr_flags x, (CREATE_SESSION4resok_csr_fore_chan_attrs x,
  CREATE_SESSION4resok_csr_back_chan_attrs x)))).
Definition make_CREATE_SESSION4resok (t : (ptr * (Z * (Z * (channel_attrs4 * channel_attrs4))))) : CREATE_SESSION4resok :=
  mkCREATE_SESSION4resok t.1 t.2.1 t.2.2.1 t.2.2.2.1 t.2.2.2.2.
#[global] Instance CREATE_SESSION4resok_iso : Iso fields_CREATE_SESSION4resok make_CREATE_SESSION4resok. Proof. iso. Qed.
Definition zdr_CREATE_SESSION4resok : proc CREATE_SESSION4resok := zdr_via fields_CREATE_SESSION4resok
  make_CREATE_SESSION4resok (zdr_sessionid4 >>> zdr_sequenceid4 >>> zdr_u_int >>> zdr_channel_attrs4 >>>
  zdr_channel_attrs4).
#[global] Instance CREATE_SESSION4resok_codec : Codec zdr_CREATE_SESSION4resok. Proof. codec zdr_CREATE_SESSION4resok.
  Defined.
#[global] Instance CREATE_SESSION4resok_blank : Blank zdr_CREATE_SESSION4resok zero_CREATE_SESSION4resok. Proof. blank
  zdr_CREATE_SESSION4resok. Qed.

Inductive CREATE_SESSION4res_union := CREATE_SESSION4res_cleared | CREATE_SESSION4res_csr_resok4 (x : CREATE_SESSION4resok).
Record CREATE_SESSION4res := mkCREATE_SESSION4res { CREATE_SESSION4res_csr_status : Z; CREATE_SESSION4res_u :
  CREATE_SESSION4res_union }.
Definition zero_CREATE_SESSION4res : CREATE_SESSION4res := mkCREATE_SESSION4res 0 CREATE_SESSION4res_cleared.
Definition fields_CREATE_SESSION4res (x : CREATE_SESSION4res) := (CREATE_SESSION4res_csr_status x, CREATE_SESSION4res_u x).
Definition make_CREATE_SESSION4res (t : (Z * CREATE_SESSION4res_union)) : CREATE_SESSION4res := mkCREATE_SESSION4res t.1 t.2.
#[global] Instance CREATE_SESSION4res_iso : Iso fields_CREATE_SESSION4res make_CREATE_SESSION4res. Proof. iso. Qed.
Definition as_CREATE_SESSION4res_csr_resok4 (u : CREATE_SESSION4res_union) : CREATE_SESSION4resok := match u with
  CREATE_SESSION4res_csr_resok4 x => x | _ => zero_CREATE_SESSION4resok end.
#[global] Instance CREATE_SESSION4res_csr_resok4_member : Variant as_CREATE_SESSION4res_csr_resok4
  CREATE_SESSION4res_csr_resok4. Proof. done. Qed.
Definition case_CREATE_SESSION4res (d : Z) : proc CREATE_SESSION4res_union :=
  if (d =? NFS4_OK) then zdr_member as_CREATE_SESSION4res_csr_resok4 CREATE_SESSION4res_csr_resok4 zdr_CREATE_SESSION4resok
  else zdr_void.
#[global] Instance case_CREATE_SESSION4res_codec d : Codec (case_CREATE_SESSION4res d). Proof. codec
  case_CREATE_SESSION4res. Defined.
#[global] Instance case_CREATE_SESSION4res_blank d : Blank (case_CREATE_SESSION4res d) CREATE_SESSION4res_cleared. Proof.
  blank case_CREATE_SESSION4res. Qed.
Definition zdr_CREATE_SESSION4res : proc CREATE_SESSION4res := zdr_via fields_CREATE_SESSION4res make_CREATE_SESSION4res
  (zdr_dseq zdr_nfsstat4 (case_CREATE_SESSION4res)).
#[global] Instance CREATE_SESSION4res_codec : Codec zdr_CREATE_SESSION4res. Proof. codec zdr_CREATE_SESSION4res. Defined.
#[global] Instance CREATE_SESSION4res_blank : Blank zdr_CREATE_SESSION4res zero_CREATE_SESSION4res. Proof. blank
  zdr_CREATE_SESSION4res. Qed.

Record DESTROY_SESSION4args := mkDESTROY_SESSION4args {
  DESTROY_SESSION4args_dsa_sessionid : ptr
}.
Definition zero_DESTROY_SESSION4args : DESTROY_SESSION4args := mkDESTROY_SESSION4args (Heap (zeros 16)).
Definition fields_DESTROY_SESSION4args (x : DESTROY_SESSION4args) := DESTROY_SESSION4args_dsa_sessionid x.
Definition make_DESTROY_SESSION4args (t : ptr) : DESTROY_SESSION4args := mkDESTROY_SESSION4args t.
#[global] Instance DESTROY_SESSION4args_iso : Iso fields_DESTROY_SESSION4args make_DESTROY_SESSION4args. Proof. iso. Qed.
Definition zdr_DESTROY_SESSION4args : proc DESTROY_SESSION4args := zdr_via fields_DESTROY_SESSION4args
  make_DESTROY_SESSION4args (zdr_sessionid4).
#[global] Instance DESTROY_SESSION4args_codec : Codec zdr_DESTROY_SESSION4args. Proof. codec zdr_DESTROY_SESSION4args.
  Defined.
#[global] Instance DESTROY_SESSION4args_blank : Blank zdr_DESTROY_SESSION4args zero_DESTROY_SESSION4args. Proof. blank
  zdr_DESTROY_SESSION4args. Qed.

Record DESTROY_SESSION4res := mkDESTROY_SESSION4res {
  DESTROY_SESSION4res_dsr_status : Z
}.
Definition zero_DESTROY_SESSION4res : DESTROY_SESSION4res := mkDESTROY_SESSION4res 0.
Definition fields_DESTROY_SESSION4res (x : DESTROY_SESSION4res) := DESTROY_SESSION4res_dsr_status x.
Definition make_DESTROY_SESSION4res (t : Z) : DESTROY_SESSION4res := mkDESTROY_SESSION4res t.
#[global] Instance DESTROY_SESSION4res_iso : Iso fields_DESTROY_SESSION4res make_DESTROY_SESSION4res. Proof. iso. Qed.
Definition zdr_DESTROY_SESSION4res : proc DESTROY_SESSION4res := zdr_via fields_DESTROY_SESSION4res
  make_DESTROY_SESSION4res (zdr_nfsstat4).
#[global] Instance DESTROY_SESSION4res_codec : Codec zdr_DESTROY_SESSION4res. Proof. codec zdr_DESTROY_SESSION4res. Defined.
#[global] Instance DESTROY_SESSION4res_blank : Blank zdr_DESTROY_SESSION4res zero_DESTROY_SESSION4res. Proof. blank
  zdr_DESTROY_SESSION4res. Qed.
#[global] Instance DESTROY_SESSION4res_safe : Safe zdr_DESTROY_SESSION4res. Proof. safe zdr_DESTROY_SESSION4res. Qed.

Record FREE_STATEID4args := mkFREE_STATEID4args {
  FREE_STATEID4args_fsa_stateid : stateid4
}.
Definition zero_FREE_STATEID4args : FREE_STATEID4args := mkFREE_STATEID4args zero_stateid4.
Definition fields_FREE_STATEID4args (x : FREE_STATEID4args) := FREE_STATEID4args_fsa_stateid x.
Definition make_FREE_STATEID4args (t : stateid4) : FREE_STATEID4args := mkFREE_STATEID4args t.
#[global] Instance FREE_STATEID4args_iso : Iso fields_FREE_STATEID4args make_FREE_STATEID4args. Proof. iso. Qed.
Definition zdr_FREE_STATEID4args : proc FREE_STATEID4args := zdr_via fields_FREE_STATEID4args make_FREE_STATEID4args
  (zdr_stateid4).
#[global] Instance FREE_STATEID4args_codec : Codec zdr_FREE_STATEID4args. Proof. codec zdr_FREE_STATEID4args. Defined.
#[global] Instance FREE_STATEID4args_blank : Blank zdr_FREE_STATEID4args zero_FREE_STATEID4args. Proof. blank
  zdr_FREE_STATEID4args. Qed.

Record FREE_STATEID4res := mkFREE_STATEID4res {
  FREE_STATEID4res_fsr_status : Z
}.
Definition zero_FREE_STATEID4res : FREE_STATEID4res := mkFREE_STATEID4res 0.
Definition fields_FREE_STATEID4res (x : FREE_STATEID4res) := FREE_STATEID4res_fsr_status x.
Definition make_FREE_STATEID4res (t : Z) : FREE_STATEID4res := mkFREE_STATEID4res t.
#[global] Instance FREE_STATEID4res_iso : Iso fields_FREE_STATEID4res make_FREE_STATEID4res. Proof. iso. Qed.
Definition zdr_FREE_STATEID4res : proc FREE_STATEID4res := zdr_via fields_FREE_STATEID4res make_FREE_STATEID4res
  (zdr_nfsstat4).
#[global] Instance FREE_STATEID4res_codec : Codec zdr_FREE_STATEID4res. Proof. codec zdr_FREE_STATEID4res. Defined.
#[global] Instance FREE_STATEID4res_blank : Blank zdr_FREE_STATEID4res zero_FREE_STATEID4res. Proof. blank
  zdr_FREE_STATEID4res. Qed.
#[global] Instance FREE_STATEID4res_safe : Safe zdr_FREE_STATEID4res. Proof. safe zdr_FREE_STATEID4res. Qed.

Definition zdr_attr_notice4 : proc nfstime4 := zdr_nfstime4.
Record GET_DIR_DELEGATION4args := mkGET_DIR_DELEGATION4args {
    GET_DIR_DELEGATION4args_gdda_signal_deleg_avail : Z; GET_DIR_DELEGATION4args_gdda_notification_types : Z * list Z;
    GET_DIR_DELEGATION4args_gdda_child_attr_delay : nfstime4; GET_DIR_DELEGATION4args_gdda_dir_attr_delay : nfstime4;
    GET_DIR_DELEGATION4args_gdda_child_attributes : Z * list Z; GET_DIR_DELEGATION4args_gdda_dir_attributes : Z * list Z
}.
Definition zero_GET_DIR_DELEGATION4args : GET_DIR_DELEGATION4args := mkGET_DIR_DELEGATION4args 0 (0, []) zero_nfstime4
  zero_nfstime4 (0, []) (0, []).
Definition fields_GET_DIR_DELEGATION4args (x : GET_DIR_DELEGATION4args) :=
  (GET_DIR_DELEGATION4args_gdda_signal_deleg_avail x, (GET_DIR_DELEGATION4args_gdda_notification_types x,
  (GET_DIR_DELEGATION4args_gdda_child_attr_delay x, (GET_DIR_DELEGATION4args_gdda_dir_attr_delay x,
  (GET_DIR_DELEGATION4args_gdda_child_attributes x, GET_DIR_DELEGATION4args_gdda_dir_attributes x))))).
Definition make_GET_DIR_DELEGATION4args (t : (Z * ((Z * list Z) * (nfstime4 * (nfstime4 * ((Z * list Z) * (Z * list
  Z))))))) : GET_DIR_DELEGATION4args := mkGET_DIR_DELEGATION4args t.1 t.2.1 t.2.2.1 t.2.2.2.1 t.2.2.2.2.1 t.2.2.2.2.2.
#[global] Instance GET_DIR_DELEGATION4args_iso : Iso fields_GET_DIR_DELEGATION4args make_GET_DIR_DELEGATION4args. Proof.
  iso. Qed.
Definition zdr_GET_DIR_DELEGATION4args : proc GET_DIR_DELEGATION4args := zdr_via fields_GET_DIR_DELEGATION4args
  make_GET_DIR_DELEGATION4args (zdr_bool >>> zdr_bitmap4 >>> zdr_attr_notice4 >>> zdr_attr_notice4 >>> zdr_bitmap4 >>>
  zdr_bitmap4).
#[global] Instance GET_DIR_DELEGATION4args_codec : Codec zdr_GET_DIR_DELEGATION4args. Proof. codec
  zdr_GET_DIR_DELEGATION4args. Defined.
#[global] Instance GET_DIR_DELEGATION4args_blank : Blank zdr_GET_DIR_DELEGATION4args zero_GET_DIR_DELEGATION4args. Proof.
  blank zdr_GET_DIR_DELEGATION4args. Qed.

Record GET_DIR_DELEGATION4resok := mkGET_DIR_DELEGATION4resok {
    GET_DIR_DELEGATION4resok_gddr_cookieverf : ptr; GET_DIR_DELEGATION4resok_gddr_stateid : stateid4;
    GET_DIR_DELEGATION4resok_gddr_notification : Z * list Z; GET_DIR_DELEGATION4resok_gddr_child_attributes : Z * list Z;
    GET_DIR_DELEGATION4resok_gddr_dir_attributes : Z * list Z
}.
Definition zero_GET_DIR_DELEGATION4resok : GET_DIR_DELEGATION4resok := mkGET_DIR_DELEGATION4resok (Heap (zeros 8))
  zero_stateid4 (0, []) (0, []) (0, []).
Definition fields_GET_DIR_DELEGATION4resok (x : GET_DIR_DELEGATION4resok) := (GET_DIR_DELEGATION4resok_gddr_cookieverf x,
  (GET_DIR_DELEGATION4resok_gddr_stateid x, (GET_DIR_DELEGATION4resok_gddr_notification x,
  (GET_DIR_DELEGATION4resok_gddr_child_attributes x, GET_DIR_DELEGATION4resok_gddr_dir_attributes x)))).
Definition make_GET_DIR_DELEGATION4resok (t : (ptr * (stateid4 * ((Z * list Z) * ((Z * list Z) * (Z * list Z)))))) :
  GET_DIR_DELEGATION4resok := mkGET_DIR_DELEGATION4resok t.1 t.2.1 t.2.2.1 t.2.2.2.1 t.2.2.2.2.
#[global] Instance GET_DIR_DELEGATION4resok_iso : Iso fields_GET_DIR_DELEGATION4resok make_GET_DIR_DELEGATION4resok.
  Proof. iso. Qed.
Definition zdr_GET_DIR_DELEGATION4resok : proc GET_DIR_DELEGATION4resok := zdr_via fields_GET_DIR_DELEGATION4resok
  make_GET_DIR_DELEGATION4resok (zdr_verifier4 >>> zdr_stateid4 >>> zdr_bitmap4 >>> zdr_bitmap4 >>> zdr_bitmap4).
#[global] Instance GET_DIR_DELEGATION4resok_codec : Codec zdr_GET_DIR_DELEGATION4resok. Proof. codec
  zdr_GET_DIR_DELEGATION4resok. Defined.
#[global] Instance GET_DIR_DELEGATION4resok_blank : Blank zdr_GET_DIR_DELEGATION4resok zero_GET_DIR_DELEGATION4resok.
  Proof. blank zdr_GET_DIR_DELEGATION4resok. Qed.

Definition zdr_gddrnf4_status : proc Z := zdr_enum.
Inductive GET_DIR_DELEGATION4res_non_fatal_union := GET_DIR_DELEGATION4res_non_fatal_cleared |
  GET_DIR_DELEGATION4res_non_fatal_gddrnf_resok4 (x : GET_DIR_DELEGATION4resok) |
  GET_DIR_DELEGATION4res_non_fatal_gddrnf_will_signal_deleg_avail (x : Z).
Record GET_DIR_DELEGATION4res_non_fatal := mkGET_DIR_DELEGATION4res_non_fatal {
  GET_DIR_DELEGATION4res_non_fatal_gddrnf_status : Z; GET_DIR_DELEGATION4res_non_fatal_u :
  GET_DIR_DELEGATION4res_non_fatal_union }.
Definition zero_GET_DIR_DELEGATION4res_non_fatal : GET_DIR_DELEGATION4res_non_fatal := mkGET_DIR_DELEGATION4res_non_fatal
  0 GET_DIR_DELEGATION4res_non_fatal_cleared.
Definition fields_GET_DIR_DELEGATION4res_non_fatal (x : GET_DIR_DELEGATION4res_non_fatal) :=
  (GET_DIR_DELEGATION4res_non_fatal_gddrnf_status x, GET_DIR_DELEGATION4res_non_fatal_u x).
Definition make_GET_DIR_DELEGATION4res_non_fatal (t : (Z * GET_DIR_DELEGATION4res_non_fatal_union)) :
  GET_DIR_DELEGATION4res_non_fatal := mkGET_DIR_DELEGATION4res_non_fatal t.1 t.2.
#[global] Instance GET_DIR_DELEGATION4res_non_fatal_iso : Iso fields_GET_DIR_DELEGATION4res_non_fatal
  make_GET_DIR_DELEGATION4res_non_fatal. Proof. iso. Qed.
Definition as_GET_DIR_DELEGATION4res_non_fatal_gddrnf_resok4 (u : GET_DIR_DELEGATION4res_non_fatal_union) :
  GET_DIR_DELEGATION4resok := match u with GET_DIR_DELEGATION4res_non_fatal_gddrnf_resok4 x => x | _ =>
  zero_GET_DIR_DELEGATION4resok end.
#[global] Instance GET_DIR_DELEGATION4res_non_fatal_gddrnf_resok4_member : Variant
  as_GET_DIR_DELEGATION4res_non_fatal_gddrnf_resok4 GET_DIR_DELEGATION4res_non_fatal_gddrnf_resok4. Proof. done. Qed.
Definition as_GET_DIR_DELEGATION4res_non_fatal_gddrnf_will_signal_deleg_avail (u : GET_DIR_DELEGATION4res_non_fatal_union)
  : Z := match u with GET_DIR_DELEGATION4res_non_fatal_gddrnf_will_signal_deleg_avail x => x | _ => 0 end.
#[global] Instance GET_DIR_DELEGATION4res_non_fatal_gddrnf_will_signal_deleg_avail_member : Variant
  as_GET_DIR_DELEGATION4res_non_fatal_gddrnf_will_signal_deleg_avail
  GET_DIR_DELEGATION4res_non_fatal_gddrnf_will_signal_deleg_avail. Proof. done. Qed.
Definition case_GET_DIR_DELEGATION4res_non_fatal (d : Z) : proc GET_DIR_DELEGATION4res_non_fatal_union :=
    if (d =? GDD4_OK) then zdr_member as_GET_DIR_DELEGATION4res_non_fatal_gddrnf_resok4
    GET_DIR_DELEGATION4res_non_fatal_gddrnf_resok4 zdr_GET_DIR_DELEGATION4resok
    else if (d =? GDD4_UNAVAIL) then zdr_member as_GET_DIR_DELEGATION4res_non_fatal_gddrnf_will_signal_deleg_avail
    GET_DIR_DELEGATION4res_non_fatal_gddrnf_will_signal_deleg_avail zdr_bool
  else zdr_fail.
#[global] Instance case_GET_DIR_DELEGATION4res_non_fatal_codec d : Codec (case_GET_DIR_DELEGATION4res_non_fatal d). Proof.
  codec case_GET_DIR_DELEGATION4res_non_fatal. Defined.
#[global] Instance case_GET_DIR_DELEGATION4res_non_fatal_blank d : Blank (case_GET_DIR_DELEGATION4res_non_fatal d)
  GET_DIR_DELEGATION4res_non_fatal_cleared. Proof. blank case_GET_DIR_DELEGATION4res_non_fatal. Qed.
Definition zdr_GET_DIR_DELEGATION4res_non_fatal : proc GET_DIR_DELEGATION4res_non_fatal := zdr_via
  fields_GET_DIR_DELEGATION4res_non_fatal make_GET_DIR_DELEGATION4res_non_fatal (zdr_dseq zdr_gddrnf4_status
  (case_GET_DIR_DELEGATION4res_non_fatal)).
#[global] Instance GET_DIR_DELEGATION4res_non_fatal_codec : Codec zdr_GET_DIR_DELEGATION4res_non_fatal. Proof. codec
  zdr_GET_DIR_DELEGATION4res_non_fatal. Defined.
#[global] Instance GET_DIR_DELEGATION4res_non_fatal_blank : Blank zdr_GET_DIR_DELEGATION4res_non_fatal
  zero_GET_DIR_DELEGATION4res_non_fatal. Proof. blank zdr_GET_DIR_DELEGATION4res_non_fatal. Qed.

Inductive GET_DIR_DELEGATION4res_union := GET_DIR_DELEGATION4res_cleared | GET_DIR_DELEGATION4res_gddr_res_non_fatal4 (x :
  GET_DIR_DELEGATION4res_non_fatal).
Record GET_DIR_DELEGATION4res := mkGET_DIR_DELEGATION4res { GET_DIR_DELEGATION4res_gddr_status : Z;
  GET_DIR_DELEGATION4res_u : GET_DIR_DELEGATION4res_union }.
Definition zero_GET_DIR_DELEGATION4res : GET_DIR_DELEGATION4res := mkGET_DIR_DELEGATION4res 0 GET_DIR_DELEGATION4res_cleared.
Definition fields_GET_DIR_DELEGATION4res (x : GET_DIR_DELEGATION4res) := (GET_DIR_DELEGATION4res_gddr_status x,
  GET_DIR_DELEGATION4res_u x).
Definition make_GET_DIR_DELEGATION4res (t : (Z * GET_DIR_DELEGATION4res_union)) : GET_DIR_DELEGATION4res :=
  mkGET_DIR_DELEGATION4res t.1 t.2.
#[global] Instance GET_DIR_DELEGATION4res_iso : Iso fields_GET_DIR_DELEGATION4res make_GET_DIR_DELEGATION4res. Proof. iso.
  Qed.
Definition as_GET_DIR_DELEGATION4res_gddr_res_non_fatal4 (u : GET_DIR_DELEGATION4res_union) :
  GET_DIR_DELEGATION4res_non_fatal := match u with GET_DIR_DELEGATION4res_gddr_res_non_fatal4 x => x | _ =>
  zero_GET_DIR_DELEGATION4res_non_fatal end.
#[global] Instance GET_DIR_DELEGATION4res_gddr_res_non_fatal4_member : Variant
  as_GET_DIR_DELEGATION4res_gddr_res_non_fatal4 GET_DIR_DELEGATION4res_gddr_res_non_fatal4. Proof. done. Qed.
Definition case_GET_DIR_DELEGATION4res (d : Z) : proc GET_DIR_DELEGATION4res_union :=
    if (d =? NFS4_OK) then zdr_member as_GET_DIR_DELEGATION4res_gddr_res_non_fatal4
    GET_DIR_DELEGATION4res_gddr_res_non_fatal4 zdr_GET_DIR_DELEGATION4res_non_fatal
  else zdr_void.
#[global] Instance case_GET_DIR_DELEGATION4res_codec d : Codec (case_GET_DIR_DELEGATION4res d). Proof. codec
  case_GET_DIR_DELEGATION4res. Defined.
#[global] Instance case_GET_DIR_DELEGATION4res_blank d : Blank (case_GET_DIR_DELEGATION4res d)
  GET_DIR_DELEGATION4res_cleared. Proof. blank case_GET_DIR_DELEGATION4res. Qed.
Definition zdr_GET_DIR_DELEGATION4res : proc GET_DIR_DELEGATION4res := zdr_via fields_GET_DIR_DELEGATION4res
  make_GET_DIR_DELEGATION4res (zdr_dseq zdr_nfsstat4 (case_GET_DIR_DELEGATION4res)).
#[global] Instance GET_DIR_DELEGATION4res_codec : Codec zdr_GET_DIR_DELEGATION4res. Proof. codec
  zdr_GET_DIR_DELEGATION4res. Defined.
#[global] Instance GET_DIR_DELEGATION4res_blank : Blank zdr_GET_DIR_DELEGATION4res zero_GET_DIR_DELEGATION4res. Proof.
  blank zdr_GET_DIR_DELEGATION4res. Qed.

Record GETDEVICEINFO4args := mkGETDEVICEINFO4args {
    GETDEVICEINFO4args_gdia_device_id : ptr; GETDEVICEINFO4args_gdia_layout_type : Z; GETDEVICEINFO4args_gdia_maxcount :
    Z; GETDEVICEINFO4args_gdia_notify_types : Z * list Z
}.
Definition zero_GETDEVICEINFO4args : GETDEVICEINFO4args := mkGETDEVICEINFO4args (Heap (zeros 16)) 0 0 (0, []).
Definition fields_GETDEVICEINFO4args (x : GETDEVICEINFO4args) := (GETDEVICEINFO4args_gdia_device_id x,
  (GETDEVICEINFO4args_gdia_layout_type x, (GETDEVICEINFO4args_gdia_maxcount x, GETDEVICEINFO4args_gdia_notify_types x))).
Definition make_GETDEVICEINFO4args (t : (ptr * (Z * (Z * (Z * list Z))))) : GETDEVICEINFO4args := mkGETDEVICEINFO4args t.1
  t.2.1 t.2.2.1 t.2.2.2.
#[global] Instance GETDEVICEINFO4args_iso : Iso fields_GETDEVICEINFO4args make_GETDEVICEINFO4args. Proof. iso. Qed.
Definition zdr_GETDEVICEINFO4args : proc GETDEVICEINFO4args := zdr_via fields_GETDEVICEINFO4args make_GETDEVICEINFO4args
  (zdr_deviceid4 >>> zdr_layouttype4 >>> zdr_count4 >>> zdr_bitmap4).
#[global] Instance GETDEVICEINFO4args_codec : Codec zdr_GETDEVICEINFO4args. Proof. codec zdr_GETDEVICEINFO4args. Defined.
#[global] Instance GETDEVICEINFO4args_blank : Blank zdr_GETDEVICEINFO4args zero_GETDEVICEINFO4args. Proof. blank
  zdr_GETDEVICEINFO4args. Qed.

Record GETDEVICEINFO4resok := mkGETDEVICEINFO4resok {
  GETDEVICEINFO4resok_gdir_device_addr : device_addr4; GETDEVICEINFO4resok_gdir_notification : Z * list Z
}.
Definition zero_GETDEVICEINFO4resok : GETDEVICEINFO4resok := mkGETDEVICEINFO4resok zero_device_addr4 (0, []).
Definition fields_GETDEVICEINFO4resok (x : GETDEVICEINFO4resok) := (GETDEVICEINFO4resok_gdir_device_addr x,
  GETDEVICEINFO4resok_gdir_notification x).
Definition make_GETDEVICEINFO4resok (t : (device_addr4 * (Z * list Z))) : GETDEVICEINFO4resok := mkGETDEVICEINFO4resok t.1
  t.2.
#[global] Instance GETDEVICEINFO4resok_iso : Iso fields_GETDEVICEINFO4resok make_GETDEVICEINFO4resok. Proof. iso. Qed.
Definition zdr_GETDEVICEINFO4resok : proc GETDEVICEINFO4resok := zdr_via fields_GETDEVICEINFO4resok
  make_GETDEVICEINFO4resok (zdr_device_addr4 >>> zdr_bitmap4).
#[global] Instance GETDEVICEINFO4resok_codec : Codec zdr_GETDEVICEINFO4resok. Proof. codec zdr_GETDEVICEINFO4resok. Defined.
#[global] Instance GETDEVICEINFO4resok_blank : Blank zdr_GETDEVICEINFO4resok zero_GETDEVICEINFO4resok. Proof. blank
  zdr_GETDEVICEINFO4resok. Qed.

Inductive GETDEVICEINFO4res_union := GETDEVICEINFO4res_cleared | GETDEVICEINFO4res_gdir_resok4 (x : GETDEVICEINFO4resok) |
  GETDEVICEINFO4res_gdir_mincount (x : Z).
Record GETDEVICEINFO4res := mkGETDEVICEINFO4res { GETDEVICEINFO4res_gdir_status : Z; GETDEVICEINFO4res_u :
  GETDEVICEINFO4res_union }.
Definition zero_GETDEVICEINFO4res : GETDEVICEINFO4res := mkGETDEVICEINFO4res 0 GETDEVICEINFO4res_cleared.
Definition fields_GETDEVICEINFO4res (x : GETDEVICEINFO4res) := (GETDEVICEINFO4res_gdir_status x, GETDEVICEINFO4res_u x).
Definition make_GETDEVICEINFO4res (t : (Z * GETDEVICEINFO4res_union)) : GETDEVICEINFO4res := mkGETDEVICEINFO4res t.1 t.2.
#[global] Instance GETDEVICEINFO4res_iso : Iso fields_GETDEVICEINFO4res make_GETDEVICEINFO4res. Proof. iso. Qed.
Definition as_GETDEVICEINFO4res_gdir_resok4 (u : GETDEVICEINFO4res_union) : GETDEVICEINFO4resok := match u with
  GETDEVICEINFO4res_gdir_resok4 x => x | _ => zero_GETDEVICEINFO4resok end.
#[global] Instance GETDEVICEINFO4res_gdir_resok4_member : Variant as_GETDEVICEINFO4res_gdir_resok4
  GETDEVICEINFO4res_gdir_resok4. Proof. done. Qed.
Definition as_GETDEVICEINFO4res_gdir_mincount (u : GETDEVICEINFO4res_union) : Z := match u with
  GETDEVICEINFO4res_gdir_mincount x => x | _ => 0 end.
#[global] Instance GETDEVICEINFO4res_gdir_mincount_member : Variant as_GETDEVICEINFO4res_gdir_mincount
  GETDEVICEINFO4res_gdir_mincount. Proof. done. Qed.
Definition case_GETDEVICEINFO4res (d : Z) : proc GETDEVICEINFO4res_union :=
  if (d =? NFS4_OK) then zdr_member as_GETDEVICEINFO4res_gdir_resok4 GETDEVICEINFO4res_gdir_resok4 zdr_GETDEVICEINFO4resok
    else if (d =? NFS4ERR_TOOSMALL) then zdr_member as_GETDEVICEINFO4res_gdir_mincount GETDEVICEINFO4res_gdir_mincount
    zdr_count4
  else zdr_void.
#[global] Instance case_GETDEVICEINFO4res_codec d : Codec (case_GETDEVICEINFO4res d). Proof. codec case_GETDEVICEINFO4res.
  Defined.
#[global] Instance case_GETDEVICEINFO4res_blank d : Blank (case_GETDEVICEINFO4res d) GETDEVICEINFO4res_cleared. Proof.
  blank case_GETDEVICEINFO4res. Qed.
Definition zdr_GETDEVICEINFO4res : proc GETDEVICEINFO4res := zdr_via fields_GETDEVICEINFO4res make_GETDEVICEINFO4res
  (zdr_dseq zdr_nfsstat4 (case_GETDEVICEINFO4res)).
#[global] Instance GETDEVICEINFO4res_codec : Codec zdr_GETDEVICEINFO4res. Proof. codec zdr_GETDEVICEINFO4res. Defined.
#[global] Instance GETDEVICEINFO4res_blank : Blank zdr_GETDEVICEINFO4res zero_GETDEVICEINFO4res. Proof. blank
  zdr_GETDEVICEINFO4res. Qed.

Record GETDEVICELIST4args := mkGETDEVICELIST4args {
    GETDEVICELIST4args_gdla_layout_type : Z; GETDEVICELIST4args_gdla_maxdevices : Z; GETDEVICELIST4args_gdla_cookie : Z;
    GETDEVICELIST4args_gdla_cookieverf : ptr
}.
Definition zero_GETDEVICELIST4args : GETDEVICELIST4args := mkGETDEVICELIST4args 0 0 0 (Heap (zeros 8)).
Definition fields_GETDEVICELIST4args (x : GETDEVICELIST4args) := (GETDEVICELIST4args_gdla_layout_type x,
  (GETDEVICELIST4args_gdla_maxdevices x, (GETDEVICELIST4args_gdla_cookie x, GETDEVICELIST4args_gdla_cookieverf x))).
Definition make_GETDEVICELIST4args (t : (Z * (Z * (Z * ptr)))) : GETDEVICELIST4args := mkGETDEVICELIST4args t.1 t.2.1
  t.2.2.1 t.2.2.2.
#[global] Instance GETDEVICELIST4args_iso : Iso fields_GETDEVICELIST4args make_GETDEVICELIST4args. Proof. iso. Qed.
Definition zdr_GETDEVICELIST4args : proc GETDEVICELIST4args := zdr_via fields_GETDEVICELIST4args make_GETDEVICELIST4args
  (zdr_layouttype4 >>> zdr_count4 >>> zdr_nfs_cookie4 >>> zdr_verifier4).
#[global] Instance GETDEVICELIST4args_codec : Codec zdr_GETDEVICELIST4args. Proof. codec zdr_GETDEVICELIST4args. Defined.
#[global] Instance GETDEVICELIST4args_blank : Blank zdr_GETDEVICELIST4args zero_GETDEVICELIST4args. Proof. blank
  zdr_GETDEVICELIST4args. Qed.

Record GETDEVICELIST4resok := mkGETDEVICELIST4resok {
    GETDEVICELIST4resok_gdlr_cookie : Z; GETDEVICELIST4resok_gdlr_cookieverf : ptr; GETDEVICELIST4resok_gdlr_deviceid_list
    : Z * list ptr; GETDEVICELIST4resok_gdlr_eof : Z
}.
Definition zero_GETDEVICELIST4resok : GETDEVICELIST4resok := mkGETDEVICELIST4resok 0 (Heap (zeros 8)) (0, []) 0.
Definition fields_GETDEVICELIST4resok (x : GETDEVICELIST4resok) := (GETDEVICELIST4resok_gdlr_cookie x,
  (GETDEVICELIST4resok_gdlr_cookieverf x, (GETDEVICELIST4resok_gdlr_deviceid_list x, GETDEVICELIST4resok_gdlr_eof x))).
Definition make_GETDEVICELIST4resok (t : (Z * (ptr * ((Z * list ptr) * Z)))) : GETDEVICELIST4resok :=
  mkGETDEVICELIST4resok t.1 t.2.1 t.2.2.1 t.2.2.2.
#[global] Instance GETDEVICELIST4resok_iso : Iso fields_GETDEVICELIST4resok make_GETDEVICELIST4resok. Proof. iso. Qed.
Definition zdr_GETDEVICELIST4resok : proc GETDEVICELIST4resok := zdr_via fields_GETDEVICELIST4resok
  make_GETDEVICELIST4resok (zdr_nfs_cookie4 >>> zdr_verifier4 >>> (zdr_array (Heap (zeros 16)) 16 zdr_deviceid4) >>>
  zdr_bool).
#[global] Instance GETDEVICELIST4resok_codec : Codec zdr_GETDEVICELIST4resok. Proof. codec zdr_GETDEVICELIST4resok. Defined.
#[global] Instance GETDEVICELIST4resok_blank : Blank zdr_GETDEVICELIST4resok zero_GETDEVICELIST4resok. Proof. blank
  zdr_GETDEVICELIST4resok. Qed.

Inductive GETDEVICELIST4res_union := GETDEVICELIST4res_cleared | GETDEVICELIST4res_gdlr_resok4 (x : GETDEVICELIST4resok).
Record GETDEVICELIST4res := mkGETDEVICELIST4res { GETDEVICELIST4res_gdlr_status : Z; GETDEVICELIST4res_u :
  GETDEVICELIST4res_union }.
Definition zero_GETDEVICELIST4res : GETDEVICELIST4res := mkGETDEVICELIST4res 0 GETDEVICELIST4res_cleared.
Definition fields_GETDEVICELIST4res (x : GETDEVICELIST4res) := (GETDEVICELIST4res_gdlr_status x, GETDEVICELIST4res_u x).
Definition make_GETDEVICELIST4res (t : (Z * GETDEVICELIST4res_union)) : GETDEVICELIST4res := mkGETDEVICELIST4res t.1 t.2.
#[global] Instance GETDEVICELIST4res_iso : Iso fields_GETDEVICELIST4res make_GETDEVICELIST4res. Proof. iso. Qed.
Definition as_GETDEVICELIST4res_gdlr_resok4 (u : GETDEVICELIST4res_union) : GETDEVICELIST4resok := match u with
  GETDEVICELIST4res_gdlr_resok4 x => x | _ => zero_GETDEVICELIST4resok end.
#[global] Instance GETDEVICELIST4res_gdlr_resok4_member : Variant as_GETDEVICELIST4res_gdlr_resok4
  GETDEVICELIST4res_gdlr_resok4. Proof. done. Qed.
Definition case_GETDEVICELIST4res (d : Z) : proc GETDEVICELIST4res_union :=
  if (d =? NFS4_OK) then zdr_member as_GETDEVICELIST4res_gdlr_resok4 GETDEVICELIST4res_gdlr_resok4 zdr_GETDEVICELIST4resok
  else zdr_void.
#[global] Instance case_GETDEVICELIST4res_codec d : Codec (case_GETDEVICELIST4res d). Proof. codec case_GETDEVICELIST4res.
  Defined.
#[global] Instance case_GETDEVICELIST4res_blank d : Blank (case_GETDEVICELIST4res d) GETDEVICELIST4res_cleared. Proof.
  blank case_GETDEVICELIST4res. Qed.
Definition zdr_GETDEVICELIST4res : proc GETDEVICELIST4res := zdr_via fields_GETDEVICELIST4res make_GETDEVICELIST4res
  (zdr_dseq zdr_nfsstat4 (case_GETDEVICELIST4res)).
#[global] Instance GETDEVICELIST4res_codec : Codec zdr_GETDEVICELIST4res. Proof. codec zdr_GETDEVICELIST4res. Defined.
#[global] Instance GETDEVICELIST4res_blank : Blank zdr_GETDEVICELIST4res zero_GETDEVICELIST4res. Proof. blank
  zdr_GETDEVICELIST4res. Qed.

Inductive newtime4_union := newtime4_cleared | newtime4_nt_time (x : nfstime4).
Record newtime4 := mknewtime4 { newtime4_nt_timechanged : Z; newtime4_u : newtime4_union }.
Definition zero_newtime4 : newtime4 := mknewtime4 0 newtime4_cleared.
Definition fields_newtime4 (x : newtime4) := (newtime4_nt_timechanged x, newtime4_u x).
Definition make_newtime4 (t : (Z * newtime4_union)) : newtime4 := mknewtime4 t.1 t.2.
#[global] Instance newtime4_iso : Iso fields_newtime4 make_newtime4. Proof. iso. Qed.
Definition as_newtime4_nt_time (u : newtime4_union) : nfstime4 := match u with newtime4_nt_time x => x | _ =>
  zero_nfstime4 end.
#[global] Instance newtime4_nt_time_member : Variant as_newtime4_nt_time newtime4_nt_time. Proof. done. Qed.
Definition case_newtime4 (d : Z) : proc newtime4_union :=
  if (d =? 1) then zdr_member as_newtime4_nt_time newtime4_nt_time zdr_nfstime4
  else if (d =? 0) then zdr_void
  else zdr_fail.
#[global] Instance case_newtime4_codec d : Codec (case_newtime4 d). Proof. codec case_newtime4. Defined.
#[global] Instance case_newtime4_blank d : Blank (case_newtime4 d) newtime4_cleared. Proof. blank case_newtime4. Qed.
#[global] Instance case_newtime4_safe d : Safe (case_newtime4 d). Proof. safe case_newtime4. Qed.
Definition zdr_newtime4 : proc newtime4 := zdr_via fields_newtime4 make_newtime4 (zdr_dseq zdr_bool (case_newtime4)).
#[global] Instance newtime4_codec : Codec zdr_newtime4. Proof. codec zdr_newtime4. Defined.
#[global] Instance newtime4_blank : Blank zdr_newtime4 zero_newtime4. Proof. blank zdr_newtime4. Qed.
#[global] Instance newtime4_safe : Safe zdr_newtime4. Proof. safe zdr_newtime4. Qed.

Inductive newoffset4_union := newoffset4_cleared | newoffset4_no_offset (x : Z).
Record newoffset4 := mknewoffset4 { newoffset4_no_newoffset : Z; newoffset4_u : newoffset4_union }.
Definition zero_newoffset4 : newoffset4 := mknewoffset4 0 newoffset4_cleared.
Definition fields_newoffset4 (x : newoffset4) := (newoffset4_no_newoffset x, newoffset4_u x).
Definition make_newoffset4 (t : (Z * newoffset4_union)) : newoffset4 := mknewoffset4 t.1 t.2.
#[global] Instance newoffset4_iso : Iso fields_newoffset4 make_newoffset4. Proof. iso. Qed.
Definition as_newoffset4_no_offset (u : newoffset4_union) : Z := match u with newoffset4_no_offset x => x | _ => 0 end.
#[global] Instance newoffset4_no_offset_member : Variant as_newoffset4_no_offset newoffset4_no_offset. Proof. done. Qed.
Definition case_newoffset4 (d : Z) : proc newoffset4_union :=
  if (d =? 1) then zdr_member as_newoffset4_no_offset newoffset4_no_offset zdr_offset4
  else if (d =? 0) then zdr_void
  else zdr_fail.
#[global] Instance case_newoffset4_codec d : Codec (case_newoffset4 d). Proof. codec case_newoffset4. Defined.
#[global] Instance case_newoffset4_blank d : Blank (case_newoffset4 d) newoffset4_cleared. Proof. blank case_newoffset4. Qed.
#[global] Instance case_newoffset4_safe d : Safe (case_newoffset4 d). Proof. safe case_newoffset4. Qed.
Definition zdr_newoffset4 : proc newoffset4 := zdr_via fields_newoffset4 make_newoffset4 (zdr_dseq zdr_bool
  (case_newoffset4)).
#[global] Instance newoffset4_codec : Codec zdr_newoffset4. Proof. codec zdr_newoffset4. Defined.
#[global] Instance newoffset4_blank : Blank zdr_newoffset4 zero_newoffset4. Proof. blank zdr_newoffset4. Qed.
#[global] Instance newoffset4_safe : Safe zdr_newoffset4. Proof. safe zdr_newoffset4. Qed.

Record LAYOUTCOMMIT4args := mkLAYOUTCOMMIT4args {
    LAYOUTCOMMIT4args_loca_offset : Z; LAYOUTCOMMIT4args_loca_length : Z; LAYOUTCOMMIT4args_loca_reclaim : Z;
    LAYOUTCOMMIT4args_loca_stateid : stateid4; LAYOUTCOMMIT4args_loca_last_write_offset : newoffset4;
    LAYOUTCOMMIT4args_loca_time_modify : newtime4; LAYOUTCOMMIT4args_loca_layoutupdate : layoutupdate4
}.
Definition zero_LAYOUTCOMMIT4args : LAYOUTCOMMIT4args := mkLAYOUTCOMMIT4args 0 0 0 zero_stateid4 zero_newoffset4
  zero_newtime4 zero_layoutupdate4.
Definition fields_LAYOUTCOMMIT4args (x : LAYOUTCOMMIT4args) := (LAYOUTCOMMIT4args_loca_offset x,
  (LAYOUTCOMMIT4args_loca_length x, (LAYOUTCOMMIT4args_loca_reclaim x, (LAYOUTCOMMIT4args_loca_stateid x,
  (LAYOUTCOMMIT4args_loca_last_write_offset x, (LAYOUTCOMMIT4args_loca_time_modify x, LAYOUTCOMMIT4args_loca_layoutupdate
  x)))))).
Definition make_LAYOUTCOMMIT4args (t : (Z * (Z * (Z * (stateid4 * (newoffset4 * (newtime4 * layoutupdate4))))))) :
  LAYOUTCOMMIT4args := mkLAYOUTCOMMIT4args t.1 t.2.1 t.2.2.1 t.2.2.2.1 t.2.2.2.2.1 t.2.2.2.2.2.1 t.2.2.2.2.2.2.
#[global] Instance LAYOUTCOMMIT4args_iso : Iso fields_LAYOUTCOMMIT4args make_LAYOUTCOMMIT4args. Proof. iso. Qed.
Definition zdr_LAYOUTCOMMIT4args : proc LAYOUTCOMMIT4args := zdr_via fields_LAYOUTCOMMIT4args make_LAYOUTCOMMIT4args
  (zdr_offset4 >>> zdr_length4 >>> zdr_bool >>> zdr_stateid4 >>> zdr_newoffset4 >>> zdr_newtime4 >>> zdr_layoutupdate4).
#[global] Instance LAYOUTCOMMIT4args_codec : Codec zdr_LAYOUTCOMMIT4args. Proof. codec zdr_LAYOUTCOMMIT4args. Defined.
#[global] Instance LAYOUTCOMMIT4args_blank : Blank zdr_LAYOUTCOMMIT4args zero_LAYOUTCOMMIT4args. Proof. blank
  zdr_LAYOUTCOMMIT4args. Qed.

Inductive newsize4_union := newsize4_cleared | newsize4_ns_size (x : Z).
Record newsize4 := mknewsize4 { newsize4_ns_sizechanged : Z; newsize4_u : newsize4_union }.
Definition zero_newsize4 : newsize4 := mknewsize4 0 newsize4_cleared.
Definition fields_newsize4 (x : newsize4) := (newsize4_ns_sizechanged x, newsize4_u x).
Definition make_newsize4 (t : (Z * newsize4_union)) : newsize4 := mknewsize4 t.1 t.2.
#[global] Instance newsize4_iso : Iso fields_newsize4 make_newsize4. Proof. iso. Qed.
Definition as_newsize4_ns_size (u : newsize4_union) : Z := match u with newsize4_ns_size x => x | _ => 0 end.
#[global] Instance newsize4_ns_size_member : Variant as_newsize4_ns_size newsize4_ns_size. Proof. done. Qed.
Definition case_newsize4 (d : Z) : proc newsize4_union :=
  if (d =? 1) then zdr_member as_newsize4_ns_size newsize4_ns_size zdr_length4
  else if (d =? 0) then zdr_void
  else zdr_fail.
#[global] Instance case_newsize4_codec d : Codec (case_newsize4 d). Proof. codec case_newsize4. Defined.
#[global] Instance case_newsize4_blank d : Blank (case_newsize4 d) newsize4_cleared. Proof. blank case_newsize4. Qed.
#[global] Instance case_newsize4_safe d : Safe (case_newsize4 d). Proof. safe case_newsize4. Qed.
Definition zdr_newsize4 : proc newsize4 := zdr_via fields_newsize4 make_newsize4 (zdr_dseq zdr_bool (case_newsize4)).
#[global] Instance newsize4_codec : Codec zdr_newsize4. Proof. codec zdr_newsize4. Defined.
#[global] Instance newsize4_blank : Blank zdr_newsize4 zero_newsize4. Proof. blank zdr_newsize4. Qed.
#[global] Instance newsize4_safe : Safe zdr_newsize4. Proof. safe zdr_newsize4. Qed.

Record LAYOUTCOMMIT4resok := mkLAYOUTCOMMIT4resok {
  LAYOUTCOMMIT4resok_locr_newsize : newsize4
}.
Definition zero_LAYOUTCOMMIT4resok : LAYOUTCOMMIT4resok := mkLAYOUTCOMMIT4resok zero_newsize4.
Definition fields_LAYOUTCOMMIT4resok (x : LAYOUTCOMMIT4resok) := LAYOUTCOMMIT4resok_locr_newsize x.
Definition make_LAYOUTCOMMIT4resok (t : newsize4) : LAYOUTCOMMIT4resok := mkLAYOUTCOMMIT4resok t.
#[global] Instance LAYOUTCOMMIT4resok_iso : Iso fields_LAYOUTCOMMIT4resok make_LAYOUTCOMMIT4resok. Proof. iso. Qed.
Definition zdr_LAYOUTCOMMIT4resok : proc LAYOUTCOMMIT4resok := zdr_via fields_LAYOUTCOMMIT4resok make_LAYOUTCOMMIT4resok
  (zdr_newsize4).
#[global] Instance LAYOUTCOMMIT4resok_codec : Codec zdr_LAYOUTCOMMIT4resok. Proof. codec zdr_LAYOUTCOMMIT4resok. Defined.
#[global] Instance LAYOUTCOMMIT4resok_blank : Blank zdr_LAYOUTCOMMIT4resok zero_LAYOUTCOMMIT4resok. Proof. blank
  zdr_LAYOUTCOMMIT4resok. Qed.
#[global] Instance LAYOUTCOMMIT4resok_safe : Safe zdr_LAYOUTCOMMIT4resok. Proof. safe zdr_LAYOUTCOMMIT4resok. Qed.

Inductive LAYOUTCOMMIT4res_union := LAYOUTCOMMIT4res_cleared | LAYOUTCOMMIT4res_locr_resok4 (x : LAYOUTCOMMIT4resok).
Record LAYOUTCOMMIT4res := mkLAYOUTCOMMIT4res { LAYOUTCOMMIT4res_locr_status : Z; LAYOUTCOMMIT4res_u :
  LAYOUTCOMMIT4res_union }.
Definition zero_LAYOUTCOMMIT4res : LAYOUTCOMMIT4res := mkLAYOUTCOMMIT4res 0 LAYOUTCOMMIT4res_cleared.
Definition fields_LAYOUTCOMMIT4res (x : LAYOUTCOMMIT4res) := (LAYOUTCOMMIT4res_locr_status x, LAYOUTCOMMIT4res_u x).
Definition make_LAYOUTCOMMIT4res (t : (Z * LAYOUTCOMMIT4res_union)) : LAYOUTCOMMIT4res := mkLAYOUTCOMMIT4res t.1 t.2.
#[global] Instance LAYOUTCOMMIT4res_iso : Iso fields_LAYOUTCOMMIT4res make_LAYOUTCOMMIT4res. Proof. iso. Qed.
Definition as_LAYOUTCOMMIT4res_locr_resok4 (u : LAYOUTCOMMIT4res_union) : LAYOUTCOMMIT4resok := match u with
  LAYOUTCOMMIT4res_locr_resok4 x => x | _ => zero_LAYOUTCOMMIT4resok end.
#[global] Instance LAYOUTCOMMIT4res_locr_resok4_member : Variant as_LAYOUTCOMMIT4res_locr_resok4
  LAYOUTCOMMIT4res_locr_resok4. Proof. done. Qed.
Definition case_LAYOUTCOMMIT4res (d : Z) : proc LAYOUTCOMMIT4res_union :=
  if (d =? NFS4_OK) then zdr_member as_LAYOUTCOMMIT4res_locr_resok4 LAYOUTCOMMIT4res_locr_resok4 zdr_LAYOUTCOMMIT4resok
  else zdr_void.
#[global] Instance case_LAYOUTCOMMIT4res_codec d : Codec (case_LAYOUTCOMMIT4res d). Proof. codec case_LAYOUTCOMMIT4res.
  Defined.
#[global] Instance case_LAYOUTCOMMIT4res_blank d : Blank (case_LAYOUTCOMMIT4res d) LAYOUTCOMMIT4res_cleared. Proof. blank
  case_LAYOUTCOMMIT4res. Qed.
#[global] Instance case_LAYOUTCOMMIT4res_safe d : Safe (case_LAYOUTCOMMIT4res d). Proof. safe case_LAYOUTCOMMIT4res. Qed.
Definition zdr_LAYOUTCOMMIT4res : proc LAYOUTCOMMIT4res := zdr_via fields_LAYOUTCOMMIT4res make_LAYOUTCOMMIT4res (zdr_dseq
  zdr_nfsstat4 (case_LAYOUTCOMMIT4res)).
#[global] Instance LAYOUTCOMMIT4res_codec : Codec zdr_LAYOUTCOMMIT4res. Proof. codec zdr_LAYOUTCOMMIT4res. Defined.
#[global] Instance LAYOUTCOMMIT4res_blank : Blank zdr_LAYOUTCOMMIT4res zero_LAYOUTCOMMIT4res. Proof. blank
  zdr_LAYOUTCOMMIT4res. Qed.
#[global] Instance LAYOUTCOMMIT4res_safe : Safe zdr_LAYOUTCOMMIT4res. Proof. safe zdr_LAYOUTCOMMIT4res. Qed.

Record LAYOUTGET4args := mkLAYOUTGET4args {
    LAYOUTGET4args_loga_signal_layout_avail : Z; LAYOUTGET4args_loga_layout_type : Z; LAYOUTGET4args_loga_iomode : Z;
    LAYOUTGET4args_loga_offset : Z; LAYOUTGET4args_loga_length : Z; LAYOUTGET4args_loga_minlength : Z;
    LAYOUTGET4args_loga_stateid : stateid4; LAYOUTGET4args_loga_maxcount : Z
}.
Definition zero_LAYOUTGET4args : LAYOUTGET4args := mkLAYOUTGET4args 0 0 0 0 0 0 zero_stateid4 0.
Definition fields_LAYOUTGET4args (x : LAYOUTGET4args) := (LAYOUTGET4args_loga_signal_layout_avail x,
  (LAYOUTGET4args_loga_layout_type x, (LAYOUTGET4args_loga_iomode x, (LAYOUTGET4args_loga_offset x,
  (LAYOUTGET4args_loga_length x, (LAYOUTGET4args_loga_minlength x, (LAYOUTGET4args_loga_stateid x,
  LAYOUTGET4args_loga_maxcount x))))))).
Definition make_LAYOUTGET4args (t : (Z * (Z * (Z * (Z * (Z * (Z * (stateid4 * Z)))))))) : LAYOUTGET4args :=
  mkLAYOUTGET4args t.1 t.2.1 t.2.2.1 t.2.2.2.1 t.2.2.2.2.1 t.2.2.2.2.2.1 t.2.2.2.2.2.2.1 t.2.2.2.2.2.2.2.
#[global] Instance LAYOUTGET4args_iso : Iso fields_LAYOUTGET4args make_LAYOUTGET4args. Proof. iso. Qed.
Definition zdr_LAYOUTGET4args : proc LAYOUTGET4args := zdr_via fields_LAYOUTGET4args make_LAYOUTGET4args (zdr_bool >>>
  zdr_layouttype4 >>> zdr_layoutiomode4 >>> zdr_offset4 >>> zdr_length4 >>> zdr_length4 >>> zdr_stateid4 >>> zdr_count4).
#[global] Instance LAYOUTGET4args_codec : Codec zdr_LAYOUTGET4args. Proof. codec zdr_LAYOUTGET4args. Defined.
#[global] Instance LAYOUTGET4args_blank : Blank zdr_LAYOUTGET4args zero_LAYOUTGET4args. Proof. blank zdr_LAYOUTGET4args. Qed.

Record LAYOUTGET4resok := mkLAYOUTGET4resok {
    LAYOUTGET4resok_logr_return_on_close : Z; LAYOUTGET4resok_logr_stateid : stateid4; LAYOUTGET4resok_logr_layout : Z *
    list layout4
}.
Definition zero_LAYOUTGET4resok : LAYOUTGET4resok := mkLAYOUTGET4resok 0 zero_stateid4 (0, []).
Definition fields_LAYOUTGET4resok (x : LAYOUTGET4resok) := (LAYOUTGET4resok_logr_return_on_close x,
  (LAYOUTGET4resok_logr_stateid x, LAYOUTGET4resok_logr_layout x)).
Definition make_LAYOUTGET4resok (t : (Z * (stateid4 * (Z * list layout4)))) : LAYOUTGET4resok := mkLAYOUTGET4resok t.1
  t.2.1 t.2.2.
#[global] Instance LAYOUTGET4resok_iso : Iso fields_LAYOUTGET4resok make_LAYOUTGET4resok. Proof. iso. Qed.
Definition zdr_LAYOUTGET4resok : proc LAYOUTGET4resok := zdr_via fields_LAYOUTGET4resok make_LAYOUTGET4resok (zdr_bool >>>
  zdr_stateid4 >>> (zdr_array zero_layout4 48 zdr_layout4)).
#[global] Instance LAYOUTGET4resok_codec : Codec zdr_LAYOUTGET4resok. Proof. codec zdr_LAYOUTGET4resok. Defined.
#[global] Instance LAYOUTGET4resok_blank : Blank zdr_LAYOUTGET4resok zero_LAYOUTGET4resok. Proof. blank
  zdr_LAYOUTGET4resok. Qed.

Inductive LAYOUTGET4res_union := LAYOUTGET4res_cleared | LAYOUTGET4res_logr_resok4 (x : LAYOUTGET4resok) |
  LAYOUTGET4res_logr_will_signal_layout_avail (x : Z).
Record LAYOUTGET4res := mkLAYOUTGET4res { LAYOUTGET4res_logr_status : Z; LAYOUTGET4res_u : LAYOUTGET4res_union }.
Definition zero_LAYOUTGET4res : LAYOUTGET4res := mkLAYOUTGET4res 0 LAYOUTGET4res_cleared.
Definition fields_LAYOUTGET4res (x : LAYOUTGET4res) := (LAYOUTGET4res_logr_status x, LAYOUTGET4res_u x).
Definition make_LAYOUTGET4res (t : (Z * LAYOUTGET4res_union)) : LAYOUTGET4res := mkLAYOUTGET4res t.1 t.2.
#[global] Instance LAYOUTGET4res_iso : Iso fields_LAYOUTGET4res make_LAYOUTGET4res. Proof. iso. Qed.
Definition as_LAYOUTGET4res_logr_resok4 (u : LAYOUTGET4res_union) : LAYOUTGET4resok := match u with
  LAYOUTGET4res_logr_resok4 x => x | _ => zero_LAYOUTGET4resok end.
#[global] Instance LAYOUTGET4res_logr_resok4_member : Variant as_LAYOUTGET4res_logr_resok4 LAYOUTGET4res_logr_resok4.
  Proof. done. Qed.
Definition as_LAYOUTGET4res_logr_will_signal_layout_avail (u : LAYOUTGET4res_union) : Z := match u with
  LAYOUTGET4res_logr_will_signal_layout_avail x => x | _ => 0 end.
#[global] Instance LAYOUTGET4res_logr_will_signal_layout_avail_member : Variant
  as_LAYOUTGET4res_logr_will_signal_layout_avail LAYOUTGET4res_logr_will_signal_layout_avail. Proof. done. Qed.
Definition case_LAYOUTGET4res (d : Z) : proc LAYOUTGET4res_union :=
  if (d =? NFS4_OK) then zdr_member as_LAYOUTGET4res_logr_resok4 LAYOUTGET4res_logr_resok4 zdr_LAYOUTGET4resok
    else if (d =? NFS4ERR_LAYOUTTRYLATER) then zdr_member as_LAYOUTGET4res_logr_will_signal_layout_avail
    LAYOUTGET4res_logr_will_signal_layout_avail zdr_bool
  else zdr_void.
#[global] Instance case_LAYOUTGET4res_codec d : Codec (case_LAYOUTGET4res d). Proof. codec case_LAYOUTGET4res. Defined.
#[global] Instance case_LAYOUTGET4res_blank d : Blank (case_LAYOUTGET4res d) LAYOUTGET4res_cleared. Proof. blank
  case_LAYOUTGET4res. Qed.
Definition zdr_LAYOUTGET4res : proc LAYOUTGET4res := zdr_via fields_LAYOUTGET4res make_LAYOUTGET4res (zdr_dseq
  zdr_nfsstat4 (case_LAYOUTGET4res)).
#[global] Instance LAYOUTGET4res_codec : Codec zdr_LAYOUTGET4res. Proof. codec zdr_LAYOUTGET4res. Defined.
#[global] Instance LAYOUTGET4res_blank : Blank zdr_LAYOUTGET4res zero_LAYOUTGET4res. Proof. blank zdr_LAYOUTGET4res. Qed.

Definition zdr_layoutreturn_type4 : proc Z := zdr_enum.
Record layoutreturn_file4 := mklayoutreturn_file4 {
    layoutreturn_file4_lrf_offset : Z; layoutreturn_file4_lrf_length : Z; layoutreturn_file4_lrf_stateid : stateid4;
    layoutreturn_file4_lrf_body : ptr * Z
}.
Definition zero_layoutreturn_file4 : layoutreturn_file4 := mklayoutreturn_file4 0 0 zero_stateid4 (NULL, 0).
Definition fields_layoutreturn_file4 (x : layoutreturn_file4) := (layoutreturn_file4_lrf_offset x,
  (layoutreturn_file4_lrf_length x, (layoutreturn_file4_lrf_stateid x, layoutreturn_file4_lrf_body x))).
Definition make_layoutreturn_file4 (t : (Z * (Z * (stateid4 * (ptr * Z))))) : layoutreturn_file4 := mklayoutreturn_file4
  t.1 t.2.1 t.2.2.1 t.2.2.2.
#[global] Instance layoutreturn_file4_iso : Iso fields_layoutreturn_file4 make_layoutreturn_file4. Proof. iso. Qed.
Definition zdr_layoutreturn_file4 : proc layoutreturn_file4 := zdr_via fields_layoutreturn_file4 make_layoutreturn_file4
  (zdr_offset4 >>> zdr_length4 >>> zdr_stateid4 >>> zdr_bytes).
#[global] Instance layoutreturn_file4_codec : Codec zdr_layoutreturn_file4. Proof. codec zdr_layoutreturn_file4. Defined.
#[global] Instance layoutreturn_file4_blank : Blank zdr_layoutreturn_file4 zero_layoutreturn_file4. Proof. blank
  zdr_layoutreturn_file4. Qed.

Inductive layoutreturn4_union := layoutreturn4_cleared | layoutreturn4_lr_layout (x : layoutreturn_file4).
Record layoutreturn4 := mklayoutreturn4 { layoutreturn4_lr_returntype : Z; layoutreturn4_u : layoutreturn4_union }.
Definition zero_layoutreturn4 : layoutreturn4 := mklayoutreturn4 0 layoutreturn4_cleared.
Definition fields_layoutreturn4 (x : layoutreturn4) := (layoutreturn4_lr_returntype x, layoutreturn4_u x).
Definition make_layoutreturn4 (t : (Z * layoutreturn4_union)) : layoutreturn4 := mklayoutreturn4 t.1 t.2.
#[global] Instance layoutreturn4_iso : Iso fields_layoutreturn4 make_layoutreturn4. Proof. iso. Qed.
Definition as_layoutreturn4_lr_layout (u : layoutreturn4_union) : layoutreturn_file4 := match u with
  layoutreturn4_lr_layout x => x | _ => zero_layoutreturn_file4 end.
#[global] Instance layoutreturn4_lr_layout_member : Variant as_layoutreturn4_lr_layout layoutreturn4_lr_layout. Proof.
  done. Qed.
Definition case_layoutreturn4 (d : Z) : proc layoutreturn4_union :=
  if (d =? LAYOUTRETURN4_FILE) then zdr_member as_layoutreturn4_lr_layout layoutreturn4_lr_layout zdr_layoutreturn_file4
  else zdr_void.
#[global] Instance case_layoutreturn4_codec d : Codec (case_layoutreturn4 d). Proof. codec case_layoutreturn4. Defined.
#[global] Instance case_layoutreturn4_blank d : Blank (case_layoutreturn4 d) layoutreturn4_cleared. Proof. blank
  case_layoutreturn4. Qed.
Definition zdr_layoutreturn4 : proc layoutreturn4 := zdr_via fields_layoutreturn4 make_layoutreturn4 (zdr_dseq
  zdr_layoutreturn_type4 (case_layoutreturn4)).
#[global] Instance layoutreturn4_codec : Codec zdr_layoutreturn4. Proof. codec zdr_layoutreturn4. Defined.
#[global] Instance layoutreturn4_blank : Blank zdr_layoutreturn4 zero_layoutreturn4. Proof. blank zdr_layoutreturn4. Qed.

Record LAYOUTRETURN4args := mkLAYOUTRETURN4args {
    LAYOUTRETURN4args_lora_reclaim : Z; LAYOUTRETURN4args_lora_layout_type : Z; LAYOUTRETURN4args_lora_iomode : Z;
    LAYOUTRETURN4args_lora_layoutreturn : layoutreturn4
}.
Definition zero_LAYOUTRETURN4args : LAYOUTRETURN4args := mkLAYOUTRETURN4args 0 0 0 zero_layoutreturn4.
Definition fields_LAYOUTRETURN4args (x : LAYOUTRETURN4args) := (LAYOUTRETURN4args_lora_reclaim x,
  (LAYOUTRETURN4args_lora_layout_type x, (LAYOUTRETURN4args_lora_iomode x, LAYOUTRETURN4args_lora_layoutreturn x))).
Definition make_LAYOUTRETURN4args (t : (Z * (Z * (Z * layoutreturn4)))) : LAYOUTRETURN4args := mkLAYOUTRETURN4args t.1
  t.2.1 t.2.2.1 t.2.2.2.
#[global] Instance LAYOUTRETURN4args_iso : Iso fields_LAYOUTRETURN4args make_LAYOUTRETURN4args. Proof. iso. Qed.
Definition zdr_LAYOUTRETURN4args : proc LAYOUTRETURN4args := zdr_via fields_LAYOUTRETURN4args make_LAYOUTRETURN4args
  (zdr_bool >>> zdr_layouttype4 >>> zdr_layoutiomode4 >>> zdr_layoutreturn4).
#[global] Instance LAYOUTRETURN4args_codec : Codec zdr_LAYOUTRETURN4args. Proof. codec zdr_LAYOUTRETURN4args. Defined.
#[global] Instance LAYOUTRETURN4args_blank : Blank zdr_LAYOUTRETURN4args zero_LAYOUTRETURN4args. Proof. blank
  zdr_LAYOUTRETURN4args. Qed.

Inductive layoutreturn_stateid_union := layoutreturn_stateid_cleared | layoutreturn_stateid_lrs_stateid (x : stateid4).
Record layoutreturn_stateid := mklayoutreturn_stateid { layoutreturn_stateid_lrs_present : Z; layoutreturn_stateid_u :
  layoutreturn_stateid_union }.
Definition zero_layoutreturn_stateid : layoutreturn_stateid := mklayoutreturn_stateid 0 layoutreturn_stateid_cleared.
Definition fields_layoutreturn_stateid (x : layoutreturn_stateid) := (layoutreturn_stateid_lrs_present x,
  layoutreturn_stateid_u x).
Definition make_layoutreturn_stateid (t : (Z * layoutreturn_stateid_union)) : layoutreturn_stateid :=
  mklayoutreturn_stateid t.1 t.2.
#[global] Instance layoutreturn_stateid_iso : Iso fields_layoutreturn_stateid make_layoutreturn_stateid. Proof. iso. Qed.
Definition as_layoutreturn_stateid_lrs_stateid (u : layoutreturn_stateid_union) : stateid4 := match u with
  layoutreturn_stateid_lrs_stateid x => x | _ => zero_stateid4 end.
#[global] Instance layoutreturn_stateid_lrs_stateid_member : Variant as_layoutreturn_stateid_lrs_stateid
  layoutreturn_stateid_lrs_stateid. Proof. done. Qed.
Definition case_layoutreturn_stateid (d : Z) : proc layoutreturn_stateid_union :=
  if (d =? 1) then zdr_member as_layoutreturn_stateid_lrs_stateid layoutreturn_stateid_lrs_stateid zdr_stateid4
  else if (d =? 0) then zdr_void
  else zdr_fail.
#[global] Instance case_layoutreturn_stateid_codec d : Codec (case_layoutreturn_stateid d). Proof. codec
  case_layoutreturn_stateid. Defined.
#[global] Instance case_layoutreturn_stateid_blank d : Blank (case_layoutreturn_stateid d) layoutreturn_stateid_cleared.
  Proof. blank case_layoutreturn_stateid. Qed.
Definition zdr_layoutreturn_stateid : proc layoutreturn_stateid := zdr_via fields_layoutreturn_stateid
  make_layoutreturn_stateid (zdr_dseq zdr_bool (case_layoutreturn_stateid)).
#[global] Instance layoutreturn_stateid_codec : Codec zdr_layoutreturn_stateid. Proof. codec zdr_layoutreturn_stateid.
  Defined.
#[global] Instance layoutreturn_stateid_blank : Blank zdr_layoutreturn_stateid zero_layoutreturn_stateid. Proof. blank
  zdr_layoutreturn_stateid. Qed.

Inductive LAYOUTRETURN4res_union := LAYOUTRETURN4res_cleared | LAYOUTRETURN4res_lorr_stateid (x : layoutreturn_stateid).
Record LAYOUTRETURN4res := mkLAYOUTRETURN4res { LAYOUTRETURN4res_lorr_status : Z; LAYOUTRETURN4res_u :
  LAYOUTRETURN4res_union }.
Definition zero_LAYOUTRETURN4res : LAYOUTRETURN4res := mkLAYOUTRETURN4res 0 LAYOUTRETURN4res_cleared.
Definition fields_LAYOUTRETURN4res (x : LAYOUTRETURN4res) := (LAYOUTRETURN4res_lorr_status x, LAYOUTRETURN4res_u x).
Definition make_LAYOUTRETURN4res (t : (Z * LAYOUTRETURN4res_union)) : LAYOUTRETURN4res := mkLAYOUTRETURN4res t.1 t.2.
#[global] Instance LAYOUTRETURN4res_iso : Iso fields_LAYOUTRETURN4res make_LAYOUTRETURN4res. Proof. iso. Qed.
Definition as_LAYOUTRETURN4res_lorr_stateid (u : LAYOUTRETURN4res_union) : layoutreturn_stateid := match u with
  LAYOUTRETURN4res_lorr_stateid x => x | _ => zero_layoutreturn_stateid end.
#[global] Instance LAYOUTRETURN4res_lorr_stateid_member : Variant as_LAYOUTRETURN4res_lorr_stateid
  LAYOUTRETURN4res_lorr_stateid. Proof. done. Qed.
Definition case_LAYOUTRETURN4res (d : Z) : proc LAYOUTRETURN4res_union :=
  if (d =? NFS4_OK) then zdr_member as_LAYOUTRETURN4res_lorr_stateid LAYOUTRETURN4res_lorr_stateid zdr_layoutreturn_stateid
  else zdr_void.
#[global] Instance case_LAYOUTRETURN4res_codec d : Codec (case_LAYOUTRETURN4res d). Proof. codec case_LAYOUTRETURN4res.
  Defined.
#[global] Instance case_LAYOUTRETURN4res_blank d : Blank (case_LAYOUTRETURN4res d) LAYOUTRETURN4res_cleared. Proof. blank
  case_LAYOUTRETURN4res. Qed.
Definition zdr_LAYOUTRETURN4res : proc LAYOUTRETURN4res := zdr_via fields_LAYOUTRETURN4res make_LAYOUTRETURN4res (zdr_dseq
  zdr_nfsstat4 (case_LAYOUTRETURN4res)).
#[global] Instance LAYOUTRETURN4res_codec : Codec zdr_LAYOUTRETURN4res. Proof. codec zdr_LAYOUTRETURN4res. Defined.
#[global] Instance LAYOUTRETURN4res_blank : Blank zdr_LAYOUTRETURN4res zero_LAYOUTRETURN4res. Proof. blank
  zdr_LAYOUTRETURN4res. Qed.

Definition zdr_secinfo_style4 : proc Z := zdr_enum.
Definition zdr_SECINFO_NO_NAME4args : proc Z := zdr_secinfo_style4.
Definition zdr_SECINFO_NO_NAME4res : proc SECINFO4res := zdr_SECINFO4res.
Record SEQUENCE4args := mkSEQUENCE4args {
    SEQUENCE4args_sa_sessionid : ptr; SEQUENCE4args_sa_sequenceid : Z; SEQUENCE4args_sa_slotid : Z;
    SEQUENCE4args_sa_highest_slotid : Z; SEQUENCE4args_sa_cachethis : Z
}.
Definition zero_SEQUENCE4args : SEQUENCE4args := mkSEQUENCE4args (Heap (zeros 16)) 0 0 0 0.
Definition fields_SEQUENCE4args (x : SEQUENCE4args) := (SEQUENCE4args_sa_sessionid x, (SEQUENCE4args_sa_sequenceid x,
  (SEQUENCE4args_sa_slotid x, (SEQUENCE4args_sa_highest_slotid x, SEQUENCE4args_sa_cachethis x)))).
Definition make_SEQUENCE4args (t : (ptr * (Z * (Z * (Z * Z))))) : SEQUENCE4args := mkSEQUENCE4args t.1 t.2.1 t.2.2.1
  t.2.2.2.1 t.2.2.2.2.
#[global] Instance SEQUENCE4args_iso : Iso fields_SEQUENCE4args make_SEQUENCE4args. Proof. iso. Qed.
Definition zdr_SEQUENCE4args : proc SEQUENCE4args := zdr_via fields_SEQUENCE4args make_SEQUENCE4args (zdr_sessionid4 >>>
  zdr_sequenceid4 >>> zdr_slotid4 >>> zdr_slotid4 >>> zdr_bool).
#[global] Instance SEQUENCE4args_codec : Codec zdr_SEQUENCE4args. Proof. codec zdr_SEQUENCE4args. Defined.
#[global] Instance SEQUENCE4args_blank : Blank zdr_SEQUENCE4args zero_SEQUENCE4args. Proof. blank zdr_SEQUENCE4args. Qed.

Record SEQUENCE4resok := mkSEQUENCE4resok {
    SEQUENCE4resok_sr_sessionid : ptr; SEQUENCE4resok_sr_sequenceid : Z; SEQUENCE4resok_sr_slotid : Z;
    SEQUENCE4resok_sr_highest_slotid : Z; SEQUENCE4resok_sr_target_highest_slotid : Z; SEQUENCE4resok_sr_status_flags : Z
}.
Definition zero_SEQUENCE4resok : SEQUENCE4resok := mkSEQUENCE4resok (Heap (zeros 16)) 0 0 0 0 0.
Definition fields_SEQUENCE4resok (x : SEQUENCE4resok) := (SEQUENCE4resok_sr_sessionid x, (SEQUENCE4resok_sr_sequenceid x,
  (SEQUENCE4resok_sr_slotid x, (SEQUENCE4resok_sr_highest_slotid x, (SEQUENCE4resok_sr_target_highest_slotid x,
  SEQUENCE4resok_sr_status_flags x))))).
Definition make_SEQUENCE4resok (t : (ptr * (Z * (Z * (Z * (Z * Z)))))) : SEQUENCE4resok := mkSEQUENCE4resok t.1 t.2.1
  t.2.2.1 t.2.2.2.1 t.2.2.2.2.1 t.2.2.2.2.2.
#[global] Instance SEQUENCE4resok_iso : Iso fields_SEQUENCE4resok make_SEQUENCE4resok. Proof. iso. Qed.
Definition zdr_SEQUENCE4resok : proc SEQUENCE4resok := zdr_via fields_SEQUENCE4resok make_SEQUENCE4resok (zdr_sessionid4
  >>> zdr_sequenceid4 >>> zdr_slotid4 >>> zdr_slotid4 >>> zdr_slotid4 >>> zdr_u_int).
#[global] Instance SEQUENCE4resok_codec : Codec zdr_SEQUENCE4resok. Proof. codec zdr_SEQUENCE4resok. Defined.
#[global] Instance SEQUENCE4resok_blank : Blank zdr_SEQUENCE4resok zero_SEQUENCE4resok. Proof. blank zdr_SEQUENCE4resok. Qed.

Inductive SEQUENCE4res_union := SEQUENCE4res_cleared | SEQUENCE4res_sr_resok4 (x : SEQUENCE4resok).
Record SEQUENCE4res := mkSEQUENCE4res { SEQUENCE4res_sr_status : Z; SEQUENCE4res_u : SEQUENCE4res_union }.
Definition zero_SEQUENCE4res : SEQUENCE4res := mkSEQUENCE4res 0 SEQUENCE4res_cleared.
Definition fields_SEQUENCE4res (x : SEQUENCE4res) := (SEQUENCE4res_sr_status x, SEQUENCE4res_u x).
Definition make_SEQUENCE4res (t : (Z * SEQUENCE4res_union)) : SEQUENCE4res := mkSEQUENCE4res t.1 t.2.
#[global] Instance SEQUENCE4res_iso : Iso fields_SEQUENCE4res make_SEQUENCE4res. Proof. iso. Qed.
Definition as_SEQUENCE4res_sr_resok4 (u : SEQUENCE4res_union) : SEQUENCE4resok := match u with SEQUENCE4res_sr_resok4 x =>
  x | _ => zero_SEQUENCE4resok end.
#[global] Instance SEQUENCE4res_sr_resok4_member : Variant as_SEQUENCE4res_sr_resok4 SEQUENCE4res_sr_resok4. Proof. done.
  Qed.
Definition case_SEQUENCE4res (d : Z) : proc SEQUENCE4res_union :=
  if (d =? NFS4_OK) then zdr_member as_SEQUENCE4res_sr_resok4 SEQUENCE4res_sr_resok4 zdr_SEQUENCE4resok
  else zdr_void.
#[global] Instance case_SEQUENCE4res_codec d : Codec (case_SEQUENCE4res d). Proof. codec case_SEQUENCE4res. Defined.
#[global] Instance case_SEQUENCE4res_blank d : Blank (case_SEQUENCE4res d) SEQUENCE4res_cleared. Proof. blank
  case_SEQUENCE4res. Qed.
Definition zdr_SEQUENCE4res : proc SEQUENCE4res := zdr_via fields_SEQUENCE4res make_SEQUENCE4res (zdr_dseq zdr_nfsstat4
  (case_SEQUENCE4res)).
#[global] Instance SEQUENCE4res_codec : Codec zdr_SEQUENCE4res. Proof. codec zdr_SEQUENCE4res. Defined.
#[global] Instance SEQUENCE4res_blank : Blank zdr_SEQUENCE4res zero_SEQUENCE4res. Proof. blank zdr_SEQUENCE4res. Qed.

Record ssa_digest_input4 := mkssa_digest_input4 {
  ssa_digest_input4_sdi_seqargs : SEQUENCE4args
}.
Definition zero_ssa_digest_input4 : ssa_digest_input4 := mkssa_digest_input4 zero_SEQUENCE4args.
Definition fields_ssa_digest_input4 (x : ssa_digest_input4) := ssa_digest_input4_sdi_seqargs x.
Definition make_ssa_digest_input4 (t : SEQUENCE4args) : ssa_digest_input4 := mkssa_digest_input4 t.
#[global] Instance ssa_digest_input4_iso : Iso fields_ssa_digest_input4 make_ssa_digest_input4. Proof. iso. Qed.
Definition zdr_ssa_digest_input4 : proc ssa_digest_input4 := zdr_via fields_ssa_digest_input4 make_ssa_digest_input4
  (zdr_SEQUENCE4args).
#[global] Instance ssa_digest_input4_codec : Codec zdr_ssa_digest_input4. Proof. codec zdr_ssa_digest_input4. Defined.
#[global] Instance ssa_digest_input4_blank : Blank zdr_ssa_digest_input4 zero_ssa_digest_input4. Proof. blank
  zdr_ssa_digest_input4. Qed.

Record SET_SSV4args := mkSET_SSV4args {
  SET_SSV4args_ssa_ssv : ptr * Z; SET_SSV4args_ssa_digest : ptr * Z
}.
Definition zero_SET_SSV4args : SET_SSV4args := mkSET_SSV4args (NULL, 0) (NULL, 0).
Definition fields_SET_SSV4args (x : SET_SSV4args) := (SET_SSV4args_ssa_ssv x, SET_SSV4args_ssa_digest x).
Definition make_SET_SSV4args (t : ((ptr * Z) * (ptr * Z))) : SET_SSV4args := mkSET_SSV4args t.1 t.2.
#[global] Instance SET_SSV4args_iso : Iso fields_SET_SSV4args make_SET_SSV4args. Proof. iso. Qed.
Definition zdr_SET_SSV4args : proc SET_SSV4args := zdr_via fields_SET_SSV4args make_SET_SSV4args (zdr_bytes >>> zdr_bytes).
#[global] Instance SET_SSV4args_codec : Codec zdr_SET_SSV4args. Proof. codec zdr_SET_SSV4args. Defined.
#[global] Instance SET_SSV4args_blank : Blank zdr_SET_SSV4args zero_SET_SSV4args. Proof. blank zdr_SET_SSV4args. Qed.

Record ssr_digest_input4 := mkssr_digest_input4 {
  ssr_digest_input4_sdi_seqres : SEQUENCE4res
}.
Definition zero_ssr_digest_input4 : ssr_digest_input4 := mkssr_digest_input4 zero_SEQUENCE4res.
Definition fields_ssr_digest_input4 (x : ssr_digest_input4) := ssr_digest_input4_sdi_seqres x.
Definition make_ssr_digest_input4 (t : SEQUENCE4res) : ssr_digest_input4 := mkssr_digest_input4 t.
#[global] Instance ssr_digest_input4_iso : Iso fields_ssr_digest_input4 make_ssr_digest_input4. Proof. iso. Qed.
Definition zdr_ssr_digest_input4 : proc ssr_digest_input4 := zdr_via fields_ssr_digest_input4 make_ssr_digest_input4
  (zdr_SEQUENCE4res).
#[global] Instance ssr_digest_input4_codec : Codec zdr_ssr_digest_input4. Proof. codec zdr_ssr_digest_input4. Defined.
#[global] Instance ssr_digest_input4_blank : Blank zdr_ssr_digest_input4 zero_ssr_digest_input4. Proof. blank
  zdr_ssr_digest_input4. Qed.

Record SET_SSV4resok := mkSET_SSV4resok {
  SET_SSV4resok_ssr_digest : ptr * Z
}.
Definition zero_SET_SSV4resok : SET_SSV4resok := mkSET_SSV4resok (NULL, 0).
Definition fields_SET_SSV4resok (x : SET_SSV4resok) := SET_SSV4resok_ssr_digest x.
Definition make_SET_SSV4resok (t : (ptr * Z)) : SET_SSV4resok := mkSET_SSV4resok t.
#[global] Instance SET_SSV4resok_iso : Iso fields_SET_SSV4resok make_SET_SSV4resok. Proof. iso. Qed.
Definition zdr_SET_SSV4resok : proc SET_SSV4resok := zdr_via fields_SET_SSV4resok make_SET_SSV4resok (zdr_bytes).
#[global] Instance SET_SSV4resok_codec : Codec zdr_SET_SSV4resok. Proof. codec zdr_SET_SSV4resok. Defined.
#[global] Instance SET_SSV4resok_blank : Blank zdr_SET_SSV4resok zero_SET_SSV4resok. Proof. blank zdr_SET_SSV4resok. Qed.

Inductive SET_SSV4res_union := SET_SSV4res_cleared | SET_SSV4res_ssr_resok4 (x : SET_SSV4resok).
Record SET_SSV4res := mkSET_SSV4res { SET_SSV4res_ssr_status : Z; SET_SSV4res_u : SET_SSV4res_union }.
Definition zero_SET_SSV4res : SET_SSV4res := mkSET_SSV4res 0 SET_SSV4res_cleared.
Definition fields_SET_SSV4res (x : SET_SSV4res) := (SET_SSV4res_ssr_status x, SET_SSV4res_u x).
Definition make_SET_SSV4res (t : (Z * SET_SSV4res_union)) : SET_SSV4res := mkSET_SSV4res t.1 t.2.
#[global] Instance SET_SSV4res_iso : Iso fields_SET_SSV4res make_SET_SSV4res. Proof. iso. Qed.
Definition as_SET_SSV4res_ssr_resok4 (u : SET_SSV4res_union) : SET_SSV4resok := match u with SET_SSV4res_ssr_resok4 x => x
  | _ => zero_SET_SSV4resok end.
#[global] Instance SET_SSV4res_ssr_resok4_member : Variant as_SET_SSV4res_ssr_resok4 SET_SSV4res_ssr_resok4. Proof. done.
  Qed.
Definition case_SET_SSV4res (d : Z) : proc SET_SSV4res_union :=
  if (d =? NFS4_OK) then zdr_member as_SET_SSV4res_ssr_resok4 SET_SSV4res_ssr_resok4 zdr_SET_SSV4resok
  else zdr_void.
#[global] Instance case_SET_SSV4res_codec d : Codec (case_SET_SSV4res d). Proof. codec case_SET_SSV4res. Defined.
#[global] Instance case_SET_SSV4res_blank d : Blank (case_SET_SSV4res d) SET_SSV4res_cleared. Proof. blank
  case_SET_SSV4res. Qed.
Definition zdr_SET_SSV4res : proc SET_SSV4res := zdr_via fields_SET_SSV4res make_SET_SSV4res (zdr_dseq zdr_nfsstat4
  (case_SET_SSV4res)).
#[global] Instance SET_SSV4res_codec : Codec zdr_SET_SSV4res. Proof. codec zdr_SET_SSV4res. Defined.
#[global] Instance SET_SSV4res_blank : Blank zdr_SET_SSV4res zero_SET_SSV4res. Proof. blank zdr_SET_SSV4res. Qed.

Record TEST_STATEID4args := mkTEST_STATEID4args {
  TEST_STATEID4args_ts_stateids : Z * list stateid4
}.
Definition zero_TEST_STATEID4args : TEST_STATEID4args := mkTEST_STATEID4args (0, []).
Definition fields_TEST_STATEID4args (x : TEST_STATEID4args) := TEST_STATEID4args_ts_stateids x.
Definition make_TEST_STATEID4args (t : (Z * list stateid4)) : TEST_STATEID4args := mkTEST_STATEID4args t.
#[global] Instance TEST_STATEID4args_iso : Iso fields_TEST_STATEID4args make_TEST_STATEID4args. Proof. iso. Qed.
Definition zdr_TEST_STATEID4args : proc TEST_STATEID4args := zdr_via fields_TEST_STATEID4args make_TEST_STATEID4args
  ((zdr_array zero_stateid4 16 zdr_stateid4)).
#[global] Instance TEST_STATEID4args_codec : Codec zdr_TEST_STATEID4args. Proof. codec zdr_TEST_STATEID4args. Defined.
#[global] Instance TEST_STATEID4args_blank : Blank zdr_TEST_STATEID4args zero_TEST_STATEID4args. Proof. blank
  zdr_TEST_STATEID4args. Qed.

Record TEST_STATEID4resok := mkTEST_STATEID4resok {
  TEST_STATEID4resok_tsr_status_codes : Z * list Z
}.
Definition zero_TEST_STATEID4resok : TEST_STATEID4resok := mkTEST_STATEID4resok (0, []).
Definition fields_TEST_STATEID4resok (x : TEST_STATEID4resok) := TEST_STATEID4resok_tsr_status_codes x.
Definition make_TEST_STATEID4resok (t : (Z * list Z)) : TEST_STATEID4resok := mkTEST_STATEID4resok t.
#[global] Instance TEST_STATEID4resok_iso : Iso fields_TEST_STATEID4resok make_TEST_STATEID4resok. Proof. iso. Qed.
Definition zdr_TEST_STATEID4resok : proc TEST_STATEID4resok := zdr_via fields_TEST_STATEID4resok make_TEST_STATEID4resok
  ((zdr_array 0 4 zdr_nfsstat4)).
#[global] Instance TEST_STATEID4resok_codec : Codec zdr_TEST_STATEID4resok. Proof. codec zdr_TEST_STATEID4resok. Defined.
#[global] Instance TEST_STATEID4resok_blank : Blank zdr_TEST_STATEID4resok zero_TEST_STATEID4resok. Proof. blank
  zdr_TEST_STATEID4resok. Qed.

Inductive TEST_STATEID4res_union := TEST_STATEID4res_cleared | TEST_STATEID4res_tsr_resok4 (x : TEST_STATEID4resok).
Record TEST_STATEID4res := mkTEST_STATEID4res { TEST_STATEID4res_tsr_status : Z; TEST_STATEID4res_u :
  TEST_STATEID4res_union }.
Definition zero_TEST_STATEID4res : TEST_STATEID4res := mkTEST_STATEID4res 0 TEST_STATEID4res_cleared.
Definition fields_TEST_STATEID4res (x : TEST_STATEID4res) := (TEST_STATEID4res_tsr_status x, TEST_STATEID4res_u x).
Definition make_TEST_STATEID4res (t : (Z * TEST_STATEID4res_union)) : TEST_STATEID4res := mkTEST_STATEID4res t.1 t.2.
#[global] Instance TEST_STATEID4res_iso : Iso fields_TEST_STATEID4res make_TEST_STATEID4res. Proof. iso. Qed.
Definition as_TEST_STATEID4res_tsr_resok4 (u : TEST_STATEID4res_union) : TEST_STATEID4resok := match u with
  TEST_STATEID4res_tsr_resok4 x => x | _ => zero_TEST_STATEID4resok end.
#[global] Instance TEST_STATEID4res_tsr_resok4_member : Variant as_TEST_STATEID4res_tsr_resok4
  TEST_STATEID4res_tsr_resok4. Proof. done. Qed.
Definition case_TEST_STATEID4res (d : Z) : proc TEST_STATEID4res_union :=
  if (d =? NFS4_OK) then zdr_member as_TEST_STATEID4res_tsr_resok4 TEST_STATEID4res_tsr_resok4 zdr_TEST_STATEID4resok
  else zdr_void.
#[global] Instance case_TEST_STATEID4res_codec d : Codec (case_TEST_STATEID4res d). Proof. codec case_TEST_STATEID4res.
  Defined.
#[global] Instance case_TEST_STATEID4res_blank d : Blank (case_TEST_STATEID4res d) TEST_STATEID4res_cleared. Proof. blank
  case_TEST_STATEID4res. Qed.
Definition zdr_TEST_STATEID4res : proc TEST_STATEID4res := zdr_via fields_TEST_STATEID4res make_TEST_STATEID4res (zdr_dseq
  zdr_nfsstat4 (case_TEST_STATEID4res)).
#[global] Instance TEST_STATEID4res_codec : Codec zdr_TEST_STATEID4res. Proof. codec zdr_TEST_STATEID4res. Defined.
#[global] Instance TEST_STATEID4res_blank : Blank zdr_TEST_STATEID4res zero_TEST_STATEID4res. Proof. blank
  zdr_TEST_STATEID4res. Qed.

Inductive deleg_claim4_union := deleg_claim4_cleared | deleg_claim4_dc_delegate_type (x : Z).
Record deleg_claim4 := mkdeleg_claim4 { deleg_claim4_dc_claim : Z; deleg_claim4_u : deleg_claim4_union }.
Definition zero_deleg_claim4 : deleg_claim4 := mkdeleg_claim4 0 deleg_claim4_cleared.
Definition fields_deleg_claim4 (x : deleg_claim4) := (deleg_claim4_dc_claim x, deleg_claim4_u x).
Definition make_deleg_claim4 (t : (Z * deleg_claim4_union)) : deleg_claim4 := mkdeleg_claim4 t.1 t.2.
#[global] Instance deleg_claim4_iso : Iso fields_deleg_claim4 make_deleg_claim4. Proof. iso. Qed.
Definition as_deleg_claim4_dc_delegate_type (u : deleg_claim4_union) : Z := match u with deleg_claim4_dc_delegate_type x
  => x | _ => 0 end.
#[global] Instance deleg_claim4_dc_delegate_type_member : Variant as_deleg_claim4_dc_delegate_type
  deleg_claim4_dc_delegate_type. Proof. done. Qed.
Definition case_deleg_claim4 (d : Z) : proc deleg_claim4_union :=
  if (d =? CLAIM_FH) then zdr_void
  else if (d =? CLAIM_DELEG_PREV_FH) then zdr_void
    else if (d =? CLAIM_PREVIOUS) then zdr_member as_deleg_claim4_dc_delegate_type deleg_claim4_dc_delegate_type
    zdr_open_delegation_type4
  else zdr_fail.
#[global] Instance case_deleg_claim4_codec d : Codec (case_deleg_claim4 d). Proof. codec case_deleg_claim4. Defined.
#[global] Instance case_deleg_claim4_blank d : Blank (case_deleg_claim4 d) deleg_claim4_cleared. Proof. blank
  case_deleg_claim4. Qed.
#[global] Instance case_deleg_claim4_safe d : Safe (case_deleg_claim4 d). Proof. safe case_deleg_claim4. Qed.
Definition zdr_deleg_claim4 : proc deleg_claim4 := zdr_via fields_deleg_claim4 make_deleg_claim4 (zdr_dseq
  zdr_open_claim_type4 (case_deleg_claim4)).
#[global] Instance deleg_claim4_codec : Codec zdr_deleg_claim4. Proof. codec zdr_deleg_claim4. Defined.
#[global] Instance deleg_claim4_blank : Blank zdr_deleg_claim4 zero_deleg_claim4. Proof. blank zdr_deleg_claim4. Qed.
#[global] Instance deleg_claim4_safe : Safe zdr_deleg_claim4. Proof. safe zdr_deleg_claim4. Qed.

Record WANT_DELEGATION4args := mkWANT_DELEGATION4args {
  WANT_DELEGATION4args_wda_want : Z; WANT_DELEGATION4args_wda_claim : deleg_claim4
}.
Definition zero_WANT_DELEGATION4args : WANT_DELEGATION4args := mkWANT_DELEGATION4args 0 zero_deleg_claim4.
Definition fields_WANT_DELEGATION4args (x : WANT_DELEGATION4args) := (WANT_DELEGATION4args_wda_want x,
  WANT_DELEGATION4args_wda_claim x).
Definition make_WANT_DELEGATION4args (t : (Z * deleg_claim4)) : WANT_DELEGATION4args := mkWANT_DELEGATION4args t.1 t.2.
#[global] Instance WANT_DELEGATION4args_iso : Iso fields_WANT_DELEGATION4args make_WANT_DELEGATION4args. Proof. iso. Qed.
Definition zdr_WANT_DELEGATION4args : proc WANT_DELEGATION4args := zdr_via fields_WANT_DELEGATION4args
  make_WANT_DELEGATION4args (zdr_u_int >>> zdr_deleg_claim4).
#[global] Instance WANT_DELEGATION4args_codec : Codec zdr_WANT_DELEGATION4args. Proof. codec zdr_WANT_DELEGATION4args.
  Defined.
#[global] Instance WANT_DELEGATION4args_blank : Blank zdr_WANT_DELEGATION4args zero_WANT_DELEGATION4args. Proof. blank
  zdr_WANT_DELEGATION4args. Qed.
#[global] Instance WANT_DELEGATION4args_safe : Safe zdr_WANT_DELEGATION4args. Proof. safe zdr_WANT_DELEGATION4args. Qed.

Inductive WANT_DELEGATION4res_union := WANT_DELEGATION4res_cleared | WANT_DELEGATION4res_wdr_resok4 (x : open_delegation4).
Record WANT_DELEGATION4res := mkWANT_DELEGATION4res { WANT_DELEGATION4res_wdr_status : Z; WANT_DELEGATION4res_u :
  WANT_DELEGATION4res_union }.
Definition zero_WANT_DELEGATION4res : WANT_DELEGATION4res := mkWANT_DELEGATION4res 0 WANT_DELEGATION4res_cleared.
Definition fields_WANT_DELEGATION4res (x : WANT_DELEGATION4res) := (WANT_DELEGATION4res_wdr_status x,
  WANT_DELEGATION4res_u x).
Definition make_WANT_DELEGATION4res (t : (Z * WANT_DELEGATION4res_union)) : WANT_DELEGATION4res := mkWANT_DELEGATION4res
  t.1 t.2.
#[global] Instance WANT_DELEGATION4res_iso : Iso fields_WANT_DELEGATION4res make_WANT_DELEGATION4res. Proof. iso. Qed.
Definition as_WANT_DELEGATION4res_wdr_resok4 (u : WANT_DELEGATION4res_union) : open_delegation4 := match u with
  WANT_DELEGATION4res_wdr_resok4 x => x | _ => zero_open_delegation4 end.
#[global] Instance WANT_DELEGATION4res_wdr_resok4_member : Variant as_WANT_DELEGATION4res_wdr_resok4
  WANT_DELEGATION4res_wdr_resok4. Proof. done. Qed.
Definition case_WANT_DELEGATION4res (d : Z) : proc WANT_DELEGATION4res_union :=
  if (d =? NFS4_OK) then zdr_member as_WANT_DELEGATION4res_wdr_resok4 WANT_DELEGATION4res_wdr_resok4 zdr_open_delegation4
  else zdr_void.
#[global] Instance case_WANT_DELEGATION4res_codec d : Codec (case_WANT_DELEGATION4res d). Proof. codec
  case_WANT_DELEGATION4res. Defined.
#[global] Instance case_WANT_DELEGATION4res_blank d : Blank (case_WANT_DELEGATION4res d) WANT_DELEGATION4res_cleared.
  Proof. blank case_WANT_DELEGATION4res. Qed.
Definition zdr_WANT_DELEGATION4res : proc WANT_DELEGATION4res := zdr_via fields_WANT_DELEGATION4res
  make_WANT_DELEGATION4res (zdr_dseq zdr_nfsstat4 (case_WANT_DELEGATION4res)).
#[global] Instance WANT_DELEGATION4res_codec : Codec zdr_WANT_DELEGATION4res. Proof. codec zdr_WANT_DELEGATION4res. Defined.
#[global] Instance WANT_DELEGATION4res_blank : Blank zdr_WANT_DELEGATION4res zero_WANT_DELEGATION4res. Proof. blank
  zdr_WANT_DELEGATION4res. Qed.

Record DESTROY_CLIENTID4args := mkDESTROY_CLIENTID4args {
  DESTROY_CLIENTID4args_dca_clientid : Z
}.
Definition zero_DESTROY_CLIENTID4args : DESTROY_CLIENTID4args := mkDESTROY_CLIENTID4args 0.
Definition fields_DESTROY_CLIENTID4args (x : DESTROY_CLIENTID4args) := DESTROY_CLIENTID4args_dca_clientid x.
Definition make_DESTROY_CLIENTID4args (t : Z) : DESTROY_CLIENTID4args := mkDESTROY_CLIENTID4args t.
#[global] Instance DESTROY_CLIENTID4args_iso : Iso fields_DESTROY_CLIENTID4args make_DESTROY_CLIENTID4args. Proof. iso. Qed.
Definition zdr_DESTROY_CLIENTID4args : proc DESTROY_CLIENTID4args := zdr_via fields_DESTROY_CLIENTID4args
  make_DESTROY_CLIENTID4args (zdr_clientid4).
#[global] Instance DESTROY_CLIENTID4args_codec : Codec zdr_DESTROY_CLIENTID4args. Proof. codec zdr_DESTROY_CLIENTID4args.
  Defined.
#[global] Instance DESTROY_CLIENTID4args_blank : Blank zdr_DESTROY_CLIENTID4args zero_DESTROY_CLIENTID4args. Proof. blank
  zdr_DESTROY_CLIENTID4args. Qed.
#[global] Instance DESTROY_CLIENTID4args_safe : Safe zdr_DESTROY_CLIENTID4args. Proof. safe zdr_DESTROY_CLIENTID4args. Qed.

Record DESTROY_CLIENTID4res := mkDESTROY_CLIENTID4res {
  DESTROY_CLIENTID4res_dcr_status : Z
}.
Definition zero_DESTROY_CLIENTID4res : DESTROY_CLIENTID4res := mkDESTROY_CLIENTID4res 0.
Definition fields_DESTROY_CLIENTID4res (x : DESTROY_CLIENTID4res) := DESTROY_CLIENTID4res_dcr_status x.
Definition make_DESTROY_CLIENTID4res (t : Z) : DESTROY_CLIENTID4res := mkDESTROY_CLIENTID4res t.
#[global] Instance DESTROY_CLIENTID4res_iso : Iso fields_DESTROY_CLIENTID4res make_DESTROY_CLIENTID4res. Proof. iso. Qed.
Definition zdr_DESTROY_CLIENTID4res : proc DESTROY_CLIENTID4res := zdr_via fields_DESTROY_CLIENTID4res
  make_DESTROY_CLIENTID4res (zdr_nfsstat4).
#[global] Instance DESTROY_CLIENTID4res_codec : Codec zdr_DESTROY_CLIENTID4res. Proof. codec zdr_DESTROY_CLIENTID4res.
  Defined.
#[global] Instance DESTROY_CLIENTID4res_blank : Blank zdr_DESTROY_CLIENTID4res zero_DESTROY_CLIENTID4res. Proof. blank
  zdr_DESTROY_CLIENTID4res. Qed.
#[global] Instance DESTROY_CLIENTID4res_safe : Safe zdr_DESTROY_CLIENTID4res. Proof. safe zdr_DESTROY_CLIENTID4res. Qed.

Record RECLAIM_COMPLETE4args := mkRECLAIM_COMPLETE4args {
  RECLAIM_COMPLETE4args_rca_one_fs : Z
}.
Definition zero_RECLAIM_COMPLETE4args : RECLAIM_COMPLETE4args := mkRECLAIM_COMPLETE4args 0.
Definition fields_RECLAIM_COMPLETE4args (x : RECLAIM_COMPLETE4args) := RECLAIM_COMPLETE4args_rca_one_fs x.
Definition make_RECLAIM_COMPLETE4args (t : Z) : RECLAIM_COMPLETE4args := mkRECLAIM_COMPLETE4args t.
#[global] Instance RECLAIM_COMPLETE4args_iso : Iso fields_RECLAIM_COMPLETE4args make_RECLAIM_COMPLETE4args. Proof. iso. Qed.
Definition zdr_RECLAIM_COMPLETE4args : proc RECLAIM_COMPLETE4args := zdr_via fields_RECLAIM_COMPLETE4args
  make_RECLAIM_COMPLETE4args (zdr_bool).
#[global] Instance RECLAIM_COMPLETE4args_codec : Codec zdr_RECLAIM_COMPLETE4args. Proof. codec zdr_RECLAIM_COMPLETE4args.
  Defined.
#[global] Instance RECLAIM_COMPLETE4args_blank : Blank zdr_RECLAIM_COMPLETE4args zero_RECLAIM_COMPLETE4args. Proof. blank
  zdr_RECLAIM_COMPLETE4args. Qed.
#[global] Instance RECLAIM_COMPLETE4args_safe : Safe zdr_RECLAIM_COMPLETE4args. Proof. safe zdr_RECLAIM_COMPLETE4args. Qed.

Record RECLAIM_COMPLETE4res := mkRECLAIM_COMPLETE4res {
  RECLAIM_COMPLETE4res_rcr_status : Z
}.
Definition zero_RECLAIM_COMPLETE4res : RECLAIM_COMPLETE4res := mkRECLAIM_COMPLETE4res 0.
Definition fields_RECLAIM_COMPLETE4res (x : RECLAIM_COMPLETE4res) := RECLAIM_COMPLETE4res_rcr_status x.
Definition make_RECLAIM_COMPLETE4res (t : Z) : RECLAIM_COMPLETE4res := mkRECLAIM_COMPLETE4res t.
#[global] Instance RECLAIM_COMPLETE4res_iso : Iso fields_RECLAIM_COMPLETE4res make_RECLAIM_COMPLETE4res. Proof. iso. Qed.
Definition zdr_RECLAIM_COMPLETE4res : proc RECLAIM_COMPLETE4res := zdr_via fields_RECLAIM_COMPLETE4res
  make_RECLAIM_COMPLETE4res (zdr_nfsstat4).
#[global] Instance RECLAIM_COMPLETE4res_codec : Codec zdr_RECLAIM_COMPLETE4res. Proof. codec zdr_RECLAIM_COMPLETE4res.
  Defined.
#[global] Instance RECLAIM_COMPLETE4res_blank : Blank zdr_RECLAIM_COMPLETE4res zero_RECLAIM_COMPLETE4res. Proof. blank
  zdr_RECLAIM_COMPLETE4res. Qed.
#[global] Instance RECLAIM_COMPLETE4res_safe : Safe zdr_RECLAIM_COMPLETE4res. Proof. safe zdr_RECLAIM_COMPLETE4res. Qed.

Record ILLEGAL4res := mkILLEGAL4res {
  ILLEGAL4res_status : Z
}.
Definition zero_ILLEGAL4res : ILLEGAL4res := mkILLEGAL4res 0.
Definition fields_ILLEGAL4res (x : ILLEGAL4res) := ILLEGAL4res_status x.
Definition make_ILLEGAL4res (t : Z) : ILLEGAL4res := mkILLEGAL4res t.
#[global] Instance ILLEGAL4res_iso : Iso fields_ILLEGAL4res make_ILLEGAL4res. Proof. iso. Qed.
Definition zdr_ILLEGAL4res : proc ILLEGAL4res := zdr_via fields_ILLEGAL4res make_ILLEGAL4res (zdr_nfsstat4).
#[global] Instance ILLEGAL4res_codec : Codec zdr_ILLEGAL4res. Proof. codec zdr_ILLEGAL4res. Defined.
#[global] Instance ILLEGAL4res_blank : Blank zdr_ILLEGAL4res zero_ILLEGAL4res. Proof. blank zdr_ILLEGAL4res. Qed.
#[global] Instance ILLEGAL4res_safe : Safe zdr_ILLEGAL4res. Proof. safe zdr_ILLEGAL4res. Qed.

Definition zdr_nfs_opnum4 : proc Z := zdr_enum.
Record WRITE4args := mkWRITE4args {
  WRITE4args_stateid : stateid4; WRITE4args_offset : Z; WRITE4args_stable : Z; WRITE4args_data : ptr * Z
}.
Definition zero_WRITE4args : WRITE4args := mkWRITE4args zero_stateid4 0 0 (NULL, 0).
Definition fields_WRITE4args (x : WRITE4args) := (WRITE4args_stateid x, (WRITE4args_offset x, (WRITE4args_stable x,
  WRITE4args_data x))).
Definition make_WRITE4args (t : (stateid4 * (Z * (Z * (ptr * Z))))) : WRITE4args := mkWRITE4args t.1 t.2.1 t.2.2.1 t.2.2.2.
#[global] Instance WRITE4args_iso : Iso fields_WRITE4args make_WRITE4args. Proof. iso. Qed.
Definition zdr_WRITE4args : proc WRITE4args := zdr_via fields_WRITE4args make_WRITE4args (zdr_stateid4 >>> zdr_offset4 >>>
  zdr_stable_how4 >>> zdr_void).
#[global] Instance WRITE4args_codec : Codec zdr_WRITE4args. Proof. codec zdr_WRITE4args. Defined.
#[global] Instance WRITE4args_blank : Blank zdr_WRITE4args zero_WRITE4args. Proof. blank zdr_WRITE4args. Qed.

Inductive nfs_argop4_union := nfs_argop4_cleared | nfs_argop4_opaccess (x : ACCESS4args) | nfs_argop4_opclose (x :
  CLOSE4args) | nfs_argop4_opcommit (x : COMMIT4args) | nfs_argop4_opcreate (x : CREATE4args) | nfs_argop4_opdelegpurge (x
  : DELEGPURGE4args) | nfs_argop4_opdelegreturn (x : DELEGRETURN4args) | nfs_argop4_opgetattr (x : GETATTR4args) |
  nfs_argop4_oplink (x : LINK4args) | nfs_argop4_oplock (x : LOCK4args) | nfs_argop4_oplockt (x : LOCKT4args) |
  nfs_argop4_oplocku (x : LOCKU4args) | nfs_argop4_oplookup (x : LOOKUP4args) | nfs_argop4_opnverify (x : NVERIFY4args) |
  nfs_argop4_opopen (x : OPEN4args) | nfs_argop4_opopenattr (x : OPENATTR4args) | nfs_argop4_opopen_confirm (x :
  OPEN_CONFIRM4args) | nfs_argop4_opopen_downgrade (x : OPEN_DOWNGRADE4args) | nfs_argop4_opputfh (x : PUTFH4args) |
  nfs_argop4_opread (x : READ4args) | nfs_argop4_opreaddir (x : READDIR4args) | nfs_argop4_opremove (x : REMOVE4args) |
  nfs_argop4_oprename (x : RENAME4args) | nfs_argop4_oprenew (x : RENEW4args) | nfs_argop4_opsecinfo (x : SECINFO4args) |
  nfs_argop4_opsetattr (x : SETATTR4args) | nfs_argop4_opsetclientid (x : SETCLIENTID4args) |
  nfs_argop4_opsetclientid_confirm (x : SETCLIENTID_CONFIRM4args) | nfs_argop4_opverify (x : VERIFY4args) |
  nfs_argop4_opwrite (x : WRITE4args) | nfs_argop4_oprelease_lockowner (x : RELEASE_LOCKOWNER4args) |
  nfs_argop4_opbindconntosession (x : BIND_CONN_TO_SESSION4args) | nfs_argop4_opexchangeid (x : EXCHANGE_ID4args) |
  nfs_argop4_opcreatesession (x : CREATE_SESSION4args) | nfs_argop4_opdestroysession (x : DESTROY_SESSION4args) |
  nfs_argop4_opfreestateid (x : FREE_STATEID4args) | nfs_argop4_opgetdirdelegation (x : GET_DIR_DELEGATION4args) |
  nfs_argop4_opgetdeviceinfo (x : GETDEVICEINFO4args) | nfs_argop4_opgetdevicelist (x : GETDEVICELIST4args) |
  nfs_argop4_oplayoutcommit (x : LAYOUTCOMMIT4args) | nfs_argop4_oplayoutget (x : LAYOUTGET4args) |
  nfs_argop4_oplayoutreturn (x : LAYOUTRETURN4args) | nfs_argop4_opsecinfononame (x : Z) | nfs_argop4_opsequence (x :
  SEQUENCE4args) | nfs_argop4_opsetssv (x : SET_SSV4args) | nfs_argop4_opteststateid (x : TEST_STATEID4args) |
  nfs_argop4_opwantdelegation (x : WANT_DELEGATION4args) | nfs_argop4_opdestroyclientid (x : DESTROY_CLIENTID4args) |
  nfs_argop4_opreclaimcomplete (x : RECLAIM_COMPLETE4args).
Record nfs_argop4 := mknfs_argop4 { nfs_argop4_argop : Z; nfs_argop4_u : nfs_argop4_union }.
Definition zero_nfs_argop4 : nfs_argop4 := mknfs_argop4 0 nfs_argop4_cleared.
Definition fields_nfs_argop4 (x : nfs_argop4) := (nfs_argop4_argop x, nfs_argop4_u x).
Definition make_nfs_argop4 (t : (Z * nfs_argop4_union)) : nfs_argop4 := mknfs_argop4 t.1 t.2.
#[global] Instance nfs_argop4_iso : Iso fields_nfs_argop4 make_nfs_argop4. Proof. iso. Qed.
Definition as_nfs_argop4_opaccess (u : nfs_argop4_union) : ACCESS4args := match u with nfs_argop4_opaccess x => x | _ =>
  zero_ACCESS4args end.
#[global] Instance nfs_argop4_opaccess_member : Variant as_nfs_argop4_opaccess nfs_argop4_opaccess. Proof. done. Qed.
Definition as_nfs_argop4_opclose (u : nfs_argop4_union) : CLOSE4args := match u with nfs_argop4_opclose x => x | _ =>
  zero_CLOSE4args end.
#[global] Instance nfs_argop4_opclose_member : Variant as_nfs_argop4_opclose nfs_argop4_opclose. Proof. done. Qed.
Definition as_nfs_argop4_opcommit (u : nfs_argop4_union) : COMMIT4args := match u with nfs_argop4_opcommit x => x | _ =>
  zero_COMMIT4args end.
#[global] Instance nfs_argop4_opcommit_member : Variant as_nfs_argop4_opcommit nfs_argop4_opcommit. Proof. done. Qed.
Definition as_nfs_argop4_opcreate (u : nfs_argop4_union) : CREATE4args := match u with nfs_argop4_opcreate x => x | _ =>
  zero_CREATE4args end.
#[global] Instance nfs_argop4_opcreate_member : Variant as_nfs_argop4_opcreate nfs_argop4_opcreate. Proof. done. Qed.
Definition as_nfs_argop4_opdelegpurge (u : nfs_argop4_union) : DELEGPURGE4args := match u with nfs_argop4_opdelegpurge x
  => x | _ => zero_DELEGPURGE4args end.
#[global] Instance nfs_argop4_opdelegpurge_member : Variant as_nfs_argop4_opdelegpurge nfs_argop4_opdelegpurge. Proof.
  done. Qed.
Definition as_nfs_argop4_opdelegreturn (u : nfs_argop4_union) : DELEGRETURN4args := match u with nfs_argop4_opdelegreturn
  x => x | _ => zero_DELEGRETURN4args end.
#[global] Instance nfs_argop4_opdelegreturn_member : Variant as_nfs_argop4_opdelegreturn nfs_argop4_opdelegreturn. Proof.
  done. Qed.
Definition as_nfs_argop4_opgetattr (u : nfs_argop4_union) : GETATTR4args := match u with nfs_argop4_opgetattr x => x | _
  => zero_GETATTR4args end.
#[global] Instance nfs_argop4_opgetattr_member : Variant as_nfs_argop4_opgetattr nfs_argop4_opgetattr. Proof. done. Qed.
Definition as_nfs_argop4_oplink (u : nfs_argop4_union) : LINK4args := match u with nfs_argop4_oplink x => x | _ =>
  zero_LINK4args end.
#[global] Instance nfs_argop4_oplink_member : Variant as_nfs_argop4_oplink nfs_argop4_oplink. Proof. done. Qed.
Definition as_nfs_argop4_oplock (u : nfs_argop4_union) : LOCK4args := match u with nfs_argop4_oplock x => x | _ =>
  zero_LOCK4args end.
#[global] Instance nfs_argop4_oplock_member : Variant as_nfs_argop4_oplock nfs_argop4_oplock. Proof. done. Qed.
Definition as_nfs_argop4_oplockt (u : nfs_argop4_union) : LOCKT4args := match u with nfs_argop4_oplockt x => x | _ =>
  zero_LOCKT4args end.
#[global] Instance nfs_argop4_oplockt_member : Variant as_nfs_argop4_oplockt nfs_argop4_oplockt. Proof. done. Qed.
Definition as_nfs_argop4_oplocku (u : nfs_argop4_union) : LOCKU4args := match u with nfs_argop4_oplocku x => x | _ =>
  zero_LOCKU4args end.
#[global] Instance nfs_argop4_oplocku_member : Variant as_nfs_argop4_oplocku nfs_argop4_oplocku. Proof. done. Qed.
Definition as_nfs_argop4_oplookup (u : nfs_argop4_union) : LOOKUP4args := match u with nfs_argop4_oplookup x => x | _ =>
  zero_LOOKUP4args end.
#[global] Instance nfs_argop4_oplookup_member : Variant as_nfs_argop4_oplookup nfs_argop4_oplookup. Proof. done. Qed.
Definition as_nfs_argop4_opnverify (u : nfs_argop4_union) : NVERIFY4args := match u with nfs_argop4_opnverify x => x | _
  => zero_NVERIFY4args end.
#[global] Instance nfs_argop4_opnverify_member : Variant as_nfs_argop4_opnverify nfs_argop4_opnverify. Proof. done. Qed.
Definition as_nfs_argop4_opopen (u : nfs_argop4_union) : OPEN4args := match u with nfs_argop4_opopen x => x | _ =>
  zero_OPEN4args end.
#[global] Instance nfs_argop4_opopen_member : Variant as_nfs_argop4_opopen nfs_argop4_opopen. Proof. done. Qed.
Definition as_nfs_argop4_opopenattr (u : nfs_argop4_union) : OPENATTR4args := match u with nfs_argop4_opopenattr x => x |
  _ => zero_OPENATTR4args end.
#[global] Instance nfs_argop4_opopenattr_member : Variant as_nfs_argop4_opopenattr nfs_argop4_opopenattr. Proof. done. Qed.
Definition as_nfs_argop4_opopen_confirm (u : nfs_argop4_union) : OPEN_CONFIRM4args := match u with
  nfs_argop4_opopen_confirm x => x | _ => zero_OPEN_CONFIRM4args end.
#[global] Instance nfs_argop4_opopen_confirm_member : Variant as_nfs_argop4_opopen_confirm nfs_argop4_opopen_confirm.
  Proof. done. Qed.
Definition as_nfs_argop4_opopen_downgrade (u : nfs_argop4_union) : OPEN_DOWNGRADE4args := match u with
  nfs_argop4_opopen_downgrade x => x | _ => zero_OPEN_DOWNGRADE4args end.
#[global] Instance nfs_argop4_opopen_downgrade_member : Variant as_nfs_argop4_opopen_downgrade
  nfs_argop4_opopen_downgrade. Proof. done. Qed.
Definition as_nfs_argop4_opputfh (u : nfs_argop4_union) : PUTFH4args := match u with nfs_argop4_opputfh x => x | _ =>
  zero_PUTFH4args end.
#[global] Instance nfs_argop4_opputfh_member : Variant as_nfs_argop4_opputfh nfs_argop4_opputfh. Proof. done. Qed.
Definition as_nfs_argop4_opread (u : nfs_argop4_union) : READ4args := match u with nfs_argop4_opread x => x | _ =>
  zero_READ4args end.
#[global] Instance nfs_argop4_opread_member : Variant as_nfs_argop4_opread nfs_argop4_opread. Proof. done. Qed.
Definition as_nfs_argop4_opreaddir (u : nfs_argop4_union) : READDIR4args := match u with nfs_argop4_opreaddir x => x | _
  => zero_READDIR4args end.
#[global] Instance nfs_argop4_opreaddir_member : Variant as_nfs_argop4_opreaddir nfs_argop4_opreaddir. Proof. done. Qed.
Definition as_nfs_argop4_opremove (u : nfs_argop4_union) : REMOVE4args := match u with nfs_argop4_opremove x => x | _ =>
  zero_REMOVE4args end.
#[global] Instance nfs_argop4_opremove_member : Variant as_nfs_argop4_opremove nfs_argop4_opremove. Proof. done. Qed.
Definition as_nfs_argop4_oprename (u : nfs_argop4_union) : RENAME4args := match u with nfs_argop4_oprename x => x | _ =>
  zero_RENAME4args end.
#[global] Instance nfs_argop4_oprename_member : Variant as_nfs_argop4_oprename nfs_argop4_oprename. Proof. done. Qed.
Definition as_nfs_argop4_oprenew (u : nfs_argop4_union) : RENEW4args := match u with nfs_argop4_oprenew x => x | _ =>
  zero_RENEW4args end.
#[global] Instance nfs_argop4_oprenew_member : Variant as_nfs_argop4_oprenew nfs_argop4_oprenew. Proof. done. Qed.
Definition as_nfs_argop4_opsecinfo (u : nfs_argop4_union) : SECINFO4args := match u with nfs_argop4_opsecinfo x => x | _
  => zero_SECINFO4args end.
#[global] Instance nfs_argop4_opsecinfo_member : Variant as_nfs_argop4_opsecinfo nfs_argop4_opsecinfo. Proof. done. Qed.
Definition as_nfs_argop4_opsetattr (u : nfs_argop4_union) : SETATTR4args := match u with nfs_argop4_opsetattr x => x | _
  => zero_SETATTR4args end.
#[global] Instance nfs_argop4_opsetattr_member : Variant as_nfs_argop4_opsetattr nfs_argop4_opsetattr. Proof. done. Qed.
Definition as_nfs_argop4_opsetclientid (u : nfs_argop4_union) : SETCLIENTID4args := match u with nfs_argop4_opsetclientid
  x => x | _ => zero_SETCLIENTID4args end.
#[global] Instance nfs_argop4_opsetclientid_member : Variant as_nfs_argop4_opsetclientid nfs_argop4_opsetclientid. Proof.
  done. Qed.
Definition as_nfs_argop4_opsetclientid_confirm (u : nfs_argop4_union) : SETCLIENTID_CONFIRM4args := match u with
  nfs_argop4_opsetclientid_confirm x => x | _ => zero_SETCLIENTID_CONFIRM4args end.
#[global] Instance nfs_argop4_opsetclientid_confirm_member : Variant as_nfs_argop4_opsetclientid_confirm
  nfs_argop4_opsetclientid_confirm. Proof. done. Qed.
Definition as_nfs_argop4_opverify (u : nfs_argop4_union) : VERIFY4args := match u with nfs_argop4_opverify x => x | _ =>
  zero_VERIFY4args end.
#[global] Instance nfs_argop4_opverify_member : Variant as_nfs_argop4_opverify nfs_argop4_opverify. Proof. done. Qed.
Definition as_nfs_argop4_opwrite (u : nfs_argop4_union) : WRITE4args := match u with nfs_argop4_opwrite x => x | _ =>
  zero_WRITE4args end.
#[global] Instance nfs_argop4_opwrite_member : Variant as_nfs_argop4_opwrite nfs_argop4_opwrite. Proof. done. Qed.
Definition as_nfs_argop4_oprelease_lockowner (u : nfs_argop4_union) : RELEASE_LOCKOWNER4args := match u with
  nfs_argop4_oprelease_lockowner x => x | _ => zero_RELEASE_LOCKOWNER4args end.
#[global] Instance nfs_argop4_oprelease_lockowner_member : Variant as_nfs_argop4_oprelease_lockowner
  nfs_argop4_oprelease_lockowner. Proof. done. Qed.
Definition as_nfs_argop4_opbindconntosession (u : nfs_argop4_union) : BIND_CONN_TO_SESSION4args := match u with
  nfs_argop4_opbindconntosession x => x | _ => zero_BIND_CONN_TO_SESSION4args end.
#[global] Instance nfs_argop4_opbindconntosession_member : Variant as_nfs_argop4_opbindconntosession
  nfs_argop4_opbindconntosession. Proof. done. Qed.
Definition as_nfs_argop4_opexchangeid (u : nfs_argop4_union) : EXCHANGE_ID4args := match u with nfs_argop4_opexchangeid x
  => x | _ => zero_EXCHANGE_ID4args end.
#[global] Instance nfs_argop4_opexchangeid_member : Variant as_nfs_argop4_opexchangeid nfs_argop4_opexchangeid. Proof.
  done. Qed.
Definition as_nfs_argop4_opcreatesession (u : nfs_argop4_union) : CREATE_SESSION4args := match u with
  nfs_argop4_opcreatesession x => x | _ => zero_CREATE_SESSION4args end.
#[global] Instance nfs_argop4_opcreatesession_member : Variant as_nfs_argop4_opcreatesession nfs_argop4_opcreatesession.
  Proof. done. Qed.
Definition as_nfs_argop4_opdestroysession (u : nfs_argop4_union) : DESTROY_SESSION4args := match u with
  nfs_argop4_opdestroysession x => x | _ => zero_DESTROY_SESSION4args end.
#[global] Instance nfs_argop4_opdestroysession_member : Variant as_nfs_argop4_opdestroysession
  nfs_argop4_opdestroysession. Proof. done. Qed.
Definition as_nfs_argop4_opfreestateid (u : nfs_argop4_union) : FREE_STATEID4args := match u with nfs_argop4_opfreestateid
  x => x | _ => zero_FREE_STATEID4args end.
#[global] Instance nfs_argop4_opfreestateid_member : Variant as_nfs_argop4_opfreestateid nfs_argop4_opfreestateid. Proof.
  done. Qed.
Definition as_nfs_argop4_opgetdirdelegation (u : nfs_argop4_union) : GET_DIR_DELEGATION4args := match u with
  nfs_argop4_opgetdirdelegation x => x | _ => zero_GET_DIR_DELEGATION4args end.
#[global] Instance nfs_argop4_opgetdirdelegation_member : Variant as_nfs_argop4_opgetdirdelegation
  nfs_argop4_opgetdirdelegation. Proof. done. Qed.
Definition as_nfs_argop4_opgetdeviceinfo (u : nfs_argop4_union) : GETDEVICEINFO4args := match u with
  nfs_argop4_opgetdeviceinfo x => x | _ => zero_GETDEVICEINFO4args end.
#[global] Instance nfs_argop4_opgetdeviceinfo_member : Variant as_nfs_argop4_opgetdeviceinfo nfs_argop4_opgetdeviceinfo.
  Proof. done. Qed.
Definition as_nfs_argop4_opgetdevicelist (u : nfs_argop4_union) : GETDEVICELIST4args := match u with
  nfs_argop4_opgetdevicelist x => x | _ => zero_GETDEVICELIST4args end.
#[global] Instance nfs_argop4_opgetdevicelist_member : Variant as_nfs_argop4_opgetdevicelist nfs_argop4_opgetdevicelist.
  Proof. done. Qed.
Definition as_nfs_argop4_oplayoutcommit (u : nfs_argop4_union) : LAYOUTCOMMIT4args := match u with
  nfs_argop4_oplayoutcommit x => x | _ => zero_LAYOUTCOMMIT4args end.
#[global] Instance nfs_argop4_oplayoutcommit_member : Variant as_nfs_argop4_oplayoutcommit nfs_argop4_oplayoutcommit.
  Proof. done. Qed.
Definition as_nfs_argop4_oplayoutget (u : nfs_argop4_union) : LAYOUTGET4args := match u with nfs_argop4_oplayoutget x => x
  | _ => zero_LAYOUTGET4args end.
#[global] Instance nfs_argop4_oplayoutget_member : Variant as_nfs_argop4_oplayoutget nfs_argop4_oplayoutget. Proof. done.
  Qed.
Definition as_nfs_argop4_oplayoutreturn (u : nfs_argop4_union) : LAYOUTRETURN4args := match u with
  nfs_argop4_oplayoutreturn x => x | _ => zero_LAYOUTRETURN4args end.
#[global] Instance nfs_argop4_oplayoutreturn_member : Variant as_nfs_argop4_oplayoutreturn nfs_argop4_oplayoutreturn.
  Proof. done. Qed.
Definition as_nfs_argop4_opsecinfononame (u : nfs_argop4_union) : Z := match u with nfs_argop4_opsecinfononame x => x | _
  => 0 end.
#[global] Instance nfs_argop4_opsecinfononame_member : Variant as_nfs_argop4_opsecinfononame nfs_argop4_opsecinfononame.
  Proof. done. Qed.
Definition as_nfs_argop4_opsequence (u : nfs_argop4_union) : SEQUENCE4args := match u with nfs_argop4_opsequence x => x |
  _ => zero_SEQUENCE4args end.
#[global] Instance nfs_argop4_opsequence_member : Variant as_nfs_argop4_opsequence nfs_argop4_opsequence. Proof. done. Qed.
Definition as_nfs_argop4_opsetssv (u : nfs_argop4_union) : SET_SSV4args := match u with nfs_argop4_opsetssv x => x | _ =>
  zero_SET_SSV4args end.
#[global] Instance nfs_argop4_opsetssv_member : Variant as_nfs_argop4_opsetssv nfs_argop4_opsetssv. Proof. done. Qed.
Definition as_nfs_argop4_opteststateid (u : nfs_argop4_union) : TEST_STATEID4args := match u with nfs_argop4_opteststateid
  x => x | _ => zero_TEST_STATEID4args end.
#[global] Instance nfs_argop4_opteststateid_member : Variant as_nfs_argop4_opteststateid nfs_argop4_opteststateid. Proof.
  done. Qed.
Definition as_nfs_argop4_opwantdelegation (u : nfs_argop4_union) : WANT_DELEGATION4args := match u with
  nfs_argop4_opwantdelegation x => x | _ => zero_WANT_DELEGATION4args end.
#[global] Instance nfs_argop4_opwantdelegation_member : Variant as_nfs_argop4_opwantdelegation
  nfs_argop4_opwantdelegation. Proof. done. Qed.
Definition as_nfs_argop4_opdestroyclientid (u : nfs_argop4_union) : DESTROY_CLIENTID4args := match u with
  nfs_argop4_opdestroyclientid x => x | _ => zero_DESTROY_CLIENTID4args end.
#[global] Instance nfs_argop4_opdestroyclientid_member : Variant as_nfs_argop4_opdestroyclientid
  nfs_argop4_opdestroyclientid. Proof. done. Qed.
Definition as_nfs_argop4_opreclaimcomplete (u : nfs_argop4_union) : RECLAIM_COMPLETE4args := match u with
  nfs_argop4_opreclaimcomplete x => x | _ => zero_RECLAIM_COMPLETE4args end.
#[global] Instance nfs_argop4_opreclaimcomplete_member : Variant as_nfs_argop4_opreclaimcomplete
  nfs_argop4_opreclaimcomplete. Proof. done. Qed.
Definition case_nfs_argop4 (d : Z) : proc nfs_argop4_union :=
  if (d =? OP_ACCESS) then zdr_member as_nfs_argop4_opaccess nfs_argop4_opaccess zdr_ACCESS4args
  else if (d =? OP_CLOSE) then zdr_member as_nfs_argop4_opclose nfs_argop4_opclose zdr_CLOSE4args
  else if (d =? OP_COMMIT) then zdr_member as_nfs_argop4_opcommit nfs_argop4_opcommit zdr_COMMIT4args
  else if (d =? OP_CREATE) then zdr_member as_nfs_argop4_opcreate nfs_argop4_opcreate zdr_CREATE4args
  else if (d =? OP_DELEGPURGE) then zdr_member as_nfs_argop4_opdelegpurge nfs_argop4_opdelegpurge zdr_DELEGPURGE4args
  else if (d =? OP_DELEGRETURN) then zdr_member as_nfs_argop4_opdelegreturn nfs_argop4_opdelegreturn zdr_DELEGRETURN4args
  else if (d =? OP_GETATTR) then zdr_member as_nfs_argop4_opgetattr nfs_argop4_opgetattr zdr_GETATTR4args
  else if (d =? OP_GETFH) then zdr_void
  else if (d =? OP_LINK) then zdr_member as_nfs_argop4_oplink nfs_argop4_oplink zdr_LINK4args
  else if (d =? OP_LOCK) then zdr_member as_nfs_argop4_oplock nfs_argop4_oplock zdr_LOCK4args
  else if (d =? OP_LOCKT) then zdr_member as_nfs_argop4_oplockt nfs_argop4_oplockt zdr_LOCKT4args
  else if (d =? OP_LOCKU) then zdr_member as_nfs_argop4_oplocku nfs_argop4_oplocku zdr_LOCKU4args
  else if (d =? OP_LOOKUP) then zdr_member as_nfs_argop4_oplookup nfs_argop4_oplookup zdr_LOOKUP4args
  else if (d =? OP_LOOKUPP) then zdr_void
  else if (d =? OP_NVERIFY) then zdr_member as_nfs_argop4_opnverify nfs_argop4_opnverify zdr_NVERIFY4args
  else if (d =? OP_OPEN) then zdr_member as_nfs_argop4_opopen nfs_argop4_opopen zdr_OPEN4args
  else if (d =? OP_OPENATTR) then zdr_member as_nfs_argop4_opopenattr nfs_argop4_opopenattr zdr_OPENATTR4args
  else if (d =? OP_OPEN_CONFIRM) then zdr_member as_nfs_argop4_opopen_confirm nfs_argop4_opopen_confirm zdr_OPEN_CONFIRM4args
    else if (d =? OP_OPEN_DOWNGRADE) then zdr_member as_nfs_argop4_opopen_downgrade nfs_argop4_opopen_downgrade
    zdr_OPEN_DOWNGRADE4args
  else if (d =? OP_PUTFH) then zdr_member as_nfs_argop4_opputfh nfs_argop4_opputfh zdr_PUTFH4args
  else if (d =? OP_PUTPUBFH) then zdr_void
  else if (d =? OP_PUTROOTFH) then zdr_void
  else if (d =? OP_READ) then zdr_member as_nfs_argop4_opread nfs_argop4_opread zdr_READ4args
  else if (d =? OP_READDIR) then zdr_member as_nfs_argop4_opreaddir nfs_argop4_opreaddir zdr_READDIR4args
  else if (d =? OP_READLINK) then zdr_void
  else if (d =? OP_REMOVE) then zdr_member as_nfs_argop4_opremove nfs_argop4_opremove zdr_REMOVE4args
  else if (d =? OP_RENAME) then zdr_member as_nfs_argop4_oprename nfs_argop4_oprename zdr_RENAME4args
  else if (d =? OP_RENEW) then zdr_member as_nfs_argop4_oprenew nfs_argop4_oprenew zdr_RENEW4args
  else if (d =? OP_RESTOREFH) then zdr_void
  else if (d =? OP_SAVEFH) then zdr_void
  else if (d =? OP_SECINFO) then zdr_member as_nfs_argop4_opsecinfo nfs_argop4_opsecinfo zdr_SECINFO4args
  else if (d =? OP_SETATTR) then zdr_member as_nfs_argop4_opsetattr nfs_argop4_opsetattr zdr_SETATTR4args
  else if (d =? OP_SETCLIENTID) then zdr_member as_nfs_argop4_opsetclientid nfs_argop4_opsetclientid zdr_SETCLIENTID4args
    else if (d =? OP_SETCLIENTID_CONFIRM) then zdr_member as_nfs_argop4_opsetclientid_confirm
    nfs_argop4_opsetclientid_confirm zdr_SETCLIENTID_CONFIRM4args
  else if (d =? OP_VERIFY) then zdr_member as_nfs_argop4_opverify nfs_argop4_opverify zdr_VERIFY4args
  else if (d =? OP_WRITE) then zdr_member as_nfs_argop4_opwrite nfs_argop4_opwrite zdr_WRITE4args
    else if (d =? OP_RELEASE_LOCKOWNER) then zdr_member as_nfs_argop4_oprelease_lockowner nfs_argop4_oprelease_lockowner
    zdr_RELEASE_LOCKOWNER4args
    else if (d =? OP_BIND_CONN_TO_SESSION) then zdr_member as_nfs_argop4_opbindconntosession
    nfs_argop4_opbindconntosession zdr_BIND_CONN_TO_SESSION4args
  else if (d =? OP_EXCHANGE_ID) then zdr_member as_nfs_argop4_opexchangeid nfs_argop4_opexchangeid zdr_EXCHANGE_ID4args
    else if (d =? OP_CREATE_SESSION) then zdr_member as_nfs_argop4_opcreatesession nfs_argop4_opcreatesession
    zdr_CREATE_SESSION4args
    else if (d =? OP_DESTROY_SESSION) then zdr_member as_nfs_argop4_opdestroysession nfs_argop4_opdestroysession
    zdr_DESTROY_SESSION4args
  else if (d =? OP_FREE_STATEID) then zdr_member as_nfs_argop4_opfreestateid nfs_argop4_opfreestateid zdr_FREE_STATEID4args
    else if (d =? OP_GET_DIR_DELEGATION) then zdr_member as_nfs_argop4_opgetdirdelegation nfs_argop4_opgetdirdelegation
    zdr_GET_DIR_DELEGATION4args
    else if (d =? OP_GETDEVICEINFO) then zdr_member as_nfs_argop4_opgetdeviceinfo nfs_argop4_opgetdeviceinfo
    zdr_GETDEVICEINFO4args
    else if (d =? OP_GETDEVICELIST) then zdr_member as_nfs_argop4_opgetdevicelist nfs_argop4_opgetdevicelist
    zdr_GETDEVICELIST4args
  else if (d =? OP_LAYOUTCOMMIT) then zdr_member as_nfs_argop4_oplayoutcommit nfs_argop4_oplayoutcommit zdr_LAYOUTCOMMIT4args
  else if (d =? OP_LAYOUTGET) then zdr_member as_nfs_argop4_oplayoutget nfs_argop4_oplayoutget zdr_LAYOUTGET4args
  else if (d =? OP_LAYOUTRETURN) then zdr_member as_nfs_argop4_oplayoutreturn nfs_argop4_oplayoutreturn zdr_LAYOUTRETURN4args
    else if (d =? OP_SECINFO_NO_NAME) then zdr_member as_nfs_argop4_opsecinfononame nfs_argop4_opsecinfononame
    zdr_SECINFO_NO_NAME4args
  else if (d =? OP_SEQUENCE) then zdr_member as_nfs_argop4_opsequence nfs_argop4_opsequence zdr_SEQUENCE4args
  else if (d =? OP_SET_SSV) then zdr_member as_nfs_argop4_opsetssv nfs_argop4_opsetssv zdr_SET_SSV4args
  else if (d =? OP_TEST_STATEID) then zdr_member as_nfs_argop4_opteststateid nfs_argop4_opteststateid zdr_TEST_STATEID4args
    else if (d =? OP_WANT_DELEGATION) then zdr_member as_nfs_argop4_opwantdelegation nfs_argop4_opwantdelegation
    zdr_WANT_DELEGATION4args
    else if (d =? OP_DESTROY_CLIENTID) then zdr_member as_nfs_argop4_opdestroyclientid nfs_argop4_opdestroyclientid
    zdr_DESTROY_CLIENTID4args
    else if (d =? OP_RECLAIM_COMPLETE) then zdr_member as_nfs_argop4_opreclaimcomplete nfs_argop4_opreclaimcomplete
    zdr_RECLAIM_COMPLETE4args
  else if (d =? OP_ILLEGAL) then zdr_void
  else zdr_fail.
#[global] Instance case_nfs_argop4_codec d : Codec (case_nfs_argop4 d). Proof. codec case_nfs_argop4. Defined.
#[global] Instance case_nfs_argop4_blank d : Blank (case_nfs_argop4 d) nfs_argop4_cleared. Proof. blank case_nfs_argop4. Qed.
Definition zdr_nfs_argop4 : proc nfs_argop4 := zdr_via fields_nfs_argop4 make_nfs_argop4 (zdr_dseq zdr_nfs_opnum4
  (case_nfs_argop4)).
#[global] Instance nfs_argop4_codec : Codec zdr_nfs_argop4. Proof. codec zdr_nfs_argop4. Defined.
#[global] Instance nfs_argop4_blank : Blank zdr_nfs_argop4 zero_nfs_argop4. Proof. blank zdr_nfs_argop4. Qed.

Inductive nfs_resop4_union := nfs_resop4_cleared | nfs_resop4_opaccess (x : ACCESS4res) | nfs_resop4_opclose (x :
  CLOSE4res) | nfs_resop4_opcommit (x : COMMIT4res) | nfs_resop4_opcreate (x : CREATE4res) | nfs_resop4_opdelegpurge (x :
  DELEGPURGE4res) | nfs_resop4_opdelegreturn (x : DELEGRETURN4res) | nfs_resop4_opgetattr (x : GETATTR4res) |
  nfs_resop4_opgetfh (x : GETFH4res) | nfs_resop4_oplink (x : LINK4res) | nfs_resop4_oplock (x : LOCK4res) |
  nfs_resop4_oplockt (x : LOCKT4res) | nfs_resop4_oplocku (x : LOCKU4res) | nfs_resop4_oplookup (x : LOOKUP4res) |
  nfs_resop4_oplookupp (x : LOOKUPP4res) | nfs_resop4_opnverify (x : NVERIFY4res) | nfs_resop4_opopen (x : OPEN4res) |
  nfs_resop4_opopenattr (x : OPENATTR4res) | nfs_resop4_opopen_confirm (x : OPEN_CONFIRM4res) |
  nfs_resop4_opopen_downgrade (x : OPEN_DOWNGRADE4res) | nfs_resop4_opputfh (x : PUTFH4res) | nfs_resop4_opputpubfh (x :
  PUTPUBFH4res) | nfs_resop4_opputrootfh (x : PUTROOTFH4res) | nfs_resop4_opread (x : READ4res) | nfs_resop4_opreaddir (x
  : READDIR4res) | nfs_resop4_opreadlink (x : READLINK4res) | nfs_resop4_opremove (x : REMOVE4res) | nfs_resop4_oprename
  (x : RENAME4res) | nfs_resop4_oprenew (x : RENEW4res) | nfs_resop4_oprestorefh (x : RESTOREFH4res) | nfs_resop4_opsavefh
  (x : SAVEFH4res) | nfs_resop4_opsecinfo (x : SECINFO4res) | nfs_resop4_opsetattr (x : SETATTR4res) |
  nfs_resop4_opsetclientid (x : SETCLIENTID4res) | nfs_resop4_opsetclientid_confirm (x : SETCLIENTID_CONFIRM4res) |
  nfs_resop4_opverify (x : VERIFY4res) | nfs_resop4_opwrite (x : WRITE4res) | nfs_resop4_oprelease_lockowner (x :
  RELEASE_LOCKOWNER4res) | nfs_resop4_opbindconntosession (x : BIND_CONN_TO_SESSION4res) | nfs_resop4_opexchangeid (x :
  EXCHANGE_ID4res) | nfs_resop4_opcreatesession (x : CREATE_SESSION4res) | nfs_resop4_opdestroysession (x :
  DESTROY_SESSION4res) | nfs_resop4_opfreestateid (x : FREE_STATEID4res) | nfs_resop4_opgetdirdelegation (x :
  GET_DIR_DELEGATION4res) | nfs_resop4_opgetdeviceinfo (x : GETDEVICEINFO4res) | nfs_resop4_opgetdevicelist (x :
  GETDEVICELIST4res) | nfs_resop4_oplayoutcommit (x : LAYOUTCOMMIT4res) | nfs_resop4_oplayoutget (x : LAYOUTGET4res) |
  nfs_resop4_oplayoutreturn (x : LAYOUTRETURN4res) | nfs_resop4_opsecinfononame (x : SECINFO4res) | nfs_resop4_opsequence
  (x : SEQUENCE4res) | nfs_resop4_opsetssv (x : SET_SSV4res) | nfs_resop4_opteststateid (x : TEST_STATEID4res) |
  nfs_resop4_opwantdelegation (x : WANT_DELEGATION4res) | nfs_resop4_opdestroyclientid (x : DESTROY_CLIENTID4res) |
  nfs_resop4_opreclaimcomplete (x : RECLAIM_COMPLETE4res) | nfs_resop4_opillegal (x : ILLEGAL4res).
Record nfs_resop4 := mknfs_resop4 { nfs_resop4_resop : Z; nfs_resop4_u : nfs_resop4_union }.
Definition zero_nfs_resop4 : nfs_resop4 := mknfs_resop4 0 nfs_resop4_cleared.
Definition fields_nfs_resop4 (x : nfs_resop4) := (nfs_resop4_resop x, nfs_resop4_u x).
Definition make_nfs_resop4 (t : (Z * nfs_resop4_union)) : nfs_resop4 := mknfs_resop4 t.1 t.2.
#[global] Instance nfs_resop4_iso : Iso fields_nfs_resop4 make_nfs_resop4. Proof. iso. Qed.
Definition as_nfs_resop4_opaccess (u : nfs_resop4_union) : ACCESS4res := match u with nfs_resop4_opaccess x => x | _ =>
  zero_ACCESS4res end.
#[global] Instance nfs_resop4_opaccess_member : Variant as_nfs_resop4_opaccess nfs_resop4_opaccess. Proof. done. Qed.
Definition as_nfs_resop4_opclose (u : nfs_resop4_union) : CLOSE4res := match u with nfs_resop4_opclose x => x | _ =>
  zero_CLOSE4res end.
#[global] Instance nfs_resop4_opclose_member : Variant as_nfs_resop4_opclose nfs_resop4_opclose. Proof. done. Qed.
Definition as_nfs_resop4_opcommit (u : nfs_resop4_union) : COMMIT4res := match u with nfs_resop4_opcommit x => x | _ =>
  zero_COMMIT4res end.
#[global] Instance nfs_resop4_opcommit_member : Variant as_nfs_resop4_opcommit nfs_resop4_opcommit. Proof. done. Qed.
Definition as_nfs_resop4_opcreate (u : nfs_resop4_union) : CREATE4res := match u with nfs_resop4_opcreate x => x | _ =>
  zero_CREATE4res end.
#[global] Instance nfs_resop4_opcreate_member : Variant as_nfs_resop4_opcreate nfs_resop4_opcreate. Proof. done. Qed.
Definition as_nfs_resop4_opdelegpurge (u : nfs_resop4_union) : DELEGPURGE4res := match u with nfs_resop4_opdelegpurge x =>
  x | _ => zero_DELEGPURGE4res end.
#[global] Instance nfs_resop4_opdelegpurge_member : Variant as_nfs_resop4_opdelegpurge nfs_resop4_opdelegpurge. Proof.
  done. Qed.
Definition as_nfs_resop4_opdelegreturn (u : nfs_resop4_union) : DELEGRETURN4res := match u with nfs_resop4_opdelegreturn x
  => x | _ => zero_DELEGRETURN4res end.
#[global] Instance nfs_resop4_opdelegreturn_member : Variant as_nfs_resop4_opdelegreturn nfs_resop4_opdelegreturn. Proof.
  done. Qed.
Definition as_nfs_resop4_opgetattr (u : nfs_resop4_union) : GETATTR4res := match u with nfs_resop4_opgetattr x => x | _ =>
  zero_GETATTR4res end.
#[global] Instance nfs_resop4_opgetattr_member : Variant as_nfs_resop4_opgetattr nfs_resop4_opgetattr. Proof. done. Qed.
Definition as_nfs_resop4_opgetfh (u : nfs_resop4_union) : GETFH4res := match u with nfs_resop4_opgetfh x => x | _ =>
  zero_GETFH4res end.
#[global] Instance nfs_resop4_opgetfh_member : Variant as_nfs_resop4_opgetfh nfs_resop4_opgetfh. Proof. done. Qed.
Definition as_nfs_resop4_oplink (u : nfs_resop4_union) : LINK4res := match u with nfs_resop4_oplink x => x | _ =>
  zero_LINK4res end.
#[global] Instance nfs_resop4_oplink_member : Variant as_nfs_resop4_oplink nfs_resop4_oplink. Proof. done. Qed.
Definition as_nfs_resop4_oplock (u : nfs_resop4_union) : LOCK4res := match u with nfs_resop4_oplock x => x | _ =>
  zero_LOCK4res end.
#[global] Instance nfs_resop4_oplock_member : Variant as_nfs_resop4_oplock nfs_resop4_oplock. Proof. done. Qed.
Definition as_nfs_resop4_oplockt (u : nfs_resop4_union) : LOCKT4res := match u with nfs_resop4_oplockt x => x | _ =>
  zero_LOCKT4res end.
#[global] Instance nfs_resop4_oplockt_member : Variant as_nfs_resop4_oplockt nfs_resop4_oplockt. Proof. done. Qed.
Definition as_nfs_resop4_oplocku (u : nfs_resop4_union) : LOCKU4res := match u with nfs_resop4_oplocku x => x | _ =>
  zero_LOCKU4res end.
#[global] Instance nfs_resop4_oplocku_member : Variant as_nfs_resop4_oplocku nfs_resop4_oplocku. Proof. done. Qed.
Definition as_nfs_resop4_oplookup (u : nfs_resop4_union) : LOOKUP4res := match u with nfs_resop4_oplookup x => x | _ =>
  zero_LOOKUP4res end.
#[global] Instance nfs_resop4_oplookup_member : Variant as_nfs_resop4_oplookup nfs_resop4_oplookup. Proof. done. Qed.
Definition as_nfs_resop4_oplookupp (u : nfs_resop4_union) : LOOKUPP4res := match u with nfs_resop4_oplookupp x => x | _ =>
  zero_LOOKUPP4res end.
#[global] Instance nfs_resop4_oplookupp_member : Variant as_nfs_resop4_oplookupp nfs_resop4_oplookupp. Proof. done. Qed.
Definition as_nfs_resop4_opnverify (u : nfs_resop4_union) : NVERIFY4res := match u with nfs_resop4_opnverify x => x | _ =>
  zero_NVERIFY4res end.
#[global] Instance nfs_resop4_opnverify_member : Variant as_nfs_resop4_opnverify nfs_resop4_opnverify. Proof. done. Qed.
Definition as_nfs_resop4_opopen (u : nfs_resop4_union) : OPEN4res := match u with nfs_resop4_opopen x => x | _ =>
  zero_OPEN4res end.
#[global] Instance nfs_resop4_opopen_member : Variant as_nfs_resop4_opopen nfs_resop4_opopen. Proof. done. Qed.
Definition as_nfs_resop4_opopenattr (u : nfs_resop4_union) : OPENATTR4res := match u with nfs_resop4_opopenattr x => x | _
  => zero_OPENATTR4res end.
#[global] Instance nfs_resop4_opopenattr_member : Variant as_nfs_resop4_opopenattr nfs_resop4_opopenattr. Proof. done. Qed.
Definition as_nfs_resop4_opopen_confirm (u : nfs_resop4_union) : OPEN_CONFIRM4res := match u with
  nfs_resop4_opopen_confirm x => x | _ => zero_OPEN_CONFIRM4res end.
#[global] Instance nfs_resop4_opopen_confirm_member : Variant as_nfs_resop4_opopen_confirm nfs_resop4_opopen_confirm.
  Proof. done. Qed.
Definition as_nfs_resop4_opopen_downgrade (u : nfs_resop4_union) : OPEN_DOWNGRADE4res := match u with
  nfs_resop4_opopen_downgrade x => x | _ => zero_OPEN_DOWNGRADE4res end.
#[global] Instance nfs_resop4_opopen_downgrade_member : Variant as_nfs_resop4_opopen_downgrade
  nfs_resop4_opopen_downgrade. Proof. done. Qed.
Definition as_nfs_resop4_opputfh (u : nfs_resop4_union) : PUTFH4res := match u with nfs_resop4_opputfh x => x | _ =>
  zero_PUTFH4res end.
#[global] Instance nfs_resop4_opputfh_member : Variant as_nfs_resop4_opputfh nfs_resop4_opputfh. Proof. done. Qed.
Definition as_nfs_resop4_opputpubfh (u : nfs_resop4_union) : PUTPUBFH4res := match u with nfs_resop4_opputpubfh x => x | _
  => zero_PUTPUBFH4res end.
#[global] Instance nfs_resop4_opputpubfh_member : Variant as_nfs_resop4_opputpubfh nfs_resop4_opputpubfh. Proof. done. Qed.
Definition as_nfs_resop4_opputrootfh (u : nfs_resop4_union) : PUTROOTFH4res := match u with nfs_resop4_opputrootfh x => x
  | _ => zero_PUTROOTFH4res end.
#[global] Instance nfs_resop4_opputrootfh_member : Variant as_nfs_resop4_opputrootfh nfs_resop4_opputrootfh. Proof. done.
  Qed.
Definition as_nfs_resop4_opread (u : nfs_resop4_union) : READ4res := match u with nfs_resop4_opread x => x | _ =>
  zero_READ4res end.
#[global] Instance nfs_resop4_opread_member : Variant as_nfs_resop4_opread nfs_resop4_opread. Proof. done. Qed.
Definition as_nfs_resop4_opreaddir (u : nfs_resop4_union) : READDIR4res := match u with nfs_resop4_opreaddir x => x | _ =>
  zero_READDIR4res end.
#[global] Instance nfs_resop4_opreaddir_member : Variant as_nfs_resop4_opreaddir nfs_resop4_opreaddir. Proof. done. Qed.
Definition as_nfs_resop4_opreadlink (u : nfs_resop4_union) : READLINK4res := match u with nfs_resop4_opreadlink x => x | _
  => zero_READLINK4res end.
#[global] Instance nfs_resop4_opreadlink_member : Variant as_nfs_resop4_opreadlink nfs_resop4_opreadlink. Proof. done. Qed.
Definition as_nfs_resop4_opremove (u : nfs_resop4_union) : REMOVE4res := match u with nfs_resop4_opremove x => x | _ =>
  zero_REMOVE4res end.
#[global] Instance nfs_resop4_opremove_member : Variant as_nfs_resop4_opremove nfs_resop4_opremove. Proof. done. Qed.
Definition as_nfs_resop4_oprename (u : nfs_resop4_union) : RENAME4res := match u with nfs_resop4_oprename x => x | _ =>
  zero_RENAME4res end.
#[global] Instance nfs_resop4_oprename_member : Variant as_nfs_resop4_oprename nfs_resop4_oprename. Proof. done. Qed.
Definition as_nfs_resop4_oprenew (u : nfs_resop4_union) : RENEW4res := match u with nfs_resop4_oprenew x => x | _ =>
  zero_RENEW4res end.
#[global] Instance nfs_resop4_oprenew_member : Variant as_nfs_resop4_oprenew nfs_resop4_oprenew. Proof. done. Qed.
Definition as_nfs_resop4_oprestorefh (u : nfs_resop4_union) : RESTOREFH4res := match u with nfs_resop4_oprestorefh x => x
  | _ => zero_RESTOREFH4res end.
#[global] Instance nfs_resop4_oprestorefh_member : Variant as_nfs_resop4_oprestorefh nfs_resop4_oprestorefh. Proof. done.
  Qed.
Definition as_nfs_resop4_opsavefh (u : nfs_resop4_union) : SAVEFH4res := match u with nfs_resop4_opsavefh x => x | _ =>
  zero_SAVEFH4res end.
#[global] Instance nfs_resop4_opsavefh_member : Variant as_nfs_resop4_opsavefh nfs_resop4_opsavefh. Proof. done. Qed.
Definition as_nfs_resop4_opsecinfo (u : nfs_resop4_union) : SECINFO4res := match u with nfs_resop4_opsecinfo x => x | _ =>
  zero_SECINFO4res end.
#[global] Instance nfs_resop4_opsecinfo_member : Variant as_nfs_resop4_opsecinfo nfs_resop4_opsecinfo. Proof. done. Qed.
Definition as_nfs_resop4_opsetattr (u : nfs_resop4_union) : SETATTR4res := match u with nfs_resop4_opsetattr x => x | _ =>
  zero_SETATTR4res end.
#[global] Instance nfs_resop4_opsetattr_member : Variant as_nfs_resop4_opsetattr nfs_resop4_opsetattr. Proof. done. Qed.
Definition as_nfs_resop4_opsetclientid (u : nfs_resop4_union) : SETCLIENTID4res := match u with nfs_resop4_opsetclientid x
  => x | _ => zero_SETCLIENTID4res end.
#[global] Instance nfs_resop4_opsetclientid_member : Variant as_nfs_resop4_opsetclientid nfs_resop4_opsetclientid. Proof.
  done. Qed.
Definition as_nfs_resop4_opsetclientid_confirm (u : nfs_resop4_union) : SETCLIENTID_CONFIRM4res := match u with
  nfs_resop4_opsetclientid_confirm x => x | _ => zero_SETCLIENTID_CONFIRM4res end.
#[global] Instance nfs_resop4_opsetclientid_confirm_member : Variant as_nfs_resop4_opsetclientid_confirm
  nfs_resop4_opsetclientid_confirm. Proof. done. Qed.
Definition as_nfs_resop4_opverify (u : nfs_resop4_union) : VERIFY4res := match u with nfs_resop4_opverify x => x | _ =>
  zero_VERIFY4res end.
#[global] Instance nfs_resop4_opverify_member : Variant as_nfs_resop4_opverify nfs_resop4_opverify. Proof. done. Qed.
Definition as_nfs_resop4_opwrite (u : nfs_resop4_union) : WRITE4res := match u with nfs_resop4_opwrite x => x | _ =>
  zero_WRITE4res end.
#[global] Instance nfs_resop4_opwrite_member : Variant as_nfs_resop4_opwrite nfs_resop4_opwrite. Proof. done. Qed.
Definition as_nfs_resop4_oprelease_lockowner (u : nfs_resop4_union) : RELEASE_LOCKOWNER4res := match u with
  nfs_resop4_oprelease_lockowner x => x | _ => zero_RELEASE_LOCKOWNER4res end.
#[global] Instance nfs_resop4_oprelease_lockowner_member : Variant as_nfs_resop4_oprelease_lockowner
  nfs_resop4_oprelease_lockowner. Proof. done. Qed.
Definition as_nfs_resop4_opbindconntosession (u : nfs_resop4_union) : BIND_CONN_TO_SESSION4res := match u with
  nfs_resop4_opbindconntosession x => x | _ => zero_BIND_CONN_TO_SESSION4res end.
#[global] Instance nfs_resop4_opbindconntosession_member : Variant as_nfs_resop4_opbindconntosession
  nfs_resop4_opbindconntosession. Proof. done. Qed.
Definition as_nfs_resop4_opexchangeid (u : nfs_resop4_union) : EXCHANGE_ID4res := match u with nfs_resop4_opexchangeid x
  => x | _ => zero_EXCHANGE_ID4res end.
#[global] Instance nfs_resop4_opexchangeid_member : Variant as_nfs_resop4_opexchangeid nfs_resop4_opexchangeid. Proof.
  done. Qed.
Definition as_nfs_resop4_opcreatesession (u : nfs_resop4_union) : CREATE_SESSION4res := match u with
  nfs_resop4_opcreatesession x => x | _ => zero_CREATE_SESSION4res end.
#[global] Instance nfs_resop4_opcreatesession_member : Variant as_nfs_resop4_opcreatesession nfs_resop4_opcreatesession.
  Proof. done. Qed.
Definition as_nfs_resop4_opdestroysession (u : nfs_resop4_union) : DESTROY_SESSION4res := match u with
  nfs_resop4_opdestroysession x => x | _ => zero_DESTROY_SESSION4res end.
#[global] Instance nfs_resop4_opdestroysession_member : Variant as_nfs_resop4_opdestroysession
  nfs_resop4_opdestroysession. Proof. done. Qed.
Definition as_nfs_resop4_opfreestateid (u : nfs_resop4_union) : FREE_STATEID4res := match u with nfs_resop4_opfreestateid
  x => x | _ => zero_FREE_STATEID4res end.
#[global] Instance nfs_resop4_opfreestateid_member : Variant as_nfs_resop4_opfreestateid nfs_resop4_opfreestateid. Proof.
  done. Qed.
Definition as_nfs_resop4_opgetdirdelegation (u : nfs_resop4_union) : GET_DIR_DELEGATION4res := match u with
  nfs_resop4_opgetdirdelegation x => x | _ => zero_GET_DIR_DELEGATION4res end.
#[global] Instance nfs_resop4_opgetdirdelegation_member : Variant as_nfs_resop4_opgetdirdelegation
  nfs_resop4_opgetdirdelegation. Proof. done. Qed.
Definition as_nfs_resop4_opgetdeviceinfo (u : nfs_resop4_union) : GETDEVICEINFO4res := match u with
  nfs_resop4_opgetdeviceinfo x => x | _ => zero_GETDEVICEINFO4res end.
#[global] Instance nfs_resop4_opgetdeviceinfo_member : Variant as_nfs_resop4_opgetdeviceinfo nfs_resop4_opgetdeviceinfo.
  Proof. done. Qed.
Definition as_nfs_resop4_opgetdevicelist (u : nfs_resop4_union) : GETDEVICELIST4res := match u with
  nfs_resop4_opgetdevicelist x => x | _ => zero_GETDEVICELIST4res end.
#[global] Instance nfs_resop4_opgetdevicelist_member : Variant as_nfs_resop4_opgetdevicelist nfs_resop4_opgetdevicelist.
  Proof. done. Qed.
Definition as_nfs_resop4_oplayoutcommit (u : nfs_resop4_union) : LAYOUTCOMMIT4res := match u with
  nfs_resop4_oplayoutcommit x => x | _ => zero_LAYOUTCOMMIT4res end.
#[global] Instance nfs_resop4_oplayoutcommit_member : Variant as_nfs_resop4_oplayoutcommit nfs_resop4_oplayoutcommit.
  Proof. done. Qed.
Definition as_nfs_resop4_oplayoutget (u : nfs_resop4_union) : LAYOUTGET4res := match u with nfs_resop4_oplayoutget x => x
  | _ => zero_LAYOUTGET4res end.
#[global] Instance nfs_resop4_oplayoutget_member : Variant as_nfs_resop4_oplayoutget nfs_resop4_oplayoutget. Proof. done.
  Qed.
Definition as_nfs_resop4_oplayoutreturn (u : nfs_resop4_union) : LAYOUTRETURN4res := match u with
  nfs_resop4_oplayoutreturn x => x | _ => zero_LAYOUTRETURN4res end.
#[global] Instance nfs_resop4_oplayoutreturn_member : Variant as_nfs_resop4_oplayoutreturn nfs_resop4_oplayoutreturn.
  Proof. done. Qed.
Definition as_nfs_resop4_opsecinfononame (u : nfs_resop4_union) : SECINFO4res := match u with nfs_resop4_opsecinfononame x
  => x | _ => zero_SECINFO4res end.
#[global] Instance nfs_resop4_opsecinfononame_member : Variant as_nfs_resop4_opsecinfononame nfs_resop4_opsecinfononame.
  Proof. done. Qed.
Definition as_nfs_resop4_opsequence (u : nfs_resop4_union) : SEQUENCE4res := match u with nfs_resop4_opsequence x => x | _
  => zero_SEQUENCE4res end.
#[global] Instance nfs_resop4_opsequence_member : Variant as_nfs_resop4_opsequence nfs_resop4_opsequence. Proof. done. Qed.
Definition as_nfs_resop4_opsetssv (u : nfs_resop4_union) : SET_SSV4res := match u with nfs_resop4_opsetssv x => x | _ =>
  zero_SET_SSV4res end.
#[global] Instance nfs_resop4_opsetssv_member : Variant as_nfs_resop4_opsetssv nfs_resop4_opsetssv. Proof. done. Qed.
Definition as_nfs_resop4_opteststateid (u : nfs_resop4_union) : TEST_STATEID4res := match u with nfs_resop4_opteststateid
  x => x | _ => zero_TEST_STATEID4res end.
#[global] Instance nfs_resop4_opteststateid_member : Variant as_nfs_resop4_opteststateid nfs_resop4_opteststateid. Proof.
  done. Qed.
Definition as_nfs_resop4_opwantdelegation (u : nfs_resop4_union) : WANT_DELEGATION4res := match u with
  nfs_resop4_opwantdelegation x => x | _ => zero_WANT_DELEGATION4res end.
#[global] Instance nfs_resop4_opwantdelegation_member : Variant as_nfs_resop4_opwantdelegation
  nfs_resop4_opwantdelegation. Proof. done. Qed.
Definition as_nfs_resop4_opdestroyclientid (u : nfs_resop4_union) : DESTROY_CLIENTID4res := match u with
  nfs_resop4_opdestroyclientid x => x | _ => zero_DESTROY_CLIENTID4res end.
#[global] Instance nfs_resop4_opdestroyclientid_member : Variant as_nfs_resop4_opdestroyclientid
  nfs_resop4_opdestroyclientid. Proof. done. Qed.
Definition as_nfs_resop4_opreclaimcomplete (u : nfs_resop4_union) : RECLAIM_COMPLETE4res := match u with
  nfs_resop4_opreclaimcomplete x => x | _ => zero_RECLAIM_COMPLETE4res end.
#[global] Instance nfs_resop4_opreclaimcomplete_member : Variant as_nfs_resop4_opreclaimcomplete
  nfs_resop4_opreclaimcomplete. Proof. done. Qed.
Definition as_nfs_resop4_opillegal (u : nfs_resop4_union) : ILLEGAL4res := match u with nfs_resop4_opillegal x => x | _ =>
  zero_ILLEGAL4res end.
#[global] Instance nfs_resop4_opillegal_member : Variant as_nfs_resop4_opillegal nfs_resop4_opillegal. Proof. done. Qed.
Definition case_nfs_resop4 (fuel : nat) (d : Z) : proc nfs_resop4_union :=
  if (d =? OP_ACCESS) then zdr_member as_nfs_resop4_opaccess nfs_resop4_opaccess zdr_ACCESS4res
  else if (d =? OP_CLOSE) then zdr_member as_nfs_resop4_opclose nfs_resop4_opclose zdr_CLOSE4res
  else if (d =? OP_COMMIT) then zdr_member as_nfs_resop4_opcommit nfs_resop4_opcommit zdr_COMMIT4res
  else if (d =? OP_CREATE) then zdr_member as_nfs_resop4_opcreate nfs_resop4_opcreate zdr_CREATE4res
  else if (d =? OP_DELEGPURGE) then zdr_member as_nfs_resop4_opdelegpurge nfs_resop4_opdelegpurge zdr_DELEGPURGE4res
  else if (d =? OP_DELEGRETURN) then zdr_member as_nfs_resop4_opdelegreturn nfs_resop4_opdelegreturn zdr_DELEGRETURN4res
  else if (d =? OP_GETATTR) then zdr_member as_nfs_resop4_opgetattr nfs_resop4_opgetattr zdr_GETATTR4res
  else if (d =? OP_GETFH) then zdr_member as_nfs_resop4_opgetfh nfs_resop4_opgetfh zdr_GETFH4res
  else if (d =? OP_LINK) then zdr_member as_nfs_resop4_oplink nfs_resop4_oplink zdr_LINK4res
  else if (d =? OP_LOCK) then zdr_member as_nfs_resop4_oplock nfs_resop4_oplock zdr_LOCK4res
  else if (d =? OP_LOCKT) then zdr_member as_nfs_resop4_oplockt nfs_resop4_oplockt zdr_LOCKT4res
  else if (d =? OP_LOCKU) then zdr_member as_nfs_resop4_oplocku nfs_resop4_oplocku zdr_LOCKU4res
  else if (d =? OP_LOOKUP) then zdr_member as_nfs_resop4_oplookup nfs_resop4_oplookup zdr_LOOKUP4res
  else if (d =? OP_LOOKUPP) then zdr_member as_nfs_resop4_oplookupp nfs_resop4_oplookupp zdr_LOOKUPP4res
  else if (d =? OP_NVERIFY) then zdr_member as_nfs_resop4_opnverify nfs_resop4_opnverify zdr_NVERIFY4res
  else if (d =? OP_OPEN) then zdr_member as_nfs_resop4_opopen nfs_resop4_opopen zdr_OPEN4res
  else if (d =? OP_OPENATTR) then zdr_member as_nfs_resop4_opopenattr nfs_resop4_opopenattr zdr_OPENATTR4res
  else if (d =? OP_OPEN_CONFIRM) then zdr_member as_nfs_resop4_opopen_confirm nfs_resop4_opopen_confirm zdr_OPEN_CONFIRM4res
    else if (d =? OP_OPEN_DOWNGRADE) then zdr_member as_nfs_resop4_opopen_downgrade nfs_resop4_opopen_downgrade
    zdr_OPEN_DOWNGRADE4res
  else if (d =? OP_PUTFH) then zdr_member as_nfs_resop4_opputfh nfs_resop4_opputfh zdr_PUTFH4res
  else if (d =? OP_PUTPUBFH) then zdr_member as_nfs_resop4_opputpubfh nfs_resop4_opputpubfh zdr_PUTPUBFH4res
  else if (d =? OP_PUTROOTFH) then zdr_member as_nfs_resop4_opputrootfh nfs_resop4_opputrootfh zdr_PUTROOTFH4res
  else if (d =? OP_READ) then zdr_member as_nfs_resop4_opread nfs_resop4_opread zdr_READ4res
  else if (d =? OP_READDIR) then zdr_member as_nfs_resop4_opreaddir nfs_resop4_opreaddir (zdr_READDIR4res fuel)
  else if (d =? OP_READLINK) then zdr_member as_nfs_resop4_opreadlink nfs_resop4_opreadlink zdr_READLINK4res
  else if (d =? OP_REMOVE) then zdr_member as_nfs_resop4_opremove nfs_resop4_opremove zdr_REMOVE4res
  else if (d =? OP_RENAME) then zdr_member as_nfs_resop4_oprename nfs_resop4_oprename zdr_RENAME4res
  else if (d =? OP_RENEW) then zdr_member as_nfs_resop4_oprenew nfs_resop4_oprenew zdr_RENEW4res
  else if (d =? OP_RESTOREFH) then zdr_member as_nfs_resop4_oprestorefh nfs_resop4_oprestorefh zdr_RESTOREFH4res
  else if (d =? OP_SAVEFH) then zdr_member as_nfs_resop4_opsavefh nfs_resop4_opsavefh zdr_SAVEFH4res
  else if (d =? OP_SECINFO) then zdr_member as_nfs_resop4_opsecinfo nfs_resop4_opsecinfo zdr_SECINFO4res
  else if (d =? OP_SETATTR) then zdr_member as_nfs_resop4_opsetattr nfs_resop4_opsetattr zdr_SETATTR4res
  else if (d =? OP_SETCLIENTID) then zdr_member as_nfs_resop4_opsetclientid nfs_resop4_opsetclientid zdr_SETCLIENTID4res
    else if (d =? OP_SETCLIENTID_CONFIRM) then zdr_member as_nfs_resop4_opsetclientid_confirm
    nfs_resop4_opsetclientid_confirm zdr_SETCLIENTID_CONFIRM4res
  else if (d =? OP_VERIFY) then zdr_member as_nfs_resop4_opverify nfs_resop4_opverify zdr_VERIFY4res
  else if (d =? OP_WRITE) then zdr_member as_nfs_resop4_opwrite nfs_resop4_opwrite zdr_WRITE4res
    else if (d =? OP_RELEASE_LOCKOWNER) then zdr_member as_nfs_resop4_oprelease_lockowner nfs_resop4_oprelease_lockowner
    zdr_RELEASE_LOCKOWNER4res
    else if (d =? OP_BIND_CONN_TO_SESSION) then zdr_member as_nfs_resop4_opbindconntosession
    nfs_resop4_opbindconntosession zdr_BIND_CONN_TO_SESSION4res
  else if (d =? OP_EXCHANGE_ID) then zdr_member as_nfs_resop4_opexchangeid nfs_resop4_opexchangeid zdr_EXCHANGE_ID4res
    else if (d =? OP_CREATE_SESSION) then zdr_member as_nfs_resop4_opcreatesession nfs_resop4_opcreatesession
    zdr_CREATE_SESSION4res
    else if (d =? OP_DESTROY_SESSION) then zdr_member as_nfs_resop4_opdestroysession nfs_resop4_opdestroysession
    zdr_DESTROY_SESSION4res
  else if (d =? OP_FREE_STATEID) then zdr_member as_nfs_resop4_opfreestateid nfs_resop4_opfreestateid zdr_FREE_STATEID4res
    else if (d =? OP_GET_DIR_DELEGATION) then zdr_member as_nfs_resop4_opgetdirdelegation nfs_resop4_opgetdirdelegation
    zdr_GET_DIR_DELEGATION4res
    else if (d =? OP_GETDEVICEINFO) then zdr_member as_nfs_resop4_opgetdeviceinfo nfs_resop4_opgetdeviceinfo
    zdr_GETDEVICEINFO4res
    else if (d =? OP_GETDEVICELIST) then zdr_member as_nfs_resop4_opgetdevicelist nfs_resop4_opgetdevicelist
    zdr_GETDEVICELIST4res
  else if (d =? OP_LAYOUTCOMMIT) then zdr_member as_nfs_resop4_oplayoutcommit nfs_resop4_oplayoutcommit zdr_LAYOUTCOMMIT4res
  else if (d =? OP_LAYOUTGET) then zdr_member as_nfs_resop4_oplayoutget nfs_resop4_oplayoutget zdr_LAYOUTGET4res
  else if (d =? OP_LAYOUTRETURN) then zdr_member as_nfs_resop4_oplayoutreturn nfs_resop4_oplayoutreturn zdr_LAYOUTRETURN4res
    else if (d =? OP_SECINFO_NO_NAME) then zdr_member as_nfs_resop4_opsecinfononame nfs_resop4_opsecinfononame
    zdr_SECINFO_NO_NAME4res
  else if (d =? OP_SEQUENCE) then zdr_member as_nfs_resop4_opsequence nfs_resop4_opsequence zdr_SEQUENCE4res
  else if (d =? OP_SET_SSV) then zdr_member as_nfs_resop4_opsetssv nfs_resop4_opsetssv zdr_SET_SSV4res
  else if (d =? OP_TEST_STATEID) then zdr_member as_nfs_resop4_opteststateid nfs_resop4_opteststateid zdr_TEST_STATEID4res
    else if (d =? OP_WANT_DELEGATION) then zdr_member as_nfs_resop4_opwantdelegation nfs_resop4_opwantdelegation
    zdr_WANT_DELEGATION4res
    else if (d =? OP_DESTROY_CLIENTID) then zdr_member as_nfs_resop4_opdestroyclientid nfs_resop4_opdestroyclientid
    zdr_DESTROY_CLIENTID4res
    else if (d =? OP_RECLAIM_COMPLETE) then zdr_member as_nfs_resop4_opreclaimcomplete nfs_resop4_opreclaimcomplete
    zdr_RECLAIM_COMPLETE4res
  else if (d =? OP_ILLEGAL) then zdr_member as_nfs_resop4_opillegal nfs_resop4_opillegal zdr_ILLEGAL4res
  else zdr_fail.
#[global] Instance case_nfs_resop4_codec (fuel : nat) d : Codec (case_nfs_resop4 fuel d). Proof. codec case_nfs_resop4.
  Defined.
#[global] Instance case_nfs_resop4_blank (fuel : nat) d : Blank (case_nfs_resop4 fuel d) nfs_resop4_cleared. Proof. blank
  case_nfs_resop4. Qed.
Definition zdr_nfs_resop4 (fuel : nat) : proc nfs_resop4 := zdr_via fields_nfs_resop4 make_nfs_resop4 (zdr_dseq
  zdr_nfs_opnum4 (case_nfs_resop4 fuel)).
#[global] Instance nfs_resop4_codec fuel : Codec (zdr_nfs_resop4 fuel). Proof. codec zdr_nfs_resop4. Defined.
#[global] Instance nfs_resop4_blank fuel : Blank (zdr_nfs_resop4 fuel) zero_nfs_resop4. Proof. blank zdr_nfs_resop4. Qed.

Record COMPOUND4args := mkCOMPOUND4args {
  COMPOUND4args_tag : ptr * Z; COMPOUND4args_minorversion : Z; COMPOUND4args_argarray : Z * list nfs_argop4
}.
Definition zero_COMPOUND4args : COMPOUND4args := mkCOMPOUND4args (NULL, 0) 0 (0, []).
Definition fields_COMPOUND4args (x : COMPOUND4args) := (COMPOUND4args_tag x, (COMPOUND4args_minorversion x,
  COMPOUND4args_argarray x)).
Definition make_COMPOUND4args (t : ((ptr * Z) * (Z * (Z * list nfs_argop4)))) : COMPOUND4args := mkCOMPOUND4args t.1 t.2.1
  t.2.2.
#[global] Instance COMPOUND4args_iso : Iso fields_COMPOUND4args make_COMPOUND4args. Proof. iso. Qed.
Definition zdr_COMPOUND4args : proc COMPOUND4args := zdr_via fields_COMPOUND4args make_COMPOUND4args (zdr_utf8str_cs >>>
  zdr_u_int >>> (zdr_array zero_nfs_argop4 136 zdr_nfs_argop4)).
#[global] Instance COMPOUND4args_codec : Codec zdr_COMPOUND4args. Proof. codec zdr_COMPOUND4args. Defined.
#[global] Instance COMPOUND4args_blank : Blank zdr_COMPOUND4args zero_COMPOUND4args. Proof. blank zdr_COMPOUND4args. Qed.

Record COMPOUND4res := mkCOMPOUND4res {
  COMPOUND4res_status : Z; COMPOUND4res_tag : ptr * Z; COMPOUND4res_resarray : Z * list nfs_resop4
}.
Definition zero_COMPOUND4res : COMPOUND4res := mkCOMPOUND4res 0 (NULL, 0) (0, []).
Definition fields_COMPOUND4res (x : COMPOUND4res) := (COMPOUND4res_status x, (COMPOUND4res_tag x, COMPOUND4res_resarray x)).
Definition make_COMPOUND4res (t : (Z * ((ptr * Z) * (Z * list nfs_resop4)))) : COMPOUND4res := mkCOMPOUND4res t.1 t.2.1
  t.2.2.
#[global] Instance COMPOUND4res_iso : Iso fields_COMPOUND4res make_COMPOUND4res. Proof. iso. Qed.
Definition zdr_COMPOUND4res (fuel : nat) : proc COMPOUND4res := zdr_via fields_COMPOUND4res make_COMPOUND4res
  (zdr_nfsstat4 >>> zdr_utf8str_cs >>> (zdr_array zero_nfs_resop4 160 (zdr_nfs_resop4 fuel))).
#[global] Instance COMPOUND4res_codec fuel : Codec (zdr_COMPOUND4res fuel). Proof. codec zdr_COMPOUND4res. Defined.
#[global] Instance COMPOUND4res_blank fuel : Blank (zdr_COMPOUND4res fuel) zero_COMPOUND4res. Proof. blank
  zdr_COMPOUND4res. Qed.

Record CB_GETATTR4args := mkCB_GETATTR4args {
  CB_GETATTR4args_fh : ptr * Z; CB_GETATTR4args_attr_request : Z * list Z
}.
Definition zero_CB_GETATTR4args : CB_GETATTR4args := mkCB_GETATTR4args (NULL, 0) (0, []).
Definition fields_CB_GETATTR4args (x : CB_GETATTR4args) := (CB_GETATTR4args_fh x, CB_GETATTR4args_attr_request x).
Definition make_CB_GETATTR4args (t : ((ptr * Z) * (Z * list Z))) : CB_GETATTR4args := mkCB_GETATTR4args t.1 t.2.
#[global] Instance CB_GETATTR4args_iso : Iso fields_CB_GETATTR4args make_CB_GETATTR4args. Proof. iso. Qed.
Definition zdr_CB_GETATTR4args : proc CB_GETATTR4args := zdr_via fields_CB_GETATTR4args make_CB_GETATTR4args (zdr_nfs_fh4
  >>> zdr_bitmap4).
#[global] Instance CB_GETATTR4args_codec : Codec zdr_CB_GETATTR4args. Proof. codec zdr_CB_GETATTR4args. Defined.
#[global] Instance CB_GETATTR4args_blank : Blank zdr_CB_GETATTR4args zero_CB_GETATTR4args. Proof. blank
  zdr_CB_GETATTR4args. Qed.

Record CB_GETATTR4resok := mkCB_GETATTR4resok {
  CB_GETATTR4resok_obj_attributes : fattr4
}.
Definition zero_CB_GETATTR4resok : CB_GETATTR4resok := mkCB_GETATTR4resok zero_fattr4.
Definition fields_CB_GETATTR4resok (x : CB_GETATTR4resok) := CB_GETATTR4resok_obj_attributes x.
Definition make_CB_GETATTR4resok (t : fattr4) : CB_GETATTR4resok := mkCB_GETATTR4resok t.
#[global] Instance CB_GETATTR4resok_iso : Iso fields_CB_GETATTR4resok make_CB_GETATTR4resok. Proof. iso. Qed.
Definition zdr_CB_GETATTR4resok : proc CB_GETATTR4resok := zdr_via fields_CB_GETATTR4resok make_CB_GETATTR4resok
  (zdr_fattr4).
#[global] Instance CB_GETATTR4resok_codec : Codec zdr_CB_GETATTR4resok. Proof. codec zdr_CB_GETATTR4resok. Defined.
#[global] Instance CB_GETATTR4resok_blank : Blank zdr_CB_GETATTR4resok zero_CB_GETATTR4resok. Proof. blank
  zdr_CB_GETATTR4resok. Qed.

Inductive CB_GETATTR4res_union := CB_GETATTR4res_cleared | CB_GETATTR4res_resok4 (x : CB_GETATTR4resok).
Record CB_GETATTR4res := mkCB_GETATTR4res { CB_GETATTR4res_status : Z; CB_GETATTR4res_u : CB_GETATTR4res_union }.
Definition zero_CB_GETATTR4res : CB_GETATTR4res := mkCB_GETATTR4res 0 CB_GETATTR4res_cleared.
Definition fields_CB_GETATTR4res (x : CB_GETATTR4res) := (CB_GETATTR4res_status x, CB_GETATTR4res_u x).
Definition make_CB_GETATTR4res (t : (Z * CB_GETATTR4res_union)) : CB_GETATTR4res := mkCB_GETATTR4res t.1 t.2.
#[global] Instance CB_GETATTR4res_iso : Iso fields_CB_GETATTR4res make_CB_GETATTR4res. Proof. iso. Qed.
Definition as_CB_GETATTR4res_resok4 (u : CB_GETATTR4res_union) : CB_GETATTR4resok := match u with CB_GETATTR4res_resok4 x
  => x | _ => zero_CB_GETATTR4resok end.
#[global] Instance CB_GETATTR4res_resok4_member : Variant as_CB_GETATTR4res_resok4 CB_GETATTR4res_resok4. Proof. done. Qed.
Definition case_CB_GETATTR4res (d : Z) : proc CB_GETATTR4res_union :=
  if (d =? NFS4_OK) then zdr_member as_CB_GETATTR4res_resok4 CB_GETATTR4res_resok4 zdr_CB_GETATTR4resok
  else zdr_void.
#[global] Instance case_CB_GETATTR4res_codec d : Codec (case_CB_GETATTR4res d). Proof. codec case_CB_GETATTR4res. Defined.
#[global] Instance case_CB_GETATTR4res_blank d : Blank (case_CB_GETATTR4res d) CB_GETATTR4res_cleared. Proof. blank
  case_CB_GETATTR4res. Qed.
Definition zdr_CB_GETATTR4res : proc CB_GETATTR4res := zdr_via fields_CB_GETATTR4res make_CB_GETATTR4res (zdr_dseq
  zdr_nfsstat4 (case_CB_GETATTR4res)).
#[global] Instance CB_GETATTR4res_codec : Codec zdr_CB_GETATTR4res. Proof. codec zdr_CB_GETATTR4res. Defined.
#[global] Instance CB_GETATTR4res_blank : Blank zdr_CB_GETATTR4res zero_CB_GETATTR4res. Proof. blank zdr_CB_GETATTR4res. Qed.

Record CB_RECALL4args := mkCB_RECALL4args {
  CB_RECALL4args_stateid : stateid4; CB_RECALL4args_truncate : Z; CB_RECALL4args_fh : ptr * Z
}.
Definition zero_CB_RECALL4args : CB_RECALL4args := mkCB_RECALL4args zero_stateid4 0 (NULL, 0).
Definition fields_CB_RECALL4args (x : CB_RECALL4args) := (CB_RECALL4args_stateid x, (CB_RECALL4args_truncate x,
  CB_RECALL4args_fh x)).
Definition make_CB_RECALL4args (t : (stateid4 * (Z * (ptr * Z)))) : CB_RECALL4args := mkCB_RECALL4args t.1 t.2.1 t.2.2.
#[global] Instance CB_RECALL4args_iso : Iso fields_CB_RECALL4args make_CB_RECALL4args. Proof. iso. Qed.
Definition zdr_CB_RECALL4args : proc CB_RECALL4args := zdr_via fields_CB_RECALL4args make_CB_RECALL4args (zdr_stateid4 >>>
  zdr_bool >>> zdr_nfs_fh4).
#[global] Instance CB_RECALL4args_codec : Codec zdr_CB_RECALL4args. Proof. codec zdr_CB_RECALL4args. Defined.
#[global] Instance CB_RECALL4args_blank : Blank zdr_CB_RECALL4args zero_CB_RECALL4args. Proof. blank zdr_CB_RECALL4args. Qed.

Record CB_RECALL4res := mkCB_RECALL4res {
  CB_RECALL4res_status : Z
}.
Definition zero_CB_RECALL4res : CB_RECALL4res := mkCB_RECALL4res 0.
Definition fields_CB_RECALL4res (x : CB_RECALL4res) := CB_RECALL4res_status x.
Definition make_CB_RECALL4res (t : Z) : CB_RECALL4res := mkCB_RECALL4res t.
#[global] Instance CB_RECALL4res_iso : Iso fields_CB_RECALL4res make_CB_RECALL4res. Proof. iso. Qed.
Definition zdr_CB_RECALL4res : proc CB_RECALL4res := zdr_via fields_CB_RECALL4res make_CB_RECALL4res (zdr_nfsstat4).
#[global] Instance CB_RECALL4res_codec : Codec zdr_CB_RECALL4res. Proof. codec zdr_CB_RECALL4res. Defined.
#[global] Instance CB_RECALL4res_blank : Blank zdr_CB_RECALL4res zero_CB_RECALL4res. Proof. blank zdr_CB_RECALL4res. Qed.
#[global] Instance CB_RECALL4res_safe : Safe zdr_CB_RECALL4res. Proof. safe zdr_CB_RECALL4res. Qed.

Record CB_ILLEGAL4res := mkCB_ILLEGAL4res {
  CB_ILLEGAL4res_status : Z
}.
Definition zero_CB_ILLEGAL4res : CB_ILLEGAL4res := mkCB_ILLEGAL4res 0.
Definition fields_CB_ILLEGAL4res (x : CB_ILLEGAL4res) := CB_ILLEGAL4res_status x.
Definition make_CB_ILLEGAL4res (t : Z) : CB_ILLEGAL4res := mkCB_ILLEGAL4res t.
#[global] Instance CB_ILLEGAL4res_iso : Iso fields_CB_ILLEGAL4res make_CB_ILLEGAL4res. Proof. iso. Qed.
Definition zdr_CB_ILLEGAL4res : proc CB_ILLEGAL4res := zdr_via fields_CB_ILLEGAL4res make_CB_ILLEGAL4res (zdr_nfsstat4).
#[global] Instance CB_ILLEGAL4res_codec : Codec zdr_CB_ILLEGAL4res. Proof. codec zdr_CB_ILLEGAL4res. Defined.
#[global] Instance CB_ILLEGAL4res_blank : Blank zdr_CB_ILLEGAL4res zero_CB_ILLEGAL4res. Proof. blank zdr_CB_ILLEGAL4res. Qed.
#[global] Instance CB_ILLEGAL4res_safe : Safe zdr_CB_ILLEGAL4res. Proof. safe zdr_CB_ILLEGAL4res. Qed.

Definition zdr_nfs_cb_opnum4 : proc Z := zdr_enum.
Inductive nfs_cb_argop4_union := nfs_cb_argop4_cleared | nfs_cb_argop4_opcbgetattr (x : CB_GETATTR4args) |
  nfs_cb_argop4_opcbrecall (x : CB_RECALL4args).
Record nfs_cb_argop4 := mknfs_cb_argop4 { nfs_cb_argop4_argop : Z; nfs_cb_argop4_u : nfs_cb_argop4_union }.
Definition zero_nfs_cb_argop4 : nfs_cb_argop4 := mknfs_cb_argop4 0 nfs_cb_argop4_cleared.
Definition fields_nfs_cb_argop4 (x : nfs_cb_argop4) := (nfs_cb_argop4_argop x, nfs_cb_argop4_u x).
Definition make_nfs_cb_argop4 (t : (Z * nfs_cb_argop4_union)) : nfs_cb_argop4 := mknfs_cb_argop4 t.1 t.2.
#[global] Instance nfs_cb_argop4_iso : Iso fields_nfs_cb_argop4 make_nfs_cb_argop4. Proof. iso. Qed.
Definition as_nfs_cb_argop4_opcbgetattr (u : nfs_cb_argop4_union) : CB_GETATTR4args := match u with
  nfs_cb_argop4_opcbgetattr x => x | _ => zero_CB_GETATTR4args end.
#[global] Instance nfs_cb_argop4_opcbgetattr_member : Variant as_nfs_cb_argop4_opcbgetattr nfs_cb_argop4_opcbgetattr.
  Proof. done. Qed.
Definition as_nfs_cb_argop4_opcbrecall (u : nfs_cb_argop4_union) : CB_RECALL4args := match u with nfs_cb_argop4_opcbrecall
  x => x | _ => zero_CB_RECALL4args end.
#[global] Instance nfs_cb_argop4_opcbrecall_member : Variant as_nfs_cb_argop4_opcbrecall nfs_cb_argop4_opcbrecall. Proof.
  done. Qed.
Definition case_nfs_cb_argop4 (d : Z) : proc nfs_cb_argop4_union :=
  if (d =? OP_CB_GETATTR) then zdr_member as_nfs_cb_argop4_opcbgetattr nfs_cb_argop4_opcbgetattr zdr_CB_GETATTR4args
  else if (d =? OP_CB_RECALL) then zdr_member as_nfs_cb_argop4_opcbrecall nfs_cb_argop4_opcbrecall zdr_CB_RECALL4args
  else if (d =? OP_CB_ILLEGAL) then zdr_void
  else zdr_fail.
#[global] Instance case_nfs_cb_argop4_codec d : Codec (case_nfs_cb_argop4 d). Proof. codec case_nfs_cb_argop4. Defined.
#[global] Instance case_nfs_cb_argop4_blank d : Blank (case_nfs_cb_argop4 d) nfs_cb_argop4_cleared. Proof. blank
  case_nfs_cb_argop4. Qed.
Definition zdr_nfs_cb_argop4 : proc nfs_cb_argop4 := zdr_via fields_nfs_cb_argop4 make_nfs_cb_argop4 (zdr_dseq zdr_u_int
  (case_nfs_cb_argop4)).
#[global] Instance nfs_cb_argop4_codec : Codec zdr_nfs_cb_argop4. Proof. codec zdr_nfs_cb_argop4. Defined.
#[global] Instance nfs_cb_argop4_blank : Blank zdr_nfs_cb_argop4 zero_nfs_cb_argop4. Proof. blank zdr_nfs_cb_argop4. Qed.

Inductive nfs_cb_resop4_union := nfs_cb_resop4_cleared | nfs_cb_resop4_opcbgetattr (x : CB_GETATTR4res) |
  nfs_cb_resop4_opcbrecall (x : CB_RECALL4res) | nfs_cb_resop4_opcbillegal (x : CB_ILLEGAL4res).
Record nfs_cb_resop4 := mknfs_cb_resop4 { nfs_cb_resop4_resop : Z; nfs_cb_resop4_u : nfs_cb_resop4_union }.
Definition zero_nfs_cb_resop4 : nfs_cb_resop4 := mknfs_cb_resop4 0 nfs_cb_resop4_cleared.
Definition fields_nfs_cb_resop4 (x : nfs_cb_resop4) := (nfs_cb_resop4_resop x, nfs_cb_resop4_u x).
Definition make_nfs_cb_resop4 (t : (Z * nfs_cb_resop4_union)) : nfs_cb_resop4 := mknfs_cb_resop4 t.1 t.2.
#[global] Instance nfs_cb_resop4_iso : Iso fields_nfs_cb_resop4 make_nfs_cb_resop4. Proof. iso. Qed.
Definition as_nfs_cb_resop4_opcbgetattr (u : nfs_cb_resop4_union) : CB_GETATTR4res := match u with
  nfs_cb_resop4_opcbgetattr x => x | _ => zero_CB_GETATTR4res end.
#[global] Instance nfs_cb_resop4_opcbgetattr_member : Variant as_nfs_cb_resop4_opcbgetattr nfs_cb_resop4_opcbgetattr.
  Proof. done. Qed.
Definition as_nfs_cb_resop4_opcbrecall (u : nfs_cb_resop4_union) : CB_RECALL4res := match u with nfs_cb_resop4_opcbrecall
  x => x | _ => zero_CB_RECALL4res end.
#[global] Instance nfs_cb_resop4_opcbrecall_member : Variant as_nfs_cb_resop4_opcbrecall nfs_cb_resop4_opcbrecall. Proof.
  done. Qed.
Definition as_nfs_cb_resop4_opcbillegal (u : nfs_cb_resop4_union) : CB_ILLEGAL4res := match u with
  nfs_cb_resop4_opcbillegal x => x | _ => zero_CB_ILLEGAL4res end.
#[global] Instance nfs_cb_resop4_opcbillegal_member : Variant as_nfs_cb_resop4_opcbillegal nfs_cb_resop4_opcbillegal.
  Proof. done. Qed.
Definition case_nfs_cb_resop4 (d : Z) : proc nfs_cb_resop4_union :=
  if (d =? OP_CB_GETATTR) then zdr_member as_nfs_cb_resop4_opcbgetattr nfs_cb_resop4_opcbgetattr zdr_CB_GETATTR4res
  else if (d =? OP_CB_RECALL) then zdr_member as_nfs_cb_resop4_opcbrecall nfs_cb_resop4_opcbrecall zdr_CB_RECALL4res
  else if (d =? OP_CB_ILLEGAL) then zdr_member as_nfs_cb_resop4_opcbillegal nfs_cb_resop4_opcbillegal zdr_CB_ILLEGAL4res
  else zdr_fail.
#[global] Instance case_nfs_cb_resop4_codec d : Codec (case_nfs_cb_resop4 d). Proof. codec case_nfs_cb_resop4. Defined.
#[global] Instance case_nfs_cb_resop4_blank d : Blank (case_nfs_cb_resop4 d) nfs_cb_resop4_cleared. Proof. blank
  case_nfs_cb_resop4. Qed.
Definition zdr_nfs_cb_resop4 : proc nfs_cb_resop4 := zdr_via fields_nfs_cb_resop4 make_nfs_cb_resop4 (zdr_dseq zdr_u_int
  (case_nfs_cb_resop4)).
#[global] Instance nfs_cb_resop4_codec : Codec zdr_nfs_cb_resop4. Proof. codec zdr_nfs_cb_resop4. Defined.
#[global] Instance nfs_cb_resop4_blank : Blank zdr_nfs_cb_resop4 zero_nfs_cb_resop4. Proof. blank zdr_nfs_cb_resop4. Qed.

Record CB_COMPOUND4args := mkCB_COMPOUND4args {
    CB_COMPOUND4args_tag : ptr * Z; CB_COMPOUND4args_minorversion : Z; CB_COMPOUND4args_callback_ident : Z;
    CB_COMPOUND4args_argarray : Z * list nfs_cb_argop4
}.
Definition zero_CB_COMPOUND4args : CB_COMPOUND4args := mkCB_COMPOUND4args (NULL, 0) 0 0 (0, []).
Definition fields_CB_COMPOUND4args (x : CB_COMPOUND4args) := (CB_COMPOUND4args_tag x, (CB_COMPOUND4args_minorversion x,
  (CB_COMPOUND4args_callback_ident x, CB_COMPOUND4args_argarray x))).
Definition make_CB_COMPOUND4args (t : ((ptr * Z) * (Z * (Z * (Z * list nfs_cb_argop4))))) : CB_COMPOUND4args :=
  mkCB_COMPOUND4args t.1 t.2.1 t.2.2.1 t.2.2.2.
#[global] Instance CB_COMPOUND4args_iso : Iso fields_CB_COMPOUND4args make_CB_COMPOUND4args. Proof. iso. Qed.
Definition zdr_CB_COMPOUND4args : proc CB_COMPOUND4args := zdr_via fields_CB_COMPOUND4args make_CB_COMPOUND4args
  (zdr_utf8str_cs >>> zdr_u_int >>> zdr_u_int >>> (zdr_array zero_nfs_cb_argop4 48 zdr_nfs_cb_argop4)).
#[global] Instance CB_COMPOUND4args_codec : Codec zdr_CB_COMPOUND4args. Proof. codec zdr_CB_COMPOUND4args. Defined.
#[global] Instance CB_COMPOUND4args_blank : Blank zdr_CB_COMPOUND4args zero_CB_COMPOUND4args. Proof. blank
  zdr_CB_COMPOUND4args. Qed.

Record CB_COMPOUND4res := mkCB_COMPOUND4res {
  CB_COMPOUND4res_status : Z; CB_COMPOUND4res_tag : ptr * Z; CB_COMPOUND4res_resarray : Z * list nfs_cb_resop4
}.
Definition zero_CB_COMPOUND4res : CB_COMPOUND4res := mkCB_COMPOUND4res 0 (NULL, 0) (0, []).
Definition fields_CB_COMPOUND4res (x : CB_COMPOUND4res) := (CB_COMPOUND4res_status x, (CB_COMPOUND4res_tag x,
  CB_COMPOUND4res_resarray x)).
Definition make_CB_COMPOUND4res (t : (Z * ((ptr * Z) * (Z * list nfs_cb_resop4)))) : CB_COMPOUND4res := mkCB_COMPOUND4res
  t.1 t.2.1 t.2.2.
#[global] Instance CB_COMPOUND4res_iso : Iso fields_CB_COMPOUND4res make_CB_COMPOUND4res. Proof. iso. Qed.
Definition zdr_CB_COMPOUND4res : proc CB_COMPOUND4res := zdr_via fields_CB_COMPOUND4res make_CB_COMPOUND4res (zdr_nfsstat4
  >>> zdr_utf8str_cs >>> (zdr_array zero_nfs_cb_resop4 48 zdr_nfs_cb_resop4)).
#[global] Instance CB_COMPOUND4res_codec : Codec zdr_CB_COMPOUND4res. Proof. codec zdr_CB_COMPOUND4res. Defined.
#[global] Instance CB_COMPOUND4res_blank : Blank zdr_CB_COMPOUND4res zero_CB_COMPOUND4res. Proof. blank
  zdr_CB_COMPOUND4res. Qed.

Definition zdr_rpc_gss_proc_t : proc Z := zdr_enum.
Record rpc_gss_cred_vers_1_t := mkrpc_gss_cred_vers_1_t {
    rpc_gss_cred_vers_1_t_gss_proc : Z; rpc_gss_cred_vers_1_t_seq_num : Z; rpc_gss_cred_vers_1_t_service : Z;
    rpc_gss_cred_vers_1_t_handle : ptr * Z
}.
Definition zero_rpc_gss_cred_vers_1_t : rpc_gss_cred_vers_1_t := mkrpc_gss_cred_vers_1_t 0 0 0 (NULL, 0).
Definition fields_rpc_gss_cred_vers_1_t (x : rpc_gss_cred_vers_1_t) := (rpc_gss_cred_vers_1_t_gss_proc x,
  (rpc_gss_cred_vers_1_t_seq_num x, (rpc_gss_cred_vers_1_t_service x, rpc_gss_cred_vers_1_t_handle x))).
Definition make_rpc_gss_cred_vers_1_t (t : (Z * (Z * (Z * (ptr * Z))))) : rpc_gss_cred_vers_1_t := mkrpc_gss_cred_vers_1_t
  t.1 t.2.1 t.2.2.1 t.2.2.2.
#[global] Instance rpc_gss_cred_vers_1_t_iso : Iso fields_rpc_gss_cred_vers_1_t make_rpc_gss_cred_vers_1_t. Proof. iso. Qed.
Definition zdr_rpc_gss_cred_vers_1_t : proc rpc_gss_cred_vers_1_t := zdr_via fields_rpc_gss_cred_vers_1_t
  make_rpc_gss_cred_vers_1_t (zdr_rpc_gss_proc_t >>> zdr_u_int >>> zdr_rpc_gss_svc_t >>> zdr_bytes).
#[global] Instance rpc_gss_cred_vers_1_t_codec : Codec zdr_rpc_gss_cred_vers_1_t. Proof. codec zdr_rpc_gss_cred_vers_1_t.
  Defined.
#[global] Instance rpc_gss_cred_vers_1_t_blank : Blank zdr_rpc_gss_cred_vers_1_t zero_rpc_gss_cred_vers_1_t. Proof. blank
  zdr_rpc_gss_cred_vers_1_t. Qed.

Inductive rpc_gss_cred_t_union := rpc_gss_cred_t_cleared | rpc_gss_cred_t_rpc_gss_cred_vers_1_t (x : rpc_gss_cred_vers_1_t).
Record rpc_gss_cred_t := mkrpc_gss_cred_t { rpc_gss_cred_t_vers : Z; rpc_gss_cred_t_u : rpc_gss_cred_t_union }.
Definition zero_rpc_gss_cred_t : rpc_gss_cred_t := mkrpc_gss_cred_t 0 rpc_gss_cred_t_cleared.
Definition fields_rpc_gss_cred_t (x : rpc_gss_cred_t) := (rpc_gss_cred_t_vers x, rpc_gss_cred_t_u x).
Definition make_rpc_gss_cred_t (t : (Z * rpc_gss_cred_t_union)) : rpc_gss_cred_t := mkrpc_gss_cred_t t.1 t.2.
#[global] Instance rpc_gss_cred_t_iso : Iso fields_rpc_gss_cred_t make_rpc_gss_cred_t. Proof. iso. Qed.
Definition as_rpc_gss_cred_t_rpc_gss_cred_vers_1_t (u : rpc_gss_cred_t_union) : rpc_gss_cred_vers_1_t := match u with
  rpc_gss_cred_t_rpc_gss_cred_vers_1_t x => x | _ => zero_rpc_gss_cred_vers_1_t end.
#[global] Instance rpc_gss_cred_t_rpc_gss_cred_vers_1_t_member : Variant as_rpc_gss_cred_t_rpc_gss_cred_vers_1_t
  rpc_gss_cred_t_rpc_gss_cred_vers_1_t. Proof. done. Qed.
Definition case_rpc_gss_cred_t (d : Z) : proc rpc_gss_cred_t_union :=
    if (d =? RPCSEC_GSS_VERS_1) then zdr_member as_rpc_gss_cred_t_rpc_gss_cred_vers_1_t
    rpc_gss_cred_t_rpc_gss_cred_vers_1_t zdr_rpc_gss_cred_vers_1_t
  else zdr_fail.
#[global] Instance case_rpc_gss_cred_t_codec d : Codec (case_rpc_gss_cred_t d). Proof. codec case_rpc_gss_cred_t. Defined.
#[global] Instance case_rpc_gss_cred_t_blank d : Blank (case_rpc_gss_cred_t d) rpc_gss_cred_t_cleared. Proof. blank
  case_rpc_gss_cred_t. Qed.
Definition zdr_rpc_gss_cred_t : proc rpc_gss_cred_t := zdr_via fields_rpc_gss_cred_t make_rpc_gss_cred_t (zdr_dseq
  zdr_u_int (case_rpc_gss_cred_t)).
#[global] Instance rpc_gss_cred_t_codec : Codec zdr_rpc_gss_cred_t. Proof. codec zdr_rpc_gss_cred_t. Defined.
#[global] Instance rpc_gss_cred_t_blank : Blank zdr_rpc_gss_cred_t zero_rpc_gss_cred_t. Proof. blank zdr_rpc_gss_cred_t. Qed.

Record rpc_gss_init_arg := mkrpc_gss_init_arg {
  rpc_gss_init_arg_gss_token : ptr * Z
}.
Definition zero_rpc_gss_init_arg : rpc_gss_init_arg := mkrpc_gss_init_arg (NULL, 0).
Definition fields_rpc_gss_init_arg (x : rpc_gss_init_arg) := rpc_gss_init_arg_gss_token x.
Definition make_rpc_gss_init_arg (t : (ptr * Z)) : rpc_gss_init_arg := mkrpc_gss_init_arg t.
#[global] Instance rpc_gss_init_arg_iso : Iso fields_rpc_gss_init_arg make_rpc_gss_init_arg. Proof. iso. Qed.
Definition zdr_rpc_gss_init_arg : proc rpc_gss_init_arg := zdr_via fields_rpc_gss_init_arg make_rpc_gss_init_arg (zdr_bytes).
#[global] Instance rpc_gss_init_arg_codec : Codec zdr_rpc_gss_init_arg. Proof. codec zdr_rpc_gss_init_arg. Defined.
#[global] Instance rpc_gss_init_arg_blank : Blank zdr_rpc_gss_init_arg zero_rpc_gss_init_arg. Proof. blank
  zdr_rpc_gss_init_arg. Qed.

Record rpc_gss_init_res := mkrpc_gss_init_res {
    rpc_gss_init_res_handle : ptr * Z; rpc_gss_init_res_gss_major : Z; rpc_gss_init_res_gss_minor : Z;
    rpc_gss_init_res_seq_window : Z; rpc_gss_init_res_gss_token : ptr * Z
}.
Definition zero_rpc_gss_init_res : rpc_gss_init_res := mkrpc_gss_init_res (NULL, 0) 0 0 0 (NULL, 0).
Definition fields_rpc_gss_init_res (x : rpc_gss_init_res) := (rpc_gss_init_res_handle x, (rpc_gss_init_res_gss_major x,
  (rpc_gss_init_res_gss_minor x, (rpc_gss_init_res_seq_window x, rpc_gss_init_res_gss_token x)))).
Definition make_rpc_gss_init_res (t : ((ptr * Z) * (Z * (Z * (Z * (ptr * Z)))))) : rpc_gss_init_res := mkrpc_gss_init_res
  t.1 t.2.1 t.2.2.1 t.2.2.2.1 t.2.2.2.2.
#[global] Instance rpc_gss_init_res_iso : Iso fields_rpc_gss_init_res make_rpc_gss_init_res. Proof. iso. Qed.
Definition zdr_rpc_gss_init_res : proc rpc_gss_init_res := zdr_via fields_rpc_gss_init_res make_rpc_gss_init_res
  (zdr_bytes >>> zdr_u_int >>> zdr_u_int >>> zdr_u_int >>> zdr_bytes).
#[global] Instance rpc_gss_init_res_codec : Codec zdr_rpc_gss_init_res. Proof. codec zdr_rpc_gss_init_res. Defined.
#[global] Instance rpc_gss_init_res_blank : Blank zdr_rpc_gss_init_res zero_rpc_gss_init_res. Proof. blank
  zdr_rpc_gss_init_res. Qed.

Record rpc_gss_integ_data := mkrpc_gss_integ_data {
  rpc_gss_integ_data_databody_integ : ptr * Z; rpc_gss_integ_data_checksum : ptr * Z
}.
Definition zero_rpc_gss_integ_data : rpc_gss_integ_data := mkrpc_gss_integ_data (NULL, 0) (NULL, 0).
Definition fields_rpc_gss_integ_data (x : rpc_gss_integ_data) := (rpc_gss_integ_data_databody_integ x,
  rpc_gss_integ_data_checksum x).
Definition make_rpc_gss_integ_data (t : ((ptr * Z) * (ptr * Z))) : rpc_gss_integ_data := mkrpc_gss_integ_data t.1 t.2.
#[global] Instance rpc_gss_integ_data_iso : Iso fields_rpc_gss_integ_data make_rpc_gss_integ_data. Proof. iso. Qed.
Definition zdr_rpc_gss_integ_data : proc rpc_gss_integ_data := zdr_via fields_rpc_gss_integ_data make_rpc_gss_integ_data
  (zdr_bytes >>> zdr_bytes).
#[global] Instance rpc_gss_integ_data_codec : Codec zdr_rpc_gss_integ_data. Proof. codec zdr_rpc_gss_integ_data. Defined.
#[global] Instance rpc_gss_integ_data_blank : Blank zdr_rpc_gss_integ_data zero_rpc_gss_integ_data. Proof. blank
  zdr_rpc_gss_integ_data. Qed.
End X4.
