(* ===== verification/MountXdr.v ===== *)
(** * MountXdr: the data of the MOUNT protocol (mount/libnfs-raw-mount.c and .h)  *)

From S2P Require Import Prelude Zdr Xdr.

#[local] Open Scope zdr_scope.
#[local] Set Warnings "-register-all".

Module XM.
Definition MNT3_OK : Z := 0.
Definition MNT1_OK : Z := 0.

Definition zdr_fhandle3 : proc (ptr * Z) := zdr_bytes.
Definition zdr_dirpath : proc ptr := zdr_string.
Definition zdr_name : proc ptr := zdr_string.
Definition zdr_mountstat3 : proc Z := zdr_enum.
Inductive mountbody := mkmountbody {
  mountbody_ml_hostname : ptr; mountbody_ml_directory : ptr; mountbody_ml_next : option mountbody
}.
Definition zero_mountbody : mountbody := mkmountbody NULL NULL None.
Definition fields_mountbody (x : mountbody) := (mountbody_ml_hostname x, (mountbody_ml_directory x, mountbody_ml_next x)).
Definition make_mountbody (t : (ptr * (ptr * (option mountbody)))) : mountbody := mkmountbody t.1 t.2.1 t.2.2.
#[global] Instance mountbody_iso : Iso fields_mountbody make_mountbody. Proof. iso. Qed.
Fixpoint zdr_mountbody (fuel : nat) : proc mountbody :=
  match fuel with
  | O => zdr_out_of_fuel
    | S fuel => zdr_via fields_mountbody make_mountbody (zdr_name >>> zdr_dirpath >>> (zdr_pointer zero_mountbody 24
    (zdr_mountbody fuel)))
  end.
#[global] Instance mountbody_codec fuel : Codec (zdr_mountbody fuel). Proof. induction fuel; cbn [zdr_mountbody]; exact _.
  Defined.
#[global] Instance mountbody_blank fuel : Blank (zdr_mountbody fuel) zero_mountbody. Proof. induction fuel; cbn
  [zdr_mountbody]; exact _. Qed.
Definition zdr_mountlist (fuel : nat) : proc (option mountbody) := zdr_pointer zero_mountbody 24 (zdr_mountbody fuel).
#[global] Instance mountlist_codec fuel : Codec (zdr_mountlist fuel). Proof. codec zdr_mountlist. Defined.
#[global] Instance mountlist_blank fuel : Blank (zdr_mountlist fuel) None. Proof. blank zdr_mountlist. Qed.


Inductive groupnode := mkgroupnode {
  groupnode_gr_name : ptr; groupnode_gr_next : option groupnode
}.
Definition zero_groupnode : groupnode := mkgroupnode NULL None.
Definition fields_groupnode (x : groupnode) := (groupnode_gr_name x, groupnode_gr_next x).
Definition make_groupnode (t : (ptr * (option groupnode))) : groupnode := mkgroupnode t.1 t.2.
#[global] Instance groupnode_iso : Iso fields_groupnode make_groupnode. Proof. iso. Qed.
Fixpoint zdr_groupnode (fuel : nat) : proc groupnode :=
  match fuel with
  | O => zdr_out_of_fuel
  | S fuel => zdr_via fields_groupnode make_groupnode (zdr_name >>> (zdr_pointer zero_groupnode 16 (zdr_groupnode fuel)))
  end.
#[global] Instance groupnode_codec fuel : Codec (zdr_groupnode fuel). Proof. induction fuel; cbn [zdr_groupnode]; exact _.
  Defined.
#[global] Instance groupnode_blank fuel : Blank (zdr_groupnode fuel) zero_groupnode. Proof. induction fuel; cbn
  [zdr_groupnode]; exact _. Qed.
Definition zdr_groups (fuel : nat) : proc (option groupnode) := zdr_pointer zero_groupnode 16 (zdr_groupnode fuel).
#[global] Instance groups_codec fuel : Codec (zdr_groups fuel). Proof. codec zdr_groups. Defined.
#[global] Instance groups_blank fuel : Blank (zdr_groups fuel) None. Proof. blank zdr_groups. Qed.


Inductive exportnode := mkexportnode {
  exportnode_ex_dir : ptr; exportnode_ex_groups : option groupnode; exportnode_ex_next : option exportnode
}.
Definition zero_exportnode : exportnode := mkexportnode NULL None None.
Definition fields_exportnode (x : exportnode) := (exportnode_ex_dir x, (exportnode_ex_groups x, exportnode_ex_next x)).
Definition make_exportnode (t : (ptr * ((option groupnode) * (option exportnode)))) : exportnode := mkexportnode t.1 t.2.1
  t.2.2.
#[global] Instance exportnode_iso : Iso fields_exportnode make_exportnode. Proof. iso. Qed.
Fixpoint zdr_exportnode (fuel : nat) : proc exportnode :=
  match fuel with
  | O => zdr_out_of_fuel
    | S fuel => zdr_via fields_exportnode make_exportnode (zdr_dirpath >>> (zdr_groups fuel) >>> (zdr_pointer
    zero_exportnode 24 (zdr_exportnode fuel)))
  end.
#[global] Instance exportnode_codec fuel : Codec (zdr_exportnode fuel). Proof. induction fuel; cbn [zdr_exportnode]; exact
  _. Defined.
#[global] Instance exportnode_blank fuel : Blank (zdr_exportnode fuel) zero_exportnode. Proof. induction fuel; cbn
  [zdr_exportnode]; exact _. Qed.
Definition zdr_exports (fuel : nat) : proc (option exportnode) := zdr_pointer zero_exportnode 24 (zdr_exportnode fuel).
#[global] Instance exports_codec fuel : Codec (zdr_exports fuel). Proof. codec zdr_exports. Defined.
#[global] Instance exports_blank fuel : Blank (zdr_exports fuel) None. Proof. blank zdr_exports. Qed.


Record mountres3_ok := mkmountres3_ok {
  mountres3_ok_fhandle : ptr * Z; mountres3_ok_auth_flavors : Z * list Z
}.
Definition zero_mountres3_ok : mountres3_ok := mkmountres3_ok (NULL, 0) (0, []).
Definition fields_mountres3_ok (x : mountres3_ok) := (mountres3_ok_fhandle x, mountres3_ok_auth_flavors x).
Definition make_mountres3_ok (t : ((ptr * Z) * (Z * list Z))) : mountres3_ok := mkmountres3_ok t.1 t.2.
#[global] Instance mountres3_ok_iso : Iso fields_mountres3_ok make_mountres3_ok. Proof. iso. Qed.
Definition zdr_mountres3_ok : proc mountres3_ok := zdr_via fields_mountres3_ok make_mountres3_ok (zdr_fhandle3 >>>
  (zdr_array 0 4 zdr_int)).
#[global] Instance mountres3_ok_codec : Codec zdr_mountres3_ok. Proof. codec zdr_mountres3_ok. Defined.
#[global] Instance mountres3_ok_blank : Blank zdr_mountres3_ok zero_mountres3_ok. Proof. blank zdr_mountres3_ok. Qed.

Inductive mountres3_union := mountres3_cleared | mountres3_mountinfo (x : mountres3_ok).
Record mountres3 := mkmountres3 { mountres3_fhs_status : Z; mountres3_u : mountres3_union }.
Definition zero_mountres3 : mountres3 := mkmountres3 0 mountres3_cleared.
Definition fields_mountres3 (x : mountres3) := (mountres3_fhs_status x, mountres3_u x).
Definition make_mountres3 (t : (Z * mountres3_union)) : mountres3 := mkmountres3 t.1 t.2.
#[global] Instance mountres3_iso : Iso fields_mountres3 make_mountres3. Proof. iso. Qed.
Definition as_mountres3_mountinfo (u : mountres3_union) : mountres3_ok := match u with mountres3_mountinfo x => x | _ =>
  zero_mountres3_ok end.
#[global] Instance mountres3_mountinfo_member : Variant as_mountres3_mountinfo mountres3_mountinfo. Proof. done. Qed.
Definition case_mountres3 (d : Z) : proc mountres3_union :=
  if (d =? MNT3_OK) then zdr_member as_mountres3_mountinfo mountres3_mountinfo zdr_mountres3_ok
  else zdr_void.
#[global] Instance case_mountres3_codec d : Codec (case_mountres3 d). Proof. codec case_mountres3. Defined.
#[global] Instance case_mountres3_blank d : Blank (case_mountres3 d) mountres3_cleared. Proof. blank case_mountres3. Qed.
Definition zdr_mountres3 : proc mountres3 := zdr_via fields_mountres3 make_mountres3 (zdr_dseq zdr_mountstat3
  (case_mountres3)).
#[global] Instance mountres3_codec : Codec zdr_mountres3. Proof. codec zdr_mountres3. Defined.
#[global] Instance mountres3_blank : Blank zdr_mountres3 zero_mountres3. Proof. blank zdr_mountres3. Qed.

Definition zdr_mountstat1 : proc Z := zdr_enum.
Definition zdr_fhandle1 : proc ptr := zdr_opaque 32.
Record mountres1_ok := mkmountres1_ok {
  mountres1_ok_fhandle : ptr
}.
Definition zero_mountres1_ok : mountres1_ok := mkmountres1_ok (Heap (zeros 32)).
Definition fields_mountres1_ok (x : mountres1_ok) := mountres1_ok_fhandle x.
Definition make_mountres1_ok (t : ptr) : mountres1_ok := mkmountres1_ok t.
#[global] Instance mountres1_ok_iso : Iso fields_mountres1_ok make_mountres1_ok. Proof. iso. Qed.
Definition zdr_mountres1_ok : proc mountres1_ok := zdr_via fields_mountres1_ok make_mountres1_ok (zdr_fhandle1).
#[global] Instance mountres1_ok_codec : Codec zdr_mountres1_ok. Proof. codec zdr_mountres1_ok. Defined.
#[global] Instance mountres1_ok_blank : Blank zdr_mountres1_ok zero_mountres1_ok. Proof. blank zdr_mountres1_ok. Qed.

Inductive mountres1_union := mountres1_cleared | mountres1_mountinfo (x : mountres1_ok).
Record mountres1 := mkmountres1 { mountres1_fhs_status : Z; mountres1_u : mountres1_union }.
Definition zero_mountres1 : mountres1 := mkmountres1 0 mountres1_cleared.
Definition fields_mountres1 (x : mountres1) := (mountres1_fhs_status x, mountres1_u x).
Definition make_mountres1 (t : (Z * mountres1_union)) : mountres1 := mkmountres1 t.1 t.2.
#[global] Instance mountres1_iso : Iso fields_mountres1 make_mountres1. Proof. iso. Qed.
Definition as_mountres1_mountinfo (u : mountres1_union) : mountres1_ok := match u with mountres1_mountinfo x => x | _ =>
  zero_mountres1_ok end.
#[global] Instance mountres1_mountinfo_member : Variant as_mountres1_mountinfo mountres1_mountinfo. Proof. done. Qed.
Definition case_mountres1 (d : Z) : proc mountres1_union :=
  if (d =? MNT1_OK) then zdr_member as_mountres1_mountinfo mountres1_mountinfo zdr_mountres1_ok
  else zdr_void.
#[global] Instance case_mountres1_codec d : Codec (case_mountres1 d). Proof. codec case_mountres1. Defined.
#[global] Instance case_mountres1_blank d : Blank (case_mountres1 d) mountres1_cleared. Proof. blank case_mountres1. Qed.
Definition zdr_mountres1 : proc mountres1 := zdr_via fields_mountres1 make_mountres1 (zdr_dseq zdr_mountstat1
  (case_mountres1)).
#[global] Instance mountres1_codec : Codec zdr_mountres1. Proof. codec zdr_mountres1. Defined.
#[global] Instance mountres1_blank : Blank zdr_mountres1 zero_mountres1. Proof. blank zdr_mountres1. Qed.

Definition zdr_MOUNT1MNTargs : proc ptr := zdr_dirpath.
Definition zdr_MOUNT1MNTres : proc mountres1 := zdr_mountres1.
Definition zdr_MOUNT1DUMPres (fuel : nat) : proc mountbody := zdr_mountbody fuel.
#[global] Instance MOUNT1DUMPres_codec fuel : Codec (zdr_MOUNT1DUMPres fuel). Proof. codec zdr_MOUNT1DUMPres. Defined.
#[global] Instance MOUNT1DUMPres_blank fuel : Blank (zdr_MOUNT1DUMPres fuel) zero_mountbody. Proof. blank
  zdr_MOUNT1DUMPres. Qed.

Definition zdr_MOUNT1DUMPres_ptr (fuel : nat) : proc (option mountbody) := zdr_mountlist fuel.
#[global] Instance MOUNT1DUMPres_ptr_codec fuel : Codec (zdr_MOUNT1DUMPres_ptr fuel). Proof. codec zdr_MOUNT1DUMPres_ptr.
  Defined.
#[global] Instance MOUNT1DUMPres_ptr_blank fuel : Blank (zdr_MOUNT1DUMPres_ptr fuel) None. Proof. blank
  zdr_MOUNT1DUMPres_ptr. Qed.

Definition zdr_MOUNT1UMNTargs : proc ptr := zdr_dirpath.
Definition zdr_MOUNT1EXPORTres (fuel : nat) : proc exportnode := zdr_exportnode fuel.
#[global] Instance MOUNT1EXPORTres_codec fuel : Codec (zdr_MOUNT1EXPORTres fuel). Proof. codec zdr_MOUNT1EXPORTres. Defined.
#[global] Instance MOUNT1EXPORTres_blank fuel : Blank (zdr_MOUNT1EXPORTres fuel) zero_exportnode. Proof. blank
  zdr_MOUNT1EXPORTres. Qed.

Definition zdr_MOUNT1EXPORTres_ptr (fuel : nat) : proc (option exportnode) := zdr_pointer zero_exportnode 24
  (zdr_exportnode fuel).
#[global] Instance MOUNT1EXPORTres_ptr_codec fuel : Codec (zdr_MOUNT1EXPORTres_ptr fuel). Proof. codec
  zdr_MOUNT1EXPORTres_ptr. Defined.
#[global] Instance MOUNT1EXPORTres_ptr_blank fuel : Blank (zdr_MOUNT1EXPORTres_ptr fuel) None. Proof. blank
  zdr_MOUNT1EXPORTres_ptr. Qed.

Definition zdr_MOUNT3MNTargs : proc ptr := zdr_dirpath.
Definition zdr_MOUNT3MNTres : proc mountres3 := zdr_mountres3.
Definition zdr_MOUNT3DUMPres (fuel : nat) : proc mountbody := zdr_mountbody fuel.
#[global] Instance MOUNT3DUMPres_codec fuel : Codec (zdr_MOUNT3DUMPres fuel). Proof. codec zdr_MOUNT3DUMPres. Defined.
#[global] Instance MOUNT3DUMPres_blank fuel : Blank (zdr_MOUNT3DUMPres fuel) zero_mountbody. Proof. blank
  zdr_MOUNT3DUMPres. Qed.

Definition zdr_MOUNT3DUMPres_ptr (fuel : nat) : proc (option mountbody) := zdr_mountlist fuel.
#[global] Instance MOUNT3DUMPres_ptr_codec fuel : Codec (zdr_MOUNT3DUMPres_ptr fuel). Proof. codec zdr_MOUNT3DUMPres_ptr.
  Defined.
#[global] Instance MOUNT3DUMPres_ptr_blank fuel : Blank (zdr_MOUNT3DUMPres_ptr fuel) None. Proof. blank
  zdr_MOUNT3DUMPres_ptr. Qed.

Definition zdr_MOUNT3UMNTargs : proc ptr := zdr_dirpath.
Definition zdr_MOUNT3EXPORTres (fuel : nat) : proc exportnode := zdr_exportnode fuel.
#[global] Instance MOUNT3EXPORTres_codec fuel : Codec (zdr_MOUNT3EXPORTres fuel). Proof. codec zdr_MOUNT3EXPORTres. Defined.
#[global] Instance MOUNT3EXPORTres_blank fuel : Blank (zdr_MOUNT3EXPORTres fuel) zero_exportnode. Proof. blank
  zdr_MOUNT3EXPORTres. Qed.

Definition zdr_MOUNT3EXPORTres_ptr (fuel : nat) : proc (option exportnode) := zdr_pointer zero_exportnode 24
  (zdr_exportnode fuel).
#[global] Instance MOUNT3EXPORTres_ptr_codec fuel : Codec (zdr_MOUNT3EXPORTres_ptr fuel). Proof. codec
  zdr_MOUNT3EXPORTres_ptr. Defined.
#[global] Instance MOUNT3EXPORTres_ptr_blank fuel : Blank (zdr_MOUNT3EXPORTres_ptr fuel) None. Proof. blank
  zdr_MOUNT3EXPORTres_ptr. Qed.
End XM.
