(* ===== verification/PortmapXdr.v ===== *)
(** * PortmapXdr: the data of the portmapper (portmap/libnfs-raw-portmap.c and .h)  *)

From S2P Require Import Prelude Zdr Xdr.

#[local] Open Scope zdr_scope.
#[local] Set Warnings "-register-all".

Module XP.
Record pmap2_mapping := mkpmap2_mapping {
  pmap2_mapping_prog : Z; pmap2_mapping_vers : Z; pmap2_mapping_prot : Z; pmap2_mapping_port : Z
}.
Definition zero_pmap2_mapping : pmap2_mapping := mkpmap2_mapping 0 0 0 0.
Definition fields_pmap2_mapping (x : pmap2_mapping) := (pmap2_mapping_prog x, (pmap2_mapping_vers x, (pmap2_mapping_prot
  x, pmap2_mapping_port x))).
Definition make_pmap2_mapping (t : (Z * (Z * (Z * Z)))) : pmap2_mapping := mkpmap2_mapping t.1 t.2.1 t.2.2.1 t.2.2.2.
#[global] Instance pmap2_mapping_iso : Iso fields_pmap2_mapping make_pmap2_mapping. Proof. iso. Qed.
Definition zdr_pmap2_mapping : proc pmap2_mapping := zdr_via fields_pmap2_mapping make_pmap2_mapping (zdr_u_int >>>
  zdr_u_int >>> zdr_u_int >>> zdr_u_int).
#[global] Instance pmap2_mapping_codec : Codec zdr_pmap2_mapping. Proof. codec zdr_pmap2_mapping. Defined.
#[global] Instance pmap2_mapping_blank : Blank zdr_pmap2_mapping zero_pmap2_mapping. Proof. blank zdr_pmap2_mapping. Qed.
#[global] Instance pmap2_mapping_safe : Safe zdr_pmap2_mapping. Proof. safe zdr_pmap2_mapping. Qed.

Record pmap2_call_args := mkpmap2_call_args {
  pmap2_call_args_prog : Z; pmap2_call_args_vers : Z; pmap2_call_args_proc : Z; pmap2_call_args_args : ptr * Z
}.
Definition zero_pmap2_call_args : pmap2_call_args := mkpmap2_call_args 0 0 0 (NULL, 0).
Definition fields_pmap2_call_args (x : pmap2_call_args) := (pmap2_call_args_prog x, (pmap2_call_args_vers x,
  (pmap2_call_args_proc x, pmap2_call_args_args x))).
Definition make_pmap2_call_args (t : (Z * (Z * (Z * (ptr * Z))))) : pmap2_call_args := mkpmap2_call_args t.1 t.2.1 t.2.2.1
  t.2.2.2.
#[global] Instance pmap2_call_args_iso : Iso fields_pmap2_call_args make_pmap2_call_args. Proof. iso. Qed.
Definition zdr_pmap2_call_args : proc pmap2_call_args := zdr_via fields_pmap2_call_args make_pmap2_call_args (zdr_u_int
  >>> zdr_u_int >>> zdr_u_int >>> zdr_bytes).
#[global] Instance pmap2_call_args_codec : Codec zdr_pmap2_call_args. Proof. codec zdr_pmap2_call_args. Defined.
#[global] Instance pmap2_call_args_blank : Blank zdr_pmap2_call_args zero_pmap2_call_args. Proof. blank
  zdr_pmap2_call_args. Qed.

Record pmap2_call_result := mkpmap2_call_result {
  pmap2_call_result_port : Z; pmap2_call_result_res : ptr * Z
}.
Definition zero_pmap2_call_result : pmap2_call_result := mkpmap2_call_result 0 (NULL, 0).
Definition fields_pmap2_call_result (x : pmap2_call_result) := (pmap2_call_result_port x, pmap2_call_result_res x).
Definition make_pmap2_call_result (t : (Z * (ptr * Z))) : pmap2_call_result := mkpmap2_call_result t.1 t.2.
#[global] Instance pmap2_call_result_iso : Iso fields_pmap2_call_result make_pmap2_call_result. Proof. iso. Qed.
Definition zdr_pmap2_call_result : proc pmap2_call_result := zdr_via fields_pmap2_call_result make_pmap2_call_result
  (zdr_u_int >>> zdr_bytes).
#[global] Instance pmap2_call_result_codec : Codec zdr_pmap2_call_result. Proof. codec zdr_pmap2_call_result. Defined.
#[global] Instance pmap2_call_result_blank : Blank zdr_pmap2_call_result zero_pmap2_call_result. Proof. blank
  zdr_pmap2_call_result. Qed.

Inductive pmap2_mapping_list := mkpmap2_mapping_list {
  pmap2_mapping_list_map : pmap2_mapping; pmap2_mapping_list_next : option pmap2_mapping_list
}.
Definition zero_pmap2_mapping_list : pmap2_mapping_list := mkpmap2_mapping_list zero_pmap2_mapping None.
Definition fields_pmap2_mapping_list (x : pmap2_mapping_list) := (pmap2_mapping_list_map x, pmap2_mapping_list_next x).
Definition make_pmap2_mapping_list (t : (pmap2_mapping * (option pmap2_mapping_list))) : pmap2_mapping_list :=
  mkpmap2_mapping_list t.1 t.2.
#[global] Instance pmap2_mapping_list_iso : Iso fields_pmap2_mapping_list make_pmap2_mapping_list. Proof. iso. Qed.
Fixpoint zdr_pmap2_mapping_list (fuel : nat) : proc pmap2_mapping_list :=
  match fuel with
  | O => zdr_out_of_fuel
    | S fuel => zdr_via fields_pmap2_mapping_list make_pmap2_mapping_list (zdr_pmap2_mapping >>> (zdr_pointer
    zero_pmap2_mapping_list 24 (zdr_pmap2_mapping_list fuel)))
  end.
#[global] Instance pmap2_mapping_list_codec fuel : Codec (zdr_pmap2_mapping_list fuel). Proof. induction fuel; cbn
  [zdr_pmap2_mapping_list]; exact _. Defined.
#[global] Instance pmap2_mapping_list_blank fuel : Blank (zdr_pmap2_mapping_list fuel) zero_pmap2_mapping_list. Proof.
  induction fuel; cbn [zdr_pmap2_mapping_list]; exact _. Qed.

Record pmap2_dump_result := mkpmap2_dump_result {
  pmap2_dump_result_list : option pmap2_mapping_list
}.
Definition zero_pmap2_dump_result : pmap2_dump_result := mkpmap2_dump_result None.
Definition fields_pmap2_dump_result (x : pmap2_dump_result) := pmap2_dump_result_list x.
Definition make_pmap2_dump_result (t : (option pmap2_mapping_list)) : pmap2_dump_result := mkpmap2_dump_result t.
#[global] Instance pmap2_dump_result_iso : Iso fields_pmap2_dump_result make_pmap2_dump_result. Proof. iso. Qed.
Definition zdr_pmap2_dump_result (fuel : nat) : proc pmap2_dump_result := zdr_via fields_pmap2_dump_result
  make_pmap2_dump_result ((zdr_pointer zero_pmap2_mapping_list 24 (zdr_pmap2_mapping_list fuel))).
#[global] Instance pmap2_dump_result_codec fuel : Codec (zdr_pmap2_dump_result fuel). Proof. codec zdr_pmap2_dump_result.
  Defined.
#[global] Instance pmap2_dump_result_blank fuel : Blank (zdr_pmap2_dump_result fuel) zero_pmap2_dump_result. Proof. blank
  zdr_pmap2_dump_result. Qed.

Record pmap3_string_result := mkpmap3_string_result {
  pmap3_string_result_addr : ptr
}.
Definition zero_pmap3_string_result : pmap3_string_result := mkpmap3_string_result NULL.
Definition fields_pmap3_string_result (x : pmap3_string_result) := pmap3_string_result_addr x.
Definition make_pmap3_string_result (t : ptr) : pmap3_string_result := mkpmap3_string_result t.
#[global] Instance pmap3_string_result_iso : Iso fields_pmap3_string_result make_pmap3_string_result. Proof. iso. Qed.
Definition zdr_pmap3_string_result : proc pmap3_string_result := zdr_via fields_pmap3_string_result
  make_pmap3_string_result (zdr_string).
#[global] Instance pmap3_string_result_codec : Codec zdr_pmap3_string_result. Proof. codec zdr_pmap3_string_result. Defined.
#[global] Instance pmap3_string_result_blank : Blank zdr_pmap3_string_result zero_pmap3_string_result. Proof. blank
  zdr_pmap3_string_result. Qed.

Record pmap3_mapping := mkpmap3_mapping {
    pmap3_mapping_prog : Z; pmap3_mapping_vers : Z; pmap3_mapping_netid : ptr; pmap3_mapping_addr : ptr;
    pmap3_mapping_owner : ptr
}.
Definition zero_pmap3_mapping : pmap3_mapping := mkpmap3_mapping 0 0 NULL NULL NULL.
Definition fields_pmap3_mapping (x : pmap3_mapping) := (pmap3_mapping_prog x, (pmap3_mapping_vers x, (pmap3_mapping_netid
  x, (pmap3_mapping_addr x, pmap3_mapping_owner x)))).
Definition make_pmap3_mapping (t : (Z * (Z * (ptr * (ptr * ptr))))) : pmap3_mapping := mkpmap3_mapping t.1 t.2.1 t.2.2.1
  t.2.2.2.1 t.2.2.2.2.
#[global] Instance pmap3_mapping_iso : Iso fields_pmap3_mapping make_pmap3_mapping. Proof. iso. Qed.
Definition zdr_pmap3_mapping : proc pmap3_mapping := zdr_via fields_pmap3_mapping make_pmap3_mapping (zdr_u_int >>>
  zdr_u_int >>> zdr_string >>> zdr_string >>> zdr_string).
#[global] Instance pmap3_mapping_codec : Codec zdr_pmap3_mapping. Proof. codec zdr_pmap3_mapping. Defined.
#[global] Instance pmap3_mapping_blank : Blank zdr_pmap3_mapping zero_pmap3_mapping. Proof. blank zdr_pmap3_mapping. Qed.

Inductive pmap3_mapping_list := mkpmap3_mapping_list {
  pmap3_mapping_list_map : pmap3_mapping; pmap3_mapping_list_next : option pmap3_mapping_list
}.
Definition zero_pmap3_mapping_list : pmap3_mapping_list := mkpmap3_mapping_list zero_pmap3_mapping None.
Definition fields_pmap3_mapping_list (x : pmap3_mapping_list) := (pmap3_mapping_list_map x, pmap3_mapping_list_next x).
Definition make_pmap3_mapping_list (t : (pmap3_mapping * (option pmap3_mapping_list))) : pmap3_mapping_list :=
  mkpmap3_mapping_list t.1 t.2.
#[global] Instance pmap3_mapping_list_iso : Iso fields_pmap3_mapping_list make_pmap3_mapping_list. Proof. iso. Qed.
Fixpoint zdr_pmap3_mapping_list (fuel : nat) : proc pmap3_mapping_list :=
  match fuel with
  | O => zdr_out_of_fuel
    | S fuel => zdr_via fields_pmap3_mapping_list make_pmap3_mapping_list (zdr_pmap3_mapping >>> (zdr_pointer
    zero_pmap3_mapping_list 40 (zdr_pmap3_mapping_list fuel)))
  end.
#[global] Instance pmap3_mapping_list_codec fuel : Codec (zdr_pmap3_mapping_list fuel). Proof. induction fuel; cbn
  [zdr_pmap3_mapping_list]; exact _. Defined.
#[global] Instance pmap3_mapping_list_blank fuel : Blank (zdr_pmap3_mapping_list fuel) zero_pmap3_mapping_list. Proof.
  induction fuel; cbn [zdr_pmap3_mapping_list]; exact _. Qed.

Record pmap3_dump_result := mkpmap3_dump_result {
  pmap3_dump_result_list : option pmap3_mapping_list
}.
Definition zero_pmap3_dump_result : pmap3_dump_result := mkpmap3_dump_result None.
Definition fields_pmap3_dump_result (x : pmap3_dump_result) := pmap3_dump_result_list x.
Definition make_pmap3_dump_result (t : (option pmap3_mapping_list)) : pmap3_dump_result := mkpmap3_dump_result t.
#[global] Instance pmap3_dump_result_iso : Iso fields_pmap3_dump_result make_pmap3_dump_result. Proof. iso. Qed.
Definition zdr_pmap3_dump_result (fuel : nat) : proc pmap3_dump_result := zdr_via fields_pmap3_dump_result
  make_pmap3_dump_result ((zdr_pointer zero_pmap3_mapping_list 40 (zdr_pmap3_mapping_list fuel))).
#[global] Instance pmap3_dump_result_codec fuel : Codec (zdr_pmap3_dump_result fuel). Proof. codec zdr_pmap3_dump_result.
  Defined.
#[global] Instance pmap3_dump_result_blank fuel : Blank (zdr_pmap3_dump_result fuel) zero_pmap3_dump_result. Proof. blank
  zdr_pmap3_dump_result. Qed.

Record pmap3_call_args := mkpmap3_call_args {
  pmap3_call_args_prog : Z; pmap3_call_args_vers : Z; pmap3_call_args_proc : Z; pmap3_call_args_args : ptr * Z
}.
Definition zero_pmap3_call_args : pmap3_call_args := mkpmap3_call_args 0 0 0 (NULL, 0).
Definition fields_pmap3_call_args (x : pmap3_call_args) := (pmap3_call_args_prog x, (pmap3_call_args_vers x,
  (pmap3_call_args_proc x, pmap3_call_args_args x))).
Definition make_pmap3_call_args (t : (Z * (Z * (Z * (ptr * Z))))) : pmap3_call_args := mkpmap3_call_args t.1 t.2.1 t.2.2.1
  t.2.2.2.
#[global] Instance pmap3_call_args_iso : Iso fields_pmap3_call_args make_pmap3_call_args. Proof. iso. Qed.
Definition zdr_pmap3_call_args : proc pmap3_call_args := zdr_via fields_pmap3_call_args make_pmap3_call_args (zdr_u_int
  >>> zdr_u_int >>> zdr_u_int >>> zdr_bytes).
#[global] Instance pmap3_call_args_codec : Codec zdr_pmap3_call_args. Proof. codec zdr_pmap3_call_args. Defined.
#[global] Instance pmap3_call_args_blank : Blank zdr_pmap3_call_args zero_pmap3_call_args. Proof. blank
  zdr_pmap3_call_args. Qed.

Record rpcb_rmtcallres := mkrpcb_rmtcallres {
  rpcb_rmtcallres_addr : ptr; rpcb_rmtcallres_results : ptr * Z
}.
Definition zero_rpcb_rmtcallres : rpcb_rmtcallres := mkrpcb_rmtcallres NULL (NULL, 0).
Definition fields_rpcb_rmtcallres (x : rpcb_rmtcallres) := (rpcb_rmtcallres_addr x, rpcb_rmtcallres_results x).
Definition make_rpcb_rmtcallres (t : (ptr * (ptr * Z))) : rpcb_rmtcallres := mkrpcb_rmtcallres t.1 t.2.
#[global] Instance rpcb_rmtcallres_iso : Iso fields_rpcb_rmtcallres make_rpcb_rmtcallres. Proof. iso. Qed.
Definition zdr_rpcb_rmtcallres : proc rpcb_rmtcallres := zdr_via fields_rpcb_rmtcallres make_rpcb_rmtcallres (zdr_string
  >>> zdr_bytes).
#[global] Instance rpcb_rmtcallres_codec : Codec zdr_rpcb_rmtcallres. Proof. codec zdr_rpcb_rmtcallres. Defined.
#[global] Instance rpcb_rmtcallres_blank : Blank zdr_rpcb_rmtcallres zero_rpcb_rmtcallres. Proof. blank
  zdr_rpcb_rmtcallres. Qed.

Record pmap3_netbuf := mkpmap3_netbuf {
  pmap3_netbuf_maxlen : Z; pmap3_netbuf_buf : ptr * Z
}.
Definition zero_pmap3_netbuf : pmap3_netbuf := mkpmap3_netbuf 0 (NULL, 0).
Definition fields_pmap3_netbuf (x : pmap3_netbuf) := (pmap3_netbuf_maxlen x, pmap3_netbuf_buf x).
Definition make_pmap3_netbuf (t : (Z * (ptr * Z))) : pmap3_netbuf := mkpmap3_netbuf t.1 t.2.
#[global] Instance pmap3_netbuf_iso : Iso fields_pmap3_netbuf make_pmap3_netbuf. Proof. iso. Qed.
Definition zdr_pmap3_netbuf : proc pmap3_netbuf := zdr_via fields_pmap3_netbuf make_pmap3_netbuf (zdr_u_int >>> zdr_bytes).
#[global] Instance pmap3_netbuf_codec : Codec zdr_pmap3_netbuf. Proof. codec zdr_pmap3_netbuf. Defined.
#[global] Instance pmap3_netbuf_blank : Blank zdr_pmap3_netbuf zero_pmap3_netbuf. Proof. blank zdr_pmap3_netbuf. Qed.

Record pmap4_string_result := mkpmap4_string_result {
  pmap4_string_result_addr : ptr
}.
Definition zero_pmap4_string_result : pmap4_string_result := mkpmap4_string_result NULL.
Definition fields_pmap4_string_result (x : pmap4_string_result) := pmap4_string_result_addr x.
Definition make_pmap4_string_result (t : ptr) : pmap4_string_result := mkpmap4_string_result t.
#[global] Instance pmap4_string_result_iso : Iso fields_pmap4_string_result make_pmap4_string_result. Proof. iso. Qed.
Definition zdr_pmap4_string_result : proc pmap4_string_result := zdr_via fields_pmap4_string_result
  make_pmap4_string_result (zdr_string).
#[global] Instance pmap4_string_result_codec : Codec zdr_pmap4_string_result. Proof. codec zdr_pmap4_string_result. Defined.
#[global] Instance pmap4_string_result_blank : Blank zdr_pmap4_string_result zero_pmap4_string_result. Proof. blank
  zdr_pmap4_string_result. Qed.

Record pmap4_mapping := mkpmap4_mapping {
    pmap4_mapping_prog : Z; pmap4_mapping_vers : Z; pmap4_mapping_netid : ptr; pmap4_mapping_addr : ptr;
    pmap4_mapping_owner : ptr
}.
Definition zero_pmap4_mapping : pmap4_mapping := mkpmap4_mapping 0 0 NULL NULL NULL.
Definition fields_pmap4_mapping (x : pmap4_mapping) := (pmap4_mapping_prog x, (pmap4_mapping_vers x, (pmap4_mapping_netid
  x, (pmap4_mapping_addr x, pmap4_mapping_owner x)))).
Definition make_pmap4_mapping (t : (Z * (Z * (ptr * (ptr * ptr))))) : pmap4_mapping := mkpmap4_mapping t.1 t.2.1 t.2.2.1
  t.2.2.2.1 t.2.2.2.2.
#[global] Instance pmap4_mapping_iso : Iso fields_pmap4_mapping make_pmap4_mapping. Proof. iso. Qed.
Definition zdr_pmap4_mapping : proc pmap4_mapping := zdr_via fields_pmap4_mapping make_pmap4_mapping (zdr_u_int >>>
  zdr_u_int >>> zdr_string >>> zdr_string >>> zdr_string).
#[global] Instance pmap4_mapping_codec : Codec zdr_pmap4_mapping. Proof. codec zdr_pmap4_mapping. Defined.
#[global] Instance pmap4_mapping_blank : Blank zdr_pmap4_mapping zero_pmap4_mapping. Proof. blank zdr_pmap4_mapping. Qed.

Inductive pmap4_mapping_list := mkpmap4_mapping_list {
  pmap4_mapping_list_map : pmap4_mapping; pmap4_mapping_list_next : option pmap4_mapping_list
}.
Definition zero_pmap4_mapping_list : pmap4_mapping_list := mkpmap4_mapping_list zero_pmap4_mapping None.
Definition fields_pmap4_mapping_list (x : pmap4_mapping_list) := (pmap4_mapping_list_map x, pmap4_mapping_list_next x).
Definition make_pmap4_mapping_list (t : (pmap4_mapping * (option pmap4_mapping_list))) : pmap4_mapping_list :=
  mkpmap4_mapping_list t.1 t.2.
#[global] Instance pmap4_mapping_list_iso : Iso fields_pmap4_mapping_list make_pmap4_mapping_list. Proof. iso. Qed.
Fixpoint zdr_pmap4_mapping_list (fuel : nat) : proc pmap4_mapping_list :=
  match fuel with
  | O => zdr_out_of_fuel
    | S fuel => zdr_via fields_pmap4_mapping_list make_pmap4_mapping_list (zdr_pmap4_mapping >>> (zdr_pointer
    zero_pmap4_mapping_list 40 (zdr_pmap4_mapping_list fuel)))
  end.
#[global] Instance pmap4_mapping_list_codec fuel : Codec (zdr_pmap4_mapping_list fuel). Proof. induction fuel; cbn
  [zdr_pmap4_mapping_list]; exact _. Defined.
#[global] Instance pmap4_mapping_list_blank fuel : Blank (zdr_pmap4_mapping_list fuel) zero_pmap4_mapping_list. Proof.
  induction fuel; cbn [zdr_pmap4_mapping_list]; exact _. Qed.

Record pmap4_dump_result := mkpmap4_dump_result {
  pmap4_dump_result_list : option pmap4_mapping_list
}.
Definition zero_pmap4_dump_result : pmap4_dump_result := mkpmap4_dump_result None.
Definition fields_pmap4_dump_result (x : pmap4_dump_result) := pmap4_dump_result_list x.
Definition make_pmap4_dump_result (t : (option pmap4_mapping_list)) : pmap4_dump_result := mkpmap4_dump_result t.
#[global] Instance pmap4_dump_result_iso : Iso fields_pmap4_dump_result make_pmap4_dump_result. Proof. iso. Qed.
Definition zdr_pmap4_dump_result (fuel : nat) : proc pmap4_dump_result := zdr_via fields_pmap4_dump_result
  make_pmap4_dump_result ((zdr_pointer zero_pmap4_mapping_list 40 (zdr_pmap4_mapping_list fuel))).
#[global] Instance pmap4_dump_result_codec fuel : Codec (zdr_pmap4_dump_result fuel). Proof. codec zdr_pmap4_dump_result.
  Defined.
#[global] Instance pmap4_dump_result_blank fuel : Blank (zdr_pmap4_dump_result fuel) zero_pmap4_dump_result. Proof. blank
  zdr_pmap4_dump_result. Qed.

Record pmap4_bcast_args := mkpmap4_bcast_args {
  pmap4_bcast_args_prog : Z; pmap4_bcast_args_vers : Z; pmap4_bcast_args_proc : Z; pmap4_bcast_args_args : ptr * Z
}.
Definition zero_pmap4_bcast_args : pmap4_bcast_args := mkpmap4_bcast_args 0 0 0 (NULL, 0).
Definition fields_pmap4_bcast_args (x : pmap4_bcast_args) := (pmap4_bcast_args_prog x, (pmap4_bcast_args_vers x,
  (pmap4_bcast_args_proc x, pmap4_bcast_args_args x))).
Definition make_pmap4_bcast_args (t : (Z * (Z * (Z * (ptr * Z))))) : pmap4_bcast_args := mkpmap4_bcast_args t.1 t.2.1
  t.2.2.1 t.2.2.2.
#[global] Instance pmap4_bcast_args_iso : Iso fields_pmap4_bcast_args make_pmap4_bcast_args. Proof. iso. Qed.
Definition zdr_pmap4_bcast_args : proc pmap4_bcast_args := zdr_via fields_pmap4_bcast_args make_pmap4_bcast_args
  (zdr_u_int >>> zdr_u_int >>> zdr_u_int >>> zdr_bytes).
#[global] Instance pmap4_bcast_args_codec : Codec zdr_pmap4_bcast_args. Proof. codec zdr_pmap4_bcast_args. Defined.
#[global] Instance pmap4_bcast_args_blank : Blank zdr_pmap4_bcast_args zero_pmap4_bcast_args. Proof. blank
  zdr_pmap4_bcast_args. Qed.

Record pmap4_netbuf := mkpmap4_netbuf {
  pmap4_netbuf_maxlen : Z; pmap4_netbuf_buf : ptr * Z
}.
Definition zero_pmap4_netbuf : pmap4_netbuf := mkpmap4_netbuf 0 (NULL, 0).
Definition fields_pmap4_netbuf (x : pmap4_netbuf) := (pmap4_netbuf_maxlen x, pmap4_netbuf_buf x).
Definition make_pmap4_netbuf (t : (Z * (ptr * Z))) : pmap4_netbuf := mkpmap4_netbuf t.1 t.2.
#[global] Instance pmap4_netbuf_iso : Iso fields_pmap4_netbuf make_pmap4_netbuf. Proof. iso. Qed.
Definition zdr_pmap4_netbuf : proc pmap4_netbuf := zdr_via fields_pmap4_netbuf make_pmap4_netbuf (zdr_u_int >>> zdr_bytes).
#[global] Instance pmap4_netbuf_codec : Codec zdr_pmap4_netbuf. Proof. codec zdr_pmap4_netbuf. Defined.
#[global] Instance pmap4_netbuf_blank : Blank zdr_pmap4_netbuf zero_pmap4_netbuf. Proof. blank zdr_pmap4_netbuf. Qed.

Record pmap4_indirect_args := mkpmap4_indirect_args {
    pmap4_indirect_args_prog : Z; pmap4_indirect_args_vers : Z; pmap4_indirect_args_proc : Z; pmap4_indirect_args_args :
    ptr * Z
}.
Definition zero_pmap4_indirect_args : pmap4_indirect_args := mkpmap4_indirect_args 0 0 0 (NULL, 0).
Definition fields_pmap4_indirect_args (x : pmap4_indirect_args) := (pmap4_indirect_args_prog x, (pmap4_indirect_args_vers
  x, (pmap4_indirect_args_proc x, pmap4_indirect_args_args x))).
Definition make_pmap4_indirect_args (t : (Z * (Z * (Z * (ptr * Z))))) : pmap4_indirect_args := mkpmap4_indirect_args t.1
  t.2.1 t.2.2.1 t.2.2.2.
#[global] Instance pmap4_indirect_args_iso : Iso fields_pmap4_indirect_args make_pmap4_indirect_args. Proof. iso. Qed.
Definition zdr_pmap4_indirect_args : proc pmap4_indirect_args := zdr_via fields_pmap4_indirect_args
  make_pmap4_indirect_args (zdr_u_int >>> zdr_u_int >>> zdr_u_int >>> zdr_bytes).
#[global] Instance pmap4_indirect_args_codec : Codec zdr_pmap4_indirect_args. Proof. codec zdr_pmap4_indirect_args. Defined.
#[global] Instance pmap4_indirect_args_blank : Blank zdr_pmap4_indirect_args zero_pmap4_indirect_args. Proof. blank
  zdr_pmap4_indirect_args. Qed.

Inductive rpcbs_addrlist := mkrpcbs_addrlist {
    rpcbs_addrlist_prog : Z; rpcbs_addrlist_vers : Z; rpcbs_addrlist_success : Z; rpcbs_addrlist_failure : Z;
    rpcbs_addrlist_netid : ptr; rpcbs_addrlist_next : option rpcbs_addrlist
}.
Definition zero_rpcbs_addrlist : rpcbs_addrlist := mkrpcbs_addrlist 0 0 0 0 NULL None.
Definition fields_rpcbs_addrlist (x : rpcbs_addrlist) := (rpcbs_addrlist_prog x, (rpcbs_addrlist_vers x,
  (rpcbs_addrlist_success x, (rpcbs_addrlist_failure x, (rpcbs_addrlist_netid x, rpcbs_addrlist_next x))))).
Definition make_rpcbs_addrlist (t : (Z * (Z * (Z * (Z * (ptr * (option rpcbs_addrlist))))))) : rpcbs_addrlist :=
  mkrpcbs_addrlist t.1 t.2.1 t.2.2.1 t.2.2.2.1 t.2.2.2.2.1 t.2.2.2.2.2.
#[global] Instance rpcbs_addrlist_iso : Iso fields_rpcbs_addrlist make_rpcbs_addrlist. Proof. iso. Qed.
Fixpoint zdr_rpcbs_addrlist (fuel : nat) : proc rpcbs_addrlist :=
  match fuel with
  | O => zdr_out_of_fuel
    | S fuel => zdr_via fields_rpcbs_addrlist make_rpcbs_addrlist (zdr_u_int >>> zdr_u_int >>> zdr_int >>> zdr_int >>>
    zdr_string >>> (zdr_pointer zero_rpcbs_addrlist 32 (zdr_rpcbs_addrlist fuel)))
  end.
#[global] Instance rpcbs_addrlist_codec fuel : Codec (zdr_rpcbs_addrlist fuel). Proof. induction fuel; cbn
  [zdr_rpcbs_addrlist]; exact _. Defined.
#[global] Instance rpcbs_addrlist_blank fuel : Blank (zdr_rpcbs_addrlist fuel) zero_rpcbs_addrlist. Proof. induction fuel;
  cbn [zdr_rpcbs_addrlist]; exact _. Qed.

Inductive rpcbs_rmtcalllist := mkrpcbs_rmtcalllist {
    rpcbs_rmtcalllist_prog : Z; rpcbs_rmtcalllist_vers : Z; rpcbs_rmtcalllist_proc : Z; rpcbs_rmtcalllist_success : Z;
    rpcbs_rmtcalllist_failure : Z; rpcbs_rmtcalllist_indirect : Z; rpcbs_rmtcalllist_netid : ptr; rpcbs_rmtcalllist_next :
    option rpcbs_rmtcalllist
}.
Definition zero_rpcbs_rmtcalllist : rpcbs_rmtcalllist := mkrpcbs_rmtcalllist 0 0 0 0 0 0 NULL None.
Definition fields_rpcbs_rmtcalllist (x : rpcbs_rmtcalllist) := (rpcbs_rmtcalllist_prog x, (rpcbs_rmtcalllist_vers x,
  (rpcbs_rmtcalllist_proc x, (rpcbs_rmtcalllist_success x, (rpcbs_rmtcalllist_failure x, (rpcbs_rmtcalllist_indirect x,
  (rpcbs_rmtcalllist_netid x, rpcbs_rmtcalllist_next x))))))).
Definition make_rpcbs_rmtcalllist (t : (Z * (Z * (Z * (Z * (Z * (Z * (ptr * (option rpcbs_rmtcalllist))))))))) :
  rpcbs_rmtcalllist := mkrpcbs_rmtcalllist t.1 t.2.1 t.2.2.1 t.2.2.2.1 t.2.2.2.2.1 t.2.2.2.2.2.1 t.2.2.2.2.2.2.1
  t.2.2.2.2.2.2.2.
#[global] Instance rpcbs_rmtcalllist_iso : Iso fields_rpcbs_rmtcalllist make_rpcbs_rmtcalllist. Proof. iso. Qed.
Fixpoint zdr_rpcbs_rmtcalllist (fuel : nat) : proc rpcbs_rmtcalllist :=
  match fuel with
  | O => zdr_out_of_fuel
    | S fuel => zdr_via fields_rpcbs_rmtcalllist make_rpcbs_rmtcalllist (zdr_u_int >>> zdr_u_int >>> zdr_u_int >>> zdr_int
    >>> zdr_int >>> zdr_int >>> zdr_string >>> (zdr_pointer zero_rpcbs_rmtcalllist 40 (zdr_rpcbs_rmtcalllist fuel)))
  end.
#[global] Instance rpcbs_rmtcalllist_codec fuel : Codec (zdr_rpcbs_rmtcalllist fuel). Proof. induction fuel; cbn
  [zdr_rpcbs_rmtcalllist]; exact _. Defined.
#[global] Instance rpcbs_rmtcalllist_blank fuel : Blank (zdr_rpcbs_rmtcalllist fuel) zero_rpcbs_rmtcalllist. Proof.
  induction fuel; cbn [zdr_rpcbs_rmtcalllist]; exact _. Qed.

Definition zdr_rpcbs_proc : proc (list Z) := zdr_vector zdr_int 13.
#[global] Instance rpcbs_proc_codec : Codec zdr_rpcbs_proc. Proof. codec zdr_rpcbs_proc. Defined.
#[global] Instance rpcbs_proc_blank : Blank zdr_rpcbs_proc (replicate 13 0). Proof. blank zdr_rpcbs_proc. Qed.

Definition zdr_rpcbs_addrlist_ptr (fuel : nat) : proc (option rpcbs_addrlist) := zdr_pointer zero_rpcbs_addrlist 32
  (zdr_rpcbs_addrlist fuel).
#[global] Instance rpcbs_addrlist_ptr_codec fuel : Codec (zdr_rpcbs_addrlist_ptr fuel). Proof. codec
  zdr_rpcbs_addrlist_ptr. Defined.
#[global] Instance rpcbs_addrlist_ptr_blank fuel : Blank (zdr_rpcbs_addrlist_ptr fuel) None. Proof. blank
  zdr_rpcbs_addrlist_ptr. Qed.

Definition zdr_rpcbs_rmtcalllist_ptr (fuel : nat) : proc (option rpcbs_rmtcalllist) := zdr_pointer zero_rpcbs_rmtcalllist
  40 (zdr_rpcbs_rmtcalllist fuel).
#[global] Instance rpcbs_rmtcalllist_ptr_codec fuel : Codec (zdr_rpcbs_rmtcalllist_ptr fuel). Proof. codec
  zdr_rpcbs_rmtcalllist_ptr. Defined.
#[global] Instance rpcbs_rmtcalllist_ptr_blank fuel : Blank (zdr_rpcbs_rmtcalllist_ptr fuel) None. Proof. blank
  zdr_rpcbs_rmtcalllist_ptr. Qed.

Record rpcb_stat := mkrpcb_stat {
    rpcb_stat_info : list Z; rpcb_stat_setinfo : Z; rpcb_stat_unsetinfo : Z; rpcb_stat_addrinfo : option rpcbs_addrlist;
    rpcb_stat_rmtinfo : option rpcbs_rmtcalllist
}.
Definition zero_rpcb_stat : rpcb_stat := mkrpcb_stat (replicate 13 0) 0 0 None None.
Definition fields_rpcb_stat (x : rpcb_stat) := (rpcb_stat_info x, (rpcb_stat_setinfo x, (rpcb_stat_unsetinfo x,
  (rpcb_stat_addrinfo x, rpcb_stat_rmtinfo x)))).
Definition make_rpcb_stat (t : ((list Z) * (Z * (Z * ((option rpcbs_addrlist) * (option rpcbs_rmtcalllist)))))) :
  rpcb_stat := mkrpcb_stat t.1 t.2.1 t.2.2.1 t.2.2.2.1 t.2.2.2.2.
#[global] Instance rpcb_stat_iso : Iso fields_rpcb_stat make_rpcb_stat. Proof. iso. Qed.
Definition zdr_rpcb_stat (fuel : nat) : proc rpcb_stat := zdr_via fields_rpcb_stat make_rpcb_stat (zdr_rpcbs_proc >>>
  zdr_int >>> zdr_int >>> (zdr_rpcbs_addrlist_ptr fuel) >>> (zdr_rpcbs_rmtcalllist_ptr fuel)).
#[global] Instance rpcb_stat_codec fuel : Codec (zdr_rpcb_stat fuel). Proof. codec zdr_rpcb_stat. Defined.
#[global] Instance rpcb_stat_blank fuel : Blank (zdr_rpcb_stat fuel) zero_rpcb_stat. Proof. blank zdr_rpcb_stat. Qed.

Definition zdr_pmap4_stat_byvers (fuel : nat) : proc (list rpcb_stat) := zdr_vector (zdr_rpcb_stat fuel) 3.
#[global] Instance pmap4_stat_byvers_codec fuel : Codec (zdr_pmap4_stat_byvers fuel). Proof. codec zdr_pmap4_stat_byvers.
  Defined.
#[global] Instance pmap4_stat_byvers_blank fuel : Blank (zdr_pmap4_stat_byvers fuel) (replicate 3 zero_rpcb_stat). Proof.
  blank zdr_pmap4_stat_byvers. Qed.

Record rpcb_entry := mkrpcb_entry {
    rpcb_entry_r_maddr : ptr; rpcb_entry_r_nc_netid : ptr; rpcb_entry_r_nc_semantics : Z; rpcb_entry_r_nc_protofmly : ptr;
    rpcb_entry_r_nc_proto : ptr
}.
Definition zero_rpcb_entry : rpcb_entry := mkrpcb_entry NULL NULL 0 NULL NULL.
Definition fields_rpcb_entry (x : rpcb_entry) := (rpcb_entry_r_maddr x, (rpcb_entry_r_nc_netid x,
  (rpcb_entry_r_nc_semantics x, (rpcb_entry_r_nc_protofmly x, rpcb_entry_r_nc_proto x)))).
Definition make_rpcb_entry (t : (ptr * (ptr * (Z * (ptr * ptr))))) : rpcb_entry := mkrpcb_entry t.1 t.2.1 t.2.2.1
  t.2.2.2.1 t.2.2.2.2.
#[global] Instance rpcb_entry_iso : Iso fields_rpcb_entry make_rpcb_entry. Proof. iso. Qed.
Definition zdr_rpcb_entry : proc rpcb_entry := zdr_via fields_rpcb_entry make_rpcb_entry (zdr_string >>> zdr_string >>>
  zdr_u_int >>> zdr_string >>> zdr_string).
#[global] Instance rpcb_entry_codec : Codec zdr_rpcb_entry. Proof. codec zdr_rpcb_entry. Defined.
#[global] Instance rpcb_entry_blank : Blank zdr_rpcb_entry zero_rpcb_entry. Proof. blank zdr_rpcb_entry. Qed.

Inductive rpcb_entry_list := mkrpcb_entry_list {
  rpcb_entry_list_rpcb_entry_map : rpcb_entry; rpcb_entry_list_next : option rpcb_entry_list
}.
Definition zero_rpcb_entry_list : rpcb_entry_list := mkrpcb_entry_list zero_rpcb_entry None.
Definition fields_rpcb_entry_list (x : rpcb_entry_list) := (rpcb_entry_list_rpcb_entry_map x, rpcb_entry_list_next x).
Definition make_rpcb_entry_list (t : (rpcb_entry * (option rpcb_entry_list))) : rpcb_entry_list := mkrpcb_entry_list t.1 t.2.
#[global] Instance rpcb_entry_list_iso : Iso fields_rpcb_entry_list make_rpcb_entry_list. Proof. iso. Qed.
Fixpoint zdr_rpcb_entry_list (fuel : nat) : proc rpcb_entry_list :=
  match fuel with
  | O => zdr_out_of_fuel
    | S fuel => zdr_via fields_rpcb_entry_list make_rpcb_entry_list (zdr_rpcb_entry >>> (zdr_pointer zero_rpcb_entry_list
    48 (zdr_rpcb_entry_list fuel)))
  end.
#[global] Instance rpcb_entry_list_codec fuel : Codec (zdr_rpcb_entry_list fuel). Proof. induction fuel; cbn
  [zdr_rpcb_entry_list]; exact _. Defined.
#[global] Instance rpcb_entry_list_blank fuel : Blank (zdr_rpcb_entry_list fuel) zero_rpcb_entry_list. Proof. induction
  fuel; cbn [zdr_rpcb_entry_list]; exact _. Qed.

Definition zdr_pmap4_entry_list_ptr (fuel : nat) : proc (option rpcb_entry_list) := zdr_pointer zero_rpcb_entry_list 48
  (zdr_rpcb_entry_list fuel).
#[global] Instance pmap4_entry_list_ptr_codec fuel : Codec (zdr_pmap4_entry_list_ptr fuel). Proof. codec
  zdr_pmap4_entry_list_ptr. Defined.
#[global] Instance pmap4_entry_list_ptr_blank fuel : Blank (zdr_pmap4_entry_list_ptr fuel) None. Proof. blank
  zdr_pmap4_entry_list_ptr. Qed.

Definition zdr_PMAP2SETargs : proc pmap2_mapping := zdr_pmap2_mapping.
Definition zdr_PMAP2UNSETargs : proc pmap2_mapping := zdr_pmap2_mapping.
Definition zdr_PMAP2GETPORTargs : proc pmap2_mapping := zdr_pmap2_mapping.
Definition zdr_PMAP2CALLITargs : proc pmap2_call_args := zdr_pmap2_call_args.
Definition zdr_PMAP2CALLITres : proc pmap2_call_result := zdr_pmap2_call_result.
Definition zdr_PMAP2DUMPres (fuel : nat) : proc pmap2_dump_result := zdr_pmap2_dump_result fuel.
#[global] Instance PMAP2DUMPres_codec fuel : Codec (zdr_PMAP2DUMPres fuel). Proof. codec zdr_PMAP2DUMPres. Defined.
#[global] Instance PMAP2DUMPres_blank fuel : Blank (zdr_PMAP2DUMPres fuel) zero_pmap2_dump_result. Proof. blank
  zdr_PMAP2DUMPres. Qed.

Definition zdr_PMAP3SETargs : proc pmap3_mapping := zdr_pmap3_mapping.
Definition zdr_PMAP3UNSETargs : proc pmap3_mapping := zdr_pmap3_mapping.
Definition zdr_PMAP3GETADDRargs : proc pmap3_mapping := zdr_pmap3_mapping.
Definition zdr_PMAP3GETADDRres : proc pmap3_string_result := zdr_pmap3_string_result.
Definition zdr_PMAP3DUMPres (fuel : nat) : proc pmap3_dump_result := zdr_pmap3_dump_result fuel.
#[global] Instance PMAP3DUMPres_codec fuel : Codec (zdr_PMAP3DUMPres fuel). Proof. codec zdr_PMAP3DUMPres. Defined.
#[global] Instance PMAP3DUMPres_blank fuel : Blank (zdr_PMAP3DUMPres fuel) zero_pmap3_dump_result. Proof. blank
  zdr_PMAP3DUMPres. Qed.

Definition zdr_PMAP3CALLITargs : proc pmap3_call_args := zdr_pmap3_call_args.
Definition zdr_PMAP3CALLITres : proc rpcb_rmtcallres := zdr_rpcb_rmtcallres.
Definition zdr_PMAP3UADDR2TADDRargs : proc pmap3_string_result := zdr_pmap3_string_result.
Definition zdr_PMAP3UADDR2TADDRres : proc pmap3_netbuf := zdr_pmap3_netbuf.
Definition zdr_PMAP3TADDR2UADDRargs : proc pmap3_netbuf := zdr_pmap3_netbuf.
Definition zdr_PMAP3TADDR2UADDRres : proc pmap3_string_result := zdr_pmap3_string_result.
Definition zdr_PMAP4SETargs : proc pmap4_mapping := zdr_pmap4_mapping.
Definition zdr_PMAP4UNSETargs : proc pmap4_mapping := zdr_pmap4_mapping.
Definition zdr_PMAP4GETADDRargs : proc pmap4_mapping := zdr_pmap4_mapping.
Definition zdr_PMAP4GETADDRres : proc pmap4_string_result := zdr_pmap4_string_result.
Definition zdr_PMAP4DUMPres (fuel : nat) : proc pmap4_dump_result := zdr_pmap4_dump_result fuel.
#[global] Instance PMAP4DUMPres_codec fuel : Codec (zdr_PMAP4DUMPres fuel). Proof. codec zdr_PMAP4DUMPres. Defined.
#[global] Instance PMAP4DUMPres_blank fuel : Blank (zdr_PMAP4DUMPres fuel) zero_pmap4_dump_result. Proof. blank
  zdr_PMAP4DUMPres. Qed.

Definition zdr_PMAP4BCASTargs : proc pmap4_bcast_args := zdr_pmap4_bcast_args.
Definition zdr_PMAP4BCASTres : proc rpcb_rmtcallres := zdr_rpcb_rmtcallres.
Definition zdr_PMAP4UADDR2TADDRargs : proc pmap3_string_result := zdr_pmap3_string_result.
Definition zdr_PMAP4UADDR2TADDRres : proc pmap4_netbuf := zdr_pmap4_netbuf.
Definition zdr_PMAP4TADDR2UADDRargs : proc pmap4_netbuf := zdr_pmap4_netbuf.
Definition zdr_PMAP4TADDR2UADDRres : proc pmap4_string_result := zdr_pmap4_string_result.
Definition zdr_PMAP4GETVERSADDRargs : proc pmap4_mapping := zdr_pmap4_mapping.
Definition zdr_PMAP4GETVERSADDRres : proc pmap4_string_result := zdr_pmap4_string_result.
Definition zdr_PMAP4INDIRECTargs : proc pmap4_indirect_args := zdr_pmap4_indirect_args.
Definition zdr_PMAP4INDIRECTres : proc rpcb_rmtcallres := zdr_rpcb_rmtcallres.
Definition zdr_PMAP4GETSTATres (fuel : nat) : proc (list rpcb_stat) := zdr_pmap4_stat_byvers fuel.
#[global] Instance PMAP4GETSTATres_codec fuel : Codec (zdr_PMAP4GETSTATres fuel). Proof. codec zdr_PMAP4GETSTATres. Defined.
#[global] Instance PMAP4GETSTATres_blank fuel : Blank (zdr_PMAP4GETSTATres fuel) (replicate 3 zero_rpcb_stat). Proof.
  blank zdr_PMAP4GETSTATres. Qed.

Definition zdr_PMAP4GETADDRLISTargs : proc pmap4_mapping := zdr_pmap4_mapping.
Definition zdr_PMAP4GETADDRLISTres (fuel : nat) : proc (option rpcb_entry_list) := zdr_pmap4_entry_list_ptr fuel.
#[global] Instance PMAP4GETADDRLISTres_codec fuel : Codec (zdr_PMAP4GETADDRLISTres fuel). Proof. codec
  zdr_PMAP4GETADDRLISTres. Defined.
#[global] Instance PMAP4GETADDRLISTres_blank fuel : Blank (zdr_PMAP4GETADDRLISTres fuel) None. Proof. blank
  zdr_PMAP4GETADDRLISTres. Qed.
End XP.
