(* ===== verification/LockXdr.v ===== *)
(** * LockXdr: the data of the protocols of locks, status and quotas

    nlm/libnfs-raw-nlm.c, nsm/libnfs-raw-nsm.c and rquota/libnfs-raw-rquota.c,
    with their headers.  *)

From S2P Require Import Prelude Zdr Xdr.

#[local] Open Scope zdr_scope.
#[local] Set Warnings "-register-all".

Module XL.
Definition NLM4_DENIED : Z := 1.

Record nlm_fh4 := mknlm_fh4 {
  nlm_fh4_data : ptr * Z
}.
Definition zero_nlm_fh4 : nlm_fh4 := mknlm_fh4 (NULL, 0).
Definition fields_nlm_fh4 (x : nlm_fh4) := nlm_fh4_data x.
Definition make_nlm_fh4 (t : (ptr * Z)) : nlm_fh4 := mknlm_fh4 t.
#[global] Instance nlm_fh4_iso : Iso fields_nlm_fh4 make_nlm_fh4. Proof. iso. Qed.
Definition zdr_nlm_fh4 : proc nlm_fh4 := zdr_via fields_nlm_fh4 make_nlm_fh4 (zdr_bytes).
#[global] Instance nlm_fh4_codec : Codec zdr_nlm_fh4. Proof. codec zdr_nlm_fh4. Defined.
#[global] Instance nlm_fh4_blank : Blank zdr_nlm_fh4 zero_nlm_fh4. Proof. blank zdr_nlm_fh4. Qed.

Definition zdr_nlm4_oh : proc ptr := zdr_string.
Record nlm_cookie := mknlm_cookie {
  nlm_cookie_data : ptr * Z
}.
Definition zero_nlm_cookie : nlm_cookie := mknlm_cookie (NULL, 0).
Definition fields_nlm_cookie (x : nlm_cookie) := nlm_cookie_data x.
Definition make_nlm_cookie (t : (ptr * Z)) : nlm_cookie := mknlm_cookie t.
#[global] Instance nlm_cookie_iso : Iso fields_nlm_cookie make_nlm_cookie. Proof. iso. Qed.
Definition zdr_nlm_cookie : proc nlm_cookie := zdr_via fields_nlm_cookie make_nlm_cookie (zdr_bytes).
#[global] Instance nlm_cookie_codec : Codec zdr_nlm_cookie. Proof. codec zdr_nlm_cookie. Defined.
#[global] Instance nlm_cookie_blank : Blank zdr_nlm_cookie zero_nlm_cookie. Proof. blank zdr_nlm_cookie. Qed.

Definition zdr_nlmstat4 : proc Z := zdr_enum.
Record nlm4_holder := mknlm4_holder {
  nlm4_holder_exclusive : Z; nlm4_holder_svid : Z; nlm4_holder_oh : ptr; nlm4_holder_l_offset : Z; nlm4_holder_l_len : Z
}.
Definition zero_nlm4_holder : nlm4_holder := mknlm4_holder 0 0 NULL 0 0.
Definition fields_nlm4_holder (x : nlm4_holder) := (nlm4_holder_exclusive x, (nlm4_holder_svid x, (nlm4_holder_oh x,
  (nlm4_holder_l_offset x, nlm4_holder_l_len x)))).
Definition make_nlm4_holder (t : (Z * (Z * (ptr * (Z * Z))))) : nlm4_holder := mknlm4_holder t.1 t.2.1 t.2.2.1 t.2.2.2.1
  t.2.2.2.2.
#[global] Instance nlm4_holder_iso : Iso fields_nlm4_holder make_nlm4_holder. Proof. iso. Qed.
Definition zdr_nlm4_holder : proc nlm4_holder := zdr_via fields_nlm4_holder make_nlm4_holder (zdr_bool >>> zdr_u_int >>>
  zdr_nlm4_oh >>> zdr_uint64_t >>> zdr_uint64_t).
#[global] Instance nlm4_holder_codec : Codec zdr_nlm4_holder. Proof. codec zdr_nlm4_holder. Defined.
#[global] Instance nlm4_holder_blank : Blank zdr_nlm4_holder zero_nlm4_holder. Proof. blank zdr_nlm4_holder. Qed.

Record nlm4_lock := mknlm4_lock {
    nlm4_lock_caller_name : ptr; nlm4_lock_fh : nlm_fh4; nlm4_lock_oh : ptr; nlm4_lock_svid : Z; nlm4_lock_l_offset : Z;
    nlm4_lock_l_len : Z
}.
Definition zero_nlm4_lock : nlm4_lock := mknlm4_lock NULL zero_nlm_fh4 NULL 0 0 0.
Definition fields_nlm4_lock (x : nlm4_lock) := (nlm4_lock_caller_name x, (nlm4_lock_fh x, (nlm4_lock_oh x, (nlm4_lock_svid
  x, (nlm4_lock_l_offset x, nlm4_lock_l_len x))))).
Definition make_nlm4_lock (t : (ptr * (nlm_fh4 * (ptr * (Z * (Z * Z)))))) : nlm4_lock := mknlm4_lock t.1 t.2.1 t.2.2.1
  t.2.2.2.1 t.2.2.2.2.1 t.2.2.2.2.2.
#[global] Instance nlm4_lock_iso : Iso fields_nlm4_lock make_nlm4_lock. Proof. iso. Qed.
Definition zdr_nlm4_lock : proc nlm4_lock := zdr_via fields_nlm4_lock make_nlm4_lock (zdr_string >>> zdr_nlm_fh4 >>>
  zdr_nlm4_oh >>> zdr_u_int >>> zdr_uint64_t >>> zdr_uint64_t).
#[global] Instance nlm4_lock_codec : Codec zdr_nlm4_lock. Proof. codec zdr_nlm4_lock. Defined.
#[global] Instance nlm4_lock_blank : Blank zdr_nlm4_lock zero_nlm4_lock. Proof. blank zdr_nlm4_lock. Qed.

Record nlm4_share := mknlm4_share {
  nlm4_share_caller_name : ptr; nlm4_share_fh : nlm_fh4; nlm4_share_oh : ptr; nlm4_share_mode : Z; nlm4_share_access : Z
}.
Definition zero_nlm4_share : nlm4_share := mknlm4_share NULL zero_nlm_fh4 NULL 0 0.
Definition fields_nlm4_share (x : nlm4_share) := (nlm4_share_caller_name x, (nlm4_share_fh x, (nlm4_share_oh x,
  (nlm4_share_mode x, nlm4_share_access x)))).
Definition make_nlm4_share (t : (ptr * (nlm_fh4 * (ptr * (Z * Z))))) : nlm4_share := mknlm4_share t.1 t.2.1 t.2.2.1
  t.2.2.2.1 t.2.2.2.2.
#[global] Instance nlm4_share_iso : Iso fields_nlm4_share make_nlm4_share. Proof. iso. Qed.
Definition zdr_nlm4_share : proc nlm4_share := zdr_via fields_nlm4_share make_nlm4_share (zdr_string >>> zdr_nlm_fh4 >>>
  zdr_nlm4_oh >>> zdr_u_int >>> zdr_u_int).
#[global] Instance nlm4_share_codec : Codec zdr_nlm4_share. Proof. codec zdr_nlm4_share. Defined.
#[global] Instance nlm4_share_blank : Blank zdr_nlm4_share zero_nlm4_share. Proof. blank zdr_nlm4_share. Qed.

Record nlm4_testres_denied := mknlm4_testres_denied {
  nlm4_testres_denied_holder : nlm4_holder
}.
Definition zero_nlm4_testres_denied : nlm4_testres_denied := mknlm4_testres_denied zero_nlm4_holder.
Definition fields_nlm4_testres_denied (x : nlm4_testres_denied) := nlm4_testres_denied_holder x.
Definition make_nlm4_testres_denied (t : nlm4_holder) : nlm4_testres_denied := mknlm4_testres_denied t.
#[global] Instance nlm4_testres_denied_iso : Iso fields_nlm4_testres_denied make_nlm4_testres_denied. Proof. iso. Qed.
Definition zdr_nlm4_testres_denied : proc nlm4_testres_denied := zdr_via fields_nlm4_testres_denied
  make_nlm4_testres_denied (zdr_nlm4_holder).
#[global] Instance nlm4_testres_denied_codec : Codec zdr_nlm4_testres_denied. Proof. codec zdr_nlm4_testres_denied. Defined.
#[global] Instance nlm4_testres_denied_blank : Blank zdr_nlm4_testres_denied zero_nlm4_testres_denied. Proof. blank
  zdr_nlm4_testres_denied. Qed.

Inductive nlm4_testreply_union := nlm4_testreply_cleared | nlm4_testreply_lock (x : nlm4_testres_denied).
Record nlm4_testreply := mknlm4_testreply { nlm4_testreply_status : Z; nlm4_testreply_u : nlm4_testreply_union }.
Definition zero_nlm4_testreply : nlm4_testreply := mknlm4_testreply 0 nlm4_testreply_cleared.
Definition fields_nlm4_testreply (x : nlm4_testreply) := (nlm4_testreply_status x, nlm4_testreply_u x).
Definition make_nlm4_testreply (t : (Z * nlm4_testreply_union)) : nlm4_testreply := mknlm4_testreply t.1 t.2.
#[global] Instance nlm4_testreply_iso : Iso fields_nlm4_testreply make_nlm4_testreply. Proof. iso. Qed.
Definition as_nlm4_testreply_lock (u : nlm4_testreply_union) : nlm4_testres_denied := match u with nlm4_testreply_lock x
  => x | _ => zero_nlm4_testres_denied end.
#[global] Instance nlm4_testreply_lock_member : Variant as_nlm4_testreply_lock nlm4_testreply_lock. Proof. done. Qed.
Definition case_nlm4_testreply (d : Z) : proc nlm4_testreply_union :=
  if (d =? NLM4_DENIED) then zdr_member as_nlm4_testreply_lock nlm4_testreply_lock zdr_nlm4_testres_denied
  else zdr_void.
#[global] Instance case_nlm4_testreply_codec d : Codec (case_nlm4_testreply d). Proof. codec case_nlm4_testreply. Defined.
#[global] Instance case_nlm4_testreply_blank d : Blank (case_nlm4_testreply d) nlm4_testreply_cleared. Proof. blank
  case_nlm4_testreply. Qed.
Definition zdr_nlm4_testreply : proc nlm4_testreply := zdr_via fields_nlm4_testreply make_nlm4_testreply (zdr_dseq
  zdr_nlmstat4 (case_nlm4_testreply)).
#[global] Instance nlm4_testreply_codec : Codec zdr_nlm4_testreply. Proof. codec zdr_nlm4_testreply. Defined.
#[global] Instance nlm4_testreply_blank : Blank zdr_nlm4_testreply zero_nlm4_testreply. Proof. blank zdr_nlm4_testreply. Qed.

Record NLM4_TESTres := mkNLM4_TESTres {
  NLM4_TESTres_cookie : nlm_cookie; NLM4_TESTres_reply : nlm4_testreply
}.
Definition zero_NLM4_TESTres : NLM4_TESTres := mkNLM4_TESTres zero_nlm_cookie zero_nlm4_testreply.
Definition fields_NLM4_TESTres (x : NLM4_TESTres) := (NLM4_TESTres_cookie x, NLM4_TESTres_reply x).
Definition make_NLM4_TESTres (t : (nlm_cookie * nlm4_testreply)) : NLM4_TESTres := mkNLM4_TESTres t.1 t.2.
#[global] Instance NLM4_TESTres_iso : Iso fields_NLM4_TESTres make_NLM4_TESTres. Proof. iso. Qed.
Definition zdr_NLM4_TESTres : proc NLM4_TESTres := zdr_via fields_NLM4_TESTres make_NLM4_TESTres (zdr_nlm_cookie >>>
  zdr_nlm4_testreply).
#[global] Instance NLM4_TESTres_codec : Codec zdr_NLM4_TESTres. Proof. codec zdr_NLM4_TESTres. Defined.
#[global] Instance NLM4_TESTres_blank : Blank zdr_NLM4_TESTres zero_NLM4_TESTres. Proof. blank zdr_NLM4_TESTres. Qed.

Record NLM4_TESTargs := mkNLM4_TESTargs {
  NLM4_TESTargs_cookie : nlm_cookie; NLM4_TESTargs_exclusive : Z; NLM4_TESTargs_lock : nlm4_lock
}.
Definition zero_NLM4_TESTargs : NLM4_TESTargs := mkNLM4_TESTargs zero_nlm_cookie 0 zero_nlm4_lock.
Definition fields_NLM4_TESTargs (x : NLM4_TESTargs) := (NLM4_TESTargs_cookie x, (NLM4_TESTargs_exclusive x,
  NLM4_TESTargs_lock x)).
Definition make_NLM4_TESTargs (t : (nlm_cookie * (Z * nlm4_lock))) : NLM4_TESTargs := mkNLM4_TESTargs t.1 t.2.1 t.2.2.
#[global] Instance NLM4_TESTargs_iso : Iso fields_NLM4_TESTargs make_NLM4_TESTargs. Proof. iso. Qed.
Definition zdr_NLM4_TESTargs : proc NLM4_TESTargs := zdr_via fields_NLM4_TESTargs make_NLM4_TESTargs (zdr_nlm_cookie >>>
  zdr_bool >>> zdr_nlm4_lock).
#[global] Instance NLM4_TESTargs_codec : Codec zdr_NLM4_TESTargs. Proof. codec zdr_NLM4_TESTargs. Defined.
#[global] Instance NLM4_TESTargs_blank : Blank zdr_NLM4_TESTargs zero_NLM4_TESTargs. Proof. blank zdr_NLM4_TESTargs. Qed.

Record NLM4_CANCres := mkNLM4_CANCres {
  NLM4_CANCres_cookie : nlm_cookie; NLM4_CANCres_status : Z
}.
Definition zero_NLM4_CANCres : NLM4_CANCres := mkNLM4_CANCres zero_nlm_cookie 0.
Definition fields_NLM4_CANCres (x : NLM4_CANCres) := (NLM4_CANCres_cookie x, NLM4_CANCres_status x).
Definition make_NLM4_CANCres (t : (nlm_cookie * Z)) : NLM4_CANCres := mkNLM4_CANCres t.1 t.2.
#[global] Instance NLM4_CANCres_iso : Iso fields_NLM4_CANCres make_NLM4_CANCres. Proof. iso. Qed.
Definition zdr_NLM4_CANCres : proc NLM4_CANCres := zdr_via fields_NLM4_CANCres make_NLM4_CANCres (zdr_nlm_cookie >>>
  zdr_nlmstat4).
#[global] Instance NLM4_CANCres_codec : Codec zdr_NLM4_CANCres. Proof. codec zdr_NLM4_CANCres. Defined.
#[global] Instance NLM4_CANCres_blank : Blank zdr_NLM4_CANCres zero_NLM4_CANCres. Proof. blank zdr_NLM4_CANCres. Qed.

Record NLM4_CANCargs := mkNLM4_CANCargs {
  NLM4_CANCargs_cookie : nlm_cookie; NLM4_CANCargs_block : Z; NLM4_CANCargs_exclusive : Z; NLM4_CANCargs_lock : nlm4_lock
}.
Definition zero_NLM4_CANCargs : NLM4_CANCargs := mkNLM4_CANCargs zero_nlm_cookie 0 0 zero_nlm4_lock.
Definition fields_NLM4_CANCargs (x : NLM4_CANCargs) := (NLM4_CANCargs_cookie x, (NLM4_CANCargs_block x,
  (NLM4_CANCargs_exclusive x, NLM4_CANCargs_lock x))).
Definition make_NLM4_CANCargs (t : (nlm_cookie * (Z * (Z * nlm4_lock)))) : NLM4_CANCargs := mkNLM4_CANCargs t.1 t.2.1
  t.2.2.1 t.2.2.2.
#[global] Instance NLM4_CANCargs_iso : Iso fields_NLM4_CANCargs make_NLM4_CANCargs. Proof. iso. Qed.
Definition zdr_NLM4_CANCargs : proc NLM4_CANCargs := zdr_via fields_NLM4_CANCargs make_NLM4_CANCargs (zdr_nlm_cookie >>>
  zdr_bool >>> zdr_bool >>> zdr_nlm4_lock).
#[global] Instance NLM4_CANCargs_codec : Codec zdr_NLM4_CANCargs. Proof. codec zdr_NLM4_CANCargs. Defined.
#[global] Instance NLM4_CANCargs_blank : Blank zdr_NLM4_CANCargs zero_NLM4_CANCargs. Proof. blank zdr_NLM4_CANCargs. Qed.

Record NLM4_UNLOCKres := mkNLM4_UNLOCKres {
  NLM4_UNLOCKres_cookie : nlm_cookie; NLM4_UNLOCKres_status : Z
}.
Definition zero_NLM4_UNLOCKres : NLM4_UNLOCKres := mkNLM4_UNLOCKres zero_nlm_cookie 0.
Definition fields_NLM4_UNLOCKres (x : NLM4_UNLOCKres) := (NLM4_UNLOCKres_cookie x, NLM4_UNLOCKres_status x).
Definition make_NLM4_UNLOCKres (t : (nlm_cookie * Z)) : NLM4_UNLOCKres := mkNLM4_UNLOCKres t.1 t.2.
#[global] Instance NLM4_UNLOCKres_iso : Iso fields_NLM4_UNLOCKres make_NLM4_UNLOCKres. Proof. iso. Qed.
Definition zdr_NLM4_UNLOCKres : proc NLM4_UNLOCKres := zdr_via fields_NLM4_UNLOCKres make_NLM4_UNLOCKres (zdr_nlm_cookie
  >>> zdr_nlmstat4).
#[global] Instance NLM4_UNLOCKres_codec : Codec zdr_NLM4_UNLOCKres. Proof. codec zdr_NLM4_UNLOCKres. Defined.
#[global] Instance NLM4_UNLOCKres_blank : Blank zdr_NLM4_UNLOCKres zero_NLM4_UNLOCKres. Proof. blank zdr_NLM4_UNLOCKres. Qed.

Record NLM4_UNLOCKargs := mkNLM4_UNLOCKargs {
  NLM4_UNLOCKargs_cookie : nlm_cookie; NLM4_UNLOCKargs_lock : nlm4_lock
}.
Definition zero_NLM4_UNLOCKargs : NLM4_UNLOCKargs := mkNLM4_UNLOCKargs zero_nlm_cookie zero_nlm4_lock.
Definition fields_NLM4_UNLOCKargs (x : NLM4_UNLOCKargs) := (NLM4_UNLOCKargs_cookie x, NLM4_UNLOCKargs_lock x).
Definition make_NLM4_UNLOCKargs (t : (nlm_cookie * nlm4_lock)) : NLM4_UNLOCKargs := mkNLM4_UNLOCKargs t.1 t.2.
#[global] Instance NLM4_UNLOCKargs_iso : Iso fields_NLM4_UNLOCKargs make_NLM4_UNLOCKargs. Proof. iso. Qed.
Definition zdr_NLM4_UNLOCKargs : proc NLM4_UNLOCKargs := zdr_via fields_NLM4_UNLOCKargs make_NLM4_UNLOCKargs
  (zdr_nlm_cookie >>> zdr_nlm4_lock).
#[global] Instance NLM4_UNLOCKargs_codec : Codec zdr_NLM4_UNLOCKargs. Proof. codec zdr_NLM4_UNLOCKargs. Defined.
#[global] Instance NLM4_UNLOCKargs_blank : Blank zdr_NLM4_UNLOCKargs zero_NLM4_UNLOCKargs. Proof. blank
  zdr_NLM4_UNLOCKargs. Qed.

Record NLM4_LOCKres := mkNLM4_LOCKres {
  NLM4_LOCKres_cookie : nlm_cookie; NLM4_LOCKres_status : Z
}.
Definition zero_NLM4_LOCKres : NLM4_LOCKres := mkNLM4_LOCKres zero_nlm_cookie 0.
Definition fields_NLM4_LOCKres (x : NLM4_LOCKres) := (NLM4_LOCKres_cookie x, NLM4_LOCKres_status x).
Definition make_NLM4_LOCKres (t : (nlm_cookie * Z)) : NLM4_LOCKres := mkNLM4_LOCKres t.1 t.2.
#[global] Instance NLM4_LOCKres_iso : Iso fields_NLM4_LOCKres make_NLM4_LOCKres. Proof. iso. Qed.
Definition zdr_NLM4_LOCKres : proc NLM4_LOCKres := zdr_via fields_NLM4_LOCKres make_NLM4_LOCKres (zdr_nlm_cookie >>>
  zdr_nlmstat4).
#[global] Instance NLM4_LOCKres_codec : Codec zdr_NLM4_LOCKres. Proof. codec zdr_NLM4_LOCKres. Defined.
#[global] Instance NLM4_LOCKres_blank : Blank zdr_NLM4_LOCKres zero_NLM4_LOCKres. Proof. blank zdr_NLM4_LOCKres. Qed.

Record NLM4_LOCKargs := mkNLM4_LOCKargs {
    NLM4_LOCKargs_cookie : nlm_cookie; NLM4_LOCKargs_block : Z; NLM4_LOCKargs_exclusive : Z; NLM4_LOCKargs_lock :
    nlm4_lock; NLM4_LOCKargs_reclaim : Z; NLM4_LOCKargs_state : Z
}.
Definition zero_NLM4_LOCKargs : NLM4_LOCKargs := mkNLM4_LOCKargs zero_nlm_cookie 0 0 zero_nlm4_lock 0 0.
Definition fields_NLM4_LOCKargs (x : NLM4_LOCKargs) := (NLM4_LOCKargs_cookie x, (NLM4_LOCKargs_block x,
  (NLM4_LOCKargs_exclusive x, (NLM4_LOCKargs_lock x, (NLM4_LOCKargs_reclaim x, NLM4_LOCKargs_state x))))).
Definition make_NLM4_LOCKargs (t : (nlm_cookie * (Z * (Z * (nlm4_lock * (Z * Z)))))) : NLM4_LOCKargs := mkNLM4_LOCKargs
  t.1 t.2.1 t.2.2.1 t.2.2.2.1 t.2.2.2.2.1 t.2.2.2.2.2.
#[global] Instance NLM4_LOCKargs_iso : Iso fields_NLM4_LOCKargs make_NLM4_LOCKargs. Proof. iso. Qed.
Definition zdr_NLM4_LOCKargs : proc NLM4_LOCKargs := zdr_via fields_NLM4_LOCKargs make_NLM4_LOCKargs (zdr_nlm_cookie >>>
  zdr_bool >>> zdr_bool >>> zdr_nlm4_lock >>> zdr_bool >>> zdr_int).
#[global] Instance NLM4_LOCKargs_codec : Codec zdr_NLM4_LOCKargs. Proof. codec zdr_NLM4_LOCKargs. Defined.
#[global] Instance NLM4_LOCKargs_blank : Blank zdr_NLM4_LOCKargs zero_NLM4_LOCKargs. Proof. blank zdr_NLM4_LOCKargs. Qed.

Record NLM4_GRANTEDargs := mkNLM4_GRANTEDargs {
  NLM4_GRANTEDargs_cookie : nlm_cookie; NLM4_GRANTEDargs_exclusive : Z; NLM4_GRANTEDargs_lock : nlm4_lock
}.
Definition zero_NLM4_GRANTEDargs : NLM4_GRANTEDargs := mkNLM4_GRANTEDargs zero_nlm_cookie 0 zero_nlm4_lock.
Definition fields_NLM4_GRANTEDargs (x : NLM4_GRANTEDargs) := (NLM4_GRANTEDargs_cookie x, (NLM4_GRANTEDargs_exclusive x,
  NLM4_GRANTEDargs_lock x)).
Definition make_NLM4_GRANTEDargs (t : (nlm_cookie * (Z * nlm4_lock))) : NLM4_GRANTEDargs := mkNLM4_GRANTEDargs t.1 t.2.1
  t.2.2.
#[global] Instance NLM4_GRANTEDargs_iso : Iso fields_NLM4_GRANTEDargs make_NLM4_GRANTEDargs. Proof. iso. Qed.
Definition zdr_NLM4_GRANTEDargs : proc NLM4_GRANTEDargs := zdr_via fields_NLM4_GRANTEDargs make_NLM4_GRANTEDargs
  (zdr_nlm_cookie >>> zdr_bool >>> zdr_nlm4_lock).
#[global] Instance NLM4_GRANTEDargs_codec : Codec zdr_NLM4_GRANTEDargs. Proof. codec zdr_NLM4_GRANTEDargs. Defined.
#[global] Instance NLM4_GRANTEDargs_blank : Blank zdr_NLM4_GRANTEDargs zero_NLM4_GRANTEDargs. Proof. blank
  zdr_NLM4_GRANTEDargs. Qed.

Record NLM4_GRANTEDres := mkNLM4_GRANTEDres {
  NLM4_GRANTEDres_cookie : nlm_cookie; NLM4_GRANTEDres_status : Z
}.
Definition zero_NLM4_GRANTEDres : NLM4_GRANTEDres := mkNLM4_GRANTEDres zero_nlm_cookie 0.
Definition fields_NLM4_GRANTEDres (x : NLM4_GRANTEDres) := (NLM4_GRANTEDres_cookie x, NLM4_GRANTEDres_status x).
Definition make_NLM4_GRANTEDres (t : (nlm_cookie * Z)) : NLM4_GRANTEDres := mkNLM4_GRANTEDres t.1 t.2.
#[global] Instance NLM4_GRANTEDres_iso : Iso fields_NLM4_GRANTEDres make_NLM4_GRANTEDres. Proof. iso. Qed.
Definition zdr_NLM4_GRANTEDres : proc NLM4_GRANTEDres := zdr_via fields_NLM4_GRANTEDres make_NLM4_GRANTEDres
  (zdr_nlm_cookie >>> zdr_nlmstat4).
#[global] Instance NLM4_GRANTEDres_codec : Codec zdr_NLM4_GRANTEDres. Proof. codec zdr_NLM4_GRANTEDres. Defined.
#[global] Instance NLM4_GRANTEDres_blank : Blank zdr_NLM4_GRANTEDres zero_NLM4_GRANTEDres. Proof. blank
  zdr_NLM4_GRANTEDres. Qed.

Record NLM4_SHAREres := mkNLM4_SHAREres {
  NLM4_SHAREres_cookie : nlm_cookie; NLM4_SHAREres_status : Z; NLM4_SHAREres_sequence : Z
}.
Definition zero_NLM4_SHAREres : NLM4_SHAREres := mkNLM4_SHAREres zero_nlm_cookie 0 0.
Definition fields_NLM4_SHAREres (x : NLM4_SHAREres) := (NLM4_SHAREres_cookie x, (NLM4_SHAREres_status x,
  NLM4_SHAREres_sequence x)).
Definition make_NLM4_SHAREres (t : (nlm_cookie * (Z * Z))) : NLM4_SHAREres := mkNLM4_SHAREres t.1 t.2.1 t.2.2.
#[global] Instance NLM4_SHAREres_iso : Iso fields_NLM4_SHAREres make_NLM4_SHAREres. Proof. iso. Qed.
Definition zdr_NLM4_SHAREres : proc NLM4_SHAREres := zdr_via fields_NLM4_SHAREres make_NLM4_SHAREres (zdr_nlm_cookie >>>
  zdr_nlmstat4 >>> zdr_void).
#[global] Instance NLM4_SHAREres_codec : Codec zdr_NLM4_SHAREres. Proof. codec zdr_NLM4_SHAREres. Defined.
#[global] Instance NLM4_SHAREres_blank : Blank zdr_NLM4_SHAREres zero_NLM4_SHAREres. Proof. blank zdr_NLM4_SHAREres. Qed.

Record NLM4_SHAREargs := mkNLM4_SHAREargs {
  NLM4_SHAREargs_cookie : nlm_cookie; NLM4_SHAREargs_share : nlm4_share; NLM4_SHAREargs_reclaim : Z
}.
Definition zero_NLM4_SHAREargs : NLM4_SHAREargs := mkNLM4_SHAREargs zero_nlm_cookie zero_nlm4_share 0.
Definition fields_NLM4_SHAREargs (x : NLM4_SHAREargs) := (NLM4_SHAREargs_cookie x, (NLM4_SHAREargs_share x,
  NLM4_SHAREargs_reclaim x)).
Definition make_NLM4_SHAREargs (t : (nlm_cookie * (nlm4_share * Z))) : NLM4_SHAREargs := mkNLM4_SHAREargs t.1 t.2.1 t.2.2.
#[global] Instance NLM4_SHAREargs_iso : Iso fields_NLM4_SHAREargs make_NLM4_SHAREargs. Proof. iso. Qed.
Definition zdr_NLM4_SHAREargs : proc NLM4_SHAREargs := zdr_via fields_NLM4_SHAREargs make_NLM4_SHAREargs (zdr_nlm_cookie
  >>> zdr_nlm4_share >>> zdr_bool).
#[global] Instance NLM4_SHAREargs_codec : Codec zdr_NLM4_SHAREargs. Proof. codec zdr_NLM4_SHAREargs. Defined.
#[global] Instance NLM4_SHAREargs_blank : Blank zdr_NLM4_SHAREargs zero_NLM4_SHAREargs. Proof. blank zdr_NLM4_SHAREargs. Qed.

Record NLM4_UNSHAREres := mkNLM4_UNSHAREres {
  NLM4_UNSHAREres_cookie : nlm_cookie; NLM4_UNSHAREres_status : Z; NLM4_UNSHAREres_sequence : Z
}.
Definition zero_NLM4_UNSHAREres : NLM4_UNSHAREres := mkNLM4_UNSHAREres zero_nlm_cookie 0 0.
Definition fields_NLM4_UNSHAREres (x : NLM4_UNSHAREres) := (NLM4_UNSHAREres_cookie x, (NLM4_UNSHAREres_status x,
  NLM4_UNSHAREres_sequence x)).
Definition make_NLM4_UNSHAREres (t : (nlm_cookie * (Z * Z))) : NLM4_UNSHAREres := mkNLM4_UNSHAREres t.1 t.2.1 t.2.2.
#[global] Instance NLM4_UNSHAREres_iso : Iso fields_NLM4_UNSHAREres make_NLM4_UNSHAREres. Proof. iso. Qed.
Definition zdr_NLM4_UNSHAREres : proc NLM4_UNSHAREres := zdr_via fields_NLM4_UNSHAREres make_NLM4_UNSHAREres
  (zdr_nlm_cookie >>> zdr_nlmstat4 >>> zdr_void).
#[global] Instance NLM4_UNSHAREres_codec : Codec zdr_NLM4_UNSHAREres. Proof. codec zdr_NLM4_UNSHAREres. Defined.
#[global] Instance NLM4_UNSHAREres_blank : Blank zdr_NLM4_UNSHAREres zero_NLM4_UNSHAREres. Proof. blank
  zdr_NLM4_UNSHAREres. Qed.

Definition zdr_NLM4_UNSHAREargs : proc NLM4_SHAREargs := zdr_via fields_NLM4_SHAREargs make_NLM4_SHAREargs (zdr_nlm_cookie
  >>> zdr_nlm4_share >>> zdr_bool).
#[global] Instance NLM4_UNSHAREargs_codec : Codec zdr_NLM4_UNSHAREargs. Proof. codec zdr_NLM4_UNSHAREargs. Defined.
#[global] Instance NLM4_UNSHAREargs_blank : Blank zdr_NLM4_UNSHAREargs zero_NLM4_SHAREargs. Proof. blank
  zdr_NLM4_UNSHAREargs. Qed.
End XL.

Module XS.
Definition zdr_nsmstat1 : proc Z := zdr_enum.
Record nsm_my_id := mknsm_my_id {
  nsm_my_id_my_name : ptr; nsm_my_id_my_prog : Z; nsm_my_id_my_vers : Z; nsm_my_id_my_proc : Z
}.
Definition zero_nsm_my_id : nsm_my_id := mknsm_my_id NULL 0 0 0.
Definition fields_nsm_my_id (x : nsm_my_id) := (nsm_my_id_my_name x, (nsm_my_id_my_prog x, (nsm_my_id_my_vers x,
  nsm_my_id_my_proc x))).
Definition make_nsm_my_id (t : (ptr * (Z * (Z * Z)))) : nsm_my_id := mknsm_my_id t.1 t.2.1 t.2.2.1 t.2.2.2.
#[global] Instance nsm_my_id_iso : Iso fields_nsm_my_id make_nsm_my_id. Proof. iso. Qed.
Definition zdr_nsm_my_id : proc nsm_my_id := zdr_via fields_nsm_my_id make_nsm_my_id (zdr_string >>> zdr_int >>> zdr_int
  >>> zdr_int).
#[global] Instance nsm_my_id_codec : Codec zdr_nsm_my_id. Proof. codec zdr_nsm_my_id. Defined.
#[global] Instance nsm_my_id_blank : Blank zdr_nsm_my_id zero_nsm_my_id. Proof. blank zdr_nsm_my_id. Qed.

Record nsm_mon_id := mknsm_mon_id {
  nsm_mon_id_mon_name : ptr; nsm_mon_id_my_id : nsm_my_id
}.
Definition zero_nsm_mon_id : nsm_mon_id := mknsm_mon_id NULL zero_nsm_my_id.
Definition fields_nsm_mon_id (x : nsm_mon_id) := (nsm_mon_id_mon_name x, nsm_mon_id_my_id x).
Definition make_nsm_mon_id (t : (ptr * nsm_my_id)) : nsm_mon_id := mknsm_mon_id t.1 t.2.
#[global] Instance nsm_mon_id_iso : Iso fields_nsm_mon_id make_nsm_mon_id. Proof. iso. Qed.
Definition zdr_nsm_mon_id : proc nsm_mon_id := zdr_via fields_nsm_mon_id make_nsm_mon_id (zdr_string >>> zdr_nsm_my_id).
#[global] Instance nsm_mon_id_codec : Codec zdr_nsm_mon_id. Proof. codec zdr_nsm_mon_id. Defined.
#[global] Instance nsm_mon_id_blank : Blank zdr_nsm_mon_id zero_nsm_mon_id. Proof. blank zdr_nsm_mon_id. Qed.

Record NSM1_STATres := mkNSM1_STATres {
  NSM1_STATres_res : Z; NSM1_STATres_state : Z
}.
Definition zero_NSM1_STATres : NSM1_STATres := mkNSM1_STATres 0 0.
Definition fields_NSM1_STATres (x : NSM1_STATres) := (NSM1_STATres_res x, NSM1_STATres_state x).
Definition make_NSM1_STATres (t : (Z * Z)) : NSM1_STATres := mkNSM1_STATres t.1 t.2.
#[global] Instance NSM1_STATres_iso : Iso fields_NSM1_STATres make_NSM1_STATres. Proof. iso. Qed.
Definition zdr_NSM1_STATres : proc NSM1_STATres := zdr_via fields_NSM1_STATres make_NSM1_STATres (zdr_nsmstat1 >>> zdr_int).
#[global] Instance NSM1_STATres_codec : Codec zdr_NSM1_STATres. Proof. codec zdr_NSM1_STATres. Defined.
#[global] Instance NSM1_STATres_blank : Blank zdr_NSM1_STATres zero_NSM1_STATres. Proof. blank zdr_NSM1_STATres. Qed.
#[global] Instance NSM1_STATres_safe : Safe zdr_NSM1_STATres. Proof. safe zdr_NSM1_STATres. Qed.

Record NSM1_STATargs := mkNSM1_STATargs {
  NSM1_STATargs_mon_name : ptr
}.
Definition zero_NSM1_STATargs : NSM1_STATargs := mkNSM1_STATargs NULL.
Definition fields_NSM1_STATargs (x : NSM1_STATargs) := NSM1_STATargs_mon_name x.
Definition make_NSM1_STATargs (t : ptr) : NSM1_STATargs := mkNSM1_STATargs t.
#[global] Instance NSM1_STATargs_iso : Iso fields_NSM1_STATargs make_NSM1_STATargs. Proof. iso. Qed.
Definition zdr_NSM1_STATargs : proc NSM1_STATargs := zdr_via fields_NSM1_STATargs make_NSM1_STATargs (zdr_string).
#[global] Instance NSM1_STATargs_codec : Codec zdr_NSM1_STATargs. Proof. codec zdr_NSM1_STATargs. Defined.
#[global] Instance NSM1_STATargs_blank : Blank zdr_NSM1_STATargs zero_NSM1_STATargs. Proof. blank zdr_NSM1_STATargs. Qed.

Record NSM1_MONres := mkNSM1_MONres {
  NSM1_MONres_res : Z; NSM1_MONres_state : Z
}.
Definition zero_NSM1_MONres : NSM1_MONres := mkNSM1_MONres 0 0.
Definition fields_NSM1_MONres (x : NSM1_MONres) := (NSM1_MONres_res x, NSM1_MONres_state x).
Definition make_NSM1_MONres (t : (Z * Z)) : NSM1_MONres := mkNSM1_MONres t.1 t.2.
#[global] Instance NSM1_MONres_iso : Iso fields_NSM1_MONres make_NSM1_MONres. Proof. iso. Qed.
Definition zdr_NSM1_MONres : proc NSM1_MONres := zdr_via fields_NSM1_MONres make_NSM1_MONres (zdr_nsmstat1 >>> zdr_int).
#[global] Instance NSM1_MONres_codec : Codec zdr_NSM1_MONres. Proof. codec zdr_NSM1_MONres. Defined.
#[global] Instance NSM1_MONres_blank : Blank zdr_NSM1_MONres zero_NSM1_MONres. Proof. blank zdr_NSM1_MONres. Qed.
#[global] Instance NSM1_MONres_safe : Safe zdr_NSM1_MONres. Proof. safe zdr_NSM1_MONres. Qed.

Record NSM1_MONargs := mkNSM1_MONargs {
  NSM1_MONargs_mon_id : nsm_mon_id; NSM1_MONargs_priv : ptr
}.
Definition zero_NSM1_MONargs : NSM1_MONargs := mkNSM1_MONargs zero_nsm_mon_id (Heap (zeros 16)).
Definition fields_NSM1_MONargs (x : NSM1_MONargs) := (NSM1_MONargs_mon_id x, NSM1_MONargs_priv x).
Definition make_NSM1_MONargs (t : (nsm_mon_id * ptr)) : NSM1_MONargs := mkNSM1_MONargs t.1 t.2.
#[global] Instance NSM1_MONargs_iso : Iso fields_NSM1_MONargs make_NSM1_MONargs. Proof. iso. Qed.
Definition zdr_NSM1_MONargs : proc NSM1_MONargs := zdr_via fields_NSM1_MONargs make_NSM1_MONargs (zdr_nsm_mon_id >>>
  (zdr_opaque 16)).
#[global] Instance NSM1_MONargs_codec : Codec zdr_NSM1_MONargs. Proof. codec zdr_NSM1_MONargs. Defined.
#[global] Instance NSM1_MONargs_blank : Blank zdr_NSM1_MONargs zero_NSM1_MONargs. Proof. blank zdr_NSM1_MONargs. Qed.

Record NSM1_UNMONres := mkNSM1_UNMONres {
  NSM1_UNMONres_state : Z
}.
Definition zero_NSM1_UNMONres : NSM1_UNMONres := mkNSM1_UNMONres 0.
Definition fields_NSM1_UNMONres (x : NSM1_UNMONres) := NSM1_UNMONres_state x.
Definition make_NSM1_UNMONres (t : Z) : NSM1_UNMONres := mkNSM1_UNMONres t.
#[global] Instance NSM1_UNMONres_iso : Iso fields_NSM1_UNMONres make_NSM1_UNMONres. Proof. iso. Qed.
Definition zdr_NSM1_UNMONres : proc NSM1_UNMONres := zdr_via fields_NSM1_UNMONres make_NSM1_UNMONres (zdr_int).
#[global] Instance NSM1_UNMONres_codec : Codec zdr_NSM1_UNMONres. Proof. codec zdr_NSM1_UNMONres. Defined.
#[global] Instance NSM1_UNMONres_blank : Blank zdr_NSM1_UNMONres zero_NSM1_UNMONres. Proof. blank zdr_NSM1_UNMONres. Qed.
#[global] Instance NSM1_UNMONres_safe : Safe zdr_NSM1_UNMONres. Proof. safe zdr_NSM1_UNMONres. Qed.

Record NSM1_UNMONargs := mkNSM1_UNMONargs {
  NSM1_UNMONargs_mon_id : nsm_mon_id
}.
Definition zero_NSM1_UNMONargs : NSM1_UNMONargs := mkNSM1_UNMONargs zero_nsm_mon_id.
Definition fields_NSM1_UNMONargs (x : NSM1_UNMONargs) := NSM1_UNMONargs_mon_id x.
Definition make_NSM1_UNMONargs (t : nsm_mon_id) : NSM1_UNMONargs := mkNSM1_UNMONargs t.
#[global] Instance NSM1_UNMONargs_iso : Iso fields_NSM1_UNMONargs make_NSM1_UNMONargs. Proof. iso. Qed.
Definition zdr_NSM1_UNMONargs : proc NSM1_UNMONargs := zdr_via fields_NSM1_UNMONargs make_NSM1_UNMONargs (zdr_nsm_mon_id).
#[global] Instance NSM1_UNMONargs_codec : Codec zdr_NSM1_UNMONargs. Proof. codec zdr_NSM1_UNMONargs. Defined.
#[global] Instance NSM1_UNMONargs_blank : Blank zdr_NSM1_UNMONargs zero_NSM1_UNMONargs. Proof. blank zdr_NSM1_UNMONargs. Qed.

Record NSM1_UNMONALLres := mkNSM1_UNMONALLres {
  NSM1_UNMONALLres_state : Z
}.
Definition zero_NSM1_UNMONALLres : NSM1_UNMONALLres := mkNSM1_UNMONALLres 0.
Definition fields_NSM1_UNMONALLres (x : NSM1_UNMONALLres) := NSM1_UNMONALLres_state x.
Definition make_NSM1_UNMONALLres (t : Z) : NSM1_UNMONALLres := mkNSM1_UNMONALLres t.
#[global] Instance NSM1_UNMONALLres_iso : Iso fields_NSM1_UNMONALLres make_NSM1_UNMONALLres. Proof. iso. Qed.
Definition zdr_NSM1_UNMONALLres : proc NSM1_UNMONALLres := zdr_via fields_NSM1_UNMONALLres make_NSM1_UNMONALLres (zdr_int).
#[global] Instance NSM1_UNMONALLres_codec : Codec zdr_NSM1_UNMONALLres. Proof. codec zdr_NSM1_UNMONALLres. Defined.
#[global] Instance NSM1_UNMONALLres_blank : Blank zdr_NSM1_UNMONALLres zero_NSM1_UNMONALLres. Proof. blank
  zdr_NSM1_UNMONALLres. Qed.
#[global] Instance NSM1_UNMONALLres_safe : Safe zdr_NSM1_UNMONALLres. Proof. safe zdr_NSM1_UNMONALLres. Qed.

Record NSM1_UNMONALLargs := mkNSM1_UNMONALLargs {
  NSM1_UNMONALLargs_my_id : nsm_my_id
}.
Definition zero_NSM1_UNMONALLargs : NSM1_UNMONALLargs := mkNSM1_UNMONALLargs zero_nsm_my_id.
Definition fields_NSM1_UNMONALLargs (x : NSM1_UNMONALLargs) := NSM1_UNMONALLargs_my_id x.
Definition make_NSM1_UNMONALLargs (t : nsm_my_id) : NSM1_UNMONALLargs := mkNSM1_UNMONALLargs t.
#[global] Instance NSM1_UNMONALLargs_iso : Iso fields_NSM1_UNMONALLargs make_NSM1_UNMONALLargs. Proof. iso. Qed.
Definition zdr_NSM1_UNMONALLargs : proc NSM1_UNMONALLargs := zdr_via fields_NSM1_UNMONALLargs make_NSM1_UNMONALLargs
  (zdr_nsm_my_id).
#[global] Instance NSM1_UNMONALLargs_codec : Codec zdr_NSM1_UNMONALLargs. Proof. codec zdr_NSM1_UNMONALLargs. Defined.
#[global] Instance NSM1_UNMONALLargs_blank : Blank zdr_NSM1_UNMONALLargs zero_NSM1_UNMONALLargs. Proof. blank
  zdr_NSM1_UNMONALLargs. Qed.

Record NSM1_NOTIFYargs := mkNSM1_NOTIFYargs {
  NSM1_NOTIFYargs_mon_name : ptr; NSM1_NOTIFYargs_state : Z
}.
Definition zero_NSM1_NOTIFYargs : NSM1_NOTIFYargs := mkNSM1_NOTIFYargs NULL 0.
Definition fields_NSM1_NOTIFYargs (x : NSM1_NOTIFYargs) := (NSM1_NOTIFYargs_mon_name x, NSM1_NOTIFYargs_state x).
Definition make_NSM1_NOTIFYargs (t : (ptr * Z)) : NSM1_NOTIFYargs := mkNSM1_NOTIFYargs t.1 t.2.
#[global] Instance NSM1_NOTIFYargs_iso : Iso fields_NSM1_NOTIFYargs make_NSM1_NOTIFYargs. Proof. iso. Qed.
Definition zdr_NSM1_NOTIFYargs : proc NSM1_NOTIFYargs := zdr_via fields_NSM1_NOTIFYargs make_NSM1_NOTIFYargs (zdr_string
  >>> zdr_int).
#[global] Instance NSM1_NOTIFYargs_codec : Codec zdr_NSM1_NOTIFYargs. Proof. codec zdr_NSM1_NOTIFYargs. Defined.
#[global] Instance NSM1_NOTIFYargs_blank : Blank zdr_NSM1_NOTIFYargs zero_NSM1_NOTIFYargs. Proof. blank
  zdr_NSM1_NOTIFYargs. Qed.
End XS.

Module XQ.
Definition RQUOTA_OK : Z := 1.

Definition zdr_rquotastat : proc Z := zdr_enum.
Definition zdr_exportpath : proc ptr := zdr_string.
Record GETQUOTA1args := mkGETQUOTA1args {
  GETQUOTA1args_export : ptr; GETQUOTA1args_uid : Z
}.
Definition zero_GETQUOTA1args : GETQUOTA1args := mkGETQUOTA1args NULL 0.
Definition fields_GETQUOTA1args (x : GETQUOTA1args) := (GETQUOTA1args_export x, GETQUOTA1args_uid x).
Definition make_GETQUOTA1args (t : (ptr * Z)) : GETQUOTA1args := mkGETQUOTA1args t.1 t.2.
#[global] Instance GETQUOTA1args_iso : Iso fields_GETQUOTA1args make_GETQUOTA1args. Proof. iso. Qed.
Definition zdr_GETQUOTA1args : proc GETQUOTA1args := zdr_via fields_GETQUOTA1args make_GETQUOTA1args (zdr_exportpath >>>
  zdr_int).
#[global] Instance GETQUOTA1args_codec : Codec zdr_GETQUOTA1args. Proof. codec zdr_GETQUOTA1args. Defined.
#[global] Instance GETQUOTA1args_blank : Blank zdr_GETQUOTA1args zero_GETQUOTA1args. Proof. blank zdr_GETQUOTA1args. Qed.

Definition zdr_quotatype : proc Z := zdr_enum.
Record GETQUOTA2args := mkGETQUOTA2args {
  GETQUOTA2args_export : ptr; GETQUOTA2args_type : Z; GETQUOTA2args_uid : Z
}.
Definition zero_GETQUOTA2args : GETQUOTA2args := mkGETQUOTA2args NULL 0 0.
Definition fields_GETQUOTA2args (x : GETQUOTA2args) := (GETQUOTA2args_export x, (GETQUOTA2args_type x, GETQUOTA2args_uid x)).
Definition make_GETQUOTA2args (t : (ptr * (Z * Z))) : GETQUOTA2args := mkGETQUOTA2args t.1 t.2.1 t.2.2.
#[global] Instance GETQUOTA2args_iso : Iso fields_GETQUOTA2args make_GETQUOTA2args. Proof. iso. Qed.
Definition zdr_GETQUOTA2args : proc GETQUOTA2args := zdr_via fields_GETQUOTA2args make_GETQUOTA2args (zdr_exportpath >>>
  zdr_quotatype >>> zdr_int).
#[global] Instance GETQUOTA2args_codec : Codec zdr_GETQUOTA2args. Proof. codec zdr_GETQUOTA2args. Defined.
#[global] Instance GETQUOTA2args_blank : Blank zdr_GETQUOTA2args zero_GETQUOTA2args. Proof. blank zdr_GETQUOTA2args. Qed.

Record GETQUOTA1res_ok := mkGETQUOTA1res_ok {
    GETQUOTA1res_ok_bsize : Z; GETQUOTA1res_ok_active : Z; GETQUOTA1res_ok_bhardlimit : Z; GETQUOTA1res_ok_bsoftlimit : Z;
    GETQUOTA1res_ok_curblocks : Z; GETQUOTA1res_ok_fhardlimit : Z; GETQUOTA1res_ok_fsoftlimit : Z;
    GETQUOTA1res_ok_curfiles : Z; GETQUOTA1res_ok_btimeleft : Z; GETQUOTA1res_ok_ftimeleft : Z
}.
Definition zero_GETQUOTA1res_ok : GETQUOTA1res_ok := mkGETQUOTA1res_ok 0 0 0 0 0 0 0 0 0 0.
Definition fields_GETQUOTA1res_ok (x : GETQUOTA1res_ok) := (GETQUOTA1res_ok_bsize x, (GETQUOTA1res_ok_active x,
  (GETQUOTA1res_ok_bhardlimit x, (GETQUOTA1res_ok_bsoftlimit x, (GETQUOTA1res_ok_curblocks x, (GETQUOTA1res_ok_fhardlimit
  x, (GETQUOTA1res_ok_fsoftlimit x, (GETQUOTA1res_ok_curfiles x, (GETQUOTA1res_ok_btimeleft x, GETQUOTA1res_ok_ftimeleft
  x))))))))).
Definition make_GETQUOTA1res_ok (t : (Z * (Z * (Z * (Z * (Z * (Z * (Z * (Z * (Z * Z)))))))))) : GETQUOTA1res_ok :=
  mkGETQUOTA1res_ok t.1 t.2.1 t.2.2.1 t.2.2.2.1 t.2.2.2.2.1 t.2.2.2.2.2.1 t.2.2.2.2.2.2.1 t.2.2.2.2.2.2.2.1
  t.2.2.2.2.2.2.2.2.1 t.2.2.2.2.2.2.2.2.2.
#[global] Instance GETQUOTA1res_ok_iso : Iso fields_GETQUOTA1res_ok make_GETQUOTA1res_ok. Proof. iso. Qed.
Definition zdr_GETQUOTA1res_ok : proc GETQUOTA1res_ok := zdr_via fields_GETQUOTA1res_ok make_GETQUOTA1res_ok (zdr_int >>>
  zdr_int >>> zdr_int >>> zdr_int >>> zdr_int >>> zdr_int >>> zdr_int >>> zdr_int >>> zdr_int >>> zdr_int).
#[global] Instance GETQUOTA1res_ok_codec : Codec zdr_GETQUOTA1res_ok. Proof. codec zdr_GETQUOTA1res_ok. Defined.
#[global] Instance GETQUOTA1res_ok_blank : Blank zdr_GETQUOTA1res_ok zero_GETQUOTA1res_ok. Proof. blank
  zdr_GETQUOTA1res_ok. Qed.
#[global] Instance GETQUOTA1res_ok_safe : Safe zdr_GETQUOTA1res_ok. Proof. safe zdr_GETQUOTA1res_ok. Qed.

Inductive GETQUOTA1res_union := GETQUOTA1res_cleared | GETQUOTA1res_quota (x : GETQUOTA1res_ok).
Record GETQUOTA1res := mkGETQUOTA1res { GETQUOTA1res_status : Z; GETQUOTA1res_u : GETQUOTA1res_union }.
Definition zero_GETQUOTA1res : GETQUOTA1res := mkGETQUOTA1res 0 GETQUOTA1res_cleared.
Definition fields_GETQUOTA1res (x : GETQUOTA1res) := (GETQUOTA1res_status x, GETQUOTA1res_u x).
Definition make_GETQUOTA1res (t : (Z * GETQUOTA1res_union)) : GETQUOTA1res := mkGETQUOTA1res t.1 t.2.
#[global] Instance GETQUOTA1res_iso : Iso fields_GETQUOTA1res make_GETQUOTA1res. Proof. iso. Qed.
Definition as_GETQUOTA1res_quota (u : GETQUOTA1res_union) : GETQUOTA1res_ok := match u with GETQUOTA1res_quota x => x | _
  => zero_GETQUOTA1res_ok end.
#[global] Instance GETQUOTA1res_quota_member : Variant as_GETQUOTA1res_quota GETQUOTA1res_quota. Proof. done. Qed.
Definition case_GETQUOTA1res (d : Z) : proc GETQUOTA1res_union :=
  if (d =? RQUOTA_OK) then zdr_member as_GETQUOTA1res_quota GETQUOTA1res_quota zdr_GETQUOTA1res_ok
  else zdr_void.
#[global] Instance case_GETQUOTA1res_codec d : Codec (case_GETQUOTA1res d). Proof. codec case_GETQUOTA1res. Defined.
#[global] Instance case_GETQUOTA1res_blank d : Blank (case_GETQUOTA1res d) GETQUOTA1res_cleared. Proof. blank
  case_GETQUOTA1res. Qed.
#[global] Instance case_GETQUOTA1res_safe d : Safe (case_GETQUOTA1res d). Proof. safe case_GETQUOTA1res. Qed.
Definition zdr_GETQUOTA1res : proc GETQUOTA1res := zdr_via fields_GETQUOTA1res make_GETQUOTA1res (zdr_dseq zdr_rquotastat
  (case_GETQUOTA1res)).
#[global] Instance GETQUOTA1res_codec : Codec zdr_GETQUOTA1res. Proof. codec zdr_GETQUOTA1res. Defined.
#[global] Instance GETQUOTA1res_blank : Blank zdr_GETQUOTA1res zero_GETQUOTA1res. Proof. blank zdr_GETQUOTA1res. Qed.
#[global] Instance GETQUOTA1res_safe : Safe zdr_GETQUOTA1res. Proof. safe zdr_GETQUOTA1res. Qed.
End XQ.
