(* ===== verification/RpcMsg.v ===== *)
(** * RpcMsg: ONC-RPC messages and credentials (lib/libnfs-zdr.c)

    The structures of include/nfsc/libnfs-zdr.h and the routines that marshal
    them.  A C union is given with the views the code takes of it: the body of
    a message is either of its members, and the view of one as the other is
    written out for 64-bit pointers, since the code takes it on messages from
    the network.  The text kept by [rpc_set_error] is not modelled. *)

From S2P Require Import Prelude Zdr.

#[local] Open Scope zdr_scope.

(** ** Constants *)

Definition AUTH_NONE : Z := 0.
Definition AUTH_UNIX : Z := 1.
Definition CALL : Z := 0.
Definition REPLY : Z := 1.
Definition MSG_ACCEPTED : Z := 0.
Definition MSG_DENIED : Z := 1.
Definition SUCCESS : Z := 0.
Definition PROG_UNAVAIL : Z := 1.
Definition PROG_MISMATCH : Z := 2.
Definition PROC_UNAVAIL : Z := 3.
Definition GARBAGE_ARGS : Z := 4.
Definition SYSTEM_ERR : Z := 5.
Definition RPC_MISMATCH : Z := 0.
Definition AUTH_ERROR : Z := 1.
Definition RPC_MSG_VERSION : Z := 2.

(** ** Structures *)

(** [struct opaque_cred] and [struct opaque_verf]. *)
Record opaque_auth := mkAuth { oa_flavor : Z; oa_base : ptr; oa_length : Z }.

Definition _null_auth : opaque_auth := mkAuth 0 NULL 0.

Record call_body := mkCall {
  rpcvers : Z; prog : Z; vers : Z; proc_ : Z; cred : opaque_auth; cverf : opaque_auth;
}.

Record mismatch := mkMismatch { low : Z; high : Z }.

(** [struct accepted_reply]: of the union [reply_data] the results have a type
    [R]; [where_] is the block the results are decoded into, as raw memory. *)
Record accepted_reply (R : Type) := mkAccepted {
  averf : opaque_auth; astat : Z; results : R; where_ : ptr; amismatch : mismatch;
}.
Arguments mkAccepted {R}. Arguments averf {R}. Arguments astat {R}.
Arguments results {R}. Arguments where_ {R}. Arguments amismatch {R}.

Record rejected_reply := mkRejected { rstat : Z; rmismatch : mismatch; rauth : Z }.

Record reply_body (R : Type) := mkReply {
  stat : Z; areply : accepted_reply R; rreply : rejected_reply;
}.
Arguments mkReply {R}. Arguments stat {R}. Arguments areply {R}. Arguments rreply {R}.

Inductive msg_body (R : Type) := CBody (c : call_body) | RBody (r : reply_body R).
Arguments CBody {R}. Arguments RBody {R}.

Record rpc_msg (R : Type) := mkMsg { xid : Z; direction : Z; body : msg_body R }.
Arguments mkMsg {R}. Arguments xid {R}. Arguments direction {R}. Arguments body {R}.

(** ** The two views of the union *)

(** The call view of the body.  Of a reply body the decoder of a call reads
    only the two [oa_base] pointers before it writes them; with 8-byte
    pointers they lie at offsets 24 and 48, over [areply.verf.oa_length]
    (0 in a cleared message, so a NULL pointer) and over
    [reply_data.results.where]. *)
Definition as_cbody {R} (b : msg_body R) : call_body :=
  match b with
  | CBody c => c
  | RBody r =>
      mkCall (stat r) 0 (oa_flavor (averf (areply r))) 0
        (mkAuth 0 NULL 0) (mkAuth (astat (areply r)) (where_ (areply r)) 0)
  end.

(** The two words of a reply that are looked at after decoding: [rbody.stat]
    lies over [cbody.rpcvers] and [areply.stat], at offset 40, over
    [cbody.verf.oa_flavor]. *)
Definition body_stat {R} (b : msg_body R) : Z :=
  match b with CBody c => rpcvers c | RBody r => stat r end.

Definition body_astat {R} (b : msg_body R) : Z :=
  match b with CBody c => oa_flavor (cverf c) | RBody r => astat (areply r) end.

(** The reply view, for messages whose body is a reply. *)
Definition as_rbody {R} (dflt : reply_body R) (b : msg_body R) : reply_body R :=
  match b with RBody r => r | CBody _ => dflt end.

(** ** Marshalling *)

Definition zdr_auth : proc opaque_auth :=
  zdr_via (fun a => (oa_flavor a, (oa_base a, oa_length a)))
          (fun t => mkAuth t.1 t.2.1 t.2.2) (zdr_u_int >>> zdr_bytes).

Definition libnfs_opaque_cred : proc opaque_auth := zdr_auth.

(** Without Kerberos only the [default] case is compiled. *)
Definition libnfs_opaque_verf : proc opaque_auth := zdr_auth.

Definition libnfs_rpc_call_body : proc call_body :=
  zdr_via (fun c => (rpcvers c, (prog c, (vers c, (proc_ c, (cred c, cverf c))))))
          (fun t => mkCall t.1 t.2.1 t.2.2.1 t.2.2.2.1 t.2.2.2.2.1 t.2.2.2.2.2)
          (zdr_u_int >>> zdr_u_int >>> zdr_u_int >>> zdr_u_int >>>
           libnfs_opaque_cred >>> libnfs_opaque_verf).

Definition zdr_mismatch : proc mismatch :=
  zdr_via (fun m => (low m, high m)) (fun t => mkMismatch t.1 t.2) (zdr_u_int >>> zdr_u_int).

Definition set_results {R} (r : R) (a : accepted_reply R) : accepted_reply R :=
  mkAccepted (averf a) (astat a) r (where_ a) (amismatch a).
Definition set_amismatch {R} (m : mismatch) (a : accepted_reply R) : accepted_reply R :=
  mkAccepted (averf a) (astat a) (results a) (where_ a) m.
Definition set_rmismatch (m : mismatch) (r : rejected_reply) : rejected_reply :=
  mkRejected (rstat r) m (rauth r).
Definition set_rauth (s : Z) (r : rejected_reply) : rejected_reply :=
  mkRejected (rstat r) (rmismatch r) s.

Section reply.
(** [results.proc], the routine for the results of the procedure called. *)
Context {R : Type} (proc_results : proc R).

(** The switch of [libnfs_accepted_reply] on [ar->stat]. *)
Definition accepted_case (s : Z) : proc (accepted_reply R) :=
  if s =? SUCCESS then zdr_on results set_results proc_results
  else if s =? PROG_MISMATCH then zdr_on amismatch set_amismatch zdr_mismatch
  else zdr_void.

Definition libnfs_accepted_reply : proc (accepted_reply R) :=
  zdr_via (fun a => (averf a, (astat a, a)))
          (fun t => mkAccepted t.1 t.2.1 (results t.2.2) (where_ t.2.2) (amismatch t.2.2))
          (libnfs_opaque_verf >>> zdr_dseq zdr_u_int accepted_case).

Definition rejected_case (s : Z) : proc rejected_reply :=
  if s =? RPC_MISMATCH then zdr_on rmismatch set_rmismatch zdr_mismatch
  else if s =? AUTH_ERROR then zdr_on rauth set_rauth zdr_u_int
  else zdr_void.

Definition libnfs_rejected_reply : proc rejected_reply :=
  zdr_via (fun r => (rstat r, r))
          (fun t => mkRejected t.1 (rmismatch t.2) (rauth t.2))
          (zdr_dseq zdr_u_int rejected_case).

Definition set_areply (a : accepted_reply R) (r : reply_body R) : reply_body R :=
  mkReply (stat r) a (rreply r).
Definition set_rreply (j : rejected_reply) (r : reply_body R) : reply_body R :=
  mkReply (stat r) (areply r) j.

Definition reply_case (s : Z) : proc (reply_body R) :=
  if s =? MSG_ACCEPTED then zdr_on areply set_areply libnfs_accepted_reply
  else if s =? MSG_DENIED then zdr_on rreply set_rreply libnfs_rejected_reply
  else zdr_fail.

Definition libnfs_rpc_reply_body : proc (reply_body R) :=
  zdr_via (fun r => (stat r, r)) (fun t => mkReply t.1 (areply t.2) (rreply t.2))
          (zdr_dseq zdr_u_int reply_case).

(** The reply view of the body when the message turns out to be a reply; a
    server, whose message holds a call, never asks for it. *)
Context (blank_reply : reply_body R).

Definition body_case (d : Z) : proc (msg_body R) :=
  if d =? CALL then zdr_on as_cbody (fun c _ => CBody c) libnfs_rpc_call_body
  else if d =? REPLY then zdr_on (as_rbody blank_reply) (fun r _ => RBody r) libnfs_rpc_reply_body
  else zdr_fail.

Definition libnfs_rpc_msg : proc (rpc_msg R) :=
  zdr_via (fun m => (xid m, (direction m, body m))) (fun t => mkMsg t.1 t.2.1 t.2.2)
          (zdr_u_int >>> zdr_dseq zdr_u_int body_case).

Definition zdr_callmsg : proc (rpc_msg R) := libnfs_rpc_msg.
Definition zdr_replymsg : proc (rpc_msg R) := libnfs_rpc_msg.
End reply.

(** ** Credentials *)

Record AUTH := mkAUTH { ah_cred : opaque_auth; ah_verf : opaque_auth }.

Definition authnone_create : AUTH := mkAUTH (mkAuth AUTH_NONE NULL 0) (mkAuth AUTH_NONE NULL 0).

(** [buf[idx] = htonl(v)] in the block of an [uint32_t *]. *)
Definition put_word (idx v : Z) (b : bytes) : option bytes := write_at (4 * idx) (be32 v) b.

(** [while (len-- > 0) buf[idx++] = htonl( *groups++ )]. *)
Fixpoint put_groups (len : nat) (idx : Z) (groups : list Z) (b : bytes) : option bytes :=
  match len with
  | O => Some b
  | S len =>
      match groups with
      | [] => None
      | g :: groups => b ← put_word idx g b; put_groups len (idx + 1) groups b
      end
  end.

(** [libnfs_authunix_create] at time [now] (milliseconds); the outer option is
    the C result (NULL), the inner one an access out of bounds. *)
Definition libnfs_authunix_create (now : Z) (host : bytes) (uid gid len : Z) (groups : list Z)
    : option (option AUTH) :=
  if len >? 16 then None else
  let hlen := blen host in
  let size := i32 (4 + 4 + Z.land (hlen + 3) (-4) + 4 + 4 + 4 + len * 4) in
  Some (
    b ← put_word 0 (u32 now) (zeros size);
    b ← put_word 1 hlen b;
    b ← write_at 8 host b;
    let idx := 2 + Z.shiftr (hlen + 3) 2 in
    b ← put_word idx uid b;
    b ← put_word (idx + 1) gid b;
    b ← put_word (idx + 2) len b;
    b ← put_groups (Z.to_nat len) (idx + 3) groups b;
    Some (mkAUTH (mkAuth AUTH_UNIX (Heap b) size) (mkAuth AUTH_NONE NULL 0))).

(** ** The routines as codecs *)

#[export] Instance auth_codec : Codec zdr_auth := _.
#[export] Instance cred_codec : Codec libnfs_opaque_cred := auth_codec.
#[export] Instance verf_codec : Codec libnfs_opaque_verf := auth_codec.
#[export] Instance call_body_codec : Codec libnfs_rpc_call_body := _.
#[export] Instance mismatch_codec : Codec zdr_mismatch := _.

#[export] Instance results_member {R} : Member (@results R) set_results.
Proof. done. Qed.
#[export] Instance amismatch_member {R} : Member (@amismatch R) set_amismatch.
Proof. done. Qed.
#[export] Instance rmismatch_member : Member rmismatch set_rmismatch.
Proof. done. Qed.
#[export] Instance rauth_member : Member rauth set_rauth.
Proof. done. Qed.
#[export] Instance areply_member {R} : Member (@areply R) set_areply.
Proof. done. Qed.
#[export] Instance rreply_member {R} : Member (@rreply R) set_rreply.
Proof. done. Qed.
#[export] Instance cbody_member {R} : Member (@as_cbody R) (fun c _ => CBody c).
Proof. done. Qed.
#[export] Instance rbody_member {R} (d : reply_body R) : Member (as_rbody d) (fun r _ => RBody r).
Proof. done. Qed.

Section reply_codecs.
Context {R : Type} (proc_results : proc R) `{!Codec proc_results} (d : reply_body R).

#[export] Instance accepted_case_codec s : Codec (accepted_case proc_results s).
Proof. unfold accepted_case. exact _. Defined.
#[export] Instance accepted_codec : Codec (libnfs_accepted_reply proc_results).
Proof. unfold libnfs_accepted_reply. exact _. Defined.
#[export] Instance rejected_case_codec s : Codec (rejected_case s).
Proof. unfold rejected_case. exact _. Defined.
#[export] Instance rejected_codec : Codec libnfs_rejected_reply.
Proof. unfold libnfs_rejected_reply. exact _. Defined.
#[export] Instance reply_case_codec s : Codec (reply_case proc_results s).
Proof. unfold reply_case. exact _. Defined.
#[export] Instance reply_body_codec : Codec (libnfs_rpc_reply_body proc_results).
Proof. unfold libnfs_rpc_reply_body. exact _. Defined.
#[export] Instance body_case_codec s : Codec (body_case proc_results d s).
Proof. unfold body_case. exact _. Defined.
#[export] Instance msg_codec : Codec (libnfs_rpc_msg proc_results d).
Proof. unfold libnfs_rpc_msg. exact _. Defined.
End reply_codecs.

(** ** The layout of RFC 5531 *)

Definition auth_ok (a : opaque_auth) : Prop :=
  is_u32 (oa_flavor a) /\ is_Some (src (oa_base a) (oa_length a)).

Definition auth_bytes (a : opaque_auth) : bytes := default [] (src (oa_base a) (oa_length a)).

Definition auth_wire (a : opaque_auth) : bytes :=
  be32 (oa_flavor a) ++ wire_bytes (oa_length a) (auth_bytes a).

Definition call_wire (x : Z) (c : call_body) : bytes :=
  be32 x ++ be32 CALL ++ be32 (rpcvers c) ++ be32 (prog c) ++ be32 (vers c) ++
  be32 (proc_ c) ++ auth_wire (cred c) ++ auth_wire (cverf c).

Record call_ok (c : call_body) : Prop := {
  ok_rpcvers : is_u32 (rpcvers c); ok_prog : is_u32 (prog c); ok_vers : is_u32 (vers c);
  ok_proc : is_u32 (proc_ c); ok_cred : auth_ok (cred c); ok_cverf : auth_ok (cverf c);
}.

(** The decoded authenticator [a'] stands for [a]: its bytes lie in the buffer. *)
Definition auth_same (b : bytes) (a a' : opaque_auth) : Prop :=
  oa_flavor a' = oa_flavor a /\ oa_length a' = oa_length a /\
  load b (oa_base a') (oa_length a') = src (oa_base a) (oa_length a).

Record call_same (b : bytes) (c c' : call_body) : Prop := {
  same_rpcvers : rpcvers c' = rpcvers c; same_prog : prog c' = prog c;
  same_vers : vers c' = vers c; same_proc : proc_ c' = proc_ c;
  same_cred : auth_same b (cred c) (cred c'); same_cverf : auth_same b (cverf c) (cverf c');
}.

Definition null_call : call_body := mkCall 0 0 0 0 _null_auth _null_auth.

Section reply_layout.
Context {R : Type} (pr : proc R) `{!Codec pr}.

Definition accepted_wire (a : accepted_reply R) : bytes :=
  auth_wire (averf a) ++ be32 (astat a) ++
  (if astat a =? SUCCESS then wire pr (results a)
   else if astat a =? PROG_MISMATCH then be32 (low (amismatch a)) ++ be32 (high (amismatch a))
   else []).

Definition rejected_wire (r : rejected_reply) : bytes :=
  be32 (rstat r) ++
  (if rstat r =? RPC_MISMATCH then be32 (low (rmismatch r)) ++ be32 (high (rmismatch r))
   else if rstat r =? AUTH_ERROR then be32 (rauth r) else []).

Definition reply_wire (x : Z) (r : reply_body R) : bytes :=
  be32 x ++ be32 REPLY ++ be32 (stat r) ++
  (if stat r =? MSG_ACCEPTED then accepted_wire (areply r) else rejected_wire (rreply r)).

(** The replies that can be sent: the member of each union that the
    discriminants select is encodable. *)
Definition accepted_ok (a : accepted_reply R) : Prop :=
  auth_ok (averf a) /\ is_u32 (astat a) /\
  (astat a = SUCCESS -> okv pr (results a)) /\
  (astat a = PROG_MISMATCH -> is_u32 (low (amismatch a)) /\ is_u32 (high (amismatch a))).

Definition rejected_ok (r : rejected_reply) : Prop :=
  is_u32 (rstat r) /\
  (rstat r = RPC_MISMATCH -> is_u32 (low (rmismatch r)) /\ is_u32 (high (rmismatch r))) /\
  (rstat r = AUTH_ERROR -> is_u32 (rauth r)).

Definition reply_ok (r : reply_body R) : Prop :=
  (stat r = MSG_ACCEPTED /\ accepted_ok (areply r)) \/
  (stat r = MSG_DENIED /\ rejected_ok (rreply r)).

Definition accepted_same (b : bytes) (a a' : accepted_reply R) : Prop :=
  auth_same b (averf a) (averf a') /\ astat a' = astat a /\
  (astat a = SUCCESS -> same pr b (results a) (results a')) /\
  (astat a = PROG_MISMATCH -> amismatch a' = amismatch a).

Definition rejected_same (r r' : rejected_reply) : Prop :=
  rstat r' = rstat r /\ (rstat r = RPC_MISMATCH -> rmismatch r' = rmismatch r) /\
  (rstat r = AUTH_ERROR -> rauth r' = rauth r).

Definition reply_same (b : bytes) (r r' : reply_body R) : Prop :=
  stat r' = stat r /\ (stat r = MSG_ACCEPTED -> accepted_same b (areply r) (areply r')) /\
  (stat r = MSG_DENIED -> rejected_same (rreply r) (rreply r')).
End reply_layout.

Lemma cred_wire a : wire libnfs_opaque_cred a = auth_wire a.
Proof. reflexivity. Qed.

Lemma auth_okv a : auth_ok a -> okv zdr_auth a.
Proof. intros [??]. by destruct a. Qed.

Lemma auth_same_of b a a' : same zdr_auth b a a' -> auth_same b a a'.
Proof.
  intros ((f & p & n) & -> & Hf & Hn & Hl). cbn in *. subst. by repeat split.
Qed.

Lemma call_okv c : call_ok c -> okv libnfs_rpc_call_body c.
Proof.
  intros [???? Hc Hv]. apply auth_okv in Hc, Hv. destruct c. split; [|done].
  change (okv zdr_auth cred0) with (okv libnfs_opaque_cred cred0) in Hc.
  by repeat (split; [done|]).
Qed.

Lemma call_same_of b c c' : same libnfs_rpc_call_body b c c' -> call_same b c c'.
Proof.
  intros ((t1 & t2 & t3 & t4 & t5 & t6) & -> & H1 & H2 & H3 & H4 & H5 & H6). cbn in *. subst.
  by split; try apply auth_same_of.
Qed.

Section messages.
Context {R : Type} (pr : proc R) `{!Codec pr} (d : reply_body R).

Lemma call_msg_wire x c :
  wire (libnfs_rpc_msg pr d) (mkMsg x CALL (CBody c)) = call_wire x c.
Proof. reflexivity. Qed.

Lemma call_msg_okv x c :
  is_u32 x -> call_ok c -> okv (libnfs_rpc_msg pr d) (mkMsg x CALL (CBody c)).
Proof.
  intros Hx Hc. split; [|done]. split; [done|]. split; [done|].
  split; [|done]. by apply call_okv.
Qed.

Lemma accepted_okv a : accepted_ok pr a -> okv (libnfs_accepted_reply pr) a.
Proof.
  intros (Ha%auth_okv & Hs & H0 & H2). destruct a as [v s r w m]. split; [|done].
  split; [done|]. split; [done|]. cbn in *. unfold accepted_case_codec, accepted_case.
  destruct (s =? SUCCESS) eqn:E0; [|destruct (s =? PROG_MISMATCH) eqn:E2; [|done]]; cbn;
    (split; [|done]).
  - apply H0. lia.
  - split; [|by destruct m]. apply H2. lia.
Qed.

Lemma rejected_okv r : rejected_ok r -> okv libnfs_rejected_reply r.
Proof.
  intros (Hs & H0 & H1). destruct r as [s m a]. split; [|done]. split; [done|].
  cbn in *. unfold rejected_case_codec, rejected_case.
  destruct (s =? RPC_MISMATCH) eqn:E0; [|destruct (s =? AUTH_ERROR) eqn:E1; [|done]]; cbn;
    (split; [|done]).
  - split; [|by destruct m]. apply H0. lia.
  - apply H1. lia.
Qed.

Lemma reply_msg_okv x r :
  is_u32 x -> reply_ok pr r -> okv (libnfs_rpc_msg pr d) (mkMsg x REPLY (RBody r)).
Proof.
  intros Hx Hr. split; [|done]. split; [done|]. split; [done|]. split; [|done].
  destruct r as [s a j]. split; [|done]. destruct Hr as [[Hs Ha]|[Hs Ha]]; cbn in Hs; subst s;
    (split; [done|]); (split; [|done]).
  - by apply accepted_okv.
  - by apply rejected_okv.
Qed.

Lemma accepted_same_of b a a' :
  same (libnfs_accepted_reply pr) b a a' -> accepted_same pr b a a'.
Proof.
  intros ((v & s & a2) & -> & Hv%auth_same_of & Hs & Ha). cbn in *. subst s.
  split; [done|]. split; [done|]. unfold accepted_case_codec, accepted_case in Ha.
  split; intros E; rewrite E in Ha; cbn in Ha; destruct Ha as [Ha _]; [done|].
  destruct Ha as ((l & h) & Ea & Hl & Hh). cbn in *. subst. by destruct (amismatch a).
Qed.

Lemma rejected_same_of b r r' : same libnfs_rejected_reply b r r' -> rejected_same r r'.
Proof.
  intros ((s & r2) & -> & Hs & Hr). cbn in *. subst s.
  split; [done|]. unfold rejected_case_codec, rejected_case in Hr.
  split; intros E; rewrite E in Hr; cbn in Hr; destruct Hr as [Hr _]; [|done].
  destruct Hr as ((l & h) & Ea & Hl & Hh). cbn in *. subst. by destruct (rmismatch r).
Qed.


Lemma reply_msg_wire x r :
  reply_ok pr r -> wire (libnfs_rpc_msg pr d) (mkMsg x REPLY (RBody r)) = reply_wire pr x r.
Proof.
  intros [[Hs _]|[Hs _]]; destruct r as [s [v t r w m] [t' m' a]]; cbn in Hs; subst s;
    unfold reply_wire, accepted_wire, rejected_wire; cbn.
  - unfold accepted_case_codec, accepted_case.
    destruct (t =? SUCCESS); [done|]. by destruct (t =? PROG_MISMATCH).
  - unfold rejected_case_codec, rejected_case.
    destruct (t' =? RPC_MISMATCH); [done|]. by destruct (t' =? AUTH_ERROR).
Qed.

(** A cleared message can be filled in with any reply. *)
Lemma reply_msg_blank x r r0 :
  reply_ok pr r -> oa_base (averf (areply r0)) = NULL ->
  (astat (areply r) = SUCCESS -> blank pr (results (areply r)) (results (areply r0))) ->
  blank (libnfs_rpc_msg pr d) (mkMsg x REPLY (RBody r)) (mkMsg 0 0 (RBody r0)).
Proof.
  intros Hr Hv Hb. split; [done|]. split; [done|].
  destruct Hr as [[Hs _]|[Hs _]]; destruct r as [s [v t r w m] [t' m' a]]; cbn in Hs; subst s.
  - split; [done|]. split; [by split|]. cbn. split; [done|].
    unfold accepted_case_codec, accepted_case.
    destruct (t =? SUCCESS) eqn:E; [apply Hb; cbn; lia|]. by destruct (t =? PROG_MISMATCH).
  - split; [done|]. split; [done|]. cbn. unfold rejected_case_codec, rejected_case.
    destruct (t' =? RPC_MISMATCH); [done|]. by destruct (t' =? AUTH_ERROR).
Qed.

Lemma reply_same_of b r r' : same (libnfs_rpc_reply_body pr) b r r' -> reply_same pr b r r'.
Proof.
  intros ((s & r2) & -> & Hs & Hr). cbn in *. subst s.
  split; [done|]. split; intros E; rewrite E in Hr; cbn in Hr; destruct Hr as [Hr _].
  - by apply accepted_same_of.
  - exact (rejected_same_of b _ _ Hr).
Qed.
End messages.

(** ** Round trips of messages *)

(** C36: a call message that fits is encoded as the bytes RFC 5531 lays out, and decoding
    them into a cleared message gives back the call, credentials included. *)
Theorem call_roundtrip {R} (pr : proc R) `{!Codec pr} (d : reply_body R) x c b sz ok c0 :
  is_u32 x -> call_ok c -> oa_base (cred c0) = NULL -> oa_base (cverf c0) = NULL ->
  (forall n, ok n = true) -> 0 <= sz <= blen b -> sz + 16 <= INT_MAX ->
  blen (call_wire x c) <= sz ->
  exists z' zr c', zdr_callmsg pr d (zdrmem_create b sz ZDR_ENCODE ok) (mkMsg x CALL (CBody c)) =
      Ret (mkMsg x CALL (CBody c)) z' /\
    read_at 0 (pos z') (buf z') = Some (call_wire x c) /\
    zdr_callmsg pr d (reader (buf z') (pos z') ok) (mkMsg 0 0 (CBody c0)) =
      Ret (mkMsg x CALL (CBody c')) zr /\
    pos zr = pos z' /\ call_same (buf z') c c'.
Proof.
  intros Hx Hc H1 H2 Hok Hsz Hi Hw.
  destruct (codec_roundtrip (libnfs_rpc_msg pr d) b sz ok (mkMsg x CALL (CBody c))
    (mkMsg 0 0 (CBody c0))) as (z' & E1 & _ & E2 & _ & t' & zr & E3 & Hp & Hs); try done.
  - by apply call_msg_okv.
  - destruct Hs as ((x' & y' & b') & -> & Hx' & Hy' & Hc' & b0 & Hb').
    cbn in Hx', Hy', Hb'. subst x' y'. destruct b' as [c'|]; [|done]. exists z', zr, c'.
    split; [exact E1|]. split; [exact E2|]. split; [exact E3|]. split; [done|].
    by apply call_same_of.
Qed.

(** The bytes of a reply, wherever they came from, decode to the reply. *)
Lemma reply_decodes {R} (pr : proc R) `{!Codec pr} (d r0 : reply_body R) x r b sz ok :
  is_u32 x -> reply_ok pr r -> oa_base (averf (areply r0)) = NULL ->
  (astat (areply r) = SUCCESS -> blank pr (results (areply r)) (results (areply r0))) ->
  (forall n, ok n = true) -> 0 <= sz <= blen b -> sz + 16 <= INT_MAX ->
  blen (reply_wire pr x r) <= sz -> has_at b 0 (reply_wire pr x r) ->
  exists r' zr, zdr_replymsg pr d (zdrmem_create b sz ZDR_DECODE ok) (mkMsg 0 0 (RBody r0)) =
      Ret (mkMsg x REPLY (RBody r')) zr /\ reply_same pr b r r'.
Proof.
  intros Hx Hr H1 H2 Hok Hsz Hi Hw Hb. pose proof (reply_msg_wire pr d x r Hr) as Hwire.
  pose proof (blen_nonneg (reply_wire pr x r)).
  destruct (codec_dec (p := libnfs_rpc_msg pr d) (zdrmem_create b sz ZDR_DECODE ok) (mkMsg x REPLY (RBody r))
    (mkMsg 0 0 (RBody r0))) as (t' & m & E & Hs); try done.
  - by apply reply_msg_okv.
  - by apply reply_msg_blank.
  - rewrite Hwire. unfold zdrmem_create. rewrite i32_id by solve_width. split; cbn; lia || done.
  - by rewrite Hwire.
  - destruct Hs as ((x' & y' & b') & -> & Hx' & Hy' & Hc' & b0 & Hb').
    cbn in Hx', Hy', Hb'. subst x' y'. destruct b' as [|r']; [done|].
    eexists r', _. split; [exact E|]. by apply reply_same_of.
Qed.

(** C37: the same for a reply, accepted (with the results of the procedure) or rejected. *)
Theorem reply_roundtrip {R} (pr : proc R) `{!Codec pr} (d r0 : reply_body R) x r b sz ok :
  is_u32 x -> reply_ok pr r -> oa_base (averf (areply r0)) = NULL ->
  (astat (areply r) = SUCCESS -> blank pr (results (areply r)) (results (areply r0))) ->
  (forall n, ok n = true) -> 0 <= sz <= blen b -> sz + 16 <= INT_MAX ->
  blen (reply_wire pr x r) <= sz ->
  exists z' zr r', zdr_replymsg pr d (zdrmem_create b sz ZDR_ENCODE ok) (mkMsg x REPLY (RBody r)) =
      Ret (mkMsg x REPLY (RBody r)) z' /\
    read_at 0 (pos z') (buf z') = Some (reply_wire pr x r) /\
    zdr_replymsg pr d (reader (buf z') (pos z') ok) (mkMsg 0 0 (RBody r0)) =
      Ret (mkMsg x REPLY (RBody r')) zr /\
    pos zr = pos z' /\ reply_same pr (buf z') r r'.
Proof.
  intros Hx Hr H1 H2 Hok Hsz Hi Hw.
  pose proof (reply_msg_wire pr d x r Hr) as Hwire.
  destruct (codec_roundtrip (libnfs_rpc_msg pr d) b sz ok (mkMsg x REPLY (RBody r))
    (mkMsg 0 0 (RBody r0))) as (z' & E1 & _ & E2 & _ & t' & zr & E3 & Hp & Hs); try done.
  - by apply reply_msg_okv.
  - by apply reply_msg_blank.
  - by rewrite Hwire.
  - destruct Hs as ((x' & y' & b') & -> & Hx' & Hy' & Hc' & b0 & Hb').
    cbn in Hx', Hy', Hb'. subst x' y'. destruct b' as [|r']; [done|].
    rewrite Hwire in E2. exists z', zr, r'.
    split; [exact E1|]. split; [exact E2|]. split; [exact E3|]. split; [done|].
    by apply reply_same_of.
Qed.

(** ** A message of the wrong direction *)

(** [w] is what is left to read. *)
Record reading (z : ZDR) (w : bytes) : Prop := {
  rd_op : x_op z = ZDR_DECODE;
  rd_room : room z (blen w);
  rd_has : has_at (buf z) (pos z) w;
  rd_malloc : forall n, malloc_ok z n = true;
}.

Lemma reading_got z k w1 w2 m :
  blen w1 = k -> k mod 4 = 0 -> reading z (w1 ++ w2) -> reading (got z k m) w2.
Proof.
  intros <- Hk [Hop Hr [_ Hh]%has_at_app Hm]. rewrite blen_app in Hr.
  split; [done| |done|done]. apply room_got; [done|apply blen_nonneg|done].
Qed.

Lemma reading_u_int z w ws u0 :
  reading z (be32 w ++ ws) -> zdr_u_int z u0 = Ret (u32 w) (got z 4 (mem z)).
Proof.
  intros [Hop Hr [Hh _]%has_at_app _]. rewrite blen_app, blen_be32 in Hr.
  rewrite (u_int_dec z u0 (be32 w)), of_be32_be32; try done.
  eapply room_le; [|done]. pose proof (blen_nonneg ws). lia.
Qed.

Lemma reading_seq {B} (q : proc B) z w ws u0 b0 :
  reading z (be32 w ++ ws) ->
  zdr_seq zdr_u_int q z (u0, b0) = res_map (pair (u32 w)) (q (got z 4 (mem z)) b0) /\
  reading (got z 4 (mem z)) ws.
Proof.
  intros H. unfold zdr_seq. rewrite (reading_u_int _ w ws) by done.
  split; [done|]. by apply (reading_got z 4 (be32 w)).
Qed.

Lemma reading_dseq {B} (q : Z -> proc B) z w ws u0 b0 :
  reading z (be32 w ++ ws) ->
  zdr_dseq zdr_u_int q z (u0, b0) = res_map (pair (u32 w)) (q (u32 w) (got z 4 (mem z)) b0) /\
  reading (got z 4 (mem z)) ws.
Proof.
  intros H. unfold zdr_dseq. rewrite (reading_u_int _ w ws) by done.
  split; [done|]. by apply (reading_got z 4 (be32 w)).
Qed.

(** Read the word the goal starts with. *)
Ltac next_field :=
  match goal with
  | H : reading ?z (be32 ?w ++ ?ws) |- context [zdr_seq zdr_u_int ?q ?z (?u, ?b)] =>
      destruct (reading_seq q z w ws u b H) as [-> ?]; clear H
  | H : reading ?z (be32 ?w ++ ?ws) |- context [zdr_dseq zdr_u_int ?q ?z (?u, ?b)] =>
      destruct (reading_dseq q z w ws u b H) as [-> ?]; clear H
  end.

(** Bytes decoded over a block that is already there. *)
Lemma reading_bytes_heap z n0 d h :
  reading z (wire_bytes (blen d) d) ->
  zdr_bytes z (Heap h, n0) =
    if blen d <=? blen h
    then Ret (Heap (d ++ drop (length d) h), blen d)
             (got z (4 + blen d + pad4 (blen d)) (mem z))
    else UB.
Proof.
  intros [Hop Hr Hh _]. pose proof (pad4_range (blen d)). pose proof (blen_nonneg d).
  rewrite blen_wire_bytes in Hr by done. use_room Hr.
  apply has_at_app in Hh as [Hh1 [Hh2 _]%has_at_app]. rewrite blen_be32 in *.
  unfold zdr_bytes.
  rewrite (u_int_dec z n0 (be32 (blen d))); [|done|eapply room_le; [|done]; lia|done..].
  rewrite of_be32_be32, u32_id by solve_width.
  change (pos (got _ _ _)) with (pos z + 4). change (size (got _ _ _)) with (size z).
  change (x_op (got _ _ _)) with (x_op z). change (buf (got _ _ _)) with (buf z).
  rewrite i32_id by solve_width. rewrite fits_true by (unfold INT_MAX in *; lia).
  replace (pos z + 4 + blen d >? size z) with false by lia.
  rewrite Hop, pos_add_id by (unfold INT_MAX in *; lia).
  rewrite fits_true by (unfold INT_MAX in *; lia).
  cbn [load]. apply has_at_read in Hh2. rewrite Hh2. cbn [store].
  destruct (blen d <=? blen h) eqn:E.
  - rewrite write_at_ok by lia. unfold splice. cbn [Z.to_nat take app mbind option_bind].
    rewrite Z.add_0_l, blen_to_nat, take_0. cbn [app]. f_equal.
    rewrite align4_pad by div_lia. unfold got, set_pos, set_mem. cbn. f_equal. lia.
  - by rewrite write_at_none by lia.
Qed.

(** Any codec reads its image. *)
Lemma reading_codec {T} (p : proc T) `{!Codec p} z t ws t0 :
  reading z (wire p t ++ ws) -> okv p t -> blank p t t0 ->
  exists t' m, p z t0 = Ret t' (got z (blen (wire p t)) m) /\ same p (buf z) t t' /\
    reading (got z (blen (wire p t)) m) ws.
Proof.
  intros Hz Ht H0. pose proof Hz as [Hop Hr [Hh _]%has_at_app Hm].
  rewrite blen_app in Hr. pose proof (blen_nonneg ws). pose proof (blen_nonneg (wire p t)).
  destruct (codec_dec z t t0) as (t' & m & E & Hs); try done.
  { eapply room_le; [|done]. lia. }
  exists t', m. split; [done|]. split; [done|].
  eapply reading_got; [done|by apply codec_align|done].
Qed.

Lemma reading_seq_codec {A B} (p : proc A) (q : proc B) `{!Codec p} z a ws a0 b0 :
  reading z (wire p a ++ ws) -> okv p a -> blank p a a0 ->
  exists a' z', zdr_seq p q z (a0, b0) = res_map (pair a') (q z' b0) /\
    same p (buf z) a a' /\ reading z' ws.
Proof.
  intros Hz Ha H0. destruct (reading_codec p z a ws a0) as (a' & m & E & Hs & Hz'); try done.
  eexists a', _. split; [|done]. unfold zdr_seq. by rewrite E.
Qed.

(** The decoder of replies does not check the direction of the message: the bytes of
    a call are decoded over the reply, so that [rpcvers] is taken for the reply status
    and the flavour of the verifier for the accept status, and the verifier is copied
    into the caller's block for the results, past its end when it is longer (libnfs-
    zdr.c:624, pdu.c:852). *)
Theorem reply_call_confusion {R} (pr : proc R) (d r0 : reply_body R) z x c h :
  reading z (call_wire x c) -> is_u32 x -> call_ok c -> where_ (areply r0) = Heap h ->
  (blen (auth_bytes (cverf c)) <= blen h ->
   exists c' zr, zdr_replymsg pr d z (mkMsg 0 0 (RBody r0)) = Ret (mkMsg x CALL (CBody c')) zr /\
     body_stat (CBody (R := R) c') = rpcvers c /\
     body_astat (CBody (R := R) c') = oa_flavor (cverf c) /\
     oa_base (cverf c') =
       Heap (auth_bytes (cverf c) ++ drop (length (auth_bytes (cverf c))) h)) /\
  (blen h < blen (auth_bytes (cverf c)) ->
   zdr_replymsg pr d z (mkMsg 0 0 (RBody r0)) = UB).
Proof.
  intros Hz Hx [Hv Hp Hs Hc Ha Hb] Hw. unfold call_wire in Hz.
  unfold zdr_replymsg, libnfs_rpc_msg, zdr_via; cbn [xid direction body].
  next_field. next_field.
  change (body_case pr d (u32 CALL)) with
    (zdr_on (@as_cbody R) (fun c _ => CBody c) libnfs_rpc_call_body).
  unfold zdr_on, libnfs_rpc_call_body, zdr_via; cbn [as_cbody rpcvers prog vers proc_ cred cverf].
  rewrite Hw. do 4 next_field.
  match goal with H : reading _ _ |- _ => rename H into Hz2 end.
  rewrite <- cred_wire in Hz2 at 1.
  destruct (reading_seq_codec libnfs_opaque_cred libnfs_opaque_verf _ (cred c)
    (auth_wire (cverf c)) (mkAuth 0 NULL 0) (mkAuth (astat (areply r0)) (Heap h) 0) Hz2)
    as (a' & z7 & -> & _ & Hz7); [by apply auth_okv|done|].
  unfold libnfs_opaque_verf, zdr_auth, zdr_via; cbn [oa_flavor oa_base oa_length].
  destruct (reading_seq zdr_bytes z7 (oa_flavor (cverf c)) _ (astat (areply r0)) (Heap h, 0)
    Hz7) as [-> Hz8].
  assert (Hl : oa_length (cverf c) = blen (auth_bytes (cverf c))).
  { destruct Hb as [_ [b Hb]]. unfold auth_bytes. rewrite Hb. by apply src_blen in Hb as [_ ?]. }
  rewrite Hl in Hz8. rewrite (reading_bytes_heap _ 0 _ h Hz8), !u32_id by (done || apply Hb).
  split; intros Hle; case_match; try lia; [|done].
  do 2 eexists. split; [reflexivity|]. done.
Qed.

(** ** The AUTH_UNIX credential *)

(** [authunix_parms] of RFC 5531: stamp, machine name, uid, gid, gids. *)
Definition authunix_wire (now : Z) (host : bytes) (uid gid : Z) (groups : list Z) : bytes :=
  be32 now ++ wire_bytes (blen host) host ++ be32 uid ++ be32 gid ++
  be32 (blen groups) ++ concat (map be32 groups).

(** A store right after what has been stored so far. *)
Lemma write_next pre d r p :
  0 <= r -> p = blen pre ->
  write_at p d (pre ++ zeros (blen d + r)) = Some ((pre ++ d) ++ zeros r).
Proof.
  intros Hr ->. pose proof (blen_nonneg pre). pose proof (blen_nonneg d).
  rewrite write_at_ok by (rewrite ?blen_app, ?blen_zeros; lia). f_equal.
  unfold splice. rewrite blen_to_nat, take_app_length, <- app_assoc. do 2 f_equal.
  rewrite <- blen_app, blen_to_nat, length_app, drop_app_add. unfold zeros.
  rewrite drop_replicate. f_equal. unfold blen in *. lia.
Qed.

Lemma zeros_add a b : 0 <= a -> 0 <= b -> zeros (a + b) = zeros a ++ zeros b.
Proof. intros. unfold zeros. by rewrite Z2Nat.inj_add, replicate_add by lia. Qed.

Lemma put_word_next pre x r i :
  0 <= r -> 4 * i = blen pre ->
  put_word i x (pre ++ zeros (4 + r)) = Some ((pre ++ be32 x) ++ zeros r).
Proof. intros. unfold put_word. by apply (write_next pre (be32 x)). Qed.

Lemma put_groups_next groups : forall pre i,
  4 * i = blen pre ->
  put_groups (length groups) i groups (pre ++ zeros (4 * blen groups)) =
    Some (pre ++ concat (map be32 groups)).
Proof.
  induction groups as [|g gs IH]; intros pre i Hi.
  - done.
  - pose proof (blen_nonneg gs). cbn [length put_groups]. rewrite blen_cons.
    replace (4 * (1 + blen gs)) with (4 + 4 * blen gs) by lia.
    rewrite put_word_next by lia. cbn [mbind option_bind].
    rewrite IH by (rewrite blen_app, blen_be32; lia). cbn. by rewrite <- app_assoc.
Qed.

(** [libnfs_authunix_create] writes exactly the AUTH_UNIX credential of RFC 5531,
    inside the block it allocates, for up to 16 groups, and refuses more. *)
Theorem authunix_create_spec now host uid gid groups :
  blen host < 2 ^ 30 ->
  libnfs_authunix_create now host uid gid (blen groups) groups =
    if blen groups <=? 16 then
      Some (Some (mkAUTH
        (mkAuth AUTH_UNIX (Heap (authunix_wire now host uid gid groups))
           (blen (authunix_wire now host uid gid groups))) (mkAuth AUTH_NONE NULL 0)))
    else None.
Proof.
  intros Hh. unfold libnfs_authunix_create. destruct (blen groups <=? 16) eqn:Hg;
    [|by replace (_ >? 16) with true by lia]. replace (_ >? 16) with false by lia.
  pose proof (blen_nonneg host).
  pose proof (blen_nonneg groups). pose proof (pad4_range (blen host)).
  assert (Hal : Z.land (blen host + 3) (-4) = blen host + pad4 (blen host))
    by exact (align4_pad 0 (blen host) eq_refl).
  assert (Hsh : 4 * Z.shiftr (blen host + 3) 2 = blen host + pad4 (blen host)).
  { rewrite Z.shiftr_div_pow2 by lia. unfold pad4. change (2 ^ 2) with 4. div_lia. }
  rewrite Hal, i32_id by solve_width. f_equal.
  set (n := blen host) in *. set (k := pad4 n) in *. set (w := Z.shiftr (n + 3) 2) in *.
  replace (4 + 4 + (n + k) + 4 + 4 + 4 + blen groups * 4)
    with (4 + (4 + (n + (k + (4 + (4 + (4 + 4 * blen groups))))))) at 1 by lia.
  pose proof (put_word_next [] (u32 now)) as Hput. cbn [app] in Hput.
  rewrite Hput by (lia || done). clear Hput. rewrite be32_u32. cbn [mbind option_bind app].
  rewrite put_word_next by (rewrite ?blen_be32; lia). cbn [mbind option_bind].
  rewrite write_next by (rewrite ?blen_app, ?blen_be32; lia). cbn [mbind option_bind].
  rewrite zeros_add, (app_assoc _ (zeros k)) by lia.
  do 3 (rewrite put_word_next by (rewrite ?blen_app, ?blen_be32, ?blen_zeros; lia);
        cbn [mbind option_bind]).
  rewrite blen_to_nat, put_groups_next
    by (rewrite ?blen_app, ?blen_be32, ?blen_zeros; lia).
  cbn [mbind option_bind].
  match goal with |- Some (mkAUTH (mkAuth _ (Heap ?x) ?s) _) = _ =>
    assert (x = authunix_wire now host uid gid groups) as -> end.
  { unfold authunix_wire, wire_bytes. by rewrite <- !app_assoc. }
  do 3 f_equal. unfold authunix_wire. rewrite !blen_app, blen_wire_bytes, !blen_be32 by done.
  assert (blen (concat (map be32 groups)) = 4 * blen groups) as ->; [|subst n k; lia].
  clear. induction groups as [|g gs IH]; [done|]. cbn.
  rewrite blen_app, IH, blen_cons, blen_be32. lia.
Qed.

(** ** Instances *)

Definition root_cred : opaque_auth := mkAuth AUTH_UNIX (Heap [0; 0; 0; 1; 0; 0; 0; 0]) 8.
Definition getattr_call : call_body := mkCall 2 100003 3 1 root_cred _null_auth.

Lemma getattr_call_ok : call_ok getattr_call.
Proof. split; try done; split; try done; by eexists. Qed.

(** A reply whose results are one word. *)
Definition word_reply (astat : Z) : reply_body Z :=
  mkReply MSG_ACCEPTED (mkAccepted _null_auth astat 7 NULL (mkMismatch 2 4))
    (mkRejected 0 (mkMismatch 0 0) 0).

Lemma call_roundtrip_witness :
  let w := call_wire 5 getattr_call in
  exists z' zr c', zdr_callmsg zdr_u_int (word_reply 0) (zdrmem_create (zeros 64) 64 ZDR_ENCODE (fun _ => true))
      (mkMsg 5 CALL (CBody getattr_call)) = Ret (mkMsg 5 CALL (CBody getattr_call)) z' /\
    read_at 0 (pos z') (buf z') = Some w /\
    zdr_callmsg zdr_u_int (word_reply 0) (reader (buf z') (pos z') (fun _ => true)) (mkMsg 0 0 (CBody null_call)) =
      Ret (mkMsg 5 CALL (CBody c')) zr /\
    pos zr = pos z' /\ call_same (buf z') getattr_call c'.
Proof.
  apply (call_roundtrip zdr_u_int (word_reply 0) 5 getattr_call (zeros 64) 64 (fun _ => true) null_call); [by vm_compute|apply getattr_call_ok|reflexivity|reflexivity|reflexivity|by vm_compute|by vm_compute|].
  by vm_compute.
Defined.

Lemma reply_roundtrip_witness :
  exists z' zr r', zdr_replymsg zdr_u_int (word_reply 0) (zdrmem_create (zeros 64) 64 ZDR_ENCODE (fun _ => true))
      (mkMsg 5 REPLY (RBody (word_reply 0))) = Ret (mkMsg 5 REPLY (RBody (word_reply 0))) z' /\
    read_at 0 (pos z') (buf z') = Some (reply_wire zdr_u_int 5 (word_reply 0)) /\
    zdr_replymsg zdr_u_int (word_reply 0) (reader (buf z') (pos z') (fun _ => true)) (mkMsg 0 0 (RBody (word_reply 1))) =
      Ret (mkMsg 5 REPLY (RBody r')) zr /\
    pos zr = pos z' /\ reply_same zdr_u_int (buf z') (word_reply 0) r'.
Proof.
  apply (reply_roundtrip zdr_u_int (word_reply 0) (word_reply 1) 5 (word_reply 0)); [by vm_compute| |reflexivity|done|reflexivity|by vm_compute|by vm_compute|by vm_compute].
  left. split; [done|]. by split; [split; [done|by eexists]|].
Defined.

Definition call_bytes : bytes := call_wire 5 (mkCall 0 1 1 0 _null_auth root_cred).

Lemma reply_call_confusion_witness :
  (exists c' zr, zdr_replymsg zdr_u_int (word_reply 0) (reader call_bytes (blen call_bytes) (fun _ => true))
     (mkMsg 0 0 (RBody (mkReply 0 (mkAccepted _null_auth 0 0 (Heap (zeros 8)) (mkMismatch 0 0))
        (mkRejected 0 (mkMismatch 0 0) 0)))) = Ret (mkMsg 5 CALL (CBody c')) zr) /\
  zdr_replymsg zdr_u_int (word_reply 0) (reader call_bytes (blen call_bytes) (fun _ => true))
     (mkMsg 0 0 (RBody (mkReply 0 (mkAccepted _null_auth 0 0 (Heap (zeros 4)) (mkMismatch 0 0))
        (mkRejected 0 (mkMismatch 0 0) 0)))) = UB.
Proof.
  assert (Hok : call_ok (mkCall 0 1 1 0 _null_auth root_cred)) by (split; try done; split; try done; by eexists).
  assert (Hr : reading (reader call_bytes (blen call_bytes) (fun _ => true))
                 (call_wire 5 (mkCall 0 1 1 0 _null_auth root_cred))).
  { split; [done|split; by vm_compute|split; [done|exists [], []; by rewrite app_nil_r]|done]. }
  split.
  - destruct (reply_call_confusion zdr_u_int (word_reply 0)
      (mkReply 0 (mkAccepted _null_auth 0 0 (Heap (zeros 8)) (mkMismatch 0 0)) (mkRejected 0 (mkMismatch 0 0) 0))
      _ 5 _ (zeros 8) Hr ltac:(done) Hok eq_refl) as [(c' & zr & E & _) _]; [by vm_compute|by exists c', zr].
  - by apply (reply_call_confusion zdr_u_int (word_reply 0)
      (mkReply 0 (mkAccepted _null_auth 0 0 (Heap (zeros 4)) (mkMismatch 0 0)) (mkRejected 0 (mkMismatch 0 0) 0))
      _ 5 _ (zeros 4) Hr ltac:(done) Hok eq_refl).
Defined.

Lemma authunix_create_spec_witness :
  libnfs_authunix_create 9 [104; 105] 1 2 1 [100] =
    Some (Some (mkAUTH (mkAuth AUTH_UNIX (Heap (authunix_wire 9 [104; 105] 1 2 [100])) 28)
      (mkAuth AUTH_NONE NULL 0))).
Proof. apply (authunix_create_spec 9 [104; 105] 1 2 [100]). by vm_compute. Defined.
