(* ===== verification/Cursor.v ===== *)
(** * Cursor: I/O vectors and zero-copy cursors (lib/init.c, lib/socket.c)

    [rpc_io_vectors], the vectors a PDU is sent from, and [rpc_iovec_cursor],
    the user buffers a READ is received into, with the fragments that are put
    together before a PDU is decoded.  A failing assertion and an access out
    of an array or out of user memory are [None].

    The abstraction of a cursor is [addrs], the list of the addresses that are
    still to be filled in; each operation is a list operation on it. *)

From S2P Require Import Prelude.

(** ** User memory *)

Abbreviation memory := (gmap Z Z).

(** [memcpy] into user memory. *)
Fixpoint mem_write (m : memory) (a : Z) (d : bytes) : option memory :=
  match d with
  | [] => Some m
  | x :: d => match m !! a with Some _ => mem_write (<[a := x]> m) (a + 1) d | None => None end
  end.

(** ** [struct iovec] and [struct rpc_iovec_cursor] *)

Record iovec := mkIov { iov_base : Z; iov_len : Z }.

#[export] Instance iovec_eq_dec : EqDecision iovec.
Proof. solve_decision. Defined.

(** [base] is the allocated array, the working vector followed by the
    reference copy; [iov] and [iov_ref] are indices into it. *)
Record cursor := mkCursor {
  base : option (list iovec);
  iov : nat;
  iovcnt : nat;
  remaining_size : Z;
  iov_ref : nat;
  iovcnt_ref : nat;
}.

(** The cursor of a zero-filled PDU. *)
Definition null_cursor : cursor := mkCursor None 0 0 0 0 0.

(** The cursor set up for a READ into [l] by [rpc_nfs3_readv_task]. *)
Definition init_cursor (l : list iovec) : cursor :=
  mkCursor (Some (l ++ l)) 0 (length l)
    (foldl (fun s v => u64 (s + iov_len v)) 0 l) (length l) (length l).

Definition set_window (a : list iovec) (i n : nat) (rem : Z) (v : cursor) : cursor :=
  mkCursor (Some a) i n rem (iov_ref v) (iovcnt_ref v).

(** The assertions each operation ends with; [check] of the C code's order. *)
Definition cursor_asserts (v : cursor) : bool :=
  bool_decide (iovcnt v <= iovcnt_ref v)%nat && bool_decide (iov v <= iov_ref v)%nat &&
  bool_decide (iov_ref v = iovcnt_ref v).

Definition check_cursor (v : cursor) : option cursor :=
  if eqb (bool_decide (iovcnt v = 0%nat)) (remaining_size v =? 0) && cursor_asserts v
  then Some v else None.

(** The loop of [rpc_advance_cursor]; every turn but the last uses up one
    vector, so [iovcnt + 1] turns are enough. *)
Fixpoint advance_loop (fuel : nat) (v : cursor) (len : Z) : option cursor :=
  match fuel with
  | O => None
  | S fuel =>
      if len =? 0 then Some v else
      if bool_decide (iovcnt v = 0%nat) then None else
      a ← base v;
      v0 ← a !! iov v;
      if remaining_size v <? iov_len v0 then None else
      if iov_len v0 >? len then
        Some (set_window (<[iov v := mkIov (iov_base v0 + len) (u64 (iov_len v0 - len))]> a)
                (iov v) (iovcnt v) (u64 (remaining_size v - len)) v)
      else
        advance_loop fuel
          (set_window a (S (iov v)) (pred (iovcnt v)) (u64 (remaining_size v - iov_len v0)) v)
          (u64 (len - iov_len v0))
  end.

Definition rpc_advance_cursor (v : cursor) (len : Z) : option cursor :=
  v ← advance_loop (S (iovcnt v)) v len; check_cursor v.

(** The loop of [rpc_shrink_cursor]: from vector [i] on, [n] vectors left. *)
Fixpoint shrink_loop (n i : nat) (a : list iovec) (off : nat) (num_done new_len : Z)
    : option (list iovec * nat) :=
  match n with
  | O => Some (a, i)
  | S n =>
      if num_done <? new_len then
        v ← a !! (off + i)%nat;
        if iov_len v <=? u64 (new_len - num_done)
        then shrink_loop n (S i) a off (u64 (num_done + iov_len v)) new_len
        else shrink_loop n (S i)
               (<[(off + i)%nat := mkIov (iov_base v) (u64 (new_len - num_done))]> a)
               off new_len new_len
      else Some (a, i)
  end.

Definition rpc_shrink_cursor (v : cursor) (new_len : Z) : option cursor :=
  if remaining_size v <=? new_len then Some v else
  a ← base v;
  '(a, i) ← shrink_loop (iovcnt v) 0 a (iov v) 0 new_len;
  check_cursor (set_window a (iov v) i new_len v).

Fixpoint memcpy_loop (fuel : nat) (m : memory) (v : cursor) (src : bytes) (len : Z)
    : option (memory * cursor) :=
  match fuel with
  | O => None
  | S fuel =>
      if len =? 0 then Some (m, v) else
      if bool_decide (iovcnt v = 0%nat) then None else
      a ← base v;
      v0 ← a !! iov v;
      if iov_len v0 >? len then
        d ← read_at 0 len src;
        m ← mem_write m (iov_base v0) d;
        Some (m, set_window (<[iov v := mkIov (iov_base v0 + len) (u64 (iov_len v0 - len))]> a)
                   (iov v) (iovcnt v) (u64 (remaining_size v - len)) v)
      else
        d ← read_at 0 (iov_len v0) src;
        m ← mem_write m (iov_base v0) d;
        memcpy_loop fuel m
          (set_window a (S (iov v)) (pred (iovcnt v)) (u64 (remaining_size v - iov_len v0)) v)
          (drop (Z.to_nat (iov_len v0)) src) (u64 (len - iov_len v0))
  end.

Definition rpc_memcpy_cursor (m : memory) (v : cursor) (src : bytes) (len : Z)
    : option (memory * cursor) :=
  '(m, v) ← memcpy_loop (S (iovcnt v)) m v src len;
  v ← check_cursor v; Some (m, v).

Fixpoint reset_loop (n i : nat) (a : list iovec) (ref : nat) (rem : Z)
    : option (list iovec * Z) :=
  match n with
  | O => Some (a, rem)
  | S n =>
      v ← a !! (ref + i)%nat;
      if bool_decide (i < length a)%nat
      then reset_loop n (S i) (<[i := v]> a) ref (u64 (rem + iov_len v)) else None
  end.

Definition rpc_reset_cursor (v : cursor) : option cursor :=
  match base v with
  | None => Some v
  | Some a =>
      if cursor_asserts v then
        '(a, rem) ← reset_loop (iovcnt_ref v) 0 a (iov_ref v) 0;
        Some (set_window a 0 (iovcnt_ref v) rem v)
      else None
  end.

(** ** [struct rpc_io_vectors] *)

Definition RPC_FAST_VECTORS : nat := 8.
Definition RPC_MAX_VECTORS : nat := 1024.

(** The vectors a PDU is sent from; [niov] is the length of [vecs]. *)
Record io_vectors := mkVecs {
  num_done : Z; total_size : Z; iov_capacity : nat; vecs : list iovec;
}.

Definition niov (v : io_vectors) : nat := length (vecs v).

Definition rpc_add_iovector (v : io_vectors) (buf len : Z) : option io_vectors :=
  if bool_decide (iov_capacity v <= niov v)%nat then None else
  Some (mkVecs (num_done v) (total_size v) (iov_capacity v) (vecs v ++ [mkIov buf (u64 len)])).

(** ** Fragments *)

Definition NFS_MAX_XFER_SIZE : Z := 4 * 1024 * 1024.

(** [rpc_add_fragment]: the first [size] bytes of [data] are appended. *)
Definition rpc_add_fragment (fragments : list bytes) (data : bytes) (size : Z) : option (list bytes) :=
  d ← read_at 0 size data; Some (fragments ++ [d]).

(** The size of the PDU, or nothing when it does not fit 32 bits. *)
Fixpoint fragments_size (size : Z) (fragments : list bytes) : option Z :=
  match fragments with
  | [] => Some size
  | f :: fragments =>
      let size := u32 (size + blen f) in
      if size <? blen f then None else fragments_size size fragments
  end.

(** [rpc_reassemble_pdu]: the fragments, then what is in the input buffer. *)
Definition rpc_reassemble_pdu (fragments : list bytes) (inbuf : bytes) (inpos : Z) : option bytes :=
  _ ← fragments_size inpos fragments;
  last ← read_at 0 inpos inbuf;
  Some (concat fragments ++ last).

(** [adjust_inbuf], when [realloc] succeeds: the buffer only grows, and its
    contents are kept. *)
Definition adjust_inbuf (inbuf : bytes) (pdu_size : Z) : option bytes :=
  if blen inbuf <? pdu_size then
    if pdu_size >? NFS_MAX_XFER_SIZE + 4096 then None
    else Some (inbuf ++ zeros (pdu_size - blen inbuf))
  else Some inbuf.

(** ** Abstraction *)

Definition seg (v : iovec) : list Z := seqZ (iov_base v) (iov_len v).
Definition addrs_of (l : list iovec) : list Z := concat (map seg l).
#[global] Arguments addrs_of : simpl never.

Definition arr (v : cursor) : list iovec := default [] (base v).
Definition todo (v : cursor) : list iovec := take (iovcnt v) (drop (iov v) (arr v)).
Definition refs (v : cursor) : list iovec := drop (iov_ref v) (arr v).

(** The addresses still to be filled in. *)
Definition addrs (v : cursor) : list Z := addrs_of (todo v).

(** Store [d] at the addresses [l]. *)
Fixpoint scatter (m : memory) (l : list Z) (d : bytes) : memory :=
  match l, d with a :: l, x :: d => scatter (<[a := x]> m) l d | _, _ => m end.

Definition positive (v : iovec) : Prop := 0 < iov_len v.

(** No vector is empty and the sizes do not overflow [size_t]. *)
Record cursor_wf (v : cursor) : Prop := {
  cw_base : base v = Some (arr v);
  cw_len : length (arr v) = (iovcnt_ref v + iovcnt_ref v)%nat;
  cw_ref : iov_ref v = iovcnt_ref v;
  cw_window : (iov v + iovcnt v <= iovcnt_ref v)%nat;
  cw_pos : Forall positive (todo v);
  cw_refs : Forall positive (refs v);
  cw_rem : remaining_size v = blen (addrs v);
  cw_fit : is_u64 (blen (addrs v));
  cw_fit_refs : is_u64 (blen (addrs_of (refs v)));
}.

Lemma blen_seg v : positive v -> blen (seg v) = iov_len v.
Proof. unfold positive, seg, blen. rewrite length_seqZ. lia. Qed.

Lemma addrs_of_cons v l : addrs_of (v :: l) = seg v ++ addrs_of l.
Proof. reflexivity. Qed.

Lemma seg_split v n : 0 <= n <= iov_len v ->
  seg v = seqZ (iov_base v) n ++ seg (mkIov (iov_base v + n) (iov_len v - n)).
Proof. intros. unfold seg; cbn. rewrite <- seqZ_app by lia. f_equal; lia. Qed.

Lemma scatter_app l1 l2 d1 d2 m :
  length l1 = length d1 -> scatter m (l1 ++ l2) (d1 ++ d2) = scatter (scatter m l1 d1) l2 d2.
Proof.
  revert d1 m. induction l1 as [|a l1 IH]; intros [|x d1] m Hl; try done.
  cbn. apply IH. by injection Hl.
Qed.

Lemma mem_write_scatter d : forall m a,
  Forall (fun b => is_Some (m !! b)) (seqZ a (blen d)) ->
  mem_write m a d = Some (scatter m (seqZ a (blen d)) d).
Proof.
  induction d as [|x d IH]; intros m a Hm; [done|].
  pose proof (blen_nonneg d). rewrite blen_cons in *.
  rewrite seqZ_cons in * by lia. replace (Z.pred (1 + blen d)) with (blen d) in * by lia.
  apply Forall_cons in Hm as [[y Hy] Hm]. cbn. rewrite Hy. rewrite <- Z.add_1_r in *.
  apply IH. eapply Forall_impl; [exact Hm|]. cbn. intros b ?.
  destruct (decide (a = b)) as [->|]; [rewrite lookup_insert_eq|rewrite lookup_insert_ne]; eauto.
Qed.

Lemma scatter_domain l : forall d m b, is_Some (m !! b) -> is_Some (scatter m l d !! b).
Proof.
  induction l as [|a l IH]; intros [|x d] m b Hb; try done. cbn. apply IH.
  destruct (decide (a = b)) as [->|]; [rewrite lookup_insert_eq|rewrite lookup_insert_ne]; eauto.
Qed.

(** *** The two steps of the loops *)

Section window.
Context (v : cursor) (v0 : iovec) (l : list iovec).
Hypothesis (W : cursor_wf v) (T : todo v = v0 :: l).

Lemma window_head : arr v !! iov v = Some v0 /\ iovcnt v = S (length l).
Proof.
  unfold todo in T. destruct (iovcnt v) as [|n] eqn:En; [done|].
  destruct (drop (iov v) (arr v)) as [|y r] eqn:Ed; [done|]. cbn in T. injection T as -> Hl.
  split.
  - rewrite <- (Nat.add_0_r (iov v)), <- lookup_drop, Ed. done.
  - rewrite <- Hl, length_take. assert (length (v0 :: r) = length (arr v) - iov v)%nat as E
      by (rewrite <- Ed; apply length_drop).
    cbn in E. pose proof (cw_window _ W). pose proof (cw_len _ W). lia.
Qed.

Definition window_next : cursor :=
  set_window (arr v) (S (iov v)) (pred (iovcnt v)) (u64 (remaining_size v - iov_len v0)) v.

Definition window_cut (n : Z) : cursor :=
  set_window (<[iov v := mkIov (iov_base v0 + n) (u64 (iov_len v0 - n))]> (arr v))
    (iov v) (iovcnt v) (u64 (remaining_size v - n)) v.

Lemma window_sizes :
  0 < iov_len v0 /\ remaining_size v = iov_len v0 + blen (addrs_of l) /\
  blen (seg v0) = iov_len v0 /\ is_u64 (remaining_size v).
Proof.
  pose proof (cw_pos _ W) as Hp. pose proof (cw_rem _ W) as Hr. pose proof (cw_fit _ W) as Hf.
  unfold addrs in *. rewrite T in *. apply Forall_cons in Hp as [Hp _].
  rewrite addrs_of_cons, blen_app, (blen_seg v0) in Hr, Hf by done.
  rewrite blen_seg by done. rewrite Hr. done.
Qed.

Lemma window_next_wf : cursor_wf window_next /\ todo window_next = l.
Proof.
  destruct window_head as [Hh Hc]. destruct window_sizes as (Hp & Hr & Hs & Hf).
  assert (Ht : todo window_next = l).
  { unfold todo, arr in *; cbn. pose proof (drop_S _ _ _ Hh) as Ed. rewrite Ed, Hc in T.
    cbn in T. rewrite Hc. cbn. by injection T. }
  split; [|done]. pose proof (blen_nonneg (addrs_of l)).
  split; unfold addrs; rewrite ?Ht; try apply W; cbn.
  - done.
  - pose proof (cw_window _ W). lia.
  - pose proof (cw_pos _ W) as Hq. rewrite T in Hq. by apply Forall_cons in Hq as [_ ?].
  - rewrite u64_id; unfold is_u64 in *; lia.
  - unfold is_u64 in *. lia.
Qed.

Lemma window_cut_wf n : 0 <= n < iov_len v0 ->
  cursor_wf (window_cut n) /\
  todo (window_cut n) = mkIov (iov_base v0 + n) (iov_len v0 - n) :: l /\
  refs (window_cut n) = refs v.
Proof.
  intros Hn. destruct window_head as [Hh Hc]. destruct window_sizes as (Hp & Hr & Hs & Hf).
  pose proof (blen_nonneg (addrs_of l)). pose proof (cw_window _ W). pose proof (cw_len _ W).
  pose proof (cw_ref _ W).
  assert (Hid : u64 (iov_len v0 - n) = iov_len v0 - n)
    by (apply u64_id; unfold is_u64 in *; lia).
  assert (Ht : todo (window_cut n) = mkIov (iov_base v0 + n) (iov_len v0 - n) :: l).
  { unfold todo in *. cbn. change (arr (window_cut n)) with
      (<[iov v := mkIov (iov_base v0 + n) (u64 (iov_len v0 - n))]> (arr v)).
    rewrite (drop_insert_ge _ _ (iov v)), Nat.sub_diag by lia.
    pose proof (drop_S _ _ _ Hh) as Ed. rewrite Ed, Hc in *. cbn in *. rewrite Hid.
    injection T as Hl. by rewrite Hl. }
  assert (Hrf : refs (window_cut n) = refs v).
  { unfold refs, arr; cbn. apply drop_insert_lt. lia. }
  split; [|done]. split; unfold addrs; rewrite ?Ht, ?Hrf; try apply W; cbn;
    rewrite ?length_insert; try done.
  - pose proof (cw_pos _ W) as Hq. rewrite T in Hq. apply Forall_cons in Hq as [_ ?].
    constructor; [unfold positive; cbn; lia|done].
  - rewrite addrs_of_cons, blen_app, blen_seg by (unfold positive; cbn; lia). cbn.
    rewrite u64_id; unfold is_u64 in *; lia.
  - rewrite addrs_of_cons, blen_app, blen_seg by (unfold positive; cbn; lia). cbn.
    unfold is_u64 in *; lia.
Qed.
End window.

(** What no operation changes. *)
Definition kept (v v' : cursor) : Prop :=
  refs v' = refs v /\ iov_ref v' = iov_ref v /\ iovcnt_ref v' = iovcnt_ref v.

Lemma kept_trans v1 v2 v3 : kept v1 v2 -> kept v2 v3 -> kept v1 v3.
Proof. unfold kept. intuition congruence. Qed.

Lemma wf_bool v : cursor_wf v -> cursor_asserts v = true.
Proof.
  intros W. pose proof (cw_window _ W). pose proof (cw_ref _ W). unfold cursor_asserts.
  rewrite !bool_decide_true by lia. done.
Qed.

Lemma todo_length v : cursor_wf v -> length (todo v) = iovcnt v.
Proof.
  intros W. pose proof (cw_window _ W). pose proof (cw_len _ W).
  unfold todo. rewrite length_take, length_drop. lia.
Qed.

(** The size left is 0 exactly when no vector is left. *)
Lemma wf_check v : cursor_wf v -> check_cursor v = Some v.
Proof.
  intros W. unfold check_cursor. rewrite wf_bool, (cw_rem _ W) by done.
  pose proof (todo_length _ W) as Hl. pose proof (cw_pos _ W) as Hp. unfold addrs in *.
  destruct (todo v) as [|v0 l]; cbn in Hl.
  - by rewrite <- Hl.
  - apply Forall_cons in Hp as [Hp _]. rewrite addrs_of_cons, blen_app, blen_seg by done.
    pose proof (blen_nonneg (addrs_of l)). unfold positive in Hp.
    rewrite bool_decide_false by lia. by replace (_ =? 0) with false by lia.
Qed.

Lemma drop_addrs v0 l n :
  0 < iov_len v0 -> 0 <= n <= iov_len v0 ->
  drop (Z.to_nat n) (addrs_of (v0 :: l)) =
    seg (mkIov (iov_base v0 + n) (iov_len v0 - n)) ++ addrs_of l.
Proof.
  intros Hp Hn. rewrite addrs_of_cons, (seg_split v0 n), <- app_assoc by lia.
  assert (length (seqZ (iov_base v0) n) = Z.to_nat n) as <- by apply length_seqZ.
  apply drop_app_length.
Qed.

Lemma take_addrs v0 l n :
  0 <= n <= iov_len v0 -> take (Z.to_nat n) (addrs_of (v0 :: l)) = seqZ (iov_base v0) n.
Proof.
  intros Hn. rewrite addrs_of_cons, (seg_split v0 n), <- app_assoc by lia.
  assert (length (seqZ (iov_base v0) n) = Z.to_nat n) as <- by apply length_seqZ.
  apply take_app_length.
Qed.

Lemma to_nat_split (n k : Z) : 0 <= k <= n -> Z.to_nat n = (Z.to_nat k + Z.to_nat (n - k))%nat.
Proof. lia. Qed.

Lemma todo_nonempty v len : cursor_wf v -> 0 < len <= remaining_size v -> exists v0 l, todo v = v0 :: l.
Proof.
  intros W Hl. rewrite (cw_rem _ W) in Hl. unfold addrs in Hl.
  destruct (todo v) as [|v0 l]; [|eauto]. change (blen (addrs_of [])) with 0 in Hl. lia.
Qed.

Lemma advance_loop_spec fuel : forall v len,
  (iovcnt v < fuel)%nat -> cursor_wf v -> 0 <= len <= remaining_size v ->
  exists v', advance_loop fuel v len = Some v' /\ cursor_wf v' /\ kept v v' /\
    addrs v' = drop (Z.to_nat len) (addrs v).
Proof.
  induction fuel as [|fuel IH]; intros v len Hf W Hl; [lia|]. cbn.
  destruct (len =? 0) eqn:E0.
  { exists v. replace len with 0 by lia. repeat split; try apply W. }
  destruct (todo_nonempty v len W) as (v0 & l & T); [lia|].
  destruct (window_head v v0 l W T) as [Hh Hc]. destruct (window_sizes v v0 l W T) as (Hp & Hr & _ & H64).
  pose proof (blen_nonneg (addrs_of l)).
  rewrite bool_decide_false by lia. rewrite (cw_base _ W). cbn. rewrite Hh. cbn.
  replace (_ <? _) with false by lia. destruct (iov_len v0 >? len) eqn:Eg.
  - destruct (window_cut_wf v v0 l W T len) as (Wc & Tc & Rc); [lia|].
    exists (window_cut v v0 len). split; [done|]. split; [done|]. split; [done|].
    unfold addrs. rewrite Tc, T, drop_addrs by lia. done.
  - destruct (window_next_wf v v0 l W T) as [Wn Tn].
    rewrite (u64_id (len - _)) by (unfold is_u64 in *; lia).
    destruct (IH (window_next v v0) (len - iov_len v0)) as (v' & E & W' & K & A); try done.
    { cbn. lia. }
    { rewrite (cw_rem _ Wn). unfold addrs. rewrite Tn. lia. }
    exists v'. split; [exact E|]. split; [done|]. split; [exact (kept_trans _ _ _ (conj eq_refl (conj eq_refl eq_refl)) K)|].
    rewrite A. unfold addrs. rewrite Tn, T, (to_nat_split len (iov_len v0)), <- drop_drop by lia.
    rewrite drop_addrs by lia. by rewrite Z.sub_diag.
Qed.

Lemma take_addrs_nonpos n l : n <= 0 -> take (Z.to_nat n) (addrs_of l) = [].
Proof. intros Hn. by replace (Z.to_nat n) with 0%nat by lia. Qed.

Lemma shrink_loop_spec off nl ws : forall i pre post nd,
  length pre = (off + i)%nat -> Forall positive ws -> 0 <= nd <= nl -> is_u64 nl ->
  is_u64 (nd + blen (addrs_of ws)) ->
  exists ws' k, shrink_loop (length ws) i (pre ++ ws ++ post) off nd nl =
      Some (pre ++ ws' ++ post, (i + k)%nat) /\
    length ws' = length ws /\ (k <= length ws)%nat /\ Forall positive (take k ws') /\
    addrs_of (take k ws') = take (Z.to_nat (nl - nd)) (addrs_of ws).
Proof.
  induction ws as [|v ws IH]; intros i pre post nd Hl Hpos Hnd Hnl H64; cbn [length shrink_loop].
  { exists [], 0%nat. rewrite Nat.add_0_r. repeat split; [lia|constructor|by destruct (Z.to_nat _)]. }
  destruct (nd <? nl) eqn:E.
  2: { exists (v :: ws), 0%nat. rewrite Nat.add_0_r, take_addrs_nonpos by lia.
    repeat split; [lia|constructor]. }
  apply Forall_cons in Hpos as [Hp Hpos].
  rewrite addrs_of_cons, blen_app, blen_seg in H64 by done. pose proof (blen_nonneg (addrs_of ws)).
  rewrite lookup_app_r, Hl, Nat.sub_diag by lia. cbn. unfold positive in Hp.
  rewrite (u64_id (nl - nd)) by (unfold is_u64 in *; lia).
  assert (Hassoc : forall w, pre ++ w :: ws ++ post = (pre ++ [w]) ++ ws ++ post)
    by (intros; by rewrite <- app_assoc).
  destruct (iov_len v <=? nl - nd) eqn:El.
  - rewrite u64_id by (unfold is_u64 in *; lia). rewrite Hassoc.
    destruct (IH (S i) (pre ++ [v]) post (nd + iov_len v)) as (ws' & k & E1 & Hl' & Hk & Hp' & Ha);
      try done; try lia. { rewrite length_app. cbn. lia. } { unfold is_u64 in *; lia. }
    exists (v :: ws'), (S k). rewrite E1, <- app_assoc, Nat.add_succ_comm. cbn.
    repeat split; [cbn; lia|lia|by constructor|].
    rewrite !addrs_of_cons, Ha, (to_nat_split (nl - nd) (iov_len v)) by lia.
    assert (length (seg v) = Z.to_nat (iov_len v)) as <- by apply length_seqZ.
    rewrite take_app_add. do 3 f_equal. lia.
  - rewrite insert_app_r_alt, Hl, Nat.sub_diag by lia. cbn. rewrite Hassoc.
    set (v' := mkIov (iov_base v) (nl - nd)).
    destruct (IH (S i) (pre ++ [v']) post nl) as (ws' & k & E1 & Hl' & Hk & Hp' & Ha);
      try done; try lia. { rewrite length_app. cbn. lia. } { unfold is_u64 in *; lia. }
    exists (v' :: ws'), (S k). rewrite E1, <- app_assoc, Nat.add_succ_comm. cbn.
    repeat split; [cbn; lia|lia| |].
    + constructor; [unfold positive; cbn; lia|done].
    + rewrite addrs_of_cons, Ha, Z.sub_diag, take_addrs by lia. cbn. by rewrite app_nil_r.
Qed.

Lemma window_split v : cursor_wf v ->
  exists pre post, arr v = pre ++ todo v ++ post /\ length pre = iov v /\
    (length post = (iovcnt_ref v - iov v - iovcnt v) + iovcnt_ref v)%nat.
Proof.
  intros W. pose proof (cw_window _ W). pose proof (cw_len _ W).
  exists (take (iov v) (arr v)), (drop (iovcnt v) (drop (iov v) (arr v))).
  unfold todo. rewrite take_drop, take_drop. split; [done|].
  rewrite length_take, !length_drop. lia.
Qed.

Lemma memcpy_loop_spec fuel : forall m v src len,
  (iovcnt v < fuel)%nat -> cursor_wf v -> 0 <= len <= remaining_size v -> len <= blen src ->
  Forall (fun b => is_Some (m !! b)) (addrs v) ->
  exists v', memcpy_loop fuel m v src len =
      Some (scatter m (take (Z.to_nat len) (addrs v)) (take (Z.to_nat len) src), v') /\
    cursor_wf v' /\ kept v v' /\ addrs v' = drop (Z.to_nat len) (addrs v).
Proof.
  induction fuel as [|fuel IH]; intros m v src len Hf W Hl Hs Hm; [lia|]. cbn.
  destruct (len =? 0) eqn:E0.
  { exists v. replace len with 0 by lia. repeat split; apply W. }
  destruct (todo_nonempty v len W) as (v0 & l & T); [lia|].
  destruct (window_head v v0 l W T) as [Hh Hc]. destruct (window_sizes v v0 l W T) as (Hp & Hr & _ & H64).
  pose proof (blen_nonneg (addrs_of l)).
  rewrite bool_decide_false by lia. rewrite (cw_base _ W). cbn. rewrite Hh. cbn.
  assert (Hread : forall n, 0 <= n <= len -> read_at 0 n src = Some (take (Z.to_nat n) src)).
  { intros n Hn. unfold read_at. replace (_ && _) with true by lia. cbn. by rewrite drop_0. }
  assert (Hwrite : forall n, 0 <= n <= len -> n <= iov_len v0 ->
    mem_write m (iov_base v0) (take (Z.to_nat n) src) =
      Some (scatter m (seqZ (iov_base v0) n) (take (Z.to_nat n) src))).
  { intros n Hn Hn'. assert (blen (take (Z.to_nat n) src) = n) as Hb by (apply blen_take; lia).
    rewrite mem_write_scatter, Hb; [done|]. rewrite Hb.
    unfold addrs in Hm. rewrite T in Hm. rewrite <- (take_addrs v0 l n) by lia.
    by apply Forall_take. }
  destruct (iov_len v0 >? len) eqn:Eg.
  - destruct (window_cut_wf v v0 l W T len) as (Wc & Tc & Rc); [lia|].
    rewrite Hread by lia. cbn. rewrite Hwrite by lia. cbn.
    exists (window_cut v v0 len). unfold addrs. rewrite T, take_addrs by lia.
    split; [done|]. split; [done|]. split; [done|]. rewrite Tc, drop_addrs by lia. done.
  - destruct (window_next_wf v v0 l W T) as [Wn Tn].
    rewrite Hread by lia. cbn. rewrite Hwrite by lia. cbn.
    rewrite (u64_id (len - _)) by (unfold is_u64 in *; lia).
    destruct (IH (scatter m (seqZ (iov_base v0) (iov_len v0)) (take (Z.to_nat (iov_len v0)) src))
      (window_next v v0) (drop (Z.to_nat (iov_len v0)) src) (len - iov_len v0))
      as (v' & E & W' & K & A); try done.
    { cbn. lia. }
    { rewrite (cw_rem _ Wn). unfold addrs. rewrite Tn. lia. }
    { unfold blen in *. rewrite length_drop. lia. }
    { unfold addrs in *. rewrite Tn. rewrite T, addrs_of_cons in Hm.
      apply Forall_app in Hm as [_ Hm]. eapply Forall_impl; [exact Hm|].
      cbn. intros b. apply scatter_domain. }
    exists v'. split; [|split; [done|]; split].
    + etransitivity; [exact E|]. do 2 f_equal. unfold addrs. rewrite Tn, T.
      rewrite (to_nat_split len (iov_len v0)) by lia.
      rewrite <- !take_take_drop, take_addrs, drop_addrs by lia. rewrite Z.sub_diag. cbn.
      rewrite scatter_app; [done|].
      rewrite length_seqZ, length_take. unfold blen in *. lia.
    + exact (kept_trans _ _ _ (conj eq_refl (conj eq_refl eq_refl)) K).
    + rewrite A. unfold addrs. rewrite Tn, T, (to_nat_split len (iov_len v0)), <- drop_drop by lia.
      rewrite drop_addrs by lia. by rewrite Z.sub_diag.
Qed.

Lemma reset_loop_spec rs work n : forall i rem,
  length work = length rs -> (i + n)%nat = length rs -> 0 <= rem -> Forall positive rs ->
  is_u64 (rem + blen (addrs_of (drop i rs))) ->
  reset_loop n i (take i rs ++ drop i work ++ rs) (length rs) rem =
    Some (rs ++ rs, rem + blen (addrs_of (drop i rs))).
Proof.
  induction n as [|n IH]; intros i rem Hw Hi Hrem Hpos H64; cbn [reset_loop].
  { rewrite firstn_all2, (drop_ge work), (drop_ge rs) by lia.
    change (blen (addrs_of [])) with 0. by rewrite Z.add_0_r. }
  destruct (lookup_lt_is_Some_2 rs i) as [r Hr]; [lia|].
  destruct (lookup_lt_is_Some_2 work i) as [w Hwk]; [lia|].
  assert (Hlen : length (take i rs) = i) by (rewrite length_take; lia).
  assert (Hdw : length (drop i work) = S n) by (rewrite length_drop; lia).
  rewrite (drop_S _ _ _ Hr) in *. rewrite addrs_of_cons, blen_app in *.
  assert (positive r) as Hp by (rewrite Forall_lookup in Hpos; eauto).
  rewrite blen_seg in * by done. pose proof (blen_nonneg (addrs_of (drop (S i) rs))).
  unfold positive in Hp.
  assert (Hl : (take i rs ++ drop i work ++ rs) !! (length rs + i)%nat = Some r).
  { rewrite lookup_app_r, lookup_app_r by lia.
    replace (_ - _ - _)%nat with i by lia. done. }
  rewrite Hl. cbn. rewrite bool_decide_true by (rewrite !length_app; lia).
  rewrite insert_app_r_alt, Hlen, Nat.sub_diag, (drop_S _ _ _ Hwk) by lia. cbn.
  rewrite u64_id by (unfold is_u64 in *; lia).
  specialize (IH (S i) (rem + iov_len r)).
  rewrite (take_S_r _ _ _ Hr), <- app_assoc in IH. cbn in IH.
  rewrite IH by (done || lia || (unfold is_u64 in *; lia)). do 2 f_equal. lia.
Qed.

(** ** The operations on the addresses left *)

(** [rpc_memcpy_cursor] stores the next [len] bytes at the next [len] addresses of
    the cursor, across any number of vectors, fails no assertion, and leaves the cursor
    at the addresses that follow. *)
Theorem memcpy_cursor_scatters m v src len :
  cursor_wf v -> 0 <= len <= remaining_size v -> len <= blen src ->
  Forall (fun b => is_Some (m !! b)) (addrs v) ->
  exists v', rpc_memcpy_cursor m v src len =
      Some (scatter m (take (Z.to_nat len) (addrs v)) (take (Z.to_nat len) src), v') /\
    cursor_wf v' /\ kept v v' /\ addrs v' = drop (Z.to_nat len) (addrs v).
Proof.
  intros W Hl Hs Hm. destruct (memcpy_loop_spec (S (iovcnt v)) m v src len)
    as (v' & E & W' & K & A); try done; [lia|].
  exists v'. unfold rpc_memcpy_cursor. rewrite E. cbn. by rewrite wf_check.
Qed.

Lemma advance_cursor_spec v len :
  cursor_wf v -> 0 <= len <= remaining_size v ->
  exists v', rpc_advance_cursor v len = Some v' /\ cursor_wf v' /\ kept v v' /\
    addrs v' = drop (Z.to_nat len) (addrs v).
Proof.
  intros W Hl. destruct (advance_loop_spec (S (iovcnt v)) v len)
    as (v' & E & W' & K & A); try done; [lia|].
  exists v'. unfold rpc_advance_cursor. rewrite E. cbn. by rewrite wf_check.
Qed.

Lemma shrink_cursor_spec v n :
  cursor_wf v -> 0 <= n ->
  exists v', rpc_shrink_cursor v n = Some v' /\ cursor_wf v' /\ kept v v' /\
    addrs v' = take (Z.to_nat n) (addrs v).
Proof.
  intros W Hn. unfold rpc_shrink_cursor. destruct (remaining_size v <=? n) eqn:E.
  { exists v. repeat split; try apply W. rewrite take_ge; [done|].
    rewrite (cw_rem _ W) in E. unfold blen in E. lia. }
  destruct (window_split v W) as (pre & post & Ha & Hpre & Hpost).
  pose proof (cw_rem _ W) as Hrem. pose proof (cw_fit _ W) as H64.
  pose proof (todo_length _ W) as Ht.
  destruct (shrink_loop_spec (iov v) n (todo v) 0 pre post 0) as (ws' & k & E1 & Hl & Hk & Hp & Had);
    try done; try lia; [apply W|unfold addrs, is_u64 in *; lia|].
  rewrite (cw_base _ W). cbn. rewrite Ha, <- Ht. rewrite Nat.add_0_l in E1. rewrite E1. cbn.
  rewrite Z.sub_0_r in Had. set (v' := set_window _ _ _ _ _).
  assert (Htodo : todo v' = take k ws').
  { unfold todo, v', arr; cbn. rewrite <- Hpre, drop_app_length.
    apply take_app_le. lia. }
  assert (Hrefs : refs v' = refs v).
  { unfold refs. rewrite Ha. unfold v', arr; cbn. rewrite !app_assoc.
    rewrite !drop_app, !length_app, Hl.
    pose proof (cw_ref _ W). pose proof (cw_window _ W). f_equal.
    rewrite !drop_ge; [done|lia..]. }
  assert (Haddr : addrs v' = take (Z.to_nat n) (addrs v)) by (unfold addrs; by rewrite Htodo).
  assert (Hb : blen (addrs v') = n) by (rewrite Haddr; apply blen_take; lia).
  assert (W' : cursor_wf v').
  { pose proof (cw_window _ W). split; rewrite ?Htodo, ?Hrefs, ?Hb; try apply W; cbn; try done.
    - rewrite <- (cw_len _ W), Ha. unfold arr; cbn. rewrite !length_app. lia.
    - lia.
    - unfold is_u64 in *. lia. }
  exists v'. rewrite wf_check by done. done.
Qed.

Lemma reset_cursor_spec v :
  cursor_wf v ->
  exists v', rpc_reset_cursor v = Some v' /\ cursor_wf v' /\ kept v v' /\ todo v' = refs v.
Proof.
  intros W. pose proof (cw_len _ W) as Hlen. pose proof (cw_ref _ W) as Href.
  pose proof (cw_fit_refs _ W) as H64. pose proof (blen_nonneg (addrs_of (refs v))).
  set (work := take (iovcnt_ref v) (arr v)).
  assert (Ha : arr v = work ++ refs v)
    by (unfold work, refs; rewrite Href; symmetry; apply take_drop).
  assert (Hr : length (refs v) = iovcnt_ref v) by (unfold refs; rewrite length_drop; lia).
  assert (Hw : length work = iovcnt_ref v) by (unfold work; rewrite length_take; lia).
  unfold rpc_reset_cursor. rewrite (cw_base _ W), wf_bool, Ha, Href by done.
  pose proof (reset_loop_spec (refs v) work (iovcnt_ref v) 0 0) as E.
  rewrite !drop_0, take_0, Hr in E. cbn [app] in E. rewrite E by (done || lia || apply W). cbn. clear E.
  eexists. split; [reflexivity|]. set (v' := set_window _ _ _ _ _).
  assert (Ht : todo v' = refs v).
  { unfold todo, v', arr; cbn. rewrite drop_0, <- Hr. apply take_app_length. }
  assert (Hrf : refs v' = refs v).
  { unfold refs at 1, v', arr; cbn. rewrite Href, <- Hr. apply drop_app_length. }
  split; [|done]. split; unfold addrs; rewrite ?Ht, ?Hrf; try apply W; cbn; try done; try lia.
  unfold arr; cbn. rewrite length_app. lia.
Qed.

(** ** Receiving a READ *)

(** [readv] fills in the vectors of the cursor in order; the cursor is then
    advanced. *)
Fixpoint readv_chunks (m : memory) (v : cursor) (chunks : list bytes) : option (memory * cursor) :=
  match chunks with
  | [] => Some (m, v)
  | c :: chunks =>
      v' ← rpc_advance_cursor v (blen c);
      readv_chunks (scatter m (take (length c) (addrs v)) c) v' chunks
  end.

Lemma readv_chunks_spec chunks : forall m v,
  cursor_wf v -> blen (concat chunks) <= remaining_size v ->
  exists v', readv_chunks m v chunks =
      Some (scatter m (take (length (concat chunks)) (addrs v)) (concat chunks), v') /\
    cursor_wf v' /\ kept v v' /\ addrs v' = drop (length (concat chunks)) (addrs v).
Proof.
  induction chunks as [|c chunks IH]; intros m v W Hl; cbn [readv_chunks concat] in *.
  { exists v. by rewrite drop_0. }
  rewrite blen_app in Hl. pose proof (blen_nonneg c). pose proof (blen_nonneg (concat chunks)).
  pose proof (cw_rem _ W) as Hr.
  destruct (advance_cursor_spec v (blen c) W) as (v1 & -> & W1 & K1 & A1); [lia|]. cbn.
  rewrite blen_to_nat in A1. pose proof (cw_rem _ W1) as Hr1. rewrite A1 in Hr1.
  assert (Hd : blen (drop (length c) (addrs v)) = blen (addrs v) - blen c)
    by (unfold blen in *; rewrite length_drop; lia).
  destruct (IH (scatter m (take (length c) (addrs v)) c) v1 W1) as (v2 & -> & W2 & K2 & A2); [lia|].
  exists v2. rewrite length_app, A2, A1, drop_drop. split; [|split; [done|split; [|done]]].
  - rewrite <- take_take_drop, scatter_app; [done|]. rewrite length_take. unfold blen in *. lia.
  - by eapply kept_trans.
Qed.

(** C35: the zero-copy path of a READ: shrinking the cursor to the size of the reply,
    copying the bytes that came with the header and receiving the rest in chunks of any
    sizes stores the data in order at the first [n] addresses of the caller's vectors,
    uses the cursor up, and [rpc_reset_cursor] then restores the vectors the caller
    gave. *)
Theorem zero_copy_read_delivers m v n head chunks :
  cursor_wf v -> 0 <= n <= remaining_size v -> blen head + blen (concat chunks) = n ->
  Forall (fun b => is_Some (m !! b)) (addrs v) ->
  exists v1 v2 v3 m2,
    rpc_shrink_cursor v n = Some v1 /\
    rpc_memcpy_cursor m v1 head (blen head) = Some m2 /\
    readv_chunks m2.1 m2.2 chunks =
      Some (scatter m (take (Z.to_nat n) (addrs v)) (head ++ concat chunks), v2) /\
    remaining_size v2 = 0 /\ iovcnt v2 = 0%nat /\
    rpc_reset_cursor v2 = Some v3 /\ cursor_wf v3 /\ todo v3 = refs v.
Proof.
  intros W Hn Hd Hm. pose proof (blen_nonneg head). pose proof (blen_nonneg (concat chunks)).
  pose proof (cw_rem _ W) as Hr.
  destruct (shrink_cursor_spec v n W) as (v1 & E1 & W1 & K1 & A1); [lia|].
  assert (Hr1 : remaining_size v1 = n) by (rewrite (cw_rem _ W1), A1; apply blen_take; lia).
  destruct (memcpy_loop_spec (S (iovcnt v1)) m v1 head (blen head)) as (v1' & E2 & W2 & K2 & A2);
    try done; try lia. { rewrite A1. by apply Forall_take. }
  rewrite !blen_to_nat, firstn_all in *.
  assert (Hr2 : remaining_size v1' = blen (concat chunks)).
  { rewrite (cw_rem _ W2), A2. unfold blen in *. rewrite length_drop.
    rewrite (cw_rem _ W1) in Hr1. unfold blen in *. lia. }
  destruct (readv_chunks_spec chunks (scatter m (take (length head) (addrs v1)) head) v1' W2)
    as (v2 & E3 & W3 & K3 & A3); [lia|].
  destruct (reset_cursor_spec v2 W3) as (v3 & E4 & W4 & K4 & T4).
  exists v1, v2, v3, (scatter m (take (length head) (addrs v1)) head, v1').
  split; [done|]. split. { unfold rpc_memcpy_cursor. rewrite E2. cbn. by rewrite wf_check. }
  assert (Hz : addrs v2 = []).
  { rewrite A3. apply drop_ge. pose proof (cw_rem _ W2). unfold blen in *. lia. }
  split; [|split; [|split; [|split; [done|split; [done|]]]]].
  - cbn. rewrite E3, A2, A1. do 2 f_equal. rewrite <- scatter_app.
    + f_equal. rewrite take_take_drop, take_take. f_equal. unfold blen in *. lia.
    + rewrite length_take, length_take. unfold blen in *. lia.
  - by rewrite (cw_rem _ W3), Hz.
  - pose proof (wf_check _ W3) as Hc. unfold check_cursor in Hc.
    rewrite (cw_rem _ W3), Hz in Hc. cbn in Hc.
    destruct (bool_decide (iovcnt v2 = 0%nat)) eqn:Eb; [by apply bool_decide_eq_true in Eb|done].
  - rewrite T4. destruct K3 as [-> _], K2 as [-> _], K1 as [-> _]. done.
Qed.

(** Vectors that end in an empty one make the cursor fail its assertion when all the
    bytes asked for have arrived: the size left is 0 while a vector is left
    (init.c:711). *)
Theorem trailing_empty_vector_asserts a b n :
  0 < n < 2 ^ 64 ->
  rpc_advance_cursor (init_cursor [mkIov a n; mkIov b 0]) n = None /\
  (forall m src, Forall (fun c => is_Some (m !! c)) (seqZ a n) -> n <= blen src ->
   rpc_memcpy_cursor m (init_cursor [mkIov a n; mkIov b 0]) src n = None).
Proof.
  intros Hn. assert (Hs : remaining_size (init_cursor [mkIov a n; mkIov b 0]) = n).
  { cbn. rewrite Z.add_0_r. solve_width. }
  assert (Hz : u64 (n - n) = 0) by by rewrite Z.sub_diag.
  split.
  - unfold rpc_advance_cursor. cbn [advance_loop iovcnt init_cursor length].
    replace (n =? 0) with false by lia. rewrite Hs. cbn.
    replace (n <? n) with false by lia. replace (n >? n) with false by lia.
    rewrite Hz. done.
  - intros m src Hm Hl. unfold rpc_memcpy_cursor. cbn [memcpy_loop iovcnt init_cursor length].
    replace (n =? 0) with false by lia. cbn. replace (n >? n) with false by lia.
    assert (read_at 0 n src = Some (take (Z.to_nat n) src)) as ->.
    { unfold read_at. replace (_ && _) with true by lia. cbn. by rewrite drop_0. }
    assert (Hb : blen (take (Z.to_nat n) src) = n) by (apply blen_take; lia).
    cbn. rewrite mem_write_scatter by by rewrite Hb. cbn. rewrite Hz. cbn.
    cbn in Hs. rewrite Hs, Hz. done.
Qed.

(** What is received in fragments is what was sent, unless it is too large. *)
Lemma fragments_size_ok frags : forall s,
  0 <= s -> s + blen (concat frags) < 4294967296 ->
  fragments_size s frags = Some (s + blen (concat frags)).
Proof.
  induction frags as [|f frags IH]; intros s Hs Hb; cbn in *.
  { by rewrite blen_nil, Z.add_0_r. }
  rewrite blen_app in Hb. pose proof (blen_nonneg f). pose proof (blen_nonneg (concat frags)).
  rewrite u32_id by solve_width. replace (_ <? _) with false by lia.
  rewrite IH by lia. rewrite blen_app. f_equal. lia.
Qed.

(** Fragments are reassembled into their concatenation, followed by the last record;
    a total that does not fit 32 bits is refused. *)
Theorem reassemble_fragments frags inbuf inpos :
  Forall (fun f => blen f < 2 ^ 32) frags -> 0 <= inpos <= blen inbuf -> inpos < 2 ^ 32 ->
  rpc_reassemble_pdu frags inbuf inpos =
    if blen (concat frags) + inpos <? 2 ^ 32
    then Some (concat frags ++ take (Z.to_nat inpos) inbuf) else None.
Proof.
  intros Hf Hi H32. change (2 ^ 32) with 4294967296 in *. unfold rpc_reassemble_pdu.
  destruct (_ <? _) eqn:E.
  - rewrite fragments_size_ok by lia. cbn. unfold read_at.
    replace (_ && _) with true by lia. cbn. by rewrite drop_0.
  - enough (forall s, 0 <= s < 4294967296 -> 4294967296 <= s + blen (concat frags) ->
      fragments_size s frags = None) as -> by (done || lia).
    clear E. induction Hf as [|f frags Hf0 _ IH]; intros s Hs Hb; cbn in *.
    { rewrite blen_nil in Hb. lia. }
    rewrite blen_app in Hb. pose proof (blen_nonneg f).
    destruct (decide (s + blen f < 4294967296)).
    + rewrite u32_id by solve_width. replace (_ <? _) with false by lia. apply IH; lia.
    + replace (_ <? _) with true by solve_width. done.
Qed.

Lemma foldl_sizes l : forall s,
  Forall positive l -> is_u64 s -> is_u64 (s + blen (addrs_of l)) ->
  foldl (fun s v => u64 (s + iov_len v)) s l = s + blen (addrs_of l).
Proof.
  induction l as [|v l IH]; intros s Hl Hs Hf; cbn.
  { change (addrs_of []) with (@nil Z). rewrite blen_nil. lia. }
  apply Forall_cons in Hl as [Hv Hl]. rewrite addrs_of_cons, blen_app, blen_seg in * by done.
  pose proof (blen_nonneg (addrs_of l)). unfold positive in Hv.
  rewrite u64_id by (unfold is_u64 in *; lia).
  rewrite IH by (done || unfold is_u64 in *; lia). lia.
Qed.

(** The cursor a READ starts with. *)
Lemma init_cursor_wf l :
  Forall positive l -> is_u64 (blen (addrs_of l)) ->
  cursor_wf (init_cursor l) /\ todo (init_cursor l) = l.
Proof.
  intros Hl Hf. assert (Ht : todo (init_cursor l) = l).
  { unfold todo, arr; cbn. by rewrite drop_0, take_app_length. }
  assert (Hr : refs (init_cursor l) = l) by (unfold refs, arr; cbn; apply drop_app_length).
  split; [|done]. split; rewrite ?Ht, ?Hr; unfold addrs; rewrite ?Ht; try done.
  - unfold arr; cbn. apply length_app.
  - cbn. rewrite (foldl_sizes l 0) by (done || by rewrite Z.add_0_l). lia.
Qed.

(** ** Instances *)

Definition two_vectors : cursor := init_cursor [mkIov 10 2; mkIov 20 3].
Definition user_memory : memory := list_to_map (map (fun a => (a, 0)) (seqZ 10 20)).

Lemma two_vectors_wf : cursor_wf two_vectors.
Proof. apply init_cursor_wf; [repeat constructor|]; by vm_compute. Qed.

Lemma user_memory_mapped : Forall (fun b => is_Some (user_memory !! b)) (addrs two_vectors).
Proof. repeat constructor; by eexists. Qed.

Lemma memcpy_cursor_scatters_witness :
  exists v', rpc_memcpy_cursor user_memory two_vectors [1; 2; 3; 4] 4 =
    Some (scatter user_memory [10; 11; 20; 21] [1; 2; 3; 4], v') /\
    cursor_wf v' /\ kept two_vectors v' /\ addrs v' = [22].
Proof.
  apply (memcpy_cursor_scatters user_memory two_vectors [1; 2; 3; 4] 4);
    [apply two_vectors_wf|by vm_compute|by vm_compute|apply user_memory_mapped].
Defined.

Lemma zero_copy_read_delivers_witness :
  exists v1 v2 v3 m2,
    rpc_shrink_cursor two_vectors 4 = Some v1 /\
    rpc_memcpy_cursor user_memory v1 [1] 1 = Some m2 /\
    readv_chunks m2.1 m2.2 [[2; 3]; [4]] = Some (scatter user_memory [10; 11; 20; 21] [1; 2; 3; 4], v2) /\
    remaining_size v2 = 0 /\ iovcnt v2 = 0%nat /\
    rpc_reset_cursor v2 = Some v3 /\ cursor_wf v3 /\ todo v3 = refs two_vectors.
Proof.
  apply (zero_copy_read_delivers user_memory two_vectors 4 [1] [[2; 3]; [4]]);
    [apply two_vectors_wf|by vm_compute|by vm_compute|apply user_memory_mapped].
Defined.

Lemma trailing_empty_vector_asserts_witness :
  rpc_advance_cursor (init_cursor [mkIov 10 2; mkIov 20 0]) 2 = None.
Proof. by apply trailing_empty_vector_asserts. Defined.

Lemma reassemble_fragments_witness :
  rpc_reassemble_pdu [[1; 2]; [3]] [4; 5; 6] 2 = Some [1; 2; 3; 4; 5].
Proof. by apply (reassemble_fragments [[1; 2]; [3]] [4; 5; 6] 2); [repeat constructor| |]. Defined.
