(* ===== verification/Queue.v ===== *)
(** * Queue: the singly linked PDU queues (lib/pdu.c)

    A queue is a head and a tail pointer into PDUs linked by [next]; the heap
    keeps, of each PDU, the two fields the queue code looks at.  Following a
    dangling pointer and a failing assertion are [None].

    [rep] says that a queue represents a list of PDUs.  Each operation is
    shown to be a list operation on what is represented, and to touch no PDU
    outside of it; the other components work on the lists. *)

From S2P Require Import Prelude.

(** ** Data *)

Abbreviation id := N.

Record node := mkNode { next : option id; nxid : Z }.
Abbreviation heap := (gmap id node).

Record rpc_queue := mkQueue { head : option id; tail : option id }.

(** [p->next = v]. *)
Definition set_next (h : heap) (p : id) (v : option id) : option heap :=
  n ← h !! p; Some (<[p := mkNode v (nxid n)]> h).

(** ** Operations *)

Definition rpc_reset_queue : rpc_queue := mkQueue None None.

Definition rpc_enqueue (h : heap) (q : rpc_queue) (pdu : id) : option (heap * rpc_queue) :=
  '(h, hd) ← (match head q with
              | None => if is_some (tail q) then None else Some (h, Some pdu)
              | Some hd =>
                  if bool_decide (pdu = hd) || bool_decide (tail q = Some pdu) then None else
                  t ← tail q; h ← set_next h t (Some pdu); Some (h, Some hd)
              end);
  h ← set_next h pdu None;
  Some (h, mkQueue hd (Some pdu)).

(** The links made by [rpc_return_to_outqueue]: after the head. *)
Definition insert_after_head (h : heap) (q : rpc_queue) (pdu : id) : option (heap * rpc_queue) :=
  match head q with
  | None => h ← set_next h pdu None; Some (h, mkQueue (Some pdu) (Some pdu))
  | Some hd =>
      if bool_decide (head q = tail q) then
        h ← set_next h hd (Some pdu);
        h ← set_next h pdu None; Some (h, mkQueue (Some hd) (Some pdu))
      else
        n ← h !! hd;
        h ← set_next h pdu (next n);
        h ← set_next h hd (Some pdu); Some (h, q)
  end.

(** [while (pdu->next && pdu->next != remove_pdu) pdu = pdu->next]. *)
Fixpoint find_prev (fuel : nat) (h : heap) (pdu remove_pdu : id) : option id :=
  match fuel with
  | O => None
  | S fuel =>
      n ← h !! pdu;
      match next n with
      | None => Some pdu
      | Some nx => if bool_decide (nx = remove_pdu) then Some pdu else find_prev fuel h nx remove_pdu
      end
  end.

(** The heap, the queue and whether the PDU was found; a queue has no more
    PDUs than the heap, so its size is enough fuel. *)
Definition rpc_remove_pdu_from_queue (h : heap) (q : rpc_queue) (remove_pdu : id)
    : option (heap * rpc_queue * bool) :=
  match head q with
  | Some hd =>
      if bool_decide (tail q = None) then None else
      if bool_decide (hd = remove_pdu) then
        r ← h !! remove_pdu;
        q' ← (if bool_decide (tail q = Some remove_pdu)
              then if is_some (next r) then None else Some (mkQueue None None)
              else if is_some (next r) then Some (mkQueue (next r) (tail q)) else None);
        h ← set_next h remove_pdu None; Some (h, q', true)
      else
        pdu ← find_prev (size h) h hd remove_pdu;
        n ← h !! pdu;
        match next n with
        | None => Some (h, q, false)
        | Some _ =>
            r ← h !! remove_pdu;
            h ← set_next h pdu (next r);
            h ← set_next h remove_pdu None;
            Some (h, mkQueue (Some hd)
                       (if bool_decide (tail q = Some remove_pdu) then Some pdu else tail q), true)
        end
  | None => if is_some (tail q) then None else Some (h, q, false)
  end.

(** The loop of [rpc_find_pdu]: the PDU with this xid and the one before. *)
Fixpoint search (fuel : nat) (h : heap) (pdu prev : option id) (xid : Z)
    : option (option (id * option id)) :=
  match pdu with
  | None => Some None
  | Some p =>
      match fuel with
      | O => None
      | S fuel =>
          n ← h !! p;
          if nxid n =? xid then Some (Some (p, prev)) else search fuel h (next n) (Some p) xid
      end
  end.

(** The unlinking of what the loop has found. *)
Definition unlink (h : heap) (q : rpc_queue) (p : id) (prev : option id) : option (heap * rpc_queue) :=
  n ← h !! p;
  h ← (match prev with Some pr => set_next h pr (next n) | None => Some h end);
  Some (h, mkQueue (if bool_decide (head q = Some p) then next n else head q)
             (if bool_decide (tail q = Some p) then prev else tail q)).

(** [rpc_find_pdu] on one of the queues: [keep] for a UDP broadcast, where
    the PDU stays in its queue. *)
Definition find_in_queue (keep : bool) (h : heap) (q : rpc_queue) (xid : Z)
    : option (heap * rpc_queue * option id) :=
  found ← search (size h) h (head q) None xid;
  match found with
  | None => Some (h, q, None)
  | Some (p, prev) =>
      if keep then Some (h, q, Some p)
      else '(h, q) ← unlink h q p prev; Some (h, q, Some p)
  end.

Definition rpc_hash_xid (num_hashes xid : Z) : Z := u32 (xid * 7919) mod num_hashes.

(** The queues of a context. *)
Record queues := mkQueues {
  qheap : heap; outqueue : rpc_queue; waitpdu : list rpc_queue; waitpdu_len : Z;
}.

(** [rpc_find_pdu]; the bucket is the one of the xid last read from the
    socket, [rm_xid1], whatever [xid] is. *)
Definition rpc_find_pdu (keep : bool) (s : queues) (rm_xid1 xid : Z) : option (queues * option id) :=
  '(h, q, found) ← find_in_queue keep (qheap s) (outqueue s) xid;
  '(s, found) ← (match found return option (queues * option id) with
    | Some p => Some (mkQueues h q (waitpdu s) (waitpdu_len s), Some p)
    | None =>
        let i := Z.to_nat (rpc_hash_xid (Z.of_nat (length (waitpdu s))) rm_xid1) in
        w ← waitpdu s !! i;
        '(h, w, found) ← find_in_queue keep h w xid;
        Some (mkQueues h q (<[i := w]> (waitpdu s))
                (if is_some found then if keep then waitpdu_len s else u32 (waitpdu_len s - 1)
                 else waitpdu_len s), found)
    end);
  match found : option id with
  | Some p => h ← set_next (qheap s) p None;
              Some (mkQueues h (outqueue s) (waitpdu s) (waitpdu_len s), Some p)
  | None => Some (s, None)
  end.

Definition ENOENT : Z := 2.

(** [rpc_cancel_pdu]: the PDU freed, if it was found. *)
Definition rpc_cancel_pdu (keep : bool) (s : queues) (rm_xid1 : Z) (pdu : id)
    : option (queues * option id * Z) :=
  n ← qheap s !! pdu;
  '(s, found) ← rpc_find_pdu keep s rm_xid1 (nxid n);
  Some (s, found, match found : option id with Some _ => 0 | None => - ENOENT end).

(** ** The list operations implemented *)

Definition l_enqueue (l : list id) (p : id) : list id := l ++ [p].

Definition l_return (l : list id) (p : id) : list id :=
  match l with [] => [p] | x :: l => x :: p :: l end.

Definition l_remove (p : id) (l : list id) : list id := filter (fun x => x <> p) l.
#[global] Arguments l_remove : simpl never.

Definition xid_in (h : heap) (p : id) : Z := from_option nxid 0 (h !! p).

(** The first PDU of the list with this xid. *)
Fixpoint l_find (h : heap) (xid : Z) (l : list id) : option id :=
  match l with
  | [] => None
  | p :: l => if xid_in h p =? xid then Some p else l_find h xid l
  end.

(** The lists of a context: to be sent, and per bucket waiting for an answer. *)
Record lqueues := mkLqueues { l_out : list id; l_wait : list (list id) }.

Definition l_find_pdu (h : heap) (a : lqueues) (rm_xid1 xid : Z) : lqueues * option id :=
  match l_find h xid (l_out a) with
  | Some p => (mkLqueues (l_remove p (l_out a)) (l_wait a), Some p)
  | None =>
      let i := Z.to_nat (rpc_hash_xid (Z.of_nat (length (l_wait a))) rm_xid1) in
      let w := default [] (l_wait a !! i) in
      match l_find h xid w with
      | Some p => (mkLqueues (l_out a) (<[i := l_remove p w]> (l_wait a)), Some p)
      | None => (a, None)
      end
  end.

(** ** Representation *)

(** The PDUs met from [p] up to the pointer [e]. *)
Fixpoint lseg (h : heap) (p : option id) (l : list id) (e : option id) : Prop :=
  match l with
  | [] => p = e
  | x :: l => p = Some x /\ exists n, h !! x = Some n /\ lseg h (next n) l e
  end.

(** The queue [q] is the list [l]. *)
Record rep (h : heap) (q : rpc_queue) (l : list id) : Prop := {
  rep_chain : lseg h (head q) l None;
  rep_tail : tail q = last l;
  rep_nodup : NoDup l;
}.

(** [h'] is [h] but for the links of PDUs of [s]. *)
Definition relinked (s : list id) (h h' : heap) : Prop :=
  (forall x, nxid <$> h' !! x = nxid <$> h !! x) /\ (forall x, x ∉ s -> h' !! x = h !! x).

Lemma lseg_app h p l1 l2 e : lseg h p (l1 ++ l2) e <-> exists m, lseg h p l1 m /\ lseg h m l2 e.
Proof.
  revert p. induction l1 as [|x l1 IH]; intros p; cbn.
  - split; [by exists p|]. by intros (m & -> & ?).
  - split.
    + intros (-> & n & Hn & (m & ? & ?)%IH). eauto 10.
    + intros (m & (-> & n & Hn & ?) & ?). split; [done|]. exists n. rewrite IH. eauto.
Qed.

Lemma lseg_insert h p l e x n : x ∉ l -> lseg (<[x := n]> h) p l e <-> lseg h p l e.
Proof.
  revert p. induction l as [|y l IH]; intros p Hx; [done|]. cbn.
  apply not_elem_of_cons in Hx as [Hy Hx]. rewrite lookup_insert_ne by done.
  split; intros (-> & m & Hm & Hl); (split; [done|]); exists m; (split; [done|]); by apply IH.
Qed.

Lemma lseg_agree h h' p l e :
  (forall x, x ∈ l -> h' !! x = h !! x) -> lseg h p l e -> lseg h' p l e.
Proof.
  revert p. induction l as [|y l IH]; intros p Ha; [done|]. cbn.
  intros (-> & n & Hn & Hl). split; [done|]. exists n.
  rewrite Ha by set_solver. split; [done|]. apply IH; set_solver.
Qed.

Lemma lseg_dom h p l e x : lseg h p l e -> x ∈ l -> is_Some (h !! x).
Proof.
  revert p. induction l as [|y l IH]; intros p; cbn; [set_solver|].
  intros (_ & n & Hn & Hl) [->|?]%elem_of_cons; eauto.
Qed.

Lemma lseg_fun h p l1 l2 : lseg h p l1 None -> lseg h p l2 None -> l1 = l2.
Proof.
  revert p l2. induction l1 as [|x l1 IH]; intros p [|y l2]; cbn.
  - done.
  - by intros -> (? & _).
  - by intros (-> & _) ?.
  - intros (-> & n & Hn & Hl) ([= <-] & n' & Hn' & Hl'). simplify_eq. f_equal. eauto.
Qed.

(** A queue is left alone by what happens to other PDUs. *)
Lemma rep_frame s h h' q l :
  relinked s h h' -> (forall x, x ∈ l -> x ∉ s) -> rep h q l -> rep h' q l.
Proof.
  intros [_ Hs] Hd [Hc Ht Hn]. split; try done. eapply lseg_agree; [|exact Hc]. eauto.
Qed.

Lemma relinked_refl s h : relinked s h h.
Proof. done. Qed.

Lemma relinked_trans s h1 h2 h3 : relinked s h1 h2 -> relinked s h2 h3 -> relinked s h1 h3.
Proof.
  intros [A1 B1] [A2 B2]. split; intros x.
  - by rewrite A2.
  - intros Hx. by rewrite B2, B1.
Qed.

Lemma set_next_ok h p n v : h !! p = Some n -> set_next h p v = Some (<[p := mkNode v (nxid n)]> h).
Proof. intros Hp. unfold set_next. by rewrite Hp. Qed.

Lemma set_next_relinked s h p n v :
  h !! p = Some n -> p ∈ s -> relinked s h (<[p := mkNode v (nxid n)]> h).
Proof.
  intros Hp Hs. split; intros x.
  - destruct (decide (p = x)) as [<-|]; [by rewrite lookup_insert_eq, Hp|by rewrite lookup_insert_ne].
  - intros Hx. rewrite lookup_insert_ne; [done|]. by intros ->.
Qed.

#[export] Hint Resolve relinked_refl : core.

Lemma rep_nil h q : rep h q [] -> q = rpc_reset_queue.
Proof. intros [Hc Ht _]. destruct q; cbn in *. by subst. Qed.

Lemma last_snoc' {A} (l : list A) : l <> [] -> exists l0 x, l = l0 ++ [x] /\ last l = Some x.
Proof.
  induction l as [|x l0 _] using rev_ind; [done|]. intros _. exists l0, x.
  split; [done|]. apply last_snoc.
Qed.

(** ** Each operation is the list operation *)

Lemma rpc_enqueue_spec h q l p :
  rep h q l -> p ∉ l -> is_Some (h !! p) ->
  exists h' q', rpc_enqueue h q p = Some (h', q') /\ rep h' q' (l_enqueue l p) /\
    relinked (p :: l) h h'.
Proof.
  intros R Hp [n Hn]. destruct (decide (l = [])) as [->|Hne].
  - apply rep_nil in R as ->. unfold rpc_enqueue. cbn. rewrite (set_next_ok _ _ _ _ Hn). cbn.
    eexists _, _. split; [done|]. split.
    + split; [|done|repeat constructor; set_solver]. cbn. split; [done|].
      eexists. by rewrite lookup_insert_eq.
    + apply set_next_relinked; set_solver.
  - destruct (last_snoc' l Hne) as (l0 & t & -> & Hl). destruct R as [Hc Ht Hd].
    apply NoDup_app in Hd as (Hd0 & Hdt & _). rewrite Hl in Ht.
    apply lseg_app in Hc as (m & Hc0 & -> & nt & Hnt & Hnn). cbn in Hnn.
    assert (Hhd : exists hd, head q = Some hd /\ hd ∈ l0 ++ [t]).
    { destruct l0; cbn in Hc0.
      - exists t. split; [done|set_solver].
      - destruct Hc0 as (-> & _). eexists. split; [done|set_solver]. }
    destruct Hhd as (hd & Hhd & Hin). unfold rpc_enqueue. rewrite Hhd, Ht.
    rewrite !bool_decide_false by (intros E; simplify_eq; set_solver). cbn.
    rewrite (set_next_ok _ _ _ _ Hnt). cbn.
    rewrite (set_next_ok _ p n) by (rewrite lookup_insert_ne; [done|set_solver]). cbn.
    eexists _, _. split; [done|]. split.
    + split; cbn.
      * unfold l_enqueue. rewrite <- app_assoc. apply lseg_app. exists (Some t). split.
        { rewrite !lseg_insert by set_solver. by rewrite <- Hhd. }
        cbn. split; [done|]. eexists. rewrite lookup_insert_ne, lookup_insert_eq by set_solver.
        split; [done|]. cbn. split; [done|]. eexists. by rewrite lookup_insert_eq.
      * unfold l_enqueue. by rewrite last_snoc.
      * apply NoDup_app. repeat split; [|set_solver|repeat constructor; set_solver].
        apply NoDup_app. repeat split; [done|done|repeat constructor; set_solver].
    + eapply relinked_trans; apply set_next_relinked; try done; try set_solver.
      rewrite lookup_insert_ne; [done|set_solver].
Qed.

Lemma insert_after_head_spec h q l p :
  rep h q l -> p ∉ l -> is_Some (h !! p) ->
  exists h' q', insert_after_head h q p = Some (h', q') /\ rep h' q' (l_return l p) /\
    relinked (p :: l) h h'.
Proof.
  intros R Hp [n Hn]. destruct l as [|x l].
  - apply rep_nil in R as ->. unfold insert_after_head. cbn. rewrite (set_next_ok _ _ _ _ Hn). cbn.
    eexists _, _. split; [done|]. split; [|apply set_next_relinked; set_solver].
    split; [|done|repeat constructor; set_solver]. cbn. split; [done|].
    eexists. by rewrite lookup_insert_eq.
  - destruct R as [Hc Ht Hd]. cbn in Hc. destruct Hc as (Hhd & nx & Hnx & Hc).
    apply not_elem_of_cons in Hp as [Hpx Hpl]. apply NoDup_cons in Hd as [Hxl Hd].
    unfold insert_after_head. rewrite Hhd. destruct l as [|y l].
    + cbn in Ht, Hc. rewrite bool_decide_true by done. rewrite (set_next_ok _ _ _ _ Hnx). cbn.
      rewrite (set_next_ok _ p n) by (rewrite lookup_insert_ne; done). cbn.
      eexists _, _. split; [done|]. split.
      * split; cbn; [|done|repeat constructor; set_solver]. split; [done|].
        eexists. rewrite lookup_insert_ne, lookup_insert_eq by done. split; [done|]. split; [done|].
        eexists. by rewrite lookup_insert_eq.
      * eapply relinked_trans; apply set_next_relinked; try done; try set_solver.
        rewrite lookup_insert_ne; [done|set_solver].
    + assert (Hly : last (x :: y :: l) <> Some x).
      { change (last (x :: y :: l)) with (last (y :: l)). intros Hl. apply Hxl.
        by apply last_Some_elem_of. }
      rewrite bool_decide_false by congruence. rewrite Hnx. cbn.
      rewrite (set_next_ok _ _ _ _ Hn). cbn.
      rewrite (set_next_ok _ x nx) by (rewrite lookup_insert_ne; done). cbn.
      eexists _, _. split; [done|]. split.
      * split.
        -- cbn. split; [done|]. eexists. rewrite lookup_insert_eq. split; [done|]. cbn.
           split; [done|]. eexists. rewrite lookup_insert_ne, lookup_insert_eq by done.
           split; [done|]. cbn. change (lseg (<[x:=mkNode (Some p) (nxid nx)]>
             (<[p:=mkNode (next nx) (nxid n)]> h)) (next nx) (y :: l) None).
           by rewrite !lseg_insert.
        -- by rewrite Ht.
        -- apply NoDup_cons in Hd as [Hyl Hd]. apply not_elem_of_cons in Hxl, Hpl.
           rewrite !NoDup_cons, !not_elem_of_cons. intuition congruence.
      * eapply relinked_trans; apply set_next_relinked; try done; try set_solver.
        rewrite lookup_insert_ne; [done|set_solver].
Qed.

(** A segment with an element in the middle. *)
Lemma lseg_mid h p l1 x l2 e :
  lseg h p (l1 ++ x :: l2) e -> exists n, h !! x = Some n /\ lseg h p l1 (Some x) /\ lseg h (next n) l2 e.
Proof. intros (m & ? & -> & n & ? & ?)%lseg_app. eauto. Qed.

Lemma lseg_last h p l x e : lseg h p (l ++ [x]) e -> exists n, h !! x = Some n /\ next n = e.
Proof. intros (n & ? & _ & ?)%lseg_mid. eauto. Qed.

(** A queue is not longer than the heap. *)
Lemma rep_size h q l : rep h q l -> (length l <= size h)%nat.
Proof.
  intros [Hc _ Hd]. rewrite <- size_dom, <- (size_list_to_set (C := gset id) l) by done.
  apply subseteq_size. intros x Hx%elem_of_list_to_set. apply elem_of_dom.
  by eapply lseg_dom.
Qed.

Lemma find_prev_spec fuel h p l1 x l2 r :
  lseg h (Some p) (l1 ++ x :: l2) None -> x ∉ l1 -> NoDup (l1 ++ x :: l2) ->
  (length l1 <= fuel)%nat -> l1 = p :: r ->
  exists y r', l1 = r' ++ [y] /\ find_prev fuel h p x = Some y.
Proof.
  revert p r l1. induction fuel as [|fuel IH]; intros p r l1 Hs Hx Hd Hf ->; [cbn in Hf; lia|].
  cbn in Hs. destruct Hs as (_ & n & Hn & Hs). cbn. rewrite Hn. cbn. destruct r as [|z r].
  - cbn in Hs. destruct Hs as (-> & _). rewrite bool_decide_true by done. by exists p, [].
  - cbn in Hs. destruct Hs as (Hnx & Hs). rewrite Hnx. rewrite bool_decide_false by set_solver.
    destruct (IH z r (z :: r)) as (y & r' & -> & E); try done.
    + set_solver.
    + by apply NoDup_cons in Hd as [_ ?].
    + cbn in *. lia.
    + by exists y, (p :: r').
Qed.

Lemma find_prev_absent fuel h p l x :
  lseg h (Some p) l None -> x ∉ l -> (length l <= fuel)%nat ->
  exists y n, last l = Some y /\ find_prev fuel h p x = Some y /\ h !! y = Some n /\ next n = None.
Proof.
  revert p l. induction fuel as [|fuel IH]; intros p l Hs Hx Hf.
  { by destruct l; cbn in *; [|lia]. }
  destruct l as [|z r]; [done|]. cbn in Hs. destruct Hs as ([= <-] & n & Hn & Hs).
  cbn. rewrite Hn. cbn. destruct r as [|z r].
  - cbn in Hs. rewrite Hs. by exists p, n.
  - pose proof Hs as Hs'. cbn in Hs'. destruct Hs' as (Hnx & _). rewrite Hnx.
    rewrite bool_decide_false by set_solver. rewrite Hnx in Hs.
    destruct (IH z (z :: r)) as (y & m & ? & ? & ?); try done; [set_solver|cbn in *; lia|].
    by exists y, m.
Qed.

Lemma l_remove_absent p l : p ∉ l -> l_remove p l = l.
Proof.
  unfold l_remove. induction l as [|x l IH]; intros Hp; [done|].
  apply not_elem_of_cons in Hp as [Hx Hp]. rewrite filter_cons_True by done. by rewrite IH.
Qed.

Lemma l_remove_mid p l1 l2 : NoDup (l1 ++ p :: l2) -> l_remove p (l1 ++ p :: l2) = l1 ++ l2.
Proof.
  intros (_ & H1 & (Hp & _)%NoDup_cons)%NoDup_app. unfold l_remove.
  rewrite filter_app, filter_cons_False by tauto.
  fold (l_remove p l1). fold (l_remove p l2). rewrite !l_remove_absent; [done|done|set_solver].
Qed.

Lemma rpc_remove_spec h q l p :
  rep h q l -> is_Some (h !! p) ->
  exists h' q', rpc_remove_pdu_from_queue h q p = Some (h', q', bool_decide (p ∈ l)) /\
    rep h' q' (l_remove p l) /\ relinked (p :: l) h h'.
Proof.
  intros R [n Hn]. pose proof (rep_size _ _ _ R) as Hsz. pose proof R as [Hc Ht Hd].
  unfold rpc_remove_pdu_from_queue. destruct l as [|x l].
  { cbn in Hc, Ht. rewrite Hc, Ht. cbn. rewrite bool_decide_false by set_solver.
    by exists h, q. }
  pose proof Hc as (Hhd & nx & Hnx & Hc'). rewrite Hhd. clear Hsz.
  rewrite bool_decide_false. 2: { rewrite Ht. by destruct (last_snoc' (x :: l)) as (? & ? & _ & ->). }
  destruct (decide (x = p)) as [->|Hxp].
  - rewrite (bool_decide_true (p = p)), (bool_decide_true (p ∈ _)) by set_solver.
    rewrite Hn. cbn. simplify_eq. apply NoDup_cons in Hd as [Hpl Hd].
    pose proof (l_remove_mid p [] l) as El. cbn [app] in El. rewrite El by by constructor.
    clear El.
    destruct l as [|y l].
    + cbn in Ht, Hc'. rewrite bool_decide_true by done. rewrite Hc'. cbn.
      rewrite (set_next_ok _ _ _ _ Hn). cbn. eexists _, _. split; [done|].
      split; [|apply set_next_relinked; set_solver]. split; [done|done|constructor].
    + pose proof Hc' as (Hny & _). rewrite Hny. cbn [is_some].
      rewrite bool_decide_false.
      2: { rewrite Ht. change (last (p :: y :: l)) with (last (y :: l)). intros Hl.
           apply Hpl. by apply last_Some_elem_of. }
      cbn. rewrite (set_next_ok _ _ _ _ Hn). cbn. eexists _, _. split; [done|].
      split; [|apply set_next_relinked; set_solver]. split; [|exact Ht|done].
      rewrite <- Hny. by apply lseg_insert.
  - rewrite bool_decide_false by done. destruct (decide (p ∈ x :: l)) as [Hin|Hin].
    + rewrite (bool_decide_true (p ∈ _)) by done.
      apply list_elem_of_split in Hin as (l1 & l2 & El). rewrite El in *.
      destruct l1 as [|x' r]; [by injection El|]. injection El as <- El.
      pose proof Hd as (Hd1 & Hd12 & Hd2)%NoDup_app.
      destruct (find_prev_spec (size h) h x (x :: r) p l2 r) as (y & r' & Ey & Ef);
        try done; try set_solver.
      { pose proof (rep_size _ _ _ R) as Hs. rewrite length_app in Hs. cbn in *. lia. }
      rewrite Ef. cbn. rewrite Ey in *. rewrite <- app_assoc in Hc. cbn in Hc.
      apply lseg_mid in Hc as (ny & Hy & Hr' & (Hnp & n' & Hn' & Hl2)). simplify_eq.
      rewrite Hy. cbn. rewrite Hnp, Hn. cbn. rewrite (set_next_ok _ _ _ _ Hy). cbn.
      assert (y <> p) by set_solver.
      rewrite (set_next_ok _ p n) by (by rewrite lookup_insert_ne). cbn.
      eexists _, _. split; [done|].
      change (x :: r ++ p :: l2) with ((x :: r) ++ p :: l2). rewrite Ey.
      rewrite l_remove_mid by done. split.
      * split.
        -- cbn. rewrite <- app_assoc. apply lseg_app. exists (Some y).
           apply NoDup_app in Hd1 as (_ & Hyr & _). apply NoDup_cons in Hd2 as [Hp2 _].
           rewrite !lseg_insert by set_solver. split; [by rewrite <- Hhd|].
           cbn. split; [done|]. eexists. rewrite lookup_insert_eq.
           split; [done|]. cbn. rewrite !lseg_insert; set_solver.
        -- cbn. rewrite Ht, !last_app. cbn. destruct l2 as [|z l2].
           ++ cbn. by rewrite bool_decide_true.
           ++ cbn. change (last (p :: z :: l2)) with (last (z :: l2)).
              destruct (last_snoc' (z :: l2)) as (l3 & w & E & ->); [done|].
              rewrite bool_decide_false; [done|]. intros [= ->].
              apply NoDup_cons in Hd2 as [Hp2 _]. rewrite E in Hp2. set_solver.
        -- apply NoDup_app. apply NoDup_cons in Hd2 as [_ Hd2]. repeat split; set_solver.
      * eapply relinked_trans; apply set_next_relinked; try done; try set_solver.
        by rewrite lookup_insert_ne.
    + rewrite (bool_decide_false (p ∈ _)) by done.
      destruct (find_prev_absent (size h) h x (x :: l) p) as (y & m & _ & Ef & Hy & Hm); try done.
      { by rewrite <- Hhd. } { by apply rep_size with q. }
      rewrite Ef. cbn. rewrite Hy. cbn. rewrite Hm. rewrite l_remove_absent by done.
      by exists h, q.
Qed.

(** *** Looking up a PDU *)

Lemma l_find_Some h x l p : l_find h x l = Some p ->
  exists l1 l2, l = l1 ++ p :: l2 /\ xid_in h p = x /\ Forall (fun y => xid_in h y <> x) l1.
Proof.
  induction l as [|y l IH]; [done|]. cbn. destruct (xid_in h y =? x) eqn:E.
  - intros [= ->]. exists [], l. repeat split; [lia|constructor].
  - intros (l1 & l2 & -> & ? & ?)%IH. exists (y :: l1), l2. repeat split; [done|].
    constructor; [lia|done].
Qed.

Lemma l_find_None h x l : l_find h x l = None <-> Forall (fun y => xid_in h y <> x) l.
Proof.
  induction l as [|y l IH]; [by split; constructor|]. cbn. rewrite Forall_cons.
  destruct (xid_in h y =? x) eqn:E; [|rewrite IH]; (split; [try done; intros; split|]).
  - by intros [? _]; lia.
  - lia.
  - done.
  - by intros [_ ?].
Qed.

Lemma xid_in_lookup h p n : h !! p = Some n -> xid_in h p = nxid n.
Proof. unfold xid_in. by intros ->. Qed.

Lemma search_miss h x l : forall fuel p prev,
  lseg h p l None -> Forall (fun y => xid_in h y <> x) l -> (length l <= fuel)%nat ->
  search fuel h p prev x = Some None.
Proof.
  induction l as [|y l IH]; intros fuel p prev Hs Hx Hf; cbn in Hs.
  - subst. by destruct fuel.
  - destruct Hs as (-> & n & Hn & Hs). apply Forall_cons in Hx as [Hy Hx].
    destruct fuel as [|fuel]; cbn in Hf; [lia|]. cbn. rewrite Hn. cbn.
    rewrite (xid_in_lookup _ _ _ Hn) in Hy. replace (nxid n =? x) with false by lia.
    apply IH; [done..|lia].
Qed.

Lemma search_hit h x l2 y l1 : forall fuel p prev,
  lseg h p (l1 ++ y :: l2) None -> Forall (fun z => xid_in h z <> x) l1 -> xid_in h y = x ->
  (length l1 < fuel)%nat ->
  search fuel h p prev x =
    Some (Some (y, match last l1 with Some z => Some z | None => prev end)).
Proof.
  induction l1 as [|z l1 IH]; intros fuel p prev Hs Hx Hy Hf;
    (destruct fuel as [|fuel]; [cbn in Hf; lia|]); cbn in Hs; destruct Hs as (-> & n & Hn & Hs);
    cbn [search]; rewrite Hn; cbn [mbind option_bind].
  - rewrite <- (xid_in_lookup _ _ _ Hn), Hy, Z.eqb_refl. done.
  - apply Forall_cons in Hx as [Hz Hx]. rewrite (xid_in_lookup _ _ _ Hn) in Hz.
    replace (nxid n =? x) with false by lia. rewrite IH; try done; [|cbn in Hf; lia].
    destruct l1 as [|w l1]; [done|]. change (last (z :: w :: l1)) with (last (w :: l1)).
    by destruct (last_snoc' (w :: l1)) as (? & ? & _ & ->).
Qed.

Lemma unlink_spec h q l1 p l2 :
  rep h q (l1 ++ p :: l2) ->
  exists h' q', unlink h q p (last l1) = Some (h', q') /\ rep h' q' (l1 ++ l2) /\
    relinked (l1 ++ l2) h h' /\ h' !! p = h !! p.
Proof.
  intros [Hc Ht Hd]. pose proof Hc as (n & Hn & H1 & H2)%lseg_mid.
  pose proof Hd as (Hd1 & Hd12 & [Hp2 Hd2]%NoDup_cons)%NoDup_app.
  assert (Hnd : NoDup (l1 ++ l2)) by (apply NoDup_app; repeat split; set_solver).
  unfold unlink. rewrite Hn. cbn.
  assert (Htl : (if bool_decide (tail q = Some p) then last l1 else tail q) = last (l1 ++ l2)).
  { rewrite Ht, !last_app. cbn. destruct l2 as [|z l2].
    - rewrite bool_decide_true by done. by destruct (last l1).
    - change (last (p :: z :: l2)) with (last (z :: l2)).
      destruct (last_snoc' (z :: l2)) as (l3 & w & E & ->); [done|].
      rewrite bool_decide_false; [done|]. intros [= ->]. rewrite E in Hp2. set_solver. }
  destruct (decide (l1 = [])) as [->|Hne].
  - cbn in *. rewrite H1, bool_decide_true by done. eexists _, _. split; [done|].
    split; [split|]; try done.
  - destruct (last_snoc' l1 Hne) as (r & z & -> & Hl). rewrite Hl in *.
    apply lseg_last in H1 as H1'. destruct H1' as (nz & Hz & Hnz).
    assert (z <> p) by set_solver. rewrite (set_next_ok _ _ _ _ Hz). cbn.
    assert (Hhd : head q <> Some p).
    { destruct r as [|w r]; cbn in H1; destruct H1 as (-> & _); [congruence|].
      intros [= ->]. set_solver. }
    rewrite (bool_decide_false (head q = _)) by done. eexists _, _. split; [done|].
    split; [|split].
    + split; try done. cbn. rewrite <- app_assoc. apply lseg_app. exists (Some z).
      apply lseg_app in H1 as (m & H1 & Hm & _). cbn in Hm. subst m.
      apply NoDup_app in Hd1 as (_ & Hrz & _). split.
      * apply lseg_insert; [set_solver|done].
      * cbn. split; [done|]. eexists. rewrite lookup_insert_eq. split; [done|]. cbn.
        apply lseg_insert; [set_solver|done].
    + apply set_next_relinked; [done|set_solver].
    + by rewrite lookup_insert_ne.
Qed.

Lemma find_in_queue_spec h q l x :
  rep h q l ->
  match l_find h x l with
  | None => find_in_queue false h q x = Some (h, q, None)
  | Some p => exists h' q', find_in_queue false h q x = Some (h', q', Some p) /\
      rep h' q' (l_remove p l) /\ relinked l h h' /\ h' !! p = h !! p /\ is_Some (h !! p) /\ p ∈ l
  end.
Proof.
  intros R. pose proof (rep_size _ _ _ R) as Hs. unfold find_in_queue.
  destruct (l_find h x l) as [p|] eqn:E.
  - apply l_find_Some in E as (l1 & l2 & -> & Hp & Hx). rewrite length_app in Hs. cbn in Hs.
    rewrite (search_hit h x l2 p l1); [|apply R|done..|lia]. cbn.
    destruct (unlink_spec h q l1 p l2 R) as (h' & q' & E & R' & Hr & Hh).
    replace (match last l1 with Some z => Some z | None => None end) with (last l1)
      by by destruct (last l1).
    rewrite E. cbn. exists h', q'. rewrite l_remove_mid by apply R. split; [done|].
    split; [done|]. split.
    + destruct Hr as [Hr1 Hr2]. split; [done|]. intros y Hy. apply Hr2. set_solver.
    + split; [done|]. split; [|set_solver]. eapply lseg_dom; [apply R|set_solver].
  - apply l_find_None in E. by rewrite (search_miss h x l); [|apply R|..].
Qed.

(** *** All the queues of a context *)

Record reps (s : queues) (a : lqueues) : Prop := {
  reps_out : rep (qheap s) (outqueue s) (l_out a);
  reps_wait : Forall2 (rep (qheap s)) (waitpdu s) (l_wait a);
  reps_nodup : NoDup (l_out a ++ concat (l_wait a));
  reps_len : waitpdu_len s = blen (concat (l_wait a));
  reps_u32 : is_u32 (waitpdu_len s);
}.

Lemma concat_split {A} (ls : list (list A)) i l :
  ls !! i = Some l -> concat ls = concat (take i ls) ++ l ++ concat (drop (S i) ls).
Proof.
  intros Hi. rewrite <- (take_drop_middle ls i l Hi) at 1. by rewrite concat_app.
Qed.

Lemma concat_update {A} (ls : list (list A)) i l l' :
  ls !! i = Some l -> concat (<[i := l']> ls) = concat (take i ls) ++ l' ++ concat (drop (S i) ls).
Proof.
  intros Hi. pose proof (lookup_lt_Some _ _ _ Hi).
  rewrite (concat_split (<[i := l']> ls) i l') by by apply list_lookup_insert_eq.
  rewrite take_insert_ge, drop_insert_lt by lia. done.
Qed.

Lemma l_remove_subset p l x : x ∈ l_remove p l -> x ∈ l /\ x <> p.
Proof. unfold l_remove. intros [??]%list_elem_of_filter. done. Qed.

Lemma l_remove_length p l : NoDup l -> p ∈ l -> blen l = 1 + blen (l_remove p l).
Proof.
  intros Hd Hp. apply list_elem_of_split in Hp as (l1 & l2 & ->).
  rewrite l_remove_mid by done. rewrite !blen_app, blen_cons. lia.
Qed.

Lemma l_remove_nodup p l : NoDup l -> NoDup (l_remove p l).
Proof. apply NoDup_filter. Qed.

Lemma reps_frame (h h' : heap) s qs ls :
  relinked s h h' -> (forall x, x ∈ concat ls -> x ∉ s) -> Forall2 (rep h) qs ls -> Forall2 (rep h') qs ls.
Proof.
  intros Hr Hd HF. induction HF as [|q l qs ls Hq HF IH]; constructor.
  - eapply rep_frame; [exact Hr| |exact Hq]. intros x Hx. apply Hd. cbn. set_solver.
  - apply IH. intros x Hx. apply Hd. cbn. set_solver.
Qed.

(** One bucket changes and nothing outside of it. *)
Lemma reps_update (h h' : heap) s qs ls i l q' l' :
  Forall2 (rep h) qs ls -> ls !! i = Some l -> NoDup (concat ls) ->
  relinked s h h' -> (forall x, x ∈ s -> x ∈ l) -> rep h' q' l' ->
  Forall2 (rep h') (<[i := q']> qs) (<[i := l']> ls).
Proof.
  intros HF Hi Hd Hr Hs R. pose proof (concat_split ls i l Hi) as Ec. rewrite Ec in Hd.
  apply NoDup_app in Hd as (_ & Hd1 & (_ & Hd2 & _)%NoDup_app).
  destruct (Forall2_lookup_r _ _ _ _ _ HF Hi) as (q & Hq & _).
  rewrite !insert_take_drop by (by eapply lookup_lt_Some).
  apply Forall2_app; [|constructor; [done|]].
  - apply reps_frame with h s; [done| |by apply Forall2_take].
    intros x Hx Hxs%Hs. set_solver.
  - apply reps_frame with h s; [done| |by apply Forall2_drop].
    intros x Hx Hxs%Hs. set_solver.
Qed.

Lemma set_next_rep h p n v q l :
  h !! p = Some n -> p ∉ l -> rep h q l -> rep (<[p := mkNode v (nxid n)]> h) q l.
Proof.
  intros Hp Hl. apply rep_frame with [p]; [by apply set_next_relinked; set_solver|set_solver].
Qed.

Lemma rpc_find_pdu_spec s a rm x :
  reps s a -> (0 < length (l_wait a))%nat ->
  exists s', rpc_find_pdu false s rm x = Some (s', (l_find_pdu (qheap s) a rm x).2) /\
    reps s' (l_find_pdu (qheap s) a rm x).1 /\
    (forall p, xid_in (qheap s') p = xid_in (qheap s) p) /\
    (forall p, (l_find_pdu (qheap s) a rm x).2 = Some p ->
       xid_in (qheap s) p = x /\ next <$> qheap s' !! p = Some None /\
       p ∉ l_out (l_find_pdu (qheap s) a rm x).1 ++ concat (l_wait (l_find_pdu (qheap s) a rm x).1)).
Proof.
  intros [Ro Rw Hnd Hlen H32] Hpos. pose proof Hnd as (Hnd1 & Hdj & Hnd2)%NoDup_app.
  unfold rpc_find_pdu, l_find_pdu. pose proof (find_in_queue_spec _ _ _ x Ro) as Ho.
  destruct (l_find (qheap s) x (l_out a)) as [p|] eqn:E.
  - destruct Ho as (h1 & q1 & -> & R1 & Hr & Hhp & [n Hn] & Hp). cbn.
    assert (Hn1 : h1 !! p = Some n) by congruence. rewrite (set_next_ok _ _ _ _ Hn1). cbn.
    assert (Hr' : relinked (l_out a) (qheap s) (<[p:=mkNode None (nxid n)]> h1)).
    { eapply relinked_trans; [exact Hr|]. by apply set_next_relinked. }
    eexists. split; [done|]. split; [|split].
    + split; cbn.
      * apply set_next_rep; try done. by intros [_ ?]%l_remove_subset.
      * eapply reps_frame; [exact Hr'| |done]. intros y Hy Hy'. by apply (Hdj y).
      * apply NoDup_app. split; [by apply l_remove_nodup|]. split; [|done].
        intros y [Hy _]%l_remove_subset. by apply Hdj.
      * done.
      * done.
    + intros y. unfold xid_in. destruct Hr' as [Hx _]. specialize (Hx y). cbn.
      destruct (_ !! y), (qheap s !! y); cbn in *; congruence.
    + intros y [= <-]. cbn. apply l_find_Some in E as (_ & _ & _ & ? & _). split; [done|].
      rewrite lookup_insert_eq. split; [done|]. rewrite not_elem_of_app. split.
      * by intros [_ ?]%l_remove_subset.
      * by apply Hdj.
  - rewrite Ho. cbn. rewrite (Forall2_length _ _ _ Rw).
    set (i := Z.to_nat (rpc_hash_xid (Z.of_nat (length (l_wait a))) rm)).
    assert (Hi : (i < length (l_wait a))%nat).
    { unfold i, rpc_hash_xid. pose proof (Z.mod_pos_bound (u32 (rm * 7919)) (Z.of_nat (length (l_wait a)))). lia. }
    destruct (lookup_lt_is_Some_2 _ _ Hi) as [w Hw]. rewrite Hw. cbn.
    destruct (Forall2_lookup_r _ _ _ _ _ Rw Hw) as (qw & Hqw & R). rewrite Hqw. cbn.
    pose proof (concat_split _ _ _ Hw) as Ec. pose proof (find_in_queue_spec _ _ _ x R) as Hf.
    destruct (l_find (qheap s) x w) as [p|] eqn:Ew.
    + destruct Hf as (h1 & q1 & -> & R1 & Hr & Hhp & [n Hn] & Hp). cbn.
      assert (Hn1 : h1 !! p = Some n) by congruence. rewrite (set_next_ok _ _ _ _ Hn1). cbn.
      assert (Hr' : relinked w (qheap s) (<[p:=mkNode None (nxid n)]> h1)).
      { eapply relinked_trans; [exact Hr|]. by apply set_next_relinked. }
      assert (Hdw : NoDup w).
      { rewrite Ec in Hnd2. apply NoDup_app in Hnd2 as (_ & _ & (? & _)%NoDup_app). done. }
      assert (Hpc : p ∉ concat (take i (l_wait a)) ++ concat (drop (S i) (l_wait a))).
      { rewrite Ec in Hnd2. apply NoDup_app in Hnd2 as (_ & H1 & (_ & H2 & _)%NoDup_app). set_solver. }
      assert (Hcl : blen (concat (l_wait a)) = 1 + blen (concat (<[i:=l_remove p w]> (l_wait a)))).
      { rewrite Ec, (concat_update _ _ _ _ Hw), !blen_app, (l_remove_length p w) by done. lia. }
      pose proof (blen_nonneg (concat (<[i:=l_remove p w]> (l_wait a)))).
      eexists. split; [done|]. split; [|split].
      * split; cbn.
        -- eapply rep_frame; [exact Hr'| |done]. intros y Hy Hyw. apply (Hdj y Hy).
           rewrite Ec. set_solver.
        -- eapply reps_update; try done. apply set_next_rep; try done.
           by intros [_ ?]%l_remove_subset.
        -- rewrite (concat_update _ _ _ _ Hw). rewrite Ec in Hnd.
           eapply sublist_NoDup; [exact Hnd|]. apply sublist_app; [done|].
           apply sublist_app; [done|]. apply sublist_app; [|done]. apply sublist_filter.
        -- rewrite u32_id; unfold is_u32 in *; lia.
        -- rewrite u32_id; unfold is_u32 in *; lia.
      * intros y. unfold xid_in. destruct Hr' as [Hx _]. specialize (Hx y). cbn.
        destruct (_ !! y), (qheap s !! y); cbn in *; congruence.
      * intros y [= <-]. cbn. apply l_find_Some in Ew as (_ & _ & _ & ? & _). split; [done|].
        rewrite lookup_insert_eq. split; [done|]. rewrite not_elem_of_app. split.
        -- intros Hpo. apply (Hdj p Hpo). rewrite Ec. set_solver.
        -- rewrite (concat_update _ _ _ _ Hw). rewrite !not_elem_of_app in *.
           split; [tauto|]. split; [by intros [_ ?]%l_remove_subset|tauto].
    + rewrite Hf. cbn. eexists. split; [done|]. split; [|done].
      split; cbn; try done. rewrite list_insert_id; done.
Qed.

(** Enqueueing, putting a PDU back behind the head and removing one, on linked
    queues, are the operations on the lists they represent, never fail an assertion, and
    change no PDU outside of the queue. *)
Theorem queue_ops_refine h q l p :
  rep h q l -> is_Some (h !! p) ->
  (p ∉ l ->
   (exists h' q', rpc_enqueue h q p = Some (h', q') /\ rep h' q' (l_enqueue l p) /\
      relinked (p :: l) h h') /\
   (exists h' q', insert_after_head h q p = Some (h', q') /\ rep h' q' (l_return l p) /\
      relinked (p :: l) h h')) /\
  (exists h' q', rpc_remove_pdu_from_queue h q p = Some (h', q', bool_decide (p ∈ l)) /\
     rep h' q' (l_remove p l) /\ relinked (p :: l) h h').
Proof.
  intros R Hp. split; [intros Hl; split|].
  - by apply rpc_enqueue_spec.
  - by apply insert_after_head_spec.
  - by apply rpc_remove_spec.
Qed.

(** Every waiting PDU is in the bucket of its xid. *)
Definition hashed (h : heap) (a : lqueues) : Prop :=
  forall i l p, l_wait a !! i = Some l -> p ∈ l ->
    Z.to_nat (rpc_hash_xid (Z.of_nat (length (l_wait a))) (xid_in h p)) = i.

(** No two PDUs share a xid. *)
Definition xids_distinct (h : heap) (l : list id) : Prop :=
  forall p q, p ∈ l -> q ∈ l -> xid_in h p = xid_in h q -> p = q.

Lemma l_find_exact h l p : xids_distinct h l -> p ∈ l -> l_find h (xid_in h p) l = Some p.
Proof.
  intros Hx Hp. destruct (l_find h (xid_in h p) l) as [q|] eqn:E.
  - apply l_find_Some in E as (l1 & l2 & -> & Hq & _). f_equal. apply Hx; set_solver.
  - apply l_find_None in E. rewrite Forall_forall in E. by apply E in Hp.
Qed.

Lemma l_find_absent h l m x p :
  xids_distinct h (l ++ m) -> (forall y, y ∈ l -> y ∉ m) -> p ∈ m -> xid_in h p = x -> l_find h x l = None.
Proof.
  intros Hx Hd Hp <-. apply l_find_None, Forall_forall. intros y Hy E.
  apply (Hd y Hy). replace y with p; [done|]. symmetry. apply Hx; set_solver.
Qed.

(** With distinct xids, every PDU of the context is found by its own. *)
Lemma rpc_find_pdu_complete s a p :
  reps s a -> (0 < length (l_wait a))%nat -> hashed (qheap s) a ->
  xids_distinct (qheap s) (l_out a ++ concat (l_wait a)) ->
  p ∈ l_out a ++ concat (l_wait a) ->
  exists s', rpc_find_pdu false s (xid_in (qheap s) p) (xid_in (qheap s) p) = Some (s', Some p).
Proof.
  intros R Hpos Hh Hx Hp.
  destruct (rpc_find_pdu_spec s a (xid_in (qheap s) p) (xid_in (qheap s) p) R Hpos)
    as (s' & -> & _). exists s'. do 2 f_equal. unfold l_find_pdu.
  pose proof (reps_nodup _ _ R) as (_ & Hd & _)%NoDup_app.
  apply elem_of_app in Hp as [Hp|Hp].
  - rewrite l_find_exact; [done| |done]. intros y z Hy Hz. apply Hx; set_solver.
  - rewrite (l_find_absent _ _ _ _ p Hx Hd Hp eq_refl).
    apply list_elem_of_In, in_concat in Hp as (w & Hw%list_elem_of_In & Hp%list_elem_of_In).
    apply list_elem_of_lookup in Hw as [i Hi]. rewrite (Hh _ _ _ Hi Hp), Hi. cbn.
    rewrite l_find_exact; [done| |done].
    pose proof (concat_split _ _ _ Hi) as Ec. intros y z Hy Hz. rewrite Ec in Hx. apply Hx; set_solver.
Qed.

(** C34: [rpc_find_pdu] on the linked queues is the search of the lists they represent:
    what it returns has the xid asked for and is unlinked from its queue, every other
    PDU stays where it was in its order, and, when xids are distinct and the reply just
    read has the xid asked for, every PDU of the context is found. *)
Theorem rpc_find_pdu_refines s a rm x :
  reps s a -> (0 < length (l_wait a))%nat ->
  (exists s', rpc_find_pdu false s rm x = Some (s', (l_find_pdu (qheap s) a rm x).2) /\
    reps s' (l_find_pdu (qheap s) a rm x).1 /\
    (forall p, xid_in (qheap s') p = xid_in (qheap s) p) /\
    (forall p, (l_find_pdu (qheap s) a rm x).2 = Some p ->
       xid_in (qheap s) p = x /\ next <$> qheap s' !! p = Some None /\
       p ∉ l_out (l_find_pdu (qheap s) a rm x).1 ++ concat (l_wait (l_find_pdu (qheap s) a rm x).1))) /\
  (hashed (qheap s) a -> xids_distinct (qheap s) (l_out a ++ concat (l_wait a)) ->
   rm = x -> forall p, p ∈ l_out a ++ concat (l_wait a) -> xid_in (qheap s) p = x ->
   exists s', rpc_find_pdu false s rm x = Some (s', Some p)).
Proof.
  intros R Hpos. split; [by apply rpc_find_pdu_spec|].
  intros Hh Hd -> p Hp <-. by apply (rpc_find_pdu_complete s a).
Qed.

Lemma bucket_unique (ls : list (list id)) i j l l' (p : id) :
  NoDup (concat ls) -> ls !! i = Some l -> ls !! j = Some l' -> p ∈ l -> p ∈ l' -> i = j.
Proof.
  intros Hd Hi Hj Hp Hp'. rewrite (concat_split _ _ _ Hi) in Hd.
  apply NoDup_app in Hd as (_ & H1 & (_ & H2 & _)%NoDup_app).
  destruct (decide (i = j)) as [|Hne]; [done|exfalso].
  destruct (decide (j < i)%nat).
  - apply (H1 p); [|set_solver]. apply list_elem_of_In, in_concat. exists l'.
    rewrite <- !list_elem_of_In. split; [|done]. apply list_elem_of_lookup. exists j.
    by rewrite lookup_take_lt.
  - apply (H2 p Hp). apply list_elem_of_In, in_concat. exists l'.
    rewrite <- !list_elem_of_In. split; [|done]. apply list_elem_of_lookup. exists (j - S i)%nat.
    rewrite lookup_drop. by replace (S i + (j - S i))%nat with j by lia.
Qed.

(** [rpc_cancel_pdu] looks in the bucket of the xid that was last read from the
    socket, so a PDU that waits in another bucket is not found and -ENOENT is returned
    with the queues unchanged (pdu.c:1238). *)
Theorem rpc_cancel_pdu_misses s a rm p :
  reps s a -> (0 < length (l_wait a))%nat -> hashed (qheap s) a ->
  xids_distinct (qheap s) (l_out a ++ concat (l_wait a)) ->
  p ∈ concat (l_wait a) ->
  rpc_hash_xid (Z.of_nat (length (l_wait a))) rm <>
    rpc_hash_xid (Z.of_nat (length (l_wait a))) (xid_in (qheap s) p) ->
  exists s', rpc_cancel_pdu false s rm p = Some (s', None, - ENOENT) /\ reps s' a.
Proof.
  intros R Hpos Hh Hx Hp Hne. pose proof (reps_nodup _ _ R) as (_ & Hd & Hd2)%NoDup_app.
  pose proof Hp as (w & Hw%list_elem_of_In & Hpw%list_elem_of_In)%list_elem_of_In%in_concat.
  apply list_elem_of_lookup in Hw as [i Hi].
  destruct (Forall2_lookup_r _ _ _ _ _ (reps_wait _ _ R) Hi) as (q & _ & Rq).
  destruct (lseg_dom _ _ _ _ p (rep_chain _ _ _ Rq) Hpw) as [n Hn].
  assert (Hf : l_find_pdu (qheap s) a rm (xid_in (qheap s) p) = (a, None)).
  { unfold l_find_pdu. rewrite (l_find_absent _ _ _ _ p Hx Hd Hp eq_refl).
    destruct (l_wait a !! Z.to_nat (rpc_hash_xid (Z.of_nat (length (l_wait a))) rm)) as [w'|] eqn:Ew;
      [|done]. cbn. assert (p ∉ w') as Hpw'.
    { intros Hpw'. apply Hne. pose proof (Hh _ _ _ Hi Hpw) as E1.
      rewrite (bucket_unique _ _ _ _ _ _ Hd2 Hi Ew Hpw Hpw') in E1.
      unfold rpc_hash_xid in *.
      pose proof (Z.mod_pos_bound (u32 (rm * 7919)) (Z.of_nat (length (l_wait a)))).
      pose proof (Z.mod_pos_bound (u32 (xid_in (qheap s) p * 7919)) (Z.of_nat (length (l_wait a)))).
      lia. }
    destruct (l_find _ _ w') as [y|] eqn:Ey; [|done].
    apply l_find_Some in Ey as (l1 & l2 & -> & Hy & _). exfalso. apply Hpw'.
    replace p with y; [set_solver|]. pose proof (concat_split _ _ _ Ew) as Ec.
    apply Hx; [|set_solver|done]. rewrite Ec. set_solver. }
  destruct (rpc_find_pdu_spec s a rm (xid_in (qheap s) p) R Hpos) as (s' & E & R' & _).
  rewrite Hf in E, R'. exists s'. unfold rpc_cancel_pdu. rewrite Hn. cbn.
  rewrite <- (xid_in_lookup _ _ _ Hn), E. done.
Qed.

(** On a UDP broadcast socket [rpc_find_pdu] keeps the PDU in its queue but clears
    its link, which cuts off the PDUs behind it: the queue now ends with the PDU found
    while its tail pointer does not (pdu.c:1263). *)
Theorem broadcast_find_cuts_queue s a i q l1 p l2 :
  reps s a -> l_wait a !! i = Some (l1 ++ p :: l2) -> waitpdu s !! i = Some q ->
  hashed (qheap s) a -> xids_distinct (qheap s) (l_out a ++ concat (l_wait a)) ->
  exists s' q', rpc_find_pdu true s (xid_in (qheap s) p) (xid_in (qheap s) p) = Some (s', Some p) /\
    waitpdu s' !! i = Some q' /\ lseg (qheap s') (head q') (l1 ++ [p]) None /\
    tail q' = last (p :: l2) /\ waitpdu_len s' = waitpdu_len s.
Proof.
  intros R Hi Hq Hh Hx. pose proof (reps_nodup _ _ R) as (_ & Hd & _)%NoDup_app.
  pose proof (Forall2_lookup_lr _ _ _ _ _ _ (reps_wait _ _ R) Hq Hi) as Rq.
  assert (Hp : p ∈ l1 ++ p :: l2) by set_solver.
  assert (Hpc : p ∈ concat (l_wait a)) by (rewrite (concat_split _ _ _ Hi); set_solver).
  unfold rpc_find_pdu, find_in_queue.
  rewrite (search_miss _ _ (l_out a)); [|apply (reps_out _ _ R)| |apply (rep_size _ _ _ (reps_out _ _ R))].
  2: { apply l_find_None. by eapply l_find_absent. }
  cbn. rewrite (Forall2_length _ _ _ (reps_wait _ _ R)), (Hh _ _ _ Hi Hp), Hq. cbn.
  pose proof (rep_size _ _ _ Rq) as Hs. rewrite length_app in Hs. cbn in Hs.
  pose proof (rep_nodup _ _ _ Rq) as Hn.
  rewrite (search_hit _ _ l2 p l1); [|apply Rq| |done|lia].
  2: { apply Forall_forall. intros y Hy E. apply NoDup_app in Hn as (_ & Hn & _).
       apply (Hn y Hy). replace y with p; [set_solver|]. symmetry.
       apply Hx; rewrite ?(concat_split _ _ _ Hi); set_solver. }
  cbn. rewrite list_insert_id by done.
  pose proof (rep_chain _ _ _ Rq) as (n & Hnp & H1 & H2)%lseg_mid.
  rewrite (set_next_ok _ _ _ _ Hnp). cbn. eexists _, _. split; [done|]. split; [exact Hq|].
  cbn. split; [|split; [|done]].
  - apply lseg_app. exists (Some p). split.
    + apply lseg_insert; [|done]. apply NoDup_app in Hn as (_ & Hn & _). set_solver.
    + cbn. split; [done|]. eexists. by rewrite lookup_insert_eq.
  - rewrite (rep_tail _ _ _ Rq), last_app. by destruct (last_snoc' (p :: l2)) as (? & ? & _ & ->).
Qed.

(** ** Instances *)

(** PDU 1 (xid 1) is to be sent; 2, 3 and 4 (xids 2, 3, 5) wait in two buckets. *)
Definition sample_heap : heap :=
  list_to_map [(1%N, mkNode None 1); (2%N, mkNode None 2); (3%N, mkNode (Some 4%N) 3); (4%N, mkNode None 5)].
Definition sample_queues : queues :=
  mkQueues sample_heap (mkQueue (Some 1%N) (Some 1%N))
    [mkQueue (Some 2%N) (Some 2%N); mkQueue (Some 3%N) (Some 4%N)] 3.
Definition sample_lists : lqueues := mkLqueues [1%N] [[2%N]; [3%N; 4%N]].

Ltac sample_nodup := repeat (apply NoDup_cons_2; [set_solver|]); apply NoDup_nil_2.

Lemma rep_one h p n : h !! p = Some (mkNode None n) -> rep h (mkQueue (Some p) (Some p)) [p].
Proof. intros Hp. split; [|done|apply NoDup_singleton]. cbn. eauto. Qed.

Lemma sample_second : rep sample_heap (mkQueue (Some 3%N) (Some 4%N)) [3; 4]%N.
Proof.
  split; [|done|sample_nodup]. split; [done|]. exists (mkNode (Some 4%N) 3).
  split; [by vm_compute|]. split; [done|]. exists (mkNode None 5). split; [by vm_compute|done].
Qed.

Lemma sample_reps : reps sample_queues sample_lists.
Proof.
  split; [apply rep_one with 1; by vm_compute| |cbn; sample_nodup|by vm_compute|by vm_compute].
  apply Forall2_cons_2; [apply rep_one with 2; by vm_compute|].
  apply Forall2_cons_2; [exact sample_second|apply Forall2_nil_2].
Qed.

Lemma sample_hashed : hashed sample_heap sample_lists.
Proof.
  intros [|[|]] l p E Hp; cbn in E; [| |done]; injection E as <-; set_unfold;
    destruct_or! Hp; subst; by vm_compute.
Qed.

Lemma sample_distinct : xids_distinct sample_heap [1; 2; 3; 4]%N.
Proof. intros p q Hp Hq. set_unfold. by destruct_or! Hp; destruct_or! Hq; subst. Qed.

Lemma rpc_find_pdu_refines_witness :
  exists s', rpc_find_pdu false sample_queues 5 5 = Some (s', Some 4%N) /\
    reps s' (mkLqueues [1%N] [[2%N]; [3%N]]).
Proof.
  destruct (rpc_find_pdu_refines sample_queues sample_lists 5 5 sample_reps) as [(s' & E & R & _) _];
    [by apply Nat.ltb_lt|].
  exists s'. exact (conj E R).
Defined.

Lemma queue_ops_refine_witness :
  (exists h' q', rpc_enqueue sample_heap (mkQueue (Some 3%N) (Some 4%N)) 1%N = Some (h', q') /\
     rep h' q' [3; 4; 1]%N) /\
  (exists h' q', insert_after_head sample_heap (mkQueue (Some 3%N) (Some 4%N)) 1%N = Some (h', q') /\
     rep h' q' [3; 1; 4]%N) /\
  (exists h' q', rpc_remove_pdu_from_queue sample_heap (mkQueue (Some 3%N) (Some 4%N)) 1%N =
     Some (h', q', false) /\ rep h' q' [3; 4]%N).
Proof.
  assert (R : rep sample_heap (mkQueue (Some 3%N) (Some 4%N)) [3; 4]%N).
  { apply sample_second. }
  destruct (queue_ops_refine sample_heap (mkQueue (Some 3%N) (Some 4%N)) [3; 4]%N 1%N R)
    as [H (h3 & q3 & E3 & R3 & _)]; [by eexists|].
  destruct H as [(h1 & q1 & E1 & R1 & _) (h2 & q2 & E2 & R2 & _)]; [set_solver|].
  split; [by exists h1, q1|]. split; [by exists h2, q2|by exists h3, q3].
Defined.

Lemma rpc_cancel_pdu_misses_witness :
  exists s', rpc_cancel_pdu false sample_queues 2 4%N = Some (s', None, -2) /\ reps s' sample_lists.
Proof.
  apply (rpc_cancel_pdu_misses sample_queues sample_lists 2 4%N);
    [apply sample_reps|by apply Nat.ltb_lt|apply sample_hashed|apply sample_distinct|set_solver|by vm_compute].
Defined.

Lemma broadcast_find_cuts_queue_witness :
  exists s' q', rpc_find_pdu true sample_queues 3 3 = Some (s', Some 3%N) /\
    waitpdu s' !! 1%nat = Some q' /\ lseg (qheap s') (head q') [3%N] None /\
    tail q' = Some 4%N /\ waitpdu_len s' = 3.
Proof.
  apply (broadcast_find_cuts_queue sample_queues sample_lists 1 (mkQueue (Some 3%N) (Some 4%N)) [] 3%N [4%N]);
    [apply sample_reps|done|done|apply sample_hashed|apply sample_distinct].
Defined.
