(* ===== verification/RpcState.v ===== *)
(** * RpcState: the state of an RPC context (include/libnfs-private.h)

    [struct rpc_pdu] and [struct rpc_context], with one function per field
    that sets it.  A PDU is named by an [id] and its queues are the lists of
    Queue.v, which shows that the linked queues implement them.

    Not kept: the error text, the statistics of single PDUs and the log and
    statistics callbacks (no decision depends on them), the mutexes (one
    thread), Kerberos and TLS.  A user callback is an entry of the trace: the
    model is that of callbacks which do not call back into the context. *)

From S2P Require Import Prelude Zdr RpcMsg Cursor Queue.

(** ** Constants *)

Definition RPC_STATUS_SUCCESS : Z := 0.
Definition RPC_STATUS_ERROR : Z := 1.
Definition RPC_STATUS_CANCEL : Z := 2.
Definition RPC_STATUS_TIMEOUT : Z := 3.
Definition ZDR_ENCODEBUF_MINSIZE : Z := 4096.
Definition NFS_PROGRAM : Z := 100003.
Definition NFS_V3 : Z := 3.
Definition POLLIN : Z := 1.
Definition POLLOUT : Z := 4.
Definition POLLERR : Z := 8.
Definition POLLHUP : Z := 16.

Inductive input_state :=
  READ_RM | READ_PAYLOAD | READ_FRAGMENT | READ_IOVEC | READ_PADDING | READ_UNKNOWN.

#[export] Instance input_state_eq_dec : EqDecision input_state.
Proof. solve_decision. Defined.

(** [rpc->buf]: the record marker and xid, or a place in [inbuf]. *)
Inductive rbuf := MarkerBuf (off : Z) | InbufAt (off : Z).

(** [connect_cb]: the caller's, or [reconnect_cb]. *)
Inductive connect_cb := UserConnectCb | ReconnectCb.

(** What a callback is given: NULL or an error text, or the results. *)
Inductive cb_data (R : Type) := NoData | Results (r : option R).
Arguments NoData {R}. Arguments Results {R}.

Inductive event (R : Type) :=
| Cb (p : id) (status : Z) (d : cb_data R)
| Freed (p : id)
| ConnectCb (status : Z).
Arguments Cb {R}. Arguments Freed {R}. Arguments ConnectCb {R}.

(** ** [struct rpc_pdu] *)


Record pdu (R : Type) := mkPdu {
  p_xid : Z;
  p_cb : bool;  (** is there a callback? *)
  p_zdr : ZDR;  (** the encode handle; for a zero-copy READ that was answered, the decode one *)
  p_free_zdr : bool;
  p_free_pdu : bool;
  p_data : Z;  (** the address of [outdata.data] *)
  p_marker : bytes;  (** what is stored at [outdata.data[0..3]] *)
  p_out : io_vectors;
  p_in : cursor;
  p_read_count : Z;
  p_requested : Z;  (** [requested_read_count] *)
  p_decode : (proc R);  (** [zdr_decode_fn] *)
  p_bufsize : Z;  (** [zdr_decode_bufsize] *)
  p_buf : option R;  (** [zdr_decode_buf]: NULL, or the results in it *)
  p_discard : bool;  (** [discard_after_sending] *)
  p_no_retry : bool;  (** [do_not_retry] *)
  p_timeout : Z;
  p_major : Z;  (** [major_timeout] *)
  p_snr : bool;  (** [snr_logged] *)
}.
Arguments mkPdu {R}.
Arguments p_xid {R}. Arguments p_cb {R}. Arguments p_zdr {R}. Arguments p_free_zdr {R}.
Arguments p_free_pdu {R}. Arguments p_data {R}. Arguments p_marker {R}.
Arguments p_out {R}. Arguments p_in {R}. Arguments p_read_count {R}.
Arguments p_requested {R}. Arguments p_decode {R}. Arguments p_bufsize {R}.
Arguments p_buf {R}. Arguments p_discard {R}. Arguments p_no_retry {R}.
Arguments p_timeout {R}. Arguments p_major {R}. Arguments p_snr {R}.

Definition set_p_zdr {R} (v : ZDR) (s : pdu R) : pdu R :=
  mkPdu (p_xid s) (p_cb s) v (p_free_zdr s) (p_free_pdu s) (p_data s) (p_marker s) (p_out s)
    (p_in s) (p_read_count s) (p_requested s) (p_decode s) (p_bufsize s) (p_buf s)
    (p_discard s) (p_no_retry s) (p_timeout s) (p_major s) (p_snr s).
Definition set_p_free_zdr {R} (v : bool) (s : pdu R) : pdu R :=
  mkPdu (p_xid s) (p_cb s) (p_zdr s) v (p_free_pdu s) (p_data s) (p_marker s) (p_out s)
    (p_in s) (p_read_count s) (p_requested s) (p_decode s) (p_bufsize s) (p_buf s)
    (p_discard s) (p_no_retry s) (p_timeout s) (p_major s) (p_snr s).
Definition set_p_free_pdu {R} (v : bool) (s : pdu R) : pdu R :=
  mkPdu (p_xid s) (p_cb s) (p_zdr s) (p_free_zdr s) v (p_data s) (p_marker s) (p_out s)
    (p_in s) (p_read_count s) (p_requested s) (p_decode s) (p_bufsize s) (p_buf s)
    (p_discard s) (p_no_retry s) (p_timeout s) (p_major s) (p_snr s).
Definition set_p_marker {R} (v : bytes) (s : pdu R) : pdu R :=
  mkPdu (p_xid s) (p_cb s) (p_zdr s) (p_free_zdr s) (p_free_pdu s) (p_data s) v (p_out s)
    (p_in s) (p_read_count s) (p_requested s) (p_decode s) (p_bufsize s) (p_buf s)
    (p_discard s) (p_no_retry s) (p_timeout s) (p_major s) (p_snr s).
Definition set_p_out {R} (v : io_vectors) (s : pdu R) : pdu R :=
  mkPdu (p_xid s) (p_cb s) (p_zdr s) (p_free_zdr s) (p_free_pdu s) (p_data s) (p_marker s) v
    (p_in s) (p_read_count s) (p_requested s) (p_decode s) (p_bufsize s) (p_buf s)
    (p_discard s) (p_no_retry s) (p_timeout s) (p_major s) (p_snr s).
Definition set_p_in {R} (v : cursor) (s : pdu R) : pdu R :=
  mkPdu (p_xid s) (p_cb s) (p_zdr s) (p_free_zdr s) (p_free_pdu s) (p_data s) (p_marker s)
    (p_out s) v (p_read_count s) (p_requested s) (p_decode s) (p_bufsize s) (p_buf s)
    (p_discard s) (p_no_retry s) (p_timeout s) (p_major s) (p_snr s).
Definition set_p_read_count {R} (v : Z) (s : pdu R) : pdu R :=
  mkPdu (p_xid s) (p_cb s) (p_zdr s) (p_free_zdr s) (p_free_pdu s) (p_data s) (p_marker s)
    (p_out s) (p_in s) v (p_requested s) (p_decode s) (p_bufsize s) (p_buf s) (p_discard s)
    (p_no_retry s) (p_timeout s) (p_major s) (p_snr s).
Definition set_p_requested {R} (v : Z) (s : pdu R) : pdu R :=
  mkPdu (p_xid s) (p_cb s) (p_zdr s) (p_free_zdr s) (p_free_pdu s) (p_data s) (p_marker s)
    (p_out s) (p_in s) (p_read_count s) v (p_decode s) (p_bufsize s) (p_buf s) (p_discard s)
    (p_no_retry s) (p_timeout s) (p_major s) (p_snr s).
Definition set_p_buf {R} (v : option R) (s : pdu R) : pdu R :=
  mkPdu (p_xid s) (p_cb s) (p_zdr s) (p_free_zdr s) (p_free_pdu s) (p_data s) (p_marker s)
    (p_out s) (p_in s) (p_read_count s) (p_requested s) (p_decode s) (p_bufsize s) v
    (p_discard s) (p_no_retry s) (p_timeout s) (p_major s) (p_snr s).
Definition set_p_discard {R} (v : bool) (s : pdu R) : pdu R :=
  mkPdu (p_xid s) (p_cb s) (p_zdr s) (p_free_zdr s) (p_free_pdu s) (p_data s) (p_marker s)
    (p_out s) (p_in s) (p_read_count s) (p_requested s) (p_decode s) (p_bufsize s) (p_buf s)
    v (p_no_retry s) (p_timeout s) (p_major s) (p_snr s).
Definition set_p_no_retry {R} (v : bool) (s : pdu R) : pdu R :=
  mkPdu (p_xid s) (p_cb s) (p_zdr s) (p_free_zdr s) (p_free_pdu s) (p_data s) (p_marker s)
    (p_out s) (p_in s) (p_read_count s) (p_requested s) (p_decode s) (p_bufsize s) (p_buf s)
    (p_discard s) v (p_timeout s) (p_major s) (p_snr s).
Definition set_p_timeout {R} (v : Z) (s : pdu R) : pdu R :=
  mkPdu (p_xid s) (p_cb s) (p_zdr s) (p_free_zdr s) (p_free_pdu s) (p_data s) (p_marker s)
    (p_out s) (p_in s) (p_read_count s) (p_requested s) (p_decode s) (p_bufsize s) (p_buf s)
    (p_discard s) (p_no_retry s) v (p_major s) (p_snr s).
Definition set_p_major {R} (v : Z) (s : pdu R) : pdu R :=
  mkPdu (p_xid s) (p_cb s) (p_zdr s) (p_free_zdr s) (p_free_pdu s) (p_data s) (p_marker s)
    (p_out s) (p_in s) (p_read_count s) (p_requested s) (p_decode s) (p_bufsize s) (p_buf s)
    (p_discard s) (p_no_retry s) (p_timeout s) v (p_snr s).
Definition set_p_snr {R} (v : bool) (s : pdu R) : pdu R :=
  mkPdu (p_xid s) (p_cb s) (p_zdr s) (p_free_zdr s) (p_free_pdu s) (p_data s) (p_marker s)
    (p_out s) (p_in s) (p_read_count s) (p_requested s) (p_decode s) (p_bufsize s) (p_buf s)
    (p_discard s) (p_no_retry s) (p_timeout s) (p_major s) v.

(** ** [struct rpc_context] *)

(** [struct service_proc] and [struct rpc_endpoint]; the functions of a
    procedure are named by [sp_handler]. *)
Record service_proc := mkProc { sp_proc : Z; sp_bufsize : Z; sp_handler : nat }.
Record endpoint := mkEndpoint { ep_program : Z; ep_version : Z; ep_procs : list service_proc }.

Record stats := mkStats {
  num_req_sent : Z; num_resp_rcvd : Z; num_timedout : Z; num_timedout_in_outqueue : Z;
  num_major_timedout : Z; num_retransmitted : Z; num_reconnects : Z;
}.


Record rpc (R : Type) := mkRpc {
  r_fd : Z;
  r_old_fd : Z;
  r_disabled : bool;  (** [socket_disabled] *)
  r_connected : bool;
  r_connect_cb : option connect_cb;
  r_program : Z;
  r_version : Z;
  r_auth : AUTH;
  r_xid : Z;
  r_udp : bool;
  r_broadcast : bool;
  r_server : bool;  (** [is_server_context] *)
  r_auto_reconnect : Z;
  r_num_retries : Z;
  r_timeout : Z;
  r_retrans : Z;
  r_outqueue : list id;
  r_waitpdu : list (list id);
  r_waitpdu_len : Z;
  r_max_waitpdu : Z;  (** [max_waitpdu_len] *)
  r_pdus : gmap id (pdu R);  (** the PDUs allocated *)
  r_next_id : id;  (** the name of the next one *)
  r_inpos : Z;
  r_inbuf : bytes;
  r_state : input_state;
  r_rm : Z;  (** [rm_xid[0]] *)
  r_rmx : Z;  (** [rm_xid[1]] *)
  r_rmbuf : bytes;  (** the bytes of a record marker that is being read *)
  r_pdu_size : Z;
  r_buf : option rbuf;
  r_pdu : option id;
  r_fragments : list bytes;
  r_endpoints : list endpoint;
  r_last_scan : Z;  (** [last_timeout_scan] *)
  r_last_rpc : Z;  (** [last_successful_rpc_response] *)
  r_stats : stats;
  r_mem : memory;  (** the buffers of the user *)
  r_wire : list Z;  (** the addresses written to the socket, in order *)
  r_trace : list (event R);  (** what the context did, oldest first *)
}.
Arguments mkRpc {R}.
Arguments r_fd {R}. Arguments r_old_fd {R}. Arguments r_disabled {R}.
Arguments r_connected {R}. Arguments r_connect_cb {R}. Arguments r_program {R}.
Arguments r_version {R}. Arguments r_auth {R}. Arguments r_xid {R}. Arguments r_udp {R}.
Arguments r_broadcast {R}. Arguments r_server {R}. Arguments r_auto_reconnect {R}.
Arguments r_num_retries {R}. Arguments r_timeout {R}. Arguments r_retrans {R}.
Arguments r_outqueue {R}. Arguments r_waitpdu {R}. Arguments r_waitpdu_len {R}.
Arguments r_max_waitpdu {R}. Arguments r_pdus {R}. Arguments r_next_id {R}.
Arguments r_inpos {R}. Arguments r_inbuf {R}. Arguments r_state {R}. Arguments r_rm {R}.
Arguments r_rmx {R}. Arguments r_rmbuf {R}. Arguments r_pdu_size {R}. Arguments r_buf {R}.
Arguments r_pdu {R}. Arguments r_fragments {R}. Arguments r_endpoints {R}.
Arguments r_last_scan {R}. Arguments r_last_rpc {R}. Arguments r_stats {R}.
Arguments r_mem {R}. Arguments r_wire {R}. Arguments r_trace {R}.

Definition set_r_fd {R} (v : Z) (s : rpc R) : rpc R :=
  mkRpc v (r_old_fd s) (r_disabled s) (r_connected s) (r_connect_cb s) (r_program s)
    (r_version s) (r_auth s) (r_xid s) (r_udp s) (r_broadcast s) (r_server s)
    (r_auto_reconnect s) (r_num_retries s) (r_timeout s) (r_retrans s) (r_outqueue s)
    (r_waitpdu s) (r_waitpdu_len s) (r_max_waitpdu s) (r_pdus s) (r_next_id s) (r_inpos s)
    (r_inbuf s) (r_state s) (r_rm s) (r_rmx s) (r_rmbuf s) (r_pdu_size s) (r_buf s)
    (r_pdu s) (r_fragments s) (r_endpoints s) (r_last_scan s) (r_last_rpc s) (r_stats s)
    (r_mem s) (r_wire s) (r_trace s).
Definition set_r_old_fd {R} (v : Z) (s : rpc R) : rpc R :=
  mkRpc (r_fd s) v (r_disabled s) (r_connected s) (r_connect_cb s) (r_program s)
    (r_version s) (r_auth s) (r_xid s) (r_udp s) (r_broadcast s) (r_server s)
    (r_auto_reconnect s) (r_num_retries s) (r_timeout s) (r_retrans s) (r_outqueue s)
    (r_waitpdu s) (r_waitpdu_len s) (r_max_waitpdu s) (r_pdus s) (r_next_id s) (r_inpos s)
    (r_inbuf s) (r_state s) (r_rm s) (r_rmx s) (r_rmbuf s) (r_pdu_size s) (r_buf s)
    (r_pdu s) (r_fragments s) (r_endpoints s) (r_last_scan s) (r_last_rpc s) (r_stats s)
    (r_mem s) (r_wire s) (r_trace s).
Definition set_r_disabled {R} (v : bool) (s : rpc R) : rpc R :=
  mkRpc (r_fd s) (r_old_fd s) v (r_connected s) (r_connect_cb s) (r_program s) (r_version s)
    (r_auth s) (r_xid s) (r_udp s) (r_broadcast s) (r_server s) (r_auto_reconnect s)
    (r_num_retries s) (r_timeout s) (r_retrans s) (r_outqueue s) (r_waitpdu s)
    (r_waitpdu_len s) (r_max_waitpdu s) (r_pdus s) (r_next_id s) (r_inpos s) (r_inbuf s)
    (r_state s) (r_rm s) (r_rmx s) (r_rmbuf s) (r_pdu_size s) (r_buf s) (r_pdu s)
    (r_fragments s) (r_endpoints s) (r_last_scan s) (r_last_rpc s) (r_stats s) (r_mem s)
    (r_wire s) (r_trace s).
Definition set_r_connected {R} (v : bool) (s : rpc R) : rpc R :=
  mkRpc (r_fd s) (r_old_fd s) (r_disabled s) v (r_connect_cb s) (r_program s) (r_version s)
    (r_auth s) (r_xid s) (r_udp s) (r_broadcast s) (r_server s) (r_auto_reconnect s)
    (r_num_retries s) (r_timeout s) (r_retrans s) (r_outqueue s) (r_waitpdu s)
    (r_waitpdu_len s) (r_max_waitpdu s) (r_pdus s) (r_next_id s) (r_inpos s) (r_inbuf s)
    (r_state s) (r_rm s) (r_rmx s) (r_rmbuf s) (r_pdu_size s) (r_buf s) (r_pdu s)
    (r_fragments s) (r_endpoints s) (r_last_scan s) (r_last_rpc s) (r_stats s) (r_mem s)
    (r_wire s) (r_trace s).
Definition set_r_connect_cb {R} (v : option connect_cb) (s : rpc R) : rpc R :=
  mkRpc (r_fd s) (r_old_fd s) (r_disabled s) (r_connected s) v (r_program s) (r_version s)
    (r_auth s) (r_xid s) (r_udp s) (r_broadcast s) (r_server s) (r_auto_reconnect s)
    (r_num_retries s) (r_timeout s) (r_retrans s) (r_outqueue s) (r_waitpdu s)
    (r_waitpdu_len s) (r_max_waitpdu s) (r_pdus s) (r_next_id s) (r_inpos s) (r_inbuf s)
    (r_state s) (r_rm s) (r_rmx s) (r_rmbuf s) (r_pdu_size s) (r_buf s) (r_pdu s)
    (r_fragments s) (r_endpoints s) (r_last_scan s) (r_last_rpc s) (r_stats s) (r_mem s)
    (r_wire s) (r_trace s).
Definition set_r_program {R} (v : Z) (s : rpc R) : rpc R :=
  mkRpc (r_fd s) (r_old_fd s) (r_disabled s) (r_connected s) (r_connect_cb s) v
    (r_version s) (r_auth s) (r_xid s) (r_udp s) (r_broadcast s) (r_server s)
    (r_auto_reconnect s) (r_num_retries s) (r_timeout s) (r_retrans s) (r_outqueue s)
    (r_waitpdu s) (r_waitpdu_len s) (r_max_waitpdu s) (r_pdus s) (r_next_id s) (r_inpos s)
    (r_inbuf s) (r_state s) (r_rm s) (r_rmx s) (r_rmbuf s) (r_pdu_size s) (r_buf s)
    (r_pdu s) (r_fragments s) (r_endpoints s) (r_last_scan s) (r_last_rpc s) (r_stats s)
    (r_mem s) (r_wire s) (r_trace s).
Definition set_r_version {R} (v : Z) (s : rpc R) : rpc R :=
  mkRpc (r_fd s) (r_old_fd s) (r_disabled s) (r_connected s) (r_connect_cb s) (r_program s)
    v (r_auth s) (r_xid s) (r_udp s) (r_broadcast s) (r_server s) (r_auto_reconnect s)
    (r_num_retries s) (r_timeout s) (r_retrans s) (r_outqueue s) (r_waitpdu s)
    (r_waitpdu_len s) (r_max_waitpdu s) (r_pdus s) (r_next_id s) (r_inpos s) (r_inbuf s)
    (r_state s) (r_rm s) (r_rmx s) (r_rmbuf s) (r_pdu_size s) (r_buf s) (r_pdu s)
    (r_fragments s) (r_endpoints s) (r_last_scan s) (r_last_rpc s) (r_stats s) (r_mem s)
    (r_wire s) (r_trace s).
Definition set_r_auth {R} (v : AUTH) (s : rpc R) : rpc R :=
  mkRpc (r_fd s) (r_old_fd s) (r_disabled s) (r_connected s) (r_connect_cb s) (r_program s)
    (r_version s) v (r_xid s) (r_udp s) (r_broadcast s) (r_server s) (r_auto_reconnect s)
    (r_num_retries s) (r_timeout s) (r_retrans s) (r_outqueue s) (r_waitpdu s)
    (r_waitpdu_len s) (r_max_waitpdu s) (r_pdus s) (r_next_id s) (r_inpos s) (r_inbuf s)
    (r_state s) (r_rm s) (r_rmx s) (r_rmbuf s) (r_pdu_size s) (r_buf s) (r_pdu s)
    (r_fragments s) (r_endpoints s) (r_last_scan s) (r_last_rpc s) (r_stats s) (r_mem s)
    (r_wire s) (r_trace s).
Definition set_r_xid {R} (v : Z) (s : rpc R) : rpc R :=
  mkRpc (r_fd s) (r_old_fd s) (r_disabled s) (r_connected s) (r_connect_cb s) (r_program s)
    (r_version s) (r_auth s) v (r_udp s) (r_broadcast s) (r_server s) (r_auto_reconnect s)
    (r_num_retries s) (r_timeout s) (r_retrans s) (r_outqueue s) (r_waitpdu s)
    (r_waitpdu_len s) (r_max_waitpdu s) (r_pdus s) (r_next_id s) (r_inpos s) (r_inbuf s)
    (r_state s) (r_rm s) (r_rmx s) (r_rmbuf s) (r_pdu_size s) (r_buf s) (r_pdu s)
    (r_fragments s) (r_endpoints s) (r_last_scan s) (r_last_rpc s) (r_stats s) (r_mem s)
    (r_wire s) (r_trace s).
Definition set_r_udp {R} (v : bool) (s : rpc R) : rpc R :=
  mkRpc (r_fd s) (r_old_fd s) (r_disabled s) (r_connected s) (r_connect_cb s) (r_program s)
    (r_version s) (r_auth s) (r_xid s) v (r_broadcast s) (r_server s) (r_auto_reconnect s)
    (r_num_retries s) (r_timeout s) (r_retrans s) (r_outqueue s) (r_waitpdu s)
    (r_waitpdu_len s) (r_max_waitpdu s) (r_pdus s) (r_next_id s) (r_inpos s) (r_inbuf s)
    (r_state s) (r_rm s) (r_rmx s) (r_rmbuf s) (r_pdu_size s) (r_buf s) (r_pdu s)
    (r_fragments s) (r_endpoints s) (r_last_scan s) (r_last_rpc s) (r_stats s) (r_mem s)
    (r_wire s) (r_trace s).
Definition set_r_broadcast {R} (v : bool) (s : rpc R) : rpc R :=
  mkRpc (r_fd s) (r_old_fd s) (r_disabled s) (r_connected s) (r_connect_cb s) (r_program s)
    (r_version s) (r_auth s) (r_xid s) (r_udp s) v (r_server s) (r_auto_reconnect s)
    (r_num_retries s) (r_timeout s) (r_retrans s) (r_outqueue s) (r_waitpdu s)
    (r_waitpdu_len s) (r_max_waitpdu s) (r_pdus s) (r_next_id s) (r_inpos s) (r_inbuf s)
    (r_state s) (r_rm s) (r_rmx s) (r_rmbuf s) (r_pdu_size s) (r_buf s) (r_pdu s)
    (r_fragments s) (r_endpoints s) (r_last_scan s) (r_last_rpc s) (r_stats s) (r_mem s)
    (r_wire s) (r_trace s).
Definition set_r_server {R} (v : bool) (s : rpc R) : rpc R :=
  mkRpc (r_fd s) (r_old_fd s) (r_disabled s) (r_connected s) (r_connect_cb s) (r_program s)
    (r_version s) (r_auth s) (r_xid s) (r_udp s) (r_broadcast s) v (r_auto_reconnect s)
    (r_num_retries s) (r_timeout s) (r_retrans s) (r_outqueue s) (r_waitpdu s)
    (r_waitpdu_len s) (r_max_waitpdu s) (r_pdus s) (r_next_id s) (r_inpos s) (r_inbuf s)
    (r_state s) (r_rm s) (r_rmx s) (r_rmbuf s) (r_pdu_size s) (r_buf s) (r_pdu s)
    (r_fragments s) (r_endpoints s) (r_last_scan s) (r_last_rpc s) (r_stats s) (r_mem s)
    (r_wire s) (r_trace s).
Definition set_r_auto_reconnect {R} (v : Z) (s : rpc R) : rpc R :=
  mkRpc (r_fd s) (r_old_fd s) (r_disabled s) (r_connected s) (r_connect_cb s) (r_program s)
    (r_version s) (r_auth s) (r_xid s) (r_udp s) (r_broadcast s) (r_server s) v
    (r_num_retries s) (r_timeout s) (r_retrans s) (r_outqueue s) (r_waitpdu s)
    (r_waitpdu_len s) (r_max_waitpdu s) (r_pdus s) (r_next_id s) (r_inpos s) (r_inbuf s)
    (r_state s) (r_rm s) (r_rmx s) (r_rmbuf s) (r_pdu_size s) (r_buf s) (r_pdu s)
    (r_fragments s) (r_endpoints s) (r_last_scan s) (r_last_rpc s) (r_stats s) (r_mem s)
    (r_wire s) (r_trace s).
Definition set_r_num_retries {R} (v : Z) (s : rpc R) : rpc R :=
  mkRpc (r_fd s) (r_old_fd s) (r_disabled s) (r_connected s) (r_connect_cb s) (r_program s)
    (r_version s) (r_auth s) (r_xid s) (r_udp s) (r_broadcast s) (r_server s)
    (r_auto_reconnect s) v (r_timeout s) (r_retrans s) (r_outqueue s) (r_waitpdu s)
    (r_waitpdu_len s) (r_max_waitpdu s) (r_pdus s) (r_next_id s) (r_inpos s) (r_inbuf s)
    (r_state s) (r_rm s) (r_rmx s) (r_rmbuf s) (r_pdu_size s) (r_buf s) (r_pdu s)
    (r_fragments s) (r_endpoints s) (r_last_scan s) (r_last_rpc s) (r_stats s) (r_mem s)
    (r_wire s) (r_trace s).
Definition set_r_timeout {R} (v : Z) (s : rpc R) : rpc R :=
  mkRpc (r_fd s) (r_old_fd s) (r_disabled s) (r_connected s) (r_connect_cb s) (r_program s)
    (r_version s) (r_auth s) (r_xid s) (r_udp s) (r_broadcast s) (r_server s)
    (r_auto_reconnect s) (r_num_retries s) v (r_retrans s) (r_outqueue s) (r_waitpdu s)
    (r_waitpdu_len s) (r_max_waitpdu s) (r_pdus s) (r_next_id s) (r_inpos s) (r_inbuf s)
    (r_state s) (r_rm s) (r_rmx s) (r_rmbuf s) (r_pdu_size s) (r_buf s) (r_pdu s)
    (r_fragments s) (r_endpoints s) (r_last_scan s) (r_last_rpc s) (r_stats s) (r_mem s)
    (r_wire s) (r_trace s).
Definition set_r_retrans {R} (v : Z) (s : rpc R) : rpc R :=
  mkRpc (r_fd s) (r_old_fd s) (r_disabled s) (r_connected s) (r_connect_cb s) (r_program s)
    (r_version s) (r_auth s) (r_xid s) (r_udp s) (r_broadcast s) (r_server s)
    (r_auto_reconnect s) (r_num_retries s) (r_timeout s) v (r_outqueue s) (r_waitpdu s)
    (r_waitpdu_len s) (r_max_waitpdu s) (r_pdus s) (r_next_id s) (r_inpos s) (r_inbuf s)
    (r_state s) (r_rm s) (r_rmx s) (r_rmbuf s) (r_pdu_size s) (r_buf s) (r_pdu s)
    (r_fragments s) (r_endpoints s) (r_last_scan s) (r_last_rpc s) (r_stats s) (r_mem s)
    (r_wire s) (r_trace s).
Definition set_r_outqueue {R} (v : list id) (s : rpc R) : rpc R :=
  mkRpc (r_fd s) (r_old_fd s) (r_disabled s) (r_connected s) (r_connect_cb s) (r_program s)
    (r_version s) (r_auth s) (r_xid s) (r_udp s) (r_broadcast s) (r_server s)
    (r_auto_reconnect s) (r_num_retries s) (r_timeout s) (r_retrans s) v (r_waitpdu s)
    (r_waitpdu_len s) (r_max_waitpdu s) (r_pdus s) (r_next_id s) (r_inpos s) (r_inbuf s)
    (r_state s) (r_rm s) (r_rmx s) (r_rmbuf s) (r_pdu_size s) (r_buf s) (r_pdu s)
    (r_fragments s) (r_endpoints s) (r_last_scan s) (r_last_rpc s) (r_stats s) (r_mem s)
    (r_wire s) (r_trace s).
Definition set_r_waitpdu {R} (v : list (list id)) (s : rpc R) : rpc R :=
  mkRpc (r_fd s) (r_old_fd s) (r_disabled s) (r_connected s) (r_connect_cb s) (r_program s)
    (r_version s) (r_auth s) (r_xid s) (r_udp s) (r_broadcast s) (r_server s)
    (r_auto_reconnect s) (r_num_retries s) (r_timeout s) (r_retrans s) (r_outqueue s) v
    (r_waitpdu_len s) (r_max_waitpdu s) (r_pdus s) (r_next_id s) (r_inpos s) (r_inbuf s)
    (r_state s) (r_rm s) (r_rmx s) (r_rmbuf s) (r_pdu_size s) (r_buf s) (r_pdu s)
    (r_fragments s) (r_endpoints s) (r_last_scan s) (r_last_rpc s) (r_stats s) (r_mem s)
    (r_wire s) (r_trace s).
Definition set_r_waitpdu_len {R} (v : Z) (s : rpc R) : rpc R :=
  mkRpc (r_fd s) (r_old_fd s) (r_disabled s) (r_connected s) (r_connect_cb s) (r_program s)
    (r_version s) (r_auth s) (r_xid s) (r_udp s) (r_broadcast s) (r_server s)
    (r_auto_reconnect s) (r_num_retries s) (r_timeout s) (r_retrans s) (r_outqueue s)
    (r_waitpdu s) v (r_max_waitpdu s) (r_pdus s) (r_next_id s) (r_inpos s) (r_inbuf s)
    (r_state s) (r_rm s) (r_rmx s) (r_rmbuf s) (r_pdu_size s) (r_buf s) (r_pdu s)
    (r_fragments s) (r_endpoints s) (r_last_scan s) (r_last_rpc s) (r_stats s) (r_mem s)
    (r_wire s) (r_trace s).
Definition set_r_max_waitpdu {R} (v : Z) (s : rpc R) : rpc R :=
  mkRpc (r_fd s) (r_old_fd s) (r_disabled s) (r_connected s) (r_connect_cb s) (r_program s)
    (r_version s) (r_auth s) (r_xid s) (r_udp s) (r_broadcast s) (r_server s)
    (r_auto_reconnect s) (r_num_retries s) (r_timeout s) (r_retrans s) (r_outqueue s)
    (r_waitpdu s) (r_waitpdu_len s) v (r_pdus s) (r_next_id s) (r_inpos s) (r_inbuf s)
    (r_state s) (r_rm s) (r_rmx s) (r_rmbuf s) (r_pdu_size s) (r_buf s) (r_pdu s)
    (r_fragments s) (r_endpoints s) (r_last_scan s) (r_last_rpc s) (r_stats s) (r_mem s)
    (r_wire s) (r_trace s).
Definition set_r_pdus {R} (v : gmap id (pdu R)) (s : rpc R) : rpc R :=
  mkRpc (r_fd s) (r_old_fd s) (r_disabled s) (r_connected s) (r_connect_cb s) (r_program s)
    (r_version s) (r_auth s) (r_xid s) (r_udp s) (r_broadcast s) (r_server s)
    (r_auto_reconnect s) (r_num_retries s) (r_timeout s) (r_retrans s) (r_outqueue s)
    (r_waitpdu s) (r_waitpdu_len s) (r_max_waitpdu s) v (r_next_id s) (r_inpos s)
    (r_inbuf s) (r_state s) (r_rm s) (r_rmx s) (r_rmbuf s) (r_pdu_size s) (r_buf s)
    (r_pdu s) (r_fragments s) (r_endpoints s) (r_last_scan s) (r_last_rpc s) (r_stats s)
    (r_mem s) (r_wire s) (r_trace s).
Definition set_r_next_id {R} (v : id) (s : rpc R) : rpc R :=
  mkRpc (r_fd s) (r_old_fd s) (r_disabled s) (r_connected s) (r_connect_cb s) (r_program s)
    (r_version s) (r_auth s) (r_xid s) (r_udp s) (r_broadcast s) (r_server s)
    (r_auto_reconnect s) (r_num_retries s) (r_timeout s) (r_retrans s) (r_outqueue s)
    (r_waitpdu s) (r_waitpdu_len s) (r_max_waitpdu s) (r_pdus s) v (r_inpos s) (r_inbuf s)
    (r_state s) (r_rm s) (r_rmx s) (r_rmbuf s) (r_pdu_size s) (r_buf s) (r_pdu s)
    (r_fragments s) (r_endpoints s) (r_last_scan s) (r_last_rpc s) (r_stats s) (r_mem s)
    (r_wire s) (r_trace s).
Definition set_r_inpos {R} (v : Z) (s : rpc R) : rpc R :=
  mkRpc (r_fd s) (r_old_fd s) (r_disabled s) (r_connected s) (r_connect_cb s) (r_program s)
    (r_version s) (r_auth s) (r_xid s) (r_udp s) (r_broadcast s) (r_server s)
    (r_auto_reconnect s) (r_num_retries s) (r_timeout s) (r_retrans s) (r_outqueue s)
    (r_waitpdu s) (r_waitpdu_len s) (r_max_waitpdu s) (r_pdus s) (r_next_id s) v (r_inbuf s)
    (r_state s) (r_rm s) (r_rmx s) (r_rmbuf s) (r_pdu_size s) (r_buf s) (r_pdu s)
    (r_fragments s) (r_endpoints s) (r_last_scan s) (r_last_rpc s) (r_stats s) (r_mem s)
    (r_wire s) (r_trace s).
Definition set_r_inbuf {R} (v : bytes) (s : rpc R) : rpc R :=
  mkRpc (r_fd s) (r_old_fd s) (r_disabled s) (r_connected s) (r_connect_cb s) (r_program s)
    (r_version s) (r_auth s) (r_xid s) (r_udp s) (r_broadcast s) (r_server s)
    (r_auto_reconnect s) (r_num_retries s) (r_timeout s) (r_retrans s) (r_outqueue s)
    (r_waitpdu s) (r_waitpdu_len s) (r_max_waitpdu s) (r_pdus s) (r_next_id s) (r_inpos s) v
    (r_state s) (r_rm s) (r_rmx s) (r_rmbuf s) (r_pdu_size s) (r_buf s) (r_pdu s)
    (r_fragments s) (r_endpoints s) (r_last_scan s) (r_last_rpc s) (r_stats s) (r_mem s)
    (r_wire s) (r_trace s).
Definition set_r_state {R} (v : input_state) (s : rpc R) : rpc R :=
  mkRpc (r_fd s) (r_old_fd s) (r_disabled s) (r_connected s) (r_connect_cb s) (r_program s)
    (r_version s) (r_auth s) (r_xid s) (r_udp s) (r_broadcast s) (r_server s)
    (r_auto_reconnect s) (r_num_retries s) (r_timeout s) (r_retrans s) (r_outqueue s)
    (r_waitpdu s) (r_waitpdu_len s) (r_max_waitpdu s) (r_pdus s) (r_next_id s) (r_inpos s)
    (r_inbuf s) v (r_rm s) (r_rmx s) (r_rmbuf s) (r_pdu_size s) (r_buf s) (r_pdu s)
    (r_fragments s) (r_endpoints s) (r_last_scan s) (r_last_rpc s) (r_stats s) (r_mem s)
    (r_wire s) (r_trace s).
Definition set_r_rm {R} (v : Z) (s : rpc R) : rpc R :=
  mkRpc (r_fd s) (r_old_fd s) (r_disabled s) (r_connected s) (r_connect_cb s) (r_program s)
    (r_version s) (r_auth s) (r_xid s) (r_udp s) (r_broadcast s) (r_server s)
    (r_auto_reconnect s) (r_num_retries s) (r_timeout s) (r_retrans s) (r_outqueue s)
    (r_waitpdu s) (r_waitpdu_len s) (r_max_waitpdu s) (r_pdus s) (r_next_id s) (r_inpos s)
    (r_inbuf s) (r_state s) v (r_rmx s) (r_rmbuf s) (r_pdu_size s) (r_buf s) (r_pdu s)
    (r_fragments s) (r_endpoints s) (r_last_scan s) (r_last_rpc s) (r_stats s) (r_mem s)
    (r_wire s) (r_trace s).
Definition set_r_rmx {R} (v : Z) (s : rpc R) : rpc R :=
  mkRpc (r_fd s) (r_old_fd s) (r_disabled s) (r_connected s) (r_connect_cb s) (r_program s)
    (r_version s) (r_auth s) (r_xid s) (r_udp s) (r_broadcast s) (r_server s)
    (r_auto_reconnect s) (r_num_retries s) (r_timeout s) (r_retrans s) (r_outqueue s)
    (r_waitpdu s) (r_waitpdu_len s) (r_max_waitpdu s) (r_pdus s) (r_next_id s) (r_inpos s)
    (r_inbuf s) (r_state s) (r_rm s) v (r_rmbuf s) (r_pdu_size s) (r_buf s) (r_pdu s)
    (r_fragments s) (r_endpoints s) (r_last_scan s) (r_last_rpc s) (r_stats s) (r_mem s)
    (r_wire s) (r_trace s).
Definition set_r_rmbuf {R} (v : bytes) (s : rpc R) : rpc R :=
  mkRpc (r_fd s) (r_old_fd s) (r_disabled s) (r_connected s) (r_connect_cb s) (r_program s)
    (r_version s) (r_auth s) (r_xid s) (r_udp s) (r_broadcast s) (r_server s)
    (r_auto_reconnect s) (r_num_retries s) (r_timeout s) (r_retrans s) (r_outqueue s)
    (r_waitpdu s) (r_waitpdu_len s) (r_max_waitpdu s) (r_pdus s) (r_next_id s) (r_inpos s)
    (r_inbuf s) (r_state s) (r_rm s) (r_rmx s) v (r_pdu_size s) (r_buf s) (r_pdu s)
    (r_fragments s) (r_endpoints s) (r_last_scan s) (r_last_rpc s) (r_stats s) (r_mem s)
    (r_wire s) (r_trace s).
Definition set_r_pdu_size {R} (v : Z) (s : rpc R) : rpc R :=
  mkRpc (r_fd s) (r_old_fd s) (r_disabled s) (r_connected s) (r_connect_cb s) (r_program s)
    (r_version s) (r_auth s) (r_xid s) (r_udp s) (r_broadcast s) (r_server s)
    (r_auto_reconnect s) (r_num_retries s) (r_timeout s) (r_retrans s) (r_outqueue s)
    (r_waitpdu s) (r_waitpdu_len s) (r_max_waitpdu s) (r_pdus s) (r_next_id s) (r_inpos s)
    (r_inbuf s) (r_state s) (r_rm s) (r_rmx s) (r_rmbuf s) v (r_buf s) (r_pdu s)
    (r_fragments s) (r_endpoints s) (r_last_scan s) (r_last_rpc s) (r_stats s) (r_mem s)
    (r_wire s) (r_trace s).
Definition set_r_buf {R} (v : option rbuf) (s : rpc R) : rpc R :=
  mkRpc (r_fd s) (r_old_fd s) (r_disabled s) (r_connected s) (r_connect_cb s) (r_program s)
    (r_version s) (r_auth s) (r_xid s) (r_udp s) (r_broadcast s) (r_server s)
    (r_auto_reconnect s) (r_num_retries s) (r_timeout s) (r_retrans s) (r_outqueue s)
    (r_waitpdu s) (r_waitpdu_len s) (r_max_waitpdu s) (r_pdus s) (r_next_id s) (r_inpos s)
    (r_inbuf s) (r_state s) (r_rm s) (r_rmx s) (r_rmbuf s) (r_pdu_size s) v (r_pdu s)
    (r_fragments s) (r_endpoints s) (r_last_scan s) (r_last_rpc s) (r_stats s) (r_mem s)
    (r_wire s) (r_trace s).
Definition set_r_pdu {R} (v : option id) (s : rpc R) : rpc R :=
  mkRpc (r_fd s) (r_old_fd s) (r_disabled s) (r_connected s) (r_connect_cb s) (r_program s)
    (r_version s) (r_auth s) (r_xid s) (r_udp s) (r_broadcast s) (r_server s)
    (r_auto_reconnect s) (r_num_retries s) (r_timeout s) (r_retrans s) (r_outqueue s)
    (r_waitpdu s) (r_waitpdu_len s) (r_max_waitpdu s) (r_pdus s) (r_next_id s) (r_inpos s)
    (r_inbuf s) (r_state s) (r_rm s) (r_rmx s) (r_rmbuf s) (r_pdu_size s) (r_buf s) v
    (r_fragments s) (r_endpoints s) (r_last_scan s) (r_last_rpc s) (r_stats s) (r_mem s)
    (r_wire s) (r_trace s).
Definition set_r_fragments {R} (v : list bytes) (s : rpc R) : rpc R :=
  mkRpc (r_fd s) (r_old_fd s) (r_disabled s) (r_connected s) (r_connect_cb s) (r_program s)
    (r_version s) (r_auth s) (r_xid s) (r_udp s) (r_broadcast s) (r_server s)
    (r_auto_reconnect s) (r_num_retries s) (r_timeout s) (r_retrans s) (r_outqueue s)
    (r_waitpdu s) (r_waitpdu_len s) (r_max_waitpdu s) (r_pdus s) (r_next_id s) (r_inpos s)
    (r_inbuf s) (r_state s) (r_rm s) (r_rmx s) (r_rmbuf s) (r_pdu_size s) (r_buf s)
    (r_pdu s) v (r_endpoints s) (r_last_scan s) (r_last_rpc s) (r_stats s) (r_mem s)
    (r_wire s) (r_trace s).
Definition set_r_endpoints {R} (v : list endpoint) (s : rpc R) : rpc R :=
  mkRpc (r_fd s) (r_old_fd s) (r_disabled s) (r_connected s) (r_connect_cb s) (r_program s)
    (r_version s) (r_auth s) (r_xid s) (r_udp s) (r_broadcast s) (r_server s)
    (r_auto_reconnect s) (r_num_retries s) (r_timeout s) (r_retrans s) (r_outqueue s)
    (r_waitpdu s) (r_waitpdu_len s) (r_max_waitpdu s) (r_pdus s) (r_next_id s) (r_inpos s)
    (r_inbuf s) (r_state s) (r_rm s) (r_rmx s) (r_rmbuf s) (r_pdu_size s) (r_buf s)
    (r_pdu s) (r_fragments s) v (r_last_scan s) (r_last_rpc s) (r_stats s) (r_mem s)
    (r_wire s) (r_trace s).
Definition set_r_last_scan {R} (v : Z) (s : rpc R) : rpc R :=
  mkRpc (r_fd s) (r_old_fd s) (r_disabled s) (r_connected s) (r_connect_cb s) (r_program s)
    (r_version s) (r_auth s) (r_xid s) (r_udp s) (r_broadcast s) (r_server s)
    (r_auto_reconnect s) (r_num_retries s) (r_timeout s) (r_retrans s) (r_outqueue s)
    (r_waitpdu s) (r_waitpdu_len s) (r_max_waitpdu s) (r_pdus s) (r_next_id s) (r_inpos s)
    (r_inbuf s) (r_state s) (r_rm s) (r_rmx s) (r_rmbuf s) (r_pdu_size s) (r_buf s)
    (r_pdu s) (r_fragments s) (r_endpoints s) v (r_last_rpc s) (r_stats s) (r_mem s)
    (r_wire s) (r_trace s).
Definition set_r_last_rpc {R} (v : Z) (s : rpc R) : rpc R :=
  mkRpc (r_fd s) (r_old_fd s) (r_disabled s) (r_connected s) (r_connect_cb s) (r_program s)
    (r_version s) (r_auth s) (r_xid s) (r_udp s) (r_broadcast s) (r_server s)
    (r_auto_reconnect s) (r_num_retries s) (r_timeout s) (r_retrans s) (r_outqueue s)
    (r_waitpdu s) (r_waitpdu_len s) (r_max_waitpdu s) (r_pdus s) (r_next_id s) (r_inpos s)
    (r_inbuf s) (r_state s) (r_rm s) (r_rmx s) (r_rmbuf s) (r_pdu_size s) (r_buf s)
    (r_pdu s) (r_fragments s) (r_endpoints s) (r_last_scan s) v (r_stats s) (r_mem s)
    (r_wire s) (r_trace s).
Definition set_r_stats {R} (v : stats) (s : rpc R) : rpc R :=
  mkRpc (r_fd s) (r_old_fd s) (r_disabled s) (r_connected s) (r_connect_cb s) (r_program s)
    (r_version s) (r_auth s) (r_xid s) (r_udp s) (r_broadcast s) (r_server s)
    (r_auto_reconnect s) (r_num_retries s) (r_timeout s) (r_retrans s) (r_outqueue s)
    (r_waitpdu s) (r_waitpdu_len s) (r_max_waitpdu s) (r_pdus s) (r_next_id s) (r_inpos s)
    (r_inbuf s) (r_state s) (r_rm s) (r_rmx s) (r_rmbuf s) (r_pdu_size s) (r_buf s)
    (r_pdu s) (r_fragments s) (r_endpoints s) (r_last_scan s) (r_last_rpc s) v (r_mem s)
    (r_wire s) (r_trace s).
Definition set_r_mem {R} (v : memory) (s : rpc R) : rpc R :=
  mkRpc (r_fd s) (r_old_fd s) (r_disabled s) (r_connected s) (r_connect_cb s) (r_program s)
    (r_version s) (r_auth s) (r_xid s) (r_udp s) (r_broadcast s) (r_server s)
    (r_auto_reconnect s) (r_num_retries s) (r_timeout s) (r_retrans s) (r_outqueue s)
    (r_waitpdu s) (r_waitpdu_len s) (r_max_waitpdu s) (r_pdus s) (r_next_id s) (r_inpos s)
    (r_inbuf s) (r_state s) (r_rm s) (r_rmx s) (r_rmbuf s) (r_pdu_size s) (r_buf s)
    (r_pdu s) (r_fragments s) (r_endpoints s) (r_last_scan s) (r_last_rpc s) (r_stats s) v
    (r_wire s) (r_trace s).
Definition set_r_wire {R} (v : list Z) (s : rpc R) : rpc R :=
  mkRpc (r_fd s) (r_old_fd s) (r_disabled s) (r_connected s) (r_connect_cb s) (r_program s)
    (r_version s) (r_auth s) (r_xid s) (r_udp s) (r_broadcast s) (r_server s)
    (r_auto_reconnect s) (r_num_retries s) (r_timeout s) (r_retrans s) (r_outqueue s)
    (r_waitpdu s) (r_waitpdu_len s) (r_max_waitpdu s) (r_pdus s) (r_next_id s) (r_inpos s)
    (r_inbuf s) (r_state s) (r_rm s) (r_rmx s) (r_rmbuf s) (r_pdu_size s) (r_buf s)
    (r_pdu s) (r_fragments s) (r_endpoints s) (r_last_scan s) (r_last_rpc s) (r_stats s)
    (r_mem s) v (r_trace s).
Definition set_r_trace {R} (v : list (event R)) (s : rpc R) : rpc R :=
  mkRpc (r_fd s) (r_old_fd s) (r_disabled s) (r_connected s) (r_connect_cb s) (r_program s)
    (r_version s) (r_auth s) (r_xid s) (r_udp s) (r_broadcast s) (r_server s)
    (r_auto_reconnect s) (r_num_retries s) (r_timeout s) (r_retrans s) (r_outqueue s)
    (r_waitpdu s) (r_waitpdu_len s) (r_max_waitpdu s) (r_pdus s) (r_next_id s) (r_inpos s)
    (r_inbuf s) (r_state s) (r_rm s) (r_rmx s) (r_rmbuf s) (r_pdu_size s) (r_buf s)
    (r_pdu s) (r_fragments s) (r_endpoints s) (r_last_scan s) (r_last_rpc s) (r_stats s)
    (r_mem s) (r_wire s) v.

(** ** Access *)

Section access.
Context {R : Type}.
Implicit Types (s : rpc R) (p : id).

Definition get_pdu s p : option (pdu R) := r_pdus s !! p.

Definition put_pdu p (x : pdu R) s : rpc R := set_r_pdus (<[p := x]> (r_pdus s)) s.

Definition upd_pdu p (f : pdu R -> pdu R) s : option (rpc R) :=
  x ← get_pdu s p; Some (put_pdu p (f x) s).

Definition log (e : event R) s : rpc R := set_r_trace (r_trace s ++ [e]) s.

(** [pdu->cb(...)]: there must be one. *)
Definition call_cb s p (status : Z) (d : cb_data R) : option (rpc R) :=
  x ← get_pdu s p; if p_cb x then Some (log (Cb p status d) s) else None.

(** [if (pdu->cb) pdu->cb(...)]. *)
Definition call_cb_if s p (status : Z) (d : cb_data R) : option (rpc R) :=
  x ← get_pdu s p; Some (if p_cb x then log (Cb p status d) s else s).

(** [rpc_free_pdu]; freeing a PDU twice has no result. *)
Definition rpc_free_pdu s p : option (rpc R) :=
  _ ← get_pdu s p; Some (log (Freed p) (set_r_pdus (delete p (r_pdus s)) s)).

Definition num_hashes s : Z := Z.of_nat (length (r_waitpdu s)).

Definition bucket s (x : Z) : nat := Z.to_nat (rpc_hash_xid (num_hashes s) x).

(** [waitpdu[hash]] changed by [f]. *)
Definition upd_bucket (i : nat) (f : list id -> list id) s : option (rpc R) :=
  l ← r_waitpdu s !! i; Some (set_r_waitpdu (<[i := f l]> (r_waitpdu s)) s).

Definition xid_of s p : Z := from_option p_xid 0 (get_pdu s p).
End access.

