(* ===== verification/Context.v ===== *)
(** * Context: the life of an RPC context (lib/init.c, lib/socket.c)

    Creating a client or a server context, its settings, the purge that gives
    every queued PDU back to its owner, and the end of the context.  The
    allocator succeeds; getpid, the clock and the static salt of
    [rpc_init_context] are the argument [xid0]. *)

From S2P Require Import Prelude Zdr RpcMsg Cursor Queue RpcState.

Definition DEFAULT_HASHES : Z := 4.

Section context.
Context {R : Type}.
Implicit Types (s : rpc R) (p : id).

(** ** Creation *)

Definition zero_stats : stats := mkStats 0 0 0 0 0 0 0.

(** A context of zeros, in the memory [m] of the process. *)
Definition calloc_context (m : memory) : rpc R :=
  mkRpc 0 0 false false None 0 0 (mkAUTH _null_auth _null_auth) 0 false false false 0 0 0 0
    [] [] 0 0 ∅ 0%N 0 [] READ_RM 0 0 (zeros 8) 0 None None [] [] 0 0 zero_stats m [] [].

(** [rpc_set_hash_size]: what was in the buckets is lost. *)
Definition rpc_set_hash_size (hashes : Z) s : rpc R :=
  set_r_waitpdu (replicate (Z.to_nat hashes) []) s.

Definition rpc_init_context (m : memory) (auth : AUTH) (xid0 : Z) : rpc R :=
  let s := rpc_set_hash_size DEFAULT_HASHES (calloc_context m) in
  let s := set_r_state READ_RM (set_r_inpos 0 s) in
  let s := set_r_fd (-1) (set_r_xid (u32 xid0) (set_r_auth auth s)) in
  set_r_retrans 0 (set_r_timeout (60 * 1000) (set_r_max_waitpdu 0 (set_r_outqueue [] s))).

Definition rpc_init_udp_context (m : memory) (auth : AUTH) (xid0 : Z) : rpc R :=
  set_r_udp true (rpc_init_context m auth xid0).

(** [rpc_init_server_context] on the socket [fd]; it has no buckets. *)
Definition rpc_init_server_context (m : memory) (fd : Z) (is_udp : bool) : rpc R :=
  let s := set_r_fd fd (set_r_server true (calloc_context m)) in
  set_r_outqueue [] (set_r_udp is_udp (set_r_connected true s)).

(** ** Settings *)

Definition rpc_set_auth (a : AUTH) s : rpc R := set_r_auth a s.
Definition rpc_set_timeout (ms : Z) s : rpc R := set_r_timeout ms s.
Definition rpc_get_timeout s : Z := r_timeout s.
Definition rpc_set_awaiting_limit (limit : Z) s : rpc R := set_r_max_waitpdu (u32 limit) s.
Definition rpc_get_num_awaiting s : Z := i32 (r_waitpdu_len s).
Definition rpc_set_fd (fd : Z) s : rpc R := set_r_fd fd s.
Definition rpc_get_fd s : Z := if negb (r_old_fd s =? 0) then r_old_fd s else r_fd s.

Definition rpc_set_resiliency (num_tcp_reconnect timeout_msecs retrans : Z) s : rpc R :=
  if r_server s then s
  else set_r_retrans retrans (set_r_timeout timeout_msecs (set_r_auto_reconnect num_tcp_reconnect s)).

Definition rpc_queue_length s : Z := i32 (blen (r_outqueue s) + r_waitpdu_len s).

(** The result of [rpc_register_service], which only a server accepts. *)
Definition rpc_register_service (program version : Z) (procs : list service_proc) s : rpc R * Z :=
  if negb (r_server s) then (s, -1)
  else (set_r_endpoints (mkEndpoint program version procs :: r_endpoints s) s, 0).

(** ** Giving the PDUs back *)

(** The loop over a queue that has been taken out of the context. *)
Fixpoint purge_queue (status : Z) (l : list id) s : option (rpc R) :=
  match l with
  | [] => Some s
  | p :: l =>
      s ← call_cb_if s p status NoData;
      s ← rpc_free_pdu s p;
      purge_queue status l s
  end.

(** The loop over the buckets. *)
Fixpoint purge_buckets (status : Z) (n i : nat) s : option (rpc R) :=
  match n with
  | O => Some s
  | S n =>
      w ← r_waitpdu s !! i;
      s ← purge_queue status w (set_r_waitpdu (<[i := []]> (r_waitpdu s)) s);
      purge_buckets status n (S i) s
  end.

Definition rpc_purge_all_pdus (status : Z) s : option (rpc R) :=
  let l := r_outqueue s in
  s ← purge_queue status l (set_r_outqueue [] s);
  s ← purge_buckets status (length (r_waitpdu s)) 0 s;
  if bool_decide (r_outqueue s = []) then Some s else None.

Definition rpc_error_all_pdus s : option (rpc R) := rpc_purge_all_pdus RPC_STATUS_ERROR s.

Definition rpc_free_all_fragments s : rpc R := set_r_fragments [] s.

(** [rpc_destroy_context], up to the release of the context itself. *)
Definition rpc_destroy_context s : option (rpc R) :=
  s ← rpc_purge_all_pdus RPC_STATUS_CANCEL s;
  let s := rpc_free_all_fragments s in
  Some (set_r_inbuf [] (set_r_waitpdu [] s)).
End context.
