(* ===== verification/Send.v ===== *)
(** * Send: building, queueing and writing PDUs (lib/pdu.c, lib/socket.c)

    [rpc_allocate_pdu2], [pdu_set_timeout], [rpc_queue_pdu] and
    [rpc_write_to_socket].  The results of writev, sendto and malloc come from
    the environment: writev answers with a list of results, one per call, an
    exhausted list being EAGAIN; malloc succeeds and returns the address it is
    given.  [None] is an assertion that fails or undefined behaviour. *)

From S2P Require Import Prelude Zdr RpcMsg Cursor Queue RpcState.

Section send.
Context {R : Type} (zero_res : R).
Implicit Types (s : rpc R) (p : id).

(** ** Statistics *)

Definition inc_req_sent s : rpc R :=
  let t := r_stats s in
  set_r_stats (mkStats (u64 (num_req_sent t + 1)) (num_resp_rcvd t) (num_timedout t)
    (num_timedout_in_outqueue t) (num_major_timedout t) (num_retransmitted t) (num_reconnects t)) s.

Definition inc_retransmitted s : rpc R :=
  let t := r_stats s in
  set_r_stats (mkStats (num_req_sent t) (num_resp_rcvd t) (num_timedout t)
    (num_timedout_in_outqueue t) (num_major_timedout t) (u64 (num_retransmitted t + 1))
    (num_reconnects t)) s.

(** ** The queues *)

(** [rpc_return_to_outqueue]. *)
Definition rpc_return_to_outqueue s p : option (rpc R) :=
  let s := set_r_outqueue (l_return (r_outqueue s) p) s in
  let s := inc_retransmitted s in
  x ← get_pdu s p;
  c ← rpc_reset_cursor (p_in x);
  Some (put_pdu p (set_p_in c (set_p_out (mkVecs 0 (total_size (p_out x)) (iov_capacity (p_out x))
                                                  (vecs (p_out x))) x)) s).

(** ** Timeouts *)

(** [pdu_set_timeout] at time [now]; the product of the timeout and the number
    of retries is an [int]. *)
Definition pdu_set_timeout s (x : pdu R) (now : Z) : option (pdu R) :=
  if r_timeout s <=? 0 then Some (set_p_timeout 0 x) else
  let x := if p_timeout x =? 0 then set_p_timeout (u64 (now + r_timeout s)) x else x in
  if p_major x =? 0 then
    if fits_int (r_timeout s * r_retrans s) then
      let x := set_p_major (u64 (now + r_timeout s * r_retrans s)) x in
      let x := set_p_timeout (u64 (now + r_timeout s)) x in
      Some (if p_major x <? p_timeout x then set_p_major (p_timeout x) x else x)
    else None
  else Some x.

(** ** Allocation *)

(** The call message [rpc_allocate_pdu2] encodes. *)
Definition call_msg s (x program version procedure : Z) : rpc_msg R :=
  mkMsg x CALL (CBody (mkCall RPC_MSG_VERSION program version procedure
    (if procedure =? 0 then mkAuth AUTH_NONE NULL 0 else ah_cred (r_auth s)) (ah_verf (r_auth s)))).

(** [libnfs_zdr] of the zero-filled reply view, which a call never uses. *)
Definition zero_reply : reply_body R :=
  mkReply 0 (mkAccepted _null_auth 0 zero_res NULL (mkMismatch 0 0)) (mkRejected 0 (mkMismatch 0 0) 0).

(** [rpc_allocate_pdu2]: malloc returns a block whose [outdata.data] is at
    [addr]; no PDU when the header does not fit. *)
Definition rpc_allocate_pdu2 s (addr program version procedure : Z) (cb : bool) (decode : proc R)
    (bufsize alloc_hint : Z) (iovcnt_hint : nat) : option (rpc R * option id) :=
  let x := r_xid s in
  let s := set_r_xid (u32 (r_xid s + 1)) s in
  let cap := if bool_decide (RPC_FAST_VECTORS < iovcnt_hint)%nat then iovcnt_hint else RPC_FAST_VECTORS in
  v ← rpc_add_iovector (mkVecs 0 0 cap []) addr 4;
  let zsize := ZDR_ENCODEBUF_MINSIZE + alloc_hint - 4 in
  match zdr_callmsg decode zero_reply (zdrmem_create (zeros zsize) zsize ZDR_ENCODE (fun _ => true))
          (call_msg s x program version procedure) with
  | UB => None
  | Fls _ _ => Some (s, None)
  | Ret _ z =>
      v ← rpc_add_iovector v (addr + 4) (zdr_getpos z);
      let p := r_next_id s in
      let pdu := mkPdu x cb z false false addr (zeros 4) v null_cursor 0 0 decode bufsize None false
                   (bool_decide (program <> NFS_PROGRAM) || (procedure =? 0)) 0 0 false in
      Some (put_pdu p pdu (set_r_next_id (p + 1)%N s), Some p)
  end.

Definition rpc_allocate_pdu s (addr program version procedure : Z) (cb : bool) (decode : proc R)
    (bufsize : Z) : option (rpc R * option id) :=
  rpc_allocate_pdu2 s addr program version procedure cb decode bufsize 0 0.

(** ** Writing to the socket *)

Inductive wres := WCount (n : Z) | WAgain | WErr.

(** [iov[niov - 1].iov_len += len]. *)
Definition grow_last (acc : list iovec) (len : Z) : option (list iovec) :=
  v ← last acc; Some (take (length acc - 1) acc ++ [mkIov (iov_base v) (u64 (iov_len v + len))]).

(** The vectors of one PDU, less the [num_done] bytes already sent, added to
    the [acc] of the call; a vector that continues the last one is merged. *)
Fixpoint fill_pdu (iovcnt : nat) (l : list iovec) (num_done : Z) (acc : list iovec)
    (last_buf : option Z) : option (list iovec * option Z) :=
  match l with
  | [] => Some (acc, last_buf)
  | v :: l =>
      if num_done >=? iov_len v
      then fill_pdu iovcnt l (u64 (num_done - iov_len v)) acc last_buf
      else
        let buf := iov_base v + num_done in
        let len := u64 (iov_len v - num_done) in
        if bool_decide (last_buf = Some buf) then
          acc ← grow_last acc len; fill_pdu iovcnt l 0 acc (Some (buf + len))
        else
          let acc := acc ++ [mkIov buf len] in
          if bool_decide (iovcnt <= length acc)%nat then Some (acc, last_buf)
          else fill_pdu iovcnt l 0 acc (Some (buf + len))
  end.

Definition may_wait s (n : Z) : bool :=
  (r_max_waitpdu s =? 0) || (r_max_waitpdu s >? u32 (r_waitpdu_len s + n)).

(** The do-while loop: the PDUs of [l] until there is no room for more. *)
Fixpoint fill_pdus (iovcnt : nat) s (l : list id) (num_pdus : Z) (acc : list iovec)
    (last_buf : option Z) : option (list iovec) :=
  match l with
  | [] => Some acc
  | p :: l =>
      x ← get_pdu s p;
      if num_done (p_out x) <? total_size (p_out x) then
        '(acc, last_buf) ← fill_pdu iovcnt (vecs (p_out x)) (num_done (p_out x)) acc last_buf;
        if may_wait s (num_pdus + 1) && bool_decide (length acc < iovcnt)%nat
        then fill_pdus iovcnt s l (num_pdus + 1) acc last_buf else Some acc
      else None
  end.

Definition set_num_done (n : Z) (v : io_vectors) : io_vectors :=
  mkVecs n (total_size v) (iov_capacity v) (vecs v).

(** Which PDUs the [count] bytes written complete; [true] when the loop is
    left by the goto after a PDU that is discarded. *)
Fixpoint complete (l : list id) (count : Z) s : option (rpc R * bool) :=
  if count <=? 0 then Some (s, false) else
  match l with
  | [] => Some (s, false)
  | p :: l =>
      x ← get_pdu s p;
      let remaining := u64 (total_size (p_out x) - num_done (p_out x)) in
      if remaining <=? count then
        let s := put_pdu p (set_p_out (set_num_done (total_size (p_out x)) (p_out x)) x) s in
        let s := inc_req_sent (set_r_outqueue l s) in
        if p_discard x then s ← rpc_free_pdu s p; Some (s, true)
        else
          s ← upd_bucket (bucket s (p_xid x)) (fun w => l_enqueue w p) s;
          complete l (count - remaining) (set_r_waitpdu_len (u32 (r_waitpdu_len s + 1)) s)
      else
        Some (put_pdu p (set_p_out (set_num_done (u64 (num_done (p_out x) + count)) (p_out x)) x) s,
              false)
  end.

(** The vectors used: the eight on the stack, or 1024 once a PDU needs them. *)
Definition iov_slots (iovcnt : nat) (v : io_vectors) : nat :=
  if bool_decide (iovcnt < niov v)%nat && negb (bool_decide (iovcnt = RPC_MAX_VECTORS))
  then RPC_MAX_VECTORS else iovcnt.

Fixpoint write_loop (ws : list wres) (iovcnt : nat) s : option (rpc R * Z) :=
  if negb (may_wait s 0) then Some (s, 0) else
  match r_outqueue s with
  | [] => Some (s, 0)
  | p :: _ =>
      x ← get_pdu s p;
      if bool_decide (niov (p_out x) <= iov_capacity (p_out x))%nat &&
         bool_decide (iov_capacity (p_out x) <= RPC_MAX_VECTORS)%nat then
        let iovcnt := iov_slots iovcnt (p_out x) in
        iov ← fill_pdus iovcnt s (r_outqueue s) 0 [] None;
        if bool_decide (iov = []) then None else
        match ws with
        | [] | WAgain :: _ => Some (s, 0)
        | WErr :: _ => Some (s, -1)
        | WCount n :: ws =>
            let count := Z.max 0 (Z.min n (blen (addrs_of iov))) in
            let s := set_r_wire (r_wire s ++ take (Z.to_nat count) (addrs_of iov)) s in
            '(s, finished) ← complete (r_outqueue s) count s;
            if finished : bool then Some (s, 0) else write_loop ws iovcnt s
        end
      else None
  end.

Definition rpc_write_to_socket (ws : list wres) s : option (rpc R * Z) :=
  if r_disabled s then Some (s, 0) else
  if r_fd s =? -1 then Some (s, -1) else write_loop ws RPC_FAST_VECTORS s.

(** ** Queueing *)

(** The sizes of the vectors after the record marker, an [int]. *)
Definition vectors_size (l : list iovec) : Z := foldl (fun n v => i32 (n + iov_len v)) 0 (drop 1 l).

(** The PDU finished: the rest of what was marshalled becomes the last vector
    and the record marker is stored.  [None]: there are too many vectors. *)
Definition finish_pdu (x : pdu R) : option (pdu R * Z) :=
  let v := p_out x in
  let pos := i32 (zdr_getpos (p_zdr x)) in
  let size := vectors_size (vecs v) in
  let v := mkVecs (num_done v) (size + 4) (iov_capacity v) (vecs v) in
  '(v, size) ← (if pos >? size then
                  v' ← rpc_add_iovector v (p_data x + (size + 4)) (pos - size);
                  Some (mkVecs (num_done v') (size + 4 + (pos - size)) (iov_capacity v') (vecs v'), pos)
                else Some (v, size));
  Some (set_p_out v (set_p_marker (be32 (Z.lor (u32 size) 0x80000000)) x), size).

(** [rpc_queue_pdu] at time [now]; [send_ok] is the answer of sendto (or of
    the writev of a connected UDP socket). *)
Definition rpc_queue_pdu (now : Z) (send_ok : bool) (ws : list wres) s p : option (rpc R * Z) :=
  x ← get_pdu s p;
  x ← pdu_set_timeout s x now;
  match finish_pdu x with
  | None => s ← rpc_free_pdu (put_pdu p x s) p; Some (s, -1)
  | Some (x, size) =>
      let s := put_pdu p x s in
      if r_udp s && r_server s then
        s ← rpc_free_pdu s p; Some (s, if send_ok then 0 else -1)
      else if r_udp s then
        let hash := bucket s (p_xid x) in
        s ← upd_bucket hash (fun w => l_enqueue w p) s;
        let s := set_r_waitpdu_len (u32 (r_waitpdu_len s + 1)) s in
        if negb (r_broadcast s) && bool_decide (RPC_FAST_VECTORS < niov (p_out x))%nat then None else
        if send_ok then Some (s, 0)
        else
          s ← upd_bucket hash (l_remove p) s;
          s ← rpc_free_pdu s p; Some (s, -1)
      else if num_done (p_out x) =? 0 then
        let s := set_r_outqueue (l_enqueue (r_outqueue s) p) s in
        if bool_decide (hd_error (r_outqueue s) = Some p)
        then '(s, _) ← rpc_write_to_socket ws s; Some (s, 0)
        else Some (s, 0)
      else None
  end.

(** [rpc_which_events]: what to poll the socket for. *)
Definition rpc_which_events s : Z :=
  if r_udp s then POLLIN else
  let events := if r_connected s then POLLIN else POLLOUT in
  if bool_decide (r_outqueue s = []) then events else Z.lor events POLLOUT.

End send.
