(* ===== verification/SendProps.v ===== *)
(** * SendProps: what is written to the socket

    The outgoing stream is the records of the PDUs of [outqueue] one after the
    other.  [rpc_write_to_socket] writes exactly the next bytes of it, however
    many bytes each writev takes, and moves the PDUs it has sent to their
    buckets; the exception is a server whose replies are discarded. *)

From S2P Require Import Prelude Zdr RpcMsg Cursor Queue RpcState Context Send.

(** ** The vectors of one writev *)

Definition nonneg (v : iovec) : Prop := 0 <= iov_len v.

Lemma seg_len v : nonneg v -> blen (seg v) = iov_len v.
Proof. unfold nonneg, seg, blen. rewrite length_seqZ. lia. Qed.

(** [last_buf] points right after the last vector. *)
Definition last_ok (acc : list iovec) (last_buf : option Z) : Prop :=
  match last_buf with
  | None => True
  | Some b => exists acc0 v, acc = acc0 ++ [v] /\ b = iov_base v + iov_len v /\ nonneg v
  end.

Lemma addrs_of_app l1 l2 : addrs_of (l1 ++ l2) = addrs_of l1 ++ addrs_of l2.
Proof. unfold addrs_of. by rewrite map_app, concat_app. Qed.

Lemma addrs_of_one v : addrs_of [v] = seg v.
Proof. unfold addrs_of. cbn. apply app_nil_r. Qed.

(** What is left of a list of vectors after [nd] bytes. *)
Definition left_after (nd : Z) (l : list iovec) : list Z := drop (Z.to_nat nd) (addrs_of l).

Lemma left_after_skip v l nd :
  nonneg v -> iov_len v <= nd -> left_after nd (v :: l) = left_after (nd - iov_len v) l.
Proof.
  intros Hv Hn. unfold left_after, nonneg in *. rewrite addrs_of_cons.
  rewrite drop_app_ge by (unfold seg; rewrite length_seqZ; lia).
  f_equal. unfold seg. rewrite length_seqZ. lia.
Qed.

Lemma left_after_split v l nd :
  0 <= nd < iov_len v ->
  left_after nd (v :: l) = seqZ (iov_base v + nd) (iov_len v - nd) ++ left_after 0 l.
Proof. intros Hn. unfold left_after. by rewrite drop_addrs by lia. Qed.

(** Merging a run of addresses with the vector before it. *)
Lemma grow_last_spec acc0 v n :
  nonneg v -> 0 <= n -> is_u64 (iov_len v + n) ->
  exists acc', grow_last (acc0 ++ [v]) n = Some acc' /\
    addrs_of acc' = addrs_of (acc0 ++ [v]) ++ seqZ (iov_base v + iov_len v) n /\
    length acc' = length (acc0 ++ [v]) /\ last_ok acc' (Some (iov_base v + iov_len v + n)).
Proof.
  intros Hv Hn H64. unfold nonneg in Hv. unfold grow_last. rewrite last_snoc. cbn.
  rewrite length_app. cbn. replace (length acc0 + 1 - 1)%nat with (length acc0) by lia.
  rewrite take_app_length, u64_id by done. eexists. split; [done|].
  rewrite !addrs_of_app, !addrs_of_one, <- app_assoc. split; [|split].
  - f_equal. unfold seg; cbn. rewrite <- seqZ_app by lia. done.
  - by rewrite length_app.
  - eexists _, _. split; [done|]. cbn. unfold nonneg; cbn. lia.
Qed.

(** The vectors added are a prefix of what is left of the PDU, all of it when
    there is still room. *)
Lemma fill_pdu_spec iovcnt l : forall nd acc last_buf,
  Forall nonneg l -> 0 <= nd -> is_u64 nd -> is_u64 (blen (addrs_of acc) + blen (left_after nd l)) ->
  Forall (fun v => is_u64 (iov_len v)) l ->
  last_ok acc last_buf -> (length acc < iovcnt)%nat ->
  exists acc' last', fill_pdu iovcnt l nd acc last_buf = Some (acc', last') /\
    ((length acc' < iovcnt)%nat -> last_ok acc' last') /\
    exists w r, addrs_of acc' = addrs_of acc ++ w /\ left_after nd l = w ++ r /\
      ((length acc' < iovcnt)%nat -> r = []) /\ (left_after nd l <> [] -> acc' <> []).
Proof.
  induction l as [|v l IH]; intros nd acc last_buf Hl Hnd H64n H64 Hl64 Hlast Hroom; cbn [fill_pdu].
  { exists acc, last_buf. split; [done|]. split; [done|]. exists [], [].
    unfold left_after. change (addrs_of []) with (@nil Z). rewrite drop_nil, app_nil_r. done. }
  apply Forall_cons in Hl as [Hv Hl]. apply Forall_cons in Hl64 as [Hv64 Hl64].
  destruct (nd >=? iov_len v) eqn:E.
  { rewrite left_after_skip in * by (done || lia).
    rewrite u64_id by (unfold is_u64, nonneg in *; lia).
    apply IH; try done; unfold nonneg in Hv; [lia|unfold is_u64 in *; lia]. }
  rewrite left_after_split in * by lia. unfold nonneg in Hv.
  assert (Hb : blen (seqZ (iov_base v + nd) (iov_len v - nd)) = iov_len v - nd)
    by (unfold blen; rewrite length_seqZ; lia).
  rewrite blen_app, Hb in H64. pose proof (blen_nonneg (left_after 0 l)). pose proof (blen_nonneg (addrs_of acc)).
  rewrite u64_id by (unfold is_u64 in *; lia).
  destruct (bool_decide (last_buf = Some (iov_base v + nd))) eqn:Eb.
  - apply bool_decide_eq_true in Eb as ->. destruct Hlast as (acc0 & v0 & -> & Ee & Hv0).
    rewrite addrs_of_app, addrs_of_one, blen_app, seg_len in * by done.
    pose proof (blen_nonneg (addrs_of acc0)). unfold nonneg in Hv0.
    destruct (grow_last_spec acc0 v0 (iov_len v - nd)) as (acc' & -> & Ha & Hlen & Hlast');
      [done|lia|unfold is_u64 in *; lia|]. cbn.
    rewrite <- Ee in Hlast'.
    destruct (IH 0 acc' (Some (iov_base v + nd + (iov_len v - nd)))) as (acc2 & last2 & E2 & L2 & w & r & W1 & W2 & W3 & W4);
      try done; try lia.
    { rewrite Ha, addrs_of_app, addrs_of_one, !blen_app, seg_len, <- Ee, Hb by done.
      unfold is_u64 in *; lia. }
    exists acc2, last2. split; [done|]. split; [done|].
    exists (seqZ (iov_base v + nd) (iov_len v - nd) ++ w), r.
    rewrite W1, Ha, addrs_of_app, addrs_of_one, W2, Ee, <- !app_assoc. split; [done|]. split; [done|].
    split; [done|]. intros _ ->. rewrite Ha, addrs_of_app, addrs_of_one in W1.
    assert (Hz : blen (addrs_of []) = 0) by done. rewrite W1, !blen_app, <- Ee, Hb in Hz.
    pose proof (blen_nonneg (addrs_of acc0)). pose proof (blen_nonneg (seg v0)). pose proof (blen_nonneg w). lia.
  - cbv zeta. set (v1 := mkIov (iov_base v + nd) (iov_len v - nd)).
    assert (Hne : acc ++ [v1] <> []) by by destruct acc.
    destruct (bool_decide (iovcnt <= length (acc ++ [v1]))%nat) eqn:Ec.
    + apply bool_decide_eq_true in Ec. exists (acc ++ [v1]), last_buf. split; [done|].
      split; [lia|]. exists (seg v1), (left_after 0 l). rewrite addrs_of_app, addrs_of_one.
      repeat split; [lia|done].
    + apply bool_decide_eq_false in Ec.
      destruct (IH 0 (acc ++ [v1]) (Some (iov_base v + nd + (iov_len v - nd)))) as (acc2 & last2 & E2 & L2 & w & r & W1 & W2 & W3 & W4);
        try done; try lia.
      { rewrite addrs_of_app, addrs_of_one, blen_app. unfold seg; cbn. rewrite Hb.
        unfold is_u64 in *; lia. }
      { exists acc, v1. repeat split. unfold nonneg; cbn. lia. }
      exists acc2, last2. split; [done|]. split; [done|]. exists (seg v1 ++ w), r.
      rewrite W1, addrs_of_app, addrs_of_one, W2, <- !app_assoc. repeat split; [done|].
      intros _ ->. rewrite addrs_of_app, addrs_of_one in W1.
      assert (Hz : blen (addrs_of []) = 0) by done. rewrite W1, !blen_app in Hz.
      unfold seg, v1 in Hz; cbn in Hz. rewrite Hb in Hz. pose proof (blen_nonneg w). lia.
Qed.

Section stream.
Context {R : Type}.
Implicit Types (s : rpc R) (p : id) (x : pdu R).

(** ** Well-formed contexts *)

(** A PDU whose record is complete: the sizes agree, and the cursor of a READ
    can be reset. *)
Record pdu_ok x : Prop := {
  po_total : total_size (p_out x) = blen (addrs_of (vecs (p_out x)));
  po_fit : is_u64 (total_size (p_out x));
  po_size : 0 < total_size (p_out x);
  po_done : 0 <= num_done (p_out x) <= total_size (p_out x);
  po_pos : Forall nonneg (vecs (p_out x));
  po_u64 : Forall (fun v => is_u64 (iov_len v)) (vecs (p_out x));
  po_cap : (niov (p_out x) <= iov_capacity (p_out x) <= RPC_MAX_VECTORS)%nat;
  po_in : base (p_in x) = None \/ cursor_wf (p_in x);
}.

(** The PDUs the context holds: to be sent, waiting for an answer, and the one
    whose answer is being read. *)
Definition all_ids s : list id :=
  r_outqueue s ++ concat (r_waitpdu s) ++ option_list (r_pdu s).

Definition total_of s p : Z := from_option (fun x => total_size (p_out x)) 0 (get_pdu s p).
Definition done_of s p : Z := from_option (fun x => num_done (p_out x)) 0 (get_pdu s p).
Definition volume s (l : list id) : Z := foldr (fun p n => total_of s p + n) 0 l.

Record wf s : Prop := {
  wf_nodup : NoDup (all_ids s);
  wf_ok : forall p, p ∈ all_ids s -> exists x, get_pdu s p = Some x /\ pdu_ok x;
  wf_out : forall p, p ∈ r_outqueue s -> done_of s p < total_of s p;
  wf_first : forall p, p ∈ tl (r_outqueue s) -> done_of s p = 0;
  wf_hashed : forall i l p, r_waitpdu s !! i = Some l -> p ∈ l -> bucket s (xid_of s p) = i;
  wf_len : r_waitpdu_len s = blen (concat (r_waitpdu s));
  wf_buckets : (0 < length (r_waitpdu s))%nat;
  wf_count : is_u32 (blen (all_ids s));
  wf_fit : is_u64 (volume s (all_ids s));
}.

(** ** The outgoing stream *)

(** What is still to be written of a PDU. *)
Definition unsent s p : list Z :=
  match get_pdu s p with
  | Some x => left_after (num_done (p_out x)) (vecs (p_out x))
  | None => []
  end.

(** What is still to be written of a queue. *)
Definition pending s (l : list id) : list Z := concat (map (unsent s) l).

(** A PDU that is queued and not sent completely. *)
Definition sendable x : Prop := pdu_ok x /\ num_done (p_out x) < total_size (p_out x).

Lemma unsent_nonempty s p x : get_pdu s p = Some x -> sendable x -> unsent s p <> [].
Proof.
  intros Hx [[Ht _ _ Hd _ _ _ _] Hlt] E. unfold unsent in E. rewrite Hx in E. unfold left_after in E.
  apply (f_equal length) in E. rewrite length_drop in E. cbn in E. unfold blen in Ht. lia.
Qed.

Lemma fill_pdus_spec iovcnt s l : forall n acc last_buf,
  (forall p, p ∈ l -> exists x, get_pdu s p = Some x /\ sendable x) ->
  is_u64 (blen (addrs_of acc) + blen (pending s l)) -> last_ok acc last_buf ->
  (length acc < iovcnt)%nat ->
  exists acc' w r, fill_pdus iovcnt s l n acc last_buf = Some acc' /\
    addrs_of acc' = addrs_of acc ++ w /\ pending s l = w ++ r /\ (l <> [] -> acc' <> []).
Proof.
  induction l as [|p l IH]; intros n acc last_buf Hl H64 Hlast Hroom; cbn [fill_pdus].
  { exists acc, [], []. by rewrite app_nil_r. }
  destruct (Hl p) as (x & Hx & Hs); [set_solver|]. rewrite Hx. cbn [mbind option_bind].
  destruct Hs as [Hk Hlt]. pose proof (po_done _ Hk). replace (_ <? _) with true by lia.
  assert (Hu : unsent s p = left_after (num_done (p_out x)) (vecs (p_out x)))
    by (unfold unsent; by rewrite Hx).
  unfold pending in *; cbn [map concat] in *. fold (pending s l) in *.
  rewrite blen_app in H64. pose proof (blen_nonneg (pending s l)). pose proof (blen_nonneg (addrs_of acc)).
  pose proof (blen_nonneg (unsent s p)).
  pose proof (po_fit _ Hk).
  destruct (fill_pdu_spec iovcnt (vecs (p_out x)) (num_done (p_out x)) acc last_buf)
    as (acc1 & last1 & -> & L1 & w & r & W1 & W2 & W3 & W4); try done; try apply Hk; try lia.
  { unfold is_u64 in *; lia. } { rewrite <- Hu. unfold is_u64 in *; lia. }
  cbn [mbind option_bind]. rewrite <- Hu in W2, W4.
  assert (Hne : acc1 <> []) by by apply W4, unsent_nonempty with x.
  destruct (may_wait s (n + 1) && bool_decide (length acc1 < iovcnt)%nat) eqn:E.
  - apply andb_prop in E as [_ Er%bool_decide_eq_true]. rewrite W3, app_nil_r in W2 by done.
    destruct (IH (n + 1) acc1 last1) as (acc2 & w2 & r2 & -> & A1 & A2 & A3); try done; try by apply L1.
    { intros q Hq. apply Hl. set_solver. }
    { rewrite W1, blen_app, <- W2. unfold is_u64 in *; lia. }
    exists acc2, (w ++ w2), r2. rewrite A1, W1, W2, A2, <- !app_assoc. repeat split.
    intros _ ->. rewrite W1 in A1. assert (Hz : blen (addrs_of []) = 0) by done.
    rewrite A1, !blen_app in Hz. rewrite W2 in *. pose proof (blen_nonneg w2).
    apply (unsent_nonempty s p x Hx (conj Hk Hlt)). rewrite W2.
    destruct w; [done|]. rewrite blen_cons in Hz. pose proof (blen_nonneg w). lia.
  - exists acc1, w, (r ++ pending s l). rewrite W1, W2, <- !app_assoc. done.
Qed.

(** *** Bookkeeping *)

Lemma get_put s p q x : get_pdu (put_pdu p x s) q = if bool_decide (p = q) then Some x else get_pdu s q.
Proof.
  unfold get_pdu, put_pdu. cbn. case_bool_decide as E.
  - subst. apply lookup_insert_eq.
  - by apply lookup_insert_ne.
Qed.

Lemma volume_cons s p l : volume s (p :: l) = total_of s p + volume s l.
Proof. done. Qed.

Lemma pending_cons s p l : pending s (p :: l) = unsent s p ++ pending s l.
Proof. done. Qed.

Lemma volume_app s l1 l2 : volume s (l1 ++ l2) = volume s l1 + volume s l2.
Proof. unfold volume. induction l1; cbn [app foldr]; [done|lia]. Qed.

Lemma volume_perm s l1 l2 : l1 ≡ₚ l2 -> volume s l1 = volume s l2.
Proof. unfold volume. induction 1; cbn [foldr]; lia. Qed.

Lemma volume_eq s s' l :
  (forall p, p ∈ l -> total_of s' p = total_of s p) -> volume s' l = volume s l.
Proof.
  induction l as [|p l IH]; intros Hl; [done|].
  rewrite !volume_cons, Hl, IH by set_solver. done.
Qed.

Lemma volume_nonneg s l :
  (forall p, p ∈ l -> exists x, get_pdu s p = Some x /\ pdu_ok x) -> 0 <= volume s l.
Proof.
  induction l as [|p l IH]; intros Hl; [done|]. rewrite volume_cons.
  destruct (Hl p) as (x & Hx & Hk); [set_solver|]. unfold total_of at 1. rewrite Hx. cbn.
  pose proof (po_size _ Hk). assert (0 <= volume s l) by (apply IH; set_solver). lia.
Qed.

Lemma unsent_blen s p x : get_pdu s p = Some x -> pdu_ok x ->
  blen (unsent s p) = total_of s p - done_of s p.
Proof.
  intros Hx Hk. unfold unsent, total_of, done_of, left_after. rewrite Hx. cbn.
  pose proof (po_total _ Hk). pose proof (po_done _ Hk). unfold blen in *. rewrite length_drop. lia.
Qed.

Lemma pending_ext s s' l : (forall p, p ∈ l -> unsent s' p = unsent s p) -> pending s' l = pending s l.
Proof.
  unfold pending. intros Hl. f_equal. apply map_ext_in. intros p Hp. apply Hl. by apply list_elem_of_In.
Qed.

Lemma pending_blen s l :
  (forall p, p ∈ l -> exists x, get_pdu s p = Some x /\ pdu_ok x) ->
  0 <= blen (pending s l) <= volume s l.
Proof.
  induction l as [|p l IH]; intros Hl; [done|]. rewrite volume_cons, pending_cons, blen_app.
  destruct (Hl p) as (x & Hx & Hk); [set_solver|].
  rewrite (unsent_blen s p x Hx Hk). pose proof (po_done _ Hk).
  assert (0 <= blen (pending s l) <= volume s l) by (apply IH; set_solver).
  unfold done_of, total_of. rewrite Hx. cbn. lia.
Qed.

(** A step that gives up the PDUs [gone] and moves the others around keeps the
    context well-formed. *)
Lemma wf_change gone s s' :
  wf s -> all_ids s ≡ₚ gone ++ all_ids s' ->
  (forall p, p ∈ all_ids s' -> exists x, get_pdu s' p = Some x /\ pdu_ok x /\
     total_of s' p = total_of s p /\ xid_of s' p = xid_of s p) ->
  (forall p, p ∈ r_outqueue s' -> done_of s' p < total_of s' p) ->
  (forall p, p ∈ tl (r_outqueue s') -> done_of s' p = 0) ->
  length (r_waitpdu s') = length (r_waitpdu s) ->
  (forall i l p, r_waitpdu s' !! i = Some l -> p ∈ l -> bucket s (xid_of s p) = i) ->
  r_waitpdu_len s' = blen (concat (r_waitpdu s')) ->
  wf s'.
Proof.
  intros W Hp Hk Ho Hf Hn Hh Hlen. split; try done.
  - pose proof (wf_nodup _ W) as Hnd. rewrite Hp in Hnd. by apply NoDup_app in Hnd as (_ & _ & ?).
  - intros p Hin. destruct (Hk p Hin) as (x & ? & ? & _). eauto.
  - intros i l p Hi Hpl. assert (Hin : p ∈ all_ids s').
    { unfold all_ids. rewrite !elem_of_app. right. left.
      apply list_elem_of_In, in_concat. exists l. rewrite <- !list_elem_of_In. split; [|done].
      by eapply list_elem_of_lookup_2. }
    destruct (Hk p Hin) as (x & _ & _ & _ & Hx). rewrite Hx. unfold bucket, num_hashes in *.
    rewrite Hn. by eapply Hh.
  - rewrite Hn. apply W.
  - pose proof (wf_count _ W) as Hc. unfold blen, is_u32 in *. rewrite Hp, length_app in Hc. lia.
  - pose proof (wf_fit _ W) as Hfit. rewrite (volume_perm _ _ _ Hp), volume_app in Hfit.
    assert (volume s' (all_ids s') = volume s (all_ids s')) as Hv.
    { apply volume_eq. intros p Hin. by destruct (Hk p Hin) as (_ & _ & _ & ? & _). }
    assert (0 <= volume s gone).
    { apply volume_nonneg. intros p Hin. apply (wf_ok _ W). rewrite Hp. set_solver. }
    assert (0 <= volume s' (all_ids s')).
    { apply volume_nonneg. intros p Hin. destruct (Hk p Hin) as (x & ? & ? & _). eauto. }
    unfold is_u64 in *. lia.
Qed.

(** A step that only moves PDUs around. *)
Lemma wf_move s s' :
  wf s -> all_ids s' ≡ₚ all_ids s ->
  (forall p, p ∈ all_ids s -> exists x, get_pdu s' p = Some x /\ pdu_ok x /\
     total_of s' p = total_of s p /\ xid_of s' p = xid_of s p) ->
  (forall p, p ∈ r_outqueue s' -> done_of s' p < total_of s' p) ->
  (forall p, p ∈ tl (r_outqueue s') -> done_of s' p = 0) ->
  length (r_waitpdu s') = length (r_waitpdu s) ->
  (forall i l p, r_waitpdu s' !! i = Some l -> p ∈ l -> bucket s (xid_of s p) = i) ->
  r_waitpdu_len s' = blen (concat (r_waitpdu s')) ->
  wf s'.
Proof.
  intros W Hp Hk. apply (wf_change []); [done|by rewrite Hp|].
  intros p Hin. apply Hk. by rewrite <- Hp.
Qed.

Lemma bucket_lt s (k : Z) : (0 < length (r_waitpdu s))%nat -> (bucket s k < length (r_waitpdu s))%nat.
Proof.
  intros H. unfold bucket, num_hashes, rpc_hash_xid.
  pose proof (Z.mod_pos_bound (u32 (k * 7919)) (Z.of_nat (length (r_waitpdu s)))). lia.
Qed.

Lemma concat_insert_end (ls : list (list id)) (i : nat) l p :
  ls !! i = Some l -> concat (<[i := l ++ [p]]> ls) ≡ₚ p :: concat ls.
Proof.
  intros Hi. rewrite (concat_update _ _ _ _ Hi), (concat_split _ _ _ Hi), <- app_assoc. cbn.
  rewrite !app_assoc. by rewrite <- Permutation_middle.
Qed.

(** *** One PDU sent *)

(** The state after the head has been sent: in its bucket. *)
Definition moved s p (x : pdu R) (l w : list id) : rpc R :=
  set_r_waitpdu_len (u32 (r_waitpdu_len s + 1))
    (set_r_waitpdu (<[bucket s (p_xid x) := l_enqueue w p]> (r_waitpdu s))
      (inc_req_sent (set_r_outqueue l
        (put_pdu p (set_p_out (set_num_done (total_size (p_out x)) (p_out x)) x) s)))).

Lemma moved_get s p x l w q : get_pdu (moved s p x l w) q =
  if bool_decide (p = q) then Some (set_p_out (set_num_done (total_size (p_out x)) (p_out x)) x)
  else get_pdu s q.
Proof. apply get_put. Qed.

Lemma pdu_ok_done n x : pdu_ok x -> 0 <= n <= total_size (p_out x) ->
  pdu_ok (set_p_out (set_num_done n (p_out x)) x).
Proof. intros [] Hn. split; done. Qed.

(** Facts about the head of a queue. *)
Lemma head_facts s p l :
  wf s -> r_outqueue s = p :: l ->
  exists x, get_pdu s p = Some x /\ sendable x /\ p ∉ l /\ p ∉ concat (r_waitpdu s) /\
    blen (concat (r_waitpdu s)) < 2 ^ 32 - 1 /\ NoDup l.
Proof.
  intros W E. pose proof (wf_nodup _ W) as Hn. pose proof (wf_count _ W) as Hc.
  unfold all_ids in *. rewrite E in *. cbn [app] in *.
  apply NoDup_cons in Hn as [Hp Hn]. rewrite !elem_of_app in Hp.
  destruct (wf_ok _ W p) as (x & Hx & Hk); [unfold all_ids; rewrite E; set_solver|].
  exists x. split; [done|]. split; [split; [done|]|].
  - pose proof (wf_out _ W p) as Ho. rewrite E in Ho. specialize (Ho ltac:(set_solver)).
    unfold done_of, total_of in Ho. by rewrite Hx in Ho.
  - split; [tauto|]. split; [tauto|]. split; [|by apply NoDup_app in Hn as [? _]].
    rewrite blen_cons, !blen_app in Hc. unfold is_u32 in Hc. change (2 ^ 32) with 4294967296.
    pose proof (blen_nonneg l). pose proof (blen_nonneg (option_list (r_pdu s))). lia.
Qed.

Lemma wf_moved s p x l w :
  wf s -> r_outqueue s = p :: l -> get_pdu s p = Some x ->
  r_waitpdu s !! bucket s (p_xid x) = Some w ->
  wf (moved s p x l w) /\ concat (r_waitpdu (moved s p x l w)) ≡ₚ p :: concat (r_waitpdu s).
Proof.
  intros W E Hx Hw. destruct (head_facts s p l W E) as (x' & Hx' & [Hk Hlt] & Hpl & Hpc & Hlen & _).
  simplify_eq. pose proof (concat_insert_end _ _ _ p Hw) as Hc. split; [|done].
  assert (Hother : forall q, q <> p -> get_pdu (moved s p x l w) q = get_pdu s q).
  { intros q Hq. rewrite moved_get. by rewrite bool_decide_false by done. }
  assert (Hsame : get_pdu (moved s p x l w) p =
    Some (set_p_out (set_num_done (total_size (p_out x)) (p_out x)) x)).
  { rewrite moved_get. by rewrite bool_decide_true. }
  apply (wf_move s); try done.
  - unfold all_ids. cbn. rewrite E. unfold l_enqueue. rewrite Hc. cbn.
    by rewrite <- Permutation_middle.
  - intros q Hq. destruct (decide (q = p)) as [->|Hne].
    + eexists. split; [exact Hsame|]. pose proof (po_size _ Hk). split; [apply pdu_ok_done; [done|lia]|].
      unfold total_of, xid_of. by rewrite Hsame, Hx.
    + destruct (wf_ok _ W q Hq) as (y & Hy & Hyk). exists y. unfold total_of, xid_of.
      by rewrite Hother.
  - intros q Hq. change (q ∈ l) in Hq. unfold done_of, total_of. rewrite Hother by set_solver.
    apply (wf_out _ W). rewrite E. set_solver.
  - intros q Hq. change (q ∈ tl l) in Hq. unfold done_of. assert (q ∈ l) by (destruct l; [done|set_solver]).
    rewrite Hother by set_solver. apply (wf_first _ W). rewrite E. done.
  - cbn. apply length_insert.
  - intros i l' q Hi Hq.
    change (<[bucket s (p_xid x) := l_enqueue w p]> (r_waitpdu s) !! i = Some l') in Hi.
    pose proof (bucket_lt s (p_xid x) (wf_buckets _ W)).
    destruct (decide (i = bucket s (p_xid x))) as [->|Hne].
    + rewrite list_lookup_insert_eq in Hi by done. injection Hi as <-. unfold l_enqueue in Hq.
      apply elem_of_app in Hq as [Hq|Hq%list_elem_of_singleton].
      * by apply (wf_hashed _ W _ w).
      * subst q. unfold xid_of. by rewrite Hx.
    + rewrite list_lookup_insert_ne in Hi by done.
      by apply (wf_hashed _ W _ l').
  - cbn. unfold l_enqueue. rewrite (wf_len _ W).
    assert (blen (concat (<[bucket s (p_xid x):=w ++ [p]]> (r_waitpdu s))) = 1 + blen (concat (r_waitpdu s))) as ->
      by (unfold blen; rewrite Hc; cbn [length]; lia).
    rewrite u32_id; [lia|]. pose proof (blen_nonneg (concat (r_waitpdu s))). unfold is_u32. lia.
Qed.

(** The state after [n] bytes of the head have been sent. *)
Definition progressed s p (x : pdu R) (n : Z) : rpc R :=
  put_pdu p (set_p_out (set_num_done n (p_out x)) x) s.

Lemma wf_progressed s p x l n :
  wf s -> r_outqueue s = p :: l -> get_pdu s p = Some x -> 0 <= n < total_size (p_out x) ->
  wf (progressed s p x n).
Proof.
  intros W E Hx Hn. destruct (head_facts s p l W E) as (x' & Hx' & [Hk Hlt] & Hpl & Hpc & _ & _).
  simplify_eq.
  assert (Hg : forall q, get_pdu (progressed s p x n) q =
    if bool_decide (p = q) then Some (set_p_out (set_num_done n (p_out x)) x) else get_pdu s q)
    by (intros; apply get_put).
  apply (wf_move s); try done; try apply W.
  - intros q Hq. unfold total_of, xid_of. rewrite Hg. case_bool_decide as Eq.
    + subst q. rewrite Hx. eexists. split; [done|]. split; [apply pdu_ok_done; [done|lia]|done].
    + destruct (wf_ok _ W q Hq) as (y & Hy & Hyk). eauto.
  - intros q Hq. change (q ∈ r_outqueue s) in Hq. unfold done_of, total_of. rewrite Hg.
    case_bool_decide; [cbn; lia|]. by apply (wf_out _ W).
  - intros q Hq. change (q ∈ tl (r_outqueue s)) in Hq. unfold done_of. rewrite Hg.
    rewrite bool_decide_false by (rewrite E in Hq; cbn in Hq; set_solver). by apply (wf_first _ W).
Qed.

(** Of the PDUs only the number of bytes sent changes. *)
Definition with_done (n : Z) x : pdu R := set_p_out (set_num_done n (p_out x)) x.

Definition same_pdus s s' : Prop :=
  forall q x, get_pdu s q = Some x -> exists n, get_pdu s' q = Some (with_done n x).

Lemma same_pdus_refl s : same_pdus s s.
Proof.
  intros q x Hx. exists (num_done (p_out x)). rewrite Hx. f_equal.
  destruct x as [? ? ? ? ? ? ? [] ? ? ? ? ? ? ? ? ? ? ?]. reflexivity.
Qed.

Lemma same_pdus_trans s1 s2 s3 : same_pdus s1 s2 -> same_pdus s2 s3 -> same_pdus s1 s3.
Proof. intros A B q x Hx. destruct (A q x Hx) as [n Hn]. destruct (B _ _ Hn) as [m Hm]. by exists m. Qed.

Lemma same_pdus_put s p x n :
  get_pdu s p = Some x -> same_pdus s (put_pdu p (with_done n x) s).
Proof.
  intros Hx q y Hy. rewrite get_put. case_bool_decide; [|by apply same_pdus_refl].
  subst. simplify_eq. eauto.
Qed.

(** What the completion of written bytes leaves alone. *)
Record same_rest s s' : Prop := {
  sr_wire : r_wire s' = r_wire s;
  sr_trace : r_trace s' = r_trace s;
  sr_pdu : r_pdu s' = r_pdu s;
  sr_max : r_max_waitpdu s' = r_max_waitpdu s;
  sr_pdus : same_pdus s s';
}.

Lemma same_rest_refl s : same_rest s s.
Proof. split; try done. apply same_pdus_refl. Qed.

Lemma same_rest_trans s1 s2 s3 : same_rest s1 s2 -> same_rest s2 s3 -> same_rest s1 s3.
Proof.
  intros [] []. split; try congruence. by eapply same_pdus_trans.
Qed.

Definition no_discard s (l : list id) : Prop :=
  forall q x, q ∈ l -> get_pdu s q = Some x -> p_discard x = false.

Lemma complete_spec l : forall count s,
  wf s -> r_outqueue s = l -> no_discard s l -> 0 <= count <= blen (pending s l) ->
  exists s' sent, complete l count s = Some (s', false) /\ wf s' /\ l = sent ++ r_outqueue s' /\
    pending s' (r_outqueue s') = drop (Z.to_nat count) (pending s l) /\
    concat (r_waitpdu s') ≡ₚ sent ++ concat (r_waitpdu s) /\ same_rest s s' /\
    no_discard s' (r_outqueue s').
Proof.
  induction l as [|p l IH]; intros count s W E Hnd Hc.
  { exists s, []. rewrite E. cbn [complete].
    replace (count <=? 0) with true by (change (blen _) with 0 in Hc; lia).
    change (pending s []) with (@nil Z). rewrite drop_nil.
    repeat (split; [done|]). split; [apply same_rest_refl|done]. }
  cbn [complete]. destruct (count <=? 0) eqn:E0.
  { exists s, []. replace (Z.to_nat count) with 0%nat by lia. rewrite E, drop_0.
    repeat (split; [done|]). split; [apply same_rest_refl|done]. }
  destruct (head_facts s p l W E) as (x & Hx & [Hk Hlt] & Hpl & Hpc & Hlen & Hl).
  rewrite Hx. cbn [mbind option_bind]. pose proof (po_done _ Hk). pose proof (po_fit _ Hk).
  rewrite u64_id by (unfold is_u64 in *; lia). rewrite pending_cons, blen_app in *.
  pose proof (unsent_blen s p x Hx Hk) as Hu. unfold total_of, done_of in Hu. rewrite Hx in Hu. cbn in Hu.
  destruct (_ <=? count) eqn:Er.
  - rewrite (Hnd p x) by (done || set_solver).
    destruct (lookup_lt_is_Some_2 _ _ (bucket_lt s (p_xid x) (wf_buckets _ W))) as [w Hw].
    destruct (wf_moved s p x l w W E Hx Hw) as [W1 P1].
    unfold upd_bucket. cbn. fold (bucket s (p_xid x)).
    change (bucket (inc_req_sent _) _) with (bucket s (p_xid x)). rewrite Hw. cbn.
    assert (Hother : forall q, q ∈ l -> get_pdu (moved s p x l w) q = get_pdu s q).
    { intros q Hq. rewrite moved_get, bool_decide_false; [done|]. by intros ->. }
    assert (Hpe : pending (moved s p x l w) l = pending s l).
    { apply pending_ext. intros q Hq. unfold unsent. by rewrite Hother. }
    destruct (IH (count - (total_size (p_out x) - num_done (p_out x))) (moved s p x l w))
      as (s' & sent & E1 & W' & El & Ep & Pw & Sr & Nd); try done.
    { intros q y Hq. rewrite Hother by done. apply Hnd. set_solver. }
    { rewrite Hpe. lia. }
    exists s', (p :: sent). split; [exact E1|]. split; [done|]. split; [cbn; by rewrite <- El|].
    split; [|split; [|split; [|done]]].
    + rewrite Ep, Hpe, drop_app_ge by (unfold blen in Hu; lia). f_equal. unfold blen in Hu. lia.
    + rewrite Pw, P1. cbn. by rewrite Permutation_middle.
    + eapply same_rest_trans; [|exact Sr]. split; try done. by apply same_pdus_put.
  - assert (Hn : 0 <= num_done (p_out x) + count < total_size (p_out x)) by lia.
    rewrite u64_id by (unfold is_u64 in *; lia).
    pose proof (wf_progressed s p x l _ W E Hx Hn) as W1.
    exists (progressed s p x (num_done (p_out x) + count)), []. split; [done|]. split; [done|].
    change (r_outqueue (progressed _ _ _ _)) with (r_outqueue s). rewrite E. split; [done|].
    assert (Hother : forall q, q ∈ l -> get_pdu (progressed s p x (num_done (p_out x) + count)) q = get_pdu s q).
    { intros q Hq. unfold progressed. rewrite get_put, bool_decide_false; [done|]. by intros ->. }
    split; [|split; [done|split]].
    + rewrite pending_cons, drop_app_le by (unfold blen in Hu; lia). f_equal.
      * unfold unsent, progressed. rewrite get_put, bool_decide_true, Hx by done. cbn.
        unfold left_after. rewrite drop_drop. f_equal. lia.
      * apply pending_ext. intros q Hq. unfold unsent. by rewrite Hother.
    + split; try done. by apply same_pdus_put.
    + intros q y Hq. unfold progressed. rewrite get_put. case_bool_decide as Eq.
      * subst. intros [= <-]. cbn. by apply (Hnd q).
      * by apply Hnd.
Qed.

(** What a run of writes does: it sends a prefix [w] of the stream, and the
    PDUs [sent] now wait for their answers. *)
Definition stream_step s s' : Prop :=
  exists w sent, r_wire s' = r_wire s ++ w /\
    pending s (r_outqueue s) = w ++ pending s' (r_outqueue s') /\
    r_outqueue s = sent ++ r_outqueue s' /\
    concat (r_waitpdu s') ≡ₚ sent ++ concat (r_waitpdu s) /\
    r_trace s' = r_trace s /\ r_pdu s' = r_pdu s /\ same_pdus s s'.

Lemma stream_refl s : stream_step s s.
Proof. exists [], []. rewrite app_nil_r. repeat (split; [done|]). apply same_pdus_refl. Qed.

Lemma stream_trans s1 s2 s3 : stream_step s1 s2 -> stream_step s2 s3 -> stream_step s1 s3.
Proof.
  intros (w1 & t1 & A1 & B1 & C1 & D1 & E1 & F1 & G1) (w2 & t2 & A2 & B2 & C2 & D2 & E2 & F2 & G2).
  exists (w1 ++ w2), (t1 ++ t2). rewrite A2, A1, B1, B2, C1, C2, D2, D1, <- !app_assoc.
  split; [done|]. split; [done|]. split; [done|].
  split; [by rewrite !app_assoc, (Permutation_app_comm t2)|].
  split; [congruence|]. split; [congruence|]. by eapply same_pdus_trans.
Qed.

Lemma wf_set_wire s v : wf s -> wf (set_r_wire v s).
Proof. intros []. by split. Qed.

Lemma sendable_out s p : wf s -> p ∈ r_outqueue s -> exists x, get_pdu s p = Some x /\ sendable x.
Proof.
  intros W Hp. destruct (wf_ok _ W p) as (x & Hx & Hk); [unfold all_ids; set_solver|].
  exists x. split; [done|]. split; [done|]. pose proof (wf_out _ W p Hp) as Ho.
  unfold done_of, total_of in Ho. by rewrite Hx in Ho.
Qed.

Lemma out_volume s : wf s -> is_u64 (blen (pending s (r_outqueue s))).
Proof.
  intros W. pose proof (wf_fit _ W) as Hf. unfold all_ids in Hf. rewrite volume_app in Hf.
  assert (H1 : forall p, p ∈ r_outqueue s -> exists x, get_pdu s p = Some x /\ pdu_ok x).
  { intros p Hp. apply (wf_ok _ W). unfold all_ids. set_solver. }
  assert (0 <= volume s (concat (r_waitpdu s) ++ option_list (r_pdu s))).
  { apply volume_nonneg. intros p Hp. apply (wf_ok _ W). unfold all_ids. set_solver. }
  pose proof (pending_blen s (r_outqueue s) H1). unfold is_u64 in *. lia.
Qed.

Lemma write_loop_spec ws : forall iovcnt s,
  wf s -> no_discard s (r_outqueue s) -> (0 < iovcnt)%nat ->
  exists s' r, write_loop ws iovcnt s = Some (s', r) /\ wf s' /\ stream_step s s' /\
    no_discard s' (r_outqueue s') /\ (r = 0 \/ r = -1).
Proof.
  assert (Hstop : forall s r, wf s -> no_discard s (r_outqueue s) -> r = 0 \/ r = -1 ->
    exists s' r', Some (s, r) = Some (s', r') /\ wf s' /\ stream_step s s' /\
      no_discard s' (r_outqueue s') /\ (r' = 0 \/ r' = -1)).
  { intros s r ???. exists s, r. eauto using stream_refl. }
  induction ws as [|a ws IH]; intros iovcnt s W Nd Hi; cbn [write_loop];
    (destruct (negb (may_wait s 0)); [by apply Hstop; auto|]);
    (destruct (r_outqueue s) as [|p l] eqn:E; [apply Hstop; rewrite ?E; auto|]);
    rewrite <- E in *;
    (destruct (sendable_out s p W) as (x & Hx & Hk & _); [rewrite E; set_solver|]);
    rewrite Hx; cbn [mbind option_bind];
    (rewrite !bool_decide_true by apply Hk); cbn [andb];
    (assert (Hi' : (0 < iov_slots iovcnt (p_out x))%nat)
      by (unfold iov_slots, RPC_MAX_VECTORS in *; case_match; lia));
    destruct (fill_pdus_spec (iov_slots iovcnt (p_out x)) s (r_outqueue s) 0 [] None)
      as (iov & w & rr & Hf & A1 & A2 & A3);
      try done; try (intros; by apply sendable_out); try (by apply out_volume);
    rewrite Hf; cbn [mbind option_bind];
    (rewrite bool_decide_false by (apply A3; by rewrite E)).
  { apply Hstop; auto. }
  cbn [app] in A1. destruct a as [n| |]; [|apply Hstop; auto..].
  set (count := Z.max 0 (Z.min n (blen (addrs_of iov)))).
  assert (Hc : 0 <= count <= blen (pending s (r_outqueue s))).
  { rewrite A2, blen_app. pose proof (blen_nonneg rr). pose proof (blen_nonneg w).
    unfold count. rewrite A1. change (addrs_of [] ++ w) with w. lia. }
  set (s1 := set_r_wire _ s). change (r_outqueue s1) with (r_outqueue s).
  destruct (complete_spec (r_outqueue s) count s1) as (s2 & sent & -> & W2 & El & Ep & Pw & Sr & Nd2);
    try done; [by apply wf_set_wire|]. cbn [mbind option_bind].
  destruct (IH (iov_slots iovcnt (p_out x)) s2 W2 Nd2 Hi') as (s3 & r & -> & W3 & St & Nd3 & Hr).
  exists s3, r. split; [done|]. split; [done|]. split; [|done]. eapply stream_trans; [|exact St].
  exists (take (Z.to_nat count) (addrs_of iov)), sent.
  split; [by rewrite (sr_wire _ _ Sr)|]. split; [|split; [done|split; [done|split; [apply Sr|split; [apply Sr|exact (sr_pdus _ _ Sr)]]]]].
  rewrite Ep. change (pending s1 (r_outqueue s)) with (pending s (r_outqueue s)).
  assert (take (Z.to_nat count) (addrs_of iov) = take (Z.to_nat count) (pending s (r_outqueue s))) as ->.
  { rewrite A1, A2. change (addrs_of [] ++ w) with w. rewrite take_app_le; [done|].
    unfold count. rewrite A1. change (addrs_of [] ++ w) with w. unfold blen. lia. }
  by rewrite take_drop.
Qed.

Lemma write_to_socket_stream ws s :
  wf s -> no_discard s (r_outqueue s) ->
  exists s' r, rpc_write_to_socket ws s = Some (s', r) /\ wf s' /\ stream_step s s'.
Proof.
  intros W Nd. unfold rpc_write_to_socket. destruct (r_disabled s).
  { exists s, 0. eauto using stream_refl. }
  destruct (r_fd s =? -1).
  { exists s, (-1). eauto using stream_refl. }
  destruct (write_loop_spec ws RPC_FAST_VECTORS s W Nd) as (s' & r & E & W' & St & _).
  { unfold RPC_FAST_VECTORS. lia. }
  eauto.
Qed.

(** C5: [rpc_write_to_socket] writes exactly the next bytes of the outgoing stream (the
    records of the queued PDUs, in order, less what was sent of the first one), whatever
    each writev accepts; what is left to send is the rest of the stream, the PDUs sent
    completely wait in their buckets, each once, and the context stays well-formed. *)
Theorem write_to_socket_sends_stream ws s :
  wf s -> no_discard s (r_outqueue s) ->
  exists s' r w sent, rpc_write_to_socket ws s = Some (s', r) /\ wf s' /\
    r_wire s' = r_wire s ++ w /\
    pending s (r_outqueue s) = w ++ pending s' (r_outqueue s') /\
    r_outqueue s = sent ++ r_outqueue s' /\
    concat (r_waitpdu s') ≡ₚ sent ++ concat (r_waitpdu s) /\
    r_trace s' = r_trace s /\ r_pdu s' = r_pdu s.
Proof.
  intros W Nd. destruct (write_to_socket_stream ws s W Nd)
    as (s' & r & E & W' & w & sent & A & B & C & D & F & G & _).
  by exists s', r, w, sent.
Qed.

(** ** Queueing *)

(** The outgoing stream of a connection: what was written and what is queued. *)
Definition stream s : list Z := r_wire s ++ pending s (r_outqueue s).

Lemma stream_step_eq s s' : stream_step s s' -> stream s' = stream s.
Proof. intros (w & t & A & B & _). unfold stream. by rewrite A, B, <- app_assoc. Qed.

(** A PDU as [rpc_allocate_pdu2] leaves it, with [n] bytes marshalled of which
    the header took [hdr]. *)
Record fresh x (a hdr n : Z) : Prop := {
  fr_data : p_data x = a;
  fr_vecs : vecs (p_out x) = [mkIov a 4; mkIov (a + 4) hdr];
  fr_done : num_done (p_out x) = 0;
  fr_cap : (3 <= iov_capacity (p_out x) <= RPC_MAX_VECTORS)%nat;
  fr_pos : pos (p_zdr x) = n;
  fr_hdr : 0 < hdr <= n;
  fr_int : n + 4 <= INT_MAX;
  fr_in : base (p_in x) = None \/ cursor_wf (p_in x);
}.

Ltac vec_facts :=
  first [lia | solve_width | (unfold blen; rewrite length_seqZ; lia)
        | (repeat constructor; unfold nonneg; cbn; lia)
        | (repeat constructor; cbn; solve_width) | (unfold niov; cbn; lia)].

Lemma finish_pdu_spec x a hdr n :
  fresh x a hdr n ->
  exists x', finish_pdu x = Some (x', n) /\ pdu_ok x' /\ num_done (p_out x') = 0 /\
    total_size (p_out x') = n + 4 /\ p_xid x' = p_xid x /\ p_discard x' = p_discard x /\
    addrs_of (vecs (p_out x')) = seqZ a (n + 4) /\
    p_marker x' = be32 (Z.lor n 0x80000000) /\ p_zdr x' = p_zdr x.
Proof.
  intros [Ha Hv Hd Hc Hp Hh Hi Hin]. unfold INT_MAX in Hi. unfold finish_pdu.
  assert (Hpos : i32 (zdr_getpos (p_zdr x)) = n) by (unfold zdr_getpos; rewrite Hp; solve_width).
  assert (Hsz : vectors_size (vecs (p_out x)) = hdr).
  { rewrite Hv. unfold vectors_size. cbn. solve_width. }
  rewrite Hpos, Hsz. assert (Hu : u32 n = n) by solve_width.
  destruct (n >? hdr) eqn:E.
  - unfold rpc_add_iovector, niov. cbn. rewrite Hv. cbn [length].
    rewrite bool_decide_false by lia. cbn. rewrite Hu.
    assert (Hl : u64 (n - hdr) = n - hdr) by solve_width. rewrite Hl, Ha.
    assert (Hadd : addrs_of [mkIov a 4; mkIov (a + 4) hdr; mkIov (a + (hdr + 4)) (n - hdr)] = seqZ a (n + 4)).
    { unfold addrs_of; cbn. unfold seg; cbn. rewrite app_nil_r.
      replace (a + (hdr + 4)) with (a + 4 + hdr) by lia. rewrite <- seqZ_app by lia.
      rewrite <- seqZ_app by lia. f_equal; lia. }
    eexists. split; [done|]. cbn. rewrite Hadd. split; [|repeat split; try done; try lia].
    split; cbn; rewrite ?Hadd; try done; vec_facts.
  - assert (hdr = n) as -> by lia. cbn. rewrite Hu.
    assert (Hadd : addrs_of (vecs (p_out x)) = seqZ a (n + 4)).
    { rewrite Hv. unfold addrs_of; cbn. unfold seg; cbn. rewrite app_nil_r, <- seqZ_app by lia.
      f_equal. lia. }
    eexists. split; [done|]. cbn. rewrite Hadd. split; [|repeat split; done].
    split; cbn; rewrite ?Hadd, ?Hd; try done; unfold niov; rewrite ?Hv; vec_facts.
Qed.

(** Setting the timeouts changes nothing else. *)
Lemma pdu_set_timeout_fresh s x x' now a hdr n :
  pdu_set_timeout s x now = Some x' -> fresh x a hdr n ->
  fresh x' a hdr n /\ p_xid x' = p_xid x /\ p_discard x' = p_discard x /\ p_zdr x' = p_zdr x.
Proof.
  unfold pdu_set_timeout. intros E [].
  repeat (case_match; simplify_eq; try done); by repeat split.
Qed.

Lemma get_put_ne s p q x : p <> q -> get_pdu (put_pdu p x s) q = get_pdu s q.
Proof. intros H. rewrite get_put. by rewrite bool_decide_false. Qed.

Lemma get_put_eq s p x : get_pdu (put_pdu p x s) p = Some x.
Proof. rewrite get_put. by rewrite bool_decide_true. Qed.

(** A PDU the context does not hold can be changed. *)
Lemma wf_put s p x : wf s -> p ∉ all_ids s -> wf (put_pdu p x s).
Proof.
  intros W Hp. assert (Hg : forall q, q ∈ all_ids s -> get_pdu (put_pdu p x s) q = get_pdu s q).
  { intros q Hq. apply get_put_ne. by intros ->. }
  apply (wf_move s); try done; try apply W.
  - intros q Hq. destruct (wf_ok _ W q Hq) as (y & Hy & Hk). unfold total_of, xid_of.
    rewrite Hg by done. eauto.
  - intros q Hq. unfold done_of, total_of. rewrite Hg by (unfold all_ids; set_solver).
    by apply (wf_out _ W).
  - intros q Hq. change (q ∈ tl (r_outqueue s)) in Hq. unfold done_of.
    rewrite Hg; [by apply (wf_first _ W)|]. unfold all_ids.
    destruct (r_outqueue s); cbn in *; set_solver.
Qed.

Lemma pending_put s p x l : p ∉ l -> pending (put_pdu p x s) l = pending s l.
Proof.
  intros Hp. apply pending_ext. intros q Hq. unfold unsent. rewrite get_put_ne; [done|]. by intros ->.
Qed.

Lemma wf_enqueue s p x :
  wf s -> p ∉ all_ids s -> get_pdu s p = Some x -> pdu_ok x -> num_done (p_out x) = 0 ->
  is_u32 (1 + blen (all_ids s)) -> is_u64 (total_size (p_out x) + volume s (all_ids s)) ->
  wf (set_r_outqueue (l_enqueue (r_outqueue s) p) s) /\
  pending s (l_enqueue (r_outqueue s) p) =
    pending s (r_outqueue s) ++ addrs_of (vecs (p_out x)).
Proof.
  intros W Hp Hx Hk Hd H32 H64. split.
  - pose proof (wf_nodup _ W) as Hn. unfold l_enqueue.
    assert (Hall : all_ids (set_r_outqueue (r_outqueue s ++ [p]) s) ≡ₚ p :: all_ids s).
    { unfold all_ids. cbn. rewrite <- !app_assoc. cbn. by rewrite <- Permutation_middle. }
    split; try apply W.
    + rewrite Hall. by constructor.
    + intros q Hq. rewrite Hall in Hq. apply elem_of_cons in Hq as [->|Hq]; [by exists x|].
      by apply (wf_ok _ W).
    + intros q Hq. apply elem_of_app in Hq as [Hq|Hq%list_elem_of_singleton]; [by apply (wf_out _ W)|].
      subst q. change (done_of s p < total_of s p). unfold done_of, total_of. rewrite Hx. cbn. pose proof (po_size _ Hk). lia.
    + intros q Hq. change (done_of s q = 0). change (q ∈ tl (r_outqueue s ++ [p])) in Hq.
      destruct (r_outqueue s) as [|y l] eqn:E; [cbn in Hq; set_solver|].
      cbn in Hq. apply elem_of_app in Hq as [Hq|Hq%list_elem_of_singleton].
      * apply (wf_first _ W). by rewrite E.
      * subst q. unfold done_of. by rewrite Hx.
    + assert (blen (all_ids (set_r_outqueue (r_outqueue s ++ [p]) s)) = 1 + blen (all_ids s)) as ->; [|done].
      unfold blen. rewrite Hall. cbn [length]. lia.
    + rewrite (volume_perm _ _ _ Hall), volume_cons.
      rewrite (volume_eq s) by done. change (total_of (set_r_outqueue _ s) p) with (total_of s p).
      unfold total_of at 1. by rewrite Hx.
  - unfold l_enqueue, pending. rewrite map_app, concat_app. f_equal. cbn. rewrite app_nil_r.
    unfold unsent. rewrite Hx, Hd. unfold left_after. apply drop_0.
Qed.

Lemma timeouts_set s x now : fits_int (r_timeout s * r_retrans s) = true -> exists x', pdu_set_timeout s x now = Some x'.
Proof. intros Hfit. unfold pdu_set_timeout. rewrite Hfit. repeat case_match; eauto. Qed.

(** A PDU that is finished is queued after everything else, and something may
    be sent at once. *)
Lemma queue_finished now send_ok ws s p x x1 x2 n :
  wf s -> no_discard s (r_outqueue s) -> r_udp s = false ->
  p ∉ all_ids s -> get_pdu s p = Some x -> pdu_set_timeout s x now = Some x1 -> finish_pdu x1 = Some (x2, n) ->
  pdu_ok x2 -> num_done (p_out x2) = 0 -> p_discard x2 = false ->
  is_u32 (1 + blen (all_ids s)) -> is_u64 (total_size (p_out x2) + volume s (all_ids s)) ->
  exists s' k, rpc_queue_pdu now send_ok ws s p = Some (s', 0) /\ wf s' /\
    stream s' = stream s ++ addrs_of (vecs (p_out x2)) /\ p ∈ all_ids s' /\ get_pdu s' p = Some (with_done k x2).
Proof.
  intros W Nd Hudp Hp Hx Ht Hf Hk Hnd Hdis H32 H64. unfold rpc_queue_pdu. rewrite Hx. cbn [mbind option_bind].
  rewrite Ht. cbn [mbind option_bind]. rewrite Hf.
  set (s1 := put_pdu p x2 s). change (r_udp s1) with (r_udp s).
  rewrite Hudp, Hnd. change (0 =? 0) with true. cbn [andb].
  assert (W1 : wf s1) by by apply wf_put.
  destruct (wf_enqueue s1 p x2) as [W2 Hpe]; try done.
  { apply get_put_eq. }
  { rewrite (volume_eq s); [done|]. intros q Hq. unfold total_of, s1. rewrite get_put_ne; [done|]. by intros ->. }
  assert (Hp' : p ∉ r_outqueue s) by (unfold all_ids in Hp; set_solver).
  change (r_outqueue s1) with (r_outqueue s) in *. unfold s1 in Hpe at 2. rewrite pending_put in Hpe by done.
  set (s2 := set_r_outqueue (l_enqueue (r_outqueue s) p) s1) in *.
  assert (Hst : stream s2 = stream s ++ addrs_of (vecs (p_out x2))).
  { unfold stream. change (r_outqueue s2) with (l_enqueue (r_outqueue s) p).
    change (pending s2 (l_enqueue (r_outqueue s) p)) with (pending s1 (l_enqueue (r_outqueue s) p)).
    rewrite Hpe. by rewrite app_assoc. }
  assert (Hg2 : get_pdu s2 p = Some x2) by apply get_put_eq.
  assert (Hin : p ∈ r_outqueue s2) by (change (p ∈ r_outqueue s ++ [p]); set_solver).
  case_bool_decide as Eh.
  - assert (Hq0 : r_outqueue s = []).
    { cbn in Eh. unfold l_enqueue in Eh. destruct (r_outqueue s) as [|y l]; [done|].
      injection Eh as ->. set_solver. }
    destruct (write_to_socket_stream ws s2) as (s' & r & -> & W' & St); [done| |].
    { intros q y Hq. change (q ∈ l_enqueue (r_outqueue s) p) in Hq. rewrite Hq0 in Hq. cbn in Hq.
      apply list_elem_of_singleton in Hq as ->. rewrite Hg2. intros [= <-]. congruence. }
    cbn [mbind option_bind]. pose proof (stream_step_eq _ _ St) as Hst'.
    destruct St as (w & sent & _ & _ & C & D & _ & F & G). destruct (G _ _ Hg2) as [k Hk'].
    exists s', k. split; [done|]. split; [done|]. split; [congruence|]. split; [|done].
    unfold all_ids. rewrite D. rewrite C in Hin. set_solver.
  - exists s2, 0. split; [done|]. split; [done|]. split; [done|]. split; [unfold all_ids; set_solver|].
    rewrite Hg2. f_equal. clear -Hnd. destruct x2 as [? ? ? ? ? ? ? [nd t c v] ? ? ? ? ? ? ? ? ? ? ?]. cbn in Hnd. by subst nd.
Qed.

(** C6: [rpc_queue_pdu] on a TCP context appends one record to the outgoing stream: the
    marker (the size with the last-fragment bit) and the bytes marshalled, after
    everything queued before, whatever is sent at once. *)
Theorem queue_pdu_appends_record now send_ok ws s p x a hdr n :
  wf s -> no_discard s (r_outqueue s) -> r_udp s = false ->
  p ∉ all_ids s -> get_pdu s p = Some x -> fresh x a hdr n -> p_discard x = false ->
  fits_int (r_timeout s * r_retrans s) = true ->
  is_u32 (1 + blen (all_ids s)) -> is_u64 (n + 4 + volume s (all_ids s)) ->
  exists s', rpc_queue_pdu now send_ok ws s p = Some (s', 0) /\ wf s' /\
    stream s' = stream s ++ seqZ a (n + 4) /\
    p ∈ all_ids s' /\
    (exists x', get_pdu s' p = Some x' /\ p_marker x' = be32 (Z.lor n 0x80000000) /\
       p_zdr x' = p_zdr x).
Proof.
  intros W Nd Hudp Hp Hx Hf Hdis Hfit H32 H64. destruct (timeouts_set s x now Hfit) as [x1 Ht].
  destruct (pdu_set_timeout_fresh _ _ _ _ _ _ _ Ht Hf) as (Hf1 & Hxid & Hd1 & Hz1).
  destruct (finish_pdu_spec _ _ _ _ Hf1) as (x2 & E & Hk & Hnd & Htot & Hx2 & Hd2 & Hadd & Hm & Hz2).
  destruct (queue_finished now send_ok ws s p x x1 x2 n) as (s' & k & E' & W' & Hst & Hin & Hg);
    try done; [congruence|by rewrite Htot|].
  exists s'. rewrite Hadd in Hst. split; [done|]. split; [done|]. split; [done|]. split; [done|].
  exists (with_done k x2). split; [done|]. split; [done|]. cbn. congruence.
Qed.

(** ** Allocation *)

Lemma wf_ids s s' : wf s -> (forall q, q ∈ all_ids s -> get_pdu s' q = get_pdu s q) ->
  r_outqueue s' = r_outqueue s -> r_waitpdu s' = r_waitpdu s -> r_pdu s' = r_pdu s ->
  r_waitpdu_len s' = r_waitpdu_len s -> wf s'.
Proof.
  intros W Hg Eo Ew Ep El.
  assert (Ha : all_ids s' = all_ids s) by (unfold all_ids; congruence).
  apply (wf_move s); rewrite ?Ha, ?Eo, ?Ew, ?El; try done; try apply W.
  - intros q Hq. destruct (wf_ok _ W q Hq) as (y & Hy & Hk). unfold total_of, xid_of.
    rewrite Hg by done. eauto.
  - intros q Hq. unfold done_of, total_of. rewrite Hg by (unfold all_ids; set_solver).
    by apply (wf_out _ W).
  - intros q Hq. unfold done_of. rewrite Hg; [by apply (wf_first _ W)|].
    unfold all_ids. destruct (r_outqueue s); cbn in *; set_solver.
Qed.

Lemma blen_wire_pos (k : Z) c : call_ok c -> 0 < blen (call_wire k c).
Proof.
  intros _. unfold call_wire. rewrite !blen_app, !blen_be32.
  pose proof (blen_nonneg (auth_wire (cred c))). pose proof (blen_nonneg (auth_wire (cverf c))). lia.
Qed.

Lemma add_iovector_ok v a len : (niov v < iov_capacity v)%nat ->
  rpc_add_iovector v a len =
    Some (mkVecs (num_done v) (total_size v) (iov_capacity v) (vecs v ++ [mkIov a (u64 len)])).
Proof. intros H. unfold rpc_add_iovector. by rewrite bool_decide_false by lia. Qed.

(** The handle a call is marshalled through. *)
Definition call_handle (hint : Z) : ZDR :=
  let n := ZDR_ENCODEBUF_MINSIZE + hint - 4 in zdrmem_create (zeros n) n ZDR_ENCODE (fun _ => true).

Lemma call_handle_room hint n : 0 <= hint -> hint + ZDR_ENCODEBUF_MINSIZE + 16 <= INT_MAX ->
  n <= ZDR_ENCODEBUF_MINSIZE + hint - 4 -> room (call_handle hint) n.
Proof.
  unfold call_handle, ZDR_ENCODEBUF_MINSIZE, INT_MAX, zdrmem_create. intros. rewrite i32_id by solve_width.
  split; cbn; rewrite ?blen_zeros by lia; unfold INT_MAX; done || lia.
Qed.

(** [rpc_allocate_pdu2] gives a fresh PDU whose buffer starts with the call header
    of RFC 5531 for the program, version, procedure and the credentials of the context,
    under the next xid. *)
Theorem allocate_pdu_encodes_call (zero_res : R) s addr prg vrs prc cb (decode : proc R)
    `{!Codec decode} bufsize hint iovcnt :
  let c := mkCall RPC_MSG_VERSION prg vrs prc
    (if prc =? 0 then mkAuth AUTH_NONE NULL 0 else ah_cred (r_auth s)) (ah_verf (r_auth s)) in
  let n := blen (call_wire (r_xid s) c) in
  is_u32 (r_xid s) -> call_ok c -> 0 <= hint -> hint + ZDR_ENCODEBUF_MINSIZE + 16 <= INT_MAX ->
  n <= ZDR_ENCODEBUF_MINSIZE + hint - 4 -> (iovcnt <= RPC_MAX_VECTORS)%nat ->
  exists s' x,
    rpc_allocate_pdu2 zero_res s addr prg vrs prc cb decode bufsize hint iovcnt =
      Some (s', Some (r_next_id s)) /\
    s' = put_pdu (r_next_id s) x (set_r_next_id (r_next_id s + 1)%N (set_r_xid (u32 (r_xid s + 1)) s)) /\
    get_pdu s' (r_next_id s) = Some x /\ fresh x addr n n /\
    p_zdr x = put (call_handle hint) (call_wire (r_xid s) c) /\
    read_at 0 n (buf (p_zdr x)) = Some (call_wire (r_xid s) c) /\
    p_xid x = r_xid s /\ p_discard x = false /\ p_no_retry x = (negb (prg =? NFS_PROGRAM) || (prc =? 0)) /\
    r_xid s' = u32 (r_xid s + 1) /\ r_next_id s' = (r_next_id s + 1)%N /\
    (wf s -> r_next_id s ∉ all_ids s -> wf s').
Proof.
  intros c n Hx Hc Hh Hi Hn Hv. unfold ZDR_ENCODEBUF_MINSIZE, INT_MAX in *.
  pose proof (blen_wire_pos (r_xid s) c Hc) as Hpos. fold n in Hpos.
  unfold rpc_allocate_pdu2, RPC_FAST_VECTORS. set (cap := if bool_decide _ then iovcnt else _).
  assert (Hcap : (8 <= cap <= RPC_MAX_VECTORS)%nat).
  { unfold cap, RPC_MAX_VECTORS in *. case_bool_decide; lia. }
  rewrite add_iovector_ok by (cbn; lia). cbn [mbind option_bind vecs app].
  unfold ZDR_ENCODEBUF_MINSIZE. set (zsize := 4096 + hint - 4).
  set (z := zdrmem_create (zeros zsize) zsize ZDR_ENCODE (fun _ => true)).
  assert (Hroom : room z (blen (wire (libnfs_rpc_msg decode (zero_reply zero_res)) (mkMsg (r_xid s) CALL (CBody c))))).
  { rewrite call_msg_wire. fold n. unfold z, zdrmem_create. rewrite i32_id by solve_width.
    split; cbn; unfold zsize; rewrite ?blen_zeros by lia; unfold INT_MAX; done || lia. }
  pose proof (codec_enc (p := libnfs_rpc_msg decode (zero_reply zero_res)) z
    (mkMsg (r_xid s) CALL (CBody c)) eq_refl (call_msg_okv _ _ _ _ Hx Hc) Hroom) as E.
  rewrite call_msg_wire in E, Hroom. unfold zdr_callmsg, call_msg. fold c.
  change (r_auth (set_r_xid _ s)) with (r_auth s). fold c. rewrite E. clear E.
  set (z' := put z (call_wire (r_xid s) c)).
  assert (Hgp : zdr_getpos z' = n).
  { unfold zdr_getpos, z', put, z, zdrmem_create; cbn. fold n. clear -Hn Hi Hpos. solve_width. }
  rewrite add_iovector_ok by (cbn; lia). cbn [mbind option_bind vecs app]. rewrite Hgp.
  assert (Hu : u64 n = n) by solve_width. rewrite Hu. change (u64 4) with 4.
  eexists _, _. split; [done|]. split; [done|]. split; [apply get_put_eq|].
  split; [|split; [done|split; [|split; [done|split; [done|split; [|split; [done|split; [done|]]]]]]]].
  - clear Hroom. split; cbn -[RPC_MAX_VECTORS]; try done; first [by left | lia | unfold INT_MAX; lia].
  - cbn. unfold z', put; cbn. unfold z, zdrmem_create; cbn.
    apply has_at_read, splice_has; [cbn; lia|]. rewrite blen_zeros by lia. fold n. unfold zsize. lia.
  - cbn. f_equal. case_bool_decide; destruct (prg =? NFS_PROGRAM) eqn:Ep; try done; lia.
  - intros W Hni. apply (wf_ids s); try done. intros q Hq. cbn.
    unfold get_pdu, put_pdu; cbn. apply lookup_insert_ne. intros Eq. apply Hni. cbn in Eq. by rewrite Eq.
Qed.

(** ** Where it goes wrong *)

(** A server whose writev takes a reply that is discarded after sending and [n -
    rem] bytes of the next reply leaves the loop without accounting for these bytes: the
    next reply is still pending in full, so its first bytes are sent twice
    (socket.c:446). *)
Theorem discarded_reply_resends_next s p1 l x1 iov n rem ws :
  r_disabled s = false -> r_fd s <> -1 -> may_wait s 0 = true ->
  r_outqueue s = p1 :: l -> get_pdu s p1 = Some x1 -> p_discard x1 = true -> pdu_ok x1 ->
  p1 ∉ l ->
  fill_pdus (iov_slots RPC_FAST_VECTORS (p_out x1)) s (r_outqueue s) 0 [] None = Some iov -> iov <> [] ->
  rem = total_size (p_out x1) - num_done (p_out x1) -> 0 < rem -> rem < n <= blen (addrs_of iov) ->
  exists s', rpc_write_to_socket (WCount n :: ws) s = Some (s', 0) /\
    r_wire s' = r_wire s ++ take (Z.to_nat n) (addrs_of iov) /\
    r_outqueue s' = l /\ pending s' l = pending s l /\
    blen (stream s') = blen (stream s) + (n - rem).
Proof.
  intros Hd Hfd Hmw E Hx Hdis Hk Hp Hf Hne -> Hrem Hn. unfold rpc_write_to_socket. rewrite Hd.
  replace (r_fd s =? -1) with false by lia. cbn [write_loop]. rewrite Hmw. cbn [negb].
  rewrite E, Hx in *. cbn [mbind option_bind]. rewrite !bool_decide_true by apply Hk. cbn [andb].
  rewrite Hf. cbn [mbind option_bind]. rewrite bool_decide_false by done.
  replace (Z.max 0 (Z.min n (blen (addrs_of iov)))) with n by lia.
  set (s1 := set_r_wire _ s). change (r_outqueue s1) with (r_outqueue s). rewrite E.
  pose proof (po_done _ Hk). pose proof (po_fit _ Hk).
  cbn [complete]. replace (n <=? 0) with false by lia.
  change (get_pdu s1 p1) with (get_pdu s p1). rewrite Hx. cbn [mbind option_bind].
  rewrite u64_id by (unfold is_u64 in *; lia). replace (_ <=? n) with true by lia.
  rewrite Hdis. unfold rpc_free_pdu.
  change (get_pdu (inc_req_sent (set_r_outqueue l ?a)) p1) with (get_pdu a p1).
  rewrite get_put_eq. cbn [mbind option_bind]. eexists. split; [done|]. split; [done|]. split; [done|].
  set (s' := log _ _).
  assert (Hpe : pending s' l = pending s l).
  { apply pending_ext. intros q Hq. unfold unsent.
    assert (get_pdu s' q = get_pdu s q) as ->; [|done].
    unfold s', get_pdu, log, put_pdu; cbn.
    rewrite lookup_delete_ne, lookup_insert_ne; [done|by intros ->..]. }
  split; [done|]. unfold stream. change (r_outqueue s') with l. rewrite Hpe, E.
  change (r_wire s') with (r_wire s ++ take (Z.to_nat n) (addrs_of iov)).
  rewrite pending_cons, !blen_app, (unsent_blen s p1 x1 Hx Hk), blen_take by lia.
  unfold total_of, done_of. rewrite Hx. cbn. lia.
Qed.
End stream.

(** ** Deciding well-formedness *)

Definition cursor_wfb (v : cursor) : bool :=
  bool_decide (base v = Some (arr v)) && bool_decide (length (arr v) = (iovcnt_ref v + iovcnt_ref v)%nat) &&
  bool_decide (iov_ref v = iovcnt_ref v) && bool_decide (iov v + iovcnt v <= iovcnt_ref v)%nat &&
  forallb (fun w => 0 <? iov_len w) (todo v) && forallb (fun w => 0 <? iov_len w) (refs v) &&
  (remaining_size v =? blen (addrs v)) && (blen (addrs v) <? 2 ^ 64) &&
  (blen (addrs_of (refs v)) <? 2 ^ 64).

Lemma forallb_all {A} (f : A -> bool) (P : A -> Prop) l :
  (forall a, f a = true -> P a) -> forallb f l = true -> forall a, a ∈ l -> P a.
Proof. intros H Hf a Ha. rewrite forallb_forall in Hf. by apply H, Hf, list_elem_of_In. Qed.

Ltac split_andb :=
  repeat match goal with H : _ && _ = true |- _ => apply andb_true_iff in H as [? H] end;
  repeat match goal with H : bool_decide _ = true |- _ => apply bool_decide_eq_true in H end.

Lemma cursor_wfb_wf v : cursor_wfb v = true -> cursor_wf v.
Proof.
  unfold cursor_wfb. intros H. split_andb. pose proof (blen_nonneg (addrs v)).
  pose proof (blen_nonneg (addrs_of (refs v))).
  split; try done; try (unfold is_u64; lia);
    (apply Forall_forall; eapply forallb_all; [|done]; intros w Hw; unfold positive; cbn in Hw; lia).
Qed.

Section deciding.
Context {R : Type}.
Implicit Types (s : rpc R) (p : id) (x : pdu R).

Definition pdu_okb x : bool :=
  let v := p_out x in
  (total_size v =? blen (addrs_of (vecs v))) && (total_size v <? 2 ^ 64) && (0 <? total_size v) &&
  (0 <=? num_done v) && (num_done v <=? total_size v) &&
  forallb (fun w => (0 <=? iov_len w) && (iov_len w <? 2 ^ 64)) (vecs v) &&
  bool_decide (niov v <= iov_capacity v)%nat && bool_decide (iov_capacity v <= RPC_MAX_VECTORS)%nat &&
  (bool_decide (base (p_in x) = None) || cursor_wfb (p_in x)).

Lemma pdu_okb_ok x : pdu_okb x = true -> pdu_ok x.
Proof.
  unfold pdu_okb. cbv zeta. intros H. split_andb. apply orb_true_iff in H.
  split; try lia; try (unfold is_u64; lia);
    try (apply Forall_forall; eapply forallb_all; [|done]; intros w Hw; cbv beta in Hw; unfold nonneg, is_u64; lia).
  destruct H as [H%bool_decide_eq_true|H%cursor_wfb_wf]; [by left|by right].
Qed.

Definition wfb s : bool :=
  bool_decide (NoDup (all_ids s)) &&
  forallb (fun p => from_option pdu_okb false (get_pdu s p)) (all_ids s) &&
  forallb (fun p => done_of s p <? total_of s p) (r_outqueue s) &&
  forallb (fun p => done_of s p =? 0) (tl (r_outqueue s)) &&
  forallb (fun t => forallb (fun p => bool_decide (bucket s (xid_of s p) = t.1)) t.2)
    (imap pair (r_waitpdu s)) &&
  (r_waitpdu_len s =? blen (concat (r_waitpdu s))) && bool_decide (0 < length (r_waitpdu s))%nat &&
  (blen (all_ids s) <? 2 ^ 32) && (0 <=? volume s (all_ids s)) && (volume s (all_ids s) <? 2 ^ 64).

Lemma wfb_wf s : wfb s = true -> wf s.
Proof.
  unfold wfb. intros H. split_andb. pose proof (blen_nonneg (all_ids s)).
  split; try done; try (unfold is_u32, is_u64; lia); try (eapply forallb_all; [|done]; intros; cbn in *; lia).
  - eapply forallb_all; [|done]. intros p Hp. cbn in Hp. destruct (get_pdu s p) as [x|]; [|done].
    exists x. split; [done|]. by apply pdu_okb_ok.
  - intros i l p Hi Hp.
    enough (Hh : forall t, t ∈ imap pair (r_waitpdu s) -> forall p, p ∈ t.2 -> bucket s (xid_of s p) = t.1).
    { apply (Hh (i, l)); [|done]. apply elem_of_lookup_imap. eauto. }
    match goal with Hf : forallb _ (imap pair _) = true |- _ =>
      refine (forallb_all _ (fun t => forall p, p ∈ t.2 -> bucket s (xid_of s p) = t.1) _ _ Hf) end.
    intros t Ht q Hq. cbv beta in Ht.
    apply (forallb_all _ (fun q => bucket s (xid_of s q) = t.1) _ ltac:(intros ? ?%bool_decide_eq_true; done) Ht q Hq).
Qed.
End deciding.

(** ** Instances *)

(** A connected client, a GETATTR call allocated at address 6000 and the same
    call queued. *)
Definition client : rpc Z :=
  set_r_connected true (set_r_fd 3 (rpc_init_context ∅ (mkAUTH root_cred _null_auth) 5)).
Definition getattr (addr : Z) (s : rpc Z) : rpc Z :=
  from_option fst s (rpc_allocate_pdu 0 s addr NFS_PROGRAM NFS_V3 1 true zdr_u_int 4).
Definition queue (ws : list wres) (s : rpc Z) (p : id) : rpc Z :=
  from_option fst s (rpc_queue_pdu 100 true ws s p).
Definition allocated : rpc Z := getattr 6000 client.
Definition queued : rpc Z := queue [] allocated 0%N.

Lemma queued_wf : wf queued.
Proof. apply wfb_wf. by vm_compute. Qed.

Definition no_discardb {R} (s : rpc R) (l : list id) : bool :=
  forallb (fun p => from_option (fun x => negb (p_discard x)) true (get_pdu s p)) l.

Lemma no_discardb_ok {R} (s : rpc R) l : no_discardb s l = true -> no_discard s l.
Proof.
  intros H q x Hq Hx.
  assert (Hp : from_option (fun x => negb (p_discard x)) true (get_pdu s q) = true).
  { refine (forallb_all _ (fun q => from_option _ true (get_pdu s q) = true) _ _ H q Hq). done. }
  rewrite Hx in Hp. cbn in Hp. by destruct (p_discard x).
Qed.

Lemma write_to_socket_sends_stream_witness :
  exists s' r w sent, rpc_write_to_socket [WCount 10; WCount 30] queued = Some (s', r) /\ wf s' /\
    r_wire s' = r_wire queued ++ w /\ pending queued (r_outqueue queued) = seqZ 6000 52 /\
    seqZ 6000 52 = w ++ pending s' (r_outqueue s') /\ r_outqueue queued = sent ++ r_outqueue s'.
Proof.
  destruct (write_to_socket_sends_stream [WCount 10; WCount 30] queued queued_wf)
    as (s' & r & w & sent & E & W & Hw & Hs & Ho & _); [apply no_discardb_ok; by vm_compute|].
  assert (Hp : pending queued (r_outqueue queued) = seqZ 6000 52) by (vm_compute; reflexivity).
  exists s', r, w, sent. rewrite Hp in Hs.
  exact (conj E (conj W (conj Hw (conj Hp (conj Hs Ho))))).
Defined.

Definition the_pdu (s : rpc Z) (p : id) : pdu Z :=
  default (mkPdu 0 false (zdrmem_create [] 0 ZDR_ENCODE (fun _ => true)) false false 0 [] (mkVecs 0 0 0 [])
    null_cursor 0 0 zdr_u_int 0 None false false 0 0 false) (get_pdu s p).

Lemma get_the_pdu s p : is_some (get_pdu s p) = true -> get_pdu s p = Some (the_pdu s p).
Proof. unfold the_pdu. by destruct (get_pdu s p). Qed.

Definition queued2 : rpc Z := getattr 9000 queued.

Lemma fresh_pdu : fresh (the_pdu queued2 1%N) 9000 48 48.
Proof.
  split; try (left; by vm_compute); try (split; apply Nat.leb_le; by vm_compute); by vm_compute.
Qed.

Lemma queue_pdu_appends_record_witness :
  exists s', rpc_queue_pdu 100 true [WCount 70] queued2 1%N = Some (s', 0) /\ wf s' /\
    stream s' = stream queued2 ++ seqZ 9000 52 /\ 1%N ∈ all_ids s'.
Proof.
  destruct (queue_pdu_appends_record 100 true [WCount 70] queued2 1%N (the_pdu queued2 1%N) 9000 48 48)
    as (s' & E & W & Hs & Hi & _).
  - apply wfb_wf. by vm_compute.
  - apply no_discardb_ok. by vm_compute.
  - by vm_compute.
  - intros Hi. vm_compute in Hi. set_solver.
  - apply get_the_pdu. by vm_compute.
  - apply fresh_pdu.
  - by vm_compute.
  - by vm_compute.
  - by vm_compute.
  - by vm_compute.
  - exists s'. exact (conj E (conj W (conj Hs Hi))).
Defined.

Lemma allocate_pdu_encodes_call_witness :
  exists s' x, rpc_allocate_pdu2 0 client 6000 NFS_PROGRAM NFS_V3 1 true zdr_u_int 4 0 0 =
      Some (s', Some 0%N) /\
    get_pdu s' 0%N = Some x /\ fresh x 6000 48 48 /\
    p_xid x = 5 /\ r_xid s' = 6.
Proof.
  destruct (allocate_pdu_encodes_call 0 client 6000 NFS_PROGRAM NFS_V3 1 true zdr_u_int 4 0 0)
    as (s' & x & E & _ & Hx & Hf & _ & _ & Hxid & _ & _ & Hn & _).
  - by vm_compute.
  - split; try (by vm_compute); split; try (by vm_compute); eexists; by vm_compute.
  - by vm_compute.
  - by vm_compute.
  - by vm_compute.
  - apply Nat.leb_le. by vm_compute.
  - exists s', x. exact (conj E (conj Hx (conj Hf (conj Hxid Hn)))).
Defined.

(** Two records queued by a server that discards them once sent. *)
Definition discarding (s : rpc Z) (p : id) : rpc Z := put_pdu p (set_p_discard true (the_pdu s p)) s.
Definition replies : rpc Z :=
  set_r_server true (discarding (discarding (queue [] queued2 1%N) 0%N) 1%N).

Lemma discarded_reply_resends_next_witness :
  exists s', rpc_write_to_socket [WCount 60] replies = Some (s', 0) /\
    r_outqueue s' = [1%N] /\ pending s' [1%N] = pending replies [1%N] /\
    blen (stream s') = blen (stream replies) + (60 - 52).
Proof.
  destruct (fill_pdus (iov_slots RPC_FAST_VECTORS (p_out (the_pdu replies 0%N))) replies
              (r_outqueue replies) 0 [] None) as [iov|] eqn:Ef; [|vm_compute in Ef; discriminate].
  assert (Hi : Some iov = Some [mkIov 6000 52; mkIov 9000 52]) by (rewrite <- Ef; vm_compute; reflexivity).
  injection Hi as ->.
  destruct (discarded_reply_resends_next replies 0%N [1%N] (the_pdu replies 0%N)
    [mkIov 6000 52; mkIov 9000 52] 60 52 []) as (s' & E & _ & Ho & Hp & Hs).
  - vm_compute; reflexivity.
  - vm_compute; discriminate.
  - vm_compute; reflexivity.
  - vm_compute; reflexivity.
  - apply get_the_pdu; vm_compute; reflexivity.
  - vm_compute; reflexivity.
  - apply pdu_okb_ok; vm_compute; reflexivity.
  - clear; set_solver.
  - exact Ef.
  - discriminate.
  - vm_compute; reflexivity.
  - lia.
  - split; [lia|]. vm_compute. discriminate.
  - exists s'. exact (conj E (conj Ho (conj Hp Hs))).
Defined.
