(* ===== verification/Recv.v ===== *)
(** * Recv: replies and the input state machine (lib/pdu.c, lib/socket.c)

    [rpc_find_pdu], [rpc_process_reply], [rpc_process_pdu], [rpc_finished_pdu]
    and [rpc_read_from_socket].  What the socket holds is a list of what recv
    and readv answer; a call takes at most what it asks for and leaves the
    rest, and an exhausted list is EAGAIN.

    A record marker that is being read is kept apart ([r_rmbuf]) from the two
    words of [rm_xid], which change when it is complete. *)

From S2P Require Import Prelude Zdr RpcMsg Cursor Queue RpcState Send.

(** What the socket answers; [RData []] is the end of the connection. *)
Inductive rres := RData (d : bytes) | RErr.

(** The outcome of reading: the state and the result, undefined behaviour or a
    failed assertion, or not enough fuel. *)
Inductive outcome (A : Type) := Done (a : A) | Crash | OutOfFuel.
Arguments Done {A}. Arguments Crash {A}. Arguments OutOfFuel {A}.

Definition ZCRP : Z := 1024.
Definition MAX_FRAGMENT_SIZE : Z := 8 * 1024 * 1024.

Section recv.
Context {R : Type} (zero_res : R).
(** [((READ3res * )buf)->status]. *)
Context (read_status : R -> Z).
(** [rpc_process_call], for a server (Server.v). *)
Context (process_call : ZDR -> rpc R -> option (rpc R * Z)).
Implicit Types (s : rpc R) (p : id).

(** ** Looking up a PDU *)

Fixpoint find_xid s (x : Z) (l : list id) : option id :=
  match l with
  | [] => None
  | p :: l => if xid_of s p =? x then Some p else find_xid s x l
  end.

(** A PDU found on a broadcast socket stays; it must be the last of its queue,
    since its link is cleared (see [Queue.broadcast_find_cuts_queue]). *)
Definition take_found s p (l : list id) : option (list id) :=
  if r_udp s && r_broadcast s
  then if bool_decide (last l = Some p) then Some l else None
  else Some (l_remove p l).

Definition rpc_find_pdu s (x : Z) : option (rpc R * option id) :=
  match find_xid s x (r_outqueue s) with
  | Some p => l ← take_found s p (r_outqueue s); Some (set_r_outqueue l s, Some p)
  | None =>
      let i := bucket s (r_rmx s) in
      w ← r_waitpdu s !! i;
      match find_xid s x w with
      | Some p =>
          w' ← take_found s p w;
          let s' := set_r_waitpdu (<[i := w']> (r_waitpdu s)) s in
          Some (if r_udp s && r_broadcast s then s'
                else set_r_waitpdu_len (u32 (r_waitpdu_len s - 1)) s', Some p)
      | None => Some (s, None)
      end
  end.

Definition rpc_cancel_pdu s p : option (rpc R * Z) :=
  x ← get_pdu s p;
  '(s, found) ← rpc_find_pdu s (p_xid x);
  match found : option id with
  | Some q => s ← rpc_free_pdu s q; Some (s, 0)
  | None => Some (s, - ENOENT)
  end.

(** ** Replies *)

Definition inc_resp_rcvd s : rpc R :=
  let t := r_stats s in
  set_r_stats (mkStats (num_req_sent t) (u64 (num_resp_rcvd t + 1)) (num_timedout t)
    (num_timedout_in_outqueue t) (num_major_timedout t) (num_retransmitted t) (num_reconnects t)) s.

(** The message a reply is decoded into, with the block for the results. *)
Definition reply_template (x : pdu R) : rpc_msg R :=
  mkMsg 0 0 (RBody (mkReply 0
    (mkAccepted _null_auth 0 (default zero_res (p_buf x))
       (match p_buf x with Some _ => Heap (zeros (p_bufsize x)) | None => NULL end)
       (mkMismatch 0 0)) (mkRejected 0 (mkMismatch 0 0) 0))).

(** [rpc_process_reply] at time [now]; also returns the handle. *)
Definition rpc_process_reply (now : Z) (z : ZDR) s : option (rpc R * ZDR) :=
  let s := inc_resp_rcvd s in
  p ← r_pdu s;
  x ← get_pdu s p;
  let x := if p_bufsize x >? 0 then set_p_buf (Some (default zero_res (p_buf x))) x else x in
  let s := put_pdu p x s in
  match zdr_replymsg (p_decode x) (zero_reply zero_res) z (reply_template x) with
  | UB => None
  | Fls _ z =>
      s ← call_cb s p RPC_STATUS_ERROR NoData;
      Some (put_pdu p (set_p_buf None x) s, z)
  | Ret m z =>
      let x := match body m, p_buf x with
               | RBody r, Some _ => set_p_buf (Some (results (areply r))) x
               | _, _ => x
               end in
      let s := put_pdu p x s in
      if negb (body_stat (body m) =? MSG_ACCEPTED) then
        s ← call_cb s p RPC_STATUS_ERROR NoData; Some (s, z)
      else if body_astat (body m) =? SUCCESS then
        let s := set_r_last_rpc now s in
        if is_some (base (p_in x)) then Some (put_pdu p (set_p_free_pdu true x) s, z)
        else s ← call_cb s p RPC_STATUS_SUCCESS (Results (p_buf x)); Some (s, z)
      else
        s ← call_cb s p RPC_STATUS_ERROR NoData; Some (s, z)
  end.

(** [rpc_process_pdu] on a buffer of [sz] bytes. *)
Definition rpc_process_pdu (now : Z) (b : bytes) (sz : Z) s : option (rpc R * Z) :=
  let z := zdrmem_create b sz ZDR_DECODE (fun _ => true) in
  if r_server s then process_call z s else
  '(s, z) ← rpc_process_reply now z s;
  match r_fragments s, r_pdu s with
  | [], Some p =>
      x ← get_pdu s p;
      Some (if is_some (base (p_in x)) then put_pdu p (set_p_free_zdr true (set_p_zdr z x)) s else s, 0)
  | _, _ => Some (s, 0)
  end.

(** [rpc_finished_pdu]. *)
Definition rpc_finished_pdu s : option (rpc R) :=
  s ← (match r_pdu s with
       | Some p =>
           x ← get_pdu s p;
           if p_free_pdu x then call_cb s p RPC_STATUS_SUCCESS (Results (p_buf x)) else Some s
       | None => Some s
       end);
  let s := set_r_inpos 0 (set_r_state READ_RM s) in
  match r_pdu s with
  | Some p =>
      if r_udp s && r_broadcast s then Some s
      else s ← rpc_free_pdu s p; Some (set_r_pdu None s)
  | None => Some s
  end.

(** ** Reading from the socket *)

(** The switch of the loop when nothing of the current part has been read. *)
Definition read_setup s : option (rpc R) :=
  if negb (r_inpos s =? 0) then Some s else
  match r_state s with
  | READ_RM => Some (set_r_pdu_size 8 (set_r_buf (Some (MarkerBuf 0)) (set_r_pdu None s)))
  | READ_PAYLOAD =>
      let s := set_r_inpos 4 (set_r_pdu_size (r_rm s) (set_r_buf (Some (InbufAt 4)) s)) in
      match r_pdu s with
      | Some p =>
          x ← get_pdu s p;
          Some (if is_some (base (p_in x)) && (r_pdu_size s >? ZCRP) then set_r_pdu_size ZCRP s else s)
      | None => Some s
      end
  | READ_UNKNOWN | READ_FRAGMENT =>
      if r_rm s <=? blen (r_inbuf s)
      then Some (set_r_inpos 4 (set_r_pdu_size (r_rm s) (set_r_buf (Some (InbufAt 4)) s))) else None
  | READ_IOVEC =>
      p ← r_pdu s; x ← get_pdu s p;
      Some (set_r_pdu_size (p_read_count x) (set_r_buf None s))
  | READ_PADDING => Some (set_r_pdu_size (r_rm s) (set_r_buf (Some (InbufAt 0)) s))
  end.

(** How many bytes to ask for, and where they go. *)
Definition read_request s : rpc R * Z :=
  let count := u32 (r_pdu_size s - r_inpos s) in
  if bool_decide (r_state s = READ_PADDING)
  then (set_r_buf (Some (InbufAt 0)) s, Z.min count (blen (r_inbuf s)))
  else (s, count).

(** [d] has been received. *)
Definition received (d : bytes) s : option (rpc R) :=
  let s := set_r_inpos (u32 (r_inpos s + blen d)) s in
  match r_buf s with
  | Some (MarkerBuf off) =>
      b ← write_at off d (r_rmbuf s);
      Some (set_r_buf (Some (MarkerBuf (off + blen d))) (set_r_rmbuf b s))
  | Some (InbufAt off) =>
      b ← write_at off d (r_inbuf s);
      Some (set_r_buf (Some (InbufAt (off + blen d))) (set_r_inbuf b s))
  | None =>
      p ← r_pdu s; x ← get_pdu s p;
      c ← rpc_advance_cursor (p_in x) (blen d);
      Some (put_pdu p (set_p_in c x)
              (set_r_mem (scatter (r_mem s) (take (length d) (addrs (p_in x))) d) s))
  end.

(** What a part that is complete leads to: go on, or return. *)
Inductive next_step := Continue (s : rpc R) | Return (s : rpc R) (r : Z).

Definition read_marker_done s : option next_step :=
  w0 ← read_at 0 4 (r_rmbuf s);
  w1 ← read_at 4 4 (r_rmbuf s);
  let s := set_r_rm (of_be32 w0) s in
  if Z.land (r_rm s) 0x80000000 =? 0 then Some (Return (set_r_state READ_FRAGMENT s) (-1)) else
  let s := set_r_rm (Z.land (r_rm s) 0x7fffffff) (set_r_state READ_PAYLOAD s) in
  if (r_rm s <? 8) || (r_rm s >? MAX_FRAGMENT_SIZE) then Some (Return s (-1)) else
  let s := set_r_rmx (of_be32 w1) s in
  '(s, need) ← (if r_server s then Some (s, r_rm s) else
                '(s, found) ← rpc_find_pdu s (r_rmx s);
                let s := set_r_pdu found s in
                match found : option id with
                | Some p => x ← get_pdu s p; Some (s, if is_some (base (p_in x)) then ZCRP else r_rm s)
                | None => Some (s, r_rm s)
                end);
  match adjust_inbuf (r_inbuf s) need with
  | None =>
      match r_pdu s with
      | Some p =>
          if r_server s then Some (Return s (-1)) else
          s ← rpc_return_to_outqueue s p; Some (Return (set_r_pdu None s) (-1))
      | None => Some (Return s (-1))
      end
  | Some b =>
      b ← write_at 0 (be32 (r_rmx s)) b;
      let s := set_r_inpos 0 (set_r_inbuf b s) in
      Some (Continue (if negb (r_server s) && negb (is_some (r_pdu s))
                      then set_r_state READ_UNKNOWN s else s))
  end.

(** The zero-copy part of READ_PAYLOAD: [Some true] when the rest of the data
    is to be read into the vectors, [Some false] when the PDU is finished;
    the whole is [None] for [return -1]. *)
Definition read_zero_copy s p (x : pdu R) : option (option (rpc R * bool)) :=
  match zdr_u_int (p_zdr x) (p_read_count x) with
  | UB => None
  | Fls _ _ => Some None
  | Ret rc z =>
      let pos := i32 (zdr_getpos z) in
      let count := i64 (u32 (r_inpos s - pos)) in
      if count >? ZCRP then None else
      let rc := if rc >? p_requested x then p_requested x else rc in
      let count := if count >? rc then rc else count in
      c ← (if remaining_size (p_in x) >? rc then
             c ← rpc_shrink_cursor (p_in x) rc;
             if remaining_size c =? rc then Some c else None
           else Some (p_in x));
      let count := if remaining_size c <? count then remaining_size c else count in
      d ← read_at pos (blen (r_inbuf s) - pos) (r_inbuf s);
      '(m, c) ← rpc_memcpy_cursor (r_mem s) c d count;
      let x := set_p_zdr z (set_p_in c (set_p_read_count rc x)) in
      let s := put_pdu p x (set_r_mem m s) in
      if remaining_size c =? 0 then Some (Some (s, false))
      else
        let s := put_pdu p (set_p_read_count (u32 (rc - count)) x) s in
        Some (Some (set_r_rm (u32 (r_rm s - (pos + count)))
                      (set_r_inpos 0 (set_r_state READ_IOVEC s)), true))
  end.

Definition payload_finished s : option next_step :=
  s ← rpc_finished_pdu (match r_fragments s with [] => s | _ => set_r_fragments [] (set_r_buf None s) end);
  Some (Continue s).

Definition read_payload_done (now : Z) s : option next_step :=
  match (match r_fragments s with
         | [] => Some (r_inbuf s, r_pdu_size s)
         | fr => match rpc_reassemble_pdu fr (r_inbuf s) (r_inpos s) with
                 | Some b => Some (b, blen b) | None => None end
         end) with
  | None => Some (Return (set_r_fragments [] s) (-1))
  | Some (b, sz) =>
      '(s, r) ← rpc_process_pdu now b sz (set_r_pdu_size sz s);
      if negb (r =? 0) then Some (Return s (-1)) else
      match r_pdu s with
      | None => payload_finished s
      | Some p =>
          x ← get_pdu s p;
          if negb (p_free_zdr x) then payload_finished s else
          failed ← (if (r_program s =? NFS_PROGRAM) && (r_version s =? NFS_V3)
                    then r ← p_buf x; Some (negb (read_status r =? 0)) else Some false);
          if failed : bool then payload_finished s else
          zc ← read_zero_copy s p x;
          match zc with
          | None => Some (Return s (-1))
          | Some (s, true) => Some (Continue s)
          | Some (s, false) => payload_finished s
          end
      end
  end.

Definition read_iovec_done s : option next_step :=
  p ← r_pdu s; x ← get_pdu s p;
  let s := put_pdu p (set_p_read_count (u32 (p_read_count x - r_pdu_size s)) x) s in
  let s := set_r_rm (u32 (r_rm s - r_pdu_size s)) s in
  if r_rm s =? 0 then s ← rpc_finished_pdu s; Some (Continue s)
  else Some (Continue (set_r_inpos 0 (set_r_state READ_PADDING s))).

Definition read_fragment_done s : option next_step :=
  match rpc_add_fragment (r_fragments s) (r_inbuf s) (r_inpos s) with
  | None => Some (Return s (-1))
  | Some fr => Some (Continue (set_r_inpos 0 (set_r_state READ_RM (set_r_fragments fr s))))
  end.

Definition read_done (now : Z) s : option next_step :=
  match r_state s with
  | READ_RM => read_marker_done s
  | READ_FRAGMENT => read_fragment_done s
  | READ_UNKNOWN => Some (Continue (set_r_inpos 0 (set_r_state READ_RM s)))
  | READ_PAYLOAD => read_payload_done now s
  | READ_IOVEC => read_iovec_done s
  | READ_PADDING => s ← rpc_finished_pdu s; Some (Continue s)
  end.

(** recv or readv of at most [count] bytes: what is received and the rest. *)
Definition take_input (count : Z) (rs : list rres) : bytes * list rres :=
  match rs with
  | RData d :: rs' =>
      let got := take (Z.to_nat count) d in
      (got, match drop (Z.to_nat count) d with [] => rs' | d' => RData d' :: rs' end)
  | _ => ([], rs)
  end.

(** The size of the vectors of a readv. *)
Definition readv_size s : option Z :=
  p ← r_pdu s; x ← get_pdu s p; Some (blen (addrs (p_in x))).

(** One turn of the loop, after [read_setup]. *)
Definition read_turn (now : Z) (rs : list rres) s : option (next_step * list rres) :=
  let '(s, count) := read_request s in
  count ← (match r_buf s with
           | Some _ => Some count
           | None =>
               p ← r_pdu s; x ← get_pdu s p;
               if bool_decide (0 < iovcnt (p_in x))%nat && (count <=? remaining_size (p_in x))
               then readv_size s else None
           end);
  match rs with
  | [] => Some (Return s 0, [])
  | RErr :: rs => Some (Return s (-1), rs)
  | RData _ :: _ =>
      let '(d, rs) := take_input count rs in
      if bool_decide (d = []) then Some (Return s (-1), rs) else
      s ← received d s;
      if r_inpos s =? r_pdu_size s
      then st ← read_done now s; Some (st, rs)
      else Some (Continue s, rs)
  end.

Fixpoint read_loop (fuel : nat) (now : Z) (rs : list rres) s : outcome (rpc R * Z * list rres) :=
  match fuel with
  | O => OutOfFuel
  | S fuel =>
      match (s ← read_setup s; read_turn now rs s) with
      | None => Crash
      | Some (Return s r, rs) => Done (s, r, rs)
      | Some (Continue s, rs) => read_loop fuel now rs s
      end
  end.

(** How many turns the input can last: one per byte and one to return. *)
Fixpoint input_size (rs : list rres) : nat :=
  match rs with
  | [] => 1
  | RData d :: rs => S (length d + input_size rs)
  | RErr :: rs => S (input_size rs)
  end.

(** The datagram of a UDP socket; [from_xid] is its first word. *)
Definition read_datagram (now : Z) (rs : list rres) s : option (rpc R * Z) :=
  match rs with
  | [] => Some (s, 0)
  | RErr :: _ => Some (s, -1)
  | RData d :: _ =>
      let b := take 65536 (d ++ zeros 4) in
      s' ← (if r_server s then Some (Some s) else
            w ← read_at 0 4 b;
            let s := set_r_rmx (of_be32 w) (set_r_rm (blen d) s) in
            '(s, found) ← rpc_find_pdu s (of_be32 w);
            Some (match found with Some p => Some (set_r_pdu (Some p) s) | None => None end));
      match s' with
      | None => Some (s, 0)
      | Some s =>
          '(s, r) ← rpc_process_pdu now d (Z.min (blen d) 65536) s;
          Some (s, if r =? 0 then 0 else -1)
      end
  end.

Definition rpc_read_from_socket (now : Z) (rs : list rres) s : outcome (rpc R * Z) :=
  if r_disabled s then Done (s, 0) else
  if r_udp s then
    match read_datagram now rs s with Some (s, r) => Done (s, r) | None => Crash end
  else
    match read_loop (input_size rs) now rs s with
    | Done (s, r, _) => Done (s, r)
    | Crash => Crash
    | OutOfFuel => OutOfFuel
    end.
End recv.
