(* ===== verification/RecvProps.v ===== *)
(** * RecvProps: what is read from the socket

    The reading loop always ends, and on a stream without zero-copy READs what
    it does depends on the bytes received and not on how they were cut into
    segments.  A reply is given to the PDU that waits for it, and to no other;
    a record nobody waits for is skipped. *)

From S2P Require Import Prelude Zdr RpcMsg Cursor Queue RpcState Context Send SendProps Recv.

Section reading.
Context {R : Type} (zero_res : R) (read_status : R -> Z)
  (process_call : ZDR -> rpc R -> option (rpc R * Z)).
Implicit Types (s : rpc R) (p : id) (x : pdu R).

#[local] Notation read_turn := (read_turn zero_res read_status process_call).
#[local] Notation read_loop := (read_loop zero_res read_status process_call).
#[local] Notation read_done := (read_done zero_res read_status process_call).

(** ** Termination *)

Lemma take_input_size count d rs d' rs' :
  take_input count (RData d :: rs) = (d', rs') -> d' <> [] ->
  (input_size rs' < input_size (RData d :: rs))%nat.
Proof.
  cbn. intros [= <- <-] Hne. destruct (drop (Z.to_nat count) d) as [|y l] eqn:E; cbn; [lia|].
  assert (length (drop (Z.to_nat count) d) = S (length l)) as Hl by by rewrite E.
  rewrite length_drop in Hl. destruct (Z.to_nat count); [done|]. lia.
Qed.

Lemma read_turn_consumes now rs s s' rs' :
  read_turn now rs s = Some (Continue s', rs') -> (input_size rs' < input_size rs)%nat.
Proof.
  unfold Recv.read_turn. destruct (read_request s) as [s1 count1].
  destruct (match r_buf s1 with Some _ => _ | None => _ end) as [count|]; [|done].
  cbn [mbind option_bind].
  destruct rs as [|[d|] rs]; [done| |done].
  destruct (take_input count (RData d :: rs)) as [d' rs1] eqn:E.
  case_bool_decide as Hd; [done|].
  destruct (received d' s1) as [s2|]; cbn [mbind option_bind]; [|done].
  pose proof (take_input_size _ _ _ _ _ E Hd).
  destruct (r_inpos s2 =? r_pdu_size s2).
  - destruct (Recv.read_done _ _ _ now s2) as [st|]; cbn; [|done]. by intros [= -> <-].
  - by intros [= <- <-].
Qed.

Lemma read_loop_fuel now fuel : forall rs s,
  (input_size rs <= fuel)%nat -> read_loop fuel now rs s <> OutOfFuel.
Proof.
  induction fuel as [|fuel IH]; intros rs s Hf; [destruct rs as [|[|]]; cbn in Hf; lia|]. cbn.
  destruct (read_setup s) as [s1|]; cbn [mbind option_bind]; [|done].
  destruct (Recv.read_turn _ _ _ now rs s1) as [[[s2|s2 r] rs']|] eqn:E; [|done|done].
  apply IH. apply read_turn_consumes in E. lia.
Qed.

(** C33: reading always ends: whatever the state of the context and whatever the socket delivers,
    one turn of the loop per byte received and one more are enough. *)
Theorem read_terminates now rs s :
  rpc_read_from_socket zero_res read_status process_call now rs s <> OutOfFuel.
Proof.
  unfold rpc_read_from_socket. destruct (r_disabled s); [done|]. destruct (r_udp s).
  { by destruct (read_datagram _ _ _ _ _) as [[]|]. }
  pose proof (read_loop_fuel now (input_size rs) rs s). 
  destruct (Recv.read_loop _ _ _ _ _ _ _) as [[[]]| |]; [done|done|]. intros _. by apply H.
Qed.

(** ** Segments *)

(** Is the context one of a server? *)
Context (srv : bool).

(** A PDU that does not read into the buffers of its caller. *)
Definition copying x : Prop := base (p_in x) = None /\ p_free_zdr x = false /\ p_free_pdu x = false.

Definition no_zero_copy s : Prop := forall p x, get_pdu s p = Some x -> copying x.

Definition mode s : bool * bool * bool := (r_server s, r_udp s, r_disabled s).

(** On a stream socket that is not disabled. *)
Definition tcp s : Prop := mode s = (srv, false, false).
Definition tcp_client s : Prop := mode s = (false, false, false).

Lemma tcp_client_server s : tcp_client s -> r_server s = false.
Proof. unfold tcp_client, mode. congruence. Qed.

Lemma tcp_server s : tcp s -> r_server s = srv.
Proof. unfold tcp, mode. congruence. Qed.

(** The reader is at a marker, or in a record of a size that was checked. *)
Definition in_record s : Prop :=
  r_state s = READ_RM \/
  (r_state s = READ_PAYLOAD \/ r_state s = READ_UNKNOWN) /\ 8 <= r_rm s <= MAX_FRAGMENT_SIZE.

(** The reader is at a marker, or in a record of a size that was
    checked, and never at the end of what it is reading. *)
Record plain s : Prop := {
  pl_tcp : tcp s;
  pl_nzc : no_zero_copy s;
  pl_state : in_record s;
  pl_pos : r_inpos s <> 0 -> r_buf s <> None /\ 0 < r_inpos s < r_pdu_size s /\ r_pdu_size s < 2 ^ 32;
}.

(** The same after [read_setup]: there is a place for more bytes. *)
Record ready s : Prop := {
  rd_tcp : tcp s;
  rd_nzc : no_zero_copy s;
  rd_state : in_record s;
  rd_buf : exists b, r_buf s = Some b;
  rd_pos : 0 <= r_inpos s < r_pdu_size s /\ r_pdu_size s < 2 ^ 32;
  rd_start : r_inpos s = 0 -> r_state s = READ_RM /\ r_pdu_size s = 8 /\
    r_buf s = Some (MarkerBuf 0) /\ r_pdu s = None;
}.

Lemma no_zero_copy_base s p x : no_zero_copy s -> get_pdu s p = Some x -> is_some (base (p_in x)) = false.
Proof. intros H Hx. destruct (H p x Hx) as [Hb _]. by rewrite Hb. Qed.

Lemma setup_ready s s1 : plain s -> read_setup s = Some s1 -> ready s1.
Proof.
  intros [Hc Hz Hs Hp]. unfold read_setup. destruct (r_inpos s =? 0) eqn:E; cbn [negb].
  2: { intros [= <-]. destruct Hp as (Hb & Hp & Hl); [lia|].
       split; try done; try lia. by destruct (r_buf s) as [b|]; [exists b|]. }
  unfold in_record, MAX_FRAGMENT_SIZE in Hs. destruct Hs as [Hs|[[Hs|Hs] Hr]]; rewrite Hs.
  - intros [= <-]. split; cbn; try done; try lia; [by left|eauto].
  - cbn. intros H.
    assert (exists s0, s0 = set_r_inpos 4 (set_r_pdu_size (r_rm s) (set_r_buf (Some (InbufAt 4)) s)) /\ s1 = s0)
      as (s0 & -> & ->).
    { eexists. split; [done|]. destruct (r_pdu s) as [p|]; [|by simplify_eq].
      unfold get_pdu in *; cbn in H. destruct (r_pdus s !! p) as [x|] eqn:Hx; cbn in H; [|done].
      rewrite (no_zero_copy_base s p x) in H by done. cbn in H. by simplify_eq. }
    split; cbn; try done; try lia; [right; cbn; split; [by left|unfold MAX_FRAGMENT_SIZE; lia]|eauto].
  - destruct (_ <=? _); [|done]. intros [= <-].
    split; cbn; try done; try lia; [right; cbn; split; [by right|unfold MAX_FRAGMENT_SIZE; lia]|eauto].
Qed.

Lemma setup_again s1 : ready s1 -> read_setup s1 = Some s1.
Proof.
  intros [Hc Hz Hs [b Hb] Hp H0]. unfold read_setup. destruct (r_inpos s1 =? 0) eqn:E; [|done]. cbn [negb].
  destruct H0 as (-> & H8 & Hm & Hn); [lia|].
  destruct s1; cbn in *. clear Hz. by simplify_eq.
Qed.

(** *** What a context without zero-copy READs keeps *)

Definition calm s : Prop := tcp s /\ no_zero_copy s.

(** What the reader of a server asks of its handling of a call; a client
    never asks. *)
Class Keeps (pc : ZDR -> rpc R -> option (rpc R * Z)) : Prop :=
  keeps : srv = true -> forall z s s' r, calm s -> pc z s = Some (s', r) -> calm s'.

Context `{!Keeps process_call}.

Lemma calm_put s p x : calm s -> copying x -> calm (put_pdu p x s).
Proof.
  intros [Hs Hz] Hx. split; [done|]. intros q y. rewrite get_put. case_bool_decide; [by intros [= <-]|apply Hz].
Qed.

Lemma calm_pdus s s' : calm s -> mode s' = mode s -> r_pdus s' = r_pdus s -> calm s'.
Proof. intros [Hs Hz] E1 E2. split; [unfold tcp in *; congruence|]. intros p x. unfold get_pdu. rewrite E2. apply Hz. Qed.

Lemma calm_cb s p st d s' : calm s -> call_cb s p st d = Some s' -> calm s' /\ r_pdus s' = r_pdus s.
Proof.
  unfold call_cb. intros Hc. destruct (get_pdu s p) as [x|]; cbn; [|done].
  destruct (p_cb x); [|done]. intros [= <-]. done.
Qed.

Lemma calm_free s p s' : calm s -> rpc_free_pdu s p = Some s' -> calm s'.
Proof.
  unfold rpc_free_pdu. intros [Hs Hz]. destruct (get_pdu s p) as [x|]; cbn; [|done]. intros [= <-].
  split; [done|]. intros q y. unfold get_pdu, log; cbn. intros Hq.
  apply lookup_delete_Some in Hq as [_ Hq]. by apply (Hz q).
Qed.

Lemma calm_find s k s' found :
  Recv.rpc_find_pdu s k = Some (s', found) -> r_pdus s' = r_pdus s /\ mode s' = mode s.
Proof.
  unfold Recv.rpc_find_pdu. destruct (find_xid s k (r_outqueue s)) as [p|].
  { destruct (take_found _ _ _); cbn; [|done]. by intros [= <- <-]. }
  destruct (r_waitpdu s !! _) as [w|]; cbn; [|done]. destruct (find_xid s k w) as [p|]; [|by intros [= <- <-]].
  destruct (take_found s p w); cbn; [|done]. intros [= <- <-]. by destruct (_ && _).
Qed.

Lemma copying_buf b x : copying x -> copying (set_p_buf b x).
Proof. done. Qed.

#[local] Hint Resolve calm_put copying_buf : calm.

Lemma calm_reply now z s s' z' : calm s -> rpc_process_reply zero_res now z s = Some (s', z') -> calm s'.
Proof.
  unfold rpc_process_reply. intros Hc.
  change (get_pdu (inc_resp_rcvd s)) with (get_pdu s). change (r_pdu (inc_resp_rcvd s)) with (r_pdu s).
  destruct (r_pdu s) as [p|]; cbn [mbind option_bind]; [|done].
  destruct (get_pdu s p) as [x|] eqn:Hx; cbn [mbind option_bind]; [|done].
  assert (Hcx : copying x) by (eapply Hc; eauto).
  assert (Hci : calm (inc_resp_rcvd s)) by by apply (calm_pdus s).
  set (x1 := if p_bufsize x >? 0 then _ else x).
  assert (Hc1 : copying x1) by by subst x1; destruct (_ >? 0). clearbody x1.
  destruct (zdr_replymsg _ _ _ _) as [m z1|m z1|]; [| |done].
  - set (x2 := match body m, p_buf x1 with RBody _, Some _ => _ | _, _ => _ end).
    assert (Hc2 : copying x2) by by subst x2; destruct (body m), (p_buf x1). clearbody x2.
    assert (Hb : is_some (base (p_in x2)) = false) by by destruct Hc2 as [-> _].
    destruct (negb _).
    { destruct (call_cb _ _ _ _) as [s1|] eqn:E; cbn; [|done]. intros [= <- <-].
      apply calm_cb in E as [? _]; auto with calm. }
    destruct (_ =? SUCCESS).
    { rewrite Hb. destruct (call_cb _ _ _ _) as [s1|] eqn:E; cbn; [|done]. intros [= <- <-].
      apply calm_cb in E as [? _]; [done|].
      apply (calm_pdus (put_pdu p x2 (put_pdu p x1 (inc_resp_rcvd s)))); auto with calm. }
    destruct (call_cb _ _ _ _) as [s1|] eqn:E; cbn; [|done]. intros [= <- <-].
    apply calm_cb in E as [? _]; auto with calm.
  - destruct (call_cb _ _ _ _) as [s1|] eqn:E; cbn; [|done]. intros [= <- <-].
    apply calm_cb in E as [? _]; auto with calm.
Qed.

Lemma calm_process now b sz s s' r :
  calm s -> rpc_process_pdu zero_res process_call now b sz s = Some (s', r) -> calm s'.
Proof.
  unfold rpc_process_pdu. intros Hc. rewrite (tcp_server s (proj1 Hc)).
  destruct srv eqn:Hsrv. { by apply (keeps Hsrv). }
  destruct (rpc_process_reply _ _ _ s) as [[s1 z]|] eqn:E; cbn; [|done].
  apply calm_reply in E; [|done]. destruct (r_fragments s1); [|by intros [= <- <-]].
  destruct (r_pdu s1) as [p|]; [|by intros [= <- <-]].
  destruct (get_pdu s1 p) as [x|] eqn:Hx; cbn; [|done].
  rewrite (no_zero_copy_base s1 p x) by (done || apply E). by intros [= <- <-].
Qed.

Lemma calm_finished s s' : calm s -> rpc_finished_pdu s = Some s' ->
  calm s' /\ r_inpos s' = 0 /\ r_state s' = READ_RM.
Proof.
  intros Hc. unfold rpc_finished_pdu. destruct (r_pdu s) as [p|] eqn:Ep; cbn.
  - destruct (get_pdu s p) as [x|] eqn:Hx; cbn; [|done].
    assert (p_free_pdu x = false) as -> by apply (proj2 Hc p x Hx). cbn. rewrite Ep.
    destruct (r_udp s && r_broadcast s); [by intros [= <-]|].
    destruct (rpc_free_pdu _ p) as [s1|] eqn:E; cbn; [|done]. intros [= <-].
    assert (Hc1 : calm s1) by (eapply calm_free; [|exact E]; exact Hc).
    split; [exact Hc1|]. unfold rpc_free_pdu in E.
    destruct (get_pdu _ p); cbn in E; [|done]. by injection E as <-.
  - rewrite Ep. by intros [= <-].
Qed.

Lemma calm_payload_finished s st : calm s -> payload_finished s = Some st ->
  exists s', st = Continue s' /\ calm s' /\ r_inpos s' = 0 /\ r_state s' = READ_RM.
Proof.
  unfold payload_finished. intros Hc. destruct (rpc_finished_pdu _) as [s1|] eqn:E; cbn; [|done].
  intros [= <-]. exists s1. split; [done|]. eapply calm_finished; [|exact E]. by destruct (r_fragments s).
Qed.

(** The PDU a record is for, which only a client looks for. *)
Lemma marker_pdu s s2 need :
  calm s -> r_state s = READ_PAYLOAD ->
  (if r_server s then Some (s, r_rm s) else
   '(s, found) ← Recv.rpc_find_pdu s (r_rmx s);
   let s := set_r_pdu found s in
   match found : option id with
   | Some p => x ← get_pdu s p; Some (s, if is_some (base (p_in x)) then ZCRP else r_rm s)
   | None => Some (s, r_rm s)
   end) = Some (s2, need) ->
  calm s2 /\ r_rm s2 = r_rm s /\ r_state s2 = READ_PAYLOAD.
Proof.
  intros Hc Hst. destruct (r_server s); [by intros [= <- <-]|].
  destruct (Recv.rpc_find_pdu s (r_rmx s)) as [[s1 found]|] eqn:Ef; cbn [mbind option_bind]; [|done].
  assert (H1 : r_rm s1 = r_rm s /\ r_state s1 = READ_PAYLOAD).
  { clear -Ef Hst. unfold Recv.rpc_find_pdu in Ef. destruct (find_xid _ _ _).
    { destruct (take_found _ _ _); cbn in Ef; [|done]. by injection Ef as <- _. }
    destruct (r_waitpdu s !! _); cbn in Ef; [|done]. destruct (find_xid _ _ _); [|by injection Ef as <- _].
    destruct (take_found _ _ _); cbn in Ef; [|done]. injection Ef as <- _. by destruct (_ && _). }
  apply calm_find in Ef as [Ep Es].
  assert (Hc2 : calm (set_r_pdu found s1)) by (apply (calm_pdus s); [done|exact Es|exact Ep]).
  destruct found as [p|]; [|by intros [= <- <-]].
  destruct (get_pdu _ p); cbn; [|done]. by intros [= <- <-].
Qed.

(** A record is complete: the reader goes back to the marker, or the marker
    was read and the size is good. *)
Lemma plain_next now s s' : calm s -> in_record s -> read_done now s = Some (Continue s') -> plain s'.
Proof.
  intros Hcalm Hs. unfold Recv.read_done.
  assert (Hat_rm : forall s', calm s' /\ r_inpos s' = 0 /\ r_state s' = READ_RM -> plain s').
  { intros s0 ([Hc0 Hz0] & Hi0 & Hs0). split; [done|done|by left|by rewrite Hi0]. }
  destruct Hs as [->|[[->| ->] Hr]].
  - unfold read_marker_done. destruct (read_at 0 4 (r_rmbuf s)) as [w0|]; cbn [mbind option_bind]; [|done].
    destruct (read_at 4 4 (r_rmbuf s)) as [w1|]; cbn [mbind option_bind]; [|done].
    destruct (_ =? 0); [done|]. cbn [r_rm set_r_rm set_r_state].
    destruct (_ || _) eqn:Er; [done|]. apply orb_false_iff in Er as [Er1 Er2].
    set (s1 := set_r_rmx _ _).
    destruct (if r_server s1 then _ else _) as [[s2 need]|] eqn:Ef; cbn [mbind option_bind]; [|done].
    apply marker_pdu in Ef as (Hc2 & Hrm & Hst); [|by apply (calm_pdus s)|done].
    destruct (adjust_inbuf _ _) as [b|].
    2: { destruct (r_pdu s2); [|done]. destruct (r_server s2); [done|].
         by destruct (rpc_return_to_outqueue _ _). }
    destruct (write_at 0 _ b) as [b'|]; cbn [mbind option_bind]; [|done].
    intros [= <-]. unfold MAX_FRAGMENT_SIZE.
    assert (Hrm1 : 8 <= r_rm s1 <= 8 * 1024 * 1024).
    { subst s1. cbn in *. unfold MAX_FRAGMENT_SIZE in Er2. lia. }
    destruct Hc2 as [Hc2 Hz2]. destruct (_ && _); (split; [done|done|right; cbn; split; [auto|unfold MAX_FRAGMENT_SIZE; lia]|done]).
  - unfold read_payload_done. destruct (match r_fragments s with [] => _ | _ => _ end) as [[b sz]|]; [|done].
    destruct (rpc_process_pdu _ _ _ _ _ _) as [[s1 r]|] eqn:E; cbn [mbind option_bind]; [|done].
    apply calm_process in E as Hc1; [|done]. destruct (negb (r =? 0)); [done|].
    destruct (r_pdu s1) as [p|].
    + destruct (get_pdu s1 p) as [x|] eqn:Hx; cbn; [|done].
      assert (p_free_zdr x = false) as -> by apply (proj2 Hc1 p x Hx). cbn.
      intros (s2 & [= ->] & H2)%calm_payload_finished; auto.
    + intros (s2 & [= ->] & H2)%calm_payload_finished; auto.
  - intros [= <-]. by apply Hat_rm.
Qed.

(** *** The loop without its fuel *)

Definition forget {A B} (o : outcome (A * B)) : outcome A :=
  match o with Done (a, _) => Done a | Crash => Crash | OutOfFuel => OutOfFuel end.

Definition run now rs s : outcome (rpc R * Z) := forget (read_loop (input_size rs) now rs s).

Lemma read_loop_more now fuel : forall fuel' rs s,
  (fuel <= fuel')%nat -> read_loop fuel now rs s <> OutOfFuel ->
  read_loop fuel' now rs s = read_loop fuel now rs s.
Proof.
  induction fuel as [|fuel IH]; intros fuel' rs s Hf H; [done|]. destruct fuel' as [|fuel']; [lia|]. cbn in *.
  destruct (s1 ← read_setup s; Recv.read_turn zero_res read_status process_call now rs s1) as [[[s2|s2 r] rs']|];
    [|done|done].
  apply IH; [lia|done].
Qed.

Lemma run_step now rs s :
  run now rs s =
    match (s1 ← read_setup s; read_turn now rs s1) with
    | None => Crash
    | Some (Return s1 r, _) => Done (s1, r)
    | Some (Continue s1, rs1) => run now rs1 s1
    end.
Proof.
  unfold run. assert (exists n, input_size rs = S n) as [n En] by (destruct rs as [|[|]]; cbn; eauto).
  rewrite En. cbn [Recv.read_loop].
  destruct (read_setup s) as [s0|]; cbn [mbind option_bind]; [|done].
  destruct (Recv.read_turn _ _ _ now rs s0) as [[[s1|s1 r] rs1]|] eqn:E; [|done|done].
  apply read_turn_consumes in E. f_equal. apply read_loop_more; [lia|]. apply read_loop_fuel. lia.
Qed.

(** *** One turn on a client without zero-copy READs *)

Definition fetch (n : nat) (d : bytes) (rs : list rres) : list rres :=
  match drop n d with [] => rs | d' => RData d' :: rs end.

Definition wanted s : nat := Z.to_nat (r_pdu_size s - r_inpos s).

Lemma ready_turn now d rs s :
  ready s -> d <> [] ->
  read_turn now (RData d :: rs) s =
    (s1 ← received (take (wanted s) d) s;
     if r_inpos s1 =? r_pdu_size s1
     then st ← read_done now s1; Some (st, fetch (wanted s) d rs)
     else Some (Continue s1, fetch (wanted s) d rs)).
Proof.
  intros [Hc Hz Hs [b Hb] [Hp Hl] _] Hd. unfold Recv.read_turn, read_request, wanted.
  assert (Hnp : r_state s <> READ_PADDING) by (destruct Hs as [->|[[->| ->] _]]; done).
  rewrite bool_decide_false by done. rewrite u32_id by solve_width. rewrite Hb. cbn [mbind option_bind].
  unfold take_input. rewrite bool_decide_false; [done|].
  intros E. apply (f_equal length) in E. rewrite length_take in E. cbn in E. destruct d; [done|]. cbn in E. lia.
Qed.

Lemma received_facts d s s1 :
  ready s -> received d s = Some s1 -> 0 < blen d <= r_pdu_size s - r_inpos s ->
  calm s1 /\ r_state s1 = r_state s /\ r_rm s1 = r_rm s /\ r_pdu_size s1 = r_pdu_size s /\
  r_inpos s1 = r_inpos s + blen d /\ exists b, r_buf s1 = Some b.
Proof.
  intros [Hc Hz Hs [b Hb] [Hp Hl] _] E Hd. unfold received in E. cbn [r_buf set_r_inpos] in E. rewrite Hb in E.
  rewrite u32_id in E by solve_width.
  destruct b; (destruct (write_at _ _ _) as [b'|]; cbn [mbind option_bind] in E; [|done]);
    injection E as <-; cbn; (split; [done|]); eauto 10.
Qed.

(** The PDU of a part being read is found again in the next turn. *)
Lemma partly_ready d s s1 :
  ready s -> received d s = Some s1 -> 0 < blen d < r_pdu_size s - r_inpos s -> ready s1 /\ plain s1.
Proof.
  intros Hr E Hd. destruct (received_facts d s s1 Hr E) as (Hc & Hst & Hrm & Hsz & Hin & b & Hb); [lia|].
  destruct Hr as [_ _ Hs _ [Hp Hl] _]. destruct Hc as [Hc Hz].
  assert (Hs1 : in_record s1) by by unfold in_record; rewrite Hst, Hrm.
  split; split; try done; rewrite ?Hsz, ?Hin, ?Hb; try done; try lia; eauto.
  intros _. split; [done|lia].
Qed.


Lemma received_app d1 d2 s :
  ready s -> 0 < blen d1 -> 0 < blen d2 -> blen d1 + blen d2 <= r_pdu_size s - r_inpos s ->
  (s1 ← received d1 s; received d2 s1) = received (d1 ++ d2) s.
Proof.
  intros [Hc Hz Hs [b Hb] [Hp Hl] _] H1 H2 H. unfold received. cbn [r_buf set_r_inpos]. rewrite Hb, blen_app.
  assert (Hi : u32 (u32 (r_inpos s + blen d1) + blen d2) = u32 (r_inpos s + (blen d1 + blen d2))).
  { rewrite (u32_id (r_inpos s + blen d1)) by solve_width. f_equal. lia. }
  destruct b as [off|off]; cbn [r_rmbuf r_inbuf set_r_inpos].
  - destruct (write_at off d1 (r_rmbuf s)) as [b1|] eqn:E; cbn [mbind option_bind];
      [|by rewrite (write_at_app_none _ _ _ _ E)].
    cbn. rewrite (write_at_app _ _ _ _ _ E). destruct (write_at off (d1 ++ d2) (r_rmbuf s)); cbn; [|done].
    by rewrite Hi, <- Z.add_assoc.
  - destruct (write_at off d1 (r_inbuf s)) as [b1|] eqn:E; cbn [mbind option_bind];
      [|by rewrite (write_at_app_none _ _ _ _ E)].
    cbn. rewrite (write_at_app _ _ _ _ _ E). destruct (write_at off (d1 ++ d2) (r_inbuf s)); cbn; [|done].
    by rewrite Hi, <- Z.add_assoc.
Qed.

Lemma received_none d1 d2 s : ready s -> received d1 s = None -> received (d1 ++ d2) s = None.
Proof.
  intros [Hc Hz Hs [b Hb] [Hp Hl] _]. unfold received. cbn [r_buf set_r_inpos]. rewrite Hb.
  destruct b as [off|off]; cbn [r_rmbuf r_inbuf set_r_inpos];
    (destruct (write_at off d1 _) as [b1|] eqn:E; cbn [mbind option_bind]; [done|]);
    by rewrite (write_at_app_none _ _ _ _ E).
Qed.

(** A segment cut in two is read like the whole. *)
Lemma run_cut now n : forall d1 d2 rs s,
  (length d1 <= n)%nat -> plain s -> d1 <> [] -> d2 <> [] ->
  run now (RData d1 :: RData d2 :: rs) s = run now (RData (d1 ++ d2) :: rs) s.
Proof.
  induction n as [|n IH]; intros d1 d2 rs s Hn Hs H1 H2; [destruct d1; cbn in Hn; [done|lia]|].
  rewrite (run_step now (RData d1 :: _)), (run_step now (RData (d1 ++ d2) :: _)).
  destruct (read_setup s) as [s0|] eqn:E0; cbn [mbind option_bind]; [|done].
  pose proof (setup_ready _ _ Hs E0) as Hr.
  assert (H12 : d1 ++ d2 <> []) by by destruct d1.
  rewrite !ready_turn by done. pose proof (rd_pos _ Hr) as [Hp Hl].
  assert (Hd1 : 0 < blen d1) by (destruct d1; [done|]; rewrite blen_cons; pose proof (blen_nonneg d1); lia).
  assert (Hd2 : 0 < blen d2) by (destruct d2; [done|]; rewrite blen_cons; pose proof (blen_nonneg d2); lia).
  assert (Hw : Z.of_nat (wanted s0) = r_pdu_size s0 - r_inpos s0) by (unfold wanted; lia).
  unfold blen in Hd1, Hd2. destruct (decide (wanted s0 <= length d1)%nat) as [Hle|Hgt].
  - rewrite take_app_le by lia. unfold fetch. rewrite drop_app_le by lia.
    destruct (received (take (wanted s0) d1) s0) as [s1|] eqn:E1; cbn [mbind option_bind]; [|done].
    assert (Hlen : 0 < blen (take (wanted s0) d1) <= r_pdu_size s0 - r_inpos s0)
      by (unfold blen; rewrite length_take; lia).
    destruct (received_facts _ _ _ Hr E1 Hlen) as (Hc1 & Hst & Hrm & Hsz & Hin & _).
    assert (Hfull : r_inpos s1 = r_pdu_size s1).
    { rewrite Hin, Hsz. unfold blen. rewrite length_take. lia. }
    rewrite Hfull, Z.eqb_refl.
    destruct (Recv.read_done _ _ _ now s1) as [[s2|s2 r]|] eqn:Ed; cbn [mbind option_bind]; [|done|done].
    assert (Hp2 : plain s2).
    { eapply plain_next; [exact Hc1| |exact Ed]. unfold in_record. rewrite Hst, Hrm. apply Hr. }
    destruct (drop (wanted s0) d1) as [|y l] eqn:Edrop; cbn [app].
    + by destruct d2.
    + apply IH; [|done|done|done].
      apply (f_equal length) in Edrop. rewrite length_drop in Edrop. cbn in *. lia.
  - assert (Ht1 : take (wanted s0) d1 = d1) by (apply take_ge; lia).
    assert (Hf1 : fetch (wanted s0) d1 (RData d2 :: rs) = RData d2 :: rs).
    { unfold fetch. by rewrite drop_ge by lia. }
    rewrite Ht1, Hf1, take_app_ge by lia.
    set (e := take (wanted s0 - length d1) d2).
    assert (He : 0 < blen e <= r_pdu_size s0 - r_inpos s0 - blen d1)
      by (subst e; unfold blen; rewrite length_take; lia).
    destruct (received d1 s0) as [s1|] eqn:E1; cbn [mbind option_bind].
    2: { by rewrite (received_none _ _ _ Hr E1). }
    destruct (partly_ready d1 s0 s1 Hr E1) as [Hr1 Hp1]; [unfold blen; lia|].
    destruct (received_facts _ _ _ Hr E1) as (Hc1 & Hst & Hrm & Hsz & Hin & _); [unfold blen; lia|].
    replace (r_inpos s1 =? r_pdu_size s1) with false by (rewrite Hsz, Hin; unfold blen in *; lia).
    cbv iota beta. rewrite run_step, (setup_again _ Hr1). cbn [mbind option_bind]. rewrite ready_turn by done.
    assert (wanted s1 = wanted s0 - length d1)%nat as Hw1 by (unfold wanted; rewrite Hsz, Hin; unfold blen; lia).
    rewrite Hw1. fold e.
    rewrite <- (received_app d1 e s0 Hr) by (unfold blen in *; lia). rewrite E1. cbn [mbind option_bind].
    assert (Hf : fetch (wanted s0 - length d1) d2 rs = fetch (wanted s0) (d1 ++ d2) rs).
    { unfold fetch. by rewrite drop_app_ge by lia. }
    by rewrite Hf.
Qed.

Lemma run_concat now d ds : forall s,
  plain s -> Forall (fun d => d <> []) (d :: ds) ->
  run now (map RData (d :: ds)) s = run now [RData (concat (d :: ds))] s.
Proof.
  revert d. induction ds as [|d2 ds IH]; intros d s Hs [H1 Hds]%Forall_cons; cbn [map concat].
  { by rewrite app_nil_r. }
  apply Forall_cons in Hds as [H2 Hds].
  rewrite (run_cut now _ d d2 _ s (le_n _)) by done. rewrite app_assoc.
  apply (IH (d ++ d2)); [done|]. constructor; [by destruct d|done].
Qed.

(** A part that is complete never makes the loop return 0. *)
Lemma done_return now s s' r : read_done now s = Some (Return s' r) -> r = -1.
Proof.
  unfold Recv.read_done.
  assert (Hf : forall s0, payload_finished s0 <> Some (Return s' r)).
  { intros s0. unfold payload_finished. by destruct (rpc_finished_pdu _). }
  destruct (r_state s); unfold read_marker_done, read_payload_done, read_fragment_done, read_iovec_done;
    repeat first [done | by (intros E; exfalso; eapply Hf; exact E) | by intros [= _ <-]
      | progress (cbn [mbind option_bind])
      | match goal with |- ?o ≫= _ = _ -> _ => destruct o end
      | match goal with |- context [match ?o with _ => _ end] => destruct o end].
Qed.

Definition segment (r : rres) : Prop := exists d, r = RData d /\ d <> [].

Lemma fetch_app n d rs rs2 : fetch n d (rs ++ rs2) = fetch n d rs ++ rs2.
Proof. unfold fetch. by destruct (drop n d). Qed.

Lemma fetch_segments n d rs : Forall segment rs -> Forall segment (fetch n d rs).
Proof.
  intros H. unfold fetch. destruct (drop n d) as [|y l]; [done|]. constructor; [by exists (y :: l)|done].
Qed.

Lemma ready_plain s : ready s -> plain s.
Proof. intros [Hc Hz Hs [b Hb] Hp _]. split; try done. intros H. rewrite Hb. split; [done|lia]. Qed.

(** A reader that stops because the socket is empty goes on where it was. *)
Lemma run_again now n : forall rs s rs2 s1,
  (input_size rs <= n)%nat -> plain s -> Forall segment rs -> run now rs s = Done (s1, 0) ->
  run now (rs ++ rs2) s = run now rs2 s1 /\ plain s1.
Proof.
  induction n as [|n IH]; intros rs s rs2 s1 Hn Hs Hrs E; [destruct rs as [|[|]]; cbn in Hn; lia|].
  rewrite run_step in E. destruct (read_setup s) as [s0|] eqn:E0; cbn [mbind option_bind] in E; [|done].
  pose proof (setup_ready _ _ Hs E0) as Hr. destruct Hrs as [|r rs (d & -> & Hd) Hrs].
  - assert (s0 = s1) as <-.
    { revert E. unfold Recv.read_turn, read_request. destruct Hr as [_ _ Hst [b Hb] _ _].
      assert (r_state s0 <> READ_PADDING) by (destruct Hst as [->|[[->| ->] _]]; done).
      rewrite bool_decide_false, Hb by done. cbn. by intros [= ->]. }
    cbn [app]. split; [|by apply ready_plain].
    by rewrite (run_step now rs2 s), (run_step now rs2 s0), E0, (setup_again _ Hr).
  - cbn [app]. rewrite run_step, E0. cbn [mbind option_bind]. rewrite !ready_turn in * by done.
    rewrite fetch_app. pose proof (take_input_size (r_pdu_size s0 - r_inpos s0) d rs _ _ eq_refl) as Hsz.
    fold (wanted s0) in Hsz. fold (fetch (wanted s0) d rs) in Hsz.
    pose proof (rd_pos _ Hr) as [Hp Hl].
    assert (Hlen : 0 < blen (take (wanted s0) d) <= r_pdu_size s0 - r_inpos s0).
    { assert (0 < length d)%nat by (destruct d; [done|cbn; lia]).
      unfold blen, wanted. rewrite length_take. lia. }
    assert (Hf : (input_size (fetch (wanted s0) d rs) <= n)%nat).
    { assert (Hne : take (wanted s0) d <> []).
      { intros Ht. apply (f_equal blen) in Ht. change (blen (@nil Z)) with 0 in Ht. lia. }
      specialize (Hsz Hne). cbn [input_size] in *. lia. }
    destruct (received _ s0) as [s2|] eqn:E2; cbn [mbind option_bind] in *; [|done].
    destruct (received_facts _ _ _ Hr E2 Hlen) as (Hc2 & Hst & Hrm & Hsz2 & Hin & b & Hb).
    assert (Hir : in_record s2) by (unfold in_record; rewrite Hst, Hrm; apply Hr).
    destruct (r_inpos s2 =? r_pdu_size s2) eqn:Ei.
    + destruct (Recv.read_done _ _ _ now s2) as [[s3|s3 r]|] eqn:Ed; cbn [mbind option_bind] in *; [| |done].
      * apply IH; [done|by eapply plain_next|by apply fetch_segments|done].
      * apply done_return in Ed as ->. done.
    + apply IH; [done| |by apply fetch_segments|done].
      apply (partly_ready _ s0 s2 Hr E2). rewrite Hin, Hsz2 in Ei. lia.
Qed.

Lemma read_is_run now rs s :
  plain s -> rpc_read_from_socket zero_res read_status process_call now rs s = run now rs s.
Proof.
  intros [Hc _ _ _]. unfold tcp, mode in Hc. injection Hc as _ Hu Hdis.
  unfold rpc_read_from_socket. rewrite Hdis, Hu. unfold run.
  by destruct (Recv.read_loop _ _ _ _ _ _ _) as [[[]]| |].
Qed.

Lemma run_chunks now ds1 ds2 s :
  plain s -> Forall (fun d => d <> []) ds1 -> Forall (fun d => d <> []) ds2 -> concat ds1 = concat ds2 ->
  run now (map RData ds1) s = run now (map RData ds2) s.
Proof.
  intros Hs H1 H2 Hc. destruct ds1 as [|d1 ds1], ds2 as [|d2 ds2].
  - done.
  - apply Forall_cons in H2 as [H2 _]. by destruct d2.
  - apply Forall_cons in H1 as [H1 _]. by destruct d1.
  - by rewrite !run_concat, Hc by done.
Qed.

(** C9: how TCP cuts the stream does not matter. On a client without zero-copy READs, or on a
    server, reading segments that carry the same bytes gives the same context and result, and reading some of
    them, being told the socket is empty, and reading the others later is reading them all. *)
Theorem read_ignores_segments now ds1 ds2 ds s :
  plain s -> Forall (fun d => d <> []) (ds1 ++ ds2 ++ ds) ->
  (concat ds1 = concat ds2 ->
   rpc_read_from_socket zero_res read_status process_call now (map RData ds1) s =
   rpc_read_from_socket zero_res read_status process_call now (map RData ds2) s) /\
  (forall s1, rpc_read_from_socket zero_res read_status process_call now (map RData ds1) s = Done (s1, 0) ->
   rpc_read_from_socket zero_res read_status process_call now (map RData (ds1 ++ ds)) s =
   rpc_read_from_socket zero_res read_status process_call now (map RData ds) s1).
Proof.
  intros Hs Hd. apply Forall_app in Hd as [H1 [H2 H3]%Forall_app]. split.
  - intros Hc. rewrite !read_is_run by done. by apply run_chunks.
  - intros s1. rewrite read_is_run by done. intros E.
    assert (Hseg : Forall segment (map RData ds1)).
    { apply Forall_map. eapply Forall_impl; [exact H1|]. intros d Hd. by exists d. }
    destruct (run_again now _ (map RData ds1) s (map RData ds) s1 (le_n _) Hs Hseg E) as [E2 Hp1].
    rewrite !read_is_run by done. by rewrite map_app.
Qed.
End reading.

(** A client is given no calls. *)
#[export] Instance client_keeps {R} (pc : ZDR -> rpc R -> option (rpc R * Z)) : Keeps false pc.
Proof. done. Qed.

(** ** Instances *)

Definition copyingb {R} (x : pdu R) : bool :=
  negb (is_some (base (p_in x))) && negb (p_free_zdr x) && negb (p_free_pdu x).

Lemma copyingb_ok {R} (x : pdu R) : copyingb x = true -> copying x.
Proof. unfold copyingb, copying. by destruct (base (p_in x)), (p_free_zdr x), (p_free_pdu x). Qed.

Definition no_zero_copyb {R} (s : rpc R) : bool := forallb (fun t => copyingb t.2) (map_to_list (r_pdus s)).

Lemma no_zero_copyb_ok {R} (s : rpc R) : no_zero_copyb s = true -> no_zero_copy s.
Proof.
  intros H p x Hx. unfold get_pdu in Hx. apply elem_of_map_to_list in Hx.
  exact (forallb_all _ (fun t => copying t.2) _ (fun t => copyingb_ok t.2) H _ Hx).
Qed.

Definition in_recordb {R} (s : rpc R) : bool :=
  match r_state s with
  | READ_RM => true
  | READ_PAYLOAD | READ_UNKNOWN => (8 <=? r_rm s) && (r_rm s <=? MAX_FRAGMENT_SIZE)
  | _ => false
  end.

Definition plainb {R} (srv : bool) (s : rpc R) : bool :=
  eqb (r_server s) srv && negb (r_udp s) && negb (r_disabled s) && no_zero_copyb s && in_recordb s &&
  ((r_inpos s =? 0) ||
   match r_buf s with None => false | Some _ => true end && (0 <? r_inpos s) && (r_inpos s <? r_pdu_size s) &&
   (r_pdu_size s <? 2 ^ 32)).

Lemma plainb_ok {R} srv (s : rpc R) : plainb srv s = true -> plain srv s.
Proof.
  unfold plainb. intros H. split_andb. split.
  - unfold tcp, mode. by destruct (r_server s), srv, (r_udp s), (r_disabled s).
  - by apply no_zero_copyb_ok.
  - unfold in_recordb, in_record in *. destruct (r_state s); try done; [by left|right|right]; split_andb; split; auto; lia.
  - intros Hp. replace (r_inpos s =? 0) with false in * by lia. cbn [orb] in *. split_andb.
    split; [by destruct (r_buf s)|lia].
Qed.

(** Two calls have been written and wait for their replies, which are one word. *)
Definition written : rpc Z := from_option fst client (rpc_write_to_socket [WCount 104] (queue [] queued2 1%N)).
Definition word_pdu (p : id) : pdu Z :=
  let x := the_pdu written p in
  mkPdu (p_xid x) (p_cb x) (p_zdr x) (p_free_zdr x) (p_free_pdu x) (p_data x) (p_marker x) (p_out x) (p_in x)
    (p_read_count x) (p_requested x) zdr_u_int 4 None (p_discard x) (p_no_retry x) (p_timeout x) (p_major x)
    (p_snr x).
Definition waiting : rpc Z := put_pdu 0%N (word_pdu 0%N) (put_pdu 1%N (word_pdu 1%N) written).

Lemma waiting_pdu p : p = 0%N \/ p = 1%N -> get_pdu waiting p = Some (word_pdu p).
Proof.
  unfold waiting. intros [-> | ->]; [apply get_put_eq|].
  rewrite get_put_ne by discriminate. apply get_put_eq.
Qed.

Lemma waiting_plain : plain false waiting.
Proof. apply plainb_ok. by vm_compute. Qed.

(** The record of a reply to the first of them, whole and in two segments. *)
Definition reply5 : bytes :=
  be32 (2 ^ 31 + 28) ++ be32 5 ++ be32 1 ++ be32 0 ++ be32 0 ++ be32 0 ++ be32 0 ++ be32 7.
Definition whole : list bytes := [reply5].
Definition cut : list bytes := [take 13 reply5; drop 13 reply5].

Lemma read_ignores_segments_witness :
  rpc_read_from_socket 0 (fun _ => 0) (fun _ _ => None) 100 (map RData cut) waiting =
  rpc_read_from_socket 0 (fun _ => 0) (fun _ _ => None) 100 (map RData whole) waiting.
Proof.
  assert (Hc : concat cut = concat whole) by (vm_compute; reflexivity).
  assert (Hd : Forall (fun d => d <> []) (cut ++ whole ++ [])) by (repeat constructor; vm_compute; discriminate).
  destruct (read_ignores_segments 0 (fun _ => 0) (fun _ _ => None) false 100 cut whole [] waiting waiting_plain Hd) as [H _].
  exact (H Hc).
Defined.
