(* ===== verification/Record.v ===== *)
(** * Record: reading one record

    The record marker, the buffer it goes to and the rest of the record, for
    clients and servers: what the reading loop does with a segment that holds
    the rest of what it is reading. *)

From S2P Require Import Prelude Zdr RpcMsg Cursor Queue RpcState Context Send SendProps Recv RecvProps.

(** ** Record markers *)

Definition last_fragment (n : Z) : Z := Z.lor n 0x80000000.


Lemma last_fragment_facts n :
  0 <= n < 2 ^ 31 ->
  is_u32 (last_fragment n) /\ Z.land (last_fragment n) 0x80000000 <> 0 /\
  Z.land (last_fragment n) 0x7fffffff = n.
Proof.
  intros Hn. unfold last_fragment. split; [|split].
  - assert (Z.lor n 2147483648 < 2 ^ 32).
    { apply Z.log2_lt_cancel. rewrite Z.log2_lor by lia.
      change (Z.log2 2147483648) with 31. change (Z.log2 (2 ^ 32)) with 32.
      destruct (decide (n = 0)) as [->|]; [done|].
      pose proof (proj1 (Z.log2_lt_pow2 n 31 ltac:(lia)) ltac:(lia)). lia. }
    assert (0 <= Z.lor n 2147483648) by (apply Z.lor_nonneg; lia). unfold is_u32. lia.
  - intros E. apply (f_equal (fun z => Z.testbit z 31)) in E.
    rewrite Z.land_spec, Z.lor_spec in E. change (Z.testbit 2147483648 31) with true in E.
    rewrite orb_true_r in E. done.
  - change 2147483647 with (Z.ones 31). rewrite Z.land_lor_distr_l, !Z.land_ones by lia.
    change (2147483648 mod 2 ^ 31) with 0. rewrite Z.lor_0_r. by apply Z.mod_small.
Qed.

Section record.
Context {R : Type} (zero_res : R) (read_status : R -> Z)
  (process_call : ZDR -> rpc R -> option (rpc R * Z)).
Context (srv : bool) `{!Keeps srv process_call}.
Implicit Types (s : rpc R) (p : id) (x : pdu R) (st : input_state).

#[local] Notation run := (run zero_res read_status process_call).
#[local] Notation read_done := (read_done zero_res read_status process_call).

(** Between two records, on a connection where nothing is half-read. *)
Record at_marker s : Prop := {
  am_plain : plain srv s;
  am_state : r_state s = READ_RM;
  am_pos : r_inpos s = 0;
  am_rm : blen (r_rmbuf s) = 8;
  am_pdu : r_pdu s = None;
  am_fragments : r_fragments s = [];
}.

(** The context that starts on the rest of a record. *)
Definition started st (found : option id) (b : bytes) s : rpc R :=
  set_r_state st (set_r_inpos 0 (set_r_inbuf b (set_r_pdu found s))).

Lemma write_at_all d b : blen d = blen b -> write_at 0 d b = Some d.
Proof.
  intros Hd. pose proof (blen_nonneg d). rewrite write_at_ok by lia. unfold splice. cbn.
  rewrite drop_ge by (unfold blen in *; lia). by rewrite app_nil_r.
Qed.

(** The context when the eight bytes [h] of a marker have been read. *)
Definition got_marker (h : bytes) s : rpc R :=
  set_r_buf (Some (MarkerBuf 8)) (set_r_rmbuf h (set_r_inpos 8 (set_r_pdu_size 8 (set_r_pdu None s)))).

(** The context when the marker of a record of [n] bytes with xid [k] was good. *)
Definition marked (n k : Z) s : rpc R :=
  set_r_rmx k (set_r_rm n (set_r_state READ_PAYLOAD
    (set_r_rm (last_fragment n) (got_marker (be32 (last_fragment n) ++ be32 k) s)))).

Definition at_start s : rpc R := set_r_pdu_size 8 (set_r_buf (Some (MarkerBuf 0)) (set_r_pdu None s)).

Lemma start_received h s :
  blen (r_rmbuf s) = 8 -> r_inpos s = 0 -> blen h = 8 -> received h (at_start s) = Some (got_marker h s).
Proof.
  intros Hrm Hpos Hh. unfold received, at_start.
  cbn [r_buf set_r_inpos set_r_pdu_size set_r_buf r_rmbuf set_r_pdu].
  rewrite write_at_all by by rewrite Hrm. cbn [mbind option_bind].
  cbn [r_inpos set_r_pdu_size set_r_buf set_r_pdu]. by rewrite Hh, Hpos.
Qed.

Lemma got_marker_turn now h body rs s :
  at_marker s -> blen h = 8 -> body <> [] ->
  run now (RData (h ++ body) :: rs) s =
    match read_marker_done (got_marker h s) with
    | None => Crash
    | Some (Return s1 r) => Done (s1, r)
    | Some (Continue s1) => run now (RData body :: rs) s1
    end.
Proof.
  intros [Hp Hst Hpos Hrm Hpdu Hfr] Hh Hb. rewrite run_step.
  assert (Hset : read_setup s = Some (at_start s)) by by unfold read_setup; rewrite Hpos, Hst.
  rewrite Hset. cbn [mbind option_bind].
  assert (Hr : ready srv (at_start s)) by exact (setup_ready _ _ _ Hp Hset).
  rewrite (ready_turn _ _ _ srv) by (done || by destruct h).
  assert (Hlen : length h = 8%nat) by (unfold blen in Hh; lia).
  assert (Hwant : wanted (at_start s) = length h).
  { unfold wanted, at_start. cbn [r_pdu_size r_inpos set_r_pdu_size set_r_buf set_r_pdu]. by rewrite Hpos, Hlen. }
  rewrite Hwant. unfold fetch. rewrite drop_app_length, take_app_length, start_received by done.
  cbn [mbind option_bind].
  assert (Hdone : read_done now (got_marker h s) = read_marker_done (got_marker h s)).
  { unfold Recv.read_done, got_marker. cbn [r_state set_r_pdu_size set_r_buf set_r_pdu set_r_rmbuf set_r_inpos].
    by rewrite Hst. }
  rewrite Hdone. clear Hdone Hset Hr.
  assert (Hfull : (r_inpos (got_marker h s) =? r_pdu_size (got_marker h s)) = true) by done.
  rewrite Hfull. generalize (read_marker_done (got_marker h s)) as o. intros [[s1|s1 r]|]; [|done|done].
  by destruct body.
Qed.

(** The context when the [n] bytes [b] of a record have all been read. *)
Definition loaded (n : Z) (b : bytes) s : rpc R :=
  set_r_buf (Some (InbufAt n)) (set_r_inbuf b (set_r_inpos n
    (set_r_inpos 4 (set_r_pdu_size n (set_r_buf (Some (InbufAt 4)) s))))).

Lemma started_turn now n st found b' body b s :
  st = READ_PAYLOAD \/ st = READ_UNKNOWN /\ found = None ->
  plain srv (started st found b' s) -> r_rm s = n -> blen body = n - 4 -> 8 <= n <= MAX_FRAGMENT_SIZE ->
  write_at 4 body b' = Some b ->
  (forall p, found = Some p -> exists x, get_pdu s p = Some x /\ copying x) -> n <= blen b' ->
  run now [RData body] (started st found b' s) =
    match read_done now (loaded n b (started st found b' s)) with
    | None => Crash
    | Some (Return s1 r) => Done (s1, r)
    | Some (Continue s1) => run now [] s1
    end.
Proof.
  intros Hst Hp Hrm Hbody Hn Hw Hf Hlen. unfold MAX_FRAGMENT_SIZE in Hn. rewrite run_step.
  set (s0 := set_r_inpos 4 (set_r_pdu_size n (set_r_buf (Some (InbufAt 4)) (started st found b' s)))).
  assert (Hset : read_setup (started st found b' s) = Some s0).
  { unfold read_setup, started. cbn [r_inpos set_r_state set_r_inpos]. change (negb (0 =? 0)) with false. cbv iota.
    cbn [r_state set_r_state]. destruct Hst as [->|[-> ->]].
    - cbn [r_pdu set_r_state set_r_inpos set_r_inbuf set_r_pdu set_r_pdu_size set_r_buf]. destruct found as [p|].
      + destruct (Hf p eq_refl) as (x & Hx & Hcx & _).
        match goal with |- context [get_pdu ?a p] => change (get_pdu a p) with (get_pdu s p) end.
        rewrite Hx. cbn [mbind option_bind]. rewrite Hcx. cbn [is_some andb].
        unfold s0, started. cbn [r_rm set_r_state set_r_inpos set_r_inbuf set_r_pdu set_r_pdu_size set_r_buf]. by rewrite Hrm.
      + unfold s0, started. cbn [r_rm set_r_state set_r_inpos set_r_inbuf set_r_pdu set_r_pdu_size set_r_buf]. by rewrite Hrm.
    - cbn [r_rm r_inbuf set_r_state set_r_inpos set_r_inbuf set_r_pdu]. rewrite Hrm.
      by replace (n <=? blen b') with true by lia. }
  rewrite Hset. cbn [mbind option_bind].
  assert (Hr : ready srv s0) by exact (setup_ready _ _ _ Hp Hset).
  assert (Hne : body <> []) by (intros ->; rewrite blen_nil in Hbody; lia).
  rewrite (ready_turn _ _ _ srv) by done.
  assert (Hwant : wanted s0 = length body).
  { unfold wanted, s0. cbn [r_pdu_size r_inpos set_r_pdu_size set_r_inpos]. unfold blen in Hbody. lia. }
  unfold fetch. rewrite Hwant, drop_ge, take_ge by lia.
  assert (Hrec : received body s0 = Some (loaded n b (started st found b' s))).
  { unfold received, s0. cbn [r_buf set_r_inpos set_r_pdu_size set_r_buf r_inpos r_inbuf].
    change (r_inbuf (started st found b' s)) with b'. rewrite Hw. cbn [mbind option_bind]. rewrite Hbody.
    replace (4 + (n - 4)) with n by lia. rewrite (u32_id n) by (unfold is_u32; lia).
    reflexivity. }
  rewrite Hrec. cbn [mbind option_bind].
  assert (Hfull : (r_inpos (loaded n b (started st found b' s)) =? r_pdu_size (loaded n b (started st found b' s))) = true).
  { unfold loaded. cbn [r_inpos r_pdu_size set_r_buf set_r_inbuf set_r_inpos set_r_pdu_size]. lia. }
  rewrite Hfull. generalize (read_done now (loaded n b (started st found b' s))) as o.
  by intros [[s1|s1 r]|].
Qed.

(** After a record the reader is at the next marker and finds nothing to read. *)
Lemma run_at_start now s : at_marker s -> run now [] s = Done (at_start s, 0) /\ at_marker (at_start s).
Proof.
  intros [Hp Hst Hpos Hrm Hpdu Hfr].
  assert (Hset : read_setup s = Some (at_start s)) by by unfold read_setup; rewrite Hpos, Hst.
  rewrite run_step, Hset. cbn [mbind option_bind].
  pose proof (setup_ready _ _ _ Hp Hset) as Hr. split.
  - unfold Recv.read_turn, read_request. change (r_state (at_start s)) with (r_state s). by rewrite Hst.
  - split; try done. by apply ready_plain.
Qed.

Lemma run_empty now s : at_marker s -> exists s', run now [] s = Done (s', 0) /\ at_marker s' /\
  r_trace s' = r_trace s /\ r_outqueue s' = r_outqueue s /\ r_waitpdu s' = r_waitpdu s /\
  r_waitpdu_len s' = r_waitpdu_len s /\ r_pdus s' = r_pdus s /\ r_inbuf s' = r_inbuf s.
Proof. intros [E Hm]%(run_at_start now). exists (at_start s). done. Qed.

Definition NFS_MAX_REPLY : Z := NFS_MAX_XFER_SIZE + 4096.

(** The buffer is made large enough for the record. *)
Lemma adjust_inbuf_ok b n : 0 <= n <= NFS_MAX_REPLY ->
  exists b', adjust_inbuf b n = Some b' /\ n <= blen b' /\ blen b <= blen b' <= Z.max (blen b) n.
Proof.
  unfold NFS_MAX_REPLY, adjust_inbuf. intros Hn. destruct (blen b <? n) eqn:E.
  - replace (n >? _) with false by lia. eexists. split; [done|]. rewrite blen_app, blen_zeros by lia. lia.
  - exists b. split; [done|]. lia.
Qed.

Lemma record_buffer n k body b' :
  n <= blen b' -> blen body = n - 4 -> 4 <= n ->
  exists b1 b2, write_at 0 (be32 k) b' = Some b1 /\ write_at 4 body b1 = Some b2 /\
    blen b1 = blen b' /\ blen b2 = blen b' /\ has_at b2 0 (be32 k ++ body).
Proof.
  intros Hn Hb H4. pose proof (blen_be32 k) as Hk.
  assert (E1 : write_at 0 (be32 k) b' = Some (splice 0 (be32 k) b')) by (apply write_at_ok; lia).
  assert (L1 : blen (splice 0 (be32 k) b') = blen b') by (apply blen_splice; lia).
  assert (E2 : write_at 4 body (splice 0 (be32 k) b') = Some (splice 0 (be32 k ++ body) b')).
  { pose proof (write_at_app 0 (be32 k) body b' _ E1) as E. rewrite Hk in E. change (0 + 4) with 4 in E. rewrite E.
    apply write_at_ok; [lia|]. rewrite blen_app. lia. }
  eexists _, _. split; [exact E1|]. split; [exact E2|]. split; [done|]. split.
  - apply blen_splice; rewrite ?blen_app; lia.
  - apply splice_has; rewrite ?blen_app; lia.
Qed.

End record.
