(* ===== verification/Dispatch.v ===== *)
(** * Dispatch: who gets a reply

    A record from the server is given to the PDU with its xid, whatever the
    segments it comes in: its callback is called once, with the status the
    reply carries, and it is released; no other PDU is touched.  A record
    with an xid nobody waits for is skipped. *)

From S2P Require Import Prelude Zdr RpcMsg Cursor Queue RpcState Context Send SendProps Recv RecvProps Record.

Section dispatch.
Context {R : Type} (zero_res : R) (read_status : R -> Z)
  (process_call : ZDR -> rpc R -> option (rpc R * Z)).
Implicit Types (s : rpc R) (p : id) (x : pdu R).

#[local] Notation run := (run zero_res read_status process_call).
#[local] Notation read_done := (read_done zero_res read_status process_call).

#[local] Notation at_marker := (at_marker false).

(** The context that starts on the rest of the record. *)
Definition begun (found : option id) (b : bytes) s : rpc R :=
  started (if found then READ_PAYLOAD else READ_UNKNOWN) found b s.

Lemma run_marker now n k body rs s s2 found b b' :
  at_marker s -> 8 <= n <= MAX_FRAGMENT_SIZE -> is_u32 k -> body <> [] ->
  Recv.rpc_find_pdu (marked n k s) k = Some (s2, found) ->
  r_inbuf s2 = r_inbuf s -> r_rmx s2 = k -> r_state s2 = READ_PAYLOAD -> r_server s2 = false -> r_rm s2 = n ->
  (forall p, found = Some p -> exists x, get_pdu s2 p = Some x /\ base (p_in x) = None) ->
  adjust_inbuf (r_inbuf s) n = Some b -> write_at 0 (be32 k) b = Some b' ->
  run now (RData (be32 (last_fragment n) ++ be32 k ++ body) :: rs) s =
  run now (RData body :: rs) (begun found b' s2).
Proof.
  intros Hs Hn Hk Hb Hf H1 H2 H3 H4 H5 H6 Ha Hw.
  unfold MAX_FRAGMENT_SIZE in Hn. pose proof (last_fragment_facts n ltac:(lia)) as (Hu & Hl1 & Hl2).
  rewrite app_assoc, (got_marker_turn _ _ _ false) by done.
  set (h := be32 (last_fragment n) ++ be32 k). unfold read_marker_done.
  change (r_rmbuf (got_marker h s)) with h.
  change (read_at 0 4 h) with (Some (be32 (last_fragment n))).
  change (read_at 4 4 h) with (Some (be32 k)). cbn [mbind option_bind].
  rewrite !of_be32_be32, (u32_id (last_fragment n)), (u32_id k) by done.
  cbn [r_rm set_r_rm set_r_state]. replace (_ =? 0) with false by lia. rewrite Hl2.
  unfold MAX_FRAGMENT_SIZE. replace ((n <? 8) || _) with false by lia.
  subst h. fold (marked n k s).
  assert (Hsrv : r_server (marked n k s) = false) by (apply tcp_client_server; apply Hs).
  rewrite Hsrv. change (r_rmx (marked n k s)) with k. rewrite Hf. cbn [mbind option_bind].
  assert (Hneed : match found with
    | Some p => x ← get_pdu (set_r_pdu found s2) p;
        Some (set_r_pdu found s2, if is_some (base (p_in x)) then ZCRP else r_rm (set_r_pdu found s2))
    | None => Some (set_r_pdu found s2, r_rm (set_r_pdu found s2))
    end = Some (set_r_pdu found s2, n)).
  { change (r_rm (set_r_pdu found s2)) with (r_rm s2). rewrite H5. destruct found as [p|]; [|done].
    destruct (H6 p eq_refl) as (x & Hx & Hbase). change (get_pdu (set_r_pdu (Some p) s2) p) with (get_pdu s2 p).
    rewrite Hx. cbn. by rewrite Hbase. }
  rewrite Hneed. cbn [mbind option_bind]. change (r_inbuf (set_r_pdu found s2)) with (r_inbuf s2).
  rewrite H1, Ha. change (r_rmx (set_r_pdu found s2)) with (r_rmx s2). rewrite H2, Hw. cbn [mbind option_bind].
  change (r_server (set_r_inpos 0 _)) with (r_server s2). rewrite H4.
  change (r_pdu (set_r_inpos 0 _)) with found. cbn [negb andb]. f_equal.
  unfold begun, started. destruct found; cbn [is_some negb]; [|done].
  clear -H3. destruct s2; cbn in *. by subst.
Qed.

(** ** Finding the PDU of a reply *)

(** No two PDUs of the context share a xid. *)
Definition xids_differ s : Prop :=
  forall p q, p ∈ all_ids s -> q ∈ all_ids s -> xid_of s p = xid_of s q -> p = q.

Lemma find_xid_hit s k l p :
  (forall q, q ∈ l -> xid_of s q = k -> q = p) -> p ∈ l -> xid_of s p = k -> find_xid s k l = Some p.
Proof using Type. clear zero_res read_status process_call.
  induction l as [|q l IH]; intros Hl Hp Hk; [by apply elem_of_nil in Hp|]. cbn.
  destruct (xid_of s q =? k) eqn:E.
  - f_equal. apply Hl; [set_solver|lia].
  - apply IH; [set_solver| |done]. apply elem_of_cons in Hp as [->|]; [lia|done].
Qed.

Lemma find_xid_miss s k l : (forall q, q ∈ l -> xid_of s q <> k) -> find_xid s k l = None.
Proof using Type. clear zero_res read_status process_call.
  induction l as [|q l IH]; intros Hl; [done|]. cbn.
  replace (xid_of s q =? k) with false by (symmetry; apply Z.eqb_neq, Hl; set_solver). apply IH. set_solver.
Qed.

Lemma in_wait s p : p ∈ concat (r_waitpdu s) -> exists i w, r_waitpdu s !! i = Some w /\ p ∈ w.
Proof using Type. clear zero_res read_status process_call.
  intros (w & Hw%list_elem_of_In & Hp%list_elem_of_In)%list_elem_of_In%in_concat.
  apply list_elem_of_lookup in Hw as [i Hi]. eauto.
Qed.

Lemma wait_in s i w p : r_waitpdu s !! i = Some w -> p ∈ w -> p ∈ concat (r_waitpdu s).
Proof using Type. clear zero_res read_status process_call. intros Hi Hp. rewrite (concat_split _ _ _ Hi). set_solver. Qed.

(** The context after the PDU [p] of bucket [w] was taken out of it. *)
Definition taken (k : Z) p (w : list id) s : rpc R :=
  set_r_waitpdu_len (u32 (r_waitpdu_len s - 1)) (set_r_waitpdu (<[bucket s k := l_remove p w]> (r_waitpdu s)) s).

Lemma find_waiting s k p :
  wf s -> xids_differ s -> r_udp s = false -> p ∈ concat (r_waitpdu s) -> xid_of s p = k -> r_rmx s = k ->
  exists w, r_waitpdu s !! bucket s k = Some w /\ p ∈ w /\
    Recv.rpc_find_pdu s k = Some (taken k p w s, Some p).
Proof using Type. clear zero_res read_status process_call.
  intros W Hx Hu Hp Hk Hrmx. destruct (in_wait s p Hp) as (i & w & Hi & Hpw).
  assert (Hb : bucket s k = i) by (rewrite <- Hk; by apply (wf_hashed _ W i w)).
  exists w. rewrite Hb. split; [done|]. split; [done|]. unfold Recv.rpc_find_pdu, take_found. rewrite Hrmx, Hu.
  cbn [andb]. unfold taken. rewrite !Hb.
  assert (Hin : forall q, q ∈ r_outqueue s -> q ∈ all_ids s) by (unfold all_ids; set_solver).
  assert (Hinw : forall q, q ∈ w -> q ∈ all_ids s).
  { intros q Hq. unfold all_ids. pose proof (wait_in _ _ _ _ Hi Hq). set_solver. }
  rewrite (find_xid_miss s k (r_outqueue s)).
  - rewrite Hi. cbn [mbind option_bind]. rewrite (find_xid_hit s k w p); [done| |done|done].
    intros q Hq E. apply Hx; [by apply Hinw|by apply Hinw|congruence].
  - intros q Hq E. assert (q = p) as -> by (apply Hx; [by apply Hin|by apply Hinw|congruence]).
    pose proof (wf_nodup _ W) as Hn. unfold all_ids in Hn. apply NoDup_app in Hn as (_ & Hn & _).
    apply (Hn p Hq). pose proof (wait_in _ _ _ _ Hi Hpw). set_solver.
Qed.

Lemma find_nobody s k :
  (forall q, q ∈ all_ids s -> xid_of s q <> k) -> (0 < length (r_waitpdu s))%nat ->
  Recv.rpc_find_pdu s k = Some (s, None).
Proof using Type. clear zero_res read_status process_call.
  intros Hq Hl. unfold Recv.rpc_find_pdu. unfold all_ids in Hq.
  rewrite find_xid_miss by (intros q ?; apply Hq; set_solver).
  destruct (lookup_lt_is_Some_2 _ _ (bucket_lt s (r_rmx s) Hl)) as [w Hw]. rewrite Hw. cbn [mbind option_bind].
  rewrite find_xid_miss; [done|]. intros q ?. apply Hq. pose proof (wait_in _ _ _ q Hw). set_solver.
Qed.

Lemma wf_same s s' :
  wf s -> r_outqueue s' = r_outqueue s -> r_waitpdu s' = r_waitpdu s -> r_waitpdu_len s' = r_waitpdu_len s ->
  r_pdus s' = r_pdus s -> r_pdu s' = r_pdu s -> wf s'.
Proof using Type. clear zero_res read_status process_call.
  intros W Ho Hw Hl Hp Hr.
  assert (Hids : all_ids s' = all_ids s) by (unfold all_ids; congruence).
  assert (Hget : forall p, get_pdu s' p = get_pdu s p) by (intros; unfold get_pdu; congruence).
  assert (Htot : forall p, total_of s' p = total_of s p) by (intros; unfold total_of; by rewrite Hget).
  assert (Hdone : forall p, done_of s' p = done_of s p) by (intros; unfold done_of; by rewrite Hget).
  apply (wf_move s); rewrite ?Hids, ?Ho, ?Hw, ?Hl; try done; try apply W.
  - intros p Hin. destruct (wf_ok _ W p Hin) as (x & Hx & Hk). exists x. rewrite Hget, Htot. unfold xid_of.
    by rewrite Hget.
  - intros p Hin. rewrite Hdone, Htot. by apply W.
  - intros p Hin. rewrite Hdone. by apply W.
Qed.

(** ** The reply is processed *)

(** What the callback of [p] is told about the reply [r] decoded as [v]. *)
Definition reply_event p (r : reply_body R) (v : R) : event R :=
  if (stat r =? MSG_ACCEPTED) && (astat (areply r) =? SUCCESS)
  then Cb p RPC_STATUS_SUCCESS (Results (Some v)) else Cb p RPC_STATUS_ERROR NoData.

(** The contexts agree but for the PDU [p] and what was logged. *)
Record same_but p s s' : Prop := {
  sb_mode : mode s' = mode s;
  sb_out : r_outqueue s' = r_outqueue s;
  sb_wait : r_waitpdu s' = r_waitpdu s;
  sb_len : r_waitpdu_len s' = r_waitpdu_len s;
  sb_pdu : r_pdu s' = r_pdu s;
  sb_frag : r_fragments s' = r_fragments s;
  sb_rmbuf : r_rmbuf s' = r_rmbuf s;
  sb_inbuf : r_inbuf s' = r_inbuf s;
  sb_others : forall q, q <> p -> get_pdu s' q = get_pdu s q;
  sb_this : exists x, get_pdu s' p = Some x /\ copying x;
}.

(** A PDU whose reply is decoded with [pr] and given to a callback. *)
Record expects (pr : proc R) `{!Codec pr} s p x (r : reply_body R) : Prop := {
  ex_get : get_pdu s p = Some x;
  ex_copying : copying x;
  ex_cb : p_cb x = true;
  ex_decode : p_decode x = pr;
  ex_size : 0 < p_bufsize x;
  ex_ok : reply_ok pr r;
  ex_blank : astat (areply r) = SUCCESS -> blank pr (results (areply r)) (default zero_res (p_buf x));
}.

Lemma call_cb_ok s p x st d :
  get_pdu s p = Some x -> p_cb x = true -> call_cb s p st d = Some (log (Cb p st d) s).
Proof using Type. clear zero_res read_status process_call. intros Hx Hc. unfold call_cb. rewrite Hx. cbn. by rewrite Hc. Qed.

Lemma reply_processed (pr : proc R) `{!Codec pr} now b sz k s p x r :
  r_pdu s = Some p -> expects pr s p x r -> is_u32 k -> 0 <= sz <= blen b -> sz + 16 <= INT_MAX ->
  blen (reply_wire pr k r) <= sz -> has_at b 0 (reply_wire pr k r) ->
  exists s' z' r', rpc_process_reply zero_res now (zdrmem_create b sz ZDR_DECODE (fun _ => true)) s = Some (s', z') /\
    reply_same pr b r r' /\ same_but p s s' /\
    r_trace s' = r_trace s ++ [reply_event p r (results (areply r'))].
Proof.
  intros Hp [Hx Hcx Hcb Hdec Hbs Hok Hbl] Hk Hsz Hi Hw Hb. unfold rpc_process_reply.
  change (r_pdu (inc_resp_rcvd s)) with (r_pdu s). rewrite Hp. cbn [mbind option_bind].
  change (get_pdu (inc_resp_rcvd s) p) with (get_pdu s p). rewrite Hx. cbn [mbind option_bind].
  replace (p_bufsize x >? 0) with true by lia.
  set (x1 := set_p_buf (Some (default zero_res (p_buf x))) x).
  change (p_decode x1) with (p_decode x). rewrite Hdec.
  assert (Ht : reply_template zero_res x1 = mkMsg 0 0 (RBody (mkReply 0
    (mkAccepted _null_auth 0 (default zero_res (p_buf x)) (Heap (zeros (p_bufsize x))) (mkMismatch 0 0))
    (mkRejected 0 (mkMismatch 0 0) 0)))) by done.
  rewrite Ht.
  destruct (reply_decodes pr (zero_reply zero_res) (mkReply 0
    (mkAccepted _null_auth 0 (default zero_res (p_buf x)) (Heap (zeros (p_bufsize x))) (mkMismatch 0 0))
    (mkRejected 0 (mkMismatch 0 0) 0)) k r b sz (fun _ => true)) as (r' & zr & -> & Hs); try done.
  cbn [body p_buf x1 set_p_buf]. set (x2 := set_p_buf (Some (results (areply r'))) x1).
  set (s2 := put_pdu p x2 (put_pdu p x1 (inc_resp_rcvd s))).
  assert (Hb2 : is_some (base (p_in x2)) = false) by by destruct Hcx as [Hcx _]; subst x2 x1; cbn; rewrite Hcx.
  assert (Hg2 : get_pdu s2 p = Some x2) by apply get_put_eq.
  assert (Hsame : forall s' ev, r_pdus s' = r_pdus s2 -> mode s' = mode s2 -> r_outqueue s' = r_outqueue s2 ->
    r_waitpdu s' = r_waitpdu s2 -> r_waitpdu_len s' = r_waitpdu_len s2 -> r_pdu s' = r_pdu s2 ->
    r_fragments s' = r_fragments s2 -> r_rmbuf s' = r_rmbuf s2 -> r_inbuf s' = r_inbuf s2 ->
    same_but p s (log ev s')).
  { intros s' ev E1 E2 E3 E4 E5 E6 E7 E8 E9. split; cbn; try done.
    - intros q Hq. unfold get_pdu, log; cbn. rewrite E1. change (get_pdu s2 q = get_pdu s q).
      unfold s2. by rewrite !get_put_ne by congruence.
    - exists x2. split; [|done]. unfold get_pdu, log; cbn. by rewrite E1. }
  pose proof Hs as (Hst & Hacc & _). cbn [body_stat body_astat]. rewrite Hst. unfold reply_event.
  destruct (stat r =? MSG_ACCEPTED) eqn:Est; cbn [negb andb].
  - destruct Hacc as (_ & Has & _); [lia|]. rewrite Has. destruct (astat (areply r) =? SUCCESS).
    + rewrite Hb2, (call_cb_ok _ _ x2) by done. cbn [mbind option_bind].
      eexists _, _, r'. split; [done|]. split; [done|]. split; [by apply Hsame|done].
    + rewrite (call_cb_ok _ _ x2) by done. cbn [mbind option_bind].
      eexists _, _, r'. split; [done|]. split; [done|]. split; [by apply Hsame|done].
  - rewrite (call_cb_ok _ _ x2) by done. cbn [mbind option_bind].
    eexists _, _, r'. split; [done|]. split; [done|]. split; [by apply Hsame|done].
Qed.

(** The context once [p] was answered. *)
Record answered p ev s s' : Prop := {
  an_trace : r_trace s' = r_trace s ++ [ev; Freed p];
  an_mode : mode s' = mode s;
  an_out : r_outqueue s' = r_outqueue s;
  an_wait : r_waitpdu s' = r_waitpdu s;
  an_len : r_waitpdu_len s' = r_waitpdu_len s;
  an_rmbuf : r_rmbuf s' = r_rmbuf s;
  an_inbuf : r_inbuf s' = r_inbuf s;
  an_pdu : r_pdu s' = None;
  an_frag : r_fragments s' = [];
  an_state : r_state s' = READ_RM;
  an_pos : r_inpos s' = 0;
  an_this : get_pdu s' p = None;
  an_others : forall q, q <> p -> get_pdu s' q = get_pdu s q;
}.

Lemma payload_answered (pr : proc R) `{!Codec pr} now n k s p x r :
  r_pdu s = Some p -> r_fragments s = [] -> r_pdu_size s = n -> tcp_client s -> expects pr s p x r ->
  is_u32 k -> n = blen (reply_wire pr k r) -> n <= blen (r_inbuf s) -> n + 16 <= INT_MAX ->
  has_at (r_inbuf s) 0 (reply_wire pr k r) ->
  exists s' v, read_payload_done zero_res read_status process_call now s = Some (Continue s') /\
    reply_same pr (r_inbuf s) r v /\ answered p (reply_event p r (results (areply v))) s s'.
Proof.
  intros Hp Hfr Hsz Ht He Hk Hn Hle Hi Hb. unfold read_payload_done. rewrite Hfr, Hsz.
  assert (Hset : set_r_pdu_size n s = s) by (destruct s; cbn in *; by subst). rewrite Hset.
  unfold rpc_process_pdu. rewrite (tcp_client_server _ Ht). pose proof (blen_nonneg (reply_wire pr k r)).
  destruct (reply_processed pr now (r_inbuf s) n k s p x r) as (s1 & z1 & v & E & Hs & [] & Htr); try done; try lia.
  rewrite E. cbn [mbind option_bind]. rewrite sb_frag0, Hfr, sb_pdu0, Hp.
  destruct sb_this0 as (x1 & Hx1 & Hc1 & Hc2 & Hc3). rewrite Hx1. cbn [mbind option_bind]. rewrite Hc1.
  cbn [is_some]. change (negb (0 =? 0)) with false. cbv iota. rewrite sb_pdu0, Hp, Hx1. cbn [mbind option_bind].
  rewrite Hc2. cbn [negb]. unfold payload_finished. rewrite sb_frag0, Hfr. unfold rpc_finished_pdu.
  rewrite sb_pdu0, Hp, Hx1. cbn [mbind option_bind]. rewrite Hc3. cbn [mbind option_bind].
  cbn [r_pdu r_udp r_broadcast set_r_inpos set_r_state]. rewrite sb_pdu0, Hp.
  assert (Hu : r_udp s1 = false).
  { unfold tcp_client, mode in *. congruence. }
  rewrite Hu. cbn [andb]. unfold rpc_free_pdu.
  change (get_pdu (set_r_inpos 0 (set_r_state READ_RM s1)) p) with (get_pdu s1 p). rewrite Hx1.
  cbn [mbind option_bind]. eexists _, v. split; [done|]. split; [done|].
  split; cbn; try done.
  - by rewrite Htr, <- app_assoc.
  - congruence.
  - unfold get_pdu; cbn. apply lookup_delete_eq.
  - intros q Hq. unfold get_pdu; cbn. rewrite lookup_delete_ne by done. by apply sb_others0.
Qed.

Lemma wf_answered s s' p i w :
  wf s -> r_waitpdu s !! i = Some w -> p ∈ w -> r_pdu s = None ->
  r_outqueue s' = r_outqueue s -> r_waitpdu s' = <[i := l_remove p w]> (r_waitpdu s) ->
  r_waitpdu_len s' = u32 (r_waitpdu_len s - 1) -> r_pdu s' = None ->
  (forall q, q <> p -> get_pdu s' q = get_pdu s q) ->
  wf s' /\ all_ids s ≡ₚ p :: all_ids s' /\ concat (r_waitpdu s) ≡ₚ p :: concat (r_waitpdu s').
Proof.
  intros W Hi Hp Hn Ho Hw Hl Hn' Hg. pose proof (wf_nodup _ W) as Hnd.
  assert (Hndw : NoDup w).
  { unfold all_ids in Hnd. rewrite (concat_split _ _ _ Hi) in Hnd.
    apply NoDup_app in Hnd as (_ & _ & Hnd). apply NoDup_app in Hnd as (Hnd & _ & _).
    apply NoDup_app in Hnd as (_ & _ & Hnd). by apply NoDup_app in Hnd as (Hnd & _ & _). }
  assert (Hconc : concat (r_waitpdu s) ≡ₚ p :: concat (r_waitpdu s')).
  { rewrite Hw, (concat_update _ _ _ _ Hi), (concat_split _ _ _ Hi).
    apply list_elem_of_split in Hp as (w1 & w2 & ->). rewrite l_remove_mid by done.
    rewrite <- !app_assoc. cbn [app]. rewrite !(app_assoc _ w1). symmetry. apply Permutation_middle. }
  assert (Hids : all_ids s ≡ₚ p :: all_ids s').
  { unfold all_ids. rewrite Ho, Hn, Hn'. cbn. rewrite !app_nil_r, Hconc. symmetry. apply Permutation_middle. }
  split; [|split; done].
  assert (Hpn : p ∉ all_ids s') by (rewrite Hids in Hnd; by apply NoDup_cons in Hnd as [? _]).
  assert (Hg' : forall q, q ∈ all_ids s' -> get_pdu s' q = get_pdu s q).
  { intros q Hq. apply Hg. by intros ->. }
  assert (Hq : forall q, q ∈ all_ids s' -> q ∈ all_ids s) by (intros q; rewrite Hids; set_solver).
  assert (Hqo : forall q, q ∈ r_outqueue s' -> q ∈ all_ids s') by (unfold all_ids; set_solver).
  apply (wf_change [p] s s' W); rewrite ?Ho, ?Hw.
  - by rewrite Hids.
  - intros q Hin. destruct (wf_ok _ W q (Hq q Hin)) as (x & Hx & Hk). exists x.
    unfold total_of, xid_of. by rewrite (Hg' q Hin).
  - intros q Hin. rewrite <- Ho in Hin. unfold done_of, total_of. rewrite Hg' by auto.
    apply (wf_out _ W). by rewrite <- Ho.
  - intros q Hin. assert (q ∈ r_outqueue s') by (rewrite Ho; destruct (r_outqueue s); [done|set_solver]).
    unfold done_of. rewrite Hg' by auto. by apply (wf_first _ W).
  - by rewrite length_insert.
  - intros j l q Hj Hql. destruct (decide (i = j)) as [<-|Hne].
    + rewrite list_lookup_insert_eq in Hj by (by eapply lookup_lt_Some). simplify_eq.
      apply l_remove_subset in Hql as [Hql _]. by apply (wf_hashed _ W _ w).
    + rewrite list_lookup_insert_ne in Hj by done. by apply (wf_hashed _ W _ l).
  - rewrite <- Hw, Hl, (wf_len _ W). unfold blen at 1. rewrite Hconc. cbn [length].
    rewrite Nat2Z.inj_succ. fold (blen (concat (r_waitpdu s'))). pose proof (blen_nonneg (concat (r_waitpdu s'))).
    pose proof (wf_count _ W) as Hc. unfold all_ids in Hc. rewrite !blen_app in Hc.
    unfold blen at 2 in Hc. rewrite Hconc in Hc. cbn [length] in Hc. rewrite Nat2Z.inj_succ in Hc.
    fold (blen (concat (r_waitpdu s'))) in Hc. pose proof (blen_nonneg (r_outqueue s)).
    pose proof (blen_nonneg (option_list (r_pdu s))). rewrite u32_id; unfold is_u32 in *; lia.
Qed.

Lemma at_marker_answered p ev s s' :
  tcp_client s -> no_zero_copy s -> blen (r_rmbuf s) = 8 -> answered p ev s s' -> at_marker s'.
Proof.
  intros Ht Hz Hrm []. split; try done; [|congruence].
  split; [unfold tcp_client in *; congruence| |by left|by rewrite an_pos0].
  intros q y Hq. destruct (decide (q = p)) as [->|Hne]; [congruence|].
  apply (Hz q). by rewrite <- an_others0.
Qed.

Lemma run_reply (pr : proc R) `{!Codec pr} now s p x k r :
  let n := blen (reply_wire pr k r) in
  at_marker s -> wf s -> xids_differ s -> p ∈ concat (r_waitpdu s) -> expects pr s p x r ->
  p_xid x = k -> is_u32 k -> n <= NFS_MAX_REPLY -> blen (r_inbuf s) <= INT_MAX ->
  exists s' v b, run now [RData (be32 (last_fragment n) ++ reply_wire pr k r)] s = Done (s', 0) /\
    reply_same pr b r v /\ r_trace s' = r_trace s ++ [reply_event p r (results (areply v)); Freed p] /\
    at_marker s' /\ wf s' /\ all_ids s ≡ₚ p :: all_ids s' /\ concat (r_waitpdu s) ≡ₚ p :: concat (r_waitpdu s') /\
    r_outqueue s' = r_outqueue s /\ blen (r_inbuf s') <= INT_MAX /\ get_pdu s' p = None /\ (forall q, q <> p -> get_pdu s' q = get_pdu s q).
Proof.
  intros n Hm W Hx Hp He Hk Hku Hn Hin.
  assert (Hwire : exists body, reply_wire pr k r = be32 k ++ body /\ blen body = n - 4 /\ 12 <= n).
  { eexists. split; [reflexivity|]. subst n. unfold reply_wire. rewrite !blen_app, !blen_be32.
    pose proof (blen_nonneg (if stat r =? MSG_ACCEPTED then accepted_wire pr (areply r) else rejected_wire (rreply r))).
    lia. }
  destruct Hwire as (body & Hwire & Hbody & Hn8). unfold NFS_MAX_REPLY, NFS_MAX_XFER_SIZE in *.
  assert (Hmax : 8 <= n <= MAX_FRAGMENT_SIZE) by (unfold MAX_FRAGMENT_SIZE; lia).
  assert (Hne : body <> []) by (intros ->; rewrite blen_nil in Hbody; lia).
  pose proof (am_plain _ _ Hm) as Hpl. assert (Ht : tcp_client s) by exact (pl_tcp _ _ Hpl).
  assert (Hu : r_udp s = false) by (unfold tcp_client, mode in Ht; congruence).
  set (sm := marked n k s). assert (Wm : wf sm) by (apply (wf_same s); try done; by rewrite (am_pdu _ _ Hm)).
  assert (Hids : all_ids sm = all_ids s) by (unfold all_ids; cbn; by rewrite (am_pdu _ _ Hm)).
  destruct (find_waiting sm k p Wm) as (w & Hw & Hpw & Hf); try done.
  { intros q1 q2. rewrite Hids. apply Hx. }
  { unfold xid_of. change (get_pdu sm p) with (get_pdu s p). by rewrite (ex_get _ _ _ _ _ He). }
  destruct (adjust_inbuf_ok (r_inbuf s) n) as (b' & Ha & Hb' & Hb2); [unfold NFS_MAX_REPLY, NFS_MAX_XFER_SIZE; lia|].
  destruct (record_buffer n k body b' Hb' Hbody) as (b1 & b2 & Hw1 & Hw2 & Hl1 & Hl2 & Hhas); [lia|].
  set (st := taken k p w sm) in *.
  rewrite Hwire, (run_marker now n k body [] s st (Some p) b' b1); try done;
    [|by apply tcp_client_server|by intros q [= <-]; exists x; split; apply He].
  assert (Hbp : plain false (begun (Some p) b1 st)).
  { split; [done|by apply Hpl| |done]. right. split; [by left|exact Hmax]. }
  change (begun (Some p) b1 st) with (started READ_PAYLOAD (Some p) b1 st) in *.
  rewrite (started_turn zero_res read_status process_call false now n READ_PAYLOAD (Some p) b1 body b2 st); try done; try lia; [|by left|].
  2: { intros q [= <-]. exists x. split; apply He. }
  set (sl := loaded n b2 (started READ_PAYLOAD (Some p) b1 st)).
  assert (Hel : expects pr sl p x r) by by split; apply He.
  destruct (payload_answered pr now n k sl p x r) as (s1 & v & E & Hs & Han); try done.
  { apply Hm. } { change (r_inbuf sl) with b2. lia. } { unfold INT_MAX. lia. } { by rewrite Hwire. }
  change (Recv.read_done zero_res read_status process_call now sl) with
    (read_payload_done zero_res read_status process_call now sl). rewrite E.
  assert (Hm1 : at_marker s1).
  { eapply (at_marker_answered p _ sl); [done|by apply Hpl|done|exact Han]. }
  destruct (run_empty zero_res read_status process_call false now s1 Hm1) as (s' & E' & Hm' & T1 & T2 & T3 & T4 & T5 & T6). rewrite E'.
  assert (Hg : forall q, q <> p -> get_pdu s' q = get_pdu s q).
  { intros q Hq. unfold get_pdu. rewrite T5. by apply (an_others _ _ _ _ Han q). }
  destruct (wf_answered s s' p (bucket s k) w) as (W' & Hids' & Hconc); try done;
    rewrite ?T2, ?T3, ?T4; try by apply Han. { by apply Hm. } { by apply Hm'. }
  exists s', v, b2. split; [done|]. split; [done|]. split; [rewrite T1; apply Han|].
  split; [done|]. split; [done|]. split; [done|]. split; [done|]. split; [rewrite T2; apply Han|].
  split. { rewrite T6, (an_inbuf _ _ _ _ Han). change (r_inbuf sl) with b2. unfold INT_MAX in *. lia. }
  split; [|done].
  unfold get_pdu. rewrite T5. apply Han.
Qed.

(** ** Streams of replies *)

(** A reply on its way: the PDU it answers, the procedure's results and the
    message. *)
Record delivery := mkDelivery {
  d_id : id; d_pdu : pdu R; d_proc : proc R; d_codec : Codec d_proc; d_reply : reply_body R;
}.
#[local] Existing Instance d_codec.

Definition d_wire (d : delivery) : bytes := reply_wire (d_proc d) (p_xid (d_pdu d)) (d_reply d).

(** The record the server sends. *)
Definition d_record (d : delivery) : bytes := be32 (last_fragment (blen (d_wire d))) ++ d_wire d.

(** The reply can be given to its PDU, which waits for it. *)
Record deliverable s (d : delivery) : Prop := {
  dl_waits : d_id d ∈ concat (r_waitpdu s);
  dl_expects : expects (d_proc d) s (d_id d) (d_pdu d) (d_reply d);
  dl_xid : is_u32 (p_xid (d_pdu d));
  dl_size : blen (d_wire d) <= NFS_MAX_REPLY;
}.

(** What the callback and the release of the PDU leave in the trace. *)
Definition delivered (d : delivery) (l : list (event R)) : Prop :=
  exists v b, reply_same (d_proc d) b (d_reply d) v /\
    l = [reply_event (d_id d) (d_reply d) (results (areply v)); Freed (d_id d)].

Lemma deliverable_rest s s' p d :
  deliverable s d -> d_id d <> p -> concat (r_waitpdu s) ≡ₚ p :: concat (r_waitpdu s') ->
  (forall q, q <> p -> get_pdu s' q = get_pdu s q) -> deliverable s' d.
Proof.
  intros [Hw [] Hx Hs] Hne Hc Hg. split; try done.
  - rewrite Hc in Hw. by apply elem_of_cons in Hw as [?|?].
  - split; try done. by rewrite Hg.
Qed.

Lemma run_replies now ds : forall s,
  at_marker s -> wf s -> xids_differ s -> blen (r_inbuf s) <= INT_MAX ->
  NoDup (map d_id ds) -> Forall (deliverable s) ds ->
  exists s' evs, run now (map (fun d => RData (d_record d)) ds) s = Done (s', 0) /\
    Forall2 delivered ds evs /\ r_trace s' = r_trace s ++ concat evs /\
    at_marker s' /\ wf s' /\ all_ids s ≡ₚ map d_id ds ++ all_ids s' /\ r_outqueue s' = r_outqueue s /\
    (forall q, q ∉ map d_id ds -> get_pdu s' q = get_pdu s q).
Proof.
  induction ds as [|d ds IH]; intros s Hm W Hx Hin Hnd Hds; cbn [map].
  { destruct (run_empty zero_res read_status process_call false now s Hm) as (s' & E & Hm' & T1 & T2 & T3 & T4 & T5 & T6).
    exists s', []. rewrite E, app_nil_r. split; [done|]. split; [constructor|]. split; [done|]. split; [done|].
    split; [apply (wf_same s); try done; by rewrite (am_pdu _ _ Hm'), (am_pdu _ _ Hm)|].
    split; [unfold all_ids; by rewrite T2, T3, (am_pdu _ _ Hm'), (am_pdu _ _ Hm)|]. split; [done|].
    intros q _. unfold get_pdu. by rewrite T5. }
  apply Forall_cons in Hds as [[Hd1 Hd2 Hd3 Hd4] Hds]. cbn [map] in Hnd. apply NoDup_cons in Hnd as [Hnp Hnd].
  destruct (run_reply (d_proc d) now s (d_id d) (d_pdu d) (p_xid (d_pdu d)) (d_reply d))
    as (s1 & v & b & E & Hs & Ht & Hm1 & W1 & Hids & Hconc & Ho & Hin1 & Hgone & Hg); try done.
  assert (Hpl : plain false s) by apply Hm.
  destruct (run_again zero_res read_status process_call false now _ [RData (d_record d)] s
    (map (fun d => RData (d_record d)) ds) s1 (le_n _) Hpl) as [E2 _]; [by repeat constructor; eexists|exact E|].
  cbn [app] in E2. rewrite E2.
  assert (Hsub : forall q, q ∈ all_ids s1 -> q ∈ all_ids s /\ q <> d_id d).
  { intros q Hq. split; [rewrite Hids; set_solver|]. intros ->.
    pose proof (wf_nodup _ W) as Hn. rewrite Hids in Hn. by apply NoDup_cons in Hn as [? _]. }
  destruct (IH s1) as (s' & evs & E3 & Hev & Ht3 & Hm3 & W3 & Hids3 & Ho3 & Hg3); try done.
  { intros q1 q2 Hq1 Hq2. destruct (Hsub _ Hq1), (Hsub _ Hq2). unfold xid_of. rewrite !Hg by done.
    by apply Hx. }
  { apply Forall_forall. intros d' Hd'. rewrite Forall_forall in Hds.
    apply (deliverable_rest s s1 (d_id d)); [by apply Hds| |done|done].
    intros Heq. apply Hnp. rewrite <- Heq. by apply list_elem_of_fmap_2. }
  exists s', ([reply_event (d_id d) (d_reply d) (results (areply v)); Freed (d_id d)] :: evs).
  split; [done|]. split; [constructor; [by exists v, b|done]|].
  split; [by rewrite Ht3, Ht, <- app_assoc|]. split; [done|]. split; [done|].
  split; [by rewrite Hids, Hids3|]. split; [congruence|].
  intros q Hq. apply not_elem_of_cons in Hq as [Hq1 Hq2]. by rewrite Hg3, Hg.
Qed.

Lemma unknown_done now s :
  r_state s = READ_UNKNOWN -> read_done now s = Some (Continue (set_r_inpos 0 (set_r_state READ_RM s))).
Proof. intros E. unfold Recv.read_done. by rewrite E. Qed.

Lemma skipping n b b1 s : r_state (loaded n b (started READ_UNKNOWN None b1 s)) = READ_UNKNOWN.
Proof. done. Qed.

Lemma skipped n b b1 s :
  tcp_client s -> no_zero_copy s -> blen (r_rmbuf s) = 8 -> r_fragments s = [] ->
  at_marker (set_r_inpos 0 (set_r_state READ_RM (loaded n b (started READ_UNKNOWN None b1 s)))).
Proof.
  intros H1 H2 H3 H4. split; [|done|done|exact H3|done|exact H4].
  split; [exact H1|exact H2|by left|by intros []].
Qed.

Lemma marked_client n k s : tcp_client s -> tcp_client (marked n k s).
Proof. done. Qed.

Lemma marked_fields n k s :
  blen (r_rmbuf (marked n k s)) = 8 /\ r_fragments (marked n k s) = r_fragments s /\ r_pdus (marked n k s) = r_pdus s.
Proof. done. Qed.

(** A record whose xid nobody waits for (unsolicited, or the call was cancelled) is read and
    skipped: nothing changes but the reader, which is at the next marker. *)
Theorem unknown_reply_skipped now k body s :
  let n := 4 + blen body in
  at_marker s -> (forall q, q ∈ all_ids s -> xid_of s q <> k) -> (0 < length (r_waitpdu s))%nat ->
  is_u32 k -> 8 <= n <= NFS_MAX_REPLY ->
  exists s', rpc_read_from_socket zero_res read_status process_call now
      [RData (be32 (last_fragment n) ++ be32 k ++ body)] s = Done (s', 0) /\ at_marker s' /\
    r_trace s' = r_trace s /\ r_outqueue s' = r_outqueue s /\ r_waitpdu s' = r_waitpdu s /\
    r_waitpdu_len s' = r_waitpdu_len s /\ r_pdus s' = r_pdus s.
Proof.
  intros n Hm Hq Hl Hk Hn. pose proof (am_plain _ _ Hm) as Hpl. pose proof (pl_tcp _ _ Hpl) as Ht.
  unfold NFS_MAX_REPLY, NFS_MAX_XFER_SIZE in Hn.
  assert (Hne : body <> []) by (intros ->; subst n; rewrite blen_nil in Hn; lia).
  set (sm := marked n k s).
  assert (Hids : all_ids sm = all_ids s) by (unfold all_ids; cbn; by rewrite (am_pdu _ _ Hm)).
  assert (Hf : Recv.rpc_find_pdu sm k = Some (sm, None)).
  { apply find_nobody; [|done]. intros q. rewrite Hids. apply Hq. }
  destruct (adjust_inbuf_ok (r_inbuf s) n) as (b' & Ha & Hb' & Hb2); [unfold NFS_MAX_REPLY, NFS_MAX_XFER_SIZE; lia|].
  destruct (record_buffer n k body b' Hb') as (b1 & b2 & Hw1 & Hw2 & Hl1 & Hl2 & Hhas); [subst n; lia|lia|].
  rewrite (read_is_run zero_res read_status process_call false) by done.
  rewrite (run_marker now n k body [] s sm None b' b1); try done;
    [|unfold MAX_FRAGMENT_SIZE; lia|by apply tcp_client_server].
  assert (Hbp : plain false (begun None b1 sm)).
  { split; [done|by apply Hpl| |done]. right. split; [by right|unfold MAX_FRAGMENT_SIZE; cbn; lia]. }
  assert (Hnb : blen body = n - 4) by (subst n; lia).
  assert (Hnm : 8 <= n <= MAX_FRAGMENT_SIZE) by (unfold MAX_FRAGMENT_SIZE; lia).
  change (begun None b1 sm) with (started READ_UNKNOWN None b1 sm) in *.
  rewrite (started_turn zero_res read_status process_call false now n READ_UNKNOWN None b1 body b2 sm); try done; try lia; [|by right].
  rewrite (unknown_done now _ (skipping n b2 b1 sm)). set (sl := loaded n b2 (started READ_UNKNOWN None b1 sm)).
  destruct (marked_fields n k s) as (M1 & M2 & M3).
  assert (Hm1 : at_marker (set_r_inpos 0 (set_r_state READ_RM sl))).
  { apply (skipped n b2 b1 sm); [by apply marked_client|exact (pl_nzc _ _ Hpl)|exact M1|etransitivity; [exact M2|by eapply am_fragments]]. }
  destruct (run_empty zero_res read_status process_call false now _ Hm1) as (s' & E' & Hm' & T1 & T2 & T3 & T4 & T5 & _). exists s'. by rewrite E'.
Qed.

(** A PDU that is sent again is found in the queue of what is to be sent when a late reply to
    its first transmission arrives. When it is half-sent, it is taken out of the queue and the rest
    of its record is never written: the server reads the next record in the middle of it. *)
Theorem late_reply_cuts_record s p l :
  wf s -> xids_differ s -> r_udp s = false -> r_outqueue s = p :: l -> 0 < done_of s p ->
  exists s', Recv.rpc_find_pdu s (xid_of s p) = Some (s', Some p) /\ r_outqueue s' = l /\
    stream s = r_wire s ++ unsent s p ++ pending s l /\ stream s' = r_wire s ++ pending s l /\
    0 < blen (unsent s p) < total_of s p.
Proof using Type. clear zero_res read_status process_call.
  intros W Hx Hu Ho Hd. destruct (head_facts s p l W Ho) as (x & Hx' & [Hk Hlt] & Hpl & _ & _ & _).
  unfold Recv.rpc_find_pdu, take_found. rewrite Hu. cbn [andb].
  rewrite (find_xid_hit s (xid_of s p) (r_outqueue s) p); [|rewrite Ho|rewrite Ho; set_solver|done].
  2: { intros q Hq E. apply Hx; [|unfold all_ids; rewrite Ho; set_solver|done].
       unfold all_ids. rewrite Ho. set_solver. }
  cbn [mbind option_bind]. eexists. split; [done|]. rewrite Ho. cbn.
  assert (Hrem : l_remove p (p :: l) = l).
  { apply (l_remove_mid p [] l). cbn. pose proof (wf_nodup _ W) as Hn. unfold all_ids in Hn. rewrite Ho in Hn.
    by apply NoDup_app in Hn as [Hn _]. }
  rewrite Hrem. split; [done|]. unfold stream. rewrite Ho, pending_cons. split; [done|]. split; [done|].
  rewrite (unsent_blen s p x Hx' Hk). unfold done_of, total_of in *. rewrite Hx' in *. cbn in *.
  pose proof (po_done _ Hk). lia.
Qed.

(** C3: replies complete their calls. Whatever replies the server sends to PDUs that wait for
    one, in whatever order, in whatever segments the bytes arrive, one call of
    [rpc_read_from_socket] completes exactly these PDUs in the order of their replies: each gets
    one callback, with SUCCESS and the results that were sent or with ERROR as the reply says, and
    is released; nothing else changes and the context stays well-formed, at the next marker. *)
Theorem replies_complete_calls now chunks ds s :
  at_marker s -> wf s -> xids_differ s -> blen (r_inbuf s) <= INT_MAX ->
  NoDup (map d_id ds) -> Forall (deliverable s) ds ->
  Forall (fun c => c <> []) chunks -> concat chunks = concat (map d_record ds) ->
  exists s' evs,
    rpc_read_from_socket zero_res read_status process_call now (map RData chunks) s = Done (s', 0) /\
    Forall2 delivered ds evs /\ r_trace s' = r_trace s ++ concat evs /\
    at_marker s' /\ wf s' /\ all_ids s ≡ₚ map d_id ds ++ all_ids s' /\ r_outqueue s' = r_outqueue s /\
    (forall q, q ∉ map d_id ds -> get_pdu s' q = get_pdu s q).
Proof.
  intros Hm W Hx Hin Hnd Hds Hc Hcat. pose proof (am_plain _ _ Hm) as Hpl.
  destruct (run_replies now ds s) as (s' & evs & E & Hrest); try done.
  exists s', evs. split; [|done]. rewrite (read_is_run zero_res read_status process_call false) by done.
  rewrite <- E, <- (map_map d_record RData).
  apply (run_chunks zero_res read_status process_call false); [done|done| |done].
  apply Forall_forall. intros c (d & -> & _)%list_elem_of_fmap. done.
Qed.
End dispatch.

(** ** Instances *)

Definition xids_differb {R} (s : rpc R) : bool := bool_decide (NoDup (map (xid_of s) (all_ids s))).

Lemma xids_differb_ok {R} (s : rpc R) : xids_differb s = true -> xids_differ s.
Proof.
  intros H%bool_decide_eq_true p q Hp Hq E.
  apply list_elem_of_lookup in Hp as [i Hi]. apply list_elem_of_lookup in Hq as [j Hj].
  assert (i = j) as -> by (apply (NoDup_lookup (map (xid_of s) (all_ids s)) i j (xid_of s p));
    [done|rewrite list_lookup_fmap, Hi; done|rewrite list_lookup_fmap, Hj, E; done]). congruence.
Qed.

Lemma waiting_marker : at_marker false waiting.
Proof. split; [apply waiting_plain|by vm_compute..]. Qed.

Lemma waiting_wf : wf waiting.
Proof. apply wfb_wf. by vm_compute. Qed.

Lemma waiting_xids : xids_differ waiting.
Proof. apply xids_differb_ok. by vm_compute. Qed.

Definition answer (p : id) (r : reply_body Z) : delivery := mkDelivery p (word_pdu p) zdr_u_int _ r.

Lemma word_reply_ok a : a = SUCCESS \/ a = PROG_UNAVAIL -> reply_ok zdr_u_int (word_reply a).
Proof. intros Ha. left. split; [done|]. by split; [split; [done|by eexists]|destruct Ha as [-> | ->]]. Qed.

(** A PDU that waits for a reply of one word, decided. *)
Definition waitsb (s : rpc Z) p (x : pdu Z) : bool :=
  bool_decide (p ∈ concat (r_waitpdu s)) && copyingb x && p_cb x && (0 <? p_bufsize x) &&
  (0 <=? p_xid x) && (p_xid x <? 2 ^ 32).

Lemma word_wire_size k a : a = SUCCESS \/ a = PROG_UNAVAIL ->
  blen (reply_wire zdr_u_int k (word_reply a)) <= NFS_MAX_REPLY.
Proof. by intros [-> | ->]; vm_compute. Qed.

Lemma word_deliverable s p x a :
  get_pdu s p = Some x -> p_decode x = zdr_u_int -> waitsb s p x = true -> a = SUCCESS \/ a = PROG_UNAVAIL ->
  deliverable 0 s (mkDelivery p x zdr_u_int _ (word_reply a)).
Proof.
  intros Hx Hd Hb Ha. unfold waitsb in Hb. split_andb. split; cbn [d_id d_pdu d_proc d_codec d_reply].
  - done.
  - split; [done|by apply copyingb_ok|done|done|lia|by apply word_reply_ok|done].
  - unfold is_u32. lia.
  - by apply word_wire_size.
Qed.

Lemma answer_deliverable p a : p = 0%N \/ p = 1%N -> a = SUCCESS \/ a = PROG_UNAVAIL ->
  deliverable 0 waiting (answer p (word_reply a)).
Proof.
  intros Hp Ha. apply word_deliverable; [by apply waiting_pdu|reflexivity| |exact Ha].
  destruct Hp as [-> | ->]; vm_compute; reflexivity.
Qed.

(** The replies to both calls, the last one first and one of them an error, in three segments. *)
Definition answers : list delivery := [answer 1%N (word_reply SUCCESS); answer 0%N (word_reply PROG_UNAVAIL)].

Lemma answers_deliverable : Forall (deliverable 0 waiting) answers.
Proof.
  unfold answers. apply Forall_cons. split; [apply answer_deliverable; [by right|by left]|].
  apply Forall_cons. split; [apply answer_deliverable; [by left|by right]|]. apply Forall_nil_2.
Qed.

Definition answer_bytes : bytes := concat (map d_record answers).
Definition answer_chunks : list bytes := [take 5 answer_bytes; take 33 (drop 5 answer_bytes); drop 38 answer_bytes].

Lemma replies_complete_calls_witness :
  exists s' evs,
    rpc_read_from_socket 0 (fun _ => 0) (fun _ _ => None) 100 (map RData answer_chunks) waiting = Done (s', 0) /\
    Forall2 delivered answers evs /\ all_ids waiting ≡ₚ map d_id answers ++ all_ids s'.
Proof.
  destruct (replies_complete_calls 0 (fun _ => 0) (fun _ _ => None) 100 answer_chunks answers waiting
    waiting_marker waiting_wf waiting_xids) as (s' & evs & E & Hev & _ & _ & _ & Hids & _).
  - by vm_compute.
  - apply (bool_decide_eq_true_1 (NoDup (map d_id answers))). vm_compute. reflexivity.
  - exact answers_deliverable.
  - unfold answer_chunks. repeat (apply Forall_cons; split; [vm_compute; discriminate|]). apply Forall_nil_2.
  - vm_compute. reflexivity.
  - exists s', evs. exact (conj E (conj Hev Hids)).
Defined.

Definition stray : bytes := be32 1 ++ be32 0.

Lemma unknown_reply_skipped_witness :
  exists s', rpc_read_from_socket 0 (fun _ => 0) (fun _ _ => None) 100
      [RData (be32 (last_fragment (4 + blen stray)) ++ be32 77 ++ stray)] waiting = Done (s', 0) /\ at_marker false s' /\
    r_waitpdu s' = r_waitpdu waiting.
Proof.
  destruct (unknown_reply_skipped 0 (fun _ => 0) (fun _ _ => None) 100 77 stray waiting waiting_marker)
    as (s' & E & Hm & _ & _ & Hw & _).
  - assert (Hq : Forall (fun q => xid_of waiting q <> 77) (all_ids waiting)).
    { apply (bool_decide_eq_true_1 (Forall (fun q => xid_of waiting q <> 77) (all_ids waiting))).
      vm_compute. reflexivity. }
    intros q Hin. rewrite Forall_forall in Hq. exact (Hq q Hin).
  - apply Nat.ltb_lt. vm_compute. reflexivity.
  - split; vm_compute; [discriminate|reflexivity].
  - split; vm_compute; discriminate.
  - exists s'. exact (conj E (conj Hm Hw)).
Defined.

(** Ten bytes of the first call have been written. *)
Definition half_sent : rpc Z := from_option fst client (rpc_write_to_socket [WCount 10] queued).

Lemma late_reply_cuts_record_witness :
  exists s', Recv.rpc_find_pdu half_sent (xid_of half_sent 0%N) = Some (s', Some 0%N) /\ r_outqueue s' = [] /\
    0 < blen (unsent half_sent 0%N) < total_of half_sent 0%N.
Proof.
  destruct (late_reply_cuts_record half_sent 0%N []) as (s' & E & Ho & _ & _ & Hb).
  - apply wfb_wf. vm_compute. reflexivity.
  - apply xids_differb_ok. vm_compute. reflexivity.
  - vm_compute. reflexivity.
  - vm_compute. reflexivity.
  - vm_compute. reflexivity.
  - exists s'. exact (conj E (conj Ho Hb)).
Defined.
