(* ===== verification/Account.v ===== *)
(** * Account: what becomes of the PDUs of a client

    The vocabulary of Service and System: a client on a stream socket whose
    calls all have callbacks, and the account of a step, which says which
    PDUs the context gave up and that each of them had one callback, right
    before its release. *)

From S2P Require Import Prelude Zdr RpcMsg Cursor Queue RpcState Context Send SendProps Recv RecvProps.

Section account.
Context {R : Type}.
Implicit Types (s : rpc R) (p q : id) (x : pdu R).

(** A call of a client: a callback, no zero-copy READ. *)
Record client_pdu x : Prop := {
  cp_cb : p_cb x = true;
  cp_copying : copying x;
  cp_discard : p_discard x = false;
}.

Definition clients s : Prop := forall p x, get_pdu s p = Some x -> client_pdu x.

(** Where the reader of such a client can be, and when it holds a PDU. *)
Definition reader_ok s : Prop :=
  match r_state s with
  | READ_PAYLOAD => True
  | READ_RM | READ_UNKNOWN | READ_FRAGMENT => r_pdu s = None
  | READ_IOVEC | READ_PADDING => False
  end.

Record live s : Prop := {
  lv_mode : tcp_client s;
  lv_pdus : clients s;
  lv_wf : wf s;
  lv_read : reader_ok s;
  lv_buf : r_inpos s <> 0 -> r_buf s <> None;
}.

(** The events of a step that settles the PDUs [l]. *)
Inductive settled : list id -> list (event R) -> Prop :=
| settled_nil : settled [] []
| settled_connect st l evs : settled l evs -> settled l (ConnectCb st :: evs)
| settled_pdu p st d l evs : settled l evs -> settled (p :: l) (Cb p st d :: Freed p :: evs).

#[local] Hint Constructors settled : core.

Lemma settled_app l1 e1 l2 e2 : settled l1 e1 -> settled l2 e2 -> settled (l1 ++ l2) (e1 ++ e2).
Proof. induction 1; cbn; auto. Qed.

(** The settings of the timeouts. *)
Definition timing s : Z * Z := (r_timeout s, r_retrans s).

(** From [s] to [s'] the PDUs [gone] were given up. *)
Record account s s' (gone : list id) : Prop := {
  ac_mode : mode s' = mode s;
  ac_timing : timing s' = timing s;
  ac_next : r_next_id s' = r_next_id s;
  ac_ids : all_ids s ≡ₚ gone ++ all_ids s';
  ac_trace : exists evs, r_trace s' = r_trace s ++ evs /\ settled gone evs;
}.

Lemma account_refl s : account s s [].
Proof. split; try done. exists []. by rewrite app_nil_r. Qed.

Lemma account_trans s1 s2 s3 g1 g2 : account s1 s2 g1 -> account s2 s3 g2 -> account s1 s3 (g1 ++ g2).
Proof.
  intros [M1 G1 N1 I1 (e1 & T1 & S1)] [M2 G2 N2 I2 (e2 & T2 & S2)]. split; try congruence.
  - by rewrite I1, I2, <- app_assoc.
  - exists (e1 ++ e2). split; [by rewrite T2, T1, <- app_assoc|]. by apply settled_app.
Qed.

(** What the moves of PDUs depend on, besides the PDUs themselves. *)
Definition shape s :
    list id * list (list id) * Z * option id * id * (bool * bool * bool) * (Z * Z) :=
  (r_outqueue s, r_waitpdu s, r_waitpdu_len s, r_pdu s, r_next_id s, mode s, timing s).

Lemma shape_ids s s' : shape s' = shape s -> all_ids s' = all_ids s.
Proof. intros [= E1 E2 _ E3 _ _]. unfold all_ids. congruence. Qed.

Lemma account_quiet s s' : shape s' = shape s -> r_trace s' = r_trace s -> account s s' [].
Proof.
  intros E T. pose proof (shape_ids _ _ E) as Hi. unfold shape in E. injection E as ? ? ? ? ? ? ? ? ? ?.
  split; try done; [unfold mode; congruence|unfold timing; congruence|by rewrite Hi|]. exists []. by rewrite T, app_nil_r.
Qed.

Lemma clients_put s p x : clients s -> client_pdu x -> clients (put_pdu p x s).
Proof. intros Hs Hx q y. rewrite get_put. case_bool_decide; [by intros [= <-]|apply Hs]. Qed.

Lemma clients_sub s s' : clients s -> (forall p x, get_pdu s' p = Some x -> get_pdu s p = Some x) -> clients s'.
Proof. intros Hs H p x Hx. by eapply Hs, H. Qed.

Lemma clients_calm s : tcp_client s -> clients s -> calm false s.
Proof. intros Hm Hc. split; [done|]. intros p x Hx. by eapply cp_copying, Hc. Qed.

(** A PDU that changed nothing the invariants see. *)
Record alike x x' : Prop := {
  al_ok : pdu_ok x -> pdu_ok x';
  al_done : num_done (p_out x') = num_done (p_out x);
  al_total : total_size (p_out x') = total_size (p_out x);
  al_xid : p_xid x' = p_xid x;
  al_client : client_pdu x -> client_pdu x';
}.

Lemma alike_refl x : alike x x.
Proof. by split. Qed.

Lemma alike_buf b x : alike x (set_p_buf b x).
Proof. split; [by intros []; split|done..|by intros []; split]. Qed.

Lemma alike_timeouts t m b x : alike x (set_p_snr b (set_p_major m (set_p_timeout t x))).
Proof. split; [by intros []; split|done..|by intros []; split]. Qed.

(** A step that keeps the queues and changes PDUs in such ways only. *)
Lemma wf_alike s s' :
  wf s -> shape s' = shape s ->
  (forall p x, p ∈ all_ids s -> get_pdu s p = Some x -> exists x', get_pdu s' p = Some x' /\ alike x x') ->
  wf s'.
Proof.
  intros W E H. pose proof (shape_ids _ _ E) as Hids. unfold shape in E. injection E as Eo Ew El _ _ _ _ _ _ _.
  assert (Hsame : forall p, p ∈ all_ids s -> exists x', get_pdu s' p = Some x' /\ pdu_ok x' /\
    total_of s' p = total_of s p /\ xid_of s' p = xid_of s p /\ done_of s' p = done_of s p).
  { intros p Hp. destruct (wf_ok _ W p Hp) as (x & Hx & Hk). destruct (H p x Hp Hx) as (x' & Hx' & []).
    exists x'. unfold total_of, xid_of, done_of. rewrite Hx, Hx'. cbn. auto. }
  assert (Hout : forall p, p ∈ r_outqueue s -> p ∈ all_ids s) by (unfold all_ids; set_solver).
  assert (Htl : forall p, p ∈ tl (r_outqueue s) -> p ∈ r_outqueue s) by (destruct (r_outqueue s); cbn; set_solver).
  apply (wf_move s); rewrite ?Hids, ?Eo, ?Ew, ?El; try done; try apply W.
  - intros p Hp. destruct (Hsame p Hp) as (x' & ? & ? & ? & ? & _). eauto.
  - intros p Hp. destruct (Hsame p (Hout p Hp)) as (_ & _ & _ & -> & _ & ->). by apply W.
  - intros p Hp. destruct (Hsame p (Hout p (Htl p Hp))) as (_ & _ & _ & _ & _ & ->). by apply W.
Qed.

Lemma live_alike s s' :
  live s -> shape s' = shape s -> reader_ok s' -> (r_inpos s' <> 0 -> r_buf s' <> None) ->
  (forall p, (exists x, get_pdu s p = Some x /\ exists x', get_pdu s' p = Some x' /\ alike x x') \/
             get_pdu s p = None /\ get_pdu s' p = None) ->
  live s'.
Proof.
  intros L E Hr Hb H. split; [| | |done|done].
  - unfold shape in E. injection E as _ _ _ _ _ E1 E2 E3 _ _. unfold tcp_client, mode. rewrite E1, E2, E3. apply L.
  - intros p x Hx. destruct (H p) as [(y & Hy & y' & Hy' & Ha)|[_ Hn]]; [|congruence].
    rewrite Hy' in Hx. injection Hx as <-. by eapply (al_client _ _ Ha), L.
  - apply (wf_alike s); [apply L|done|]. intros p x _ Hx.
    destruct (H p) as [(y & Hy & y' & Hy' & Ha)|[Hn _]]; [|congruence].
    rewrite Hy in Hx. injection Hx as <-. eauto.
Qed.

(** ** Taking a PDU out *)

Lemma tl_filter (P : id -> Prop) `{!forall y : id, Decision (P y)} q l : q ∈ tl (filter P l) -> q ∈ tl l.
Proof.
  destruct l as [|y l]; [done|]. cbn [tl]. rewrite filter_cons. destruct (decide (P y)); cbn [tl].
  - by intros [_ ?]%list_elem_of_filter.
  - intros Hq. assert (Hf : q ∈ filter P l) by (destruct (filter P l); [done|cbn in Hq; by right]).
    by apply list_elem_of_filter in Hf as [_ ?].
Qed.

(** A step that gives up [gone] and leaves the other PDUs as they are. *)
Lemma wf_shrink gone s s' :
  wf s -> all_ids s ≡ₚ gone ++ all_ids s' ->
  (forall p, p ∈ all_ids s' -> get_pdu s' p = get_pdu s p) ->
  (forall p, p ∈ r_outqueue s' -> p ∈ r_outqueue s) ->
  (forall p, p ∈ tl (r_outqueue s') -> p ∈ tl (r_outqueue s)) ->
  length (r_waitpdu s') = length (r_waitpdu s) ->
  (forall i l p, r_waitpdu s' !! i = Some l -> p ∈ l -> exists l0, r_waitpdu s !! i = Some l0 /\ p ∈ l0) ->
  r_waitpdu_len s' = blen (concat (r_waitpdu s')) ->
  wf s'.
Proof.
  intros W Hids Hg Ho Ht Hn Hw Hl.
  assert (Hin : forall p, p ∈ all_ids s' -> p ∈ all_ids s) by (intros p Hp; rewrite Hids; set_solver).
  assert (Hout : forall p, p ∈ r_outqueue s' -> p ∈ all_ids s') by (unfold all_ids; set_solver).
  apply (wf_change gone s); try done.
  - intros p Hp. destruct (wf_ok _ W p (Hin p Hp)) as (x & Hx & Hk). exists x.
    unfold total_of, xid_of. rewrite Hg by done. auto.
  - intros p Hp. unfold done_of, total_of. rewrite Hg by auto. apply (wf_out _ W). auto.
  - intros p Hp. unfold done_of. rewrite Hg; [apply (wf_first _ W); auto|].
    apply Hout. destruct (r_outqueue s'); [done|]. cbn in Hp. by right.
  - intros i l p Hi Hp. destruct (Hw i l p Hi Hp) as (l0 & Hi0 & Hp0). by apply (wf_hashed _ W i l0).
Qed.

Lemma l_remove_perm p l : NoDup l -> p ∈ l -> l ≡ₚ p :: l_remove p l.
Proof.
  intros Hn (l1 & l2 & ->)%list_elem_of_split. rewrite l_remove_mid by done. by rewrite <- Permutation_middle.
Qed.

Lemma nodup_out s : NoDup (all_ids s) -> NoDup (r_outqueue s).
Proof. unfold all_ids. by intros [? _]%NoDup_app. Qed.

Lemma concat_remove (ls : list (list id)) i w p :
  ls !! i = Some w -> NoDup (concat ls) -> p ∈ w -> concat ls ≡ₚ p :: concat (<[i := l_remove p w]> ls).
Proof.
  intros Hi Hn Hp. rewrite (concat_update _ _ _ _ Hi), (concat_split _ _ _ Hi) in *.
  assert (Hw : NoDup w) by by apply NoDup_app in Hn as (_ & _ & [? _]%NoDup_app).
  rewrite (l_remove_perm p w) at 1 by done. cbn. by rewrite <- Permutation_middle.
Qed.

Lemma nodup_wait s : NoDup (all_ids s) -> NoDup (concat (r_waitpdu s)).
Proof. unfold all_ids. by intros (_ & _ & (? & _)%NoDup_app)%NoDup_app. Qed.

(** A PDU taken out of the outqueue. *)
Lemma drop_out s p : wf s -> p ∈ r_outqueue s ->
  let s' := set_r_outqueue (l_remove p (r_outqueue s)) s in wf s' /\ all_ids s ≡ₚ p :: all_ids s'.
Proof.
  intros W Hp s'. pose proof (nodup_out s (wf_nodup _ W)) as Hn.
  assert (Hids : all_ids s ≡ₚ p :: all_ids s').
  { unfold all_ids, s'. cbn. by rewrite (l_remove_perm p (r_outqueue s)) at 1 by done. }
  split; [|done]. apply (wf_shrink [p] s); try done; try apply W.
  - by intros q [? _]%l_remove_subset.
  - intros q Hq. by eapply (tl_filter (fun y : id => y <> p)).
  - intros i l q Hi Hq. eauto.
Qed.

(** A PDU taken out of its bucket. *)
Definition unbucket (i : nat) (w : list id) p s : rpc R :=
  set_r_waitpdu_len (u32 (r_waitpdu_len s - 1)) (set_r_waitpdu (<[i := l_remove p w]> (r_waitpdu s)) s).

Lemma wait_len_u32 s : wf s -> is_u32 (blen (concat (r_waitpdu s))).
Proof.
  intros W. pose proof (wf_count _ W) as H. unfold all_ids in H. rewrite !blen_app in H.
  pose proof (blen_nonneg (r_outqueue s)). pose proof (blen_nonneg (option_list (r_pdu s))).
  pose proof (blen_nonneg (concat (r_waitpdu s))). unfold is_u32 in *. lia.
Qed.

Lemma drop_wait s i w p : wf s -> r_waitpdu s !! i = Some w -> p ∈ w ->
  wf (unbucket i w p s) /\ all_ids s ≡ₚ p :: all_ids (unbucket i w p s).
Proof.
  intros W Hi Hp. pose proof (concat_remove _ i w p Hi (nodup_wait s (wf_nodup _ W)) Hp) as Hc.
  assert (Hids : all_ids s ≡ₚ p :: all_ids (unbucket i w p s)).
  { unfold all_ids, unbucket. cbn. rewrite Hc at 1. by rewrite <- app_comm_cons, <- Permutation_middle. }
  split; [|done]. apply (wf_shrink [p] s); try done; try apply W.
  - unfold unbucket. cbn. by rewrite length_insert.
  - intros j l q Hj Hq. unfold unbucket in Hj. cbn in Hj.
    destruct (decide (i = j)) as [->|Hne].
    + rewrite list_lookup_insert_eq in Hj by by eapply lookup_lt_Some. injection Hj as <-.
      apply l_remove_subset in Hq as [? _]. eauto.
    + rewrite list_lookup_insert_ne in Hj by done. eauto.
  - unfold unbucket. cbn. rewrite (wf_len _ W). pose proof (wait_len_u32 s W) as Hu.
    assert (Hlen : blen (concat (r_waitpdu s)) = 1 + blen (concat (<[i:=l_remove p w]> (r_waitpdu s)))).
    { unfold blen. rewrite Hc. cbn [length]. lia. }
    pose proof (blen_nonneg (concat (<[i:=l_remove p w]> (r_waitpdu s)))). rewrite Hlen in *.
    rewrite u32_id by (unfold is_u32 in *; lia). lia.
Qed.

(** ** Sending a PDU again *)

(** The PDU [x] that will be sent from its start, its answer read into [c]. *)
Definition restarted (c : cursor) x : pdu R :=
  set_p_in c (set_p_out (mkVecs 0 (total_size (p_out x)) (iov_capacity (p_out x)) (vecs (p_out x))) x).


Lemma restart_ok c x : pdu_ok x -> base c = None \/ cursor_wf c -> pdu_ok (restarted c x).
Proof. intros [] Hc. split; try done. cbn. lia. Qed.

Lemma return_perm p l : l_return l p ≡ₚ p :: l.
Proof. destruct l as [|h l]; cbn; [done|]. apply Permutation_swap. Qed.

Lemma restart_client c x : client_pdu x -> base c = None -> client_pdu (restarted c x).
Proof. by intros [? (? & ? & ?) ?]. Qed.

Lemma reset_cursor_ok x : pdu_ok x ->
  exists c, rpc_reset_cursor (p_in x) = Some c /\ pdu_ok (restarted c x) /\
    (base (p_in x) = None -> c = p_in x).
Proof.
  intros Hk. destruct (po_in _ Hk) as [Hb|Hw].
  - exists (p_in x). split; [by unfold rpc_reset_cursor; rewrite Hb|]. split; [|done].
    apply restart_ok; auto.
  - destruct (reset_cursor_spec _ Hw) as (c & E & Hw' & _). exists c. split; [done|].
    split; [apply restart_ok; auto|]. intros Hb. pose proof (cw_base _ Hw). congruence.
Qed.

(** What [rpc_return_to_outqueue] does. *)
Definition returned p (x : pdu R) s : rpc R :=
  put_pdu p x (inc_retransmitted (set_r_outqueue (l_return (r_outqueue s) p) s)).

Lemma return_to_outqueue_spec s p x : get_pdu s p = Some x -> pdu_ok x ->
  exists c, rpc_return_to_outqueue s p = Some (returned p (restarted c x) s) /\ pdu_ok (restarted c x) /\
    (base (p_in x) = None -> c = p_in x).
Proof.
  intros Hx Hk. destruct (reset_cursor_ok x Hk) as (c & E & Hk' & Hc). exists c. split; [|done].
  unfold rpc_return_to_outqueue.
  change (get_pdu (inc_retransmitted (set_r_outqueue (l_return (r_outqueue s) p) s)) p) with (get_pdu s p).
  rewrite Hx. cbn [mbind option_bind]. rewrite E. done.
Qed.

Lemma returned_ids p x s : all_ids (returned p x s) ≡ₚ p :: all_ids s.
Proof. unfold all_ids. cbn. by rewrite return_perm. Qed.

(** A PDU that the context does not hold is put back into the outqueue. *)
Lemma wf_returned s p x :
  wf s -> p ∉ all_ids s -> pdu_ok x -> num_done (p_out x) = 0 ->
  is_u32 (1 + blen (all_ids s)) -> is_u64 (total_size (p_out x) + volume s (all_ids s)) ->
  wf (returned p x s).
Proof.
  intros W Hp Hk Hd H32 H64. set (s' := returned p x s). pose proof (returned_ids p x s) as Hids. fold s' in Hids.
  assert (Hg : forall q, q ∈ all_ids s -> get_pdu s' q = get_pdu s q).
  { intros q Hq. unfold s', returned. rewrite get_put_ne; [done|]. by intros ->. }
  assert (Hgp : get_pdu s' p = Some x) by apply get_put_eq.
  assert (Hin : forall q, q ∈ r_outqueue s -> q ∈ all_ids s) by (unfold all_ids; set_solver).
  assert (Ho : forall q, q ∈ r_outqueue s' -> q = p \/ q ∈ r_outqueue s).
  { intros q Hq. change (q ∈ l_return (r_outqueue s) p) in Hq. rewrite return_perm in Hq. by apply elem_of_cons in Hq. }
  assert (Ht : forall q, q ∈ tl (r_outqueue s') -> q = p \/ q ∈ tl (r_outqueue s)).
  { intros q Hq. change (q ∈ tl (l_return (r_outqueue s) p)) in Hq. destruct (r_outqueue s); cbn in *; set_solver. }
  split; try apply W.
  - rewrite Hids. constructor; [done|apply W].
  - intros q Hq. rewrite Hids in Hq. apply elem_of_cons in Hq as [->|Hq]; [eauto|]. rewrite Hg by done. by apply W.
  - intros q Hq. unfold done_of, total_of. destruct (Ho q Hq) as [->|Hq'].
    + rewrite Hgp. cbn. pose proof (po_size _ Hk). lia.
    + rewrite Hg by auto. by apply W.
  - intros q Hq. unfold done_of. destruct (Ht q Hq) as [->|Hq']; [by rewrite Hgp|].
    rewrite Hg; [by apply W|]. apply Hin. destruct (r_outqueue s); [done|by right].
  - intros i l q Hi Hq. change (r_waitpdu s' !! i) with (r_waitpdu s !! i) in Hi.
    assert (Hqa : q ∈ all_ids s).
    { unfold all_ids. rewrite !elem_of_app. right. left. rewrite (concat_split _ _ _ Hi). set_solver. }
    unfold xid_of. rewrite Hg by done. by apply (wf_hashed _ W i l q).
  - assert (blen (all_ids s') = 1 + blen (all_ids s)) as ->; [|done]. unfold blen. rewrite Hids. cbn [length]. lia.
  - rewrite (volume_perm _ _ _ Hids), volume_cons. rewrite (volume_eq s).
    + unfold total_of at 1. by rewrite Hgp.
    + intros q Hq. unfold total_of. by rewrite Hg.
Qed.

(** The bounds a PDU has back when it was given up and nothing else changed. *)
Lemma given_up_bounds s s1 p x :
  wf s -> all_ids s ≡ₚ p :: all_ids s1 -> (forall q, q ∈ all_ids s1 -> total_of s1 q = total_of s q) ->
  get_pdu s p = Some x ->
  p ∉ all_ids s1 /\ is_u32 (1 + blen (all_ids s1)) /\ is_u64 (total_size (p_out x) + volume s1 (all_ids s1)).
Proof.
  intros W Hids Ht Hx. split; [|split].
  - pose proof (wf_nodup _ W) as Hn. rewrite Hids in Hn. by apply NoDup_cons in Hn as [? _].
  - pose proof (wf_count _ W) as Hc. unfold blen in *. rewrite Hids in Hc. cbn [length] in Hc.
    unfold is_u32 in *. lia.
  - pose proof (wf_fit _ W) as Hf. rewrite (volume_perm _ _ _ Hids), volume_cons in Hf.
    unfold total_of at 1 in Hf. rewrite Hx in Hf. by rewrite (volume_eq s).
Qed.
End account.

(** ** Deciding *)

Definition client_pdub {R} (x : pdu R) : bool := p_cb x && copyingb x && negb (p_discard x).

Lemma client_pdub_ok {R} (x : pdu R) : client_pdub x = true -> client_pdu x.
Proof.
  unfold client_pdub. intros H. split_andb. split; [done|by apply copyingb_ok|by destruct (p_discard x)].
Qed.

Definition clientsb {R} (s : rpc R) : bool := forallb (fun t => client_pdub t.2) (map_to_list (r_pdus s)).

Lemma clientsb_ok {R} (s : rpc R) : clientsb s = true -> clients s.
Proof.
  intros H p x Hx. unfold get_pdu in Hx. apply elem_of_map_to_list in Hx.
  exact (forallb_all _ (fun t => client_pdu t.2) _ (fun t => client_pdub_ok t.2) H _ Hx).
Qed.

Definition liveb {R} (s : rpc R) : bool :=
  negb (r_server s) && negb (r_udp s) && negb (r_disabled s) && clientsb s && wfb s &&
  match r_state s with
  | READ_PAYLOAD => true
  | READ_IOVEC | READ_PADDING => false
  | _ => negb (is_some (r_pdu s))
  end && ((r_inpos s =? 0) || is_some (r_buf s)).

Lemma liveb_ok {R} (s : rpc R) : liveb s = true -> live s.
Proof.
  unfold liveb. intros H. split_andb. split.
  - unfold tcp_client, mode. by destruct (r_server s), (r_udp s), (r_disabled s).
  - by apply clientsb_ok.
  - by apply wfb_wf.
  - unfold reader_ok. by destruct (r_state s), (r_pdu s).
  - intros Hi. replace (r_inpos s =? 0) with false in * by lia. by destruct (r_buf s).
Qed.
