(* ===== verification/Purge.v ===== *)
(** * Purge: giving every queued PDU back (lib/init.c)

    [rpc_purge_all_pdus] calls the callback of every PDU of the outqueue and of
    the buckets once, in order, and releases it.  It resets neither
    [waitpdu_len] nor the PDU whose reply is being read: after it the context
    still counts PDUs that are gone, and holds one whose caller will never
    hear of it. *)

From S2P Require Import Prelude Zdr RpcMsg Cursor Queue RpcState Context Send SendProps Recv RecvProps Account.

Section purge.
Context {R : Type}.
Implicit Types (s : rpc R) (p q : id) (x : pdu R).

(** ** One PDU *)

(** The callback is told [st] and the PDU is released. *)
Definition released (st : Z) p s : rpc R :=
  log (Freed p) (set_r_pdus (delete p (r_pdus s)) (log (Cb p st NoData) s)).

Lemma release_ok st p x s : get_pdu s p = Some x -> p_cb x = true ->
  (s1 ← call_cb_if s p st NoData; rpc_free_pdu s1 p) = Some (released st p s).
Proof.
  intros Hx Hc. unfold call_cb_if. rewrite Hx. cbn [mbind option_bind]. rewrite Hc.
  unfold rpc_free_pdu. change (get_pdu (log (Cb p st NoData) s) p) with (get_pdu s p). rewrite Hx. done.
Qed.

Lemma released_get st p q s : q <> p -> get_pdu (released st p s) q = get_pdu s q.
Proof. intros Hq. unfold get_pdu, released. cbn. by rewrite lookup_delete_ne. Qed.

Lemma released_clients st p s : clients s -> clients (released st p s).
Proof.
  intros Hc. apply (clients_sub s); [done|]. intros q x. unfold get_pdu, released. cbn.
  by intros [_ ?]%lookup_delete_Some.
Qed.

(** The events of giving up the PDUs [l]. *)
Definition farewell (st : Z) (l : list id) : list (event R) := concat (map (fun p => [Cb p st NoData; Freed p]) l).

Lemma farewell_settled st l : settled l (farewell st l).
Proof. induction l as [|p l IH]; cbn; by constructor. Qed.

Lemma farewell_app st l1 l2 : farewell st (l1 ++ l2) = farewell st l1 ++ farewell st l2.
Proof. unfold farewell. by rewrite map_app, concat_app. Qed.

(** ** A queue *)

(** The context once the PDUs [l] were given up. *)
Record purged (st : Z) (l : list id) s s' : Prop := {
  pg_shape : shape s' = shape s;
  pg_trace : r_trace s' = r_trace s ++ farewell st l;
  pg_get : forall q, q ∉ l -> get_pdu s' q = get_pdu s q;
  pg_clients : clients s';
  pg_max : r_max_waitpdu s' = r_max_waitpdu s;
  pg_auto : r_auto_reconnect s' = r_auto_reconnect s;
}.

Lemma purge_queue_spec st l : forall s,
  clients s -> NoDup l -> (forall p, p ∈ l -> is_Some (get_pdu s p)) ->
  exists s', purge_queue st l s = Some s' /\ purged st l s s'.
Proof.
  induction l as [|p l IH]; intros s Hc Hn Hl.
  { exists s. split; [done|]. split; try done. by rewrite app_nil_r. }
  apply NoDup_cons in Hn as [Hp Hn]. destruct (Hl p) as [x Hx]; [set_solver|].
  destruct (IH (released st p s)) as (s' & E & [Es Et Eg Ec Em Ea]); [by apply released_clients|done| |].
  { intros q Hq. rewrite released_get by (by intros ->). apply Hl. set_solver. }
  exists s'. cbn [purge_queue]. pose proof (release_ok st p x s Hx (cp_cb _ (Hc p x Hx))) as Hr.
  destruct (call_cb_if s p st NoData) as [s1|]; [|done]. cbn [mbind option_bind] in *. rewrite Hr.
  split; [exact E|]. split; [done| | |done|done|done].
  - rewrite Et. cbn. by rewrite <- !app_assoc.
  - intros q Hq. rewrite Eg by set_solver. apply released_get. set_solver.
Qed.

(** ** The buckets *)

Lemma concat_clear (ls : list (list id)) i : concat (drop (S i) (<[i := []]> ls)) = concat (drop (S i) ls).
Proof. by rewrite drop_insert_lt by lia. Qed.

Lemma purge_buckets_spec st n : forall i s,
  (i + n = length (r_waitpdu s))%nat -> clients s -> NoDup (concat (drop i (r_waitpdu s))) ->
  (forall p, p ∈ concat (drop i (r_waitpdu s)) -> is_Some (get_pdu s p)) ->
  exists s', purge_buckets st n i s = Some s' /\
    purged st (concat (drop i (r_waitpdu s))) s (set_r_waitpdu (r_waitpdu s) s') /\
    r_waitpdu s' = take i (r_waitpdu s) ++ replicate n [].
Proof.
  induction n as [|n IH]; intros i s Hn Hc Hnd Hl; cbn [purge_buckets].
  { exists s. rewrite drop_ge, take_ge by lia. cbn. rewrite app_nil_r. split; [done|]. split; [|done].
    split; try done. by rewrite app_nil_r. }
  destruct (lookup_lt_is_Some_2 (r_waitpdu s) i) as [w Hw]; [lia|]. rewrite Hw. cbn [mbind option_bind].
  rewrite (drop_S _ _ _ Hw) in *. cbn [concat] in *. apply NoDup_app in Hnd as (Hnw & Hdj & Hnd).
  set (s0 := set_r_waitpdu (<[i:=[]]> (r_waitpdu s)) s).
  destruct (purge_queue_spec st w s0) as (s1 & -> & [Es1 Et1 Eg1 Ec1 Em1 Ea1]); [done|done|intros p Hp; apply Hl; set_solver|].
  cbn [mbind option_bind].
  assert (Hw1 : r_waitpdu s1 = <[i:=[]]> (r_waitpdu s)) by by injection Es1.
  assert (Hd1 : drop (S i) (r_waitpdu s1) = drop (S i) (r_waitpdu s)) by (rewrite Hw1; by rewrite drop_insert_lt by lia).
  destruct (IH (S i) s1) as (s2 & -> & [Es2 Et2 Eg2 Ec2 Em2 Ea2] & Hw2).
  { rewrite Hw1, length_insert. lia. }
  { done. }
  { by rewrite Hd1. }
  { intros p Hp. rewrite Hd1 in Hp. rewrite Eg1; [apply Hl; set_solver|]. intros Hpw. by apply (Hdj p Hpw). }
  rewrite Hd1 in *. exists s2. split; [done|]. split.
  - split; [..|done|cbn in *; congruence|cbn in *; congruence].
    + unfold shape, mode, timing in *. cbn in *. congruence.
    + cbn in *. rewrite Et2, Et1, farewell_app, <- app_assoc. done.
    + intros q Hq. rewrite not_elem_of_app in Hq. destruct Hq as [Hq1 Hq2].
      change (get_pdu s2 q = get_pdu s q). change (get_pdu (set_r_waitpdu (r_waitpdu s1) s2) q) with (get_pdu s2 q) in *.
      pose proof (Eg2 q Hq2) as E2. change (get_pdu s2 q = get_pdu s1 q) in E2. rewrite E2. by rewrite Eg1.
  - rewrite Hw2, Hw1, take_S_r with (x := []) by (apply list_lookup_insert_eq; lia).
    rewrite take_insert_ge by lia. by rewrite <- app_assoc.
Qed.

(** ** All of them *)

(** What is left of the context. *)
Record purged_all (st : Z) s s' : Prop := {
  pa_out : r_outqueue s' = [];
  pa_wait : r_waitpdu s' = replicate (length (r_waitpdu s)) [];
  pa_len : r_waitpdu_len s' = r_waitpdu_len s;
  pa_pdu : r_pdu s' = r_pdu s;
  pa_mode : mode s' = mode s;
  pa_timing : timing s' = timing s;
  pa_next : r_next_id s' = r_next_id s;
  pa_trace : r_trace s' = r_trace s ++ farewell st (r_outqueue s ++ concat (r_waitpdu s));
  pa_clients : clients s';
  pa_max : r_max_waitpdu s' = r_max_waitpdu s;
  pa_auto : r_auto_reconnect s' = r_auto_reconnect s;
}.

Lemma concat_replicate_nil {A} n : concat (replicate n (@nil A)) = [].
Proof. by induction n. Qed.

Lemma purge_all_spec st s :
  clients s -> NoDup (r_outqueue s ++ concat (r_waitpdu s)) ->
  (forall p, p ∈ r_outqueue s ++ concat (r_waitpdu s) -> is_Some (get_pdu s p)) ->
  exists s', rpc_purge_all_pdus st s = Some s' /\ purged_all st s s'.
Proof.
  intros Hc Hn Hl. apply NoDup_app in Hn as (Hn1 & Hdj & Hn2). unfold rpc_purge_all_pdus.
  destruct (purge_queue_spec st (r_outqueue s) (set_r_outqueue [] s)) as (s1 & -> & [Es1 Et1 Eg1 Ec1 Em1 Ea1]);
    [done|done|intros p Hp; apply Hl; set_solver|].
  cbn [mbind option_bind].
  assert (Hw1 : r_waitpdu s1 = r_waitpdu s) by by injection Es1.
  destruct (purge_buckets_spec st (length (r_waitpdu s1)) 0 s1) as (s2 & -> & [Es2 Et2 Eg2 Ec2 Em2 Ea2] & Hw2).
  { done. }
  { done. }
  { by rewrite drop_0, Hw1. }
  { intros p. rewrite drop_0, Hw1. intros Hp. rewrite Eg1; [apply Hl; set_solver|]. intros Ho. by apply (Hdj p Ho). }
  cbn [mbind option_bind]. rewrite drop_0 in *.
  assert (Ho2 : r_outqueue s2 = []) by (unfold shape in *; cbn in *; congruence).
  rewrite Ho2, bool_decide_true by done. exists s2. split; [done|].
  unfold shape, mode, timing in *. cbn in *. split; try done; try congruence.
  - by rewrite Hw2, Hw1.
  - unfold mode. congruence.
  - unfold timing. congruence.
  - rewrite Et2, Et1, Hw1, farewell_app, app_assoc. done.
Qed.

Lemma purged_account st s s' : clients s -> purged_all st s s' ->
  account s s' (r_outqueue s ++ concat (r_waitpdu s)) /\ all_ids s' = option_list (r_pdu s).
Proof.
  intros Hc [Ho Hw _ Hp Hm Hg Hx Ht _ _ _].
  assert (Hids : all_ids s' = option_list (r_pdu s)) by (unfold all_ids; by rewrite Ho, Hw, Hp, concat_replicate_nil).
  split; [|done]. split; try done.
  - rewrite Hids. unfold all_ids. by rewrite <- app_assoc.
  - eexists. split; [exact Ht|]. apply farewell_settled.
Qed.

Lemma wf_queued s p : wf s -> p ∈ r_outqueue s ++ concat (r_waitpdu s) -> is_Some (get_pdu s p).
Proof. intros W Hp. destruct (wf_ok _ W p) as (x & -> & _); [unfold all_ids; set_solver|done]. Qed.

Lemma wf_queued_nodup s : wf s -> NoDup (r_outqueue s ++ concat (r_waitpdu s)).
Proof. intros W. pose proof (wf_nodup _ W) as H. unfold all_ids in H. rewrite app_assoc in H. by apply NoDup_app in H as [? _]. Qed.
(** [rpc_error_all_pdus] calls the callback of every queued PDU once, with RPC_STATUS_ERROR,
    first those to be sent and then those that wait, and releases each right after; the
    queues are empty, and of the PDUs only the one whose reply is being read is left. *)
Theorem error_all_settles_queued s : clients s -> wf s ->
  exists s', rpc_error_all_pdus s = Some s' /\
    r_trace s' = r_trace s ++ farewell RPC_STATUS_ERROR (r_outqueue s ++ concat (r_waitpdu s)) /\
    all_ids s' = option_list (r_pdu s) /\ clients s'.
Proof.
  intros Hc W. destruct (purge_all_spec RPC_STATUS_ERROR s) as (s' & E & Pa);
    [done|by apply wf_queued_nodup|intros q; by apply wf_queued|].
  exists s'. split; [done|]. split; [apply Pa|]. split; [by eapply purged_account|apply Pa].
Qed.

(** [rpc_error_all_pdus] does not reset [waitpdu_len]. A context with a limit on the calls in
    flight that was at its limit when it was purged stays there: it counts PDUs that are gone, and
    never writes again, whatever is queued and whatever the socket accepts. *)
Theorem purged_context_stays_full s : clients s -> wf s -> 0 < r_max_waitpdu s <= r_waitpdu_len s ->
  exists s', rpc_error_all_pdus s = Some s' /\ concat (r_waitpdu s') = [] /\
    r_waitpdu_len s' = r_waitpdu_len s /\
    forall ws n l, write_loop ws n (set_r_outqueue l s') = Some (set_r_outqueue l s', 0).
Proof.
  intros Hc W Hmax. destruct (purge_all_spec RPC_STATUS_ERROR s) as (s' & E & Pa);
    [done|by apply wf_queued_nodup|intros q; by apply wf_queued|].
  exists s'. split; [done|]. split; [by rewrite (pa_wait _ _ _ Pa), concat_replicate_nil|].
  split; [apply Pa|]. intros ws n l.
  assert (Hf : may_wait (set_r_outqueue l s') 0 = false).
  { unfold may_wait. cbn. rewrite (pa_max _ _ _ Pa), (pa_len _ _ _ Pa), Z.add_0_r.
    pose proof (wait_len_u32 s W) as Hu. rewrite <- (wf_len _ W) in Hu. rewrite u32_id by done. lia. }
  destruct ws; cbn [write_loop]; by rewrite Hf.
Qed.

End purge.

(** ** Instances *)

Lemma waiting_clients : clients waiting.
Proof. apply clientsb_ok. vm_compute. reflexivity. Qed.

Lemma waiting_live : live waiting.
Proof. apply liveb_ok. vm_compute. reflexivity. Qed.

Lemma error_all_settles_queued_witness :
  exists s', rpc_error_all_pdus waiting = Some s' /\
    r_trace s' = r_trace waiting ++ farewell RPC_STATUS_ERROR (r_outqueue waiting ++ concat (r_waitpdu waiting)).
Proof.
  destruct (error_all_settles_queued waiting waiting_clients (lv_wf _ waiting_live)) as (s' & E & T & _).
  exists s'. exact (conj E T).
Defined.

(** Both calls allowed in flight are. *)
Definition full : rpc Z := set_r_max_waitpdu 2 waiting.

Lemma purged_context_stays_full_witness :
  exists s', rpc_error_all_pdus full = Some s' /\ concat (r_waitpdu s') = [] /\ r_waitpdu_len s' = r_waitpdu_len full.
Proof.
  destruct (purged_context_stays_full full) as (s' & E & Hc & Hl & _).
  - apply clientsb_ok. vm_compute. reflexivity.
  - apply wfb_wf. vm_compute. reflexivity.
  - split; vm_compute; [reflexivity|discriminate].
  - exists s'. exact (conj E (conj Hc Hl)).
Defined.
