(* ===== verification/Service.v ===== *)
(** * Service: timeouts, connecting and the service loop (lib/socket.c)

    [rpc_timeout_scan], [rpc_connect_async], [rpc_disconnect],
    [rpc_reconnect_requeue] and [rpc_service].  What the system answers while
    a connection is made is an [attempt]; what it answers to one call of
    [rpc_service] is an [io].  The address of the server, its resolution
    (but for whether it succeeds), the options of the socket and the search
    for a privileged port leave nothing in the context. *)

From S2P Require Import Prelude Zdr RpcMsg Cursor Queue RpcState Context Send Recv.

Section service.
Context {R : Type} (zero_res : R) (read_status : R -> Z).
Context (process_call : ZDR -> rpc R -> option (rpc R * Z)).
Implicit Types (s : rpc R) (p : id).

(** ** Statistics *)

Definition inc_timedout s : rpc R :=
  let t := r_stats s in
  set_r_stats (mkStats (num_req_sent t) (num_resp_rcvd t) (u64 (num_timedout t + 1))
    (num_timedout_in_outqueue t) (num_major_timedout t) (num_retransmitted t) (num_reconnects t)) s.

Definition inc_timedout_in_outqueue s : rpc R :=
  let t := r_stats s in
  set_r_stats (mkStats (num_req_sent t) (num_resp_rcvd t) (num_timedout t)
    (u64 (num_timedout_in_outqueue t + 1)) (num_major_timedout t) (num_retransmitted t)
    (num_reconnects t)) s.

Definition inc_major_timedout s : rpc R :=
  let t := r_stats s in
  set_r_stats (mkStats (num_req_sent t) (num_resp_rcvd t) (num_timedout t)
    (num_timedout_in_outqueue t) (u64 (num_major_timedout t + 1)) (num_retransmitted t)
    (num_reconnects t)) s.

Definition inc_reconnects s : rpc R :=
  let t := r_stats s in
  set_r_stats (mkStats (num_req_sent t) (num_resp_rcvd t) (num_timedout t)
    (num_timedout_in_outqueue t) (num_major_timedout t) (num_retransmitted t)
    (u64 (num_reconnects t + 1))) s.

(** ** Timeouts *)

Definition retried s (x : pdu R) : bool := negb (p_no_retry x) && (r_retrans s >? 0).

(** The end of a PDU that has timed out and is not retried. *)
Definition drop_timed_out s p : option (rpc R) :=
  s ← call_cb_if s p RPC_STATUS_TIMEOUT NoData; rpc_free_pdu s p.

(** One PDU of the outqueue at time [t]. *)
Definition scan_out_pdu (t : Z) p s : option (rpc R) :=
  x ← get_pdu s p;
  if (p_timeout x =? 0) || (t <? p_timeout x) then Some s else
  let s := inc_timedout_in_outqueue s in
  if retried s x then
    x ← pdu_set_timeout s (set_p_major 0 (set_p_timeout 0 x)) t; Some (put_pdu p x s)
  else drop_timed_out (set_r_outqueue (l_remove p (r_outqueue s)) s) p.

(** A PDU that is retried: its timeouts are set again; [true] when the
    connection has given no reply for longer than the timeout. *)
Definition retry_pdu (t last_rpc_msecs : Z) p (x : pdu R) s : option (rpc R * bool) :=
  let x := set_p_timeout 0 x in
  let major := t >=? p_major x in
  let s := if major then inc_major_timedout s else s in
  let x := if major then set_p_snr true (set_p_major 0 x) else x in
  x ← pdu_set_timeout s x t;
  s ← rpc_return_to_outqueue (put_pdu p x s) p;
  Some (s, major && (last_rpc_msecs >? r_timeout s)).

(** One PDU of the bucket [i]. *)
Definition scan_wait_pdu (t last_rpc_msecs : Z) (i : nat) p (st : rpc R * bool) : option (rpc R * bool) :=
  let '(s, need) := st in
  x ← get_pdu s p;
  if (p_timeout x =? 0) || ((t <? p_timeout x) && (t <? p_major x)) then Some (s, need) else
  let s := if t >=? p_timeout x then inc_timedout s else s in
  s ← upd_bucket i (l_remove p) s;
  let s := set_r_waitpdu_len (u32 (r_waitpdu_len s - 1)) s in
  if retried s x then
    '(s, stuck) ← retry_pdu t last_rpc_msecs p x s; Some (s, need || stuck)
  else s ← drop_timed_out s p; Some (s, need).

(** The loop over a queue: each PDU that was in it when the loop began. *)
Fixpoint scan {St} (f : id -> St -> option St) (l : list id) (st : St) : option St :=
  match l with
  | [] => Some st
  | p :: l => st ← f p st; scan f l st
  end.

(** The loop over the buckets, [n] of them from [i]. *)
Fixpoint scan_buckets (t last_rpc_msecs : Z) (n i : nat) (st : rpc R * bool) : option (rpc R * bool) :=
  match n with
  | O => Some st
  | S n =>
      w ← r_waitpdu st.1 !! i;
      st ← scan (scan_wait_pdu t last_rpc_msecs i) w st;
      scan_buckets t last_rpc_msecs n (S i) st
  end.

(** Milliseconds since the last successful reply, an [int]. *)
Definition last_rpc_msecs (t : Z) s : Z := if r_last_rpc s =? 0 then -1 else i32 (u64 (t - r_last_rpc s)).

Definition rpc_timeout_scan (t : Z) s : option (rpc R * Z) :=
  let last := last_rpc_msecs t s in
  if t <=? u64 (r_last_scan s + 1000) then Some (s, 0) else
  let s := set_r_last_scan t s in
  s ← scan (scan_out_pdu t) (r_outqueue s) s;
  '(s, need) ← scan_buckets t last (length (r_waitpdu s)) 0 (s, false);
  Some (s, if need : bool then -1 else 0).

(** ** Connecting *)

(** What the system answers: is the address of a known family, the descriptor
    of the socket (or -1), do SO_BINDTODEVICE, dup2, SO_KEEPALIVE and connect
    (which may be in progress) succeed. *)
Record attempt := mkAttempt {
  a_family : bool; a_fd : Z; a_device : bool; a_dup : bool; a_keepalive : bool; a_connect : bool;
}.

Definition rpc_connect_sockaddr_async (a : attempt) s : rpc R * Z :=
  if negb (a_family a) then (s, -1) else
  let s := set_r_fd (a_fd a) s in
  if negb (a_device a) then (s, -1) else
  if a_fd a =? -1 then (s, -1) else
  let fail := negb (r_old_fd s =? 0) && negb (a_dup a) in
  let s := if (r_old_fd s =? 0) || fail then s else set_r_fd (r_old_fd s) s in
  if fail then (s, -1) else
  if negb (a_keepalive a) then (s, -1) else (s, if a_connect a then 0 else -1).

(** [rpc_connect_async]; [cb]: is there a callback; [resolved]: does
    getaddrinfo succeed. *)
Definition rpc_connect_async (a : attempt) (resolved cb : bool) s : rpc R * Z :=
  if r_server s then (s, -1) else
  if negb (r_fd s =? -1) then (s, -1) else
  if r_udp s then (s, -1) else
  let s := set_r_auto_reconnect 0 s in
  if negb resolved then (s, -1) else
  let s := set_r_connect_cb (if cb then Some UserConnectCb else None) s in
  let '(s, r) := rpc_connect_sockaddr_async a s in (s, if r =? 0 then 0 else -1).

(** ** Reconnecting *)

(** The loop over a bucket. *)
Fixpoint return_all (l : list id) s : option (rpc R) :=
  match l with
  | [] => Some s
  | p :: l => s ← rpc_return_to_outqueue s p; return_all l s
  end.

(** The loop over the buckets. *)
Fixpoint return_buckets (n i : nat) s : option (rpc R) :=
  match n with
  | O => Some s
  | S n =>
      w ← r_waitpdu s !! i;
      s ← return_all w s;
      return_buckets n (S i) (set_r_waitpdu (<[i := []]> (r_waitpdu s)) s)
  end.

(** The head of the outqueue is sent from its start. *)
Definition restart_head s : option (rpc R) :=
  match r_outqueue s with
  | [] => Some s
  | p :: _ => x ← get_pdu s p; Some (put_pdu p (set_p_out (set_num_done 0 (p_out x)) x) s)
  end.

(** The part of [rpc_reconnect_requeue] that takes the connection down. *)
Definition take_down s : option (rpc R) :=
  let s := if r_connected s then set_r_num_retries (r_auto_reconnect s) s else s in
  let s := if r_fd s =? -1 then s else set_r_old_fd (r_fd s) s in
  let s := set_r_connected false (set_r_fd (-1) s) in
  s ← restart_head s;
  let s := set_r_state READ_RM (set_r_inpos 0 s) in
  let s := rpc_free_all_fragments s in
  s ← return_buckets (length (r_waitpdu s)) 0 s;
  let s := set_r_waitpdu_len 0 s in
  match r_pdu s with
  | Some p => s ← rpc_return_to_outqueue s p; Some (set_r_pdu None s)
  | None => Some s
  end.

Definition rpc_reconnect_requeue (a : attempt) s : option (rpc R * Z) :=
  if r_auto_reconnect s =? 0 then s ← rpc_error_all_pdus s; Some (s, -1) else
  s ← take_down s;
  if (r_auto_reconnect s <? 0) || (r_num_retries s >? 0) then
    if negb (fits_int (r_num_retries s - 1)) then None else
    let s := set_r_connect_cb (Some ReconnectCb) (set_r_num_retries (r_num_retries s - 1) s) in
    let '(s, r) := rpc_connect_sockaddr_async a s in
    if negb (r =? 0) then s ← rpc_error_all_pdus s; Some (s, -1)
    else Some (inc_reconnects s, 0)
  else s ← rpc_error_all_pdus s; Some (s, -1).

Definition reconnect_cb (a : attempt) (status : Z) s : option (rpc R) :=
  if negb (status =? RPC_STATUS_SUCCESS) then '(s, _) ← rpc_reconnect_requeue a s; Some s
  else Some (set_r_old_fd 0 (set_r_connect_cb None (set_r_connected true s))).

Definition maybe_call_connect_cb (a : attempt) (status : Z) s : option (rpc R) :=
  match r_connect_cb s with
  | None => Some s
  | Some UserConnectCb => Some (log (ConnectCb status) (set_r_connect_cb None s))
  | Some ReconnectCb => reconnect_cb a status (set_r_connect_cb None s)
  end.

Definition rpc_disconnect (a : attempt) s : option (rpc R * Z) :=
  let s := set_r_fd (-1) s in
  if negb (r_connected s) then Some (s, 0) else
  let s := rpc_set_resiliency 0 (r_timeout s) 0 s in
  let s := set_r_connected false s in
  s ← (if r_server s then Some s else rpc_error_all_pdus s);
  s ← maybe_call_connect_cb a RPC_STATUS_CANCEL s;
  Some (s, 0).

(** ** The service loop *)

(** The time, the error of the socket as SO_ERROR tells it, what recv and
    writev answer, and what happens to an attempt to connect. *)
Record io := mkIo { io_now : Z; io_sockerr : bool; io_in : list rres; io_out : list wres; io_attempt : attempt }.

Definition polled (revents bits : Z) : bool := negb (Z.land revents bits =? 0).

(** An outcome of a function that does not read from the socket. *)
Definition done {A} (o : option A) : outcome A := match o with Some a => Done a | None => Crash end.

(** The branch of [rpc_service] that writes. *)
Definition service_write (io : io) (revents : Z) s : outcome (rpc R * Z) :=
  if polled revents POLLOUT && negb (bool_decide (r_outqueue s = [])) then
    match rpc_write_to_socket (io_out io) s with
    | None => Crash
    | Some (s, r) =>
        if r =? 0 then Done (s, 0)
        else if r_server s then Done (s, -1) else done (rpc_reconnect_requeue (io_attempt io) s)
    end
  else Done (s, 0).

(** The branch that reads. *)
Definition service_read (io : io) (revents : Z) s : outcome (rpc R * Z) :=
  if polled revents POLLIN then
    match rpc_read_from_socket zero_res read_status process_call (io_now io) (io_in io) s with
    | Done (s, r) =>
        if r =? 0 then service_write io revents s
        else if r_server s then Done (s, -1) else done (rpc_reconnect_requeue (io_attempt io) s)
    | Crash => Crash
    | OutOfFuel => OutOfFuel
    end
  else service_write io revents s.

Definition rpc_service (io : io) (revents : Z) s : outcome (rpc R * Z) :=
  match rpc_timeout_scan (io_now io) s with
  | None => Crash
  | Some (s, r) =>
      let a := io_attempt io in
      if negb (r =? 0) then done (rpc_reconnect_requeue a s) else
      if (revents =? -1) || polled revents (Z.lor POLLERR POLLHUP) then
        if negb (r_auto_reconnect s =? 0) then done (rpc_reconnect_requeue a s)
        else done (s ← maybe_call_connect_cb a RPC_STATUS_ERROR s; Some (s, -1))
      else if negb (r_connected s) && negb (r_fd s =? -1) && polled revents POLLOUT then
        if io_sockerr io then done (s ← maybe_call_connect_cb a RPC_STATUS_ERROR s; Some (s, -1))
        else done (s ← maybe_call_connect_cb a RPC_STATUS_SUCCESS (set_r_connected true s); Some (s, 0))
      else service_read io revents s
  end.
End service.
