(* ===== verification/Requeue.v ===== *)
(** * Requeue: a connection is lost and made again (lib/socket.c)

    [rpc_reconnect_requeue] takes the connection down, puts every PDU whose
    reply has not been read completely back into the outqueue, to be sent
    again from its start, and starts a new connection; when it may not or
    cannot, it gives every PDU back with an error. *)

From S2P Require Import Prelude Zdr RpcMsg Cursor Queue RpcState Context Send SendProps Recv RecvProps.
From S2P Require Import Account Purge Service.

Section requeue.
Context {R : Type}.
Implicit Types (s : rpc R) (p q : id) (x : pdu R).

(** ** PDUs that are sent again *)

(** [x'] is [x], or [x] to be sent again. *)
Definition again x x' : Prop :=
  x' = x \/ exists c, x' = restarted c x /\ (base (p_in x) = None -> c = p_in x).

Lemma again_trans x1 x2 x3 : again x1 x2 -> again x2 x3 -> again x1 x3.
Proof.
  intros [->|(c1 & -> & H1)] [->|(c2 & -> & H2)]; [by left|by right; eauto|by right; eauto|].
  right. exists c2. split; [done|]. intros Hb. cbn in H2. rewrite <- (H1 Hb) in Hb |- *. by apply H2.
Qed.

Lemma again_client x x' : again x x' -> client_pdu x -> client_pdu x'.
Proof.
  intros [->|(c & -> & Hc)] Hx; [done|]. pose proof (cp_copying _ Hx) as [Hb _].
  apply restart_client; [done|]. by rewrite (Hc Hb).
Qed.

(** The same PDUs, some of them to be sent again. *)
Definition pool_again (M M' : gmap id (pdu R)) : Prop :=
  forall q, (exists x x', M !! q = Some x /\ M' !! q = Some x' /\ again x x') \/
            M !! q = None /\ M' !! q = None.

Lemma pool_refl M : pool_again M M.
Proof. intros q. destruct (M !! q) as [x|] eqn:E; [left; exists x, x; split; [done|]; split; [done|by left]|by right]. Qed.

Lemma pool_trans M1 M2 M3 : pool_again M1 M2 -> pool_again M2 M3 -> pool_again M1 M3.
Proof.
  intros H1 H2 q. destruct (H1 q) as [(x & y & Hx & Hy & A)|[Hx Hy]], (H2 q) as [(y' & z & Hy' & Hz & B)|[Hy' Hz]];
    try congruence; [|by right].
  left. exists x, z. rewrite Hy in Hy'. injection Hy' as <-. eauto using again_trans.
Qed.

Lemma pool_put M p x x' : M !! p = Some x -> again x x' -> pool_again M (<[p := x']> M).
Proof.
  intros Hx A q. destruct (decide (p = q)) as [->|Hne].
  - left. exists x, x'. by rewrite lookup_insert_eq.
  - rewrite lookup_insert_ne by done. apply pool_refl.
Qed.

Lemma pool_clients s s' : pool_again (r_pdus s) (r_pdus s') -> clients s -> clients s'.
Proof.
  intros H Hc p x Hx. destruct (H p) as [(y & y' & Hy & Hy' & A)|[_ Hn]]; unfold get_pdu in *; [|congruence].
  rewrite Hy' in Hx. injection Hx as <-. apply (again_client y); [done|]. by apply (Hc p).
Qed.

(** ** A bucket *)

(** The context with PDUs, counters and outqueue replaced. *)
Definition requeued (M : gmap id (pdu R)) (t : stats) (o : list id) s : rpc R :=
  set_r_pdus M (set_r_stats t (set_r_outqueue o s)).

(** The context in which the bucket [i] holds [l]. *)
Definition hold (i : nat) (l : list id) s : rpc R :=
  set_r_waitpdu_len (blen (concat (<[i := l]> (r_waitpdu s)))) (set_r_waitpdu (<[i := l]> (r_waitpdu s)) s).

Lemma hold_drop i p l s : (i < length (r_waitpdu s))%nat -> wf (hold i (p :: l) s) ->
  wf (hold i l s) /\ all_ids (hold i (p :: l) s) ≡ₚ p :: all_ids (hold i l s).
Proof.
  intros Hi W.
  assert (Hc : forall l', concat (<[i := l']> (r_waitpdu s)) =
    concat (take i (r_waitpdu s)) ++ l' ++ concat (drop (S i) (r_waitpdu s))).
  { intros l'. destruct (lookup_lt_is_Some_2 _ _ Hi) as [w Hw]. by apply (concat_update _ _ w). }
  assert (Hids : all_ids (hold i (p :: l) s) ≡ₚ p :: all_ids (hold i l s)).
  { unfold all_ids, hold. cbn. rewrite !Hc. cbn. solve_Permutation. }
  split; [|done]. apply (wf_shrink [p] _ _ W); try done.
  - unfold hold. cbn. by rewrite !length_insert.
  - intros j w q Hj Hq. unfold hold in *. cbn in *. destruct (decide (i = j)) as [->|Hne].
    + rewrite list_lookup_insert_eq in Hj |- * by done. injection Hj as <-. exists (p :: l). split; [done|by right].
    + rewrite list_lookup_insert_ne in Hj |- * by done. eauto.
Qed.

(** Nothing of the outqueue has been sent. *)
Definition unstarted s : Prop := forall p, p ∈ r_outqueue s -> done_of s p = 0.

Lemma unstarted_returned s p x : unstarted s -> num_done (p_out x) = 0 -> unstarted (returned p x s).
Proof.
  intros Hu Hx q Hq. change (q ∈ l_return (r_outqueue s) p) in Hq. rewrite return_perm in Hq.
  unfold done_of, returned. rewrite get_put. case_bool_decide as E; [by rewrite <- Hx|].
  apply elem_of_cons in Hq as [->|Hq]; [done|]. by apply Hu.
Qed.

Lemma return_all_spec i l : forall s,
  (i < length (r_waitpdu s))%nat -> wf (hold i l s) -> unstarted s ->
  exists M t o, return_all l s = Some (requeued M t o s) /\ wf (hold i [] (requeued M t o s)) /\
    unstarted (requeued M t o s) /\ pool_again (r_pdus s) M /\ o ≡ₚ l ++ r_outqueue s.
Proof.
  induction l as [|p l IH]; intros s Hi W Hu; cbn [return_all].
  { exists (r_pdus s), (r_stats s), (r_outqueue s). split; [by destruct s|]. split; [by destruct s|].
    split; [done|]. split; [apply pool_refl|done]. }
  destruct (hold_drop i p l s Hi W) as [W1 Hids].
  destruct (wf_ok _ W p) as (x & Hx & Hk); [rewrite Hids; by left|].
  change (get_pdu s p = Some x) in Hx.
  destruct (return_to_outqueue_spec s p x Hx Hk) as (c & -> & Hk' & Hc). cbn [mbind option_bind].
  set (s1 := returned p (restarted c x) s).
  destruct (given_up_bounds _ (hold i l s) p x W Hids) as (Hp & H32 & H64); [done|done|].
  assert (W2 : wf (hold i l s1)) by exact (wf_returned (hold i l s) p (restarted c x) W1 Hp Hk' eq_refl H32 H64).
  assert (Hu1 : unstarted s1) by (apply unstarted_returned; done).
  destruct (IH s1 Hi W2 Hu1) as (M & t & o & -> & W' & Hu' & HM & Ho).
  exists M, t, o. split; [done|]. split; [exact W'|]. split; [exact Hu'|]. split.
  - eapply pool_trans; [|exact HM]. apply (pool_put _ _ x); [exact Hx|]. right. eauto.
  - rewrite Ho. change (r_outqueue s1) with (l_return (r_outqueue s) p). rewrite return_perm. cbn.
    by rewrite <- Permutation_middle.
Qed.

(** ** The buckets *)

(** The context with the number of PDUs in the buckets put right. *)
Definition norm s : rpc R := set_r_waitpdu_len (blen (concat (r_waitpdu s))) s.

Lemma return_buckets_spec n : forall i s,
  (i + n = length (r_waitpdu s))%nat -> take i (r_waitpdu s) = replicate i [] -> wf (norm s) -> unstarted s ->
  exists M t o, let s' := set_r_waitpdu (replicate (length (r_waitpdu s)) []) (requeued M t o s) in
    return_buckets n i s = Some s' /\ wf (norm s') /\ unstarted s' /\ pool_again (r_pdus s) M /\
    o ≡ₚ concat (r_waitpdu s) ++ r_outqueue s.
Proof.
  induction n as [|n IH]; intros i s Hn Ht W Hu; cbn [return_buckets].
  { assert (Hw : r_waitpdu s = replicate (length (r_waitpdu s)) []).
    { rewrite <- (take_ge (r_waitpdu s) i) at 1 by lia. rewrite Ht. f_equal. lia. }
    exists (r_pdus s), (r_stats s), (r_outqueue s). cbv zeta. rewrite <- Hw.
    split; [by destruct s|]. split; [by destruct s|]. split; [done|]. split; [apply pool_refl|].
    by rewrite Hw, concat_replicate_nil. }
  destruct (lookup_lt_is_Some_2 (r_waitpdu s) i) as [w Hw]; [lia|]. rewrite Hw. cbn [mbind option_bind].
  destruct (return_all_spec i w s) as (M & t & o & -> & W1 & Hu1 & HM & Ho); [lia| |done|].
  { unfold hold. rewrite list_insert_id by done. exact W. }
  cbn [mbind option_bind].
  set (s1 := set_r_waitpdu (<[i:=[]]> (r_waitpdu (requeued M t o s))) (requeued M t o s)).
  assert (Hw1 : r_waitpdu s1 = <[i:=[]]> (r_waitpdu s)) by done.
  destruct (IH (S i) s1) as (M2 & t2 & o2 & E & W2 & Hu2 & HM2 & Ho2); [|..|done|].
  { rewrite Hw1, length_insert. lia. }
  { rewrite Hw1, (take_S_r _ _ []) by (apply list_lookup_insert_eq; lia).
    rewrite take_insert_ge, Ht by lia. by rewrite <- replicate_S_end. }
  { exact W1. }
  exists M2, t2, o2. cbv zeta. rewrite Hw1, length_insert in *. split; [exact E|]. split; [exact W2|].
  split; [exact Hu2|]. split; [by eapply pool_trans|].
  rewrite Ho2. change (r_outqueue s1) with o. rewrite Ho, (concat_update _ _ w) by done.
  rewrite (concat_split _ _ _ Hw). solve_Permutation.
Qed.

(** ** Taking the connection down *)

(** The context between two connections: everything it holds is to be sent from the start. *)
Record taken_down s s' : Prop := {
  td_wf : wf s';
  td_out : r_outqueue s' ≡ₚ all_ids s;
  td_ids : all_ids s' = r_outqueue s';
  td_unstarted : unstarted s';
  td_pool : pool_again (r_pdus s) (r_pdus s');
  td_trace : r_trace s' = r_trace s;
  td_mode : mode s' = mode s;
  td_timing : timing s' = timing s;
  td_next : r_next_id s' = r_next_id s;
  td_reader : r_state s' = READ_RM /\ r_inpos s' = 0 /\ r_pdu s' = None /\ r_fragments s' = [];
  td_down : r_fd s' = -1 /\ r_connected s' = false;
  td_auto : r_auto_reconnect s' = r_auto_reconnect s;
  td_retries : r_num_retries s' = if r_connected s then r_auto_reconnect s else r_num_retries s;
}.

Lemma restart_head_spec s : wf s ->
  exists M, restart_head s = Some (set_r_pdus M s) /\ wf (set_r_pdus M s) /\
    unstarted (set_r_pdus M s) /\ pool_again (r_pdus s) M.
Proof.
  intros W. unfold restart_head. destruct (r_outqueue s) as [|p l] eqn:Eo.
  { exists (r_pdus s). split; [by destruct s|]. split; [by destruct s|]. split; [|apply pool_refl].
    intros p. cbn. rewrite Eo. by intros ?%elem_of_nil. }
  destruct (head_facts s p l W Eo) as (x & Hx & [Hk Hlt] & _). rewrite Hx. cbn [mbind option_bind].
  exists (<[p := set_p_out (set_num_done 0 (p_out x)) x]> (r_pdus s)). split; [done|].
  pose proof (po_size _ Hk).
  assert (W' : wf (progressed s p x 0)) by (apply (wf_progressed s p x l); [done|done|done|lia]).
  split; [exact W'|]. split.
  - intros q Hq. change (done_of (progressed s p x 0) q = 0). change (q ∈ r_outqueue s) in Hq.
    destruct (decide (p = q)) as [->|Hne].
    + unfold done_of, progressed. by rewrite get_put_eq.
    + apply (wf_first _ W'). change (q ∈ tl (r_outqueue s)). rewrite Eo in *. cbn. set_solver.
  - apply (pool_put _ _ x); [exact Hx|]. right. exists (p_in x). done.
Qed.

Lemma take_down_spec s : wf s -> exists s', take_down s = Some s' /\ taken_down s s'.
Proof.
  intros W. unfold take_down.
  set (s0 := if r_connected s then set_r_num_retries (r_auto_reconnect s) s else s).
  set (s1 := if r_fd s0 =? -1 then s0 else set_r_old_fd (r_fd s0) s0).
  set (s2 := set_r_connected false (set_r_fd (-1) s1)).
  assert (H2 : exists n f, s2 = set_r_connected false (set_r_fd (-1) (set_r_old_fd f (set_r_num_retries n s))) /\
    n = if r_connected s then r_auto_reconnect s else r_num_retries s).
  { unfold s2, s1, s0. exists (if r_connected s then r_auto_reconnect s else r_num_retries s).
    exists (if r_fd s =? -1 then r_old_fd s else r_fd s). split; [|done].
    destruct (r_connected s); cbn [r_fd set_r_num_retries]; by destruct (r_fd s =? -1), s. }
  clearbody s2. clear s0 s1. destruct H2 as (n & f & -> & En).
  set (s2 := set_r_connected _ _). assert (W2 : wf s2) by by destruct W; split.
  destruct (restart_head_spec s2 W2) as (M & -> & W3 & Hu3 & HM). cbn [mbind option_bind].
  set (s3 := rpc_free_all_fragments (set_r_state READ_RM (set_r_inpos 0 (set_r_pdus M s2)))).
  assert (W3' : wf (norm s3)).
  { unfold norm. change (concat (r_waitpdu s3)) with (concat (r_waitpdu s2)). rewrite <- (wf_len _ W2).
    by destruct W3; split. }
  destruct (return_buckets_spec (length (r_waitpdu s3)) 0 s3 eq_refl eq_refl W3' Hu3)
    as (M4 & t & o & -> & W4 & Hu4 & HM4 & Ho). cbn [mbind option_bind].
  set (ws := replicate (length (r_waitpdu s3)) []) in *.
  assert (Hws : concat ws = []) by apply concat_replicate_nil. clearbody ws.
  set (s4 := set_r_waitpdu ws (requeued M4 t o s3)) in *. set (s5 := set_r_waitpdu_len 0 s4).
  assert (W5 : wf s5) by (unfold norm in W4; change (r_waitpdu s4) with ws in W4; by rewrite Hws in W4).
  assert (HM5 : pool_again (r_pdus s) (r_pdus s5)) by (eapply pool_trans; [exact HM|exact HM4]).
  assert (Ho5 : o ≡ₚ r_outqueue s ++ concat (r_waitpdu s)) by (rewrite Ho; by rewrite Permutation_app_comm).
  assert (Hids5 : all_ids s5 = o ++ option_list (r_pdu s)) by (unfold all_ids; cbn; by rewrite Hws).
  change (r_pdu s5) with (r_pdu s). destruct (r_pdu s) as [p|] eqn:Ep.
  - destruct (wf_ok _ W5 p) as (x & Hx & Hk); [rewrite Hids5; set_solver|].
    destruct (return_to_outqueue_spec s5 p x Hx Hk) as (c & -> & Hk' & Hc). cbn [mbind option_bind].
    eexists. split; [done|]. set (s6 := set_r_pdu None s5).
    assert (Hids6 : all_ids s5 ≡ₚ p :: all_ids s6).
    { rewrite Hids5. unfold all_ids. cbn. rewrite Hws, !app_nil_r. by rewrite Permutation_app_comm. }
    assert (W6 : wf s6) by (apply (wf_shrink [p] s5); try done; try apply W5; eauto).
    destruct (given_up_bounds s5 s6 p x W5 Hids6) as (Hp & H32 & H64); [done|done|].
    assert (W7 : wf (returned p (restarted c x) s6)) by exact (wf_returned s6 p (restarted c x) W6 Hp Hk' eq_refl H32 H64).
    change (set_r_pdu None (returned p (restarted c x) s5)) with (returned p (restarted c x) s6).
    split; try done.
    + change (r_outqueue (returned p (restarted c x) s6)) with (l_return o p). rewrite return_perm, Ho5.
      unfold all_ids. rewrite Ep. cbn. solve_Permutation.
    + unfold all_ids. cbn. by rewrite Hws, !app_nil_r.
    + apply unstarted_returned; [exact Hu4|done].
    + eapply pool_trans; [exact HM5|]. apply (pool_put _ _ x); [exact Hx|]. right. eauto.
  - eexists. split; [done|]. split; try done.
    + change (r_outqueue s5) with o. rewrite Ho5. unfold all_ids. by rewrite Ep, app_nil_r.
    + rewrite Hids5. by rewrite app_nil_r.
Qed.

(** ** Connecting again *)

(** An attempt that succeeds, or is in progress. *)
Definition attempt_ok (a : attempt) : bool :=
  a_family a && a_device a && negb (a_fd a =? -1) && a_dup a && a_keepalive a && a_connect a.

Lemma connect_fd a s : exists f r, rpc_connect_sockaddr_async a s = (set_r_fd f s, r) /\ (r = 0 \/ r = -1) /\
  (attempt_ok a = true -> r = 0) /\ (r = 0 -> a_connect a = true).
Proof.
  unfold rpc_connect_sockaddr_async, attempt_ok. destruct (a_family a).
  2: { exists (r_fd s), (-1). split; [by destruct s|]. split; [by right|]. split; [done|by intros]. }
  destruct (a_device a), (a_fd a =? -1), (r_old_fd s =? 0) eqn:E, (a_dup a), (a_keepalive a), (a_connect a); cbn;
    rewrite ?E; cbn; (eexists; eexists; split; [reflexivity|split; [first [by left|by right]|by split]]).
Qed.

(** Are there attempts left once the connection is down? *)
Definition retries_left s : bool :=
  (r_auto_reconnect s <? 0) ||
  ((if r_connected s then r_auto_reconnect s else r_num_retries s) >? 0).

(** Can the number of attempts be decremented without overflow? *)
Definition countable s : Prop :=
  INT_MIN < r_auto_reconnect s /\ INT_MIN < r_num_retries s /\
  r_auto_reconnect s <= INT_MAX /\ r_num_retries s <= INT_MAX.

(** The context with the fields a connection attempt sets. *)
Definition reconnecting (n f : Z) (t : stats) s : rpc R :=
  set_r_stats t (set_r_fd f (set_r_connect_cb (Some ReconnectCb) (set_r_num_retries n s))).

Lemma wf_reconnecting n f t s : wf s -> wf (reconnecting n f t s).
Proof. by intros []. Qed.

(** Without reconnecting, or without attempts left, nothing is kept back. *)
Lemma requeue_cases a s : wf s -> r_auto_reconnect s <> 0 -> countable s ->
  exists s1, taken_down s s1 /\
    ((exists n f t, retries_left s = true /\ a_connect a = true /\ rpc_reconnect_requeue a s = Some (reconnecting n f t s1, 0)) \/
     (retries_left s && attempt_ok a = false /\ exists s2, wf s2 /\ r_outqueue s2 = r_outqueue s1 /\
        all_ids s2 = all_ids s1 /\ r_pdus s2 = r_pdus s1 /\ mode s2 = mode s1 /\ r_next_id s2 = r_next_id s1 /\
        r_trace s2 = r_trace s1 /\ concat (r_waitpdu s2) = [] /\ r_pdu s2 = None /\
        rpc_reconnect_requeue a s = (s3 ← rpc_error_all_pdus s2; Some (s3, -1)))).
Proof.
  intros W Ha Hc. destruct (take_down_spec s W) as (s1 & E & Td). exists s1. split; [done|].
  unfold rpc_reconnect_requeue. replace (r_auto_reconnect s =? 0) with false by lia. rewrite E.
  cbn [mbind option_bind]. rewrite (td_auto _ _ Td), (td_retries _ _ Td). fold (retries_left s).
  destruct (td_reader _ _ Td) as (_ & _ & Hp & _).
  assert (Hw : concat (r_waitpdu s1) = []).
  { pose proof (td_ids _ _ Td) as H. unfold all_ids in H. rewrite Hp in H. cbn in H. rewrite app_nil_r in H.
    rewrite <- (app_nil_r (r_outqueue s1)) in H at 2. by apply app_inv_head in H. }
  destruct (retries_left s) eqn:Er.
  - set (n := if r_connected s then r_auto_reconnect s else r_num_retries s) in *.
    assert (fits_int (n - 1) = true) as ->.
    { subst n. unfold countable, INT_MIN in Hc. apply fits_int_true. unfold is_i32, INT_MAX in *.
      destruct (r_connected s); lia. }
    cbn [negb]. set (s2 := set_r_connect_cb _ _).
    destruct (connect_fd a s2) as (f & r & -> & Hr & Hok & Hcon).
    destruct (r =? 0) eqn:E0; cbn [negb].
    + left. exists (n - 1), f. eexists. split; [done|]. split; [apply Hcon; lia|]. reflexivity.
    + right. cbn [andb]. split; [destruct (attempt_ok a); [|done]; lia|].
      exists (set_r_fd f s2). split; [exact (wf_reconnecting (n - 1) f (r_stats s1) s1 (td_wf _ _ Td))|]. done.
  - right. split; [done|]. exists s1. split; [apply Td|]. done.
Qed.

Lemma unsent_again s s' p x : get_pdu s p = Some x -> pool_again (r_pdus s) (r_pdus s') -> done_of s' p = 0 ->
  unsent s' p = addrs_of (vecs (p_out x)).
Proof.
  intros Hx H Hd. unfold get_pdu in *. destruct (H p) as [(y & y' & Hy & Hy' & A)|[Hn _]]; [|congruence].
  rewrite Hx in Hy. injection Hy as <-. unfold done_of, unsent, get_pdu in *. rewrite Hy' in *. cbn in Hd. rewrite Hd.
  unfold left_after. rewrite drop_0. by destruct A as [->|(c & -> & _)].
Qed.

(** C7: when the connection is lost and may be made again, [rpc_reconnect_requeue] loses nothing:
    every PDU that was queued, in flight or half-read is in the outqueue once, to be sent again
    from its first byte; no callback is called, and the reader waits for the marker of a new
    stream. *)
Theorem reconnect_requeues a s :
  wf s -> r_auto_reconnect s <> 0 -> countable s -> retries_left s = true -> attempt_ok a = true ->
  exists s', rpc_reconnect_requeue a s = Some (s', 0) /\ wf s' /\
    r_outqueue s' ≡ₚ all_ids s /\ all_ids s' = r_outqueue s' /\
    (forall p, p ∈ all_ids s -> exists x, get_pdu s p = Some x /\ unsent s' p = addrs_of (vecs (p_out x))) /\
    r_trace s' = r_trace s /\ r_state s' = READ_RM /\ r_inpos s' = 0 /\ r_fragments s' = [] /\
    r_connect_cb s' = Some ReconnectCb /\ r_connected s' = false.
Proof.
  intros W Ha Hc Hr Ho.
  destruct (requeue_cases a s W Ha Hc) as (s1 & Td & [(n & f & t & _ & _ & E)|[Hf _]]); [|by rewrite Hr, Ho in Hf].
  exists (reconnecting n f t s1). destruct (td_reader _ _ Td) as (H1 & H2 & H3 & H4).
  split; [done|]. split; [exact (wf_reconnecting n f t s1 (td_wf _ _ Td))|]. split; [apply Td|]. split; [apply Td|].
  split.
  { intros p Hp. destruct (wf_ok _ W p Hp) as (x & Hx & _). exists x. split; [done|].
    change (unsent (reconnecting n f t s1) p) with (unsent s1 p).
    apply (unsent_again s); [done|apply Td|]. apply (td_unstarted _ _ Td). by rewrite (td_out _ _ Td). }
  split; [apply Td|]. repeat (split; [done|]). apply Td.
Qed.

(** When no attempts are left, or connecting fails, every PDU the context holds is given back:
    one callback with RPC_STATUS_ERROR each, and its release. *)
Theorem reconnect_gives_up a s :
  wf s -> clients s -> r_auto_reconnect s <> 0 -> countable s -> retries_left s = false \/ a_connect a = false ->
  exists s' l, rpc_reconnect_requeue a s = Some (s', -1) /\ l ≡ₚ all_ids s /\ all_ids s' = [] /\
    r_trace s' = r_trace s ++ farewell RPC_STATUS_ERROR l.
Proof.
  intros W Hcl Ha Hc Hf.
  destruct (requeue_cases a s W Ha Hc) as (s1 & Td & [(n & f & t & H1 & H2 & _)|[_ H]]); [destruct Hf; congruence|].
  destruct H as (s2 & W2 & Ho & Hids & Hp & _ & _ & Ht & Hw & Hpdu & ->).
  assert (Hcl2 : clients s2).
  { apply (pool_clients s); [|done]. rewrite Hp. apply Td. }
  destruct (purge_all_spec RPC_STATUS_ERROR s2) as (s3 & E & Pa);
    [done|by apply wf_queued_nodup|intros p; by apply wf_queued|].
  unfold rpc_error_all_pdus. rewrite E. cbn [mbind option_bind].
  exists s3, (r_outqueue s1). split; [done|]. split; [apply Td|].
  pose proof (pa_trace _ _ _ Pa) as Ht3. rewrite Hw, app_nil_r, Ho, Ht, (td_trace _ _ Td) in Ht3.
  split; [|done]. unfold all_ids.
  rewrite (pa_out _ _ _ Pa), (pa_wait _ _ _ Pa), (pa_pdu _ _ _ Pa), Hpdu. by rewrite concat_replicate_nil.
Qed.

(** Without auto-reconnect, losing the connection gives back every PDU that is queued but not
    the one whose reply is half-read: its callback is never called, and nothing will complete it.
    The counter of waiting PDUs keeps the value it had. *)
Theorem disconnect_strands_half_read a s p :
  wf s -> clients s -> r_auto_reconnect s = 0 -> r_pdu s = Some p ->
  exists s', rpc_reconnect_requeue a s = Some (s', -1) /\
    r_trace s' = r_trace s ++ farewell RPC_STATUS_ERROR (r_outqueue s ++ concat (r_waitpdu s)) /\
    p ∉ r_outqueue s ++ concat (r_waitpdu s) /\ r_pdu s' = Some p /\
    r_outqueue s' = [] /\ concat (r_waitpdu s') = [] /\ r_waitpdu_len s' = blen (concat (r_waitpdu s)).
Proof.
  intros W Hcl Ha Hp. unfold rpc_reconnect_requeue. rewrite Ha. cbn.
  destruct (purge_all_spec RPC_STATUS_ERROR s) as (s' & E & Pa);
    [done|by apply wf_queued_nodup|intros q; by apply wf_queued|].
  unfold rpc_error_all_pdus. rewrite E. cbn. exists s'. split; [done|]. split; [apply Pa|]. split.
  - pose proof (wf_nodup _ W) as Hn. unfold all_ids in Hn. rewrite Hp, app_assoc in Hn.
    apply NoDup_app in Hn as (_ & Hn & _). intros Hq. apply (Hn p Hq). by left.
  - rewrite (pa_pdu _ _ _ Pa), (pa_out _ _ _ Pa), (pa_wait _ _ _ Pa), (pa_len _ _ _ Pa).
    rewrite concat_replicate_nil. repeat (split; [done|]). apply (wf_len _ W).
Qed.

End requeue.

(** ** Instances *)

Definition good_attempt : attempt := mkAttempt true 4 true true true true.
Definition bad_attempt : attempt := mkAttempt true 4 true true true false.

(** Two calls in flight, a third being written, one reply half-read, and reconnecting allowed. *)
Definition torn : rpc Z :=
  set_r_auto_reconnect 3 (queue [WCount 10] (getattr 12000 waiting) 2%N).

Lemma torn_wf : wf torn.
Proof. apply wfb_wf. vm_compute. reflexivity. Qed.

Lemma torn_countable : countable torn.
Proof. repeat split; vm_compute; first [reflexivity|discriminate]. Qed.

Lemma reconnect_requeues_witness :
  exists s', rpc_reconnect_requeue good_attempt torn = Some (s', 0) /\ wf s' /\ r_outqueue s' ≡ₚ all_ids torn /\
    r_trace s' = r_trace torn.
Proof.
  destruct (reconnect_requeues good_attempt torn torn_wf) as (s' & E & W & Ho & _ & _ & T & _).
  - vm_compute. discriminate.
  - exact torn_countable.
  - vm_compute. reflexivity.
  - vm_compute. reflexivity.
  - exists s'. exact (conj E (conj W (conj Ho T))).
Defined.

Lemma reconnect_gives_up_witness :
  exists s' l, rpc_reconnect_requeue bad_attempt torn = Some (s', -1) /\ l ≡ₚ all_ids torn /\ all_ids s' = [].
Proof.
  destruct (reconnect_gives_up bad_attempt torn torn_wf) as (s' & l & E & Hl & Hi & _).
  - apply clientsb_ok. vm_compute. reflexivity.
  - vm_compute. discriminate.
  - exact torn_countable.
  - right. vm_compute. reflexivity.
  - exists s', l. exact (conj E (conj Hl Hi)).
Defined.

(** The reply to the first call is half-read. *)
Definition half_read : rpc Z :=
  match rpc_read_from_socket 0 (fun _ => 0) (fun _ _ => None) 100 [RData (take 20 reply5)] waiting with
  | Done (s, _) => s
  | _ => waiting
  end.

Lemma disconnect_strands_half_read_witness :
  exists s', rpc_reconnect_requeue good_attempt half_read = Some (s', -1) /\ r_pdu s' = Some 0%N /\
    concat (r_waitpdu s') = [] /\ r_waitpdu_len s' = blen (concat (r_waitpdu half_read)).
Proof.
  destruct (disconnect_strands_half_read good_attempt half_read 0%N) as (s' & E & _ & _ & Hp & _ & Hw & Hl).
  - apply wfb_wf. vm_compute. reflexivity.
  - apply clientsb_ok. vm_compute. reflexivity.
  - vm_compute. reflexivity.
  - vm_compute. reflexivity.
  - exists s'. exact (conj E (conj Hp (conj Hw Hl))).
Defined.
