(* ===== verification/Timeout.v ===== *)
(** * Timeout: what the timeout scan does (lib/socket.c)

    [rpc_timeout_scan] looks at every PDU once.  One that is to be sent or
    waits for a reply and is not due stays where it is; one that is due is
    given back with RPC_STATUS_TIMEOUT, or, when it may be retried, gets new
    timeouts and goes (back) to the outqueue. *)

From S2P Require Import Prelude Zdr RpcMsg Cursor Queue RpcState Context Send SendProps Recv RecvProps.
From S2P Require Import Account Purge Service.

Section timeout.
Context {R : Type}.
Implicit Types (s : rpc R) (p q : id) (x : pdu R).

(** ** Which PDUs are due *)

Definition on_pdu (f : pdu R -> bool) s p : bool := from_option f false (get_pdu s p).

Definition out_due (t : Z) s p : bool :=
  on_pdu (fun x => negb (p_timeout x =? 0) && (p_timeout x <=? t)) s p.

Definition wait_due (t : Z) s p : bool :=
  on_pdu (fun x => negb (p_timeout x =? 0) && ((p_timeout x <=? t) || (p_major x <=? t))) s p.

Definition may_retry s p : bool := on_pdu (retried s) s p.

(** A retried PDU whose major timeout is over while the server is silent. *)
Definition silent (t last : Z) s p : bool := on_pdu (fun x => (p_major x <=? t) && (last >? r_timeout s)) s p.

Definition lost_out (t : Z) s p : Prop := out_due t s p && negb (may_retry s p) = true.
Definition lost_wait (t : Z) s p : Prop := wait_due t s p && negb (may_retry s p) = true.
Definition resent (t : Z) s p : Prop := wait_due t s p && may_retry s p = true.
Definition undue (t : Z) s p : Prop := wait_due t s p = false.

#[export] Instance lost_out_dec t s p : Decision (lost_out t s p).
Proof. unfold lost_out. apply _. Defined.
#[export] Instance lost_wait_dec t s p : Decision (lost_wait t s p).
Proof. unfold lost_wait. apply _. Defined.
#[export] Instance resent_dec t s p : Decision (resent t s p).
Proof. unfold resent. apply _. Defined.
#[export] Instance undue_dec t s p : Decision (undue t s p).
Proof. unfold undue. apply _. Defined.

(** Can the timeouts of a PDU be set without overflow? *)
Definition timeouts_fit s : Prop := fits_int (r_timeout s * r_retrans s) = true.

(** ** The state after a scan *)

(** The context with what a scan can change. *)
Definition swept (M : gmap id (pdu R)) (st : stats) (o : list id) (T : list (event R))
    (W : list (list id)) (n : Z) s : rpc R :=
  set_r_trace T (set_r_waitpdu_len n (set_r_waitpdu W (set_r_stats st (set_r_pdus M (set_r_outqueue o s))))).

Lemma set_timeout_ok s x t : timeouts_fit s -> exists x', pdu_set_timeout s x t = Some x' /\ alike x x'.
Proof.
  intros Hf. unfold pdu_set_timeout. unfold timeouts_fit in Hf. rewrite Hf.
  assert (Ha : forall t m x, alike x (set_p_major m (set_p_timeout t x))).
  { intros. split; [by intros []; split|done..|by intros []; split]. }
  assert (Hb : forall t x, alike x (set_p_timeout t x)).
  { intros. split; [by intros []; split|done..|by intros []; split]. }
  repeat case_match; eexists; (split; [done|]); try apply alike_refl; try apply Hb;
    (split; [by intros []; split|done..|by intros []; split]).
Qed.

Lemma alike_trans x1 x2 x3 : alike x1 x2 -> alike x2 x3 -> alike x1 x3.
Proof. intros [] []. split; auto; congruence. Qed.

Lemma alike_out t m x : alike x (set_p_major m (set_p_timeout t x)).
Proof. split; [by intros []; split|done..|by intros []; split]. Qed.

Lemma wf_stats st s : wf s -> wf (set_r_stats st s).
Proof. by intros []. Qed.

Lemma wf_released st p s : wf s -> p ∉ all_ids s -> wf (released st p s).
Proof.
  intros W Hp. apply (wf_shrink [] s); try done; try apply W; [|eauto].
  intros q Hq. apply released_get. by intros ->.
Qed.

(** ** The outqueue *)

(** The account of the scan of the PDUs [l] of the outqueue. *)
Record out_swept (t : Z) (l : list id) s s' : Prop := {
  os_state : exists M st, s' = swept M st (filter (fun p => p ∉ filter (lost_out t s) l) (r_outqueue s))
      (r_trace s ++ farewell RPC_STATUS_TIMEOUT (filter (lost_out t s) l)) (r_waitpdu s) (r_waitpdu_len s) s;
  os_wf : wf s';
  os_clients : clients s';
  os_get : forall q, q ∉ l -> get_pdu s' q = get_pdu s q;
}.

Lemma filter_all {A} (P : A -> Prop) `{!forall y : A, Decision (P y)} (l : list A) : (forall y, y ∈ l -> P y) -> filter P l = l.
Proof. intros Hl. induction l as [|y l IH]; [done|]. rewrite filter_cons_True by set_solver. f_equal. apply IH. set_solver. Qed.

Lemma out_swept_nil t s : wf s -> clients s -> out_swept t [] s s.
Proof.
  intros W Hc. split; try done. exists (r_pdus s), (r_stats s). cbn. rewrite app_nil_r.
  rewrite filter_all by set_solver. by destruct s.
Qed.

Lemma scan_out_one t p s : wf s -> clients s -> timeouts_fit s -> p ∈ r_outqueue s ->
  exists s', scan_out_pdu t p s = Some s' /\ out_swept t [p] s s'.
Proof.
  intros W Hc Hf Hp. destruct (wf_ok _ W p) as (x & Hx & Hk); [unfold all_ids; set_solver|].
  unfold scan_out_pdu. rewrite Hx. cbn [mbind option_bind].
  assert (Hdue : out_due t s p = negb ((p_timeout x =? 0) || (t <? p_timeout x))).
  { unfold out_due, on_pdu. rewrite Hx. cbn. lia. }
  assert (Hret : may_retry s p = retried s x) by (unfold may_retry, on_pdu; by rewrite Hx).
  destruct ((p_timeout x =? 0) || (t <? p_timeout x)) eqn:E; cbn [negb] in Hdue.
  { exists s. split; [done|]. split; try done. exists (r_pdus s), (r_stats s). unfold lost_out.
    rewrite filter_cons_False by (rewrite Hdue; done). cbn. rewrite app_nil_r, filter_all by set_solver. by destruct s. }
  set (s0 := inc_timedout_in_outqueue s). change (retried s0 x) with (retried s x).
  assert (W0 : wf s0) by by apply wf_stats.
  destruct (retried s x) eqn:Er.
  - destruct (set_timeout_ok s0 (set_p_major 0 (set_p_timeout 0 x)) t Hf) as (x' & -> & Ha). cbn [mbind option_bind].
    assert (Hax : alike x x') by (eapply alike_trans; [apply alike_out|exact Ha]).
    eexists. split; [done|]. split.
    + exists (<[p := x']> (r_pdus s)), (r_stats s0). unfold lost_out.
      rewrite filter_cons_False by (rewrite Hdue, Hret; done). cbn. rewrite app_nil_r, filter_all by set_solver. by destruct s.
    + apply (wf_alike s0); [done|done|]. intros q y Hq Hy. rewrite get_put. case_bool_decide as Eq.
      * subst q. exists x'. split; [done|]. change (get_pdu s p = Some y) in Hy. congruence.
      * exists y. split; [done|apply alike_refl].
    + apply clients_put; [done|]. apply (al_client _ _ Hax). by apply (Hc p).
    + intros q Hq. rewrite get_put_ne; [done|set_solver].
  - set (s1 := set_r_outqueue (l_remove p (r_outqueue s0)) s0).
    destruct (drop_out s0 p W0 Hp) as [W1 Hids]. fold s1 in W1, Hids.
    assert (Hn : p ∉ all_ids s1) by (pose proof (wf_nodup _ W0) as H; rewrite Hids in H; by apply NoDup_cons in H as [? _]).
    unfold drop_timed_out. rewrite (release_ok _ p x) by (done || apply (cp_cb _ (Hc p x Hx))).
    eexists. split; [done|]. split.
    + exists (delete p (r_pdus s)), (r_stats s0). unfold lost_out.
      rewrite filter_cons_True by (rewrite Hdue, Hret; done). rewrite filter_nil. cbn [farewell map concat app].
      assert (Hl : filter (fun q => q ∉ [p]) (r_outqueue s) = l_remove p (r_outqueue s)).
      { apply list_filter_iff. intros q. rewrite list_elem_of_singleton. done. }
      unfold farewell. cbn. rewrite Hl. unfold released, log, s1, s0, inc_timedout_in_outqueue. destruct s. cbn.
      unfold swept. cbn. by rewrite <- app_assoc.
    + by apply wf_released.
    + by apply released_clients.
    + intros q Hq. rewrite released_get by set_solver. done.
Qed.
Lemma filter_ext_in {A} (P Q : A -> Prop) `{!forall y : A, Decision (P y), !forall y : A, Decision (Q y)} (l : list A) :
  (forall y, y ∈ l -> P y <-> Q y) -> filter P l = filter Q l.
Proof.
  intros Hpq. induction l as [|y l IH]; [done|]. rewrite !filter_cons, IH by set_solver.
  pose proof (Hpq y ltac:(set_solver)). destruct (decide (P y)), (decide (Q y)); tauto || done.
Qed.

(** The verdict on a PDU depends on itself and the settings only. *)
Lemma lost_out_same t s s' p : get_pdu s' p = get_pdu s p -> r_retrans s' = r_retrans s ->
  lost_out t s' p <-> lost_out t s p.
Proof. intros E1 E2. unfold lost_out, out_due, may_retry, on_pdu, retried. rewrite E1, E2. done. Qed.

Lemma swept_settings M st o T W n s : r_retrans (swept M st o T W n s) = r_retrans s /\
  r_timeout (swept M st o T W n s) = r_timeout s.
Proof. done. Qed.

Lemma scan_out_spec t l : forall s,
  wf s -> clients s -> timeouts_fit s -> NoDup l -> (forall p, p ∈ l -> p ∈ r_outqueue s) ->
  exists s', scan (scan_out_pdu t) l s = Some s' /\ out_swept t l s s'.
Proof.
  induction l as [|p l IH]; intros s W Hc Hf Hn Hl; cbn [scan].
  { exists s. split; [done|]. by apply out_swept_nil. }
  apply NoDup_cons in Hn as [Hp Hn].
  destruct (scan_out_one t p s W Hc Hf) as (s1 & E & [(M1 & st1 & E1) W1 Hc1 Hg1]); [set_solver|].
  rewrite E. cbn [mbind option_bind].
  assert (Hcfg : r_retrans s1 = r_retrans s /\ r_timeout s1 = r_timeout s) by (rewrite E1; apply swept_settings).
  destruct Hcfg as [Hr Ht].
  assert (Hsame : filter (lost_out t s1) l = filter (lost_out t s) l).
  { apply filter_ext_in. intros q Hq. apply lost_out_same; [apply Hg1; set_solver|done]. }
  assert (Ho1 : r_outqueue s1 = filter (fun q => q ∉ filter (lost_out t s) [p]) (r_outqueue s)) by by rewrite E1.
  destruct (IH s1) as (s2 & -> & [(M2 & st2 & E2) W2 Hc2 Hg2]); [done|done| |done| |].
  { unfold timeouts_fit. by rewrite Hr, Ht. }
  { intros q Hq. rewrite Ho1. apply list_elem_of_filter. split; [|set_solver].
    intros [_ Hqp]%list_elem_of_filter. set_solver. }
  exists s2. split; [done|].
  assert (Hsplit : filter (lost_out t s) (p :: l) = filter (lost_out t s) [p] ++ filter (lost_out t s) l).
  { rewrite !filter_cons. by destruct (decide (lost_out t s p)). }
  rewrite Hsame in E2. split; [| done | done |].
  - exists M2, st2. rewrite E2, Ho1, E1, Hsplit, farewell_app. cbn. rewrite list_filter_filter.
    rewrite (filter_ext_in _ (fun q => q ∉ filter (lost_out t s) [p] ++ filter (lost_out t s) l)) by set_solver.
    unfold swept. cbn. by rewrite <- app_assoc.
  - intros q Hq. rewrite Hg2, Hg1; [done|set_solver|set_solver].
Qed.

(** ** The buckets *)

Lemma wait_same t s s' p : get_pdu s' p = get_pdu s p -> r_retrans s' = r_retrans s ->
  (lost_wait t s' p <-> lost_wait t s p) /\ (resent t s' p <-> resent t s p) /\ (undue t s' p <-> undue t s p).
Proof.
  intros E1 E2. unfold lost_wait, resent, undue, wait_due, may_retry, on_pdu, retried. rewrite E1, E2. done.
Qed.

Lemma silent_same t last s s' p : get_pdu s' p = get_pdu s p -> r_timeout s' = r_timeout s ->
  silent t last s' p = silent t last s p.
Proof. intros E1 E2. unfold silent, on_pdu. by rewrite E1, E2. Qed.

(** The account of the scan of the PDUs [l] of the bucket [i]. *)
Record wait_swept (t last : Z) (i : nat) (l : list id) s (need : bool) s' (need' : bool) : Prop := {
  ws_state : exists M st o n w, r_waitpdu s !! i = Some w /\
    s' = swept M st o (r_trace s ++ farewell RPC_STATUS_TIMEOUT (filter (lost_wait t s) l))
      (<[i := filter (fun p => p ∉ l \/ undue t s p) w]> (r_waitpdu s)) n s /\
    o ≡ₚ filter (resent t s) l ++ r_outqueue s;
  ws_wf : wf s';
  ws_clients : clients s';
  ws_get : forall q, q ∉ l -> get_pdu s' q = get_pdu s q;
  ws_ids : all_ids s ≡ₚ filter (lost_wait t s) l ++ all_ids s';
  ws_need : need' = need || existsb (fun p => bool_decide (resent t s p) && silent t last s p) l;
}.

(** A PDU that is retried goes from its bucket to the outqueue. *)
Lemma retry_one t last i p s w x :
  wf s -> clients s -> timeouts_fit s -> r_waitpdu s !! i = Some w -> p ∈ w -> get_pdu s p = Some x ->
  exists x' st s', retry_pdu t last p x (unbucket i w p s) = Some (s', (t >=? p_major x) && (last >? r_timeout s)) /\
    s' = put_pdu p x' (set_r_stats st (set_r_outqueue (l_return (r_outqueue s) p) (unbucket i w p s))) /\
    wf s' /\ clients s' /\ all_ids s' ≡ₚ all_ids s.
Proof.
  intros W Hc Hf Hi Hp Hx. destruct (drop_wait s i w p W Hi Hp) as [W1 Hids].
  set (s1 := unbucket i w p s) in *.
  destruct (wf_ok _ W p) as (y & Hy & Hk); [rewrite Hids; by left|]. rewrite Hx in Hy. injection Hy as <-.
  unfold retry_pdu.
  set (major := t >=? p_major (set_p_timeout 0 x)).
  set (s2 := if major then inc_major_timedout s1 else s1).
  assert (H2 : exists st, s2 = set_r_stats st s1).
  { exists (r_stats s2). subst s2. destruct major; unfold inc_major_timedout; by destruct s1. }
  destruct H2 as [st H2]. clearbody s2. subst s2.
  set (x1 := if major then set_p_snr true (set_p_major 0 (set_p_timeout 0 x)) else set_p_timeout 0 x).
  assert (Ha1 : alike x x1).
  { subst x1. destruct major; (split; [by intros []; split|done..|by intros []; split]). }
  destruct (set_timeout_ok (set_r_stats st s1) x1 t Hf) as (x2 & -> & Ha2). cbn [mbind option_bind].
  pose proof (alike_trans _ _ _ Ha1 Ha2) as Ha.
  destruct (return_to_outqueue_spec (put_pdu p x2 (set_r_stats st s1)) p x2) as (c & -> & Hk' & Hcur);
    [apply get_put_eq|by apply Ha|]. cbn [mbind option_bind].
  destruct (given_up_bounds s s1 p x W Hids) as (Hn & H32 & H64); [done|done|].
  assert (Hcx : client_pdu x2) by (apply (al_client _ _ Ha); by apply (Hc p)).
  assert (Hc2 : c = p_in x2) by (apply Hcur; apply (cp_copying _ Hcx)).
  set (s3 := put_pdu p x2 (set_r_stats st s1)).
  assert (W3 : wf s3) by (apply wf_put; [by apply wf_stats|exact Hn]).
  assert (Hv : volume s3 (all_ids s3) = volume s1 (all_ids s1)).
  { apply volume_eq. intros q Hq. unfold total_of, s3. rewrite get_put_ne; [done|]. by intros ->. }
  assert (W4 : wf (returned p (restarted c x2) s3)).
  { apply wf_returned; [done|exact Hn|done|done|exact H32|].
    rewrite Hv. cbn. rewrite (al_total _ _ Ha). exact H64. }
  exists (restarted c x2), (r_stats (inc_retransmitted (set_r_stats st s1))). eexists.
  split; [reflexivity|]. split; [|split; [exact W4|split]].
  - unfold returned, s3, put_pdu, inc_retransmitted, s1, unbucket. destruct s. cbn. by rewrite insert_insert_eq.
  - intros q y. unfold returned. rewrite get_put. case_bool_decide as Eq.
    + intros [= <-]. apply restart_client; [done|]. rewrite Hc2. by apply (cp_copying _ Hcx).
    + change (get_pdu s3 q = Some y -> client_pdu y). unfold s3. rewrite get_put_ne by done. by apply (Hc q).
  - rewrite returned_ids, Hids. done.
Qed.

Lemma filter_one_yes {A} (P : A -> Prop) `{!forall y : A, Decision (P y)} (y : A) : P y -> filter P [y] = [y].
Proof. intros Hy. by rewrite filter_cons_True. Qed.

Lemma filter_one_no {A} (P : A -> Prop) `{!forall y : A, Decision (P y)} (y : A) : ~ P y -> filter P [y] = [].
Proof. intros Hy. by rewrite filter_cons_False. Qed.

Lemma existsb_ext_in {A} (f g : A -> bool) l : (forall y, y ∈ l -> f y = g y) -> existsb f l = existsb g l.
Proof. intros H. induction l as [|y l IH]; [done|]. cbn. rewrite H, IH by set_solver. done. Qed.

Lemma verdict t s p x : get_pdu s p = Some x ->
  let due := negb ((p_timeout x =? 0) || ((t <? p_timeout x) && (t <? p_major x))) in
  wait_due t s p = due /\ may_retry s p = retried s x.
Proof.
  intros Hx. unfold wait_due, may_retry, on_pdu. rewrite Hx. cbn. split; [|done]. lia.
Qed.

Lemma remove_filter t s p w : wait_due t s p = true ->
  filter (fun q => q ∉ [p] \/ undue t s q) w = l_remove p w.
Proof.
  intros Hd. apply filter_ext_in. intros q _. unfold undue. rewrite list_elem_of_singleton. split; [|by left].
  intros [?|Hu] ->; congruence.
Qed.

Lemma scan_wait_one t last i p s need w : wf s -> clients s -> timeouts_fit s ->
  r_waitpdu s !! i = Some w -> p ∈ w ->
  exists s' need', scan_wait_pdu t last i p (s, need) = Some (s', need') /\ wait_swept t last i [p] s need s' need'.
Proof.
  intros W Hc Hf Hi Hp. destruct (wf_ok _ W p) as (x & Hx & Hk).
  { unfold all_ids. rewrite !elem_of_app. right. left. rewrite (concat_split _ _ _ Hi). set_solver. }
  unfold scan_wait_pdu. rewrite Hx. cbn [mbind option_bind].
  destruct (verdict t s p x Hx) as [Hdue Hret].
  destruct ((p_timeout x =? 0) || _) eqn:E; cbn [negb] in Hdue.
  { exists s, need. split; [done|].
    assert (Hl : filter (lost_wait t s) [p] = []) by (apply filter_one_no; unfold lost_wait; by rewrite Hdue).
    assert (Hr : filter (resent t s) [p] = []) by (apply filter_one_no; unfold resent; by rewrite Hdue).
    split; try done.
    - exists (r_pdus s), (r_stats s), (r_outqueue s), (r_waitpdu_len s), w. split; [done|]. rewrite Hl, Hr.
      split; [|done]. cbn. rewrite app_nil_r.
      rewrite filter_all by (intros q Hq; destruct (decide (q ∈ [p])) as [->%list_elem_of_singleton|]; [by right|by left]).
      rewrite list_insert_id by done. by destruct s.
    - by rewrite Hl.
    - cbn. rewrite bool_decide_false by (unfold resent; by rewrite Hdue). by rewrite orb_false_r. }
  set (s0 := if t >=? p_timeout x then inc_timedout s else s).
  assert (H0 : exists st, s0 = set_r_stats st s).
  { exists (r_stats s0). subst s0. destruct (_ >=? _); unfold inc_timedout; by destruct s. }
  destruct H0 as [st0 H0]. clearbody s0. subst s0. set (s0 := set_r_stats st0 s).
  assert (W0 : wf s0) by by apply wf_stats.
  unfold upd_bucket. change (r_waitpdu s0) with (r_waitpdu s). rewrite Hi. cbn [mbind option_bind].
  assert (Hw : set_r_waitpdu_len (u32 (r_waitpdu_len (set_r_waitpdu (<[i:=l_remove p w]> (r_waitpdu s)) s0) - 1))
    (set_r_waitpdu (<[i:=l_remove p w]> (r_waitpdu s)) s0) = unbucket i w p s0) by done.
  rewrite Hw. change (retried (unbucket i w p s0) x) with (retried s x).
  destruct (retried s x) eqn:Er.
  - destruct (retry_one t last i p s0 w x W0 Hc Hf Hi Hp Hx) as (x' & st & s' & -> & Es & W' & Hc' & Hids).
    cbn [mbind option_bind]. eexists s', _. split; [done|].
    assert (Hl : filter (lost_wait t s) [p] = []).
    { apply filter_one_no. unfold lost_wait. by rewrite Hdue, Hret. }
    assert (Hr : filter (resent t s) [p] = [p]).
    { apply filter_one_yes. unfold resent. by rewrite Hdue, Hret. }
    split; try done.
    + exists (<[p := x']> (r_pdus s)), st, (l_return (r_outqueue s) p), (u32 (r_waitpdu_len s - 1)), w.
      split; [done|]. rewrite Hl, Hr, remove_filter by done. split; [|apply return_perm].
      rewrite Es. cbn. rewrite app_nil_r. by destruct s.
    + intros q Hq. rewrite Es. rewrite get_put_ne by set_solver. done.
    + rewrite Hl. by rewrite Hids.
    + cbn. rewrite bool_decide_true by (unfold resent; by rewrite Hdue, Hret). cbn. rewrite orb_false_r. f_equal.
      unfold silent, on_pdu. rewrite Hx. cbn. f_equal. lia.
  - destruct (drop_wait s0 i w p W0 Hi Hp) as [W1 Hids].
    assert (Hn : p ∉ all_ids (unbucket i w p s0)).
    { pose proof (wf_nodup _ W0) as H. rewrite Hids in H. by apply NoDup_cons in H as [? _]. }
    unfold drop_timed_out. rewrite (release_ok _ p x) by (done || apply (cp_cb _ (Hc p x Hx))). cbn [mbind option_bind].
    eexists _, _. split; [done|].
    assert (Hl : filter (lost_wait t s) [p] = [p]).
    { apply filter_one_yes. unfold lost_wait. by rewrite Hdue, Hret. }
    assert (Hr : filter (resent t s) [p] = []).
    { apply filter_one_no. unfold resent. by rewrite Hdue, Hret. }
    split.
    + exists (delete p (r_pdus s)), st0, (r_outqueue s), (u32 (r_waitpdu_len s - 1)), w.
      split; [done|]. rewrite Hl, Hr, remove_filter by done. split; [|done].
      unfold farewell, released, log, unbucket, s0, swept. destruct s. cbn. by rewrite <- app_assoc.
    + by apply wf_released.
    + by apply released_clients.
    + intros q Hq. rewrite released_get by set_solver. done.
    + rewrite Hl. exact Hids.
    + cbn. rewrite bool_decide_false by (unfold resent; by rewrite Hdue, Hret). by rewrite orb_false_r.
Qed.

Lemma split_filter {A} (P : A -> Prop) `{!forall y : A, Decision (P y)} (y : A) l :
  filter P (y :: l) = filter P [y] ++ filter P l.
Proof. rewrite !filter_cons. by destruct (decide (P y)). Qed.

Lemma scan_wait_spec t last i l : forall s need w,
  wf s -> clients s -> timeouts_fit s -> NoDup l -> r_waitpdu s !! i = Some w -> (forall p, p ∈ l -> p ∈ w) ->
  exists s' need', scan (scan_wait_pdu t last i) l (s, need) = Some (s', need') /\
    wait_swept t last i l s need s' need'.
Proof.
  induction l as [|p l IH]; intros s need w W Hc Hf Hn Hi Hl; cbn [scan].
  { exists s, need. split; [done|]. split; try done; [|by rewrite orb_false_r].
    exists (r_pdus s), (r_stats s), (r_outqueue s), (r_waitpdu_len s), w. split; [done|]. split; [|done].
    cbn. rewrite app_nil_r, filter_all by (intros; left; set_solver). rewrite list_insert_id by done. by destruct s. }
  apply NoDup_cons in Hn as [Hp Hn].
  destruct (scan_wait_one t last i p s need w W Hc Hf Hi) as
    (s1 & need1 & E & [(M1 & st1 & o1 & n1 & w1 & Hi1 & E1 & Ho1) W1 Hc1 Hg1 Hids1 Hneed1]); [set_solver|].
  rewrite Hi in Hi1. injection Hi1 as <-. rewrite E. cbn [mbind option_bind].
  assert (Hcfg : r_retrans s1 = r_retrans s /\ r_timeout s1 = r_timeout s) by (rewrite E1; apply swept_settings).
  destruct Hcfg as [Hr Ht].
  assert (Hgl : forall q, q ∈ l -> get_pdu s1 q = get_pdu s q) by (intros q Hq; apply Hg1; set_solver).
  assert (Hlost : filter (lost_wait t s1) l = filter (lost_wait t s) l).
  { apply filter_ext_in. intros q Hq. by apply wait_same; [apply Hgl|]. }
  assert (Hres : filter (resent t s1) l = filter (resent t s) l).
  { apply filter_ext_in. intros q Hq. by apply wait_same; [apply Hgl|]. }
  set (w1 := filter (fun q => q ∉ [p] \/ undue t s q) w) in *.
  assert (Hi1 : r_waitpdu s1 !! i = Some w1).
  { rewrite E1. cbn. apply list_lookup_insert_eq. by eapply lookup_lt_Some. }
  destruct (IH s1 need1 w1) as
    (s2 & need2 & -> & [(M2 & st2 & o2 & n2 & w2 & Hi2 & E2 & Ho2) W2 Hc2 Hg2 Hids2 Hneed2]); [done|done| |done|done| |].
  { unfold timeouts_fit. by rewrite Hr, Ht. }
  { intros q Hq. apply list_elem_of_filter. split; [left|]; set_solver. }
  rewrite Hi1 in Hi2. injection Hi2 as <-. rewrite Hlost, Hres in *. exists s2, need2. split; [done|]. split; [|done|done| | |].
  - exists M2, st2, o2, n2, w. split; [done|]. split.
    + assert (Hw : filter (fun q => q ∉ l \/ undue t s1 q) w1 = filter (fun q => q ∉ p :: l \/ undue t s q) w).
      { unfold w1. rewrite list_filter_filter. apply filter_ext_in. intros q _.
        destruct (decide (q ∈ l)) as [Hq|Hq]; [|set_solver].
        assert (Hu : undue t s1 q <-> undue t s q) by (apply wait_same; [by apply Hgl|done]). set_solver. }
      rewrite Hw in E2. rewrite E2, E1, (split_filter (lost_wait t s) p l), farewell_app.
      generalize (farewell (R := R) RPC_STATUS_TIMEOUT (filter (lost_wait t s) [p])) as f1. intros f1.
      generalize (farewell (R := R) RPC_STATUS_TIMEOUT (filter (lost_wait t s) l)) as f2. intros f2.
      cbn. rewrite list_insert_insert_eq. unfold swept. cbn. by rewrite <- app_assoc.
    + assert (Hs1 : r_outqueue s1 = o1) by (by rewrite E1). rewrite Ho2, Hs1, Ho1, (split_filter (resent t s) p l). solve_Permutation.
  - intros q Hq. rewrite Hg2, Hg1; [done|set_solver|set_solver].
  - rewrite (split_filter (lost_wait t s) p l), Hids1, Hids2, <- app_assoc. done.
  - rewrite Hneed2, Hneed1. cbn. rewrite orb_false_r, <- !orb_assoc. do 2 f_equal.
    apply existsb_ext_in. intros q Hq. cbv beta. rewrite (silent_same t last s s1 q (Hgl q Hq) Ht).
    f_equal. apply bool_decide_ext. by apply wait_same; [apply Hgl|].
Qed.

Lemma filter_concat {A} (P : A -> Prop) `{!forall y : A, Decision (P y)} (ls : list (list A)) :
  concat (map (filter P) ls) = filter P (concat ls).
Proof. induction ls as [|l ls IH]; [done|]. cbn. by rewrite IH, filter_app. Qed.

(** The account of the scan of the buckets from [i]. *)
Record buckets_swept (t last : Z) (i : nat) s (need : bool) s' (need' : bool) : Prop := {
  bs_state : exists M st o n,
    s' = swept M st o
      (r_trace s ++ farewell RPC_STATUS_TIMEOUT (filter (lost_wait t s) (concat (drop i (r_waitpdu s)))))
      (take i (r_waitpdu s) ++ map (filter (undue t s)) (drop i (r_waitpdu s))) n s /\
    o ≡ₚ filter (resent t s) (concat (drop i (r_waitpdu s))) ++ r_outqueue s;
  bs_wf : wf s';
  bs_clients : clients s';
  bs_get : forall q, q ∉ concat (drop i (r_waitpdu s)) -> get_pdu s' q = get_pdu s q;
  bs_ids : all_ids s ≡ₚ filter (lost_wait t s) (concat (drop i (r_waitpdu s))) ++ all_ids s';
  bs_need : need' = need || existsb (fun p => bool_decide (resent t s p) && silent t last s p)
                              (concat (drop i (r_waitpdu s)));
}.

Lemma scan_buckets_spec t last n : forall i s need,
  (i + n = length (r_waitpdu s))%nat -> wf s -> clients s -> timeouts_fit s ->
  exists s' need', scan_buckets t last n i (s, need) = Some (s', need') /\ buckets_swept t last i s need s' need'.
Proof.
  induction n as [|n IH]; intros i s need Hn W Hc Hf; cbn [scan_buckets].
  { exists s, need. split; [done|]. rewrite Nat.add_0_r in Hn.
    assert (Hd : drop i (r_waitpdu s) = []) by (apply drop_ge; lia).
    split; rewrite ?Hd; try done; [|by rewrite orb_false_r].
    exists (r_pdus s), (r_stats s), (r_outqueue s), (r_waitpdu_len s). split; [|done].
    cbn. rewrite !app_nil_r, take_ge by lia. by destruct s. }
  destruct (lookup_lt_is_Some_2 (r_waitpdu s) i) as [w Hw]; [lia|]. cbn [fst]. rewrite Hw. cbn [mbind option_bind].
  pose proof (nodup_wait s (wf_nodup _ W)) as Hnd. rewrite (concat_split _ _ _ Hw) in Hnd.
  apply NoDup_app in Hnd as (_ & _ & (Hndw & Hdj & _)%NoDup_app).
  destruct (scan_wait_spec t last i w s need w W Hc Hf Hndw Hw) as
    (s1 & need1 & -> & [(M1 & st1 & o1 & n1 & w1 & Hi1 & E1 & Ho1) W1 Hc1 Hg1 Hids1 Hneed1]); [done|].
  rewrite Hw in Hi1. injection Hi1 as <-. cbn [mbind option_bind].
  rewrite (filter_ext_in (fun p => p ∉ w \/ undue t s p) (undue t s)) in E1 by tauto.
  assert (Hcfg : r_retrans s1 = r_retrans s /\ r_timeout s1 = r_timeout s) by (rewrite E1; apply swept_settings).
  destruct Hcfg as [Hr Ht].
  assert (Hw1 : r_waitpdu s1 = <[i := filter (undue t s) w]> (r_waitpdu s)) by by rewrite E1.
  assert (Hs1 : r_outqueue s1 = o1) by by rewrite E1.
  assert (Hd1 : drop (S i) (r_waitpdu s1) = drop (S i) (r_waitpdu s)) by (rewrite Hw1; apply drop_insert_lt; lia).
  assert (Ht1 : take (S i) (r_waitpdu s1) = take i (r_waitpdu s) ++ [filter (undue t s) w]).
  { rewrite Hw1, (take_S_r _ _ (filter (undue t s) w)) by (apply list_lookup_insert_eq; lia).
    by rewrite take_insert_ge. }
  set (rest := concat (drop (S i) (r_waitpdu s))) in *.
  assert (Hgl : forall q, q ∈ rest -> get_pdu s1 q = get_pdu s q).
  { intros q Hq. apply Hg1. intros Hqw. by apply (Hdj q). }
  assert (Hlost : filter (lost_wait t s1) rest = filter (lost_wait t s) rest).
  { apply filter_ext_in. intros q Hq. by apply wait_same; [apply Hgl|]. }
  assert (Hres : filter (resent t s1) rest = filter (resent t s) rest).
  { apply filter_ext_in. intros q Hq. by apply wait_same; [apply Hgl|]. }
  assert (Hund : map (filter (undue t s1)) (drop (S i) (r_waitpdu s)) = map (filter (undue t s)) (drop (S i) (r_waitpdu s))).
  { apply map_ext_in. intros l Hl. apply filter_ext_in. intros q Hq. apply wait_same; [apply Hgl|done].
    apply list_elem_of_In, in_concat. exists l. split; [done|]. by apply list_elem_of_In. }
  destruct (IH (S i) s1 need1) as
    (s2 & need2 & -> & [(M2 & st2 & o2 & n2 & E2 & Ho2) W2 Hc2 Hg2 Hids2 Hneed2]); [|done|done| |].
  { rewrite Hw1, length_insert. lia. }
  { unfold timeouts_fit. by rewrite Hr, Ht. }
  rewrite Hd1 in E2, Ho2, Hg2, Hids2, Hneed2. fold rest in E2, Ho2, Hg2, Hids2, Hneed2.
  rewrite Hlost, Hund, Ht1 in E2. rewrite Hres in Ho2. rewrite Hlost in Hids2.
  exists s2, need2. split; [done|].
  assert (Hdi : drop i (r_waitpdu s) = w :: drop (S i) (r_waitpdu s)) by by apply drop_S.
  split; rewrite ?Hdi; cbn [concat map]; fold rest; rewrite ?filter_app; try done.
  - exists M2, st2, o2, n2. split.
    + rewrite E2, E1. rewrite farewell_app, <- !app_assoc. cbn. unfold swept. cbn. by rewrite <- app_assoc.
    + rewrite Ho2, Hs1, Ho1. solve_Permutation.
  - intros q Hq. rewrite Hg2, Hg1; [done|set_solver|set_solver].
  - rewrite Hids1, Hids2. by rewrite <- app_assoc.
  - rewrite Hneed2, Hneed1, existsb_app, <- orb_assoc. do 2 f_equal.
    apply existsb_ext_in. intros q Hq. cbv beta. rewrite (silent_same t last s s1 q (Hgl q Hq) Ht).
    f_equal. apply bool_decide_ext. by apply wait_same; [apply Hgl|].
Qed.

(** ** The scan *)

(** The PDUs the scan gives up, in the order of their callbacks. *)
Definition timed_out (t : Z) s : list id :=
  filter (lost_out t s) (r_outqueue s) ++ filter (lost_wait t s) (concat (r_waitpdu s)).

(** The PDUs it leaves in the outqueue. *)
Definition kept_out (t : Z) s : list id := filter (fun p => ~ lost_out t s p) (r_outqueue s).

(** The PDUs it sends again. *)
Definition resent_ids (t : Z) s : list id := filter (resent t s) (concat (r_waitpdu s)).

(** The scan reports a connection that is silent. *)
Definition reports (t : Z) s : bool :=
  existsb (fun p => bool_decide (resent t s p) && silent t (last_rpc_msecs t s) s p) (concat (r_waitpdu s)).

Definition scan_time (t : Z) s : Prop := u64 (r_last_scan s + 1000) < t.

Lemma scan_spec t s : wf s -> clients s -> timeouts_fit s -> scan_time t s ->
  exists M st o n T W, let s' := swept M st o T W n (set_r_last_scan t s) in
    rpc_timeout_scan t s = Some (s', if reports t s then -1 else 0) /\ wf s' /\ clients s' /\
    T = r_trace s ++ farewell RPC_STATUS_TIMEOUT (timed_out t s) /\ all_ids s ≡ₚ timed_out t s ++ all_ids s' /\
    o ≡ₚ filter (fun p => ~ lost_out t s p) (r_outqueue s) ++ filter (resent t s) (concat (r_waitpdu s)) /\
    concat W = filter (undue t s) (concat (r_waitpdu s)).
Proof.
  intros W Hc Hf Ht. unfold rpc_timeout_scan, scan_time in *. replace (t <=? _) with false by lia.
  set (s0 := set_r_last_scan t s). set (last := last_rpc_msecs t s).
  assert (W0 : wf s0) by by destruct W; split.
  pose proof (nodup_out s (wf_nodup _ W)) as Hno.
  destruct (scan_out_spec t (r_outqueue s0) s0 W0 Hc Hf Hno) as (s1 & -> & [(M1 & st1 & E1) W1 Hc1 Hg1]); [done|].
  cbn [mbind option_bind].
  change (lost_out t s0) with (lost_out t s) in E1. change (r_outqueue s0) with (r_outqueue s) in *.
  assert (Hw1 : r_waitpdu s1 = r_waitpdu s) by by rewrite E1.
  assert (Hcfg : r_retrans s1 = r_retrans s /\ r_timeout s1 = r_timeout s) by (by rewrite E1).
  destruct Hcfg as [Hr Hti].
  assert (Hg : forall q, q ∈ concat (r_waitpdu s) -> get_pdu s1 q = get_pdu s q).
  { intros q Hq. rewrite Hg1; [done|]. pose proof (wf_nodup _ W) as Hn. unfold all_ids in Hn.
    apply NoDup_app in Hn as (_ & Hn & _). intros Ho. apply (Hn q Ho). set_solver. }
  destruct (scan_buckets_spec t last (length (r_waitpdu s1)) 0 s1 false eq_refl W1 Hc1) as
    (s2 & need & -> & [(M2 & st2 & o2 & n2 & E2 & Ho2) W2 Hc2 _ Hids2 Hneed2]).
  { unfold timeouts_fit. by rewrite Hr, Hti. }
  cbn [mbind option_bind]. cbn [take app] in E2. rewrite drop_0, Hw1 in E2, Ho2, Hids2, Hneed2.
  set (wt := concat (r_waitpdu s)) in *.
  assert (Hlost : filter (lost_wait t s1) wt = filter (lost_wait t s) wt).
  { apply filter_ext_in. intros q Hq. by apply wait_same; [apply Hg|]. }
  assert (Hres : filter (resent t s1) wt = filter (resent t s) wt).
  { apply filter_ext_in. intros q Hq. by apply wait_same; [apply Hg|]. }
  assert (Hund : filter (undue t s1) wt = filter (undue t s) wt).
  { apply filter_ext_in. intros q Hq. by apply wait_same; [apply Hg|]. }
  assert (Hneed : need = reports t s).
  { rewrite Hneed2. unfold reports. apply existsb_ext_in. intros q Hq. cbv beta.
    rewrite (silent_same t last s s1 q (Hg q Hq) Hti). f_equal. apply bool_decide_ext. by apply wait_same; [apply Hg|]. }
  assert (Hs2 : s2 = swept M2 st2 o2 (r_trace s ++ farewell RPC_STATUS_TIMEOUT (timed_out t s))
    (map (filter (undue t s1)) (r_waitpdu s)) n2 s0).
  { rewrite Hlost in E2. rewrite E2, E1. unfold timed_out. fold wt. rewrite farewell_app. unfold swept. cbn. by rewrite <- app_assoc. }
  assert (Hk : filter (fun p => p ∉ filter (lost_out t s) (r_outqueue s)) (r_outqueue s) =
    filter (fun p => ~ lost_out t s p) (r_outqueue s)).
  { apply filter_ext_in. intros q Hq. rewrite list_elem_of_filter. tauto. }
  assert (Ho1 : r_outqueue s1 = filter (fun p => ~ lost_out t s p) (r_outqueue s)) by (rewrite E1; exact Hk).
  exists M2, st2, o2, n2, (r_trace s ++ farewell RPC_STATUS_TIMEOUT (timed_out t s)), (map (filter (undue t s1)) (r_waitpdu s)).
  cbv zeta. rewrite <- Hs2, <- Hneed. split; [done|]. split; [done|]. split; [done|]. split; [done|].
  split; [|split; [by rewrite Ho2, Hres, Ho1, Permutation_app_comm|by rewrite filter_concat]].
  assert (Hids1 : all_ids s ≡ₚ filter (lost_out t s) (r_outqueue s) ++ all_ids s1).
  { unfold all_ids. rewrite Ho1, Hw1. assert (Hpd : r_pdu s1 = r_pdu s) by (by rewrite E1). rewrite Hpd, (app_assoc (filter (lost_out t s) _)).
    apply Permutation_app_tail. symmetry. apply filter_app_complement. }
  rewrite Hids1, Hids2, Hlost. unfold timed_out. by rewrite <- app_assoc.
Qed.

(** C8: what [rpc_timeout_scan] does to every PDU, in one scan. A PDU that is due and may not be
    retried is given back: one callback with RPC_STATUS_TIMEOUT, first those to be sent and then
    those that wait, in the order of their queues, and its release. One that waits, is due and may
    be retried goes back to the outqueue. Every other PDU stays in its queue. The result says
    whether a retried PDU had its major timeout on a connection that is silent for too long. *)
Theorem timeout_scan_verdicts t s : wf s -> clients s -> timeouts_fit s -> scan_time t s ->
  exists s', rpc_timeout_scan t s = Some (s', if reports t s then -1 else 0) /\ wf s' /\
    r_trace s' = r_trace s ++ farewell RPC_STATUS_TIMEOUT (timed_out t s) /\
    all_ids s ≡ₚ timed_out t s ++ all_ids s' /\
    r_outqueue s' ≡ₚ kept_out t s ++ resent_ids t s /\
    concat (r_waitpdu s') = filter (undue t s) (concat (r_waitpdu s)).
Proof.
  intros W Hc Hf Ht. destruct (scan_spec t s W Hc Hf Ht) as (M & st & o & n & T & Wt & E & W' & _ & HT & Hids & Ho & Hw).
  eexists. split; [exact E|]. rewrite <- HT. auto.
Qed.

(** A PDU that times out while it is being written is taken out of the outqueue half-sent:
    the bytes on the wire end inside its record, and no PDU is left that would send the rest. *)
Theorem timeout_cuts_record t s p l : wf s -> clients s -> timeouts_fit s -> scan_time t s ->
  r_outqueue s = p :: l -> 0 < done_of s p -> lost_out t s p ->
  exists s' r, rpc_timeout_scan t s = Some (s', r) /\ wf s' /\ p ∉ all_ids s' /\
    r_wire s' = r_wire s /\ 0 < blen (unsent s p) < total_of s p.
Proof.
  intros W Hc Hf Ht Ho Hd Hl.
  destruct (scan_spec t s W Hc Hf Ht) as (M & st & o & n & T & Wt & E & W' & _ & _ & Hids & _ & _).
  eexists _, _. split; [exact E|]. split; [exact W'|]. split; [|split; [done|]].
  - pose proof (wf_nodup _ W) as Hn. rewrite Hids in Hn. apply NoDup_app in Hn as (_ & Hn & _).
    apply Hn. unfold timed_out. rewrite elem_of_app. left. apply list_elem_of_filter. split; [done|]. rewrite Ho. by left.
  - destruct (head_facts s p l W Ho) as (x & Hx & [Hk Hlt] & _).
    rewrite (unsent_blen s p x Hx Hk). unfold done_of, total_of in *. rewrite Hx in *. cbn in *.
    pose proof (po_done _ Hk). lia.
Qed.

End timeout.

(** ** Instances *)

(** Two calls whose timeout is 60 s, sent 100 s ago, one of them to be retried. *)
Definition late : rpc Z :=
  put_pdu 1%N (set_p_no_retry true (the_pdu waiting 1%N)) (set_r_retrans 2 waiting).

Lemma timeout_scan_verdicts_witness :
  exists s' r, rpc_timeout_scan 100100 late = Some (s', r) /\ wf s' /\
    r_trace s' = r_trace late ++ farewell RPC_STATUS_TIMEOUT [1%N] /\ r_outqueue s' ≡ₚ [0%N].
Proof.
  destruct (timeout_scan_verdicts 100100 late) as (s' & E & W & T & _ & Ho & _).
  - apply wfb_wf. vm_compute. reflexivity.
  - apply clientsb_ok. vm_compute. reflexivity.
  - vm_compute. reflexivity.
  - vm_compute. reflexivity.
  - assert (Ht : timed_out 100100 late = [1%N]) by (vm_compute; reflexivity).
    assert (Hq : kept_out 100100 late ++ resent_ids 100100 late = [0%N]) by (vm_compute; reflexivity).
    rewrite Ht in T. rewrite Hq in Ho.
    exists s', (if reports 100100 late then -1 else 0).
    split; [exact E|]. split; [exact W|]. split; [exact T|]. exact Ho.
Defined.

(** Ten bytes of a call that is not retried have been written. *)
Definition stuck : rpc Z := from_option fst client (rpc_write_to_socket [WCount 10] queued).

Lemma timeout_cuts_record_witness :
  exists s' r, rpc_timeout_scan 100100 stuck = Some (s', r) /\ 0%N ∉ all_ids s' /\ r_wire s' = r_wire stuck.
Proof.
  destruct (timeout_cuts_record 100100 stuck 0%N []) as (s' & r & E & _ & Hn & Hw & _).
  - apply wfb_wf. vm_compute. reflexivity.
  - apply clientsb_ok. vm_compute. reflexivity.
  - vm_compute. reflexivity.
  - vm_compute. reflexivity.
  - vm_compute. reflexivity.
  - vm_compute. reflexivity.
  - vm_compute. reflexivity.
  - exists s', r. exact (conj E (conj Hn Hw)).
Defined.
