(* ===== verification/ReadAccount.v ===== *)
(** * ReadAccount: reading keeps the account (lib/socket.c, lib/pdu.c)

    Whatever a server sends, well-formed or not, reading it on a stream of a
    client without zero-copy READs keeps the context well-formed, and every
    PDU it gives up has had exactly one callback. *)

From S2P Require Import Prelude Zdr RpcMsg Cursor Queue RpcState Context Send SendProps Recv RecvProps.
From S2P Require Import Account Dispatch.

Section read_account.
Context {R : Type} (zero_res : R) (read_status : R -> Z)
  (process_call : ZDR -> rpc R -> option (rpc R * Z)).
Implicit Types (s : rpc R) (p q : id) (x : pdu R).

(** What a step of the reader keeps. *)
Record reads s s' (gone : list id) : Prop := {
  rd_account : account s s' gone;
  rd_wf : wf s';
  rd_tcps : clients s';
}.

Lemma reads_trans s1 s2 s3 g1 g2 : reads s1 s2 g1 -> reads s2 s3 g2 -> reads s1 s3 (g1 ++ g2).
Proof. intros [A1 _ _] [A2 W C]. split; [|done|done]. by eapply account_trans. Qed.

(** A step that touches neither the queues nor the PDUs. *)
Lemma reads_then s s1 s2 gone : reads s s1 gone -> shape s2 = shape s1 -> r_trace s2 = r_trace s1 ->
  r_pdus s2 = r_pdus s1 -> reads s s2 gone.
Proof.
  intros [A W C] E T P. split.
  - pose proof (account_trans _ _ _ _ _ A (account_quiet s1 s2 E T)) as H. by rewrite app_nil_r in H.
  - apply (wf_alike s1); [done|done|]. intros p x _ Hx. exists x. split; [|apply alike_refl].
    unfold get_pdu in *. by rewrite P.
  - intros p x. unfold get_pdu. rewrite P. apply C.
Qed.

Lemma reads_refl s : live s -> reads s s [].
Proof. intros L. split; [apply account_refl|apply L|apply L]. Qed.

Lemma reads_quiet s s' : live s -> shape s' = shape s -> r_trace s' = r_trace s -> r_pdus s' = r_pdus s ->
  reads s s' [].
Proof. intros L. apply reads_then. by apply reads_refl. Qed.

Lemma live_reads s s' gone : live s -> reads s s' gone -> reader_ok s' -> (r_inpos s' <> 0 -> r_buf s' <> None) ->
  live s'.
Proof.
  intros L [A W C] Hr Hb. split; try done. unfold tcp_client. rewrite (ac_mode _ _ _ A). apply L.
Qed.

(** ** Before and after the bytes *)

Lemma setup_reads s s' : live s -> read_setup s = Some s' ->
  reads s s' [] /\ r_state s' = r_state s /\ reader_ok s' /\ r_buf s' <> None.
Proof.
  intros L. pose proof (lv_read _ L) as Hr. unfold read_setup, reader_ok in *.
  destruct (r_inpos s =? 0) eqn:E; cbn [negb].
  2: { intros [= <-]. split; [by apply reads_quiet|]. split; [done|]. split; [done|]. apply (lv_buf _ L). lia. }
  destruct (r_state s) eqn:Es; try done.
  - intros [= <-]. split; [|by cbn; rewrite Es]. apply reads_quiet; try done.
    unfold shape. cbn. by rewrite Hr.
  - set (s0 := set_r_inpos 4 _). intros H.
    assert (Hs : exists n, s' = set_r_pdu_size n s0).
    { destruct (r_pdu s0) as [p|]; [|exists (r_pdu_size s0); injection H as <-; by destruct s0].
      destruct (get_pdu s0 p); cbn in H; [|done].
      destruct (_ && _); injection H as <-; [by exists ZCRP|exists (r_pdu_size s0); by destruct s]. }
    destruct Hs as [n ->]. split; [by apply reads_quiet|]. cbn. by rewrite Es.
  - destruct (_ <=? _); [|done]. intros [= <-]. split; [by apply reads_quiet|]. cbn. by rewrite Es.
  - destruct (_ <=? _); [|done]. intros [= <-]. split; [by apply reads_quiet|]. cbn. by rewrite Es.
Qed.

Lemma received_reads d s s' : live s -> r_buf s <> None -> received d s = Some s' ->
  reads s s' [] /\ r_state s' = r_state s /\ r_pdu s' = r_pdu s /\ r_buf s' <> None.
Proof.
  intros L Hb. unfold received. cbn [r_buf set_r_inpos].
  destruct (r_buf s) as [[off|off]|]; [| |done];
    (destruct (write_at _ _ _) as [b|]; cbn [mbind option_bind]; [|done]); intros [= <-];
    (split; [by apply reads_quiet|done]).
Qed.

(** ** Finding the PDU of a reply *)

Lemma find_xid_in s k l p : find_xid s k l = Some p -> p ∈ l.
Proof.
  induction l as [|q l IH]; [done|]. cbn. destruct (_ =? _); [intros [= ->]; by left|]. intros H. right. by apply IH.
Qed.

Lemma wf_reading s p x : wf s -> r_pdu s = None -> p ∉ all_ids s -> get_pdu s p = Some x -> pdu_ok x ->
  is_u32 (1 + blen (all_ids s)) -> is_u64 (total_size (p_out x) + volume s (all_ids s)) ->
  wf (set_r_pdu (Some p) s) /\ all_ids (set_r_pdu (Some p) s) ≡ₚ p :: all_ids s.
Proof.
  intros W Hn Hp Hx Hk H32 H64. set (s' := set_r_pdu (Some p) s).
  assert (Hids : all_ids s' ≡ₚ p :: all_ids s).
  { unfold all_ids. cbn. rewrite Hn. cbn. solve_Permutation. }
  split; [|done]. split; try apply W.
  - rewrite Hids. constructor; [done|apply W].
  - intros q Hq. rewrite Hids in Hq. apply elem_of_cons in Hq as [->|Hq]; [eauto|]. by apply (wf_ok _ W).
  - assert (blen (all_ids s') = 1 + blen (all_ids s)) as ->; [|done]. unfold blen. rewrite Hids. cbn [length]. lia.
  - rewrite (volume_perm _ _ _ Hids), volume_cons. rewrite (volume_eq s) by done.
    change (total_of s' p) with (total_of s p). unfold total_of at 1. by rewrite Hx.
Qed.

(** The PDU that is found leaves its queue and becomes the one being read. *)
Lemma find_reads s k s' found : live s -> r_pdu s = None -> Recv.rpc_find_pdu s k = Some (s', found) ->
  reads s (set_r_pdu found s') [] /\ r_state s' = r_state s /\ r_inpos s' = r_inpos s /\ r_buf s' = r_buf s /\
  r_pdu s' = None.
Proof.
  intros L Hp. pose proof (lv_wf _ L) as W. pose proof (lv_mode _ L) as Hm. unfold tcp_client, mode in Hm.
  injection Hm as _ Hu _. unfold Recv.rpc_find_pdu, take_found. rewrite Hu. cbn [andb].
  assert (Hmove : forall p s1, wf s1 -> all_ids s ≡ₚ p :: all_ids s1 -> mode s1 = mode s -> timing s1 = timing s -> r_next_id s1 = r_next_id s ->
    r_trace s1 = r_trace s -> r_pdus s1 = r_pdus s -> r_pdu s1 = None -> reads s (set_r_pdu (Some p) s1) []).
  { intros p s1 W1 Hids E1 Et E2 E3 E4 E5.
    destruct (wf_ok _ W p) as (x & Hx & Hk); [rewrite Hids; by left|].
    assert (Hg : forall q, get_pdu s1 q = get_pdu s q) by (intros q; unfold get_pdu; by rewrite E4).
    destruct (given_up_bounds s s1 p x W Hids) as (Hn & H32 & H64); [|done|].
    { intros q _. unfold total_of. by rewrite Hg. }
    destruct (wf_reading s1 p x W1 E5 Hn) as [W2 Hids2]; [by rewrite Hg|done|done|done|].
    split; [split; try done|done|].
    - by rewrite Hids2.
    - exists []. cbn. rewrite app_nil_r. split; [done|constructor].
    - intros q y Hy. change (get_pdu s1 q = Some y) in Hy. rewrite Hg in Hy. by apply (lv_pdus _ L q). }
  destruct (find_xid s k (r_outqueue s)) as [p|] eqn:E.
  { cbn [mbind option_bind]. intros [= <- <-]. apply find_xid_in in E.
    destruct (drop_out s p W E) as [W1 Hids]. split; [|done]. by apply Hmove. }
  destruct (r_waitpdu s !! bucket s (r_rmx s)) as [w|] eqn:Hw; cbn [mbind option_bind]; [|done].
  destruct (find_xid s k w) as [p|] eqn:E2.
  - cbn [mbind option_bind]. intros [= <- <-]. apply find_xid_in in E2.
    destruct (drop_wait s _ w p W Hw E2) as [W1 Hids]. split; [|done]. by apply Hmove.
  - intros [= <- <-]. split; [|done]. apply reads_quiet; try done. unfold shape. cbn. by rewrite Hp.
Qed.

(** ** The marker *)

Definition next_of (st : next_step (R := R)) : rpc R := match st with Continue s => s | Return s _ => s end.

(** What a part that is complete leads to. *)
Definition good_step s (st : next_step (R := R)) : Prop :=
  exists gone, reads s (next_of st) gone /\
    match st with
    | Continue s' => live s'
    | Return s' r => r = 0 -> live s'
    end.

Lemma good_return s s' gone : reads s s' gone -> good_step s (Return s' (-1)).
Proof. intros H. exists gone. split; [done|lia]. Qed.

Lemma good_continue s s' gone : live s -> reads s s' gone -> reader_ok s' -> (r_inpos s' <> 0 -> r_buf s' <> None) ->
  good_step s (Continue s').
Proof. intros L H Hr Hb. exists gone. split; [done|]. by apply (live_reads s s' gone). Qed.

Lemma marker_good s st : live s -> r_state s = READ_RM -> read_marker_done s = Some st -> good_step s st.
Proof.
  intros L Hst. pose proof (lv_read _ L) as Hr. unfold reader_ok in Hr. rewrite Hst in Hr.
  pose proof (tcp_client_server _ (lv_mode _ L)) as Hsrv. unfold read_marker_done.
  destruct (read_at 0 4 (r_rmbuf s)) as [w0|]; cbn [mbind option_bind]; [|done].
  destruct (read_at 4 4 (r_rmbuf s)) as [w1|]; cbn [mbind option_bind]; [|done].
  destruct (_ =? 0). { intros [= <-]. apply (good_return _ _ []). by apply reads_quiet. }
  cbn [r_rm set_r_rm set_r_state].
  destruct (_ || _). { intros [= <-]. apply (good_return _ _ []). by apply reads_quiet. }
  set (s1 := set_r_rmx _ _).
  assert (R1 : reads s s1 []) by by apply reads_quiet.
  assert (L1 : live s1) by (apply (live_reads s s1 [] L R1); [exact I|exact (lv_buf _ L)]).
  change (r_server s1) with (r_server s). rewrite Hsrv. cbn [negb andb].
  destruct (Recv.rpc_find_pdu s1 (r_rmx s1)) as [[s2 found]|] eqn:Ef; cbn [mbind option_bind]; [|done].
  destruct (find_reads s1 _ s2 found L1 Hr Ef) as (R2 & Es2 & Ei2 & Eb2 & Ep2).
  set (s3 := set_r_pdu found s2) in *. pose proof (reads_trans _ _ _ _ _ R1 R2) as R3. cbn [app] in R3.
  destruct (match found with Some p => _ | None => _ end) as [[s4 need]|] eqn:E4; cbn [mbind option_bind]; [|done].
  assert (s4 = s3) as ->.
  { destruct found; [|by simplify_eq]. destruct (get_pdu s3 _); cbn in E4; [|done]. by simplify_eq. }
  assert (Hs3 : r_server s3 = false).
  { apply tcp_client_server. unfold tcp_client. rewrite (ac_mode _ _ _ (rd_account _ _ _ R3)). apply L. }
  assert (Hs2 : r_server s2 = false) by exact Hs3. change (r_pdu s3) with found. clear E4.
  destruct (adjust_inbuf _ _) as [b|].
  - destruct (write_at 0 _ b) as [b'|]; cbn [mbind option_bind]; [|done]. intros [= <-].
    set (s4 := set_r_inpos 0 (set_r_inbuf b' s3)).
    assert (L3 : live s3) by (apply (live_reads s1 s3 [] L1 R2); [unfold reader_ok; cbn; by rewrite Es2|
      cbn; rewrite Ei2, Eb2; exact (lv_buf _ L1)]).
    assert (R4 : reads s3 s4 []) by by apply reads_quiet.
    change (r_server s4) with (r_server s2). rewrite Hs2. cbn [negb andb].
    change (r_pdu s4) with found. pose proof (reads_trans _ _ _ _ _ R3 R4) as R5. cbn [app] in R5.
    destruct found as [p|]; cbn [is_some negb].
    + apply (good_continue s _ [] L R5); [unfold reader_ok; cbn; by rewrite Es2|by intros []].
    + assert (L4 : live s4) by (apply (live_reads s s4 [] L R5); [unfold reader_ok; cbn; by rewrite Es2|by intros []]).
      apply (good_continue s _ [] L); [|done|by intros []].
      apply (reads_trans s s4 _ [] []); [done|]. by apply reads_quiet.
  - destruct found as [p|]; [|intros [= <-]; by apply (good_return _ _ [])].
    change (r_server s3) with (r_server s2). rewrite Hs2.
    pose proof (rd_wf _ _ _ R3) as W3.
    destruct (wf_ok _ W3 p) as (x & Hx & Hk); [unfold all_ids; cbn; set_solver|].
    destruct (return_to_outqueue_spec s3 p x Hx Hk) as (c & -> & Hk' & Hc). cbn [mbind option_bind].
    intros [= <-]. apply (good_return _ _ []). apply (reads_trans s s3 _ [] []); [done|].
    set (s5 := set_r_pdu None s3).
    assert (Hids5 : all_ids s3 ≡ₚ p :: all_ids s5) by (unfold all_ids; cbn; rewrite app_nil_r; solve_Permutation).
    assert (W5 : wf s5) by (apply (wf_shrink [p] s3); try done; try apply W3; eauto).
    destruct (given_up_bounds s3 s5 p x W3 Hids5) as (Hn & H32 & H64); [done|done|].
    change (reads s3 (returned p (restarted c x) s5) []). split.
    + split; try done; [by rewrite returned_ids|]. exists []. cbn. rewrite app_nil_r. split; [done|constructor].
    + by apply wf_returned.
    + pose proof (rd_tcps _ _ _ R3) as C3. assert (Hcx : client_pdu x) by by apply (C3 p).
      intros q y. unfold returned. rewrite get_put. case_bool_decide; [|by apply C3].
      intros [= <-]. pose proof (cp_copying _ Hcx) as [Hbase _]. apply restart_client; [done|]. by rewrite (Hc Hbase).
Qed.

(** ** The payload *)

(** What [rpc_process_reply] does to a call of a client. *)
Lemma reply_account now z s s' z' p x : clients s -> r_pdu s = Some p -> get_pdu s p = Some x ->
  rpc_process_reply zero_res now z s = Some (s', z') ->
  exists b st d l t, s' = set_r_trace (r_trace s ++ [Cb p st d])
    (set_r_last_rpc l (put_pdu p (set_p_buf b x) (set_r_stats t s))).
Proof.
  intros C Hp Hx. pose proof (C p x Hx) as [Hcb [Hbase _] _]. unfold rpc_process_reply.
  change (r_pdu (inc_resp_rcvd s)) with (r_pdu s). rewrite Hp. cbn [mbind option_bind].
  change (get_pdu (inc_resp_rcvd s) p) with (get_pdu s p). rewrite Hx. cbn [mbind option_bind].
  set (x1 := if p_bufsize x >? 0 then _ else x).
  assert (H1 : exists b, x1 = set_p_buf b x).
  { subst x1. destruct (_ >? 0); [by eexists|]. exists (p_buf x). by destruct x. }
  destruct H1 as [b1 H1]. clearbody x1. subst x1.
  assert (Hput : forall b b' ev, log ev (put_pdu p (set_p_buf b x) (put_pdu p (set_p_buf b' x) (inc_resp_rcvd s))) =
    set_r_trace (r_trace s ++ [ev]) (set_r_last_rpc (r_last_rpc s) (put_pdu p (set_p_buf b x)
      (set_r_stats (r_stats (inc_resp_rcvd s)) s)))).
  { intros b b' ev. unfold log, put_pdu, inc_resp_rcvd. destruct s. cbn. by rewrite insert_insert_eq. }
  destruct (zdr_replymsg _ _ _ _) as [m z1|m z1|]; [| |done].
  - set (x2 := match body m, p_buf (set_p_buf b1 x) with RBody _, Some _ => _ | _, _ => _ end).
    assert (H2 : exists b, x2 = set_p_buf b x).
    { subst x2. destruct (body m), (p_buf (set_p_buf b1 x)); by eexists. }
    destruct H2 as [b2 H2]. clearbody x2. subst x2.
    assert (Hcall : forall st d, call_cb (put_pdu p (set_p_buf b2 x) (put_pdu p (set_p_buf b1 x) (inc_resp_rcvd s))) p st d =
      Some (log (Cb p st d) (put_pdu p (set_p_buf b2 x) (put_pdu p (set_p_buf b1 x) (inc_resp_rcvd s))))).
    { intros st d. apply (call_cb_ok _ _ (set_p_buf b2 x)); [apply get_put_eq|done]. }
    destruct (negb _).
    { rewrite Hcall. cbn [mbind option_bind]. intros [= <- <-]. rewrite Hput. by eexists _, _, _, _, _. }
    destruct (_ =? SUCCESS).
    { change (p_in (set_p_buf b2 x)) with (p_in x). rewrite Hbase. cbn [is_some].
      rewrite (call_cb_ok _ _ (set_p_buf b2 x)); [|apply get_put_eq|done]. cbn [mbind option_bind]. intros [= <- <-].
      exists b2, RPC_STATUS_SUCCESS, (Results (p_buf (set_p_buf b2 x))), now, (r_stats (inc_resp_rcvd s)).
      unfold log, put_pdu, inc_resp_rcvd. destruct s. cbn. by rewrite insert_insert_eq. }
    rewrite Hcall. cbn [mbind option_bind]. intros [= <- <-]. rewrite Hput. by eexists _, _, _, _, _.
  - rewrite (call_cb_ok _ _ (set_p_buf b1 x)); [|apply get_put_eq|done]. cbn [mbind option_bind]. intros [= <- <-].
    exists None, RPC_STATUS_ERROR, NoData, (r_last_rpc s), (r_stats (inc_resp_rcvd s)).
    unfold log, put_pdu, inc_resp_rcvd. destruct s. cbn. by rewrite insert_insert_eq.
Qed.

(** The context once the PDU that was read has been given its reply and released. *)
Definition replied p (st : Z) (d : cb_data R) (l : Z) (t : stats) s : rpc R :=
  set_r_trace (r_trace s ++ [Cb p st d; Freed p])
    (set_r_pdus (delete p (r_pdus s)) (set_r_pdu None (set_r_last_rpc l (set_r_stats t s)))).

Lemma replied_reads p st d l t s : live s -> r_pdu s = Some p -> reads s (replied p st d l t s) [p].
Proof.
  intros L Hp. pose proof (lv_wf _ L) as W. set (s' := replied p st d l t s).
  assert (Hids : all_ids s ≡ₚ p :: all_ids s').
  { unfold all_ids. cbn. rewrite Hp. cbn. solve_Permutation. }
  assert (Hn : p ∉ all_ids s').
  { pose proof (wf_nodup _ W) as H. rewrite Hids in H. by apply NoDup_cons in H as [? _]. }
  assert (Hg : forall q, q <> p -> get_pdu s' q = get_pdu s q).
  { intros q Hq. unfold get_pdu. cbn. by apply lookup_delete_ne. }
  split.
  - split; try done. eexists. split; [reflexivity|]. repeat constructor.
  - apply (wf_shrink [p] s); try done; try apply W; [|eauto]. intros q Hq. apply Hg. by intros ->.
  - apply (clients_sub s); [apply L|]. intros q x. unfold get_pdu. cbn. by intros [_ ?]%lookup_delete_Some.
Qed.

Lemma payload_good now s st : live s -> r_state s = READ_PAYLOAD ->
  read_payload_done zero_res read_status process_call now s = Some st -> good_step s st.
Proof.
  intros L Hst. pose proof (tcp_client_server _ (lv_mode _ L)) as Hsrv.
  assert (Hud : r_udp s = false) by (pose proof (lv_mode _ L) as Hm; unfold tcp_client, mode in Hm; congruence).
  unfold read_payload_done.
  destruct (match r_fragments s with [] => _ | _ => _ end) as [[b sz]|].
  2: { intros [= <-]. apply (good_return _ _ []). by apply reads_quiet. }
  unfold rpc_process_pdu. change (r_server (set_r_pdu_size sz s)) with (r_server s). rewrite Hsrv.
  destruct (rpc_process_reply _ _ _ _) as [[s1 z]|] eqn:E; cbn [mbind option_bind]; [|done].
  assert (Hp : exists p x, r_pdu s = Some p /\ get_pdu s p = Some x).
  { clear -E. unfold rpc_process_reply in E. change (r_pdu (inc_resp_rcvd _)) with (r_pdu s) in E.
    destruct (r_pdu s) as [p|]; [|done]. cbn [mbind option_bind] in E. exists p.
    change (get_pdu (inc_resp_rcvd _) p) with (get_pdu s p) in E. destruct (get_pdu s p) as [x|]; [|done].
    by exists x. }
  destruct Hp as (p & x & Hp & Hx). pose proof (lv_pdus _ L p x Hx) as Hcx. pose proof (cp_copying _ Hcx) as (Hbase & Hfz & Hfp).
  destruct (reply_account now _ (set_r_pdu_size sz s) s1 z p x (lv_pdus _ L) Hp Hx E) as (b2 & st2 & d & l & t & E1).
  assert (Hg1 : get_pdu s1 p = Some (set_p_buf b2 x)) by (rewrite E1; apply get_put_eq).
  assert (Hp1 : r_pdu s1 = Some p) by (by rewrite E1).
  assert (Hmid : (match r_fragments s1, r_pdu s1 with
    | [], Some p => x ← get_pdu s1 p;
        Some (if is_some (base (p_in x)) then put_pdu p (set_p_free_zdr true (set_p_zdr z x)) s1 else s1, 0)
    | _, _ => Some (s1, 0) end) = Some (s1, 0)).
  { rewrite Hp1. destruct (r_fragments s1); [|done]. rewrite Hg1. cbn [mbind option_bind].
    change (p_in (set_p_buf b2 x)) with (p_in x). by rewrite Hbase. }
  rewrite Hmid. cbn [mbind option_bind]. rewrite Hp1, Hg1. cbn [negb]. change (negb (0 =? 0)) with false. cbv iota.
  cbn [mbind option_bind]. change (p_free_zdr (set_p_buf b2 x)) with (p_free_zdr x). rewrite Hfz. cbn [negb mbind option_bind].
  unfold payload_finished.
  set (s2 := match r_fragments s1 with [] => s1 | _ :: _ => _ end).
  assert (H2 : exists fr bf, s2 = set_r_fragments fr (set_r_buf bf s1)).
  { subst s2. destruct (r_fragments s1) eqn:Ef; [|by eexists _, _]. exists [], (r_buf s1). rewrite <- Ef. by destruct s1. }
  destruct H2 as (fr & bf & H2). clearbody s2. subst s2. unfold rpc_finished_pdu.
  change (r_pdu (set_r_fragments fr (set_r_buf bf s1))) with (r_pdu s1). rewrite Hp1.
  change (get_pdu (set_r_fragments fr (set_r_buf bf s1)) p) with (get_pdu s1 p). rewrite Hg1. cbn [mbind option_bind].
  change (p_free_pdu (set_p_buf b2 x)) with (p_free_pdu x). rewrite Hfp. cbn [mbind option_bind].
  set (s3 := set_r_inpos 0 _). change (r_pdu s3) with (r_pdu s1). change (r_udp s3) with (r_udp s1). rewrite Hp1.
  assert (Hu1 : r_udp s1 = false) by (rewrite E1; exact Hud). rewrite Hu1. cbn [andb].
  unfold rpc_free_pdu. change (get_pdu s3 p) with (get_pdu s1 p). rewrite Hg1. cbn [mbind option_bind].
  intros [= <-]. set (s4 := set_r_pdu None _).
  set (s5 := set_r_inpos 0 (set_r_state READ_RM (set_r_fragments fr (set_r_buf bf (set_r_pdu_size sz (replied p st2 d l t s)))))).
  assert (H45 : s4 = s5).
  { unfold s4, s3, s5, replied, log. rewrite E1. unfold put_pdu. destruct s. cbn. rewrite delete_insert_eq.
    by rewrite <- app_assoc. }
  rewrite H45. pose proof (replied_reads p st2 d l t s L Hp) as Rr.
  pose proof (reads_then s _ s5 [p] Rr eq_refl eq_refl eq_refl) as R5.
  apply (good_continue s s5 [p] L R5); [done|by intros []].
Qed.

(** ** The loop *)

Lemma done_good now s st : live s -> read_done zero_res read_status process_call now s = Some st -> good_step s st.
Proof.
  intros L. pose proof (lv_read _ L) as Hr. unfold reader_ok in Hr. unfold read_done.
  destruct (r_state s) eqn:Es; try done.
  - by apply marker_good.
  - by apply payload_good.
  - unfold read_fragment_done. destruct (rpc_add_fragment _ _ _) as [fr|].
    + intros [= <-]. apply (good_continue s _ [] L); [by apply reads_quiet|exact Hr|by intros []].
    + intros [= <-]. apply (good_return _ _ []). by apply reads_quiet.
  - intros [= <-]. apply (good_continue s _ [] L); [by apply reads_quiet|exact Hr|by intros []].
Qed.

Lemma good_then s s1 gone st : reads s s1 gone -> good_step s1 st -> good_step s st.
Proof.
  intros H (g & H1 & H2). exists (gone ++ g). split; [by eapply reads_trans|]. done.
Qed.

Lemma turn_good now rs s st rs' : live s -> r_buf s <> None ->
  read_turn zero_res read_status process_call now rs s = Some (st, rs') -> good_step s st.
Proof.
  intros L Hb. unfold read_turn, read_request.
  assert (Hnp : r_state s <> READ_PADDING).
  { pose proof (lv_read _ L) as Hr. unfold reader_ok in Hr. by destruct (r_state s). }
  rewrite bool_decide_false by done.
  destruct (r_buf s) as [bf|] eqn:Eb; [|done]. cbn [mbind option_bind].
  destruct rs as [|[d|] rs].
  - intros [= <- <-]. exists []. by split; [apply reads_refl|].
  - set (cnt := u32 _). unfold take_input. set (got := take _ d). destruct (bool_decide (got = [])).
    { intros [= <- <-]. apply (good_return _ _ []). by apply reads_refl. }
    destruct (received got s) as [s1|] eqn:Er; cbn [mbind option_bind]; [|done].
    destruct (received_reads got s s1 L) as (R1 & Es & Ep & Hb1); [by rewrite Eb|done|].
    assert (L1 : live s1).
    { apply (live_reads s s1 [] L R1); [|by intros]. pose proof (lv_read _ L). unfold reader_ok in *. by rewrite Es, Ep. }
    destruct (_ =? _).
    + destruct (read_done _ _ _ now s1) as [st1|] eqn:Ed; cbn [mbind option_bind]; [|done]. intros [= <- _].
      apply (good_then s s1 []); [done|]. by eapply done_good.
    + intros [= <- _]. exists []. done.
  - intros [= <- <-]. apply (good_return _ _ []). by apply reads_refl.
Qed.

Lemma loop_good now fuel : forall rs s s' r rs', live s ->
  read_loop zero_res read_status process_call fuel now rs s = Done (s', r, rs') ->
  exists gone, reads s s' gone /\ (r = 0 -> live s').
Proof.
  induction fuel as [|fuel IH]; intros rs s s' r rs' L; [done|]. cbn [read_loop].
  destruct (read_setup s) as [s1|] eqn:Es; cbn [mbind option_bind]; [|done].
  destruct (setup_reads s s1 L Es) as (R1 & _ & Hr1 & Hb1).
  assert (L1 : live s1) by (by apply (live_reads s s1 [] L R1)).
  destruct (read_turn _ _ _ now rs s1) as [[st rs1]|] eqn:Et; [|done].
  destruct (turn_good now rs s1 st rs1 L1 Hb1 Et) as (g & R2 & H2).
  destruct st as [s2|s2 r2]; cbn [next_of] in R2.
  - intros E. destruct (IH rs1 s2 s' r rs' H2 E) as (g3 & R3 & H3). exists (g ++ g3). split; [|done].
    apply (reads_trans s s1 s' [] (g ++ g3)); [done|]. by eapply reads_trans.
  - intros [= <- <- <-]. exists g. split; [|done]. by apply (reads_trans s s1 s2 [] g).
Qed.

Lemma read_good now rs s s' r : live s ->
  rpc_read_from_socket zero_res read_status process_call now rs s = Done (s', r) ->
  exists gone, reads s s' gone /\ (r = 0 -> live s').
Proof.
  intros L. unfold rpc_read_from_socket. destruct (r_disabled s).
  { intros [= <- <-]. exists []. by split; [apply reads_refl|]. }
  assert (Hud : r_udp s = false) by (pose proof (lv_mode _ L) as Hm; unfold tcp_client, mode in Hm; congruence).
  rewrite Hud. destruct (read_loop _ _ _ _ _ _ _) as [[[s1 r1] rs1]| |] eqn:E; [|done|done].
  intros [= -> ->]. by eapply loop_good.
Qed.


End read_account.

(** ** Instances *)

(** The reply to the first call followed by a record with a bad size. *)
Definition hostile : list rres := [RData (reply5 ++ be32 (2 ^ 31 + 3) ++ be32 6)].

Lemma live_waiting : live waiting.
Proof. apply liveb_ok. vm_compute. reflexivity. Qed.

Definition reading_result (o : outcome (rpc Z * Z)) : option Z :=
  match o with Done (_, r) => Some r | _ => None end.

