(* ===== verification/System.v ===== *)
(** * System: a client over its life

    The operations composed: a client queues calls and its service loop runs,
    with whatever the network, the server, the clock and the kernel do.  In
    every context that can be reached each call has had at most one callback,
    calls that are still held had none, and none was lost. *)

From S2P Require Import Prelude Zdr RpcMsg Cursor Queue RpcState Context Send SendProps Recv RecvProps.
From S2P Require Import Account Purge Service Requeue Timeout Dispatch ReadAccount.

Section system.
Context {R : Type} (zero_res : R) (read_status : R -> Z)
  (process_call : ZDR -> rpc R -> option (rpc R * Z)).
Implicit Types (s : rpc R) (p q : id) (x : pdu R).

(** ** Writing keeps the rest of the context *)

(** What writing does not touch. *)
Definition frame s : (bool * bool * bool) * (Z * Z) * id * input_state * Z * option rbuf :=
  (mode s, timing s, r_next_id s, r_state s, r_inpos s, r_buf s).

Definition no_new s s' : Prop := forall q, get_pdu s q = None -> get_pdu s' q = None.

Lemma no_new_put s p x y : get_pdu s p = Some y -> no_new s (put_pdu p x s).
Proof. intros Hy q Hq. rewrite get_put. case_bool_decide; [congruence|done]. Qed.

Lemma frame_refl s : frame s = frame s /\ no_new s s.
Proof. split; [done|]. by intros q. Qed.

Lemma complete_frame l : forall count s s' b, complete l count s = Some (s', b) -> frame s' = frame s /\ no_new s s'.
Proof.
  induction l as [|p l IH]; intros count s s' b; cbn [complete]; (destruct (_ <=? 0); [intros [= <- <-]; apply frame_refl|]);
    [intros [= <- <-]; apply frame_refl|].
  destruct (get_pdu s p) as [x|] eqn:Hx; cbn [mbind option_bind]; [|done].
  destruct (_ <=? count).
  2: { intros [= <- <-]. split; [done|]. by eapply no_new_put. }
  set (s1 := inc_req_sent _). assert (H1 : no_new s s1) by exact (no_new_put s p _ x Hx).
  destruct (p_discard x).
  - unfold rpc_free_pdu. destruct (get_pdu s1 p); cbn [mbind option_bind]; [|done]. intros [= <- <-].
    split; [done|]. intros q Hq. unfold get_pdu, log. cbn. apply lookup_delete_None. right. exact (H1 q Hq).
  - unfold upd_bucket. destruct (r_waitpdu s1 !! _); cbn [mbind option_bind]; [|done].
    intros E. destruct (IH _ _ _ _ E) as [E2 H2]. split; [by rewrite E2|]. intros q Hq. apply H2. exact (H1 q Hq).
Qed.

Lemma write_loop_frame ws : forall n s s' r, write_loop ws n s = Some (s', r) -> frame s' = frame s /\ no_new s s'.
Proof.
  induction ws as [|a ws IH]; intros n s s' r; cbn [write_loop];
    (destruct (negb _); [intros [= <- <-]; apply frame_refl|]);
    (destruct (r_outqueue s) as [|p l]; [intros [= <- <-]; apply frame_refl|]);
    (destruct (get_pdu s p) as [x|]; cbn [mbind option_bind]; [|done]);
    (destruct (_ && _); [|done]);
    (destruct (fill_pdus _ _ _ _ _ _) as [iov|]; cbn [mbind option_bind]; [|done]);
    (destruct (bool_decide (iov = [])); [done|]).
  - intros [= <- <-]; apply frame_refl.
  - destruct a as [m| |]; [|intros [= <- <-]; apply frame_refl|intros [= <- <-]; apply frame_refl].
    destruct (complete _ _ _) as [[s1 b]|] eqn:E; cbn [mbind option_bind]; [|done].
    apply complete_frame in E as [E1 H1]. destruct b.
    + intros [= <- <-]. by split.
    + intros E2. apply IH in E2 as [E2 H2]. split; [by rewrite E2|]. intros q Hq. apply H2, H1, Hq.
Qed.

Lemma write_frame ws s s' r : rpc_write_to_socket ws s = Some (s', r) -> frame s' = frame s /\ no_new s s'.
Proof.
  unfold rpc_write_to_socket. destruct (r_disabled s); [intros [= <- <-]; apply frame_refl|].
  destruct (_ =? -1); [intros [= <- <-]; apply frame_refl|]. apply write_loop_frame.
Qed.

(** ** What a step keeps *)

Record keeps s s' (gone : list id) (r : Z) : Prop := {
  kp_account : account s s' gone;
  kp_clients : clients s';
  kp_live : r = 0 -> live s';
}.

Lemma keeps_after s s1 s2 g1 g2 r : account s s1 g1 -> keeps s1 s2 g2 r -> keeps s s2 (g1 ++ g2) r.
Proof. intros A [B C L]. split; [by eapply account_trans|done|done]. Qed.

Lemma no_discard_tcps s l : clients s -> no_discard s l.
Proof. intros C q x _ Hx. by eapply cp_discard, C. Qed.

Lemma write_keeps ws s : live s -> exists s' r, rpc_write_to_socket ws s = Some (s', r) /\
  account s s' [] /\ clients s' /\ live s' /\ r_trace s' = r_trace s.
Proof.
  intros L. pose proof (lv_pdus _ L) as C.
  destruct (write_to_socket_stream ws s (lv_wf _ L)) as (s' & r & E & W' & St); [by apply no_discard_tcps|].
  destruct (write_frame _ _ _ _ E) as [Ef Hn]. unfold frame in Ef. injection Ef as Em1 Em2 Em3 Eg1 Eg2 En Es Ei Eb.
  destruct St as (w & sent & _ & _ & Ho & Hw & Ht & Hp & Hs). exists s', r. split; [done|].
  assert (Hm : mode s' = mode s) by (unfold mode; congruence).
  assert (C' : clients s').
  { intros q x Hx. destruct (get_pdu s q) as [y|] eqn:Hy; [|by rewrite (Hn q Hy) in Hx].
    destruct (Hs q y Hy) as [k Hk]. rewrite Hk in Hx. injection Hx as <-.
    destruct (C q y Hy) as [? (? & ? & ?) ?]. by repeat split. }
  split; [|split; [done|split; [|done]]].
  - split; try done; [unfold timing; congruence| |].
    + unfold all_ids. rewrite Hw, Hp, Ho. solve_Permutation.
    + exists []. rewrite app_nil_r. split; [done|constructor].
  - split; try done.
    + unfold tcp_client. rewrite Hm. apply L.
    + pose proof (lv_read _ L) as Hr. unfold reader_ok in *. by rewrite Es, Hp.
    + rewrite Ei, Eb. apply (lv_buf _ L).
Qed.

(** ** Losing the connection *)

Lemma account_purged st s s' : wf s -> clients s -> purged_all st s s' ->
  account s s' (r_outqueue s ++ concat (r_waitpdu s)).
Proof. intros _ C P. by eapply purged_account. Qed.

Lemma taken_down_account s s' : taken_down s s' -> account s s' [].
Proof.
  intros Td. split; try apply Td; [rewrite (td_ids _ _ Td); symmetry; apply Td|].
  exists []. rewrite app_nil_r. split; [apply Td|constructor].
Qed.

Lemma error_all_keeps s s' : wf s -> clients s -> rpc_error_all_pdus s = Some s' ->
  exists gone, keeps s s' gone (-1).
Proof.
  intros W C E. destruct (purge_all_spec RPC_STATUS_ERROR s C (wf_queued_nodup s W) (fun p => wf_queued s p W))
    as (s1 & E1 & Pa). unfold rpc_error_all_pdus in E. rewrite E in E1. injection E1 as <-.
  eexists. split; [by eapply purged_account|apply Pa|done].
Qed.

Lemma live_down s s1 n f t : tcp_client s -> clients s -> taken_down s s1 -> live (reconnecting n f t s1).
Proof.
  intros Hm C Td. destruct (td_reader _ _ Td) as (E1 & E2 & E3 & _).
  split.
  - unfold tcp_client. rewrite <- Hm. exact (td_mode _ _ Td).
  - exact (pool_clients s s1 (td_pool _ _ Td) C).
  - apply wf_reconnecting, Td.
  - unfold reader_ok. change (r_state (reconnecting n f t s1)) with (r_state s1). rewrite E1. exact E3.
  - intros Hi. by destruct (Hi E2).
Qed.

Lemma requeue_keeps a s s' r : wf s -> clients s -> tcp_client s -> rpc_reconnect_requeue a s = Some (s', r) ->
  exists gone, keeps s s' gone r.
Proof.
  intros W C Hm. unfold rpc_reconnect_requeue. destruct (r_auto_reconnect s =? 0).
  { destruct (rpc_error_all_pdus s) as [s1|] eqn:E; cbn [mbind option_bind]; [|done]. intros [= <- <-].
    by apply error_all_keeps. }
  destruct (take_down_spec s W) as (s1 & -> & Td). cbn [mbind option_bind].
  pose proof (taken_down_account _ _ Td) as A1. pose proof (td_wf _ _ Td) as W1.
  pose proof (pool_clients s s1 (td_pool _ _ Td) C) as C1.
  assert (Herr : forall s2, wf s2 -> clients s2 -> account s1 s2 [] ->
    (s3 ← rpc_error_all_pdus s2; Some (s3, -1)) = Some (s', r) -> exists gone, keeps s s' gone r).
  { intros s2 W2 C2 A2. destruct (rpc_error_all_pdus s2) as [s3|] eqn:E; cbn [mbind option_bind]; [|done].
    intros [= <- <-]. destruct (error_all_keeps s2 s3 W2 C2 E) as [g Hg]. exists g.
    apply (keeps_after s s1 s3 [] g); [done|]. by apply (keeps_after s1 s2 s3 [] g). }
  destruct (_ || _); [|by apply Herr, account_refl].
  destruct (negb _); [done|].
  set (n := r_num_retries s1 - 1). set (s2 := set_r_connect_cb _ _).
  destruct (connect_fd a s2) as (f & r1 & -> & _).
  assert (Hq : forall t, account s1 (reconnecting n f t s1) []) by (intros t; by apply account_quiet).
  destruct (negb (r1 =? 0)).
  - apply Herr; [exact (wf_reconnecting n f (r_stats s1) s1 W1)|exact C1|exact (Hq (r_stats s1))].
  - intros [= <- <-]. set (t := r_stats (inc_reconnects (set_r_fd f s2))).
    change (inc_reconnects (set_r_fd f s2)) with (reconnecting n f t s1).
    exists []. split; [by apply (account_trans s s1 _ [] [])|exact C1|]. intros _. by apply (live_down s).
Qed.
(** ** The service loop *)

Lemma live_again s s' : live s -> wf s' -> clients s' -> mode s' = mode s -> r_state s' = r_state s ->
  r_inpos s' = r_inpos s -> r_buf s' = r_buf s -> r_pdu s' = r_pdu s -> live s'.
Proof.
  intros L W C Em Es Ei Eb Ep. split; try done.
  - unfold tcp_client. rewrite Em. apply L.
  - pose proof (lv_read _ L) as Hr. unfold reader_ok in *. by rewrite Es, Ep.
  - rewrite Ei, Eb. apply (lv_buf _ L).
Qed.

Lemma scan_keeps t s : live s -> timeouts_fit s -> exists s' r gone, rpc_timeout_scan t s = Some (s', r) /\
  account s s' gone /\ clients s' /\ live s'.
Proof.
  intros L Hf. destruct (t <=? u64 (r_last_scan s + 1000)) eqn:E.
  { exists s, 0, []. unfold rpc_timeout_scan. rewrite E. split; [done|]. split; [apply account_refl|]. by split; [apply L|]. }
  assert (Ht : scan_time t s) by (unfold scan_time; lia).
  destruct (scan_spec t s (lv_wf _ L) (lv_pdus _ L) Hf Ht) as (M & st & o & n & T & W & E2 & W' & C' & HT & Hids & _).
  set (s' := swept M st o T W n (set_r_last_scan t s)) in *.
  exists s', (if reports t s then -1 else 0), (timed_out t s). split; [exact E2|]. split; [|split; [done|]].
  - split; try done. eexists. split; [exact HT|]. apply farewell_settled.
  - by apply (live_again s).
Qed.

(** The callback of a connection, and what it leads to. *)
Lemma connect_cb_keeps a st s s' r0 : live s -> (st = RPC_STATUS_SUCCESS \/ r0 <> 0) ->
  maybe_call_connect_cb a st s = Some s' -> exists gone, keeps s s' gone r0.
Proof.
  intros L Hst. unfold maybe_call_connect_cb.
  set (s1 := set_r_connect_cb None s).
  assert (A1 : account s s1 []) by by apply account_quiet.
  assert (L1 : live s1) by (apply (live_again s); try done; [by destruct (lv_wf _ L)|apply L]).
  destruct (r_connect_cb s) as [[]|].
  - intros [= <-]. exists []. split; [split; try done| |].
    + eexists. split; [reflexivity|]. repeat constructor.
    + apply L.
    + intros _. apply (live_again s); try done; [by destruct (lv_wf _ L)|apply L].
  - unfold reconnect_cb. destruct (st =? RPC_STATUS_SUCCESS) eqn:Es; cbn [negb].
    + intros [= <-]. exists []. split; [by apply account_quiet|apply L|].
      intros _. apply (live_again s); try done; [by destruct (lv_wf _ L)|apply L].
    + destruct (rpc_reconnect_requeue a s1) as [[s2 r2]|] eqn:E; cbn [mbind option_bind]; [|done]. intros [= <-].
      destruct (requeue_keeps a s1 s2 r2 (lv_wf _ L1) (lv_pdus _ L1) (lv_mode _ L1) E) as [g [A2 C2 _]].
      exists g. split; [by apply (account_trans s s1 s2 [] g)|done|]. intros Hr. destruct Hst; lia.
  - intros [= <-]. exists []. split; [apply account_refl|apply L|done].
Qed.

Lemma reads_requeue a s s1 g s' r : live s -> reads s s1 g -> rpc_reconnect_requeue a s1 = Some (s', r) ->
  exists gone, keeps s s' gone r.
Proof.
  intros L [A W C] E. assert (Hm : tcp_client s1) by (unfold tcp_client; rewrite (ac_mode _ _ _ A); apply L).
  destruct (requeue_keeps a s1 s' r W C Hm E) as [g2 K]. exists (g ++ g2). by eapply keeps_after.
Qed.

Lemma service_write_keeps io rev s s' r : live s -> service_write io rev s = Done (s', r) ->
  exists gone, keeps s s' gone r.
Proof.
  intros L. unfold service_write. pose proof (tcp_client_server _ (lv_mode _ L)) as Hsrv.
  destruct (_ && _).
  2: { intros [= <- <-]. exists []. split; [apply account_refl|apply L|done]. }
  destruct (write_keeps (io_out io) s L) as (s1 & r1 & -> & A & C & L1 & _). destruct (r1 =? 0).
  - intros [= <- <-]. by exists [].
  - assert (Hs1 : r_server s1 = false) by exact (tcp_client_server _ (lv_mode _ L1)). rewrite Hs1. unfold done.
    destruct (rpc_reconnect_requeue _ s1) as [[s2 r2]|] eqn:E; [|by intros]. intros [= -> ->].
    apply (reads_requeue (io_attempt io) s s1 [] s' r); [done|by split; [..|apply L1|]|done].
Qed.

Lemma service_keeps io rev s s' r : live s -> timeouts_fit s ->
  rpc_service zero_res read_status process_call io rev s = Done (s', r) -> exists gone, keeps s s' gone r.
Proof.
  intros L Hf. unfold rpc_service.
  destruct (scan_keeps (io_now io) s L Hf) as (s1 & r1 & g1 & -> & A1 & C1 & L1).
  assert (Hpre : forall s2 r2, (exists g, keeps s1 s2 g r2) -> exists g, keeps s s2 g r2).
  { intros s2 r2 [g K]. exists (g1 ++ g). by eapply keeps_after. }
  assert (Hreq : forall o, done o = Done (s', r) -> (forall s2 r2, o = Some (s2, r2) -> exists g, keeps s1 s2 g r2) ->
    exists g, keeps s s' g r).
  { intros [[s2 r2]|]; cbn; [|done]. intros [= -> ->] H. by apply Hpre, H. }
  destruct (negb (r1 =? 0)).
  { intros E. apply (Hreq _ E). intros s2 r2. by apply requeue_keeps; [apply L1|apply L1|apply L1]. }
  destruct (_ || _).
  { destruct (negb _).
    - intros E. apply (Hreq _ E). intros s2 r2. by apply requeue_keeps; [apply L1|apply L1|apply L1].
    - intros E. apply (Hreq _ E). intros s2 r2.
      destruct (maybe_call_connect_cb _ _ s1) as [s3|] eqn:E3; cbn [mbind option_bind]; [|done]. intros [= <- <-].
      apply (connect_cb_keeps (io_attempt io) RPC_STATUS_ERROR s1); [done|right; lia|done]. }
  destruct (_ && _).
  { destruct (io_sockerr io).
    - intros E. apply (Hreq _ E). intros s2 r2.
      destruct (maybe_call_connect_cb _ _ s1) as [s3|] eqn:E3; cbn [mbind option_bind]; [|done]. intros [= <- <-].
      apply (connect_cb_keeps (io_attempt io) RPC_STATUS_ERROR s1); [done|right; lia|done].
    - intros E. apply (Hreq _ E). intros s2 r2.
      destruct (maybe_call_connect_cb _ _ _) as [s3|] eqn:E3; cbn [mbind option_bind]; [|done]. intros [= <- <-].
      set (s4 := set_r_connected true s1) in *.
      assert (L4 : live s4) by (apply (live_again s1); try done; by destruct (lv_wf _ L1)).
      destruct (connect_cb_keeps (io_attempt io) RPC_STATUS_SUCCESS s4 s3 0 L4) as [g K]; [by left|done|].
      exists g. apply (keeps_after s1 s4 s3 [] g); [by apply account_quiet|done]. }
  unfold service_read. destruct (polled rev POLLIN).
  - destruct (rpc_read_from_socket _ _ _ _ _ s1) as [[s2 r2]| |] eqn:E; [|done|done].
    destruct (read_good zero_res read_status process_call (io_now io) (io_in io) s1 s2 r2 L1 E) as (g & R2 & Hl).
    destruct (r2 =? 0) eqn:E2.
    + intros Ew. apply Hpre. destruct (service_write_keeps io rev s2 s' r) as [g2 K]; [apply Hl; lia|done|].
      exists (g ++ g2). eapply keeps_after; [apply R2|done].
    + assert (Hs2 : r_server s2 = false).
      { apply tcp_client_server. unfold tcp_client. rewrite (ac_mode _ _ _ (rd_account _ _ _ R2)). apply L1. }
      rewrite Hs2. intros E3. apply (Hreq _ E3). intros s3 r3 E4. by eapply reads_requeue.
  - intros E. apply Hpre. by apply service_write_keeps in E.
Qed.

(** ** Queueing a call *)

Lemma finish_client x x' n : finish_pdu x = Some (x', n) -> client_pdu x -> client_pdu x'.
Proof.
  unfold finish_pdu. destruct (_ >? _).
  - destruct (rpc_add_iovector _ _ _); cbn [mbind option_bind]; [|done]. by intros [= <- _] [? (? & ? & ?) ?].
  - cbn [mbind option_bind]. by intros [= <- _] [? (? & ? & ?) ?].
Qed.

(** The call [x], allocated as [p] with the arguments marshalled. *)
Definition issued p x s : rpc R := put_pdu p x (set_r_next_id (p + 1)%N s).

Lemma queue_keeps now ok ws s p x a hdr n :
  live s -> p = r_next_id s -> p ∉ all_ids s -> fresh x a hdr n -> client_pdu x -> timeouts_fit s ->
  is_u32 (1 + blen (all_ids s)) -> is_u64 (n + 4 + volume s (all_ids s)) ->
  exists s', rpc_queue_pdu now ok ws (issued p x s) p = Some (s', 0) /\ live s' /\
    r_trace s' = r_trace s /\ r_next_id s' = (p + 1)%N /\ timing s' = timing s /\ all_ids s' ≡ₚ p :: all_ids s.
Proof.
  intros L -> Hp Hf Hcx Hfit H32 H64. set (p := r_next_id s) in *. set (s0 := set_r_next_id (p + 1)%N s).
  assert (W0 : wf s0) by by destruct (lv_wf _ L).
  unfold rpc_queue_pdu, issued. fold s0. rewrite get_put_eq. cbn [mbind option_bind].
  destruct (set_timeout_ok (put_pdu p x s0) x now Hfit) as (x1 & Ht & Ha). rewrite Ht. cbn [mbind option_bind].
  destruct (pdu_set_timeout_fresh _ _ _ _ _ _ _ Ht Hf) as (Hf1 & _ & _ & _).
  destruct (finish_pdu_spec _ _ _ _ Hf1) as (x2 & E2 & Hk & Hnd & Htot & _). rewrite E2.
  assert (Hc2 : client_pdu x2) by (eapply finish_client; [exact E2|]; by apply Ha).
  set (s1 := put_pdu p x2 (put_pdu p x s0)).
  assert (Hud : r_udp s = false) by (pose proof (lv_mode _ L) as Hm; unfold tcp_client, mode in Hm; congruence).
  change (r_udp s1) with (r_udp s). rewrite Hud, Hnd. cbn [andb]. change (0 =? 0) with true. cbv iota.
  assert (W1 : wf s1) by (apply wf_put; [by apply wf_put|done]).
  assert (Hv : volume s1 (all_ids s1) = volume s (all_ids s)).
  { apply volume_eq. intros q Hq. unfold total_of, s1. rewrite !get_put_ne; [done|by intros ->..]. }
  destruct (wf_enqueue s1 p x2 W1 Hp) as [W2 _]; [apply get_put_eq|done|done|exact H32|by rewrite Hv, Htot|].
  set (s2 := set_r_outqueue (l_enqueue (r_outqueue s1) p) s1) in *.
  assert (Hids2 : all_ids s2 ≡ₚ p :: all_ids s).
  { unfold all_ids. cbn. unfold l_enqueue. solve_Permutation. }
  assert (C2 : clients s2).
  { apply (clients_put (put_pdu p x s0) p x2); [|done]. apply clients_put; [apply L|done]. }
  assert (L2 : live s2) by (by apply (live_again s)).
  case_bool_decide.
  - destruct (write_keeps ws s2 L2) as (s3 & r & -> & A & _ & L3 & T3). cbn [mbind option_bind].
    destruct A as [_ A2 A3 A4 _]. exists s3.
    split; [done|]. split; [done|]. split; [done|]. split; [done|]. split; [done|].
    by rewrite <- Hids2, A4.
  - exists s2. by repeat (split; [done|]).
Qed.

(** ** The life of a client *)

(** One operation of a client whose service loop has not failed: a call is
    made, the loop runs once, or the settings change. *)
Inductive step s : rpc R -> Prop :=
| step_call now ok ws x a hdr n s' :
    fresh x a hdr n -> client_pdu x -> is_u32 (1 + blen (all_ids s)) -> is_u64 (n + 4 + volume s (all_ids s)) ->
    rpc_queue_pdu now ok ws (issued (r_next_id s) x s) (r_next_id s) = Some (s', 0) -> step s s'
| step_service io rev s' :
    rpc_service zero_res read_status process_call io rev s = Done (s', 0) -> step s s'
| step_resiliency n t r :
    fits_int (t * r) = true -> step s (rpc_set_resiliency n t r s)
| step_limit l : step s (rpc_set_awaiting_limit l s)
| step_connect a resolved cb s' : rpc_connect_async a resolved cb s = (s', 0) -> step s s'.

(** The last operation: the loop fails, the client disconnects, or all PDUs are given up. *)
Inductive last_step s : rpc R -> Prop :=
| last_service io rev s' r :
    rpc_service zero_res read_status process_call io rev s = Done (s', r) -> last_step s s'
| last_disconnect a s' r : rpc_disconnect a s = Some (s', r) -> last_step s s'
| last_purge st s' : rpc_purge_all_pdus st s = Some s' -> last_step s s'.

(** The ids of the calls made so far. *)
Definition ids_below (p : id) : list id := map N.of_nat (seq 0 (N.to_nat p)).

Lemma ids_below_succ p : ids_below (p + 1)%N = ids_below p ++ [p].
Proof.
  unfold ids_below. rewrite N2Nat.inj_add. change (N.to_nat 1) with 1%nat.
  rewrite Nat.add_1_r, seq_S, map_app. cbn. by rewrite N2Nat.id.
Qed.

Lemma ids_below_elem p q : q ∈ ids_below p -> (q < p)%N.
Proof. intros (n & -> & Hn)%list_elem_of_fmap. apply elem_of_seq in Hn. lia. Qed.

(** The books: every call made is settled or held. *)
Definition books s : Prop :=
  exists fin, settled fin (r_trace s) /\ ids_below (r_next_id s) ≡ₚ fin ++ all_ids s.

Record inv s : Prop := { iv_live : live s; iv_fit : timeouts_fit s; iv_books : books s }.

Lemma books_account s s' g : books s -> account s s' g -> books s'.
Proof.
  intros (fin & Hs & Hids) [_ _ En Hi (evs & Et & He)]. exists (fin ++ g). split.
  - rewrite Et. by apply settled_app.
  - by rewrite En, Hids, Hi, <- app_assoc.
Qed.

Lemma fit_timing s s' : timing s' = timing s -> timeouts_fit s -> timeouts_fit s'.
Proof. unfold timing, timeouts_fit. by intros [= -> ->]. Qed.

Lemma inv_fresh s : inv s -> r_next_id s ∉ all_ids s.
Proof.
  intros [_ _ (fin & _ & Hids)] H. assert (Hin : r_next_id s ∈ ids_below (r_next_id s)) by (rewrite Hids; set_solver).
  apply ids_below_elem in Hin. lia.
Qed.

Lemma step_inv s s' : inv s -> step s s' -> inv s'.
Proof.
  intros I. pose proof (inv_fresh s I) as Hn. destruct I as [L F B]. intros St.
  destruct St as [now ok ws x a hdr n s' Hx Hc H32 H64 E|io rev s' E|n t r Hf|l|a resolved cb s' E].
  - destruct (queue_keeps now ok ws s (r_next_id s) x a hdr n L eq_refl Hn Hx Hc F H32 H64)
      as (s1 & E1 & L1 & T1 & N1 & G1 & I1).
    rewrite E in E1. injection E1 as <-. split; [done|by eapply fit_timing|].
    destruct B as (fin & Hs & Hids). exists fin. rewrite T1, N1, I1. split; [done|].
    rewrite ids_below_succ, Hids. solve_Permutation.
  - destruct (service_keeps io rev s s' 0 L F E) as [g [A _ Hl]].
    split; [by apply Hl|eapply fit_timing; [apply A|done]|by eapply books_account].
  - assert (Hsrv : r_server s = false) by exact (tcp_client_server _ (lv_mode _ L)).
    unfold rpc_set_resiliency. rewrite Hsrv. split; [|exact Hf|exact B].
    apply (live_again s); try done; [by destruct (lv_wf _ L)|apply L].
  - split; [|exact F|exact B]. apply (live_again s); try done; [by destruct (lv_wf _ L)|apply L].
  - unfold rpc_connect_async in E. destruct (r_server s); [done|]. destruct (negb (r_fd s =? -1)); [done|].
    destruct (r_udp s); [done|]. destruct resolved; cbn [negb] in E; [|done].
    destruct (connect_fd a (set_r_connect_cb (if cb then Some UserConnectCb else None) (set_r_auto_reconnect 0 s)))
      as (f & r & Ec & _). rewrite Ec in E. injection E as <- _.
    split; [|exact F|exact B]. apply (live_again s); try done; [by destruct (lv_wf _ L)|apply L].
Qed.

Lemma reach_inv s s' : inv s -> rtc step s s' -> inv s'.
Proof. intros I. induction 1; [done|]. eauto using step_inv. Qed.

Lemma purged_books st s s' : clients s -> books s -> purged_all st s s' -> books s'.
Proof. intros C B Pa. eapply books_account; [done|]. by eapply purged_account. Qed.

Lemma disconnect_books a s s' r : inv s -> rpc_disconnect a s = Some (s', r) -> books s'.
Proof.
  intros [L F B]. pose proof (tcp_client_server _ (lv_mode _ L)) as Hsrv. unfold rpc_disconnect.
  change (r_connected (set_r_fd (-1) s)) with (r_connected s). destruct (r_connected s); cbn [negb].
  2: { by intros [= <- _]. }
  unfold rpc_set_resiliency. change (r_server (set_r_fd (-1) s)) with (r_server s). rewrite Hsrv.
  set (s1 := set_r_connected false _). change (r_server s1) with (r_server s). rewrite Hsrv.
  assert (B1 : books s1) by exact B. assert (C1 : clients s1) by exact (lv_pdus _ L).
  unfold rpc_error_all_pdus. destruct (purge_all_spec RPC_STATUS_ERROR s1 C1 (wf_queued_nodup s (lv_wf _ L))
    (fun p => wf_queued s p (lv_wf _ L))) as (s2 & -> & Pa). cbn [mbind option_bind].
  pose proof (purged_books _ _ _ C1 B1 Pa) as B2. pose proof (pa_clients _ _ _ Pa) as C2.
  pose proof (pa_auto _ _ _ Pa) as E2. change (r_auto_reconnect s1) with 0 in E2.
  unfold maybe_call_connect_cb. destruct (r_connect_cb s2) as [[]|]; cbn [mbind option_bind].
  - intros [= <- _]. destruct B2 as (fin & Hs & Hids). exists fin. split; [|exact Hids].
    change (settled fin (r_trace s2 ++ [ConnectCb RPC_STATUS_CANCEL])). rewrite <- (app_nil_r fin).
    apply settled_app; [done|]. repeat constructor.
  - set (s3 := set_r_connect_cb None s2). unfold reconnect_cb. change (RPC_STATUS_CANCEL =? RPC_STATUS_SUCCESS) with false.
    cbn [negb]. unfold rpc_reconnect_requeue. change (r_auto_reconnect s3) with (r_auto_reconnect s2). rewrite E2.
    change (0 =? 0) with true. cbv iota. unfold rpc_error_all_pdus.
    assert (Hq : r_outqueue s3 ++ concat (r_waitpdu s3) = []).
    { change (r_outqueue s2 ++ concat (r_waitpdu s2) = []).
      by rewrite (pa_out _ _ _ Pa), (pa_wait _ _ _ Pa), concat_replicate_nil. }
    destruct (purge_all_spec RPC_STATUS_ERROR s3 C2) as (s4 & -> & Pa4).
    { rewrite Hq. apply NoDup_nil_2. }
    { rewrite Hq. by intros p ?%elem_of_nil. }
    cbn [mbind option_bind]. intros [= <- _]. exact (purged_books _ s3 _ C2 B2 Pa4).
  - by intros [= <- _].
Qed.

Lemma last_books s s' : inv s -> last_step s s' -> books s'.
Proof.
  intros I [io rev s1 r E|a s1 r E|st s1 E].
  - destruct I as [L F B]. destruct (service_keeps io rev s s1 r L F E) as [g [A _ _]]. by eapply books_account.
  - by eapply disconnect_books.
  - destruct I as [L F B].
    destruct (purge_all_spec st s (lv_pdus _ L) (wf_queued_nodup s (lv_wf _ L)) (fun p => wf_queued s p (lv_wf _ L)))
      as (s2 & E2 & Pa). rewrite E in E2. injection E2 as <-. by eapply purged_books; [apply L| |].
Qed.

(** ** What the books say *)

(** How often the callback of [p] was called, and how often it was released. *)
Fixpoint callbacks p (tr : list (event R)) : nat :=
  match tr with
  | [] => 0
  | Cb q _ _ :: tr => (if bool_decide (q = p) then 1 else 0) + callbacks p tr
  | _ :: tr => callbacks p tr
  end.

Fixpoint releases p (tr : list (event R)) : nat :=
  match tr with
  | [] => 0
  | Freed q :: tr => (if bool_decide (q = p) then 1 else 0) + releases p tr
  | _ :: tr => releases p tr
  end.

Lemma settled_counts fin tr p : settled fin tr -> NoDup fin ->
  callbacks p tr = (if bool_decide (p ∈ fin) then 1 else 0)%nat /\ releases p tr = callbacks p tr.
Proof.
  induction 1 as [|st l evs H IH|q st d l evs H IH]; intros Hn; [done|by apply IH|].
  apply NoDup_cons in Hn as [Hq Hn]. destruct (IH Hn) as [H1 H2]. cbn [callbacks releases]. rewrite H2, H1.
  split; [|done]. destruct (decide (q = p)) as [->|Hne].
  - rewrite (bool_decide_false (p ∈ l)) by done. rewrite (bool_decide_true (p ∈ p :: l)) by (by left).
    by rewrite (bool_decide_true (p = p)).
  - rewrite (bool_decide_false (q = p)) by done. cbn [Nat.add].
    by rewrite (bool_decide_ext (p ∈ l) (p ∈ q :: l)) by set_solver.
Qed.

(** Every call made is held and was not called back, or is gone and was called back and released
    once; nothing else was. *)
Definition ledger s : Prop := forall p,
  if bool_decide (p < r_next_id s)%N
  then (p ∈ all_ids s /\ callbacks p (r_trace s) = 0%nat /\ releases p (r_trace s) = 0%nat) \/
       (p ∉ all_ids s /\ callbacks p (r_trace s) = 1%nat /\ releases p (r_trace s) = 1%nat)
  else p ∉ all_ids s /\ callbacks p (r_trace s) = 0%nat /\ releases p (r_trace s) = 0%nat.

Lemma ids_below_nodup p : NoDup (ids_below p).
Proof. unfold ids_below. apply NoDup_fmap_2; [|apply NoDup_seq]. intros i j E. lia. Qed.

Lemma elem_ids_below p q : (q < p)%N -> q ∈ ids_below p.
Proof.
  intros H. unfold ids_below. apply list_elem_of_fmap. exists (N.to_nat q). split; [by rewrite N2Nat.id|].
  apply elem_of_seq. lia.
Qed.

Lemma books_ledger s : books s -> ledger s.
Proof.
  intros (fin & Hs & Hids) p. pose proof (ids_below_nodup (r_next_id s)) as Hn. rewrite Hids in Hn.
  apply NoDup_app in Hn as (Hn & Hd & _). destruct (settled_counts fin (r_trace s) p Hs Hn) as [H1 H2]. rewrite H2, H1.
  destruct (decide (p < r_next_id s)%N) as [Hp|Hp]; [rewrite (bool_decide_true (p < r_next_id s)%N) by done|
    rewrite (bool_decide_false (p < r_next_id s)%N) by done].
  - assert (Hin : p ∈ fin ++ all_ids s) by (rewrite <- Hids; by apply elem_ids_below).
    apply elem_of_app in Hin as [Hin|Hin].
    + right. split; [by apply Hd|]. by rewrite bool_decide_true.
    + left. split; [done|]. rewrite bool_decide_false; [done|]. intros Hf. by apply (Hd p Hf).
  - assert (Hout : p ∉ fin ++ all_ids s) by (rewrite <- Hids; intros H%ids_below_elem; lia).
    rewrite not_elem_of_app in Hout. destruct Hout as [Ho1 Ho2]. split; [done|]. by rewrite bool_decide_false.
Qed.

(** A new context. *)
Lemma init_inv m auth xid0 : inv (rpc_init_context m auth xid0).
Proof.
  set (s := rpc_init_context m auth xid0).
  assert (Hids : all_ids s = []) by done.
  split; [|done|].
  - split; [done| | |done|by intros []].
    + intros p x. unfold get_pdu. cbn. by rewrite lookup_empty.
    + split; rewrite ?Hids; try done; try apply NoDup_nil_2; try (intros p Hp; by apply elem_of_nil in Hp).
      * intros i l p Hi Hp. assert (l = []) as ->; [|by apply elem_of_nil in Hp].
        change (replicate 4 [] !! i = Some l) in Hi. by apply lookup_replicate in Hi as [-> _].
      * change (0 < 4)%nat. lia.
  - exists []. split; [constructor|done].
Qed.




End system.


(** ** Instances *)

Definition nobody : ZDR -> rpc Z -> option (rpc Z * Z) := fun _ _ => None.
Definition life : rpc Z -> rpc Z -> Prop := step 0 (fun _ => 0) nobody.
Definition new_client : rpc Z := rpc_init_context ∅ (mkAUTH root_cred _null_auth) 5.
Definition connecting : rpc Z := fst (rpc_connect_async good_attempt true true new_client).

(** A call made while the client connects. *)
Definition first_call : pdu Z := the_pdu queued2 1%N.

Definition queue_result (o : option (rpc Z * Z)) : bool :=
  match o with Some (s, r) => (r =? 0) && negb (is_some (r_pdu s)) && (r_next_id s =? 1)%N | None => false end.

Lemma one_call_made :
  exists s, rtc life new_client s /\ r_pdu s = None /\ r_next_id s = 1%N.
Proof.
  assert (Hc : life new_client connecting).
  { apply (step_connect _ _ _ _ good_attempt true true). vm_compute. reflexivity. }
  assert (H : queue_result (rpc_queue_pdu 100 true [] (issued (r_next_id connecting) first_call connecting)
    (r_next_id connecting)) = true) by (vm_compute; reflexivity).
  destruct (rpc_queue_pdu 100 true [] (issued (r_next_id connecting) first_call connecting) (r_next_id connecting))
    as [[s r]|] eqn:E; cbn [queue_result] in H; [|discriminate H].
  apply andb_true_iff in H as [H Hn]. apply andb_true_iff in H as [Hr Hp].
  apply Z.eqb_eq in Hr. apply N.eqb_eq in Hn. subst r. exists s. split; [|split; [by destruct (r_pdu s)|done]].
  apply (rtc_l _ _ connecting); [exact Hc|]. apply rtc_once.
  refine (step_call _ _ _ connecting 100 true [] first_call 9000 48 48 s fresh_pdu _ _ _ E).
  - apply client_pdub_ok. vm_compute. reflexivity.
  - split; vm_compute; [discriminate|reflexivity].
  - split; vm_compute; [discriminate|reflexivity].
Qed.



