(* ===== verification/Server.v ===== *)
(** * Server: answering calls (lib/pdu.c)

    A server context decodes the calls it reads, finds the procedure among its
    endpoints and queues one reply.  A handler of the user is a function of
    the context, the call and the arguments; it may queue a reply with
    [rpc_send_reply] or keep the call and answer later (what
    [rpc_copy_deferred_call] copies is a value here).

    malloc gives the address [malloc_at s], which may depend on the state, and
    what is sent at once is [writes s]. *)

From S2P Require Import Prelude Zdr RpcMsg Cursor Queue RpcState Context Send SendProps.

(** [struct _rpc_msg]: a call, with the arguments decoded. *)
Record deferred (A : Type) := mkDeferred { d_call : rpc_msg unit; d_args : option A }.
Arguments mkDeferred {A}. Arguments d_call {A}. Arguments d_args {A}.

(** The call view of the message after it has been decoded: when the message
    was a reply, [prog] and [proc] lie over padding or over the rejection. *)
Definition call_view {R} (b : msg_body R) : call_body :=
  match b with
  | CBody c => c
  | RBody r =>
      if stat r =? MSG_ACCEPTED then mkCall (stat r) 0 (oa_flavor (averf (areply r))) 0 _null_auth _null_auth
      else mkCall (stat r) 0 (rstat (rreply r))
             (if rstat (rreply r) =? RPC_MISMATCH then low (rmismatch (rreply r)) else rauth (rreply r))
             _null_auth _null_auth
  end.

(** [libnfs_zdr] of a reply that was only cleared: its [results.proc] is NULL. *)
Definition null_proc {T} : proc T := fun _ _ => UB.

Definition blank_reply {T} (r : T) : reply_body T :=
  mkReply 0 (mkAccepted _null_auth 0 r NULL (mkMismatch 0 0)) (mkRejected 0 (mkMismatch 0 0) 0).

Definition error_reply (err min_vers max_vers : Z) : reply_body unit :=
  mkReply MSG_ACCEPTED (mkAccepted _null_auth err tt NULL (mkMismatch (u32 min_vers) (u32 max_vers)))
    (mkRejected 0 (mkMismatch 0 0) 0).

Definition success_reply {T} (reply : T) : reply_body T :=
  mkReply MSG_ACCEPTED (mkAccepted _null_auth SUCCESS reply NULL (mkMismatch 0 0))
    (mkRejected 0 (mkMismatch 0 0) 0).

(** How the search of [rpc_process_call] over the endpoints ends. *)
Inductive route := NoProgram | NoVersion (lo hi : Z) | Found (e : endpoint).

Section server.
Context {R A : Type} (zero_args : A).
(** [decode_fn] and [func] of a procedure, by its [sp_handler]; the argument
    is NULL or points to a cleared block. *)
Context (decode_fn : nat -> proc (option A)).
Context (func : nat -> rpc R -> deferred A -> option (rpc R * Z)).
Context (malloc_at : rpc R -> Z) (now : Z) (send_ok : bool) (writes : rpc R -> list wres).
Implicit Types (s : rpc R) (p : id).

(** [rpc_allocate_reply_pdu] for the message [m]; the handle is told that it
    has [ZDR_ENCODEBUF_MINSIZE + alloc_hint] bytes, four more than there are
    after [outdata.data[4]]. *)
Definition rpc_allocate_reply_pdu {T} s (encode : proc T) (blank : reply_body T) (m : rpc_msg T)
    (alloc_hint : Z) : option (rpc R * option id) :=
  let addr := malloc_at s in
  v ← rpc_add_iovector (mkVecs 0 0 RPC_FAST_VECTORS []) addr 4;
  let size := ZDR_ENCODEBUF_MINSIZE + alloc_hint in
  match zdr_replymsg encode blank (zdrmem_create (zeros (size - 4)) size ZDR_ENCODE (fun _ => true)) m with
  | UB => None
  | Fls _ _ => Some (s, None)
  | Ret _ z =>
      v ← rpc_add_iovector v (addr + 4) (zdr_getpos z);
      let p := r_next_id s in
      let pdu := mkPdu 0 false z false false addr (zeros 4) v null_cursor 0 0 null_proc 0 None true
                   false 0 0 false in
      Some (put_pdu p pdu (set_r_next_id (p + 1)%N s), Some p)
  end.

(** The rest of [rpc_send_reply] and [rpc_send_error_reply]. *)
Definition send {T} s (encode : proc T) (m : rpc_msg T) (blank : reply_body T) (alloc_hint : Z)
    : option (rpc R * Z) :=
  '(s, found) ← rpc_allocate_reply_pdu s encode blank m alloc_hint;
  match found : option id with
  | None => Some (s, -1)
  | Some p => rpc_queue_pdu now send_ok (writes s) s p
  end.

Definition rpc_send_error_reply s (call : rpc_msg unit) (err min_vers max_vers : Z) : option (rpc R * Z) :=
  send s null_proc (mkMsg (xid call) REPLY (RBody (error_reply err min_vers max_vers))) (blank_reply tt) 0.

Definition rpc_send_reply {T} s (call : rpc_msg unit) (reply : T) (encode_fn : proc T) (alloc_hint : Z)
    : option (rpc R * Z) :=
  send s encode_fn (mkMsg (xid call) REPLY (RBody (success_reply reply))) (blank_reply reply) alloc_hint.

(** The loop over the endpoints, the newest first. *)
Fixpoint find_endpoint (prg vrs : Z) (l : list endpoint) (found : bool) (lo hi : Z) : route :=
  match l with
  | [] => if found then NoVersion lo hi else NoProgram
  | e :: l =>
      if prg =? u32 (ep_program e) then
        let v := ep_version e in
        let lo := if found then lo else v in
        let hi := if found then hi else v in
        let lo := if v <? lo then v else lo in
        let hi := if v >? hi then v else hi in
        if vrs =? u32 v then Found e else find_endpoint prg vrs l true lo hi
      else find_endpoint prg vrs l found lo hi
  end.

(** The loop over the procedures of an endpoint. *)
Fixpoint find_proc (prc : Z) (l : list service_proc) : option service_proc :=
  match l with
  | [] => None
  | q :: l => if u32 (sp_proc q) =? prc then Some q else find_proc prc l
  end.

(** The arguments are decoded and the procedure is called. *)
Definition call_proc s (z : ZDR) (call : rpc_msg unit) (q : service_proc) : option (rpc R * Z) :=
  '(z, args) ← (if sp_bufsize q =? 0 then Some (z, None)
                else z ← zdr_malloc z (u32 (sp_bufsize q)); Some (z, Some zero_args));
  match decode_fn (sp_handler q) z args with
  | UB => None
  | Fls _ _ => rpc_send_error_reply s call GARBAGE_ARGS 0 0
  | Ret args _ => func (sp_handler q) s (mkDeferred call args)
  end.

Definition rpc_process_call (z : ZDR) s : option (rpc R * Z) :=
  match zdr_callmsg null_proc (blank_reply tt) z (mkMsg 0 0 (CBody null_call)) with
  | UB => None
  | Fls m _ => rpc_send_error_reply s m GARBAGE_ARGS 0 0
  | Ret m z =>
      let c := call_view (body m) in
      match find_endpoint (prog c) (vers c) (r_endpoints s) false 0 0 with
      | NoProgram => rpc_send_error_reply s m PROG_UNAVAIL 0 0
      | NoVersion lo hi => rpc_send_error_reply s m PROG_MISMATCH lo hi
      | Found e =>
          match find_proc (proc_ c) (ep_procs e) with
          | None => rpc_send_error_reply s m PROC_UNAVAIL 0 0
          | Some q => call_proc s z m q
          end
      end
  end.
End server.
