(* ===== verification/ServerProps.v ===== *)
(** * ServerProps: what a server answers

    Every call that arrives whole is answered with one record: an error for a
    program, version or procedure that is not served or for arguments that do
    not decode, or what the handler of the procedure sends.  Calls that arrive
    together are answered in their order, and the replies complete the calls
    at the client. *)

From S2P Require Import Prelude Zdr RpcMsg Cursor Queue RpcState Context Send SendProps Recv RecvProps.
From S2P Require Import Record Dispatch Server.

(** A message that is only cleared cannot carry results. *)
#[export] Program Instance null_codec {T} : Codec (@null_proc T) := {
  wire _ := []; okv _ := False; blank _ _ := True; same _ _ _ := True
}.
Solve All Obligations with done.

Section answers.
Context {R A : Type} (zero_args : A).
Context (decode_fn : nat -> proc (option A)).
Context (func : nat -> rpc R -> deferred A -> option (rpc R * Z)).
Context (malloc_at : rpc R -> Z) (now : Z) (send_ok : bool) (writes : rpc R -> list wres).
Implicit Types (s : rpc R) (p : id) (x : pdu R) (e : endpoint).

#[local] Notation process_call := (rpc_process_call zero_args decode_fn func malloc_at now send_ok writes).
#[local] Notation call_proc := (call_proc zero_args decode_fn func malloc_at now send_ok writes).
#[local] Notation send_error := (rpc_send_error_reply malloc_at now send_ok writes).
#[local] Notation send_reply := (rpc_send_reply malloc_at now send_ok writes).

(** ** Preparing a reply *)

(** A PDU made for the reply [w], in a block at [a]. *)
Record reply_pdu (a : Z) (w : bytes) x : Prop := {
  rp_fresh : fresh x a (blen w) (blen w);
  rp_bytes : read_at 0 (blen w) (buf (p_zdr x)) = Some w;
  rp_discard : p_discard x = true;
  rp_copying : copying x;
}.

(** The context with the reply, which is not queued yet. *)
Definition with_reply x s : rpc R := put_pdu (r_next_id s) x (set_r_next_id (r_next_id s + 1)%N s).

(** The result [r] of handling a call is that the reply [w] was queued. *)
Definition answers_with s (w : bytes) (r : option (rpc R * Z)) : Prop :=
  exists x, reply_pdu (malloc_at s) w x /\
    r = rpc_queue_pdu now send_ok (writes (with_reply x s)) (with_reply x s) (r_next_id s).

Lemma blen_reply_wire {T} (pr : proc T) `{!Codec pr} k r : 12 <= blen (reply_wire pr k r).
Proof.
  unfold reply_wire. rewrite !blen_app, !blen_be32.
  pose proof (blen_nonneg (if stat r =? MSG_ACCEPTED then accepted_wire pr (areply r) else rejected_wire (rreply r))).
  lia.
Qed.

(** A reply that fits in the block, which is four bytes smaller than the
    handle is told, is encoded and queued. *)
Lemma send_answers {T} (pr : proc T) `{!Codec pr} s k (r blank : reply_body T) hint :
  is_u32 k -> reply_ok pr r -> 0 <= hint -> hint + ZDR_ENCODEBUF_MINSIZE + 16 <= INT_MAX ->
  blen (reply_wire pr k r) <= ZDR_ENCODEBUF_MINSIZE + hint - 4 ->
  answers_with s (reply_wire pr k r)
    (send malloc_at now send_ok writes s pr (mkMsg k REPLY (RBody r)) blank hint).
Proof.
  intros Hk Hr Hh Hi Hn. pose proof (blen_reply_wire pr k r) as Hpos. set (w := reply_wire pr k r) in *.
  unfold ZDR_ENCODEBUF_MINSIZE, INT_MAX in *. unfold send, rpc_allocate_reply_pdu.
  rewrite add_iovector_ok by (unfold niov, RPC_FAST_VECTORS; cbn; lia).
  cbn [mbind option_bind vecs app]. unfold ZDR_ENCODEBUF_MINSIZE. set (size := 4096 + hint).
  set (z := zdrmem_create (zeros (size - 4)) size ZDR_ENCODE (fun _ => true)).
  pose proof (reply_msg_wire pr blank k r Hr) as Hw. fold w in Hw.
  assert (Hroom : room z (blen (wire (libnfs_rpc_msg pr blank) (mkMsg k REPLY (RBody r))))).
  { rewrite Hw. unfold z, zdrmem_create. rewrite i32_id by (unfold size, is_i32; lia).
    split; cbn; unfold size; rewrite ?blen_zeros by lia; unfold INT_MAX; done || lia. }
  pose proof (codec_enc (p := libnfs_rpc_msg pr blank) z (mkMsg k REPLY (RBody r)) eq_refl
    (reply_msg_okv _ _ _ _ Hk Hr) Hroom) as E.
  rewrite Hw in E. unfold zdr_replymsg. rewrite E. clear E Hroom.
  set (z' := put z w).
  assert (Hgp : zdr_getpos z' = blen w).
  { unfold zdr_getpos, z', put, z, zdrmem_create; cbn. clear -Hn Hi Hpos. solve_width. }
  rewrite add_iovector_ok by (unfold niov, RPC_FAST_VECTORS; cbn; lia).
  cbn [mbind option_bind vecs app]. rewrite Hgp.
  assert (Hu : u64 (blen w) = blen w) by solve_width. rewrite Hu. change (u64 4) with 4.
  eexists. split; [|reflexivity]. split; [|cbn|done|done].
  - split; cbn -[RPC_MAX_VECTORS]; try done;
      first [by left | lia | unfold INT_MAX; lia | unfold RPC_FAST_VECTORS, RPC_MAX_VECTORS; lia].
  - apply has_at_read, splice_has; [cbn; lia|]. unfold z, zdrmem_create; cbn.
    rewrite blen_zeros by (unfold size; lia). unfold size. lia.
Qed.

Lemma error_reply_ok err lo hi : err <> SUCCESS -> is_u32 err -> reply_ok null_proc (error_reply err lo hi).
Proof.
  intros H1 H2. left. split; [done|]. split; [|split; [done|split; [done|]]].
  - split; [done|]. by exists [].
  - intros _. split; apply u32_range.
Qed.

Lemma error_reply_size k err lo hi : blen (reply_wire null_proc k (error_reply err lo hi)) <= 32.
Proof.
  unfold reply_wire, accepted_wire, auth_wire. cbn. rewrite !blen_app, !blen_be32.
  change (blen (wire_bytes 0 [])) with 4. destruct (err =? SUCCESS); [rewrite blen_nil; lia|].
  destruct (err =? PROG_MISMATCH); rewrite ?blen_app, ?blen_be32, ?blen_nil; lia.
Qed.

Lemma error_answers s (m : rpc_msg unit) err lo hi :
  is_u32 (xid m) -> err <> SUCCESS -> is_u32 err ->
  answers_with s (reply_wire null_proc (xid m) (error_reply err lo hi)) (send_error s m err lo hi).
Proof.
  intros Hx H1 H2. unfold rpc_send_error_reply. pose proof (error_reply_size (xid m) err lo hi).
  apply send_answers; [done|by apply error_reply_ok|lia|unfold ZDR_ENCODEBUF_MINSIZE, INT_MAX; lia|].
  unfold ZDR_ENCODEBUF_MINSIZE. lia.
Qed.

Lemma success_reply_ok {T} (pr : proc T) `{!Codec pr} (v : T) : okv pr v -> reply_ok pr (success_reply v).
Proof.
  intros Hv. left. split; [done|]. split; [|split; [done|by split]]. split; [done|]. by exists [].
Qed.

Lemma success_answers {T} (pr : proc T) `{!Codec pr} s (m : rpc_msg unit) (v : T) hint :
  is_u32 (xid m) -> okv pr v -> 0 <= hint -> hint + ZDR_ENCODEBUF_MINSIZE + 16 <= INT_MAX ->
  blen (reply_wire pr (xid m) (success_reply v)) <= ZDR_ENCODEBUF_MINSIZE + hint - 4 ->
  answers_with s (reply_wire pr (xid m) (success_reply v)) (send_reply s m v pr hint).
Proof.
  intros Hx Hv Hh Hi Hn. apply send_answers; try done. by apply success_reply_ok.
Qed.
(** ** Finding the procedure *)

Definition has_program (prg : Z) e : Prop := u32 (ep_program e) = prg.
Definition has_version (vrs : Z) e : Prop := u32 (ep_version e) = vrs.

(** What the search over the endpoints promises: the newest endpoint of the
    program and version, else the range of the versions of the program. *)
Inductive routed (prg vrs : Z) (eps : list endpoint) : route -> Prop :=
| routed_program :
    (forall e, e ∈ eps -> ~ has_program prg e) -> routed prg vrs eps NoProgram
| routed_version e1 e2 :
    e1 ∈ eps -> has_program prg e1 -> e2 ∈ eps -> has_program prg e2 ->
    (forall e, e ∈ eps -> has_program prg e ->
       ~ has_version vrs e /\ ep_version e1 <= ep_version e <= ep_version e2) ->
    routed prg vrs eps (NoVersion (ep_version e1) (ep_version e2))
| routed_found l1 e l2 :
    eps = l1 ++ e :: l2 -> has_program prg e -> has_version vrs e ->
    (forall e', e' ∈ l1 -> ~ (has_program prg e' /\ has_version vrs e')) ->
    routed prg vrs eps (Found e).

(** The endpoints [seen] so far: none of them is the one, and [lo] and [hi]
    are the bounds of their versions. *)
Record searched (prg vrs : Z) (seen : list endpoint) (found : bool) (lo hi : Z) : Prop := {
  se_version : forall e, e ∈ seen -> has_program prg e -> ~ has_version vrs e;
  se_none : found = false -> forall e, e ∈ seen -> ~ has_program prg e;
  se_some : found = true -> exists e1 e2, e1 ∈ seen /\ has_program prg e1 /\ ep_version e1 = lo /\
    e2 ∈ seen /\ has_program prg e2 /\ ep_version e2 = hi /\
    forall e, e ∈ seen -> has_program prg e -> lo <= ep_version e <= hi;
}.

Lemma searched_skip prg vrs seen found lo hi e :
  searched prg vrs seen found lo hi -> ~ has_program prg e -> searched prg vrs (seen ++ [e]) found lo hi.
Proof.
  intros [H1 H2 H3] He. split.
  - intros e' [?| ->%list_elem_of_singleton]%elem_of_app; auto.
  - intros Hf e' [?| ->%list_elem_of_singleton]%elem_of_app; [by apply H2|done].
  - intros Hf. destruct (H3 Hf) as (e1 & e2 & ? & ? & ? & ? & ? & ? & Hb). exists e1, e2.
    repeat (split; [first [done | apply elem_of_app; by left]|]).
    intros e' [?| ->%list_elem_of_singleton]%elem_of_app; auto; done.
Qed.

Lemma searched_more prg vrs seen (found : bool) lo hi e :
  searched prg vrs seen found lo hi -> has_program prg e -> ~ has_version vrs e ->
  let v := ep_version e in
  let lo := if found then lo else v in
  let hi := if found then hi else v in
  searched prg vrs (seen ++ [e]) true (if v <? lo then v else lo) (if v >? hi then v else hi).
Proof.
  intros [H1 H2 H3] He Hv v lo' hi'. split; [|done|intros _].
  - intros e' [?| ->%list_elem_of_singleton]%elem_of_app; auto.
  - assert (Hin : e ∈ seen ++ [e]) by (apply elem_of_app; right; by apply list_elem_of_singleton).
    destruct found.
    + destruct (H3 eq_refl) as (e1 & e2 & Hi1 & ? & E1 & Hi2 & ? & E2 & Hb). subst lo' hi'.
      exists (if v <? lo then e else e1), (if v >? hi then e else e2).
      assert (e1 ∈ seen ++ [e] /\ e2 ∈ seen ++ [e]) as [? ?] by (split; apply elem_of_app; by left).
      assert (Hb' : forall e', e' ∈ seen ++ [e] -> has_program prg e' ->
        (if v <? lo then v else lo) <= ep_version e' <= (if v >? hi then v else hi)).
      { intros e' [Hs|Hs%list_elem_of_singleton]%elem_of_app He'.
        - specialize (Hb e' Hs He'). destruct (v <? lo) eqn:?, (v >? hi) eqn:?; lia.
        - subst e'. fold v. specialize (Hb e1 Hi1). destruct (v <? lo) eqn:?, (v >? hi) eqn:?; lia. }
      destruct (v <? lo), (v >? hi); auto 10.
    + subst lo' hi'. replace (v <? v) with false by lia. replace (v >? v) with false by lia.
      exists e, e. repeat (split; [done|]).
      intros e' [Hs|Hs%list_elem_of_singleton]%elem_of_app He'; [by destruct (H2 eq_refl e')|].
      subst e'. fold v. lia.
Qed.

Lemma find_endpoint_routed prg vrs l : forall seen found lo hi,
  searched prg vrs seen found lo hi -> routed prg vrs (seen ++ l) (find_endpoint prg vrs l found lo hi).
Proof.
  induction l as [|e l IH]; intros seen found lo hi Hs; cbn [find_endpoint].
  - rewrite app_nil_r. destruct Hs as [H1 H2 H3]. destruct found; [|by constructor; apply H2].
    destruct (H3 eq_refl) as (e1 & e2 & ? & ? & <- & ? & ? & <- & Hb). constructor; try done.
    intros e He Hp. split; [by apply H1|by apply Hb].
  - replace (seen ++ e :: l) with ((seen ++ [e]) ++ l) by by rewrite <- app_assoc.
    destruct (prg =? u32 (ep_program e)) eqn:Ep; cbv zeta.
    + assert (He : has_program prg e) by (unfold has_program; lia).
      destruct (vrs =? u32 (ep_version e)) eqn:Ev.
      * rewrite <- app_assoc. apply (routed_found _ _ _ seen e l); [done|done|unfold has_version; lia|].
        intros e' He' [Hp Hv]. by apply (se_version _ _ _ _ _ _ Hs e').
      * apply IH, searched_more; [done|done|unfold has_version; lia].
    + apply IH, searched_skip; [done|unfold has_program; lia].
Qed.

Lemma first_unique {X} (P : X -> Prop) (l1 : list X) : forall l1' (e e' : X) l2 l2',
  l1 ++ e :: l2 = l1' ++ e' :: l2' -> P e -> P e' ->
  (forall y, y ∈ l1 -> ~ P y) -> (forall y, y ∈ l1' -> ~ P y) -> e = e'.
Proof.
  induction l1 as [|y l1 IH]; intros [|y' l1'] e e' l2 l2' E He He' H1 H2; cbn in E; injection E as Ex E.
  - done.
  - subst y'. exfalso. apply (H2 e); [left|done].
  - subst y. exfalso. apply (H1 e'); [left|done].
  - apply (IH l1' e e' l2 l2' E He He'); intros z Hz; [apply H1|apply H2]; by right.
Qed.

(** The promise leaves one way to route a call. *)
Lemma routed_unique prg vrs eps rt1 rt2 : routed prg vrs eps rt1 -> routed prg vrs eps rt2 -> rt1 = rt2.
Proof.
  intros [H1|e1 e2 I1 P1 I2 P2 B|l1 e l2 E P V F] [H1'|e1' e2' I1' P1' I2' P2' B'|l1' e' l2' E' P' V' F'].
  - done.
  - by destruct (H1 e1').
  - exfalso. apply (H1 e'); [rewrite E'; set_solver|done].
  - by destruct (H1' e1).
  - destruct (B _ I1' P1') as [_ ?], (B _ I2' P2') as [_ ?], (B' _ I1 P1) as [_ ?], (B' _ I2 P2) as [_ ?].
    f_equal; lia.
  - destruct (B e') as [Hv _]; [rewrite E'; set_solver|done|by destruct Hv].
  - exfalso. apply (H1' e); [rewrite E; set_solver|done].
  - destruct (B' e) as [Hv _]; [rewrite E; set_solver|done|by destruct Hv].
  - f_equal. rewrite E in E'.
    apply (first_unique (fun e => has_program prg e /\ has_version vrs e) _ _ _ _ _ _ E'); [done|done|exact F|exact F'].
Qed.

(** The range of versions in a PROG_MISMATCH starts from nothing. *)
Lemma search_starts prg vrs : searched prg vrs [] false 0 0.
Proof. split; [by intros e He%elem_of_nil|by intros _ e He%elem_of_nil|done]. Qed.

Lemma find_proc_first prc l q :
  find_proc prc l = Some q ->
  exists m1 m2, l = m1 ++ q :: m2 /\ u32 (sp_proc q) = prc /\ (forall q', q' ∈ m1 -> u32 (sp_proc q') <> prc).
Proof.
  induction l as [|q0 l IH]; cbn; [done|]. destruct (u32 (sp_proc q0) =? prc) eqn:E.
  - intros [= ->]. exists [], l. split; [done|]. split; [lia|]. by intros q' Hq%elem_of_nil.
  - intros (m1 & m2 & -> & ? & H)%IH. exists (q0 :: m1), m2. split; [done|]. split; [done|].
    intros q' [->|Hq]%elem_of_cons; [lia|by apply H].
Qed.

Lemma find_proc_none prc l : find_proc prc l = None -> forall q, q ∈ l -> u32 (sp_proc q) <> prc.
Proof.
  induction l as [|q0 l IH]; cbn; [by intros _ q Hq%elem_of_nil|].
  destruct (u32 (sp_proc q0) =? prc) eqn:E; [done|]. intros H q [->|Hq]%elem_of_cons; [lia|by apply IH].
Qed.

(** ** Dispatching a call *)

(** The call [c] with xid [k] is at the start of the [sz] bytes of [b]. *)
Record arrives (b : bytes) (sz k : Z) (c : call_body) : Prop := {
  ar_xid : is_u32 k;
  ar_call : call_ok c;
  ar_size : 0 <= sz <= blen b;
  ar_int : sz + 16 <= INT_MAX;
  ar_fit : blen (call_wire k c) <= sz;
  ar_bytes : has_at b 0 (call_wire k c);
}.

Definition decoder (b : bytes) (sz : Z) : ZDR := zdrmem_create b sz ZDR_DECODE (fun _ => true).

Lemma call_decodes b sz k c :
  arrives b sz k c ->
  exists c' m, zdr_callmsg null_proc (blank_reply tt) (decoder b sz) (mkMsg 0 0 (CBody null_call)) =
      Ret (mkMsg k CALL (CBody c')) (got (decoder b sz) (blen (call_wire k c)) m) /\ call_same b c c'.
Proof.
  intros [Hx Hc Hsz Hi Hw Hb]. pose proof (blen_nonneg (call_wire k c)).
  destruct (codec_dec (p := libnfs_rpc_msg null_proc (blank_reply tt)) (decoder b sz)
    (mkMsg k CALL (CBody c)) (mkMsg 0 0 (CBody null_call))) as (t' & m & E & Hs); try done.
  - by apply call_msg_okv.
  - rewrite call_msg_wire. unfold decoder, zdrmem_create. rewrite i32_id by solve_width. split; cbn; lia || done.
  - destruct Hs as ((x' & y' & b') & -> & Hx' & Hy' & Hc' & b0 & Hb').
    cbn in Hx', Hy', Hb'. subst x' y'. destruct b' as [c'|]; [|done].
    exists c', m. split; [exact E|]. by apply call_same_of.
Qed.

(** The sizes of the arguments of all procedures are sane. *)
Definition procs_ok (eps : list endpoint) : Prop :=
  forall e q, e ∈ eps -> q ∈ ep_procs e -> 0 <= sp_bufsize q <= INT_MAX - ZDR_MEM_HDR.

Definition first_args q : option A := if sp_bufsize q =? 0 then None else Some zero_args.

(** What happens to a call whose procedure is known. *)
Lemma call_proc_cases s b sz n m k c' q :
  0 <= sp_bufsize q <= INT_MAX - ZDR_MEM_HDR -> is_u32 k ->
  exists m', let z := got (decoder b sz) n m' in
    match decode_fn (sp_handler q) z (first_args q) with
    | UB => call_proc s (got (decoder b sz) n m) (mkMsg k CALL (CBody c')) q = None
    | Fls _ _ => answers_with s (reply_wire null_proc k (error_reply GARBAGE_ARGS 0 0))
                   (call_proc s (got (decoder b sz) n m) (mkMsg k CALL (CBody c')) q)
    | Ret args _ => call_proc s (got (decoder b sz) n m) (mkMsg k CALL (CBody c')) q =
                      func (sp_handler q) s (mkDeferred (mkMsg k CALL (CBody c')) args)
    end.
Proof.
  intros Hq Hk. unfold Server.call_proc, first_args. destruct (sp_bufsize q =? 0) eqn:E0.
  - exists m. cbn [mbind option_bind]. destruct (decode_fn _ _ _); [done| |done].
    apply (error_answers s (mkMsg k CALL (CBody c'))); done.
  - exists (u32 (sp_bufsize q) :: m). unfold ZDR_MEM_HDR, INT_MAX in Hq.
    assert (Hu : u32 (sp_bufsize q) = sp_bufsize q) by solve_width. rewrite Hu.
    rewrite malloc_small by (unfold ZDR_MEM_HDR, INT_MAX; lia || done).
    cbn [mbind option_bind]. change (set_mem (sp_bufsize q :: mem (got (decoder b sz) n m)) (got (decoder b sz) n m))
      with (got (decoder b sz) n (sp_bufsize q :: m)).
    destruct (decode_fn _ _ _); [done| |done].
    apply (error_answers s (mkMsg k CALL (CBody c'))); done.
Qed.

(** C32: what a server does with a call: the newest endpoint of the program and version handles it
    by the first procedure of that number, with the arguments that follow the header; what is not
    served is answered with the error RFC 5531 asks for, a PROG_MISMATCH with the lowest and the
    highest version served, and arguments that do not decode with GARBAGE_ARGS. *)
Theorem process_call_dispatches s b sz k c :
  arrives b sz k c -> procs_ok (r_endpoints s) ->
  let r := process_call (decoder b sz) s in
  let error err lo hi := answers_with s (reply_wire null_proc k (error_reply err lo hi)) r in
  exists rt, routed (prog c) (vers c) (r_endpoints s) rt /\
    match rt with
    | NoProgram => error PROG_UNAVAIL 0 0
    | NoVersion lo hi => error PROG_MISMATCH lo hi
    | Found e =>
        (forall q, q ∈ ep_procs e -> u32 (sp_proc q) <> proc_ c) /\ error PROC_UNAVAIL 0 0 \/
        exists m1 q m2 c' m, ep_procs e = m1 ++ q :: m2 /\ u32 (sp_proc q) = proc_ c /\
          (forall q', q' ∈ m1 -> u32 (sp_proc q') <> proc_ c) /\ call_same b c c' /\
          match decode_fn (sp_handler q) (got (decoder b sz) (blen (call_wire k c)) m) (first_args q) with
          | UB => r = None
          | Fls _ _ => error GARBAGE_ARGS 0 0
          | Ret args _ => r = func (sp_handler q) s (mkDeferred (mkMsg k CALL (CBody c')) args)
          end
    end.
Proof.
  intros Har Hok r error. pose proof (ar_xid _ _ _ _ Har) as Hk.
  exists (find_endpoint (prog c) (vers c) (r_endpoints s) false 0 0).
  pose proof (find_endpoint_routed (prog c) (vers c) (r_endpoints s) [] _ _ _ (search_starts _ _)) as Hrt.
  cbn [app] in Hrt. split; [done|].
  destruct (call_decodes b sz k c Har) as (c' & m & E & Hs).
  subst error r. cbv beta. unfold rpc_process_call. rewrite E. cbv zeta. cbn [body call_view].
  rewrite (same_prog _ _ _ Hs), (same_vers _ _ _ Hs), (same_proc _ _ _ Hs).
  destruct (find_endpoint _ _ _ _ _ _) as [|lo hi|e] eqn:Ef.
  - by apply (error_answers s (mkMsg k CALL (CBody c'))).
  - by apply (error_answers s (mkMsg k CALL (CBody c'))).
  - destruct (find_proc (proc_ c) (ep_procs e)) as [q|] eqn:Eq.
    + right. pose proof (find_proc_first _ _ _ Eq) as (m1 & m2 & Hm & Hp & Hfirst).
      inversion Hrt as [| |l1 e' l2 Heps]; subst e'.
      destruct (call_proc_cases s b sz (blen (call_wire k c)) m k c' q) as (m' & Hcase); [|done|].
      { apply (Hok e q); [rewrite Heps; set_solver|rewrite Hm; set_solver]. }
      exists m1, q, m2, c', m'. auto 10.
    + left. split; [by apply find_proc_none|]. by apply (error_answers s (mkMsg k CALL (CBody c'))).
Qed.


(** ** Queueing a reply *)

(** A TCP server whose queue holds replies. *)
Record serving s : Prop := {
  sv_tcp : tcp true s;
  sv_nodup : NoDup (r_outqueue s);
  sv_ok : forall p, p ∈ r_outqueue s -> exists x, get_pdu s p = Some x /\ sendable x /\ p_discard x = true;
  sv_next : forall p x, get_pdu s p = Some x -> (p < r_next_id s)%N;
  sv_timeout : fits_int (r_timeout s * r_retrans s) = true;
}.

(** The bytes [w] as a record that lies where [x] sends from. *)
Record carries x (w : bytes) : Prop := {
  ca_marker : p_marker x = be32 (last_fragment (blen w));
  ca_bytes : read_at 0 (blen w) (buf (p_zdr x)) = Some w;
  ca_addrs : addrs_of (vecs (p_out x)) = seqZ (p_data x) (blen w + 4);
}.

(** What queueing and writing leave alone. *)
Definition reader s :=
  (mode s, r_state s, r_inpos s, r_rmbuf s, r_pdu s, r_fragments s, r_inbuf s,
   (r_next_id s, r_endpoints s, r_timeout s, r_retrans s, r_waitpdu s)).

(** Some of the reply [p], the only one that is queued, has been sent, or all of
    it and it is released. *)
Record partly_sent p x s s' : Prop := {
  ps_reader : reader s' = reader s;
  ps_others : forall q, q <> p -> get_pdu s' q = get_pdu s q;
  ps_end : r_outqueue s' = [] /\ get_pdu s' p = None \/
    exists n, r_outqueue s' = [p] /\ get_pdu s' p = Some (with_done n x) /\ sendable (with_done n x);
}.

Lemma partly_sent_refl p x s : r_outqueue s = [p] -> get_pdu s p = Some x -> sendable x -> partly_sent p x s s.
Proof.
  intros Ho Hx Hs. split; [done|done|]. right. exists (num_done (p_out x)). split; [done|].
  assert (with_done (num_done (p_out x)) x = x) as ->; [|done].
  by destruct x as [? ? ? ? ? ? ? [] ? ? ? ? ? ? ? ? ? ? ?].
Qed.

(** [count] bytes of the reply have been written. *)
Lemma complete_one p x s count :
  r_outqueue s = [p] -> get_pdu s p = Some x -> sendable x -> p_discard x = true ->
  0 <= count <= blen (unsent s p) ->
  exists s' (f : bool), complete [p] count s = Some (s', f) /\ r_wire s' = r_wire s /\
    pending s' (r_outqueue s') = drop (Z.to_nat count) (unsent s p) /\ partly_sent p x s s'.
Proof.
  intros Eo Hx [Hk Hlt] Hd Hc. pose proof (unsent_blen s p x Hx Hk) as Hu.
  unfold total_of, done_of in Hu. rewrite Hx in Hu. cbn in Hu.
  pose proof (po_done _ Hk). pose proof (po_fit _ Hk). cbn [complete]. destruct (count <=? 0) eqn:E0.
  { exists s, false. split; [done|]. split; [done|]. split; [|by apply partly_sent_refl].
    replace (Z.to_nat count) with 0%nat by lia. rewrite Eo, drop_0. unfold pending. cbn. by rewrite app_nil_r. }
  rewrite Hx. cbn [mbind option_bind]. rewrite u64_id by (unfold is_u64 in *; lia).
  destruct (_ <=? count) eqn:Er.
  - rewrite Hd. unfold rpc_free_pdu. change (get_pdu (inc_req_sent (set_r_outqueue [] ?a)) p) with (get_pdu a p).
    rewrite get_put_eq. cbn [mbind option_bind]. eexists _, true. split; [done|]. split; [done|]. split.
    + rewrite drop_ge by (unfold blen in *; lia). done.
    + split; [done| |left; split; [done|]].
      * intros q Hq. unfold get_pdu, log, put_pdu; cbn. by rewrite lookup_delete_ne, lookup_insert_ne by done.
      * unfold get_pdu, log, put_pdu; cbn. apply lookup_delete_eq.
  - rewrite u64_id by (unfold is_u64 in *; lia). cbn [mbind option_bind].
    change (set_p_out (set_num_done (num_done (p_out x) + count) (p_out x)) x)
      with (with_done (num_done (p_out x) + count) x). set (x' := with_done _ x).
    eexists _, false. split; [done|]. split; [done|]. split.
    + cbn. rewrite Eo. unfold pending; cbn. rewrite app_nil_r. unfold unsent. rewrite get_put_eq, Hx. cbn.
      unfold left_after. rewrite drop_drop. f_equal. lia.
    + split; [done|intros q Hq; by apply get_put_ne|]. right. exists (num_done (p_out x) + count).
      split; [done|]. split; [apply get_put_eq|]. split; [apply pdu_ok_done; [done|lia]|]. cbn. lia.
Qed.

(** The vectors that are written start with the rest of the reply. *)
Lemma fill_one p x s k :
  get_pdu s p = Some x -> sendable x -> (0 < k)%nat ->
  exists iov rest, fill_pdus k s [p] 0 [] None = Some iov /\ iov <> [] /\ unsent s p = addrs_of iov ++ rest.
Proof.
  intros Hx [Hk Hlt] Hi. pose proof (unsent_blen s p x Hx Hk) as Hu.
  unfold total_of, done_of in Hu. rewrite Hx in Hu. cbn in Hu.
  pose proof (po_done _ Hk). pose proof (po_fit _ Hk).
  assert (Hpe : pending s [p] = unsent s p) by (unfold pending; cbn; by rewrite app_nil_r).
  destruct (fill_pdus_spec k s [p] 0 [] None) as (iov & w & rr & Hf & A1 & A2 & A3); try done.
  - intros q Hq. apply list_elem_of_singleton in Hq as ->. exists x. split; [exact Hx|]. split; [exact Hk|exact Hlt].
  - rewrite Hpe. change (blen (addrs_of [])) with 0. unfold is_u64 in *. lia.
  - exists iov, rr. split; [done|]. split; [by apply A3|]. rewrite <- Hpe, A2. by rewrite A1.
Qed.

(** Writes while one reply is queued send the next bytes of it. *)
Lemma write_one ws p : forall iovcnt s x,
  r_outqueue s = [p] -> get_pdu s p = Some x -> sendable x -> p_discard x = true -> (0 < iovcnt)%nat ->
  exists s' r, write_loop ws iovcnt s = Some (s', r) /\ stream s' = stream s /\ partly_sent p x s s'.
Proof.
  induction ws as [|a ws IH]; intros iovcnt s x Eo Hx Hs Hd Hi; cbn [write_loop];
    (assert (Hstop : forall r : Z, exists s' (r' : Z), Some (s, r) = Some (s', r') /\ stream s' = stream s /\ partly_sent p x s s')
      by (intros r; exists s, r; split; [done|]; split; [done|]; by apply partly_sent_refl));
    (destruct (negb (may_wait s 0)); [by apply Hstop|]); rewrite Eo; rewrite Hx; cbn [mbind option_bind];
    (rewrite !bool_decide_true by apply Hs); cbn [andb];
    (assert (Hi' : (0 < iov_slots iovcnt (p_out x))%nat)
      by (unfold iov_slots, RPC_MAX_VECTORS in *; case_match; lia));
    destruct (fill_one p x s (iov_slots iovcnt (p_out x)) Hx Hs Hi') as (iov & rest & Hf & Hne & Hu);
    rewrite Hf; cbn [mbind option_bind]; (rewrite bool_decide_false by done).
  { by apply Hstop. }
  destruct a as [n| |]; [|by apply Hstop..].
  set (count := Z.max 0 (Z.min n (blen (addrs_of iov)))).
  assert (Hc : 0 <= count <= blen (addrs_of iov)) by (pose proof (blen_nonneg (addrs_of iov)); lia).
  set (s1 := set_r_wire _ s). change (r_outqueue s1) with (r_outqueue s). rewrite Eo.
  destruct (complete_one p x s1 count) as (s2 & f & E & Ew & Ep & P); try done.
  { change (unsent s1 p) with (unsent s p). rewrite Hu, blen_app. pose proof (blen_nonneg rest). lia. }
  rewrite E. cbn [mbind option_bind].
  assert (Hst : stream s2 = stream s).
  { unfold stream. rewrite Ew, Ep, Eo. change (unsent s1 p) with (unsent s p). cbn [r_wire set_r_wire s1].
    unfold pending; cbn. rewrite app_nil_r, Hu, <- app_assoc. f_equal.
    rewrite drop_app_le by (unfold blen in *; lia). by rewrite app_assoc, take_drop. }
  assert (P2 : partly_sent p x s s2) by by split; apply P.
  destruct f; [by exists s2, 0|]. destruct P as [Pr Po [(Eo2 & Hn)|(m & Eo2 & Hm & Hs2)]].
  - exists s2, 0. split; [|by split]. destruct ws; cbn [write_loop]; rewrite Eo2; by destruct (negb _).
  - destruct (IH (iov_slots iovcnt (p_out x)) s2 (with_done m x)) as (s3 & r & E3 & H3 & [Pr3 Po3 Pe3]); try done.
    exists s3, r. split; [exact E3|]. split; [congruence|]. split; [by rewrite Pr3, (ps_reader _ _ _ _ P2)| |done].
    intros q Hq. by rewrite Po3, (ps_others _ _ _ _ P2).
Qed.
Lemma finish_pdu_data x x' n : finish_pdu x = Some (x', n) -> p_data x' = p_data x.
Proof.
  unfold finish_pdu. destruct (_ >? _); [|by intros [= <- _]].
  destruct (rpc_add_iovector _ _ _); cbn; [|done]. by intros [= <- _].
Qed.

Lemma serving_sent p x s s' : serving s -> p_discard x = true -> get_pdu s p = Some x -> partly_sent p x s s' -> serving s'.
Proof.
  intros [Ht Hnd Hok Hnx Hto] Hd Hx [Hr Ho He]. unfold reader, mode in Hr. injection Hr as E1 E2 E3 _ _ _ _ _ _ En _ E4 E5 _.
  assert (Hn' : forall q y, get_pdu s' q = Some y -> (q < r_next_id s')%N).
  { intros q y Hq. rewrite En. destruct (decide (q = p)) as [->|Hne]; [by eapply Hnx|].
    rewrite Ho in Hq by done. by eapply Hnx. }
  split; [unfold tcp, mode in *; congruence| | |done|congruence].
  - destruct He as [[-> _]|(m & -> & _)]; [by apply NoDup_nil|by apply NoDup_singleton].
  - intros q. destruct He as [[-> _]|(m & -> & Hm & Hs)]; [by intros Hq%elem_of_nil|].
    intros ->%list_elem_of_singleton. by exists (with_done m x).
Qed.

(** Queueing a prepared reply appends one record to the outgoing stream. *)
Lemma reply_queued s x w a ws :
  serving s -> reply_pdu a w x ->
  exists s' y, rpc_queue_pdu now send_ok ws (with_reply x s) (r_next_id s) = Some (s', 0) /\
    serving s' /\ carries y w /\ p_data y = a /\ stream s' = stream s ++ addrs_of (vecs (p_out y)) /\
    reader s' = reader (with_reply x s).
Proof.
  intros [Ht Hnd Hok Hnx Hto] [Hf Hb Hd Hcp]. set (p := r_next_id s). set (s1 := with_reply x s).
  assert (Hp : p ∉ r_outqueue s).
  { intros Hp. destruct (Hok p Hp) as (y & Hy & _). apply Hnx in Hy. subst p. lia. }
  assert (Hx : get_pdu s1 p = Some x) by apply get_put_eq.
  unfold rpc_queue_pdu. rewrite Hx. cbn [mbind option_bind].
  assert (Hset : exists x1, pdu_set_timeout s1 x now = Some x1).
  { unfold pdu_set_timeout. change (r_timeout s1) with (r_timeout s). change (r_retrans s1) with (r_retrans s).
    rewrite Hto. repeat case_match; eauto. }
  destruct Hset as [x1 Hset]. rewrite Hset. cbn [mbind option_bind].
  destruct (pdu_set_timeout_fresh _ _ _ _ _ _ _ Hset Hf) as (Hf1 & _ & Hd1 & Hz1).
  destruct (finish_pdu_spec _ _ _ _ Hf1) as (x2 & Hfin & Hk & Hn2 & Htot & _ & Hd2 & Hadd & Hm & Hz2).
  pose proof (finish_pdu_data _ _ _ Hfin) as Hda. rewrite (fr_data _ _ _ _ Hf1) in Hda. rewrite Hfin.
  set (s2 := put_pdu p x2 s1). unfold tcp, mode in Ht. injection Ht as Hsrv Hudp Hdis.
  change (r_udp s2) with (r_udp s). rewrite Hudp, Hn2. cbn [andb]. change (0 =? 0) with true. cbv iota.
  change (r_outqueue s2) with (r_outqueue s). set (s3 := set_r_outqueue (l_enqueue (r_outqueue s) p) s2).
  assert (Hx2 : get_pdu s3 p = Some x2) by apply get_put_eq.
  assert (Hsend : sendable x2) by (split; [done|rewrite Hn2; apply Hk]).
  assert (Hdis2 : p_discard x2 = true) by congruence.
  assert (Hca : carries x2 w) by (split; [done|by rewrite Hz2, Hz1|by rewrite Hadd, Hda]).
  assert (Hg : forall q, q <> p -> get_pdu s3 q = get_pdu s q).
  { intros q Hq. change (get_pdu s3 q) with (get_pdu s2 q). subst s2. rewrite get_put_ne by done.
    subst s1. unfold with_reply. by rewrite get_put_ne. }
  assert (Hst : stream s3 = stream s ++ addrs_of (vecs (p_out x2))).
  { unfold stream. change (r_wire s3) with (r_wire s). rewrite <- app_assoc. f_equal.
    change (r_outqueue s3) with (r_outqueue s ++ [p]). unfold pending. rewrite map_app, concat_app. cbn.
    rewrite app_nil_r. f_equal.
    - apply pending_ext. intros q Hq. unfold unsent. rewrite Hg; [done|]. by intros ->.
    - unfold unsent. rewrite Hx2, Hn2. unfold left_after. apply drop_0. }
  assert (S3 : serving s3).
  { split; [unfold tcp, mode; cbn; congruence| | | |done].
    - change (NoDup (r_outqueue s ++ [p])). apply NoDup_app. split; [done|].
      split; [by intros q Hq ->%list_elem_of_singleton|by apply NoDup_singleton].
    - intros q [Hq| ->%list_elem_of_singleton]%elem_of_app; [|by exists x2].
      destruct (Hok q Hq) as (y & Hy & Hsy). exists y. by rewrite Hg by by intros ->.
    - intros q y. change (r_next_id s3) with (p + 1)%N. destruct (decide (q = p)) as [->|Hq]; [lia|].
      rewrite Hg by done. intros Hy%Hnx. fold p in Hy. lia. }
  case_bool_decide as Eh; [|by exists s3, x2].
  assert (Hq0 : r_outqueue s = []).
  { cbn in Eh. unfold l_enqueue in Eh. destruct (r_outqueue s) as [|y l]; [done|]. injection Eh as ->. set_solver. }
  assert (Ho3 : r_outqueue s3 = [p]) by by cbn; rewrite Hq0.
  unfold rpc_write_to_socket. change (r_disabled s3) with (r_disabled s). rewrite Hdis.
  destruct (r_fd s3 =? -1); [by exists s3, x2|].
  destruct (write_one ws p RPC_FAST_VECTORS s3 x2 Ho3 Hx2 Hsend Hdis2) as (s4 & r & -> & Hs4 & P);
    [unfold RPC_FAST_VECTORS; lia|].
  exists s4, x2. split; [done|]. split; [by eapply serving_sent|]. split; [done|]. split; [done|].
  split; [by rewrite Hs4|]. by rewrite (ps_reader _ _ _ _ P).
Qed.
(** ** What the reader asks of the handling of calls *)

Lemma calm_complete l : forall count s s' f, calm true s -> complete l count s = Some (s', f) -> calm true s'.
Proof.
  induction l as [|p l IH]; intros count s s' f Hc; cbn [complete]; (destruct (count <=? 0); [by intros [= <- _]|]).
  { by intros [= <- _]. }
  destruct (get_pdu s p) as [x|] eqn:Hx; cbn [mbind option_bind]; [|done].
  assert (Hput : forall n, calm true (put_pdu p (set_p_out (set_num_done n (p_out x)) x) s)).
  { intros n. apply calm_put; [done|]. destruct Hc as [_ Hz]. exact (Hz p x Hx). }
  destruct (_ <=? count).
  - set (s1 := inc_req_sent _). assert (H1 : calm true s1) by (eapply calm_pdus; [apply (Hput (total_size (p_out x)))|done|done]).
    destruct (p_discard x).
    + destruct (rpc_free_pdu s1 p) as [s2|] eqn:E; cbn; [|done]. intros [= <- _]. by eapply calm_free.
    + unfold upd_bucket. destruct (r_waitpdu s1 !! _); cbn [mbind option_bind]; [|done].
      apply IH. by eapply calm_pdus.
  - intros [= <- _]. apply Hput.
Qed.

Lemma calm_write ws : forall iovcnt s s' r, calm true s -> write_loop ws iovcnt s = Some (s', r) -> calm true s'.
Proof.
  induction ws as [|a ws IH]; intros iovcnt s s' r Hc; cbn [write_loop];
    (destruct (negb (may_wait s 0)); [by intros [= <- _]|]);
    (destruct (r_outqueue s) as [|p l] eqn:Eo; [by intros [= <- _]|]);
    (destruct (get_pdu s p) as [x|]; cbn [mbind option_bind]; [|done]);
    (destruct (_ && _); [|done]);
    (destruct (fill_pdus _ _ _ _ _ _) as [iov|]; cbn [mbind option_bind]; [|done]);
    (destruct (bool_decide (iov = [])); [done|]); [by intros [= <- _]|].
  destruct a; [|by intros [= <- _]..].
  destruct (complete _ _ _) as [[s1 f]|] eqn:E; cbn [mbind option_bind]; [|done].
  apply calm_complete in E; [|by eapply calm_pdus]. destruct f; [by intros [= <- _]|]. by apply IH.
Qed.

Lemma calm_queue nw ok ws s p s' r : calm true s -> rpc_queue_pdu nw ok ws s p = Some (s', r) -> calm true s'.
Proof.
  intros Hc. unfold rpc_queue_pdu. destruct (get_pdu s p) as [x|] eqn:Hx; cbn [mbind option_bind]; [|done].
  destruct (pdu_set_timeout s x nw) as [x1|] eqn:E1; cbn [mbind option_bind]; [|done].
  assert (Hc1 : copying x1).
  { destruct Hc as [_ Hz]. pose proof (Hz p x Hx) as Hcx. clear -E1 Hcx. unfold pdu_set_timeout in E1.
    repeat (case_match; simplify_eq; try done). }
  assert (Hu : r_udp s = false) by (destruct Hc as [Ht _]; unfold tcp, mode in Ht; congruence).
  destruct (finish_pdu x1) as [[x2 size]|] eqn:E2.
  - assert (Hc2 : copying x2).
    { unfold finish_pdu in E2. destruct (_ >? _); [|by simplify_eq/=].
      destruct (rpc_add_iovector _ _ _); [|done]. by simplify_eq/=. }
    assert (H2 : calm true (put_pdu p x2 s)) by by apply calm_put.
    cbv zeta. change (r_udp (put_pdu p x2 s)) with (r_udp s). rewrite Hu. cbn [andb].
    destruct (num_done (p_out x2) =? 0); [|done].
    set (s2 := set_r_outqueue _ _). assert (H3 : calm true s2) by by eapply calm_pdus.
    destruct (bool_decide _); [|by intros [= <- _]].
    unfold rpc_write_to_socket. destruct (r_disabled s2); [by intros [= <- _]|].
    destruct (r_fd s2 =? -1); [by intros [= <- _]|].
    destruct (write_loop ws _ s2) as [[s4 r4]|] eqn:E; cbn [mbind option_bind]; [|done].
    intros [= <- _]. by eapply calm_write.
  - destruct (rpc_free_pdu _ p) as [s1|] eqn:E; cbn [mbind option_bind]; [|done]. intros [= <- _].
    eapply calm_free; [|exact E]. by apply calm_put.
Qed.

Lemma calm_send {T} (pr : proc T) s m blank hint s' r :
  calm true s -> send malloc_at now send_ok writes s pr m blank hint = Some (s', r) -> calm true s'.
Proof.
  intros Hc. unfold send, rpc_allocate_reply_pdu.
  destruct (rpc_add_iovector _ _ _) as [v|]; cbn [mbind option_bind]; [|done].
  destruct (zdr_replymsg _ _ _ _) as [t z|t z|]; cbn [mbind option_bind]; [|by intros [= <- _]|done].
  destruct (rpc_add_iovector _ _ _) as [v'|]; cbn [mbind option_bind]; [|done].
  apply calm_queue. apply calm_put; [|done]. by eapply calm_pdus.
Qed.

Lemma send_reply_keeps {T} (pr : proc T) s m (v : T) hint s' r :
  calm true s -> send_reply s m v pr hint = Some (s', r) -> calm true s'.
Proof. apply calm_send. Qed.

(** The handlers of the user leave the context a TCP server's without
    zero-copy READs; those that only send a reply do. *)
Class HandlersKeep : Prop :=
  handlers_keep : forall h s d s' r, calm true s -> func h s d = Some (s', r) -> calm true s'.

#[export] Instance process_call_keeps : HandlersKeep -> Keeps true process_call.
Proof.
  intros Hh _ z s s' r Hc. unfold rpc_process_call.
  assert (He : forall m err lo hi, send_error s m err lo hi = Some (s', r) -> calm true s').
  { intros m err lo hi. by apply calm_send. }
  destruct (zdr_callmsg _ _ _ _) as [m z1|m z1|]; [|by apply He|done]. cbv zeta.
  destruct (find_endpoint _ _ _ _ _ _) as [| |e]; [by apply He..|].
  destruct (find_proc _ _) as [q|]; [|by apply He]. unfold Server.call_proc.
  destruct (if sp_bufsize q =? 0 then _ else _) as [[z2 args]|]; cbn [mbind option_bind]; [|done].
  destruct (decode_fn _ _ _); [by apply handlers_keep|by apply He|done].
Qed.

(** ** Procedures that are served *)

(** What a procedure promises to its callers: to the bytes [call] the server
    with the endpoints [eps] replies [w]. *)
Class Answers (eps : list endpoint) (call w : bytes) : Prop :=
  answers : forall s b, r_endpoints s = eps -> blen call <= blen b -> has_at b 0 call ->
    answers_with s w (process_call (decoder b (blen call)) s).


(** What happens to a call whose endpoint and procedure are known. *)
Lemma process_call_found s b sz k c e q :
  arrives b sz k c -> find_endpoint (prog c) (vers c) (r_endpoints s) false 0 0 = Found e ->
  find_proc (proc_ c) (ep_procs e) = Some q -> 0 <= sp_bufsize q <= INT_MAX - ZDR_MEM_HDR ->
  exists c' m, call_same b c c' /\
    match decode_fn (sp_handler q) (got (decoder b sz) (blen (call_wire k c)) m) (first_args q) with
    | UB => process_call (decoder b sz) s = None
    | Fls _ _ => answers_with s (reply_wire null_proc k (error_reply GARBAGE_ARGS 0 0)) (process_call (decoder b sz) s)
    | Ret args _ => process_call (decoder b sz) s = func (sp_handler q) s (mkDeferred (mkMsg k CALL (CBody c')) args)
    end.
Proof.
  intros Har He Hq Hsz. destruct (call_decodes b sz k c Har) as (c' & m & E & Hs).
  destruct (call_proc_cases s b sz (blen (call_wire k c)) m k c' q Hsz (ar_xid _ _ _ _ Har)) as (m' & Hcase).
  exists c', m'. split; [done|]. unfold rpc_process_call. rewrite E. cbv zeta. cbn [body call_view].
  rewrite (same_prog _ _ _ Hs), (same_vers _ _ _ Hs), (same_proc _ _ _ Hs), He, Hq. exact Hcase.
Qed.

Lemma call_wire_align k c : is_u32 k -> call_ok c -> blen (call_wire k c) mod 4 = 0.
Proof.
  intros Hk Hc. rewrite <- (call_msg_wire (@null_proc unit) (blank_reply tt) k c).
  apply codec_align. by apply call_msg_okv.
Qed.

(** A procedure whose arguments have a codec and whose handler sends the
    result [v] answers the call with [v]. *)
Lemma served_answers {T} (pr : proc T) `{!Codec pr} eps k c e q
    `{!Codec (decode_fn (sp_handler q))} args v hint :
  let call := call_wire k c ++ wire (decode_fn (sp_handler q)) args in
  is_u32 k -> call_ok c -> blen call <= NFS_MAX_REPLY ->
  find_endpoint (prog c) (vers c) eps false 0 0 = Found e -> find_proc (proc_ c) (ep_procs e) = Some q ->
  0 <= sp_bufsize q <= INT_MAX - ZDR_MEM_HDR ->
  okv (decode_fn (sp_handler q)) args -> blank (decode_fn (sp_handler q)) args (first_args q) ->
  (forall s b m args', same (decode_fn (sp_handler q)) b args args' ->
     func (sp_handler q) s (mkDeferred m args') = send_reply s m v pr hint) ->
  okv pr v -> 0 <= hint -> hint + ZDR_ENCODEBUF_MINSIZE + 16 <= INT_MAX ->
  blen (reply_wire pr k (success_reply v)) <= ZDR_ENCODEBUF_MINSIZE + hint - 4 ->
  Answers eps call (reply_wire pr k (success_reply v)).
Proof.
  intros call Hk Hc Hsz He Hq Hbs Hok Hbl Hfun Hv Hh Hi Hfit s b Heps Hb Hhas.
  unfold NFS_MAX_REPLY, NFS_MAX_XFER_SIZE in Hsz. pose proof (blen_nonneg (call_wire k c)) as Hc0.
  pose proof (blen_nonneg (wire (decode_fn (sp_handler q)) args)) as Hw0.
  assert (Hlen : blen call = blen (call_wire k c) + blen (wire (decode_fn (sp_handler q)) args)) by apply blen_app.
  apply has_at_app in Hhas as [Hh1 Hh2].
  assert (Har : arrives b (blen call) k c) by (split; try done; unfold INT_MAX; lia).
  destruct (process_call_found s b (blen call) k c e q Har) as (c' & m & Hs & Hcase); try done; [by rewrite Heps|].
  destruct (codec_dec (p := decode_fn (sp_handler q)) (got (decoder b (blen call)) (blen (call_wire k c)) m)
    args (first_args q)) as (args' & m' & E & Hsame); try done.
  { unfold got, decoder, zdrmem_create. rewrite i32_id by solve_width.
    split; cbn; try lia; try done; [by rewrite Z.add_0_l; apply call_wire_align|unfold INT_MAX; lia]. }
  rewrite E in Hcase. cbv iota in Hcase. rewrite Hcase, (Hfun s b _ args') by done.
  by apply (success_answers pr s (mkMsg k CALL (CBody c')) v hint).
Qed.

(** A call of a program that is not served is answered with the error. *)
Lemma unserved_answers eps k c rest :
  is_u32 k -> call_ok c -> blen (call_wire k c ++ rest) <= NFS_MAX_REPLY ->
  find_endpoint (prog c) (vers c) eps false 0 0 = NoProgram ->
  Answers eps (call_wire k c ++ rest) (reply_wire null_proc k (error_reply PROG_UNAVAIL 0 0)).
Proof.
  intros Hk Hc Hsz He s b Heps Hb Hhas. unfold NFS_MAX_REPLY, NFS_MAX_XFER_SIZE in Hsz.
  pose proof (blen_nonneg (call_wire k c)). pose proof (blen_nonneg rest). rewrite blen_app in *.
  apply has_at_app in Hhas as [Hh1 _].
  assert (Har : arrives b (blen (call_wire k c) + blen rest) k c) by (split; try done; unfold INT_MAX; lia).
  destruct (call_decodes _ _ _ _ Har) as (c' & m & E & Hs). unfold rpc_process_call. rewrite E. cbv zeta.
  cbn [body call_view]. rewrite (same_prog _ _ _ Hs), (same_vers _ _ _ Hs), Heps, He.
  by apply (error_answers s (mkMsg k CALL (CBody c'))).
Qed.

(** ** Reading calls *)

Section reading.
Context (zero_res : R) (read_status : R -> Z).
Context `{!HandlersKeep}.

#[local] Notation run := (run zero_res read_status process_call).
#[local] Notation read_done := (read_done zero_res read_status process_call).

(** [s'] differs from [s] in how far it has read. *)
Record same_server s s' : Prop := {
  ss_mode : mode s' = mode s;
  ss_pdus : r_pdus s' = r_pdus s;
  ss_out : r_outqueue s' = r_outqueue s;
  ss_wire : r_wire s' = r_wire s;
  ss_next : r_next_id s' = r_next_id s;
  ss_endpoints : r_endpoints s' = r_endpoints s;
  ss_timeout : r_timeout s' = r_timeout s;
  ss_retrans : r_retrans s' = r_retrans s;
}.

Lemma serving_same s s' : same_server s s' -> serving s -> serving s'.
Proof.
  intros [] [Ht Hnd Hok Hnx Hto]. split; [unfold tcp in *; congruence|congruence| | |congruence].
  - intros p. rewrite ss_out0. unfold get_pdu. rewrite ss_pdus0. apply Hok.
  - intros p x. unfold get_pdu. rewrite ss_pdus0, ss_next0. apply Hnx.
Qed.

Lemma stream_same s s' : same_server s s' -> stream s' = stream s.
Proof.
  intros []. unfold stream. rewrite ss_wire0, ss_out0. f_equal. apply pending_ext. intros p _.
  unfold unsent, get_pdu. by rewrite ss_pdus0.
Qed.

(** The marker of a call: the buffer is made large enough for it. *)
Lemma call_marker n k s b' b1 :
  r_server s = true -> r_inpos s = 0 -> 8 <= n <= MAX_FRAGMENT_SIZE -> is_u32 k ->
  adjust_inbuf (r_inbuf s) n = Some b' -> write_at 0 (be32 k) b' = Some b1 ->
  read_marker_done (got_marker (be32 (last_fragment n) ++ be32 k) s) =
    Some (Continue (started READ_PAYLOAD None b1 (marked n k s))).
Proof.
  intros Hsrv Hpos Hn Hk Ha Hw. unfold MAX_FRAGMENT_SIZE in Hn.
  pose proof (last_fragment_facts n ltac:(lia)) as (Hu & Hl1 & Hl2).
  set (h := be32 (last_fragment n) ++ be32 k). unfold read_marker_done.
  change (r_rmbuf (got_marker h s)) with h.
  change (read_at 0 4 h) with (Some (be32 (last_fragment n))).
  change (read_at 4 4 h) with (Some (be32 k)). cbn [mbind option_bind].
  rewrite !of_be32_be32, (u32_id (last_fragment n)), (u32_id k) by done.
  cbn [r_rm set_r_rm set_r_state]. replace (_ =? 0) with false by lia. rewrite Hl2.
  unfold MAX_FRAGMENT_SIZE. replace ((n <? 8) || _) with false by lia.
  subst h. fold (marked n k s). change (r_server (marked n k s)) with (r_server s). rewrite Hsrv.
  cbn [mbind option_bind]. change (r_inbuf (marked n k s)) with (r_inbuf s). change (r_rm (marked n k s)) with n.
  rewrite Ha. change (r_rmx (marked n k s)) with k. rewrite Hw. cbn [mbind option_bind].
  change (r_server (set_r_inpos 0 _)) with (r_server s). rewrite Hsrv. by destruct s.
Qed.

(** A call that has been read is handled; then the next marker is read. *)
Lemma call_done nw b n s s1 :
  r_server s = true -> r_state s = READ_PAYLOAD -> r_fragments s = [] -> r_inbuf s = b -> r_pdu_size s = n ->
  process_call (decoder b n) s = Some (s1, 0) -> r_pdu s1 = None -> r_fragments s1 = [] ->
  read_done nw s = Some (Continue (set_r_inpos 0 (set_r_state READ_RM s1))).
Proof.
  intros Hsrv Hst Hfr Hb Hsz E Hp1 Hf1. unfold Recv.read_done. rewrite Hst. unfold read_payload_done.
  rewrite Hfr, Hb, Hsz. assert (Hset : set_r_pdu_size n s = s) by (destruct s; cbn in *; by subst).
  rewrite Hset. unfold rpc_process_pdu. rewrite Hsrv. fold (decoder b n). rewrite E. cbn [mbind option_bind].
  change (negb (0 =? 0)) with false. cbv iota. rewrite Hp1. unfold payload_finished. rewrite Hf1.
  unfold rpc_finished_pdu. rewrite Hp1. cbn [mbind option_bind].
  change (r_pdu (set_r_inpos 0 (set_r_state READ_RM s1))) with (r_pdu s1). by rewrite Hp1.
Qed.

Lemma run_call nw k body s :
  let n := 4 + blen body in
  at_marker true s -> is_u32 k -> 8 <= n <= NFS_MAX_REPLY ->
  exists b sl, n <= blen b /\ blen b <= Z.max (blen (r_inbuf s)) n /\ has_at b 0 (be32 k ++ body) /\
    r_inbuf sl = b /\ r_pdu sl = None /\ r_fragments sl = [] /\ blen (r_rmbuf sl) = 8 /\ same_server s sl /\
    forall s1, process_call (decoder b n) sl = Some (s1, 0) -> r_pdu s1 = None -> r_fragments s1 = [] ->
      run nw [RData (be32 (last_fragment n) ++ be32 k ++ body)] s =
      run nw [] (set_r_inpos 0 (set_r_state READ_RM s1)).
Proof.
  intros n Hm Hk Hn. pose proof (am_plain _ _ Hm) as Hpl. pose proof (pl_tcp _ _ Hpl) as Ht.
  assert (Hsrv : r_server s = true) by by apply tcp_server.
  destruct (adjust_inbuf_ok (r_inbuf s) n) as (b' & Ha & Hb' & Hb2); [lia|].
  destruct (record_buffer n k body b') as (b1 & b2 & Hw1 & Hw2 & Hl1 & Hl2 & Hhas); [lia|lia|lia|].
  assert (Hmax : 8 <= n <= MAX_FRAGMENT_SIZE)
    by (unfold NFS_MAX_REPLY, NFS_MAX_XFER_SIZE, MAX_FRAGMENT_SIZE in *; lia).
  assert (Hne : body <> []) by (intros ->; unfold n in Hn; rewrite blen_nil in Hn; lia).
  set (st := started READ_PAYLOAD None b1 (marked n k s)). set (sl := loaded n b2 st).
  exists b2, sl. split; [lia|]. split; [lia|]. split; [done|]. split; [done|]. split; [done|].
  split; [apply (am_fragments _ _ Hm)|]. split; [done|]. split; [done|].
  intros s1 E Hp1 Hf1. rewrite app_assoc.
  rewrite (got_marker_turn zero_res read_status process_call true) by done.
  rewrite (call_marker n k s b' b1) by (done || apply Hm). fold st.
  assert (Hbp : plain true st).
  { split; [done|by apply Hpl| |done]. right. split; [by left|exact Hmax]. }
  unfold st. rewrite (started_turn zero_res read_status process_call true nw n READ_PAYLOAD None b1 body b2
    (marked n k s)); try done; try lia; [|by left].
  fold st. fold sl. rewrite (call_done nw b2 n sl s1); try done. apply (am_fragments _ _ Hm).
Qed.

(** ** Streams of calls *)

(** A call, after its xid, and the reply to it. *)
Record exchange := mkExchange { cx_xid : Z; cx_body : bytes; cx_reply : bytes }.

Definition cx_call (c : exchange) : bytes := be32 (cx_xid c) ++ cx_body c.

(** A record as it is sent. *)
Definition as_record (w : bytes) : bytes := be32 (last_fragment (blen w)) ++ w.

Record answerable (eps : list endpoint) (c : exchange) : Prop := {
  an_xid : is_u32 (cx_xid c);
  an_size : 8 <= blen (cx_call c) <= NFS_MAX_REPLY;
  an_answers : Answers eps (cx_call c) (cx_reply c);
}.

(** The addresses from which replies are sent. *)
Definition reply_addrs (l : list (pdu R)) : list Z := concat (map (fun y => addrs_of (vecs (p_out y))) l).

Lemma run_exchange nw c s :
  at_marker true s -> serving s -> answerable (r_endpoints s) c ->
  exists s' y, run nw [RData (as_record (cx_call c))] s = Done (s', 0) /\ at_marker true s' /\ serving s' /\
    carries y (cx_reply c) /\ stream s' = stream s ++ addrs_of (vecs (p_out y)) /\
    r_endpoints s' = r_endpoints s.
Proof.
  intros Hm Hs [Hk Hn Ha]. unfold as_record, cx_call in *. rewrite blen_app, blen_be32 in *.
  destruct (run_call nw (cx_xid c) (cx_body c) s Hm Hk Hn)
    as (b & sl & Hb & _ & Hhas & Hib & Hpd & Hfr & Hrm & Hsame & Hrun).
  pose proof (serving_same _ _ Hsame Hs) as Hsl.
  destruct (Ha sl b) as (x & Hx & E); [apply Hsame|by rewrite blen_app, blen_be32|done|].
  rewrite blen_app, blen_be32 in E.
  destruct (reply_queued sl x (cx_reply c) _ (writes (with_reply x sl)) Hsl Hx)
    as (s1 & y & Hq & Hs1 & Hca & Hda & Hst & Hrd).
  rewrite Hq in E. unfold reader in Hrd. injection Hrd as R1 R2 R3 _ _ Rm Rp Rf _ _ Re _ _ _.
  change (r_pdu (with_reply x sl)) with (r_pdu sl) in Rp.
  change (r_fragments (with_reply x sl)) with (r_fragments sl) in Rf.
  rewrite (Hrun s1 E) by congruence.
  assert (Hcl : calm true sl).
  { split; [apply Hsl|]. intros p y' Hy. unfold get_pdu in Hy. rewrite (ss_pdus _ _ Hsame) in Hy.
    by apply (pl_nzc _ _ (am_plain _ _ Hm) p). }
  pose proof (process_call_keeps _ eq_refl _ _ _ _ Hcl E) as [Hc1 Hz1].
  set (s2 := set_r_inpos 0 (set_r_state READ_RM s1)).
  assert (Hm2 : at_marker true s2).
  { split; [|done|done| |cbn; congruence|cbn; congruence].
    - split; [done|done|by left|done].
    - change (blen (r_rmbuf s1) = 8). by rewrite Rm. }
  destruct (run_at_start zero_res read_status process_call true nw s2 Hm2) as [E2 Hm3].
  exists (at_start s2), y. split; [done|]. split; [done|].
  assert (S2 : same_server s1 (at_start s2)) by done.
  split; [by eapply serving_same|]. split; [done|]. rewrite (stream_same _ _ S2), Hst, (stream_same _ _ Hsame).
  split; [done|]. change (r_endpoints s1 = r_endpoints s). rewrite Re. apply Hsame.
Qed.

Lemma run_exchanges nw cs : forall s,
  at_marker true s -> serving s -> Forall (answerable (r_endpoints s)) cs ->
  exists s' ys, run nw (map (fun c => RData (as_record (cx_call c))) cs) s = Done (s', 0) /\
    at_marker true s' /\ serving s' /\ Forall2 carries ys (map cx_reply cs) /\
    stream s' = stream s ++ reply_addrs ys.
Proof.
  induction cs as [|c cs IH]; intros s Hm Hs Hcs; cbn [map].
  { destruct (run_at_start zero_res read_status process_call true nw s Hm) as [E Hm'].
    exists (at_start s), []. assert (S : same_server s (at_start s)) by done.
    split; [done|]. split; [done|]. split; [by eapply serving_same|]. split; [constructor|].
    rewrite (stream_same _ _ S). unfold reply_addrs. cbn. by rewrite app_nil_r. }
  apply Forall_cons in Hcs as [Hc Hcs].
  destruct (run_exchange nw c s Hm Hs Hc) as (s1 & y & E & Hm1 & Hs1 & Hca & Hst & Hep).
  destruct (run_again zero_res read_status process_call true nw _ [RData (as_record (cx_call c))] s
    (map (fun c => RData (as_record (cx_call c))) cs) s1 (le_n _) (am_plain _ _ Hm)) as [E2 _];
    [by repeat constructor; eexists|exact E|].
  cbn [app] in E2. rewrite E2.
  destruct (IH s1 Hm1 Hs1) as (s' & ys & E' & Hm' & Hs' & Hcas & Hst'); [by rewrite Hep|].
  exists s', (y :: ys). split; [done|]. split; [done|]. split; [done|]. split; [by constructor|].
  rewrite Hst', Hst. unfold reply_addrs. cbn. by rewrite app_assoc.
Qed.

Lemma serve_chunks nw chunks cs s :
  at_marker true s -> serving s -> Forall (answerable (r_endpoints s)) cs ->
  Forall (fun c => c <> []) chunks -> concat chunks = concat (map (fun c => as_record (cx_call c)) cs) ->
  exists s' ys, rpc_read_from_socket zero_res read_status process_call nw (map RData chunks) s = Done (s', 0) /\
    at_marker true s' /\ serving s' /\ Forall2 carries ys (map cx_reply cs) /\
    stream s' = stream s ++ reply_addrs ys.
Proof.
  intros Hm Hs Hcs Hch Hcat. destruct (run_exchanges nw cs s) as (s' & ys & E & Hrest); try done.
  exists s', ys. split; [|done]. pose proof (am_plain _ _ Hm) as Hpl.
  rewrite (read_is_run zero_res read_status process_call true) by done.
  rewrite <- E, <- (map_map (fun c => as_record (cx_call c)) RData).
  apply (run_chunks zero_res read_status process_call true); [done|done| |done].
  apply Forall_forall. intros d (c & -> & _)%list_elem_of_fmap. unfold as_record.
  intros Hn. apply (f_equal blen) in Hn. rewrite blen_app, blen_be32, blen_nil in Hn.
  pose proof (blen_nonneg (cx_call c)). lia.
Qed.
(** ** From the client to the server and back *)

(** The bytes at the addresses a PDU is sent from. *)
Definition record_bytes x : bytes :=
  p_marker x ++ default [] (read_at 0 (blen (addrs_of (vecs (p_out x))) - 4) (buf (p_zdr x))).

Lemma carries_bytes x w : carries x w -> record_bytes x = as_record w.
Proof.
  intros [Hm Hb Ha]. unfold record_bytes, as_record. rewrite Hm, Ha. f_equal.
  pose proof (blen_nonneg w). unfold blen at 1. rewrite length_seqZ.
  replace (Z.of_nat (Z.to_nat (blen w + 4)) - 4) with (blen w) by lia. by rewrite Hb.
Qed.

Lemma carries_all ys ws : Forall2 carries ys ws -> map record_bytes ys = map as_record ws.
Proof. induction 1 as [|y w ys ws Hy _ IH]; cbn; [done|]. by rewrite IH, (carries_bytes y w). Qed.


(** A call on its way: the client's PDU with the reply it is going to get, and
    what follows the xid in the call. *)
Record trip := mkTrip { t_delivery : delivery (R := R); t_body : bytes }.

Definition t_exchange (t : trip) : exchange :=
  mkExchange (p_xid (d_pdu (t_delivery t))) (t_body t) (d_wire (t_delivery t)).

Definition t_pdu (t : trip) : pdu R := d_pdu (t_delivery t).

(** The client's PDU carries the call, the server answers it, and the client
    can be given the reply. *)
Record travels (eps : list endpoint) (cl : rpc R) (t : trip) : Prop := {
  tr_carries : carries (t_pdu t) (cx_call (t_exchange t));
  tr_answerable : answerable eps (t_exchange t);
  tr_deliverable : deliverable zero_res cl (t_delivery t);
}.

(** C11: from the client to the server and back. Calls that wait at a client, as the bytes of
    their PDUs arrive at a server in whatever segments, are answered in their order, one record
    for each after all that the server has to send; and these records, in whatever segments they
    arrive, complete the calls: each gets one callback with the reply the server made, and nothing
    else changes. *)
Theorem rpc_round_trip nw1 nw2 pc chunks cl sv (l : list trip) :
  at_marker false cl -> wf cl -> xids_differ cl -> blen (r_inbuf cl) <= INT_MAX ->
  NoDup (map (fun t => d_id (t_delivery t)) l) ->
  at_marker true sv -> serving sv -> Forall (travels (r_endpoints sv) cl) l ->
  Forall (fun c => c <> []) chunks -> concat chunks = concat (map (fun t => record_bytes (t_pdu t)) l) ->
  exists sv' ys, rpc_read_from_socket zero_res read_status process_call nw1 (map RData chunks) sv = Done (sv', 0) /\
    at_marker true sv' /\ serving sv' /\ stream sv' = stream sv ++ reply_addrs ys /\
    Forall2 carries ys (map (fun t => d_wire (t_delivery t)) l) /\
    forall chunks', Forall (fun c => c <> []) chunks' -> concat chunks' = concat (map record_bytes ys) ->
    exists cl' evs, rpc_read_from_socket zero_res read_status pc nw2 (map RData chunks') cl = Done (cl', 0) /\
      Forall2 delivered (map t_delivery l) evs /\ r_trace cl' = r_trace cl ++ concat evs /\
      at_marker false cl' /\ wf cl' /\ r_outqueue cl' = r_outqueue cl /\
      (forall q, q ∉ map (fun t => d_id (t_delivery t)) l -> get_pdu cl' q = get_pdu cl q).
Proof.
  intros Hm W Hx Hin Hnd Hms Hs Hl Hch Hcat.
  assert (Hcalls : map (fun t => record_bytes (t_pdu t)) l = map (fun c => as_record (cx_call c)) (map t_exchange l)).
  { rewrite map_map. apply map_ext_in. intros t Ht%list_elem_of_In. rewrite Forall_forall in Hl.
    by apply carries_bytes, (Hl t). }
  destruct (serve_chunks nw1 chunks (map t_exchange l) sv) as (sv' & ys & E & Hm' & Hs' & Hca & Hst); try done.
  { apply Forall_map. eapply Forall_impl; [exact Hl|]. by intros t []. } { by rewrite Hcat, Hcalls. }
  exists sv', ys. split; [done|]. split; [done|]. split; [done|]. split; [done|].
  split; [by rewrite map_map in Hca|]. intros chunks' Hch' Hcat'. rewrite (carries_all _ _ Hca) in Hcat'.
  assert (Hrecs : map as_record (map cx_reply (map t_exchange l)) = map d_record (map t_delivery l)).
  { rewrite !map_map. by apply map_ext. }
  rewrite Hrecs in Hcat'. rewrite <- map_map in Hnd.
  destruct (run_replies zero_res read_status pc nw2 (map t_delivery l) cl)
    as (cl' & evs & E2 & Hev & Ht & Hm2 & W2 & _ & Ho & Hg); try done.
  { apply Forall_map. eapply Forall_impl; [exact Hl|]. by intros t []. }
  exists cl', evs. split; [|by rewrite <- (map_map t_delivery d_id)].
  pose proof (am_plain _ _ Hm) as Hpl. rewrite (read_is_run zero_res read_status pc false) by done.
  rewrite <- E2, <- (map_map d_record RData).
  apply (run_chunks zero_res read_status pc false); [done|done| |done].
  apply Forall_forall. intros d (c & -> & _)%list_elem_of_fmap. done.
Qed.

End reading.

(** ** Where a server goes wrong *)

(** The part of an accepted reply that comes before the results. *)
Definition accepted_header (k : Z) : bytes :=
  be32 k ++ be32 REPLY ++ be32 MSG_ACCEPTED ++ be32 AUTH_NONE ++ be32 0 ++ be32 SUCCESS.

(** The decoder of calls does not check the direction of the message; for an
    accepted reply it calls the routine for the results, which is NULL. *)
Lemma reply_is_ub b sz k :
  is_u32 k -> 0 <= sz <= blen b -> sz + 16 <= INT_MAX -> 24 <= sz -> has_at b 0 (accepted_header k) ->
  zdr_callmsg null_proc (blank_reply tt) (decoder b sz) (mkMsg 0 0 (CBody null_call)) = UB.
Proof.
  intros Hk Hsz Hi Hmin Hb. change (blen (accepted_header k)) with 24 in Hmin.
  assert (Hr : reading (decoder b sz) (accepted_header k)).
  { split; [done| |done|done]. unfold decoder, zdrmem_create. rewrite i32_id by solve_width.
    change (blen (accepted_header k)) with 24. split; cbn; lia || done. }
  unfold zdr_callmsg, libnfs_rpc_msg, zdr_via; cbn [xid direction body]. unfold accepted_header in Hr.
  next_field. next_field.
  change (body_case null_proc (blank_reply tt) (u32 REPLY)) with
    (zdr_on (as_rbody (blank_reply tt)) (fun r _ => RBody r) (libnfs_rpc_reply_body (@null_proc unit))).
  unfold zdr_on, libnfs_rpc_reply_body, zdr_via; cbn [as_rbody stat].
  next_field.
  change (reply_case null_proc (u32 MSG_ACCEPTED)) with
    (zdr_on (@areply unit) set_areply (libnfs_accepted_reply null_proc)).
  unfold zdr_on, libnfs_accepted_reply, zdr_via. cbn [averf astat].
  match goal with H : reading _ _ |- _ => rename H into Hr end.
  change (be32 AUTH_NONE ++ be32 0 ++ be32 SUCCESS) with (wire zdr_auth (mkAuth 0 (Heap []) 0) ++ be32 SUCCESS) in Hr.
  destruct (reading_seq_codec libnfs_opaque_verf (zdr_dseq zdr_u_int (accepted_case (@null_proc unit)))
    _ (mkAuth 0 (Heap []) 0) (be32 SUCCESS) _null_auth (0, areply (blank_reply tt)) Hr)
    as (a' & z' & E & _ & Hz'); [by apply auth_okv; split; [|exists []]|done|].
  cbn in E. cbn. rewrite E. rewrite <- (app_nil_r (be32 SUCCESS)) in Hz'.
  destruct (reading_dseq (accepted_case (@null_proc unit)) z' SUCCESS [] 0 (areply (blank_reply tt)) Hz') as [E2 _].
  cbn in E2. by rewrite E2.
Qed.

(** Any peer can crash a server: when an accepted reply with status SUCCESS arrives where a
    call is expected, the server calls the routine for its results through a NULL pointer. *)
Theorem reply_crashes_server s b sz k :
  is_u32 k -> 0 <= sz <= blen b -> sz + 16 <= INT_MAX -> 24 <= sz -> has_at b 0 (accepted_header k) ->
  process_call (decoder b sz) s = None.
Proof. intros Hk Hsz Hi Hmin Hb. unfold rpc_process_call. by rewrite (reply_is_ub b sz k). Qed.

Lemma res_map_ub {T U} (f : T -> U) (r : res T) : res_map f r = UB <-> r = UB.
Proof. by destruct r. Qed.

(** Words are written before the rest of a struct. *)
Lemma writing_seq {B} (q : proc B) z w b0 ws n :
  x_op z = ZDR_ENCODE -> room (put z ws) (4 + n) -> 0 <= n -> 0 <= pos z ->
  pos z + blen ws + 4 <= blen (buf z) ->
  (zdr_seq zdr_u_int q (put z ws) (w, b0) = UB <-> q (put z (ws ++ be32 w)) b0 = UB) /\
  room (put z (ws ++ be32 w)) n.
Proof.
  intros Hop Hr Hn Hp Hb. pose proof (blen_nonneg ws). unfold zdr_seq.
  rewrite u_int_enc; [|done|by eapply room_le; [|exact Hr]; lia].
  rewrite put_app, res_map_ub by (rewrite ?blen_be32; lia). split; [done|].
  rewrite <- put_app by (rewrite ?blen_be32; lia). by apply room_put.
Qed.

Lemma writing_dseq {B} (q : Z -> proc B) z w b0 ws n :
  x_op z = ZDR_ENCODE -> room (put z ws) (4 + n) -> 0 <= n -> 0 <= pos z ->
  pos z + blen ws + 4 <= blen (buf z) ->
  (zdr_dseq zdr_u_int q (put z ws) (w, b0) = UB <-> q w (put z (ws ++ be32 w)) b0 = UB) /\
  room (put z (ws ++ be32 w)) n.
Proof.
  intros Hop Hr Hn Hp Hb. pose proof (blen_nonneg ws). unfold zdr_dseq.
  rewrite u_int_enc; [|done|by eapply room_le; [|exact Hr]; lia].
  rewrite put_app, res_map_ub by (rewrite ?blen_be32; lia). split; [done|].
  rewrite <- put_app by (rewrite ?blen_be32; lia). by apply room_put.
Qed.

(** The header of an accepted reply is written before its results. *)
Lemma accepted_encodes {T} (pr : proc T) z k (r d : reply_body T) :
  x_op z = ZDR_ENCODE -> room z 24 ->
  stat r = MSG_ACCEPTED -> averf (areply r) = _null_auth -> astat (areply r) = SUCCESS ->
  zdr_replymsg pr d z (mkMsg k REPLY (RBody r)) = UB <->
  pr (put z (accepted_header k)) (results (areply r)) = UB.
Proof.
  intros Hop Hr Hs Hv Ha. pose proof Hr as [Hpos _ _ Hbuf _ _].
  unfold zdr_replymsg, libnfs_rpc_msg, zdr_via; cbn [xid direction body].
  rewrite res_map_ub. rewrite <- (put_nil z) in Hr. rewrite <- (put_nil z) at 1.
  assert (B : forall w, blen (be32 w) = 4) by apply blen_be32.
  destruct (writing_seq (zdr_dseq zdr_u_int (body_case pr d)) z k (REPLY, RBody r) [] 20 Hop Hr) as [-> H1];
    [lia|lia|rewrite blen_nil; lia|].
  destruct (writing_dseq (body_case pr d) z REPLY (RBody r) _ 16 Hop H1) as [-> H2];
    [lia|lia|rewrite !blen_app, ?B, ?blen_nil; lia|].
  change (body_case pr d REPLY) with (zdr_on (as_rbody d) (fun r _ => RBody r) (libnfs_rpc_reply_body pr)).
  unfold zdr_on, libnfs_rpc_reply_body, zdr_via; cbn [as_rbody]. rewrite !res_map_ub, Hs.
  destruct (writing_dseq (reply_case pr) z MSG_ACCEPTED r _ 12 Hop H2) as [-> H3];
    [lia|lia|rewrite !blen_app, ?B, ?blen_nil; lia|].
  change (reply_case pr MSG_ACCEPTED) with (zdr_on (@areply T) set_areply (libnfs_accepted_reply pr)).
  unfold zdr_on, libnfs_accepted_reply, zdr_via. rewrite !res_map_ub, Hv, Ha.
  set (ws := (([] ++ be32 k) ++ be32 REPLY) ++ be32 MSG_ACCEPTED) in *.
  assert (Hws : blen ws = 12) by (subst ws; by rewrite !blen_app, !B, blen_nil).
  assert (E : zdr_seq libnfs_opaque_verf (zdr_dseq zdr_u_int (accepted_case pr)) (put z ws) (_null_auth, (SUCCESS, areply r)) =
    res_map (pair _null_auth) (zdr_dseq zdr_u_int (accepted_case pr)
      (put (put z ws) (be32 AUTH_NONE ++ be32 0)) (SUCCESS, areply r))).
  { unfold zdr_seq. pose proof (codec_enc (p := libnfs_opaque_verf) (put z ws) _null_auth) as ->; [done|done| |].
    - apply auth_okv. split; [done|by exists []].
    - eapply room_le; [|exact H3]. by change (blen (wire libnfs_opaque_verf _null_auth)) with 8. }
  rewrite E, res_map_ub. rewrite put_app by (rewrite ?blen_app, ?B, ?Hws; lia).
  set (ws2 := ws ++ be32 AUTH_NONE ++ be32 0).
  assert (Hws2 : blen ws2 = 20) by (subst ws2; by rewrite !blen_app, !B, Hws).
  assert (H4 : room (put z ws2) 4).
  { subst ws2. rewrite <- put_app by (rewrite ?blen_app, ?B, ?Hws; lia). by apply room_put. }
  destruct (writing_dseq (accepted_case pr) z SUCCESS (areply r) ws2 0 Hop H4) as [-> _]; [lia|lia|lia|].
  change (accepted_case pr SUCCESS) with (zdr_on (@results T) set_results pr).
  unfold zdr_on. rewrite res_map_ub.
  assert (ws2 ++ be32 SUCCESS = accepted_header k) as ->; [|done].
  subst ws2 ws. unfold accepted_header. by rewrite <- !app_assoc.
Qed.

(** A server's reply can overrun its block by four bytes: [rpc_allocate_reply_pdu] gives the
    handle the size of the whole encode buffer but the place four bytes into it, so that a
    reply with results of variable length that needs the last word is written past the end of
    the block (pdu.c:248). *)
Theorem reply_overruns_block s (m : rpc_msg unit) d hint :
  is_u32 (xid m) -> blen d mod 4 = 0 -> 24 + 4 + blen d = ZDR_ENCODEBUF_MINSIZE + hint ->
  0 <= hint -> hint + ZDR_ENCODEBUF_MINSIZE + 16 <= INT_MAX ->
  send_reply s m (Heap d, blen d) zdr_bytes hint = None.
Proof.
  intros Hk Hd Hn Hh Hi. unfold ZDR_ENCODEBUF_MINSIZE, INT_MAX in *.
  unfold rpc_send_reply, send, rpc_allocate_reply_pdu.
  rewrite add_iovector_ok by (unfold niov, RPC_FAST_VECTORS; cbn; lia).
  cbn [mbind option_bind vecs app]. unfold ZDR_ENCODEBUF_MINSIZE. set (size := 4096 + hint).
  set (z := zdrmem_create (zeros (size - 4)) size ZDR_ENCODE (fun _ => true)).
  assert (Hz : blen (zeros (size - 4)) = size - 4) by (apply blen_zeros; lia).
  assert (Hr : room z 24).
  { unfold z, zdrmem_create. rewrite i32_id by (unfold size, is_i32; lia).
    split; cbn; rewrite ?Hz; unfold INT_MAX; done || lia. }
  assert (E : zdr_replymsg zdr_bytes (blank_reply (Heap d, blen d)) z
    (mkMsg (xid m) REPLY (RBody (success_reply (Heap d, blen d)))) = UB); [|by rewrite E].
  apply accepted_encodes; try done. cbn [areply results success_reply].
  set (z' := put z (accepted_header (xid m))).
  assert (Hr' : room z' 4).
  { apply room_put; [done| |lia]. change (blen (accepted_header (xid m))) with 24.
    unfold z, zdrmem_create. rewrite i32_id by (unfold size, is_i32; lia).
    split; cbn; rewrite ?Hz; unfold INT_MAX; done || lia. }
  pose proof (blen_nonneg d). unfold zdr_bytes. rewrite u_int_enc by done.
  rewrite i32_id by (unfold is_i32; lia).
  assert (Hp : pos (put z' (be32 (blen d))) = 28) by done. rewrite Hp.
  assert (Hs : Zdr.size (put z' (be32 (blen d))) = size).
  { change (i32 size = size). apply i32_id. unfold size, is_i32. lia. }
  rewrite Hs, fits_true by (unfold INT_MAX; lia). replace (28 + blen d >? size) with false by lia.
  change (x_op (put z' _)) with ZDR_ENCODE. cbv iota. cbn [load]. rewrite read_at_whole.
  assert (Hb : blen (buf (put z' (be32 (blen d)))) = size - 4).
  { unfold z'. rewrite put_app; [|done|].
    - unfold put; cbn [buf set_pos set_buf]. rewrite blen_splice; [done|done|].
      change (pos z) with 0. change (buf z) with (zeros (size - 4)). rewrite Hz, blen_app, blen_be32.
      change (blen (accepted_header (xid m))) with 24. lia.
    - change (pos z) with 0. change (buf z) with (zeros (size - 4)). rewrite Hz, blen_be32.
      change (blen (accepted_header (xid m))) with 24. lia. }
  rewrite write_at_none by (rewrite ?Hb; lia). done.
Qed.

End answers.

(** ** Instances *)

(** A server of NFS version 3 whose GETATTR takes nothing and answers 7, whose
    procedure 2 cannot decode its arguments, and an older endpoint. *)
Module Example.
Definition decode_fn (h : nat) : proc (option unit) := match h with O => zdr_void | _ => zdr_fail end.
Definition malloc_at (s : rpc Z) : Z := 50000 + 8192 * Z.of_N (r_next_id s).
Definition writes (s : rpc Z) : list wres := [WCount 10].
#[local] Notation func := (fun (_ : nat) (s : rpc Z) (d : deferred unit) =>
  rpc_send_reply malloc_at 100 true writes s (d_call d) 7 zdr_u_int 0).
Definition eps : list endpoint :=
  [mkEndpoint NFS_PROGRAM NFS_V3 [mkProc 1 0 0; mkProc 2 8 1]; mkEndpoint NFS_PROGRAM 2 []].
Definition server : rpc Z := set_r_endpoints eps (rpc_init_server_context ∅ 5 false).
Definition process_call := rpc_process_call tt decode_fn func malloc_at 100 true writes.

#[export] Instance func_keeps : HandlersKeep func.
Proof. intros h s d s' r Hc. apply send_reply_keeps. exact Hc. Qed.

Lemma server_marker : at_marker true server.
Proof. split; [apply plainb_ok; by vm_compute|by vm_compute..]. Qed.

Lemma server_serving : serving server.
Proof.
  split; [by vm_compute|by apply NoDup_nil|by intros p Hp%elem_of_nil| |by vm_compute].
  intros p x Hp. unfold get_pdu in Hp. change (r_pdus server) with (∅ : gmap id (pdu Z)) in Hp.
  by rewrite lookup_empty in Hp.
Qed.

Definition call_bytes (prg vrs prc : Z) : bytes := call_wire 9 (mkCall 2 prg vrs prc root_cred _null_auth).

Lemma call_arrives prg vrs prc : is_u32 prg -> is_u32 vrs -> is_u32 prc ->
  arrives (call_bytes prg vrs prc) (blen (call_bytes prg vrs prc)) 9 (mkCall 2 prg vrs prc root_cred _null_auth).
Proof.
  intros H1 H2 H3. assert (Hc : call_ok (mkCall 2 prg vrs prc root_cred _null_auth)).
  { split; cbn; try done; try (split; [done|by eexists]). }
  split; [done|exact Hc| | | |].
  - pose proof (blen_nonneg (call_bytes prg vrs prc)). lia.
  - change (blen (call_bytes prg vrs prc)) with 48. unfold INT_MAX. lia.
  - apply Z.le_refl.
  - split; [done|]. exists [], []. by rewrite app_nil_r.
Qed.

(** The search for version 4 of NFS, which ends with the range of versions. *)
Lemma eps_procs : procs_ok eps.
Proof.
  intros e q He Hq. unfold eps in He.
  apply elem_of_cons in He as [->|He]; [|apply list_elem_of_singleton in He as ->; by apply elem_of_nil in Hq].
  apply elem_of_cons in Hq as [->|Hq]; [|apply list_elem_of_singleton in Hq as ->];
    unfold INT_MAX, ZDR_MEM_HDR; cbn [sp_bufsize]; lia.
Qed.

Lemma process_call_dispatches_witness :
  exists rt, routed 100003 4 eps rt /\ answers_with malloc_at 100 true writes server (reply_wire null_proc 9 (error_reply PROG_MISMATCH 2 3))
      (process_call (decoder (call_bytes 100003 4 1) 48) server).
Proof.
  assert (Ha : arrives (call_bytes 100003 4 1) 48 9 (mkCall 2 100003 4 1 root_cred _null_auth))
    by (apply call_arrives; unfold is_u32; lia).
  destruct (process_call_dispatches tt decode_fn func malloc_at 100 true writes server _ 48 9 _ Ha eps_procs)
    as (rt & Hr & H). exists rt. split; [exact Hr|].
  assert (Hrt : rt = NoVersion 2 3).
  { apply (routed_unique 100003 4 eps); [exact Hr|].
    exact (find_endpoint_routed 100003 4 eps [] false 0 0 (search_starts 100003 4)). }
  rewrite Hrt in H. exact H.
Defined.
Lemma reply_crashes_server_witness : process_call (decoder (accepted_header 5) 24) server = None.
Proof.
  apply (reply_crashes_server tt decode_fn func malloc_at 100 true writes server (accepted_header 5) 24 5).
  - unfold is_u32. lia.
  - change (blen (accepted_header 5)) with 24. lia.
  - unfold INT_MAX. lia.
  - lia.
  - split; [lia|]. exists [], []. split; reflexivity.
Defined.

Lemma reply_overruns_block_witness :
  rpc_send_reply malloc_at 100 true writes server (mkMsg 5 CALL (CBody null_call)) (Heap (zeros 4068), 4068)
    zdr_bytes 0 = None.
Proof.
  refine (reply_overruns_block malloc_at 100 true writes server (mkMsg 5 CALL (CBody null_call)) (zeros 4068) 0 _ _ _ _ _);
    first [vm_compute; split; [discriminate|reflexivity] | vm_compute; reflexivity | vm_compute; discriminate].
Defined.

(** The two calls that wait at the client of [Dispatch], and what travels. *)
Definition trip_of (p : id) : trip (R := Z) :=
  mkTrip (mkDelivery p (word_pdu p) zdr_u_int _ (success_reply 7)) (drop 4 (call_wire (p_xid (word_pdu p)) getattr_call)).
Definition trips : list (trip (R := Z)) := [trip_of 0%N; trip_of 1%N].

Lemma trip_call p : p = 0%N \/ p = 1%N -> cx_call (t_exchange (trip_of p)) =
  call_wire (p_xid (word_pdu p)) getattr_call ++ wire (@zdr_void (option unit)) None.
Proof. by intros [-> | ->]. Qed.

Lemma trip_carries p : p = 0%N \/ p = 1%N -> carries (t_pdu (trip_of p)) (cx_call (t_exchange (trip_of p))).
Proof. by intros [-> | ->]; split; vm_compute. Qed.

Lemma seven_ok : reply_ok zdr_u_int (success_reply 7).
Proof. apply success_reply_ok. vm_compute. split; [discriminate|reflexivity]. Qed.

Lemma seven_size k : blen (reply_wire zdr_u_int k (success_reply 7)) <= NFS_MAX_REPLY.
Proof. vm_compute. discriminate. Qed.

Lemma seven_deliverable s p x :
  get_pdu s p = Some x -> p_decode x = zdr_u_int -> waitsb s p x = true ->
  deliverable 0 s (mkDelivery p x zdr_u_int _ (success_reply 7)).
Proof.
  intros Hx Hd Hb. unfold waitsb in Hb. split_andb. split; cbn [d_id d_pdu d_proc d_codec d_reply].
  - done.
  - split; [done|by apply copyingb_ok|done|done|lia|apply seven_ok|done].
  - unfold is_u32. lia.
  - apply seven_size.
Qed.

Lemma trip_xid p : p = 0%N \/ p = 1%N -> is_u32 (p_xid (word_pdu p)).
Proof. intros [-> | ->]; vm_compute; (split; [discriminate|reflexivity]). Qed.

Lemma trip_answers p : p = 0%N \/ p = 1%N ->
  answerable tt decode_fn func malloc_at 100 true writes eps (t_exchange (trip_of p)).
Proof.
  intros Hp. split.
  - exact (trip_xid p Hp).
  - destruct Hp as [-> | ->]; vm_compute; split; discriminate.
  - rewrite (trip_call p Hp).
    refine (served_answers tt decode_fn func malloc_at 100 true writes zdr_u_int eps (p_xid (word_pdu p)) getattr_call
      (mkEndpoint NFS_PROGRAM NFS_V3 [mkProc 1 0 0; mkProc 2 8 1]) (mkProc 1 0 0) None 7 0
      _ getattr_call_ok _ eq_refl eq_refl _ I I _ _ _ _ _).
    + exact (trip_xid p Hp).
    + destruct Hp as [-> | ->]; clear; vm_compute; discriminate.
    + clear. vm_compute. split; discriminate.
    + intros s b m args' _. reflexivity.
    + clear. vm_compute. split; [discriminate|reflexivity].
    + lia.
    + clear. vm_compute. discriminate.
    + destruct Hp as [-> | ->]; clear; vm_compute; discriminate.
Qed.

Lemma trip_waits p : p = 0%N \/ p = 1%N -> waitsb waiting p (word_pdu p) = true.
Proof. intros [-> | ->]; vm_compute; reflexivity. Qed.

Lemma trip_travels p : p = 0%N \/ p = 1%N ->
  travels tt decode_fn func malloc_at 100 true writes 0 eps waiting (trip_of p).
Proof.
  intros Hp. split; [exact (trip_carries p Hp)|exact (trip_answers p Hp)|].
  exact (seven_deliverable waiting p (word_pdu p) (waiting_pdu p Hp) eq_refl (trip_waits p Hp)).
Qed.

Lemma rpc_round_trip_witness :
  exists sv' (ys : list (pdu Z)), rpc_read_from_socket 0 (fun _ => 0) process_call 100
      (map RData [concat (map (fun t => record_bytes (t_pdu t)) trips)]) server = Done (sv', 0) /\
    exists cl' evs, rpc_read_from_socket 0 (fun _ => 0) (fun _ _ => None) 200
        (map RData [concat (map record_bytes ys)]) waiting = Done (cl', 0) /\
      Forall2 delivered (map t_delivery trips) evs /\ r_trace cl' = r_trace waiting ++ concat evs.
Proof.
  destruct (rpc_round_trip tt decode_fn func malloc_at 100 true writes 0 (fun _ => 0) 100 200 (fun _ _ => None)
    [concat (map (fun t => record_bytes (t_pdu t)) trips)] waiting server trips
    waiting_marker waiting_wf waiting_xids) as (sv' & ys & E & _ & _ & _ & Hca & Hcl).
  - by vm_compute.
  - apply (bool_decide_eq_true_1 (NoDup (map (fun t => d_id (t_delivery t)) trips))). vm_compute. reflexivity.
  - exact server_marker.
  - exact server_serving.
  - apply Forall_cons. split; [apply trip_travels; by left|].
    apply Forall_cons. split; [apply trip_travels; by right|apply Forall_nil_2].
  - apply Forall_cons. split; [vm_compute; discriminate|apply Forall_nil_2].
  - cbn [concat]. by rewrite app_nil_r.
  - exists sv', ys. split; [exact E|].
    destruct (Hcl [concat (map record_bytes ys)]) as (cl' & evs & E2 & Hev & Ht & _).
    + apply Forall_cons. split; [|apply Forall_nil_2]. rewrite (carries_all _ _ Hca). vm_compute. discriminate.
    + cbn [concat]. by rewrite app_nil_r.
    + exists cl', evs. exact (conj E2 (conj Hev Ht)).
Defined.

End Example.
