(* ===== verification/Tasks.v ===== *)
(** * Tasks: the calls of the protocols

    [rpc_nfs3_*_task] and the like (nfs/nfs.c, nfs/nfsacl.c, nfs4/nfs4.c,
    mount/mount.c, portmap/portmap.c, nlm/nlm.c, nsm/nsm.c, rquota/rquota.c):
    each allocates the PDU of a procedure, marshals the arguments into it and
    queues it.  A task returns the PDU, or nothing when there is none.

    The buffer the results are decoded into is memory of the context: [Holds]
    says how the type [R] of that memory holds the results of the procedure. *)

From S2P Require Import Prelude Zdr RpcMsg Cursor Queue RpcState Send Xdr Nfs3Xdr Nfs4Xdr MountXdr PortmapXdr LockXdr.

#[local] Open Scope zdr_scope.

Definition NFS_V2 : Z := 2.
Definition NFSACL_PROGRAM : Z := 100227.
Definition NFSACL_V3 : Z := 3.
Definition NFS4_PROGRAM : Z := 100003.
Definition NFS_V4 : Z := 4.
Definition MOUNT_PROGRAM : Z := 100005.
Definition MOUNT_V1 : Z := 1.
Definition MOUNT_V3 : Z := 3.
Definition PMAP_PROGRAM : Z := 100000.
Definition PMAP_V2 : Z := 2.
Definition PMAP_V3 : Z := 3.
Definition PMAP_V4 : Z := 4.
Definition NLM_PROGRAM : Z := 100021.
Definition NLM_V4 : Z := 4.
Definition NSM_PROGRAM : Z := 100024.
Definition NSM_V1 : Z := 1.
Definition RQUOTA_PROGRAM : Z := 100011.
Definition RQUOTA_V1 : Z := 1.
Definition RQUOTA_V2 : Z := 2.

Class Holds (A R : Type) := { hold : A -> R; held : R -> A; held_hold : forall a, held (hold a) = a }.

(** What the environment answers: the block that malloc returns for the PDU,
    the time, and the results of sendto or writev; [e_zero] is where the static
    word of zeros of a task that writes lies. *)
Record env := mkEnv { e_addr : Z; e_now : Z; e_send_ok : bool; e_writes : list wres; e_zero : Z }.

Section tasks.
Context {R : Type} (zero_res : R) (nodes : nat).
Implicit Types (e : env) (cb : bool) (s : rpc R).

(** A routine whose object is in the buffer for the results. *)
Definition results {A} `{!Holds A R} (p : proc A) : proc R := zdr_via held hold p.

(** ** What a task is made of *)

(** The arguments marshalled into the PDU; [false] when they do not fit. *)
Definition marshal {A} (encode : proc A) (args : A) s (p : id) : option (rpc R * bool) :=
  x ← get_pdu s p;
  match encode (p_zdr x) args with
  | Ret _ z => Some (put_pdu p (set_p_zdr z x) s, true)
  | Fls _ z => Some (put_pdu p (set_p_zdr z x) s, false)
  | UB => None
  end.

Definition queue e s (p : id) : option (rpc R * option id) :=
  '(s, r) ← rpc_queue_pdu (e_now e) (e_send_ok e) (e_writes e) s p;
  Some (s, if r =? 0 then Some p else None).

Definition release_pdu s (p : id) : option (rpc R * option id) := s ← rpc_free_pdu s p; Some (s, None).

(** The task of a procedure with arguments, in a PDU of [alloc_hint] more bytes. *)
Definition task2 {A} e cb s (program version procedure : Z) (decode : proc R) (bufsize alloc_hint : Z)
    (encode : proc A) (args : A) : option (rpc R * option id) :=
  '(s, pdu) ← rpc_allocate_pdu2 zero_res s (e_addr e) program version procedure cb decode bufsize alloc_hint 0;
  match pdu with
  | None => Some (s, None)
  | Some p => '(s, fit) ← marshal encode args s p; if fit : bool then queue e s p else release_pdu s p
  end.
Definition task {A} e cb s program version procedure decode bufsize (encode : proc A) (args : A) :=
  task2 e cb s program version procedure decode bufsize 0 encode args.

(** That of a procedure without arguments. *)
Definition null_task e cb s program version procedure decode bufsize : option (rpc R * option id) :=
  '(s, pdu) ← rpc_allocate_pdu zero_res s (e_addr e) program version procedure cb decode bufsize;
  match pdu with None => Some (s, None) | Some p => queue e s p end.

(** ** Reading into and writing from the memory of the user *)

(** [iovcnt] and [iov] are [None] when they are 0 and NULL. *)
Definition readv_refused s (iov : option (list iovec)) : bool :=
  match iov with
  | None | Some [] => true
  | Some iov => bool_decide (1 < length iov)%nat && r_udp s || bool_decide (RPC_MAX_VECTORS < length iov)%nat
  end.

(** The PDU made ready for a READ into [iov]. *)
Definition read_into (iov : list iovec) (p : id) s : option (rpc R) :=
  x ← get_pdu s p;
  let c := init_cursor iov in
  Some (put_pdu p (set_p_requested (u32 (remaining_size c)) (set_p_in c x)) s).

Definition readv_task {A} e cb s program version procedure decode bufsize (encode : proc A) (args : A) (iov : option (list iovec))
    : option (rpc R * option id) :=
  if readv_refused s iov then Some (s, None) else
  '(s, pdu) ← rpc_allocate_pdu2 zero_res s (e_addr e) program version procedure cb decode bufsize 0 0;
  match pdu with
  | None => Some (s, None)
  | Some p =>
      '(s, fit) ← marshal encode args s p;
      if fit : bool then s ← read_into (default [] iov) p s; queue e s p else release_pdu s p
  end.

(** The vectors of the PDU [p] with one more, the length of which is an [int];
    [false] when there is no room. *)
Definition add_iovector (buf len : Z) s (p : id) : option (rpc R * bool) :=
  x ← get_pdu s p;
  match rpc_add_iovector (p_out x) buf (i32 len) with
  | Some v => Some (put_pdu p (set_p_out v x) s, true)
  | None => Some (s, false)
  end.

Fixpoint add_iovectors (l : list iovec) s (p : id) : option (rpc R * bool) :=
  match l with
  | [] => Some (s, true)
  | v :: l => '(s, room) ← add_iovector (iov_base v) (iov_len v) s p; if room : bool then add_iovectors l s p else Some (s, false)
  end.

(** What has been marshalled since [start], as a vector. *)
Definition add_marshalled (start : Z) s (p : id) : option (rpc R * bool) :=
  x ← get_pdu s p; add_iovector (p_data x + (start + 4)) (zdr_getpos (p_zdr x) - start) s p.

(** The data that follow the arguments: their length, whether or not it fits,
    the vectors [data] and the padding. *)
Definition add_data (e_zero : Z) (data : list iovec) s (p : id) : option (rpc R * bool) :=
  let len := foldl (fun n v => u32 (n + iov_len v)) 0 data in
  x ← get_pdu s p;
  let start := zdr_getpos (p_zdr x) in
  '(s, _) ← marshal zdr_u_int len s p;
  '(s, room) ← add_iovector (p_data x + (start + 4)) 4 s p;
  if negb room then Some (s, false) else
  '(s, room) ← add_iovectors data s p;
  if negb room then Some (s, false) else
  if Z.land len 3 =? 0 then Some (s, true) else add_iovector e_zero (4 - Z.land len 3) s p.

(** A task that sends [data] from where they lie. *)
Definition writev_task {A} e cb s program version procedure decode bufsize (iovcnt_hint : nat) (encode : proc A) (args : A)
    (data : list iovec) : option (rpc R * option id) :=
  '(s, pdu) ← rpc_allocate_pdu2 zero_res s (e_addr e) program version procedure cb decode bufsize 0 iovcnt_hint;
  match pdu with
  | None => Some (s, None)
  | Some p =>
      x ← get_pdu s p;
      let start := zdr_getpos (p_zdr x) in
      '(s, fit) ← marshal encode args s p;
      if negb fit then release_pdu s p else
      '(s, room) ← add_marshalled start s p;
      if negb room then release_pdu s p else
      '(s, room) ← add_data (e_zero e) data s p;
      if room : bool then queue e s p else release_pdu s p
  end.

(** *** READ and WRITE of NFSv3 *)

(** The results of a READ without the data. *)
Definition zdr_READ3resok_zero_copy : proc X3.READ3resok :=
  zdr_via (fun x => (X3.READ3resok_file_attributes x, (X3.READ3resok_count x, (X3.READ3resok_eof x, X3.READ3resok_data x))))
    (fun t => X3.mkREAD3resok t.1 t.2.1 t.2.2.1 t.2.2.2) (X3.zdr_post_op_attr >>> X3.zdr_count3 >>> zdr_bool >>> zdr_void).
Definition case_READ3res_zero_copy (d : Z) : proc X3.READ3res_union :=
  if d =? X3.NFS3_OK then zdr_member X3.as_READ3res_resok X3.READ3res_resok zdr_READ3resok_zero_copy
  else zdr_member X3.as_READ3res_resfail X3.READ3res_resfail X3.zdr_READ3resfail.
Definition zdr_READ3res_zero_copy : proc X3.READ3res :=
  zdr_via X3.fields_READ3res X3.make_READ3res (zdr_dseq X3.zdr_nfsstat3 case_READ3res_zero_copy).

Definition rpc_nfs3_readv_task `{!Holds X3.READ3res R} e cb s (iov : option (list iovec)) (args : X3.READ3args) :=
  readv_task e cb s NFS_PROGRAM NFS_V3 6 (results zdr_READ3res_zero_copy) 128 X3.zdr_READ3args args iov.
Definition rpc_nfs3_read_task `{!Holds X3.READ3res R} e cb s (buf count : Z) (args : X3.READ3args) :=
  rpc_nfs3_readv_task e cb s (Some [mkIov buf count]) args.

(** The arguments of a WRITE without the data. *)
Definition zdr_WRITE3args_zerocopy : proc X3.WRITE3args :=
  zdr_via X3.fields_WRITE3args X3.make_WRITE3args
    (X3.zdr_nfs_fh3 >>> X3.zdr_offset3 >>> X3.zdr_count3 >>> X3.zdr_stable_how >>> zdr_void).

(** [data] is the [args->data] of the C object, as a place in memory. *)
Definition rpc_nfs3_writev_task `{!Holds X3.WRITE3res R} e cb s (args : X3.WRITE3args) (data : iovec) (iov : option (list iovec)) :=
  match iov with
  | Some [] => Some (s, None)
  | Some iov =>
      if negb (iov_len data =? 0) || r_udp s then Some (s, None) else
      writev_task e cb s NFS_PROGRAM NFS_V3 7 (results X3.zdr_WRITE3res) 128 (length iov + 4) zdr_WRITE3args_zerocopy args iov
  | None => writev_task e cb s NFS_PROGRAM NFS_V3 7 (results X3.zdr_WRITE3res) 128 4 zdr_WRITE3args_zerocopy args [data]
  end.
Definition rpc_nfs3_write_task `{!Holds X3.WRITE3res R} e cb s (args : X3.WRITE3args) (data : iovec) :=
  rpc_nfs3_writev_task e cb s args data None.

(** *** The COMPOUND of NFSv4 *)

Definition rpc_nfs4_compound_task2 `{!Holds X4.COMPOUND4res R} e cb s (args : X4.COMPOUND4args) (alloc_hint : Z) :=
  task2 e cb s NFS4_PROGRAM NFS_V4 1 (results (X4.zdr_COMPOUND4res nodes)) 40 alloc_hint X4.zdr_COMPOUND4args args.
Definition rpc_nfs4_compound_task `{!Holds X4.COMPOUND4res R} e cb s (args : X4.COMPOUND4args) :=
  rpc_nfs4_compound_task2 e cb s args 0.
Definition rpc_nfs4_readv_task `{!Holds X4.COMPOUND4res R} e cb s (iov : option (list iovec)) (args : X4.COMPOUND4args) :=
  readv_task e cb s NFS4_PROGRAM NFS_V4 1 (results (X4.zdr_COMPOUND4res nodes)) 40 X4.zdr_COMPOUND4args args iov.
Definition rpc_nfs4_read_task `{!Holds X4.COMPOUND4res R} e cb s (buf count : Z) (args : X4.COMPOUND4args) :=
  rpc_nfs4_readv_task e cb s (Some [mkIov buf count]) args.
Definition rpc_nfs4_writev_task `{!Holds X4.COMPOUND4res R} e cb s (iov : option (list iovec)) (args : X4.COMPOUND4args) :=
  match iov with
  | None | Some [] => Some (s, None)
  | Some iov =>
      if bool_decide (1 < length iov)%nat && r_udp s then Some (s, None) else
      writev_task e cb s NFS4_PROGRAM NFS_V4 1 (results (X4.zdr_COMPOUND4res nodes)) 40 (length iov) X4.zdr_COMPOUND4args args iov
  end.
Definition rpc_nfs4_write_task `{!Holds X4.COMPOUND4res R} e cb s (buf count : Z) (args : X4.COMPOUND4args) :=
  rpc_nfs4_writev_task e cb s (Some [mkIov buf count]) args.

(** [rpc_nfs2_write_task] makes room for the data it marshals. *)
Definition rpc_nfs2_write_task `{!Holds X3.WRITE2res R} e cb s (args : X3.WRITE2args) :=
  task2 e cb s NFS_PROGRAM NFS_V2 8 (results X3.zdr_WRITE2res) 72 (X3.WRITE2args_totalcount args) X3.zdr_WRITE2args args.

(** ** The other tasks *)

(** *** nfs/nfs.c *)

Definition rpc_nfs3_null_task e cb s := null_task e cb s NFS_PROGRAM NFS_V3 0 zdr_void 0.
Definition rpc_nfs3_getattr_task `{!Holds X3.GETATTR3res R} e cb s (args : X3.GETATTR3args) :=
  task e cb s NFS_PROGRAM NFS_V3 1 (results X3.zdr_GETATTR3res) 96 X3.zdr_GETATTR3args args.
Definition rpc_nfs3_pathconf_task `{!Holds X3.PATHCONF3res R} e cb s (args : X3.PATHCONF3args) :=
  task e cb s NFS_PROGRAM NFS_V3 20 (results X3.zdr_PATHCONF3res) 128 X3.zdr_PATHCONF3args args.
Definition rpc_nfs3_lookup_task `{!Holds X3.LOOKUP3res R} e cb s (args : X3.LOOKUP3args) :=
  task e cb s NFS_PROGRAM NFS_V3 3 (results X3.zdr_LOOKUP3res) 216 X3.zdr_LOOKUP3args args.
Definition rpc_nfs3_access_task `{!Holds X3.ACCESS3res R} e cb s (args : X3.ACCESS3args) :=
  task e cb s NFS_PROGRAM NFS_V3 4 (results X3.zdr_ACCESS3res) 112 X3.zdr_ACCESS3args args.
Definition rpc_nfs3_commit_task `{!Holds X3.COMMIT3res R} e cb s (args : X3.COMMIT3args) :=
  task e cb s NFS_PROGRAM NFS_V3 21 (results X3.zdr_COMMIT3res) 144 X3.zdr_COMMIT3args args.
Definition rpc_nfs3_setattr_task `{!Holds X3.SETATTR3res R} e cb s (args : X3.SETATTR3args) :=
  task e cb s NFS_PROGRAM NFS_V3 2 (results X3.zdr_SETATTR3res) 136 X3.zdr_SETATTR3args args.
Definition rpc_nfs3_mkdir_task `{!Holds X3.MKDIR3res R} e cb s (args : X3.MKDIR3args) :=
  task e cb s NFS_PROGRAM NFS_V3 9 (results X3.zdr_MKDIR3res) 256 X3.zdr_MKDIR3args args.
Definition rpc_nfs3_rmdir_task `{!Holds X3.RMDIR3res R} e cb s (args : X3.RMDIR3args) :=
  task e cb s NFS_PROGRAM NFS_V3 13 (results X3.zdr_RMDIR3res) 136 X3.zdr_RMDIR3args args.
Definition rpc_nfs3_create_task `{!Holds X3.CREATE3res R} e cb s (args : X3.CREATE3args) :=
  task e cb s NFS_PROGRAM NFS_V3 8 (results X3.zdr_CREATE3res) 256 X3.zdr_CREATE3args args.
Definition rpc_nfs3_mknod_task `{!Holds X3.MKNOD3res R} e cb s (args : X3.MKNOD3args) :=
  task e cb s NFS_PROGRAM NFS_V3 11 (results X3.zdr_MKNOD3res) 256 X3.zdr_MKNOD3args args.
Definition rpc_nfs3_remove_task `{!Holds X3.REMOVE3res R} e cb s (args : X3.REMOVE3args) :=
  task e cb s NFS_PROGRAM NFS_V3 12 (results X3.zdr_REMOVE3res) 136 X3.zdr_REMOVE3args args.
Definition rpc_nfs3_readdir_task `{!Holds X3.READDIR3res R} e cb s (args : X3.READDIR3args) :=
  task e cb s NFS_PROGRAM NFS_V3 16 (results (X3.zdr_READDIR3res nodes)) 128 X3.zdr_READDIR3args args.
Definition rpc_nfs3_readdirplus_task `{!Holds X3.READDIRPLUS3res R} e cb s (args : X3.READDIRPLUS3args) :=
  task e cb s NFS_PROGRAM NFS_V3 17 (results (X3.zdr_READDIRPLUS3res nodes)) 128 X3.zdr_READDIRPLUS3args args.
Definition rpc_nfs3_fsstat_task `{!Holds X3.FSSTAT3res R} e cb s (args : X3.FSSTAT3args) :=
  task e cb s NFS_PROGRAM NFS_V3 18 (results X3.zdr_FSSTAT3res) 160 X3.zdr_FSSTAT3args args.
Definition rpc_nfs3_fsinfo_task `{!Holds X3.FSINFO3res R} e cb s (args : X3.FSINFO3args) :=
  task e cb s NFS_PROGRAM NFS_V3 19 (results X3.zdr_FSINFO3res) 160 X3.zdr_FSINFO3args args.
Definition rpc_nfs3_readlink_task `{!Holds X3.READLINK3res R} e cb s (args : X3.READLINK3args) :=
  task e cb s NFS_PROGRAM NFS_V3 5 (results X3.zdr_READLINK3res) 112 X3.zdr_READLINK3args args.
Definition rpc_nfs3_symlink_task `{!Holds X3.SYMLINK3res R} e cb s (args : X3.SYMLINK3args) :=
  task e cb s NFS_PROGRAM NFS_V3 10 (results X3.zdr_SYMLINK3res) 256 X3.zdr_SYMLINK3args args.
Definition rpc_nfs3_rename_task `{!Holds X3.RENAME3res R} e cb s (args : X3.RENAME3args) :=
  task e cb s NFS_PROGRAM NFS_V3 14 (results X3.zdr_RENAME3res) 264 X3.zdr_RENAME3args args.
Definition rpc_nfs3_link_task `{!Holds X3.LINK3res R} e cb s (args : X3.LINK3args) :=
  task e cb s NFS_PROGRAM NFS_V3 15 (results X3.zdr_LINK3res) 232 X3.zdr_LINK3args args.
Definition rpc_nfs2_null_task e cb s := null_task e cb s NFS_PROGRAM NFS_V2 0 zdr_void 0.
Definition rpc_nfs2_getattr_task `{!Holds X3.GETATTR2res R} e cb s (args : X3.GETATTR2args) :=
  task e cb s NFS_PROGRAM NFS_V2 1 (results X3.zdr_GETATTR2res) 72 X3.zdr_GETATTR2args args.
Definition rpc_nfs2_setattr_task `{!Holds X3.SETATTR2res R} e cb s (args : X3.SETATTR2args) :=
  task e cb s NFS_PROGRAM NFS_V2 2 (results X3.zdr_SETATTR2res) 72 X3.zdr_SETATTR2args args.
Definition rpc_nfs2_lookup_task `{!Holds X3.LOOKUP2res R} e cb s (args : X3.LOOKUP2args) :=
  task e cb s NFS_PROGRAM NFS_V2 4 (results X3.zdr_LOOKUP2res) 104 X3.zdr_LOOKUP2args args.
Definition rpc_nfs2_readlink_task `{!Holds X3.READLINK2res R} e cb s (args : X3.READLINK2args) :=
  task e cb s NFS_PROGRAM NFS_V2 5 (results X3.zdr_READLINK2res) 16 X3.zdr_READLINK2args args.
Definition rpc_nfs2_read_task `{!Holds X3.READ2res R} e cb s (args : X3.READ2args) :=
  task e cb s NFS_PROGRAM NFS_V2 6 (results X3.zdr_READ2res) 96 X3.zdr_READ2args args.
Definition rpc_nfs2_create_task `{!Holds X3.CREATE2res R} e cb s (args : X3.CREATE2args) :=
  task e cb s NFS_PROGRAM NFS_V2 9 (results X3.zdr_CREATE2res) 104 X3.zdr_CREATE2args args.
Definition rpc_nfs2_remove_task `{!Holds X3.REMOVE2res R} e cb s (args : X3.REMOVE2args) :=
  task e cb s NFS_PROGRAM NFS_V2 10 (results X3.zdr_REMOVE2res) 4 X3.zdr_REMOVE2args args.
Definition rpc_nfs2_rename_task `{!Holds X3.RENAME2res R} e cb s (args : X3.RENAME2args) :=
  task e cb s NFS_PROGRAM NFS_V2 11 (results X3.zdr_RENAME2res) 4 X3.zdr_RENAME2args args.
Definition rpc_nfs2_link_task `{!Holds X3.LINK2res R} e cb s (args : X3.LINK2args) :=
  task e cb s NFS_PROGRAM NFS_V2 12 (results X3.zdr_LINK2res) 4 X3.zdr_LINK2args args.
Definition rpc_nfs2_symlink_task `{!Holds X3.SYMLINK2res R} e cb s (args : X3.SYMLINK2args) :=
  task e cb s NFS_PROGRAM NFS_V2 13 (results X3.zdr_SYMLINK2res) 4 X3.zdr_SYMLINK2args args.
Definition rpc_nfs2_mkdir_task `{!Holds X3.MKDIR2res R} e cb s (args : X3.MKDIR2args) :=
  task e cb s NFS_PROGRAM NFS_V2 14 (results X3.zdr_MKDIR2res) 104 X3.zdr_MKDIR2args args.
Definition rpc_nfs2_rmdir_task `{!Holds X3.RMDIR2res R} e cb s (args : X3.RMDIR2args) :=
  task e cb s NFS_PROGRAM NFS_V2 15 (results X3.zdr_RMDIR2res) 4 X3.zdr_RMDIR2args args.
Definition rpc_nfs2_readdir_task `{!Holds X3.READDIR2res R} e cb s (args : X3.READDIR2args) :=
  task e cb s NFS_PROGRAM NFS_V2 16 (results (X3.zdr_READDIR2res nodes)) 24 X3.zdr_READDIR2args args.
Definition rpc_nfs2_statfs_task `{!Holds X3.STATFS2res R} e cb s (args : X3.STATFS2args) :=
  task e cb s NFS_PROGRAM NFS_V2 17 (results X3.zdr_STATFS2res) 24 X3.zdr_STATFS2args args.

(** *** nfs/nfsacl.c *)

Definition rpc_nfsacl3_null_task e cb s := null_task e cb s NFSACL_PROGRAM NFSACL_V3 0 zdr_void 0.
Definition rpc_nfsacl3_getacl_task `{!Holds X3.GETACL3res R} e cb s (args : X3.GETACL3args) :=
  task e cb s NFSACL_PROGRAM NFSACL_V3 1 (results X3.zdr_GETACL3res) 152 X3.zdr_GETACL3args args.
Definition rpc_nfsacl3_setacl_task `{!Holds X3.SETACL3res R} e cb s (args : X3.SETACL3args) :=
  task e cb s NFSACL_PROGRAM NFSACL_V3 2 (results X3.zdr_SETACL3res) 104 X3.zdr_SETACL3args args.

(** *** nfs4/nfs4.c *)

Definition rpc_nfs4_null_task e cb s := null_task e cb s NFS4_PROGRAM NFS_V4 0 zdr_void 0.

(** *** mount/mount.c *)

Definition rpc_mount3_null_task e cb s := null_task e cb s MOUNT_PROGRAM MOUNT_V3 0 zdr_void 0.
Definition rpc_mount3_mnt_task `{!Holds XM.mountres3 R} e cb s (args : ptr) :=
  task e cb s MOUNT_PROGRAM MOUNT_V3 1 (results XM.zdr_mountres3) 40 XM.zdr_dirpath args.
Definition rpc_mount3_dump_task `{!Holds (option XM.mountbody) R} e cb s := null_task e cb s MOUNT_PROGRAM MOUNT_V3 2
  (results (XM.zdr_mountlist nodes)) 8.
Definition rpc_mount3_umnt_task e cb s (args : ptr) :=
  task e cb s MOUNT_PROGRAM MOUNT_V3 3 zdr_void 0 XM.zdr_dirpath args.
Definition rpc_mount3_umntall_task e cb s := null_task e cb s MOUNT_PROGRAM MOUNT_V3 4 zdr_void 0.
Definition rpc_mount3_export_task `{!Holds (option XM.exportnode) R} e cb s := null_task e cb s MOUNT_PROGRAM MOUNT_V3 5
  (results (XM.zdr_exports nodes)) 8.
Definition rpc_mount1_null_task e cb s := null_task e cb s MOUNT_PROGRAM MOUNT_V1 0 zdr_void 0.
Definition rpc_mount1_mnt_task `{!Holds XM.mountres1 R} e cb s (args : ptr) :=
  task e cb s MOUNT_PROGRAM MOUNT_V1 1 (results XM.zdr_mountres1) 36 XM.zdr_dirpath args.
Definition rpc_mount1_dump_task `{!Holds (option XM.mountbody) R} e cb s := null_task e cb s MOUNT_PROGRAM MOUNT_V1 2
  (results (XM.zdr_mountlist nodes)) 8.
Definition rpc_mount1_umnt_task e cb s (args : ptr) :=
  task e cb s MOUNT_PROGRAM MOUNT_V1 3 zdr_void 0 XM.zdr_dirpath args.
Definition rpc_mount1_umntall_task e cb s := null_task e cb s MOUNT_PROGRAM MOUNT_V1 4 zdr_void 0.
Definition rpc_mount1_export_task `{!Holds (option XM.exportnode) R} e cb s := null_task e cb s MOUNT_PROGRAM MOUNT_V1 5
  (results (XM.zdr_exports nodes)) 8.

(** *** portmap/portmap.c *)

Definition rpc_pmap2_null_task e cb s := null_task e cb s PMAP_PROGRAM PMAP_V2 0 zdr_void 0.
Definition rpc_pmap2_getport_task `{!Holds Z R} e cb s (program version protocol : Z) :=
  task e cb s PMAP_PROGRAM PMAP_V2 3 (results zdr_int) 4 XP.zdr_pmap2_mapping (XP.mkpmap2_mapping (u32 program) (u32
    version) (u32 protocol) 0).
Definition rpc_pmap2_set_task `{!Holds Z R} e cb s (program version protocol port : Z) :=
  task e cb s PMAP_PROGRAM PMAP_V2 1 (results zdr_int) 4 XP.zdr_pmap2_mapping (XP.mkpmap2_mapping (u32 program) (u32
    version) (u32 protocol) (u32 port)).
Definition rpc_pmap2_unset_task `{!Holds Z R} e cb s (program version protocol port : Z) :=
  task e cb s PMAP_PROGRAM PMAP_V2 2 (results zdr_int) 4 XP.zdr_pmap2_mapping (XP.mkpmap2_mapping (u32 program) (u32
    version) (u32 protocol) (u32 port)).
Definition rpc_pmap2_dump_task `{!Holds XP.pmap2_dump_result R} e cb s := null_task e cb s PMAP_PROGRAM PMAP_V2 4 (results
  (XP.zdr_pmap2_dump_result nodes)) 8.
Definition rpc_pmap2_callit_task `{!Holds XP.pmap2_call_result R} e cb s (program version procedure : Z) (data : ptr)
  (datalen : Z) :=
  task e cb s PMAP_PROGRAM PMAP_V2 5 (results XP.zdr_pmap2_call_result) 24 XP.zdr_pmap2_call_args (XP.mkpmap2_call_args
    (u32 program) (u32 version) (u32 procedure) (data, u32 datalen)).
Definition rpc_pmap3_null_task e cb s := null_task e cb s PMAP_PROGRAM PMAP_V3 0 zdr_void 0.
Definition rpc_pmap3_set_task `{!Holds Z R} e cb s (args : XP.pmap3_mapping) :=
  task e cb s PMAP_PROGRAM PMAP_V3 1 (results zdr_int) 4 XP.zdr_pmap3_mapping args.
Definition rpc_pmap3_unset_task `{!Holds Z R} e cb s (args : XP.pmap3_mapping) :=
  task e cb s PMAP_PROGRAM PMAP_V3 2 (results zdr_int) 4 XP.zdr_pmap3_mapping args.
Definition rpc_pmap3_getaddr_task `{!Holds XP.pmap3_string_result R} e cb s (args : XP.pmap3_mapping) :=
  task e cb s PMAP_PROGRAM PMAP_V3 3 (results XP.zdr_pmap3_string_result) 8 XP.zdr_pmap3_mapping args.
Definition rpc_pmap3_dump_task `{!Holds XP.pmap3_dump_result R} e cb s := null_task e cb s PMAP_PROGRAM PMAP_V3 4 (results
  (XP.zdr_pmap3_dump_result nodes)) 8.
Definition rpc_pmap3_gettime_task `{!Holds Z R} e cb s := null_task e cb s PMAP_PROGRAM PMAP_V3 6 (results zdr_int) 4.
Definition rpc_pmap3_callit_task `{!Holds XP.rpcb_rmtcallres R} e cb s (program version procedure : Z) (data : ptr)
  (datalen : Z) :=
  task e cb s PMAP_PROGRAM PMAP_V3 5 (results XP.zdr_rpcb_rmtcallres) 24 XP.zdr_pmap3_call_args (XP.mkpmap3_call_args
    (u32 program) (u32 version) (u32 procedure) (data, u32 datalen)).
Definition rpc_pmap3_uaddr2taddr_task `{!Holds XP.pmap3_netbuf R} e cb s (uaddr : ptr) :=
  task e cb s PMAP_PROGRAM PMAP_V3 7 (results XP.zdr_pmap3_netbuf) 24 zdr_string uaddr.
Definition rpc_pmap3_taddr2uaddr_task `{!Holds XP.pmap3_string_result R} e cb s (args : XP.pmap3_netbuf) :=
  task e cb s PMAP_PROGRAM PMAP_V3 8 (results XP.zdr_pmap3_string_result) 8 XP.zdr_pmap3_netbuf args.
Definition rpc_pmap4_null_task e cb s := null_task e cb s PMAP_PROGRAM PMAP_V4 0 zdr_void 0.
Definition rpc_pmap4_set_task `{!Holds Z R} e cb s (args : XP.pmap4_mapping) :=
  task e cb s PMAP_PROGRAM PMAP_V4 1 (results zdr_int) 4 XP.zdr_pmap4_mapping args.
Definition rpc_pmap4_unset_task `{!Holds Z R} e cb s (args : XP.pmap4_mapping) :=
  task e cb s PMAP_PROGRAM PMAP_V4 2 (results zdr_int) 4 XP.zdr_pmap4_mapping args.
Definition rpc_pmap4_getaddr_task `{!Holds XP.pmap4_string_result R} e cb s (args : XP.pmap4_mapping) :=
  task e cb s PMAP_PROGRAM PMAP_V4 3 (results XP.zdr_pmap4_string_result) 8 XP.zdr_pmap4_mapping args.
Definition rpc_pmap4_dump_task `{!Holds XP.pmap4_dump_result R} e cb s := null_task e cb s PMAP_PROGRAM PMAP_V4 4 (results
  (XP.zdr_pmap4_dump_result nodes)) 8.
Definition rpc_pmap4_gettime_task `{!Holds Z R} e cb s := null_task e cb s PMAP_PROGRAM PMAP_V4 6 (results zdr_int) 4.
Definition rpc_pmap4_bcast_task `{!Holds XP.rpcb_rmtcallres R} e cb s (program version procedure : Z) (data : ptr)
  (datalen : Z) :=
  task e cb s PMAP_PROGRAM PMAP_V4 5 (results XP.zdr_rpcb_rmtcallres) 24 XP.zdr_pmap4_bcast_args (XP.mkpmap4_bcast_args
    (u32 program) (u32 version) (u32 procedure) (data, u32 datalen)).
Definition rpc_pmap4_uaddr2taddr_task `{!Holds XP.pmap4_netbuf R} e cb s (uaddr : ptr) :=
  task e cb s PMAP_PROGRAM PMAP_V4 7 (results XP.zdr_pmap4_netbuf) 24 zdr_string uaddr.
Definition rpc_pmap4_taddr2uaddr_task `{!Holds XP.pmap4_string_result R} e cb s (args : XP.pmap4_netbuf) :=
  task e cb s PMAP_PROGRAM PMAP_V4 8 (results XP.zdr_pmap4_string_result) 8 XP.zdr_pmap4_netbuf args.
Definition rpc_pmap4_getversaddr_task `{!Holds XP.pmap4_string_result R} e cb s (args : XP.pmap4_mapping) :=
  task e cb s PMAP_PROGRAM PMAP_V4 9 (results XP.zdr_pmap4_string_result) 8 XP.zdr_pmap4_mapping args.
Definition rpc_pmap4_indirect_task `{!Holds XP.rpcb_rmtcallres R} e cb s (program version procedure : Z) (data : ptr)
  (datalen : Z) :=
  task e cb s PMAP_PROGRAM PMAP_V4 10 (results XP.zdr_rpcb_rmtcallres) 24 XP.zdr_pmap4_indirect_args
    (XP.mkpmap4_indirect_args (u32 program) (u32 version) (u32 procedure) (data, u32 datalen)).
Definition rpc_pmap4_getstat_task `{!Holds (list XP.rpcb_stat) R} e cb s := null_task e cb s PMAP_PROGRAM PMAP_V4 12
  (results (XP.zdr_pmap4_stat_byvers nodes)) 240.
Definition rpc_pmap4_getaddrlist_task `{!Holds (option XP.rpcb_entry_list) R} e cb s (args : XP.pmap4_mapping) :=
  task e cb s PMAP_PROGRAM PMAP_V4 11 (results (XP.zdr_pmap4_entry_list_ptr nodes)) 8 XP.zdr_pmap4_mapping args.

(** *** nlm/nlm.c *)

Definition rpc_nlm4_null_task e cb s := null_task e cb s NLM_PROGRAM NLM_V4 0 zdr_void 0.
Definition rpc_nlm4_test_task `{!Holds XL.NLM4_TESTres R} e cb s (args : XL.NLM4_TESTargs) :=
  task e cb s NLM_PROGRAM NLM_V4 1 (results XL.zdr_NLM4_TESTres) 56 XL.zdr_NLM4_TESTargs args.
Definition rpc_nlm4_lock_task `{!Holds XL.NLM4_LOCKres R} e cb s (args : XL.NLM4_LOCKargs) :=
  task e cb s NLM_PROGRAM NLM_V4 2 (results XL.zdr_NLM4_LOCKres) 24 XL.zdr_NLM4_LOCKargs args.
Definition rpc_nlm4_cancel_task `{!Holds XL.NLM4_CANCres R} e cb s (args : XL.NLM4_CANCargs) :=
  task e cb s NLM_PROGRAM NLM_V4 3 (results XL.zdr_NLM4_CANCres) 24 XL.zdr_NLM4_CANCargs args.
Definition rpc_nlm4_unlock_task `{!Holds XL.NLM4_UNLOCKres R} e cb s (args : XL.NLM4_UNLOCKargs) :=
  task e cb s NLM_PROGRAM NLM_V4 4 (results XL.zdr_NLM4_UNLOCKres) 24 XL.zdr_NLM4_UNLOCKargs args.
Definition rpc_nlm4_share_task `{!Holds XL.NLM4_SHAREres R} e cb s (args : XL.NLM4_SHAREargs) :=
  task e cb s NLM_PROGRAM NLM_V4 20 (results XL.zdr_NLM4_SHAREres) 24 XL.zdr_NLM4_SHAREargs args.
Definition rpc_nlm4_unshare_task `{!Holds XL.NLM4_UNSHAREres R} e cb s (args : XL.NLM4_SHAREargs) :=
  task e cb s NLM_PROGRAM NLM_V4 21 (results XL.zdr_NLM4_UNSHAREres) 24 XL.zdr_NLM4_UNSHAREargs args.

(** *** nsm/nsm.c *)

Definition rpc_nsm1_null_task e cb s := null_task e cb s NSM_PROGRAM NSM_V1 0 zdr_void 0.
Definition rpc_nsm1_stat_task `{!Holds XS.NSM1_STATres R} e cb s (args : XS.NSM1_STATargs) :=
  task e cb s NSM_PROGRAM NSM_V1 1 (results XS.zdr_NSM1_STATres) 8 XS.zdr_NSM1_STATargs args.
Definition rpc_nsm1_mon_task `{!Holds XS.NSM1_MONres R} e cb s (args : XS.NSM1_MONargs) :=
  task e cb s NSM_PROGRAM NSM_V1 2 (results XS.zdr_NSM1_MONres) 8 XS.zdr_NSM1_MONargs args.
Definition rpc_nsm1_unmon_task `{!Holds XS.NSM1_UNMONres R} e cb s (args : XS.NSM1_UNMONargs) :=
  task e cb s NSM_PROGRAM NSM_V1 3 (results XS.zdr_NSM1_UNMONres) 4 XS.zdr_NSM1_UNMONargs args.
Definition rpc_nsm1_unmonall_task `{!Holds XS.NSM1_UNMONALLres R} e cb s (args : XS.NSM1_UNMONALLargs) :=
  task e cb s NSM_PROGRAM NSM_V1 4 (results XS.zdr_NSM1_UNMONALLres) 4 XS.zdr_NSM1_UNMONALLargs args.
Definition rpc_nsm1_simucrash_task e cb s := null_task e cb s NSM_PROGRAM NSM_V1 5 zdr_void 0.
Definition rpc_nsm1_notify_task e cb s (args : XS.NSM1_NOTIFYargs) :=
  task e cb s NSM_PROGRAM NSM_V1 6 zdr_void 0 XS.zdr_NSM1_NOTIFYargs args.

(** *** rquota/rquota.c *)

Definition rpc_rquota1_null_task e cb s := null_task e cb s RQUOTA_PROGRAM RQUOTA_V1 0 zdr_void 0.
Definition rpc_rquota1_getquota_task `{!Holds XQ.GETQUOTA1res R} e cb s (export : ptr) (uid : Z) :=
  task e cb s RQUOTA_PROGRAM RQUOTA_V1 1 (results XQ.zdr_GETQUOTA1res) 44 XQ.zdr_GETQUOTA1args (XQ.mkGETQUOTA1args
    export uid).
Definition rpc_rquota1_getactivequota_task `{!Holds XQ.GETQUOTA1res R} e cb s (export : ptr) (uid : Z) :=
  task e cb s RQUOTA_PROGRAM RQUOTA_V1 2 (results XQ.zdr_GETQUOTA1res) 44 XQ.zdr_GETQUOTA1args (XQ.mkGETQUOTA1args
    export uid).
Definition rpc_rquota2_null_task e cb s := null_task e cb s RQUOTA_PROGRAM RQUOTA_V2 0 zdr_void 0.
Definition rpc_rquota2_getquota_task `{!Holds XQ.GETQUOTA1res R} e cb s (export : ptr) (type uid : Z) :=
  task e cb s RQUOTA_PROGRAM RQUOTA_V2 1 (results XQ.zdr_GETQUOTA1res) 44 XQ.zdr_GETQUOTA2args (XQ.mkGETQUOTA2args
    export type uid).
Definition rpc_rquota2_getactivequota_task `{!Holds XQ.GETQUOTA1res R} e cb s (export : ptr) (type uid : Z) :=
  task e cb s RQUOTA_PROGRAM RQUOTA_V2 2 (results XQ.zdr_GETQUOTA1res) 44 XQ.zdr_GETQUOTA2args (XQ.mkGETQUOTA2args
    export type uid).

End tasks.
