(* ===== verification/TaskProps.v ===== *)
(** * TaskProps: what a task puts on the wire

    A task that succeeds queues one record: the call of its procedure, as RFC
    5531 has it, and its arguments, as [Codec] has them; a task that writes
    data sends them from where they lie. *)

From S2P Require Import Prelude Zdr RpcMsg Cursor Queue RpcState Context Send SendProps Record ServerProps.
From S2P Require Import Xdr Nfs3Xdr Nfs4Xdr MountXdr PortmapXdr LockXdr Tasks.

#[local] Open Scope zdr_scope.

Section tasks.
Context {R : Type} (zero_res : R).
Implicit Types (e : env) (cb : bool) (s : rpc R) (x : pdu R).

(** A context that can take a call of [n] bytes. *)
Record ready s (n : Z) : Prop := {
  rdy_wf : wf s;
  rdy_discard : no_discard s (r_outqueue s);
  rdy_tcp : r_udp s = false;
  rdy_next : r_next_id s ∉ all_ids s;
  rdy_timeout : fits_int (r_timeout s * r_retrans s) = true;
  rdy_xid : is_u32 (r_xid s);
  rdy_count : is_u32 (1 + blen (all_ids s));
  rdy_volume : is_u64 (n + 4 + volume s (all_ids s));
}.

(** The call of a procedure, by the credentials of the context. *)
Definition call_of s (program version procedure : Z) : call_body :=
  mkCall RPC_MSG_VERSION program version procedure
    (if procedure =? 0 then mkAuth AUTH_NONE NULL 0 else ah_cred (r_auth s)) (ah_verf (r_auth s)).

Definition wire_of {A} (p : proc A) `{!Codec p} (a : A) s program version procedure : bytes :=
  call_wire (r_xid s) (call_of s program version procedure) ++ wire p a.

(** The context with the PDU [x], the next one, that has not been queued. *)
Definition called x s : rpc R :=
  put_pdu (r_next_id s) x (set_r_next_id (r_next_id s + 1)%N (set_r_xid (u32 (r_xid s + 1)) s)).

Lemma called_again x x' s : put_pdu (r_next_id s) x' (called x s) = called x' s.
Proof. unfold called, put_pdu. cbn. by rewrite insert_insert_eq. Qed.

Lemma get_called x s : get_pdu (called x s) (r_next_id s) = Some x.
Proof. apply get_put_eq. Qed.

Lemma called_ready x s n : ready s n -> wf (called x s).
Proof.
  intros [W _ _ Hp _ _ _ _]. apply wf_put; [|exact Hp]. by apply (wf_ids s _ W).
Qed.

Lemma called_stream x s n : ready s n -> stream (called x s) = stream s.
Proof.
  intros H. unfold stream, called. f_equal. etrans; [|reflexivity].
  refine (pending_put (set_r_next_id _ (set_r_xid _ s)) _ _ _ _). intros Hin. apply (rdy_next _ _ H). unfold all_ids. set_solver.
Qed.

Lemma called_discard x s n : ready s n -> no_discard (called x s) (r_outqueue (called x s)).
Proof.
  intros H q y Hq. change (r_outqueue (called x s)) with (r_outqueue s) in Hq.
  unfold called. rewrite get_put_ne; [by apply (rdy_discard _ _ H)|].
  intros Eq. apply (rdy_next _ _ H). rewrite Eq. unfold all_ids. set_solver.
Qed.

Lemma called_volume x s n : ready s n -> volume (called x s) (all_ids (called x s)) = volume s (all_ids s).
Proof.
  intros H. apply volume_eq. intros q Hq. unfold total_of, called. rewrite get_put_ne; [done|].
  intros Eq. apply (rdy_next _ _ H). by rewrite Eq.
Qed.

(** A PDU that can be finished is queued. *)
Lemma queue_called e x x1 x2 n s : ready s n ->
  pdu_set_timeout (called x s) x (e_now e) = Some x1 -> finish_pdu x1 = Some (x2, n) ->
  pdu_ok x2 -> num_done (p_out x2) = 0 -> p_discard x2 = false -> total_size (p_out x2) = n + 4 ->
  exists s' k, queue e (called x s) (r_next_id s) = Some (s', Some (r_next_id s)) /\ wf s' /\
    stream s' = stream s ++ addrs_of (vecs (p_out x2)) /\ r_next_id s ∈ all_ids s' /\
    get_pdu s' (r_next_id s) = Some (with_done k x2).
Proof.
  intros H Ht Hf Hk Hnd Hdis Htot. pose proof H as [W Nd Hudp Hp Hfit Hx H32 H64].
  destruct (queue_finished (e_now e) (e_send_ok e) (e_writes e) (called x s) (r_next_id s) x x1 x2 n)
    as (s' & k & E & W' & Hst & Hin & Hg); try done.
  - by apply called_ready with n.
  - by apply called_discard with n.
  - apply get_called.
  - by rewrite Htot, called_volume with (n := n).
  - exists s', k. unfold queue. rewrite E. cbn. rewrite <- (called_stream x s n H). done.
Qed.

(** What a task leaves behind: the record of [w], queued at [a]. *)
Record sent s (a : Z) (w : bytes) (out : option (rpc R * option id)) : Prop := {
  sent_queued : exists s' y, out = Some (s', Some (r_next_id s)) /\ wf s' /\
    stream s' = stream s ++ seqZ a (blen w + 4) /\ r_next_id s ∈ all_ids s' /\
    get_pdu s' (r_next_id s) = Some y /\ carries y w /\ p_data y = a
}.

(** A PDU that has been allocated, with the call and [w] marshalled into it. *)
Record filled s x (a : Z) (hint : Z) (c : call_body) (w : bytes) : Prop := {
  fi_fresh : fresh x a (blen (call_wire (r_xid s) c)) (blen (call_wire (r_xid s) c ++ w));
  fi_zdr : p_zdr x = put (call_handle hint) (call_wire (r_xid s) c ++ w);
  fi_discard : p_discard x = false;
}.

Lemma allocated e cb s prg vrs prc (decode : proc R) `{!Codec decode} bufsize hint iovcnt n :
  let c := call_of s prg vrs prc in
  ready s n -> call_ok c -> 0 <= hint -> hint + ZDR_ENCODEBUF_MINSIZE + 16 <= INT_MAX ->
  blen (call_wire (r_xid s) c) <= ZDR_ENCODEBUF_MINSIZE + hint - 4 -> (iovcnt <= RPC_MAX_VECTORS)%nat ->
  exists x, rpc_allocate_pdu2 zero_res s (e_addr e) prg vrs prc cb decode bufsize hint iovcnt =
      Some (called x s, Some (r_next_id s)) /\ get_pdu (called x s) (r_next_id s) = Some x /\ filled s x (e_addr e) hint c [].
Proof.
  intros c H Hc Hh Hi Hn Hv. pose proof (rdy_xid _ _ H) as Hx.
  destruct (allocate_pdu_encodes_call zero_res s (e_addr e) prg vrs prc cb decode bufsize hint iovcnt)
    as (s1 & x & E & -> & Hg & Hf & Hz & _ & Hxid & Hd & _); try done.
  exists x. split; [done|]. split; [done|]. by split; rewrite ?app_nil_r.
Qed.

(** Marshalling more into a handle of a call. *)
Lemma encoded {A} (p : proc A) `{!Codec p} a hint b : okv p a -> blen b mod 4 = 0 ->
  0 <= hint -> hint + ZDR_ENCODEBUF_MINSIZE + 16 <= INT_MAX -> blen b + blen (wire p a) <= ZDR_ENCODEBUF_MINSIZE + hint - 4 ->
  p (put (call_handle hint) b) a = Ret a (put (call_handle hint) (b ++ wire p a)).
Proof.
  intros Ha Hb Hh Hi Hn. pose proof (blen_nonneg b). pose proof (blen_nonneg (wire p a)).
  pose proof (call_handle_room hint _ Hh Hi Hn) as Hroom.
  assert (Hr : room (put (call_handle hint) b) (blen (wire p a))) by by apply room_put.
  rewrite codec_enc by done.
  rewrite put_app; [done|exact (room_pos _ _ Hroom)|rewrite <- Z.add_assoc; exact (room_buf _ _ Hroom)].
Qed.

Lemma marshal_here {A} (p : proc A) a s x z z' : p_zdr x = z -> p z a = Ret a z' ->
  marshal p a (called x s) (r_next_id s) = Some (called (set_p_zdr z' x) s, true).
Proof. intros Hz E. unfold marshal. rewrite get_called. cbn [mbind option_bind]. by rewrite Hz, E, called_again. Qed.

(** Marshalling more into a PDU. *)
Lemma marshalled {A} (p : proc A) `{!Codec p} a s x addr hint c w :
  filled s x addr hint c w -> is_u32 (r_xid s) -> call_ok c -> blen w mod 4 = 0 -> okv p a ->
  0 <= hint -> hint + ZDR_ENCODEBUF_MINSIZE + 16 <= INT_MAX ->
  blen (call_wire (r_xid s) c ++ w ++ wire p a) <= ZDR_ENCODEBUF_MINSIZE + hint - 4 ->
  let x' := set_p_zdr (put (call_handle hint) (call_wire (r_xid s) c ++ w ++ wire p a)) x in
  marshal p a (called x s) (r_next_id s) = Some (called x' s, true) /\ filled s x' addr hint c (w ++ wire p a).
Proof.
  intros [Hf Hz Hd] Hx Hc Hw Ha Hh Hi Hn x'. pose proof (call_wire_align (r_xid s) c Hx Hc). set (cw := call_wire (r_xid s) c) in *.
  pose proof (blen_nonneg w). pose proof (blen_nonneg (wire p a)). pose proof (blen_nonneg cw).
  rewrite app_assoc, blen_app in Hn. split.
  { apply (marshal_here p a s x _ _ Hz). rewrite (app_assoc cw). apply encoded; try done. rewrite blen_app. div_lia. }
  split; [|done..]. fold cw. destruct Hf as [F1 F2 F3 F4 F5 F6 F7 F8]. rewrite app_assoc, blen_app.
  unfold ZDR_ENCODEBUF_MINSIZE, INT_MAX in *. rewrite blen_app in F6.
  split; try done; [cbn; by rewrite app_assoc, blen_app|rewrite blen_app; lia|unfold INT_MAX; lia].
Qed.

(** The vectors and the marker do not change what was marshalled. *)
Lemma filled_bytes hint w n : 0 <= hint -> hint + ZDR_ENCODEBUF_MINSIZE + 16 <= INT_MAX ->
  n = blen w -> n <= ZDR_ENCODEBUF_MINSIZE + hint - 4 -> read_at 0 n (buf (put (call_handle hint) w)) = Some w.
Proof.
  intros Hh Hi -> Hn. pose proof (call_handle_room hint _ Hh Hi Hn) as Hroom.
  apply has_at_read, splice_has; [done|exact (room_buf _ _ Hroom)].
Qed.

Lemma queue_filled e s x hint c w : let wr := call_wire (r_xid s) c ++ w in
  ready s (blen wr) -> filled s x (e_addr e) hint c w ->
  0 <= hint -> hint + ZDR_ENCODEBUF_MINSIZE + 16 <= INT_MAX -> blen wr <= ZDR_ENCODEBUF_MINSIZE + hint - 4 ->
  sent s (e_addr e) wr (queue e (called x s) (r_next_id s)).
Proof.
  intros wr H [Hf Hz Hd] Hh Hi Hn. destruct (timeouts_set (called x s) x (e_now e) (rdy_timeout _ _ H)) as [x1 Ht].
  destruct (pdu_set_timeout_fresh _ _ _ _ _ _ _ Ht Hf) as (Hf1 & Hxid1 & Hd1 & Hz1).
  destruct (finish_pdu_spec _ _ _ _ Hf1) as (x2 & E2 & Hk & Hnd & Htot & Hx2 & Hd2 & Hadd & Hm & Hz2).
  destruct (queue_called e x x1 x2 (blen wr) s) as (s' & k & Eq & W' & Hst & Hin & Hg'); try done; [by rewrite Hd2, Hd1|].
  split. exists s', (with_done k x2). split; [done|]. split; [done|]. rewrite Hadd in Hst. split; [done|]. split; [done|].
  split; [done|]. assert (Hda : p_data x2 = e_addr e).
  { rewrite (finish_pdu_data _ _ _ E2). by destruct Hf1. }
  split; [|done]. split; cbn; [by rewrite Hm| |by rewrite Hadd, Hda].
  rewrite Hz2, Hz1, Hz. by apply filled_bytes.
Qed.

(** ** Tasks with arguments *)

Section task.
Context {A} (p : proc A) `{!Codec p} (a : A) (e : env) (cb : bool) (s : rpc R) (prg vrs prc : Z) (decode : proc R)
  `{!Codec decode} (bufsize : Z).
Let w := wire_of p a s prg vrs prc.
Hypothesis (w_ready : ready s (blen w)) (c_ok : call_ok (call_of s prg vrs prc)) (a_ok : okv p a).

Lemma head_fits : blen (call_wire (r_xid s) (call_of s prg vrs prc)) <= blen w.
Proof. unfold w, wire_of. rewrite blen_app. pose proof (blen_nonneg (wire p a)). lia. Qed.

(** The PDU of a procedure, with its arguments marshalled into it. *)
Lemma prepared hint iovcnt :
  0 <= hint -> hint + ZDR_ENCODEBUF_MINSIZE + 16 <= INT_MAX -> blen w <= ZDR_ENCODEBUF_MINSIZE + hint - 4 ->
  (iovcnt <= RPC_MAX_VECTORS)%nat ->
  exists x x', rpc_allocate_pdu2 zero_res s (e_addr e) prg vrs prc cb decode bufsize hint iovcnt =
      Some (called x s, Some (r_next_id s)) /\
    marshal p a (called x s) (r_next_id s) = Some (called x' s, true) /\
    filled s x' (e_addr e) hint (call_of s prg vrs prc) (wire p a).
Proof.
  intros Hh Hi Hn Hv. pose proof head_fits.
  destruct (allocated e cb s prg vrs prc decode bufsize hint iovcnt (blen w)) as (x & E & Hg & Hx); try done; [lia|].
  destruct (marshalled p a s x (e_addr e) hint _ [] Hx) as [E' Hx']; try done; [apply w_ready|]. eauto.
Qed.

Lemma task2_sends hint :
  0 <= hint -> hint + ZDR_ENCODEBUF_MINSIZE + 16 <= INT_MAX -> blen w <= ZDR_ENCODEBUF_MINSIZE + hint - 4 ->
  sent s (e_addr e) w (task2 zero_res e cb s prg vrs prc decode bufsize hint p a).
Proof.
  intros Hh Hi Hn. destruct (prepared hint 0 Hh Hi Hn (Nat.le_0_l _)) as (x & x' & E & E' & Hx').
  unfold task2. rewrite E. cbn [mbind option_bind]. rewrite E'. cbn [mbind option_bind]. by apply (queue_filled _ _ _ _ _ _ w_ready Hx').
Qed.

Lemma task_sends : blen w <= ZDR_ENCODEBUF_MINSIZE - 4 -> sent s (e_addr e) w (task zero_res e cb s prg vrs prc decode bufsize p a).
Proof. intros. apply task2_sends; [done|by vm_compute|lia]. Qed.

Lemma readv_sends l : l <> [] -> (length l <= RPC_MAX_VECTORS)%nat -> Forall positive l -> is_u64 (blen (addrs_of l)) ->
  blen w <= ZDR_ENCODEBUF_MINSIZE - 4 ->
  sent s (e_addr e) w (readv_task zero_res e cb s prg vrs prc decode bufsize p a (Some l)).
Proof.
  intros Hl Hlen Hpos Hfit Hn. assert (Hi : 0 + ZDR_ENCODEBUF_MINSIZE + 16 <= INT_MAX) by done.
  destruct (prepared 0 0 (Z.le_refl 0) Hi Hn (Nat.le_0_l _)) as (x & x' & E & E' & [[F1 F2 F3 F4 F5 F6 F7 F8] Hz Hd]).
  unfold readv_task. assert (readv_refused s (Some l) = false) as ->.
  { unfold readv_refused. rewrite (rdy_tcp _ _ w_ready), andb_false_r, bool_decide_false by lia. by destruct l. }
  rewrite E. cbn [mbind option_bind]. rewrite E'. cbn [mbind option_bind default].
  unfold read_into. rewrite get_called. cbn [mbind option_bind]. rewrite called_again.
  refine (queue_filled e s _ 0 _ _ w_ready _ (Z.le_refl 0) Hi Hn).
  split; [split; [exact F1|exact F2|exact F3|exact F4|exact F5|exact F6|exact F7|]|exact Hz|exact Hd].
  right. exact (proj1 (init_cursor_wf l Hpos Hfit)).
Qed.
End task.
End tasks.
