(* ===== verification/Path.v ===== *)
(** * Path: normalising path names (lib/libnfs.c)

    [nfs_normalize_path] edits a C string in place: it looks for a pattern
    with strstr and copies the rest of the string over what it removes.  A
    string is the list of its bytes before the NUL; moving the rest of the
    string [n] bytes down from offset [i] is [cut i n].

    The file also has what such a function means: a path is the list of its
    components, and [resolve] walks over them with a stack. *)

From S2P Require Import Prelude.

Abbreviation slash := 47.
Abbreviation dot := 46.

(** ** The code *)

Fixpoint starts_with (pat s : bytes) : bool :=
  match pat, s with
  | [], _ => true
  | x :: pat, y :: s => (x =? y) && starts_with pat s
  | _ :: _, [] => false
  end.

Definition beq (a b : bytes) : bool := bool_decide (a = b).

(** [strstr]: the offset of the first occurrence. *)
Fixpoint strstr (s pat : bytes) : option nat :=
  if starts_with pat s then Some O
  else match s with
       | [] => None
       | _ :: s => match strstr s pat with Some i => Some (S i) | None => None end
       end.

Definition cut (i n : nat) (s : bytes) : bytes := take i s ++ drop (i + n) s.

(** The loops that remove [pat]'s first [n] bytes wherever [pat] occurs. *)
Fixpoint remove_all (fuel : nat) (pat : bytes) (n : nat) (path : bytes) : option bytes :=
  match strstr path pat with
  | None => Some path
  | Some i => match fuel with O => None | S fuel => remove_all fuel pat n (cut i n path) end
  end.

(** [while ( *tmp != '/') tmp--], from [i - 1]; leaving the string has no
    result. *)
Fixpoint back_to_slash (i : nat) (path : bytes) : option nat :=
  match i with
  | O => None
  | S i => match path !! i with
           | Some c => if c =? slash then Some i else back_to_slash i path
           | None => None
           end
  end.

Definition dotdot : bytes := [dot; dot].
Definition parent_pat : bytes := slash :: dotdot ++ [slash].

(** "/string/../ -> /", until there is none or one at the start. *)
Fixpoint remove_parents (fuel : nat) (path : bytes) : option (bytes * Z) :=
  match strstr path parent_pat with
  | None => Some (path, 0)
  | Some i =>
      if starts_with parent_pat path then Some (path, -1)
      else match fuel with
           | O => None
           | S fuel => t ← back_to_slash i path; remove_parents fuel (cut t (i + 3 - t) path)
           end
  end.

(** The end of the path: a trailing "/", "/." or "/..". *)
Definition trim_slash (path : bytes) : bytes :=
  let len := length path in
  if (1 <? len)%nat && bool_decide (path !! (len - 1)%nat = Some slash) then take (len - 1) path else path.

Definition trim_dot (path : bytes) : bytes :=
  let len := length path in
  if (2 <=? len)%nat && beq (drop (len - 2) path) [slash; dot] then take (len - 2) path else path.

Definition trim_dotdot (path : bytes) : option (bytes * Z) :=
  let len := length path in
  if beq path (slash :: dotdot) then Some (path, -1)
  else if (3 <=? len)%nat && beq (drop (len - 3) path) (slash :: dotdot)
  then t ← back_to_slash (len - 3) path; Some (take t path, 0)
  else Some (path, 0).

(** The path after the call, and what the function returns. *)
Definition nfs_normalize_path (path : bytes) : option (bytes * Z) :=
  let fuel := length path in
  path ← remove_all fuel [slash; slash] 1 path;
  path ← remove_all fuel [slash; dot; slash] 2 path;
  if starts_with parent_pat path then Some (path, -1)
  else if negb (bool_decide (path !! O = Some slash)) then Some (path, -1)
  else
    '(path, r) ← remove_parents fuel path;
    if r <? 0 then Some (path, r)
    else
      let path := trim_slash path in
      if bool_decide (path = []) then Some (path, -1) else trim_dotdot (trim_dot path).

(** ** What it computes *)

(** A path is a list of components; there is a slash before each. *)
Fixpoint split_slash (s : bytes) : list bytes :=
  match s with
  | [] => [[]]
  | c :: s =>
      if c =? slash then [] :: split_slash s
      else match split_slash s with
           | [] => [[c]]
           | x :: l => (c :: x) :: l
           end
  end.

Definition render (cs : list bytes) : bytes := concat (map (fun c => slash :: c) cs).

(** Walking over the components, with those of the directory reached so far
    on a stack; there is nothing above the root. *)
Fixpoint resolve (stack cs : list bytes) : option (list bytes) :=
  match cs with
  | [] => Some (rev stack)
  | c :: cs =>
      if beq c [] || beq c [dot] then resolve stack cs
      else if beq c dotdot then match stack with [] => None | _ :: stack => resolve stack cs end
      else resolve (c :: stack) cs
  end.

Definition name (c : bytes) : Prop := slash ∉ c.
Definition plain (c : bytes) : Prop := name c /\ c <> [] /\ c <> [dot] /\ c <> dotdot.

(** ** Components and patterns *)

Lemma beq_true a b : beq a b = true <-> a = b.
Proof. unfold beq. apply bool_decide_eq_true. Qed.

Lemma beq_refl a : beq a a = true.
Proof. by apply beq_true. Qed.

Lemma beq_false a b : a <> b -> beq a b = false.
Proof. intros H. by apply bool_decide_eq_false. Qed.

Lemma starts_with_spec pat s : starts_with pat s = true <-> exists r, s = pat ++ r.
Proof.
  revert s. induction pat as [|x pat IH]; intros s; cbn; [by split; [exists s|]|].
  destruct s as [|y s]; [split; [done|by intros [r H]]|].
  rewrite andb_true_iff, Z.eqb_eq, IH. split.
  - intros [-> [r ->]]. by exists r.
  - intros [r H]. injection H as -> ->. eauto.
Qed.

Lemma render_app a b : render (a ++ b) = render a ++ render b.
Proof. unfold render. by rewrite map_app, concat_app. Qed.

Lemma render_cons c cs : render (c :: cs) = slash :: c ++ render cs.
Proof. done. Qed.

Lemma split_names s : Forall name (split_slash s).
Proof.
  induction s as [|c s IH]; cbn; [by repeat constructor; apply not_elem_of_nil|].
  destruct (Z.eqb_spec c slash) as [->|Hc]; [constructor; [by apply not_elem_of_nil|done]|].
  destruct (split_slash s) as [|x l].
  - constructor; [|done]. intros H%list_elem_of_singleton. congruence.
  - apply Forall_cons in IH as [Hx Hl]. constructor; [|done].
    intros [H|H]%elem_of_cons; [congruence|done].
Qed.

Lemma split_nonempty s : split_slash s <> [].
Proof. destruct s as [|c s]; cbn; [done|]. destruct (c =? slash); [done|]. by destruct (split_slash s). Qed.

Lemma render_split s : render (split_slash s) = slash :: s.
Proof.
  induction s as [|c s IH]; cbn [split_slash]; [done|].
  destruct (Z.eqb_spec c slash) as [->|Hc]; [by rewrite render_cons, IH|].
  pose proof (split_nonempty s). destruct (split_slash s) as [|x l]; [done|].
  rewrite render_cons in *. cbn. injection IH as ->. done.
Qed.

(** Two names before what is empty or begins with a slash are the same. *)
Lemma name_inj x c r r' : name x -> name c -> x ++ slash :: r = c ++ r' -> (r' = [] \/ exists q, r' = slash :: q) ->
  x = c /\ r' = slash :: r.
Proof.
  revert c. induction x as [|a x IH]; intros c Hx Hc E Hr.
  - destruct c as [|b c]; [done|]. injection E as <- E. by destruct Hc; left.
  - destruct c as [|b c]; cbn in E.
    + destruct Hr as [->|[q ->]]; [done|]. injection E as -> E. by destruct Hx; left.
    + injection E as <- E. destruct (IH c) as [-> ->]; try done.
      * intros H. apply Hx. by right.
      * intros H. apply Hc. by right.
Qed.

Lemma render_head cs : render cs = [] \/ exists q, render cs = slash :: q.
Proof. destruct cs; [by left|right; by eexists]. Qed.

Lemma starts_with_render x c cs : name x -> name c ->
  starts_with (slash :: x ++ [slash]) (render (c :: cs)) = beq x c && negb (bool_decide (cs = [])).
Proof.
  intros Hx Hc. apply eq_true_iff_eq. rewrite starts_with_spec, andb_true_iff, beq_true, negb_true_iff, bool_decide_eq_false.
  rewrite render_cons. split.
  - intros [r E]. cbn in E. injection E as E. rewrite <- app_assoc in E. cbn in E. symmetry in E.
    destruct (name_inj x c r (render cs)) as [-> Hr]; [done|done|done|apply render_head|].
    split; [done|]. by intros ->.
  - intros [-> Hn]. destruct cs as [|d cs]; [done|]. exists (d ++ render cs).
    cbn. by rewrite <- app_assoc.
Qed.

Lemma strstr_skip c s pat : name c -> strstr (c ++ s) (slash :: pat) =
  match strstr s (slash :: pat) with Some i => Some (length c + i)%nat | None => None end.
Proof.
  induction c as [|a c IH]; intros Hc; cbn [app length].
  - by destruct (strstr s (slash :: pat)).
  - cbn [strstr starts_with]. destruct (Z.eqb_spec slash a) as [<-|Ha]; [by destruct Hc; left|]. cbn.
    rewrite IH by (intros H; apply Hc; by right). by destruct (strstr s (slash :: pat)).
Qed.

Lemma strstr_render_cons x c cs : name x -> name c ->
  strstr (render (c :: cs)) (slash :: x ++ [slash]) =
    if beq x c && negb (bool_decide (cs = [])) then Some O
    else match strstr (render cs) (slash :: x ++ [slash]) with
         | Some i => Some (length (render [c]) + i)%nat
         | None => None
         end.
Proof.
  intros Hx Hc. rewrite render_cons. cbn [strstr]. rewrite <- render_cons, starts_with_render by done.
  destruct (beq x c && _); [done|]. rewrite strstr_skip by done.
  destruct (strstr (render cs) _); [|done]. cbn. by rewrite app_nil_r.
Qed.

(** Where the component [x] first occurs, not as the last. *)
Lemma strstr_render_some x a b : name x -> Forall name a -> x ∉ a -> b <> [] ->
  strstr (render (a ++ x :: b)) (slash :: x ++ [slash]) = Some (length (render a)).
Proof.
  intros Hx Ha Hn Hb. induction Ha as [|c a Hc Ha IH]; cbn [app].
  - rewrite strstr_render_cons by done. rewrite beq_refl, bool_decide_false by done. done.
  - apply not_elem_of_cons in Hn as [Hxc Hn]. rewrite strstr_render_cons by done.
    rewrite beq_false by done. cbn [andb]. rewrite IH by done.
    change (c :: a) with ([c] ++ a). by rewrite render_app, length_app.
Qed.

Lemma strstr_render_none x a l : name x -> Forall name (a ++ [l]) -> x ∉ a ->
  strstr (render (a ++ [l])) (slash :: x ++ [slash]) = None.
Proof.
  intros Hx Ha Hn. induction a as [|c a IH]; cbn [app] in *; apply Forall_cons in Ha as [Hc Ha].
  - rewrite strstr_render_cons by done. rewrite bool_decide_true, andb_false_r by done. done.
  - apply not_elem_of_cons in Hn as [Hxc Hn]. rewrite strstr_render_cons by done.
    rewrite beq_false by done. cbn [andb]. by rewrite IH.
Qed.

(** ** Removing a component everywhere but at the end *)

Fixpoint strip (x : bytes) (cs : list bytes) : list bytes :=
  match cs with
  | [] => []
  | [c] => [c]
  | c :: cs => if beq x c then strip x cs else c :: strip x cs
  end.

Lemma strip_snoc x a l : strip x (a ++ [l]) = filter (fun c => x <> c) a ++ [l].
Proof.
  induction a as [|c a IH]; [done|]. cbn [app strip].
  destruct (a ++ [l]) as [|d cs] eqn:E; [by destruct a|]. rewrite IH.
  destruct (decide (x = c)) as [->|H].
  - by rewrite beq_refl, filter_cons_False by auto.
  - by rewrite beq_false, filter_cons_True by done.
Qed.

Lemma render_length a : (length a <= length (render a))%nat.
Proof. induction a as [|c a IH]; [done|]. rewrite render_cons. cbn. rewrite length_app. lia. Qed.

Lemma take_render a b : take (length (render a)) (render (a ++ b)) = render a.
Proof. by rewrite render_app, take_app_length. Qed.

Lemma drop_render a b : drop (length (render a)) (render (a ++ b)) = render b.
Proof. by rewrite render_app, drop_app_length. Qed.

Lemma cut_render a c b : cut (length (render a)) (length (render c)) (render (a ++ c ++ b)) = render (a ++ b).
Proof.
  unfold cut. rewrite take_render, <- drop_drop, drop_render, drop_render. by rewrite render_app.
Qed.

Lemma render_one x : length (render [x]) = S (length x).
Proof. cbn. by rewrite app_nil_r. Qed.

Lemma first_occurrence {A} `{EqDecision A} (x : A) l : x ∈ l -> exists a b, l = a ++ x :: b /\ x ∉ a.
Proof.
  induction l as [|y l IH]; intros H; [by apply elem_of_nil in H|].
  destruct (decide (x = y)) as [->|Hn]; [exists [], l; split; [done|apply not_elem_of_nil]|].
  apply elem_of_cons in H as [H|H]; [done|]. destruct (IH H) as (a & b & -> & Ha).
  exists (y :: a), b. split; [done|]. by apply not_elem_of_cons.
Qed.

Lemma filter_absent x (a : list bytes) : x ∉ a -> filter (fun c => x <> c) a = a.
Proof.
  intros H. induction a as [|c a IH]; [done|]. apply not_elem_of_cons in H as [H1 H2].
  rewrite filter_cons_True by done. by rewrite IH.
Qed.

Lemma remove_all_strips x fuel a l : name x -> Forall name (a ++ [l]) -> (length a <= fuel)%nat ->
  remove_all fuel (slash :: x ++ [slash]) (S (length x)) (render (a ++ [l])) = Some (render (strip x (a ++ [l]))).
Proof.
  intros Hx. revert a. induction fuel as [|fuel IH]; intros a Ha Hf; rewrite strip_snoc.
  - destruct a; [|cbn in Hf; lia]. cbn [remove_all]. rewrite strstr_render_none; [done..|apply not_elem_of_nil].
  - destruct (decide (x ∈ a)) as [Hin|Hn].
    + apply first_occurrence in Hin as (a1 & a2 & -> & Hn). cbn [remove_all].
      rewrite <- app_assoc in *. cbn [app] in *.
      rewrite strstr_render_some; [|done|by apply Forall_app in Ha as [? _]|done|by destruct a2].
      rewrite <- render_one. change (x :: a2 ++ [l]) with ([x] ++ a2 ++ [l]). rewrite cut_render, render_one.
      rewrite app_assoc, IH.
      * rewrite strip_snoc, !filter_app, filter_cons_False by auto. done.
      * rewrite <- app_assoc. apply Forall_app in Ha as [H1 H2]. apply Forall_cons in H2 as [_ H2].
        by apply Forall_app.
      * rewrite length_app in *. cbn in Hf. lia.
    + cbn [remove_all]. rewrite strstr_render_none by done. by rewrite filter_absent.
Qed.

(** ** Going up *)

Lemma resolve_app a b st : Forall plain a -> resolve st (a ++ b) = resolve (rev a ++ st) b.
Proof.
  intros Ha. revert st. induction Ha as [|c a (_ & H1 & H2 & H3) Ha IH]; intros st; [done|].
  cbn [app resolve]. rewrite !beq_false by done. cbn [orb rev]. by rewrite IH, <- app_assoc.
Qed.

Lemma resolve_plain a : Forall plain a -> resolve [] a = Some a.
Proof.
  intros Ha. pose proof (resolve_app a [] [] Ha) as E. rewrite app_nil_r in E. rewrite E. cbn [resolve].
  by rewrite app_nil_r, rev_involutive.
Qed.

Lemma back_to_slash_name p c r : name c -> back_to_slash (length (p ++ slash :: c)) (p ++ slash :: c ++ r) = Some (length p).
Proof.
  intros Hc. revert r. induction c as [|x c IH] using rev_ind; intros r.
  - rewrite length_app, Nat.add_1_r. cbn [back_to_slash]. by rewrite lookup_app_r, Nat.sub_diag by lia.
  - assert (name c /\ x <> slash) as [Hc' Hx].
    { split; [intros H; apply Hc, elem_of_app; by left|]. intros ->. apply Hc, elem_of_app. right. by left. }
    rewrite <- app_assoc. change (slash :: c ++ [x]) with ((slash :: c) ++ [x]).
    rewrite app_assoc, length_app, Nat.add_1_r. cbn [back_to_slash].
    rewrite (app_comm_cons c), (app_assoc p), lookup_app_r, Nat.sub_diag by lia. cbn.
    destruct (Z.eqb_spec x slash); [done|]. rewrite <- app_assoc. by apply IH.
Qed.

Lemma back_to_parent a c b : name c ->
  back_to_slash (length (render (a ++ [c]))) (render ((a ++ [c]) ++ b)) = Some (length (render a)).
Proof.
  intros Hc. rewrite !render_app, render_cons. cbn [render map concat]. rewrite app_nil_r, <- app_assoc.
  by apply back_to_slash_name.
Qed.

Lemma starts_with_parent cs : Forall name cs ->
  starts_with parent_pat (render cs) = match cs with c :: _ :: _ => beq dotdot c | _ => false end.
Proof.
  destruct cs as [|c [|d cs]]; intros H; [done| |]; apply Forall_cons in H as [Hc H];
    (etransitivity; [apply (starts_with_render dotdot); [|done]|]).
  1,3: intros Hd; by repeat (apply elem_of_cons in Hd as [Hd|Hd]; [done|]); apply elem_of_nil in Hd.
  - by rewrite bool_decide_true, andb_false_r.
  - rewrite bool_decide_false by done. by rewrite andb_true_r.
Qed.

Lemma name_dotdot : name dotdot.
Proof. apply (bool_decide_eq_true_1 (slash ∉ dotdot)). reflexivity. Qed.

Lemma name_dot : name [dot].
Proof. apply (bool_decide_eq_true_1 (slash ∉ [dot])). reflexivity. Qed.

Lemma resolve_dotdot_end a c b : Forall plain (a ++ [c]) -> resolve [] ((a ++ [c]) ++ dotdot :: b) = resolve [] (a ++ b).
Proof.
  intros H. pose proof H as [Ha _]%Forall_app. rewrite !resolve_app by done. cbn [resolve].
  rewrite !beq_false, beq_refl by done. cbn [orb]. by rewrite rev_app_distr.
Qed.

Lemma strstr_parent_none a l : Forall name (a ++ [l]) -> dotdot ∉ a -> strstr (render (a ++ [l])) parent_pat = None.
Proof. exact (strstr_render_none dotdot a l name_dotdot). Qed.

Lemma strstr_parent_some a b : Forall name a -> dotdot ∉ a -> b <> [] ->
  strstr (render (a ++ dotdot :: b)) parent_pat = Some (length (render a)).
Proof. exact (strstr_render_some dotdot a b name_dotdot). Qed.

(** The loop does what the stack does, the last component being left alone. *)
Lemma remove_parents_resolves fuel l : forall cs,
  Forall name (cs ++ [l]) -> Forall (fun c => c <> [] /\ c <> [dot]) cs -> (length cs <= fuel)%nat ->
  match resolve [] cs with
  | None => exists p, remove_parents fuel (render (cs ++ [l])) = Some (p, -1)
  | Some st => remove_parents fuel (render (cs ++ [l])) = Some (render (st ++ [l]), 0) /\ Forall plain st
  end.
Proof.
  induction fuel as [|fuel IH]; intros cs Hn Hc Hf.
  { destruct cs; [|cbn in Hf; lia]. split; [|done]. cbn [remove_parents].
    by rewrite (strstr_parent_none []) by (done || apply not_elem_of_nil). }
  assert (Hpl : forall a, dotdot ∉ a -> (forall c, c ∈ a -> c ∈ cs) -> Forall plain a).
  { intros a Ha Hin. apply Forall_forall. intros c Hca. apply Forall_app in Hn as [Hn _].
    pose proof (proj1 (Forall_forall _ _) Hn c (Hin c Hca)). pose proof (proj1 (Forall_forall _ _) Hc c (Hin c Hca)) as [? ?].
    split; [done|]. split; [done|]. split; [done|]. by intros ->. }
  destruct (decide (dotdot ∈ cs)) as [Hin|Hno].
  - apply first_occurrence in Hin as (a & b & -> & Ha).
    assert (Hp : Forall plain a) by (apply Hpl; [done|]; intros c Hx; apply elem_of_app; by left).
    rewrite <- app_assoc in Hn |- *. cbn [app] in Hn |- *. cbn [remove_parents].
    rewrite strstr_parent_some, starts_with_parent; [|done|by apply Forall_app in Hn as [? _]|done|by destruct b].
    destruct a as [|h t].
    { destruct b; cbn [app resolve]; rewrite ?beq_refl; (eexists; reflexivity). }
    assert (Hs : match (h :: t) ++ dotdot :: b ++ [l] with c :: _ :: _ => beq dotdot c | _ => false end = false).
    { cbn [app]. destruct (t ++ dotdot :: b ++ [l]); [done|]. apply beq_false. intros <-. apply Ha. by left. }
    rewrite Hs. destruct (exists_last (l := h :: t)) as (a & c & E); [done|]. rewrite E in *. clear h t E Hs.
    rewrite resolve_dotdot_end by done.
    rewrite back_to_parent by (apply Forall_app in Hp as [_ Hp]; by inversion_clear Hp as [|? ? [? _]]).
    cbn [mbind option_bind].
    replace (length (render (a ++ [c])) + 3 - length (render a))%nat with (length (render [c; dotdot]))
      by (rewrite render_app, length_app, render_one; cbn; rewrite length_app; cbn; lia).
    rewrite <- app_assoc. change ([c] ++ dotdot :: b ++ [l]) with ([c; dotdot] ++ b ++ [l]).
    rewrite cut_render. rewrite app_assoc. apply IH.
    + rewrite <- !app_assoc in *. apply Forall_app in Hn as [? Hn]. apply Forall_app; split; [done|].
      by apply Forall_app in Hn as [_ Hn]; apply Forall_cons in Hn as [_ Hn].
    + rewrite <- !app_assoc in Hc. apply Forall_app in Hc as [? Hc]. apply Forall_app; split; [done|].
      by apply Forall_app in Hc as [_ Hc]; apply Forall_cons in Hc as [_ Hc].
    + rewrite !length_app in *. cbn in Hf. lia.
  - assert (Hp : Forall plain cs) by (apply Hpl; done).
    rewrite resolve_plain by done.
    split; [|done]. cbn [remove_parents].
    by rewrite strstr_parent_none.
Qed.

(** ** The end of the path *)

(** The last slash is where the last component begins. *)
Lemma last_slash a c p x : name c -> name x -> a ++ slash :: c = p ++ slash :: x -> a = p /\ c = x.
Proof.
  intros Hc Hx E. apply (f_equal (@rev Z)) in E. rewrite !rev_app_distr in E. cbn [rev] in E.
  rewrite <- !app_assoc in E. cbn [app] in E.
  assert (Hr : forall y, name y -> name (rev y)).
  { intros y Hy H. apply Hy. apply list_elem_of_In. apply in_rev. by apply list_elem_of_In. }
  destruct (name_inj (rev c) (rev x) (rev a) (slash :: rev p)) as [E1 E2]; [by apply Hr..|done|right; by eexists|].
  injection E2 as E2. split; [rewrite <- (rev_involutive a), <- (rev_involutive p); congruence|].
  rewrite <- (rev_involutive c), <- (rev_involutive x). congruence.
Qed.

Lemma ends_in cs l x : name l -> name x ->
  let p := render (cs ++ [l]) in
  (S (length x) <=? length p)%nat && beq (drop (length p - S (length x)) p) (slash :: x) = beq l x.
Proof.
  intros Hl Hx p. assert (Hp : p = render cs ++ slash :: l) by (unfold p; by rewrite render_app, render_cons, app_nil_r).
  apply eq_true_iff_eq. rewrite andb_true_iff, !beq_true. split.
  - intros [_ E]. assert (E' : render cs ++ slash :: l = take (length p - S (length x)) p ++ slash :: x)
      by (rewrite <- E, take_drop; done).
    by apply last_slash in E' as [_ ->].
  - intros ->. rewrite Hp, length_app. cbn [length]. split; [apply Nat.leb_le; lia|].
    by rewrite Nat.add_sub, drop_app_length.
Qed.

Lemma take_end cs l : take (length (render (cs ++ [l])) - S (length l)) (render (cs ++ [l])) = render cs.
Proof. by rewrite render_app, length_app, render_one, Nat.add_sub, take_app_length. Qed.

Lemma trim_slash_render cs l : name l ->
  trim_slash (render (cs ++ [l])) =
    if beq l [] then (match cs with [] => [slash] | _ => render cs end) else render (cs ++ [l]).
Proof.
  intros Hl. unfold trim_slash. destruct l as [|x l _] using rev_ind.
  - rewrite beq_refl. pose proof (take_end cs []) as E. cbn [length] in E. rewrite E.
    rewrite render_app, length_app. cbn [render map concat length app].
    rewrite Nat.add_sub, lookup_app_r, Nat.sub_diag by lia. cbn [lookup list_lookup].
    rewrite bool_decide_true, andb_true_r by done.
    destruct cs as [|c cs]; [done|]. rewrite render_cons. cbn [length].
    rewrite (proj2 (Nat.ltb_lt 1 _)) by lia. done.
  - rewrite beq_false by (by destruct l). replace (bool_decide _) with false; [by rewrite andb_false_r|].
    symmetry. apply bool_decide_eq_false. rewrite render_app, render_cons. cbn [render map concat]. rewrite app_nil_r.
    rewrite app_comm_cons, app_assoc, length_app. cbn [length]. rewrite Nat.add_sub, lookup_app_r, Nat.sub_diag by lia.
    cbn [lookup list_lookup]. intros [= ->]. apply Hl, elem_of_app. right. by left.
Qed.

Lemma trim_dot_render cs l : name l ->
  trim_dot (render (cs ++ [l])) = if beq l [dot] then render cs else render (cs ++ [l]).
Proof.
  intros Hl. unfold trim_dot. cbv zeta. pose proof (ends_in cs l [dot] Hl name_dot) as H. cbn [length] in H. rewrite H.
  destruct (beq l [dot]) eqn:E; [|done]. apply beq_true in E as ->. apply take_end.
Qed.

Lemma trim_dotdot_render cs l : Forall name cs -> name l ->
  trim_dotdot (render (cs ++ [l])) =
    if beq l dotdot
    then match cs with [] => Some (render [l], -1) | _ => Some (render (removelast cs), 0) end
    else Some (render (cs ++ [l]), 0).
Proof.
  intros Hcs Hl. unfold trim_dotdot. cbv zeta. pose proof (ends_in cs l dotdot Hl name_dotdot) as H.
  unfold dotdot in H at 1 2. cbn [length] in H. rewrite H. clear H.
  destruct (beq l dotdot) eqn:E.
  - apply beq_true in E as ->. destruct cs as [|c cs _] using rev_ind; [done|].
    rewrite removelast_last. rewrite beq_false.
    2:{ rewrite render_app. intros H. change (slash :: dotdot) with ([] ++ slash :: dotdot) in H.
        change (render [dotdot]) with (slash :: dotdot) in H.
        destruct (last_slash _ dotdot [] dotdot name_dotdot name_dotdot H) as [H' _].
        rewrite render_app in H'. apply app_eq_nil in H' as [_ H']. discriminate. }
    replace (length (render ((cs ++ [c]) ++ [dotdot])) - 3)%nat with (length (render (cs ++ [c])))
      by (rewrite (render_app (cs ++ [c]) [dotdot]), length_app, (render_one dotdot); cbn [length dotdot]; lia).
    apply Forall_app in Hcs as [_ Hc]. apply Forall_cons in Hc as [Hc _].
    rewrite back_to_parent by done. cbn [mbind option_bind]. rewrite <- app_assoc, take_render. by destruct cs.
  - rewrite beq_false; [done|]. destruct cs as [|c cs].
    + cbn [app]. rewrite render_cons. cbn [render map concat]. rewrite app_nil_r. intros [= ->]. done.
    + cbn [app]. rewrite render_cons, render_app, render_cons. cbn [render map concat]. rewrite app_nil_r.
      intros [= H]. apply Forall_cons in Hcs as [Hc _].
      assert (Hin : slash ∈ c ++ render cs ++ slash :: l) by (apply elem_of_app; right; apply elem_of_app; right; by left).
      rewrite H in Hin. by apply name_dotdot in Hin.
Qed.

(** ** The whole function *)

(** The path [nfs_normalize_path] leaves for the components of a path. *)
Definition normal_form (cs : list bytes) : option bytes :=
  match resolve [] cs with
  | None => None
  | Some [] => Some (if beq (List.last cs []) [] then [slash] else [])
  | Some st => Some (render st)
  end.

Lemma resolve_strip x cs st : x = [] \/ x = [dot] -> resolve st (strip x cs) = resolve st cs.
Proof.
  intros Hx. revert st. induction cs as [|c cs IH]; intros st; [done|]. cbn [strip].
  destruct cs as [|d cs]; [done|]. destruct (beq x c) eqn:E.
  - apply beq_true in E as <-. rewrite IH. by destruct Hx as [-> | ->].
  - set (cs' := d :: cs) in *. cbn [resolve]. destruct (beq c [] || beq c [dot]); [apply IH|].
    destruct (beq c dotdot); [destruct st; [done|apply IH]|apply IH].
Qed.

Lemma resolve_both a b st : resolve st (a ++ b) =
  match resolve st a with None => None | Some r => resolve (rev r) b end.
Proof.
  revert st. induction a as [|c a IH]; intros st.
  - change (resolve st ([] ++ b) = resolve (rev (rev st)) b). by rewrite rev_involutive.
  - cbn [app resolve]. destruct (beq c [] || beq c [dot]); [apply IH|].
    destruct (beq c dotdot); [destruct st; [done|]|]; apply IH.
Qed.

Lemma last_snoc (cs : list bytes) l d : List.last (cs ++ [l]) d = l.
Proof. induction cs as [|c [|e cs] IH]; done. Qed.

(** What is left before the last component, and what the stack does with it. *)
Lemma closed_end cs l : Forall plain cs -> name l ->
  let path := trim_slash (render (cs ++ [l])) in
  path <> [] /\
  match resolve [] (cs ++ [l]) with
  | None => exists p, trim_dotdot (trim_dot path) = Some (p, -1)
  | Some [] => trim_dotdot (trim_dot path) = Some (if beq l [] then [slash] else [], 0)
  | Some st => trim_dotdot (trim_dot path) = Some (render st, 0)
  end.
Proof.
  intros Hc Hl path. unfold path. clear path. rewrite trim_slash_render by done.
  assert (Hn : Forall name cs) by (eapply Forall_impl; [exact Hc|by intros ? [? _]]).
  rewrite resolve_app by done. rewrite app_nil_r. cbn [resolve].
  destruct (decide (l = [])) as [->|H1].
  { rewrite beq_refl. cbn [orb]. rewrite rev_involutive. destruct cs as [|c cs _] using rev_ind; [done|].
    apply Forall_app in Hc as [_ Hc]. apply Forall_cons in Hc as [(Hcn & Hc1 & Hc2 & Hc3) _].
    assert (E : match cs ++ [c] with [] => [slash] | _ => render (cs ++ [c]) end = render (cs ++ [c])) by (by destruct cs).
    rewrite E. split; [by destruct cs|]. rewrite trim_dot_render, beq_false, trim_dotdot_render, beq_false by
      (done || by apply Forall_app in Hn as [? _]). by destruct cs. }
  rewrite (beq_false l []) by done. cbn [orb]. split; [by destruct cs|]. rewrite trim_dot_render by done.
  destruct (decide (l = [dot])) as [->|H2].
  { rewrite beq_refl, rev_involutive. destruct cs as [|c cs _] using rev_ind; [done|].
    apply Forall_app in Hc as [_ Hc]. apply Forall_cons in Hc as [(Hcn & Hc1 & Hc2 & Hc3) _].
    rewrite trim_dotdot_render, beq_false by (done || by apply Forall_app in Hn as [? _]). by destruct cs. }
  rewrite (beq_false l [dot]) by done. rewrite trim_dotdot_render by done.
  destruct (decide (l = dotdot)) as [->|H3].
  - rewrite beq_refl. destruct cs as [|c cs _] using rev_ind; [by eexists|].
    rewrite rev_app_distr. cbn [rev app]. rewrite removelast_last, rev_involutive.
    destruct cs; done.
  - rewrite (beq_false l dotdot) by done. cbn [rev]. rewrite rev_involutive. by destruct cs.
Qed.

Lemma filter_names x cs : Forall name cs -> Forall name (filter (fun c => x <> c) cs).
Proof. rewrite !Forall_forall. intros H c [_ Hc]%list_elem_of_filter. by apply H. Qed.

(** The first two loops. *)
Lemma removed cs l fuel : Forall name (cs ++ [l]) -> (length cs <= fuel)%nat ->
  exists cs2 p1, remove_all fuel [slash; slash] 1 (render (cs ++ [l])) = Some p1 /\
    remove_all fuel [slash; dot; slash] 2 p1 = Some (render (cs2 ++ [l])) /\
    Forall name (cs2 ++ [l]) /\ Forall (fun c => c <> [] /\ c <> [dot]) cs2 /\ (length cs2 <= fuel)%nat /\
    resolve [] (cs ++ [l]) = resolve [] (cs2 ++ [l]).
Proof.
  intros Hn Hf. set (cs1 := filter (fun c => [] <> c) cs). set (cs2 := filter (fun c => [dot] <> c) cs1).
  assert (Hn1 : Forall name (cs1 ++ [l])).
  { apply Forall_app in Hn as [Ha Hb]. apply Forall_app; split; [by apply filter_names|done]. }
  assert (Hf1 : (length cs1 <= length cs)%nat) by apply length_filter.
  exists cs2, (render (cs1 ++ [l])).
  pose proof (remove_all_strips [] fuel cs l (not_elem_of_nil _) Hn Hf) as E1.
  pose proof (remove_all_strips [dot] fuel cs1 l name_dot Hn1 ltac:(lia)) as E2.
  rewrite strip_snoc in E1, E2. split; [exact E1|]. split; [exact E2|].
  assert (Hf2 : (length cs2 <= length cs1)%nat) by apply length_filter.
  split; [apply Forall_app in Hn1 as [Ha Hb]; apply Forall_app; split; [by apply filter_names|done]|].
  split; [|split; [lia|]].
  - apply Forall_forall. intros c [H1 [H2 _]%list_elem_of_filter]%list_elem_of_filter. split; congruence.
  - rewrite <- (resolve_strip [] (cs ++ [l])), strip_snoc by (by left).
    rewrite <- (resolve_strip [dot] (filter _ cs ++ [l])), strip_snoc by (by right). done.
Qed.

Lemma normalize_slash s :
  match normal_form (split_slash s) with
  | None => exists p, nfs_normalize_path (slash :: s) = Some (p, -1)
  | Some p => nfs_normalize_path (slash :: s) = Some (p, 0)
  end.
Proof.
  destruct (exists_last (split_nonempty s)) as (cs & l & E). unfold normal_form. rewrite E, last_snoc.
  pose proof (split_names s) as Hn. rewrite E in Hn.
  unfold nfs_normalize_path. rewrite <- (render_split s), E.
  set (fuel := length (render (cs ++ [l]))).
  assert (Hf : (length cs <= fuel)%nat) by (pose proof (render_length (cs ++ [l])); rewrite length_app in *; unfold fuel; lia).
  destruct (removed cs l fuel Hn Hf) as (cs2 & p1 & E1 & E2 & Hn2 & Hc2 & Hf2 & Hr).
  rewrite E1. cbn [mbind option_bind]. rewrite E2. cbn [mbind option_bind]. rewrite Hr.
  pose proof Hn2 as [Hn3 Hl]%Forall_app. apply Forall_cons in Hl as [Hl _].
  pose proof (remove_parents_resolves fuel l cs2 Hn2 Hc2 Hf2) as Hp.
  rewrite starts_with_parent by done. rewrite resolve_both.
  assert (H0 : render (cs2 ++ [l]) !! O = Some slash) by (by destruct cs2).
  rewrite bool_decide_true by done. cbn [negb].
  destruct (match cs2 ++ [l] with c :: _ :: _ => beq dotdot c | _ => false end) eqn:Ed.
  { destruct cs2 as [|c cs2]; [done|]. cbn [app] in Ed. destruct (cs2 ++ [l]); [done|].
    apply beq_true in Ed as <-. cbn [resolve beq dotdot]. by eexists. }
  destruct (resolve [] cs2) as [st|].
  - destruct Hp as [Hp Hst]. rewrite Hp. cbn [mbind option_bind]. change (0 <? 0) with false. cbv iota.
    destruct (closed_end st l Hst Hl) as [He Hm]. rewrite bool_decide_false by done.
    rewrite resolve_app, app_nil_r in Hm by done. destruct (resolve (rev st) [l]) as [[|d r]|]; done.
  - destruct Hp as [p Hp]. rewrite Hp. by eexists.
Qed.

(** ** Paths that do not start with a slash *)

Lemma strstr_bound s pat i : strstr s (slash :: pat) = Some i -> (i < length s)%nat /\ s !! i = Some slash.
Proof.
  revert i. induction s as [|c s IH]; intros i; cbn [strstr]; [done|].
  destruct (starts_with (slash :: pat) (c :: s)) eqn:E.
  - intros [= <-]. cbn [starts_with] in E. destruct (Z.eqb_spec slash c) as [<-|]; [|done]. cbn. split; [lia|done].
  - destruct (strstr s (slash :: pat)) as [j|]; [|done]. intros [= <-]. destruct (IH j eq_refl) as [H1 H2].
    cbn. split; [lia|done].
Qed.

Lemma remove_all_other fuel pat n c s : c <> slash -> (0 < n)%nat -> (length s <= fuel)%nat ->
  exists s', remove_all fuel (slash :: pat) n (c :: s) = Some (c :: s') /\ (length s' <= length s)%nat.
Proof.
  intros Hc Hn. revert s. induction fuel as [|fuel IH]; intros s Hf; cbn [remove_all];
    destruct (strstr (c :: s) (slash :: pat)) as [i|] eqn:E; try by exists s.
  - apply strstr_bound in E as [H1 H2]. destruct s; [|cbn in Hf; lia]. destruct i; cbn in H1, H2; [congruence|lia].
  - apply strstr_bound in E as [H1 H2]. destruct i as [|i]; cbn in H1, H2; [congruence|].
    unfold cut. cbn [take drop Nat.add app].
    set (s1 := take i s ++ drop (i + n) s).
    assert (Hs : (length s1 < length s)%nat) by (unfold s1; rewrite length_app, length_take, length_drop; lia).
    destruct (IH s1) as (s' & Hs' & Hl); [lia|]. exists s'. split; [done|lia].
Qed.

Lemma normalize_other path : path !! O <> Some slash -> exists p, nfs_normalize_path path = Some (p, -1).
Proof.
  intros H. destruct path as [|c s]; [by eexists|]. assert (Hc : c <> slash) by (intros ->; by apply H).
  unfold nfs_normalize_path. cbn [length].
  destruct (remove_all_other (S (length s)) [slash] 1 c s) as (s1 & E1 & H1); [done|lia|lia|].
  rewrite E1. cbn [mbind option_bind].
  destruct (remove_all_other (S (length s)) [dot; slash] 2 c s1) as (s2 & E2 & H2); [done|lia|lia|].
  rewrite E2. cbn [mbind option_bind]. destruct (starts_with parent_pat (c :: s2)); [by eexists|].
  rewrite bool_decide_false by (cbn; congruence). by eexists.
Qed.

(** ** Normal forms *)

Lemma render_inj a b : Forall name a -> Forall name b -> render a = render b -> a = b.
Proof.
  revert b. induction a as [|c a IH]; intros b Ha Hb E; destruct b as [|d b]; try done.
  rewrite !render_cons in E. injection E as E.
  apply Forall_cons in Ha as [Hc Ha]. apply Forall_cons in Hb as [Hd Hb].
  destruct (render_head a) as [Ea|[q Ea]], (render_head b) as [Eb|[r Eb]].
  - rewrite Ea, Eb, !app_nil_r in E. subst d. f_equal. apply IH; congruence.
  - rewrite Eb in E. symmetry in E.
    destruct (name_inj d c r (render a)) as [-> H]; [done|done|done|apply render_head|]. f_equal. apply IH; congruence.
  - rewrite Ea in E.
    destruct (name_inj c d q (render b)) as [-> H]; [done|done|done|apply render_head|]. f_equal. apply IH; congruence.
  - rewrite Ea in E.
    destruct (name_inj c d q (render b)) as [-> H]; [done|done|done|apply render_head|]. f_equal. apply IH; congruence.
Qed.

Lemma resolve_clean cs : forall st r, Forall name cs -> Forall plain st -> resolve st cs = Some r -> Forall plain r.
Proof.
  induction cs as [|c cs IH]; intros st r Hn Hs E; cbn [resolve] in E.
  - injection E as <-. apply Forall_rev in Hs. exact Hs.
  - apply Forall_cons in Hn as [Hc Hn].
    destruct (beq c []) eqn:E1; [by apply (IH st)|]. destruct (beq c [dot]) eqn:E2; [by apply (IH st)|]. cbn [orb] in E.
    destruct (beq c dotdot) eqn:E3.
    + destruct st as [|d st]; [done|]. apply Forall_cons in Hs as [_ Hs]. by apply (IH st).
    + apply (IH (c :: st)); [done| |done]. constructor; [|done].
      split; [done|]. split; [|split]; intros ->; by rewrite beq_refl in *.
Qed.

Lemma normalize_fixed st : Forall plain st -> st <> [] -> nfs_normalize_path (render st) = Some (render st, 0).
Proof.
  intros Hst Hne. assert (Hn : Forall name st) by (eapply Forall_impl; [exact Hst|by intros ? [? _]]).
  destruct (render_head st) as [E|[s E]]; [by destruct st|].
  assert (Es : split_slash s = st) by (apply render_inj; [apply split_names|done|by rewrite render_split]).
  pose proof (normalize_slash s) as H. unfold normal_form in H. rewrite Es, resolve_plain in H by done.
  rewrite E. rewrite <- E at 2. by destruct st.
Qed.

(** C15: [nfs_normalize_path] walks the path: it fails when the path is not absolute or leads above
    the root, and otherwise leaves one slash before each component the walk ends with, which are
    neither empty nor "." nor "..", and which a second call leaves alone.  A walk that ends at the
    root leaves "/" when the path ends with a slash; "/." and "/a/.." are turned into "", and the
    check for "" comes before that (libnfs.c:1392). *)
Theorem normalize_path_resolves path :
  match path with
  | c :: s =>
      if c =? slash then
        match resolve [] (split_slash s) with
        | None => exists p, nfs_normalize_path path = Some (p, -1)
        | Some [] => nfs_normalize_path path = Some (if beq (List.last (split_slash s) []) [] then [slash] else [], 0)
        | Some st => nfs_normalize_path path = Some (render st, 0) /\ Forall plain st /\
                     nfs_normalize_path (render st) = Some (render st, 0)
        end
      else exists p, nfs_normalize_path path = Some (p, -1)
  | [] => nfs_normalize_path path = Some ([], -1)
  end.
Proof.
  destruct path as [|c s]; [done|]. destruct (Z.eqb_spec c slash) as [->|Hc].
  - pose proof (normalize_slash s) as H. unfold normal_form in H.
    destruct (resolve [] (split_slash s)) as [[|d st]|] eqn:E; [done| |done].
    assert (Hp : Forall plain (d :: st)) by (eapply resolve_clean; [apply split_names|by apply Forall_nil_2|exact E]).
    split; [done|]. split; [done|]. by apply normalize_fixed.
  - apply normalize_other. cbn. congruence.
Qed.
