(* ===== verification/Settings.v ===== *)
(** * Settings: the settings of a context (lib/libnfs.c, lib/init.c)

    What the user, the arguments of a URL and the server set before and while
    an export is mounted.  Sizes are in [NFS_MIN_XFER_SIZE] to
    [NFS_MAX_XFER_SIZE], whatever is asked for. *)

From S2P Require Import Prelude.

(** ** Data *)

(** The part of [struct rpc_context] the client sets, or looks at while it
    connects.  [t_cred] is the uid, the gid and the groups of the AUTH_UNIX
    credentials that were made last; [t_ipv6] is the family of the address. *)
Record rpc_settings := mkRpcSettings {
  t_program : Z; t_version : Z; t_ipv6 : bool; t_auto_reconnect : Z; t_timeout : Z; t_retrans : Z;
  t_mountport : Z; t_tcp_syncnt : Z; t_uid : Z; t_gid : Z; t_cred : Z * Z * list Z; t_debug : Z;
  t_ifname : bytes; t_poll_timeout : Z
}.

Definition set_t_program (x : Z) (t : rpc_settings) : rpc_settings :=
  mkRpcSettings x (t_version t) (t_ipv6 t) (t_auto_reconnect t) (t_timeout t) (t_retrans t) (t_mountport t)
    (t_tcp_syncnt t) (t_uid t) (t_gid t) (t_cred t) (t_debug t) (t_ifname t) (t_poll_timeout t).
Definition set_t_version (x : Z) (t : rpc_settings) : rpc_settings :=
  mkRpcSettings (t_program t) x (t_ipv6 t) (t_auto_reconnect t) (t_timeout t) (t_retrans t) (t_mountport t)
    (t_tcp_syncnt t) (t_uid t) (t_gid t) (t_cred t) (t_debug t) (t_ifname t) (t_poll_timeout t).
Definition set_t_ipv6 (x : bool) (t : rpc_settings) : rpc_settings :=
  mkRpcSettings (t_program t) (t_version t) x (t_auto_reconnect t) (t_timeout t) (t_retrans t) (t_mountport t)
    (t_tcp_syncnt t) (t_uid t) (t_gid t) (t_cred t) (t_debug t) (t_ifname t) (t_poll_timeout t).
Definition set_t_auto_reconnect (x : Z) (t : rpc_settings) : rpc_settings :=
  mkRpcSettings (t_program t) (t_version t) (t_ipv6 t) x (t_timeout t) (t_retrans t) (t_mountport t)
    (t_tcp_syncnt t) (t_uid t) (t_gid t) (t_cred t) (t_debug t) (t_ifname t) (t_poll_timeout t).
Definition set_t_timeout (x : Z) (t : rpc_settings) : rpc_settings :=
  mkRpcSettings (t_program t) (t_version t) (t_ipv6 t) (t_auto_reconnect t) x (t_retrans t) (t_mountport t)
    (t_tcp_syncnt t) (t_uid t) (t_gid t) (t_cred t) (t_debug t) (t_ifname t) (t_poll_timeout t).
Definition set_t_retrans (x : Z) (t : rpc_settings) : rpc_settings :=
  mkRpcSettings (t_program t) (t_version t) (t_ipv6 t) (t_auto_reconnect t) (t_timeout t) x (t_mountport t)
    (t_tcp_syncnt t) (t_uid t) (t_gid t) (t_cred t) (t_debug t) (t_ifname t) (t_poll_timeout t).
Definition set_t_mountport (x : Z) (t : rpc_settings) : rpc_settings :=
  mkRpcSettings (t_program t) (t_version t) (t_ipv6 t) (t_auto_reconnect t) (t_timeout t) (t_retrans t) x
    (t_tcp_syncnt t) (t_uid t) (t_gid t) (t_cred t) (t_debug t) (t_ifname t) (t_poll_timeout t).
Definition set_t_tcp_syncnt (x : Z) (t : rpc_settings) : rpc_settings :=
  mkRpcSettings (t_program t) (t_version t) (t_ipv6 t) (t_auto_reconnect t) (t_timeout t) (t_retrans t)
    (t_mountport t) x (t_uid t) (t_gid t) (t_cred t) (t_debug t) (t_ifname t) (t_poll_timeout t).
Definition set_t_uid (x : Z) (t : rpc_settings) : rpc_settings :=
  mkRpcSettings (t_program t) (t_version t) (t_ipv6 t) (t_auto_reconnect t) (t_timeout t) (t_retrans t)
    (t_mountport t) (t_tcp_syncnt t) x (t_gid t) (t_cred t) (t_debug t) (t_ifname t) (t_poll_timeout t).
Definition set_t_gid (x : Z) (t : rpc_settings) : rpc_settings :=
  mkRpcSettings (t_program t) (t_version t) (t_ipv6 t) (t_auto_reconnect t) (t_timeout t) (t_retrans t)
    (t_mountport t) (t_tcp_syncnt t) (t_uid t) x (t_cred t) (t_debug t) (t_ifname t) (t_poll_timeout t).
Definition set_t_cred (x : Z * Z * list Z) (t : rpc_settings) : rpc_settings :=
  mkRpcSettings (t_program t) (t_version t) (t_ipv6 t) (t_auto_reconnect t) (t_timeout t) (t_retrans t)
    (t_mountport t) (t_tcp_syncnt t) (t_uid t) (t_gid t) x (t_debug t) (t_ifname t) (t_poll_timeout t).
Definition set_t_debug (x : Z) (t : rpc_settings) : rpc_settings :=
  mkRpcSettings (t_program t) (t_version t) (t_ipv6 t) (t_auto_reconnect t) (t_timeout t) (t_retrans t)
    (t_mountport t) (t_tcp_syncnt t) (t_uid t) (t_gid t) (t_cred t) x (t_ifname t) (t_poll_timeout t).
Definition set_t_ifname (x : bytes) (t : rpc_settings) : rpc_settings :=
  mkRpcSettings (t_program t) (t_version t) (t_ipv6 t) (t_auto_reconnect t) (t_timeout t) (t_retrans t)
    (t_mountport t) (t_tcp_syncnt t) (t_uid t) (t_gid t) (t_cred t) (t_debug t) x (t_poll_timeout t).
Definition set_t_poll_timeout (x : Z) (t : rpc_settings) : rpc_settings :=
  mkRpcSettings (t_program t) (t_version t) (t_ipv6 t) (t_auto_reconnect t) (t_timeout t) (t_retrans t)
    (t_mountport t) (t_tcp_syncnt t) (t_uid t) (t_gid t) (t_cred t) (t_debug t) (t_ifname t) x.

(** The settings kept in [struct nfs_context_internal]. *)
Record settings := mkSettings {
  c_server : bytes; c_readmax : Z; c_writemax : Z; c_auto_reconnect : Z; c_timeout : Z; c_retrans : Z;
  c_dircache_enabled : Z; c_mask : Z; c_auto_traverse_mounts : Z; c_default_version : Z; c_version : Z;
  c_nfsport : Z; c_mountport : Z; c_readdir_dircount : Z; c_readdir_maxcount : Z; c_readonly : Z;
  c_rpc : rpc_settings
}.

Definition set_c_server (x : bytes) (c : settings) : settings :=
  mkSettings x (c_readmax c) (c_writemax c) (c_auto_reconnect c) (c_timeout c) (c_retrans c)
    (c_dircache_enabled c) (c_mask c) (c_auto_traverse_mounts c) (c_default_version c) (c_version c)
    (c_nfsport c) (c_mountport c) (c_readdir_dircount c) (c_readdir_maxcount c) (c_readonly c) (c_rpc c).
Definition set_c_readmax (x : Z) (c : settings) : settings :=
  mkSettings (c_server c) x (c_writemax c) (c_auto_reconnect c) (c_timeout c) (c_retrans c)
    (c_dircache_enabled c) (c_mask c) (c_auto_traverse_mounts c) (c_default_version c) (c_version c)
    (c_nfsport c) (c_mountport c) (c_readdir_dircount c) (c_readdir_maxcount c) (c_readonly c) (c_rpc c).
Definition set_c_writemax (x : Z) (c : settings) : settings :=
  mkSettings (c_server c) (c_readmax c) x (c_auto_reconnect c) (c_timeout c) (c_retrans c)
    (c_dircache_enabled c) (c_mask c) (c_auto_traverse_mounts c) (c_default_version c) (c_version c)
    (c_nfsport c) (c_mountport c) (c_readdir_dircount c) (c_readdir_maxcount c) (c_readonly c) (c_rpc c).
Definition set_c_auto_reconnect (x : Z) (c : settings) : settings :=
  mkSettings (c_server c) (c_readmax c) (c_writemax c) x (c_timeout c) (c_retrans c) (c_dircache_enabled c)
    (c_mask c) (c_auto_traverse_mounts c) (c_default_version c) (c_version c) (c_nfsport c) (c_mountport c)
    (c_readdir_dircount c) (c_readdir_maxcount c) (c_readonly c) (c_rpc c).
Definition set_c_timeout (x : Z) (c : settings) : settings :=
  mkSettings (c_server c) (c_readmax c) (c_writemax c) (c_auto_reconnect c) x (c_retrans c)
    (c_dircache_enabled c) (c_mask c) (c_auto_traverse_mounts c) (c_default_version c) (c_version c)
    (c_nfsport c) (c_mountport c) (c_readdir_dircount c) (c_readdir_maxcount c) (c_readonly c) (c_rpc c).
Definition set_c_retrans (x : Z) (c : settings) : settings :=
  mkSettings (c_server c) (c_readmax c) (c_writemax c) (c_auto_reconnect c) (c_timeout c) x
    (c_dircache_enabled c) (c_mask c) (c_auto_traverse_mounts c) (c_default_version c) (c_version c)
    (c_nfsport c) (c_mountport c) (c_readdir_dircount c) (c_readdir_maxcount c) (c_readonly c) (c_rpc c).
Definition set_c_dircache_enabled (x : Z) (c : settings) : settings :=
  mkSettings (c_server c) (c_readmax c) (c_writemax c) (c_auto_reconnect c) (c_timeout c) (c_retrans c) x
    (c_mask c) (c_auto_traverse_mounts c) (c_default_version c) (c_version c) (c_nfsport c) (c_mountport c)
    (c_readdir_dircount c) (c_readdir_maxcount c) (c_readonly c) (c_rpc c).
Definition set_c_mask (x : Z) (c : settings) : settings :=
  mkSettings (c_server c) (c_readmax c) (c_writemax c) (c_auto_reconnect c) (c_timeout c) (c_retrans c)
    (c_dircache_enabled c) x (c_auto_traverse_mounts c) (c_default_version c) (c_version c) (c_nfsport c)
    (c_mountport c) (c_readdir_dircount c) (c_readdir_maxcount c) (c_readonly c) (c_rpc c).
Definition set_c_auto_traverse_mounts (x : Z) (c : settings) : settings :=
  mkSettings (c_server c) (c_readmax c) (c_writemax c) (c_auto_reconnect c) (c_timeout c) (c_retrans c)
    (c_dircache_enabled c) (c_mask c) x (c_default_version c) (c_version c) (c_nfsport c) (c_mountport c)
    (c_readdir_dircount c) (c_readdir_maxcount c) (c_readonly c) (c_rpc c).
Definition set_c_default_version (x : Z) (c : settings) : settings :=
  mkSettings (c_server c) (c_readmax c) (c_writemax c) (c_auto_reconnect c) (c_timeout c) (c_retrans c)
    (c_dircache_enabled c) (c_mask c) (c_auto_traverse_mounts c) x (c_version c) (c_nfsport c) (c_mountport c)
    (c_readdir_dircount c) (c_readdir_maxcount c) (c_readonly c) (c_rpc c).
Definition set_c_version (x : Z) (c : settings) : settings :=
  mkSettings (c_server c) (c_readmax c) (c_writemax c) (c_auto_reconnect c) (c_timeout c) (c_retrans c)
    (c_dircache_enabled c) (c_mask c) (c_auto_traverse_mounts c) (c_default_version c) x (c_nfsport c)
    (c_mountport c) (c_readdir_dircount c) (c_readdir_maxcount c) (c_readonly c) (c_rpc c).
Definition set_c_nfsport (x : Z) (c : settings) : settings :=
  mkSettings (c_server c) (c_readmax c) (c_writemax c) (c_auto_reconnect c) (c_timeout c) (c_retrans c)
    (c_dircache_enabled c) (c_mask c) (c_auto_traverse_mounts c) (c_default_version c) (c_version c) x
    (c_mountport c) (c_readdir_dircount c) (c_readdir_maxcount c) (c_readonly c) (c_rpc c).
Definition set_c_mountport (x : Z) (c : settings) : settings :=
  mkSettings (c_server c) (c_readmax c) (c_writemax c) (c_auto_reconnect c) (c_timeout c) (c_retrans c)
    (c_dircache_enabled c) (c_mask c) (c_auto_traverse_mounts c) (c_default_version c) (c_version c)
    (c_nfsport c) x (c_readdir_dircount c) (c_readdir_maxcount c) (c_readonly c) (c_rpc c).
Definition set_c_readdir_dircount (x : Z) (c : settings) : settings :=
  mkSettings (c_server c) (c_readmax c) (c_writemax c) (c_auto_reconnect c) (c_timeout c) (c_retrans c)
    (c_dircache_enabled c) (c_mask c) (c_auto_traverse_mounts c) (c_default_version c) (c_version c)
    (c_nfsport c) (c_mountport c) x (c_readdir_maxcount c) (c_readonly c) (c_rpc c).
Definition set_c_readdir_maxcount (x : Z) (c : settings) : settings :=
  mkSettings (c_server c) (c_readmax c) (c_writemax c) (c_auto_reconnect c) (c_timeout c) (c_retrans c)
    (c_dircache_enabled c) (c_mask c) (c_auto_traverse_mounts c) (c_default_version c) (c_version c)
    (c_nfsport c) (c_mountport c) (c_readdir_dircount c) x (c_readonly c) (c_rpc c).
Definition set_c_readonly (x : Z) (c : settings) : settings :=
  mkSettings (c_server c) (c_readmax c) (c_writemax c) (c_auto_reconnect c) (c_timeout c) (c_retrans c)
    (c_dircache_enabled c) (c_mask c) (c_auto_traverse_mounts c) (c_default_version c) (c_version c)
    (c_nfsport c) (c_mountport c) (c_readdir_dircount c) (c_readdir_maxcount c) x (c_rpc c).
Definition set_c_rpc (x : rpc_settings) (c : settings) : settings :=
  mkSettings (c_server c) (c_readmax c) (c_writemax c) (c_auto_reconnect c) (c_timeout c) (c_retrans c)
    (c_dircache_enabled c) (c_mask c) (c_auto_traverse_mounts c) (c_default_version c) (c_version c)
    (c_nfsport c) (c_mountport c) (c_readdir_dircount c) (c_readdir_maxcount c) (c_readonly c) x.

Definition on_rpc (f : rpc_settings -> rpc_settings) (c : settings) : settings := set_c_rpc (f (c_rpc c)) c.

(** ** The transport (lib/init.c, lib/socket.c) *)

Definition RPC_PARAM_UNDEFINED : Z := -1.
Definition IFNAMSIZ : nat := 16.

Definition rpc_set_tcp_syncnt (v : Z) := set_t_tcp_syncnt v.
Definition rpc_set_debug (level : Z) := set_t_debug level.
Definition rpc_set_mountport (port : Z) := set_t_mountport port.
Definition rpc_get_mountport (t : rpc_settings) : Z := t_mountport t.
Definition rpc_set_poll_timeout (ms : Z) := set_t_poll_timeout ms.
Definition rpc_get_poll_timeout (t : rpc_settings) : Z := t_poll_timeout t.

(** The buffer has one byte more than is copied. *)
Definition rpc_set_interface (ifname : option bytes) (t : rpc_settings) : rpc_settings :=
  match ifname with Some s => set_t_ifname (take (IFNAMSIZ - 1) s) t | None => t end.

(** New credentials have no groups; [libnfs_authunix_create] takes at most 16. *)
Definition rpc_set_uid_gid (uid gid : Z) (t : rpc_settings) : rpc_settings :=
  if negb (uid =? t_uid t) || negb (gid =? t_gid t) then set_t_gid gid (set_t_uid uid (set_t_cred (u32 uid, u32 gid, []) t))
  else t.
Definition rpc_set_uid (uid : Z) (t : rpc_settings) : rpc_settings := rpc_set_uid_gid uid (t_gid t) t.
Definition rpc_set_gid (gid : Z) (t : rpc_settings) : rpc_settings := rpc_set_uid_gid (t_uid t) gid t.
Definition rpc_set_auxiliary_gids (gids : list Z) (t : rpc_settings) : rpc_settings :=
  if blen gids >? 16 then t else set_t_cred (u32 (t_uid t), u32 (t_gid t), gids) t.

(** ** The client (lib/libnfs.c) *)

Definition NFS_V3 : Z := 3.
Definition NFS_V4 : Z := 4.
Definition NFSMAXDATA2 : Z := 8192.
Definition NFS_MIN_XFER_SIZE : Z := NFSMAXDATA2.
Definition NFS_MAX_XFER_SIZE : Z := 4 * 1024 * 1024.
Definition NFS_DEF_XFER_SIZE : Z := 1 * 1024 * 1024.

Definition xfer_size (x : Z) : Z := Z.max (Z.min x NFS_MAX_XFER_SIZE) NFS_MIN_XFER_SIZE / 4096 * 4096.

Definition nfs_get_readmax (c : settings) : Z := c_readmax c.
Definition nfs_set_readmax (readmax : Z) := set_c_readmax (xfer_size readmax).
Definition nfs_get_writemax (c : settings) : Z := c_writemax c.
Definition nfs_set_writemax (writemax : Z) := set_c_writemax (xfer_size writemax).
Definition nfs_get_readdir_maxcount (c : settings) : Z := c_readdir_maxcount c.
Definition nfs_set_readdir_max_buffer_size (dircount maxcount : Z) (c : settings) : settings :=
  set_c_readdir_maxcount (xfer_size maxcount) (set_c_readdir_dircount (xfer_size dircount) c).

Definition nfs_set_tcp_syncnt (v : Z) := on_rpc (rpc_set_tcp_syncnt v).
Definition nfs_set_uid (uid : Z) := on_rpc (rpc_set_uid uid).
Definition nfs_set_gid (gid : Z) := on_rpc (rpc_set_gid gid).
Definition nfs_set_auxiliary_gids (gids : list Z) := on_rpc (rpc_set_auxiliary_gids gids).
Definition nfs_set_debug (level : Z) := on_rpc (rpc_set_debug level).
Definition nfs_set_interface (ifname : bytes) := on_rpc (rpc_set_interface (Some ifname)).
Definition nfs_set_auto_traverse_mounts (enabled : Z) := set_c_auto_traverse_mounts enabled.
Definition nfs_set_readonly (readonly : Z) := set_c_readonly readonly.
Definition nfs_set_dircache (enabled : Z) := set_c_dircache_enabled enabled.
Definition nfs_set_autoreconnect (num_retries : Z) := set_c_auto_reconnect num_retries.

(** Asserts that it is not negative. *)
Definition nfs_set_retrans (retrans : Z) (c : settings) : option settings :=
  if retrans >=? 0 then Some (set_c_retrans retrans c) else None.

Definition nfs_set_version (version : Z) (c : settings) : settings * Z :=
  if (version =? NFS_V3) || (version =? NFS_V4) then (set_c_default_version 0 (set_c_version version c), 0)
  else (c, -1).
Definition nfs_get_version (c : settings) : Z := c_version c.

Definition nfs_set_nfsport (port : Z) := set_c_nfsport port.
Definition nfs_set_mountport (port : Z) (c : settings) : settings :=
  on_rpc (rpc_set_mountport port) (set_c_mountport port c).

Definition nfs_umask (mask : Z) (c : settings) : settings * Z := (set_c_mask mask c, c_mask c).

Definition nfs_set_poll_timeout (ms : Z) := on_rpc (rpc_set_poll_timeout ms).
Definition nfs_get_poll_timeout (c : settings) : Z := rpc_get_poll_timeout (c_rpc c).

(** The timeout is used at once; retransmissions wait for the mount. *)
Definition nfs_set_timeout (timeout_msecs : Z) (c : settings) : settings :=
  on_rpc (set_t_timeout timeout_msecs) (set_c_timeout timeout_msecs c).
Definition nfs_get_timeout (c : settings) : Z := t_timeout (c_rpc c).

(** At the end of a mount the transport is made as resilient as was asked for. *)
Definition set_resiliency (c : settings) : settings :=
  on_rpc (fun t => set_t_retrans (c_retrans c) (set_t_timeout (c_timeout c) (set_t_auto_reconnect (c_auto_reconnect c) t))) c.

(** [nfs_init_context], for the user [uid], [gid]. *)
Definition init_rpc_settings (uid gid : Z) : rpc_settings :=
  mkRpcSettings 0 0 false 0 (60 * 1000) 0 0 RPC_PARAM_UNDEFINED uid gid (u32 uid, u32 gid, []) 0 [] 100.
Definition init_settings (uid gid : Z) : settings :=
  mkSettings [] NFS_DEF_XFER_SIZE NFS_DEF_XFER_SIZE (-1) (60 * 1000) 2 1 18 1 NFS_V3 NFS_V3 0 0 8192 8192 0
    (init_rpc_settings uid gid).

(** ** The sizes stay in bounds *)

Definition xfer_ok (x : Z) : Prop := NFS_MIN_XFER_SIZE <= x <= NFS_MAX_XFER_SIZE /\ x mod 4096 = 0.

Record sizes_ok (c : settings) : Prop := {
  ok_readmax : xfer_ok (c_readmax c);
  ok_writemax : xfer_ok (c_writemax c);
  ok_dircount : xfer_ok (c_readdir_dircount c);
  ok_maxcount : xfer_ok (c_readdir_maxcount c);
}.

Lemma xfer_size_ok x : xfer_ok (xfer_size x).
Proof.
  unfold xfer_ok, xfer_size, NFS_MIN_XFER_SIZE, NFS_MAX_XFER_SIZE, NFSMAXDATA2. split; [|apply Z_mod_mult].
  Z.div_mod_to_equations. lia.
Qed.

Lemma xfer_size_id x : xfer_ok x -> xfer_size x = x.
Proof.
  unfold xfer_ok, xfer_size, NFS_MIN_XFER_SIZE, NFS_MAX_XFER_SIZE, NFSMAXDATA2. intros [H1 H2].
  rewrite Z.min_l, Z.max_l by lia. Z.div_mod_to_equations. lia.
Qed.

(** A size that was asked for is only made smaller, but for the minimum. *)
Lemma xfer_size_le x : NFS_MIN_XFER_SIZE <= x -> xfer_size x <= x.
Proof.
  unfold xfer_size, NFS_MIN_XFER_SIZE, NFS_MAX_XFER_SIZE, NFSMAXDATA2. intros H.
  Z.div_mod_to_equations. lia.
Qed.

Lemma init_sizes_ok uid gid : sizes_ok (init_settings uid gid).
Proof. split; done. Qed.
