(* ===== verification/Url.v ===== *)
(** * Url: parsing NFS URLs (lib/libnfs.c)

    [nfs_parse_url] takes a URL apart in place and applies its arguments to the
    settings, also when it refuses the URL in the end.  A C string is the list
    of its bytes before the NUL.  [None] is undefined behaviour: the timeout in
    tenths of a second is multiplied as an [int]. *)

From S2P Require Import Prelude Path Settings.

(** ** Strings (libc) *)

Definition of_string (s : string) : bytes := (fun a => Z.of_nat (Ascii.nat_of_ascii a)) <$> String.list_ascii_of_string s.

(** What a C string in a buffer is: the bytes before the first NUL. *)
Fixpoint cstr (b : bytes) : bytes :=
  match b with
  | [] => []
  | c :: b => if c =? 0 then [] else c :: cstr b
  end.

(** [strchr] and [strrchr]: what is before the byte and what is behind it. *)
Fixpoint strchr (c : Z) (s : bytes) : option (bytes * bytes) :=
  match s with
  | [] => None
  | x :: s =>
      if x =? c then Some ([], s)
      else match strchr c s with Some (a, b) => Some (x :: a, b) | None => None end
  end.
Fixpoint strrchr (c : Z) (s : bytes) : option (bytes * bytes) :=
  match s with
  | [] => None
  | x :: s =>
      match strrchr c s with
      | Some (a, b) => Some (x :: a, b)
      | None => if x =? c then Some ([], s) else None
      end
  end.

Definition isspace (c : Z) : bool := (c =? 32) || ((9 <=? c) && (c <=? 13)).
Definition isdigit (c : Z) : bool := (48 <=? c) && (c <=? 57).

Fixpoint digits (acc : Z) (s : bytes) : Z :=
  match s with c :: s => if isdigit c then digits (acc * 10 + (c - 48)) s else acc | [] => acc end.

Fixpoint skip_spaces (s : bytes) : bytes :=
  match s with c :: t => if isspace c then skip_spaces t else s | [] => [] end.

(** [strtol(s, &end, 10)], which saturates; [None] when there are no digits,
    where it is 0 and [end] is [s].  [atoi] is its value as an [int]. *)
Definition strtol (s : bytes) : option Z :=
  let s := skip_spaces s in
  let '(neg, s) := match s with c :: t => if c =? 45 then (true, t) else if c =? 43 then (false, t) else (false, s) | [] => (false, s) end in
  match s with
  | c :: _ =>
      if isdigit c then
        let v := if neg then - digits 0 s else digits 0 s in
        Some (Z.max (- 2 ^ 63) (Z.min v (2 ^ 63 - 1)))
      else None
  | [] => None
  end.
Definition atoi (s : bytes) : Z := i32 (default 0 (strtol s)).

(** ** Arguments *)

Definition nfs_set_context_args_no_val (c : settings) (arg : bytes) : settings * Z :=
  if beq arg (of_string "readonly") then (nfs_set_readonly 1 c, 0) else (c, -1).

Definition nfs_set_context_args (c : settings) (arg val : bytes) : option (settings * Z) :=
  let arg_is s := beq arg (of_string s) in
  let ok c := Some (c, 0) in
  if arg_is "tcp-syncnt"%string then ok (nfs_set_tcp_syncnt (atoi val) c)
  else if arg_is "uid"%string then ok (nfs_set_uid (atoi val) c)
  else if arg_is "gid"%string then ok (nfs_set_gid (atoi val) c)
  else if arg_is "timeo"%string then
    if negb (fits_int (atoi val * 100)) then None
    else if atoi val * 100 <? 10 * 1000 then Some (c, -1) else ok (nfs_set_timeout (atoi val * 100) c)
  else if arg_is "retrans"%string then
    if atoi val <? 0 then Some (c, -1)
    else match nfs_set_retrans (atoi val) c with Some c => ok c | None => None end
  else if arg_is "debug"%string then ok (nfs_set_debug (atoi val) c)
  else if arg_is "auto-traverse-mounts"%string then ok (nfs_set_auto_traverse_mounts (atoi val) c)
  else if arg_is "dircache"%string then ok (nfs_set_dircache (atoi val) c)
  else if arg_is "autoreconnect"%string then ok (nfs_set_autoreconnect (atoi val) c)
  else if arg_is "if"%string then ok (nfs_set_interface val c)
  else if arg_is "version"%string then Some (nfs_set_version (atoi val) c)
  else if arg_is "nfsport"%string then ok (nfs_set_nfsport (atoi val) c)
  else if arg_is "mountport"%string then ok (nfs_set_mountport (atoi val) c)
  else if arg_is "rsize"%string then ok (nfs_set_readmax (u64 (atoi val)) c)
  else if arg_is "wsize"%string then ok (nfs_set_writemax (u64 (atoi val)) c)
  else if arg_is "readdir-buffer"%string then
    match strchr 44 val with
    | Some (_, strp) => ok (nfs_set_readdir_max_buffer_size (u32 (atoi val)) (u32 (atoi strp)) c)
    | None => ok (nfs_set_readdir_max_buffer_size (u32 (atoi val)) (u32 (atoi val)) c)
    end
  else Some (c, -1).

(** ** URLs *)

Definition tohex (ch : Z) : option Z :=
  if isdigit ch then Some (ch - 48)
  else
    let ch := Z.land ch 223 in
    if (65 <=? ch) && (ch <=? 70) then Some (ch - 65 + 10) else None.

(** A percent sign that is not followed by two digits stands for itself. *)
Fixpoint unescape (s : bytes) : bytes :=
  match s with
  | [] => []
  | c :: t =>
      match t with
      | h :: (l :: rest) =>
          match (if c =? 37 then tohex h else None), tohex l with
          | Some x, Some y => Z.lor (Z.shiftl x 4) y :: unescape rest
          | _, _ => c :: unescape t
          end
      | _ => c :: unescape t
      end
  end.

Record nfs_url := mkUrl { url_server : option bytes; url_path : option bytes; url_file : option bytes; url_port : Z }.

(** The arguments behind the question mark, one after the other. *)
Fixpoint parse_flags (fuel : nat) (c : settings) (flags : bytes) : option (settings * bool) :=
  match fuel, flags with
  | S fuel, _ :: _ =>
      let '(strp, rest) := match strchr 38 flags with Some (a, b) => (a, Some b) | None => (flags, None) end in
      let r := match strchr 61 strp with
               | Some (arg, val) => nfs_set_context_args c arg val
               | None => Some (nfs_set_context_args_no_val c strp)
               end in
      match r with
      | None => None
      | Some (c, ret) =>
          if negb (ret =? 0) then Some (c, false)
          else match rest with Some rest => parse_flags fuel c rest | None => Some (c, true) end
      end
  | _, _ => Some (c, true)
  end.

(** [if (flagsp) *flagsp = 0] for the question mark in [s]. *)
Definition cut_flags (s : bytes) : bytes * option bytes :=
  match strchr 63 s with Some (a, b) => (a, Some b) | None => (s, None) end.

(** What follows the label [flags]. *)
Definition finish_url (incomplete : bool) (c : settings) (server : bytes) (path file flags : option bytes)
    : option (settings * option nfs_url) :=
  if bool_decide (file = Some []) && negb incomplete then Some (c, None)
  else
    let file := if bool_decide (file = Some []) then None else file in
    match parse_flags (S (length (default [] flags))) c (default [] flags) with
    | None => None
    | Some (c, false) => Some (c, None)
    | Some (c, true) =>
        let server := match strchr 64 server with Some (_, host) => host | None => server end in
        let server := if blen server <=? 1 then None else Some server in
        let port := if negb (c_mountport c =? 0) then c_mountport c else c_nfsport c in
        Some (c, Some (mkUrl server path file port))
    end.

(** The port behind the first colon; the colon and the port are removed. *)
Definition parse_port (c : settings) (server : bytes) : option (settings * bytes) :=
  match strchr 58 server with
  | None => Some (c, server)
  | Some (host, strp) =>
      let '(port_str, rest) := match strchr slash strp with Some (a, b) => (a, Some b) | None => (strp, None) end in
      match strtol port_str with
      | None => None
      | Some v =>
          let port_num := i32 v in
          if (port_num <? 0) || (port_num >? 65535) then None
          else
            Some (set_c_nfsport port_num c,
              match rest with None => host ++ [58] | Some rest => host ++ slash :: rest end)
      end
  end.

Definition nfs_parse_url (c : settings) (url : bytes) (dir incomplete : bool) : option (settings * option nfs_url) :=
  if negb (starts_with (of_string "nfs://") url) then Some (c, None)
  else
    let server := cstr (unescape (drop 6 url)) in
    let no_path c server path :=
      if incomplete then
        let '(server, flags) := cut_flags server in finish_url incomplete c server path None flags
      else Some (c, None) in
    if match server with [] => true | ch :: _ => (ch =? slash) || (ch =? 63) end then no_path c server None
    else
      match parse_port c server with
      | None => Some (c, None)
      | Some (c, server) =>
          match strchr slash server with
          | None => no_path c server None
          | Some (server, rest) =>
              let path := slash :: rest in
              if dir then
                let '(path, flags) := cut_flags path in finish_url incomplete c server (Some path) None flags
              else
                match strrchr slash path with
                | None => None
                | Some (path, name) =>
                    let '(file, flags) := cut_flags (slash :: name) in
                    finish_url incomplete c server (Some path) (Some file) flags
                end
          end
      end.

Definition nfs_parse_url_full (c : settings) (url : bytes) := nfs_parse_url c url false false.
Definition nfs_parse_url_dir (c : settings) (url : bytes) := nfs_parse_url c url true false.
Definition nfs_parse_url_incomplete (c : settings) (url : bytes) := nfs_parse_url c url false true.

(** ** Strings without a NUL *)

Lemma cstr_id s : 0 ∉ s -> cstr s = s.
Proof.
  induction s as [|c s IH]; intros H; [done|]. cbn [cstr]. destruct (Z.eqb_spec c 0) as [->|]; [by destruct H; left|].
  rewrite IH; [done|]. intros Hn. apply H. by right.
Qed.
