(* ===== verification/UrlProps.v ===== *)
(** * UrlProps: what parsing a URL does

    A URL is taken apart into what it was put together from, as long as its
    parts avoid the bytes the parser splits at; escaping such a byte does not
    help, and a colon behind the host is taken for that of a port.  Whatever
    the URL, the settings stay in the ranges the rest of the client expects. *)

From S2P Require Import Prelude Path Settings Url.

(** ** Splitting strings *)

Definition avoids (cs s : bytes) : Prop := Forall (fun x => x ∉ cs) s.

Lemma avoids_app cs a b : avoids cs (a ++ b) <-> avoids cs a /\ avoids cs b.
Proof. unfold avoids. by rewrite Forall_app. Qed.

Lemma avoids_cons cs x s : avoids cs (x :: s) <-> x ∉ cs /\ avoids cs s.
Proof. unfold avoids. by rewrite Forall_cons. Qed.

Lemma avoids_incl cs cs' s : (forall x, x ∈ cs' -> x ∈ cs) -> avoids cs s -> avoids cs' s.
Proof. unfold avoids. intros H Hs. eapply Forall_impl; [exact Hs|]. intros x Hx Hn. by apply Hx, H. Qed.

(** [avoids cs s] gives that [s] avoids a part of [cs]. *)
Ltac avoid := match goal with H : avoids _ ?s |- avoids _ ?s =>
  apply (avoids_incl _ _ _) with (2 := H); clear; intros; set_solver end.

Lemma strchr_none c s : avoids [c] s -> strchr c s = None.
Proof.
  induction s as [|x s IH]; [done|]. intros [Hx Hs]%avoids_cons. cbn. rewrite IH by done.
  destruct (Z.eqb_spec x c); [|done]. subst. destruct Hx. apply list_elem_of_here.
Qed.

Lemma strchr_app c a b : avoids [c] a -> strchr c (a ++ c :: b) = Some (a, b).
Proof.
  induction a as [|x a IH]; intros H; cbn.
  - by rewrite Z.eqb_refl.
  - apply avoids_cons in H as [Hx Ha]. destruct (Z.eqb_spec x c); [subst; destruct Hx; apply list_elem_of_here|].
    by rewrite IH.
Qed.

Lemma strrchr_none c s : avoids [c] s -> strrchr c s = None.
Proof.
  induction s as [|x s IH]; [done|]. intros [Hx Hs]%avoids_cons. cbn. rewrite IH by done.
  destruct (Z.eqb_spec x c); [|done]. subst. destruct Hx. apply list_elem_of_here.
Qed.

Lemma strrchr_app c a b : avoids [c] b -> strrchr c (a ++ c :: b) = Some (a, b).
Proof.
  intros H. induction a as [|x a IH]; cbn; [by rewrite strrchr_none, Z.eqb_refl|]. by rewrite IH.
Qed.

Lemma cstr_avoids s : avoids [0] s -> cstr s = s.
Proof. intros H. apply cstr_id. intros Hz. unfold avoids in H. rewrite Forall_forall in H. by destruct (H 0 Hz); left. Qed.

Lemma unescape_id s : avoids [37] s -> unescape s = s.
Proof.
  induction s as [|x s IH]; [done|]. intros [Hx Hs]%avoids_cons.
  assert (E : x =? 37 = false) by (apply Z.eqb_neq; intros ->; apply Hx, list_elem_of_here).
  cbn. rewrite E, IH by done. by destruct s as [|h [|l rest]].
Qed.

(** ** Putting a URL together *)

Definition arg_text (a : bytes * option bytes) : bytes :=
  match a with (arg, Some val) => arg ++ 61 :: val | (arg, None) => arg end.

Fixpoint flags_text (args : list (bytes * option bytes)) : bytes :=
  match args with
  | [] => []
  | [a] => arg_text a
  | a :: args => arg_text a ++ 38 :: flags_text args
  end.

(** The arguments behind the path. *)
Definition flags_suffix (args : list (bytes * option bytes)) : bytes :=
  match args with [] => [] | _ => 63 :: flags_text args end.
Definition flags_given (args : list (bytes * option bytes)) : option bytes :=
  match args with [] => None | _ => Some (flags_text args) end.

(** What the arguments do to the settings; the first that is refused ends it. *)
Fixpoint apply_args (c : settings) (args : list (bytes * option bytes)) : option (settings * bool) :=
  match args with
  | [] => Some (c, true)
  | (arg, val) :: args =>
      match (match val with Some val => nfs_set_context_args c arg val | None => Some (nfs_set_context_args_no_val c arg) end) with
      | None => None
      | Some (c, ret) => if ret =? 0 then apply_args c args else Some (c, false)
      end
  end.

(** An argument without bytes that end it. *)
Definition arg_ok (a : bytes * option bytes) : Prop :=
  a.1 <> [] /\ avoids [0; 37; 38; 47; 61] a.1 /\ avoids [0; 37; 38; 47] (default [] a.2).

Lemma arg_text_avoids a : arg_ok a -> avoids [38] (arg_text a) /\ arg_text a <> [].
Proof.
  destruct a as [arg [val|]]; intros (Hne & Ha & Hv); cbn in *.
  - split; [|by destruct arg]. rewrite avoids_app, avoids_cons. split; [avoid|]. split; [set_solver|avoid].
  - split; [avoid|done].
Qed.

Lemma arg_split a : arg_ok a -> strchr 61 (arg_text a) = match a.2 with Some val => Some (a.1, val) | None => None end.
Proof.
  destruct a as [arg [val|]]; intros (Hne & Ha & Hv); cbn in *.
  - apply strchr_app. avoid.
  - apply strchr_none. avoid.
Qed.

Lemma parse_flags_args args : forall fuel c, Forall arg_ok args -> (length (flags_text args) < fuel)%nat ->
  parse_flags fuel c (flags_text args) = apply_args c args.
Proof.
  induction args as [|a args IH]; intros fuel c Hok Hf; [by destruct fuel|].
  apply Forall_cons in Hok as [Ha Hok]. destruct (arg_text_avoids a Ha) as [H38 Hne]. pose proof (arg_split a Ha) as Hs.
  destruct fuel as [|fuel]; [lia|].
  assert (E : exists rest, strchr 38 (flags_text (a :: args)) = match rest with Some r => Some (arg_text a, r) | None => None end /\
    (rest = None -> flags_text (a :: args) = arg_text a) /\
    rest = flags_given args).
  { destruct args as [|b args]; eexists; (split; [|split; [|reflexivity]]); try done.
    - by apply strchr_none.
    - by apply strchr_app. }
  destruct E as (rest & E1 & E2 & E3).
  assert (Hl : (length (flags_text args) < fuel)%nat).
  { destruct args; cbn in *; rewrite ?length_app in Hf; cbn in Hf; destruct (arg_text a); cbn in *; try done; lia. }
  assert (Hc : flags_text (a :: args) <> []) by (cbn; destruct args; [done|]; by destruct (arg_text a)).
  cbn [parse_flags]. destruct (flags_text (a :: args)) as [|x l] eqn:Ef; [done|]. rewrite E1.
  assert (E4 : (match rest with Some r => (arg_text a, Some r) | None => (x :: l, None) end) = (arg_text a, rest))
    by (destruct rest; [done|]; by rewrite E2).
  assert (E5 : match match rest with Some r => Some (arg_text a, r) | None => None end with
    | Some (a0, b) => (a0, Some b) | None => (x :: l, None) end = (arg_text a, rest)) by (rewrite <- E4; by destruct rest).
  rewrite E5, Hs. cbn [apply_args]. destruct a as [arg val]. cbn [fst snd].
  assert (E6 : forall c, match rest with Some rest => parse_flags fuel c rest | None => Some (c, true) end = apply_args c args).
  { intros c'. rewrite E3. destruct args as [|b args]; [done|]. by apply IH. }
  destruct val as [val|]; [|change (arg_text (arg, None)) with arg];
    [destruct (nfs_set_context_args c arg val) as [[c' ret]|]; [|done]|destruct (nfs_set_context_args_no_val c arg) as [c' ret]];
    cbv beta iota; destruct (ret =? 0); cbn [negb]; rewrite ?E6; reflexivity.
Qed.

Record parts := mkParts {
  p_host : bytes; p_port : option bytes; p_dir : bytes; p_name : bytes; p_args : list (bytes * option bytes)
}.

Definition url_body (u : parts) : bytes :=
  p_host u ++ match p_port u with Some p => 58 :: p | None => [] end ++
  p_dir u ++ slash :: p_name u ++ flags_suffix (p_args u).
Definition url_text (u : parts) : bytes := of_string "nfs://" ++ url_body u.

(** The port is a number; a colon in the directory, the name or the arguments
    needs one. *)
Record parts_ok (u : parts) : Prop := {
  ok_host : (2 <= length (p_host u))%nat /\ avoids [0; 37; 47; 58; 63; 64] (p_host u);
  ok_port : match p_port u with
            | Some p => avoids [0; 37; 47] p /\ exists v, strtol p = Some v /\ 0 <= v <= 65535
            | None => avoids [58] (p_dir u) /\ avoids [58] (p_name u) /\ avoids [58] (flags_text (p_args u))
            end;
  ok_dir : (p_dir u = [] \/ head (p_dir u) = Some slash) /\ avoids [0; 37; 63] (p_dir u);
  ok_name : avoids [0; 37; 47; 63] (p_name u);
  ok_args : Forall arg_ok (p_args u);
}.

Lemma flags_avoids args : Forall arg_ok args -> avoids [0; 37; 47] (flags_text args).
Proof.
  intros H. induction H as [|a args Ha Hargs IH]; [constructor|].
  assert (Ht : avoids [0; 37; 47] (arg_text a)).
  { destruct a as [arg [val|]], Ha as (_ & Ha & Hv); cbn in *; [|avoid]. rewrite avoids_app, avoids_cons.
    split; [avoid|]. split; [set_solver|avoid]. }
  destruct args as [|b args]; [done|]. change (flags_text (a :: b :: args)) with (arg_text a ++ 38 :: flags_text (b :: args)).
  rewrite avoids_app, avoids_cons. split; [done|]. split; [set_solver|done].
Qed.

(** The settings and the rest of the string when the port has been taken. *)
Definition port_settings (c : settings) (port : option bytes) : settings :=
  match port with Some p => match strtol p with Some v => set_c_nfsport v c | None => c end | None => c end.

Lemma parse_port_spec c host port rest :
  avoids [47; 58] host -> head rest = Some slash ->
  match port with
  | Some p => avoids [47] p /\ exists v, strtol p = Some v /\ 0 <= v <= 65535
  | None => avoids [58] rest
  end ->
  parse_port c (host ++ match port with Some p => 58 :: p | None => [] end ++ rest) =
    Some (port_settings c port, host ++ rest).
Proof.
  intros Hh Hr Hp. unfold parse_port. destruct rest as [|x rest]; [done|]. injection Hr as ->. destruct port as [p|].
  - destruct Hp as (Hp & v & Hv & Hr). cbn [app]. rewrite strchr_app by avoid. rewrite strchr_app by done.
    cbn [port_settings]. rewrite Hv. replace (i32 v) with v by (unfold i32; div_lia).
    replace ((v <? 0) || (v >? 65535)) with false by lia. done.
  - cbn [app]. rewrite strchr_none; [done|]. rewrite avoids_app. split; [avoid|done].
Qed.

Definition url_settled (c : settings) (args : list (bytes * option bytes)) (host dir : bytes) (file : option bytes)
    : option (settings * option nfs_url) :=
  match apply_args c args with
  | None => None
  | Some (c, false) => Some (c, None)
  | Some (c, true) =>
      Some (c, Some (mkUrl (Some host) (Some dir) file (if c_mountport c =? 0 then c_nfsport c else c_mountport c)))
  end.

Lemma finish_url_spec incomplete c host dir file args :
  (2 <= length host)%nat -> avoids [64] host -> Forall arg_ok args -> file <> Some [] ->
  finish_url incomplete c host (Some dir) file (flags_given args) =
    url_settled c args host dir file.
Proof.
  intros Hl Hh Ha Hf. unfold finish_url, url_settled. rewrite bool_decide_false by done. cbn [andb].
  replace (default [] (flags_given args)) with (flags_text args) by (by destruct args).
  rewrite parse_flags_args by (done || lia). destruct (apply_args c args) as [[c' [|]]|]; [|done|done].
  rewrite strchr_none by done. replace (blen host <=? 1) with false by (unfold blen; lia).
  by destruct (c_mountport c' =? 0).
Qed.

Lemma url_rest_head u : parts_ok u -> forall x, head (p_dir u ++ slash :: x) = Some slash.
Proof. intros H x. destruct (ok_dir u H) as [[->|Hd] _]; [done|]. by destruct (p_dir u). Qed.

Lemma url_body_avoids u : parts_ok u -> avoids [0; 37] (url_body u).
Proof.
  intros [[Hl Hh] Hp [Hd1 Hd2] Hn Ha]. unfold url_body. pose proof (flags_avoids _ Ha) as Hf.
  rewrite !avoids_app, avoids_cons, avoids_app. repeat split; [avoid| |avoid|set_solver|avoid|].
  - destruct (p_port u) as [p|]; [|constructor]. rewrite avoids_cons. split; [set_solver|]. destruct Hp as [Hp _]. avoid.
  - unfold flags_suffix. destruct (p_args u) as [|a args]; [constructor|]. rewrite avoids_cons. split; [set_solver|avoid].
Qed.

Lemma cut_flags_spec s args : avoids [63] s ->
  cut_flags (s ++ flags_suffix args) =
    (s, flags_given args).
Proof.
  intros H. unfold cut_flags, flags_suffix. destruct args as [|a args]; [rewrite app_nil_r, strchr_none|rewrite strchr_app]; done.
Qed.

(** What is left to be split when the scheme, the escapes and the port are done. *)
Lemma parse_url_body c u dir : parts_ok u ->
  nfs_parse_url c (url_text u) dir false =
    let c := port_settings c (p_port u) in
    let path := p_dir u ++ slash :: p_name u ++ flags_suffix (p_args u) in
    if dir then
      let '(path, flags) := cut_flags path in finish_url false c (p_host u) (Some path) None flags
    else
      match strrchr slash path with
      | None => None
      | Some (path, name) =>
          let '(file, flags) := cut_flags (slash :: name) in finish_url false c (p_host u) (Some path) (Some file) flags
      end.
Proof.
  intros H. pose proof (url_body_avoids u H) as Hb. pose proof (url_rest_head u H) as Hr.
  destruct H as [[Hl Hh] Hp [Hd1 Hd2] Hn Ha]. unfold nfs_parse_url, url_text.
  assert (E : starts_with (of_string "nfs://") (of_string "nfs://" ++ url_body u) = true) by (apply starts_with_spec; eauto).
  rewrite E. cbn [negb]. assert (D : drop 6 (of_string "nfs://" ++ url_body u) = url_body u) by reflexivity.
  rewrite D, unescape_id, cstr_avoids by avoid. clear E D. unfold url_body.
  set (flags := flags_suffix (p_args u)) in *.
  assert (Hfirst : match p_host u ++ match p_port u with Some p => 58 :: p | None => [] end ++ p_dir u ++ slash :: p_name u ++ flags
    with [] => true | ch :: _ => (ch =? slash) || (ch =? 63) end = false).
  { destruct (p_host u) as [|x host]; [cbn in Hl; lia|]. apply avoids_cons in Hh as [Hx _]. cbn.
    apply orb_false_iff. split; apply Z.eqb_neq; intros ->; apply Hx; set_solver. }
  rewrite Hfirst. rewrite parse_port_spec; [|avoid|apply Hr|].
  2:{ destruct (p_port u) as [p|]; [destruct Hp as [Hp Hv]; split; [avoid|done]|]. destruct Hp as (P1 & P2 & P3).
      rewrite avoids_app, avoids_cons, avoids_app. repeat split; [done|set_solver|done|].
      unfold flags, flags_suffix. destruct (p_args u); [constructor|]. rewrite avoids_cons. split; [set_solver|done]. }
  specialize (Hr (p_name u ++ flags)). destruct (p_dir u ++ slash :: p_name u ++ flags) as [|x rest] eqn:Er; [done|].
  injection Hr as ->. rewrite strchr_app by avoid. done.
Qed.

(** C30: a URL is taken apart into what it was put together from: the server, the directory and the name
    of the file are those of the URL, its port is that of NFS (a port for MOUNT in the arguments
    replaces it in the result), and the arguments are applied from left to right; the first that is
    refused makes the URL refused, with the settings as they are by then.  [nfs_parse_url_dir] takes
    the directory and the name for the path. *)
Theorem parse_url_parts c u : parts_ok u ->
  let c' := port_settings c (p_port u) in
  nfs_parse_url_full c (url_text u) = url_settled c' (p_args u) (p_host u) (p_dir u) (Some (slash :: p_name u)) /\
  nfs_parse_url_dir c (url_text u) = url_settled c' (p_args u) (p_host u) (p_dir u ++ slash :: p_name u) None.
Proof.
  intros H c'. pose proof (fun d => parse_url_body c u d H) as B. destruct H as [[Hl Hh] Hp [Hd1 Hd2] Hn Ha].
  unfold nfs_parse_url_full, nfs_parse_url_dir. rewrite !B. cbv zeta iota. fold c'. split.
  - rewrite strrchr_app.
    2:{ rewrite avoids_app. split; [avoid|]. pose proof (flags_avoids _ Ha) as Hf. unfold flags_suffix. destruct (p_args u); [constructor|].
        rewrite avoids_cons. split; [set_solver|avoid]. }
    change (slash :: p_name u ++ ?x) with ((slash :: p_name u) ++ x). rewrite cut_flags_spec.
    2:{ rewrite avoids_cons. split; [set_solver|avoid]. }
    apply finish_url_spec; [done|avoid|done|done].
  - change (slash :: p_name u ++ ?x) with ((slash :: p_name u) ++ x). rewrite app_assoc, cut_flags_spec.
    2:{ rewrite avoids_app, avoids_cons. split; [avoid|]. split; [set_solver|avoid]. }
    apply finish_url_spec; [done|avoid|done|done].
Qed.

(** ** Escapes *)

Definition hexdigit (d : Z) : Z := if d <? 10 then 48 + d else 55 + d.
Definition escape (x : Z) : bytes := [37; hexdigit (x / 16); hexdigit (x mod 16)].

(** [e] is [s] with some of its bytes escaped. *)
Inductive escapes : bytes -> bytes -> Prop :=
| escapes_nil : escapes [] []
| escapes_plain x e s : x <> 37 -> escapes e s -> escapes (x :: e) (x :: s)
| escapes_byte x e s : is_u8 x -> x <> 37 -> escapes e s -> escapes (escape x ++ e) (x :: s).

Lemma tohex_hexdigit d : 0 <= d < 16 -> tohex (hexdigit d) = Some d.
Proof.
  intros H. assert (F : Forall (fun d => tohex (hexdigit d) = Some d) (seqZ 0 16)) by (repeat constructor).
  rewrite Forall_forall in F. apply F. apply elem_of_seqZ. lia.
Qed.

Lemma nibbles x : is_u8 x -> Z.lor (Z.shiftl (x / 16) 4) (x mod 16) = x.
Proof.
  intros H. assert (F : forallb (fun x => Z.lor (Z.shiftl (x / 16) 4) (x mod 16) =? x) (seqZ 0 256) = true) by (vm_compute; reflexivity).
  rewrite forallb_forall in F. apply Z.eqb_eq, F. apply list_elem_of_In, elem_of_seqZ. unfold is_u8 in H. lia.
Qed.

Lemma unescape_escapes e s : escapes e s -> unescape e = s.
Proof.
  intros H. induction H as [|x e s Hx _ IH|x e s Hx Hp _ IH]; [done| |].
  - assert (E : x =? 37 = false) by lia. cbn. rewrite E, IH. by destruct e as [|h [|l rest]].
  - cbn -[Z.lor Z.shiftl]. rewrite !tohex_hexdigit by (unfold is_u8 in Hx; div_lia). by rewrite nibbles, IH.
Qed.

Lemma escapes_avoids e s : escapes e s -> avoids [37] s.
Proof. intros H. induction H; [constructor| |]; rewrite avoids_cons; split; [set_solver|done|set_solver|done]. Qed.

(** Escapes protect nothing: they are resolved in the whole URL before it is split (libnfs.c:404),
    so that an escaped slash, colon, question mark or ampersand is taken for the delimiter: a URL
    with any of its bytes escaped is parsed like the one without. *)
Theorem escapes_protect_nothing c e s dir incomplete : escapes e s ->
  nfs_parse_url c (of_string "nfs://" ++ e) dir incomplete = nfs_parse_url c (of_string "nfs://" ++ s) dir incomplete.
Proof.
  intros H. unfold nfs_parse_url.
  assert (E : forall s, starts_with (of_string "nfs://") (of_string "nfs://" ++ s) = true) by (intros; apply starts_with_spec; eauto).
  rewrite !E. assert (D : forall s, drop 6 (of_string "nfs://" ++ s) = s) by reflexivity. rewrite !D.
  rewrite (unescape_escapes e s H), (unescape_id s); [done|]. by eapply escapes_avoids.
Qed.

(** ** Colons *)

(** The first colon of a URL is taken for that of the port wherever it is (libnfs.c:439): a path
    with a component "a:b" is refused unless [b] starts with a number that is, cut to 32 bits, a
    port; then the number is used as the port of NFS and ":b" is missing from the path. *)
Theorem colon_taken_for_port c host a b rest :
  avoids [0; 37; 47; 58; 63] host -> host <> [] -> avoids [0; 37; 58] a -> avoids [0; 37; 47] b -> avoids [0; 37; 58] rest ->
  let url path := of_string "nfs://" ++ host ++ slash :: path in
  nfs_parse_url_full c (url (a ++ 58 :: b ++ slash :: rest)) =
    match strtol b with
    | Some v =>
        if (0 <=? i32 v) && (i32 v <=? 65535) then nfs_parse_url_full (set_c_nfsport (i32 v) c) (url (a ++ slash :: rest))
        else Some (c, None)
    | None => Some (c, None)
    end.
Proof.
  intros Hh Hne Ha Hb Hr url. unfold nfs_parse_url_full, nfs_parse_url, url.
  assert (E : forall s, starts_with (of_string "nfs://") (of_string "nfs://" ++ s) = true) by (intros; apply starts_with_spec; eauto).
  rewrite !E. assert (D : forall s, drop 6 (of_string "nfs://" ++ s) = s) by reflexivity. rewrite !D. clear E D url. cbn [negb].
  assert (Hp : forall p, avoids [0; 37] p -> cstr (unescape (host ++ slash :: p)) = host ++ slash :: p).
  { intros p Hp. assert (avoids [0; 37] (host ++ slash :: p)) by (rewrite avoids_app, avoids_cons; split; [avoid|split; [set_solver|done]]).
    rewrite unescape_id, cstr_avoids by avoid. done. }
  rewrite !Hp; cycle 1.
  { rewrite avoids_app, avoids_cons. split; [avoid|]. split; [set_solver|avoid]. }
  { rewrite avoids_app, avoids_cons, avoids_app, avoids_cons. repeat split; [avoid|set_solver|avoid|set_solver|avoid]. }
  assert (Hfirst : forall p, match host ++ slash :: p with [] => true | ch :: _ => (ch =? slash) || (ch =? 63) end = false).
  { intros p. destruct host as [|x host]; [done|]. apply avoids_cons in Hh as [Hx _]. cbn.
    apply orb_false_iff. split; apply Z.eqb_neq; intros ->; apply Hx; set_solver. }
  rewrite !Hfirst. assert (P1 : parse_port c (host ++ slash :: a ++ 58 :: b ++ slash :: rest) =
    match strtol b with
    | Some v => if (0 <=? i32 v) && (i32 v <=? 65535) then Some (set_c_nfsport (i32 v) c, host ++ slash :: a ++ slash :: rest) else None
    | None => None
    end).
  { unfold parse_port. change (slash :: a ++ ?x) with ((slash :: a) ++ x). rewrite !app_assoc, strchr_app.
    2:{ rewrite avoids_app, avoids_cons. split; [avoid|]. split; [set_solver|avoid]. }
    rewrite strchr_app by avoid. destruct (strtol b) as [v|]; [|done].
    destruct ((i32 v <? 0) || (i32 v >? 65535)) eqn:E1, ((0 <=? i32 v) && (i32 v <=? 65535)) eqn:E2; try done; lia. }
  rewrite P1. destruct (strtol b) as [v|]; [|done]. destruct ((0 <=? i32 v) && (i32 v <=? 65535)); [|done].
  assert (P2 : parse_port (set_c_nfsport (i32 v) c) (host ++ slash :: a ++ slash :: rest) =
    Some (set_c_nfsport (i32 v) c, host ++ slash :: a ++ slash :: rest)).
  { unfold parse_port. rewrite strchr_none; [done|]. rewrite avoids_app, avoids_cons, avoids_app, avoids_cons.
    repeat split; [avoid|set_solver|avoid|set_solver|avoid]. }
  by rewrite P2.
Qed.

(** ** What a URL can do to the settings *)

Record settings_ok (c : settings) : Prop := {
  so_sizes : sizes_ok c;
  so_version : c_version c = NFS_V3 \/ c_version c = NFS_V4;
  so_retrans : 0 <= c_retrans c <= INT_MAX;
  so_timeout : 10000 <= c_timeout c <= INT_MAX /\ t_timeout (c_rpc c) = c_timeout c;
  so_ifname : (length (t_ifname (c_rpc c)) < IFNAMSIZ)%nat;
}.

Lemma init_settings_ok uid gid : settings_ok (init_settings uid gid).
Proof. split; [apply init_sizes_ok|by left|unfold INT_MAX; cbn; lia|unfold INT_MAX; cbn; lia|unfold IFNAMSIZ; cbn; lia]. Qed.

Lemma atoi_i32 s : is_i32 (atoi s).
Proof. unfold atoi, is_i32, i32. div_lia. Qed.

Ltac split_ok := intros [[S1 S2 S3 S4] V R [T1 T2] I]; split; [split| | | |]; cbn in *; auto using xfer_size_ok.

Lemma ok_same_sizes c c' : settings_ok c ->
  c_readmax c' = c_readmax c -> c_writemax c' = c_writemax c -> c_readdir_dircount c' = c_readdir_dircount c ->
  c_readdir_maxcount c' = c_readdir_maxcount c -> c_version c' = c_version c -> c_retrans c' = c_retrans c ->
  c_timeout c' = c_timeout c -> t_timeout (c_rpc c') = t_timeout (c_rpc c) -> t_ifname (c_rpc c') = t_ifname (c_rpc c) -> settings_ok c'.
Proof. intros [[S1 S2 S3 S4] V R T I] E1 E2 E3 E4 E5 E6 E7 E8 E9. split; [split| | | |]; congruence. Qed.

Lemma rpc_uid_gid_same uid gid t : t_timeout (rpc_set_uid_gid uid gid t) = t_timeout t /\ t_ifname (rpc_set_uid_gid uid gid t) = t_ifname t.
Proof. unfold rpc_set_uid_gid. by destruct (negb (uid =? t_uid t) || negb (gid =? t_gid t)). Qed.

Lemma context_args_ok c arg val c' r : settings_ok c -> nfs_set_context_args c arg val = Some (c', r) -> settings_ok c'.
Proof.
  intros H. pose proof (atoi_i32 val) as A. unfold is_i32 in A. unfold nfs_set_context_args.
  repeat match goal with |- (if beq _ _ then _ else _) = _ -> _ => destruct (beq _ _) end; intros E;
    try (injection E as <- <-; eapply ok_same_sizes; [exact H|reflexivity..|apply rpc_uid_gid_same|apply rpc_uid_gid_same]);
    try (injection E as <- <-; eapply ok_same_sizes; [exact H|reflexivity..]);
    try (injection E as <- <-; revert H; split_ok; fail).
  - destruct (fits_int (atoi val * 100)) eqn:F; [|done]. cbn [negb] in E. unfold fits_int in F.
    destruct (Z.ltb_spec (atoi val * 100) (10 * 1000)); injection E as <- <-; [done|]. revert H. split_ok. unfold INT_MAX in *. lia.
  - destruct (Z.ltb_spec (atoi val) 0); [by injection E as <- <-|]. unfold nfs_set_retrans in E.
    destruct (atoi val >=? 0); [|done]. injection E as <- <-. revert H. split_ok. unfold INT_MAX. lia.
  - injection E as <- <-. revert H. split_ok. unfold IFNAMSIZ. rewrite length_take. lia.
  - unfold nfs_set_version in E. destruct ((atoi val =? NFS_V3) || (atoi val =? NFS_V4)) eqn:Ev; injection E as <- <-; [|done].
    revert H. split_ok. unfold NFS_V3, NFS_V4 in *. lia.
  - destruct (strchr 44 val) as [[a b]|]; injection E as <- <-; revert H; split_ok.
Qed.

Lemma context_args_no_val_ok c arg c' r : settings_ok c -> nfs_set_context_args_no_val c arg = (c', r) -> settings_ok c'.
Proof.
  intros H. unfold nfs_set_context_args_no_val. destruct (beq _ _); intros E; injection E as <- <-; [|done].
  eapply ok_same_sizes; [exact H|reflexivity..].
Qed.

Lemma parse_flags_ok fuel : forall c flags c' b, settings_ok c -> parse_flags fuel c flags = Some (c', b) -> settings_ok c'.
Proof.
  induction fuel as [|fuel IH]; intros c flags c' b H; cbn [parse_flags]; [intros E; by injection E as <- <-|].
  destruct flags as [|x flags]; [intros E; by injection E as <- <-|].
  destruct (match strchr 38 (x :: flags) with Some (a, b) => (a, Some b) | None => (x :: flags, None) end) as [strp rest].
  assert (Hr : forall c1 r1, match strchr 61 strp with
    | Some (arg, val) => nfs_set_context_args c arg val | None => Some (nfs_set_context_args_no_val c strp) end = Some (c1, r1) ->
    settings_ok c1).
  { intros c1 r1. destruct (strchr 61 strp) as [[arg val]|]; [by apply context_args_ok|]. intros E. injection E.
    by apply context_args_no_val_ok. }
  destruct (match strchr 61 strp with Some (arg, val) => nfs_set_context_args c arg val | None => Some _ end) as [[c1 r1]|]; [|done].
  specialize (Hr c1 r1 eq_refl). destruct (negb (r1 =? 0)); [intros E; by injection E as <- <-|].
  destruct rest as [rest|]; [by apply IH|]. intros E. by injection E as <- <-.
Qed.

Lemma finish_url_ok incomplete c server path file flags c' u :
  settings_ok c -> finish_url incomplete c server path file flags = Some (c', u) -> settings_ok c'.
Proof.
  intros H. unfold finish_url. destruct (_ && negb incomplete); [intros E; by injection E as <- <-|].
  destruct (parse_flags _ _ _) as [[c1 b]|] eqn:F; [|done]. pose proof (parse_flags_ok _ _ _ _ _ H F) as H1.
  destruct b; intros E; by injection E as <- <-.
Qed.

Lemma parse_port_ok c server c' rest : settings_ok c -> parse_port c server = Some (c', rest) -> settings_ok c'.
Proof.
  intros H. unfold parse_port. destruct (strchr 58 server) as [[host strp]|]; [|intros E; by injection E as <- <-].
  destruct (match strchr slash strp with Some (a, b) => _ | None => _ end) as [p r]. destruct (strtol p) as [v|]; [|done].
  destruct (_ || _); [done|]. intros E. injection E as <- <-. eapply ok_same_sizes; [exact H|reflexivity..].
Qed.


(** ** Examples *)

#[global] Instance avoids_dec cs s : Decision (avoids cs s).
Proof. unfold avoids. apply _. Defined.

Ltac decide_avoids := apply (bool_decide_unpack _); vm_compute; exact I.

(** nfs://host:2049/a/b?version=4&readonly *)
Definition example_url : parts :=
  mkParts (of_string "host") (Some (of_string "2049")) (of_string "/a") (of_string "b")
    [(of_string "version", Some (of_string "4")); (of_string "readonly", None)].

Lemma example_url_ok : parts_ok example_url.
Proof.
  split; [split; [cbn; lia|decide_avoids]|split; [decide_avoids|exists 2049; split; [reflexivity|lia]]|
    split; [right; reflexivity|decide_avoids]|decide_avoids|].
  repeat constructor; try discriminate; decide_avoids.
Defined.

Lemma parse_url_parts_witness :
  snd <$> nfs_parse_url_full (init_settings 0 0) (url_text example_url) =
    Some (Some (mkUrl (Some (of_string "host")) (Some (of_string "/a")) (Some (of_string "/b")) 2049)).
Proof.
  rewrite (proj1 (parse_url_parts (init_settings 0 0) example_url example_url_ok)). vm_compute. reflexivity.
Defined.

Lemma escapes_protect_nothing_witness :
  nfs_parse_url (init_settings 0 0) (of_string "nfs://" ++ (escape 104 ++ [105; 47; 97])) false false =
  nfs_parse_url (init_settings 0 0) (of_string "nfs://" ++ [104; 105; 47; 97]) false false.
Proof.
  apply escapes_protect_nothing. apply escapes_byte; [unfold is_u8; lia|lia|]. repeat apply escapes_plain; try lia. apply escapes_nil.
Defined.

Lemma colon_taken_for_port_witness :
  nfs_parse_url_full (init_settings 0 0) (of_string "nfs://" ++ of_string "host" ++ slash :: (of_string "a" ++ 58 :: of_string "80" ++ slash :: of_string "f")) =
  nfs_parse_url_full (set_c_nfsport 80 (init_settings 0 0)) (of_string "nfs://" ++ of_string "host" ++ slash :: (of_string "a" ++ slash :: of_string "f")).
Proof. apply (colon_taken_for_port (init_settings 0 0) (of_string "host") (of_string "a") (of_string "80") (of_string "f")); [decide_avoids|discriminate|decide_avoids..]. Defined.

