(* ===== verification/Nfs4Data.v ===== *)
(** * Nfs4Data: compounds of NFSv4 and what the client keeps for it

    A request of NFSv4 is a COMPOUND, a list of operations the server does one
    after the other until one fails; the reply has the results of those it did.
    Here are the operations the client makes ([nfs_argop4]) and the results it
    looks at ([nfs_resop4]), both with what lib/nfs_v4.c puts there and reads:
    the types of nfs4/libnfs-raw-nfs4.h, where they are unions.  The memory a
    result is decoded into is zeroed first: where its status is not [NFS4_OK]
    the other fields are zero or empty. *)

From S2P Require Import Prelude.

(** [struct stateid] (include/libnfs-private.h) and [stateid4]. *)
Record stateid := mkStateid { sid_seqid : Z; sid_other : bytes }.
Definition zero_stateid : stateid := mkStateid 0 (replicate 12 0).

(** The part of [struct nfsfh] that is of NFSv4. *)
Record nfsfh4 := mkFh4 {
  h4_stateid : stateid; h4_open_owner : Z; h4_open_seqid : Z; h4_lock_seqid : Z; h4_lock_stateid : stateid
}.
Definition no_fh4 : nfsfh4 := mkFh4 zero_stateid 0 0 0 zero_stateid.

(** The part of [struct nfs_context_internal] that is of NFSv4, and the static
    seed of [nfs4_init_random_verifier]. *)
Record nfs4 := mkNfs4 {
  n4_verifier : bytes; n4_client_name : bytes; n4_clientid : Z; n4_setclientid_confirm : bytes;
  n4_open_counter : Z; n4_has_lock_owner : bool; n4_seed : Z
}.
Definition no_nfs4 : nfs4 := mkNfs4 (replicate 8 0) [] 0 (replicate 8 0) 0 false 0.

(** ** Operations *)

(** [createtype4]: what the new object is. *)
Inductive createtype4 :=
| NF4DIR_ | NF4LNK_ (linkdata : bytes) | NF4BLK_ (specdata1 specdata2 : Z) | NF4CHR_ (specdata1 specdata2 : Z).

(** [openflag4] *)
Inductive openflag4 :=
| OPEN4_NOCREATE
| OPEN4_CREATE_UNCHECKED (attrmask : list Z) (attr_vals : bytes)
| OPEN4_CREATE_EXCLUSIVE (createverf : bytes).

(** [locker4]: an owner that has locks, or a new one for an open file. *)
Inductive locker4 :=
| Lock_owner (lock_stateid : stateid) (lock_seqid : Z)
| Open_owner (open_seqid : Z) (open_stateid : stateid) (lock_seqid : Z) (clientid : Z) (owner : bytes).

(** The stateid of a SETATTR may not have been set. *)
Inductive nfs_argop4 :=
| OP_ACCESS (access : Z)
| OP_CLOSE (seqid : Z) (open_stateid : stateid)
| OP_COMMIT (offset count : Z)
| OP_CREATE (objtype : createtype4) (objname : bytes) (attrmask : list Z) (attr_vals : bytes)
| OP_GETATTR (attr_request : list Z)
| OP_GETFH
| OP_LINK (newname : bytes)
| OP_LOCK (locktype reclaim offset length : Z) (locker : locker4)
| OP_LOCKT (locktype offset length : Z) (clientid : Z) (owner : bytes)
| OP_LOCKU (locktype seqid : Z) (lock_stateid : stateid) (offset length : Z)
| OP_LOOKUP (objname : bytes)
| OP_OPEN (seqid share_access share_deny : Z) (clientid owner : Z) (openhow : openflag4) (file : bytes)
| OP_OPEN_CONFIRM (open_stateid : stateid) (seqid : Z)
| OP_PUTFH (object : bytes)
| OP_PUTROOTFH
| OP_READ (stateid : stateid) (offset count : Z)
| OP_READDIR (cookie : Z) (cookieverf : bytes) (dircount maxcount : Z) (attr_request : list Z)
| OP_READLINK
| OP_REMOVE (target : bytes)
| OP_RENAME (oldname newname : bytes)
| OP_SAVEFH
| OP_SETATTR (stateid : option stateid) (attrmask : list Z) (attr_vals : bytes)
| OP_SETCLIENTID (verifier id : bytes) (cb_program callback_ident : Z)
| OP_SETCLIENTID_CONFIRM (clientid : Z) (setclientid_confirm : bytes)
| OP_WRITE (stateid : stateid) (offset stable : Z) (data : bytes).

(** ** Results *)

Record entry4 := mkEntry4 { e4_cookie : Z; e4_name : bytes; e4_attr_vals : bytes }.

Inductive nfs_resop4 :=
| RES_ACCESS (status supported access : Z)
| RES_GETATTR (status : Z) (attr_vals : bytes)
| RES_GETFH (status : Z) (object : bytes)
| RES_LOCK (status : Z) (lock_stateid : stateid)
| RES_LOCKU (status : Z) (lock_stateid : stateid)
| RES_LOOKUP (status : Z)
| RES_OPEN (status : Z) (stateid : stateid) (rflags : Z)
| RES_OPEN_CONFIRM (status : Z) (open_stateid : stateid)
| RES_READ (status data_len : Z) (data : bytes)
| RES_READDIR (status : Z) (entries : list entry4) (eof : bool)
| RES_READLINK (status : Z) (link : bytes)
| RES_SETCLIENTID (status clientid : Z) (setclientid_confirm : bytes)
| RES_WRITE (status count : Z)
| RES_OTHER (op : Z) (status : Z).
