(* ===== verification/Nfs3.v ===== *)
(** * Nfs3: what an NFSv3 operation is made of (lib/nfs_v3.c, lib/libnfs.c)

    An operation of the client is a chain of C functions: each sends RPCs, most
    of them one, and returns, and the callback of an RPC goes on from there.  A
    [call] is what calling such a function comes to: what has been handed to
    the callback of the user, the context, the value returned and the requests
    that are in flight, each with what its callback does with the reply.  Any of
    them may be answered next; what is in flight after that is in the [call] of
    its callback.  The callback is given the context again, since anything may
    have happened to it in between.

    [rpc_nfs3_*_task] fails when the call cannot be allocated or queued: the
    booleans [n_sends] say whether the next ones are queued (once they are used
    up all are).  The replies of the server are those of RFC 1813, decoded; the
    result of a procedure is only looked at when its status is [NFS3_OK]. *)

From S2P Require Import Prelude Path Settings Nfs4Data.

(** ** Data *)

Abbreviation nfs_fh := bytes.

Record nfs_time := mkTime { seconds : Z; nseconds : Z }.

(** [struct fattr3] and [struct nfs_attr], which has no [fileid]. *)
Record fattr3 := mkFattr {
  fa_type : Z; fa_mode : Z; fa_nlink : Z; fa_uid : Z; fa_gid : Z; fa_size : Z; fa_used : Z;
  fa_rdev : Z * Z; fa_fsid : Z; fa_fileid : Z; fa_atime : nfs_time; fa_mtime : nfs_time; fa_ctime : nfs_time
}.

Record nfs_attr := mkAttr {
  a_type : Z; a_mode : Z; a_uid : Z; a_gid : Z; a_nlink : Z; a_size : Z; a_used : Z; a_fsid : Z;
  a_rdev : Z * Z; a_atime : nfs_time; a_mtime : nfs_time; a_ctime : nfs_time
}.

Definition fattr3_to_nfs_attr (f : fattr3) : nfs_attr :=
  mkAttr (fa_type f) (fa_mode f) (fa_uid f) (fa_gid f) (fa_nlink f) (fa_size f) (fa_used f) (fa_fsid f)
    (fa_rdev f) (fa_atime f) (fa_mtime f) (fa_ctime f).

Definition zero_attr : nfs_attr :=
  mkAttr 0 0 0 0 0 0 0 0 (0, 0) (mkTime 0 0) (mkTime 0 0) (mkTime 0 0).

(** [ftype3] *)
Definition NF3REG : Z := 1.
Definition NF3DIR : Z := 2.
Definition NF3BLK : Z := 3.
Definition NF3CHR : Z := 4.
Definition NF3LNK : Z := 5.
Definition NF3SOCK : Z := 6.
Definition NF3FIFO : Z := 7.

Record nested_mount := mkMount { m_path : bytes; m_fh : nfs_fh; m_attr : nfs_attr }.

(** What an entry of a directory has of its attributes; the microseconds of
    its times are their nanoseconds cut. *)
Record dirent_attr := mkDirentAttr {
  e_type : Z; e_mode : Z; e_size : Z; e_atime : nfs_time; e_mtime : nfs_time; e_ctime : nfs_time; e_uid : Z; e_gid : Z;
  e_nlink : Z; e_dev : Z; e_rdev : Z; e_blksize : Z; e_blocks : Z; e_used : Z
}.
Record nfsdirent := mkDirent { e_name : bytes; e_inode : Z; e_attr : dirent_attr }.

(** A directory that has been read: [d_current] is the number of entries that
    [nfs_readdir] has passed, at most all of them. *)
Record nfsdir := mkDir { d_fh : nfs_fh; d_attr : nfs_attr; d_entries : list nfsdirent; d_current : nat }.

(** [struct nfsfh], an open file. *)
Record nfsfh := mkNfsfh {
  h_fh : nfs_fh; h_sync : bool; h_append : bool; h_readonly : bool; h_dirty : bool; h_offset : Z; h_v4 : nfsfh4
}.
(** One of NFSv3. *)
Abbreviation mkFh fh sync append readonly dirty offset := (mkNfsfh fh sync append readonly dirty offset no_fh4).

(** [struct nfs_context_internal], with the open files, which are freed by
    being removed, and the memory of the user, into which data is read. *)
Record nfs := mkNfs {
  n_conf : settings;
  n_export : bytes;
  n_cwd : bytes;
  n_rootfh : nfs_fh;
  n_dircache : list nfsdir;
  n_nested_mounts : list nested_mount;
  n_files : gmap N nfsfh;
  n_next_file : N;
  n_mem : gmap Z Z;
  n_v4 : nfs4;
  n_sends : list bool
}.

Definition set_n_conf x n :=
  mkNfs x (n_export n) (n_cwd n) (n_rootfh n) (n_dircache n) (n_nested_mounts n)
    (n_files n) (n_next_file n) (n_mem n) (n_v4 n) (n_sends n).
Definition set_n_export x n :=
  mkNfs (n_conf n) x (n_cwd n) (n_rootfh n) (n_dircache n) (n_nested_mounts n)
    (n_files n) (n_next_file n) (n_mem n) (n_v4 n) (n_sends n).
Definition set_n_cwd x n :=
  mkNfs (n_conf n) (n_export n) x (n_rootfh n) (n_dircache n) (n_nested_mounts n)
    (n_files n) (n_next_file n) (n_mem n) (n_v4 n) (n_sends n).
Definition set_n_rootfh x n :=
  mkNfs (n_conf n) (n_export n) (n_cwd n) x (n_dircache n) (n_nested_mounts n)
    (n_files n) (n_next_file n) (n_mem n) (n_v4 n) (n_sends n).
Definition set_n_dircache x n :=
  mkNfs (n_conf n) (n_export n) (n_cwd n) (n_rootfh n) x (n_nested_mounts n)
    (n_files n) (n_next_file n) (n_mem n) (n_v4 n) (n_sends n).
Definition set_n_nested_mounts x n :=
  mkNfs (n_conf n) (n_export n) (n_cwd n) (n_rootfh n) (n_dircache n) x
    (n_files n) (n_next_file n) (n_mem n) (n_v4 n) (n_sends n).
Definition set_n_files x n :=
  mkNfs (n_conf n) (n_export n) (n_cwd n) (n_rootfh n) (n_dircache n) (n_nested_mounts n)
    x (n_next_file n) (n_mem n) (n_v4 n) (n_sends n).
Definition set_n_next_file x n :=
  mkNfs (n_conf n) (n_export n) (n_cwd n) (n_rootfh n) (n_dircache n) (n_nested_mounts n)
    (n_files n) x (n_mem n) (n_v4 n) (n_sends n).
Definition set_n_mem x n :=
  mkNfs (n_conf n) (n_export n) (n_cwd n) (n_rootfh n) (n_dircache n) (n_nested_mounts n)
    (n_files n) (n_next_file n) x (n_v4 n) (n_sends n).
Definition set_n_v4 x n :=
  mkNfs (n_conf n) (n_export n) (n_cwd n) (n_rootfh n) (n_dircache n) (n_nested_mounts n)
    (n_files n) (n_next_file n) (n_mem n) x (n_sends n).
Definition set_n_sends x n :=
  mkNfs (n_conf n) (n_export n) (n_cwd n) (n_rootfh n) (n_dircache n) (n_nested_mounts n)
    (n_files n) (n_next_file n) (n_mem n) (n_v4 n) x.

Definition n_readmax n : Z := c_readmax (n_conf n).
Definition n_writemax n : Z := c_writemax (n_conf n).

(** ** Errors *)

Definition EPERM : Z := 1.
Definition ENOENT : Z := 2.
Definition EINTR : Z := 4.
Definition EIO : Z := 5.
Definition ENXIO : Z := 6.
Definition EAGAIN : Z := 11.
Definition ENOMEM : Z := 12.
Definition EACCES : Z := 13.
Definition EFAULT : Z := 14.
Definition EEXIST : Z := 17.
Definition EXDEV : Z := 18.
Definition ENODEV : Z := 19.
Definition ENOTDIR : Z := 20.
Definition EISDIR : Z := 21.
Definition EINVAL : Z := 22.
Definition EFBIG : Z := 27.
Definition ENOSPC : Z := 28.
Definition EROFS : Z := 30.
Definition EMLINK : Z := 31.
Definition ERANGE : Z := 34.
Definition ENAMETOOLONG : Z := 36.
Definition ENOTEMPTY : Z := 39.
Definition ELOOP : Z := 40.
Definition ESTALE : Z := 116.

Definition NFS3_OK : Z := 0.
Definition NFS3ERR_NOENT : Z := 2.

(** [nfsstat3_to_errno] (nfs/nfs.c), by the values of [enum nfsstat3]. *)
Definition nfsstat3_to_errno (error : Z) : Z :=
  match error with
  | 0 => 0
  | 1 => - EPERM
  | 2 => - ENOENT
  | 5 => - EIO
  | 6 => - ENXIO
  | 13 => - EACCES
  | 17 => - EEXIST
  | 18 => - EXDEV
  | 19 => - ENODEV
  | 20 => - ENOTDIR
  | 21 => - EISDIR
  | 22 => - EINVAL
  | 27 => - EFBIG
  | 28 => - ENOSPC
  | 30 => - EROFS
  | 31 => - EMLINK
  | 63 => - ENAMETOOLONG
  | 66 => - ENOTEMPTY
  | 69 => - ERANGE
  | 70 => - ESTALE
  | 71 => - EIO
  | 10001 => - EIO
  | 10002 => - EIO
  | 10003 => - EIO
  | 10004 => - EINVAL
  | 10005 => - EIO
  | 10006 => - EIO
  | 10007 => - EINVAL
  | 10008 => - EAGAIN
  | _ => - ERANGE
  end.

(** ** Requests and replies *)

(** [sattr3]: what a SETATTR, MKDIR, ... sets. *)
Inductive set_time := DONT_CHANGE | SET_TO_SERVER_TIME | SET_TO_CLIENT_TIME (t : nfs_time).
Record sattr3 := mkSattr {
  sa_mode : option Z; sa_uid : option Z; sa_gid : option Z; sa_size : option Z; sa_atime : set_time; sa_mtime : set_time
}.
Definition no_sattr : sattr3 := mkSattr None None None None DONT_CHANGE DONT_CHANGE.
Definition with_mode (m : Z) : sattr3 := mkSattr (Some m) None None None DONT_CHANGE DONT_CHANGE.
Definition with_size (s : Z) : sattr3 := mkSattr None None None (Some s) DONT_CHANGE DONT_CHANGE.

Record FSSTAT3resok := mkFsstat { fs_tbytes : Z; fs_fbytes : Z; fs_abytes : Z; fs_tfiles : Z; fs_ffiles : Z; fs_afiles : Z }.

(** The replies of READDIR and READDIRPLUS: their entries are linked lists. *)
Record entry3 := mkEntry { r_fileid : Z; r_name : bytes; r_cookie : Z; r_attributes : option fattr3 }.
Record READDIR3resok := mkReaddir { rd_dir_attributes : option fattr3; rd_cookieverf : bytes; rd_entries : list entry3; rd_eof : bool }.
Abbreviation READDIRPLUS3resok := READDIR3resok.

Record FSINFO3resok := mkFsinfo { fi_rtmax : Z; fi_wtmax : Z; fi_dtpref : Z }.

Inductive createmode3 := UNCHECKED | GUARDED.
Inductive stable_how := UNSTABLE | FILE_SYNC.

(** [mknoddata3]: the device numbers of a device node. *)
Inductive mknoddata3 := CHR_DEVICE (a : sattr3) (spec : Z * Z) | BLK_DEVICE (a : sattr3) (spec : Z * Z)
  | SOCK_NODE (a : sattr3) | FIFO_NODE (a : sattr3).

Inductive request :=
| GETATTR (object : nfs_fh)
| SETATTR (object : nfs_fh) (new_attributes : sattr3)
| LOOKUP (dir : nfs_fh) (name : bytes)
| ACCESS (object : nfs_fh) (access : Z)
| READLINK (symlink : nfs_fh)
| READ (file : nfs_fh) (offset count : Z)
| WRITE (file : nfs_fh) (offset count : Z) (stable : stable_how) (data : bytes)
| CREATE (dir : nfs_fh) (name : bytes) (how : createmode3) (attributes : sattr3)
| MKDIR (dir : nfs_fh) (name : bytes) (attributes : sattr3)
| SYMLINK (dir : nfs_fh) (name : bytes) (attributes : sattr3) (target : bytes)
| MKNOD (dir : nfs_fh) (name : bytes) (what : mknoddata3)
| REMOVE (dir : nfs_fh) (name : bytes)
| RMDIR (dir : nfs_fh) (name : bytes)
| RENAME (from_dir : nfs_fh) (from_name : bytes) (to_dir : nfs_fh) (to_name : bytes)
| LINK (file dir : nfs_fh) (name : bytes)
| FSSTAT (fsroot : nfs_fh)
| READDIR (dir : nfs_fh) (cookie : Z) (cookieverf : bytes) (count : Z)
| READDIRPLUS (dir : nfs_fh) (cookie : Z) (cookieverf : bytes) (dircount maxcount : Z)
| FSINFO (fsroot : nfs_fh)
| COMMIT (file : nfs_fh) (offset count : Z)
(** of the MOUNT protocol *)
| MOUNT_MNT (dirpath : bytes)
| MOUNT_UMNT (dirpath : bytes)
| MOUNT_EXPORT
(** of the portmapper, and the procedure that does nothing *)
| NULL (program version : Z)
| PMAP2_GETPORT (prog vers prot : Z)
| PMAP3_GETADDR (prog vers : Z)
(** a connection to a port of the server: [rpc_connect_async] *)
| CONNECT (port : Z)
(** of NFSv4 *)
| COMPOUND (argarray : list nfs_argop4).

(** The part of a result that is there when the status is [NFS3_OK], as far
    as it is used; the results of a COMPOUND are there whatever its status, and those of the portmapper, of EXPORT and of connecting
    have no status. *)
Definition resok (q : request) : Set :=
  match q with
  | GETATTR _ => fattr3
  | LOOKUP _ _ => nfs_fh * option fattr3
  | ACCESS _ _ => Z
  | READLINK _ => bytes
  | READ _ _ _ => Z * bytes
  | WRITE _ _ _ _ _ => Z
  | CREATE _ _ _ _ => option nfs_fh
  | FSSTAT _ => FSSTAT3resok
  | READDIR _ _ _ _ => READDIR3resok
  | READDIRPLUS _ _ _ _ _ => READDIRPLUS3resok
  | FSINFO _ => FSINFO3resok
  | MOUNT_MNT _ => nfs_fh
  | MOUNT_EXPORT => list bytes
  | PMAP2_GETPORT _ _ _ => Z
  | PMAP3_GETADDR _ _ => option bytes
  | COMPOUND _ => list nfs_resop4
  | _ => unit
  end.

(** What the callback of an RPC is given: [status] and [command_data]. *)
Inductive reply (T : Set) : Set := RpcError | RpcCancel | RpcTimeout | Result (status : Z) (ok : T).
Arguments RpcError {T}. Arguments RpcCancel {T}. Arguments RpcTimeout {T}. Arguments Result {T}.

(** [struct stat] and [struct nfs_stat_64]; a [stat] has no nanoseconds
    without HAVE_STRUCT_STAT_ST_MTIM_TV_NSEC, and [st_used] is of [nfs_stat_64]. *)
Record stat64 := mkStat {
  st_dev : Z; st_ino : Z; st_mode : Z; st_nlink : Z; st_uid : Z; st_gid : Z; st_rdev : Z; st_size : Z;
  st_blksize : Z; st_blocks : Z; st_atime : nfs_time; st_mtime : nfs_time; st_ctime : nfs_time; st_used : Z
}.

Record statvfs64 := mkStatvfs {
  f_bsize : Z; f_frsize : Z; f_blocks : Z; f_bfree : Z; f_bavail : Z; f_files : Z; f_ffree : Z; f_favail : Z; f_namemax : Z;
  f_fsid : Z
}.

(** What the user's callback is given. *)
Inductive payload :=
| NoData | Message | FileHandle (h : N) | Stat (st : stat64) | Statvfs (sv : statvfs64) | Text (b : bytes)
| Offset (o : Z) | Directory (d : nfsdir) | Exports (l : list bytes).

(** ** Calls *)

Inductive call :=
| Call (out : list (Z * payload)) (n : nfs) (ret : Z) (next : list pending)
| Undef
with pending := Pend (q : request) (k : nfs -> reply (resok q) -> call).

(** Induction on what may still happen. *)
Definition continues (Q : call -> Prop) (p : pending) : Prop := match p with Pend q k => forall n v, Q (k n v) end.

Lemma call_induction (Q : call -> Prop) :
  Q Undef -> (forall out n ret next, Forall (continues Q) next -> Q (Call out n ret next)) -> forall c, Q c.
Proof.
  intros HU HC. fix IH 1. intros [out n ret next|]; [|exact HU]. apply HC. clear out n ret.
  induction next as [|[q k] l IHl]; constructor; [intros n v; apply IH|exact IHl].
Qed.

(** The user's callback: recorded. *)
Definition user : nfs -> Z -> payload -> call := fun n err d => Call [(err, d)] n 0 [].

Definition leave (n : nfs) (ret : Z) : call := Call [] n ret [].

(** Leave the function with [r], whatever [c] returned. *)
Definition returning (r : Z) (c : call) : call :=
  match c with Call out n _ next => Call out n r next | Undef => Undef end.

(** [rpc_*_task], which returns NULL when the call is not queued. *)
Definition send (n : nfs) (q : request) (refused : nfs -> call) (k : nfs -> reply (resok q) -> call) : call :=
  match n_sends n with
  | false :: l => refused (set_n_sends l n)
  | true :: l => Call [] (set_n_sends l n) 0 [Pend q k]
  | [] => Call [] n 0 [Pend q k]
  end.

(** Several requests in flight, one for each [a] of [l], whose callbacks share
    a struct: [land a] is what the callback does to the context and to it, and
    the one that finds it to be the [last] goes on with [finish]. *)
Section flight.
Context {A X : Type} (q : A -> request) (land : forall a, nfs -> X -> reply (resok (q a)) -> nfs * X).
Context (last : X -> bool) (finish : X -> nfs -> call).

Fixpoint flight (m : nat) (l : list A) (x : X) : list pending :=
  match m with
  | O => []
  | S m =>
      imap (fun j a =>
        Pend (q a) (fun n r =>
          let '(n, x) := land a n x r in
          if last x then finish x n else Call [] n 0 (flight m (delete j l) x))) l
  end.
End flight.

(** Go on in the caller when [c] has returned; only one of them leaves RPCs. *)
Definition after (c : call) (f : nfs -> Z -> call) : call :=
  match c with
  | Undef => Undef
  | Call out n r next =>
      match f n r, next with
      | Call out2 n2 r2 [], _ => Call (out ++ out2) n2 r2 next
      | Call out2 n2 r2 next2, [] => Call (out ++ out2) n2 r2 next2
      | _, _ => Undef
      end
  end.

(** [check_nfs3_error] and the test of the status of the result that follows
    it in every callback. *)
Definition check_nfs3_error {T : Set} (cb : nfs -> Z -> payload -> call) (n : nfs) (r : reply T)
    (k : Z -> T -> call) : call :=
  match r with
  | RpcError => cb n (- EFAULT) Message
  | RpcCancel => cb n (- EINTR) Message
  | RpcTimeout => cb n (- EINTR) Message
  | Result st v => k st v
  end.

Definition check_result {T : Set} (cb : nfs -> Z -> payload -> call) (n : nfs) (r : reply T) (k : T -> call) : call :=
  check_nfs3_error cb n r (fun st v =>
    if st =? NFS3_OK then k v else cb n (nfsstat3_to_errno st) Message).
