(* ===== verification/Lookup.v ===== *)
(** * Lookup: finding a path on the server (lib/nfs_v3.c)

    [nfs3_lookuppath_async] makes the path absolute, normalises it, picks the
    nested mount it lies in and has the names looked up one at a time, links
    being replaced by what they lead to.  When the file handle is found the
    operation goes on with [continue_cb].

    [struct nfs_cb_data] is [saved_path] and the offset of [path] into it.  The
    slash that ends a name is overwritten by a NUL while the name is sent and
    restored after that, which leaves nothing behind.  [link_count] counts up to
    [MAX_LINK_COUNT]; here [links] are the links that may still be followed,
    which makes the definition recursive on them and, between two links, on the
    offset, for which the length of the path is fuel enough. *)

From S2P Require Import Prelude Path Nfs3.

Definition MAX_LINK_COUNT : nat := 40.
Definition O_NOFOLLOW : Z := 131072.

(** Is a flag set? *)
Definition flag (x f : Z) : bool := negb (Z.land x f =? 0).

(** What the operation is given when the path has been looked up. *)
Record found := mkFound { l_fh : nfs_fh; l_path : bytes }.

Section lookup.
Context (cb : nfs -> Z -> payload -> call) (continue_cb : nfs -> option nfs_attr -> found -> call).
Context (no_follow : bool) (continue_int : Z).

(** [while ( *data->path == '/') data->path++] *)
Fixpoint skip_slashes (rest : bytes) : bytes :=
  match rest with
  | c :: l => if c =? slash then skip_slashes l else rest
  | [] => []
  end.

(** [strchr(path, '/')]: the name before the slash and what is behind it. *)
Fixpoint strchr_slash (rest : bytes) : option (bytes * bytes) :=
  match rest with
  | [] => None
  | c :: l =>
      if c =? slash then Some ([], l)
      else match strchr_slash l with Some (a, b) => Some (c :: a, b) | None => None end
  end.

(** The path a link is replaced by: [path] is the offset of what follows the
    link in [saved_path], [target] what the link says. *)
Definition link_path (export saved_path : bytes) (path : nat) (target : bytes) : option (bytes + Z) :=
  if bool_decide (head target = Some slash) then
    if starts_with export target then
      match drop (length export) target with
      | [] => Some (inl [slash])
      | c :: rest => if c =? slash then Some (inl (c :: rest)) else Some (inr (- ENOENT))
      end
    else Some (inr (- ENOENT))
  else
    match drop path saved_path with
    | [] => Some (inl (saved_path ++ [slash; dot; dot; slash] ++ target))
    | rest =>
        match path with
        | O => None
        | S p => Some (inl (take p saved_path ++ [slash; dot; dot; slash] ++ target ++ [slash] ++ rest))
        end
    end.

(** The callback of READLINK; [again] looks up a path from its beginning. *)
Definition nfs3_lookup_path_2_cb (again : nfs -> bytes -> call) (saved_path : bytes) (path : nat)
    (n : nfs) (r : reply bytes) : call :=
  check_result cb n r (fun target =>
    match link_path (n_export n) saved_path path target with
    | None => Undef
    | Some (inr err) => cb n err Message
    | Some (inl newpath) =>
        match nfs_normalize_path newpath with
        | None => Undef
        | Some (saved_path, r) => if r =? 0 then again n saved_path else cb n (- ENOENT) Message
        end
    end).

(** The callback of LOOKUP; [more] is [nfs3_lookup_path_async_internal]. *)
Definition nfs3_lookup_path_1_cb (more : nfs -> option nfs_attr -> nfs_fh -> call)
    (n : nfs) (r : reply (nfs_fh * option fattr3)) : call :=
  check_result cb n r (fun '(fh, attributes) =>
    more n (Some (match attributes with Some f => fattr3_to_nfs_attr f | None => zero_attr end)) fh).

(** [nfs3_lookup_path_async_internal]; [follow] is what happens after READLINK
    when one more link may be followed, [more] after LOOKUP with [data->path]
    at its new place. *)
Definition nfs3_lookup_path_async_internal (follow : option (nfs -> bytes -> call))
    (more : nat -> nfs -> option nfs_attr -> nfs_fh -> call)
    (n : nfs) (attr : option nfs_attr) (saved_path : bytes) (path : nat) (fh : nfs_fh) : call :=
  let rest := skip_slashes (drop path saved_path) in
  let path := (length saved_path - length rest)%nat in
  let is_link := match attr with Some a => a_type a =? NF3LNK | None => false end in
  if is_link && flag continue_int O_NOFOLLOW then returning (-1) (cb n (- ELOOP) Message)
  else if is_link && (negb no_follow || negb (bool_decide (rest = []))) then
    match follow with
    | None => returning (-1) (cb n (- ELOOP) Message)
    | Some again =>
        send n (READLINK fh) (fun n => returning (-1) (cb n (- ENOMEM) Message))
          (nfs3_lookup_path_2_cb again saved_path path)
    end
  else
    let '(name, path) :=
      match strchr_slash rest with
      | Some (name, rest) => (name, (length saved_path - length rest)%nat)
      | None => (rest, length saved_path)
      end in
    if bool_decide (rest = []) then returning 0 (continue_cb n attr (mkFound fh saved_path))
    else
      send n (LOOKUP fh name) (fun n => returning (-1) (cb n (- ENOMEM) Message))
        (nfs3_lookup_path_1_cb (more path)).

(** Up to the next link; what is left of the path gets shorter with each LOOKUP. *)
Fixpoint lookup_names (follow : option (nfs -> bytes -> call)) (fuel : nat)
    (n : nfs) (attr : option nfs_attr) (saved_path : bytes) (path : nat) (fh : nfs_fh) : call :=
  match fuel with
  | O => Undef
  | S fuel =>
      nfs3_lookup_path_async_internal follow
        (fun path n attr fh => lookup_names follow fuel n attr saved_path path fh) n attr saved_path path fh
  end.

Fixpoint lookup_path (links : nat) : nat -> nfs -> option nfs_attr -> bytes -> nat -> nfs_fh -> call :=
  lookup_names
    match links with
    | O => None
    | S links => Some (fun n saved_path => lookup_path links (S (length saved_path)) n None saved_path O (n_rootfh n))
    end.

Definition start_lookup (n : nfs) (attr : option nfs_attr) (saved_path : bytes) (fh : nfs_fh) : call :=
  lookup_path MAX_LINK_COUNT (S (length saved_path)) n attr saved_path O fh.

(** The loop over the nested mounts, the newest first. *)
Fixpoint nested_export (mnts : list nested_mount) (saved_path : bytes) (fh : nfs_fh) (max_match_len : nat)
    : bytes * nfs_fh :=
  match mnts with
  | [] => (saved_path, fh)
  | mnt :: mnts =>
      let len := length (m_path mnt) in
      let rest := drop len saved_path in
      if (len <? max_match_len)%nat || negb (starts_with (m_path mnt) saved_path) ||
         negb (match rest with [] => true | c :: _ => c =? slash end)
      then nested_export mnts saved_path fh max_match_len
      else nested_export mnts rest (m_fh mnt) len
  end.

Definition nfs3_lookup_path_getattr_cb (saved_path : bytes) (n : nfs) (r : reply fattr3) : call :=
  check_result cb n r (fun f =>
    start_lookup n (Some (fattr3_to_nfs_attr f)) saved_path (n_rootfh n)).

(** [path] is NULL or a string. *)
Definition nfs3_lookuppath_async (n : nfs) (path : option bytes) : call :=
  let path := match path with None | Some [] => [dot] | Some path => path end in
  let saved_path := if bool_decide (head path = Some slash) then path else n_cwd n ++ [slash] ++ path in
  match nfs_normalize_path saved_path with
  | None => Undef
  | Some (saved_path, r) =>
      if negb (r =? 0) then leave n (-1)
      else if bool_decide (saved_path = []) then
        send n (GETATTR (n_rootfh n)) (fun n => leave n (-1)) (nfs3_lookup_path_getattr_cb saved_path)
      else
        let '(saved_path, fh) := nested_export (n_nested_mounts n) saved_path (n_rootfh n) O in
        returning 0 (start_lookup n None saved_path fh)
  end.

End lookup.
