(* ===== verification/LookupProps.v ===== *)
(** * LookupProps: what looking up a path does

    The in-place string work of [Lookup] is walking over the components of a
    normalised path ([standing], [internal_*]).  From that: what the RPCs of a
    lookup may be and that it ends with exactly one callback, whatever the
    server answers ([obeys]); and against a server whose files do not change,
    that it finds what [walk] finds, which is stated on components alone. *)

From S2P Require Import Prelude Path Nfs3 Lookup.

(** ** Strings and components *)

(** The path of the components; the root is "/" or "". *)
Inductive spells : bytes -> list bytes -> Prop :=
| spells_empty : spells [] []
| spells_root : spells [slash] []
| spells_names cs : cs <> [] -> Forall plain cs -> spells (render cs) cs.

(** Where a lookup stands: [before] has been looked up, [after] has not. *)
Record standing (saved_path : bytes) (path : nat) (before after : list bytes) : Prop := {
  st_spells : spells saved_path (before ++ after);
  st_rest : skip_slashes (drop path saved_path) = tail (render after);
}.

Lemma spells_plain s cs : spells s cs -> Forall plain cs.
Proof. destruct 1; done || by apply Forall_nil_2. Qed.

Lemma plain_head c : plain c -> exists x c', c = x :: c' /\ x <> slash /\ name c'.
Proof.
  intros (Hn & He & _). destruct c as [|x c]; [done|]. exists x, c. split; [done|].
  split; [intros ->; apply Hn; by left|intros H; apply Hn; by right].
Qed.

Lemma skip_tail after : Forall plain after -> skip_slashes (tail (render after)) = tail (render after).
Proof.
  intros H. destruct after as [|c after]; [done|]. apply Forall_cons in H as [Hc _].
  destruct (plain_head c Hc) as (x & c' & -> & Hx & _). rewrite render_cons. cbn.
  by destruct (Z.eqb_spec x slash).
Qed.

Lemma skip_render after : Forall plain after -> skip_slashes (render after) = tail (render after).
Proof.
  intros H. pose proof (skip_tail after H) as E. destruct after as [|c after]; [done|]. exact E.
Qed.

Lemma standing_start saved_path cs : spells saved_path cs -> standing saved_path O [] cs.
Proof.
  intros H. split; [done|]. rewrite drop_0. destruct H; [done|done|]. by apply skip_render.
Qed.

Lemma strchr_name c l : name c ->
  strchr_slash (c ++ render l) = match l with [] => None | _ => Some (c, tail (render l)) end.
Proof.
  induction c as [|x c IH]; intros Hc; cbn [app].
  - destruct l as [|d l]; [done|]. by rewrite render_cons.
  - cbn [strchr_slash]. destruct (Z.eqb_spec x slash) as [->|]; [by destruct Hc; left|].
    rewrite IH by (intros H; apply Hc; by right). by destruct l.
Qed.

Lemma render_length_app a b : length (render (a ++ b)) = (length (render a) + length (render b))%nat.
Proof. by rewrite render_app, length_app. Qed.

Lemma tail_length after : after <> [] -> S (length (tail (render after))) = length (render after).
Proof. destruct after as [|c after]; [done|]. by rewrite render_cons. Qed.

(** The offset of the rest, counted from the end of the path. *)
Lemma standing_drop saved_path path before c after :
  standing saved_path path before (c :: after) ->
  drop (length saved_path - length (tail (render (c :: after)))) saved_path = tail (render (c :: after)) /\
  (length saved_path - length (tail (render (c :: after))) = S (length (render before)))%nat.
Proof.
  intros [H _]. remember (before ++ c :: after) as cs eqn:E. destruct H as [| |cs Hne Hp]; [by destruct before..|].
  subst cs. rewrite render_length_app. pose proof (tail_length (c :: after) ltac:(done)) as Ht.
  replace (length (render before) + length (render (c :: after)) - length (tail (render (c :: after))))%nat
    with (S (length (render before))) by lia.
  split; [|done]. rewrite render_app, render_cons. cbn [tail].
  rewrite <- (Nat.add_1_r (length (render before))), <- drop_drop, drop_app_length. done.
Qed.

Lemma standing_next saved_path path before c after :
  standing saved_path path before (c :: after) ->
  standing saved_path
    (match after with [] => length saved_path | _ => (length saved_path - length (tail (render after)))%nat end)
    (before ++ [c]) after.
Proof.
  intros H. pose proof (st_spells _ _ _ _ H) as Hs.
  assert (Hs' : spells saved_path ((before ++ [c]) ++ after)) by (by rewrite <- app_assoc).
  split; [done|]. pose proof (spells_plain _ _ Hs) as Hp. apply Forall_app in Hp as [_ Hp].
  apply Forall_cons in Hp as [_ Hp]. destruct after as [|d after]; [by rewrite drop_all|].
  remember ((before ++ [c]) ++ d :: after) as cs eqn:E. destruct Hs' as [| |cs Hne Hq]; [by destruct before..|].
  subst cs. rewrite render_length_app. pose proof (tail_length (d :: after) ltac:(done)) as Ht.
  replace (length (render (before ++ [c])) + length (render (d :: after)) - length (tail (render (d :: after))))%nat
    with (length (render (before ++ [c])) + 1)%nat by lia.
  rewrite (render_app (before ++ [c])), <- drop_drop, drop_app_length, render_cons. cbn [drop tail].
  change (d ++ render after) with (tail (render (d :: after))). by apply skip_tail.
Qed.

(** The rest gets shorter: the fuel suffices. *)
Definition left_over (after : list bytes) : nat := length (render after).

Lemma left_over_cons c after : (left_over after < left_over (c :: after))%nat.
Proof. unfold left_over. rewrite render_cons. cbn. rewrite length_app. lia. Qed.

Lemma left_over_spells s cs : spells s cs -> (left_over cs <= length s)%nat.
Proof. unfold left_over. destruct 1; cbn; lia. Qed.

(** ** One step *)

Definition is_link (attr : option nfs_attr) : bool :=
  match attr with Some a => a_type a =? NF3LNK | None => false end.

Section steps.
Context (cb : nfs -> Z -> payload -> call) (continue_cb : nfs -> option nfs_attr -> found -> call).
Context (no_follow : bool) (continue_int : Z).
Context (follow : option (nfs -> bytes -> call)) (more : nat -> nfs -> option nfs_attr -> nfs_fh -> call).
Context (n : nfs) (attr : option nfs_attr) (saved_path : bytes) (path : nat) (fh : nfs_fh).
#[local] Notation internal :=
  (nfs3_lookup_path_async_internal cb continue_cb no_follow continue_int follow more n attr saved_path path fh).

(** Is the link that stands here followed? *)
Definition followed (after : list bytes) : bool :=
  is_link attr && (negb no_follow || negb (bool_decide (after = []))).

Lemma tail_nil after : Forall plain after -> bool_decide (tail (render after) = []) = bool_decide (after = []).
Proof.
  intros H. apply bool_decide_ext. split; [|by intros ->]. destruct after as [|c after]; [done|].
  apply Forall_cons in H as [(_ & Hc & _) _]. rewrite render_cons. cbn. intros E. by apply app_eq_nil in E as [-> _].
Qed.

Lemma internal_nofollow : is_link attr = true -> flag continue_int O_NOFOLLOW = true ->
  internal = returning (-1) (cb n (- ELOOP) Message).
Proof. intros H1 H2. unfold nfs3_lookup_path_async_internal. fold (is_link attr). by rewrite H1, H2. Qed.

Lemma internal_end before :
  standing saved_path path before [] -> is_link attr && flag continue_int O_NOFOLLOW = false -> followed [] = false ->
  internal = returning 0 (continue_cb n attr (mkFound fh saved_path)).
Proof.
  intros Hs H1 H2. unfold nfs3_lookup_path_async_internal. fold (is_link attr). rewrite H1.
  rewrite (st_rest _ _ _ _ Hs). rewrite tail_nil by apply Forall_nil_2.
  unfold followed in H2. by rewrite H2.
Qed.

Lemma internal_name before c after :
  standing saved_path path before (c :: after) -> is_link attr && flag continue_int O_NOFOLLOW = false ->
  followed (c :: after) = false ->
  exists path', standing saved_path path' (before ++ [c]) after /\
    internal = send n (LOOKUP fh c) (fun n => returning (-1) (cb n (- ENOMEM) Message))
                 (nfs3_lookup_path_1_cb cb (more path')).
Proof.
  intros Hs H1 H2. pose proof (spells_plain _ _ (st_spells _ _ _ _ Hs)) as Hp. apply Forall_app in Hp as [_ Hp].
  pose proof (standing_next _ _ _ _ _ Hs) as Hn. eexists. split; [exact Hn|].
  unfold nfs3_lookup_path_async_internal. fold (is_link attr). rewrite H1, (st_rest _ _ _ _ Hs), tail_nil by done.
  unfold followed in H2. rewrite H2, bool_decide_false by done.
  apply Forall_cons in Hp as [(Hc & _) Hp]. rewrite render_cons. cbn [tail]. rewrite strchr_name by done.
  destruct after as [|d after]; [|done]. cbn [render map concat]. by rewrite app_nil_r.
Qed.

Lemma internal_link before after :
  standing saved_path path before after -> is_link attr && flag continue_int O_NOFOLLOW = false ->
  followed after = true ->
  internal = match follow with
             | None => returning (-1) (cb n (- ELOOP) Message)
             | Some again =>
                 send n (READLINK fh) (fun n => returning (-1) (cb n (- ENOMEM) Message))
                   (nfs3_lookup_path_2_cb cb again saved_path
                      (match after with [] => length saved_path | _ => S (length (render before)) end))
             end.
Proof.
  intros Hs H1 H2. pose proof (spells_plain _ _ (st_spells _ _ _ _ Hs)) as Hp. apply Forall_app in Hp as [_ Hp].
  unfold nfs3_lookup_path_async_internal. fold (is_link attr). rewrite H1, (st_rest _ _ _ _ Hs), tail_nil by done.
  unfold followed in H2. rewrite H2. destruct follow as [again|]; [|done].
  destruct after as [|c after]; [by rewrite Nat.sub_0_r|]. by rewrite (proj2 (standing_drop _ _ _ _ _ Hs)).
Qed.
End steps.

(** ** Links *)

(** The components a link is replaced by: those of its target, which is
    relative to the directory the link is in or to the export. *)
Definition relink (export target : bytes) (before after : list bytes) : option (list bytes) :=
  if bool_decide (head target = Some slash) then
    if starts_with export target then
      match drop (length export) target with
      | [] => Some []
      | c :: rest => if c =? slash then resolve [] (split_slash rest) else None
      end
    else None
  else resolve [] (before ++ [dotdot] ++ split_slash target ++ after).

Lemma split_app a b : split_slash (a ++ slash :: b) = split_slash a ++ split_slash b.
Proof.
  induction a as [|c a IH]; [done|]. cbn [app split_slash]. destruct (c =? slash); [by rewrite IH|].
  rewrite IH. pose proof (split_nonempty a). by destruct (split_slash a).
Qed.

Lemma split_tail cs : Forall name cs -> cs <> [] -> split_slash (tail (render cs)) = cs.
Proof.
  intros Hn Hne. apply render_inj; [apply split_names|done|]. rewrite render_split.
  destruct cs as [|c cs]; [done|]. by rewrite render_cons.
Qed.

Lemma plain_names cs : Forall plain cs -> Forall name cs.
Proof. intros H. eapply Forall_impl; [exact H|]. by intros c [Hc _]. Qed.

Lemma normalize_spells s :
  match resolve [] (split_slash s) with
  | None => exists p, nfs_normalize_path (slash :: s) = Some (p, -1)
  | Some cs => exists p, nfs_normalize_path (slash :: s) = Some (p, 0) /\ spells p cs
  end.
Proof.
  pose proof (normalize_slash s) as H. unfold normal_form in H.
  destruct (resolve [] (split_slash s)) as [[|c cs]|] eqn:E; [| |done].
  - eexists. split; [exact H|]. destruct (beq _ _); constructor.
  - exists (render (c :: cs)). split; [done|]. constructor; [done|].
    eapply resolve_clean; [apply split_names|by apply Forall_nil_2|exact E].
Qed.

(** What resolving starts with may be spelled in any of the ways of [spells]. *)
Lemma resolve_spells before p s : (p = [slash] /\ before = []) \/ p = render before -> Forall plain before ->
  exists q, p ++ slash :: s = slash :: q /\ resolve [] (split_slash q) = resolve [] (before ++ split_slash s).
Proof.
  intros [[-> ->]| ->] Hp.
  - exists (slash :: s). done.
  - destruct before as [|c before]; [by exists s|]. exists (tail (render (c :: before)) ++ slash :: s).
    split; [by rewrite render_cons|]. rewrite split_app, split_tail by (done || by apply plain_names). done.
Qed.

Definition link_offset (saved_path : bytes) (before after : list bytes) : nat :=
  match after with [] => length saved_path | _ => S (length (render before)) end.

(** The path before the link and the path behind it. *)
Lemma link_parts saved_path path before after :
  standing saved_path path before after ->
  drop (link_offset saved_path before after) saved_path = tail (render after) /\
  match after with
  | [] => (saved_path = [slash] /\ before = []) \/ saved_path = render before
  | _ => take (length (render before)) saved_path = render before
  end.
Proof.
  intros Hs. pose proof (st_spells _ _ _ _ Hs) as H. destruct after as [|c after].
  - rewrite app_nil_r in H. split; [by unfold link_offset; rewrite drop_all|]. destruct H; [by right|by left|by right].
  - destruct (standing_drop _ _ _ _ _ Hs) as [H1 H2]. rewrite H2 in H1. split; [exact H1|].
    inversion H as [E1 E2|E1 E2|cs Hne Hp E1]; [by destruct before..|]. apply take_render.
Qed.

Lemma link_path_relinks export saved_path path before after target :
  standing saved_path path before after ->
  match link_path export saved_path (link_offset saved_path before after) target with
  | None => False
  | Some (inr err) => err = - ENOENT /\ relink export target before after = None
  | Some (inl newpath) =>
      match relink export target before after with
      | None => exists p, nfs_normalize_path newpath = Some (p, -1)
      | Some cs => exists p, nfs_normalize_path newpath = Some (p, 0) /\ spells p cs
      end
  end.
Proof.
  intros Hs. destruct (link_parts _ _ _ _ Hs) as [Hd Ht]. unfold link_path, relink.
  pose proof (spells_plain _ _ (st_spells _ _ _ _ Hs)) as [Hb Ha]%Forall_app.
  destruct (bool_decide (head target = Some slash)).
  { destruct (starts_with export target); [|done]. destruct (drop (length export) target) as [|c rest].
    - by apply (normalize_spells []).
    - destruct (Z.eqb_spec c slash) as [->|]; [apply normalize_spells|done]. }
  rewrite Hd. destruct after as [|c after].
  - destruct (resolve_spells before saved_path (dotdot ++ slash :: target) Ht Hb) as (q & Eq & Er).
    change (saved_path ++ [slash; dot; dot; slash] ++ target) with (saved_path ++ slash :: (dotdot ++ slash :: target)).
    rewrite Eq. pose proof (normalize_spells q) as N. rewrite Er, split_app in N. rewrite app_nil_r. exact N.
  - destruct (tail (render (c :: after))) as [|x rest] eqn:Et.
    { apply Forall_cons in Ha as [(_ & Hc & _) _]. rewrite render_cons in Et. cbn in Et. by apply app_eq_nil in Et as [-> _]. }
    cbn [link_offset]. rewrite Ht, <- Et.
    destruct (resolve_spells before (render before) (dotdot ++ slash :: (target ++ slash :: tail (render (c :: after)))))
      as (q & Eq & Er); [by right|done|].
    change (render before ++ [slash; dot; dot; slash] ++ target ++ [slash] ++ tail (render (c :: after)))
      with (render before ++ slash :: (dotdot ++ slash :: (target ++ slash :: tail (render (c :: after))))).
    rewrite Eq. pose proof (normalize_spells q) as N. rewrite Er, !split_app, split_tail in N by (done || by apply plain_names).
    exact N.
Qed.

(** ** What a lookup may do *)

(** A name is looked up only if it is a component: not empty, not "." or "..",
    and without a slash. *)
Definition plain_request (q : request) : Prop := match q with LOOKUP _ c => plain c | _ => True end.

(** One READLINK less. *)
Definition spend (q : request) (k : nat) : option nat :=
  match q with READLINK _ => match k with O => None | S k => Some k end | _ => Some k end.

(** Whatever the server answers and whatever becomes of the context in between:
    the call ends, with exactly one callback, after which nothing happens, what
    it is given satisfies [P], and at most [k] READLINKs are sent. *)
Fixpoint obeys (P : Z * payload -> Prop) (k : nat) (c : call) : Prop :=
  match c with
  | Undef => False
  | Call out _ _ [] => exists x, out = [x] /\ P x
  | Call out _ _ next =>
      out = [] /\
      (fix all l := match l with
       | [] => True
       | Pend q next :: l =>
           (plain_request q /\ match spend q k with None => False | Some k => forall n r, obeys P k (next n r) end) /\ all l
       end) next
  end.

Definition lands (P : Z * payload -> Prop) (k : nat) (p : pending) : Prop :=
  match p with
  | Pend q next => plain_request q /\ match spend q k with None => False | Some k => forall n r, obeys P k (next n r) end
  end.

Lemma obeys_flight P k out n ret p next :
  obeys P k (Call out n ret (p :: next)) <-> out = [] /\ Forall (lands P k) (p :: next).
Proof.
  destruct p as [q f]. cbn [obeys]. rewrite Forall_cons. do 2 apply and_iff_compat_l.
  induction next as [|[q' f'] l IH]; [by rewrite Forall_nil|]. by rewrite Forall_cons, IH.
Qed.

Definition ret_of (c : call) : option Z := match c with Call _ _ r _ => Some r | Undef => None end.

(** A function that takes a callback calls it exactly once and returns 0, or
    refuses: it returns an error and does nothing. *)
Definition proper (P : Z * payload -> Prop) (k : nat) (c : call) : Prop :=
  (exists n r, c = Call [] n r [] /\ r <> 0) \/ (ret_of c = Some 0 /\ obeys P k c).

Lemma nfsstat3_to_errno_nonpos st : nfsstat3_to_errno st <= 0.
Proof. unfold nfsstat3_to_errno. destruct st as [|st|st]; [done| |done]. repeat (destruct st as [st|st|]; try done). Qed.

Section calls.
Context (P : Z * payload -> Prop).
#[local] Notation obeys := (obeys P).

Lemma obeys_more c : forall k k', obeys k c -> (k <= k')%nat -> obeys k' c.
Proof.
  induction c as [|out n r [|p next] IH] using call_induction; [done|done|]. intros k k' H Hk.
  apply obeys_flight in H as [Ho Hl]. apply obeys_flight. split; [done|].
  eapply Forall_impl; [exact (proj2 (Forall_and _ _) (conj IH Hl))|]. intros [q k0] [Hc [Hq Hn]]. split; [done|].
  assert (E : exists j j', spend q k = Some j /\ spend q k' = Some j' /\ (j <= j')%nat).
  { destruct q; cbn [spend] in *; eauto. destruct k as [|k], k' as [|k']; try done; [lia|].
    exists k, k'. split; [done|]. split; [done|lia]. }
  destruct E as (j & j' & E1 & E2 & Hj). rewrite E1 in Hn. rewrite E2. intros n0 r0.
  exact (Hc n0 r0 j j' (Hn n0 r0) Hj).
Qed.

Lemma obeys_returning k r c : obeys k (returning r c) <-> obeys k c.
Proof. by destruct c as [out n r' [|p next]|]. Qed.

Lemma obeys_send k n q refused next :
  (forall n, obeys k (refused n)) -> plain_request q ->
  (exists j, spend q k = Some j /\ forall n r, obeys j (next n r)) -> obeys k (send n q refused next).
Proof.
  intros Hr Hq (j & Hj & Hn). unfold send. destruct (n_sends n) as [|[] l]; [| |apply Hr]; cbn [obeys]; rewrite Hj; eauto.
Qed.

Lemma obeys_check k {T : Set} cb n (r : reply T) next :
  (forall n e d, e <= 0 -> obeys k (cb n e d)) -> (forall v, obeys k (next v)) -> obeys k (check_result cb n r next).
Proof.
  intros Hc Hn. unfold check_result, check_nfs3_error. destruct r as [| | |st v]; try by apply Hc.
  destruct (st =? NFS3_OK); [apply Hn|apply Hc, nfsstat3_to_errno_nonpos].
Qed.

Lemma obeys_user k n e d : P (e, d) -> obeys k (user n e d).
Proof. intros H. by exists (e, d). Qed.

End calls.

Section behaviour.
Context (P : Z * payload -> Prop).
#[local] Notation obeys := (obeys P).
Context (cb : nfs -> Z -> payload -> call) (continue_cb : nfs -> option nfs_attr -> found -> call).
Context (no_follow : bool) (continue_int : Z) (j : nat).
Hypothesis cb_obeys : forall n e d, e <= 0 -> obeys j (cb n e d).
Hypothesis continue_obeys : forall n attr l, obeys j (continue_cb n attr l).

Lemma cb_more k n e d : e <= 0 -> obeys (k + j) (cb n e d).
Proof. intros H. eapply obeys_more; [by apply cb_obeys|lia]. Qed.

Lemma cb_returning k n e d r : e <= 0 -> obeys (k + j) (returning r (cb n e d)).
Proof. intros H. by apply obeys_returning, cb_more. Qed.

#[local] Notation lookup_names := (lookup_names cb continue_cb no_follow continue_int).
#[local] Notation lookup_path := (lookup_path cb continue_cb no_follow continue_int).

Definition follow_obeys (k : nat) (follow : option (nfs -> bytes -> call)) : Prop :=
  forall again, follow = Some again ->
    exists k', k = S k' /\ forall n p cs, spells p cs -> obeys (k' + j) (again n p).

Lemma names_obeys k follow : follow_obeys k follow -> forall fuel n attr saved_path path before after fh,
  standing saved_path path before after -> (left_over after < fuel)%nat ->
  obeys (k + j) (lookup_names follow fuel n attr saved_path path fh).
Proof.
  intros Hfo fuel. induction fuel as [|fuel IH]; intros n attr saved_path path before after fh Hs Hf; [lia|].
  cbn [Lookup.lookup_names]. destruct (is_link attr && flag continue_int O_NOFOLLOW) eqn:E1.
  { apply andb_true_iff in E1 as [E1 E2]. rewrite internal_nofollow by done. by apply cb_returning. }
  destruct (followed no_follow attr after) eqn:E2.
  - erewrite internal_link by done. fold (link_offset saved_path before after).
    destruct follow as [again|]; [|by apply cb_returning]. destruct (Hfo again eq_refl) as (k' & -> & Hag).
    apply obeys_send; [intros; by apply cb_returning|done|]. exists (k' + j)%nat. split; [done|]. intros n' r.
    apply obeys_check; [intros; by apply cb_more|]. intros target.
    pose proof (link_path_relinks (n_export n') _ _ _ _ target Hs) as Hl.
    destruct (link_path _ _ _ _) as [[newpath|err]|]; [| |done]; [|destruct Hl as [-> _]; by apply cb_more].
    destruct (relink _ _ _ _) as [cs|].
    + destruct Hl as (p & -> & Hp). by apply Hag with (cs := cs).
    + destruct Hl as (p & ->). by apply cb_more.
  - destruct after as [|c after].
    + erewrite internal_end by done. apply obeys_returning. eapply obeys_more; [done|lia].
    + edestruct internal_name as (path' & Hn & ->); [done..|]. pose proof (left_over_cons c after).
      apply obeys_send; [intros; by apply cb_returning| |].
      * pose proof (spells_plain _ _ (st_spells _ _ _ _ Hs)) as [_ Hp]%Forall_app.
        by apply Forall_cons in Hp as [Hp _].
      * exists (k + j)%nat. split; [done|]. intros n' r. apply obeys_check; [intros; by apply cb_more|]. intros [fh' a'].
        eapply IH; [exact Hn|lia].
Qed.

Lemma lookup_obeys links : forall fuel n attr saved_path path before after fh,
  standing saved_path path before after -> (left_over after < fuel)%nat ->
  obeys (links + j) (lookup_path links fuel n attr saved_path path fh).
Proof.
  induction links as [|links IH]; cbn [Lookup.lookup_path]; eapply names_obeys; intros again E; [done|].
  injection E as <-. exists links. split; [done|]. intros n p cs Hp. eapply IH; [by apply standing_start|].
  pose proof (left_over_spells _ _ Hp). lia.
Qed.

Lemma start_obeys n attr saved_path cs fh : spells saved_path cs ->
  obeys (MAX_LINK_COUNT + j) (start_lookup cb continue_cb no_follow continue_int n attr saved_path fh).
Proof.
  intros H. eapply lookup_obeys; [by apply standing_start|]. pose proof (left_over_spells _ _ H). lia.
Qed.
End behaviour.

(** ** The whole function *)

Lemma normalize_total path : exists p r, nfs_normalize_path path = Some (p, r) /\
  ((r = 0 /\ exists cs, spells p cs) \/ r = -1).
Proof.
  destruct path as [|c s]; [by exists [], (-1); split; [|right]|]. destruct (decide (c = slash)) as [->|Hc].
  - pose proof (normalize_spells s) as H. destruct (resolve [] (split_slash s)) as [cs|].
    + destruct H as (p & H & Hp). exists p, 0. split; [done|]. left. eauto.
    + destruct H as (p & H). exists p, (-1). auto.
  - destruct (normalize_other (c :: s)) as (p & H); [cbn; congruence|]. exists p, (-1). auto.
Qed.

(** What is behind the path of a mount. *)
Lemma spells_suffix saved_path cs m : spells saved_path cs -> starts_with m saved_path = true ->
  match drop (length m) saved_path with [] => true | c :: _ => c =? slash end = true ->
  exists cs', spells (drop (length m) saved_path) cs'.
Proof.
  intros H (r & E)%starts_with_spec Hr. rewrite E in *. rewrite drop_app_length in *.
  destruct r as [|c r]; [exists []; constructor|]. apply Z.eqb_eq in Hr as ->.
  inversion H as [E1 E2|E1 E2|cs' Hne Hp E1]; subst.
  - by destruct m.
  - destruct m as [|x m]; [|by destruct m]. injection E1 as <-. exists []. constructor.
  - pose proof (plain_names _ Hp) as Hn. destruct m as [|x m]; [exists cs; cbn in E1; rewrite <- E1; by constructor|].
    assert (Ec : cs = split_slash m ++ split_slash r).
    { rewrite <- split_app. rewrite <- (split_tail cs Hn Hne), E1. done. }
    rewrite Ec in Hp. apply Forall_app in Hp as [_ Hp]. rewrite <- render_split. exists (split_slash r).
    constructor; [apply split_nonempty|done].
Qed.

Lemma nested_spells mnts : forall saved_path fh m cs, spells saved_path cs ->
  exists cs', spells (nested_export mnts saved_path fh m).1 cs'.
Proof.
  induction mnts as [|mnt mnts IH]; intros saved_path fh m cs H; [by exists cs|]. cbn [nested_export].
  destruct ((_ || _) || _) eqn:E; [by eapply IH|].
  apply orb_false_iff in E as [[_ E1]%orb_false_iff E2]. apply negb_false_iff in E1, E2.
  destruct (spells_suffix _ _ _ H E1 E2) as (cs' & Hc). by eapply IH.
Qed.

Lemma lookuppath_proper P cb continue_cb no_follow continue_int j n path :
  (forall n e d, e <= 0 -> obeys P j (cb n e d)) -> (forall n attr l, obeys P j (continue_cb n attr l)) ->
  proper P (MAX_LINK_COUNT + j) (nfs3_lookuppath_async cb continue_cb no_follow continue_int n path).
Proof.
  intros Hcb Hco. unfold nfs3_lookuppath_async.
  set (saved := if bool_decide _ then _ else _). destruct (normalize_total saved) as (p & r & -> & Hr).
  destruct Hr as [(-> & cs & Hp)| ->]; [|left; by exists n, (-1)]. change (negb (0 =? 0)) with false. cbv iota.
  destruct (bool_decide (p = [])) eqn:E.
  - unfold send. assert (Hk : forall n r, obeys P (MAX_LINK_COUNT + j)
      (nfs3_lookup_path_getattr_cb cb continue_cb no_follow continue_int p n r)).
    { intros n' r. apply obeys_check; [intros; by apply cb_more|]. intros f. by eapply start_obeys. }
    destruct (n_sends n) as [|[] l]; [right; done|right; done|]. left. by eexists _, _.
  - destruct (nested_export (n_nested_mounts n) p (n_rootfh n) 0) as [p' fh'] eqn:En.
    pose proof (nested_spells (n_nested_mounts n) p (n_rootfh n) 0 cs Hp) as (cs' & Hc). rewrite En in Hc.
    right. split; [|apply obeys_returning; by eapply start_obeys].
    assert (Ho : obeys P (MAX_LINK_COUNT + j) (start_lookup cb continue_cb no_follow continue_int n None p' fh'))
      by (by eapply start_obeys).
    by destruct (start_lookup _ _ _ _ _ _ _ _).
Qed.

(** ** Finding the file *)

(** A server whose answer depends on the request alone; [pick] says which of
    the requests in flight is answered next. *)
Record server := mkServer { answer :> forall q, reply (resok q); pick : list request -> nat }.

Definition request_of (p : pending) : request := match p with Pend q _ => q end.

(** The callbacks made, and the context after the last, when nobody else uses
    the context. *)
Fixpoint run (srv : server) (c : call) : option (list (Z * payload) * nfs) :=
  match c with
  | Undef => None
  | Call out n _ [] => Some (out, n)
  | Call out n _ next =>
      let choose :=
        fix choose (l : list pending) (i : nat) :=
          match l with
          | [] => None
          | Pend q k :: l => match l, i with [], _ | _, O => run srv (k n (srv q)) | _, S i => choose l i end
          end in
      match choose next (pick srv (request_of <$> next)) with
      | Some (out', n') => Some (out ++ out', n')
      | None => None
      end
  end.

(** ** Requests in flight *)

(** Whichever answer comes first. *)
Definition answered_first (srv : server) (n : nfs) (p : pending) : option (list (Z * payload) * nfs) :=
  match p with Pend q k => run srv (k n (srv q)) end.

Lemma run_any srv n ret next (G : option (list (Z * payload) * nfs) -> Prop) : next <> [] ->
  (forall p, p ∈ next -> G (answered_first srv n p)) -> G (run srv (Call [] n ret next)).
Proof.
  intros Hne H. assert (E : forall r : option (list (Z * payload) * nfs),
    match r with Some (out', n') => Some ([] ++ out', n') | None => None end = r) by (by intros [[]|]).
  destruct next as [|p next]; [done|]. cbn [run]. rewrite E. clear E Hne. generalize (pick srv (request_of <$> p :: next)) as i.
  revert p H. induction next as [|p' next IH]; intros [q k] H i.
  - apply (H (Pend q k)), list_elem_of_here.
  - destruct i as [|i]; [apply (H (Pend q k)), list_elem_of_here|]. apply IH. intros p Hin. apply H. by apply list_elem_of_further.
Qed.

(** Whatever the order of the answers, an invariant leads to the end. *)
Lemma flight_run (srv : server) {A X} (q : A -> request) (land : forall a, nfs -> X -> reply (resok (q a)) -> nfs * X)
    (last : X -> bool) finish (I : list A -> nfs -> X -> Prop) (G : option (list (Z * payload) * nfs) -> Prop) :
  (forall l n x j a, I l n x -> l !! j = Some a ->
    let '(n', x') := land a n x (srv (q a)) in
    if bool_decide (delete j l = []) then last x' = true /\ G (run srv (finish x' n'))
    else last x' = false /\ I (delete j l) n' x') ->
  forall m l n x, length l = m -> l <> [] -> I l n x -> G (run srv (Call [] n 0 (flight q land last finish m l x))).
Proof.
  intros H m. induction m as [|m IH]; intros l n x Hl Hne Hi; [by destruct l|]. apply run_any.
  { by destruct l. }
  intros p Hin. cbn [flight] in Hin. apply elem_of_lookup_imap_1 in Hin as (j & a & -> & Hj).
  cbn [answered_first]. specialize (H l n x j a Hi Hj). destruct (land a n x (srv (q a))) as [n' x'].
  assert (Hl' : length (delete j l) = m) by (rewrite length_delete by (by eexists); lia).
  destruct (bool_decide (delete j l = [])) eqn:E; destruct H as [-> H]; [done|].
  apply IH; [done| |done]. by apply bool_decide_eq_false in E.
Qed.

(** A function applied at the places [ps] of a list, one after the other. *)
Definition at_all {A} (f : A -> A) (ps : list nat) (es : list A) : list A :=
  imap (fun i e => if decide (i ∈ ps) then f e else e) es.

Lemma at_all_nil {A} (f : A -> A) es : at_all f [] es = es.
Proof. apply list_eq. intros i. unfold at_all. rewrite list_lookup_imap. by destruct (es !! i). Qed.

Lemma at_all_step {A} (f g : A -> A) ps j i es : NoDup ps -> ps !! j = Some i ->
  (forall e, es !! i = Some e -> g e = f e) -> at_all f (delete j ps) (alter g i es) = at_all f ps es.
Proof.
  intros Hnd Hj Hg. pose proof (delete_Permutation ps j _ Hj) as Hp.
  assert (Hni : i ∉ delete j ps) by (rewrite Hp in Hnd; by apply NoDup_cons in Hnd as [? _]).
  apply list_eq. intros k. unfold at_all. rewrite !list_lookup_imap. destruct (decide (i = k)) as [<-|Hk].
  - rewrite list_lookup_alter_eq. destruct (es !! i) as [e|] eqn:E; [|done]. cbn. f_equal.
    rewrite decide_False by done. rewrite decide_True by (rewrite Hp; apply list_elem_of_here). by apply Hg.
  - rewrite list_lookup_alter_ne by done. destruct (es !! k) as [e'|]; [|done]. cbn. f_equal.
    destruct (decide (k ∈ delete j ps)) as [H1|H1], (decide (k ∈ ps)) as [H2|H2]; try done; exfalso.
    + apply H2. rewrite Hp. by apply list_elem_of_further.
    + rewrite Hp in H2. apply elem_of_cons in H2 as [->|H2]; done.
Qed.

(** Every place of the list. *)
Lemma at_all_map {A} (f g : A -> A) ps es :
  (forall i e, es !! i = Some e -> if decide (i ∈ ps) then f e = g e else e = g e) -> at_all f ps es = g <$> es.
Proof.
  intros H. apply list_eq. intros i. unfold at_all. rewrite list_lookup_imap, list_lookup_fmap.
  destruct (es !! i) as [e|] eqn:E; [|done]. cbn. f_equal. specialize (H i e E). by destruct (decide (i ∈ ps)).
Qed.

(** ** Walking *)

Inductive outcome := Reached (fh : nfs_fh) (attr : option nfs_attr) (path : list bytes) | Lost (err : Z).

(** The result of an RPC, or the error it is reported as. *)
Definition outcome_of {T : Set} (r : reply T) : T + Z :=
  match r with
  | RpcError => inr (- EFAULT)
  | RpcCancel => inr (- EINTR)
  | RpcTimeout => inr (- EINTR)
  | Result st v => if st =? NFS3_OK then inl v else inr (nfsstat3_to_errno st)
  end.

Section walking.
Context (srv : server) (export : bytes) (rootfh : nfs_fh).
Context (no_follow nofollow_flag : bool).

(** Walking over the components of a path: [before] have been passed, and
    stand at [fh]; a link starts again at the root. *)
Fixpoint walk_names (follow : option (list bytes -> outcome)) (before : list bytes) (fh : nfs_fh)
    (attr : option nfs_attr) (after : list bytes) : outcome :=
  if is_link attr && nofollow_flag then Lost (- ELOOP)
  else if followed no_follow attr after then
    match follow with
    | None => Lost (- ELOOP)
    | Some again =>
        match outcome_of (srv (READLINK fh)) with
        | inr err => Lost err
        | inl target => match relink export target before after with None => Lost (- ENOENT) | Some cs => again cs end
        end
    end
  else
    match after with
    | [] => Reached fh attr before
    | c :: after =>
        match outcome_of (srv (LOOKUP fh c)) with
        | inr err => Lost err
        | inl (fh, attributes) =>
            walk_names follow (before ++ [c]) fh
              (Some (match attributes with Some f => fattr3_to_nfs_attr f | None => zero_attr end)) after
        end
    end.

Fixpoint walk (links : nat) : list bytes -> nfs_fh -> option nfs_attr -> list bytes -> outcome :=
  walk_names (match links with O => None | S links => Some (fun cs => walk links [] rootfh None cs) end).

End walking.

Lemma run_returning srv r c : run srv (returning r c) = run srv c.
Proof. by destruct c as [out n r' [|[q next] l]|]. Qed.

Lemma run_after_leave srv c g : run srv (after c (fun n r => leave n (g r))) = run srv c.
Proof. destruct c as [out n r next|]; [|done]. cbn [after leave]. rewrite app_nil_r. by destruct next. Qed.

Lemma run_send srv n q refused next : n_sends n = [] -> run srv (send n q refused next) = run srv (next n (srv q)).
Proof. intros H. unfold send. rewrite H. cbn [run]. by destruct (run srv (next n (srv q))) as [[out n']|]. Qed.

Lemma run_check srv {T : Set} cb n (r : reply T) next :
  run srv (check_result cb n r next) =
    match outcome_of r with inl v => run srv (next v) | inr err => run srv (cb n err Message) end.
Proof. destruct r as [| | |st v]; try done. unfold check_result. cbn. by destruct (st =? NFS3_OK). Qed.

Section finding.
Context (srv : server).
Context (cb : nfs -> Z -> payload -> call) (continue_cb : nfs -> option nfs_attr -> found -> call).
Context (no_follow : bool) (continue_int : Z) (n : nfs).
Hypothesis queued : n_sends n = [].
#[local] Notation lookup_names := (lookup_names cb continue_cb no_follow continue_int).
#[local] Notation lookup_path := (lookup_path cb continue_cb no_follow continue_int).
#[local] Notation walk_names := (walk_names srv (n_export n) no_follow (flag continue_int O_NOFOLLOW)).
#[local] Notation walk := (walk srv (n_export n) (n_rootfh n) no_follow (flag continue_int O_NOFOLLOW)).

(** The operation goes on where the walk ends, or its error is reported. *)
Definition goes_on (c : call) (o : outcome) : Prop :=
  match o with
  | Reached fh attr cs => exists p, spells p cs /\ run srv c = run srv (continue_cb n attr (mkFound fh p))
  | Lost err => run srv c = run srv (cb n err Message)
  end.

Lemma goes_on_run c c' o : run srv c = run srv c' -> goes_on c' o -> goes_on c o.
Proof. intros H. destruct o; cbn; by rewrite H. Qed.

Lemma goes_on_send q refused next o : goes_on (next n (srv q)) o -> goes_on (send n q refused next) o.
Proof. apply goes_on_run. by apply run_send. Qed.

Lemma goes_on_check {T : Set} (r : reply T) next o :
  match outcome_of r with inl v => goes_on (next v) o | inr err => o = Lost err end -> goes_on (check_result cb n r next) o.
Proof.
  intros H. pose proof (run_check srv cb n r next) as E. destruct (outcome_of r) as [v|err].
  - by eapply goes_on_run.
  - by subst o.
Qed.

Definition follow_goes_on (follow : option (nfs -> bytes -> call)) (spec : option (list bytes -> outcome)) : Prop :=
  match follow, spec with
  | None, None => True
  | Some again, Some spec => forall p cs, spells p cs -> goes_on (again n p) (spec cs)
  | _, _ => False
  end.

Lemma names_walk follow spec : follow_goes_on follow spec -> forall fuel attr saved_path path before after fh,
  standing saved_path path before after -> (left_over after < fuel)%nat ->
  goes_on (lookup_names follow fuel n attr saved_path path fh) (walk_names spec before fh attr after).
Proof.
  intros Hfo fuel. induction fuel as [|fuel IH]; intros attr saved_path path before after fh Hs Hf; [lia|].
  cbn [Lookup.lookup_names]. destruct (is_link attr && flag continue_int O_NOFOLLOW) eqn:E1.
  { assert (W : walk_names spec before fh attr after = Lost (- ELOOP)) by (destruct after; cbn [LookupProps.walk_names]; by rewrite E1).
    rewrite W. apply andb_true_iff in E1 as [E1 E2]. rewrite internal_nofollow by done. apply run_returning. }
  destruct (followed no_follow attr after) eqn:E2.
  - erewrite internal_link by done. fold (link_offset saved_path before after).
    destruct follow as [again|], spec as [spec|]; try done.
    2:{ assert (W : walk_names None before fh attr after = Lost (- ELOOP)) by (destruct after; cbn [LookupProps.walk_names]; by rewrite E1, E2).
        rewrite W. apply run_returning. }
    assert (W : walk_names (Some spec) before fh attr after =
      match outcome_of (srv (READLINK fh)) with
      | inr err => Lost err
      | inl target => match relink (n_export n) target before after with None => Lost (- ENOENT) | Some cs => spec cs end
      end) by (destruct after; cbn [LookupProps.walk_names]; by rewrite E1, E2).
    rewrite W. apply goes_on_send, goes_on_check. change (resok (READLINK fh)) with bytes. destruct (@outcome_of bytes (srv (READLINK fh))) as [target|err]; [|done].
    pose proof (link_path_relinks (n_export n) _ _ _ _ target Hs) as Hl.
    destruct (link_path _ _ _ _) as [[newpath|err]|]; [| |done]; [|by destruct Hl as [-> ->]].
    destruct (relink _ _ _ _) as [cs|].
    + destruct Hl as (p & -> & Hp). change (0 =? 0) with true. cbv iota. by apply Hfo.
    + by destruct Hl as (p & ->).
  - destruct after as [|c after].
    + erewrite internal_end by done. cbn [Lookup.lookup_names LookupProps.walk_names]. rewrite E1, E2.
      exists saved_path. split; [|apply run_returning]. rewrite <- (app_nil_r before). apply (st_spells _ _ _ _ Hs).
    + edestruct internal_name as (path' & Hn & ->); [done..|]. pose proof (left_over_cons c after).
      cbn [LookupProps.walk_names]. rewrite E1, E2.
      apply goes_on_send, goes_on_check.
      change (resok (LOOKUP fh c)) with (nfs_fh * option fattr3)%type.
      destruct (@outcome_of (nfs_fh * option fattr3) (srv (LOOKUP fh c))) as [[fh' attributes]|err]; [|done]. apply IH; [done|lia].
Qed.

Lemma lookup_walk links : forall fuel attr saved_path path before after fh,
  standing saved_path path before after -> (left_over after < fuel)%nat ->
  goes_on (lookup_path links fuel n attr saved_path path fh) (walk links before fh attr after).
Proof.
  induction links as [|links IH]; cbn [Lookup.lookup_path LookupProps.walk]; apply names_walk; [done|].
  intros p cs Hp. apply IH; [by apply standing_start|]. pose proof (left_over_spells _ _ Hp). lia.
Qed.

Lemma start_walk attr saved_path cs fh : spells saved_path cs ->
  goes_on (start_lookup cb continue_cb no_follow continue_int n attr saved_path fh) (walk MAX_LINK_COUNT [] fh attr cs).
Proof.
  intros H. apply lookup_walk; [by apply standing_start|]. pose proof (left_over_spells _ _ H). lia.
Qed.

End finding.

(** The components of a path that is absolute or relative to [cwd]. *)
Definition path_components (cwd : list bytes) (path : bytes) : option (list bytes) :=
  match path with
  | c :: s => if c =? slash then resolve [] (split_slash s) else resolve [] (cwd ++ split_slash path)
  | [] => Some cwd
  end.

Lemma cwd_components cwd ccs s : spells cwd ccs -> exists q,
  cwd ++ [slash] ++ s = slash :: q /\ resolve [] (split_slash q) = resolve [] (ccs ++ split_slash s).
Proof.
  intros H. pose proof (spells_plain _ _ H) as Hp. cbn [app]. apply (resolve_spells ccs cwd s); [|done].
  destruct H; [by right|by left|by right].
Qed.

Lemma resolve_here ccs : Forall plain ccs -> resolve [] (ccs ++ [[dot]]) = Some ccs.
Proof. intros H. rewrite resolve_app, app_nil_r by done. cbn. by rewrite rev_involutive. Qed.

(** The path that is normalised, whichever way it is given. *)
Lemma saved_components cwd ccs path : spells cwd ccs ->
  let path' := match path with [] => [dot] | _ => path end in
  exists q, (if bool_decide (head path' = Some slash) then path' else cwd ++ [slash] ++ path') = slash :: q /\
    resolve [] (split_slash q) = path_components ccs path.
Proof.
  intros H. destruct path as [|c s]; cbv zeta.
  - rewrite bool_decide_false by done. destruct (cwd_components cwd ccs [dot] H) as (q & E1 & E2). exists q.
    split; [done|]. rewrite E2. apply resolve_here. by eapply spells_plain.
  - unfold path_components. destruct (Z.eqb_spec c slash) as [->|Hc].
    + rewrite bool_decide_true by done. by exists s.
    + rewrite bool_decide_false by (cbn; congruence). by apply cwd_components.
Qed.

Section whole.
Context (srv : server).
Context (cb : nfs -> Z -> payload -> call) (continue_cb : nfs -> option nfs_attr -> found -> call).
Context (no_follow : bool) (continue_int : Z) (n : nfs).
#[local] Notation lookuppath := (nfs3_lookuppath_async cb continue_cb no_follow continue_int n).
#[local] Notation walk := (walk srv (n_export n) (n_rootfh n) no_follow (flag continue_int O_NOFOLLOW)).

(** A path that leads above the root is refused. *)
Lemma lookuppath_refuses cwd path : spells (n_cwd n) cwd ->
  path_components cwd (default [] path) = None -> lookuppath path = leave n (-1).
Proof.
  intros Hw Hc. destruct (saved_components _ _ (default [] path) Hw) as (q & E1 & E2).
  pose proof (normalize_spells q) as N. rewrite E2, Hc in N. destruct N as (p & N).
  unfold nfs3_lookuppath_async. assert (E : match path with None | Some [] => [dot] | Some path => path end =
    match default [] path with [] => [dot] | _ => default [] path end) by (by destruct path as [[]|]).
  rewrite E. cbv zeta in E1 |- *. rewrite E1, N. done.
Qed.

(** Any other path but those of the root is walked over from the root. *)
Lemma lookuppath_finds cwd path cs :
  n_sends n = [] -> n_nested_mounts n = [] -> spells (n_cwd n) cwd ->
  path_components cwd (default [] path) = Some cs -> cs <> [] ->
  goes_on srv cb continue_cb n (lookuppath path) (walk MAX_LINK_COUNT [] (n_rootfh n) None cs).
Proof.
  intros Hq Hm Hw Hc Hne. destruct (saved_components _ _ (default [] path) Hw) as (q & E1 & E2).
  pose proof (normalize_spells q) as N. rewrite E2, Hc in N. destruct N as (p & N & Hp).
  unfold nfs3_lookuppath_async. assert (E : match path with None | Some [] => [dot] | Some path => path end =
    match default [] path with [] => [dot] | _ => default [] path end) by (by destruct path as [[]|]).
  rewrite E. cbv zeta in E1 |- *. rewrite E1, N, Hm. change (negb (0 =? 0)) with false. cbv iota.
  assert (Hpne : p <> []) by (intros ->; remember [] as s eqn:Es in Hp; destruct Hp as [| |[|c l] ? ?]; done).
  rewrite bool_decide_false by done.
  cbn [nested_export]. eapply goes_on_run; [apply run_returning|]. by apply start_walk.
Qed.
End whole.
