(* ===== verification/Nfs3Ops.v ===== *)
(** * Nfs3Ops: the operations on names (lib/nfs_v3.c, lib/libnfs.c)

    Each operation looks a path up and goes on with its [_continue_internal],
    which sends one request about the file found; the callback of that reports
    to the user.  An operation that needs two files ([link], [rename]) looks up
    the second path from the continuation of the first.  What a continuation
    returns is dropped by the lookup; it is modelled for the operations on open
    files that use it too. *)

From S2P Require Import Prelude Path Nfs3 Lookup.

(** ** The directory cache (lib/libnfs.c) *)

Definition MAX_DIR_CACHE : nat := 128.

(** The first directory with the handle is taken out of the list. *)
Fixpoint dircache_take (fh : nfs_fh) (l : list nfsdir) : option (nfsdir * list nfsdir) :=
  match l with
  | [] => None
  | d :: l =>
      if beq (d_fh d) fh then Some (d, l)
      else match dircache_take fh l with Some (x, l) => Some (x, d :: l) | None => None end
  end.

Definition nfs_dircache_find (n : nfs) (fh : nfs_fh) : nfs * option nfsdir :=
  match dircache_take fh (n_dircache n) with
  | Some (d, l) => (set_n_dircache l n, Some d)
  | None => (n, None)
  end.

Definition nfs_dircache_drop (n : nfs) (fh : nfs_fh) : nfs := (nfs_dircache_find n fh).1.

(** The directory is put first; the one after [MAX_DIR_CACHE + 1] is freed. *)
Definition nfs_dircache_add (n : nfs) (d : nfsdir) : nfs :=
  let l := d :: n_dircache n in
  set_n_dircache (take (S MAX_DIR_CACHE) l ++ drop (S (S MAX_DIR_CACHE)) l) n.

(** ** Attributes and modes *)

Definition S_IFMT : Z := 61440.
Definition S_IFREG : Z := 32768.
Definition S_IFDIR : Z := 16384.
Definition S_IFBLK : Z := 24576.
Definition S_IFCHR : Z := 8192.
Definition S_IFLNK : Z := 40960.
Definition S_IFSOCK : Z := 49152.
Definition S_IFIFO : Z := 4096.
Definition S_IRWXUGO : Z := 511.
Definition NFS_BLKSIZE : Z := 4096.

Definition specdata3_to_rdev (d : Z * Z) : Z := u64 (Z.lor (u64 (Z.shiftl d.1 32)) d.2).

Definition type_mode (t : Z) : Z :=
  if t =? NF3REG then S_IFREG else if t =? NF3DIR then S_IFDIR else if t =? NF3BLK then S_IFBLK
  else if t =? NF3CHR then S_IFCHR else if t =? NF3LNK then S_IFLNK else if t =? NF3SOCK then S_IFSOCK
  else if t =? NF3FIFO then S_IFIFO else 0.

(** [used] is what [nfs_stat_64] has and [stat] has not. *)
Definition to_stat (f : fattr3) (used : Z) : stat64 :=
  mkStat (fa_fsid f) (fa_fileid f) (Z.lor (fa_mode f) (type_mode (fa_type f))) (fa_nlink f) (fa_uid f) (fa_gid f)
    (specdata3_to_rdev (fa_rdev f)) (fa_size f) NFS_BLKSIZE (u64 (fa_used f + 512 - 1) / 512)
    (fa_atime f) (fa_mtime f) (fa_ctime f) used.

Definition R_OK : Z := 4.
Definition W_OK : Z := 2.
Definition X_OK : Z := 1.
Definition ACCESS3_READ : Z := 1.
Definition ACCESS3_LOOKUP : Z := 2.
Definition ACCESS3_MODIFY : Z := 4.
Definition ACCESS3_EXTEND : Z := 8.
Definition ACCESS3_DELETE : Z := 16.
Definition ACCESS3_EXECUTE : Z := 32.
Definition ACCESS3_CHANGE : Z := 28.  (** MODIFY | EXTEND | DELETE *)
Definition ACCESS3_SEARCH : Z := 34.  (** LOOKUP | EXECUTE *)

(** The bit [b], if [c]. *)
Definition bit (c : bool) (b : Z) : Z := if c then b else 0.

Section ops.
Context (cb : nfs -> Z -> payload -> call).

(** The request cannot be queued: the callback is called and -1 returned. *)
Definition not_sent (n : nfs) : call := returning (-1) (cb n (- ENOMEM) Message).

#[local] Notation lookuppath := (nfs3_lookuppath_async cb).

(** ** Looking at a file *)

Definition nfs3_stat_1_cb (n : nfs) (r : reply fattr3) : call :=
  check_result cb n r (fun f => cb n 0 (Stat (to_stat f 0))).
Definition nfs3_stat_continue_internal (n : nfs) (attr : option nfs_attr) (l : found) : call :=
  send n (GETATTR (l_fh l)) not_sent nfs3_stat_1_cb.
Definition nfs3_stat_async n path := lookuppath nfs3_stat_continue_internal false 0 n (Some path).

Definition nfs3_stat64_1_cb (n : nfs) (r : reply fattr3) : call :=
  check_result cb n r (fun f => cb n 0 (Stat (to_stat f (fa_used f)))).
Definition nfs3_stat64_continue_internal (n : nfs) (attr : option nfs_attr) (l : found) : call :=
  send n (GETATTR (l_fh l)) not_sent nfs3_stat64_1_cb.
Definition nfs3_stat64_async n path no_follow := lookuppath nfs3_stat64_continue_internal no_follow 0 n (Some path).

Definition nfs3_access2_cb (n : nfs) (r : reply Z) : call :=
  check_result cb n r (fun access =>
    cb n (Z.lor (bit (flag access ACCESS3_READ) R_OK)
           (Z.lor (bit (flag access ACCESS3_CHANGE) W_OK) (bit (flag access ACCESS3_SEARCH) X_OK))) NoData).
Definition nfs3_access2_continue_internal (n : nfs) (attr : option nfs_attr) (l : found) : call :=
  send n (ACCESS (l_fh l) (Z.lor ACCESS3_READ (Z.lor ACCESS3_CHANGE ACCESS3_SEARCH))) not_sent nfs3_access2_cb.
Definition nfs3_access2_async n path := lookuppath nfs3_access2_continue_internal false 0 n (Some path).

(** [continue_int] is the access that is asked for. *)
Definition nfs3_access_cb (continue_int : Z) (n : nfs) (r : reply Z) : call :=
  check_result cb n r (fun access =>
    let mode := Z.lor (bit (flag continue_int R_OK && flag access ACCESS3_READ) R_OK)
      (Z.lor (bit (flag continue_int W_OK && flag access ACCESS3_CHANGE) W_OK)
        (bit (flag continue_int X_OK && flag access ACCESS3_SEARCH) X_OK)) in
    if continue_int =? mode then cb n 0 NoData else cb n (- EACCES) Message).
Definition nfs3_access_continue_internal (continue_int : Z) (n : nfs) (attr : option nfs_attr) (l : found) : call :=
  let nfsmode := Z.lor (bit (flag continue_int R_OK) ACCESS3_READ)
    (Z.lor (bit (flag continue_int W_OK) ACCESS3_CHANGE) (bit (flag continue_int X_OK) ACCESS3_SEARCH)) in
  send n (ACCESS (l_fh l) nfsmode) not_sent (nfs3_access_cb continue_int).
Definition nfs3_access_async n path mode :=
  let continue_int := Z.land mode (Z.lor R_OK (Z.lor W_OK X_OK)) in
  lookuppath (nfs3_access_continue_internal continue_int) false continue_int n (Some path).

Definition nfs3_readlink_1_cb (n : nfs) (r : reply bytes) : call :=
  check_result cb n r (fun target => cb n 0 (Text target)).
Definition nfs3_readlink_continue_internal (n : nfs) (attr : option nfs_attr) (l : found) : call :=
  send n (READLINK (l_fh l)) not_sent nfs3_readlink_1_cb.
Definition nfs3_readlink_async n path := lookuppath nfs3_readlink_continue_internal true 0 n (Some path).

(** [continue_int] is 0 for [statvfs], whose counts of files have 32 bits. *)
Definition nfs3_statvfs_1_cb (continue_int : Z) (n : nfs) (r : reply FSSTAT3resok) : call :=
  check_result cb n r (fun f =>
    let count (x : Z) := if continue_int =? 0 then u32 x else x in
    cb n 0 (Statvfs (mkStatvfs NFS_BLKSIZE NFS_BLKSIZE (fs_tbytes f / NFS_BLKSIZE) (fs_fbytes f / NFS_BLKSIZE)
      (fs_abytes f / NFS_BLKSIZE) (count (fs_tfiles f)) (count (fs_ffiles f)) (count (fs_afiles f)) 256 0))).
Definition nfs3_statvfs_continue_internal (continue_int : Z) (n : nfs) (attr : option nfs_attr) (l : found) : call :=
  send n (FSSTAT (l_fh l)) not_sent (nfs3_statvfs_1_cb continue_int).
Definition nfs3_statvfs_async n path := lookuppath (nfs3_statvfs_continue_internal 0) false 0 n (Some path).
Definition nfs3_statvfs64_async n path := lookuppath (nfs3_statvfs_continue_internal 1) false 1 n (Some path).

(** The path that was found becomes the working directory. *)
Definition nfs3_chdir_continue_internal (n : nfs) (attr : option nfs_attr) (l : found) : call :=
  returning 0 (cb (set_n_cwd (l_path l) n) 0 NoData).
Definition nfs3_chdir_async n path := lookuppath nfs3_chdir_continue_internal false 0 n (Some path).

(** ** Changing attributes *)

(** Times are seconds and microseconds; without times the server's are used. *)
Definition nfs3_utimes_cb (fh : nfs_fh) (n : nfs) (r : reply unit) : call :=
  check_result cb n r (fun _ => cb (nfs_dircache_drop n fh) 0 NoData).
Definition utimes_sattr (times : option ((Z * Z) * (Z * Z))) : sattr3 :=
  match times with
  | Some ((s1, us1), (s2, us2)) =>
      mkSattr None None None None (SET_TO_CLIENT_TIME (mkTime (u32 s1) (u32 (us1 * 1000))))
        (SET_TO_CLIENT_TIME (mkTime (u32 s2) (u32 (us2 * 1000))))
  | None => mkSattr None None None None SET_TO_SERVER_TIME SET_TO_SERVER_TIME
  end.
Definition nfs3_utimes_continue_internal times (n : nfs) (attr : option nfs_attr) (l : found) : call :=
  send n (SETATTR (l_fh l) (utimes_sattr times)) not_sent (nfs3_utimes_cb (l_fh l)).
Definition nfs3_utimes_async_internal n path no_follow times :=
  lookuppath (nfs3_utimes_continue_internal times) no_follow 0 n (Some path).
Definition nfs3_utime_async n path (times : option (Z * Z)) :=
  lookuppath (nfs3_utimes_continue_internal
    (match times with Some (actime, modtime) => Some ((actime, 0), (modtime, 0)) | None => None end)) false 0 n (Some path).

(** -1 leaves the owner or the group as it is. *)
Definition nfs3_chown_cb (n : nfs) (r : reply unit) : call :=
  check_result cb n r (fun _ => cb n 0 NoData).
Definition chown_sattr (uid gid : Z) : sattr3 :=
  mkSattr None (if u32 uid =? u32 (-1) then None else Some (u32 uid)) (if u32 gid =? u32 (-1) then None else Some (u32 gid))
    None DONT_CHANGE DONT_CHANGE.
Definition nfs3_chown_continue_internal uid gid (n : nfs) (attr : option nfs_attr) (l : found) : call :=
  send n (SETATTR (l_fh l) (chown_sattr uid gid)) not_sent nfs3_chown_cb.
Definition nfs3_chown_async_internal n path no_follow uid gid :=
  lookuppath (nfs3_chown_continue_internal uid gid) no_follow 0 n (Some path).

(** [continue_int] is the mode. *)
Definition nfs3_chmod_cb (fh : nfs_fh) (n : nfs) (r : reply unit) : call :=
  check_result cb n r (fun _ => cb (nfs_dircache_drop n fh) 0 NoData).
Definition nfs3_chmod_continue_internal (continue_int : Z) (n : nfs) (attr : option nfs_attr) (l : found) : call :=
  send n (SETATTR (l_fh l) (with_mode (u32 continue_int))) not_sent (nfs3_chmod_cb (l_fh l)).
Definition nfs3_chmod_async_internal n path no_follow mode :=
  lookuppath (nfs3_chmod_continue_internal (u64 mode)) no_follow (u64 mode) n (Some path).

(** ** Creating and removing names *)

(** [strrchr(path, '/')]: the directory and the name in it. *)
Fixpoint strrchr_slash (path : bytes) : option (bytes * bytes) :=
  match path with
  | [] => None
  | c :: l =>
      match strrchr_slash l with
      | Some (dir, name) => Some (c :: dir, name)
      | None => if c =? slash then Some ([], l) else None
      end
  end.

(** [link], [rename] and [symlink] keep no directory for a path without a
    slash, the others keep an empty one; both are looked up as ".". *)
Definition split_parent (path : bytes) : option bytes * bytes :=
  match strrchr_slash path with Some (dir, name) => (Some dir, name) | None => (None, path) end.
Definition split_new_path (path : bytes) : bytes * bytes :=
  match strrchr_slash path with Some (dir, name) => (dir, name) | None => ([], path) end.

(** The callback of the requests that change the directory [fh]. *)
Definition changed (fh : nfs_fh) (n : nfs) (r : reply unit) : call :=
  check_result cb n r (fun _ => cb (nfs_dircache_drop n fh) 0 NoData).

Definition nfs3_link_cb := changed.
Definition nfs3_link_continue_2_internal (oldfh : nfs_fh) (newobject : bytes) (n : nfs) (attr : option nfs_attr)
    (l : found) : call :=
  send n (LINK oldfh (l_fh l) newobject) not_sent (nfs3_link_cb (l_fh l)).
Definition nfs3_link_continue_1_internal newparent newobject (n : nfs) (attr : option nfs_attr) (l : found) : call :=
  after (lookuppath (nfs3_link_continue_2_internal (l_fh l) newobject) false 0 n newparent)
    (fun n r => if negb (r =? 0) then not_sent n else leave n 0).
Definition nfs3_link_async n oldpath newpath :=
  let '(newparent, newobject) := split_parent newpath in
  lookuppath (nfs3_link_continue_1_internal newparent newobject) false 0 n (Some oldpath).

Definition nfs3_rename_cb (n : nfs) (r : reply unit) : call :=
  check_result cb n r (fun _ => cb n 0 NoData).
Definition nfs3_rename_continue_2_internal (olddir : nfs_fh) (oldobject newobject : bytes) (n : nfs)
    (attr : option nfs_attr) (l : found) : call :=
  send (nfs_dircache_drop n (l_fh l)) (RENAME olddir oldobject (l_fh l) newobject) not_sent nfs3_rename_cb.
Definition nfs3_rename_continue_1_internal oldobject newparent newobject (n : nfs) (attr : option nfs_attr)
    (l : found) : call :=
  after (lookuppath (nfs3_rename_continue_2_internal (l_fh l) oldobject newobject) false 0
           (nfs_dircache_drop n (l_fh l)) newparent)
    (fun n r => if negb (r =? 0) then not_sent n else leave n 0).
Definition nfs3_rename_async n oldpath newpath :=
  let '(oldparent, oldobject) := split_parent oldpath in
  let '(newparent, newobject) := split_parent newpath in
  lookuppath (nfs3_rename_continue_1_internal oldobject newparent newobject) false 0 n oldparent.

Definition nfs3_symlink_cb := changed.
Definition nfs3_symlink_continue_internal (target linkobject : bytes) (n : nfs) (attr : option nfs_attr) (l : found) : call :=
  send n (SYMLINK (l_fh l) linkobject (with_mode S_IRWXUGO) target) not_sent (nfs3_symlink_cb (l_fh l)).
Definition nfs3_symlink_async n target linkname :=
  let '(linkparent, linkobject) := split_parent linkname in
  lookuppath (nfs3_symlink_continue_internal target linkobject) false 0 n linkparent.

(** [major] and [minor] are the device numbers, of sys/sysmacros.h. *)
Definition nfs3_mknod_cb := changed.
Definition mknod_data (mode major minor : Z) : option mknoddata3 :=
  let a := with_mode (Z.land mode S_IRWXUGO) in
  let t := Z.land mode S_IFMT in
  if t =? S_IFCHR then Some (CHR_DEVICE a (major, minor))
  else if t =? S_IFBLK then Some (BLK_DEVICE a (major, minor))
  else if t =? S_IFSOCK then Some (SOCK_NODE a)
  else if t =? S_IFIFO then Some (FIFO_NODE a)
  else None.
Definition nfs3_mknod_continue_internal (name : bytes) (mode major minor : Z) (n : nfs) (attr : option nfs_attr)
    (l : found) : call :=
  match mknod_data mode major minor with
  | None => returning (-1) (cb n (- EINVAL) Message)
  | Some what => send n (MKNOD (l_fh l) name what) not_sent (nfs3_mknod_cb (l_fh l))
  end.
Definition nfs3_mknod_async n path mode major minor :=
  let '(dir, name) := split_new_path path in
  lookuppath (nfs3_mknod_continue_internal name mode major minor) false 0 n (Some dir).

Definition nfs3_unlink_cb := changed.
Definition nfs3_unlink_continue_internal (name : bytes) (n : nfs) (attr : option nfs_attr) (l : found) : call :=
  send n (REMOVE (l_fh l) name) not_sent (nfs3_unlink_cb (l_fh l)).
Definition nfs3_unlink_async n path :=
  let '(dir, name) := split_new_path path in
  lookuppath (nfs3_unlink_continue_internal name) false 0 n (Some dir).

Definition nfs3_rmdir_cb := changed.
Definition nfs3_rmdir_continue_internal (name : bytes) (n : nfs) (attr : option nfs_attr) (l : found) : call :=
  send n (RMDIR (l_fh l) name) not_sent (nfs3_rmdir_cb (l_fh l)).
Definition nfs3_rmdir_async n path :=
  let '(dir, name) := split_new_path path in
  lookuppath (nfs3_rmdir_continue_internal name) false 0 n (Some dir).

Definition nfs3_mkdir_cb := changed.
Definition nfs3_mkdir_continue_internal (name : bytes) (continue_int : Z) (n : nfs) (attr : option nfs_attr)
    (l : found) : call :=
  send n (MKDIR (l_fh l) name (with_mode (u32 continue_int))) not_sent (nfs3_mkdir_cb (l_fh l)).
Definition nfs3_mkdir2_async n path mode :=
  let '(dir, name) := split_new_path path in
  lookuppath (nfs3_mkdir_continue_internal name (u64 mode)) false (u64 mode) n (Some dir).

(** ** Truncating *)

(** [fh] is [data->fh], which [nfs3_ftruncate_async] leaves empty. *)
Definition nfs3_ftruncate_cb := changed [].
Definition nfs3_ftruncate_async (n : nfs) (fh : nfs_fh) (length : Z) : call :=
  send n (SETATTR fh (with_size (u64 length))) not_sent nfs3_ftruncate_cb.

(** [nfs_ftruncate_async] reports its error itself; this reports it again. *)
Definition nfs3_truncate_continue_internal (continue_int : Z) (n : nfs) (attr : option nfs_attr) (l : found) : call :=
  after (nfs3_ftruncate_async n (l_fh l) continue_int)
    (fun n r => if negb (r =? 0) then not_sent n else leave n 0).
Definition nfs3_truncate_async n path length :=
  lookuppath (nfs3_truncate_continue_internal (u64 length)) false (u64 length) n (Some path).

End ops.
