(* ===== verification/Nfs3File.v ===== *)
(** * Nfs3File: opening and using files (lib/nfs_v3.c)

    [nfs3_open_async] looks the path up and checks the access; when there is
    no such file and the flags have [O_CREAT] it starts again, with the
    directory, and creates it.  The lookups of an open are given callbacks of
    its own, which pass the result on to the user's.

    An open file is an entry of [n_files]; using one that has been closed has
    no result. *)

From S2P Require Import Prelude Path Nfs3 Lookup Nfs3Ops.

Definition O_WRONLY : Z := 1.
Definition O_RDWR : Z := 2.
Definition O_CREAT : Z := 64.
Definition O_EXCL : Z := 128.
Definition O_TRUNC : Z := 512.
Definition O_APPEND : Z := 1024.
Definition O_SYNC : Z := 1052672.

Definition SEEK_SET : Z := 0.
Definition SEEK_CUR : Z := 1.

(** A new [struct nfsfh]. *)
Definition new_nfsfh (n : nfs) (f : nfsfh) : nfs * N :=
  (set_n_next_file (n_next_file n + 1)%N (set_n_files (<[n_next_file n := f]> (n_files n)) n), n_next_file n).

Definition with_fh (n : nfs) (h : N) (k : nfsfh -> call) : call :=
  match n_files n !! h with Some f => k f | None => Undef end.

Definition nfs_free_nfsfh (n : nfs) (h : N) : nfs := set_n_files (delete h (n_files n)) n.

Definition set_h_offset (o : Z) (f : nfsfh) : nfsfh :=
  mkNfsfh (h_fh f) (h_sync f) (h_append f) (h_readonly f) (h_dirty f) o (h_v4 f).
Definition set_h_dirty (f : nfsfh) : nfsfh :=
  mkNfsfh (h_fh f) (h_sync f) (h_append f) (h_readonly f) true (h_offset f) (h_v4 f).
Definition put_fh (n : nfs) (h : N) (f : nfsfh) : nfs := set_n_files (<[h := f]> (n_files n)) n.

Section file.
Context (cb : nfs -> Z -> payload -> call).
#[local] Notation lookuppath := (nfs3_lookuppath_async).

(** ** Opening *)

Definition writes (flags : Z) : bool := flag flags (Z.lor O_WRONLY O_RDWR).

Definition open_mode (flags : Z) : Z :=
  Z.lor (bit (flag flags O_WRONLY) ACCESS3_MODIFY)
    (Z.lor (bit (flag flags O_RDWR) (Z.lor ACCESS3_READ ACCESS3_MODIFY)) (bit (negb (writes flags)) ACCESS3_READ)).

(** [cb0] is the callback the lookup was given. *)
Definition nfs3_open_trunc_cb (cb0 : nfs -> Z -> payload -> call) (flags : Z) (fh : nfs_fh) (n : nfs) (r : reply unit)
    : call :=
  check_result cb0 n r (fun _ =>
    let '(n, h) := new_nfsfh n (mkFh fh (flag flags O_SYNC) (flag flags O_APPEND) false false 0) in
    cb0 n 0 (FileHandle h)).

Definition nfs3_open_cb (cb0 : nfs -> Z -> payload -> call) (flags : Z) (fh : nfs_fh) (n : nfs) (r : reply Z) : call :=
  check_result cb0 n r (fun access =>
    if negb (access =? open_mode flags) then cb0 n (- EACCES) Message
    else if flag flags O_TRUNC && writes flags then
      send n (SETATTR fh (with_size 0)) (fun n => cb0 n (- ENOMEM) Message) (nfs3_open_trunc_cb cb0 flags fh)
    else
      let '(n, h) := new_nfsfh n (mkFh fh (flag flags O_SYNC) (flag flags O_APPEND) (negb (writes flags)) false 0) in
      cb0 n 0 (FileHandle h)).

Definition excl_create (flags : Z) : bool := Z.land flags (Z.lor O_CREAT O_EXCL) =? Z.lor O_CREAT O_EXCL.

Definition nfs3_open_continue_internal (cb0 : nfs -> Z -> payload -> call) (flags : Z) (n : nfs)
    (attr : option nfs_attr) (l : found) : call :=
  if excl_create flags then returning (-1) (cb0 n (- EEXIST) Message)
  else send n (ACCESS (l_fh l) (open_mode flags)) (not_sent cb0) (nfs3_open_cb cb0 flags (l_fh l)).

Definition nfs3_open_create_cb (n : nfs) (err : Z) (d : payload) : call :=
  if negb (err =? 0) then cb n (nfsstat3_to_errno err) Message else cb n 0 d.

(** The handle of the new file is used whether or not the reply has one. *)
Definition nfs3_create_1_cb (flags : Z) (dir : nfs_fh) (n : nfs) (r : reply (option nfs_fh)) : call :=
  check_result nfs3_open_create_cb n r (fun obj =>
    let '(n, h) := new_nfsfh n (mkFh (default [] obj) (flag flags O_SYNC) (flag flags O_APPEND) false false 0) in
    nfs3_open_create_cb (nfs_dircache_drop n dir) 0 (FileHandle h)).

Definition nfs3_create_continue_internal (name : bytes) (flags mode : Z) (n : nfs) (attr : option nfs_attr)
    (l : found) : call :=
  send n (CREATE (l_fh l) name (if flag flags O_EXCL then GUARDED else UNCHECKED) (with_mode (u32 mode)))
    (not_sent nfs3_open_create_cb) (nfs3_create_1_cb flags (l_fh l)).

Definition nfs3_initial_open_cb (path : bytes) (flags mode : Z) (n : nfs) (err : Z) (d : payload) : call :=
  if (err =? - EEXIST) && excl_create flags then cb n (- EEXIST) Message
  else if (err =? - NFS3ERR_NOENT) && flag flags O_CREAT then
    let '(dir, name) := split_new_path path in
    after (lookuppath nfs3_open_create_cb (nfs3_create_continue_internal name flags mode) false 0 n (Some dir))
      (fun n r => if negb (r =? 0) then cb n (- ENOMEM) Message else leave n 0)
  else if negb (err =? 0) then cb n (nfsstat3_to_errno err) Message
  else cb n 0 d.

Definition nfs3_open_async (n : nfs) (path : bytes) (flags mode : Z) : call :=
  let cb0 := nfs3_initial_open_cb path flags mode in
  lookuppath cb0 (nfs3_open_continue_internal cb0 flags) false (u64 flags) n (Some path).

Definition nfs3_creat_async (n : nfs) (path : bytes) (mode : Z) : call :=
  nfs3_open_async n path (Z.lor O_CREAT (Z.lor O_WRONLY O_TRUNC)) mode.

(** ** Open files *)

Definition nfs3_fstat_async (n : nfs) (h : N) : call :=
  with_fh n h (fun f => send n (GETATTR (h_fh f)) (not_sent cb) (nfs3_stat_1_cb cb)).

Definition nfs3_fstat64_async (n : nfs) (h : N) : call :=
  with_fh n h (fun f => send n (GETATTR (h_fh f)) (not_sent cb) (nfs3_stat64_1_cb cb)).

Definition nfs3_fchown_async (n : nfs) (h : N) (uid gid : Z) : call :=
  with_fh n h (fun f => nfs3_chown_continue_internal cb uid gid n None (mkFound (h_fh f) [])).

Definition nfs3_fchmod_async (n : nfs) (h : N) (mode : Z) : call :=
  with_fh n h (fun f => nfs3_chmod_continue_internal cb (u64 mode) n None (mkFound (h_fh f) [])).

Definition nfs3_fsync_cb (n : nfs) (r : reply unit) : call :=
  check_result cb n r (fun _ => cb n 0 NoData).

Definition nfs3_fsync_async (n : nfs) (h : N) : call :=
  with_fh n h (fun f => send n (COMMIT (h_fh f) 0 0) (not_sent cb) nfs3_fsync_cb).

(** [offset] and the size are 64-bit; negating the least offset is undefined. *)
Definition nfs3_lseek_1_cb (h : N) (offset : Z) (n : nfs) (r : reply fattr3) : call :=
  check_result cb n r (fun a =>
    with_fh n h (fun f =>
      let size := i64 (fa_size a) in
      if offset =? - 2 ^ 63 then Undef
      else if (offset <? 0) && (- offset >? size) then cb n (- EINVAL) (Offset (h_offset f))
      else
        let f := set_h_offset (u64 (u64 offset + u64 size)) f in
        cb (put_fh n h f) 0 (Offset (h_offset f)))).

Definition nfs3_lseek_async (n : nfs) (h : N) (offset whence : Z) : call :=
  with_fh n h (fun f =>
    let moved o := let f := set_h_offset o f in returning 0 (cb (put_fh n h f) 0 (Offset (h_offset f))) in
    let invalid := returning 0 (cb n (- EINVAL) (Offset (h_offset f))) in
    if whence =? SEEK_SET then (if offset <? 0 then invalid else moved offset)
    else if whence =? SEEK_CUR then
      (if offset =? - 2 ^ 63 then Undef
       else if (offset <? 0) && (h_offset f <? - offset) then invalid else moved (u64 (h_offset f + offset)))
    else send n (GETATTR (h_fh f)) (fun n => leave n (-1)) (nfs3_lseek_1_cb h offset)).

End file.

(** The file is freed whatever the COMMIT comes to. *)
Definition nfs3_close_cb (cb : nfs -> Z -> payload -> call) (h : N) (n : nfs) (err : Z) (d : payload) : call :=
  cb (nfs_free_nfsfh n h) err d.

Definition nfs3_close_async (cb : nfs -> Z -> payload -> call) (n : nfs) (h : N) : call :=
  with_fh n h (fun f =>
    if negb (h_dirty f) then returning 0 (cb (nfs_free_nfsfh n h) 0 NoData)
    else nfs3_fsync_async (nfs3_close_cb cb h) n h).
