(* ===== verification/Nfs3IO.v ===== *)
(** * Nfs3IO: reading and writing open files (lib/nfs_v3.c, lib/libnfs.c)

    A READ is one request of at most [readmax] bytes; [nfs_pread_multi] reads
    what is longer with one READ after the other.  A WRITE is cut to [writemax];
    what the server leaves of it is sent again.

    The data of a READ is in the memory of the user when its callback is called:
    the RPC layer has put at most as many bytes there as were asked for
    ([delivered], lib/socket.c).  The data to write is an argument. *)

From S2P Require Import Prelude Path Nfs3 Lookup Nfs3Ops Nfs3File.

Fixpoint store (addr : Z) (d : bytes) (m : gmap Z Z) : gmap Z Z :=
  match d with [] => m | b :: d => store (addr + 1) d (<[addr := b]> m) end.

Definition delivered (buf count : Z) (r : reply (Z * bytes)) (n : nfs) : nfs :=
  match r with
  | Result st (_, d) => if st =? NFS3_OK then set_n_mem (store buf (take (Z.to_nat count) d) (n_mem n)) n else n
  | _ => n
  end.

Definition RPC_MAX_VECTORS : nat := Z.to_nat 1024.

(** ** Reading *)

Section reading.
Context (cb : nfs -> Z -> payload -> call).

(** [count], an [int], is compared with the [uint32_t] that was asked for. *)
Definition cut_count (count requested : Z) : Z := if u32 count >? u32 requested then i32 (u32 requested) else count.

(** The new position is computed before the count is cut to what was asked for. *)
Definition nfs3_pread_cb (h : N) (offset requested : Z) (update_pos : bool) (n : nfs) (r : reply (Z * bytes)) : call :=
  check_result cb n r (fun '(cnt, _) =>
    let count := i32 cnt in
    let finish n := cb n (cut_count count requested) NoData in
    if update_pos then with_fh n h (fun f => finish (put_fh n h (set_h_offset (u64 (offset + count)) f)))
    else finish n).

Definition nfs3_pread_async_internal (n : nfs) (h : N) (buf count offset : Z) (update_pos : bool) : call :=
  let count := if count >? n_readmax n then n_readmax n else count in
  with_fh n h (fun f =>
    send n (READ (h_fh f) offset (u32 count)) (fun n => leave n (-1))
      (fun n r => nfs3_pread_cb h offset count update_pos (delivered buf count r n) r)).

(** Into several buffers, up to 1024: one READ, of at most [readmax] bytes. *)
Definition iov_size (iov : list (Z * Z)) : Z := fold_right (fun v s => v.2 + s) 0 iov.

Fixpoint scatter (iov : list (Z * Z)) (d : bytes) (m : gmap Z Z) : gmap Z Z :=
  match iov with
  | [] => m
  | (base, len) :: iov => scatter iov (drop (Z.to_nat len) d) (store base (take (Z.to_nat len) d) m)
  end.

Definition scattered (iov : list (Z * Z)) (r : reply (Z * bytes)) (n : nfs) : nfs :=
  match r with
  | Result st (_, d) => if st =? NFS3_OK then set_n_mem (scatter iov d (n_mem n)) n else n
  | _ => n
  end.

Definition nfs3_preadv_async_internal (n : nfs) (h : N) (iov : list (Z * Z)) (offset : Z) (update_pos : bool) : call :=
  let count := iov_size iov in
  let count := if count >? n_readmax n then n_readmax n else count in
  with_fh n h (fun f =>
    if bool_decide (iov = []) || (RPC_MAX_VECTORS <? length iov)%nat then leave n (-1)
    else
      send n (READ (h_fh f) offset (u32 count)) (fun n => leave n (-1))
        (fun n r => nfs3_pread_cb h offset (iov_size iov) update_pos (scattered iov r n) r)).
End reading.

(** [struct rw_data] *)
Record rw_data := mkRw { rw_h : N; rw_buf : Z; rw_count : Z; rw_remaining : Z; rw_offset : Z }.

Lemma cut_count_id count requested : 0 <= count <= requested -> requested <= INT_MAX -> cut_count count requested = count.
Proof.
  intros H1 H2. unfold cut_count. rewrite !u32_id by (unfold is_u32, INT_MAX in *; lia). by replace (count >? requested) with false by lia.
Qed.

Section long_reads.
(** [__nfs_pread_async]: the READ of the version that is used. *)
Context (pread : (nfs -> Z -> payload -> call) -> nfs -> N -> Z -> Z -> Z -> bool -> call) (cb : nfs -> Z -> payload -> call).

Definition chunk (n : nfs) (remaining : Z) : Z :=
  if negb (n_readmax n =? 0) && (remaining >? n_readmax n) then n_readmax n else remaining.

(** What the caller is told is the count as an [int].  Each turn of the loop
    but the last reads [readmax] bytes. *)
Fixpoint r_cb (fuel : nat) (rw : rw_data) (n : nfs) (status : Z) (d : payload) : call :=
  if status <? 0 then cb n status NoData
  else
    let status := if status >? rw_remaining rw then rw_remaining rw else status in
    let rw := mkRw (rw_h rw) (rw_buf rw + status) (rw_count rw) (rw_remaining rw - status) (u64 (rw_offset rw + status)) in
    if (rw_remaining rw =? 0) || (status <? n_readmax n) then cb n (i32 (rw_count rw - rw_remaining rw)) NoData
    else
      match fuel with
      | O => Undef
      | S fuel =>
          after (pread (r_cb fuel rw) n (rw_h rw) (rw_buf rw) (chunk n (rw_remaining rw))
                   (rw_offset rw) false)
            (fun n r => if negb (r =? 0) then cb n (- ENOMEM) NoData else leave n 0)
      end.

(** [_nfs_pread_async] *)
Definition nfs_pread_multi (n : nfs) (h : N) (buf count offset : Z) (update_pos : bool) : call :=
  if count <? n_readmax n then pread cb n h buf count offset update_pos
  else
    pread (r_cb (Z.to_nat count) (mkRw h buf count count offset)) n h buf (chunk n count) offset false.

End long_reads.

(** ** Writing *)

(** The part of [struct nfs_cb_data] and [struct nfs_mcb_data] a WRITE uses:
    where the operation began, how far it got, and what this WRITE is for. *)
Record write_data := mkWrite { w_h : N; w_buf : bytes; w_offset : Z; w_max_offset : Z; w_pos : Z; w_count : Z; w_update_pos : bool }.

Section writing.
Context (cb : nfs -> Z -> payload -> call).

Definition nfs3_fill_WRITE3args (f : nfsfh) (offset count : Z) (data : bytes) : request :=
  WRITE (h_fh f) offset (u32 count) (if h_sync f then FILE_SYNC else UNSTABLE) data.

Definition write_request (w : write_data) (f : nfsfh) : request :=
  nfs3_fill_WRITE3args f (w_pos w) (w_count w)
    (take (Z.to_nat (w_count w)) (drop (Z.to_nat (w_pos w - w_offset w)) (w_buf w))).

(** Everything has been written. *)
Definition write_finished (w : write_data) (n : nfs) : call :=
  let finish n := cb n (i32 (w_max_offset w - w_offset w)) NoData in
  if w_update_pos w then with_fh n (w_h w) (fun f => finish (put_fh n (w_h w) (set_h_offset (w_max_offset w) f)))
  else finish n.

Fixpoint nfs3_pwrite_mcb (fuel : nat) (w : write_data) (n : nfs) (r : reply Z) : call :=
  match r with
  | RpcError => cb n (- EFAULT) Message
  | RpcCancel | RpcTimeout => cb n (- EINTR) Message
  | Result st count =>
      if negb (st =? NFS3_OK) then cb n (nfsstat3_to_errno st) Message
      else if count <? w_count w then
        if count =? 0 then cb n (- EFAULT) Message
        else
          let w := mkWrite (w_h w) (w_buf w) (w_offset w) (w_max_offset w) (u64 (w_pos w + count)) (w_count w - count)
            (w_update_pos w) in
          match fuel with
          | O => Undef
          | S fuel =>
              with_fh n (w_h w) (fun f =>
                send n (write_request w f) (fun n => cb n (- ENOMEM) Message) (nfs3_pwrite_mcb fuel w))
          end
      else
        write_finished (mkWrite (w_h w) (w_buf w) (w_offset w)
          (if count >? 0 then (if w_max_offset w <? u64 (w_pos w + count) then u64 (w_pos w + count) else w_max_offset w)
           else w_max_offset w) (w_pos w) (w_count w) (w_update_pos w)) n
  end.

(** The count is cut before the loop that would send several WRITEs, so that
    it sends one. *)
Definition nfs3_pwrite_async_internal (n : nfs) (h : N) (buf : bytes) (count offset : Z) (update_pos : bool) : call :=
  let count := if count >? n_writemax n then n_writemax n else count in
  with_fh n h (fun f =>
    let n := put_fh n h (set_h_dirty f) in
    let writecount := if count >? n_writemax n then n_writemax n else count in
    let w := mkWrite h buf offset offset offset writecount update_pos in
    send n (write_request w f) (fun n => leave n (-1)) (nfs3_pwrite_mcb (Z.to_nat writecount) w)).

Definition nfs3_write_append_cb (h : N) (buf : bytes) (count : Z) (n : nfs) (r : reply fattr3) : call :=
  check_result cb n r (fun a =>
    after (nfs3_pwrite_async_internal n h buf count (fa_size a) true)
      (fun n r => if negb (r =? 0) then cb n (- ENOMEM) Message else leave n 0)).

Definition nfs3_write_async (n : nfs) (h : N) (buf : bytes) (count : Z) : call :=
  with_fh n h (fun f =>
    if h_append f then send n (GETATTR (h_fh f)) (fun n => leave n (-1)) (nfs3_write_append_cb h buf count)
    else nfs3_pwrite_async_internal n h buf count (h_offset f) true).

End writing.
