(* ===== verification/Nfs3Props.v ===== *)
(** * Nfs3Props: what the NFSv3 operations promise

    Every operation on a name calls its callback exactly once, or refuses and
    never does, whatever the server answers, and sends a bounded number of
    READLINKs ([perform_proper]).  What they do for a given path is stated on
    [walk]; the rest of the file is about names in the root directory, errors of
    open and truncating. *)

From S2P Require Import Prelude Path Nfs3 Lookup LookupProps Nfs3Ops Nfs3File.

(** ** The operations on names *)

Inductive operation :=
| OpStat (path : bytes) | OpStat64 (path : bytes) (no_follow : bool) | OpAccess2 (path : bytes)
| OpAccess (path : bytes) (mode : Z) | OpReadlink (path : bytes) | OpStatvfs (path : bytes) | OpStatvfs64 (path : bytes)
| OpChdir (path : bytes) | OpUtimes (path : bytes) (no_follow : bool) (times : option ((Z * Z) * (Z * Z)))
| OpUtime (path : bytes) (times : option (Z * Z)) | OpChown (path : bytes) (no_follow : bool) (uid gid : Z)
| OpChmod (path : bytes) (no_follow : bool) (mode : Z) | OpLink (oldpath newpath : bytes)
| OpRename (oldpath newpath : bytes) | OpSymlink (target linkname : bytes)
| OpMknod (path : bytes) (mode major minor : Z) | OpUnlink (path : bytes) | OpRmdir (path : bytes)
| OpMkdir (path : bytes) (mode : Z) | OpOpen (path : bytes) (flags mode : Z) | OpCreat (path : bytes) (mode : Z).

Definition perform (o : operation) (n : nfs) : call :=
  match o with
  | OpStat path => nfs3_stat_async user n path
  | OpStat64 path no_follow => nfs3_stat64_async user n path no_follow
  | OpAccess2 path => nfs3_access2_async user n path
  | OpAccess path mode => nfs3_access_async user n path mode
  | OpReadlink path => nfs3_readlink_async user n path
  | OpStatvfs path => nfs3_statvfs_async user n path
  | OpStatvfs64 path => nfs3_statvfs64_async user n path
  | OpChdir path => nfs3_chdir_async user n path
  | OpUtimes path no_follow times => nfs3_utimes_async_internal user n path no_follow times
  | OpUtime path times => nfs3_utime_async user n path times
  | OpChown path no_follow uid gid => nfs3_chown_async_internal user n path no_follow uid gid
  | OpChmod path no_follow mode => nfs3_chmod_async_internal user n path no_follow mode
  | OpLink oldpath newpath => nfs3_link_async user n oldpath newpath
  | OpRename oldpath newpath => nfs3_rename_async user n oldpath newpath
  | OpSymlink target linkname => nfs3_symlink_async user n target linkname
  | OpMknod path mode major minor => nfs3_mknod_async user n path mode major minor
  | OpUnlink path => nfs3_unlink_async user n path
  | OpRmdir path => nfs3_rmdir_async user n path
  | OpMkdir path mode => nfs3_mkdir2_async user n path mode
  | OpOpen path flags mode => nfs3_open_async user n path flags mode
  | OpCreat path mode => nfs3_creat_async user n path mode
  end.

(** ** One callback *)

Lemma proper_more P k k' c : proper P k c -> (k <= k')%nat -> proper P k' c.
Proof. intros [H|[H1 H2]] Hk; [by left|right]. split; [done|]. by eapply obeys_more. Qed.

Section once.
Context (P : Z * payload -> Prop).
#[local] Notation obeys := (obeys P).
#[local] Notation proper := (proper P).

Lemma not_sent_obeys k cb n : (forall n e d, e <= 0 -> obeys k (cb n e d)) -> obeys k (not_sent cb n).
Proof. intros H. by apply obeys_returning, H. Qed.

(** The second part of [link] and [rename], and of an open that creates. *)
Lemma obeys_after k c err : proper k c -> (forall n, obeys k (err n)) ->
  obeys k (after c (fun n r => if negb (r =? 0) then err n else leave n 0)).
Proof.
  intros [(n & r & -> & Hr)|[Hr Ho]] He.
  - cbn [after]. destruct (Z.eqb_spec r 0); [done|]. cbn [negb]. specialize (He n).
    by destruct (err n) as [out n' r' [|p l]|].
  - destruct c as [out n r next|]; [|done]. injection Hr as ->. cbn [after negb Z.eqb leave].
    rewrite app_nil_r. by destruct next.
Qed.

(** One request, and the report of its result. *)
Lemma request_obeys k cb n q next :
  (forall n e d, e <= 0 -> obeys k (cb n e d)) -> plain_request q ->
  (exists j, spend q k = Some j /\ forall n r, obeys j (next n r)) -> obeys k (send n q (not_sent cb) next).
Proof. intros Hcb Hq Hn. apply obeys_send; [intros; by apply not_sent_obeys|done|done]. Qed.

Lemma open_create_cb_obeys k n e d :
  (forall e d, e <= 0 -> e = 0 \/ e = - ERANGE -> P (e, d)) -> e <= 0 -> obeys k (nfs3_open_create_cb user n e d).
Proof.
  intros HP He. unfold nfs3_open_create_cb. destruct (Z.eqb_spec e 0) as [->|Hne]; apply obeys_user, HP.
  - done.
  - by left.
  - apply nfsstat3_to_errno_nonpos.
  - right. unfold nfsstat3_to_errno. by destruct e.
Qed.
End once.

(** A path is looked up and one request sent. *)
Lemma one_proper (q : found -> request) cb1 continue_cb no_follow continue_int n path :
  (forall n l attr, continue_cb n attr l = send n (q l) (not_sent user) (cb1 l)) ->
  (forall l, plain_request (q l)) -> (forall n l r, obeys (fun _ => True) 0 (cb1 l n r)) ->
  proper (fun _ => True) 81 (nfs3_lookuppath_async user continue_cb no_follow continue_int n path).
Proof.
  intros Hc Hp Hcb. eapply proper_more with (k := 41%nat); [|lia].
  apply lookuppath_proper with (j := 1%nat); [intros; by apply obeys_user|]. intros n1 a l. rewrite Hc.
  apply request_obeys; [intros; by apply obeys_user|done|].
  assert (Hs : exists j, spend (q l) 1 = Some j) by (destruct (q l); eauto).
  destruct Hs as [k Hk]. exists k. split; [done|]. intros n2 r. eapply obeys_more; [apply Hcb|lia].
Qed.

Lemma user_obeys k n e d : obeys (fun _ => True) k (user n e d).
Proof. by apply obeys_user. Qed.

Lemma check_user k {T : Set} n (r : reply T) next :
  (forall v, obeys (fun _ => True) k (next v)) -> obeys (fun _ => True) k (check_result user n r next).
Proof. apply obeys_check. intros. apply user_obeys. Qed.

Lemma link_proper n oldpath newpath : proper (fun _ => True) 80 (nfs3_link_async user n oldpath newpath).
Proof.
  unfold nfs3_link_async. destruct (split_parent newpath) as [newparent newobject].
  apply lookuppath_proper with (j := 40%nat); [intros; apply user_obeys|]. intros n1 a l.
  apply obeys_after; [|intros; apply not_sent_obeys; intros; apply user_obeys].
  apply lookuppath_proper with (j := O); [intros; apply user_obeys|]. intros. apply request_obeys; [intros; apply user_obeys|done|].
  eexists. split; [reflexivity|]. intros. by apply check_user; intros; apply user_obeys.
Qed.

Lemma rename_proper n oldpath newpath : proper (fun _ => True) 80 (nfs3_rename_async user n oldpath newpath).
Proof.
  unfold nfs3_rename_async. destruct (split_parent oldpath) as [oldparent oldobject].
  destruct (split_parent newpath) as [newparent newobject].
  apply lookuppath_proper with (j := 40%nat); [intros; apply user_obeys|]. intros n1 a l.
  apply obeys_after; [|intros; apply not_sent_obeys; intros; apply user_obeys].
  apply lookuppath_proper with (j := O); [intros; apply user_obeys|]. intros. apply request_obeys; [intros; apply user_obeys|done|].
  eexists. split; [reflexivity|]. intros. by apply check_user; intros; apply user_obeys.
Qed.

Lemma mknod_proper name mode major minor no_follow continue_int n path :
  proper (fun _ => True) 81
    (nfs3_lookuppath_async user (nfs3_mknod_continue_internal user name mode major minor) no_follow continue_int n path).
Proof.
  eapply proper_more; [apply lookuppath_proper with (j := O); [intros; apply user_obeys|]|unfold MAX_LINK_COUNT; lia].
  intros n1 a l. unfold nfs3_mknod_continue_internal. destruct (mknod_data mode major minor); [|by eexists].
  apply request_obeys; [intros; apply user_obeys|done|]. eexists. split; [reflexivity|]. intros.
  apply check_user; intros; apply user_obeys.
Qed.

(** *** Opening *)

(** What an open may report. *)
Definition open_error (x : Z * payload) : Prop := x.1 = 0 \/ x.1 = - EEXIST \/ x.1 = - ENOMEM \/ x.1 = - ERANGE.

Lemma initial_open_cb_obeys path flags mode n e d : e <= 0 ->
  obeys open_error 40 (nfs3_initial_open_cb user path flags mode n e d).
Proof.
  intros He. unfold nfs3_initial_open_cb. destruct (_ && excl_create flags); [apply obeys_user; unfold open_error; cbn; auto|].
  assert (Hc : forall n e d, e <= 0 -> obeys open_error 0 (nfs3_open_create_cb user n e d)).
  { intros. apply open_create_cb_obeys; [|done]. intros e' d' _ [->| ->]; unfold open_error; cbn; auto. }
  destruct (_ && flag flags O_CREAT).
  - destruct (split_new_path path) as [dir name].
    apply obeys_after; [|intros; apply obeys_user; unfold open_error; cbn; auto].
    apply lookuppath_proper with (j := O); [done|]. intros n1 a l. apply request_obeys; [done|done|].
    eexists. split; [reflexivity|]. intros n2 r. apply obeys_check; [done|]. intros obj. by apply Hc.
  - eapply obeys_more; [|apply Nat.le_0_l]. exact (Hc n e d He).
Qed.

Lemma open_proper n path flags mode : proper open_error 80 (nfs3_open_async user n path flags mode).
Proof.
  pose proof (initial_open_cb_obeys path flags mode) as Hcb.
  apply lookuppath_proper with (j := 40%nat); [done|]. intros n1 a l. unfold nfs3_open_continue_internal.
  destruct (excl_create flags); [by apply obeys_returning, Hcb|].
  apply request_obeys; [done|done|]. eexists. split; [reflexivity|]. intros n2 r.
  apply obeys_check; [done|]. intros access. destruct (negb (access =? open_mode flags)); [by apply Hcb|].
  destruct (flag flags O_TRUNC && writes flags); [|by apply Hcb].
  apply obeys_send; [intros; by apply Hcb|done|]. eexists. split; [reflexivity|]. intros n3 r3. apply obeys_check; [done|].
  intros _. by apply Hcb.
Qed.

Lemma obeys_weaken (P Q : Z * payload -> Prop) : (forall x, P x -> Q x) -> forall c k, obeys P k c -> obeys Q k c.
Proof.
  intros H c. induction c as [|out n r [|p next] IH] using call_induction; intros k Ho; [done| |].
  - destruct Ho as (x & -> & Hx). exists x. auto.
  - apply obeys_flight in Ho as [Ho Hl]. apply obeys_flight. split; [done|].
    eapply Forall_impl; [exact (proj2 (Forall_and _ _) (conj IH Hl))|]. intros [q k0] [Hc [Hq Hn]]. split; [done|].
    destruct (spend q k); [|done]. intros n1 r1. by apply Hc.
Qed.

Lemma open_any n path flags mode : proper (fun _ => True) 81 (nfs3_open_async user n path flags mode).
Proof.
  eapply proper_more; [|apply le_S, le_n]. destruct (open_proper n path flags mode) as [H|[H1 H2]]; [by left|right].
  split; [done|]. by eapply obeys_weaken.
Qed.

Lemma perform_once o n : proper (fun _ => True) 81 (perform o n).
Proof.
  destruct o; cbn [perform];
    try (unfold nfs3_symlink_async, nfs3_mknod_async, nfs3_unlink_async, nfs3_rmdir_async, nfs3_mkdir2_async;
         first [destruct (split_parent _)|destruct (split_new_path _)]).
  - eapply (one_proper (fun l => GETATTR (l_fh l)) (fun _ => nfs3_stat_1_cb user)); [reflexivity|done|intros; apply check_user; intros; apply user_obeys].
  - eapply (one_proper (fun l => GETATTR (l_fh l)) (fun _ => nfs3_stat64_1_cb user)); [reflexivity|done|intros; apply check_user; intros; apply user_obeys].
  - eapply (one_proper (fun l => ACCESS (l_fh l) _) (fun _ => nfs3_access2_cb user)); [reflexivity|done|intros; apply check_user; intros; apply user_obeys].
  - eapply (one_proper (fun l => ACCESS (l_fh l) _) (fun _ => nfs3_access_cb user _));
      [reflexivity|done|intros; apply check_user; intros; cbv beta zeta; case_match; apply user_obeys].
  - eapply (one_proper (fun l => READLINK (l_fh l)) (fun _ => nfs3_readlink_1_cb user)); [reflexivity|done|intros; apply check_user; intros; apply user_obeys].
  - eapply (one_proper (fun l => FSSTAT (l_fh l)) (fun _ => nfs3_statvfs_1_cb user _)); [reflexivity|done|intros; apply check_user; intros; apply user_obeys].
  - eapply (one_proper (fun l => FSSTAT (l_fh l)) (fun _ => nfs3_statvfs_1_cb user _)); [reflexivity|done|intros; apply check_user; intros; apply user_obeys].
  - eapply proper_more; [apply lookuppath_proper with (j := O); intros; apply user_obeys|unfold MAX_LINK_COUNT; lia].
  - eapply (one_proper (fun l => SETATTR (l_fh l) _) (fun l => nfs3_utimes_cb user (l_fh l))); [reflexivity|done|intros; apply check_user; intros; apply user_obeys].
  - eapply (one_proper (fun l => SETATTR (l_fh l) _) (fun l => nfs3_utimes_cb user (l_fh l))); [reflexivity|done|intros; apply check_user; intros; apply user_obeys].
  - eapply (one_proper (fun l => SETATTR (l_fh l) _) (fun _ => nfs3_chown_cb user)); [reflexivity|done|intros; apply check_user; intros; apply user_obeys].
  - eapply (one_proper (fun l => SETATTR (l_fh l) _) (fun l => nfs3_chmod_cb user (l_fh l))); [reflexivity|done|intros; apply check_user; intros; apply user_obeys].
  - eapply proper_more; [apply link_proper|lia].
  - eapply proper_more; [apply rename_proper|lia].
  - eapply (one_proper (fun l => SYMLINK (l_fh l) _ _ _) (fun l => nfs3_symlink_cb user (l_fh l))); [reflexivity|done|intros; apply check_user; intros; apply user_obeys].
  - apply mknod_proper.
  - eapply (one_proper (fun l => REMOVE (l_fh l) _) (fun l => nfs3_unlink_cb user (l_fh l))); [reflexivity|done|intros; apply check_user; intros; apply user_obeys].
  - eapply (one_proper (fun l => RMDIR (l_fh l) _) (fun l => nfs3_rmdir_cb user (l_fh l))); [reflexivity|done|intros; apply check_user; intros; apply user_obeys].
  - eapply (one_proper (fun l => MKDIR (l_fh l) _ _) (fun l => nfs3_mkdir_cb user (l_fh l))); [reflexivity|done|intros; apply check_user; intros; apply user_obeys].
  - apply open_any.
  - apply open_any.
Qed.


(** ** What is done to which file *)

(** A context that nobody else uses, with a working directory. *)
Record settled (n : nfs) (cwd : list bytes) : Prop := {
  se_sends : n_sends n = [];
  se_mounts : n_nested_mounts n = [];
  se_cwd : spells (n_cwd n) cwd;
}.

Lemma strrchr_slash_none nm : name nm -> strrchr_slash nm = None.
Proof.
  induction nm as [|c nm IH]; intros H; [done|]. cbn [strrchr_slash]. rewrite IH by (intros Hn; apply H; by right).
  destruct (Z.eqb_spec c slash) as [->|]; [by destruct H; left|done].
Qed.

Lemma strrchr_last dir nm : name nm -> strrchr_slash (dir ++ slash :: nm) = Some (dir, nm).
Proof.
  intros H. induction dir as [|c dir IH]; cbn [app strrchr_slash].
  - by rewrite strrchr_slash_none.
  - by rewrite IH.
Qed.

Section server.
Context (srv : server) (n : nfs) (cwd : list bytes).
Hypothesis n_settled : settled n cwd.

(** Where a path leads; [continue_int] is what [O_NOFOLLOW] is looked for in. *)
Definition leads (no_follow : bool) (continue_int : Z) (cs : list bytes) : outcome :=
  walk srv (n_export n) (n_rootfh n) no_follow (flag continue_int O_NOFOLLOW) MAX_LINK_COUNT [] (n_rootfh n) None cs.

(** The user is told an error, or [ok] once the request has been answered. *)
Definition answered (q : request) (ok : resok q -> payload * nfs) : option (list (Z * payload) * nfs) :=
  match outcome_of (srv q) with
  | inl v => Some ([(0, (ok v).1)], (ok v).2)
  | inr err => Some ([(err, Message)], n)
  end.

Lemma run_lookup continue_cb no_follow continue_int path cs f :
  path_components cwd (default [] path) = Some cs -> cs <> [] ->
  (forall attr l, run srv (continue_cb n attr l) = f (l_fh l)) ->
  run srv (nfs3_lookuppath_async user continue_cb no_follow continue_int n path) =
    match leads no_follow continue_int cs with
    | Reached fh _ _ => f fh
    | Lost err => Some ([(err, Message)], n)
    end.
Proof.
  intros Hp Hne Hf. destruct n_settled as [H1 H2 H3].
  pose proof (lookuppath_finds srv user continue_cb no_follow continue_int n cwd path cs H1 H2 H3 Hp Hne) as G.
  unfold goes_on in G. unfold leads. destruct (walk _ _ _ _ _ _ _ _ _ _) as [fh attr cs'|err].
  - destruct G as (p & _ & ->). apply Hf.
  - exact G.
Qed.

Lemma run_answered q next ok :
  (forall r, next n r = check_result user n r (fun v => user (ok v).2 0 (ok v).1)) ->
  run srv (send n q (not_sent user) next) = answered q ok.
Proof.
  intros H. rewrite run_send by apply n_settled. rewrite H, run_check. unfold answered.
  by destruct (outcome_of (srv q)).
Qed.

(** C13: stat reports the attributes of the file the path leads to: the walk over the components
    of the path, relative to the working directory when it does not start with a slash, following
    links and at most 40 of them; a path that leads above the root is refused, and the first error of
    the server on the way is reported as its errno. *)
Theorem stat_follows_path path :
  match path_components cwd path with
  | None => nfs3_stat_async user n path = leave n (-1)
  | Some [] => True
  | Some cs =>
      run srv (nfs3_stat_async user n path) =
        match leads false 0 cs with
        | Lost err => Some ([(err, Message)], n)
        | Reached fh _ _ => answered (GETATTR fh) (fun f => (Stat (to_stat f 0), n))
        end
  end.
Proof.
  destruct (path_components cwd path) as [cs|] eqn:E.
  - destruct cs as [|c cs]; [done|]. apply (run_lookup _ _ _ (Some path) _ _ E ltac:(done)). intros attr l.
    by apply (run_answered (GETATTR (l_fh l)) _ (fun f => (Stat (to_stat f 0), n))).
  - eapply lookuppath_refuses; [by apply n_settled|done].
Qed.

(** C18: unlink, rmdir and mkdir act on the last component of a path, in the directory the rest of it
    leads to, which is then dropped from the cache of directories; errors on the way and of the
    request itself are reported as their errno. *)
Theorem names_are_changed dir nm mode cs :
  name nm -> path_components cwd dir = Some cs -> cs <> [] ->
  let changes nofollow_in (q : nfs_fh -> request) :=
    match leads false nofollow_in cs with
    | Lost err => Some ([(err, Message)], n)
    | Reached fh _ _ => answered (q fh) (fun _ => (NoData, nfs_dircache_drop n fh))
    end in
  run srv (nfs3_unlink_async user n (dir ++ slash :: nm)) = changes 0 (fun fh => REMOVE fh nm) /\
  run srv (nfs3_rmdir_async user n (dir ++ slash :: nm)) = changes 0 (fun fh => RMDIR fh nm) /\
  run srv (nfs3_mkdir2_async user n (dir ++ slash :: nm) mode) =
    changes (u64 mode) (fun fh => MKDIR fh nm (with_mode (u32 (u64 mode)))).
Proof.
  intros Hnm Hp Hne changes. unfold nfs3_unlink_async, nfs3_rmdir_async, nfs3_mkdir2_async, split_new_path, changes.
  rewrite strrchr_last by done. split; [|split]; apply run_lookup; try done; intros attr l.
  - by apply (run_answered (REMOVE (l_fh l) nm) _ (fun _ => (NoData, nfs_dircache_drop n (l_fh l)))).
  - by apply (run_answered (RMDIR (l_fh l) nm) _ (fun _ => (NoData, nfs_dircache_drop n (l_fh l)))).
  - by apply (run_answered (MKDIR (l_fh l) nm _) _ (fun _ => (NoData, nfs_dircache_drop n (l_fh l)))).
Qed.
End server.

(** ** Names in the root directory *)

Lemma split_parent_slash nm : name nm -> split_parent (slash :: nm) = (Some [], nm) /\ split_parent nm = (None, nm).
Proof. intros H. unfold split_parent. by rewrite (strrchr_last [] nm H : strrchr_slash (slash :: nm) = _), strrchr_slash_none. Qed.

Lemma split_new_path_slash nm : name nm -> split_new_path (slash :: nm) = ([], nm) /\ split_new_path nm = ([], nm).
Proof. intros H. unfold split_new_path. by rewrite (strrchr_last [] nm H : strrchr_slash (slash :: nm) = _), strrchr_slash_none. Qed.

(** A name in the root directory is taken for a name in the working directory: for the
    operations that create, remove or rename a name, "/name" is the same as "name", since the
    directory part of "/name" is empty and an empty path is looked up as "." (nfs_v3.c:473). *)
Theorem root_names_are_relative cb n nm :
  name nm ->
  nfs3_unlink_async cb n (slash :: nm) = nfs3_unlink_async cb n nm /\
  nfs3_rmdir_async cb n (slash :: nm) = nfs3_rmdir_async cb n nm /\
  (forall mode, nfs3_mkdir2_async cb n (slash :: nm) mode = nfs3_mkdir2_async cb n nm mode) /\
  (forall mode major minor, nfs3_mknod_async cb n (slash :: nm) mode major minor = nfs3_mknod_async cb n nm mode major minor) /\
  (forall target, nfs3_symlink_async cb n target (slash :: nm) = nfs3_symlink_async cb n target nm) /\
  (forall old, nfs3_link_async cb n old (slash :: nm) = nfs3_link_async cb n old nm) /\
  (forall old, nfs3_rename_async cb n old (slash :: nm) = nfs3_rename_async cb n old nm) /\
  (forall new, nfs3_rename_async cb n (slash :: nm) new = nfs3_rename_async cb n nm new) /\
  (forall flags mode d, nfs3_initial_open_cb cb (slash :: nm) flags mode n (- ENOENT) d =
     nfs3_initial_open_cb cb nm flags mode n (- ENOENT) d).
Proof.
  intros H. destruct (split_parent_slash nm H) as [E1 E2]. destruct (split_new_path_slash nm H) as [E3 E4].
  unfold nfs3_unlink_async, nfs3_rmdir_async, nfs3_mkdir2_async, nfs3_mknod_async, nfs3_symlink_async, nfs3_link_async,
    nfs3_rename_async, nfs3_initial_open_cb.
  rewrite E1, E2, E3, E4. repeat split.
Qed.

(** ** Errors of open *)

(** An open never tells why it failed: whatever the server answers, what it reports is 0, EEXIST,
    ENOMEM or ERANGE, since its callbacks take the errno they are given for a status of NFSv3
    (nfs_v3.c:4854, 5014); so the error of a path that cannot be looked up becomes ERANGE. *)
Theorem open_loses_errors (srv : server) n cwd path flags mode :
  proper open_error 80 (nfs3_open_async user n path flags mode) /\
  (settled n cwd -> forall cs err, path_components cwd path = Some cs -> cs <> [] ->
   leads srv n false (u64 flags) cs = Lost err -> err < 0 ->
   (err = - EEXIST -> excl_create flags = false) -> (err = - ENOENT -> flag flags O_CREAT = false) ->
   run srv (nfs3_open_async user n path flags mode) = Some ([(- ERANGE, Message)], n)).
Proof.
  split; [apply open_proper|]. intros [H1 H2 H3] cs err Hp Hne Hl Herr Hex Hcr. unfold nfs3_open_async.
  set (cb0 := nfs3_initial_open_cb user path flags mode).
  pose proof (lookuppath_finds srv cb0 (nfs3_open_continue_internal cb0 flags) false (u64 flags) n cwd (Some path) cs
    H1 H2 H3 Hp Hne) as G.
  unfold goes_on in G. unfold leads in Hl. rewrite Hl in G. rewrite G. unfold cb0, nfs3_initial_open_cb.
  replace ((err =? - EEXIST) && excl_create flags) with false.
  2:{ destruct (Z.eqb_spec err (- EEXIST)); [by rewrite Hex|done]. }
  change (- NFS3ERR_NOENT) with (- ENOENT). replace ((err =? - ENOENT) && flag flags O_CREAT) with false.
  2:{ destruct (Z.eqb_spec err (- ENOENT)); [by rewrite Hcr|done]. }
  destruct (Z.eqb_spec err 0); [lia|]. destruct err; done || lia.
Qed.

(** ** Truncating *)

(** Whether truncate follows links depends on the length: the bit of [O_NOFOLLOW] is looked for
    in [continue_int], which is the length, so that truncating to 131072 bytes through a link fails
    with ELOOP (nfs_v3.c:336). *)
Theorem truncate_length_refuses_links (srv : server) n cwd path length c cs (fh : nfs_fh) (a : fattr3) :
  settled n cwd -> path_components cwd path = Some (c :: cs) -> 0 <= length < 2 ^ 64 ->
  flag length O_NOFOLLOW = true -> srv (LOOKUP (n_rootfh n) c) = Result NFS3_OK (fh, Some a) -> fa_type a = NF3LNK ->
  run srv (nfs3_truncate_async user n path length) = Some ([(- ELOOP, Message)], n).
Proof.
  intros [H1 H2 H3] Hp Hlen Hf Hs Ha.
  pose proof (lookuppath_finds srv user (nfs3_truncate_continue_internal user (u64 length)) false (u64 length) n cwd
    (Some path) (c :: cs) H1 H2 H3 Hp ltac:(done)) as G.
  assert (W : leads srv n false (u64 length) (c :: cs) = Lost (- ELOOP)).
  { unfold leads, MAX_LINK_COUNT. cbn [walk walk_names is_link andb followed]. rewrite Hs. cbn [outcome_of Z.eqb NFS3_OK app].
    rewrite (u64_id length) by (unfold is_u64; lia). rewrite Hf.
    destruct cs; cbn [walk_names is_link]; rewrite (eq_refl : a_type (fattr3_to_nfs_attr a) = fa_type a), Ha; reflexivity. }
  unfold leads in W. rewrite W in G. exact G.
Qed.

(** What a request that cannot be sent does: the operations on open files call the callback and
    also return -1, though an operation that fails to start does not call it (libnfs.h); truncate,
    which relies on that, then calls it a second time. *)
Theorem unsent_requests_reported_twice n h f l attr found length uid gid mode :
  n_sends n = false :: l -> n_files n !! h = Some f ->
  let failed := Call [(- ENOMEM, Message)] (set_n_sends l n) (-1) [] in
  nfs3_fstat_async user n h = failed /\ nfs3_fstat64_async user n h = failed /\ nfs3_fsync_async user n h = failed /\
  nfs3_fchown_async user n h uid gid = failed /\ nfs3_fchmod_async user n h mode = failed /\
  nfs3_ftruncate_async user n (h_fh f) length = failed /\
  nfs3_truncate_continue_internal user length n attr found =
    Call [(- ENOMEM, Message); (- ENOMEM, Message)] (set_n_sends l n) (-1) [].
Proof.
  intros Hs Hf failed.
  unfold nfs3_fstat_async, nfs3_fstat64_async, nfs3_fsync_async, nfs3_fchown_async, nfs3_fchmod_async, with_fh,
    nfs3_chown_continue_internal, nfs3_chmod_continue_internal, nfs3_truncate_continue_internal, nfs3_ftruncate_async, send.
  by rewrite Hf, Hs.
Qed.

(** ** Nested mounts *)

(** Of two nested mounts the wrong one may be taken: when a mount has matched, the mounts behind it
    in the list are compared with what is left of the path, so that a file of the mount "/a" whose
    path there is that of another mount "/b" is looked up in the export of "/b" (nfs_v3.c:536). *)
Theorem nested_mount_shadowed a b c fha fhb attra attrb root :
  a <> [] -> b <> [] -> (length (render a) <= length (render b))%nat ->
  nested_export [mkMount (render a) fha attra; mkMount (render b) fhb attrb] (render (a ++ b ++ c)) root 0 = (render c, fhb).
Proof.
  intros Ha Hb Hl.
  assert (Hm : forall x y, starts_with (render x) (render (x ++ y)) = true /\
    drop (length (render x)) (render (x ++ y)) = render y /\
    match render y with [] => true | c :: _ => c =? slash end = true).
  { intros x y. rewrite drop_render. split; [apply starts_with_spec; exists (render y); apply render_app|]. split; [done|].
    destruct (render_head y) as [->|[q ->]]; done. }
  cbn [nested_export m_path m_fh]. destruct (Hm a (b ++ c)) as (E1 & E2 & E3). rewrite E1, E2, E3.
  cbn [negb orb]. rewrite (proj2 (Nat.ltb_ge (length (render a)) 0) (Nat.le_0_l _)). cbn [orb].
  destruct (Hm b c) as (F1 & F2 & F3). rewrite F1, F2, F3. by rewrite (proj2 (Nat.ltb_ge (length (render b)) (length (render a))) Hl).
Qed.
