(* ===== verification/Nfs3IOProps.v ===== *)
(** * Nfs3IOProps: reading and writing whole ranges

    Against a server that serves a file: a read, long or short, leaves in the
    user's memory what is in the file and says how much it is; a write that the
    server takes in pieces writes every byte once, at its place. *)

From S2P Require Import Prelude Path Nfs3 Lookup LookupProps Nfs3Ops Nfs3File Nfs3IO.

(** ** Memory *)

Lemma store_app addr d1 d2 m : store addr (d1 ++ d2) m = store (addr + blen d1) d2 (store addr d1 m).
Proof.
  revert addr m. induction d1 as [|b d1 IH]; intros addr m; cbn [app store].
  - by rewrite blen_nil, Z.add_0_r.
  - rewrite IH. f_equal. rewrite blen_cons. lia.
Qed.

(** ** Reading *)

Section reads.
Context (srv : server) (h : N) (fh : nfs_fh) (content : bytes).

(** The bytes of the file from [offset] on, at most [count]. *)
Definition piece (offset count : Z) : bytes := take (Z.to_nat count) (drop (Z.to_nat offset) content).

(** A server that answers a READ with what is in the file. *)
Definition serves : Prop :=
  forall offset count, 0 <= offset -> 0 <= count -> srv (READ fh offset count) = Result NFS3_OK (blen (piece offset count), piece offset count).

Record reader (n : nfs) (f : nfsfh) : Prop := {
  re_sends : n_sends n = [];
  re_file : n_files n !! h = Some f;
  re_fh : h_fh f = fh;
  re_readmax : 0 < n_readmax n <= INT_MAX;
}.

Definition filled (n : nfs) (buf : Z) (d : bytes) : nfs := set_n_mem (store buf d (n_mem n)) n.

Lemma reader_filled n f buf d : reader n f -> reader (filled n buf d) f.
Proof. intros [H1 H2 H3 H4]. by split. Qed.

Lemma piece_length offset count : 0 <= count -> blen (piece offset count) <= count.
Proof. intros H. unfold piece, blen. rewrite length_take. lia. Qed.

Lemma piece_short offset c count : blen (piece offset c) < c -> c <= count -> piece offset count = piece offset c.
Proof.
  unfold piece, blen. rewrite length_take. intros H1 H2. rewrite !take_ge by lia. done.
Qed.

Lemma piece_split offset c count : 0 <= offset -> 0 <= c <= count -> blen (piece offset c) = c ->
  piece offset count = piece offset c ++ piece (offset + c) (count - c).
Proof.
  intros Ho Hc _. unfold piece. rewrite Z2Nat.inj_add, <- drop_drop by lia.
  replace (Z.to_nat count) with (Z.to_nat c + Z.to_nat (count - c))%nat by lia. by rewrite <- take_take_drop.
Qed.

(** What is left of a READ that is done: the bytes in memory, and the position
    after them if it is to be moved. *)
Definition read_into (up : bool) (n : nfs) (f : nfsfh) (buf offset : Z) (d : bytes) : nfs :=
  if up then put_fh (filled n buf d) h (set_h_offset (offset + blen d) f) else filled n buf d.

(** What the READ of a version of NFS promises for a context and a file that
    are [good]: at most [readmax] bytes are read as they are in the file. *)
Class Reads (good : nfs -> nfsfh -> Prop) (pread : (nfs -> Z -> payload -> call) -> nfs -> N -> Z -> Z -> Z -> bool -> call) := {
  reads_reader : forall n f, good n f -> reader n f;
  reads_filled : forall n f buf d, good n f -> good (filled n buf d) f;
  reads_run : forall cb n f buf count offset up, good n f -> 0 <= count <= n_readmax n -> 0 <= offset -> offset + count < 2 ^ 64 ->
    run srv (pread cb n h buf count offset up) =
      run srv (cb (read_into up n f buf offset (piece offset count)) (blen (piece offset count)) NoData);
  reads_sent : forall cb n f buf count offset up, good n f -> ret_of (pread cb n h buf count offset up) = Some 0
}.

Lemma reads3 : serves -> Reads reader nfs3_pread_async_internal.
Proof.
  intros srv_serves. split; [done|by apply reader_filled| |].
  - intros cb n f buf count offset up [H1 H2 H3 H4] Hc Ho Hof. unfold nfs3_pread_async_internal, with_fh. rewrite H2.
    replace (count >? n_readmax n) with false by lia. rewrite run_send by done. rewrite H3.
    rewrite u32_id by (unfold is_u32, INT_MAX in *; lia). rewrite (srv_serves offset count) by lia.
    unfold nfs3_pread_cb. rewrite run_check. cbn [outcome_of Z.eqb NFS3_OK].
    pose proof (piece_length offset count ltac:(lia)) as Hp. pose proof (blen_nonneg (piece offset count)).
    rewrite i32_id by (unfold is_i32, INT_MAX in *; lia). rewrite cut_count_id by (unfold INT_MAX in *; lia).
    unfold delivered. cbn [Z.eqb NFS3_OK]. rewrite (take_ge (piece offset count)) by (unfold blen in Hp; lia).
    unfold read_into, filled. destruct up; [|done]. unfold with_fh. cbn [n_files set_n_mem]. rewrite H2.
    by rewrite u64_id by (unfold is_u64; lia).
  - intros cb n f buf count offset up [H1 H2 H3 H4]. unfold nfs3_pread_async_internal, with_fh. rewrite H2. unfold send. by rewrite H1.
Qed.

Lemma run_after c err : ret_of c = Some 0 ->
  run srv (after c (fun n r => if negb (r =? 0) then err n else leave n 0)) = run srv c.
Proof.
  intros H. destruct c as [out n r next|]; [|done]. injection H as ->. cbn [after negb Z.eqb leave run].
  rewrite app_nil_r. by destruct next as [[q k]|].
Qed.

Section long.
Context {good : nfs -> nfsfh -> Prop} {pread : (nfs -> Z -> payload -> call) -> nfs -> N -> Z -> Z -> Z -> bool -> call} `{!Reads good pread}.

Lemma long_read fuel : forall n f rw,
  good n f -> rw_h rw = h -> 0 < rw_remaining rw <= Z.of_nat fuel -> rw_remaining rw <= rw_count rw <= INT_MAX ->
  0 <= rw_offset rw -> rw_offset rw + rw_remaining rw < 2 ^ 64 ->
  run srv (pread (r_cb pread user fuel rw) n h (rw_buf rw) (chunk n (rw_remaining rw)) (rw_offset rw) false) =
    let d := piece (rw_offset rw) (rw_remaining rw) in
    Some ([(rw_count rw - rw_remaining rw + blen d, NoData)], filled n (rw_buf rw) d).
Proof.
  induction fuel as [|fuel IH]; intros n f [h' buf count remaining offset] Hr Hh Hf Hc Ho Hof;
    cbn [rw_h rw_buf rw_count rw_remaining rw_offset] in *; [lia|]. subst h'.
  pose proof (re_readmax _ _ (reads_reader _ _ Hr)) as Hm. set (c := chunk n remaining).
  assert (Hcc : 0 <= c <= n_readmax n /\ c <= remaining /\ (c = remaining \/ c = n_readmax n)).
  { unfold c, chunk. replace (n_readmax n =? 0) with false by lia. cbn [negb andb].
    destruct (remaining >? n_readmax n) eqn:E; lia. }
  rewrite (reads_run _ n f) by (done || lia). unfold read_into.
  pose proof (piece_length offset c ltac:(lia)) as Hp. pose proof (blen_nonneg (piece offset c)) as Hp0.
  cbn [r_cb rw_h rw_buf rw_count rw_remaining rw_offset]. replace (blen (piece offset c) <? 0) with false by lia.
  replace (blen (piece offset c) >? remaining) with false by lia.
  change (n_readmax (filled n buf (piece offset c))) with (n_readmax n).
  destruct ((remaining - blen (piece offset c) =? 0) || (blen (piece offset c) <? n_readmax n)) eqn:E.
  - assert (Hd : piece offset remaining = piece offset c).
    { apply orb_true_iff in E. destruct (Z.eq_dec c remaining) as [->|Hne]; [done|]. apply piece_short; lia. }
    cbn zeta. rewrite Hd. rewrite i32_id by (unfold is_i32, INT_MAX in *; lia). cbn [run user].
    by replace (count - (remaining - blen (piece offset c))) with (count - remaining + blen (piece offset c)) by lia.
  - apply orb_false_iff in E as [E1 E2].
    assert (Hs : blen (piece offset c) = c /\ c < remaining) by lia. destruct Hs as [Hs Hlt]. rewrite Hs.
    set (n' := filled n buf (piece offset c)). pose proof (reads_filled n f buf (piece offset c) Hr) as Hr'.
    rewrite run_after by (by eapply reads_sent).
    rewrite u64_id by (unfold is_u64; lia).
    pose proof (IH n' f (mkRw h (buf + c) count (remaining - c) (offset + c)) Hr') as L.
    cbn [rw_h rw_buf rw_count rw_remaining rw_offset] in L. rewrite L by (done || lia). cbv zeta.
    rewrite (piece_split offset c remaining) by (done || lia). rewrite blen_app, Hs. f_equal. f_equal; [f_equal; f_equal; lia|].
    unfold n', filled. rewrite store_app, Hs. done.
Qed.

(** A read of any length moves the position only if it is shorter than
    [readmax]. *)
Lemma multi_reads n f buf count offset up :
  good n f -> 0 <= count <= INT_MAX -> 0 <= offset -> offset + count < 2 ^ 64 ->
  run srv (nfs_pread_multi pread user n h buf count offset up) =
    Some ([(blen (piece offset count), NoData)], read_into (up && (count <? n_readmax n)) n f buf offset (piece offset count)).
Proof.
  intros Hr Hc Ho Hof. pose proof (re_readmax _ _ (reads_reader _ _ Hr)) as Hm. unfold nfs_pread_multi.
  destruct (Z.ltb_spec count (n_readmax n)) as [Hl|Hl].
  - rewrite (reads_run user n f) by (done || lia). by rewrite andb_true_r.
  - pose proof (long_read (Z.to_nat count) n f (mkRw h buf count count offset) Hr) as L.
    cbn [rw_h rw_buf rw_count rw_remaining rw_offset] in L. rewrite L by (done || lia). cbv zeta.
    by rewrite Z.sub_diag, Z.add_0_l, andb_false_r.
Qed.
End long.
End reads.

(** ** Writing *)

(** The requests that are sent. *)
Fixpoint requests (srv : server) (c : call) : list request :=
  match c with
  | Call _ n _ (Pend q k :: _) => q :: requests srv (k n (srv q))
  | _ => []
  end.

(** How many bytes of a WRITE the server has taken. *)
Definition taken (srv : server) (q : request) : Z :=
  match q return reply (resok q) -> Z with
  | WRITE _ _ _ _ _ => fun r => match r with Result st a => if st =? NFS3_OK then a else 0 | _ => 0 end
  | _ => fun _ => 0
  end (srv q).

(** The bytes of a file after the requests: a WRITE stores what is taken of it. *)
Fixpoint written (srv : server) (qs : list request) (m : gmap Z Z) : gmap Z Z :=
  match qs with
  | [] => m
  | q :: qs =>
      written srv qs
        match q with
        | WRITE _ offset _ _ data => store offset (take (Z.to_nat (taken srv q)) data) m
        | _ => m
        end
  end.

Section writes.
Context (srv : server) (h : N).

(** A server that takes at least one byte of a WRITE that has any. *)
Definition accepts : Prop :=
  forall fh offset count stable data, 0 <= count ->
    exists a, srv (WRITE fh offset count stable data) = Result NFS3_OK a /\ a <= count /\ (count = 0 -> a = 0) /\ (0 < count -> 0 < a).

Hypothesis srv_accepts : accepts.

(** The operation is over: the count is reported, the position moved. *)
Definition write_done (n : nfs) (f : nfsfh) (offset total : Z) (update_pos : bool) : list (Z * payload) * nfs :=
  ([(total, NoData)], if update_pos then put_fh n h (set_h_offset (offset + total) f) else n).

Lemma write_finished_run n f w : n_files n !! h = Some f -> w_h w = h ->
  0 <= w_max_offset w - w_offset w <= INT_MAX ->
  run srv (write_finished user w n) =
    Some (write_done n f (w_offset w) (w_max_offset w - w_offset w) (w_update_pos w)).
Proof.
  intros Hf Hh Hm. unfold write_finished, write_done. rewrite Hh. rewrite i32_id by (unfold is_i32, INT_MAX in *; lia).
  destruct (w_update_pos w); [|done]. unfold with_fh. rewrite Hf. cbn [run user].
  by replace (w_offset w + (w_max_offset w - w_offset w)) with (w_max_offset w) by lia.
Qed.

Lemma requests_finished w n : requests srv (write_finished user w n) = [].
Proof. unfold write_finished, with_fh. destruct (w_update_pos w); [|done]. by destruct (n_files n !! w_h w). Qed.

(** What a WRITE is for: the bytes that are left of the buffer. *)
Definition remains (w : write_data) : bytes :=
  take (Z.to_nat (w_count w)) (drop (Z.to_nat (w_pos w - w_offset w)) (w_buf w)).

Record writing_at (n : nfs) (f : nfsfh) (w : write_data) : Prop := {
  wr_sends : n_sends n = [];
  wr_file : n_files n !! h = Some f;
  wr_h : w_h w = h;
  wr_count : 0 <= w_count w;
  wr_pos : 0 <= w_offset w <= w_pos w;
  wr_max : w_max_offset w = w_offset w;
  wr_end : w_pos w + w_count w < 2 ^ 64;
  wr_total : w_pos w + w_count w - w_offset w <= INT_MAX;
  wr_buf : w_pos w + w_count w - w_offset w <= blen (w_buf w);
  wr_progress : w_offset w < w_pos w -> 0 < w_count w;
}.

Lemma remains_length n f w : writing_at n f w -> blen (remains w) = w_count w.
Proof.
  intros [H1 H2 H3 H4 H5 H6 H7 H8 H9 H10]. unfold remains, blen in *. rewrite length_take, length_drop. lia.
Qed.

Lemma write_step fuel n f w refused (a : Z) : n_sends n = [] -> srv (write_request w f) = Result NFS3_OK a ->
  let c := send n (write_request w f) refused (nfs3_pwrite_mcb user fuel w) in
  run srv c = run srv (nfs3_pwrite_mcb user fuel w n (Result NFS3_OK a)) /\
  forall m, written srv (requests srv c) m =
    written srv (requests srv (nfs3_pwrite_mcb user fuel w n (Result NFS3_OK a))) (store (w_pos w) (take (Z.to_nat a) (remains w)) m).
Proof.
  intros Hs Hq c. split; [unfold c; rewrite run_send by done; by rewrite Hq|]. intros m.
  unfold c, send. rewrite Hs. cbn [requests]. rewrite Hq. cbn [written].
  assert (Ht : taken srv (write_request w f) = a) by (unfold taken, write_request, nfs3_fill_WRITE3args in *; by rewrite Hq).
  rewrite Ht. done.
Qed.

(** The WRITE that is left when [a] bytes have been taken. *)
Definition rest (w : write_data) (a : Z) : write_data :=
  mkWrite (w_h w) (w_buf w) (w_offset w) (w_max_offset w) (w_pos w + a) (w_count w - a) (w_update_pos w).

Lemma remains_split w a : 0 <= a <= w_count w -> 0 <= w_offset w <= w_pos w ->
  remains w = take (Z.to_nat a) (remains w) ++ remains (rest w a).
Proof.
  intros Ha Hp. unfold remains, rest. cbn [w_pos w_offset w_count w_buf].
  rewrite take_take, Nat.min_l by lia.
  replace (Z.to_nat (w_count w)) with (Z.to_nat a + Z.to_nat (w_count w - a))%nat at 1 by lia.
  replace (Z.to_nat (w_pos w + a - w_offset w)) with (Z.to_nat (w_pos w - w_offset w) + Z.to_nat a)%nat by lia.
  by rewrite <- drop_drop, <- take_take_drop.
Qed.

Lemma write_last fuel n f w :
  writing_at n f w ->
  let c := nfs3_pwrite_mcb user fuel w n (Result NFS3_OK (w_count w)) in
  run srv c = Some (write_done n f (w_offset w) (w_pos w + w_count w - w_offset w) (w_update_pos w)) /\ requests srv c = [].
Proof.
  intros [H1 H2 H3 H4 H5 H6 H7 H8 H9 H10]. destruct fuel; cbn [nfs3_pwrite_mcb negb Z.eqb NFS3_OK].
  all: rewrite Z.ltb_irrefl; set (w' := mkWrite _ _ _ _ _ _ _).
  all: assert (Hm : w_max_offset w' = w_pos w + w_count w) by
    (unfold w'; cbn [w_max_offset]; rewrite u64_id by (unfold is_u64; lia);
     destruct (w_count w >? 0) eqn:E; [|lia]; destruct (w_max_offset w <? w_pos w + w_count w) eqn:E'; lia).
  all: assert (Hi : 0 <= w_max_offset w' - w_offset w' <= INT_MAX) by (rewrite Hm; unfold w'; cbn [w_offset]; lia).
  all: split; [|apply requests_finished]; rewrite (write_finished_run n f w' H2 H3 Hi); by rewrite Hm.
Qed.

Lemma write_more fuel n f w a : n_files n !! h = Some f -> w_h w = h -> 0 < a < w_count w ->
  0 <= w_pos w -> w_pos w + w_count w < 2 ^ 64 ->
  nfs3_pwrite_mcb user (S fuel) w n (Result NFS3_OK a) =
    send n (write_request (rest w a) f) (fun n => user n (- ENOMEM) Message) (nfs3_pwrite_mcb user fuel (rest w a)).
Proof.
  intros Hf Hh Ha Hp He. cbn [nfs3_pwrite_mcb negb Z.eqb NFS3_OK]. replace (a <? w_count w) with true by lia.
  replace (a =? 0) with false by lia. rewrite u64_id by (unfold is_u64; lia). unfold with_fh. cbn [w_h].
  fold (rest w a). by rewrite Hh, Hf.
Qed.

Lemma rest_writing n f w a : writing_at n f w -> 0 < a < w_count w -> writing_at n f (rest w a).
Proof.
  intros [H1 H2 H3 H4 H5 H6 H7 H8 H9 H10] Ha. split; cbn [rest w_h w_buf w_offset w_max_offset w_pos w_count]; done || lia.
Qed.

(** The whole of what a WRITE is for gets written, in as many pieces as the server likes. *)
Lemma write_run fuel : forall n f w refused,
  writing_at n f w -> w_count w <= Z.of_nat fuel ->
  let c := send n (write_request w f) refused (nfs3_pwrite_mcb user fuel w) in
  run srv c = Some (write_done n f (w_offset w) (w_pos w + w_count w - w_offset w) (w_update_pos w)) /\
  forall m, written srv (requests srv c) m = store (w_pos w) (remains w) m.
Proof.
  induction fuel as [|fuel IH]; intros n f w refused Hw Hfu c; pose proof Hw as [H1 H2 H3 H4 H5 H6 H7 H8 H9 H10].
  all: destruct (srv_accepts (h_fh f) (w_pos w) (u32 (w_count w)) (if h_sync f then FILE_SYNC else UNSTABLE) (remains w))
    as (a & Ha & Hac & Ha0 & Ha1); [apply u32_range|].
  all: assert (Hu : u32 (w_count w) = w_count w) by (apply u32_id; unfold is_u32, INT_MAX in *; lia); rewrite Hu in *.
  all: assert (Hq : srv (write_request w f) = Result NFS3_OK a) by
    (unfold write_request, nfs3_fill_WRITE3args; rewrite Hu; exact Ha).
  1: destruct (write_step O n f w refused a H1 Hq) as [E1 E2].
  2: destruct (write_step (S fuel) n f w refused a H1 Hq) as [E1 E2].
  all: unfold c; rewrite E1.
  all: pose proof (remains_length _ _ _ Hw) as Hl.
  all: destruct (Z.eq_dec a (w_count w)) as [->|Hne]; [|try lia].
  1: destruct (write_last O n f w Hw) as [L1 L2].
  2: destruct (write_last (S fuel) n f w Hw) as [L1 L2].
  1,2: split; [exact L1|]; intros m; rewrite E2, L2; cbn [written];
    rewrite take_ge; [done|unfold blen in Hl; lia].
  rewrite (write_more fuel n f w a) by (done || lia).
  destruct (IH n f (rest w a) (fun n => user n (- ENOMEM) Message) (rest_writing _ _ _ a Hw ltac:(lia))) as [I1 I2];
    [cbn; lia|].
  split.
  - rewrite I1. cbn [rest w_offset w_pos w_count w_update_pos]. do 2 f_equal. lia.
  - intros m. rewrite E2, (write_more fuel n f w a) by (done || lia). rewrite I2.
    rewrite (remains_split w a) at 2 by lia. rewrite store_app. cbn [rest w_pos]. do 2 f_equal.
    unfold blen in *. rewrite length_take. lia.
Qed.

(** C16: a write of at most [writemax] bytes writes them all, each once and at its place, however few
    bytes the server takes at a time; it reports their number and moves the position of the
    file behind them when it is asked to. *)
Theorem pwrite_writes_all n f buf count offset update_pos :
  n_sends n = [] -> n_files n !! h = Some f ->
  0 <= count <= n_writemax n -> n_writemax n <= INT_MAX -> count <= blen buf -> 0 <= offset -> offset + count < 2 ^ 64 ->
  let c := nfs3_pwrite_async_internal user n h buf count offset update_pos in
  run srv c = Some (write_done (put_fh n h (set_h_dirty f)) (set_h_dirty f) offset count update_pos) /\
  forall m, written srv (requests srv c) m = store offset (take (Z.to_nat count) buf) m.
Proof.
  intros Hs Hf Hc Hm Hb Ho Hof. unfold nfs3_pwrite_async_internal, with_fh. rewrite Hf.
  change (n_writemax (put_fh n h _)) with (n_writemax n). replace (count >? n_writemax n) with false by lia.
  replace (count >? n_writemax n) with false by lia.
  set (w := mkWrite h buf offset offset offset count update_pos).
  change (write_request w f) with (write_request w (set_h_dirty f)).
  assert (Hw : writing_at (put_fh n h (set_h_dirty f)) (set_h_dirty f) w).
  { unfold w. split; cbn [w_h w_buf w_offset w_max_offset w_pos w_count]; try done; try lia.
    unfold put_fh, set_n_files. cbn [n_files]. by rewrite lookup_insert_eq. }
  destruct (write_run (Z.to_nat count) _ _ w (fun n => leave n (-1)) Hw) as [R1 R2]; [cbn; lia|].
  split; [rewrite R1; cbn [w w_offset w_pos w_count w_update_pos]; do 2 f_equal; lia|].
  intros m. rewrite R2. cbn [w w_pos]. unfold remains. cbn [w w_pos w_offset w_count w_buf].
  by rewrite Z.sub_diag.
Qed.
End writes.
