(* ===== verification/Nfs3Examples.v ===== *)
(** * Nfs3Examples: the theorems about NFSv3 at work

    A server with a file "f" (handle 1), a link "l" to it (2) and a directory "d" (3) in its
    root (0), and a context that has it mounted. *)

From S2P Require Import Prelude Path Nfs4Data Settings Nfs3 Lookup LookupProps Nfs3Ops Nfs3File Nfs3IO Nfs3Props Nfs3IOProps.

Definition name_f : bytes := [102].
Definition name_l : bytes := [108].
Definition name_d : bytes := [100].
Definition contents : bytes := [104; 101; 108; 108; 111].

Definition attributes (type : Z) : fattr3 :=
  mkFattr type 420 1 0 0 5 512 (0, 0) 1 7 (mkTime 0 0) (mkTime 0 0) (mkTime 0 0).

(** It takes three bytes of a WRITE at a time, and has no handles for new files. *)
Definition answers (q : request) : reply (resok q) :=
  match q return reply (resok q) with
  | GETATTR _ => Result 0 (attributes NF3REG)
  | LOOKUP _ nm =>
      if beq nm name_f then Result 0 ([1], Some (attributes NF3REG))
      else if beq nm name_l then Result 0 ([2], Some (attributes NF3LNK))
      else if beq nm name_d then Result 0 ([3], Some (attributes NF3DIR))
      else Result 2 ([], None)
  | ACCESS _ access => Result 0 access
  | READLINK _ => Result 0 name_f
  | READ _ offset count => Result 0 (blen (piece contents offset count), piece contents offset count)
  | WRITE _ _ count _ _ => Result 0 (Z.min count 3)
  | CREATE _ _ _ _ => Result 0 None
  | FSSTAT _ => Result 0 (mkFsstat 0 0 0 0 0 0)
  | READDIR _ _ _ _ => Result 0 (mkReaddir None [] [] true)
  | READDIRPLUS _ _ _ _ _ => Result 0 (mkReaddir None [] [] true)
  | FSINFO _ => Result 0 (mkFsinfo 8 8 8)
  | MOUNT_MNT _ => Result 0 [0]
  | MOUNT_EXPORT => Result 0 []
  | PMAP2_GETPORT _ _ _ => Result 0 2049
  | PMAP3_GETADDR _ _ => Result 0 None
  | COMPOUND _ => Result 0 []
  | _ => Result 0 tt
  end.
Definition files : server := mkServer answers (fun _ => O).

Definition opened : nfsfh := mkFh [1] false false false false 0.
Definition mounted : nfs :=
  mkNfs (set_c_readmax 4 (set_c_writemax 8 (init_settings 0 0))) [47] [47; 100] [0] [] [] {[ 5%N := opened ]} 6 ∅ no_nfs4 [].

Lemma mounted_settled : settled mounted [name_d].
Proof.
  split; [reflexivity|reflexivity|]. change (n_cwd mounted) with (render [name_d]).
  apply spells_names; [discriminate|]. apply Forall_cons. split; [|apply Forall_nil_2].
  split; [apply (bool_decide_eq_true_1 (slash ∉ name_d)); reflexivity|]. repeat split; discriminate.
Qed.

Lemma name_f_name : name name_f.
Proof. apply (bool_decide_eq_true_1 (slash ∉ name_f)). reflexivity. Qed.

Lemma mounted_reader : reader 5%N [1] mounted opened.
Proof. split; [reflexivity|reflexivity|reflexivity|vm_compute; split; [reflexivity|discriminate]]. Qed.

Lemma files_serves : serves files [1] contents.
Proof. intros offset count _ _. reflexivity. Qed.

Lemma files_accepts : accepts files.
Proof. intros fh offset count stable data H. exists (Z.min count 3). split; [reflexivity|lia]. Qed.

(** "/l" leads to "f". *)
Lemma stat_follows_path_witness :
  run files (nfs3_stat_async user mounted (slash :: name_l)) =
    Some ([(0, Stat (to_stat (attributes NF3REG) 0))], mounted).
Proof. exact (stat_follows_path files mounted [name_d] mounted_settled (slash :: name_l)). Defined.

(** "d/f" in the working directory "/d". *)
Lemma names_are_changed_witness :
  run files (nfs3_unlink_async user mounted (name_d ++ slash :: name_f)) = Some ([(0, NoData)], mounted).
Proof.
  exact (proj1 (names_are_changed files mounted [name_d] mounted_settled name_d name_f 0 [name_d; name_d]
    name_f_name eq_refl ltac:(discriminate))).
Defined.

Lemma root_names_are_relative_witness :
  nfs3_unlink_async user mounted (slash :: name_f) = nfs3_unlink_async user mounted name_f.
Proof. exact (proj1 (root_names_are_relative user mounted name_f name_f_name)). Defined.

(** "/x" is not there. *)
Lemma open_loses_errors_witness :
  run files (nfs3_open_async user mounted [47; 120] O_RDWR 0) = Some ([(- ERANGE, Message)], mounted).
Proof.
  exact (proj2 (open_loses_errors files mounted [name_d] [47; 120] O_RDWR 0) mounted_settled [[120]] (- ENOENT)
    eq_refl ltac:(discriminate) eq_refl ltac:(reflexivity) (fun _ => eq_refl) (fun _ => eq_refl)).
Defined.

Lemma truncate_length_refuses_links_witness :
  run files (nfs3_truncate_async user mounted (slash :: name_l) 131072) = Some ([(- ELOOP, Message)], mounted).
Proof.
  exact (truncate_length_refuses_links files mounted [name_d] (slash :: name_l) 131072 name_l [] [2] (attributes NF3LNK)
    mounted_settled eq_refl ltac:(split; [discriminate|reflexivity]) eq_refl eq_refl eq_refl).
Defined.

Lemma unsent_requests_reported_twice_witness :
  nfs3_truncate_continue_internal user 0 (set_n_sends [false] mounted) None (mkFound [1] []) =
    Call [(- ENOMEM, Message); (- ENOMEM, Message)] (set_n_sends [] mounted) (-1) [].
Proof.
  exact (proj2 (proj2 (proj2 (proj2 (proj2 (proj2
    (unsent_requests_reported_twice (set_n_sends [false] mounted) 5%N opened [] None (mkFound [1] []) 0 0 0 0
      eq_refl eq_refl))))))).
Defined.

(** Mounts "/d" and "/f"; "/d/f/l" is looked up as "/l" of the second. *)
Lemma nested_mount_shadowed_witness :
  nested_export [mkMount (render [name_d]) [3] zero_attr; mkMount (render [name_f]) [1] zero_attr]
    (render [name_d; name_f; name_l]) [0] 0 = (render [name_l], [1]).
Proof.
  exact (nested_mount_shadowed [name_d] [name_f] [name_l] [3] [1] zero_attr zero_attr [0]
    ltac:(discriminate) ltac:(discriminate) (le_n _)).
Defined.

(** Five bytes in pieces of three and two. *)
Lemma pwrite_writes_all_witness :
  let c := nfs3_pwrite_async_internal user mounted 5 contents 5 100 true in
  run files c = Some (write_done 5 (put_fh mounted 5 (set_h_dirty opened)) (set_h_dirty opened) 100 5 true) /\
  written files (requests files c) ∅ = store 100 contents ∅.
Proof.
  destruct (pwrite_writes_all files 5 files_accepts mounted opened contents 5 100 true) as [H1 H2].
  - reflexivity.
  - reflexivity.
  - vm_compute. split; discriminate.
  - vm_compute. discriminate.
  - vm_compute. discriminate.
  - discriminate.
  - reflexivity.
  - split; [exact H1|exact (H2 ∅)].
Defined.
