(* ===== verification/Nfs3Dir.v ===== *)
(** * Nfs3Dir: reading directories (lib/nfs_v3.c, lib/libnfs.c)

    [nfs3_opendir_async] reads a whole directory: with READDIRPLUS, or READDIR
    for a server that has none, page after page until the server says that it
    was the last.  Entries that come without attributes are looked up, all at
    once; the answers may come in any order, and the last one ends the
    operation.  Entries are put at the front of a list, so that
    [nfs_readdir] returns them last one first.

    How many pages there are is up to the server: [pages] are those that may
    still be read, and a call that needs more is [Undef]. *)

From S2P Require Import Prelude Path Settings Nfs3 Lookup Nfs3Ops.

Definition NFS3ERR_NOTSUPP : Z := 10004.

(** [calloc]: an entry without attributes has type 0. *)
Definition no_dirent_attr : dirent_attr :=
  mkDirentAttr 0 0 0 (mkTime 0 0) (mkTime 0 0) (mkTime 0 0) 0 0 0 0 0 0 0 0.

Definition dirent_attr_of (a : nfs_attr) : dirent_attr :=
  mkDirentAttr (a_type a) (Z.lor (a_mode a) (type_mode (a_type a))) (a_size a) (a_atime a) (a_mtime a) (a_ctime a)
    (a_uid a) (a_gid a) (a_nlink a) (a_fsid a) (specdata3_to_rdev (a_rdev a)) NFS_BLKSIZE (u64 (a_used a + 512 - 1) / 512) (a_used a).

Definition set_e_attr (x : dirent_attr) (e : nfsdirent) : nfsdirent := mkDirent (e_name e) (e_inode e) x.
Definition set_d_fh (x : nfs_fh) (d : nfsdir) : nfsdir := mkDir x (d_attr d) (d_entries d) (d_current d).
Definition set_d_attr (x : nfs_attr) (d : nfsdir) : nfsdir := mkDir (d_fh d) x (d_entries d) (d_current d).
Definition set_d_entries (x : list nfsdirent) (d : nfsdir) : nfsdir := mkDir (d_fh d) (d_attr d) x (d_current d).
Definition set_d_current (x : nat) (d : nfsdir) : nfsdir := mkDir (d_fh d) (d_attr d) (d_entries d) x.

(** [calloc] *)
Definition no_dir : nfsdir := mkDir [] zero_attr [] 0.

(** [dirent->next = entries; entries = dirent] *)
Definition push_entry (e : nfsdirent) (d : nfsdir) : nfsdir := set_d_entries (e :: d_entries d) d.

Section opendir.
Context (cb : nfs -> Z -> payload -> call) (fh : nfs_fh) (saved_path : bytes).

(** ** Missing attributes *)

(** [struct rdpe_cb_data]: the lookups in flight, and whether one failed. *)
Record rdpe_cb_data := mkRdpe { getattrcount : nat; rdpe_failed : bool; rdpe_dir : nfsdir }.

(** The callback of the lookup of entry [i]; a status of the server other than
    [NFS3_OK] and a result without attributes change nothing. *)
Definition nfs3_opendir_3_cb (i : nat) (x : rdpe_cb_data) (r : reply (nfs_fh * option fattr3)) : rdpe_cb_data :=
  let count := (getattrcount x - 1)%nat in
  match r with
  | RpcError => mkRdpe count true (rdpe_dir x)
  | RpcCancel => mkRdpe count true (rdpe_dir x)
  | RpcTimeout => mkRdpe count true (rdpe_dir x)
  | Result st (_, Some f) =>
      if st =? NFS3_OK then
        let d := rdpe_dir x in
        mkRdpe count (rdpe_failed x) (set_d_entries (alter (set_e_attr (dirent_attr_of (fattr3_to_nfs_attr f))) i (d_entries d)) d)
      else mkRdpe count (rdpe_failed x) (rdpe_dir x)
  | Result _ (_, None) => mkRdpe count (rdpe_failed x) (rdpe_dir x)
  end.

(** [getattrcount == 0] *)
Definition rdpe_finish (x : rdpe_cb_data) (n : nfs) : call :=
  if rdpe_failed x then cb n (- ENOMEM) Message else cb n 0 (Directory (rdpe_dir x)).

(** The lookups [l] are in flight: entries with their names. *)
Definition lookups_in_flight (l : list (nat * bytes)) (x : rdpe_cb_data) : list pending :=
  flight (fun item => LOOKUP fh item.2) (fun item n x r => (n, nfs3_opendir_3_cb item.1 x r))
    (fun x => (getattrcount x =? 0)%nat) rdpe_finish (length l) l x.

(** The loop over the entries from the [i]th: those whose lookup is queued. *)
Fixpoint send_lookups (n : nfs) (i : nat) (es : list nfsdirent) : nfs * list (nat * bytes) :=
  match es with
  | [] => (n, [])
  | e :: es =>
      if negb (e_type (e_attr e) =? 0) then send_lookups n (S i) es
      else
        match n_sends n with
        | false :: l => send_lookups (set_n_sends l n) (S i) es
        | _ =>
            let '(n, l) := send_lookups (set_n_sends (tl (n_sends n)) n) (S i) es in
            (n, (i, e_name e) :: l)
        end
  end.

(** [lookup_missing_attributes], and what its callers do when it returns 0. *)
Definition lookup_missing_attributes (n : nfs) (d : nfsdir) : call :=
  let '(n, l) := send_lookups n 0 (d_entries d) in
  if bool_decide (l = []) then cb n 0 (Directory d)
  else Call [] n 0 (lookups_in_flight l (mkRdpe (length l) false d)).

(** The last page: the attributes of the directory are kept. *)
Definition all_read (n : nfs) (d : nfsdir) (dir_attributes : option fattr3) : call :=
  let d := match dir_attributes with Some f => set_d_attr (fattr3_to_nfs_attr f) d | None => d end in
  lookup_missing_attributes n (set_d_current 0 d).

(** ** Pages *)

(** The cookie of the last entry, or 0. *)
Definition last_cookie (es : list entry3) : Z := match last es with Some e => r_cookie e | None => 0 end.

Fixpoint nfs3_opendir_2_cb (pages : nat) (d : nfsdir) (n : nfs) (r : reply READDIR3resok) : call :=
  match pages with
  | O => Undef
  | S pages =>
      check_result cb n r (fun res =>
        let d := fold_left (fun d e => push_entry (mkDirent (r_name e) (r_fileid e) no_dirent_attr) d) (rd_entries res) d in
        if negb (rd_eof res) then
          send n (READDIR fh (last_cookie (rd_entries res)) (rd_cookieverf res) (c_readdir_dircount (n_conf n)))
            (fun n => cb n (- ENOMEM) Message) (nfs3_opendir_2_cb pages d)
        else all_read n d (rd_dir_attributes res))
  end.

(** The attributes of the mount whose path is that of an entry: the first
    [splen] bytes of both paths are the same. *)
Fixpoint nested_attr (mnts : list nested_mount) (name : bytes) : option nfs_attr :=
  match mnts with
  | [] => None
  | mnt :: mnts =>
      let splen := if (length saved_path =? 1)%nat then O else length saved_path in
      if starts_with (take splen saved_path) (m_path mnt) && beq (drop splen (m_path mnt)) (slash :: name)
      then Some (m_attr mnt) else nested_attr mnts name
  end.

(** [nfsdirent] for an entry of READDIRPLUS. *)
Definition dirent_of (mnts : list nested_mount) (e : entry3) : nfsdirent :=
  let attr := match r_attributes e with Some f => Some (fattr3_to_nfs_attr f) | None => nested_attr mnts (r_name e) end in
  mkDirent (r_name e) (r_fileid e) (match attr with Some a => dirent_attr_of a | None => no_dirent_attr end).

Definition readdirplus (n : nfs) (cookie : Z) (cookieverf : bytes) : request :=
  READDIRPLUS fh cookie cookieverf (c_readdir_dircount (n_conf n)) (c_readdir_maxcount (n_conf n)).

Definition zero_verf : bytes := replicate 8 0.

Fixpoint nfs3_opendir_cb (pages : nat) (d : nfsdir) (n : nfs) (r : reply READDIRPLUS3resok) : call :=
  match pages with
  | O => Undef
  | S pages =>
      check_nfs3_error cb n r (fun st res =>
        if st =? NFS3ERR_NOTSUPP then
          send n (READDIR fh 0 zero_verf (c_readdir_dircount (n_conf n)))
            (fun n => cb n (- ENOMEM) Message) (nfs3_opendir_2_cb pages d)
        else if negb (st =? NFS3_OK) then cb n (nfsstat3_to_errno st) Message
        else
          let d := fold_left (fun d e => push_entry (dirent_of (n_nested_mounts n) e) d) (rd_entries res) d in
          if negb (rd_eof res) then
            send n (readdirplus n (last_cookie (rd_entries res)) (rd_cookieverf res))
              (fun n => cb n (- ENOMEM) Message) (nfs3_opendir_cb pages d)
          else all_read n d (rd_dir_attributes res))
  end.

End opendir.

(** A directory of the cache is used again when its time of modification is
    that of the attributes found by the lookup. *)
Definition fresh (attr : option nfs_attr) (cached : nfsdir) : bool :=
  match attr with
  | Some a =>
      (seconds (a_mtime a) =? seconds (a_mtime (d_attr cached))) && (nseconds (a_mtime a) =? nseconds (a_mtime (d_attr cached)))
  | None => false
  end.

Definition nfs3_opendir_continue_internal cb (pages : nat) (n : nfs) (attr : option nfs_attr) (l : found) : call :=
  let '(n, cached) := nfs_dircache_find n (l_fh l) in
  let read n :=
    send n (readdirplus (l_fh l) n 0 zero_verf) (not_sent cb)
      (nfs3_opendir_cb cb (l_fh l) (l_path l) pages (set_d_fh (l_fh l) no_dir)) in
  match cached with
  | Some cached =>
      if fresh attr cached then returning 0 (cb n 0 (Directory (set_d_current 0 cached)))
      else read n
  | None => read n
  end.

Definition nfs3_opendir_async cb (pages : nat) (n : nfs) (path : bytes) : call :=
  let c := nfs3_lookuppath_async cb (nfs3_opendir_continue_internal cb pages) false 0 n (Some path) in
  after c (fun n r => leave n (if negb (r =? 0) then -1 else 0)).

(** ** Using a directory (lib/libnfs.c) *)

(** The entry that is next, or NULL. *)
Definition nfs_readdir (d : nfsdir) : nfsdir * option nfsdirent :=
  match d_entries d !! d_current d with
  | Some e => (set_d_current (S (d_current d)) d, Some e)
  | None => (d, None)
  end.

(** There is no entry to be found once all have been passed. *)
Definition nfs_telldir (d : nfsdir) : Z :=
  if (d_current d <? length (d_entries d))%nat then Z.of_nat (d_current d) else -1.

Definition nfs_seekdir (d : nfsdir) (loc : Z) : nfsdir :=
  if loc <? 0 then d else set_d_current (Nat.min (Z.to_nat loc) (length (d_entries d))) d.

Definition nfs_rewinddir (d : nfsdir) : nfsdir := set_d_current 0 d.

(** The directory is kept in the cache, or freed. *)
Definition nfs_closedir (n : nfs) (d : nfsdir) : nfs :=
  if negb (c_dircache_enabled (n_conf n) =? 0) then nfs_dircache_add n d else n.
