(* ===== verification/Nfs3DirProps.v ===== *)
(** * Nfs3DirProps: what opening a directory does

    The attributes that are missing are those the server gives, in whatever
    order its answers come; and against a server that serves a directory in
    pages of any size, an open lists it, last entry first. *)

From S2P Require Import Prelude Path Settings Nfs3 Lookup LookupProps Nfs3Ops Nfs3Props Nfs3Dir.

Section missing.
Context (srv : server) (fh : nfs_fh).

(** What the answer to its lookup makes of an entry. *)
Definition looked_with (r : reply (nfs_fh * option fattr3)) (e : nfsdirent) : nfsdirent :=
  match r with
  | Result st (_, Some f) => if st =? NFS3_OK then set_e_attr (dirent_attr_of (fattr3_to_nfs_attr f)) e else e
  | _ => e
  end.
Definition looked_up (e : nfsdirent) : nfsdirent := looked_with (srv (LOOKUP fh (e_name e))) e.

Definition fails (r : reply (nfs_fh * option fattr3)) : bool := match r with Result _ _ => false | _ => true end.
Definition lookup_fails (name : bytes) : bool := fails (srv (LOOKUP fh name)).

Lemma opendir_3_cb_spec i x r :
  nfs3_opendir_3_cb i x r =
    mkRdpe (getattrcount x - 1) (rdpe_failed x || fails r)
      (set_d_entries (alter (looked_with r) i (d_entries (rdpe_dir x))) (rdpe_dir x)).
Proof.
  assert (I : forall l : list nfsdirent, alter (fun e => e) i l = l) by (intros; by apply list_alter_id).
  destruct x as [c f [dfh a es cur]], r as [| | |st [fh' [at'|]]]; unfold nfs3_opendir_3_cb, set_d_entries, looked_with;
    cbn [getattrcount rdpe_failed rdpe_dir d_fh d_attr d_entries d_current fails].
  1-3: rewrite I; by destruct f.
  - rewrite orb_false_r. destruct (st =? NFS3_OK); [done|]. by rewrite I.
  - by rewrite orb_false_r, I.
Qed.

(** Every lookup of [l] done. *)
Definition filled (l : list (nat * bytes)) (es : list nfsdirent) : list nfsdirent := at_all looked_up l.*1 es.

Definition verdict (failed : bool) (d : nfsdir) : Z * payload := if failed then (- ENOMEM, Message) else (0, Directory d).

Definition items_ok (l : list (nat * bytes)) (es : list nfsdirent) : Prop :=
  NoDup l.*1 /\ forall i nm, (i, nm) ∈ l -> exists e, es !! i = Some e /\ e_name e = nm.

Lemma looked_with_name r e : e_name (looked_with r e) = e_name e.
Proof. destruct r as [| | |st [fh' [at'|]]]; try done. cbn. by destruct (st =? NFS3_OK). Qed.

Lemma filled_step l j i nm es : items_ok l es -> l !! j = Some (i, nm) ->
  filled (delete j l) (alter (looked_with (srv (LOOKUP fh nm))) i es) = filled l es.
Proof.
  intros [Hnd Hi] Hj. unfold filled. rewrite list_fmap_delete. apply at_all_step; [done|by rewrite list_lookup_fmap, Hj|].
  intros e He. destruct (Hi i nm) as (e' & He' & <-); [by eapply list_elem_of_lookup_2|]. by simplify_eq.
Qed.

Lemma items_ok_delete l j i nm r es : items_ok l es -> l !! j = Some (i, nm) -> items_ok (delete j l) (alter (looked_with r) i es).
Proof.
  intros [Hnd Hi] Hj. pose proof (delete_Permutation l j _ Hj) as Hp. split.
  - assert (Hp1 : l.*1 ≡ₚ i :: (delete j l).*1) by (rewrite Hp at 1; done). rewrite Hp1 in Hnd. by apply NoDup_cons in Hnd as [_ ?].
  - intros k nm' Hk. destruct (Hi k nm') as (e & He & Hne); [rewrite Hp; by apply list_elem_of_further|].
    destruct (decide (i = k)) as [<-|Hn].
    + exists (looked_with r e). rewrite list_lookup_alter_eq, He. split; [done|]. by rewrite looked_with_name.
    + exists e. by rewrite list_lookup_alter_ne.
Qed.

Lemma existsb_delete {A} (f : A -> bool) l : forall j x, l !! j = Some x -> existsb f l = f x || existsb f (delete j l).
Proof.
  induction l as [|y l IH]; intros [|j] x Hj; try done; [by injection Hj as ->|]. cbn. rewrite (IH j x Hj).
  by destruct (f y), (f x).
Qed.

Lemma filled_nil es : filled [] es = es.
Proof. apply at_all_nil. Qed.

(** What is found out while the lookups [l] are in flight does not depend on
    which of them are done. *)
Lemma lookups_run n l x : l <> [] -> getattrcount x = length l -> items_ok l (d_entries (rdpe_dir x)) ->
  run srv (Call [] n 0 (lookups_in_flight user fh l x)) =
    Some ([verdict (rdpe_failed x || existsb (fun it => lookup_fails it.2) l)
             (set_d_entries (filled l (d_entries (rdpe_dir x))) (rdpe_dir x))], n).
Proof.
  intros Hne Hc Hi. match goal with |- _ = ?r => remember r as res eqn:Hres end.
  apply (flight_run srv _ _ _ _ (fun l n' x => n' = n /\ getattrcount x = length l /\ items_ok l (d_entries (rdpe_dir x)) /\
    Some ([verdict (rdpe_failed x || existsb (fun it => lookup_fails it.2) l)
             (set_d_entries (filled l (d_entries (rdpe_dir x))) (rdpe_dir x))], n) = res) (fun r => r = res)); [|done|done|done].
  clear l x Hne Hc Hi Hres. intros l n' x j [i nm] (-> & Hc & Hi & Hr) Hj. cbn [fst snd].
  set (r := srv (LOOKUP fh nm)). rewrite opendir_3_cb_spec, Hc. cbn [getattrcount rdpe_failed rdpe_dir].
  assert (Hl' : length (delete j l) = (length l - 1)%nat) by (rewrite length_delete by (by eexists); lia).
  rewrite <- Hl'. rewrite (existsb_delete _ l j _ Hj) in Hr. cbn [snd] in Hr. unfold lookup_fails at 1 in Hr.
  rewrite <- (filled_step _ _ _ _ _ Hi Hj) in Hr. fold r in Hr. pose proof (items_ok_delete _ _ _ _ r _ Hi Hj) as Hi'.
  destruct (delete j l) as [|it l'] eqn:Ed; [rewrite bool_decide_true by done|rewrite bool_decide_false by done].
  - split; [done|]. rewrite filled_nil in Hr. cbn [existsb] in Hr. rewrite orb_false_r in Hr. rewrite <- Hr.
    unfold rdpe_finish. cbn [rdpe_failed rdpe_dir]. by destruct (rdpe_failed x || fails r).
  - split; [done|]. split; [done|]. split; [done|]. split; [done|]. rewrite <- Hr. by rewrite orb_assoc.
Qed.

(** The entries to be looked up, from the [i]th. *)
Definition lacks (e : nfsdirent) : bool := e_type (e_attr e) =? 0.

Fixpoint missing (i : nat) (es : list nfsdirent) : list (nat * bytes) :=
  match es with
  | [] => []
  | e :: es => if lacks e then (i, e_name e) :: missing (S i) es else missing (S i) es
  end.

Lemma send_lookups_queued n es : n_sends n = [] -> forall i, send_lookups n i es = (n, missing i es).
Proof.
  intros Hn. assert (E : set_n_sends (tl (n_sends n)) n = n) by (destruct n; cbn in *; by subst).
  induction es as [|e es IH]; intros i; [done|]. cbn [send_lookups missing]. unfold lacks.
  destruct (e_type (e_attr e) =? 0); cbn [negb]; [|apply IH]. rewrite Hn. rewrite Hn in E. by rewrite E, IH.
Qed.

Lemma missing_spec es : forall i k nm, (k, nm) ∈ missing i es <->
  exists j e, k = (i + j)%nat /\ es !! j = Some e /\ lacks e = true /\ e_name e = nm.
Proof.
  induction es as [|e es IH]; intros i k nm; cbn [missing].
  - split; [intros H; by apply not_elem_of_nil in H|]. intros (j & e & _ & H & _). by destruct j.
  - assert (R : (exists j e', k = (S i + j)%nat /\ es !! j = Some e' /\ lacks e' = true /\ e_name e' = nm) <->
      exists j e', k = (i + S j)%nat /\ es !! j = Some e' /\ lacks e' = true /\ e_name e' = nm).
    { split; intros (j & e' & -> & H); exists j, e'; (split; [lia|done]). }
    destruct (lacks e) eqn:L; [rewrite elem_of_cons|]; rewrite IH, R; split.
    + intros [E|(j & e' & H)]; [injection E as -> ->; exists O, e; split; [lia|done]|by exists (S j), e'].
    + intros ([|j] & e' & -> & H1 & H2 & H3); [left; injection H1 as ->; rewrite H3; f_equal; lia|right; by exists j, e'].
    + intros (j & e' & H). by exists (S j), e'.
    + intros ([|j] & e' & -> & H1 & H2 & H3); [injection H1 as ->; congruence|by exists j, e'].
Qed.

Lemma missing_ok es i : i = O -> items_ok (missing i es) es.
Proof.
  intros ->. split.
  - generalize O. induction es as [|e es IH]; intros i; cbn [missing]; [constructor|]. destruct (lacks e); [|apply IH].
    constructor; [|apply IH]. intros Hin. apply list_elem_of_fmap in Hin as ([k nm] & Ek & Hin). cbn in Ek.
    apply missing_spec in Hin as (j & _ & Hk & _). lia.
  - intros k nm Hin. apply missing_spec in Hin as (j & e & -> & H & _ & Hnm). exists e. done.
Qed.

(** An entry with its attributes, looked up if they are missing. *)
Definition listing_complete (e : nfsdirent) : nfsdirent := if lacks e then looked_up e else e.
Definition unavailable (e : nfsdirent) : bool := lacks e && lookup_fails (e_name e).

Lemma filled_missing es : filled (missing 0 es) es = listing_complete <$> es.
Proof.
  apply at_all_map. intros i e E. unfold listing_complete. case_decide as H.
  - apply list_elem_of_fmap in H as ([k nm] & Ek & H). cbn in Ek. apply missing_spec in H as (j & e' & Hk & H1 & H2 & _).
    cbn in Hk. subst. simplify_eq. by rewrite H2.
  - destruct (lacks e) eqn:L; [|done]. destruct H. apply list_elem_of_fmap. exists (i, e_name e). split; [done|].
    apply missing_spec. by exists i, e.
Qed.

Lemma missing_fails es i : existsb (fun it => lookup_fails it.2) (missing i es) = existsb unavailable es.
Proof.
  revert i. induction es as [|e es IH]; intros i; [done|]. cbn [missing existsb]. unfold unavailable at 1.
  destruct (lacks e); cbn [existsb]; by rewrite IH.
Qed.

Lemma lookup_missing_run n d : n_sends n = [] ->
  run srv (lookup_missing_attributes user fh n d) =
    Some ([verdict (existsb unavailable (d_entries d)) (set_d_entries (listing_complete <$> d_entries d) d)], n).
Proof.
  intros Hn. unfold lookup_missing_attributes. rewrite (send_lookups_queued n _ Hn).
  rewrite <- filled_missing, <- (missing_fails _ O). destruct (missing 0 (d_entries d)) as [|it l] eqn:E.
  - rewrite bool_decide_true by done. rewrite filled_nil. by destruct d.
  - rewrite bool_decide_false by done. rewrite <- E. rewrite lookups_run; [done|by rewrite E|done|]. by apply missing_ok.
Qed.

End missing.

(** C26: the attributes that a listing lacks are looked up all at once, and the outcome does not depend
    on the order of the answers: every entry without attributes gets those its lookup returns, if it
    returns any; when one of the lookups fails (for any reason, which is not told) the open fails
    with ENOMEM, after the last answer; and the callback is called once. *)
Theorem missing_attributes_any_order (srv : server) fh n d : n_sends n = [] ->
  run srv (lookup_missing_attributes user fh n d) =
    Some ([if existsb (fun e => lacks e && fails (srv (LOOKUP fh (e_name e)))) (d_entries d) then (- ENOMEM, Message)
           else (0, Directory (set_d_entries ((fun e => if lacks e then looked_with (srv (LOOKUP fh (e_name e))) e else e) <$> d_entries d) d))], n).
Proof. apply lookup_missing_run. Qed.

(** ** Pages *)

(** The cookie that asks for the entries from the [i]th. *)
Definition cookie_at (es : list entry3) (i : nat) : Z :=
  match i with O => 0 | S j => match es !! j with Some e => r_cookie e | None => 0 end end.

(** A directory that does not change: a READDIRPLUS with the cookie of an entry
    returns some of the entries behind it, at least one if there are any, and
    says whether they are the last. *)
Definition serves_dir (srv : server) (fh : nfs_fh) (es : list entry3) (da : option fattr3) : Prop :=
  forall i verf dircount maxcount, (i <= length es)%nat -> exists k v, (0 < k)%nat /\
    srv (READDIRPLUS fh (cookie_at es i) verf dircount maxcount) =
      Result NFS3_OK (mkReaddir da v (take k (drop i es)) (length es <=? i + k)%nat).

Lemma last_cookie_at es i k : (0 < k)%nat -> (i + k < length es)%nat ->
  last_cookie (take k (drop i es)) = cookie_at es (i + k).
Proof.
  intros Hk Hl. unfold last_cookie. rewrite last_lookup, length_take, length_drop.
  replace (Nat.pred (k `min` (length es - i))) with (k - 1)%nat by lia. rewrite lookup_take_lt by lia. rewrite lookup_drop.
  destruct k as [|k]; [lia|]. unfold cookie_at. rewrite Nat.add_succ_r, Nat.sub_succ, Nat.sub_0_r. by destruct (es !! (i + k)%nat).
Qed.

Lemma fold_push {A} (f : A -> nfsdirent) l : forall d,
  fold_left (fun d e => push_entry (f e) d) l d = set_d_entries (reverse (f <$> l) ++ d_entries d) d.
Proof.
  induction l as [|e l IH]; intros d; [by destruct d|]. cbn [fold_left fmap list_fmap]. rewrite IH.
  by rewrite reverse_cons, <- app_assoc.
Qed.

Section pages.
Context (srv : server) (fh : nfs_fh) (sp : bytes) (es : list entry3) (da : option fattr3) (n : nfs).
Hypothesis queued : n_sends n = [].
Hypothesis served : serves_dir srv fh es da.

Lemma pages_run pages : forall i d verf dircount maxcount, (i <= length es)%nat -> (length es - i < pages)%nat ->
  run srv (nfs3_opendir_cb user fh sp pages d n (srv (READDIRPLUS fh (cookie_at es i) verf dircount maxcount))) =
    run srv (all_read user fh n
      (set_d_entries (reverse (dirent_of sp (n_nested_mounts n) <$> drop i es) ++ d_entries d) d) da).
Proof.
  induction pages as [|pages IH]; intros i d verf dc mc Hi Hp; [lia|].
  destruct (served i verf dc mc Hi) as (k & v & Hk & E). cbn [nfs3_opendir_cb]. rewrite E.
  cbn [check_nfs3_error rd_entries rd_eof rd_cookieverf rd_dir_attributes].
  change (NFS3_OK =? NFS3ERR_NOTSUPP) with false. change (negb (NFS3_OK =? NFS3_OK)) with false. cbv iota. rewrite fold_push.
  destruct (Nat.leb_spec (length es) (i + k)) as [Hle|Hlt]; cbn [negb].
  - rewrite take_ge by (rewrite length_drop; lia). done.
  - rewrite run_send by done. unfold readdirplus. rewrite last_cookie_at by lia. rewrite IH by lia. f_equal. f_equal.
    set (f := dirent_of sp (n_nested_mounts n)).
    assert (F : f <$> drop i es = (f <$> take k (drop i es)) ++ (f <$> drop (i + k) es)) by (by rewrite <- fmap_app, <- drop_drop, take_drop).
    rewrite F, reverse_app, <- app_assoc. by destruct d.
Qed.
End pages.

(** C24: opening a directory lists it: against a server whose directories do not change, a path that
    leads to one gives all its entries once, whatever the sizes of the pages, with the attributes
    that came with them or were looked up; the entry the server listed first comes last.  As many
    pages as there are entries, and one, are enough. *)
Theorem opendir_lists (srv : server) n cwd path cs fh attr cs' es da pages :
  settled n cwd -> n_dircache n = [] -> path_components cwd path = Some cs -> cs <> [] ->
  leads srv n false 0 cs = Reached fh attr cs' -> serves_dir srv fh es da -> (length es < pages)%nat ->
  let entries := reverse (dirent_of [] [] <$> es) in
  run srv (nfs3_opendir_async user pages n path) =
    Some ([if existsb (unavailable srv fh) entries then (- ENOMEM, Message)
           else (0, Directory (mkDir fh (match da with Some f => fattr3_to_nfs_attr f | None => zero_attr end)
                                 (listing_complete srv fh <$> entries) 0))], n).
Proof.
  intros [H1 H2 H3] Hd Hp Hne Hl Hs Hpg entries. unfold nfs3_opendir_async. rewrite run_after_leave.
  pose proof (lookuppath_finds srv user (nfs3_opendir_continue_internal user pages) false 0 n cwd (Some path) cs H1 H2 H3 Hp Hne) as G.
  unfold goes_on in G. unfold leads in Hl. rewrite Hl in G. destruct G as (p & _ & ->).
  unfold nfs3_opendir_continue_internal, nfs_dircache_find. rewrite Hd. cbn [dircache_take l_fh l_path].
  rewrite run_send by done. unfold readdirplus. rewrite (pages_run srv fh p es da n H1 Hs pages O) by lia.
  rewrite H2. unfold all_read. rewrite lookup_missing_run by done.
  assert (E : dirent_of p [] <$> es = dirent_of [] [] <$> es) by (apply list_fmap_ext; intros; done).
  rewrite drop_0, E. fold entries. cbn [set_d_fh no_dir d_entries]. rewrite app_nil_r. destruct da as [f|]; done.
Qed.

(** ** The cache *)

(** A directory that was read without attributes is never read again: when neither the lookup of
    the directory nor its last page brought attributes, the cached copy passes for fresh whatever
    has happened to the directory, since both times of modification are zero (nfs_v3.c:3049). *)
Theorem cache_without_attributes_is_fresh cb pages n n' l d :
  nfs_dircache_find n (l_fh l) = (n', Some d) -> d_attr d = zero_attr ->
  nfs3_opendir_continue_internal cb pages n (Some zero_attr) l = returning 0 (cb n' 0 (Directory (set_d_current 0 d))).
Proof. intros Hf Hd. unfold nfs3_opendir_continue_internal, fresh. by rewrite Hf, Hd. Qed.

(** ** Going through a directory *)

(** Entries until there are no more. *)
Fixpoint read_all (fuel : nat) (d : nfsdir) : list nfsdirent :=
  match fuel with
  | O => []
  | S fuel => match nfs_readdir d with (d, Some e) => e :: read_all fuel d | (_, None) => [] end
  end.

Lemma read_all_from fuel : forall d, (length (d_entries d) - d_current d <= fuel)%nat ->
  read_all fuel d = drop (d_current d) (d_entries d).
Proof.
  induction fuel as [|fuel IH]; intros d Hf; cbn [read_all]; [by rewrite drop_ge by lia|]. unfold nfs_readdir.
  destruct (d_entries d !! d_current d) as [e|] eqn:E.
  - rewrite IH by (cbn; lia). cbn. by rewrite (drop_S _ _ _ E).
  - apply lookup_ge_None in E. by rewrite drop_ge.
Qed.

(** Going through a directory: reading gives the entries from the current one on, each once;
    [nfs_telldir] gives a position that [nfs_seekdir] goes back to, as long as there is a next
    entry; behind the last one it gives -1, which [nfs_seekdir] ignores, so that a program that
    saves that position and rewinds does not get back to it. *)
Theorem telldir_seekdir d d' fuel :
  d_entries d' = d_entries d -> (d_current d <= length (d_entries d))%nat -> (length (d_entries d) <= fuel)%nat ->
  read_all fuel (nfs_rewinddir d) = d_entries d /\
  if (d_current d <? length (d_entries d))%nat
  then d_current (nfs_seekdir d' (nfs_telldir d)) = d_current d /\
       read_all fuel (nfs_seekdir d' (nfs_telldir d)) = read_all fuel d
  else nfs_telldir d = -1 /\ nfs_seekdir d' (nfs_telldir d) = d'.
Proof.
  intros He Hc Hf. split; [rewrite read_all_from by (cbn; lia); done|].
  unfold nfs_telldir, nfs_seekdir. destruct (Nat.ltb_spec (d_current d) (length (d_entries d))) as [Hl|Hl]; [|done].
  replace (Z.of_nat (d_current d) <? 0) with false by lia. cbn [d_current set_d_current]. rewrite Nat2Z.id, He.
  rewrite Nat.min_l by lia. split; [done|]. rewrite !read_all_from by (cbn; rewrite ?He; lia). cbn. by rewrite He.
Qed.
