(* ===== verification/Mount.v ===== *)
(** * Mount: mounting and unmounting an export (lib/nfs_v3.c, lib/libnfs.c)

    [rpc_connect_program_async] connects to the portmapper, asks it for the port
    of a program, connects to that and calls the procedure that does nothing;
    [nfs3_mount_async] does so for the MOUNT protocol, gets the handle of the
    export and those of the exports below it, does so again for NFS, and asks for
    the sizes of transfers and the attributes of what was mounted.  The exports
    of a server are asked for with a context of the transport alone; of an [nfs]
    it uses the settings [c_rpc].

    Starting a connection may fail like sending a request ([n_sends]).
    Disconnecting leaves nothing in the state kept here. *)

From S2P Require Import Prelude Path Settings Url Nfs3 Lookup.

Definition MOUNT_PROGRAM : Z := 100005.
Definition MOUNT_V3 : Z := 3.
Definition NFS_PROGRAM : Z := 100003.
Definition PMAP_PROGRAM : Z := 100000.
Definition PMAP_V2 : Z := 2.
Definition PMAP_V3 : Z := 3.
Definition IPPROTO_TCP : Z := 6.

Definition on_conf (f : settings -> settings) (n : nfs) : nfs := set_n_conf (f (n_conf n)) n.
Definition ipv6 (n : nfs) : bool := t_ipv6 (c_rpc (n_conf n)).

(** The program the transport is told it is connected to. *)
Definition set_program (program version : Z) : nfs -> nfs :=
  on_conf (on_rpc (fun t => set_t_version version (set_t_program program t))).

(** ** Connecting (lib/libnfs.c) *)

Section connect.
Context (program version : Z) (cb : nfs -> reply unit -> call).

(** [data->cb(rpc, status, ...)] when the status is not a success. *)
Definition if_success {T : Set} (n : nfs) (r : reply T) (k : T -> call) : call :=
  match r with
  | RpcError => cb n RpcError
  | RpcCancel => cb n RpcCancel
  | RpcTimeout => cb n RpcTimeout
  | Result _ v => k v
  end.

Definition connect_error (n : nfs) : call := cb n RpcError.

Definition rpc_connect_program_5_cb (n : nfs) (r : reply unit) : call :=
  if_success n r (fun _ => cb n (Result 0 tt)).

Definition rpc_connect_program_4_cb (n : nfs) (r : reply unit) : call :=
  if_success n r (fun _ => send n (NULL program version) connect_error rpc_connect_program_5_cb).

Definition rpc_connect_port_internal (n : nfs) (port : Z) : call :=
  send n (CONNECT port) (fun n => leave n (-1)) rpc_connect_program_4_cb.

(** The port in a universal address: the last two numbers; when there is only
    one it is the port.  [None] is the overflow of an [int]. *)
Definition uaddr_port (addr : option bytes) : option Z :=
  match addr with
  | None => Some 0
  | Some addr =>
      match strrchr 46 addr with
      | None => Some 0
      | Some (addr, low) =>
          let rpc_port := u32 (atoi low) in
          match strrchr 46 addr with
          | None => Some rpc_port
          | Some (_, high) =>
              if fits_int (256 * atoi high) then Some (u32 (rpc_port + 256 * atoi high)) else None
          end
      end
  end.

(** The result of GETPORT is a port; that of GETADDR is an address. *)
Definition connect_found (n : nfs) (rpc_port : Z) : call :=
  if rpc_port =? 0 then cb n RpcError
  else
    after (rpc_connect_port_internal (set_program program version n) (i32 rpc_port))
      (fun n r => if negb (r =? 0) then cb n RpcError else leave n 0).

Definition rpc_connect_program_3_cb (n : nfs) (r : reply Z) : call :=
  if_success n r (connect_found n).
Definition rpc_connect_program_3_cb_ipv6 (n : nfs) (r : reply (option bytes)) : call :=
  if_success n r (fun addr => match uaddr_port addr with Some port => connect_found n port | None => Undef end).

Definition rpc_connect_program_2_cb (n : nfs) (r : reply unit) : call :=
  if_success n r (fun _ =>
    if ipv6 n then send n (PMAP3_GETADDR program version) connect_error rpc_connect_program_3_cb_ipv6
    else send n (PMAP2_GETPORT program version IPPROTO_TCP) connect_error rpc_connect_program_3_cb).

Definition rpc_connect_program_1_cb (n : nfs) (r : reply unit) : call :=
  if_success n r (fun _ =>
    send n (NULL PMAP_PROGRAM (if ipv6 n then PMAP_V3 else PMAP_V2)) connect_error rpc_connect_program_2_cb).

Definition rpc_connect_port_async (n : nfs) (port : Z) : call :=
  after (rpc_connect_port_internal (set_program program version n) port)
    (fun n r => leave n (if negb (r =? 0) then -1 else 0)).

Definition rpc_connect_program_async (n : nfs) : call :=
  send (set_program 100001 2 n) (CONNECT 111) (fun n => leave n (-1)) rpc_connect_program_1_cb.

(** The port is asked for unless it is known. *)
Definition connect_service (n : nfs) (port : Z) : call :=
  if negb (port =? 0) then rpc_connect_port_async n port else rpc_connect_program_async n.

End connect.

(** ** Mounting (lib/nfs_v3.c) *)

Definition E2BIG : Z := 7.
Definition MNT3_OK : Z := 0.

(** [mountstat3_to_errno] (mount/mount.c), by the values of [enum mountstat3]. *)
Definition mountstat3_to_errno (st : Z) : Z :=
  match st with
  | 0 => 0
  | 1 => - EPERM
  | 2 => - EPERM
  | 5 => - EIO
  | 13 => - EACCES
  | 20 => - ENOTDIR
  | 22 => - EINVAL
  | 63 => - E2BIG
  | 10004 => - EINVAL
  | 10006 => - EIO
  | _ => - ERANGE
  end.

Definition set_m_attr (a : nfs_attr) (m : nested_mount) : nested_mount := mkMount (m_path m) (m_fh m) a.

Section mount.
Context (cb : nfs -> Z -> payload -> call).

Definition mount_not_sent (n : nfs) : call := cb n (- ENOMEM) Message.

(** The callback of the GETATTR of the [i]th nested mount; [wait_count] is the
    state the callbacks share. *)
Definition nfs3_mount_8_cb (i : nat) (n : nfs) (wait_count : nat) (r : reply fattr3) : nfs * nat :=
  let n :=
    match r with
    | Result st f =>
        if st =? NFS3_OK then set_n_nested_mounts (alter (set_m_attr (fattr3_to_nfs_attr f)) i (n_nested_mounts n)) n else n
    | _ => n
    end in
  (n, (wait_count - 1)%nat).

(** The loop over the nested mounts: those whose GETATTR is queued. *)
Fixpoint send_getattrs (n : nfs) (i : nat) (mnts : list nested_mount) : nfs * list (nat * nfs_fh) :=
  match mnts with
  | [] => (n, [])
  | mnt :: mnts =>
      match n_sends n with
      | false :: l => send_getattrs (set_n_sends l n) (S i) mnts
      | _ =>
          let '(n, l) := send_getattrs (set_n_sends (tl (n_sends n)) n) (S i) mnts in
          (n, (i, m_fh mnt) :: l)
      end
  end.

(** Only the status of the RPC is looked at. *)
Definition nfs3_mount_7_cb (n : nfs) (r : reply fattr3) : call :=
  check_nfs3_error cb n r (fun _ _ =>
    let n := on_conf set_resiliency n in
    let '(n, l) := send_getattrs n 0 (n_nested_mounts n) in
    if bool_decide (l = []) then cb n 0 NoData
    else
      Call [] n 0
        (flight (fun item : nat * nfs_fh => GETATTR item.2) (fun item => nfs3_mount_8_cb item.1)
           (fun wait_count => (wait_count =? 0)%nat) (fun _ n => cb n 0 NoData) (length l) l (length l))).

Definition nfs3_mount_6_cb (n : nfs) (r : reply FSINFO3resok) : call :=
  check_result cb n r (fun res =>
    let c := n_conf n in
    let readmax := Z.min (c_readmax c) (fi_rtmax res) in
    let writemax := Z.min (c_writemax c) (fi_wtmax res) in
    if c_readmax c <? NFSMAXDATA2 then cb n (- EINVAL) Message
    else
      let n := on_conf (nfs_set_readmax readmax) n in
      if c_writemax c <? NFSMAXDATA2 then cb n (- EINVAL) Message
      else
        let n := on_conf (nfs_set_writemax writemax) n in
        let dircount := Z.min (c_readdir_dircount c) (fi_dtpref res) in
        let maxcount := Z.min (c_readdir_maxcount c) (fi_dtpref res) in
        if c_readdir_dircount c <? NFSMAXDATA2 then cb n (- EINVAL) Message
        else
          let n := on_conf (nfs_set_readdir_max_buffer_size (u32 dircount) (u32 maxcount)) n in
          send n (GETATTR (n_rootfh n)) mount_not_sent nfs3_mount_7_cb).

Definition nfs3_mount_5_cb (n : nfs) (r : reply unit) : call :=
  check_nfs3_error cb n r (fun _ _ => send n (FSINFO (n_rootfh n)) mount_not_sent nfs3_mount_6_cb).

(** [rpc_disconnect], and a connection to the NFS server. *)
Definition connect_nfs (n : nfs) : call :=
  after (connect_service NFS_PROGRAM NFS_V3 nfs3_mount_5_cb n (c_nfsport (n_conf n)))
    (fun n r => if negb (r =? 0) then mount_not_sent n else leave n 0).

(** [struct mount_discovery_cb]; the status is kept when it is not a success. *)
Record mount_discovery_cb := mkDiscovery { md_wait_count : nat; md_error : Z; md_cancelled : bool }.

(** The callback of the MNT of a nested export; [path] is its place below the
    export that is mounted.  A timeout leaves a status nobody asks for. *)
Definition nfs3_mount_4_cb (path : bytes) (n : nfs) (md : mount_discovery_cb) (r : reply nfs_fh) : nfs * mount_discovery_cb :=
  let count := (md_wait_count md - 1)%nat in
  match r with
  | RpcError => (n, mkDiscovery count (- EFAULT) (md_cancelled md))
  | RpcCancel => (n, mkDiscovery count (md_error md) true)
  | RpcTimeout => (n, mkDiscovery count (md_error md) false)
  | Result st fh =>
      if st =? MNT3_OK then
        (set_n_nested_mounts (mkMount path fh zero_attr :: n_nested_mounts n) n, mkDiscovery count (md_error md) (md_cancelled md))
      else (n, mkDiscovery count (mountstat3_to_errno st) (md_cancelled md))
  end.

(** [md_cb->wait_count == 0] *)
Definition discovery_finish (md : mount_discovery_cb) (n : nfs) : call :=
  if md_cancelled md then cb n (- EINTR) Message
  else if negb (md_error md =? 0) then cb n (md_error md) Message
  else connect_nfs n.

(** Where an export is below another, if it is. *)
Definition nested_path (export ex_dir : bytes) : option bytes :=
  let len := length export in
  if negb (starts_with export ex_dir) then None
  else if negb (bool_decide (ex_dir !! (len - 1)%nat = Some slash)) && negb (bool_decide (ex_dir !! len = Some slash)) then None
  else Some (drop (len - (if bool_decide (export !! (len - 1)%nat = Some slash) then 1 else 0)) ex_dir).

(** The loop over the exports; one whose MNT cannot be queued is tried again. *)
Fixpoint send_mnts (fuel : nat) (n : nfs) (export : bytes) (res : list bytes) : nfs * list (bytes * bytes) :=
  match fuel, res with
  | S fuel, ex_dir :: rest =>
      match nested_path export ex_dir with
      | None => send_mnts fuel n export rest
      | Some path =>
          match n_sends n with
          | false :: l => send_mnts fuel (set_n_sends l n) export res
          | _ =>
              let '(n, l) := send_mnts fuel (set_n_sends (tl (n_sends n)) n) export rest in
              (n, (path, ex_dir) :: l)
          end
      end
  | _, _ => (n, [])
  end.

Definition nfs3_mount_3_cb (n : nfs) (r : reply (list bytes)) : call :=
  check_nfs3_error cb n r (fun _ res =>
    if bool_decide (n_export n = []) then cb n (- EFAULT) Message
    else
      let '(n, l) := send_mnts (length (n_sends n) + length res) n (n_export n) res in
      if bool_decide (l = []) then connect_nfs n
      else
        Call [] n 0
          (flight (fun item : bytes * bytes => MOUNT_MNT item.2) (fun item => nfs3_mount_4_cb item.1)
             (fun md => (md_wait_count md =? 0)%nat) discovery_finish (length l) l (mkDiscovery (length l) 0 false))).

Definition nfs3_mount_2_cb (n : nfs) (r : reply nfs_fh) : call :=
  check_nfs3_error cb n r (fun st fh =>
    if negb (st =? MNT3_OK) then cb n (mountstat3_to_errno st) Message
    else
      let n := set_n_rootfh fh n in
      if negb (c_auto_traverse_mounts (n_conf n) =? 0) then send n MOUNT_EXPORT mount_not_sent nfs3_mount_3_cb
      else connect_nfs n).

Definition nfs3_mount_1_cb (n : nfs) (r : reply unit) : call :=
  check_nfs3_error cb n r (fun _ _ => send n (MOUNT_MNT (n_export n)) mount_not_sent nfs3_mount_2_cb).

Definition nfs3_mount_async (n : nfs) (server export : bytes) : call :=
  let n := set_n_export export (on_conf (set_c_server server) n) in
  after (connect_service MOUNT_PROGRAM MOUNT_V3 nfs3_mount_1_cb n (c_mountport (n_conf n)))
    (fun n r => leave n (if negb (r =? 0) then -1 else 0)).

(** ** Unmounting *)

Definition nfs3_umount_2_cb (n : nfs) (r : reply unit) : call :=
  check_nfs3_error cb n r (fun _ _ => cb n 0 NoData).

Definition nfs3_umount_1_cb (n : nfs) (r : reply unit) : call :=
  check_nfs3_error cb n r (fun _ _ => send n (MOUNT_UMNT (n_export n)) mount_not_sent nfs3_umount_2_cb).

Definition nfs3_umount_async (n : nfs) : call :=
  after (connect_service MOUNT_PROGRAM MOUNT_V3 nfs3_umount_1_cb n (c_mountport (n_conf n)))
    (fun n r => leave n (if negb (r =? 0) then -1 else 0)).

(** ** The exports of a server (lib/libnfs.c) *)

Definition mount_export_5_cb (n : nfs) (r : reply (list bytes)) : call :=
  match r with Result _ res => cb n 0 (Exports res) | _ => cb n (- EFAULT) NoData end.

Definition mount_export_4_cb (n : nfs) (r : reply unit) : call :=
  match r with
  | Result _ _ => send n MOUNT_EXPORT (fun n => cb n (- ENOMEM) NoData) mount_export_5_cb
  | _ => cb n (- EFAULT) NoData
  end.

Definition mount_getexports_async (n : nfs) : call :=
  after (connect_service MOUNT_PROGRAM MOUNT_V3 mount_export_4_cb n (t_mountport (c_rpc (n_conf n))))
    (fun n r => leave n (if negb (r =? 0) then -1 else 0)).

End mount.
