(* ===== verification/MountProps.v ===== *)
(** * MountProps: what mounting does

    A mount ends with one callback, whatever the servers answer; when they
    answer as they should, the context is left with the handle of the export,
    those of the exports below it, and sizes of transfers that both sides can
    do, unless the server's are smaller than the client ever uses. *)

From S2P Require Import Prelude Path Settings Url Nfs3 Lookup LookupProps Nfs3Ops Nfs3Props Mount.

(** ** One callback *)

(** The call ends with exactly one callback. *)
Definition ends_once (srv : server) (c : call) : Prop := exists x n, run srv c = Some ([x], n).

(** A callback that is given a context without IPv6 ends the call. *)
Definition good_cb {T : Set} (srv : server) (cb : nfs -> reply T -> call) : Prop :=
  forall n r, ipv6 n = false -> ends_once srv (cb n r).

Lemma user_once srv n e d : ends_once srv (user n e d).
Proof. by exists (e, d), n. Qed.

Lemma returning_once srv r c : ends_once srv (returning r c) <-> ends_once srv c.
Proof. unfold ends_once. by rewrite run_returning. Qed.

Lemma ipv6_sends l n : ipv6 (set_n_sends l n) = ipv6 n.
Proof. done. Qed.

Lemma send_once srv n q refused k : ipv6 n = false ->
  (forall n, ipv6 n = false -> ends_once srv (refused n)) -> (forall n r, ipv6 n = false -> ends_once srv (k n r)) ->
  ends_once srv (send n q refused k).
Proof.
  intros Hn Hr Hk. assert (E : forall n0, ipv6 n0 = false -> ends_once srv (Call [] n0 0 [Pend q k])).
  { intros n0 H0. destruct (Hk n0 (srv q) H0) as (x & n' & H). exists x, n'. cbn [run fmap list_fmap]. by rewrite H. }
  unfold send. destruct (n_sends n) as [|[] l]; [by apply E|by apply E|by apply Hr].
Qed.

Lemma check_once srv {T : Set} n (r : reply T) k :
  (forall st v, ends_once srv (k st v)) -> ends_once srv (check_nfs3_error user n r k).
Proof. intros H. destruct r; try apply user_once. apply H. Qed.

(** A function that starts something: it is refused, and does nothing, or it
    returns 0 and what it has started ends with one callback. *)
Definition starts (srv : server) (c : call) : Prop :=
  (exists n, c = Call [] n (-1) [] /\ ipv6 n = false) \/ (ret_of c = Some 0 /\ ends_once srv c).

Lemma after_started srv c err : starts srv c -> (forall n, ipv6 n = false -> ends_once srv (err n)) ->
  ends_once srv (after c (fun n r => if negb (r =? 0) then err n else leave n 0)).
Proof.
  intros [(n & -> & Hn)|[Hr He]] Herr.
  - cbn [after negb Z.eqb]. change (negb (-1 =? 0)) with true. cbv iota. destruct (err n) as [out n' r' next|] eqn:E.
    + destruct (Herr n Hn) as (x & n1 & Hx). exists x, n1. rewrite E in Hx. by destruct next.
    + destruct (Herr n Hn) as (x & n1 & Hx). by rewrite E in Hx.
  - destruct c as [out n r next|]; [|done]. injection Hr as ->. cbn [after negb Z.eqb leave]. rewrite app_nil_r. by destruct next.
Qed.

Lemma after_starts srv c : starts srv c -> starts srv (after c (fun n r => leave n (if negb (r =? 0) then -1 else 0))).
Proof.
  intros [(n & -> & Hn)|[Hr He]]; [left; by exists n|right].
  destruct c as [out n r next|]; [|done]. injection Hr as ->. cbn [after negb Z.eqb leave]. rewrite app_nil_r. by destruct next.
Qed.

Section once.
Context (srv : server).
#[local] Notation once := (ends_once srv).

Lemma send_starts n q k : ipv6 n = false -> (forall n r, ipv6 n = false -> once (k n r)) ->
  starts srv (send n q (fun n => leave n (-1)) k).
Proof.
  intros Hn Hk. unfold send. assert (E : forall n0, ipv6 n0 = false -> starts srv (Call [] n0 0 [Pend q k])).
  { intros n0 H0. right. split; [done|]. destruct (Hk n0 (srv q) H0) as (x & n' & H). exists x, n'. cbn [run fmap list_fmap]. by rewrite H. }
  destruct (n_sends n) as [|[] l]; [by apply E|by apply E|]. left. by exists (set_n_sends l n).
Qed.

Section connect_once.
Context (program version : Z) (cb : nfs -> reply unit -> call).
Hypothesis cb_good : good_cb srv cb.

Lemma if_success_once {T : Set} n (r : reply T) k : ipv6 n = false -> (forall v, once (k v)) -> once (if_success cb n r k).
Proof. intros Hn Hk. destruct r; try by apply cb_good. apply Hk. Qed.

Lemma connect_4_once : good_cb srv (rpc_connect_program_4_cb program version cb).
Proof.
  intros n r Hn. apply if_success_once; [done|]. intros _. apply send_once; [done|by intros; apply cb_good|].
  intros n1 r1 H1. apply if_success_once; [done|]. intros _. by apply cb_good.
Qed.

Lemma connect_found_once n port : ipv6 n = false -> once (connect_found program version cb n port).
Proof.
  intros Hn. unfold connect_found. destruct (port =? 0); [by apply cb_good|]. apply after_started; [|by intros; apply cb_good].
  apply send_starts; [done|]. apply connect_4_once.
Qed.

Lemma connect_starts n port : ipv6 n = false -> starts srv (connect_service program version cb n port).
Proof.
  intros Hn. unfold connect_service. destruct (negb (port =? 0)).
  - apply after_starts, send_starts; [done|]. apply connect_4_once.
  - apply send_starts; [done|]. intros n1 r1 H1. apply if_success_once; [done|]. intros _. rewrite H1.
    apply send_once; [done|by intros; apply cb_good|]. intros n2 r2 H2. apply if_success_once; [done|]. intros _. rewrite H2.
    apply send_once; [done|by intros; apply cb_good|]. intros n3 r3 H3. apply if_success_once; [done|]. intros port'.
    by apply connect_found_once.
Qed.
End connect_once.

Lemma not_sent_once n : once (mount_not_sent user n).
Proof. apply user_once. Qed.

Lemma getattrs_ipv6 mnts : forall i n, ipv6 (send_getattrs n i mnts).1 = ipv6 n.
Proof.
  induction mnts as [|m mnts IH]; intros i n; [done|]. cbn [send_getattrs]. destruct (n_sends n) as [|[] l]; [| |exact (IH (S i) (set_n_sends l n))].
  all: match goal with |- context [send_getattrs ?n ?i ?m] => let H := fresh in pose proof (IH i n) as H; by destruct (send_getattrs n i m) end.
Qed.

Lemma mnts_ipv6 fuel : forall n export res, ipv6 (send_mnts fuel n export res).1 = ipv6 n.
Proof.
  induction fuel as [|fuel IH]; intros n export res; [done|]. cbn [send_mnts]. destruct res as [|ex res]; [done|].
  destruct (nested_path export ex) as [path|]; [|apply IH]. destruct (n_sends n) as [|[] l]; [| |exact (IH (set_n_sends l n) export (ex :: res))].
  all: match goal with |- context [send_mnts ?f ?n ?e ?r] => let H := fresh in pose proof (IH n e r) as H; by destruct (send_mnts f n e r) end.
Qed.

(** A flight whose callbacks count down ends as what comes after it does. *)
Lemma flight_once {A X} (q : A -> request) (land : forall a, nfs -> X -> reply (resok (q a)) -> nfs * X) (count : X -> nat) finish l n x :
  (forall a n x r, ipv6 (land a n x r).1 = ipv6 n /\ count (land a n x r).2 = (count x - 1)%nat) ->
  (forall x n, ipv6 n = false -> once (finish x n)) -> l <> [] -> count x = length l -> ipv6 n = false ->
  once (Call [] n 0 (flight q land (fun x => (count x =? 0)%nat) finish (length l) l x)).
Proof.
  intros Hl Hf Hne Hc Hn.
  apply (flight_run srv q land _ finish (fun l n x => ipv6 n = false /\ count x = length l) (fun r => exists x n, r = Some ([x], n)));
    [|done|done|done].
  clear l n x Hne Hc Hn. intros l n x j a [Hn Hc] Hj. destruct (Hl a n x (srv (q a))) as [E1 E2].
  destruct (land a n x (srv (q a))) as [n' x']. cbn [fst snd] in *.
  assert (Hd : length (delete j l) = (length l - 1)%nat) by (rewrite length_delete by (by eexists); lia).
  destruct (delete j l) as [|b l']; cbn [length] in Hd; [rewrite bool_decide_true by done|rewrite bool_decide_false by done].
  - split; [rewrite E2, Hc, <- Hd; done|]. apply Hf. congruence.
  - split; [rewrite E2, Hc, <- Hd; done|]. split; [congruence|]. rewrite E2, Hc. exact (eq_sym Hd).
Qed.

Lemma mount_7_once n r : ipv6 n = false -> once (nfs3_mount_7_cb user n r).
Proof.
  intros Hn. apply check_once. intros _ _. cbv zeta. set (n1 := on_conf set_resiliency n).
  pose proof (getattrs_ipv6 (n_nested_mounts n1) O n1) as H. destruct (send_getattrs n1 0 (n_nested_mounts n1)) as [n2 l].
  destruct (bool_decide (l = [])) eqn:E; [apply user_once|]. apply bool_decide_eq_false in E.
  apply (flight_once (fun item => GETATTR item.2) (fun item => nfs3_mount_8_cb item.1) (fun c => c)); try done.
  - intros [i fh] n0 c [| | |st f]; try done. cbn. by destruct (st =? NFS3_OK).
  - intros. apply user_once.
  - by transitivity (ipv6 n1).
Qed.

Lemma mount_5_once : good_cb srv (nfs3_mount_5_cb user).
Proof.
  intros n r Hn. apply check_once. intros _ _. apply send_once; [done|intros; apply not_sent_once|]. intros n1 r1 H1.
  unfold nfs3_mount_6_cb, check_result. apply check_once. intros st res. destruct (st =? NFS3_OK); [|apply user_once].
  repeat (match goal with |- context [if ?b then _ else _] => destruct b end; [apply user_once|]).
  apply send_once; [done|intros; apply not_sent_once|]. intros. by apply mount_7_once.
Qed.

Lemma connect_nfs_once n : ipv6 n = false -> once (connect_nfs user n).
Proof.
  intros Hn. apply after_started; [|intros; apply not_sent_once]. apply connect_starts; [apply mount_5_once|done].
Qed.

Lemma mount_1_once : good_cb srv (nfs3_mount_1_cb user).
Proof.
  intros n r Hn. apply check_once. intros _ _. apply send_once; [done|intros; apply not_sent_once|]. intros n1 r1 H1.
  apply check_once. intros st fh. destruct (negb (st =? MNT3_OK)); [apply user_once|].
  cbv zeta. destruct (negb (c_auto_traverse_mounts _ =? 0)); [|by apply connect_nfs_once]. apply send_once; [done|intros; apply not_sent_once|]. intros n2 r2 H2.
  apply check_once. intros _ res. destruct (bool_decide (n_export n2 = [])); [apply user_once|].
  pose proof (mnts_ipv6 (length (n_sends n2) + length res) n2 (n_export n2) res) as H.
  destruct (send_mnts _ n2 _ res) as [n3 l]. cbn [fst] in H.
  destruct (bool_decide (l = [])) eqn:E; [apply connect_nfs_once; congruence|]. apply bool_decide_eq_false in E.
  apply (flight_once (fun item => MOUNT_MNT item.2) (fun item => nfs3_mount_4_cb item.1) md_wait_count); try done; [| |congruence].
  - intros [path ex] n0 md [| | |st' fh']; try done. cbn. by destruct (st' =? MNT3_OK).
  - intros md n0 H0. unfold discovery_finish. destruct (md_cancelled md); [apply user_once|].
    destruct (negb _); [apply user_once|by apply connect_nfs_once].
Qed.

Lemma umount_1_once : good_cb srv (nfs3_umount_1_cb user).
Proof.
  intros n r Hn. apply check_once. intros _ _. apply send_once; [done|intros; apply not_sent_once|]. intros n1 r1 H1.
  apply check_once. intros. apply user_once.
Qed.
End once.

(** C23: mounting and unmounting either refuse and do nothing but record the server and the export, or
    return 0 and call the callback exactly once, whatever the portmapper, the MOUNT server and the NFS
    server answer, in whatever order the requests about nested exports are answered and whichever
    requests and connections cannot be started (over IPv4; what a portmapper returns for IPv6 can
    overflow an int). *)
Theorem mount_calls_back_once (srv : server) n server export : ipv6 n = false ->
  starts srv (nfs3_mount_async user n server export) /\ starts srv (nfs3_umount_async user n).
Proof.
  intros Hn. split; apply after_starts, connect_starts; try done; [apply mount_1_once|apply umount_1_once].
Qed.

(** ** A mount that succeeds *)

(** A program of the server can be reached: at the port that is known, or at
    the one the portmapper knows. *)
Definition service_up (srv : server) (known program version : Z) : Prop :=
  let answers (q : request) := exists st v, srv q = Result st v in
  if known =? 0 then
    answers (CONNECT 111) /\ answers (NULL PMAP_PROGRAM PMAP_V2) /\
    exists st port, srv (PMAP2_GETPORT program version IPPROTO_TCP) = Result st port /\ port <> 0 /\
      answers (CONNECT (i32 port)) /\ answers (NULL program version)
  else answers (CONNECT known) /\ answers (NULL program version).

(** The handle a MNT returns, and a nested mount with its attributes. *)
Definition handle_of (srv : server) (ex_dir : bytes) : nfs_fh :=
  match srv (MOUNT_MNT ex_dir) with Result _ h => h | _ => [] end.

Definition refreshed_with (r : reply fattr3) (m : nested_mount) : nested_mount :=
  match r with
  | Result st f => if st =? NFS3_OK then set_m_attr (fattr3_to_nfs_attr f) m else m
  | _ => m
  end.
Definition refreshed (srv : server) (m : nested_mount) : nested_mount := refreshed_with (srv (GETATTR (m_fh m))) m.

(** The exports below the one that is mounted. *)
Definition below (export : bytes) (exs : list bytes) : list (bytes * bytes) :=
  omap (fun ex => path ← nested_path export ex; Some (path, ex)) exs.

Definition item_mount (srv : server) (it : bytes * bytes) : nested_mount := mkMount it.1 (handle_of srv it.2) zero_attr.

Section success.
Context (srv : server).

Lemma run_connect program version cb n known : n_sends n = [] -> ipv6 n = false -> service_up srv known program version ->
  run srv (connect_service program version cb n known) = run srv (cb (set_program program version n) (Result 0 tt)).
Proof.
  intros Hq Hv Hup. unfold connect_service, service_up in *. destruct (known =? 0); cbn [negb].
  - destruct Hup as ((s1 & [] & E1) & (s2 & [] & E2) & s3 & port & E3 & Hp & (s4 & [] & E4) & (s5 & [] & E5)).
    unfold rpc_connect_program_async. rewrite run_send by done. rewrite E1. unfold rpc_connect_program_1_cb. cbn [if_success].
    change (ipv6 (set_program 100001 2 n)) with (ipv6 n). rewrite Hv. rewrite run_send by done. rewrite E2.
    unfold rpc_connect_program_2_cb. cbn [if_success]. change (ipv6 (set_program 100001 2 n)) with (ipv6 n). rewrite Hv.
    rewrite run_send by done. rewrite E3. unfold rpc_connect_program_3_cb. cbn [if_success]. unfold connect_found.
    rewrite (proj2 (Z.eqb_neq port 0) Hp). unfold rpc_connect_port_internal at 1.
    unfold send at 1. change (n_sends (set_program program version (set_program 100001 2 n))) with (n_sends n). rewrite Hq.
    cbn [after leave negb Z.eqb app]. cbn [run fmap list_fmap]. rewrite E4. unfold rpc_connect_program_4_cb. cbn [if_success].
    rewrite run_send by done. rewrite E5. unfold rpc_connect_program_5_cb. cbn [if_success].
    change (set_program program version (set_program 100001 2 n)) with (set_program program version n).
    by destruct (run srv (cb _ _)) as [[]|].
  - destruct Hup as ((s1 & [] & E1) & (s2 & [] & E2)). unfold rpc_connect_port_async. rewrite run_after_leave.
    unfold rpc_connect_port_internal. rewrite run_send by done. rewrite E1. unfold rpc_connect_program_4_cb. cbn [if_success].
    rewrite run_send by done. by rewrite E2.
Qed.

Lemma connect_service_ret program version cb n known : n_sends n = [] -> ret_of (connect_service program version cb n known) = Some 0.
Proof.
  intros Hq. unfold connect_service, rpc_connect_port_async, rpc_connect_port_internal, rpc_connect_program_async, send.
  change (n_sends (set_program program version n)) with (n_sends n). change (n_sends (set_program 100001 2 n)) with (n_sends n).
  rewrite Hq. by destruct (negb (known =? 0)).
Qed.

Lemma run_connect_nfs n : n_sends n = [] -> ipv6 n = false -> service_up srv (c_nfsport (n_conf n)) NFS_PROGRAM NFS_V3 ->
  run srv (connect_nfs user n) = run srv (nfs3_mount_5_cb user (set_program NFS_PROGRAM NFS_V3 n) (Result 0 tt)).
Proof.
  intros Hq Hv Hup. rewrite <- run_connect with (known := c_nfsport (n_conf n)) by done. unfold connect_nfs.
  pose proof (connect_service_ret NFS_PROGRAM NFS_V3 (nfs3_mount_5_cb user) n (c_nfsport (n_conf n)) Hq) as Hr.
  destruct (connect_service _ _ _ _ _) as [out n' r next|]; [|done]. injection Hr as ->. cbn [after negb Z.eqb leave].
  rewrite app_nil_r. by destruct next.
Qed.

(** *** The attributes of the nested mounts *)

Lemma send_getattrs_queued n mnts : n_sends n = [] -> forall i,
  send_getattrs n i mnts = (n, imap (fun j m => ((i + j)%nat, m_fh m)) mnts).
Proof.
  intros Hq. assert (E : set_n_sends (tl (n_sends n)) n = n) by (destruct n; cbn in *; by subst).
  induction mnts as [|m mnts IH]; intros i; [done|]. cbn [send_getattrs imap]. rewrite Hq in *. cbn [tl] in *. rewrite E, IH.
  rewrite Nat.add_0_r. f_equal. f_equal. apply imap_ext. intros j x _. cbn. f_equal. lia.
Qed.

Lemma positions_ok {A B} (f : A -> B) (l : list A) : NoDup (imap (fun j x => (j, f x)) l).*1.
Proof.
  rewrite fmap_imap. apply NoDup_alt. intros i j x. rewrite !list_lookup_imap. cbn.
  destruct (l !! i), (l !! j); cbn; congruence.
Qed.

Lemma refreshed_with_fh r m : m_fh (refreshed_with r m) = m_fh m.
Proof. destruct r as [| | |st f]; try done. cbn. by destruct (st =? NFS3_OK). Qed.

Lemma mount_8_cb_spec i n c r :
  nfs3_mount_8_cb i n c r = (set_n_nested_mounts (alter (refreshed_with r) i (n_nested_mounts n)) n, (c - 1)%nat).
Proof.
  assert (I : forall g, (forall m, g m = m) -> n = set_n_nested_mounts (alter g i (n_nested_mounts n)) n).
  { intros g H. rewrite list_alter_id by done. by destruct n. }
  unfold nfs3_mount_8_cb, refreshed_with. destruct r as [| | |st f]; try (f_equal; by apply I).
  destruct (st =? NFS3_OK); [done|]. f_equal. by apply I.
Qed.

Lemma mount_7_run n st a : n_sends n = [] ->
  run srv (nfs3_mount_7_cb user n (Result st a)) =
    Some ([(0, NoData)], set_n_nested_mounts (refreshed srv <$> n_nested_mounts n) (on_conf set_resiliency n)).
Proof.
  intros Hq. unfold nfs3_mount_7_cb. cbn [check_nfs3_error]. set (n1 := on_conf set_resiliency n).
  assert (Hm : n_nested_mounts n1 = n_nested_mounts n) by done. rewrite Hm.
  rewrite send_getattrs_queued by done. cbn [Nat.add].
  destruct (decide (n_nested_mounts n = [])) as [Em|Hne].
  { rewrite Em. assert (E : set_n_nested_mounts (refreshed srv <$> []) n1 = n1) by (unfold n1; destruct n; cbn in *; by subst). by rewrite E. }
  rewrite bool_decide_false by (by destruct (n_nested_mounts n)). set (l := imap _ _).
  match goal with |- _ = ?r => remember r as res eqn:Hres end.
  apply (flight_run srv _ _ _ _ (fun l n' c => c = length l /\ NoDup l.*1 /\
    (forall i fh, (i, fh) ∈ l -> exists m, n_nested_mounts n' !! i = Some m /\ m_fh m = fh) /\
    set_n_nested_mounts (at_all (refreshed srv) l.*1 (n_nested_mounts n')) n' =
      set_n_nested_mounts (refreshed srv <$> n_nested_mounts n) n1) (fun r => r = res)); [|done| |].
  - clear l. intros l n' c j [i fh] (-> & Hnd & Hi & Ht) Hj. cbn [fst snd].
    rewrite mount_8_cb_spec. set (g := refreshed_with (srv (GETATTR fh))).
destruct (Hi i fh) as (m & Hm1 & Hm2); [by eapply list_elem_of_lookup_2|].
    assert (Hg : forall e, n_nested_mounts n' !! i = Some e -> g e = refreshed srv e).
    { intros e He. simplify_eq. done. }
    assert (Hl' : length (delete j l) = (length l - 1)%nat) by (rewrite length_delete by (by eexists); lia).
    assert (Hj1 : l.*1 !! j = Some i) by (by rewrite list_lookup_fmap, Hj).
    pose proof (at_all_step (refreshed srv) g l.*1 j i _ Hnd Hj1 Hg) as Hst. rewrite <- list_fmap_delete in Hst.
    assert (Hnd' : NoDup (delete j l).*1) by (rewrite list_fmap_delete; by eapply sublist_NoDup; [|apply sublist_delete]).
    rewrite <- Hl'. destruct (delete j l) as [|it l'] eqn:Ed; [rewrite bool_decide_true by done|rewrite bool_decide_false by done].
    + split; [done|]. cbn in Hst. rewrite at_all_nil in Hst. rewrite Hres, <- Ht, <- Hst. done.
    + split; [done|]. split; [done|]. split; [done|]. split.
      * intros i' fh' Hin. destruct (Hi i' fh') as (m' & H1 & H2).
        { rewrite (delete_Permutation l j _ Hj), Ed. by apply list_elem_of_further. }
        cbn [n_nested_mounts set_n_nested_mounts]. destruct (decide (i = i')) as [<-|Hni].
        -- exists (g m'). rewrite list_lookup_alter_eq, H1. split; [done|]. unfold g. by rewrite refreshed_with_fh.
        -- exists m'. by rewrite list_lookup_alter_ne.
      * cbn [n_nested_mounts set_n_nested_mounts]. rewrite Hst. exact Ht.
  - unfold l. by destruct (n_nested_mounts n).
  - split; [done|]. split; [apply positions_ok|]. split.
    + intros i fh Hin. apply elem_of_lookup_imap_1 in Hin as (j & m & E & Hm1). injection E as -> ->. by exists m.
    + f_equal. rewrite Hm. apply at_all_map. intros i m Hi. case_decide as H; [done|]. destruct H.
      apply list_elem_of_fmap. exists (i, m_fh m). split; [done|]. by apply (elem_of_lookup_imap_2 (fun j m => (j, m_fh m))).
Qed.

(** *** The exports below *)

Lemma send_mnts_queued n export res : n_sends n = [] -> forall fuel, (length res <= fuel)%nat ->
  send_mnts fuel n export res = (n, below export res).
Proof.
  intros Hq. assert (E : set_n_sends (tl (n_sends n)) n = n) by (destruct n; cbn in *; by subst).
  induction res as [|ex res IH]; intros [|fuel] Hf; try done; [cbn in Hf; lia|]. cbn [send_mnts]. cbn in Hf.
  unfold below. cbn [omap list_omap]. destruct (nested_path export ex) as [path|]; cbn [mbind option_bind].
  - rewrite Hq in *. cbn [tl] in *. rewrite E, IH by lia. done.
  - apply IH. lia.
Qed.

(** What connecting to the NFS server comes to does not depend on the order in
    which the nested mounts were found. *)
Lemma mnts_run n l (G : option (list (Z * payload) * nfs) -> Prop) : l <> [] ->
  (forall it, it ∈ l -> exists h, srv (MOUNT_MNT it.2) = Result MNT3_OK h) ->
  (forall ms, ms ≡ₚ (item_mount srv <$> l) ++ n_nested_mounts n -> G (run srv (connect_nfs user (set_n_nested_mounts ms n)))) ->
  G (run srv (Call [] n 0 (flight (fun item : bytes * bytes => MOUNT_MNT item.2) (fun item => nfs3_mount_4_cb item.1)
    (fun md => (md_wait_count md =? 0)%nat) (discovery_finish user) (length l) l (mkDiscovery (length l) 0 false)))).
Proof.
  intros Hne Hok HG. remember ((item_mount srv <$> l) ++ n_nested_mounts n) as total eqn:Ht.
  apply (flight_run srv _ _ _ _ (fun l n' md => (forall it, it ∈ l -> exists h, srv (MOUNT_MNT it.2) = Result MNT3_OK h) /\
    md = mkDiscovery (length l) 0 false /\ exists ms, n' = set_n_nested_mounts ms n /\ (item_mount srv <$> l) ++ ms ≡ₚ total));
    [|done|done|].
  - clear l Hne Hok Ht. intros l n' md j [path ex] (Hok & -> & ms & -> & Hp) Hj. cbn [fst snd].
    pose proof (delete_Permutation l j _ Hj) as Hl. destruct (Hok (path, ex)) as [h Hh]; [by eapply list_elem_of_lookup_2|].
    cbn [snd] in Hh. rewrite Hh. cbn [nfs3_mount_4_cb]. change (MNT3_OK =? MNT3_OK) with true. cbv iota.
    cbn [md_wait_count md_error md_cancelled n_nested_mounts set_n_nested_mounts].
    assert (Hp' : (item_mount srv <$> delete j l) ++ mkMount path h zero_attr :: ms ≡ₚ total).
    { assert (Hp1 : item_mount srv <$> l ≡ₚ item_mount srv (path, ex) :: (item_mount srv <$> delete j l)) by (rewrite Hl at 1; done).
      etransitivity; [|exact Hp]. rewrite Hp1. unfold item_mount at 2, handle_of. cbn [fst snd]. rewrite Hh.
      symmetry. apply Permutation_middle. }
    assert (Hl' : length (delete j l) = (length l - 1)%nat) by (rewrite length_delete by (by eexists); lia). rewrite <- Hl'.
    assert (Hin : forall it, it ∈ delete j l -> it ∈ l) by (intros it H; rewrite Hl; by apply list_elem_of_further).
    destruct (delete j l) as [|it l'] eqn:Ed; [rewrite bool_decide_true by done|rewrite bool_decide_false by done].
    + split; [done|]. unfold discovery_finish. cbn [md_cancelled md_error]. change (negb (0 =? 0)) with false. cbv iota.
      by apply HG.
    + split; [done|]. split; [intros; by apply Hok, Hin|]. split; [done|]. eexists. split; [reflexivity|done].
  - split; [done|]. split; [done|]. exists (n_nested_mounts n). split; [by destruct n|by rewrite Ht].
Qed.

(** *** Sizes *)

(** The sizes after FSINFO. *)
Definition sized (res : FSINFO3resok) (c : settings) : settings :=
  nfs_set_readdir_max_buffer_size (u32 (Z.min (c_readdir_dircount c) (fi_dtpref res))) (u32 (Z.min (c_readdir_maxcount c) (fi_dtpref res)))
    (nfs_set_writemax (Z.min (c_writemax c) (fi_wtmax res)) (nfs_set_readmax (Z.min (c_readmax c) (fi_rtmax res)) c)).

Lemma mount_6_run n res : n_sends n = [] -> sizes_ok (n_conf n) ->
  run srv (nfs3_mount_6_cb user n (Result NFS3_OK res)) =
    run srv (nfs3_mount_7_cb user (on_conf (sized res) n) (srv (GETATTR (n_rootfh n)))).
Proof.
  intros Hq [[[H1 _] _] [[H2 _] _] [[H3 _] _] _]. unfold NFS_MIN_XFER_SIZE in *. unfold nfs3_mount_6_cb, check_result. cbn [check_nfs3_error].
  change (NFS3_OK =? NFS3_OK) with true. cbv iota zeta.
  rewrite (proj2 (Z.ltb_ge _ _) H1), (proj2 (Z.ltb_ge _ _) H2), (proj2 (Z.ltb_ge _ _) H3).
  rewrite run_send by done. done.
Qed.
End success.

Lemma set_program_again p v p' v' ms fh n :
  set_program p v (set_n_nested_mounts ms (set_n_rootfh fh (set_program p' v' n))) =
    set_n_nested_mounts ms (set_n_rootfh fh (set_program p v n)).
Proof. reflexivity. Qed.

Lemma on_conf_nested f ms n : on_conf f (set_n_nested_mounts ms n) = set_n_nested_mounts ms (on_conf f n).
Proof. reflexivity. Qed.

Lemma nested_nested ms ms' n : set_n_nested_mounts ms (set_n_nested_mounts ms' n) = set_n_nested_mounts ms n.
Proof. reflexivity. Qed.

(** C22: mounting: when the portmapper knows the servers, the MOUNT server gives the handle of the
    export and of all exports below it, and the NFS server answers, the callback is called once with
    0 and the context has the handle; its nested mounts are the exports below, in the order they
    were answered in, with the attributes their server gives, in front of those it had before, which
    neither unmounting nor this drops; its sizes of transfers are the smaller of the client's and the
    server's, but not below 8192; and the transport is made as resilient as was asked for. *)
Theorem mount_succeeds (srv : server) n server export fh exs res st1 st2 :
  n_sends n = [] -> ipv6 n = false -> export <> [] -> c_auto_traverse_mounts (n_conf n) <> 0 -> sizes_ok (n_conf n) ->
  service_up srv (c_mountport (n_conf n)) MOUNT_PROGRAM MOUNT_V3 ->
  srv (MOUNT_MNT export) = Result MNT3_OK fh -> srv MOUNT_EXPORT = Result st1 exs ->
  (forall it, it ∈ below export exs -> exists h, srv (MOUNT_MNT it.2) = Result MNT3_OK h) ->
  service_up srv (c_nfsport (n_conf n)) NFS_PROGRAM NFS_V3 ->
  srv (FSINFO fh) = Result NFS3_OK res -> (exists a, srv (GETATTR fh) = Result st2 a) ->
  exists ms, ms ≡ₚ refreshed srv <$> (item_mount srv <$> below export exs) ++ n_nested_mounts n /\
    run srv (nfs3_mount_async user n server export) =
      Some ([(0, NoData)],
        set_n_nested_mounts ms
          (on_conf set_resiliency (on_conf (sized res) (set_n_rootfh fh
            (set_program NFS_PROGRAM NFS_V3 (set_n_export export (on_conf (set_c_server server) n))))))).
Proof.
  intros Hq Hv Hex Hau Hsz Hup1 Hm Hexs Hok Hup2 Hfs [a Hga].
  unfold nfs3_mount_async. rewrite run_after_leave. set (n0 := set_n_export export (on_conf (set_c_server server) n)).
  rewrite (run_connect srv MOUNT_PROGRAM MOUNT_V3 (nfs3_mount_1_cb user) n0); [|done|done|exact Hup1]. unfold nfs3_mount_1_cb. cbn [check_nfs3_error].
  set (n1 := set_program MOUNT_PROGRAM MOUNT_V3 n0). change (n_export n1) with export. rewrite run_send by done. rewrite Hm.
  unfold nfs3_mount_2_cb. cbn [check_nfs3_error]. change (negb (MNT3_OK =? MNT3_OK)) with false. cbv iota zeta.
  set (n2 := set_n_rootfh fh n1). change (c_auto_traverse_mounts (n_conf n2)) with (c_auto_traverse_mounts (n_conf n)).
  rewrite (proj2 (Z.eqb_neq _ 0) Hau). cbn [negb]. rewrite run_send by done. rewrite Hexs.
  unfold nfs3_mount_3_cb. cbn [check_nfs3_error]. change (n_export n2) with export. rewrite bool_decide_false by done.
  rewrite send_mnts_queued by (done || lia).
  assert (HC : forall ms, ms ≡ₚ (item_mount srv <$> below export exs) ++ n_nested_mounts n2 ->
    exists ms', ms' ≡ₚ refreshed srv <$> (item_mount srv <$> below export exs) ++ n_nested_mounts n /\
    run srv (connect_nfs user (set_n_nested_mounts ms n2)) = Some ([(0, NoData)],
      set_n_nested_mounts ms' (on_conf set_resiliency (on_conf (sized res) (set_n_rootfh fh (set_program NFS_PROGRAM NFS_V3 n0)))))).
  { intros ms Hp. exists (refreshed srv <$> ms). split; [by rewrite Hp|]. set (n3 := set_n_nested_mounts ms n2).
    rewrite (run_connect_nfs srv n3); [|done|done|exact Hup2]. unfold nfs3_mount_5_cb. cbn [check_nfs3_error]. rewrite run_send by done.
    change (n_rootfh (set_program NFS_PROGRAM NFS_V3 n3)) with fh.
    assert (Hsz3 : sizes_ok (n_conf (set_program NFS_PROGRAM NFS_V3 n3))) by (destruct Hsz; by split).
    rewrite Hfs, mount_6_run by done.
    change (n_rootfh (set_program NFS_PROGRAM NFS_V3 n3)) with fh. rewrite Hga, mount_7_run by done. unfold n3, n2, n1.
    by rewrite set_program_again, !on_conf_nested, nested_nested. }
  case_bool_decide as Hl.
  - destruct (HC (n_nested_mounts n2)) as (ms' & H1 & H2); [by rewrite Hl|]. exists ms'. split; [done|].
    rewrite <- H2. done.
  - apply (mnts_run srv n2 (below export exs) (fun r => exists ms', ms' ≡ₚ _ /\ r = Some ([(0, NoData)], _))); [done|done|].
    exact HC.
Qed.

(** A size of transfers of the server below 8192 is not respected: whatever FSINFO returns, the sizes
    after it are multiples of 4096 from 8192 to 4 MB (the test for small sizes looks at the client's
    own, nfs_v3.c:715), so they are at most the server's exactly if that is at least 8192. *)
Theorem fsinfo_sizes cb n r out n' ret next :
  sizes_ok (n_conf n) -> (forall n e d, exists o r nx, cb n e d = Call o n r nx) ->
  nfs3_mount_6_cb cb n r = Call out n' ret next ->
  sizes_ok (n_conf n') /\
  forall res, r = Result NFS3_OK res -> fi_rtmax res <= c_readmax (n_conf n) -> fi_wtmax res <= c_writemax (n_conf n) ->
    (c_readmax (n_conf n') <= fi_rtmax res <-> NFSMAXDATA2 <= fi_rtmax res) /\
    (c_writemax (n_conf n') <= fi_wtmax res <-> NFSMAXDATA2 <= fi_wtmax res).
Proof.
  intros Hs Hcb. unfold nfs3_mount_6_cb, check_result.
  assert (Hsame : forall n1 e d, cb n1 e d = Call out n' ret next -> n' = n1).
  { intros n1 e d H. destruct (Hcb n1 e d) as (o & r0 & nx & E). rewrite E in H. by injection H as <- <- <- <-. }
  destruct r as [| | |st res]; cbn [check_nfs3_error]; try (intros ->%Hsame; by split).
  destruct (Z.eqb_spec st NFS3_OK) as [->|Hst].
  2:{ intros ->%Hsame. split; [done|]. intros res' H. by injection H as -> _. }
  pose proof Hs as [[[H1 _] _] [[H2 _] _] [[H3 _] _] _]. unfold NFS_MIN_XFER_SIZE in *. cbv zeta.
  rewrite (proj2 (Z.ltb_ge _ _) H1), (proj2 (Z.ltb_ge _ _) H2), (proj2 (Z.ltb_ge _ _) H3). intros Hc.
  assert (E : n_conf n' = sized res (n_conf n)).
  { unfold send in Hc. destruct (n_sends _) as [|[] l]; [by injection Hc as <- <- <- <-|by injection Hc as <- <- <- <-|].
    apply Hsame in Hc. by subst n'. }
  rewrite E. split; [split; apply xfer_size_ok|]. intros res' Hr Hrt Hwt. injection Hr as <-.
  assert (X : forall x y, x <= y -> xfer_size (Z.min y x) <= x <-> NFSMAXDATA2 <= x).
  { intros x y H. rewrite Z.min_r by done. split; [|apply xfer_size_le].
    pose proof (xfer_size_ok x) as [[Hx _] _]. unfold NFS_MIN_XFER_SIZE in Hx. lia. }
  split; by apply X.
Qed.

(** ** Nested exports that cannot be mounted *)

Lemma mountstat3_nonzero st : st <> MNT3_OK -> mountstat3_to_errno st <> 0.
Proof.
  unfold mountstat3_to_errno, MNT3_OK. intros H. destruct st as [|p|p]; [done| |done].
  repeat (destruct p as [p|p|]; try done).
Qed.

(** One nested export that cannot be mounted fails the mount, though "there is no need to fail the
    whole mount if anything below fails" (nfs_v3.c:952): when the MOUNT server has answered for all
    nested exports and refused one, the mount ends with the error of one that was refused. *)
Theorem nested_failure_fails_mount (srv : server) n export exs st0 :
  n_sends n = [] -> n_export n = export -> export <> [] ->
  (forall it, it ∈ below export exs -> exists st h, srv (MOUNT_MNT it.2) = Result st h) ->
  (exists it st h, it ∈ below export exs /\ srv (MOUNT_MNT it.2) = Result st h /\ st <> MNT3_OK) ->
  exists it st h n', it ∈ below export exs /\ srv (MOUNT_MNT it.2) = Result st h /\ st <> MNT3_OK /\
    run srv (nfs3_mount_3_cb user n (Result st0 exs)) = Some ([(mountstat3_to_errno st, Message)], n').
Proof.
  intros Hq He Hex Hall Hbad. unfold nfs3_mount_3_cb. cbn [check_nfs3_error]. rewrite He, bool_decide_false by done.
  rewrite send_mnts_queued by (done || lia).
  assert (Hne : below export exs <> []).
  { destruct Hbad as (it & st & h & Hin & _). intros E. rewrite E in Hin. by apply not_elem_of_nil in Hin. }
  rewrite bool_decide_false by done.
  set (items := below export exs) in *.
  assert (G : (fun r => exists it st h n', it ∈ items /\ srv (MOUNT_MNT it.2) = Result st h /\ st <> MNT3_OK /\
    r = Some ([(mountstat3_to_errno st, Message)], n')) (run srv (Call [] n 0
    (flight (fun item : bytes * bytes => MOUNT_MNT item.2) (fun item => nfs3_mount_4_cb item.1)
             (fun md => (md_wait_count md =? 0)%nat) (discovery_finish user) (length items) items (mkDiscovery (length items) 0 false))))).
  2:{ exact G. }
  apply (flight_run srv _ _ _ _ (fun l _ md => md_wait_count md = length l /\ md_cancelled md = false /\
    (forall it, it ∈ l -> it ∈ items) /\
    ((exists it st h, it ∈ l /\ srv (MOUNT_MNT it.2) = Result st h /\ st <> MNT3_OK) \/
     (exists it st h, it ∈ items /\ srv (MOUNT_MNT it.2) = Result st h /\ st <> MNT3_OK /\ md_error md = mountstat3_to_errno st))));
    [|done|done|].
  2:{ split; [done|]. split; [done|]. split; [done|]. by left. }
  intros l n0 md j [path ex] (Hc & Hca & Hsub & Hf) Hj. cbn [fst snd]. pose proof (delete_Permutation l j _ Hj) as Hl.
  assert (Hin : (path, ex) ∈ items) by (apply Hsub; by eapply list_elem_of_lookup_2).
  destruct (Hall _ Hin) as (st & h & E). cbn [snd] in E. rewrite E. cbn [nfs3_mount_4_cb].
  assert (Hl' : length (delete j l) = (length l - 1)%nat) by (rewrite length_delete by (by eexists); lia).
  assert (Hsub' : forall it, it ∈ delete j l -> it ∈ items) by (intros it H; apply Hsub; rewrite Hl; by apply list_elem_of_further).
  set (md' := if st =? MNT3_OK then mkDiscovery (md_wait_count md - 1) (md_error md) (md_cancelled md)
    else mkDiscovery (md_wait_count md - 1) (mountstat3_to_errno st) (md_cancelled md)).
  assert (Hf' : (exists it st h, it ∈ delete j l /\ srv (MOUNT_MNT it.2) = Result st h /\ st <> MNT3_OK) \/
    (exists it st h, it ∈ items /\ srv (MOUNT_MNT it.2) = Result st h /\ st <> MNT3_OK /\ md_error md' = mountstat3_to_errno st)).
  { unfold md'. destruct (Z.eqb_spec st MNT3_OK) as [Hst|Hst]; [|right; by exists (path, ex), st, h].
    destruct Hf as [(it & st1 & h1 & H1 & H2 & H3)|Hf]; [left|by right]. exists it, st1, h1. split; [|done].
    rewrite Hl in H1. apply elem_of_cons in H1 as [->|H1]; [|done]. cbn [snd] in H2. rewrite E in H2. by injection H2 as <- _. }
  assert (Hmd : md_wait_count md' = (md_wait_count md - 1)%nat /\ md_cancelled md' = false)
    by (unfold md'; destruct (st =? MNT3_OK); done).
  assert (Hlet : forall (P : nfs -> mount_discovery_cb -> Prop), (forall n, P n md') ->
    let '(n', x') := if st =? MNT3_OK
      then (set_n_nested_mounts (mkMount path h zero_attr :: n_nested_mounts n0) n0, mkDiscovery (md_wait_count md - 1) (md_error md) (md_cancelled md))
      else (n0, mkDiscovery (md_wait_count md - 1) (mountstat3_to_errno st) (md_cancelled md)) in P n' x').
  { intros P HP. unfold md' in HP. destruct (st =? MNT3_OK); apply HP. }
  apply Hlet. intros n1. destruct Hmd as [M1 M2].
  destruct (delete j l) as [|it l'] eqn:Ed; [rewrite bool_decide_true by done|rewrite bool_decide_false by done].
  - split; [rewrite M1, Hc, <- Hl'; done|]. destruct Hf' as [(it & _ & _ & H & _)|(it & st1 & h1 & H1 & H2 & H3 & H4)];
      [by apply not_elem_of_nil in H|].
    unfold discovery_finish. rewrite M2, H4, (proj2 (Z.eqb_neq _ 0) (mountstat3_nonzero _ H3)). cbn [negb].
    by exists it, st1, h1, n1.
  - split; [rewrite M1, Hc, <- Hl'; done|]. split; [rewrite M1, Hc; exact (eq_sym Hl')|]. done.
Qed.
