(* ===== verification/MountExamples.v ===== *)
(** * MountExamples: the theorems about mounting and directories at work

    A server that exports "/x" and "/x/y", whose root directory has the entries
    "f", with attributes, and "g", without, and returns them one at a time. *)

From S2P Require Import Prelude Path Nfs4Data Settings Url Nfs3 Lookup LookupProps Nfs3Ops Nfs3Props Nfs3Dir Nfs3DirProps Mount MountProps.

Definition export_x : bytes := [47; 120].
Definition export_y : bytes := [47; 120; 47; 121].
Definition regular : fattr3 := mkFattr NF3REG 420 1 0 0 5 512 (0, 0) 1 7 (mkTime 1 0) (mkTime 1 0) (mkTime 1 0).
Definition directory : fattr3 := mkFattr NF3DIR 493 2 0 0 5 512 (0, 0) 1 8 (mkTime 2 0) (mkTime 2 0) (mkTime 2 0).
Definition listed : list entry3 := [mkEntry 7 [102] 11 (Some regular); mkEntry 9 [103] 12 None].

Definition answers (refuse_y : bool) (q : request) : reply (resok q) :=
  match q return reply (resok q) with
  | GETATTR _ => Result 0 directory
  | LOOKUP _ nm => if beq nm [100] then Result 0 ([3], Some directory) else Result 0 ([4], Some regular)
  | ACCESS _ access => Result 0 access
  | READLINK _ => Result 22 []
  | READ _ _ _ => Result 0 (0, [])
  | WRITE _ _ count _ _ => Result 0 count
  | CREATE _ _ _ _ => Result 0 None
  | FSSTAT _ => Result 0 (mkFsstat 0 0 0 0 0 0)
  | READDIR _ _ _ _ => Result 0 (mkReaddir None [] [] true)
  | READDIRPLUS _ cookie _ _ _ =>
      let i := if cookie =? 11 then 1%nat else if cookie =? 12 then 2%nat else O in
      Result 0 (mkReaddir (Some directory) [] (take 1 (drop i listed)) (2 <=? i + 1)%nat)
  | FSINFO _ => Result 0 (mkFsinfo 65536 4096 65536)
  | MOUNT_MNT dirpath =>
      if beq dirpath export_x then Result 0 [0] else if refuse_y then Result 13 [] else Result 0 [9]
  | MOUNT_EXPORT => Result 0 [export_y; export_x]
  | PMAP2_GETPORT _ _ _ => Result 0 2049
  | PMAP3_GETADDR _ _ => Result 0 None
  | COMPOUND _ => Result 0 []
  | _ => Result 0 tt
  end.

Definition exporting : server := mkServer (answers false) (fun _ => O).
Definition refusing : server := mkServer (answers true) (fun _ => O).

Definition unmounted : nfs := mkNfs (init_settings 0 0) [] [slash] [] [] [] ∅ 0 ∅ no_nfs4 [].
Definition mounted : nfs := mkNfs (init_settings 0 0) export_x [slash] [0] [] [] ∅ 0 ∅ no_nfs4 [].

Lemma export_settled : settled mounted [].
Proof. split; [reflexivity|reflexivity|apply spells_root]. Qed.

Lemma services_up program version : service_up exporting 0 program version.
Proof.
  split; [by exists 0, tt|]. split; [by exists 0, tt|]. exists 0, 2049. split; [done|]. split; [done|].
  split; by exists 0, tt.
Qed.

Lemma below_x : below export_x [export_y; export_x] = [([47; 121], export_y)].
Proof. reflexivity. Qed.

(** The read size is the server's, the write size is 8192, more than it. *)
Lemma mount_succeeds_witness : exists n', run exporting (nfs3_mount_async user unmounted [104] export_x) = Some ([(0, NoData)], n').
Proof.
  destruct (mount_succeeds exporting unmounted [104] export_x [0] [export_y; export_x] (mkFsinfo 65536 4096 65536) 0 0
    eq_refl eq_refl ltac:(discriminate) ltac:(discriminate) (init_sizes_ok 0 0) (services_up _ _) eq_refl eq_refl) as (ms & _ & H).
  - intros it Hin. exists [9]. rewrite below_x in Hin. apply list_elem_of_singleton in Hin. subst it. reflexivity.
  - apply services_up.
  - reflexivity.
  - exists directory. reflexivity.
  - eexists. exact H.
Defined.

Lemma nested_failure_witness : exists it st h n',
  it ∈ below export_x [export_y; export_x] /\ refusing (MOUNT_MNT it.2) = Result st h /\ st <> MNT3_OK /\
  run refusing (nfs3_mount_3_cb user mounted (Result 0 [export_y; export_x])) = Some ([(mountstat3_to_errno st, Message)], n').
Proof.
  apply (nested_failure_fails_mount refusing mounted export_x [export_y; export_x] 0 eq_refl eq_refl ltac:(discriminate)).
  - intros it Hin. rewrite below_x in Hin. apply list_elem_of_singleton in Hin. subst it. exists 13, []. reflexivity.
  - exists ([47; 121], export_y), 13, []. rewrite below_x. split; [apply list_elem_of_here|]. split; [reflexivity|discriminate].
Defined.

Lemma mount_calls_back_once_witness :
  starts refusing (nfs3_mount_async user unmounted [104] export_x) /\ starts refusing (nfs3_umount_async user unmounted).
Proof. apply (mount_calls_back_once refusing unmounted [104] export_x). reflexivity. Defined.

(** A server that writes at most 4096 bytes is sent 8192. *)
Lemma fsinfo_sizes_witness : exists out n' ret next,
  nfs3_mount_6_cb user mounted (Result NFS3_OK (mkFsinfo 65536 4096 65536)) = Call out n' ret next /\ sizes_ok (n_conf n').
Proof.
  destruct (nfs3_mount_6_cb user mounted (Result NFS3_OK (mkFsinfo 65536 4096 65536))) as [out n' ret next|] eqn:E.
  - exists out, n', ret, next. split; [reflexivity|].
    refine (proj1 (fsinfo_sizes user mounted (Result NFS3_OK (mkFsinfo 65536 4096 65536)) out n' ret next (init_sizes_ok 0 0) _ E)).
    intros n e d. eexists _, _, _. reflexivity.
  - vm_compute in E. discriminate E.
Defined.

(** ** Directories *)

Lemma listed_served : serves_dir exporting [3] listed (Some directory).
Proof.
  intros i verf dc mc Hi. exists 1%nat, []. split; [lia|]. do 3 (destruct i as [|i]; [reflexivity|]). cbn in Hi. lia.
Qed.

Lemma opendir_lists_witness :
  run exporting (nfs3_opendir_async user 3 mounted [slash; 100]) =
    Some ([(0, Directory (mkDir [3] (fattr3_to_nfs_attr directory)
             [mkDirent [103] 9 (dirent_attr_of (fattr3_to_nfs_attr regular)); mkDirent [102] 7 (dirent_attr_of (fattr3_to_nfs_attr regular))] 0))],
          mounted).
Proof.
  exact (opendir_lists exporting mounted [] [slash; 100] [[100]] [3] (Some (fattr3_to_nfs_attr directory)) [[100]] listed (Some directory) 3
    export_settled eq_refl eq_refl ltac:(discriminate) eq_refl listed_served ltac:(cbn; lia)).
Defined.

Definition unread : nfsdir := mkDir [3] zero_attr [mkDirent [102] 7 no_dirent_attr] 0.

Lemma missing_attributes_witness :
  run exporting (lookup_missing_attributes user [3] mounted unread) =
    Some ([(0, Directory (mkDir [3] zero_attr [mkDirent [102] 7 (dirent_attr_of (fattr3_to_nfs_attr regular))] 0))], mounted).
Proof. exact (missing_attributes_any_order exporting [3] mounted unread eq_refl). Defined.

Lemma cache_without_attributes_witness :
  nfs3_opendir_continue_internal user 1 (set_n_dircache [unread] mounted) (Some zero_attr) (mkFound [3] [47; 100]) =
    Call [(0, Directory unread)] mounted 0 [].
Proof. exact (cache_without_attributes_is_fresh user 1 (set_n_dircache [unread] mounted) mounted (mkFound [3] [47; 100]) unread eq_refl eq_refl). Defined.

Lemma telldir_seekdir_witness :
  read_all 1 (nfs_rewinddir unread) = d_entries unread /\
  (d_current (nfs_seekdir unread (nfs_telldir unread)) = d_current unread /\
   read_all 1 (nfs_seekdir unread (nfs_telldir unread)) = read_all 1 unread).
Proof. exact (telldir_seekdir unread unread 1 eq_refl (Nat.le_0_l _) (le_n _)). Defined.
