(* ===== verification/Nfs4Attr.v ===== *)
(** * Nfs4Attr: attributes of NFSv4 (lib/nfs_v4.c)

    The attributes a server returns are a string of bytes, in the order of the
    bits that asked for them, which the client takes apart with a pointer and
    the number of bytes left.  [Short] is the error "Not enough data in fattr4";
    [Overrun] is undefined behaviour: a read or a pointer outside of the bytes,
    or a user id that overflows an [int].  The bytes left are not counted down
    by the names of owner and group.

    [getpwnam] is the user database of the system: the ids of a user. *)

From S2P Require Import Prelude Path Settings Url Nfs4Data Nfs3 Nfs3Ops.

Inductive parsed (A : Type) := Parsed (a : A) | Short | Overrun.
Arguments Parsed {A}. Arguments Short {A}. Arguments Overrun {A}.

(** ** Numbers *)

Definition of_be64 (b : bytes) : Z := Z.lor (Z.shiftl (of_be32 (take 4 b)) 32) (of_be32 (drop 4 b)).
Definition be64 (x : Z) : bytes := be32 (Z.shiftr x 32) ++ be32 x.

(** What a 64-bit load sees on a little-endian machine. *)
Definition of_le (b : bytes) : Z := fold_right (fun x acc => x + 256 * acc) 0 b.

(** [nfs_hton64] followed by [memcpy], and [memcpy] followed by [nfs_ntoh64]. *)
Definition nfs_hton64 (val : Z) : bytes := be64 val.
Definition nfs_pntoh64 (b : bytes) : Z := of_be64 b.

Definition specdata4_to_rdev (b : bytes) : Z := Z.lor (Z.shiftl (of_be32 (take 4 b)) 32) (of_be32 (drop 4 b)).

(** ** Taking bytes apart *)

Section parser.
Context (getpwnam : bytes -> option (Z * Z)) (b : bytes).

(** [buf], as an offset, and [len]. *)
Definition parser (A : Type) : Type := Z * Z -> parsed (A * (Z * Z)).

#[local] Instance parser_ret : MRet parser := fun A a s => Parsed (a, s).
#[local] Instance parser_bind : MBind parser := fun A B f p s =>
  match p s with Parsed (a, s) => f a s | Short => Short | Overrun => Overrun end.

Definition CHECK_GETATTR_BUF_SPACE (size : Z) : parser unit := fun '(pos, len) =>
  if len <? size then Short else Parsed (tt, (pos, len)).

(** [buf += k] *)
Definition advance (k : Z) : parser unit := fun '(pos, len) =>
  if (0 <=? pos + k) && (pos + k <=? blen b) then Parsed (tt, (pos + k, len)) else Overrun.

(** [len -= k] *)
Definition lessen (k : Z) : parser unit := fun '(pos, len) => Parsed (tt, (pos, len - k)).

Definition load (k : Z) : parser bytes := fun '(pos, len) =>
  match read_at pos k b with Some d => Parsed (d, (pos, len)) | None => Overrun end.

(** A field of [k] bytes: checked, read and passed. *)
Definition field (k : Z) : parser bytes :=
  CHECK_GETATTR_BUF_SPACE k ;; d ← load k; advance k ;; lessen k ;; mret d.

(** The loop of [nfs_get_ugid] over the bytes from [buf] on; a byte that is no
    digit ends it. *)
Fixpoint ugid_digits (slen ugid : Z) (rest : bytes) : option (option Z) :=
  if slen =? 0 then Some (Some ugid)
  else
    match rest with
    | [] => None
    | c :: rest =>
        if isdigit c then
          if fits_int (ugid * 10) && fits_int (ugid * 10 + (c - 48)) then ugid_digits (slen - 1) (ugid * 10 + (c - 48)) rest
          else None
        else Some None
    end.

(** A name that is no number is looked up, up to the NUL behind it; 65534 is
    nobody. *)
Definition nfs_get_ugid (slen : Z) (is_user : bool) : parser Z := fun '(pos, len) =>
  let rest := drop (Z.to_nat pos) b in
  match ugid_digits slen 0 rest with
  | None => Overrun
  | Some (Some ugid) => Parsed (ugid, (pos, len))
  | Some None =>
      if bool_decide (0 ∈ rest) then
        match getpwnam (cstr rest) with
        | Some (uid, gid) => Parsed (i32 (if is_user then uid else gid), (pos, len))
        | None => Parsed (65534, (pos, len))
        end
      else Overrun
  end.

Definition owner (is_user : bool) : parser Z :=
  l ← field 4;
  let slen := i32 (of_be32 l) in
  let pad := Z.land (4 - Z.land slen 3) 3 in
  CHECK_GETATTR_BUF_SPACE slen ;;
  id ← nfs_get_ugid slen is_user;
  advance slen ;;
  CHECK_GETATTR_BUF_SPACE pad ;;
  advance pad ;; lessen pad ;; mret (u64 id).

(** A time is checked as a whole. *)
Definition nfstime4 : parser nfs_time :=
  CHECK_GETATTR_BUF_SPACE 12 ;;
  s ← load 8; advance 8 ;; lessen 8 ;;
  ns ← load 4; advance 4 ;; lessen 4 ;;
  mret (mkTime (nfs_pntoh64 s) (of_be32 ns)).

Definition attributes : parser stat64 :=
  type ← field 4;
  size ← field 8;
  fsid ← field 16;
  ino ← field 8;
  mode ← field 4;
  nlink ← field 4;
  uid ← owner true;
  gid ← owner false;
  rdev ← field 8;
  used ← field 8;
  atime ← nfstime4;
  ctime ← nfstime4;
  mtime ← nfstime4;
  let used := nfs_pntoh64 used in
  mret (mkStat (Z.lxor (of_le (take 8 fsid)) (of_le (drop 8 fsid))) (nfs_pntoh64 ino)
    (Z.lor (of_be32 mode) (type_mode (i32 (of_be32 type)))) (of_be32 nlink) uid gid (specdata4_to_rdev rdev) (nfs_pntoh64 size)
    NFS_BLKSIZE (u64 (used + NFS_BLKSIZE - 1) / NFS_BLKSIZE) atime mtime ctime used).

(** What [nfs_parse_statvfs64] and [nfs_parse_statvfs] parse. *)
Definition statvfs : parser statvfs64 :=
  fsid ← field 16;
  favail ← field 8;
  ffree ← field 8;
  files ← field 8;
  namemax ← field 4;
  bavail ← field 8;
  bfree ← field 8;
  blocks ← field 8;
  mret (mkStatvfs NFS_BLKSIZE NFS_BLKSIZE (nfs_pntoh64 blocks / NFS_BLKSIZE) (nfs_pntoh64 bfree / NFS_BLKSIZE)
    (nfs_pntoh64 bavail / NFS_BLKSIZE) (nfs_pntoh64 files) (nfs_pntoh64 ffree) (nfs_pntoh64 favail) (of_be32 namemax)
    (Z.lor (nfs_pntoh64 (take 8 fsid)) (nfs_pntoh64 (drop 8 fsid)))).

(** The maximum of a READ and that of a WRITE; the first is set before the
    second is looked for. *)
Definition parse_rwmax (c : settings) : settings * parsed unit :=
  match field 8 (0, i32 (blen b)) with
  | Parsed (r, s) =>
      let c := nfs_set_readmax (nfs_pntoh64 r) c in
      match field 8 s with
      | Parsed (w, _) => (nfs_set_writemax (nfs_pntoh64 w) c, Parsed tt)
      | Short => (c, Short)
      | Overrun => (c, Overrun)
      end
  | Short => (c, Short)
  | Overrun => (c, Overrun)
  end.

Definition run_parser {A} (p : parser A) : parsed A :=
  match p (0, i32 (blen b)) with Parsed (a, _) => Parsed a | Short => Short | Overrun => Overrun end.
End parser.

Definition nfs_parse_attributes getpwnam (b : bytes) : parsed stat64 := run_parser b (attributes getpwnam b).
Definition nfs_parse_statvfs64 (b : bytes) : parsed statvfs64 := run_parser b (statvfs b).
(** The types of [struct statvfs] have 64 bits as well. *)
Definition nfs_parse_statvfs (b : bytes) : parsed statvfs64 := run_parser b (statvfs b).
Definition nfs_parse_rwmax (b : bytes) (c : settings) : settings * parsed unit := parse_rwmax b c.
