(* ===== verification/Nfs4.v ===== *)
(** * Nfs4: looking up paths and opening files with NFSv4 (lib/nfs_v4.c)

    An operation on a path is one compound: the operations that walk to the
    directory or file, a GETATTR, and what the operation's [op_filler] adds.  A
    link on the way makes the server stop; the client then reads the link with
    another compound, puts its target in the path and starts again.  Nothing
    limits how often: [links] is the number of lookups that may still be made,
    and a call that needs more is [Undef].

    [struct nfs4_cb_data] is a [cb_data]; the blobs of its filler are arguments
    of the [op_filler], or of the [open_next] that goes on after an open.  The
    callback of a compound is given the status of the compound and its results. *)

From S2P Require Import Prelude Path Settings Url Nfs4Data Nfs3 Lookup Nfs3Ops Nfs3File Nfs4Attr.

(** ** Errors *)

Definition NFS4_OK : Z := 0.
Definition NFS4ERR_SYMLINK : Z := 10029.

(** [nfsstat4_to_errno] (nfs4/nfs4.c), by the values of [enum nfsstat4]. *)
Definition nfsstat4_to_errno (error : Z) : Z :=
  match error with
  | 0 => 0
  | 1 => - EPERM
  | 2 => - ENOENT
  | 5 => - EIO
  | 6 => - ENXIO
  | 13 => - EACCES
  | 17 => - EEXIST
  | 18 => - EXDEV
  | 20 => - ENOTDIR
  | 21 => - EISDIR
  | 22 => - EINVAL
  | 27 => - EFBIG
  | 28 => - ENOSPC
  | 30 => - EROFS
  | 31 => - EMLINK
  | 63 => - ENAMETOOLONG
  | 66 => - ENOTEMPTY
  | 69 => - ERANGE
  | 70 => - EIO
  | 10001 | 10003 | 10004 | 10007 => - EINVAL
  | 10005 | 10006 | 10008 | 10009 | 10010 => - EIO
  | 10011 | 10014 => - EAGAIN
  | 10012 | 10013 | 10015 | 10016 | 10017 | 10018 | 10019 | 10020 | 10021 | 10022 | 10023 | 10024 => - EIO
  | 10025 | 10026 => - EINVAL
  | 10027 | 10028 | 10029 | 10030 => - EIO
  | 10032 => - EINVAL
  | 10033 | 10034 | 10035 => - EIO
  | 10036 => - EINVAL
  | 10037 | 10038 => - EIO
  | 10039 | 10040 | 10041 | 10042 | 10043 => - EINVAL
  | 10044 | 10045 | 10046 | 10047 | 10048 => - EIO
  | _ => - ERANGE
  end.

(** ** What an operation adds to the compound *)

Inductive op_filler :=
| populate_getfh
| populate_getattr
| populate_access (mode : Z)
| populate_mkdir (attrmask : list Z) (attr_vals : bytes)
| populate_remove
| populate_open
| populate_lookup_readlink
| populate_symlink (target : bytes)
| populate_readlink
| populate_link (fh : nfs_fh)
| populate_rename (fh : nfs_fh) (newname : bytes)
| populate_mknod (mode dev : Z)
| populate_readdir (cookie : Z)
| populate_chmod (sabuf : bytes)
| populate_chown (sabuf : bytes)
| populate_utimes (sabuf : bytes).

(** [open_cb]: what follows an open, with the attributes to set. *)
Inductive open_next := open_truncate (sabuf : bytes) | open_chmod (sabuf : bytes) | truncate_open (sabuf : bytes).

Record cb_data := mkCb4 {
  d4_path : bytes;
  d4_no_follow : bool;
  d4_open_owner : Z;
  d4_open_cb : option open_next;
  d4_filler : op_filler;
  d4_flags : Z;             (* filler.flags *)
  d4_data : bytes;          (* filler.data, the name of an object *)
  d4_attrmask : list Z;     (* blob1 of an open with O_CREAT *)
  d4_attr_vals : bytes      (* blob2 *)
}.

Definition set_d4_path x d := mkCb4 x (d4_no_follow d) (d4_open_owner d) (d4_open_cb d) (d4_filler d) (d4_flags d) (d4_data d) (d4_attrmask d) (d4_attr_vals d).
Definition set_d4_no_follow x d := mkCb4 (d4_path d) x (d4_open_owner d) (d4_open_cb d) (d4_filler d) (d4_flags d) (d4_data d) (d4_attrmask d) (d4_attr_vals d).
Definition set_d4_open_owner x d := mkCb4 (d4_path d) (d4_no_follow d) x (d4_open_cb d) (d4_filler d) (d4_flags d) (d4_data d) (d4_attrmask d) (d4_attr_vals d).
Definition set_d4_open_cb x d := mkCb4 (d4_path d) (d4_no_follow d) (d4_open_owner d) x (d4_filler d) (d4_flags d) (d4_data d) (d4_attrmask d) (d4_attr_vals d).
Definition set_d4_filler x d := mkCb4 (d4_path d) (d4_no_follow d) (d4_open_owner d) (d4_open_cb d) x (d4_flags d) (d4_data d) (d4_attrmask d) (d4_attr_vals d).
Definition set_d4_flags x d := mkCb4 (d4_path d) (d4_no_follow d) (d4_open_owner d) (d4_open_cb d) (d4_filler d) x (d4_data d) (d4_attrmask d) (d4_attr_vals d).
Definition set_d4_data x d := mkCb4 (d4_path d) (d4_no_follow d) (d4_open_owner d) (d4_open_cb d) (d4_filler d) (d4_flags d) x (d4_attrmask d) (d4_attr_vals d).
Definition set_d4_create mask vals d := mkCb4 (d4_path d) (d4_no_follow d) (d4_open_owner d) (d4_open_cb d) (d4_filler d) (d4_flags d) (d4_data d) mask vals.

(** [calloc] *)
Definition new_cb_data (path : bytes) (filler : op_filler) : cb_data := mkCb4 path false 0 None filler 0 [] [] [].

Definition set_n4_clientid x v := mkNfs4 (n4_verifier v) (n4_client_name v) x (n4_setclientid_confirm v) (n4_open_counter v) (n4_has_lock_owner v) (n4_seed v).
Definition set_n4_confirm x v := mkNfs4 (n4_verifier v) (n4_client_name v) (n4_clientid v) x (n4_open_counter v) (n4_has_lock_owner v) (n4_seed v).
Definition set_n4_open_counter x v := mkNfs4 (n4_verifier v) (n4_client_name v) (n4_clientid v) (n4_setclientid_confirm v) x (n4_has_lock_owner v) (n4_seed v).
Definition set_n4_has_lock_owner x v := mkNfs4 (n4_verifier v) (n4_client_name v) (n4_clientid v) (n4_setclientid_confirm v) (n4_open_counter v) x (n4_seed v).
Definition set_n4_seed x v := mkNfs4 (n4_verifier v) (n4_client_name v) (n4_clientid v) (n4_setclientid_confirm v) (n4_open_counter v) (n4_has_lock_owner v) x.
Definition on_v4 (f : nfs4 -> nfs4) (n : nfs) : nfs := set_n_v4 (f (n_v4 n)) n.

Definition set_h_v4 (v : nfsfh4) (f : nfsfh) : nfsfh :=
  mkNfsfh (h_fh f) (h_sync f) (h_append f) (h_readonly f) (h_dirty f) (h_offset f) v.
Definition set_h4_stateid x v := mkFh4 x (h4_open_owner v) (h4_open_seqid v) (h4_lock_seqid v) (h4_lock_stateid v).
Definition set_h4_open_seqid x v := mkFh4 (h4_stateid v) (h4_open_owner v) x (h4_lock_seqid v) (h4_lock_stateid v).
Definition set_h4_lock_seqid x v := mkFh4 (h4_stateid v) (h4_open_owner v) (h4_open_seqid v) x (h4_lock_stateid v).
Definition set_h4_lock_stateid x v := mkFh4 (h4_stateid v) (h4_open_owner v) (h4_open_seqid v) (h4_lock_seqid v) x.

(** ** Operations of a compound *)

(** A word of a bitmap: the attributes [l]. *)
Definition bits (l : list Z) : Z := fold_right (fun i w => Z.lor (Z.shiftl 1 i) w) 0 l.

Definition standard_attributes : list Z := [bits [1; 4; 8; 20]; bits [1; 3; 4; 5; 9; 13; 15; 20; 21]].
Definition statvfs_attributes : list Z := [bits [8; 21; 22; 23; 29]; bits [10; 11; 12]].
Definition rwmax_attributes : list Z := [bits [30; 31]].

(** FATTR4_MODE; FATTR4_SIZE and FATTR4_TIME_MODIFY_SET; FATTR4_OWNER and
    FATTR4_OWNER_GROUP; FATTR4_TIME_ACCESS_SET and FATTR4_TIME_MODIFY_SET. *)
Definition mode_mask : list Z := [0; bits [1]].
Definition truncate_mask : list Z := [bits [4]; bits [22]].
Definition owner_mask : list Z := [0; bits [4; 5]].
Definition times_mask : list Z := [0; bits [16; 22]].

Definition ACCESS4_READ : Z := 1.
Definition ACCESS4_MODIFY : Z := 4.
Definition ACCESS4_EXECUTE : Z := 32.
Definition OPEN4_SHARE_ACCESS_READ : Z := 1.
Definition OPEN4_SHARE_ACCESS_WRITE : Z := 2.
Definition OPEN4_SHARE_DENY_NONE : Z := 0.
Definition OPEN4_RESULT_CONFIRM : Z := 2.

Definition nfs4_op_access (access_mask : Z) : nfs_argop4 := OP_ACCESS access_mask.
Definition nfs4_op_putfh (fh : nfs_fh) : nfs_argop4 := OP_PUTFH fh.
Definition nfs4_op_getattr (attributes : list Z) : nfs_argop4 := OP_GETATTR attributes.
Definition nfs4_op_commit : nfs_argop4 := OP_COMMIT 0 0.
Definition nfs4_op_close (f : nfsfh) : list nfs_argop4 :=
  (if h_dirty f then [nfs4_op_commit] else []) ++ [OP_CLOSE (h4_open_seqid (h_v4 f)) (h4_stateid (h_v4 f))].
Definition nfs4_op_open_confirm (f : nfsfh) : nfs_argop4 := OP_OPEN_CONFIRM (h4_stateid (h_v4 f)) (h4_open_seqid (h_v4 f)).
Definition nfs4_op_truncate (f : nfsfh) (sabuf : bytes) : nfs_argop4 := OP_SETATTR (Some (h4_stateid (h_v4 f))) truncate_mask sabuf.

(** Without an open file the stateid is what is in the memory. *)
Definition nfs4_op_chmod (f : option nfsfh) (sabuf : bytes) : nfs_argop4 :=
  OP_SETATTR ((fun f => h4_stateid (h_v4 f)) <$> f) mode_mask sabuf.
Definition nfs4_op_chown (f : option nfsfh) (sabuf : bytes) : nfs_argop4 :=
  OP_SETATTR ((fun f => h4_stateid (h_v4 f)) <$> f) owner_mask sabuf.
Definition nfs4_op_utimes (f : option nfsfh) (sabuf : bytes) : nfs_argop4 :=
  OP_SETATTR ((fun f => h4_stateid (h_v4 f)) <$> f) times_mask sabuf.

(** The verifier of the cookie is always zero. *)
Definition nfs4_op_readdir (n : nfs) (cookie : Z) : nfs_argop4 :=
  OP_READDIR cookie (replicate 8 0) (c_readdir_dircount (n_conf n)) (c_readdir_maxcount (n_conf n)) standard_attributes.
Definition nfs4_op_read (f : nfsfh) (offset count : Z) : nfs_argop4 := OP_READ (h4_stateid (h_v4 f)) offset (u32 count).

(** A WRITE that need not be stable makes the file dirty. *)
Definition UNSTABLE4 : Z := 0.
Definition DATA_SYNC4 : Z := 1.
Definition nfs4_op_write (f : nfsfh) (offset : Z) (data : bytes) : nfsfh * nfs_argop4 :=
  if h_sync f then (f, OP_WRITE (h4_stateid (h_v4 f)) offset DATA_SYNC4 data)
  else (set_h_dirty f, OP_WRITE (h4_stateid (h_v4 f)) offset UNSTABLE4 data).

(** The callback address is garbage, as the code says. *)
Definition nfs4_op_setclientid (verifier client_name : bytes) : nfs_argop4 := OP_SETCLIENTID verifier client_name 0 1.

(** [major] and [minor] of [dev] are those of sys/sysmacros.h for an [int]. *)
Definition dev_major (dev : Z) : Z :=
  let d := u64 dev in u32 (Z.lor (Z.land (Z.shiftr d 8) 4095) (Z.land (Z.shiftr d 32) (4294967295 - 4095))).
Definition dev_minor (dev : Z) : Z :=
  let d := u64 dev in u32 (Z.lor (Z.land d 255) (Z.land (Z.shiftr d 12) (4294967295 - 255))).

(** [type] is one of [nfs_ftype4], which are those of NFSv3; what makes an
    object of another type is not used. *)
Definition nfs4_op_create (name : bytes) (type : Z) (attrmask : list Z) (attr_vals linkdata : bytes) (dev : Z) : nfs_argop4 :=
  OP_CREATE
    (if type =? NF3LNK then NF4LNK_ linkdata
     else if type =? NF3CHR then NF4CHR_ (dev_major dev) (dev_minor dev)
     else if type =? NF3BLK then NF4BLK_ (dev_major dev) (dev_minor dev)
     else NF4DIR_) name attrmask attr_vals.
Definition nfs4_op_rename (oldname newname : bytes) : nfs_argop4 := OP_RENAME oldname newname.
Definition nfs4_op_getfh : nfs_argop4 := OP_GETFH.
Definition nfs4_op_savefh : nfs_argop4 := OP_SAVEFH.
Definition nfs4_op_link (newname : bytes) : nfs_argop4 := OP_LINK newname.
Definition nfs4_op_lookup (path : bytes) : nfs_argop4 := OP_LOOKUP path.
Definition nfs4_op_setclientid_confirm (clientid : Z) (verifier : bytes) : nfs_argop4 := OP_SETCLIENTID_CONFIRM clientid verifier.
Definition nfs4_op_putrootfh : nfs_argop4 := OP_PUTROOTFH.
Definition nfs4_op_readlink : nfs_argop4 := OP_READLINK.
Definition nfs4_op_remove (name : bytes) : nfs_argop4 := OP_REMOVE name.

(** ** Paths *)

(** [None] is undefined behaviour, [Some None] a path that is refused. *)
Definition nfs4_resolve_path (n : nfs) (path : bytes) : option (option bytes) :=
  let new_path := if bool_decide (head path = Some slash) then path else n_cwd n ++ slash :: path in
  '(p, r) ← nfs_normalize_path new_path; Some (if r =? 0 then Some p else None).

(** A path without a slash (normalising can leave nothing) is a NULL pointer. *)
Definition data_split_path (d : cb_data) : option cb_data :=
  match strrchr_slash (d4_path d) with
  | None => None
  | Some ([], name) => Some (set_d4_data name (set_d4_path [slash] d))
  | Some (dir, name) => Some (set_d4_data name (set_d4_path dir d))
  end.

Fixpoint nfs4_num_path_components (path : bytes) : nat :=
  match path with
  | [] => O
  | c :: path => if c =? slash then S (nfs4_num_path_components path) else nfs4_num_path_components path
  end.

(** The LOOKUPs for what is behind the first byte of a path. *)
Fixpoint op_lookups (fuel : nat) (ptr : bytes) : list nfs_argop4 :=
  match fuel, ptr with
  | S fuel, _ :: _ =>
      match strchr_slash ptr with
      | Some (name, rest) => nfs4_op_lookup name :: op_lookups fuel rest
      | None => [nfs4_op_lookup ptr]
      end
  | _, _ => []
  end.

(** [path] is a buffer, which may have a NUL in it.  There is place for as many
    LOOKUPs as the path has slashes. *)
Definition nfs4_allocate_op (n : nfs) (path : bytes) : option (list nfs_argop4) :=
  match path with
  | [] => None
  | _ :: ptr =>
      let root := match n_rootfh n with [] => nfs4_op_putrootfh | fh => nfs4_op_putfh fh end in
      let lookups := op_lookups (length ptr) (cstr ptr) in
      if (length lookups <=? nfs4_num_path_components (cstr path))%nat
      then Some (root :: lookups ++ [nfs4_op_getattr standard_attributes]) else None
  end.

(** What the client gets from the system: the user database, the seed of its
    first verifier, made of the clock and the process id, and what a word of
    memory that is not set holds. *)
Record system := mkSystem { sys_getpwnam : bytes -> option (Z * Z); sys_first_seed : Z; sys_garbage : Z }.

Section nfs4.
Context (os : system) (cb : nfs -> Z -> payload -> call).

(** ** Fillers *)

Fixpoint le_bytes (k : nat) (v : Z) : bytes := match k with O => [] | S k => Z.land v 255 :: le_bytes k (Z.shiftr v 8) end.

Definition nfs4_init_random_verifier (n : nfs) : nfs * bytes :=
  let seed := if n4_seed (n_v4 n) =? 0 then sys_first_seed os else u64 (n4_seed (n_v4 n) * 1337) in
  (on_v4 (set_n4_seed seed) n, le_bytes 8 seed).

(** [data->filler.flags|O_EXCL] is never 0. *)
Definition open_how (n : nfs) (d : cb_data) : nfs * openflag4 :=
  if flag (d4_flags d) O_CREAT then
    if negb (Z.lor (d4_flags d) O_EXCL =? 0) then
      let '(n, verifier) := nfs4_init_random_verifier n in (n, OPEN4_CREATE_EXCLUSIVE verifier)
    else (n, OPEN4_CREATE_UNCHECKED (d4_attrmask d) (d4_attr_vals d))
  else (n, OPEN4_NOCREATE).

Definition open_access (flags : Z) : Z :=
  Z.lor (if flag flags O_WRONLY then ACCESS4_MODIFY else 0)
    (Z.lor (if flag flags O_RDWR then Z.lor ACCESS4_READ ACCESS4_MODIFY else 0)
      (if flag flags O_WRONLY then 0 else ACCESS4_READ)).

(** ACCESS is done on the directory. *)
Definition nfs4_populate_open (n : nfs) (d : cb_data) : nfs * list nfs_argop4 :=
  let access_mask := open_access (d4_flags d) in
  let share_access :=
    Z.lor (if flag access_mask ACCESS4_READ then OPEN4_SHARE_ACCESS_READ else 0)
      (if flag access_mask ACCESS4_MODIFY then OPEN4_SHARE_ACCESS_WRITE else 0) in
  let '(n, how) := open_how n d in
  (n, [nfs4_op_access access_mask;
       OP_OPEN 0 share_access OPEN4_SHARE_DENY_NONE (n4_clientid (n_v4 n)) (d4_open_owner d) how (d4_data d);
       nfs4_op_getfh]).

(** [nfs4_populate_mknod] leaves the mode without the type, in network order,
    in the place where it found it. *)
Definition nfs4_populate_mknod (d : cb_data) (mode dev : Z) : option (cb_data * list nfs_argop4) :=
  let vals := be32 (Z.land mode (Z.lnot S_IFMT)) in
  let d' := set_d4_filler (populate_mknod (of_le vals) dev) d in
  let t := Z.land mode S_IFMT in
  if t =? S_IFBLK then Some (d', [nfs4_op_create (d4_data d) NF3BLK mode_mask vals [] dev])
  else if t =? S_IFCHR then Some (d', [nfs4_op_create (d4_data d) NF3CHR mode_mask vals [] dev])
  else None.

(** The other fillers, with what is in their blobs. *)
Definition nfs4_populate_getfh : list nfs_argop4 := [nfs4_op_getfh].
(** The one for a GETATTR asks for the handle as well. *)
Definition nfs4_populate_getattr : list nfs_argop4 := [nfs4_op_getfh].
Definition nfs4_populate_access (mode : Z) : list nfs_argop4 := [nfs4_op_access mode].
Definition nfs4_populate_mkdir (d : cb_data) (mask : list Z) (vals : bytes) : list nfs_argop4 :=
  [nfs4_op_create (d4_data d) NF3DIR mask vals [] 0].
Definition nfs4_populate_remove (d : cb_data) : list nfs_argop4 := [nfs4_op_remove (d4_data d)].
Definition nfs4_populate_lookup_readlink (d : cb_data) : list nfs_argop4 := [nfs4_op_lookup (d4_data d); nfs4_op_readlink].
Definition nfs4_populate_symlink (d : cb_data) (target : bytes) : list nfs_argop4 := [nfs4_op_create (d4_data d) NF3LNK [] [] target 0].
Definition nfs4_populate_readlink : list nfs_argop4 := [nfs4_op_readlink].
Definition nfs4_populate_link (d : cb_data) (fh : nfs_fh) : list nfs_argop4 := [nfs4_op_savefh; nfs4_op_putfh fh; nfs4_op_link (d4_data d)].
Definition nfs4_populate_rename (d : cb_data) (fh : nfs_fh) (newname : bytes) : list nfs_argop4 :=
  [nfs4_op_savefh; nfs4_op_putfh fh; nfs4_op_rename (d4_data d) newname].
Definition nfs4_populate_readdir (n : nfs) (cookie : Z) : list nfs_argop4 := [nfs4_op_getfh; nfs4_op_readdir n cookie].
Definition nfs4_populate_chmod (sabuf : bytes) : list nfs_argop4 := [nfs4_op_chmod None sabuf].
Definition nfs4_populate_chown (sabuf : bytes) : list nfs_argop4 := [nfs4_op_chown None sabuf].
Definition nfs4_populate_utimes (sabuf : bytes) : list nfs_argop4 := [nfs4_op_utimes None sabuf].

(** [data->filler.func(data, op)]; [None] when an operation is sent that was
    not filled in. *)
Definition populate (n : nfs) (d : cb_data) : option (nfs * cb_data * list nfs_argop4) :=
  let ops l := Some (n, d, l) in
  match d4_filler d with
  | populate_getfh => ops nfs4_populate_getfh
  | populate_getattr => ops nfs4_populate_getattr
  | populate_access mode => ops (nfs4_populate_access mode)
  | populate_mkdir mask vals => ops (nfs4_populate_mkdir d mask vals)
  | populate_remove => ops (nfs4_populate_remove d)
  | populate_open => let '(n, l) := nfs4_populate_open n d in Some (n, d, l)
  | populate_lookup_readlink => ops (nfs4_populate_lookup_readlink d)
  | populate_symlink target => ops (nfs4_populate_symlink d target)
  | populate_readlink => ops nfs4_populate_readlink
  | populate_link fh => ops (nfs4_populate_link d fh)
  | populate_rename fh newname => ops (nfs4_populate_rename d fh newname)
  | populate_mknod mode dev => '(d, l) ← nfs4_populate_mknod d mode dev; Some (n, d, l)
  | populate_readdir cookie => ops (nfs4_populate_readdir n cookie)
  | populate_chmod sabuf => ops (nfs4_populate_chmod sabuf)
  | populate_chown sabuf => ops (nfs4_populate_chown sabuf)
  | populate_utimes sabuf => ops (nfs4_populate_utimes sabuf)
  end.

(** ** Results *)

(** [check_nfs4_error]: [command_data] is the status of the compound, or NULL,
    which is followed when the RPC is a success. *)
Definition check_nfs4_error {T : Set} (cb : nfs -> Z -> payload -> call) (n : nfs) (r : reply T)
    (command_data : Z -> option Z) (k : T -> call) : call :=
  check_nfs3_error cb n r (fun st v =>
    match command_data st with
    | None => Undef
    | Some st => if st =? NFS4_OK then k v else cb n (nfsstat4_to_errno st) Message
    end).
Definition check_compound (cb : nfs -> Z -> payload -> call) (n : nfs) (r : reply (list nfs_resop4)) (k : list nfs_resop4 -> call) : call :=
  check_nfs4_error cb n r Some k.

(** [nfs4_find_op]: the first result of an operation. *)
Fixpoint find_op {A} (sel : nfs_resop4 -> option A) (res : list nfs_resop4) : option A :=
  match res with
  | [] => None
  | r :: res => match sel r with Some a => Some a | None => find_op sel res end
  end.
Definition nfs4_find_op {A} (cb : nfs -> Z -> payload -> call) (n : nfs) (res : list nfs_resop4) (sel : nfs_resop4 -> option A)
    (k : A -> call) : call :=
  match find_op sel res with None => cb n (- EINVAL) Message | Some a => k a end.

Definition the_access r := match r with RES_ACCESS _ supported access => Some (supported, access) | _ => None end.
Definition the_attr r := match r with RES_GETATTR _ vals => Some vals | _ => None end.
Definition the_fh r := match r with RES_GETFH _ fh => Some fh | _ => None end.
Definition the_open r := match r with RES_OPEN _ sid rflags => Some (sid, rflags) | _ => None end.
Definition the_open_confirm r := match r with RES_OPEN_CONFIRM _ sid => Some sid | _ => None end.
Definition the_readlink r := match r with RES_READLINK _ link => Some link | _ => None end.
Definition the_read r := match r with RES_READ _ len _ => Some len | _ => None end.
Definition the_write r := match r with RES_WRITE _ count => Some count | _ => None end.
Definition the_readdir r := match r with RES_READDIR _ entries eof => Some (entries, eof) | _ => None end.
Definition the_lock r := match r with RES_LOCK _ sid => Some sid | _ => None end.
Definition the_locku r := match r with RES_LOCKU _ sid => Some sid | _ => None end.

Definition compound (n : nfs) (ops : list nfs_argop4) (refused : nfs -> call) (k : nfs -> reply (list nfs_resop4) -> call) : call :=
  send n (COMPOUND ops) refused k.

(** [free_nfs4_cb_data] when blob0 is an open file. *)
Definition and_free (h : N) (n : nfs) (err : Z) (p : payload) : call :=
  after (cb n err p) (fun n r => leave (nfs_free_nfsfh n h) r).

(** ** Opening *)

(** [nfs_increment_seqid]: the errors of RFC 3530, 8.1.5. *)
Definition nfs_increment_seqid (f : nfsfh) (status : Z) : nfsfh :=
  match status with
  | 10022 | 10023 | 10025 | 10026 | 10036 | 10018 | 10020 => f
  | _ => set_h_v4 (set_h4_open_seqid (u32 (h4_open_seqid (h_v4 f) + 1)) (h_v4 f)) f
  end.
Definition seqid_counted (n : nfs) (h : N) (f : nfsfh) (r : reply (list nfs_resop4)) : nfs :=
  match r with Result st _ => put_fh n h (nfs_increment_seqid f st) | _ => n end.

Definition nfs4_open_setattr_cb (h : N) (n : nfs) (r : reply (list nfs_resop4)) : call :=
  check_compound (and_free h) n r (fun _ => cb n 0 (FileHandle h)).

Definition nfs4_truncate_close_cb (h : N) (n : nfs) (r : reply (list nfs_resop4)) : call :=
  with_fh n h (fun f =>
    let n := seqid_counted n h f r in
    check_compound (and_free h) n r (fun _ => and_free h n 0 NoData)).

(** Callbacks of an open that has succeeded: what they send goes to the file. *)
Definition and_then (h : N) (n : nfs) (ops : nfsfh -> list nfs_argop4) (k : nfs -> reply (list nfs_resop4) -> call) : call :=
  with_fh n h (fun f => compound n (nfs4_op_putfh (h_fh f) :: ops f) (fun n => and_free h n (- ENOMEM) Message) k).
Definition nfs4_open_truncate_cb (sabuf : bytes) (h : N) (n : nfs) : call :=
  and_then h n (fun f => [nfs4_op_truncate f sabuf]) (nfs4_open_setattr_cb h).
Definition nfs4_open_chmod_cb (sabuf : bytes) (h : N) (n : nfs) : call :=
  and_then h n (fun f => [nfs4_op_chmod (Some f) sabuf]) (nfs4_open_setattr_cb h).
Definition nfs4_truncate_open_cb (sabuf : bytes) (h : N) (n : nfs) : call :=
  and_then h n (fun f => nfs4_op_truncate f sabuf :: nfs4_op_close f) (nfs4_truncate_close_cb h).

(** [data->open_cb], when the file is open: the status is [NFS4_OK]. *)
Definition run_open_cb (nx : open_next) : N -> nfs -> call :=
  match nx with
  | open_truncate sabuf => nfs4_open_truncate_cb sabuf
  | open_chmod sabuf => nfs4_open_chmod_cb sabuf
  | truncate_open sabuf => nfs4_truncate_open_cb sabuf
  end.

Definition opened (d : cb_data) (h : N) (n : nfs) : call :=
  match d4_open_cb d with Some nx => run_open_cb nx h n | None => cb n 0 (FileHandle h) end.

Definition nfs4_open_confirm_cb (d : cb_data) (h : N) (n : nfs) (r : reply (list nfs_resop4)) : call :=
  with_fh n h (fun f =>
    let n := seqid_counted n h f r in
    check_compound (and_free h) n r (fun res =>
      nfs4_find_op (and_free h) n res the_open_confirm (fun sid =>
        with_fh n h (fun f => opened d h (put_fh n h (set_h_v4 (set_h4_stateid sid (h_v4 f)) f)))))).

Definition nfs4_open_cb (d : cb_data) (n : nfs) (r : reply (list nfs_resop4)) : call :=
  check_compound cb n r (fun res =>
    nfs4_find_op cb n res the_access (fun '(supported, access) =>
      if negb (supported =? access) then cb n (- EINVAL) Message
      else
        nfs4_find_op cb n res the_fh (fun fh =>
          let f := mkNfsfh fh (flag (d4_flags d) O_SYNC) (flag (d4_flags d) O_APPEND) (negb (writes (d4_flags d))) false 0
            (mkFh4 zero_stateid (d4_open_owner d) 1 0 zero_stateid) in
          let '(n, h) := new_nfsfh n f in
          nfs4_find_op (and_free h) n res the_open (fun '(sid, rflags) =>
            let f := set_h_v4 (set_h4_stateid sid (h_v4 f)) f in
            let n := put_fh n h f in
            if flag rflags OPEN4_RESULT_CONFIRM then
              compound n [nfs4_op_putfh (h_fh f); nfs4_op_open_confirm f] (fun n => and_free h n (- ENOMEM) Message)
                (nfs4_open_confirm_cb d h)
            else opened d h n)))).

(** ** Looking up *)

Definition S_ISLNK (st : stat64) : bool := Z.land (st_mode st) S_IFMT =? S_IFLNK.

(** The loop over the GETATTRs among the results: is one of them a link? *)
Fixpoint link_among (res : list nfs_resop4) : parsed bool :=
  match res with
  | [] => Parsed false
  | r :: res =>
      match the_attr r with
      | None => link_among res
      | Some vals =>
          match nfs_parse_attributes (sys_getpwnam os) vals with
          | Parsed st => match link_among res with Parsed b => Parsed (S_ISLNK st || b) | e => e end
          | Short => Short
          | Overrun => Overrun
          end
      end
  end.

(** An OPEN that met a link. *)
Definition open_met_link (res : list nfs_resop4) : bool :=
  existsb (fun r => match r with RES_OPEN st _ _ => st =? NFS4ERR_SYMLINK | _ => false end) res.

(** The LOOKUPs before the one that met a link, and whether there is one. *)
Fixpoint failed_lookup (idx : nat) (res : list nfs_resop4) : nat * bool :=
  match res with
  | [] => (idx, false)
  | RES_LOOKUP st :: res => if st =? NFS4ERR_SYMLINK then (idx, true) else failed_lookup (S idx) res
  | _ :: res => failed_lookup idx res
  end.

(** The position [strchr(tmp + 1, '/')] finds, [k] times over. *)
Fixpoint next_slash (k : nat) (path : bytes) (tmp : nat) : option nat :=
  match k with
  | O => Some tmp
  | S k =>
      match strchr_slash (drop (S tmp) path) with
      | Some (name, _) => next_slash k path (S tmp + length name)
      | None => None
      end
  end.

(** What is before the [idx]th component of a path, and what is behind it. *)
Definition link_place (path : bytes) (idx : nat) : option (bytes * bytes) :=
  tmp ← next_slash (idx - 1) path 0;
  let end_ := match strchr_slash (drop (S tmp) path) with Some (_, rest) => rest | None => [] end in
  if (tmp <? length path)%nat then Some (take tmp path, end_) else None.

Section lookup.
Context (again : (cb_data -> nfs -> reply (list nfs_resop4) -> call) -> nfs -> cb_data -> call).

Definition or_no_memory (c : call) : call := after c (fun n r => if r <? 0 then cb n (- ENOMEM) Message else leave n 0).

Definition nfs4_lookup_path_2_cb (continue_cb : cb_data -> nfs -> reply (list nfs_resop4) -> call) (idx : nat) (d : cb_data)
    (n : nfs) (r : reply (list nfs_resop4)) : call :=
  check_compound cb n r (fun res =>
    match link_place (d4_path d) idx with
    | None => Undef
    | Some (front, end_) =>
        nfs4_find_op cb n res the_readlink (fun link =>
          or_no_memory (again continue_cb n (set_d4_path (front ++ slash :: cstr link ++ slash :: end_) d)))
    end).

Definition nfs4_open_readlink_cb (d : cb_data) (n : nfs) (r : reply (list nfs_resop4)) : call :=
  check_compound cb n r (fun res =>
    nfs4_find_op cb n res the_readlink (fun link =>
      match nfs4_resolve_path n (d4_path d ++ slash :: cstr link) with
      | None => Undef
      | Some None => cb n (- EINVAL) Message
      | Some (Some path) =>
          match data_split_path (set_d4_path path d) with
          | None => Undef
          | Some d =>
              let owner := n4_open_counter (n_v4 n) in
              let n := on_v4 (set_n4_open_counter (u32 (owner + 1))) n in
              or_no_memory (again nfs4_open_cb n (set_d4_filler populate_open (set_d4_open_owner owner d)))
          end
      end)).

(** The link at the end of the path of an open is read, and the open tried
    again. *)
Definition nfs4_open_readlink (n : nfs) (d : cb_data) : call :=
  if flag (d4_flags d) O_NOFOLLOW then cb n (- ELOOP) Message
  else or_no_memory (again nfs4_open_readlink_cb n (set_d4_filler populate_lookup_readlink d)).

Definition nfs4_lookup_path_1_cb (continue_cb : cb_data -> nfs -> reply (list nfs_resop4) -> call) (d : cb_data)
    (n : nfs) (r : reply (list nfs_resop4)) : call :=
  check_nfs3_error cb n r (fun st res =>
    if negb (st =? NFS4_OK) && negb (st =? NFS4ERR_SYMLINK) then cb n (nfsstat4_to_errno st) Message
    else
      match link_among res with
      | Overrun => Undef
      | Short => cb n (- EINVAL) Message
      | Parsed resolve_link =>
          if negb resolve_link && open_met_link res then nfs4_open_readlink n d
          else
            let resolve_link := resolve_link && negb (d4_no_follow d) in
            if (st =? NFS4_OK) && negb resolve_link then continue_cb d n (Result NFS4_OK res)
            else
              let '(idx, found) := failed_lookup 0 res in
              if negb resolve_link && negb found then cb n (- EFAULT) Message
              else
                match (if resolve_link then Some (d4_path d)
                       else tmp ← next_slash idx (d4_path d) 0; Some (take tmp (d4_path d) ++ 0 :: drop (S tmp) (d4_path d))) with
                | None => Undef
                | Some path =>
                    match nfs4_allocate_op n path with
                    | None => Undef
                    | Some ops =>
                        compound n (ops ++ [nfs4_op_readlink]) (fun n => cb n (- ENOMEM) Message)
                          (nfs4_lookup_path_2_cb continue_cb idx d)
                    end
                end
      end).
End lookup.

Fixpoint nfs4_lookup_path_async (links : nat) (continue_cb : cb_data -> nfs -> reply (list nfs_resop4) -> call)
    (n : nfs) (d : cb_data) : call :=
  match links with
  | O => Undef
  | S links =>
      match nfs4_resolve_path n (d4_path d) with
      | None => Undef
      | Some None => leave n (-1)
      | Some (Some path) =>
          let d := set_d4_path path d in
          match nfs4_allocate_op n path with
          | None => Undef
          | Some walk =>
              match populate n d with
              | None => Undef
              | Some (n, d, ops) =>
                  compound n (walk ++ ops) (fun n => leave n (-1))
                    (nfs4_lookup_path_1_cb (nfs4_lookup_path_async links) continue_cb d)
              end
          end
      end
  end.
End nfs4.
