(* ===== verification/Nfs4Ops.v ===== *)
(** * Nfs4Ops: the operations of NFSv4 (lib/nfs_v4.c)

    Mounting, the operations that look at what a path leads to and those that
    change a name; the ones on files are in Nfs4File, Nfs4Lock and Nfs4Dir.
    [links] bounds the lookups of an operation, see Nfs4. *)

From S2P Require Import Prelude Path Settings Url Nfs4Data Nfs3 Lookup Nfs3Ops Nfs3File Nfs3IO Nfs3Dir Mount Nfs4Attr Nfs4.

Section ops.
Context (os : system) (cb : nfs -> Z -> payload -> call) (links : nat).
#[local] Notation lookup_path := (nfs4_lookup_path_async os cb links).
#[local] Notation attributes_of := (nfs_parse_attributes (sys_getpwnam os)).

(** A path that is refused: -1; a [lookup_path] that fails: -1. *)
Definition init_cb_data_full_path (n : nfs) (path : bytes) (k : bytes -> call) : call :=
  match nfs4_resolve_path n path with
  | None => Undef
  | Some None => leave n (-1)
  | Some (Some path) => k path
  end.

Definition started (c : call) : call := after c (fun n r => leave n (if r <? 0 then -1 else 0)).

(** An operation on the object a path leads to. *)
Definition on_path (n : nfs) (path : bytes) (f : cb_data -> cb_data) (filler : op_filler) continue_cb : call :=
  init_cb_data_full_path n path (fun path => started (lookup_path continue_cb n (f (new_cb_data path filler)))).

(** [init_cb_data_split_path]: one on a name in the directory it leads to. *)
Definition on_name (n : nfs) (path : bytes) (f : cb_data -> cb_data) (filler : op_filler) continue_cb : call :=
  init_cb_data_full_path n path (fun path =>
    match data_split_path (new_cb_data path filler) with
    | None => Undef
    | Some d => started (lookup_path continue_cb n (f d))
    end).

Definition asis (d : cb_data) : cb_data := d.

(** The callbacks of operations that have no result. *)
Definition done_cb (d : cb_data) (n : nfs) (r : reply (list nfs_resop4)) : call := check_compound cb n r (fun _ => cb n 0 NoData).
Definition nfs4_mkdir_cb := done_cb.
Definition nfs4_remove_cb := done_cb.
Definition nfs4_symlink_cb := done_cb.
Definition nfs4_mknod_cb := done_cb.
Definition nfs4_link_2_cb := done_cb.
Definition nfs4_rename_2_cb := done_cb.
Definition nfs4_chmod_cb := done_cb.
Definition nfs4_chown_cb := done_cb.
Definition nfs4_utimes_cb := done_cb.

(** ** Mounting *)

(** There is no return after the error, and the data has been freed. *)
Definition nfs4_mount_5_cb (n : nfs) (r : reply (list nfs_resop4)) : call :=
  check_compound cb n r (fun res =>
    nfs4_find_op cb n res the_attr (fun vals =>
      match nfs_parse_rwmax vals (n_conf n) with
      | (c, Parsed _) => cb (on_conf set_resiliency (set_n_conf c n)) 0 NoData
      | _ => Undef
      end)).

Definition nfs4_mount_4_cb (d : cb_data) (n : nfs) (r : reply (list nfs_resop4)) : call :=
  check_compound cb n r (fun res =>
    nfs4_find_op cb n res the_fh (fun fh =>
      let n := set_n_rootfh fh n in
      compound n [nfs4_op_putfh fh; nfs4_op_getattr rwmax_attributes] (fun n => cb n (- ENOMEM) Message) nfs4_mount_5_cb)).

Definition nfs4_mount_3_cb (path : bytes) (n : nfs) (r : reply (list nfs_resop4)) : call :=
  check_compound cb n r (fun _ => or_no_memory cb (lookup_path nfs4_mount_4_cb n (new_cb_data path populate_getfh))).

(** The first result is taken for that of SETCLIENTID, whatever it is. *)
Definition nfs4_mount_2_cb (path : bytes) (n : nfs) (r : reply (list nfs_resop4)) : call :=
  check_compound cb n r (fun res =>
    match res with
    | RES_SETCLIENTID _ clientid confirm :: _ =>
        let n := on_v4 (fun v => set_n4_confirm confirm (set_n4_clientid clientid v)) n in
        compound n [nfs4_op_setclientid_confirm clientid confirm] (fun n => cb n (- ENOMEM) Message) (nfs4_mount_3_cb path)
    | _ => Undef
    end).

(** The [command_data] given to [check_nfs4_error] is NULL. *)
Definition nfs4_mount_1_cb (path : bytes) (n : nfs) (r : reply unit) : call :=
  check_nfs4_error cb n r (fun _ => None) (fun _ =>
    compound n [nfs4_op_setclientid (n4_verifier (n_v4 n)) (n4_client_name (n_v4 n))] (fun n => cb n (- ENOMEM) Message)
      (nfs4_mount_2_cb path)).

Definition NFS4_PROGRAM : Z := 100003.

Definition nfs4_mount_async (n : nfs) (server export : bytes) : call :=
  let n := on_conf (set_c_server server) n in
  match nfs_normalize_path export with
  | None => Undef
  | Some (export, r) =>
      if negb (r =? 0) then leave n (-1)
      else
        let n := set_n_export export n in
        let port := if negb (c_nfsport (n_conf n) =? 0) then c_nfsport (n_conf n) else 2049 in
        after (rpc_connect_port_async NFS4_PROGRAM NFS_V4 (nfs4_mount_1_cb export) n port)
          (fun n r => leave n (if negb (r =? 0) then -1 else 0))
  end.

(** ** Looking at paths *)

(** The path is stolen. *)
Definition nfs4_chdir_1_cb (d : cb_data) (n : nfs) (r : reply (list nfs_resop4)) : call :=
  check_compound cb n r (fun _ => cb (set_n_cwd (d4_path d) n) 0 NoData).
Definition nfs4_chdir_async n path : call := on_path n path asis populate_getfh nfs4_chdir_1_cb.

(** Attributes that are too short are an error, after which the callback is
    called again and the data freed again. *)
Definition nfs4_xstat64_cb (n : nfs) (r : reply (list nfs_resop4)) : call :=
  check_compound cb n r (fun res =>
    nfs4_find_op cb n res the_attr (fun vals =>
      match attributes_of vals with Parsed st => cb n 0 (Stat st) | _ => Undef end)).
Definition nfs4_stat64_async n path (no_follow : bool) : call :=
  on_path n path (set_d4_no_follow no_follow) populate_getattr (fun _ => nfs4_xstat64_cb).

Definition R_OK : Z := 4.
Definition W_OK : Z := 2.
Definition X_OK : Z := 1.

Definition nfs4_access_cb (d : cb_data) (n : nfs) (r : reply (list nfs_resop4)) : call :=
  check_compound cb n r (fun res =>
    nfs4_find_op cb n res the_access (fun '(supported, access) =>
      if negb (d4_flags d =? 0) then
        cb n (Z.lor (if flag access ACCESS4_READ then R_OK else 0)
               (Z.lor (if flag access ACCESS4_MODIFY then W_OK else 0) (if flag access ACCESS4_EXECUTE then X_OK else 0))) NoData
      else if negb (supported =? access) then cb n (- EACCES) NoData
      else cb n 0 NoData)).
Definition nfs4_access_internal n path (mode is_access2 : Z) : call :=
  let m := Z.lor (if flag mode R_OK then ACCESS4_READ else 0)
             (Z.lor (if flag mode W_OK then ACCESS4_MODIFY else 0) (if flag mode X_OK then ACCESS4_EXECUTE else 0)) in
  on_path n path (set_d4_flags is_access2) (populate_access m) nfs4_access_cb.
Definition nfs4_access_async n path mode : call := nfs4_access_internal n path mode 0.
Definition nfs4_access2_async n path : call := nfs4_access_internal n path (Z.lor R_OK (Z.lor W_OK X_OK)) 1.

Definition nfs4_readlink_cb (d : cb_data) (n : nfs) (r : reply (list nfs_resop4)) : call :=
  check_compound cb n r (fun res => nfs4_find_op cb n res the_readlink (fun link => cb n 0 (Text (cstr link)))).
Definition nfs4_readlink_async n path : call := on_path n path (set_d4_no_follow true) populate_readlink nfs4_readlink_cb.

(** The root of the export, whatever the path; a [statvfs] or a [statvfs64],
    which have the same fields. *)
Definition nfs4_statvfs_cb (is_statvfs64 : bool) (n : nfs) (r : reply (list nfs_resop4)) : call :=
  check_compound cb n r (fun res =>
    nfs4_find_op cb n res the_attr (fun vals =>
      match (if is_statvfs64 then nfs_parse_statvfs64 vals else nfs_parse_statvfs vals) with
      | Parsed sv => cb n 0 (Statvfs sv)
      | Short => cb n (- EINVAL) Message
      | Overrun => Undef
      end)).
Definition nfs4_statvfs_async_internal (n : nfs) (path : bytes) (is_statvfs64 : bool) : call :=
  compound n [nfs4_op_putfh (n_rootfh n); nfs4_op_getattr statvfs_attributes] (fun n => leave n (-1)) (nfs4_statvfs_cb is_statvfs64).
Definition nfs4_statvfs_async (n : nfs) (path : bytes) : call := nfs4_statvfs_async_internal n path false.
Definition nfs4_statvfs64_async (n : nfs) (path : bytes) : call := nfs4_statvfs_async_internal n path true.

(** ** Changing names *)

Definition nfs4_mkdir2_async n path mode : call := on_name n path asis (populate_mkdir mode_mask (be32 mode)) nfs4_mkdir_cb.
Definition nfs4_remove_async n path : call := on_name n path asis populate_remove nfs4_remove_cb.
Definition nfs4_rmdir_async n path : call := nfs4_remove_async n path.
Definition nfs4_unlink_async n path : call := nfs4_remove_async n path.
Definition nfs4_symlink_async n target linkname : call := on_name n linkname asis (populate_symlink target) nfs4_symlink_cb.

Definition nfs4_mknod_async n path mode dev : call :=
  let t := Z.land mode S_IFMT in
  if (t =? S_IFCHR) || (t =? S_IFBLK) then on_name n path asis (populate_mknod (u32 mode) dev) nfs4_mknod_cb else leave n (-1).

(** LINK: first the directory of the new name, then the object, with the
    directory as the current one. *)
Definition nfs4_link_1_cb (oldpath : bytes) (d : cb_data) (n : nfs) (r : reply (list nfs_resop4)) : call :=
  check_compound cb n r (fun res =>
    nfs4_find_op cb n res the_fh (fun fh =>
      after (lookup_path nfs4_link_2_cb n (set_d4_filler (populate_link fh) (set_d4_path oldpath d)))
        (fun n r => if r <? 0 then cb n (- EFAULT) Message else leave n 0))).
Definition nfs4_link_async n oldpath newpath : call := on_name n newpath asis populate_getfh (nfs4_link_1_cb oldpath).

Definition nfs4_rename_1_cb (oldpath : bytes) (d : cb_data) (n : nfs) (r : reply (list nfs_resop4)) : call :=
  check_compound cb n r (fun res =>
    nfs4_find_op cb n res the_fh (fun fh =>
      match nfs4_resolve_path n oldpath with
      | None => Undef
      | Some None => cb n (- EINVAL) Message
      | Some (Some path) =>
          match data_split_path (set_d4_filler (populate_rename fh (d4_data d)) (set_d4_path path d)) with
          | None => Undef
          | Some d => or_no_memory cb (lookup_path nfs4_rename_2_cb n d)
          end
      end)).
Definition nfs4_rename_async n oldpath newpath : call := on_name n newpath asis populate_getfh (nfs4_rename_1_cb oldpath).
End ops.
