(* ===== verification/Nfs4File.v ===== *)
(** * Nfs4File: opening files and what is done with open files (lib/nfs_v4.c)

    The data of a READ is in the memory of the user when its callback is called
    ([delivered4]), as in Nfs3IO. *)

From S2P Require Import Prelude Path Settings Url Nfs4Data Nfs3 Lookup Nfs3Ops Nfs3File Nfs3IO Nfs3Dir Mount Nfs4Attr Nfs4 Nfs4Ops.

(** ** Buffers of attributes *)

(** [%d] *)
Fixpoint decimal (fuel : nat) (v : Z) : bytes :=
  match fuel with
  | O => []
  | S fuel => if v <? 10 then [48 + v] else decimal fuel (v / 10) ++ [48 + v mod 10]
  end.
Definition print_int (v : Z) : bytes := if v <? 0 then 45 :: decimal 10 (- v) else decimal 10 v.

(** A string with its length before it and zeros up to a multiple of four. *)
Definition counted (s : bytes) : bytes := be32 (blen s) ++ s ++ zeros (Z.land (- blen s) 3).
Definition nfs4_create_chown_buffer (uid gid : Z) : bytes := counted (print_int uid) ++ counted (print_int gid).

Definition SET_TO_SERVER_TIME4 : Z := 0.
Definition SET_TO_CLIENT_TIME4 : Z := 1.
Definition client_time (t : Z * Z) : bytes := be32 SET_TO_CLIENT_TIME4 ++ nfs_hton64 t.1 ++ be32 (t.2 * 1000).
Definition utimes_buffer (times : option ((Z * Z) * (Z * Z))) : bytes :=
  match times with
  | Some (atime, mtime) => client_time atime ++ client_time mtime
  | None => be32 SET_TO_SERVER_TIME4 ++ be32 SET_TO_SERVER_TIME4
  end.

(** A size, and the time of the server. *)
Definition truncate_buffer (length : Z) : bytes := nfs_hton64 length ++ zeros 4.

Definition delivered4 (into : bytes -> gmap Z Z -> gmap Z Z) (r : reply (list nfs_resop4)) (n : nfs) : nfs :=
  match r with
  | Result st res =>
      match find_op (fun r => match r with RES_READ _ _ d => Some d | _ => None end) res with
      | Some d => if st =? NFS4_OK then set_n_mem (into d (n_mem n)) n else n
      | None => n
      end
  | _ => n
  end.

Section files.
Context (os : system) (cb : nfs -> Z -> payload -> call) (links : nat).
#[local] Notation lookup_path := (nfs4_lookup_path_async os cb links).
#[local] Notation on_path := (on_path os cb links).
#[local] Notation on_name := (on_name os cb links).
#[local] Notation attributes_of := (nfs_parse_attributes (sys_getpwnam os)).

(** An operation on an open file: PUTFH and [ops]. *)
Definition on_file (n : nfs) (f : nfsfh) (ops : list nfs_argop4) (k : nfs -> reply (list nfs_resop4) -> call) : call :=
  compound n (nfs4_op_putfh (h_fh f) :: ops) (fun n => leave n (-1)) k.

Definition nfs4_fsync_cb (n : nfs) (r : reply (list nfs_resop4)) : call := check_compound cb n r (fun _ => cb n 0 NoData).

(** ** Attributes *)

Definition nfs4_chmod_async_internal n path (no_follow : bool) mode : call :=
  on_path n path (set_d4_no_follow no_follow) (populate_chmod (be32 mode)) (nfs4_chmod_cb cb).

(** The path is split, and the name forgotten. *)
Definition nfs4_chown_async_internal n path (no_follow : bool) uid gid : call :=
  on_name n path (set_d4_no_follow no_follow) (populate_chown (nfs4_create_chown_buffer uid gid)) (nfs4_chown_cb cb).

Definition nfs4_utimes_async_internal n path (no_follow : bool) times : call :=
  on_path n path (set_d4_no_follow no_follow) (populate_utimes (utimes_buffer times)) (nfs4_utimes_cb cb).
Definition nfs4_utime_async n path (times : option (Z * Z)) : call :=
  nfs4_utimes_async_internal n path false
    (match times with Some (actime, modtime) => Some ((actime, 0), (modtime, 0)) | None => None end).

Definition nfs4_fchmod_async n h mode : call :=
  with_fh n h (fun f => on_file n f [nfs4_op_chmod (Some f) (be32 mode)] nfs4_fsync_cb).
Definition nfs4_fchown_async n h uid gid : call :=
  with_fh n h (fun f => on_file n f [nfs4_op_chown (Some f) (nfs4_create_chown_buffer uid gid)] nfs4_fsync_cb).
Definition nfs4_fstat64_async n h : call :=
  with_fh n h (fun f => on_file n f [nfs4_op_getattr standard_attributes] (nfs4_xstat64_cb os cb)).

(** ** Opening and closing *)

Definition without (flags f : Z) : Z := Z.land flags (Z.lnot f).
Definition writing (flags : Z) : bool := flag flags (Z.lor O_RDWR O_WRONLY).

(** Returns what [nfs4_lookup_path_async] does, made -1. *)
Definition nfs4_open_async_internal (n : nfs) (d : cb_data) (flags mode : Z) : call :=
  let flags := if flag flags O_APPEND && negb (writing flags) then without flags O_APPEND else flags in
  let d := if flag flags O_CREAT then set_d4_create mode_mask (be32 mode) d else d in
  let owner := n4_open_counter (n_v4 n) in
  let n := on_v4 (set_n4_open_counter (u32 (owner + 1))) n in
  started (lookup_path (nfs4_open_cb cb) n (set_d4_flags flags (set_d4_filler populate_open (set_d4_open_owner owner d)))).

Definition on_split (n : nfs) (path : bytes) (k : cb_data -> call) : call :=
  init_cb_data_full_path n path (fun path =>
    match data_split_path (new_cb_data path populate_open) with None => Undef | Some d => k d end).

(** O_TRUNC is for files that are written, and not for new ones. *)
Definition nfs4_open_async n path flags mode : call :=
  on_split n path (fun d =>
    let flags := if flag flags O_TRUNC && negb (writing flags) then without flags O_TRUNC else flags in
    let flags := if flag flags O_EXCL then without flags O_TRUNC else flags in
    let d := if flag flags O_TRUNC then set_d4_open_cb (Some (open_truncate (zeros 12))) d else d in
    let d := if flag flags O_EXCL then set_d4_open_cb (Some (open_chmod (be32 mode))) d else d in
    nfs4_open_async_internal n d flags mode).
Definition nfs4_creat_async n path mode : call := nfs4_open_async n path (Z.lor O_CREAT (Z.lor O_WRONLY O_TRUNC)) mode.

Definition nfs4_truncate_async n path length : call :=
  on_split n path (fun d => nfs4_open_async_internal n (set_d4_open_cb (Some (truncate_open (truncate_buffer length))) d) O_WRONLY 0).

Definition nfs4_close_cb := nfs4_truncate_close_cb cb.
Definition nfs4_close_async n h : call := with_fh n h (fun f => on_file n f (nfs4_op_close f) (nfs4_close_cb h)).
Definition nfs4_fsync_async n h : call := with_fh n h (fun f => on_file n f [nfs4_op_commit] nfs4_fsync_cb).
Definition nfs4_ftruncate_async n h length : call :=
  with_fh n h (fun f => on_file n f [nfs4_op_truncate f (truncate_buffer length)] nfs4_fsync_cb).

(** ** Reading and writing *)

Definition nfs4_pread_cb (h : N) (offset requested : Z) (update_pos : bool) (n : nfs) (r : reply (list nfs_resop4)) : call :=
  check_compound cb n r (fun res =>
    nfs4_find_op cb n res the_read (fun data_len =>
      let finish n := cb n (cut_count (i32 data_len) requested) NoData in
      if update_pos then with_fh n h (fun f => finish (put_fh n h (set_h_offset (u64 (offset + data_len)) f)))
      else finish n)).

Definition nfs4_pread_async_internal n h buf count offset (update_pos : bool) : call :=
  with_fh n h (fun f =>
    on_file n f [nfs4_op_read f offset count]
      (fun n r => nfs4_pread_cb h offset count update_pos (delivered4 (fun d => store buf (take (Z.to_nat count) d)) r n) r)).

Definition nfs4_preadv_async_internal n h iov offset (update_pos : bool) : call :=
  with_fh n h (fun f =>
    if bool_decide (iov = []) || (RPC_MAX_VECTORS <? length iov)%nat then leave n (-1)
    else
      on_file n f [nfs4_op_read f offset (iov_size iov)]
        (fun n r => nfs4_pread_cb h offset (iov_size iov) update_pos (delivered4 (scatter iov) r n) r)).

Definition nfs4_pwrite_cb (h : N) (offset : Z) (update_pos : bool) (n : nfs) (r : reply (list nfs_resop4)) : call :=
  check_compound cb n r (fun res =>
    nfs4_find_op cb n res the_write (fun count =>
      if update_pos then with_fh n h (fun f => cb (put_fh n h (set_h_offset (u64 (offset + count)) f)) (i32 count) NoData)
      else cb n (i32 count) NoData)).

Definition nfs4_pwrite_async_internal n h buf count offset (update_pos : bool) : call :=
  with_fh n h (fun f =>
    let '(f, op) := nfs4_op_write f offset (take (Z.to_nat (u32 count)) buf) in
    compound (put_fh n h f) [nfs4_op_putfh (h_fh f); op] (fun n => leave n (- EIO)) (nfs4_pwrite_cb h offset update_pos)).

(** What has been found of the size when the attributes are too short. *)
Definition size_of (vals : bytes) : option Z :=
  match attributes_of vals with
  | Parsed st => Some (st_size st)
  | Short => Some (if 12 <=? blen vals then nfs_pntoh64 (take 8 (drop 4 vals)) else 0)
  | Overrun => None
  end.

(** When the WRITE cannot be queued the data is freed and then used. *)
Definition nfs4_write_append_cb (h : N) (buf : bytes) (count : Z) (n : nfs) (r : reply (list nfs_resop4)) : call :=
  check_compound cb n r (fun res =>
    nfs4_find_op cb n res the_attr (fun vals =>
      if blen vals <? 8 then cb n (- EINVAL) Message
      else
        match size_of vals with
        | None => Undef
        | Some size =>
            after (nfs4_pwrite_async_internal n h buf (u32 count) size true)
              (fun n r => if r <? 0 then Undef else leave n 0)
        end)).

Definition nfs4_write_async n h buf count : call :=
  with_fh n h (fun f =>
    if h_append f then
      compound n [nfs4_op_putfh (h_fh f); nfs4_op_getattr standard_attributes] (fun n => leave n (- EIO))
        (nfs4_write_append_cb h buf count)
    else nfs4_pwrite_async_internal n h buf count (h_offset f) true).

(** ** The position *)

Definition nfs4_lseek_cb (h : N) (offset : Z) (n : nfs) (r : reply (list nfs_resop4)) : call :=
  check_compound cb n r (fun res =>
    nfs4_find_op cb n res the_attr (fun vals =>
      match size_of vals with
      | None => Undef
      | Some size =>
          with_fh n h (fun f =>
            if offset =? - 2 ^ 63 then Undef
            else if (offset <? 0) && (- offset >? i64 size) then cb n (- EINVAL) (Offset (h_offset f))
            else
              let f := set_h_offset (u64 (u64 offset + size)) f in
              cb (put_fh n h f) 0 (Offset (h_offset f)))
      end)).

Definition nfs4_lseek_async n h offset whence : call :=
  with_fh n h (fun f =>
    let moved o := let f := set_h_offset o f in returning 0 (cb (put_fh n h f) 0 (Offset (h_offset f))) in
    let invalid := returning 0 (cb n (- EINVAL) (Offset (h_offset f))) in
    if whence =? SEEK_SET then (if offset <? 0 then invalid else moved offset)
    else if whence =? SEEK_CUR then
      (if offset =? - 2 ^ 63 then Undef
       else if (offset <? 0) && (h_offset f <? - offset) then invalid else moved (u64 (h_offset f + offset)))
    else on_file n f [nfs4_op_getattr standard_attributes] (nfs4_lseek_cb h offset)).
End files.
