(* ===== verification/Nfs4Lock.v ===== *)
(** * Nfs4Lock: locks on ranges of bytes (lib/nfs_v4.c)

    [nfs4_lockf_async] locks from the position of the file on, exclusively;
    [nfs4_fcntl_async] what a [flock] says.  The first LOCK of a context names
    its owner, the others the stateid of the locks of their file.  The flock,
    which the code changes in the memory of its caller, is a value. *)

From S2P Require Import Prelude Path Settings Url Nfs4Data Nfs3 Lookup Nfs3Ops Nfs3File Nfs3IO Nfs3Dir Mount Nfs4Attr Nfs4 Nfs4Ops Nfs4File.

(** [enum nfs_lock_type4], [enum nfs4_lock_op] and [enum nfs4_fcntl_op]; the
    types of fcntl.h. *)
Definition READ_LT : Z := 1.
Definition WRITE_LT : Z := 2.
Definition READW_LT : Z := 3.
Definition WRITEW_LT : Z := 4.
Definition NFS4_F_LOCK : Z := 0.
Definition NFS4_F_TLOCK : Z := 1.
Definition NFS4_F_ULOCK : Z := 2.
Definition NFS4_F_TEST : Z := 3.
Definition NFS4_F_SETLK : Z := 0.
Definition NFS4_F_SETLKW : Z := 1.
Definition F_RDLCK : Z := 0.
Definition F_WRLCK : Z := 1.
Definition F_UNLCK : Z := 2.
Definition SEEK_END : Z := 2.

(** [struct nfs4_flock]; the fields of 64 bits are unsigned. *)
Record flock := mkFlock { l_type : Z; l_whence : Z; l_start : Z; l_len : Z }.
Definition moved_by (offset : Z) (fl : flock) : flock := mkFlock (l_type fl) SEEK_SET (u64 (offset + l_start fl)) (l_len fl).

(** ** Operations *)

(** [fh->lock_seqid++] *)
Definition next_lock_seqid (f : nfsfh) : nfsfh := set_h_v4 (set_h4_lock_seqid (u32 (h4_lock_seqid (h_v4 f) + 1)) (h_v4 f)) f.

Definition nfs4_op_lock (n : nfs) (f : nfsfh) (locktype reclaim offset length : Z) : nfsfh * nfs_argop4 :=
  let v := h_v4 f in
  let locker :=
    if n4_has_lock_owner (n_v4 n) then Lock_owner (h4_lock_stateid v) (h4_lock_seqid v)
    else Open_owner (h4_open_seqid v) (h4_stateid v) (h4_lock_seqid v) (n4_clientid (n_v4 n)) (n4_client_name (n_v4 n)) in
  (next_lock_seqid f, OP_LOCK locktype reclaim offset length locker).

Definition nfs4_op_locku (f : nfsfh) (locktype offset length : Z) : nfsfh * nfs_argop4 :=
  (next_lock_seqid f, OP_LOCKU locktype (h4_lock_seqid (h_v4 f)) (h4_lock_stateid (h_v4 f)) offset length).

Definition nfs4_op_lockt (n : nfs) (locktype offset length : Z) : nfs_argop4 :=
  OP_LOCKT locktype offset length (n4_clientid (n_v4 n)) (n4_client_name (n_v4 n)).

Section locks.
Context (os : system) (cb : nfs -> Z -> payload -> call).

(** A LOCK has been done. *)
Definition locked (h : N) (n : nfs) (sid : stateid) (k : nfs -> call) : call :=
  let n := on_v4 (set_n4_has_lock_owner true) n in
  with_fh n h (fun f => k (put_fh n h (set_h_v4 (set_h4_lock_stateid sid (h_v4 f)) f))).

(** ** [nfs4_lockf_async] *)

Definition nfs4_lockf_cb (h : N) (cmd : Z) (n : nfs) (r : reply (list nfs_resop4)) : call :=
  check_compound cb n r (fun res =>
    let finish n := cb n 0 NoData in
    if (cmd =? NFS4_F_LOCK) || (cmd =? NFS4_F_TLOCK) then nfs4_find_op cb n res the_lock (fun sid => locked h n sid finish)
    else if cmd =? NFS4_F_ULOCK then
      nfs4_find_op cb n res the_locku (fun sid =>
        with_fh n h (fun f => finish (put_fh n h (set_h_v4 (set_h4_lock_stateid sid (h_v4 f)) f))))
    else finish n).

(** The file with what has been counted, and the operation. *)
Definition lockf_op (n : nfs) (f : nfsfh) (cmd count : Z) : nfsfh * list nfs_argop4 :=
  let one '(f, op) := (f, [op]) in
  if cmd =? NFS4_F_LOCK then one (nfs4_op_lock n f WRITEW_LT 0 (h_offset f) count)
  else if cmd =? NFS4_F_TLOCK then one (nfs4_op_lock n f WRITE_LT 0 (h_offset f) count)
  else if cmd =? NFS4_F_ULOCK then one (nfs4_op_locku f WRITE_LT (h_offset f) count)
  else if cmd =? NFS4_F_TEST then (f, [nfs4_op_lockt n WRITEW_LT (h_offset f) count])
  else (f, []).

Definition nfs4_lockf_async n h cmd count : call :=
  with_fh n h (fun f =>
    let '(f, ops) := lockf_op n f cmd count in
    on_file (put_fh n h f) f ops (nfs4_lockf_cb h cmd)).

(** ** [nfs4_fcntl_async] *)

(** [cmd] is one of the two that set a lock. *)
Definition nfs4_fcntl_cb (h : N) (fl : flock) (n : nfs) (r : reply (list nfs_resop4)) : call :=
  check_compound cb n r (fun res =>
    let finish n := cb n 0 NoData in
    if (l_type fl =? F_RDLCK) || (l_type fl =? F_WRLCK) then nfs4_find_op cb n res the_lock (fun sid => locked h n sid finish)
    else if l_type fl =? F_UNLCK then nfs4_find_op cb n res the_locku (fun _ => finish n)
    else finish n).

Definition fcntl_op (n : nfs) (f : nfsfh) (cmd : Z) (fl : flock) : nfsfh * list nfs_argop4 :=
  let one '(f, op) := (f, [op]) in
  if l_type fl =? F_RDLCK then one (nfs4_op_lock n f (if cmd =? NFS4_F_SETLK then READ_LT else READW_LT) 0 (l_start fl) (l_len fl))
  else if l_type fl =? F_WRLCK then one (nfs4_op_lock n f (if cmd =? NFS4_F_SETLK then WRITE_LT else WRITEW_LT) 0 (l_start fl) (l_len fl))
  else if l_type fl =? F_UNLCK then one (nfs4_op_locku f WRITE_LT (l_start fl) (l_len fl))
  else (f, []).

Definition nfs4_fcntl_async_internal n h cmd fl : call :=
  with_fh n h (fun f =>
    let '(f, ops) := fcntl_op n f cmd fl in
    on_file (put_fh n h f) f ops (nfs4_fcntl_cb h fl)).

(** The data has been freed when the LOCK cannot be queued, and when the
    attributes are too short; it is used after both. *)
Definition nfs4_fcntl_stat_cb (h : N) (cmd : Z) (fl : flock) (n : nfs) (r : reply (list nfs_resop4)) : call :=
  check_compound cb n r (fun res =>
    nfs4_find_op cb n res the_attr (fun vals =>
      match nfs_parse_attributes (sys_getpwnam os) vals with
      | Parsed st =>
          after (nfs4_fcntl_async_internal n h cmd (moved_by (st_size st) fl))
            (fun n r => if negb (r =? 0) then Undef else leave n 0)
      | _ => Undef
      end)).

Definition nfs4_fcntl_async n h cmd fl : call :=
  with_fh n h (fun f =>
    if (cmd =? NFS4_F_SETLK) || (cmd =? NFS4_F_SETLKW) then
      if l_whence fl =? SEEK_SET then nfs4_fcntl_async_internal n h cmd fl
      else if l_whence fl =? SEEK_CUR then nfs4_fcntl_async_internal n h cmd (moved_by (h_offset f) fl)
      else if l_whence fl =? SEEK_END then on_file n f [nfs4_op_getattr standard_attributes] (nfs4_fcntl_stat_cb h cmd fl)
      else leave n (-1)
    else leave n (-1)).
End locks.
