(* ===== verification/Nfs4Dir.v ===== *)
(** * Nfs4Dir: reading directories with NFSv4 (lib/nfs_v4.c)

    [nfs4_opendir_async] looks up a directory and reads it page after page; an
    entry comes with all its attributes, and is put at the front of the list.
    How many pages there are is up to the server: [pages] are those that may
    still be read, and a call that needs more is [Undef].  The directory is not
    kept in the cache.  Of the handle the code makes an open file only to have
    it at hand. *)

From S2P Require Import Prelude Path Settings Url Nfs4Data Nfs3 Lookup Nfs3Ops Nfs3Dir Nfs4Attr Nfs4 Nfs4Ops.

Section opendir.
Context (os : system) (cb : nfs -> Z -> payload -> call).

(** The type of an entry, by its mode; it is not set for other modes. *)
Definition entry_type (mode : Z) : Z :=
  let t := Z.land mode S_IFMT in
  if t =? S_IFREG then NF3REG else if t =? S_IFDIR then NF3DIR else if t =? S_IFBLK then NF3BLK
  else if t =? S_IFCHR then NF3CHR else if t =? S_IFLNK then NF3LNK else if t =? S_IFSOCK then NF3SOCK
  else if t =? S_IFIFO then NF3FIFO else sys_garbage os.

Definition dirent_of4 (name : bytes) (st : stat64) : nfsdirent :=
  mkDirent (cstr name) (st_ino st)
    (mkDirentAttr (entry_type (st_mode st)) (u32 (st_mode st)) (st_size st) (st_atime st) (st_mtime st) (st_ctime st)
      (u32 (st_uid st)) (u32 (st_gid st)) (u32 (st_nlink st)) (st_dev st) (st_rdev st) NFS_BLKSIZE (st_blocks st) (st_used st)).

(** The loop of [nfs4_parse_readdir]: the directory, and the cookie of the last
    entry. *)
Fixpoint read_entries (es : list entry4) (d : nfsdir) (cookie : Z) : parsed (nfsdir * Z) :=
  match es with
  | [] => Parsed (d, cookie)
  | e :: es =>
      match nfs_parse_attributes (sys_getpwnam os) (e4_attr_vals e) with
      | Parsed st => read_entries es (push_entry (dirent_of4 (e4_name e) st) d) (e4_cookie e)
      | Short => Short
      | Overrun => Overrun
      end
  end.

(** [more] is [nfs4_opendir_continue]. *)
Definition nfs4_parse_readdir (more : nfs -> nfsdir -> Z -> call) (n : nfs) (d : nfsdir) (cookie : Z)
    (res : list entry4 * bool) : call :=
  match read_entries res.1 d cookie with
  | Overrun => Undef
  | Short => cb n (- EINVAL) Message
  | Parsed (d, cookie) => if negb res.2 then more n d cookie else cb n 0 (Directory (set_d_current 0 d))
  end.

Definition nfs4_opendir_2_cb (more : nfs -> nfsdir -> Z -> call) (d : nfsdir) (cookie : Z) (n : nfs)
    (r : reply (list nfs_resop4)) : call :=
  check_compound cb n r (fun res => nfs4_find_op cb n res the_readdir (nfs4_parse_readdir more n d cookie)).

Fixpoint nfs4_opendir_continue (pages : nat) (fh : nfs_fh) (n : nfs) (d : nfsdir) (cookie : Z) : call :=
  match pages with
  | O => Undef
  | S pages =>
      compound n [nfs4_op_putfh fh; nfs4_op_readdir n cookie] (fun n => cb n (- ENOMEM) Message)
        (nfs4_opendir_2_cb (nfs4_opendir_continue pages fh) d cookie)
  end.

Definition nfs4_opendir_cb (pages : nat) (n : nfs) (r : reply (list nfs_resop4)) : call :=
  check_compound cb n r (fun res =>
    nfs4_find_op cb n res the_fh (fun fh =>
      nfs4_find_op cb n res the_readdir (nfs4_parse_readdir (nfs4_opendir_continue pages fh) n no_dir 0))).

Definition nfs4_opendir_async links pages n path : call :=
  on_path os cb links n path asis (populate_readdir 0) (fun _ => nfs4_opendir_cb pages).
End opendir.
