(* ===== verification/Nfs4Walk.v ===== *)
(** * Nfs4Walk: what looking up a path with NFSv4 does

    A server of a tree of files that do not change ([tree], [serves]): it does
    the operations of a compound one after the other, and stops at a link.
    Against it the compounds of a lookup walk over the components of the path
    ([walk4]), replacing links by their targets. *)

From S2P Require Import Prelude Path Settings Url Nfs4Data Nfs3 Lookup LookupProps Nfs3Ops Nfs3Props Nfs4Attr Nfs4 Nfs4Ops.

(** ** Strings and components *)

(** The path that components are normalised to. *)
Definition spelled (cs : list bytes) : bytes := match cs with [] => [slash] | _ => render cs end.

Definition no_nul (s : bytes) : Prop := 0 ∉ s.

Lemma cstr_cut s t : no_nul s -> cstr (s ++ 0 :: t) = s.
Proof.
  induction s as [|c s IH]; intros H; [done|]. cbn [app cstr]. destruct (Z.eqb_spec c 0) as [->|]; [by destruct H; left|].
  rewrite IH; [done|]. intros Hn. apply H. by right.
Qed.

Lemma cstr_no_nul s : no_nul (cstr s).
Proof.
  induction s as [|c s IH]; [by apply not_elem_of_nil|]. cbn [cstr]. destruct (Z.eqb_spec c 0); [by apply not_elem_of_nil|].
  apply not_elem_of_cons. split; [congruence|done].
Qed.

Lemma render_no_nul cs : Forall no_nul cs -> no_nul (render cs).
Proof.
  induction 1 as [|c cs Hc _ IH]; [by apply not_elem_of_nil|]. rewrite render_cons. intros [E|H]%elem_of_cons; [done|].
  apply elem_of_app in H as [H|H]; [by apply Hc|by apply IH].
Qed.

Lemma spelled_no_nul cs : Forall no_nul cs -> no_nul (spelled cs).
Proof. intros H. destruct cs as [|c cs]; [by intros [E|E%elem_of_nil]%elem_of_cons|]. by apply render_no_nul. Qed.

Lemma split_no_nul s : no_nul s -> Forall no_nul (split_slash s).
Proof.
  induction s as [|c s IH]; intros H; [repeat constructor; apply not_elem_of_nil|].
  assert (Hs : no_nul s) by (intros Hn; apply H; by right). specialize (IH Hs). cbn [split_slash].
  destruct (c =? slash); [constructor; [apply not_elem_of_nil|done]|].
  destruct (split_slash s) as [|x l]; [repeat constructor|apply Forall_cons in IH as [Hx Hl]; constructor; [|done]].
  - intros [E|E%elem_of_nil]%elem_of_cons; [|done]. apply H. rewrite E. by left.
  - intros [E|E]%elem_of_cons; [apply H; rewrite E; by left|by apply Hx].
Qed.

(** What is resolved comes from the components. *)
Lemma resolve_forall (P : bytes -> Prop) l : forall st cs, Forall P st -> Forall P l -> resolve st l = Some cs -> Forall P cs.
Proof.
  induction l as [|c l IH]; intros st cs Hst Hl; cbn [resolve]; [intros [= <-]; by apply Forall_rev|].
  apply Forall_cons in Hl as [Hc Hl]. destruct (beq c [] || beq c [dot]); [by apply IH|].
  destruct (beq c dotdot); [|apply IH; [by constructor|done]]. destruct st; [done|]. apply Forall_cons in Hst as [_ Hst]. by apply IH.
Qed.

Lemma resolve_then l : forall st a, resolve st (l ++ a) = match resolve st l with Some r => resolve (rev r) a | None => None end.
Proof.
  induction l as [|c l IH]; intros st a; cbn [app resolve]; [by rewrite rev_involutive|].
  destruct (beq c [] || beq c [dot]); [apply IH|]. destruct (beq c dotdot); [|apply IH]. destruct st; [done|apply IH].
Qed.

Lemma resolve_on_plain a st : Forall plain a -> resolve st a = Some (rev st ++ a).
Proof.
  intros H. rewrite <- (app_nil_r a) at 1. rewrite resolve_app by done. cbn [resolve].
  by rewrite rev_app_distr, rev_involutive.
Qed.

Lemma last_app_one {A} (l : list A) x d : List.last (l ++ [x]) d = x.
Proof. apply last_last. Qed.

(** A path that ends with a slash, or leads to more than the root. *)
Lemma normalize_spelled s cs : resolve [] (split_slash s) = Some cs -> (cs = [] -> List.last (split_slash s) [] = []) ->
  nfs_normalize_path (slash :: s) = Some (spelled cs, 0).
Proof.
  intros H Hl. pose proof (normalize_slash s) as N. unfold normal_form in N. rewrite H in N.
  destruct cs as [|c cs]; [|done]. by rewrite Hl in N.
Qed.

Lemma resolve_path_spelled n cs : Forall plain cs -> nfs4_resolve_path n (spelled cs) = Some (Some (spelled cs)).
Proof.
  intros H. unfold nfs4_resolve_path. rewrite bool_decide_true by (by destruct cs).
  assert (N : nfs_normalize_path (spelled cs) = Some (spelled cs, 0)); [|by rewrite N].
  destruct cs as [|c cs]; [done|]. unfold spelled at 1. rewrite render_cons. apply normalize_spelled; [|done].
  change (c ++ render cs) with (tail (render (c :: cs))). rewrite split_tail by (done || by apply plain_names).
  by apply resolve_plain.
Qed.

(** The path of a link that has been replaced. *)
Lemma resolve_path_relinked n before target after cs :
  Forall plain before -> Forall plain after ->
  resolve [] (before ++ split_slash target ++ after) = Some cs ->
  nfs4_resolve_path n (render before ++ slash :: target ++ slash :: tail (render after)) = Some (Some (spelled cs)).
Proof.
  intros Hb Ha H. destruct (resolve_spells before (render before) (target ++ slash :: tail (render after)) ltac:(by right) Hb) as (q & Eq & Er).
  unfold nfs4_resolve_path. rewrite Eq, bool_decide_true by done. rewrite split_app in Er.
  rewrite (normalize_spelled q cs); [done| |].
  - rewrite Er. destruct after as [|c after]; [|by rewrite split_tail by (done || by apply plain_names)].
    rewrite app_nil_r in H. cbn [render map concat tail split_slash].
    rewrite app_assoc, resolve_then, H. cbn [resolve beq orb]. by rewrite rev_involutive.
  - intros ->. destruct after as [|c after].
    + cbn [render map concat tail] in Eq. change (slash :: target ++ [slash]) with ((slash :: target) ++ [slash]) in Eq.
      rewrite app_assoc in Eq. destruct (render before ++ slash :: target) as [|x l] eqn:Ex; [by destruct (render before)|].
      injection Eq as _ <-. rewrite split_app. apply last_app_one.
    + rewrite app_assoc, resolve_then in H. destruct (resolve [] (before ++ split_slash target)) as [r|]; [|done].
      rewrite resolve_on_plain in H by done. injection H as H. by destruct (rev (rev r)).
Qed.

(** ** A server *)

(** Looking up a name and reading a link give what is asked for or a status;
    [t_other] are the operations that do not walk. *)
Record tree := mkTree {
  t_root : nfs_fh;
  t_lookup : nfs_fh -> bytes -> nfs_fh + Z;
  t_vals : nfs_fh -> bytes;
  t_readlink : nfs_fh -> bytes + Z;
  t_other : nfs_fh -> list nfs_argop4 -> Z * list nfs_resop4
}.

Section serving.
Context (t : tree).

Fixpoint serve (fh : nfs_fh) (ops : list nfs_argop4) : Z * list nfs_resop4 :=
  let done r '(st, res) := (st, r :: res) in
  match ops with
  | [] => (NFS4_OK, [])
  | OP_PUTROOTFH :: ops => done (RES_OTHER 24 NFS4_OK) (serve (t_root t) ops)
  | OP_PUTFH fh :: ops => done (RES_OTHER 22 NFS4_OK) (serve fh ops)
  | OP_LOOKUP c :: ops =>
      match t_lookup t fh c with inl fh => done (RES_LOOKUP NFS4_OK) (serve fh ops) | inr st => (st, [RES_LOOKUP st]) end
  | OP_GETATTR _ :: ops => done (RES_GETATTR NFS4_OK (t_vals t fh)) (serve fh ops)
  | OP_GETFH :: ops => done (RES_GETFH NFS4_OK fh) (serve fh ops)
  | OP_READLINK :: ops =>
      match t_readlink t fh with
      | inl target => done (RES_READLINK NFS4_OK target) (serve fh ops)
      | inr st => (st, [RES_READLINK st []])
      end
  | _ => t_other t fh ops
  end.

Definition tree_answer (q : request) : reply (resok q) :=
  match q return reply (resok q) with
  | COMPOUND ops => Result (serve [] ops).1 (serve [] ops).2
  | _ => RpcError
  end.
Definition tree_server : server := mkServer tree_answer (fun _ => O).

(** Results a lookup does not look at. *)
Definition aside (r : nfs_resop4) : bool :=
  match r with
  | RES_GETATTR _ _ | RES_LOOKUP _ => false
  | RES_OPEN st _ _ => negb (st =? NFS4ERR_SYMLINK)
  | _ => true
  end.

(** Every file has its attributes; names are looked up in what is no link. *)
Record well_formed (os : system) (stat_of : nfs_fh -> stat64) : Prop := {
  wf_vals : forall fh, nfs_parse_attributes (sys_getpwnam os) (t_vals t fh) = Parsed (stat_of fh);
  wf_root : S_ISLNK (stat_of (t_root t)) = false;
  wf_link : forall fh c, S_ISLNK (stat_of fh) = true -> t_lookup t fh c = inr NFS4ERR_SYMLINK;
  wf_file : forall fh c st, S_ISLNK (stat_of fh) = false -> t_lookup t fh c = inr st -> st <> NFS4_OK /\ st <> NFS4ERR_SYMLINK;
  wf_readlink : forall fh st, t_readlink t fh = inr st -> st <> NFS4_OK;
  wf_aside : forall fh ops, Forall (fun r => aside r = true) (t_other t fh ops).2
}.

(** ** Walking *)

Inductive reached := At (fh : nfs_fh) | Stopped (st : Z) (fh : nfs_fh) (before after : list bytes).

(** From [fh], where [before] has led, over [after]. *)
Fixpoint reach (before : list bytes) (fh : nfs_fh) (after : list bytes) : reached :=
  match after with
  | [] => At fh
  | c :: after' =>
      match t_lookup t fh c with
      | inl fh => reach (before ++ [c]) fh after'
      | inr st => Stopped st fh before after
      end
  end.

Inductive outcome4 := Reached4 (fh : nfs_fh) (path : list bytes) | Lost4 (err : Z) | Looping.

Section walking.
Context (stat_of : nfs_fh -> stat64) (no_follow : bool) (ops : list nfs_argop4).

(** The link that [before] leads to is replaced by its target, relative to the
    directory it is in even if it starts with a slash. *)
Definition relinked (again : option (list bytes) -> outcome4) (before : list bytes) (fh : nfs_fh) (after : list bytes) : outcome4 :=
  match t_readlink t fh with
  | inr st => Lost4 (nfsstat4_to_errno st)
  | inl target => again (resolve [] (removelast before ++ split_slash (cstr target) ++ after))
  end.

(** The components of a path that does not lead above the root.  The operation
    [ops] is done on what the path leads to, before it is known whether that is
    a link. *)
Fixpoint walk4 (links : nat) (path : option (list bytes)) : outcome4 :=
  match links, path with
  | O, _ => Looping
  | _, None => Lost4 (- ENOMEM)
  | S links, Some cs =>
      match reach [] (t_root t) cs with
      | Stopped st fh before after =>
          if st =? NFS4ERR_SYMLINK then relinked (walk4 links) before fh after else Lost4 (nfsstat4_to_errno st)
      | At fh =>
          let st := (serve fh ops).1 in
          if negb (st =? NFS4_OK) && negb (st =? NFS4ERR_SYMLINK) then Lost4 (nfsstat4_to_errno st)
          else if S_ISLNK (stat_of fh) && negb no_follow then relinked (walk4 links) cs fh []
          else if st =? NFS4_OK then Reached4 fh cs else Lost4 (- EFAULT)
      end
  end.
End walking.
End serving.

(** ** Compounds of a lookup *)

Lemma op_lookups_render cs : forall fuel, Forall plain cs -> (length (tail (render cs)) <= fuel)%nat ->
  op_lookups fuel (tail (render cs)) = map OP_LOOKUP cs.
Proof.
  induction cs as [|c cs IH]; intros fuel H Hf; [by destruct fuel|]. apply Forall_cons in H as [Hc H].
  destruct (plain_head c Hc) as (x & c' & -> & Hx & Hn). pose proof Hc as (Hnm & _).
  rewrite render_cons in *. cbn [tail] in *. rewrite length_app in Hf. cbn [length] in Hf.
  destruct fuel as [|fuel]; [lia|]. cbn [op_lookups app]. rewrite (strchr_name (x :: c') cs Hnm : strchr_slash (x :: c' ++ render cs) = _).
  destruct cs as [|d cs]; [by rewrite app_nil_r|]. cbn [map]. f_equal.
  apply IH; [done|]. pose proof (tail_length (d :: cs) ltac:(done)). lia.
Qed.

Lemma components_render cs : Forall name cs -> nfs4_num_path_components (render cs) = length cs.
Proof.
  induction 1 as [|c cs Hc _ IH]; [done|]. rewrite render_cons. cbn [nfs4_num_path_components]. rewrite Z.eqb_refl. cbn [length]. f_equal.
  induction c as [|x c IHc]; [done|]. cbn [app nfs4_num_path_components]. destruct (Z.eqb_spec x slash) as [->|]; [by destruct Hc; left|].
  apply IHc. intros H. apply Hc. by right.
Qed.

Definition root_op (n : nfs) : nfs_argop4 := match n_rootfh n with [] => OP_PUTROOTFH | fh => nfs4_op_putfh fh end.
Definition walk_ops (n : nfs) (cs : list bytes) : list nfs_argop4 :=
  root_op n :: map OP_LOOKUP cs ++ [nfs4_op_getattr standard_attributes].

(** The path may be cut by a NUL. *)
Lemma allocate_walk n cs rest : Forall plain cs -> Forall no_nul cs -> (rest = [] \/ exists r, rest = 0 :: r) ->
  nfs4_allocate_op n (spelled cs ++ rest) = Some (walk_ops n cs).
Proof.
  intros Hp Hz Hr. assert (C : forall s, no_nul s -> cstr (s ++ rest) = s).
  { intros s Hs. destruct Hr as [->|[r ->]]; [rewrite app_nil_r; by apply cstr_id|by apply cstr_cut]. }
  assert (Hs : exists ptr, spelled cs = slash :: ptr /\ ptr = tail (render cs)) by (destruct cs as [|c cs]; eexists; by split).
  destruct Hs as (ptr & Es & Et). pose proof (spelled_no_nul cs Hz) as Hn. rewrite Es in Hn |- *.
  assert (Hnp : no_nul ptr) by (intros H; apply Hn; by right).
  cbn [app]. unfold nfs4_allocate_op. change (slash :: ptr ++ rest) with ((slash :: ptr) ++ rest). rewrite (C ptr), (C (slash :: ptr)) by done.
  rewrite Et, op_lookups_render by (done || rewrite <- Et, length_app; lia). rewrite <- Et, <- Es.
  assert (L : (length cs <= nfs4_num_path_components (spelled cs))%nat).
  { destruct cs as [|c cs]; [cbn; lia|]. unfold spelled. by rewrite components_render by by apply plain_names. }
  rewrite length_map. apply Nat.leb_le in L. by rewrite L.
Qed.

(** ** Links in a path *)

Lemma next_slash_render mid : forall a post, Forall plain (mid ++ post) -> post <> [] ->
  next_slash (length mid) (render (a ++ mid ++ post)) (length (render a)) = Some (length (render (a ++ mid))).
Proof.
  induction mid as [|m mid IH]; intros a post H Hne; [by rewrite app_nil_r|].
  change ((m :: mid) ++ post) with (m :: (mid ++ post)) in *. apply Forall_cons in H as [(Hm & _) H]. cbn [length next_slash].
  rewrite <- Nat.add_1_r, <- drop_drop, drop_render, render_cons. cbn [skipn]; rewrite drop_0.
  rewrite strchr_name by done.
  assert (E : match mid ++ post with [] => None | _ => Some (m, tail (render (mid ++ post))) end = Some (m, tail (render (mid ++ post))))
    by (destruct mid; [by destruct post|done]).
  rewrite E.
  replace (length (render a) + 1 + length m)%nat with (length (render (a ++ [m]))) by (rewrite render_length_app, render_one; lia).
  change (m :: mid ++ post) with ([m] ++ (mid ++ post)). rewrite app_assoc, IH by done. by rewrite <- app_assoc.
Qed.

Lemma next_slash_start before after : Forall plain (before ++ after) -> after <> [] ->
  next_slash (length before) (render (before ++ after)) 0 = Some (length (render before)).
Proof. apply (next_slash_render before []). Qed.

Lemma path_cut before after : Forall plain (before ++ after) -> after <> [] ->
  (tmp ← next_slash (length before) (render (before ++ after)) 0;
   Some (take tmp (render (before ++ after)) ++ 0 :: drop (S tmp) (render (before ++ after)))) =
  Some (render before ++ 0 :: tail (render after)).
Proof.
  intros H Hne. rewrite (next_slash_start before after) by done. cbn [mbind option_bind app].
  rewrite take_render, <- Nat.add_1_r, <- drop_drop, drop_render. by destruct (render after).
Qed.

Lemma link_place_render b c after : Forall plain (b ++ c :: after) ->
  link_place (render (b ++ c :: after)) (S (length b)) = Some (render b, tail (render after)).
Proof.
  intros H. unfold link_place. replace (S (length b) - 1)%nat with (length b) by lia.
  rewrite (next_slash_start b (c :: after)) by done. cbn [mbind option_bind app].
  rewrite take_render, <- Nat.add_1_r, <- drop_drop, drop_render, render_cons. cbn [skipn]; rewrite drop_0.
  apply Forall_app in H as [_ H]. apply Forall_cons in H as [(Hc & _) _]. rewrite strchr_name by done.
  assert (L : (length (render b) <? length (render (b ++ c :: after)))%nat = true).
  { apply Nat.ltb_lt. rewrite render_length_app, render_cons. cbn. lia. }
  rewrite L. by destruct after.
Qed.

(** ** Replies *)

Section replies.
Context (os : system) (t : tree) (stat_of : nfs_fh -> stat64).
Hypothesis t_formed : well_formed t os stat_of.

Lemma reach_parts cs : forall before fh st f b a, reach t before fh cs = Stopped st f b a ->
  exists m c a', cs = m ++ a /\ a = c :: a' /\ b = before ++ m /\ reach t before fh m = At f /\ t_lookup t f c = inr st.
Proof.
  induction cs as [|c cs IH]; intros before fh st f b a; cbn [reach]; [done|].
  destruct (t_lookup t fh c) as [fh'|st'] eqn:E.
  - intros (m & c' & a' & -> & -> & -> & Hr & Hl)%IH. exists (c :: m), c', a'. rewrite <- app_assoc. cbn [reach]. by rewrite E.
  - intros [= <- <- <- <-]. exists [], c, cs. by rewrite app_nil_r.
Qed.

(** A walk that gets somewhere has no link on the way. *)
Lemma reach_last cs : forall before fh f, reach t before fh cs = At f -> S_ISLNK (stat_of f) = true ->
  S_ISLNK (stat_of fh) = false -> cs <> [].
Proof. intros before fh f H Hf Hfh ->. injection H as <-. congruence. Qed.

Definition walked (cs : list bytes) (fh : nfs_fh) : list nfs_resop4 :=
  replicate (length cs) (RES_LOOKUP NFS4_OK) ++ [RES_GETATTR NFS4_OK (t_vals t fh)].

Lemma serve_at cs : forall before fh f attrs ops, reach t before fh cs = At f ->
  serve t fh (map OP_LOOKUP cs ++ nfs4_op_getattr attrs :: ops) =
    ((serve t f ops).1, walked cs f ++ (serve t f ops).2).
Proof.
  induction cs as [|c cs IH]; intros before fh f attrs ops; cbn [reach].
  - intros [= ->]. cbn. by destruct (serve t f ops).
  - destruct (t_lookup t fh c) as [fh'|st] eqn:E; [|done]. intros H. cbn [map app serve]. rewrite E.
    by rewrite (IH _ _ _ attrs ops H).
Qed.

Lemma serve_stopped m : forall before fh f attrs ops c a st, reach t before fh m = At f -> t_lookup t f c = inr st ->
  serve t fh (map OP_LOOKUP (m ++ c :: a) ++ nfs4_op_getattr attrs :: ops) =
    (st, replicate (length m) (RES_LOOKUP NFS4_OK) ++ [RES_LOOKUP st]).
Proof.
  induction m as [|x m IH]; intros before fh f attrs ops c a st; cbn [reach].
  - intros [= ->] H. cbn [app map serve]. by rewrite H.
  - destruct (t_lookup t fh x) as [fh'|st'] eqn:E; [|done]. intros H Hl. cbn [app map serve]. rewrite E.
    by rewrite (IH _ _ _ attrs ops c a st H Hl).
Qed.

(** *** What a lookup sees in them *)

Definition unlooked (r : nfs_resop4) : bool := match r with RES_GETATTR _ _ => false | _ => true end.

Lemma link_among_app l l' : Forall (fun r => unlooked r = true) l -> link_among os (l ++ l') = link_among os l'.
Proof. induction 1 as [|r l H _ IH]; [done|]. by destruct r. Qed.

Lemma unlooked_lookups k : Forall (fun r => unlooked r = true) (replicate k (RES_LOOKUP NFS4_OK)).
Proof. by apply Forall_replicate. Qed.

Lemma aside_unlooked l : Forall (fun r => aside r = true) l -> Forall (fun r => unlooked r = true) l.
Proof. intros H. eapply Forall_impl; [exact H|]. by intros []. Qed.

Lemma aside_open l : Forall (fun r => aside r = true) l -> open_met_link l = false.
Proof.
  induction 1 as [|r l H _ IH]; [done|]. unfold open_met_link in *. cbn [existsb]. rewrite IH.
  destruct r; try done. cbn [aside] in H. by rewrite (proj1 (negb_true_iff _) H).
Qed.

Lemma lookups_open k st : open_met_link (replicate k (RES_LOOKUP NFS4_OK) ++ [RES_LOOKUP st]) = false.
Proof. by induction k. Qed.

Lemma failed_lookups k l : forall idx, failed_lookup idx (replicate k (RES_LOOKUP NFS4_OK) ++ l) = failed_lookup (idx + k) l.
Proof.
  induction k as [|k IH]; intros idx; [by rewrite Nat.add_0_r|]. cbn. rewrite IH. f_equal. lia.
Qed.

Lemma failed_aside l : forall idx, Forall (fun r => aside r = true) l -> failed_lookup idx l = (idx, false).
Proof. intros idx. induction 1 as [|r l H _ IH]; [done|]. destruct r; done. Qed.

Definition root_res (n : nfs) : nfs_resop4 := RES_OTHER (match n_rootfh n with [] => 24 | _ => 22 end) NFS4_OK.

Lemma serve_root n ops : n_rootfh n = [] \/ n_rootfh n = t_root t ->
  serve t [] (root_op n :: ops) = ((serve t (t_root t) ops).1, root_res n :: (serve t (t_root t) ops).2).
Proof.
  intros H. unfold root_op, root_res. destruct (n_rootfh n) as [|b l].
  - cbn [serve]. by destruct (serve t (t_root t) ops).
  - destruct H as [H|H]; [done|]. cbn [serve nfs4_op_putfh]. rewrite H. by destruct (serve t (t_root t) ops).
Qed.
End replies.

(** ** The whole lookup *)

Lemma resolve_path_refused n before target after : Forall plain before -> Forall plain after ->
  resolve [] (before ++ split_slash target ++ after) = None ->
  nfs4_resolve_path n (render before ++ slash :: target ++ slash :: tail (render after)) = Some None.
Proof.
  intros Hb Ha H. destruct (resolve_spells before (render before) (target ++ slash :: tail (render after)) ltac:(by right) Hb) as (q & Eq & Er).
  unfold nfs4_resolve_path. rewrite Eq, bool_decide_true by done. rewrite split_app in Er.
  pose proof (normalize_spells q) as N. rewrite Er in N.
  assert (E : resolve [] (before ++ split_slash target ++ split_slash (tail (render after))) = None).
  { destruct after as [|c after]; [|by rewrite split_tail by (done || by apply plain_names)].
    rewrite app_nil_r in H. by rewrite app_assoc, resolve_then, H. }
  rewrite E in N. destruct N as (p & N). by rewrite N.
Qed.

Section lookup.
Context (os : system) (t : tree) (stat_of : nfs_fh -> stat64) (cb : nfs -> Z -> payload -> call).
Context (continue_cb : cb_data -> nfs -> reply (list nfs_resop4) -> call) (n : nfs) (d : cb_data) (ops : list nfs_argop4).
Hypothesis t_formed : well_formed t os stat_of.
Hypothesis queued : n_sends n = [].
Hypothesis rooted : n_rootfh n = [] \/ n_rootfh n = t_root t.
Hypothesis filled : forall p, populate os n (set_d4_path p d) = Some (n, set_d4_path p d, ops).
Hypothesis ops_aside : forall fh, Forall (fun r => aside r = true) (serve t fh ops).2.
#[local] Notation srv := (tree_server t).
#[local] Notation walk := (walk4 t stat_of (d4_no_follow d) ops).
#[local] Notation lookup links := (nfs4_lookup_path_async os cb links continue_cb n).

Definition results (cs : list bytes) (fh : nfs_fh) : list nfs_resop4 := root_res n :: walked t cs fh ++ (serve t fh ops).2.

(** The operation goes on where the walk ends, or its error is reported, or it
    does not end. *)
Definition goes_on4 (c : call) (o : outcome4) : Prop :=
  match o with
  | Reached4 fh cs => run srv c = run srv (continue_cb (set_d4_path (spelled cs) d) n (Result NFS4_OK (results cs fh)))
  | Lost4 err => run srv c = run srv (cb n err Message)
  | Looping => run srv c = None
  end.

Lemma goes_on4_run c c' o : run srv c = run srv c' -> goes_on4 c' o -> goes_on4 c o.
Proof. intros H. destruct o; cbn; by rewrite H. Qed.

Lemma run_compound l refused k :
  run srv (compound n l refused k) = run srv (k n (Result (serve t [] l).1 (serve t [] l).2)).
Proof. unfold compound. by rewrite (run_send srv n (COMPOUND l)). Qed.

Lemma walk_ops_app cs l : walk_ops n cs ++ l = root_op n :: (map OP_LOOKUP cs ++ nfs4_op_getattr standard_attributes :: l).
Proof. unfold walk_ops. cbn [app]. by rewrite <- app_assoc. Qed.

Lemma find_readlink cs fh l : find_op the_readlink (root_res n :: walked t cs fh ++ l) = find_op the_readlink l.
Proof. unfold walked. cbn. induction (length cs); done. Qed.

(** A lookup that can be queued. *)
Lemma lookup_started links p cs : nfs4_resolve_path n p = Some (Some (spelled cs)) -> Forall plain cs -> Forall no_nul cs ->
  lookup (S links) (set_d4_path p d) =
    compound n (walk_ops n cs ++ ops) (fun n => leave n (-1))
      (nfs4_lookup_path_1_cb os cb (nfs4_lookup_path_async os cb links) continue_cb (set_d4_path (spelled cs) d)).
Proof.
  intros Hp Hc Hz. cbn [nfs4_lookup_path_async]. change (d4_path (set_d4_path p d)) with p. rewrite Hp.
  rewrite <- (app_nil_r (spelled cs)) at 1. rewrite allocate_walk by (done || by left).
  change (set_d4_path (spelled cs) (set_d4_path p d)) with (set_d4_path (spelled cs) d). by rewrite filled.
Qed.

(** The lookup of a path in which a link has been replaced. *)
Lemma relinked_goes_on links b a target : Forall plain (b ++ a) -> Forall no_nul (b ++ a) ->
  (forall p cs, nfs4_resolve_path n p = Some (Some (spelled cs)) -> Forall plain cs -> Forall no_nul cs ->
    goes_on4 (lookup links (set_d4_path p d)) (walk links (Some cs))) ->
  goes_on4 (or_no_memory cb (lookup links (set_d4_path (render b ++ slash :: cstr target ++ slash :: tail (render a)) d)))
    (walk links (resolve [] (b ++ split_slash (cstr target) ++ a))).
Proof.
  intros [Hb Ha]%Forall_app [Zb Za]%Forall_app IH. destruct links as [|links]; [by destruct (resolve _ _)|].
  destruct (resolve [] (b ++ split_slash (cstr target) ++ a)) as [cs|] eqn:E.
  - pose proof (resolve_path_relinked n b (cstr target) a cs Hb Ha E) as Hp.
    assert (Hc : Forall plain cs).
    { eapply resolve_clean; [|by apply Forall_nil_2|exact E]. apply Forall_app; split; [by apply plain_names|].
      apply Forall_app; split; [apply split_names|by apply plain_names]. }
    assert (Hz : Forall no_nul cs).
    { eapply resolve_forall; [by apply Forall_nil_2| |exact E]. apply Forall_app; split; [done|].
      apply Forall_app; split; [apply split_no_nul, cstr_no_nul|done]. }
    eapply goes_on4_run; [|by apply (IH _ cs Hp)]. rewrite (lookup_started links _ cs) by done.
    unfold compound, send. rewrite queued. done.
  - cbn [nfs4_lookup_path_async walk4]. change (d4_path (set_d4_path ?p d)) with p.
    rewrite (resolve_path_refused n b (cstr target) a Hb Ha E). cbn [goes_on4]. unfold or_no_memory. cbn [after leave].
    by destruct (cb n (- ENOMEM) Message) as [out n' r []|].
Qed.

(** The link [b] leads to is read, and replaced. *)
Lemma link_goes_on links b f a : Forall plain (b ++ a) -> Forall no_nul (b ++ a) -> b <> [] -> reach t [] (t_root t) b = At f ->
  (forall p cs, nfs4_resolve_path n p = Some (Some (spelled cs)) -> Forall plain cs -> Forall no_nul cs ->
    goes_on4 (lookup links (set_d4_path p d)) (walk links (Some cs))) ->
  goes_on4 (compound n (walk_ops n b ++ [OP_READLINK]) (fun n => cb n (- ENOMEM) Message)
      (nfs4_lookup_path_2_cb cb (nfs4_lookup_path_async os cb links) continue_cb (length b) (set_d4_path (spelled (b ++ a)) d)))
    (relinked t (walk links) b f a).
Proof.
  intros Hp Hz Hne Hr IH. destruct (exists_last Hne) as (b0 & x & ->).
  eapply goes_on4_run; [apply run_compound|]. rewrite walk_ops_app, serve_root by done.
  rewrite (serve_at _ _ _ _ _ standard_attributes [OP_READLINK] Hr). cbn [serve fst snd]. unfold relinked.
  rewrite removelast_last. unfold nfs4_lookup_path_2_cb, check_compound, check_nfs4_error, check_nfs3_error.
  destruct (t_readlink t f) as [target|st] eqn:El; cbn [fst snd].
  - change (NFS4_OK =? NFS4_OK) with true. cbv iota.
    rewrite <- app_assoc in Hp, Hz |- *. cbn [app] in *.
    assert (E : link_place (d4_path (set_d4_path (spelled (b0 ++ x :: a)) d)) (length (b0 ++ [x])) = Some (render b0, tail (render a))).
    { rewrite length_app, Nat.add_1_r. destruct b0; by apply link_place_render. }
    rewrite E. unfold nfs4_find_op. rewrite find_readlink. cbn [find_op the_readlink]. apply (relinked_goes_on links b0 a target); [| |done].
    + apply Forall_app in Hp as [H1 H2]. apply Forall_cons in H2 as [_ H2]. by apply Forall_app.
    + apply Forall_app in Hz as [H1 H2]. apply Forall_cons in H2 as [_ H2]. by apply Forall_app.
  - pose proof (wf_readlink _ _ _ t_formed f st El) as Hst. apply Z.eqb_neq in Hst. by rewrite Hst.
Qed.

Lemma seen_at cs f l : Forall (fun r => aside r = true) l ->
  link_among os (root_res n :: walked t cs f ++ l) = Parsed (S_ISLNK (stat_of f)) /\
  open_met_link (root_res n :: walked t cs f ++ l) = false /\
  failed_lookup 0 (root_res n :: walked t cs f ++ l) = (length cs, false).
Proof.
  intros H. unfold walked. rewrite <- app_assoc. split_and!.
  - cbn [link_among root_res the_attr]. rewrite link_among_app by apply unlooked_lookups. cbn [app link_among the_attr].
    rewrite (wf_vals _ _ _ t_formed). rewrite <- (app_nil_r l), link_among_app by by apply aside_unlooked. cbn. by rewrite orb_false_r.
  - cbn. rewrite existsb_app. cbn. rewrite (aside_open l H : existsb _ l = false). by induction (length cs).
  - cbn [failed_lookup root_res]. rewrite failed_lookups. cbn [app failed_lookup Nat.add]. by apply failed_aside.
Qed.

Lemma seen_stopped k st :
  link_among os (root_res n :: replicate k (RES_LOOKUP NFS4_OK) ++ [RES_LOOKUP st]) = Parsed false /\
  open_met_link (root_res n :: replicate k (RES_LOOKUP NFS4_OK) ++ [RES_LOOKUP st]) = false /\
  failed_lookup 0 (root_res n :: replicate k (RES_LOOKUP NFS4_OK) ++ [RES_LOOKUP st]) =
    (if st =? NFS4ERR_SYMLINK then (k, true) else (S k, false)).
Proof.
  split_and!.
  - cbn [link_among root_res the_attr]. by rewrite link_among_app by apply unlooked_lookups.
  - apply lookups_open.
  - cbn [failed_lookup root_res]. rewrite failed_lookups. cbn [failed_lookup Nat.add]. by destruct (st =? NFS4ERR_SYMLINK).
Qed.

Lemma lookup_walk4 links : forall p cs, nfs4_resolve_path n p = Some (Some (spelled cs)) -> Forall plain cs -> Forall no_nul cs ->
  goes_on4 (lookup links (set_d4_path p d)) (walk links (Some cs)).
Proof.
  induction links as [|links IH]; intros p cs Hp Hc Hz; [done|].
  rewrite (lookup_started links p cs) by done. eapply goes_on4_run; [apply run_compound|].
  rewrite walk_ops_app, serve_root by done. cbn [walk4]. pose proof (wf_root _ _ _ t_formed) as Hroot.
  unfold nfs4_lookup_path_1_cb. cbn [check_nfs3_error].
  destruct (reach t [] (t_root t) cs) as [f|st f b a] eqn:Er.
  - rewrite (serve_at _ _ _ _ _ standard_attributes ops Er). cbn [fst snd]. set (st := (serve t f ops).1).
    destruct (negb (st =? NFS4_OK) && negb (st =? NFS4ERR_SYMLINK)) eqn:Es; [done|].
    destruct (seen_at cs f _ (ops_aside f)) as (E1 & E2 & E3). rewrite E1, E2, E3, andb_false_r. cbv zeta.
    change (d4_no_follow (set_d4_path (spelled cs) d)) with (d4_no_follow d).
    destruct (S_ISLNK (stat_of f) && negb (d4_no_follow d)) eqn:El.
    + cbn [andb negb]. rewrite andb_false_r. cbv iota. change (d4_path (set_d4_path (spelled cs) d)) with (spelled cs).
      rewrite <- (app_nil_r (spelled cs)) at 1. rewrite allocate_walk by (done || by left).
      rewrite <- (app_nil_r cs) in Hc, Hz. rewrite <- (app_nil_r cs) at 3.
      apply andb_true_iff in El as [El _]. apply link_goes_on; try done. by eapply reach_last.
    + cbn [andb negb]. rewrite andb_true_r. destruct (Z.eqb_spec st NFS4_OK) as [E|E]; [|done].
      unfold goes_on4, results. done.
  - apply reach_parts in Er as (m & c & a' & -> & -> & -> & Hr & Hl). cbn [app].
    rewrite (serve_stopped _ _ _ _ _ standard_attributes ops c a' st Hr Hl). cbn [fst snd].
    destruct (seen_stopped (length m) st) as (E1 & E2 & E3). rewrite E1, E2, E3.
    destruct (Z.eqb_spec st NFS4ERR_SYMLINK) as [->|Hst].
    + cbn [andb negb]. cbv zeta iota. change (NFS4ERR_SYMLINK =? NFS4_OK) with false. cbn [andb negb].
      assert (Hf : S_ISLNK (stat_of f) = true).
      { apply not_false_is_true. intros Hf. by destruct (wf_file _ _ _ t_formed f c _ Hf Hl). }
      assert (Hm : m <> []) by (by eapply reach_last).
      assert (Es : d4_path (set_d4_path (spelled (m ++ c :: a')) d) = render (m ++ c :: a')) by (by destruct m). rewrite Es.
      rewrite path_cut by done.
      assert (Em : render m = spelled m) by (by destruct m). rewrite Em.
      pose proof Hc as [Hcm _]%Forall_app. pose proof Hz as [Hzm _]%Forall_app.
      rewrite allocate_walk by (done || by right; eexists). by apply link_goes_on.
    + assert (E : st =? NFS4_OK = false).
      { apply Z.eqb_neq. destruct (S_ISLNK (stat_of f)) eqn:Hf; [|by destruct (wf_file _ _ _ t_formed f c _ Hf Hl)].
        rewrite (wf_link _ _ _ t_formed) in Hl by done. congruence. }
      by rewrite E.
Qed.
End lookup.
