(* ===== verification/Nfs4Props.v ===== *)
(** * Nfs4Props: what the operations of NFSv4 on paths do

    Against a server of a tree of files ([Nfs4Walk]): where the operations act,
    and what is reported.  A call that does not end is one that needs more than
    [links] lookups. *)

From S2P Require Import Prelude Path Settings Url Nfs4Data Nfs3 Lookup LookupProps Nfs3Ops Nfs3Props Nfs4Attr Nfs4 Nfs4Ops Nfs4File Nfs4Walk.

(** ** The components of a path *)

Lemma render_no_nul_inv cs : no_nul (render cs) -> Forall no_nul cs.
Proof.
  induction cs as [|c cs IH]; intros H; [done|]. rewrite render_cons in H. constructor.
  - intros Hc. apply H. right. apply elem_of_app. by left.
  - apply IH. intros Hc. apply H. right. apply elem_of_app. by right.
Qed.

Lemma no_nul_app a b : no_nul a -> no_nul b -> no_nul (a ++ b).
Proof. intros Ha Hb [H|H]%elem_of_app; [by apply Ha|by apply Hb]. Qed.

(** The path is relative to the working directory or starts with a slash. *)
Lemma full_path n cwd path : spells (n_cwd n) cwd -> no_nul (n_cwd n) -> no_nul path ->
  match path_components cwd path with
  | None => nfs4_resolve_path n path = Some None
  | Some [] => True
  | Some cs => nfs4_resolve_path n path = Some (Some (spelled cs)) /\ Forall plain cs /\ Forall no_nul cs
  end.
Proof.
  intros Hw Zw Zp. unfold nfs4_resolve_path.
  assert (H : exists q, (if bool_decide (head path = Some slash) then path else n_cwd n ++ slash :: path) = slash :: q /\
    no_nul q /\ resolve [] (split_slash q) = path_components cwd path).
  { destruct path as [|c s].
    - rewrite bool_decide_false by done. destruct (cwd_components (n_cwd n) cwd [] Hw) as (q & E1 & E2).
      change ([slash] ++ []) with [slash] in E1. exists q. split; [done|]. split.
      + assert (no_nul (slash :: q)) as Hq; [rewrite <- E1; by apply no_nul_app; [|intros [|H%elem_of_nil]%elem_of_cons]|].
        intros Hn. apply Hq. by right.
      + rewrite E2. cbn [split_slash path_components]. rewrite resolve_app by by eapply spells_plain. cbn. by rewrite app_nil_r, rev_involutive.
    - unfold path_components. destruct (Z.eqb_spec c slash) as [->|Hc].
      + rewrite bool_decide_true by done. exists s. split; [done|]. split; [|done]. intros Hn. apply Zp. by right.
      + rewrite bool_decide_false by (cbn; congruence). destruct (cwd_components (n_cwd n) cwd (c :: s) Hw) as (q & E1 & E2).
        exists q. split; [done|]. split; [|done].
        assert (no_nul (slash :: q)) as Hq.
        { rewrite <- E1. apply no_nul_app; [done|]. apply no_nul_app; [by intros [|H%elem_of_nil]%elem_of_cons|done]. }
        intros Hn. apply Hq. by right. }
  destruct H as (q & E & Zq & Eq). rewrite E. destruct (path_components cwd path) as [[|c cs]|] eqn:Ep; [done| |].
  - rewrite (normalize_spelled q (c :: cs)) by done. split; [done|]. split.
    + eapply resolve_clean; [apply split_names|by apply Forall_nil_2|exact Eq].
    + eapply resolve_forall; [by apply Forall_nil_2|apply split_no_nul, Zq|exact Eq].
  - pose proof (normalize_spells q) as N. rewrite Eq in N. destruct N as (p & N). by rewrite N.
Qed.

Lemma data_split_spelled cs nm path filler : Forall plain (cs ++ [nm]) ->
  data_split_path (new_cb_data (spelled (cs ++ [nm])) filler) = Some (set_d4_data nm (set_d4_path (spelled cs) (new_cb_data path filler))).
Proof.
  intros H. apply Forall_app in H as [_ H]. apply Forall_cons in H as [(Hn & _) _]. unfold data_split_path.
  assert (E : d4_path (new_cb_data (spelled (cs ++ [nm])) filler) = render cs ++ slash :: nm).
  { assert (E : spelled (cs ++ [nm]) = render (cs ++ [nm])) by (by destruct cs). cbn [d4_path new_cb_data]. rewrite E, render_app. cbn. by rewrite app_nil_r. }
  rewrite E, strrchr_last by done. destruct cs as [|c cs]; [done|]. unfold spelled at 2. by rewrite render_cons.
Qed.

Section operations.
Context (os : system) (t : tree) (stat_of : nfs_fh -> stat64) (links : nat) (n : nfs) (cwd : list bytes).
Hypothesis t_formed : well_formed t os stat_of.

(** A mounted context whose requests can be queued. *)
Record settled4 : Prop := {
  s4_sends : n_sends n = [];
  s4_root : n_rootfh n = [] \/ n_rootfh n = t_root t;
  s4_cwd : spells (n_cwd n) cwd;
  s4_nul : no_nul (n_cwd n);
}.
Hypothesis n_settled : settled4.
#[local] Notation srv := (tree_server t).

(** The user is told where the walk got, or why it did not. *)
Definition told (o : outcome4) (ok : nfs_fh -> list bytes -> payload * nfs) : option (list (Z * payload) * nfs) :=
  match o with
  | Reached4 fh cs => Some ([(0, (ok fh cs).1)], (ok fh cs).2)
  | Lost4 err => Some ([(err, Message)], n)
  | Looping => None
  end.

Lemma run_started c : run srv (started c) = run srv c.
Proof. apply run_after_leave. Qed.

Lemma run_lookup4 continue_cb d cs ops no_follow ok :
  (forall p, populate os n (set_d4_path p d) = Some (n, set_d4_path p d, ops)) -> d4_path d = spelled cs -> d4_no_follow d = no_follow ->
  Forall plain cs -> Forall no_nul cs ->
  (forall fh, Forall (fun r => aside r = true) (serve t fh ops).2) ->
  (forall fh cs', walk4 t stat_of no_follow ops links (Some cs) = Reached4 fh cs' ->
    run srv (continue_cb (set_d4_path (spelled cs') d) n (Result NFS4_OK (results t n ops cs' fh))) =
    Some ([(0, (ok fh cs').1)], (ok fh cs').2)) ->
  run srv (started (nfs4_lookup_path_async os user links continue_cb n d)) = told (walk4 t stat_of no_follow ops links (Some cs)) ok.
Proof.
  intros Hf Hd <- Hc Hz Ha Hk. destruct n_settled as [Hq Hr _ _]. rewrite run_started.
  pose proof (lookup_walk4 os t stat_of user continue_cb n d ops t_formed Hq Hr Hf Ha links (spelled cs) cs
    (resolve_path_spelled n cs Hc) Hc Hz) as H.
  assert (E : set_d4_path (spelled cs) d = d) by (rewrite <- Hd; by destruct d). rewrite E in H.
  destruct (walk4 _ _ _ _ _ _) as [fh cs'|err|] eqn:W; cbn [goes_on4 told] in *; [by rewrite H, (Hk fh cs' eq_refl)|by rewrite H|done].
Qed.

Lemma run_on_path path cs f filler ops no_follow continue_cb ok : no_nul path -> path_components cwd path = Some cs -> cs <> [] ->
  (forall p q, set_d4_path q (f (new_cb_data p filler)) = f (new_cb_data q filler)) ->
  (forall p, d4_path (f (new_cb_data p filler)) = p /\ d4_no_follow (f (new_cb_data p filler)) = no_follow) ->
  (forall p, populate os n (f (new_cb_data p filler)) = Some (n, f (new_cb_data p filler), ops)) ->
  (forall fh, Forall (fun r => aside r = true) (serve t fh ops).2) ->
  (forall fh cs', walk4 t stat_of no_follow ops links (Some cs) = Reached4 fh cs' ->
    run srv (continue_cb (f (new_cb_data (spelled cs') filler)) n (Result NFS4_OK (results t n ops cs' fh))) =
    Some ([(0, (ok fh cs').1)], (ok fh cs').2)) ->
  run srv (on_path os user links n path f filler continue_cb) = told (walk4 t stat_of no_follow ops links (Some cs)) ok.
Proof.
  intros Zp Hp Hne Hs Hd Hf Ha Hk. destruct n_settled as [_ _ Hw Zw]. pose proof (full_path n cwd path Hw Zw Zp) as H.
  rewrite Hp in H. destruct cs as [|c cs]; [done|]. destruct H as (H & Hc & Hz). unfold on_path, init_cb_data_full_path. rewrite H.
  destruct (Hd (spelled (c :: cs))) as [Hd1 Hd2].
  apply run_lookup4; try done; intros; rewrite Hs; auto.
Qed.

Lemma run_on_name path cs nm f filler ops no_follow continue_cb ok : no_nul path -> path_components cwd path = Some (cs ++ [nm]) ->
  let d p := f (set_d4_data nm (set_d4_path p (new_cb_data [] filler))) in
  (forall p q, set_d4_path q (d p) = d q) -> (forall p, d4_path (d p) = p /\ d4_no_follow (d p) = no_follow) ->
  (forall p, populate os n (d p) = Some (n, d p, ops)) ->
  (forall fh, Forall (fun r => aside r = true) (serve t fh ops).2) ->
  (forall fh cs', walk4 t stat_of no_follow ops links (Some cs) = Reached4 fh cs' ->
    run srv (continue_cb (d (spelled cs')) n (Result NFS4_OK (results t n ops cs' fh))) =
    Some ([(0, (ok fh cs').1)], (ok fh cs').2)) ->
  run srv (on_name os user links n path f filler continue_cb) = told (walk4 t stat_of no_follow ops links (Some cs)) ok.
Proof.
  intros Zp Hp d Hs Hd Hf Ha Hk. destruct n_settled as [_ _ Hw Zw]. pose proof (full_path n cwd path Hw Zw Zp) as H.
  rewrite Hp in H. destruct (cs ++ [nm]) as [|c l] eqn:E; [by destruct cs|]. rewrite <- E in H.
  destruct H as (H & Hc & Hz). unfold on_name, init_cb_data_full_path. rewrite H, (data_split_spelled cs nm []) by done.
  destruct (Hd (spelled cs)) as [Hd1 Hd2]. apply Forall_app in Hc as [Hc _]. apply Forall_app in Hz as [Hz _].
  apply run_lookup4; try done; intros; fold (d (spelled cs)); rewrite Hs; auto.
Qed.

Lemma find_attr ops cs fh : find_op the_attr (results t n ops cs fh) = Some (t_vals t fh).
Proof. unfold results, walked. cbn. by induction (length cs). Qed.

Lemma find_results {A} (sel : nfs_resop4 -> option A) ops cs fh :
  sel (root_res n) = None -> sel (RES_LOOKUP NFS4_OK) = None -> sel (RES_GETATTR NFS4_OK (t_vals t fh)) = None ->
  find_op sel (results t n ops cs fh) = find_op sel (serve t fh ops).2.
Proof.
  intros H1 H2 H3. unfold results, walked. cbn [find_op]. rewrite H1, <- app_assoc. cbn [app].
  induction (length cs) as [|k IH]; cbn [replicate app find_op]; [by rewrite H3|by rewrite H2].
Qed.

Lemma run_done_cb d res : run srv (done_cb user d n (Result NFS4_OK res)) = Some ([(0, NoData)], n).
Proof. done. Qed.

Lemma run_stat4 path cs no_follow : no_nul path -> path_components cwd path = Some cs -> cs <> [] ->
  run srv (nfs4_stat64_async os user links n path no_follow) =
    told (walk4 t stat_of no_follow [OP_GETFH] links (Some cs)) (fun fh _ => (Stat (stat_of fh), n)).
Proof.
  intros Zp Hp Hne. apply (run_on_path path _ (set_d4_no_follow no_follow) populate_getattr [OP_GETFH]); try done.
  - intros fh. by repeat constructor.
  - intros fh cs'. unfold nfs4_xstat64_cb, check_compound, check_nfs4_error, nfs4_find_op. cbn [check_nfs3_error].
    change (NFS4_OK =? NFS4_OK) with true. cbv iota. by rewrite find_attr, (wf_vals _ _ _ t_formed).
Qed.

(** C14: stat with NFSv4 reports the attributes of the file the path leads to: the walk over its
    components, relative to the working directory when it does not start with a slash, following
    links, the last one only if asked to.  A target is put in the place of its link even if it starts
    with a slash, and what limits the number of links is [links] alone, which is not in the code. *)
Theorem stat4_follows_path path no_follow : no_nul path ->
  match path_components cwd path with
  | None => nfs4_stat64_async os user links n path no_follow = leave n (-1)
  | Some [] => True
  | Some cs =>
      run srv (nfs4_stat64_async os user links n path no_follow) =
        told (walk4 t stat_of no_follow [OP_GETFH] links (Some cs)) (fun fh _ => (Stat (stat_of fh), n))
  end.
Proof.
  intros Zp. destruct (path_components cwd path) as [[|c cs]|] eqn:E; [done| |].
  - by apply run_stat4.
  - destruct n_settled as [_ _ Hw Zw]. pose proof (full_path n cwd path Hw Zw Zp) as H. rewrite E in H.
    unfold nfs4_stat64_async, on_path, init_cb_data_full_path. by rewrite H.
Qed.

(** C19: unlink, rmdir, mkdir and symlink with NFSv4 act on the last component of the normalised
    path, in the directory the rest of it leads to; the operation is part of the compound that walks
    there, and its error, or one on the way, is reported as its errno. *)
Theorem names4_are_changed path cs nm mode target : no_nul path -> path_components cwd path = Some (cs ++ [nm]) ->
  let changes op := told (walk4 t stat_of false [op] links (Some cs)) (fun _ _ => (NoData, n)) in
  run srv (nfs4_unlink_async os user links n path) = changes (OP_REMOVE nm) /\
  run srv (nfs4_rmdir_async os user links n path) = changes (OP_REMOVE nm) /\
  run srv (nfs4_mkdir2_async os user links n path mode) = changes (OP_CREATE NF4DIR_ nm mode_mask (be32 mode)) /\
  run srv (nfs4_symlink_async os user links n target path) = changes (OP_CREATE (NF4LNK_ target) nm [] []).
Proof.
  intros Zp Hp changes. unfold changes.
  split_and!; apply (run_on_name path cs nm asis); try done; intros fh; apply (wf_aside _ _ _ t_formed).
Qed.

(** Chmod and utimes set the attributes of the file the path leads to; chown those of the
    directory it is in, whatever the name (nfs_v4.c:5116). *)
Theorem attributes4_are_changed path cs nm no_follow mode times uid gid :
  no_nul path -> path_components cwd path = Some (cs ++ [nm]) ->
  let changes cs op := told (walk4 t stat_of no_follow [op] links (Some cs)) (fun _ _ => (NoData, n)) in
  run srv (nfs4_chmod_async_internal os user links n path no_follow mode) =
    changes (cs ++ [nm]) (OP_SETATTR None mode_mask (be32 mode)) /\
  run srv (nfs4_utimes_async_internal os user links n path no_follow times) =
    changes (cs ++ [nm]) (OP_SETATTR None times_mask (utimes_buffer times)) /\
  run srv (nfs4_chown_async_internal os user links n path no_follow uid gid) =
    changes cs (OP_SETATTR None owner_mask (nfs4_create_chown_buffer uid gid)).
Proof.
  intros Zp Hp changes. unfold changes. split_and!.
  1-2: apply (run_on_path path (cs ++ [nm]) (set_d4_no_follow no_follow)); try done; [by destruct cs|intros fh; apply (wf_aside _ _ _ t_formed)].
  apply (run_on_name path cs nm (set_d4_no_follow no_follow)); try done; intros fh; apply (wf_aside _ _ _ t_formed).
Qed.

(** A link whose target leads to itself is looked up again and again: stat calls back for no
    number of lookups, and never fails. *)
Theorem looping_link_never_ends path cs fh before after target : no_nul path -> path_components cwd path = Some cs -> cs <> [] ->
  reach t [] (t_root t) cs = Stopped NFS4ERR_SYMLINK fh before after -> t_readlink t fh = inl target ->
  resolve [] (removelast before ++ split_slash (cstr target) ++ after) = Some cs ->
  run srv (nfs4_stat64_async os user links n path false) = None.
Proof.
  intros Zp Hp Hne Hr Hl Ht.
  assert (W : forall k, walk4 t stat_of false [OP_GETFH] k (Some cs) = Looping).
  { induction k as [|k IH]; [done|]. cbn [walk4]. rewrite Hr. unfold relinked. rewrite Z.eqb_refl, Hl, Ht. exact IH. }
  by rewrite (run_stat4 path cs), W.
Qed.
End operations.

(** The target of a link is put behind a slash: whether it starts with one makes
    no difference. *)
Lemma absolute_links_are_relative before after target :
  resolve [] (before ++ split_slash (slash :: target) ++ after) = resolve [] (before ++ split_slash target ++ after).
Proof.
  change (split_slash (slash :: target)) with ([] :: split_slash target). cbn [app]. rewrite !resolve_then. cbn [resolve beq orb].
  done.
Qed.
