(* ===== verification/Quiet.v ===== *)
(** * Quiet: calls that change nothing on the server

    A call is [quiet] when none of the requests it sends, whatever the server
    answers and whatever is done to the context meanwhile, changes a file, a
    directory or an attribute. *)

From S2P Require Import Prelude Path Nfs4Data Settings Nfs3 Lookup LookupProps Nfs3Ops Nfs3File Nfs3IO Nfs3Dir Mount.

(** ** Requests that change nothing *)

Definition changes_op (op : nfs_argop4) : bool :=
  match op with
  | OP_CREATE _ _ _ _ | OP_LINK _ | OP_REMOVE _ | OP_RENAME _ _ | OP_SETATTR _ _ _ | OP_WRITE _ _ _ _ => true
  | OP_OPEN _ _ _ _ _ how _ => match how with OPEN4_NOCREATE => false | _ => true end
  | _ => false
  end.

Definition changes (q : request) : bool :=
  match q with
  | COMPOUND ops => existsb changes_op ops
  | SETATTR _ _ | WRITE _ _ _ _ _ | CREATE _ _ _ _ | MKDIR _ _ _ | SYMLINK _ _ _ _ | MKNOD _ _ _
  | REMOVE _ _ | RMDIR _ _ | RENAME _ _ _ _ | LINK _ _ _ => true
  | _ => false
  end.

(** Whatever the server answers and whatever becomes of the context, no request
    that changes something is ever sent. *)
Fixpoint quiet (c : call) : Prop :=
  match c with
  | Undef => True
  | Call _ _ _ next =>
      (fix all l := match l with
       | [] => True
       | Pend q k :: l => (changes q = false /\ forall n r, quiet (k n r)) /\ all l
       end) next
  end.

Definition quiet_pending (p : pending) : Prop :=
  match p with Pend q k => changes q = false /\ forall n r, quiet (k n r) end.

Lemma quiet_call out n r next : quiet (Call out n r next) <-> Forall quiet_pending next.
Proof. cbn [quiet]. induction next as [|[q k] l IH]; [by rewrite Forall_nil|]. by rewrite Forall_cons, IH. Qed.

Lemma quiet_done out n r : quiet (Call out n r []).
Proof. done. Qed.

Lemma quiet_returning r c : quiet (returning r c) <-> quiet c.
Proof. by destruct c. Qed.

Lemma quiet_send n q refused k : changes q = false -> (forall n, quiet (refused n)) -> (forall n r, quiet (k n r)) ->
  quiet (send n q refused k).
Proof. intros Hq Hr Hk. unfold send. destruct (n_sends n) as [|[] l]; [by repeat split|by repeat split|apply Hr]. Qed.

Lemma quiet_nfs3_error {T : Set} cb n (r : reply T) k : (forall n e d, quiet (cb n e d)) -> (forall st v, quiet (k st v)) ->
  quiet (check_nfs3_error cb n r k).
Proof. intros Hc Hk. destruct r; [apply Hc|apply Hc|apply Hc|apply Hk]. Qed.

Lemma quiet_check {T : Set} cb n (r : reply T) k : (forall n e d, quiet (cb n e d)) -> (forall v, quiet (k v)) ->
  quiet (check_result cb n r k).
Proof. intros Hc Hk. apply quiet_nfs3_error; [done|]. intros st v. destruct (st =? NFS3_OK); [apply Hk|apply Hc]. Qed.

Lemma quiet_after c f : quiet c -> (forall n r, quiet (f n r)) -> quiet (after c f).
Proof.
  intros Hc Hf. destruct c as [out n r next|]; [|done]. cbn [after]. specialize (Hf n r).
  destruct (f n r) as [out2 n2 r2 [|p next2]|]; [done| |done]. destruct next; done.
Qed.

Lemma quiet_user n e d : quiet (user n e d).
Proof. done. Qed.

Lemma quiet_not_sent cb n : (forall n e d, quiet (cb n e d)) -> quiet (not_sent cb n).
Proof. intros H. apply quiet_returning, H. Qed.

Lemma quiet_with_fh n h k : (forall f, quiet (k f)) -> quiet (with_fh n h k).
Proof. intros H. unfold with_fh. by destruct (n_files n !! h). Qed.

Create HintDb quiet.
#[export] Hint Resolve quiet_done quiet_user quiet_not_sent : quiet.

Section lookups.
Context (cb : nfs -> Z -> payload -> call) (continue_cb : nfs -> option nfs_attr -> found -> call).
Context (no_follow : bool) (continue_int : Z).
Hypothesis cb_quiet : forall n e d, quiet (cb n e d).
Hypothesis continue_quiet : forall n attr l, quiet (continue_cb n attr l).

Lemma quiet_names follow : (forall again, follow = Some again -> forall n p, quiet (again n p)) ->
  forall fuel n attr saved_path path fh, quiet (lookup_names cb continue_cb no_follow continue_int follow fuel n attr saved_path path fh).
Proof.
  intros Hfo fuel. induction fuel as [|fuel IH]; intros n attr saved_path path fh; [done|].
  cbn [lookup_names]. unfold nfs3_lookup_path_async_internal. cbv zeta.
  destruct (_ && flag continue_int O_NOFOLLOW); [by apply quiet_returning|].
  destruct (_ && (_ || _)).
  - destruct follow as [again|]; [|by apply quiet_returning].
    apply quiet_send; [done|intros; by apply quiet_returning|]. intros n1 r. apply quiet_check; [done|]. intros target.
    destruct (link_path _ _ _ _) as [[p|e]|]; [|apply cb_quiet|done].
    destruct (nfs_normalize_path p) as [[p1 r1]|]; [|done]. destruct (r1 =? 0); [by apply Hfo|apply cb_quiet].
  - destruct (match strchr_slash _ with Some _ => _ | None => _ end) as [name path1].
    case_bool_decide; [by apply quiet_returning|].
    apply quiet_send; [done|intros; by apply quiet_returning|]. intros n1 r. apply quiet_check; [done|]. intros [fh1 a]. apply IH.
Qed.

Lemma quiet_path links : forall fuel n attr saved_path path fh,
  quiet (lookup_path cb continue_cb no_follow continue_int links fuel n attr saved_path path fh).
Proof.
  induction links as [|links IH]; cbn [lookup_path]; apply quiet_names; intros again E; [done|].
  injection E as <-. intros n p. apply IH.
Qed.

Lemma quiet_lookuppath n path : quiet (nfs3_lookuppath_async cb continue_cb no_follow continue_int n path).
Proof.
  unfold nfs3_lookuppath_async. destruct (nfs_normalize_path _) as [[p r]|]; [|done].
  destruct (negb (r =? 0)); [done|]. case_bool_decide.
  - apply quiet_send; [done|done|]. intros n1 r1. apply quiet_check; [done|]. intros f. apply quiet_path.
  - destruct (nested_export _ _ _ _) as [p1 fh1]. apply quiet_returning, quiet_path.
Qed.
End lookups.

(** ** What only looks at files *)

(** Requests with plain callbacks. *)
Ltac quiet_step :=
  lazymatch goal with
  | |- quiet (returning _ _) => apply quiet_returning
  | |- quiet (send _ _ _ _) => apply quiet_send; [reflexivity|intros ?|intros ? ?]
  | |- quiet (check_result _ _ _ _) => apply quiet_check; [intros ? ? ?|intros ?]
  | |- quiet (check_nfs3_error _ _ _ _) => apply quiet_nfs3_error; [intros ? ? ?|intros ? ?]
  | |- quiet (after _ _) => apply quiet_after; [|intros ? ?]
  | |- quiet (with_fh _ _ _) => apply quiet_with_fh; intros ?
  | |- quiet (nfs3_lookuppath_async _ _ _ _ _ _) => apply quiet_lookuppath; [intros ? ? ?|intros ? ? ?]
  | |- quiet (leave _ _) => exact I
  | |- quiet (user _ _ _) => exact I
  | |- quiet (not_sent _ _) => apply quiet_not_sent; intros ? ? ?
  | |- quiet Undef => exact I
  | |- quiet (Call _ _ _ []) => exact I
  | |- quiet (if ?b then _ else _) => destruct b
  | |- quiet (match ?x with _ => _ end) => destruct x
  | |- quiet (let _ := _ in _) => cbv zeta
  end.
Ltac quiet := repeat (quiet_step; try done).

Lemma quiet_stat n path : quiet (nfs3_stat_async user n path).
Proof. unfold nfs3_stat_async, nfs3_stat_continue_internal, nfs3_stat_1_cb. quiet. Qed.
Lemma quiet_stat64 n path nf : quiet (nfs3_stat64_async user n path nf).
Proof. unfold nfs3_stat64_async, nfs3_stat64_continue_internal, nfs3_stat64_1_cb. quiet. Qed.
Lemma quiet_fstat n h : quiet (nfs3_fstat_async user n h) /\ quiet (nfs3_fstat64_async user n h).
Proof. unfold nfs3_fstat_async, nfs3_fstat64_async, nfs3_stat_1_cb, nfs3_stat64_1_cb. split; quiet. Qed.
Lemma quiet_statvfs n path : quiet (nfs3_statvfs_async user n path) /\ quiet (nfs3_statvfs64_async user n path).
Proof.
  unfold nfs3_statvfs_async, nfs3_statvfs64_async, nfs3_statvfs_continue_internal, nfs3_statvfs_1_cb. split; quiet.
Qed.
Lemma quiet_readlink n path : quiet (nfs3_readlink_async user n path).
Proof. unfold nfs3_readlink_async, nfs3_readlink_continue_internal, nfs3_readlink_1_cb. quiet. Qed.
Lemma quiet_access n path : (forall mode, quiet (nfs3_access_async user n path mode)) /\ quiet (nfs3_access2_async user n path).
Proof.
  unfold nfs3_access_async, nfs3_access_continue_internal, nfs3_access_cb, nfs3_access2_async, nfs3_access2_continue_internal,
    nfs3_access2_cb. split; [intros mode|]; quiet.
Qed.
Lemma quiet_chdir n path : quiet (nfs3_chdir_async user n path).
Proof. unfold nfs3_chdir_async, nfs3_chdir_continue_internal. quiet. Qed.

(** *** Directories *)

Lemma quiet_flight {A X} (q : A -> request) land last finish n : (forall a, changes (q a) = false) ->
  (forall x n, quiet (finish x n)) -> forall m l (x : X), quiet (Call [] n 0 (flight q land last finish m l x)).
Proof.
  intros Hq Hf m. revert n. induction m as [|m IH]; intros n l x; [done|]. apply quiet_call. cbn [flight].
  apply Forall_forall. intros p (j & a & -> & _)%elem_of_lookup_imap_1. split; [apply Hq|]. intros n1 r.
  destruct (land a n1 x r) as [n2 x2]. destruct (last x2); [apply Hf|apply IH].
Qed.

Lemma quiet_missing n fh d : quiet (lookup_missing_attributes user fh n d).
Proof.
  unfold lookup_missing_attributes. destruct (send_lookups _ _ _) as [n1 l]. case_bool_decide; [done|].
  apply quiet_flight; [done|]. intros x n2. unfold rdpe_finish. by destruct (rdpe_failed x).
Qed.

Lemma quiet_readdir pages fh : forall d n r, quiet (nfs3_opendir_2_cb user fh pages d n r).
Proof.
  induction pages as [|pages IH]; intros d n r; [done|]. cbn [nfs3_opendir_2_cb]. quiet. apply quiet_missing.
Qed.

Lemma quiet_readdirplus pages fh sp : forall d n r, quiet (nfs3_opendir_cb user fh sp pages d n r).
Proof.
  induction pages as [|pages IH]; intros d n r; [done|]. cbn [nfs3_opendir_cb]. quiet; [by apply quiet_readdir|].
  apply quiet_missing.
Qed.

Lemma quiet_opendir pages n path : quiet (nfs3_opendir_async user pages n path).
Proof.
  unfold nfs3_opendir_async. quiet. unfold nfs3_opendir_continue_internal.
  destruct (nfs_dircache_find _ _) as [n1 [d|]]; quiet; apply quiet_readdirplus.
Qed.

(** *** Mounting *)

Section connecting.
Context (program version : Z) (cb : nfs -> reply unit -> call).
Hypothesis cb_quiet : forall n r, quiet (cb n r).

Lemma quiet_success {T : Set} n (r : reply T) k : (forall v, quiet (k v)) -> quiet (if_success cb n r k).
Proof. intros H. destruct r; [apply cb_quiet|apply cb_quiet|apply cb_quiet|apply H]. Qed.

Lemma quiet_port n port : quiet (rpc_connect_port_internal program version cb n port).
Proof.
  unfold rpc_connect_port_internal. apply quiet_send; [done|done|]. intros n1 r. apply quiet_success. intros _.
  apply quiet_send; [done|intros; apply cb_quiet|]. intros n2 r2. apply quiet_success. intros _. apply cb_quiet.
Qed.

Lemma quiet_found n port : quiet (connect_found program version cb n port).
Proof.
  unfold connect_found. destruct (port =? 0); [apply cb_quiet|]. apply quiet_after; [apply quiet_port|].
  intros n1 r. destruct (negb _); [apply cb_quiet|done].
Qed.

Lemma quiet_connect n port : quiet (connect_service program version cb n port).
Proof.
  unfold connect_service, rpc_connect_port_async, rpc_connect_program_async. destruct (negb _).
  { apply quiet_after; [apply quiet_port|]. intros n1 r. exact I. }
  apply quiet_send; [done|done|]. intros n1 r1. apply quiet_success. intros _.
  apply quiet_send; [done|intros; apply cb_quiet|]. intros n2 r2. apply quiet_success. intros _.
  destruct (ipv6 n2); (apply quiet_send; [done|intros; apply cb_quiet|]); intros n3 r3; apply quiet_success; intros v;
    [destruct (uaddr_port v); [|exact I]|]; apply quiet_found.
Qed.
End connecting.

Lemma quiet_mount_7 n r : quiet (nfs3_mount_7_cb user n r).
Proof.
  unfold nfs3_mount_7_cb. apply quiet_nfs3_error; [done|]. intros st v. cbv zeta.
  destruct (send_getattrs _ _ _) as [n1 l]. case_bool_decide; [done|]. by apply quiet_flight.
Qed.

Lemma quiet_mount_5 n r : quiet (nfs3_mount_5_cb user n r).
Proof. unfold nfs3_mount_5_cb, nfs3_mount_6_cb, mount_not_sent. quiet. apply quiet_mount_7. Qed.

Lemma quiet_connect_nfs n : quiet (connect_nfs user n).
Proof. unfold connect_nfs, mount_not_sent. quiet. apply quiet_connect, quiet_mount_5. Qed.

Lemma quiet_mount_3 n r : quiet (nfs3_mount_3_cb user n r).
Proof.
  unfold nfs3_mount_3_cb. apply quiet_nfs3_error; [done|]. intros st v. case_bool_decide; [done|].
  destruct (send_mnts _ _ _ _) as [n1 l]. case_bool_decide; [apply quiet_connect_nfs|].
  apply quiet_flight; [done|]. intros x n2. unfold discovery_finish. quiet. apply quiet_connect_nfs.
Qed.

Lemma quiet_mount n server export : quiet (nfs3_mount_async user n server export).
Proof.
  unfold nfs3_mount_async. apply quiet_after; [|done]. apply quiet_connect. intros n1 r.
  unfold nfs3_mount_1_cb, nfs3_mount_2_cb, mount_not_sent. quiet; [apply quiet_mount_3|apply quiet_connect_nfs].
Qed.

Lemma quiet_umount n : quiet (nfs3_umount_async user n).
Proof.
  unfold nfs3_umount_async. apply quiet_after; [|done]. apply quiet_connect. intros n1 r.
  unfold nfs3_umount_1_cb, nfs3_umount_2_cb, mount_not_sent. quiet.
Qed.

(** *** Files *)

Lemma quiet_read cb h update_pos n buf count offset : (forall n e d, quiet (cb n e d)) ->
  quiet (nfs3_pread_async_internal cb n h buf count offset update_pos).
Proof. intros Hcb. unfold nfs3_pread_async_internal, nfs3_pread_cb. quiet; apply Hcb. Qed.

Lemma quiet_preadv h iov update_pos n offset : quiet (nfs3_preadv_async_internal user n h iov offset update_pos).
Proof. unfold nfs3_preadv_async_internal, nfs3_pread_cb. quiet. Qed.

Section long_reads.
Context (pread : (nfs -> Z -> payload -> call) -> nfs -> N -> Z -> Z -> Z -> bool -> call).
Hypothesis pread_quiet : forall cb, (forall n e d, quiet (cb n e d)) -> forall n h buf count offset update_pos,
  quiet (pread cb n h buf count offset update_pos).

Lemma quiet_r_cb fuel : forall rw n st d, quiet (r_cb pread user fuel rw n st d).
Proof.
  induction fuel as [|fuel IH]; intros rw n st d; cbn [r_cb]; cbv zeta; quiet.
  apply pread_quiet, IH.
Qed.

Lemma quiet_pread n h buf count offset update_pos : quiet (nfs_pread_multi pread user n h buf count offset update_pos).
Proof.
  unfold nfs_pread_multi. destruct (_ <? _); apply pread_quiet; [done|]. intros. apply quiet_r_cb.
Qed.
End long_reads.

Lemma quiet_close n h : quiet (nfs3_close_async user n h).
Proof. unfold nfs3_close_async, nfs3_fsync_async, nfs3_fsync_cb, nfs3_close_cb. quiet. Qed.

Lemma quiet_fsync n h : quiet (nfs3_fsync_async user n h).
Proof. unfold nfs3_fsync_async, nfs3_fsync_cb. quiet. Qed.

Lemma quiet_lseek n h offset whence : quiet (nfs3_lseek_async user n h offset whence).
Proof. unfold nfs3_lseek_async, nfs3_lseek_1_cb. cbv zeta. quiet. Qed.

(** *** Opening without writing *)

Definition O_CHANGES : Z := Z.lor O_WRONLY (Z.lor O_RDWR (Z.lor O_APPEND (Z.lor O_CREAT O_TRUNC))).

Lemma flag_lor x a b : flag x (Z.lor a b) = flag x a || flag x b.
Proof.
  unfold flag. rewrite Z.land_lor_distr_r, <- negb_andb. f_equal.
  apply eq_bool_prop_intro. rewrite andb_True, !Is_true_true, !Z.eqb_eq. apply Z.lor_eq_0_iff.
Qed.

Lemma quiet_open n path flags mode : flag flags O_CHANGES = false -> quiet (nfs3_open_async user n path flags mode).
Proof.
  unfold O_CHANGES. rewrite !flag_lor, !orb_false_iff. intros (Hw & Hrw & _ & Hc & Ht).
  assert (H : forall n1 e d, quiet (nfs3_initial_open_cb user path flags mode n1 e d)).
  { intros n1 e d. unfold nfs3_initial_open_cb. rewrite Hc, andb_false_r. quiet. }
  unfold nfs3_open_async. apply quiet_lookuppath; [exact H|]. intros n1 a l. unfold nfs3_open_continue_internal.
  destruct (excl_create flags); [apply quiet_returning, H|]. apply quiet_send; [done|intros; apply quiet_not_sent, H|].
  intros n2 r. unfold nfs3_open_cb. apply quiet_check; [exact H|]. intros v. destruct (negb _); [apply H|].
  rewrite Ht. cbn [andb]. destruct (new_nfsfh _ _) as [n3 h]. apply H.
Qed.
