(* ===== verification/Quiet4.v ===== *)
(** * Quiet4: calls of NFSv4 that change nothing on the server

    What only looks is a lookup with a filler that only looks ([looks]), or a
    compound on an open file. *)

From S2P Require Import Prelude Path Nfs4Data Settings Nfs3 Lookup Nfs3Ops Nfs3File Nfs3IO Nfs3Dir Mount Nfs4Attr Nfs4 Nfs4Ops Nfs4File Nfs4Lock Nfs4Dir Quiet.

(** ** Compounds *)

Lemma quiet_compound n ops refused k : existsb changes_op ops = false -> (forall n, quiet (refused n)) -> (forall n r, quiet (k n r)) ->
  quiet (compound n ops refused k).
Proof. intros H Hr Hk. by apply (quiet_send n (COMPOUND ops)). Qed.

Lemma quiet_check_compound cb n r k : (forall n e d, quiet (cb n e d)) -> (forall res, quiet (k res)) ->
  quiet (check_compound cb n r k).
Proof. intros Hc Hk. apply quiet_nfs3_error; [done|]. intros st v. destruct (st =? NFS4_OK); [apply Hk|apply Hc]. Qed.

Lemma quiet_find_op {A} cb n res (sel : nfs_resop4 -> option A) k : (forall n e d, quiet (cb n e d)) -> (forall a, quiet (k a)) ->
  quiet (nfs4_find_op cb n res sel k).
Proof. intros Hc Hk. unfold nfs4_find_op. destruct (find_op sel res); [apply Hk|apply Hc]. Qed.

Lemma quiet_and_free h n e d : quiet (and_free user h n e d).
Proof. done. Qed.

Ltac quiet_step4 :=
  lazymatch goal with
  | |- quiet (compound _ _ _ _) => apply quiet_compound; [reflexivity|intros ?|intros ? ?]
  | |- quiet (check_compound _ _ _ _) => apply quiet_check_compound; [intros ? ? ?|intros ?]
  | |- quiet (nfs4_find_op _ _ _ _ _) => apply quiet_find_op; [intros ? ? ?|intros ?]
  | |- quiet (and_free _ _ _ _ _) => exact I
  | |- quiet (started _) => apply quiet_after; [|intros ? ?; exact I]
  | |- quiet (or_no_memory _ _) => apply quiet_after; [|intros ? ?]
  | |- quiet (on_file _ _ _ _) => apply quiet_compound; [reflexivity|intros ?|intros ? ?]
  | |- quiet (match ?x with _ => _ end) => destruct x eqn:?
  | |- _ => quiet_step
  end.
Ltac quiet4 := repeat (quiet_step4; try done).

(** ** Looking up *)

Definition looking (f : op_filler) : bool :=
  match f with
  | populate_getfh | populate_getattr | populate_access _ | populate_open | populate_lookup_readlink | populate_readlink | populate_readdir _ => true
  | _ => false
  end.

Definition looks (d : cb_data) : Prop := flag (d4_flags d) O_CREAT = false /\ d4_open_cb d = None /\ looking (d4_filler d) = true.

Section lookups.
Context (os : system) (cb : nfs -> Z -> payload -> call).
Hypothesis cb_quiet : forall n e d, quiet (cb n e d).

Lemma populate_looks n d n' d' ops : looks d -> populate os n d = Some (n', d', ops) -> looks d' /\ existsb changes_op ops = false.
Proof.
  intros L. pose proof L as (H1 & _ & H3). unfold populate, nfs4_populate_open, open_how. rewrite H1.
  destruct (d4_filler d); try discriminate H3; intros E; cbv beta iota zeta in E; injection E as <- <- <-; done.
Qed.

Lemma lookups_quiet fuel : forall ptr, existsb changes_op (op_lookups fuel ptr) = false.
Proof.
  induction fuel as [|fuel IH]; intros [|b ptr]; try done. cbn [op_lookups].
  destruct (strchr_slash (b :: ptr)) as [[x y]|]; [apply IH|done].
Qed.

Lemma walk_quiet n path walk : nfs4_allocate_op n path = Some walk -> existsb changes_op walk = false.
Proof.
  unfold nfs4_allocate_op. destruct path as [|b ptr]; [done|]. destruct (_ <=? _)%nat; [|done]. intros [= <-].
  cbn [existsb]. rewrite existsb_app, lookups_quiet. by destruct (n_rootfh n).
Qed.

Lemma quiet_opened n h d : d4_open_cb d = None -> quiet (opened cb d h n).
Proof. intros H. unfold opened. rewrite H. apply cb_quiet. Qed.

Lemma quiet_open4_cb d n r : looks d -> quiet (nfs4_open_cb cb d n r).
Proof.
  intros (_ & H & _). assert (F : forall h n e p, quiet (and_free cb h n e p)).
  { intros. apply quiet_after; [apply cb_quiet|done]. }
  unfold nfs4_open_cb, nfs4_open_confirm_cb.
  repeat (quiet_step4; try apply cb_quiet; try apply F; try by apply quiet_opened).
Qed.

Lemma quiet_lookup4 links : forall continue_cb n d, looks d -> (forall d n r, looks d -> quiet (continue_cb d n r)) ->
  quiet (nfs4_lookup_path_async os cb links continue_cb n d).
Proof.
  induction links as [|links IH]; intros continue_cb n d L K; [done|]. cbn [nfs4_lookup_path_async].
  destruct (nfs4_resolve_path n (d4_path d)) as [[path|]|]; [|done|done].
  destruct (nfs4_allocate_op n path) as [walk|] eqn:Ew; [|done].
  destruct (populate os n (set_d4_path path d)) as [[[n1 d1] ops]|] eqn:Ep; [|done].
  apply populate_looks in Ep as [L1 Hops]; [|exact L].
  apply quiet_compound; [by rewrite existsb_app, (walk_quiet _ _ _ Ew)|done|]. intros n2 r.
  unfold nfs4_lookup_path_1_cb. repeat (quiet_step4; try apply cb_quiet; try by apply K).
  - unfold nfs4_open_readlink. repeat (quiet_step4; try apply cb_quiet). apply IH; [by destruct L1 as (?&?&?)|].
    intros d3 n3 r3 L3. unfold nfs4_open_readlink_cb. repeat (quiet_step4; try apply cb_quiet).
    destruct L3 as (?&?&?).
    match goal with H : data_split_path _ = Some _ |- _ => rename H into E end.
    unfold data_split_path in E. destruct (strrchr_slash _) as [[[|] ]|]; simplify_eq;
      (apply IH; [done|intros; by apply quiet_open4_cb]).
  - destruct (failed_lookup 0 _) as [idx found].
    repeat (quiet_step4; try apply cb_quiet).
    match goal with H : nfs4_allocate_op _ _ = Some _ |- _ => rename H into E end.
    apply quiet_compound; [by rewrite existsb_app, (walk_quiet _ _ _ E)|intros; apply cb_quiet|].
    intros. unfold nfs4_lookup_path_2_cb. repeat (quiet_step4; try apply cb_quiet). by apply IH.
Qed.
End lookups.

(** ** What only looks at files *)

Section looking.
Context (os : system) (links : nat).

Lemma quiet_on_path n path f filler k : (forall path, looks (f (new_cb_data path filler))) ->
  (forall d n r, quiet (k d n r)) -> quiet (on_path os user links n path f filler k).
Proof.
  intros Hd Hk. unfold on_path, init_cb_data_full_path. quiet4. by apply quiet_lookup4.
Qed.

Ltac looks_at_path := apply quiet_on_path; [done|intros ? ? ?].

Lemma quiet_stat64_4 n path nf : quiet (nfs4_stat64_async os user links n path nf).
Proof. unfold nfs4_stat64_async, nfs4_xstat64_cb. looks_at_path. quiet4. Qed.
Lemma quiet_fstat64_4 n h : quiet (nfs4_fstat64_async os user n h).
Proof. unfold nfs4_fstat64_async, nfs4_xstat64_cb. quiet4. Qed.
Lemma quiet_statvfs_4 n path is64 : quiet (nfs4_statvfs_async_internal user n path is64).
Proof. unfold nfs4_statvfs_async_internal, nfs4_statvfs_cb. quiet4. Qed.
Lemma quiet_statvfs_only_4 n path : quiet (nfs4_statvfs_async user n path).
Proof. apply quiet_statvfs_4. Qed.
Lemma quiet_statvfs64_4 n path : quiet (nfs4_statvfs64_async user n path).
Proof. apply quiet_statvfs_4. Qed.
Lemma quiet_readlink_4 n path : quiet (nfs4_readlink_async os user links n path).
Proof. unfold nfs4_readlink_async, nfs4_readlink_cb. looks_at_path. quiet4. Qed.
Lemma quiet_access_internal n path mode is_access2 : flag is_access2 O_CREAT = false ->
  quiet (nfs4_access_internal os user links n path mode is_access2).
Proof.
  intros H. unfold nfs4_access_internal, nfs4_access_cb. cbv zeta.
  apply quiet_on_path; [intros p; by repeat split|intros ? ? ?]. quiet4.
Qed.
Lemma quiet_access_4 n path mode : quiet (nfs4_access_async os user links n path mode).
Proof. by apply quiet_access_internal. Qed.
Lemma quiet_access2_4 n path : quiet (nfs4_access2_async os user links n path).
Proof. by apply quiet_access_internal. Qed.
Lemma quiet_chdir_4 n path : quiet (nfs4_chdir_async os user links n path).
Proof. unfold nfs4_chdir_async, nfs4_chdir_1_cb. looks_at_path. quiet4. Qed.

Lemma quiet_continue pages : forall fh n d cookie, quiet (nfs4_opendir_continue os user pages fh n d cookie).
Proof.
  induction pages as [|pages IH]; intros fh n d cookie; [done|]. cbn [nfs4_opendir_continue].
  unfold nfs4_opendir_2_cb, nfs4_parse_readdir. quiet4.
Qed.
Lemma quiet_opendir_4 pages n path : quiet (nfs4_opendir_async os user links pages n path).
Proof.
  unfold nfs4_opendir_async. looks_at_path. unfold nfs4_opendir_cb, nfs4_parse_readdir. quiet4. apply quiet_continue.
Qed.

(** *** Files *)

Lemma quiet_pread_4 cb n h buf count offset update_pos : (forall n e d, quiet (cb n e d)) ->
  quiet (nfs4_pread_async_internal cb n h buf count offset update_pos).
Proof. intros Hcb. unfold nfs4_pread_async_internal, nfs4_pread_cb. repeat (quiet_step4; try apply Hcb). Qed.
Lemma quiet_preadv_4 n h iov offset update_pos : quiet (nfs4_preadv_async_internal user n h iov offset update_pos).
Proof. unfold nfs4_preadv_async_internal, nfs4_pread_cb. quiet4. Qed.

Lemma close_quiet f : existsb changes_op (nfs4_op_close f) = false.
Proof. unfold nfs4_op_close. by destruct (h_dirty f). Qed.
Lemma quiet_close_4 n h : quiet (nfs4_close_async user n h).
Proof.
  unfold nfs4_close_async, on_file, nfs4_close_cb, nfs4_truncate_close_cb. quiet4.
  apply quiet_compound; [cbn; apply close_quiet|done|]. intros n1 r. quiet4.
Qed.
Lemma quiet_fsync_4 n h : quiet (nfs4_fsync_async user n h).
Proof. unfold nfs4_fsync_async, nfs4_fsync_cb. quiet4. Qed.
Lemma quiet_lseek_4 n h offset whence : quiet (nfs4_lseek_async os user n h offset whence).
Proof. unfold nfs4_lseek_async, nfs4_lseek_cb. cbv zeta. quiet4. Qed.

(** *** Locks *)

Lemma quiet_locked h n sid : quiet (locked h n sid (fun n => user n 0 NoData)).
Proof. unfold locked. cbv zeta. quiet4. Qed.
Lemma lockf_quiet n f cmd count f' ops : lockf_op n f cmd count = (f', ops) -> existsb changes_op ops = false.
Proof. unfold lockf_op, nfs4_op_lock, nfs4_op_locku. cbv zeta. intros H. repeat case_match; by injection H as <- <-. Qed.
Lemma quiet_lockf n h cmd count : quiet (nfs4_lockf_async user n h cmd count).
Proof.
  unfold nfs4_lockf_async. quiet_step4. destruct (lockf_op n f cmd count) as [f1 ops] eqn:E.
  apply quiet_compound; [cbn; by eapply lockf_quiet|done|]. intros n1 r. unfold nfs4_lockf_cb. cbv zeta.
  repeat (quiet_step4; try apply quiet_locked).
Qed.
Lemma fcntl_quiet n f cmd fl f' ops : fcntl_op n f cmd fl = (f', ops) -> existsb changes_op ops = false.
Proof. unfold fcntl_op, nfs4_op_lock, nfs4_op_locku. cbv zeta. intros H. repeat case_match; by injection H as <- <-. Qed.
Lemma quiet_fcntl_internal n h cmd fl : quiet (nfs4_fcntl_async_internal user n h cmd fl).
Proof.
  unfold nfs4_fcntl_async_internal. quiet_step4. destruct (fcntl_op n f cmd fl) as [f1 ops] eqn:E.
  apply quiet_compound; [cbn; by eapply fcntl_quiet|done|]. intros n1 r. unfold nfs4_fcntl_cb. cbv zeta.
  repeat (quiet_step4; try apply quiet_locked).
Qed.
Lemma quiet_fcntl n h cmd fl : quiet (nfs4_fcntl_async os user n h cmd fl).
Proof.
  unfold nfs4_fcntl_async, nfs4_fcntl_stat_cb. quiet4; apply quiet_fcntl_internal.
Qed.

(** *** Mounting *)

Lemma quiet_mount_4 n server export : quiet (nfs4_mount_async os user links n server export).
Proof.
  unfold nfs4_mount_async. cbv zeta. quiet4. unfold rpc_connect_port_async.
  apply quiet_after; [|done]. apply quiet_port. intros n1 r1. unfold nfs4_mount_1_cb, check_nfs4_error. by apply quiet_nfs3_error.
Qed.

(** *** Opening without writing *)

Lemma quiet_open_4 n path flags mode : flag flags O_CHANGES = false -> flag flags O_EXCL = false ->
  quiet (nfs4_open_async os user links n path flags mode).
Proof.
  unfold O_CHANGES. rewrite !flag_lor, !orb_false_iff. intros (Hw & Hrw & Ha & Hc & Ht) Hx.
  unfold nfs4_open_async, on_split, init_cb_data_full_path, nfs4_open_async_internal. cbv zeta.
  rewrite Ht. cbn [andb]. rewrite Hx, Ht, Ha. cbn [andb]. rewrite Hc. quiet4.
  match goal with H : data_split_path _ = Some _ |- _ => rename H into E end.
  rewrite ?Hx. apply quiet_lookup4; [done| |intros; by apply quiet_open4_cb].
  unfold data_split_path in E. destruct (strrchr_slash _) as [[[|] ]|]; simplify_eq; done.
Qed.
End looking.
