(* ===== verification/Api.v ===== *)
(** * Api: the calls of the library (lib/libnfs.c)

    The functions a program calls go on with those of the version of NFS that
    the context uses; the ones that change something are refused when it is
    read-only.

    [os] is the system the client runs on, [links] bounds the lookups of an
    operation of version 4 and [pages] the pages of a directory. *)

From S2P Require Import Prelude Path Settings Nfs3 Lookup Nfs3Ops Nfs3File Nfs3IO Nfs3Dir Mount Nfs4Data Nfs4Attr Nfs4 Nfs4Ops Nfs4File Nfs4Lock Nfs4Dir.

Definition version (n : nfs) : Z := c_version (n_conf n).

(** [switch (nfs->nfsi->version)] *)
Definition by_version (n : nfs) (v3 v4 : call) : call :=
  if version n =? NFS_V3 then v3 else if version n =? NFS_V4 then v4 else leave n (-1).
Definition only_v3 (n : nfs) (v3 : call) : call := if version n =? NFS_V3 then v3 else leave n (-1).
Definition only_v4 (n : nfs) (v4 : call) : call := if version n =? NFS_V4 then v4 else leave n (-1).

Definition readonly (n : nfs) : bool := negb (c_readonly (n_conf n) =? 0).

(** The READ of a version, with its callback. *)
Definition __nfs_pread_async (cb : nfs -> Z -> payload -> call) n h buf count offset (update_pos : bool) : call :=
  by_version n (nfs3_pread_async_internal cb n h buf count offset update_pos)
    (nfs4_pread_async_internal cb n h buf count offset update_pos).

Section api.
Context (os : system) (links pages : nat) (cb : nfs -> Z -> payload -> call).

(** "EROFS. Readonly mount" *)
Definition unless_readonly (n : nfs) (c : call) : call :=
  if readonly n then returning 0 (cb n (- EROFS) NoData) else c.

(** A file that was not opened for writing. *)
Definition unless_read_file (n : nfs) (h : N) (k : nfsfh -> call) : call :=
  with_fh n h (fun f => if h_readonly f then leave n (-1) else k f).

(** ** Mounting *)

Definition nfs_mount_async n server export : call :=
  by_version n (nfs3_mount_async cb n server export) (nfs4_mount_async os cb links n server export).

(** Nothing is to be done in version 4. *)
Definition nfs_umount_async n : call := by_version n (nfs3_umount_async cb n) (returning 0 (cb n 0 NoData)).

(** ** Looking at files *)

Definition nfs_stat_async n path : call := only_v3 n (nfs3_stat_async cb n path).
Definition nfs_stat64_async n path : call :=
  by_version n (nfs3_stat64_async cb n path false) (nfs4_stat64_async os cb links n path false).
Definition nfs_lstat64_async n path : call :=
  by_version n (nfs3_stat64_async cb n path true) (nfs4_stat64_async os cb links n path true).
Definition nfs_fstat_async n h : call := only_v3 n (nfs3_fstat_async cb n h).
Definition nfs_fstat64_async n h : call := by_version n (nfs3_fstat64_async cb n h) (nfs4_fstat64_async os cb n h).
Definition nfs_statvfs_async n path : call :=
  by_version n (nfs3_statvfs_async cb n path) (nfs4_statvfs_async cb n path).
Definition nfs_statvfs64_async n path : call :=
  by_version n (nfs3_statvfs64_async cb n path) (nfs4_statvfs64_async cb n path).
Definition nfs_readlink_async n path : call :=
  by_version n (nfs3_readlink_async cb n path) (nfs4_readlink_async os cb links n path).
Definition nfs_access_async n path mode : call :=
  by_version n (nfs3_access_async cb n path mode) (nfs4_access_async os cb links n path mode).
Definition nfs_access2_async n path : call :=
  by_version n (nfs3_access2_async cb n path) (nfs4_access2_async os cb links n path).
Definition nfs_chdir_async n path : call := by_version n (nfs3_chdir_async cb n path) (nfs4_chdir_async os cb links n path).
Definition nfs_opendir_async n path : call :=
  by_version n (nfs3_opendir_async cb pages n path) (nfs4_opendir_async os cb links pages n path).

Definition nfs_getcwd (n : nfs) : bytes := n_cwd n.

(** ** Opening and using files *)

Definition nfs_open2_async n path flags mode : call :=
  if readonly n && flag flags (Z.lor O_WRONLY (Z.lor O_RDWR (Z.lor O_APPEND (Z.lor O_CREAT O_TRUNC))))
  then returning 0 (cb n (- EROFS) NoData)
  else by_version n (nfs3_open_async cb n path flags mode) (nfs4_open_async os cb links n path flags mode).
Definition nfs_open_async n path flags : call :=
  nfs_open2_async n path flags (Z.land 438 (Z.lnot (c_mask (n_conf n)))).
Definition nfs_creat_async n path mode : call :=
  unless_readonly n (by_version n (nfs3_creat_async cb n path mode) (nfs4_creat_async os cb links n path mode)).
Definition nfs_pread_async n h buf count offset : call := nfs_pread_multi __nfs_pread_async cb n h buf count offset false.
Definition nfs_read_async n h buf count : call := 
  with_fh n h (fun f => nfs_pread_multi __nfs_pread_async cb n h buf count (h_offset f) true).
Definition nfs_preadv_async n h iov offset : call :=
  by_version n (nfs3_preadv_async_internal cb n h iov offset false) (nfs4_preadv_async_internal cb n h iov offset false).
Definition nfs_readv_async n h iov : call :=
  with_fh n h (fun f =>
    by_version n (nfs3_preadv_async_internal cb n h iov (h_offset f) true) (nfs4_preadv_async_internal cb n h iov (h_offset f) true)).
Definition nfs_pwrite_async n h buf count offset : call :=
  unless_read_file n h (fun _ =>
    by_version n (nfs3_pwrite_async_internal cb n h buf count offset false) (nfs4_pwrite_async_internal cb n h buf count offset false)).
Definition nfs_write_async n h buf count : call :=
  unless_read_file n h (fun _ => by_version n (nfs3_write_async cb n h buf count) (nfs4_write_async os cb n h buf count)).
Definition nfs_close_async n h : call := by_version n (nfs3_close_async cb n h) (nfs4_close_async cb n h).
Definition nfs_fsync_async n h : call := by_version n (nfs3_fsync_async cb n h) (nfs4_fsync_async cb n h).
Definition nfs_lseek_async n h offset whence : call :=
  by_version n (nfs3_lseek_async cb n h offset whence) (nfs4_lseek_async os cb n h offset whence).
Definition nfs_lockf_async n h cmd count : call := only_v4 n (nfs4_lockf_async cb n h cmd count).
Definition nfs_fcntl_async n h cmd fl : call := only_v4 n (nfs4_fcntl_async os cb n h cmd fl).

(** ** Changing attributes *)

Definition nfs_truncate_async n path length : call :=
  unless_readonly n (by_version n (nfs3_truncate_async cb n path length) (nfs4_truncate_async os cb links n path length)).
Definition nfs_ftruncate_async n h length : call :=
  unless_read_file n h (fun f => by_version n (nfs3_ftruncate_async cb n (h_fh f) length) (nfs4_ftruncate_async cb n h length)).
Definition nfs_chmod_async n path mode : call :=
  unless_readonly n (by_version n (nfs3_chmod_async_internal cb n path false mode)
    (nfs4_chmod_async_internal os cb links n path false mode)).
Definition nfs_lchmod_async n path mode : call :=
  unless_readonly n (by_version n (nfs3_chmod_async_internal cb n path true mode)
    (nfs4_chmod_async_internal os cb links n path true mode)).
Definition nfs_fchmod_async n h mode : call :=
  unless_readonly n (by_version n (nfs3_fchmod_async cb n h mode) (nfs4_fchmod_async cb n h mode)).
Definition nfs_chown_async n path uid gid : call :=
  unless_readonly n (by_version n (nfs3_chown_async_internal cb n path false uid gid)
    (nfs4_chown_async_internal os cb links n path false uid gid)).
Definition nfs_lchown_async n path uid gid : call :=
  unless_readonly n (by_version n (nfs3_chown_async_internal cb n path true uid gid)
    (nfs4_chown_async_internal os cb links n path true uid gid)).
Definition nfs_fchown_async n h uid gid : call :=
  unless_readonly n (by_version n (nfs3_fchown_async cb n h uid gid) (nfs4_fchown_async cb n h uid gid)).
Definition nfs_utimes_async n path times : call :=
  unless_readonly n (by_version n (nfs3_utimes_async_internal cb n path false times)
    (nfs4_utimes_async_internal os cb links n path false times)).
Definition nfs_lutimes_async n path times : call :=
  unless_readonly n (by_version n (nfs3_utimes_async_internal cb n path true times)
    (nfs4_utimes_async_internal os cb links n path true times)).
Definition nfs_utime_async n path times : call :=
  unless_readonly n (by_version n (nfs3_utime_async cb n path times) (nfs4_utime_async os cb links n path times)).

(** ** Changing names *)

Definition nfs_mkdir2_async n path mode : call :=
  unless_readonly n (by_version n (nfs3_mkdir2_async cb n path mode) (nfs4_mkdir2_async os cb links n path mode)).
Definition nfs_mkdir_async n path : call := nfs_mkdir2_async n path 493.
Definition nfs_rmdir_async n path : call :=
  unless_readonly n (by_version n (nfs3_rmdir_async cb n path) (nfs4_rmdir_async os cb links n path)).
Definition nfs_unlink_async n path : call :=
  unless_readonly n (by_version n (nfs3_unlink_async cb n path) (nfs4_unlink_async os cb links n path)).
Definition nfs_mknod_async n path mode dev : call :=
  unless_readonly n (by_version n (nfs3_mknod_async cb n path mode (dev_major dev) (dev_minor dev))
    (nfs4_mknod_async os cb links n path mode dev)).
Definition nfs_rename_async n oldpath newpath : call :=
  unless_readonly n (by_version n (nfs3_rename_async cb n oldpath newpath) (nfs4_rename_async os cb links n oldpath newpath)).
Definition nfs_link_async n oldpath newpath : call :=
  unless_readonly n (by_version n (nfs3_link_async cb n oldpath newpath) (nfs4_link_async os cb links n oldpath newpath)).

(** This one is not refused. *)
Definition nfs_symlink_async n target newpath : call :=
  by_version n (nfs3_symlink_async cb n target newpath) (nfs4_symlink_async os cb links n target newpath).

End api.
