(* ===== verification/Sync.v ===== *)
(** * Sync: the calls that wait (lib/libnfs-sync.c)

    A call of this kind starts the asynchronous one, with a callback that stores
    its status and its data in a [sync_cb_data] on the stack, and turns the loop
    of the context until the callback has been called.

    A [turn] of the loop is one poll and one [nfs_service], as far as it decides
    something here: the replies that arrive, one after the other, each from a
    [server] that picks a request in flight and answers it (with a timeout, for
    example), and whether the service fails in the end.  Then all requests in
    the queues are given back with an error, in the order of the queues, and the
    loop is left; a request whose reply has been read in part is in no queue.
    What is left in flight when the call returns has a callback that will write
    to a stack frame that is gone.

    There is one thread.  [None] is undefined behaviour, or an assertion. *)

From S2P Require Import Prelude Path Settings Url Nfs4Data Nfs3 Lookup LookupProps Nfs3Ops Nfs3File Nfs3IO Nfs3Dir Mount Nfs4Attr Nfs4 Nfs4Ops Nfs4File Nfs4Lock Nfs4Dir Api.

(** ** Waiting *)

(** [return_data]: what has been stored where it points. *)
Record sync_cb_data := mkSync { is_finished : bool; y_status : option Z; return_data : option payload }.
Definition nfs_init_cb_data : sync_cb_data := mkSync false None None.
Definition cb_data_is_finished (status : Z) (d : sync_cb_data) : sync_cb_data := mkSync true (Some status) (return_data d).
Definition set_y_status (status : Z) (d : sync_cb_data) : sync_cb_data := mkSync (is_finished d) (Some status) (return_data d).
Definition stored (p : payload) (d : sync_cb_data) : sync_cb_data := mkSync (is_finished d) (y_status d) (Some p).

Definition sync_cb : Type := Z -> payload -> sync_cb_data -> option sync_cb_data.

Record turn := mkTurn { served : list server; failure : option (list nat) }.

Record waiting := mkWaiting { y_nfs : nfs; y_flight : list pending; y_data : sync_cb_data }.

(** What a call that waits comes to: it still waits, or returns. *)
Inductive synced := Blocked | Returns (ret : Z) (n : nfs) (data : option payload) (stale : list pending) (rest : list turn).

Section wait.
Context (cb : sync_cb).

Fixpoint called_back (out : list (Z * payload)) (d : sync_cb_data) : option sync_cb_data :=
  match out with [] => Some d | (status, data) :: out => d ← cb status data d; called_back out d end.

Definition landed (c : call) (d : sync_cb_data) : option waiting :=
  match c with Undef => None | Call out n _ next => d ← called_back out d; Some (mkWaiting n next d) end.

(** The request that is picked, or else the last one, is answered. *)
Definition serve (s : waiting) (srv : server) : option waiting :=
  match y_flight s !! Nat.min (pick srv (request_of <$> y_flight s)) (length (y_flight s) - 1)%nat with
  | None => Some s
  | Some (Pend q k) => landed (k (y_nfs s) (srv q)) (y_data s)
  end.

Fixpoint serve_all (l : list server) (s : waiting) : option waiting :=
  match l with [] => Some s | srv :: l => s ← serve s srv; serve_all l s end.

(** [rpc_purge_all_pdus]: an attempt to connect is no PDU; a callback must not
    queue another one. *)
Definition is_pdu (q : request) : bool := match q with CONNECT _ => false | _ => true end.
Fixpoint give_back (error : forall T : Set, reply T) (order : list nat) (s : waiting) : option waiting :=
  match order with
  | [] => Some s
  | i :: order =>
      match y_flight s !! i with
      | Some (Pend q k) =>
          if is_pdu q then
            s' ← landed (k (y_nfs s) (error (resok q))) (y_data s);
            if (length (y_flight s) <=? length (y_flight s'))%nat then None else give_back error order s'
          else give_back error order s
      | None => give_back error order s
      end
  end.

(** [inl]: the turns are used up. *)
Fixpoint wait_for_nfs_reply (turns : list turn) (s : waiting) : option (waiting + waiting * list turn) :=
  if is_finished (y_data s) then Some (inr (s, turns))
  else
    match turns with
    | [] => Some (inl s)
    | t :: turns =>
        s ← serve_all (served t) s;
        match failure t with
        | None => wait_for_nfs_reply turns s
        | Some order =>
            s ← give_back (@RpcError) order (mkWaiting (y_nfs s) (y_flight s) (set_y_status (- EIO) (y_data s)));
            Some (inr (s, turns))
        end
    end.

(** A call, by the asynchronous one that it makes with [cb].  A status that has
    not been set is garbage. *)
Definition nfs_sync (c : call) (turns : list turn) : option synced :=
  s ← landed c nfs_init_cb_data;
  match ret_of c with
  | Some 0 =>
      w ← wait_for_nfs_reply turns s;
      match w with
      | inl _ => Some Blocked
      | inr (s, rest) => st ← y_status (y_data s); Some (Returns st (y_nfs s) (return_data (y_data s)) (y_flight s) rest)
      end
  | _ => Some (Returns (-1) (y_nfs s) (return_data (y_data s)) (y_flight s) turns)
  end.
End wait.

(** ** Callbacks *)

(** The status alone; or the data of a call that did not fail, copied. *)
Definition status_cb : sync_cb := fun status data d => Some (cb_data_is_finished status d).
Definition data_cb (wanted : payload -> bool) : sync_cb := fun status data d =>
  if status <? 0 then Some (cb_data_is_finished status d)
  else if wanted data then Some (cb_data_is_finished status (stored data d)) else None.

Definition mount_cb : sync_cb := status_cb.
Definition umount_cb : sync_cb := status_cb.
Definition chdir_cb : sync_cb := status_cb.
Definition pread_cb : sync_cb := status_cb.
Definition close_cb : sync_cb := status_cb.
Definition pwrite_cb : sync_cb := status_cb.
Definition fsync_cb : sync_cb := status_cb.
Definition ftruncate_cb : sync_cb := status_cb.
Definition truncate_cb : sync_cb := status_cb.
Definition mkdir_cb : sync_cb := status_cb.
Definition rmdir_cb : sync_cb := status_cb.
Definition mknod_cb : sync_cb := status_cb.
Definition unlink_cb : sync_cb := status_cb.
Definition lockf_cb : sync_cb := status_cb.
Definition fcntl_cb : sync_cb := status_cb.
Definition chmod_cb : sync_cb := status_cb.
Definition fchmod_cb : sync_cb := status_cb.
Definition chown_cb : sync_cb := status_cb.
Definition fchown_cb : sync_cb := status_cb.
Definition utimes_cb : sync_cb := status_cb.
Definition utime_cb : sync_cb := status_cb.
Definition access_cb : sync_cb := status_cb.
Definition access2_cb : sync_cb := status_cb.
Definition symlink_cb : sync_cb := status_cb.
Definition rename_cb : sync_cb := status_cb.
Definition link_cb : sync_cb := status_cb.

Definition stat_cb : sync_cb := data_cb (fun p => match p with Stat _ => true | _ => false end).
Definition stat64_cb : sync_cb := data_cb (fun p => match p with Stat _ => true | _ => false end).
Definition open_cb : sync_cb := data_cb (fun p => match p with FileHandle _ => true | _ => false end).
Definition creat_cb : sync_cb := data_cb (fun p => match p with FileHandle _ => true | _ => false end).
Definition opendir_cb : sync_cb := data_cb (fun p => match p with Directory _ => true | _ => false end).
Definition statvfs_cb : sync_cb := data_cb (fun p => match p with Statvfs _ => true | _ => false end).
Definition statvfs64_cb : sync_cb := data_cb (fun p => match p with Statvfs _ => true | _ => false end).

(** [wanted]: there is somewhere to put the position. *)
Definition lseek_cb (wanted : bool) : sync_cb :=
  if wanted then data_cb (fun p => match p with Offset _ => true | _ => false end) else status_cb.

(** The status of a buffer that is too small is overwritten; the buffer has
    [bufsize] bytes, and the string is copied with its NUL. *)
Definition readlink_cb (bufsize : Z) : sync_cb := fun status data d =>
  if status <? 0 then Some (cb_data_is_finished status d)
  else
    match data with
    | Text b =>
        if blen b >? u64 bufsize then Some (cb_data_is_finished status (set_y_status (- ENAMETOOLONG) d))
        else if blen b + 1 >? bufsize then None
        else Some (cb_data_is_finished status (stored data d))
    | _ => None
    end.
Definition readlink2_cb : sync_cb := data_cb (fun p => match p with Text _ => true | _ => false end).

(** ** Mounting *)

Section calls.
Context (os : system) (links pages : nat) (turns : list turn).

(** A second try, when nothing is left of the first, whose callback would write
    to the [sync_cb_data] of the second. *)
Definition again {A} (stale : list pending) (x : option A) : option A := match stale with [] => x | _ => None end.

(** Disconnecting leaves nothing in the state kept here. *)
Definition _nfs_mount n server export (turns : list turn) : option synced :=
  nfs_sync mount_cb (nfs_mount_async os links user n server export) turns.

(** The default is version 3; when it fails version 4 is tried. *)
Definition nfs_mount n server export : option synced :=
  r ← _nfs_mount n server export turns;
  match r with
  | Returns ret n data stale rest =>
      if negb (ret =? 0) && negb (c_default_version (n_conf n) =? 0) then
        again stale (_nfs_mount (on_conf (set_c_version NFS_V4) (set_n_rootfh [] n)) server export rest)
      else Some r
  | Blocked => Some Blocked
  end.

Definition nfs_umount n : option synced :=
  r ← nfs_sync umount_cb (nfs_umount_async user n) turns;
  match r with
  | Returns ret n data stale rest => Some (Returns (if ret =? - EIO then 0 else ret) n data stale rest)
  | Blocked => Some Blocked
  end.

(** ** Looking at files *)

Definition nfs_stat n path := nfs_sync stat_cb (nfs_stat_async user n path) turns.
Definition nfs_stat64 n path := nfs_sync stat64_cb (nfs_stat64_async os links user n path) turns.
Definition nfs_lstat64 n path := nfs_sync stat64_cb (nfs_lstat64_async os links user n path) turns.
Definition nfs_fstat n h := nfs_sync stat_cb (nfs_fstat_async user n h) turns.
Definition nfs_fstat64 n h := nfs_sync stat64_cb (nfs_fstat64_async os user n h) turns.
Definition nfs_statvfs n path := nfs_sync statvfs_cb (nfs_statvfs_async user n path) turns.
Definition nfs_statvfs64 n path := nfs_sync statvfs64_cb (nfs_statvfs64_async user n path) turns.
Definition nfs_readlink n path bufsize := nfs_sync (readlink_cb bufsize) (nfs_readlink_async os links user n path) turns.
Definition nfs_readlink2 n path := nfs_sync readlink2_cb (nfs_readlink_async os links user n path) turns.
Definition nfs_access n path mode := nfs_sync access_cb (nfs_access_async os links user n path mode) turns.
Definition nfs_access2 n path := nfs_sync access2_cb (nfs_access2_async os links user n path) turns.
Definition nfs_chdir n path := nfs_sync chdir_cb (nfs_chdir_async os links user n path) turns.
Definition nfs_opendir n path := nfs_sync opendir_cb (nfs_opendir_async os links pages user n path) turns.

(** ** Opening and using files *)

(** An open that fails with -EIO is tried again, [retry] times at most. *)
Fixpoint open_again (retry : nat) n path flags (turns : list turn) : option synced :=
  r ← nfs_sync open_cb (nfs_open_async os links user n path flags) turns;
  match r, retry with
  | Returns ret n data stale rest, S retry => if ret =? - EIO then again stale (open_again retry n path flags rest) else Some r
  | _, _ => Some r
  end.
Definition nfs_open n path flags : option synced := open_again 10 n path flags turns.
Definition nfs_open2 n path flags mode := nfs_sync open_cb (nfs_open2_async os links user n path flags mode) turns.
Definition nfs_creat n path mode := nfs_sync creat_cb (nfs_creat_async os links user n path mode) turns.
Definition nfs_pread n h buf count offset := nfs_sync pread_cb (nfs_pread_async user n h buf count offset) turns.
Definition nfs_preadv n h iov offset := nfs_sync pread_cb (nfs_preadv_async user n h iov offset) turns.
Definition nfs_read n h buf count := nfs_sync pread_cb (nfs_read_async user n h buf count) turns.
Definition nfs_readv n h iov := nfs_sync pread_cb (nfs_readv_async user n h iov) turns.
Definition nfs_pwrite n h buf count offset := nfs_sync pwrite_cb (nfs_pwrite_async user n h buf count offset) turns.
Definition nfs_write n h buf count := nfs_sync pwrite_cb (nfs_write_async os user n h buf count) turns.
Definition nfs_close n h := nfs_sync close_cb (nfs_close_async user n h) turns.
Definition nfs_fsync n h := nfs_sync fsync_cb (nfs_fsync_async user n h) turns.
Definition nfs_lseek n h offset whence (wanted : bool) := nfs_sync (lseek_cb wanted) (nfs_lseek_async os user n h offset whence) turns.
Definition nfs_lockf n h cmd count := nfs_sync lockf_cb (nfs_lockf_async user n h cmd count) turns.
Definition nfs_fcntl n h cmd fl := nfs_sync fcntl_cb (nfs_fcntl_async os user n h cmd fl) turns.

(** ** Changing files and names *)

Definition nfs_truncate n path length := nfs_sync truncate_cb (nfs_truncate_async os links user n path length) turns.
Definition nfs_ftruncate n h length := nfs_sync ftruncate_cb (nfs_ftruncate_async user n h length) turns.
Definition nfs_chmod n path mode := nfs_sync chmod_cb (nfs_chmod_async os links user n path mode) turns.
Definition nfs_lchmod n path mode := nfs_sync chmod_cb (nfs_lchmod_async os links user n path mode) turns.
Definition nfs_fchmod n h mode := nfs_sync fchmod_cb (nfs_fchmod_async user n h mode) turns.
Definition nfs_chown n path uid gid := nfs_sync chown_cb (nfs_chown_async os links user n path uid gid) turns.
Definition nfs_lchown n path uid gid := nfs_sync chown_cb (nfs_lchown_async os links user n path uid gid) turns.
Definition nfs_fchown n h uid gid := nfs_sync fchown_cb (nfs_fchown_async user n h uid gid) turns.
Definition nfs_utimes n path times := nfs_sync utimes_cb (nfs_utimes_async os links user n path times) turns.
Definition nfs_lutimes n path times := nfs_sync utimes_cb (nfs_lutimes_async os links user n path times) turns.
Definition nfs_utime n path times := nfs_sync utime_cb (nfs_utime_async os links user n path times) turns.
Definition nfs_mkdir n path := nfs_sync mkdir_cb (nfs_mkdir_async os links user n path) turns.
Definition nfs_mkdir2 n path mode := nfs_sync mkdir_cb (nfs_mkdir2_async os links user n path mode) turns.
Definition nfs_rmdir n path := nfs_sync rmdir_cb (nfs_rmdir_async os links user n path) turns.
Definition nfs_unlink n path := nfs_sync unlink_cb (nfs_unlink_async os links user n path) turns.
Definition nfs_mknod n path mode dev := nfs_sync mknod_cb (nfs_mknod_async os links user n path mode dev) turns.
Definition nfs_symlink n target linkname := nfs_sync symlink_cb (nfs_symlink_async os links user n target linkname) turns.
Definition nfs_rename n oldpath newpath := nfs_sync rename_cb (nfs_rename_async os links user n oldpath newpath) turns.
Definition nfs_link n oldpath newpath := nfs_sync link_cb (nfs_link_async os links user n oldpath newpath) turns.
End calls.

(** ** The exports of a server *)

(** They are copied, the last one first. *)
Definition mount_getexports_cb : sync_cb := fun status data d =>
  let d := mkSync (is_finished d) (y_status d) None in
  if negb (status =? 0) then Some (cb_data_is_finished status d)
  else match data with Exports l => Some (cb_data_is_finished status (stored (Exports (reverse l)) d)) | _ => None end.

(** The loop is also left after a turn when the socket is closed or the time is
    up ([true]); [inl]: the turns are used up. *)
Fixpoint wait_for_reply (cb : sync_cb) (turns : list (turn * bool)) (s : waiting) : option (waiting + waiting) :=
  if is_finished (y_data s) then Some (inr s)
  else
    match turns with
    | [] => Some (inl s)
    | (t, stop) :: turns =>
        s ← serve_all cb (served t) s;
        if bool_decide (is_Some (failure t)) then Some (inr (mkWaiting (y_nfs s) (y_flight s) (set_y_status (- EIO) (y_data s))))
        else if stop then Some (inr s)
        else wait_for_reply cb turns s
    end.

(** [n] is a new context, which is destroyed in the end: what is in the queues
    is cancelled.  The list is NULL when there is none; [inl] is a call that
    still waits. *)
Definition getexports (turns : list (turn * bool)) (n : nfs) : option (unit + option (list bytes)) :=
  let c := mount_getexports_async user n in
  s ← landed mount_getexports_cb c nfs_init_cb_data;
  match ret_of c with
  | Some 0 =>
      w ← wait_for_reply mount_getexports_cb turns s;
      match w with
      | inl _ => Some (inl tt)
      | inr s =>
          s ← give_back mount_getexports_cb (@RpcCancel) (replicate (length (y_flight s)) 0%nat) s;
          Some (inr (match return_data (y_data s) with Some (Exports l) => Some l | _ => None end))
      end
  | _ => Some (inr None)
  end.

Definition mount_getexports_mountport (turns : list (turn * bool)) (n : nfs) (mountport : Z) :=
  getexports turns (on_conf (on_rpc (rpc_set_mountport mountport)) n).
(** The timeout decides which of the turns stops. *)
Definition mount_getexports_timeout (turns : list (turn * bool)) (n : nfs) (timeout : Z) := getexports turns n.
Definition mount_getexports (turns : list (turn * bool)) (n : nfs) := mount_getexports_timeout turns n (-1).
