(* ===== verification/Nfs4FileProps.v ===== *)
(** * Nfs4FileProps: directories, open files and locks of NFSv4

    Listing a directory; reading with either version; what an open, a write, a
    close and a lock leave in the file and send next; and that a mount with
    NFSv4 crashes as soon as the server has answered. *)

From S2P Require Import Prelude Path Settings Url Nfs4Data Nfs3 Lookup LookupProps Nfs3Ops Nfs3File Nfs3IO Nfs3IOProps Nfs3Dir Mount Nfs4Attr Nfs4 Nfs4Ops Nfs4File Nfs4Lock Nfs4Dir Api Nfs4Walk Nfs4Props.

(** ** Mounting *)

(** A mount with NFSv4 never succeeds: when the server can be connected to and has answered
    the NULL call, the callback follows a NULL pointer (nfs_v4.c:361 and 1707); otherwise the error
    is reported. *)
Theorem mount4_crashes (srv : server) os links n host export path : n_sends n = [] -> nfs_normalize_path export = Some (path, 0) ->
  let port := if negb (c_nfsport (n_conf n) =? 0) then c_nfsport (n_conf n) else 2049 in
  match srv (CONNECT port), srv (NULL NFS4_PROGRAM NFS_V4) with
  | Result _ _, Result _ _ => run srv (nfs4_mount_async os user links n host export) = None
  | _, _ => exists e n', run srv (nfs4_mount_async os user links n host export) = Some ([(e, Message)], n') /\ e < 0
  end.
Proof.
  intros Hq He port. unfold nfs4_mount_async. rewrite He. cbn [negb Z.eqb]. rewrite run_after_leave. fold port.
  change (c_nfsport (n_conf (set_n_export path (on_conf (set_c_server host) n)))) with (c_nfsport (n_conf n)). fold port.
  unfold rpc_connect_port_async, rpc_connect_port_internal. rewrite run_after_leave, run_send by done.
  unfold rpc_connect_program_4_cb, if_success.
  destruct (srv (CONNECT port)) as [| | |st v]; try (eexists _, _; by split).
  rewrite run_send by done. unfold rpc_connect_program_5_cb, if_success.
  by destruct (srv (NULL NFS4_PROGRAM NFS_V4)) as [| | |st' v']; try (eexists _, _; by split).
Qed.

(** ** Directories *)

Section directory.
Context (os : system) (t : tree) (stat_of : nfs_fh -> stat64) (links : nat) (n : nfs) (cwd : list bytes).
Hypothesis t_formed : well_formed t os stat_of.
Hypothesis n_settled : settled4 t n cwd.
#[local] Notation srv := (tree_server t).

Context (fh : nfs_fh) (es : list entry4) (attr_of : entry4 -> stat64).
Hypothesis parsed_entries : Forall (fun e => nfs_parse_attributes (sys_getpwnam os) (e4_attr_vals e) = Parsed (attr_of e)) es.

Definition cookie4_at (i : nat) : Z := match i with O => 0 | S j => match es !! j with Some e => e4_cookie e | None => 0 end end.

(** A READDIR with the cookie of an entry returns some of the entries behind
    it, at least one if there are any. *)
Definition serves_dir4 : Prop :=
  forall i, (i <= length es)%nat -> exists k, (0 < k)%nat /\
    t_other t fh [nfs4_op_readdir n (cookie4_at i)] =
      (NFS4_OK, [RES_READDIR NFS4_OK (take k (drop i es)) (length es <=? i + k)%nat]).
Hypothesis served : serves_dir4.

Definition listed (e : entry4) : nfsdirent := dirent_of4 os (e4_name e) (attr_of e).

Lemma read_entries_push l : forall d cookie, Forall (fun e => nfs_parse_attributes (sys_getpwnam os) (e4_attr_vals e) = Parsed (attr_of e)) l ->
  read_entries os l d cookie =
    Parsed (set_d_entries (reverse (listed <$> l) ++ d_entries d) d, match last l with Some e => e4_cookie e | None => cookie end).
Proof.
  induction l as [|e l IH]; intros d cookie H; [by destruct d|]. apply Forall_cons in H as [He H]. cbn [read_entries].
  rewrite He, (IH _ _ H). cbn [fmap list_fmap]. rewrite reverse_cons, <- app_assoc. destruct l; [done|]. rewrite last_cons_cons.
  by destruct (last (e0 :: l)) eqn:E; [|by apply last_None in E].
Qed.

Lemma last_cookie4 i k cookie : (0 < k)%nat -> (i + k < length es)%nat ->
  match last (take k (drop i es)) with Some e => e4_cookie e | None => cookie end = cookie4_at (i + k).
Proof.
  intros Hk Hl. rewrite last_lookup, length_take, length_drop.
  replace (Nat.pred (k `min` (length es - i))) with (k - 1)%nat by lia. rewrite lookup_take_lt by lia. rewrite lookup_drop.
  destruct k as [|k]; [lia|]. unfold cookie4_at. rewrite Nat.add_succ_r, Nat.sub_succ, Nat.sub_0_r.
  destruct (lookup_lt_is_Some_2 es (i + k)%nat) as [e ->]; [lia|done].
Qed.

Lemma pages4_run pages : forall i d cookie k, (i <= length es)%nat -> (length es - i < pages + 1)%nat -> (0 < k)%nat ->
  run srv (nfs4_parse_readdir os user (nfs4_opendir_continue os user pages fh) n d cookie (take k (drop i es), (length es <=? i + k)%nat)) =
    Some ([(0, Directory (set_d_current 0 (set_d_entries (reverse (listed <$> drop i es) ++ d_entries d) d)))], n).
Proof.
  induction pages as [|pages IH]; intros i d cookie k Hi Hp Hk.
  all: unfold nfs4_parse_readdir; cbn [fst snd]; rewrite read_entries_push by (by apply Forall_take, Forall_drop).
  all: destruct (Nat.leb_spec (length es) (i + k)) as [Hle|Hlt]; cbn [negb]; [by rewrite take_ge by (rewrite length_drop; lia)|].
  - lia.
  - rewrite last_cookie4 by lia. destruct (served (i + k)%nat ltac:(lia)) as (k' & Hk' & E).
    cbn [nfs4_opendir_continue]. rewrite run_compound by apply n_settled. cbn [serve nfs4_op_putfh].
    unfold nfs4_op_readdir in E |- *. cbn [serve]. rewrite E. cbn [fst snd]. unfold nfs4_opendir_2_cb, check_compound, check_nfs4_error. cbn [check_nfs3_error].
    change (NFS4_OK =? NFS4_OK) with true. cbv iota. unfold nfs4_find_op. cbn [find_op the_readdir].
    rewrite (IH (i + k)%nat) by lia. f_equal. f_equal. f_equal. f_equal.
    assert (F : listed <$> drop i es = (listed <$> take k (drop i es)) ++ (listed <$> drop (i + k) es)) by (by rewrite <- fmap_app, <- drop_drop, take_drop).
    rewrite F, reverse_app, <- app_assoc. by destruct d.
Qed.

(** C25: opening a directory with NFSv4 lists it: a path that leads to a directory that does not
    change gives all its entries once, with their attributes, whatever the sizes of the pages, the
    one the server listed first last.  As many pages as there are entries are enough. *)
Theorem opendir4_lists path cs cs' pages : no_nul path -> path_components cwd path = Some cs -> cs <> [] ->
  walk4 t stat_of false [OP_GETFH; nfs4_op_readdir n 0] links (Some cs) = Reached4 fh cs' -> (length es <= pages)%nat ->
  run srv (nfs4_opendir_async os user links pages n path) =
    Some ([(0, Directory (mkDir [] zero_attr (reverse (listed <$> es)) 0))], n).
Proof.
  intros Zp Hp Hne Hw Hpg. destruct (served O ltac:(lia)) as (k & Hk & E). unfold nfs4_opendir_async.
  erewrite (run_on_path os t stat_of links n cwd t_formed n_settled path cs asis (populate_readdir 0) [OP_GETFH; nfs4_op_readdir n 0] false _
    (fun _ _ => (Directory (mkDir [] zero_attr (reverse (listed <$> es)) 0), n))); try done.
  - by rewrite Hw.
  - intros f. unfold nfs4_op_readdir. cbn [serve]. match goal with |- context [t_other t f ?l] => pose proof (wf_aside _ _ _ t_formed f l) as A end.
    destruct (t_other t f _) as [st res]. by constructor.
  - intros f cs2 H2. rewrite Hw in H2. injection H2 as <- <-. unfold nfs4_opendir_cb, check_compound, check_nfs4_error. cbn [check_nfs3_error].
    change (NFS4_OK =? NFS4_OK) with true. cbv iota. unfold nfs4_find_op. unfold nfs4_op_readdir in *.
    rewrite !find_results by done. cbn [serve]. cbn [cookie4_at] in E. rewrite E. cbn [fst snd find_op the_fh the_readdir].
    rewrite (pages4_run pages O) by lia. rewrite drop_0. cbn. by rewrite app_nil_r.
Qed.
End directory.

(** ** Reading *)

Section reading.
Context (srv : server) (h : N) (fh : nfs_fh) (content : bytes).
#[local] Notation piece := (piece content).

(** A server that answers a READ of NFSv4 with what is in the file. *)
Definition serves4 (sid : stateid) : Prop :=
  forall offset count, 0 <= offset -> 0 <= count ->
    srv (COMPOUND [OP_PUTFH fh; OP_READ sid offset count]) =
      Result NFS4_OK [RES_OTHER 22 NFS4_OK; RES_READ NFS4_OK (blen (piece offset count)) (piece offset count)].

Definition reader4 (n : nfs) (f : nfsfh) : Prop := reader h fh n f /\ serves4 (h4_stateid (h_v4 f)).

Lemma reads4 : Reads srv h fh content reader4 nfs4_pread_async_internal.
Proof.
  split.
  - by intros n f [H _].
  - intros n f buf d [H1 H2]. split; [by apply reader_filled|done].
  - intros cb n f buf count offset up [[H1 H2 H3 H4] Hs] Hc Ho Hof. unfold nfs4_pread_async_internal, with_fh. rewrite H2.
    unfold on_file, compound. rewrite (run_send srv n (COMPOUND _)) by done. unfold nfs4_op_putfh, nfs4_op_read. rewrite H3.
    rewrite u32_id by (unfold is_u32, INT_MAX in *; lia). rewrite (Hs offset count) by lia.
    unfold nfs4_pread_cb, check_compound, check_nfs4_error. cbn [check_nfs3_error]. change (NFS4_OK =? NFS4_OK) with true. cbv iota.
    unfold nfs4_find_op, delivered4. cbn [find_op the_read]. change (NFS4_OK =? NFS4_OK) with true. cbv iota.
    pose proof (piece_length content offset count ltac:(lia)) as Hp. pose proof (blen_nonneg (piece offset count)).
    rewrite (take_ge (piece offset count)) by (unfold blen in Hp; lia).
    rewrite i32_id by (unfold is_i32, INT_MAX in *; lia). rewrite cut_count_id by (unfold INT_MAX in *; lia).
    unfold read_into, filled. destruct up; [|done]. unfold with_fh. cbn [n_files set_n_mem]. rewrite H2.
    by rewrite u64_id by (unfold is_u64; lia).
  - intros cb n f buf count offset up [[H1 H2 H3 H4] _]. unfold nfs4_pread_async_internal, with_fh. rewrite H2.
    unfold on_file, compound, send. by rewrite H1.
Qed.

(** A context of either version, with a file whose READs are answered. *)
Definition reader_of_version (n : nfs) (f : nfsfh) : Prop :=
  reader h fh n f /\
  (version n = NFS_V3 /\ serves srv fh content \/ version n = NFS_V4 /\ serves4 (h4_stateid (h_v4 f))).

#[local] Instance reads_version : Reads srv h fh content reader_of_version __nfs_pread_async.
Proof.
  split.
  - by intros n f [H _].
  - intros n f buf d [H1 H2]. split; [by apply reader_filled|done].
  - intros cb n f buf count offset up [Hr [[Hv Hs]|[Hv Hs]]]; unfold __nfs_pread_async, by_version; rewrite Hv.
    + by apply (reads_run srv h fh content (Reads := reads3 srv h fh content Hs) cb n f).
    + by apply (reads_run srv h fh content (Reads := reads4) cb n f).
  - intros cb n f buf count offset up [Hr [[Hv Hs]|[Hv Hs]]]; unfold __nfs_pread_async, by_version; rewrite Hv.
    + by apply (reads_sent srv h fh content (Reads := reads3 srv h fh content Hs) cb n f).
    + by apply (reads_sent srv h fh content (Reads := reads4) cb n f).
Qed.

(** C17: a read of any length, in either version of NFS, cut into READs of at most [readmax] bytes
    one after the other, stores in the caller's memory the bytes the file has at the offset and
    reports their number.  [nfs_read_async] moves the position by that number if less than [readmax]
    bytes were asked for, and else leaves it where it was (libnfs.c:1617). *)
Theorem pread_reads_file n f buf count offset :
  reader_of_version n f -> 0 <= count <= INT_MAX -> 0 <= offset -> offset + count < 2 ^ 64 ->
  run srv (nfs_pread_async user n h buf count offset) =
    Some ([(blen (piece offset count), NoData)], filled n buf (piece offset count)) /\
  (h_offset f = offset ->
   run srv (nfs_read_async user n h buf count) =
    Some ([(blen (piece offset count), NoData)], read_into h (count <? n_readmax n) n f buf offset (piece offset count))).
Proof.
  intros Hr Hc Ho Hof. split; [by apply (multi_reads srv h fh content n f buf count offset false)|]. intros <-.
  unfold nfs_read_async, with_fh. destruct Hr as [Hr Hv]. rewrite (re_file _ _ _ _ Hr).
  by apply (multi_reads srv h fh content n f buf count (h_offset f) true).
Qed.
End reading.

(** ** Opening, writing and closing *)

Section files.
Context (srv : server) (n : nfs).
Hypothesis queued : n_sends n = [].

(** The request of a call whose callback sends no other. *)
Lemma requests_send m q refused k : n_sends m = [] -> (forall r, requests srv (k m r) = []) -> requests srv (send m q refused k) = [q].
Proof. intros Hq Hk. unfold send. rewrite Hq. cbn [requests]. by rewrite Hk. Qed.

Lemma requests_check cb m (r : reply (list nfs_resop4)) k : (forall e p, requests srv (cb m e p) = []) ->
  (forall res, requests srv (k res) = []) -> requests srv (check_compound cb m r k) = [].
Proof.
  intros Hc Hk. destruct r as [| | |st v]; [apply Hc..|]. unfold check_compound, check_nfs4_error. cbn [check_nfs3_error].
  destruct (st =? NFS4_OK); [apply Hk|apply Hc].
Qed.

(** The request of a close. *)
Definition close_request (f : nfsfh) : request :=
  COMPOUND (OP_PUTFH (h_fh f) :: (if h_dirty f then [OP_COMMIT 0 0] else []) ++ [OP_CLOSE (h4_open_seqid (h_v4 f)) (h4_stateid (h_v4 f))]).

Lemma close_sends m h f : n_sends m = [] -> n_files m !! h = Some f -> requests srv (nfs4_close_async user m h) = [close_request f].
Proof.
  intros Hq Hf. unfold nfs4_close_async, with_fh. rewrite Hf. apply (requests_send m (close_request f)); [done|]. intros r.
  unfold nfs4_close_cb, nfs4_truncate_close_cb, with_fh. rewrite Hf. by apply requests_check.
Qed.

Lemma close_done m h f st v : n_sends m = [] -> n_files m !! h = Some f -> srv (close_request f) = Result st v ->
  exists n2, run srv (nfs4_close_async user m h) = Some ([if st =? NFS4_OK then (0, NoData) else (nfsstat4_to_errno st, Message)], n2) /\
    n_files n2 !! h = None.
Proof.
  intros Hq Hf Hs. unfold nfs4_close_async, with_fh. rewrite Hf. unfold on_file, compound. rewrite (run_send srv m (COMPOUND _)) by done.
  change (COMPOUND _) with (close_request f). rewrite Hs. unfold nfs4_close_cb, nfs4_truncate_close_cb, with_fh. rewrite Hf.
  unfold seqid_counted, check_compound, check_nfs4_error. cbn [check_nfs3_error].
  destruct (st =? NFS4_OK); (eexists; split; [reflexivity|]; cbn; by rewrite lookup_delete_eq).
Qed.


(** C21: a WRITE of NFSv4 has all the bytes, whatever [writemax], and what the server says it has
    written is reported, though it be less.  Unless the file is opened with O_SYNC it need not be
    stable: the file becomes dirty, and is committed by its close. *)
Theorem write4_is_committed h f buf count offset (up : bool) r written : n_files n !! h = Some f ->
  0 <= count < 2 ^ 32 -> 0 <= written <= INT_MAX -> offset + written < 2 ^ 64 -> 0 <= offset ->
  let stable := if h_sync f then DATA_SYNC4 else UNSTABLE4 in
  srv (COMPOUND [OP_PUTFH (h_fh f); OP_WRITE (h4_stateid (h_v4 f)) offset stable (take (Z.to_nat count) buf)]) =
    Result NFS4_OK [r; RES_WRITE NFS4_OK written] -> the_write r = None ->
  let f1 := if h_sync f then f else set_h_dirty f in
  let f2 := if up then set_h_offset (offset + written) f1 else f1 in
  exists n', run srv (nfs4_pwrite_async_internal user n h buf count offset up) = Some ([(written, NoData)], n') /\
    n_files n' !! h = Some f2 /\
    requests srv (nfs4_close_async user n' h) =
      [COMPOUND (OP_PUTFH (h_fh f) :: (if h_dirty f || negb (h_sync f) then [OP_COMMIT 0 0] else []) ++
                 [OP_CLOSE (h4_open_seqid (h_v4 f)) (h4_stateid (h_v4 f))])].
Proof.
  intros Hf Hc Hw Hof Ho stable Hs Hr f1 f2. set (n1 := put_fh n h f1). exists (if up then put_fh n1 h f2 else n1).
  assert (L : n_files n1 !! h = Some f1) by apply lookup_insert_eq.
  assert (L2 : n_files (if up then put_fh n1 h f2 else n1) !! h = Some f2) by (destruct up; [apply lookup_insert_eq|done]).
  assert (Eop : nfs4_op_write f offset (take (Z.to_nat (u32 count)) buf) =
    (f1, OP_WRITE (h4_stateid (h_v4 f)) offset stable (take (Z.to_nat count) buf))).
  { rewrite u32_id by (unfold is_u32; lia). unfold nfs4_op_write, f1, stable. by destruct (h_sync f). }
  assert (Ef : h_fh f1 = h_fh f) by (unfold f1; by destruct (h_sync f)).
  split_and!; [|done|].
  - unfold nfs4_pwrite_async_internal, with_fh. rewrite Hf, Eop. unfold compound. rewrite (run_send srv _ (COMPOUND _)) by done.
    unfold nfs4_op_putfh. rewrite Ef, Hs. unfold nfs4_pwrite_cb, check_compound, check_nfs4_error, nfs4_find_op. cbn [check_nfs3_error].
    change (NFS4_OK =? NFS4_OK) with true. cbv iota. cbn [find_op]. rewrite Hr. cbn [the_write]. fold n1.
    rewrite i32_id by (unfold is_i32, INT_MAX in *; lia). destruct up; [|done]. unfold with_fh. rewrite L.
    by rewrite u64_id by (unfold is_u64; lia).
  - rewrite (close_sends _ h f2) by (by destruct up). unfold close_request. f_equal. f_equal.
    unfold f2, f1. destruct up, (h_sync f); cbn; by rewrite ?orb_true_r, ?orb_false_r.
Qed.
End files.

(** ** Locks *)

Section locking.
Context (srv : server) (n : nfs).
Hypothesis queued : n_sends n = [].

(** The request of a lock: the first of a context names the owner. *)
Definition lock_request (n : nfs) (f : nfsfh) (count : Z) : request :=
  let v := h_v4 f in
  COMPOUND [OP_PUTFH (h_fh f);
    OP_LOCK WRITEW_LT 0 (h_offset f) count
      (if n4_has_lock_owner (n_v4 n) then Lock_owner (h4_lock_stateid v) (h4_lock_seqid v)
       else Open_owner (h4_open_seqid v) (h4_stateid v) (h4_lock_seqid v) (n4_clientid (n_v4 n)) (n4_client_name (n_v4 n)))].

Definition lock_taken (n : nfs) (h : N) (f : nfsfh) (sid : stateid) : nfs :=
  let v := h_v4 f in
  on_v4 (set_n4_has_lock_owner true)
    (put_fh n h (set_h_v4 (mkFh4 (h4_stateid v) (h4_open_owner v) (h4_open_seqid v) (u32 (h4_lock_seqid v + 1)) sid) f)).

Lemma lock_sends m h f count : n_sends m = [] -> n_files m !! h = Some f ->
  requests srv (nfs4_lockf_async user m h NFS4_F_LOCK count) = [lock_request m f count].
Proof.
  intros Hq Hf. unfold nfs4_lockf_async, with_fh. rewrite Hf. cbn [lockf_op]. change (NFS4_F_LOCK =? NFS4_F_LOCK) with true. cbv iota.
  unfold nfs4_op_lock, on_file, compound. apply (requests_send srv _ (lock_request m f count)); [done|]. intros r.
  apply requests_check; [done|]. intros res. change ((NFS4_F_LOCK =? NFS4_F_LOCK) || (NFS4_F_LOCK =? NFS4_F_TLOCK)) with true. cbv iota.
  unfold nfs4_find_op, locked, with_fh. by repeat case_match.
Qed.

(** A lock on a file that the server grants leaves its stateid in the file, counts the lock
    seqid, and makes the context have a lock owner.  From then on the lock of any other file of the
    context is asked for with the lock stateid of that file, which is zero if it has no locks yet:
    the server does not know it (nfs_v4.c:983). *)
Theorem lock4_owner_is_of_context h f count sid r h' f' count' : n_files n !! h = Some f -> n_files n !! h' = Some f' -> h <> h' ->
  srv (lock_request n f count) = Result NFS4_OK [r; RES_LOCK NFS4_OK sid] -> the_lock r = None ->
  requests srv (nfs4_lockf_async user n h NFS4_F_LOCK count) = [lock_request n f count] /\
  run srv (nfs4_lockf_async user n h NFS4_F_LOCK count) = Some ([(0, NoData)], lock_taken n h f sid) /\
  requests srv (nfs4_lockf_async user (lock_taken n h f sid) h' NFS4_F_LOCK count') =
    [COMPOUND [OP_PUTFH (h_fh f');
       OP_LOCK WRITEW_LT 0 (h_offset f') count' (Lock_owner (h4_lock_stateid (h_v4 f')) (h4_lock_seqid (h_v4 f')))]].
Proof.
  intros Hf Hf' Hne Hs Hr. split_and!; [by apply lock_sends| |].
  - unfold nfs4_lockf_async, with_fh. rewrite Hf. cbn [lockf_op]. change (NFS4_F_LOCK =? NFS4_F_LOCK) with true. cbv iota.
    etransitivity; [by apply (run_send srv (put_fh n h (next_lock_seqid f)) (lock_request n f count))|]. rewrite Hs.
    unfold nfs4_lockf_cb, check_compound, check_nfs4_error, nfs4_find_op. cbn [check_nfs3_error]. change (NFS4_OK =? NFS4_OK) with true.
    change ((NFS4_F_LOCK =? NFS4_F_LOCK) || (NFS4_F_LOCK =? NFS4_F_TLOCK)) with true. cbv iota. cbn [find_op]. rewrite Hr. cbn [the_lock].
    unfold locked, with_fh. cbn [n_files put_fh set_n_files on_v4 set_n_v4]. rewrite lookup_insert_eq. cbn [run user].
    f_equal. f_equal. unfold lock_taken, put_fh, on_v4. cbn. by rewrite insert_insert_eq.
  - rewrite (lock_sends _ h' f') by (done || cbn; by rewrite lookup_insert_ne). done.
Qed.
End locking.
