(* ===== verification/Nfs4AttrProps.v ===== *)
(** * Nfs4AttrProps: attributes that are taken apart

    A parser [reads] some bytes wherever they stand.  The bytes left are counted
    with a slack: the lengths of the names of owner and group are not taken off. *)

From S2P Require Import Prelude Path Settings Url Nfs4Data Nfs3 Lookup Nfs3Ops Nfs3File Nfs3IO Nfs4Attr Nfs4 Nfs4Ops Nfs4File.

(** [p] reads [d] as [v] when what follows is [P], and counts [slack] bytes too
    few. *)
Definition reads {A} (P : bytes -> Prop) (p : bytes -> parser A) (d : bytes) (v : A) (slack : Z) : Prop :=
  0 <= slack /\ forall pre rest len, P rest -> blen d <= len ->
  p (pre ++ d ++ rest) (blen pre, len) = Parsed (v, (blen (pre ++ d), len - blen d + slack)).

Definition any (rest : bytes) : Prop := True.

Lemma reads_ret {A} (v : A) : reads any (fun _ => parser_ret A v) [] v 0.
Proof. split; [done|]. intros pre rest len _ _. rewrite app_nil_r, blen_nil. unfold parser_ret. f_equal. f_equal. f_equal. lia. Qed.

Lemma reads_bind {A B} P1 P2 (p : bytes -> parser A) (f : bytes -> A -> parser B) d1 d2 v w s1 s2 :
  reads P1 p d1 v s1 -> reads P2 (fun b => f b v) d2 w s2 -> (forall rest, P2 rest -> P1 (d2 ++ rest)) ->
  reads P2 (fun b => parser_bind A B (f b) (p b)) (d1 ++ d2) w (s1 + s2).
Proof.
  intros [H1s H1] [H2s H2] HP. split; [lia|]. intros pre rest len Hr Hl. rewrite blen_app in Hl. unfold parser_bind.
  rewrite <- (app_assoc d1), H1 by (auto || pose proof (blen_nonneg d2); lia). rewrite (app_assoc pre), H2 by (auto || lia).
  rewrite !blen_app. f_equal. f_equal. f_equal; lia.
Qed.

Lemma load_here pre d rest len : load (pre ++ d ++ rest) (blen d) (blen pre, len) = Parsed (d, (blen pre, len)).
Proof.
  unfold load, read_at. rewrite !blen_app. pose proof (blen_nonneg pre). pose proof (blen_nonneg d). pose proof (blen_nonneg rest).
  replace (0 <=? blen pre) with true by lia. replace (0 <=? blen d) with true by lia.
  replace (blen pre + blen d <=? blen pre + (blen d + blen rest)) with true by lia. cbn [andb].
  unfold blen. rewrite !Nat2Z.id, drop_app_length, take_app_length. done.
Qed.

Lemma advance_here pre d rest len : advance (pre ++ d ++ rest) (blen d) (blen pre, len) = Parsed (tt, (blen (pre ++ d), len)).
Proof.
  unfold advance. rewrite !blen_app. pose proof (blen_nonneg pre). pose proof (blen_nonneg d). pose proof (blen_nonneg rest).
  replace (0 <=? blen pre + blen d) with true by lia. by replace (blen pre + blen d <=? blen pre + (blen d + blen rest)) with true by lia.
Qed.

Lemma reads_field d k : blen d = k -> reads any (fun b => field b k) d d 0.
Proof.
  intros <-. split; [done|]. intros pre rest len _ Hl. unfold field, mbind, mret, parser_bind, parser_ret, CHECK_GETATTR_BUF_SPACE.
  replace (len <? blen d) with false by lia. rewrite load_here, advance_here. unfold lessen. f_equal. f_equal. f_equal. lia.
Qed.

(** ** Names of users *)

Lemma reads_check k : k <= 0 -> reads any (fun _ => CHECK_GETATTR_BUF_SPACE k) [] tt 0.
Proof.
  intros Hk. split; [done|]. intros pre rest len _ Hl. rewrite blen_nil in Hl. unfold CHECK_GETATTR_BUF_SPACE.
  replace (len <? k) with false by lia. rewrite app_nil_r, blen_nil. f_equal. f_equal. f_equal. lia.
Qed.

(** The decimal digits of a number. *)
Lemma digits_of_decimal fuel : forall v k rest, 0 <= v < 10 ^ Z.of_nat fuel -> v <= INT_MAX -> 0 <= k ->
  ugid_digits (blen (decimal fuel v) + k) 0 (decimal fuel v ++ rest) = ugid_digits k v rest.
Proof.
  induction fuel as [|fuel IH]; intros v k rest Hv Hm Hk; [by replace v with 0 by (cbn in Hv; lia)|].
  assert (Step : forall u c r, 0 <= u -> 0 <= c <= 9 -> u * 10 + c <= INT_MAX ->
    ugid_digits (1 + k) u (48 + c :: r) = ugid_digits k (u * 10 + c) r).
  { intros u c r Hu Hc Hx. cbn [ugid_digits]. replace (1 + k =? 0) with false by lia. unfold isdigit, fits_int.
    unfold INT_MAX in *. replace ((48 <=? 48 + c) && (48 + c <=? 57)) with true by lia.
    replace (48 + c - 48) with c by lia.
    replace ((-2147483648 <=? u * 10) && (u * 10 <=? 2147483647) && ((-2147483648 <=? u * 10 + c) && (u * 10 + c <=? 2147483647))) with true by lia.
    by replace (1 + k - 1) with k by lia. }
  cbn [decimal]. destruct (Z.ltb_spec v 10) as [Hl|Hl].
  - cbn [app]. rewrite blen_cons, blen_nil, Z.add_0_r. rewrite (Step 0) by lia. by replace (0 * 10 + v) with v by lia.
  - rewrite blen_app, blen_cons, blen_nil, Z.add_0_r, <- app_assoc. cbn [app].
    replace (blen (decimal fuel (v / 10)) + 1 + k) with (blen (decimal fuel (v / 10)) + (1 + k)) by lia.
    pose proof (Z.div_mod v 10 ltac:(lia)) as D. pose proof (Z.mod_pos_bound v 10 ltac:(lia)) as M.
    rewrite IH; [|rewrite Nat2Z.inj_succ, Z.pow_succ_r in Hv by lia; lia|lia|lia].
    rewrite Step by lia. f_equal. lia.
Qed.

(** What [nfs_get_ugid] makes of a name: a number, or a user who is known or not. *)
Inductive id_of (getpwnam : bytes -> option (Z * Z)) (is_user : bool) : bytes -> Z -> Prop :=
| id_number v : 0 <= v <= INT_MAX -> id_of getpwnam is_user (print_int v) v
| id_known s c s' uid gid : s = c :: s' -> isdigit c = false -> 0 ∉ s -> getpwnam s = Some (uid, gid) ->
    is_i32 uid -> is_i32 gid -> id_of getpwnam is_user s (if is_user then uid else gid)
| id_nobody s c s' : s = c :: s' -> isdigit c = false -> 0 ∉ s -> getpwnam s = None -> id_of getpwnam is_user s 65534.

Definition ends_name (rest : bytes) : Prop := head rest = Some 0.

Lemma ugid_name s c s' slen rest : s = c :: s' -> isdigit c = false -> slen <> 0 -> ugid_digits slen 0 (s ++ rest) = Some None.
Proof. intros -> H Hs. cbn [app ugid_digits]. apply Z.eqb_neq in Hs. by rewrite Hs, H. Qed.

Lemma cstr_name s rest : 0 ∉ s -> ends_name rest -> 0 ∈ s ++ rest /\ cstr (s ++ rest) = s.
Proof.
  intros Hs Hr. destruct rest as [|z rest]; [done|]. injection Hr as ->. split; [apply elem_of_app; right; by left|].
  induction s as [|c s IH]; [done|]. apply not_elem_of_cons in Hs as [Hc Hs]. cbn [app cstr].
  destruct (Z.eqb_spec c 0); [congruence|]. by rewrite IH.
Qed.

Lemma get_ugid_here getpwnam is_user s id pre rest len : id_of getpwnam is_user s id -> ends_name rest ->
  nfs_get_ugid getpwnam (pre ++ s ++ rest) (blen s) is_user (blen pre, len) = Parsed (id, (blen pre, len)).
Proof.
  intros H Hr. unfold nfs_get_ugid. assert (D : drop (Z.to_nat (blen pre)) (pre ++ s ++ rest) = s ++ rest).
  { unfold blen. by rewrite Nat2Z.id, drop_app_length. }
  rewrite D. destruct H as [v Hv|s c s' uid gid Es Hc Hz Hg Hu Hgi|s c s' Es Hc Hz Hg].
  - unfold print_int. replace (v <? 0) with false by lia. rewrite <- (Z.add_0_r (blen _)).
    rewrite digits_of_decimal by (unfold INT_MAX in *; lia). cbn [ugid_digits]. by destruct rest.
  - rewrite (ugid_name s c s') by (done || rewrite Es, blen_cons; pose proof (blen_nonneg s'); lia).
    destruct (cstr_name s rest Hz Hr) as [Hin ->]. rewrite bool_decide_true, Hg by done. by destruct is_user; rewrite i32_id.
  - rewrite (ugid_name s c s') by (done || rewrite Es, blen_cons; pose proof (blen_nonneg s'); lia).
    destruct (cstr_name s rest Hz Hr) as [Hin ->]. by rewrite bool_decide_true, Hg by done.
Qed.

Lemma pad_of s : Z.land (4 - Z.land s 3) 3 = Z.land (- s) 3.
Proof.
  change 3 with (Z.ones 2). rewrite !Z.land_ones by lia. change (2 ^ 2) with 4.
  rewrite Zminus_mod, Z.mod_mod, <- Zminus_mod by lia. replace (4 - s) with (- s + 1 * 4) by lia. by rewrite Z.mod_add.
Qed.

Lemma pad_bounds s : 0 <= Z.land (- s) 3 < 4.
Proof. change 3 with (Z.ones 2). rewrite Z.land_ones by lia. apply Z.mod_pos_bound. lia. Qed.

Lemma zeros_end k rest : ends_name rest -> ends_name (zeros k ++ rest).
Proof. intros H. unfold zeros. by destruct (Z.to_nat k). Qed.

Lemma blen_counted s : blen (counted s) = 4 + blen s + Z.land (- blen s) 3.
Proof. unfold counted. rewrite !blen_app, blen_be32, blen_zeros by apply pad_bounds. lia. Qed.

Lemma reads_owner getpwnam is_user s id : id_of getpwnam is_user s id -> blen s < 2 ^ 24 ->
  reads ends_name (fun b => owner getpwnam b is_user) (counted s) (u64 id) (blen s).
Proof.
  intros Hid Hs. pose proof (blen_nonneg s) as H0. split; [done|]. intros pre rest len Hr Hl. rewrite blen_counted in Hl.
  pose proof (pad_bounds (blen s)) as Hp. unfold counted. rewrite <- !app_assoc. set (pad := zeros (Z.land (- blen s) 3)) in *.
  unfold owner, mbind, mret, parser_bind, parser_ret.
  destruct (reads_field (be32 (blen s)) 4 (blen_be32 _)) as [_ F]. rewrite F by (done || rewrite blen_be32; lia).
  rewrite of_be32_be32, u32_id, i32_id by (unfold is_u32, is_i32; lia). rewrite blen_be32, (app_assoc pre (be32 (blen s))).
  unfold CHECK_GETATTR_BUF_SPACE at 1. replace (len - 4 + 0 <? blen s) with false by lia.
  rewrite (get_ugid_here getpwnam is_user s id) by (done || by apply zeros_end). rewrite advance_here, pad_of, app_assoc.
  unfold CHECK_GETATTR_BUF_SPACE. replace (len - 4 + 0 <? Z.land (- blen s) 3) with false by lia.
  assert (Epad : blen pad = Z.land (- blen s) 3) by (apply blen_zeros; lia). rewrite <- Epad, advance_here. unfold lessen.
  f_equal. f_equal. rewrite !blen_app, blen_be32. f_equal; lia.
Qed.

(** ** All the attributes *)

Definition time_bytes (t : nfs_time) : bytes := be64 (seconds t) ++ be32 (nseconds t).

Lemma blen_be64 x : blen (be64 x) = 8.
Proof. unfold be64. by rewrite blen_app, !blen_be32. Qed.

Lemma of_be64_be64 x : of_be64 (be64 x) = u64 x.
Proof.
  unfold of_be64, be64. change (take 4 (be32 (Z.shiftr x 32) ++ be32 x)) with (be32 (Z.shiftr x 32)).
  change (drop 4 (be32 (Z.shiftr x 32) ++ be32 x)) with (be32 x). rewrite !of_be32_be32.
  unfold u32, u64. apply Z.bits_inj'. intros k Hk. rewrite Z.lor_spec, Z.shiftl_spec by done.
  destruct (Z.lt_ge_cases k 32) as [H|H].
  - rewrite (Z.testbit_neg_r _ (k - 32)) by lia. by rewrite !Z.mod_pow2_bits_low by lia.
  - rewrite (Z.mod_pow2_bits_high x 32) by lia. rewrite orb_false_r. destruct (Z.lt_ge_cases k 64) as [H'|H'].
    + rewrite Z.mod_pow2_bits_low, Z.shiftr_spec, Z.mod_pow2_bits_low by lia. f_equal. lia.
    + by rewrite !Z.mod_pow2_bits_high by lia.
Qed.

Lemma reads_time t : 0 <= seconds t < 2 ^ 64 -> 0 <= nseconds t < 2 ^ 32 -> reads any nfstime4 (time_bytes t) t 0.
Proof.
  intros Hs Hn. split; [done|]. intros pre rest len _ Hl. unfold time_bytes in *. rewrite blen_app, blen_be64, blen_be32 in Hl.
  unfold nfstime4, mbind, mret, parser_bind, parser_ret, CHECK_GETATTR_BUF_SPACE. replace (len <? 12) with false by lia.
  rewrite <- (app_assoc (be64 (seconds t))).
  pose proof (load_here pre (be64 (seconds t)) (be32 (nseconds t) ++ rest) len) as L1. rewrite blen_be64 in L1. rewrite L1.
  pose proof (advance_here pre (be64 (seconds t)) (be32 (nseconds t) ++ rest) len) as A1. rewrite blen_be64 in A1. rewrite A1.
  unfold lessen. rewrite (app_assoc pre).
  pose proof (load_here (pre ++ be64 (seconds t)) (be32 (nseconds t)) rest (len - 8)) as L2. rewrite blen_be32 in L2. rewrite L2.
  pose proof (advance_here (pre ++ be64 (seconds t)) (be32 (nseconds t)) rest (len - 8)) as A2. rewrite blen_be32 in A2. rewrite A2.
  unfold nfs_pntoh64.
  rewrite of_be64_be64, of_be32_be32, u64_id, u32_id by (unfold is_u64, is_u32; lia).
  f_equal. f_equal; [by destruct t|]. rewrite !blen_app, blen_be64, blen_be32. f_equal; lia.
Qed.

(** What a server sends, and what the client is to find in it. *)
Record wire := mkWire {
  w_type : Z; w_size : Z; w_fsid : bytes; w_ino : Z; w_mode : Z; w_nlink : Z; w_owner : bytes; w_group : bytes;
  w_specdata1 : Z; w_specdata2 : Z; w_used : Z; w_atime : nfs_time; w_ctime : nfs_time; w_mtime : nfs_time
}.

Definition wire_head (w : wire) : bytes :=
  be32 (w_type w) ++ be64 (w_size w) ++ w_fsid w ++ be64 (w_ino w) ++ be32 (w_mode w) ++ be32 (w_nlink w) ++
  counted (w_owner w) ++ counted (w_group w) ++ (be32 (w_specdata1 w) ++ be32 (w_specdata2 w)) ++ be64 (w_used w) ++
  time_bytes (w_atime w) ++ time_bytes (w_ctime w).
Definition wire_bytes (w : wire) : bytes := wire_head w ++ time_bytes (w_mtime w).

Definition wire_stat (w : wire) (uid gid : Z) : stat64 :=
  mkStat (Z.lxor (of_le (take 8 (w_fsid w))) (of_le (drop 8 (w_fsid w)))) (w_ino w) (Z.lor (w_mode w) (type_mode (w_type w)))
    (w_nlink w) (u64 uid) (u64 gid) (Z.lor (Z.shiftl (w_specdata1 w) 32) (w_specdata2 w)) (w_size w)
    NFS_BLKSIZE (u64 (w_used w + NFS_BLKSIZE - 1) / NFS_BLKSIZE) (w_atime w) (w_mtime w) (w_ctime w) (w_used w).

Definition time_ok (t : nfs_time) : Prop := 0 <= seconds t < 2 ^ 64 /\ 0 <= nseconds t < 2 ^ 32.
Record wire_ok (w : wire) : Prop := {
  wo_type : 0 <= w_type w <= INT_MAX;
  wo_size : is_u64 (w_size w);
  wo_fsid : blen (w_fsid w) = 16;
  wo_ino : is_u64 (w_ino w);
  wo_mode : is_u32 (w_mode w);
  wo_nlink : is_u32 (w_nlink w);
  wo_names : blen (w_owner w) < 2 ^ 24 /\ blen (w_group w) < 2 ^ 24;
  wo_rdev : 0 <= w_specdata1 w < 2 ^ 24 /\ is_u32 (w_specdata2 w);
  wo_used : is_u64 (w_used w);
  wo_times : time_ok (w_atime w) /\ time_ok (w_ctime w) /\ time_ok (w_mtime w)
}.

Lemma ends_be32 x rest : 0 <= x < 2 ^ 24 -> ends_name (be32 x ++ rest).
Proof.
  intros H. unfold ends_name, be32. cbn [head app]. f_equal. rewrite Z.shiftr_div_pow2, Z.div_small by lia. done.
Qed.

Lemma ends_counted s rest : blen s < 2 ^ 24 -> ends_name (counted s ++ rest).
Proof. intros H. unfold counted. rewrite <- !app_assoc. apply ends_be32. pose proof (blen_nonneg s). lia. Qed.

Lemma ends_app d rest : (forall r, ends_name (d ++ r)) -> ends_name (d ++ rest).
Proof. auto. Qed.

(** [p] goes behind the end of [d] if at least [m] bytes are thought to be left. *)
Definition overruns {A} (p : bytes -> parser A) (d : bytes) (m : Z) : Prop :=
  forall pre len, m <= len -> p (pre ++ d) (blen pre, len) = Overrun.

Lemma overruns_bind {A B} P (p : bytes -> parser A) (f : bytes -> A -> parser B) d1 d2 v s m :
  reads P p d1 v s -> overruns (fun b => f b v) d2 (m - blen d1 + s) -> P d2 -> blen d1 <= m ->
  overruns (fun b => parser_bind A B (f b) (p b)) (d1 ++ d2) m.
Proof.
  intros [Hs H1] H2 HP Hm pre len Hl. unfold parser_bind. rewrite (H1 pre d2 len) by (done || lia).
  rewrite (app_assoc pre). apply H2. lia.
Qed.

Lemma overruns_here {A B} (p : bytes -> parser A) (f : bytes -> A -> parser B) d m : overruns p d m ->
  overruns (fun b => parser_bind A B (f b) (p b)) d m.
Proof. intros H pre len Hl. unfold parser_bind. by rewrite H. Qed.

Lemma time_overruns d : blen d < 12 -> overruns nfstime4 d 12.
Proof.
  intros Hd pre len Hl. unfold nfstime4, mbind, mret, parser_bind, CHECK_GETATTR_BUF_SPACE. replace (len <? 12) with false by lia.
  pose proof (blen_nonneg pre). pose proof (blen_nonneg d). unfold load, advance, lessen, read_at. rewrite !blen_app. cbv beta iota zeta.
  replace (0 <=? blen pre) with true by lia. change (0 <=? 8) with true. change (0 <=? 4) with true. cbn [andb].
  destruct (blen pre + 8 <=? blen pre + blen d) eqn:E; [|done]. cbv beta iota. rewrite E.
  replace (0 <=? blen pre + 8) with true by lia. cbn [andb]. cbv beta iota.
  replace (0 <=? blen pre + 8) with true by lia. cbn [andb].
  by replace (blen pre + 8 + 4 <=? blen pre + blen d) with false by lia.
Qed.

Lemma blen_time t : blen (time_bytes t) = 12.
Proof. unfold time_bytes. by rewrite blen_app, blen_be64, blen_be32. Qed.

Lemma blen_rdev a b : blen (be32 a ++ be32 b) = 8.
Proof. by rewrite blen_app, !blen_be32. Qed.

Section attributes.
Context (getpwnam : bytes -> option (Z * Z)) (w : wire) (uid gid : Z).
Hypothesis w_ok : wire_ok w.
Hypothesis owner_id : id_of getpwnam true (w_owner w) uid.
Hypothesis group_id : id_of getpwnam false (w_group w) gid.

Ltac one_field := eapply (reads_bind any); [apply reads_field; rewrite ?blen_be32, ?blen_be64, ?blen_rdev; first [reflexivity|apply w_ok]| |done].
Ltac one_time := eapply (reads_bind any); [apply reads_time; apply w_ok| |done].

Lemma reads_attributes : exists slack, slack = blen (w_owner w) + blen (w_group w) /\
  reads any (attributes getpwnam) (wire_bytes w) (wire_stat w uid gid) slack.
Proof.
  destruct w_ok as [Ht Hs Hf Hi Hm Hn [Ho Hg] [Hr1 Hr2] Hu [Ha [Hc Hmt]]].
  eexists. split; cycle 1.
  - unfold wire_bytes, wire_head. rewrite <- !app_assoc. rewrite (app_assoc (be32 (w_specdata1 w))).
    unfold attributes, mbind, mret.
    do 6 one_field.
    eapply (reads_bind ends_name); [by apply reads_owner| |intros rest _; rewrite <- app_assoc; by apply ends_counted].
    eapply (reads_bind ends_name); [by apply reads_owner| |intros rest _; rewrite <- !app_assoc; by apply ends_be32].
    do 2 one_field. do 2 one_time. rewrite <- (app_nil_r (time_bytes (w_mtime w))). one_time.
    assert (E : forall v, v = wire_stat w uid gid -> reads any (fun _ => parser_ret stat64 v) [] (wire_stat w uid gid) 0)
      by (intros v ->; apply reads_ret).
    apply E. unfold wire_stat, nfs_pntoh64, specdata4_to_rdev.
    rewrite !of_be64_be64, !of_be32_be32.
    change (take 4 (be32 (w_specdata1 w) ++ be32 (w_specdata2 w))) with (be32 (w_specdata1 w)).
    change (drop 4 (be32 (w_specdata1 w) ++ be32 (w_specdata2 w))) with (be32 (w_specdata2 w)). rewrite !of_be32_be32.
    rewrite (u64_id (w_size w)), (u64_id (w_ino w)), (u64_id (w_used w)), (u32_id (w_mode w)), (u32_id (w_nlink w)),
      (u32_id (w_specdata2 w)) by done.
    rewrite (u32_id (w_type w)), (u32_id (w_specdata1 w)), i32_id by (unfold is_u32, is_i32, INT_MAX in *; lia). done.
  - lia.
Qed.

Lemma overruns_more {A} (p : bytes -> parser A) d m m' : overruns p d m -> m <= m' -> overruns p d m'.
Proof. intros H Hm pre len Hl. apply H. lia. Qed.

Ltac measure := rewrite ?blen_counted, ?blen_be32, ?blen_be64, ?blen_rdev, ?blen_time, ?(wo_fsid _ w_ok);
  pose proof (pad_bounds (blen (w_owner w))); pose proof (pad_bounds (blen (w_group w)));
  pose proof (blen_nonneg (w_owner w)); pose proof (blen_nonneg (w_group w)); try lia.

Lemma overruns_attributes d : blen d < 12 -> 12 <= blen d + blen (w_owner w) + blen (w_group w) ->
  overruns (attributes getpwnam) (wire_head w ++ d) (blen (wire_head w ++ d)).
Proof.
  intros Hd Hn. destruct w_ok as [Ht Hs Hf Hi Hm Hnl [Ho Hg] [Hr1 Hr2] Hu [Ha [Hc Hmt]]]. pose proof (blen_nonneg d) as H0.
  assert (L : blen (wire_head w ++ d) =
    4 + (8 + (16 + (8 + (4 + (4 + (blen (counted (w_owner w)) + (blen (counted (w_group w)) + (8 + (8 + (12 + (12 + blen d)))))))))))).
  { unfold wire_head. rewrite !blen_app, !blen_be32, !blen_be64, !blen_time, Hf. lia. }
  rewrite L. unfold wire_head. rewrite <- !app_assoc. rewrite (app_assoc (be32 (w_specdata1 w))). unfold attributes, mbind, mret.
  do 6 (eapply (overruns_bind any); [apply reads_field; rewrite ?blen_be32, ?blen_be64; first [reflexivity|exact Hf]| |done|measure]).
  eapply (overruns_bind ends_name); [by apply reads_owner| |rewrite <- ?app_assoc; by apply ends_counted|measure].
  eapply (overruns_bind ends_name); [by apply reads_owner| |rewrite <- ?app_assoc; by apply ends_be32|measure].
  do 2 (eapply (overruns_bind any); [apply reads_field; rewrite ?blen_rdev, ?blen_be64; reflexivity| |done|measure]).
  do 2 (eapply (overruns_bind any); [apply reads_time; apply w_ok| |done|measure]).
  apply overruns_here. eapply overruns_more; [by apply time_overruns|]. measure.
Qed.

(** C38: attributes in the order of the bits of [standard_attributes], as RFC 3530 encodes them, are
    taken apart into the attributes they were put together from.  Owner and group are numbers or the
    names of users, who are nobody if the system does not know them. *)
Theorem attributes_roundtrip rest : blen (wire_bytes w ++ rest) <= INT_MAX ->
  nfs_parse_attributes getpwnam (wire_bytes w ++ rest) = Parsed (wire_stat w uid gid).
Proof.
  intros Hl. destruct reads_attributes as (slack & _ & _ & H). unfold nfs_parse_attributes, run_parser.
  pose proof (blen_nonneg (wire_bytes w ++ rest)) as H0. rewrite i32_id by (unfold is_i32, INT_MAX in *; lia).
  rewrite blen_app in *. pose proof (blen_nonneg rest).
  specialize (H [] rest (blen (wire_bytes w) + blen rest) I ltac:(lia)). cbn [app] in H. change (blen []) with 0 in H. by rewrite H.
Qed.

(** A reply whose attributes are cut short is not always found out: the lengths of the names of
    owner and group are not taken off the bytes left (nfs_v4.c:553), so that up to as many bytes may
    be missing of the last time, which is then read from behind the end. *)
Theorem cut_attributes_overrun c : (1 <= c <= 12)%nat -> Z.of_nat c <= blen (w_owner w) + blen (w_group w) ->
  blen (wire_bytes w) <= INT_MAX ->
  nfs_parse_attributes getpwnam (take (length (wire_bytes w) - c) (wire_bytes w)) = Overrun.
Proof.
  intros Hc Hn Hl. set (d := take (12 - c) (time_bytes (w_mtime w))).
  assert (Lt : length (time_bytes (w_mtime w)) = 12%nat) by (pose proof (blen_time (w_mtime w)) as B; unfold blen in B; lia).
  assert (E : take (length (wire_bytes w) - c) (wire_bytes w) = wire_head w ++ d).
  { unfold wire_bytes, d. rewrite length_app, Lt, take_app_ge by lia. f_equal. f_equal. lia. }
  assert (Ld : blen d = 12 - Z.of_nat c) by (unfold blen, d; rewrite length_take, Lt; lia).
  rewrite E. pose proof (overruns_attributes d ltac:(lia) ltac:(lia) [] (blen (wire_head w ++ d)) ltac:(lia)) as H.
  unfold nfs_parse_attributes, run_parser. pose proof (blen_nonneg (wire_head w ++ d)).
  assert (Hs : blen (wire_head w ++ d) <= INT_MAX).
  { unfold wire_bytes in Hl. rewrite blen_app in *. rewrite Ld. pose proof (blen_time (w_mtime w)). lia. }
  rewrite i32_id by (unfold is_i32, INT_MAX in *; lia). cbn [app] in H. change (blen []) with 0 in H. by rewrite H.
Qed.
End attributes.
