(* ===== verification/Nfs4Examples.v ===== *)
(** * Nfs4Examples: the theorems about NFSv4 at concrete inputs

    A server with a directory "/d" with a file "/d/f", a link "/l" to "d" and a
    link "/s" to itself, and a context that uses it. *)

From S2P Require Import Prelude Path Settings Url Nfs4Data Nfs3 Lookup LookupProps Nfs3Ops Nfs3File Nfs3IO Nfs3IOProps Nfs3Props Nfs3Examples Nfs3Dir Mount Nfs4Attr Nfs4 Nfs4Ops Nfs4File Nfs4Lock Nfs4Dir Api Nfs4Walk Nfs4Props Nfs4FileProps Nfs4AttrProps.

(** ** The server *)

Definition d_name : bytes := [100].
Definition f_name : bytes := [102].
Definition l_name : bytes := [108].
Definition s_name : bytes := [115].

Definition os : system := mkSystem (fun _ => None) 1 0.

(** Owner "0", group "nobody". *)
Definition wire_of (type : Z) : wire :=
  mkWire type 5 (replicate 16 0) 7 420 1 [48] [110; 111; 98; 111; 100; 121] 0 0 4096 (mkTime 1 2) (mkTime 3 4) (mkTime 5 6).

Definition linkb (fh : nfs_fh) : bool := beq fh [3] || beq fh [4].
Definition lookup_in (fh : nfs_fh) (c : bytes) : nfs_fh + Z :=
  if linkb fh then inr NFS4ERR_SYMLINK
  else if beq fh [0] && beq c d_name then inl [1]
  else if beq fh [1] && beq c f_name then inl [2]
  else if beq fh [0] && beq c l_name then inl [3]
  else if beq fh [0] && beq c s_name then inl [4]
  else inr 2.
Definition vals_of (fh : nfs_fh) : bytes := wire_bytes (wire_of (if linkb fh then NF3LNK else NF3DIR)).
Definition link_of (fh : nfs_fh) : bytes + Z := if beq fh [3] then inl d_name else if beq fh [4] then inl s_name else inr 22.

(** Two entries, one to a page. *)
Definition entries : list entry4 := [mkEntry4 10 f_name (vals_of [2]); mkEntry4 20 l_name (vals_of [3])].
Definition other (fh : nfs_fh) (ops : list nfs_argop4) : Z * list nfs_resop4 :=
  match ops with
  | [OP_READDIR cookie _ _ _ _] =>
      if cookie =? 0 then (NFS4_OK, [RES_READDIR NFS4_OK (take 1 entries) false])
      else if cookie =? 10 then (NFS4_OK, [RES_READDIR NFS4_OK (drop 1 entries) true])
      else (NFS4_OK, [RES_READDIR NFS4_OK [] true])
  | _ => (NFS4_OK, [RES_OTHER 0 NFS4_OK])
  end.
Definition files4 : tree := mkTree [0] lookup_in vals_of link_of other.
Definition stat4 (fh : nfs_fh) : stat64 := wire_stat (wire_of (if linkb fh then NF3LNK else NF3DIR)) 0 65534.

Lemma files4_formed : well_formed files4 os stat4.
Proof.
  assert (K : forall fh, S_ISLNK (stat4 fh) = linkb fh) by (intros fh; unfold stat4; by destruct (linkb fh)).
  split.
  - intros fh. unfold stat4. cbn [t_vals files4]. unfold vals_of. by destruct (linkb fh); vm_compute.
  - reflexivity.
  - intros fh c H. rewrite K in H. cbn [t_lookup files4]. unfold lookup_in. by rewrite H.
  - intros fh c st H E. rewrite K in H. cbn [t_lookup files4] in E. unfold lookup_in in E. rewrite H in E.
    repeat case_match; simplify_eq; done.
  - intros fh st E. cbn [t_readlink files4] in E. unfold link_of in E. repeat case_match; simplify_eq; done.
  - intros fh ops. cbn [t_other files4]. unfold other. repeat case_match; by repeat constructor.
Qed.

Definition opened4 : nfsfh := mkNfsfh [2] false false false false 0 (mkFh4 (mkStateid 1 (replicate 12 9)) 0 1 0 zero_stateid).
Definition mounted4 : nfs :=
  mkNfs (set_c_version 4 (set_c_readmax 4 (set_c_writemax 8 (init_settings 0 0)))) [slash] [slash] [0] [] []
    {[ 5%N := opened4; 6%N := opened4 ]} 7 ∅ no_nfs4 [].

Lemma mounted4_settled : settled4 files4 mounted4 [].
Proof. split; [reflexivity|by right|apply spells_root|by intros [E|E%elem_of_nil]%elem_of_cons]. Qed.

Lemma no_nul_dec s : bool_decide (0 ∈ s) = false -> no_nul s.
Proof. intros H. by apply bool_decide_eq_false_1 in H. Qed.

(** ** Paths *)

(** "/l/f", in which "l" is a link. *)
Lemma stat4_follows_path_witness :
  run (tree_server files4) (nfs4_stat64_async os user 2 mounted4 (slash :: l_name ++ slash :: f_name) false) =
    Some ([(0, Stat (stat4 [2]))], mounted4).
Proof.
  exact (stat4_follows_path os files4 stat4 2 mounted4 [] files4_formed mounted4_settled (slash :: l_name ++ slash :: f_name) false
    ltac:(apply no_nul_dec; reflexivity)).
Defined.

(** "l/f", removed from "/d". *)
Lemma names4_are_changed_witness :
  run (tree_server files4) (nfs4_unlink_async os user 2 mounted4 (l_name ++ slash :: f_name)) = Some ([(0, NoData)], mounted4).
Proof.
  exact (proj1 (names4_are_changed os files4 stat4 2 mounted4 [] files4_formed mounted4_settled (l_name ++ slash :: f_name) [l_name] f_name
    0 [] ltac:(apply no_nul_dec; reflexivity) eq_refl)).
Defined.

(** chown of "/d/l", which there is not, succeeds. *)
Lemma attributes4_are_changed_witness :
  run (tree_server files4) (nfs4_chown_async_internal os user 2 mounted4 (slash :: d_name ++ slash :: l_name) false 1 1) =
    Some ([(0, NoData)], mounted4).
Proof.
  exact (proj2 (proj2 (attributes4_are_changed os files4 stat4 2 mounted4 [] files4_formed mounted4_settled
    (slash :: d_name ++ slash :: l_name) [d_name] l_name false 0 None 1 1 ltac:(apply no_nul_dec; reflexivity) eq_refl))).
Defined.

(** "/s/f", whose "s" leads to "s". *)
Lemma looping_link_never_ends_witness :
  run (tree_server files4) (nfs4_stat64_async os user 9 mounted4 (slash :: s_name ++ slash :: f_name) false) = None.
Proof.
  exact (looping_link_never_ends os files4 stat4 9 mounted4 [] files4_formed mounted4_settled (slash :: s_name ++ slash :: f_name)
    [s_name; f_name] [4] [s_name] [f_name] s_name ltac:(apply no_nul_dec; reflexivity) eq_refl ltac:(discriminate) eq_refl eq_refl eq_refl).
Defined.

(** ** Directories *)

Lemma entries_parsed : Forall (fun e => nfs_parse_attributes (sys_getpwnam os) (e4_attr_vals e) = Parsed (stat4 (if beq (e4_name e) l_name then [3] else [2]))) entries.
Proof. repeat constructor. Qed.

Lemma entries_served : serves_dir4 files4 mounted4 [1] entries.
Proof.
  intros i Hi. cbn in Hi. exists 1%nat. split; [lia|]. destruct i as [|[|[|i]]]; [reflexivity..|lia].
Qed.

Lemma opendir4_lists_witness :
  run (tree_server files4) (nfs4_opendir_async os user 1 2 mounted4 d_name) =
    Some ([(0, Directory (mkDir [] zero_attr
      [dirent_of4 os l_name (stat4 [3]); dirent_of4 os f_name (stat4 [2])] 0))], mounted4).
Proof.
  exact (opendir4_lists os files4 stat4 1 mounted4 [] files4_formed mounted4_settled [1] entries
    (fun e => stat4 (if beq (e4_name e) l_name then [3] else [2])) entries_parsed entries_served d_name [d_name] [d_name] 2
    ltac:(apply no_nul_dec; reflexivity) eq_refl ltac:(discriminate) eq_refl (le_n _)).
Defined.

(** ** Mounting, open files and locks *)

Lemma mount4_crashes_witness :
  run (mkServer (fun q => match q return reply (resok q) with CONNECT _ => Result 0 tt | NULL _ _ => Result 0 tt | _ => RpcError end) (fun _ => O))
    (nfs4_mount_async os user 1 mounted4 [104] [slash; 100]) = None.
Proof.
  exact (mount4_crashes (mkServer (fun q => match q return reply (resok q) with CONNECT _ => Result 0 tt | NULL _ _ => Result 0 tt | _ => RpcError end) (fun _ => O))
    os 1 mounted4 [104] [slash; 100] [slash; 100] eq_refl eq_refl).
Defined.

(** A server with one file, whose opens have to be confirmed and which takes
    three bytes of a WRITE. *)
Definition file_ops (ops : list nfs_argop4) : reply (list nfs_resop4) :=
  match ops with
  | [OP_PUTFH _; OP_READ _ offset count] =>
      Result NFS4_OK [RES_OTHER 22 NFS4_OK; RES_READ NFS4_OK (blen (piece contents offset count)) (piece contents offset count)]
  | [OP_PUTFH _; OP_WRITE _ _ _ _] => Result NFS4_OK [RES_OTHER 22 NFS4_OK; RES_WRITE NFS4_OK 3]
  | [OP_PUTFH _; OP_OPEN_CONFIRM _ _] => Result NFS4_OK [RES_OTHER 22 NFS4_OK; RES_OPEN_CONFIRM NFS4_OK (mkStateid 2 [])]
  | [OP_PUTFH _; OP_LOCK _ _ _ _ _] => Result NFS4_OK [RES_OTHER 22 NFS4_OK; RES_LOCK NFS4_OK (mkStateid 7 [])]
  | _ => Result NFS4_OK []
  end.
Definition file_server : server :=
  mkServer (fun q => match q return reply (resok q) with COMPOUND ops => file_ops ops | _ => RpcError end) (fun _ => O).

Lemma mounted4_reader : reader_of_version file_server 5%N [2] contents mounted4 opened4.
Proof.
  split; [split; [reflexivity|reflexivity|reflexivity|vm_compute; split; [reflexivity|discriminate]]|].
  right. split; [reflexivity|]. intros offset count _ _. reflexivity.
Qed.

(** Five bytes with READs of four, by version 3 and by version 4. *)
Lemma pread_reads_file_witness :
  run files (nfs_pread_async user mounted 5 1000 10 0) = Some ([(5, NoData)], filled mounted 1000 contents) /\
  run file_server (nfs_pread_async user mounted4 5 1000 10 0) = Some ([(5, NoData)], filled mounted4 1000 contents).
Proof.
  split.
  - exact (proj1 (pread_reads_file files 5 [1] contents mounted Nfs3Examples.opened 1000 10 0
      (conj mounted_reader (or_introl (conj eq_refl files_serves))) ltac:(vm_compute; split; discriminate) ltac:(discriminate) ltac:(reflexivity))).
  - exact (proj1 (pread_reads_file file_server 5 [2] contents mounted4 opened4 1000 10 0
      mounted4_reader ltac:(vm_compute; split; discriminate) ltac:(discriminate) ltac:(reflexivity))).
Defined.


Lemma write4_is_committed_witness :
  exists n', run file_server (nfs4_pwrite_async_internal user mounted4 5 contents 5 100 true) = Some ([(3, NoData)], n') /\
    requests file_server (nfs4_close_async user n' 5) = [COMPOUND [OP_PUTFH [2]; OP_COMMIT 0 0; OP_CLOSE 1 (h4_stateid (h_v4 opened4))]].
Proof.
  destruct (write4_is_committed file_server mounted4 eq_refl 5%N opened4 contents 5 100 true (RES_OTHER 22 NFS4_OK) 3 eq_refl
    ltac:(lia) ltac:(vm_compute; split; discriminate) ltac:(reflexivity) ltac:(discriminate) eq_refl eq_refl) as (n' & Hr & _ & Hc).
  exists n'. split; [exact Hr|exact Hc].
Defined.

Lemma lock4_owner_is_of_context_witness :
  requests file_server (nfs4_lockf_async user (lock_taken mounted4 5 opened4 (mkStateid 7 [])) 6 NFS4_F_LOCK 0) =
    [COMPOUND [OP_PUTFH [2]; OP_LOCK WRITEW_LT 0 0 0 (Lock_owner zero_stateid 0)]].
Proof.
  exact (proj2 (proj2 (lock4_owner_is_of_context file_server mounted4 eq_refl 5%N opened4 0 (mkStateid 7 []) (RES_OTHER 22 NFS4_OK) 6%N opened4 0
    eq_refl eq_refl ltac:(discriminate) eq_refl eq_refl))).
Defined.

(** ** Attributes *)

Lemma wire_of_ok : wire_ok (wire_of NF3REG).
Proof. split; vm_compute; repeat split; discriminate. Qed.

Lemma root_named : id_of (sys_getpwnam os) true [48] 0.
Proof. apply (id_number _ _ 0). unfold INT_MAX. lia. Qed.

Lemma nobody_named : id_of (sys_getpwnam os) false [110; 111; 98; 111; 100; 121] 65534.
Proof. eapply id_nobody; [reflexivity|reflexivity| |reflexivity]. by apply no_nul_dec. Qed.

Lemma attributes_roundtrip_witness :
  nfs_parse_attributes (sys_getpwnam os) (wire_bytes (wire_of NF3REG) ++ [1; 2]) = Parsed (wire_stat (wire_of NF3REG) 0 65534).
Proof.
  exact (attributes_roundtrip (sys_getpwnam os) (wire_of NF3REG) 0 65534 wire_of_ok root_named nobody_named [1; 2] ltac:(vm_compute; discriminate)).
Defined.

(** Seven bytes are missing, as many as the names have. *)
Lemma cut_attributes_overrun_witness :
  nfs_parse_attributes (sys_getpwnam os) (take (length (wire_bytes (wire_of NF3REG)) - 7) (wire_bytes (wire_of NF3REG))) = Overrun.
Proof.
  exact (cut_attributes_overrun (sys_getpwnam os) (wire_of NF3REG) 0 65534 wire_of_ok root_named nobody_named 7 ltac:(lia)
    ltac:(vm_compute; discriminate) ltac:(vm_compute; discriminate)).
Defined.
