(* ===== verification/ApiProps.v ===== *)
(** * ApiProps: what a read-only context keeps to

    A read-only context changes nothing on the server, except that it still
    makes symbolic links. *)

From S2P Require Import Prelude Path Nfs4Data Settings Nfs3 Lookup LookupProps Nfs3Ops Nfs3File Nfs3IO Nfs3IOProps Nfs3Dir Mount Nfs4Attr Nfs4 Nfs4Ops Nfs4File Nfs4Lock Nfs4Dir Api Quiet Quiet4.

(** ** The calls of the library *)

Inductive api_call :=
| Mount (server export : bytes) | Umount
| Stat (path : bytes) | Stat64 (path : bytes) | Lstat64 (path : bytes) | Fstat (h : N) | Fstat64 (h : N)
| Statvfs (path : bytes) | Statvfs64 (path : bytes) | Readlink (path : bytes)
| Access (path : bytes) (mode : Z) | Access2 (path : bytes) | Chdir (path : bytes) | Opendir (path : bytes)
| Open (path : bytes) (flags : Z) | Open2 (path : bytes) (flags mode : Z) | Creat (path : bytes) (mode : Z)
| Pread (h : N) (buf count offset : Z) | Read (h : N) (buf count : Z)
| Preadv (h : N) (iov : list (Z * Z)) (offset : Z) | Readv (h : N) (iov : list (Z * Z))
| Pwrite (h : N) (buf : bytes) (count offset : Z) | Write (h : N) (buf : bytes) (count : Z)
| Close (h : N) | Fsync (h : N) | Lseek (h : N) (offset whence : Z)
| Lockf (h : N) (cmd count : Z) | Fcntl (h : N) (cmd : Z) (fl : flock)
| Truncate (path : bytes) (length : Z) | Ftruncate (h : N) (length : Z)
| Chmod (path : bytes) (mode : Z) | Lchmod (path : bytes) (mode : Z) | Fchmod (h : N) (mode : Z)
| Chown (path : bytes) (uid gid : Z) | Lchown (path : bytes) (uid gid : Z) | Fchown (h : N) (uid gid : Z)
| Utimes (path : bytes) (times : option ((Z * Z) * (Z * Z))) | Lutimes (path : bytes) (times : option ((Z * Z) * (Z * Z)))
| Utime (path : bytes) (times : option (Z * Z))
| Mkdir (path : bytes) | Mkdir2 (path : bytes) (mode : Z) | Rmdir (path : bytes) | Unlink (path : bytes)
| Mknod (path : bytes) (mode dev : Z) | Rename (oldpath newpath : bytes) | Link (oldpath newpath : bytes).

Section invoke.
Context (os : system) (links pages : nat).

Definition invoke (o : api_call) (n : nfs) : call :=
  match o with
  | Mount server export => nfs_mount_async os links user n server export
  | Umount => nfs_umount_async user n
  | Stat path => nfs_stat_async user n path
  | Stat64 path => nfs_stat64_async os links user n path
  | Lstat64 path => nfs_lstat64_async os links user n path
  | Fstat h => nfs_fstat_async user n h
  | Fstat64 h => nfs_fstat64_async os user n h
  | Statvfs path => nfs_statvfs_async user n path
  | Statvfs64 path => nfs_statvfs64_async user n path
  | Readlink path => nfs_readlink_async os links user n path
  | Access path mode => nfs_access_async os links user n path mode
  | Access2 path => nfs_access2_async os links user n path
  | Chdir path => nfs_chdir_async os links user n path
  | Opendir path => nfs_opendir_async os links pages user n path
  | Open path flags => nfs_open_async os links user n path flags
  | Open2 path flags mode => nfs_open2_async os links user n path flags mode
  | Creat path mode => nfs_creat_async os links user n path mode
  | Pread h buf count offset => nfs_pread_async user n h buf count offset
  | Read h buf count => nfs_read_async user n h buf count
  | Preadv h iov offset => nfs_preadv_async user n h iov offset
  | Readv h iov => nfs_readv_async user n h iov
  | Pwrite h buf count offset => nfs_pwrite_async user n h buf count offset
  | Write h buf count => nfs_write_async os user n h buf count
  | Close h => nfs_close_async user n h
  | Fsync h => nfs_fsync_async user n h
  | Lseek h offset whence => nfs_lseek_async os user n h offset whence
  | Lockf h cmd count => nfs_lockf_async user n h cmd count
  | Fcntl h cmd fl => nfs_fcntl_async os user n h cmd fl
  | Truncate path length => nfs_truncate_async os links user n path length
  | Ftruncate h length => nfs_ftruncate_async user n h length
  | Chmod path mode => nfs_chmod_async os links user n path mode
  | Lchmod path mode => nfs_lchmod_async os links user n path mode
  | Fchmod h mode => nfs_fchmod_async user n h mode
  | Chown path uid gid => nfs_chown_async os links user n path uid gid
  | Lchown path uid gid => nfs_lchown_async os links user n path uid gid
  | Fchown h uid gid => nfs_fchown_async user n h uid gid
  | Utimes path times => nfs_utimes_async os links user n path times
  | Lutimes path times => nfs_lutimes_async os links user n path times
  | Utime path times => nfs_utime_async os links user n path times
  | Mkdir path => nfs_mkdir_async os links user n path
  | Mkdir2 path mode => nfs_mkdir2_async os links user n path mode
  | Rmdir path => nfs_rmdir_async os links user n path
  | Unlink path => nfs_unlink_async os links user n path
  | Mknod path mode dev => nfs_mknod_async os links user n path mode dev
  | Rename oldpath newpath => nfs_rename_async os links user n oldpath newpath
  | Link oldpath newpath => nfs_link_async os links user n oldpath newpath
  end.

(** The calls a read-only context refuses. *)
Definition refused (o : api_call) : bool :=
  match o with
  | Open _ flags | Open2 _ flags _ => flag flags O_CHANGES
  | Creat _ _ | Truncate _ _ | Chmod _ _ | Lchmod _ _ | Fchmod _ _ | Chown _ _ _ | Lchown _ _ _ | Fchown _ _ _
  | Utimes _ _ | Lutimes _ _ | Utime _ _ | Mkdir _ | Mkdir2 _ _ | Rmdir _ | Unlink _ | Mknod _ _ _ | Rename _ _ | Link _ _ => true
  | _ => false
  end.

(** Opening with O_EXCL, which NFSv4 does not want O_CREAT for. *)
Definition exclusive (o : api_call) : bool :=
  match o with Open _ flags | Open2 _ flags _ => flag flags O_EXCL | _ => false end.

Lemma refused_erofs n o : readonly n = true -> refused o = true -> invoke o n = Call [(- EROFS, NoData)] n 0 [].
Proof.
  intros Hr Ho. destruct o; try discriminate Ho; cbn [invoke];
    try (unfold nfs_creat_async, nfs_truncate_async, nfs_chmod_async, nfs_lchmod_async, nfs_fchmod_async, nfs_chown_async,
      nfs_lchown_async, nfs_fchown_async, nfs_utimes_async, nfs_lutimes_async, nfs_utime_async, nfs_mkdir_async, nfs_mkdir2_async,
      nfs_rmdir_async, nfs_unlink_async, nfs_mknod_async, nfs_rename_async, nfs_link_async, unless_readonly; by rewrite Hr).
  all: unfold nfs_open_async, nfs_open2_async; rewrite Hr; cbn [andb]; cbn [refused] in Ho; unfold O_CHANGES in Ho; by rewrite Ho.
Qed.

Lemma quiet_by_version n v3 v4 : quiet v3 -> quiet v4 -> quiet (by_version n v3 v4).
Proof. intros H3 H4. unfold by_version. by repeat case_match. Qed.
Lemma quiet_only_v3 n v3 : quiet v3 -> quiet (only_v3 n v3).
Proof. intros H3. unfold only_v3. by case_match. Qed.
Lemma quiet_only_v4 n v4 : quiet v4 -> quiet (only_v4 n v4).
Proof. intros H4. unfold only_v4. by case_match. Qed.

Lemma quiet_pread_version cb : (forall n e d, quiet (cb n e d)) -> forall n h buf count offset update_pos,
  quiet (__nfs_pread_async cb n h buf count offset update_pos).
Proof. intros H n h buf count offset update_pos. apply quiet_by_version; [by apply quiet_read|by apply quiet_pread_4]. Qed.

Lemma quiet_open_version n path flags mode : flag flags O_CHANGES = false -> (flag flags O_EXCL = true -> version n <> NFS_V4) ->
  quiet (by_version n (nfs3_open_async user n path flags mode) (nfs4_open_async os user links n path flags mode)).
Proof.
  intros H Hx. unfold by_version. destruct (_ =? NFS_V3); [by apply quiet_open|].
  destruct (Z.eqb_spec (version n) NFS_V4); [|done]. apply quiet_open_4; [done|]. apply not_true_is_false. tauto.
Qed.

(** The files a context has opened without writing. *)
Definition files_readonly (n : nfs) : Prop := map_Forall (fun _ f => h_readonly f = true) (n_files n).

Lemma quiet_readonly_file n h k : files_readonly n -> quiet (unless_read_file n h k).
Proof.
  intros H. unfold unless_read_file, with_fh. destruct (n_files n !! h) as [f|] eqn:E; [|done]. specialize (H _ _ E).
  cbn beta in H. by rewrite H.
Qed.

#[local] Hint Resolve quiet_by_version quiet_only_v3 quiet_only_v4 quiet_mount quiet_umount quiet_stat quiet_stat64 quiet_readlink
  quiet_chdir quiet_opendir quiet_close quiet_fsync quiet_lseek quiet_preadv quiet_readonly_file quiet_open_version
  quiet_stat64_4 quiet_fstat64_4 quiet_statvfs_only_4 quiet_statvfs64_4 quiet_readlink_4 quiet_access_4 quiet_access2_4 quiet_chdir_4 quiet_opendir_4
  quiet_preadv_4 quiet_close_4 quiet_fsync_4 quiet_lseek_4 quiet_lockf quiet_fcntl quiet_mount_4 : quiet.

End invoke.

(** Contexts of version 3 and of version 4, read-only, with one open file. *)
Definition readonly_context (v : Z) : nfs :=
  mkNfs (set_c_version v (set_c_readonly 1 (init_settings 0 0))) [slash] [slash] [0] [] []
    {[ 5%N := mkFh [7] false false true false 0 ]} 6 ∅ no_nfs4 [].
Definition no_system : system := mkSystem (fun _ => None) 1 0.

Lemma readonly_files v : files_readonly (readonly_context v).
Proof. apply map_Forall_singleton. reflexivity. Qed.


(** Whatever the server, the requests of a quiet call change nothing. *)
Fixpoint quiet_requests srv (c : call) {struct c} : quiet c -> existsb changes (requests srv c) = false.
Proof.
  destruct c as [out n r [|[q k] next]|]; intros H; [done| |done].
  destruct H as [[Hq Hk] _]. cbn [requests existsb]. rewrite Hq. apply quiet_requests, Hk.
Qed.

(** A server that opens every file, with the handle 9. *)
Definition opens (q : request) : reply (resok q) :=
  match q return reply (resok q) with
  | COMPOUND _ => Result NFS4_OK [RES_ACCESS 0 1 1; RES_OPEN 0 (mkStateid 1 []) 0; RES_GETFH 0 [9]]
  | _ => RpcError
  end.

(** The two exceptions: a symbolic link is made, and an open of a file that is
    there with O_EXCL, but without O_CREAT, sets its mode. *)
Lemma readonly_exceptions :
  ~ quiet (nfs_symlink_async no_system 1 user (readonly_context NFS_V4) [97] [47; 98]) /\
  ~ quiet (invoke no_system 1 1 (Open2 [47; 97] O_EXCL 0) (readonly_context NFS_V4)).
Proof.
  split; intros H%(quiet_requests (mkServer opens (fun _ => O))); revert H; apply not_false_iff_true; vm_compute; reflexivity.
Qed.
