(* ===== verification/SyncProps.v ===== *)
(** * SyncProps: what a call that waits returns

    It returns what the asynchronous call reports ([sync_calls_report]), in the
    end ([sync_calls_end]), unless the service fails in the turn that brought the
    report ([failure_hides_report]); and what goes wrong with links and mounts.
    All of it follows from what one reply does to a waiting call ([serve_next]). *)

From S2P Require Import Prelude Path Settings Url Nfs4Data Nfs3 Lookup LookupProps Nfs3Ops Nfs3File Nfs3IO Nfs3Dir Mount Nfs4Attr Nfs4 Nfs4Ops Nfs4File Nfs4Lock Nfs4Dir Nfs3Props Api Nfs4FileProps ApiProps Sync.

(** ** One reply *)

(** How many replies of a server a call takes. *)
Fixpoint steps (srv : server) (c : call) : nat :=
  match c with
  | Undef => O
  | Call _ n _ next =>
      let choose :=
        fix choose (l : list pending) (i : nat) :=
          match l with
          | [] => O
          | Pend q k :: l => match l, i with [], _ | _, O => S (steps srv (k n (srv q))) | _, S i => choose l i end
          end in
      choose next (pick srv (request_of <$> next))
  end.

Lemma run_landed srv out n r next :
  run srv (Call out n r next) = match run srv (Call [] n 0 next) with Some (o, n') => Some (out ++ o, n') | None => None end.
Proof.
  cbn [run]. destruct next as [|p next]; [by rewrite app_nil_r|].
  match goal with |- match ?f with Some _ => _ | None => _ end = _ => by destruct f as [[o m]|] end.
Qed.

Section serving.
Context (cb : sync_cb).

(** A request in flight is answered. *)
Lemma picked n flight srv : flight <> [] ->
  exists q k, flight !! Nat.min (pick srv (request_of <$> flight)) (length flight - 1)%nat = Some (Pend q k) /\
    forall out r,
      run srv (Call out n r flight) = match run srv (k n (srv q)) with Some (out', n') => Some (out ++ out', n') | None => None end /\
      steps srv (Call out n r flight) = S (steps srv (k n (srv q))).
Proof.
  intros Hne. destruct flight as [|p flight]; [done|]. cbn [run steps].
  generalize (pick srv (request_of <$> p :: flight)) as i. clear Hne. revert p.
  induction flight as [|p' flight IH]; intros [q k] i.
  - exists q, k. cbn [length]. rewrite Nat.sub_diag, Nat.min_0_r. split; [done|]. intros out _. by destruct i.
  - destruct i as [|i].
    + exists q, k. split; [done|]. by intros out _.
    + destruct (IH p' i) as (q' & k' & E & R). exists q', k'. split.
      * replace (S i `min` (length (Pend q k :: p' :: flight) - 1))%nat with (S (i `min` (length (p' :: flight) - 1)))%nat
          by (cbn [length]; lia). exact E.
      * intros out r. exact (R out r).
Qed.

Lemma serve_next n flight d srv : flight <> [] ->
  exists q k, Pend q k ∈ flight /\ serve cb (mkWaiting n flight d) srv = landed cb (k n (srv q)) d /\
    forall out r,
      run srv (Call out n r flight) = match run srv (k n (srv q)) with Some (out', n') => Some (out ++ out', n') | None => None end /\
      steps srv (Call out n r flight) = S (steps srv (k n (srv q))).
Proof.
  intros Hne. destruct (picked n flight srv Hne) as (q & k & E & R). exists q, k.
  split; [by eapply list_elem_of_lookup_2|]. split; [|done]. unfold serve. cbn [y_flight y_nfs y_data]. by rewrite E.
Qed.

Lemma serve_all_idle n d l : serve_all cb l (mkWaiting n [] d) = Some (mkWaiting n [] d).
Proof. induction l as [|srv l IH]; [done|]. exact IH. Qed.

Lemma called_back_app o1 o2 d : called_back cb (o1 ++ o2) d = d ← called_back cb o1 d; called_back cb o2 d.
Proof.
  revert d. induction o1 as [|[e p] o1 IH]; intros d; [done|]. cbn [called_back app]. destruct (cb e p d); [apply IH|done].
Qed.
End serving.

(** ** A server that answers everything *)

Section answered.
Context (cb : sync_cb) (srv : server).

(** What is still to come of a waiting call: the callbacks, the context in the
    end, and the replies it takes. *)
Record leads_to (s : waiting) (out : list (Z * payload)) (n' : nfs) (k : nat) (d' : sync_cb_data) : Prop := {
  to_run : run srv (Call [] (y_nfs s) 0 (y_flight s)) = Some (out, n');
  to_steps : steps srv (Call [] (y_nfs s) 0 (y_flight s)) = k;
  to_data : called_back cb out (y_data s) = Some d';
}.

Lemma serve_leads s out n' k d' : leads_to s out n' k d' ->
  exists s' out1 out2, serve cb s srv = Some s' /\ out = out1 ++ out2 /\ leads_to s' out2 n' (k - 1) d' /\
    called_back cb out1 (y_data s) = Some (y_data s').
Proof.
  destruct s as [n flight d]. intros [Hr Hk Hd]. cbn [y_nfs y_flight y_data] in *.
  destruct (decide (flight = [])) as [->|Hne].
  { exists (mkWaiting n [] d), [], out. repeat split; try done. by subst k. }
  destruct (serve_next cb n flight d srv Hne) as (q & f & _ & E & R). destruct (R [] 0) as [R1 R2]. rewrite R1 in Hr.
  rewrite R2 in Hk. rewrite E. subst k. clear E R R1 R2. destruct (f n (srv q)) as [out1 n1 r1 next|]; [|done]. cbn [landed].
  rewrite run_landed in Hr. destruct (run srv (Call [] n1 0 next)) as [[out2 m]|] eqn:Hr2; simplify_eq. cbn [app] in Hd |- *.
  rewrite called_back_app in Hd. destruct (called_back cb out1 d) as [d1|] eqn:E1; [|done]. cbn [mbind option_bind] in *.
  exists (mkWaiting n1 next d1), out1, out2. repeat split; try done. cbn [y_nfs y_flight steps]. lia.
Qed.

Lemma serve_all_leads l : forall s out n' k d', Forall (eq srv) l -> leads_to s out n' k d' ->
  exists s' out1 out2, serve_all cb l s = Some s' /\ out = out1 ++ out2 /\ leads_to s' out2 n' (k - length l) d' /\
    called_back cb out1 (y_data s) = Some (y_data s').
Proof.
  induction l as [|x l IH]; intros s out n' k d' Hl Hr; [exists s, [], out; by rewrite Nat.sub_0_r|].
  apply Forall_cons in Hl as [<- Hl]. cbn [serve_all].
  destruct (serve_leads _ _ _ _ _ Hr) as (s1 & o1 & o2 & -> & -> & Hr1 & Hd1). cbn [mbind option_bind].
  destruct (IH s1 o2 n' _ d' Hl Hr1) as (s2 & o3 & o4 & -> & -> & Hr2 & Hd2).
  exists s2, (o1 ++ o3), o4. split; [done|]. rewrite app_assoc, called_back_app, Hd1.
  replace (k - length (srv :: l))%nat with (k - 1 - length l)%nat by (cbn [length]; lia).
  split_and!; [done|exact Hr2|exact Hd2].
Qed.

(** Without replies to come nothing is in flight. *)
Lemma leads_nowhere s out n' d' : leads_to s out n' 0 d' -> y_flight s = [] /\ y_nfs s = n' /\ y_data s = d'.
Proof.
  destruct s as [n flight d]. intros [Hr Hk Hd]. cbn [y_nfs y_flight y_data] in *. destruct (decide (flight = [])) as [->|Hne].
  - cbn in Hr. simplify_eq. cbn in Hd. by simplify_eq.
  - destruct (serve_next cb n flight d srv Hne) as (q & f & _ & _ & R). destruct (R [] 0) as [_ R2]. by rewrite R2 in Hk.
Qed.

(** Turns in which the server answers, as many requests as may be. *)
Definition answering (turns : list turn) : Prop :=
  Forall (fun t => served t <> [] /\ Forall (eq srv) (served t) /\ failure t = None) turns.

(** The loop ends with the callback. *)
Lemma wait_answered n' d' : is_finished d' = true -> forall turns s out k, answering turns -> leads_to s out n' k d' ->
  (out = [] \/ exists x, out = [x] /\ is_finished (y_data s) = false) -> (k <= length turns)%nat ->
  exists s' k' rest, wait_for_nfs_reply cb turns s = Some (inr (s', rest)) /\ y_data s' = d' /\ leads_to s' [] n' k' d'.
Proof.
  intros Hf turns. induction turns as [|t turns IH]; intros s out k Ht Hl Ho Hk.
  - destruct Ho as [->|(x & -> & Hx)].
    + pose proof (to_data _ _ _ _ _ Hl) as Hd. cbn in Hd. simplify_eq. cbn [wait_for_nfs_reply]. rewrite Hf. by exists s, k, [].
    + cbn in Hk. assert (k = O) as -> by lia. apply leads_nowhere in Hl as (_ & _ & E). congruence.
  - destruct Ho as [->|(x & -> & Hx)].
    + pose proof (to_data _ _ _ _ _ Hl) as Hd. cbn in Hd. simplify_eq. cbn [wait_for_nfs_reply]. rewrite Hf. by exists s, k, (t :: turns).
    + apply Forall_cons in Ht as [(Hn & Hs & Hfail) Ht]. cbn [wait_for_nfs_reply]. rewrite Hx.
      destruct (serve_all_leads (served t) _ _ _ _ _ Hs Hl) as (s1 & o1 & o2 & -> & Eo & Hl1 & Hd1). cbn [mbind option_bind].
      rewrite Hfail. apply (IH s1 o2 _ Ht Hl1); [|destruct (served t); [done|cbn [length] in *; lia]].
      destruct o1 as [|x1 o1]; [right|left; by destruct o1, o2].
      exists x. split; [done|]. cbn in Hd1. congruence.
Qed.

(** In one turn everything is answered. *)
Lemma serve_enough s out n' k d' l : leads_to s out n' k d' -> Forall (eq srv) l -> (k <= length l)%nat ->
  serve_all cb l s = Some (mkWaiting n' [] d').
Proof.
  intros Hl Hs Hk. destruct (serve_all_leads l _ _ _ _ _ Hs Hl) as (s' & o1 & o2 & -> & _ & Hl' & _).
  replace (k - length l)%nat with O in Hl' by lia. apply leads_nowhere in Hl' as (E1 & E2 & E3). destruct s' as [a b c].
  cbn in *. by subst.
Qed.

(** A call whose callback is given [x]. *)
Lemma landed_leads c x n' d' : run srv c = Some ([x], n') -> cb x.1 x.2 nfs_init_cb_data = Some d' ->
  exists s k out, landed cb c nfs_init_cb_data = Some s /\ leads_to s out n' k d' /\
    (out = [] \/ exists x, out = [x] /\ is_finished (y_data s) = false).
Proof.
  intros Hr Hd. destruct c as [out n r next|]; [|done]. cbn [landed].
  rewrite run_landed in Hr. destruct (run srv (Call [] n 0 next)) as [[o m]|] eqn:Hr2; [|done]. injection Hr as E <-.
  destruct x as [e p]. cbn [fst snd] in Hd. symmetry in E. destruct out as [|x1 out]; cbn [app] in E.
  - exists (mkWaiting n next nfs_init_cb_data), (steps srv (Call [] n 0 next)), [(e, p)]. split; [done|]. subst o.
    split; [|right; by exists (e, p)]. split; [done|done|]. cbn [called_back y_data]. by rewrite Hd.
  - destruct out, o; try discriminate E. injection E as <-. cbn [called_back]. rewrite Hd. cbn [mbind option_bind].
    exists (mkWaiting n next d'), (steps srv (Call [] n 0 next)), []. split; [done|]. split; [by split|by left].
Qed.

(** Nothing good comes of a callback that cannot do its work, or of a reply
    that leads to undefined behaviour. *)
Definition goes_wrong (n : nfs) (flight : list pending) (d : sync_cb_data) : Prop :=
  match run srv (Call [] n 0 flight) with Some (out, _) => called_back cb out d = None | None => True end.

Lemma serve_wrong l : forall n flight d, goes_wrong n flight d -> Forall (eq srv) l ->
  (steps srv (Call [] n 0 flight) <= length l)%nat -> serve_all cb l (mkWaiting n flight d) = None.
Proof.
  induction l as [|x l IH]; intros n flight d Hw Hs Hk.
  - destruct (decide (flight = [])) as [->|Hne]; [done|].
    destruct (serve_next cb n flight d srv Hne) as (q & k & _ & _ & R). destruct (R [] 0) as [_ R2]. rewrite R2 in Hk. cbn in Hk. lia.
  - apply Forall_cons in Hs as [<- Hs]. destruct (decide (flight = [])) as [->|Hne]; [done|].
    destruct (serve_next cb n flight d srv Hne) as (q & k & _ & E & R). destruct (R [] 0) as [R1 R2]. rewrite R2 in Hk.
    unfold goes_wrong in Hw. rewrite R1 in Hw. cbn [serve_all]. rewrite E. clear E R R1 R2.
    destruct (k n (srv q)) as [out n1 r1 next|]; [|done]. cbn [landed]. rewrite run_landed in Hw.
    destruct (called_back cb out d) as [d1|] eqn:Ed; [|done]. cbn [mbind option_bind]. apply IH; [|done|cbn [steps length] in *; lia].
    unfold goes_wrong. destruct (run srv (Call [] n1 0 next)) as [[o m]|]; [|done]. cbn [app] in Hw.
    by rewrite called_back_app, Ed in Hw.
Qed.
End answered.

(** ** The calls *)

Section calls.
Context (os : system) (links pages : nat).

(** Those that wait for one asynchronous call: its callback.  A READLINK has
    a buffer of [bufsize], an lseek a place for the position if it is
    [wanted]. *)
Definition callback_of (bufsize : Z) (wanted : bool) (o : api_call) : option sync_cb :=
  match o with
  | Mount _ _ | Umount | Open _ _ => None
  | ApiProps.Stat _ | Fstat _ => Some stat_cb
  | Stat64 _ | Lstat64 _ | Fstat64 _ => Some stat64_cb
  | ApiProps.Statvfs _ => Some statvfs_cb
  | Statvfs64 _ => Some statvfs64_cb
  | Readlink _ => Some (readlink_cb bufsize)
  | Opendir _ => Some opendir_cb
  | Open2 _ _ _ => Some open_cb
  | Creat _ _ => Some creat_cb
  | Lseek _ _ _ => Some (lseek_cb wanted)
  | _ => Some status_cb
  end.

Definition synchronous (bufsize : Z) (wanted : bool) (o : api_call) (turns : list turn) (n : nfs) : option synced :=
  match o with
  | Mount server export => nfs_mount os links turns n server export
  | Umount => nfs_umount turns n
  | ApiProps.Stat path => nfs_stat turns n path
  | Stat64 path => nfs_stat64 os links turns n path
  | Lstat64 path => nfs_lstat64 os links turns n path
  | Fstat h => nfs_fstat turns n h
  | Fstat64 h => nfs_fstat64 os turns n h
  | ApiProps.Statvfs path => nfs_statvfs turns n path
  | Statvfs64 path => nfs_statvfs64 turns n path
  | Readlink path => nfs_readlink os links turns n path bufsize
  | Access path mode => nfs_access os links turns n path mode
  | Access2 path => nfs_access2 os links turns n path
  | Chdir path => nfs_chdir os links turns n path
  | Opendir path => nfs_opendir os links pages turns n path
  | Open path flags => nfs_open os links turns n path flags
  | Open2 path flags mode => nfs_open2 os links turns n path flags mode
  | Creat path mode => nfs_creat os links turns n path mode
  | Pread h buf count offset => nfs_pread turns n h buf count offset
  | Read h buf count => nfs_read turns n h buf count
  | Preadv h iov offset => nfs_preadv turns n h iov offset
  | Readv h iov => nfs_readv turns n h iov
  | Pwrite h buf count offset => nfs_pwrite turns n h buf count offset
  | Write h buf count => nfs_write os turns n h buf count
  | Close h => nfs_close turns n h
  | Fsync h => nfs_fsync turns n h
  | Lseek h offset whence => nfs_lseek os turns n h offset whence wanted
  | Lockf h cmd count => nfs_lockf turns n h cmd count
  | Fcntl h cmd fl => nfs_fcntl os turns n h cmd fl
  | Truncate path length => nfs_truncate os links turns n path length
  | Ftruncate h length => nfs_ftruncate turns n h length
  | Chmod path mode => nfs_chmod os links turns n path mode
  | Lchmod path mode => nfs_lchmod os links turns n path mode
  | Fchmod h mode => nfs_fchmod turns n h mode
  | Chown path uid gid => nfs_chown os links turns n path uid gid
  | Lchown path uid gid => nfs_lchown os links turns n path uid gid
  | Fchown h uid gid => nfs_fchown turns n h uid gid
  | Utimes path times => nfs_utimes os links turns n path times
  | Lutimes path times => nfs_lutimes os links turns n path times
  | Utime path times => nfs_utime os links turns n path times
  | Mkdir path => nfs_mkdir os links turns n path
  | Mkdir2 path mode => nfs_mkdir2 os links turns n path mode
  | Rmdir path => nfs_rmdir os links turns n path
  | Unlink path => nfs_unlink os links turns n path
  | Mknod path mode dev => nfs_mknod os links turns n path mode dev
  | Rename oldpath newpath => nfs_rename os links turns n oldpath newpath
  | Link oldpath newpath => nfs_link os links turns n oldpath newpath
  end.

Lemma synchronous_is bufsize wanted o turns n cb : callback_of bufsize wanted o = Some cb ->
  synchronous bufsize wanted o turns n = nfs_sync cb (invoke os links pages o n) turns.
Proof. intros H. destruct o; cbn [callback_of] in H; try discriminate H; by injection H as <-. Qed.

Section report.
Context (srv : server) (n : nfs).

Lemma sync_answered cb c e p n' data : ret_of c = Some 0 -> run srv c = Some ([(e, p)], n') ->
  cb e p nfs_init_cb_data = Some (mkSync true (Some e) data) ->
  exists k, forall turns, answering srv turns -> (k <= length turns)%nat ->
    exists n1 stale rest, nfs_sync cb c turns = Some (Returns e n1 data stale rest) /\ (stale = [] -> n1 = n').
Proof.
  intros H0 Hr Hd. destruct (landed_leads cb srv c (e, p) n' _ Hr Hd) as (s & k & out & E & Hl & Ho). exists k. intros turns Ht Hk.
  destruct (wait_answered cb srv n' (mkSync true (Some e) data) eq_refl turns s out k Ht Hl Ho Hk) as (s' & k' & rest & W & D & Hl').
  unfold nfs_sync. rewrite E, H0. cbn [mbind option_bind]. rewrite W. cbn [mbind option_bind]. rewrite D. cbn [y_status mbind option_bind].
  exists (y_nfs s'), (y_flight s'), rest. split; [done|]. intros Es. pose proof (to_run _ _ _ _ _ _ _ Hl') as R. rewrite Es in R.
  cbn in R. congruence.
Qed.

(** A call that does not end at once. *)
Definition waits (c : call) : Prop := exists n0 next, c = Call [] n0 0 next.

Lemma waits_eq c : match c with Call [] _ 0 _ => true | _ => false end = true -> waits c.
Proof. destruct c as [[|x out] n0 [|r|r] next|]; try discriminate. intros _. by eexists _, _. Qed.

(** All replies in one turn. *)
Lemma sync_one_turn cb c e p n' data : waits c -> run srv c = Some ([(e, p)], n') ->
  cb e p nfs_init_cb_data = Some (mkSync true (Some e) data) ->
  exists k, forall l order turns, Forall (eq srv) l -> (k <= length l)%nat ->
    nfs_sync cb c (mkTurn l None :: turns) = Some (Returns e n' data [] turns) /\
    nfs_sync cb c (mkTurn l (Some order) :: turns) = Some (Returns (- EIO) n' data [] turns).
Proof.
  intros (n0 & next & ->) Hr Hd. exists (steps srv (Call [] n0 0 next)). intros l order turns Hs Hk.
  assert (L : leads_to cb srv (mkWaiting n0 next nfs_init_cb_data) [(e, p)] n' (steps srv (Call [] n0 0 next)) (mkSync true (Some e) data)).
  { split; [done|done|]. cbn [called_back y_data]. by rewrite Hd. }
  assert (E := serve_enough cb srv _ _ _ _ _ l L Hs Hk). unfold nfs_sync.
  cbn [landed called_back mbind option_bind ret_of wait_for_nfs_reply is_finished y_data nfs_init_cb_data served failure].
  rewrite E. cbn [mbind option_bind]. split.
  - by destruct turns.
  - assert (G : forall o s, y_flight s = [] -> give_back cb (@RpcError) o s = Some s).
    { intros o. induction o as [|i o IH]; intros s Es; [done|]. cbn [give_back]. rewrite Es. by apply IH. }
    rewrite G by done. done.
Qed.


(** When the service fails in the turn that has brought the last reply, the call returns -EIO,
    whatever has been reported to its callback (libnfs-sync.c:289).  An open that has succeeded is
    then done again, and the file it had opened is not closed. *)
Theorem failure_hides_report bufsize wanted o cb e p n' data path flags h n2 : callback_of bufsize wanted o = Some cb ->
  waits (invoke os links pages o n) -> run srv (invoke os links pages o n) = Some ([(e, p)], n') ->
  cb e p nfs_init_cb_data = Some (mkSync true (Some e) data) ->
  waits (nfs_open_async os links user n path flags) -> run srv (nfs_open_async os links user n path flags) = Some ([(0, FileHandle h)], n2) ->
  exists k, forall l order turns, Forall (eq srv) l -> (k <= length l)%nat ->
    synchronous bufsize wanted o (mkTurn l (Some order) :: turns) n = Some (Returns (- EIO) n' data [] turns) /\
    nfs_open os links (mkTurn l (Some order) :: turns) n path flags = open_again os links 9 n2 path flags turns.
Proof.
  intros Hc Hw Hr Hd Hw2 Hr2. destruct (sync_one_turn cb _ e p n' data Hw Hr Hd) as [k H].
  destruct (sync_one_turn open_cb _ 0 (FileHandle h) n2 (Some (FileHandle h)) Hw2 Hr2 eq_refl) as [k2 H2].
  exists (k + k2)%nat. intros l order turns Hs Hk. rewrite (synchronous_is _ _ _ _ _ _ Hc). split.
  - apply H; [done|lia].
  - unfold nfs_open. cbn [open_again]. destruct (H2 l order turns Hs ltac:(lia)) as [_ ->]. done.
Qed.
End report.

(** ** The calls on names end *)

(** The operation of NFSv3 that a call which has no data is. *)
Definition name_op (o : api_call) : option operation :=
  match o with
  | Access path mode => Some (OpAccess path mode)
  | Access2 path => Some (OpAccess2 path)
  | Chdir path => Some (OpChdir path)
  | Chmod path mode => Some (OpChmod path false mode)
  | Lchmod path mode => Some (OpChmod path true mode)
  | Chown path uid gid => Some (OpChown path false uid gid)
  | Lchown path uid gid => Some (OpChown path true uid gid)
  | Utimes path times => Some (OpUtimes path false times)
  | Lutimes path times => Some (OpUtimes path true times)
  | Utime path times => Some (OpUtime path times)
  | Mkdir path => Some (OpMkdir path 493)
  | Mkdir2 path mode => Some (OpMkdir path mode)
  | Rmdir path => Some (OpRmdir path)
  | Unlink path => Some (OpUnlink path)
  | Mknod path mode dev => Some (OpMknod path mode (dev_major dev) (dev_minor dev))
  | Rename oldpath newpath => Some (OpRename oldpath newpath)
  | Link oldpath newpath => Some (OpLink oldpath newpath)
  | _ => None
  end.

Lemma by_version_3 n v3 v4 : version n = NFS_V3 -> by_version n v3 v4 = v3.
Proof. intros H. unfold by_version. by rewrite H. Qed.

Lemma invoke_once o p n : version n = NFS_V3 -> name_op o = Some p -> proper (fun _ => True) 81 (invoke os links pages o n).
Proof.
  intros Hv Ho. assert (U : forall c, proper (fun _ => True) 81 c -> proper (fun _ => True) 81 (unless_readonly user n c)).
  { intros c H. unfold unless_readonly. destruct (readonly n); [|done]. right. split; [done|]. by exists (- EROFS, NoData). }
  pose proof (perform_once p n) as H. destruct o; cbn [name_op] in Ho; try discriminate Ho; injection Ho as <-; cbn [invoke perform] in *;
    unfold nfs_access_async, nfs_access2_async, nfs_chdir_async, nfs_chmod_async, nfs_lchmod_async, nfs_chown_async, nfs_lchown_async,
      nfs_utimes_async, nfs_lutimes_async, nfs_utime_async, nfs_mkdir_async, nfs_mkdir2_async, nfs_rmdir_async, nfs_unlink_async,
      nfs_mknod_async, nfs_rename_async, nfs_link_async; rewrite by_version_3 by done; first [exact H|by apply U].
Qed.

(** The first turns of a stream. *)
Fixpoint first (j : nat) (f : nat -> turn) : list turn :=
  match j with O => [] | S j => f O :: first j (fun i => f (S i)) end.

(** In every turn something is answered, by whichever server. *)
Definition goes_on_for_ever (f : nat -> turn) : Prop := forall i, served (f i) <> [] /\ failure (f i) = None.

Lemma landed_status out n r next d : is_Some (landed status_cb (Call out n r next) d).
Proof. cbn [landed]. revert d. induction out as [|[e x] out IH]; intros d; [by eexists|]. apply IH. Qed.

Lemma wait_ends P c : forall k d s l f, obeys P k c -> goes_on_for_ever f -> is_finished d = false -> landed status_cb c d = Some s ->
  exists j n' x, P x /\
    (s ← serve_all status_cb l s; wait_for_nfs_reply status_cb (first j f) s) =
      Some (inr (mkWaiting n' [] (mkSync true (Some x.1) (return_data d)), [])).
Proof.
  induction c as [|out n ret next IH] using call_induction; intros k d s l f Ho Hf Hd Hs; [done|].
  destruct next as [|p next].
  { destruct Ho as (x & -> & Hx). destruct x as [e q]. cbn in Hs. simplify_eq. exists O, n, (e, q). split; [done|].
    rewrite serve_all_idle. done. }
  apply obeys_flight in Ho as [-> Ho]. cbn [landed called_back mbind option_bind] in Hs. simplify_eq.
  assert (G : forall srv l f, goes_on_for_ever f -> exists j n' x, P x /\
    (s ← serve_all status_cb (srv :: l) (mkWaiting n (p :: next) d); wait_for_nfs_reply status_cb (first j f) s) =
      Some (inr (mkWaiting n' [] (mkSync true (Some x.1) (return_data d)), []))).
  { clear l f Hf. intros srv l f Hf. cbn [serve_all].
    destruct (serve_next status_cb n (p :: next) d srv ltac:(done)) as (q & g & Hin & -> & _).
    rewrite Forall_forall in IH, Ho. specialize (IH _ Hin n (srv q)). destruct (Ho _ Hin) as [_ H].
    destruct (spend q k) as [k'|]; [|done]. specialize (H n (srv q)). destruct (landed status_cb (g n (srv q)) d) as [s|] eqn:E.
    - exact (IH k' d s l f H Hf Hd E).
    - destruct (g n (srv q)) as [o1 n1 r1 l1|]; [|by destruct H]. destruct (landed_status o1 n1 r1 l1 d). congruence. }
  destruct l as [|srv l]; [|by apply G]. destruct (Hf O) as [Hne Hfail]. destruct (served (f O)) as [|srv l] eqn:El; [done|].
  destruct (G srv l (fun i => f (S i)) ltac:(intros i; apply Hf)) as (j & n' & x & Hx & W).
  exists (S j), n', x. split; [done|]. cbn [serve_all mbind option_bind first wait_for_nfs_reply y_data]. rewrite Hd, El.
  destruct (serve_all status_cb (srv :: l) _) as [s'|]; [|done]. cbn [mbind option_bind] in W |- *. by rewrite Hfail.
Qed.


(** ** Calls that go wrong *)

Lemma sync_one_turn_wrong (srv : server) cb c : c = Undef \/ waits c ->
  match run srv c with Some (out, _) => called_back cb out nfs_init_cb_data = None | None => True end ->
  exists k, forall l failed turns, Forall (eq srv) l -> (k <= length l)%nat -> nfs_sync cb c (mkTurn l failed :: turns) = None.
Proof.
  intros [->|(n0 & next & ->)] Hw; [by exists O|]. exists (steps srv (Call [] n0 0 next)). intros l failed turns Hs Hk. unfold nfs_sync.
  cbn [landed called_back mbind option_bind ret_of wait_for_nfs_reply is_finished y_data nfs_init_cb_data served].
  rewrite (serve_wrong cb srv l n0 next nfs_init_cb_data Hw Hs Hk). done.
Qed.

(** C39: reading a link into a buffer of [bufsize] bytes: the target is stored if it is shorter; if
    it has just as many bytes the NUL behind it is stored after the end of the buffer; if it is longer
    nothing is stored, and the call returns 0 all the same (libnfs-sync.c:1603). *)
Theorem readlink_into_buffer (srv : server) n path b n' bufsize : waits (nfs_readlink_async os links user n path) ->
  run srv (nfs_readlink_async os links user n path) = Some ([(0, Text b)], n') -> 0 < bufsize <= INT_MAX ->
  exists k, forall l turns, Forall (eq srv) l -> (k <= length l)%nat ->
    nfs_readlink os links (mkTurn l None :: turns) n path bufsize =
      match Z.compare (blen b) bufsize with
      | Lt => Some (Returns 0 n' (Some (Text b)) [] turns)
      | Eq => None
      | Gt => Some (Returns 0 n' None [] turns)
      end.
Proof.
  intros Hw Hr Hb. assert (Eb : u64 bufsize = bufsize) by (apply u64_id; unfold is_u64, INT_MAX in *; lia).
  destruct (Z.compare_spec (blen b) bufsize) as [E|E|E].
  - destruct (sync_one_turn_wrong srv (readlink_cb bufsize) _ (or_intror Hw)) as [k H].
    { rewrite Hr. cbn [called_back readlink_cb]. unfold readlink_cb. cbn [Z.ltb Z.compare]. rewrite Eb.
      replace (blen b >? bufsize) with false by lia. by replace (blen b + 1 >? bufsize) with true by lia. }
    exists k. intros l turns. apply H.
  - destruct (sync_one_turn srv (readlink_cb bufsize) _ 0 (Text b) n' (Some (Text b)) Hw Hr) as [k H].
    { unfold readlink_cb. cbn [Z.ltb Z.compare]. rewrite Eb.
      replace (blen b >? bufsize) with false by lia. by replace (blen b + 1 >? bufsize) with false by lia. }
    exists k. intros l turns Hs Hk. by apply (H l [] turns).
  - destruct (sync_one_turn srv (readlink_cb bufsize) _ 0 (Text b) n' None Hw Hr) as [k H].
    { unfold readlink_cb. cbn [Z.ltb Z.compare]. rewrite Eb. by replace (blen b >? bufsize) with true by lia. }
    exists k. intros l turns Hs Hk. by apply (H l [] turns).
Qed.

(** C40: a mount of the default version that fails is tried again with NFSv4, which follows a NULL
    pointer if the server can be connected to: a server that only refuses the export crashes the
    client (libnfs-sync.c:361, nfs_v4.c:361). *)
Theorem failed_mount_crashes (srv : server) n host export path e p n' : version n = NFS_V3 -> c_default_version (n_conf n') <> 0 ->
  waits (nfs3_mount_async user n host export) -> run srv (nfs3_mount_async user n host export) = Some ([(e, p)], n') -> e <> 0 ->
  n_sends n' = [] -> nfs_normalize_path export = Some (path, 0) ->
  let port := if negb (c_nfsport (n_conf n') =? 0) then c_nfsport (n_conf n') else 2049 in
  (exists st v, srv (CONNECT port) = Result st v) -> (exists st v, srv (NULL NFS4_PROGRAM NFS_V4) = Result st v) ->
  exists k, forall l1 l2 turns, Forall (eq srv) l1 -> Forall (eq srv) l2 -> (k <= length l1)%nat -> (k <= length l2)%nat ->
    nfs_mount os links (mkTurn l1 None :: mkTurn l2 None :: turns) n host export = None.
Proof.
  intros Hv Hdef Hw Hr He Hq Hp port (st1 & v1 & E1) (st2 & v2 & E2).
  set (n4 := on_conf (set_c_version NFS_V4) (set_n_rootfh [] n')).
  pose proof (mount4_crashes srv os links n4 host export path Hq Hp) as Hc. cbv zeta in Hc.
  change (c_nfsport (n_conf n4)) with (c_nfsport (n_conf n')) in Hc. fold port in Hc. rewrite E1, E2 in Hc.
  assert (V3 : nfs_mount_async os links user n host export = nfs3_mount_async user n host export) by (by apply by_version_3).
  destruct (sync_one_turn srv mount_cb _ e p n' None Hw Hr eq_refl) as [k1 H1].
  assert (W4 : nfs4_mount_async os user links n4 host export = Undef \/ waits (nfs4_mount_async os user links n4 host export)).
  { unfold nfs4_mount_async. rewrite Hp. cbn [negb Z.eqb]. right. unfold rpc_connect_port_async, rpc_connect_port_internal, send.
    cbn [on_conf set_n_export set_n_conf n_sends]. change (n_sends (set_program _ _ _)) with (n_sends n'). rewrite Hq. by eexists _, _. }
  destruct (sync_one_turn_wrong srv mount_cb _ W4) as [k2 H2]; [by rewrite Hc|].
  exists (k1 + k2)%nat. intros l1 l2 turns Hs1 Hs2 Hk1 Hk2. unfold nfs_mount, _nfs_mount. rewrite V3.
  destruct (H1 l1 [] (mkTurn l2 None :: turns) Hs1 ltac:(lia)) as [-> _]. cbn [mbind option_bind].
  apply Z.eqb_neq in He, Hdef. rewrite He, Hdef. cbn [negb andb again].
  change (nfs_mount_async os links user n4 host export) with (nfs4_mount_async os user links n4 host export). apply H2; [done|lia].
Qed.
End calls.

(** ** Exports *)

(** The list of a server is returned backwards; there is none when it cannot be
    had. *)
Lemma getexports_reversed (srv : server) n e l n' : waits (mount_getexports_async user n) ->
  run srv (mount_getexports_async user n) = Some ([(e, if e =? 0 then Exports l else NoData)], n') ->
  exists k, forall rs stop turns, Forall (eq srv) rs -> (k <= length rs)%nat ->
    getexports ((mkTurn rs None, stop) :: turns) n = Some (inr (if e =? 0 then Some (reverse l) else None)).
Proof.
  intros (n0 & next & E) Hr. rewrite E in Hr. exists (steps srv (Call [] n0 0 next)). intros rs stop turns Hs Hk.
  assert (L : leads_to mount_getexports_cb srv (mkWaiting n0 next nfs_init_cb_data) [(e, if e =? 0 then Exports l else NoData)] n'
    (steps srv (Call [] n0 0 next)) (mkSync true (Some e) (if e =? 0 then Some (Exports (reverse l)) else None))).
  { split; [done|done|]. cbn [called_back y_data]. unfold mount_getexports_cb. by destruct (e =? 0). }
  pose proof (serve_enough mount_getexports_cb srv _ _ _ _ _ rs L Hs Hk) as Es. unfold getexports. rewrite E.
  cbn [landed called_back mbind option_bind ret_of wait_for_reply is_finished y_data nfs_init_cb_data served failure].
  rewrite Es. cbn [mbind option_bind]. change (bool_decide (is_Some (@None (list nat)))) with false. cbv iota.
  assert (W : wait_for_reply mount_getexports_cb turns
      (mkWaiting n' [] (mkSync true (Some e) (if e =? 0 then Some (Exports (reverse l)) else None))) =
    Some (inr (mkWaiting n' [] (mkSync true (Some e) (if e =? 0 then Some (Exports (reverse l)) else None))))) by (by destruct turns).
  rewrite W. by destruct stop, (e =? 0).
Qed.
