(* ===== verification/SyncExamples.v ===== *)
(** * SyncExamples: the theorems about waiting calls at work

    With the server and the context of Nfs3Examples, and with a server that
    refuses to mount its export. *)

From S2P Require Import Prelude Path Settings Url Nfs4Data Nfs3 Lookup LookupProps Nfs3Ops Nfs3File Nfs3IO Nfs3Dir Mount Nfs4Attr Nfs4 Nfs4Ops Nfs4File Nfs4Lock Nfs4Dir Nfs3Props Nfs3Examples Api ApiProps Sync SyncProps.

Definition os : system := mkSystem (fun _ => None) 1 0.

(** The context a call leaves. *)
Definition after_run (srv : server) (c : call) : nfs := match run srv c with Some (_, n) => n | None => mounted end.


Lemma failure_hides_report_witness :
  exists k, forall l order turns, Forall (eq files) l -> (k <= length l)%nat ->
    synchronous os 9 9 16 true (Unlink name_f) (mkTurn l (Some order) :: turns) mounted =
      Some (Returns (- EIO) (after_run files (nfs_unlink_async os 9 user mounted name_f)) None [] turns) /\
    nfs_open os 9 (mkTurn l (Some order) :: turns) mounted name_f 0 =
      open_again os 9 9 (after_run files (nfs_open_async os 9 user mounted name_f 0)) name_f 0 turns.
Proof.
  refine (failure_hides_report os 9 9 files mounted 16 true (Unlink name_f) status_cb 0 NoData
    (after_run files (nfs_unlink_async os 9 user mounted name_f)) None name_f 0 6%N
    (after_run files (nfs_open_async os 9 user mounted name_f 0)) eq_refl _ _ eq_refl _ _).
  - apply waits_eq. vm_compute. reflexivity.
  - vm_compute. reflexivity.
  - apply waits_eq. vm_compute. reflexivity.
  - vm_compute. reflexivity.
Defined.


Lemma readlink_into_buffer_witness :
  exists k, forall l turns, Forall (eq files) l -> (k <= length l)%nat ->
    nfs_readlink os 9 (mkTurn l None :: turns) mounted name_l 1 = None.
Proof.
  refine (readlink_into_buffer os 9 files mounted name_l name_f mounted 1 _ _ _).
  - apply waits_eq. vm_compute. reflexivity.
  - vm_compute. reflexivity.
  - vm_compute. split; [reflexivity|discriminate].
Defined.

(** A server that does not allow its export to be mounted. *)
Definition refusing : server :=
  mkServer (fun q => match q return reply (resok q) with
    | CONNECT _ => Result 0 tt
    | NULL _ _ => Result 0 tt
    | PMAP2_GETPORT _ _ _ => Result 0 635
    | MOUNT_MNT _ => Result 13 []
    | _ => RpcError
    end) (fun _ => O).
Definition fresh : nfs := mkNfs (init_settings 0 0) [] [] [] [] [] ∅ 0 ∅ no_nfs4 [].

Lemma failed_mount_crashes_witness :
  exists k, forall l1 l2 turns, Forall (eq refusing) l1 -> Forall (eq refusing) l2 -> (k <= length l1)%nat -> (k <= length l2)%nat ->
    nfs_mount os 9 (mkTurn l1 None :: mkTurn l2 None :: turns) fresh [104] [slash; 100] = None.
Proof.
  refine (failed_mount_crashes os 9 refusing fresh [104] [slash; 100] [slash; 100] (- EACCES) Message
    (after_run refusing (nfs3_mount_async user fresh [104] [slash; 100])) _ _ _ _ _ _ _ _ _).
  - reflexivity.
  - vm_compute. discriminate.
  - apply waits_eq. vm_compute. reflexivity.
  - vm_compute. reflexivity.
  - discriminate.
  - vm_compute. reflexivity.
  - vm_compute. reflexivity.
  - exists 0, tt. reflexivity.
  - exists 0, tt. reflexivity.
Defined.
